(* ===== verification/_CoqProject ===== *)
-Q . S2P
Xv6.v
Prelude.v
Ring.v
Dll.v
CString.v
Kernel.v
Sched.v
Sock.v
SockSpec.v
SockRefine.v
SockSafety.v
SockProps.v
Kalloc.v
Fifo.v
Paging.v
PagingSpec.v
AddrSpec.v
SetupSpec.v
CopySpec.v
Vmem.v
Umalloc.v
UmallocSpec.v
Grep.v
Sh.v
ShSpec.v
ShRun.v
Cake.v
CakeSpec.v
VmemSpec.v
Cons.v
Kbd.v
Printf.v
Sleeplock.v
LockSpec.v
SchedSpec.v
Bio.v
BioSpec.v
Log.v
LogSpec.v
Inode.v
BlockSpec.v
Console.v
ConsoleSpec.v
Fs.v
Utils.v
FileSpec.v
DirSpec.v
Slots.v
WriteSpec.v
Mkfs.v
MkfsSpec.v
MkfsRun.v
MkfsBoot.v
Ide.v
IdeSpec.v
IdeRun.v
Bootmain.v
Gates.v
Platform.v
PlatformSpec.v
Pipe.v
PipeSpec.v
File.v
WriteFile.v
OpSpec.v
FileOps.v
Link.v
Swap.v
Proc.v
ProcSpec.v
Exec.v
Syscall.v
SysSpec.v
Sysfile.v
Trap.v
