(* ===== verification/Xv6.v ===== *)
(** * A verification development for this repository's operating-system work

    The repository holds an xv6 kernel (xv6-Development/xv6) with two
    extensions of its authors, in-kernel sockets and demand paging to swap
    files, its user programs, and exercises on threads (IPC). This library
    models the kernel's C code routine by routine, the tool that builds its
    disk image, some user programs and one of the exercises, and proves what
    makes them correct.

    ** How the program is modelled

    - Data. An [int], [uint] or pointer is a [Z] with its wrap-around written
      out ([u32], [s32], [u8] below); structures are records, static tables
      are lists, a pointer into a static table is an index. The kernel's
      globals are the record [kernel] (Kernel.v), with physical memory as a
      function from addresses to bytes.
    - Routines. A routine is a function in the monad [M] of Prelude.v: it
      returns, calls [panic] ([Panic]), does what C leaves undefined
      ([Fault]), or leaves the CPU ([Switch]). A routine that sleeps is cut
      at [sleep]: it ends in [Switch pc], and the code after the sleep is the
      continuation named by [pc]. One CPU is modelled; what other processes
      do while a routine sleeps is what the state looks like when it is
      resumed.
    - Pointers. The kernel's own memory is [k_mem]; user addresses are
      translated through the page table (Vmem.v), and a page that is not in
      memory makes the routine leave with [LPageFault].
    - Program logic. [wp E m Q R k]: running [m] from [k] ends in [Q], or
      leaves the CPU in [R]; with [E = False] this is total correctness, no
      panic and no undefined behaviour.
    - Loops. Loops bounded by a count recurse on it. Others take fuel; their
      theorems give the fuel the callers pass and say the loop ends within
      it (string loops: the length of the string; [readi], [writei]: one
      round per block; [dirlookup]: one per entry; [balloc]: one per bitmap
      block; the shell's parser: four per character; [filewrite]: one per chunk;
    polling a device: the patience its class promises).

    ** The files

    Shared: Xv6 (this file: param.h, mmu.h, memlayout.h, signalcodes.h),
    Prelude (monad, logic, memory, table scans), Ring and Dll (circular
    buffers and linked rings), CString (string.c, ulib.c), Kernel (the
    structures and globals), Sched (spinlock.c, sleep, wakeup and the
    scheduler of proc.c), LockSpec (closed forms for critical sections),
    SchedSpec (the scheduler runs every process that stays runnable within
    one round of the table).

    Sockets (sock.c, syssock.c): Sock models every routine; SockSpec is the
    abstract specification, a pure function on the socket table per call;
    SockRefine proves that the code computes it on every branch, blocking
    ones included; SockSafety closes it under every interleaving of calls: the
    table stays well formed and a blocked call keeps its socket; SockProps
    draws the consequences (handshake, delivery of data, cleanup at exit) and
    shows where the protocol falls short: a call woken by its peer's call in
    the same direction does not test the buffer again.

    Memory (kalloc.c, vm.c): Kalloc, the free list as a stack and who owns
    which page; Fifo, the circular array of resident pages as a queue;
    Paging and PagingSpec, page tables as maps; SetupSpec, AddrSpec and
    CopySpec, whole address spaces: building one, freeing one, and the copy
    that [fork] makes, with the number of frames it takes; Vmem and VmemSpec, reading and writing through them;
    Swap, moving pages to the swap file.

    Devices (console.c, uart.c, kbd.c): Cons, Kbd, Console and ConsoleSpec,
    where the line discipline refines a line editor and the keyboard driver
    a table-free reference.

    Files (bio.c, memide.c, log.c, fs.c, file.c, sleeplock.c): Sleeplock, Bio
    and BioSpec (the buffer cache refines a map of block contents), Log and
    LogSpec (transactions are atomic under power failures at any block
    write), Inode and BlockSpec (block allocation; inodes survive on the
    disk), Fs, FileSpec (reading returns the file's bytes) and DirSpec
    (looking a name up), Slots and WriteSpec (the block addresses of a file
    and what writing does to them and to the free blocks), File and WriteFile
    (what is written is what is read, within the log space an operation
    reserves), OpSpec (the state between operations; [begin_op] and [end_op]
    leave it and come back) and FileOps ([filewrite] across its transactions
    and across power failures), Link.

    The machine: Bootmain (bootmain.c: what the boot loader puts in memory),
    Gates (mmu.h, [seginit], [tvinit]: the descriptors as the processor reads
    them), Platform and PlatformSpec (mp.c, lapic.c, ioapic.c, picirq.c, the
    serial port, over device registers that are a parameter, the class [bus];
    [mpinit] finds the processors of the table, and loops on an entry it does
    not know).

    The IDE disk (ide.c): Ide is the driver over the ports of a device that
    is a parameter, the class [ata]; IdeSpec states what the device promises,
    the class [ata_spec]; IdeRun proves that the driver is a queue of requests
    and agrees with memide.c.

    The disk image (mkfs.c): Mkfs is the tool on an image file; MkfsSpec and
    MkfsRun prove what it writes, MkfsBoot that the kernel's [dirlookup],
    [ilock] and [readi] find every file on it.

    Pipes (pipe.c): Pipe and PipeSpec, a bounded queue of bytes.

    Processes and system calls (proc.c, exec.c, syscall.c, sysproc.c,
    sysfile.c, trap.c): Proc, Exec, Syscall, Sysfile, Trap are translated in
    full, so that the layers below are called as the kernel calls them.
    ProcSpec says what [kill] does on every branch; SysSpec, that fetching the
    arguments of a system call stays inside the process. [fork], [exit] and
    [wait] as wholes and the trap entry have no theorems.

    User programs: Printf (printf.c: formats as pieces, numbers in positional
    notation, [atoi] reading them back), Utils (wc, cat, ls, echo, mkdir, rm,
    ln, kill over the class [usys] of system calls), Umalloc and UmallocSpec (umalloc.c; the ring of free
    blocks, its termination, and clients that never see their blocks
    overlap), Grep (grep.c; the matcher accepts the language of its
    pattern), Sh, ShSpec and ShRun (sh.c; parsing inverts printing, and
    running a command starts its programs with the right files).

    Threads: Cake and CakeSpec (IPC/CakeFactory; safety under every
    interleaving, no deadlock, and a bound on the time to the next sale).

    ** Assumptions and choices

    - The disk below the buffer cache is memide.c's, the driver of the
      kernelmemfs build: a transfer is complete when [iderw] returns; IdeRun
      shows that ide.c gives one process the same. [k_power] counts the writes that
      still reach the disk before the power fails; a failure leaves by
      [LPowerOff], between two block writes, each of which is atomic.
    - The theorems about the file system take the running process as the
      buffer cache's only user ([cache], [intx]); the socket theorems have
      no such restriction.
    - A path is read once, when [fetchstr] accepts it, and handed on as its
      bytes.
    - What devices deliver is an argument: the record [hw] of Trap.v and the
      byte given to the keyboard handler.

    ** Not modelled

    Assembly; the order of the initialisation calls in main.c and the start of
    the other processors beyond [lapicstartap]; init.c and the programs that
    only create processes; the test programs; the stack trace
    of [procdump]; the other IPC exercises, which are examples of the
    course's library calls; shell scripts and patches. *)

From Stdlib Require Import ZArith Lia.

Local Open Scope Z_scope.

(** ** param.h *)
Definition NPORT : Z := 128.
Definition NSOCK : nat := 32.
Definition SBUFFSIZE : nat := 128.
Definition NPROC : nat := 64.
Definition KSTACKSIZE : Z := 4096.
Definition NCPU : nat := 8.
Definition NOFILE : nat := 16.
Definition NFILE : nat := 100.
Definition NINODE : nat := 50.
Definition NDEV : Z := 10.
Definition ROOTDEV : Z := 1.
Definition MAXARG : nat := 32.
Definition MAXOPBLOCKS : Z := 10.
Definition LOGSIZE : Z := MAXOPBLOCKS * 3.
Definition NBUF : nat := 30.
Definition FSSIZE : Z := 1000.

(** ** proc.h: the paging limits *)
Definition MAX_PSYC_PAGES : nat := 15.
Definition MAX_TOTAL_PAGES : nat := 30.
Definition MAX_FILE_PAGES : nat := MAX_TOTAL_PAGES - MAX_PSYC_PAGES.

(** ** signalcodes.h: the error codes of the socket calls *)
Definition E_MISSING_ARG : Z := -1.
Definition E_NOTFOUND : Z := -1025.
Definition E_ACCESS_DENIED : Z := -1026.
Definition E_WRONG_STATE : Z := -1027.
Definition E_FAIL : Z := -1028.
Definition E_INVALID_ARG : Z := -1029.
Definition E_CONNECTION_RESET_BY_REMOTE : Z := -1030.

(** ** memlayout.h *)
Definition EXTMEM : Z := 0x100000.
Definition PHYSTOP : Z := 0xE000000.
Definition DEVSPACE : Z := 0xFE000000.
Definition KERNBASE : Z := 0x80000000.
Definition KERNLINK : Z := KERNBASE + EXTMEM.

(** ** Machine integers: unsigned [int] wraps modulo 2^32, [int] is its
    two's complement reading, [uchar] and [char] are 8 bits wide. *)
Definition u32 (x : Z) : Z := x mod 2 ^ 32.
Definition s32 (x : Z) : Z := (x + 2 ^ 31) mod 2 ^ 32 - 2 ^ 31.
Definition u8 (x : Z) : Z := x mod 2 ^ 8.
Definition s8 (x : Z) : Z := (x + 2 ^ 7) mod 2 ^ 8 - 2 ^ 7.

(** [V2P] and [P2V]: the kernel maps physical memory at [KERNBASE]. *)
Definition V2P (a : Z) : Z := u32 (a - KERNBASE).
Definition P2V (a : Z) : Z := u32 (a + KERNBASE).

(** ** mmu.h *)
Definition PGSIZE : Z := 4096.
Definition NPDENTRIES : Z := 1024.
Definition NPTENTRIES : Z := 1024.
Definition PTXSHIFT : Z := 12.
Definition PDXSHIFT : Z := 22.
Definition PDX (va : Z) : Z := Z.land (Z.shiftr va PDXSHIFT) 0x3FF.
Definition PTX (va : Z) : Z := Z.land (Z.shiftr va PTXSHIFT) 0x3FF.
Definition PGADDR (d t o : Z) : Z :=
  u32 (Z.lor (Z.lor (Z.shiftl d PDXSHIFT) (Z.shiftl t PTXSHIFT)) o).
Definition PGROUNDUP (sz : Z) : Z :=
  Z.land (u32 (sz + PGSIZE - 1)) (u32 (Z.lnot (PGSIZE - 1))).
Definition PGROUNDDOWN (a : Z) : Z := Z.land a (u32 (Z.lnot (PGSIZE - 1))).
Definition PTE_P : Z := 0x001.
Definition PTE_W : Z := 0x002.
Definition PTE_U : Z := 0x004.
Definition PTE_PG : Z := 0x200.
Definition PTE_ADDR (pte : Z) : Z := Z.land pte (u32 (Z.lnot 0xFFF)).
Definition PTE_FLAGS (pte : Z) : Z := Z.land pte 0xFFF.
