(* ===== verification/Prelude.v ===== *)
(** * Prelude: outcomes and the monad, flat memory, table scans, tactics

    Everything the components share: the monad in which the kernel routines
    are written with its program logic [wp], byte-addressed memory, the
    table scans the C code performs, and the tactics and hint databases used
    by the proofs. *)

From Stdlib Require Export ZArith Lia ZifyBool.
From stdpp Require Export base tactics list gmap strings numbers option.
From S2P Require Export Xv6.

#[global] Open Scope Z_scope.

(** [lia] with the defining equations of [/] and [mod] by constants. *)
Ltac divlia := Z.to_euclidean_division_equations; lia.

#[global] Arguments Z.eqb : simpl never.
#[global] Arguments Z.ltb : simpl never.
#[global] Arguments Z.leb : simpl never.
#[global] Arguments Z.modulo : simpl never.
#[global] Arguments Z.div : simpl never.
#[global] Arguments Z.pow : simpl never.

(** ** Outcomes

    A kernel routine either returns, leaves the CPU at a context switch with a
    description of where it continues, calls [panic], or does something C
    leaves undefined (a null dereference, an access outside an object):
    [Fault]. *)
Inductive outcome (S C A : Type) : Type :=
  | Ret (a : A) (s : S)
  | Switch (c : C) (s : S)
  | Panic (msg : string) (s : S)
  | Fault (msg : string).
Arguments Ret {S C A} a s.
Arguments Switch {S C A} c s.
Arguments Panic {S C A} msg s.
Arguments Fault {S C A} msg.

Definition M (S C A : Type) : Type := S → outcome S C A.

#[export] Instance M_ret {S C} : MRet (M S C) := λ A a s, Ret a s.

Definition bindM {S C A B} (m : M S C A) (f : A → M S C B) : M S C B := λ s,
  match m s with
  | Ret a s' => f a s'
  | Switch c s' => Switch c s'
  | Panic e s' => Panic e s'
  | Fault e => Fault e
  end.

Declare Scope M_scope.
Notation "x <- m ;; f" := (bindM m (λ x, f))
  (at level 100, m at next level, f at level 200, right associativity) : M_scope.
Notation "' p <- m ;; f" := (bindM m (λ p, f))
  (at level 100, p pattern, m at next level, f at level 200, right associativity) : M_scope.
Notation "m ;; f" := (bindM m (λ _, f))
  (at level 100, f at level 200, right associativity) : M_scope.
#[global] Open Scope M_scope.

Section monad.
Context {S C : Type}.

Definition gets {A} (f : S → A) : M S C A := λ s, Ret (f s) s.
Definition modify (f : S → S) : M S C unit := λ s, Ret tt (f s).
Definition panic {A} (msg : string) : M S C A := λ s, Panic msg s.
Definition fault {A} (msg : string) : M S C A := λ _, Fault msg.
Definition switch_out {A} (c : C) : M S C A := λ s, Switch c s.

(** Reading through a pointer or an index: [Fault] when it leads nowhere. *)
Definition deref {A} (msg : string) (o : option A) : M S C A :=
  match o with Some a => mret a | None => fault msg end.

Definition when (b : bool) (m : M S C unit) : M S C unit :=
  if b then m else mret tt.

(** [for (...) body]: left to right over a list of indices. *)
Fixpoint mfor {A} (l : list A) (body : A → M S C unit) : M S C unit :=
  match l with
  | [] => mret tt
  | x :: l => body x ;; mfor l body
  end.
End monad.

(** ** Equations of the monad *)
Section run.
Context {S C : Type}.

Lemma bind_Ret_inv {A B} (m : M S C A) (f : A → M S C B) s b s' :
  (bindM m f) s = Ret b s' → ∃ a s1, m s = Ret a s1 ∧ f a s1 = Ret b s'.
Proof. unfold bindM. destruct (m s); naive_solver. Qed.

Lemma bind_Ret_eq {A B} (m : M S C A) (f : A → M S C B) s a s1 :
  m s = Ret a s1 → (bindM m f) s = f a s1.
Proof. unfold bindM. by intros ->. Qed.

Lemma bind_assoc {A B D} (m : M S C A) (f : A → M S C B) (g : B → M S C D) s :
  bindM (bindM m f) g s = bindM m (λ a, bindM (f a) g) s.
Proof. unfold bindM. by destruct (m s). Qed.

Lemma bind_mret {A B} (a : A) (f : A → M S C B) s : bindM (mret a) f s = f a s.
Proof. done. Qed.

Lemma bind_gets {A B} (g : S → A) (f : A → M S C B) s : bindM (gets g) f s = f (g s) s.
Proof. done. Qed.

Lemma bind_modify {B} (g : S → S) (f : unit → M S C B) s : bindM (modify g) f s = f tt (g s).
Proof. done. Qed.

Lemma bind_deref {A B} msg (o : option A) a (f : A → M S C B) s :
  o = Some a → bindM (deref msg o) f s = f a s.
Proof. by intros ->. Qed.

(** When two runs end in [Ret], so does their sequence. *)
Lemma bind_Ret_intro {A B} (m : M S C A) (f : A → M S C B) s a s1 r :
  m s = Ret a s1 → f a s1 = r → bindM m f s = r.
Proof. unfold bindM. by intros -> ->. Qed.
End run.

(** ** A program logic for [M]

    [wp E m Q R s]: running [m] from [s] returns with [Q], or switches away
    with [R]; a panic or a fault is allowed only when [E] holds. [wp False]
    is total correctness, [wp True] tolerates [panic]. *)
Definition wp {S C A} (E : Prop) (m : M S C A) (Q : A → S → Prop)
    (R : C → S → Prop) (s : S) : Prop :=
  match m s with
  | Ret a s' => Q a s'
  | Switch c s' => R c s'
  | Panic _ _ => E
  | Fault _ => E
  end.

Section wp.
Context {S C : Type}.
Implicit Types s : S.

Lemma wp_ret E {A} (a : A) Q R s : Q a s → wp E (mret a : M S C A) Q R s.
Proof. done. Qed.

Lemma wp_of_Ret E {A} (m : M S C A) (Q : A → S → Prop) R s a s' : m s = Ret a s' → Q a s' → wp E m Q R s.
Proof. unfold wp. by intros ->. Qed.

Lemma wp_of_Switch E {A} (m : M S C A) (Q : A → S → Prop) (R : C → S → Prop) s c s' : m s = Switch c s' → R c s' → wp E m Q R s.
Proof. unfold wp. by intros ->. Qed.

(** Two runs from one state that are equal. *)
Lemma wp_eq E {A} (m m' : M S C A) (Q : A → S → Prop) R s : m s = m' s → wp E m' Q R s → wp E m Q R s.
Proof. unfold wp. by intros ->. Qed.

(** What [wp False] says of the run. *)
Lemma wp_False_inv {A} (m : M S C A) (Q : A → S → Prop) (R : C → S → Prop) s : wp False m Q R s →
  (∃ a s', m s = Ret a s' ∧ Q a s') ∨ (∃ c s', m s = Switch c s' ∧ R c s').
Proof. unfold wp. destruct (m s) as [a s'|c s'| |]; [left|right|done..]; by eexists _, _. Qed.

Lemma wp_bind E {A B} (m : M S C A) (f : A → M S C B) Q R s :
  wp E m (λ a s', wp E (f a) Q R s') R s → wp E (bindM m f) Q R s.
Proof. unfold wp, bindM. by destruct (m s). Qed.

Lemma wp_mono E {A} (m : M S C A) (Q Q' : A → S → Prop) (R R' : C → S → Prop) s :
  wp E m Q R s → (∀ a s', Q a s' → Q' a s') → (∀ c s', R c s' → R' c s') →
  wp E m Q' R' s.
Proof. unfold wp. destruct (m s); auto. Qed.

Lemma wp_gets E {A} (f : S → A) Q R s : Q (f s) s → wp E (gets f : M S C A) Q R s.
Proof. done. Qed.

Lemma wp_modify E f Q R s : Q tt (f s) → wp E (modify f : M S C unit) Q R s.
Proof. done. Qed.

Lemma wp_panic (E : Prop) {A} msg Q R s : E → wp E (panic msg : M S C A) Q R s.
Proof. done. Qed.

Lemma wp_fault (E : Prop) {A} msg Q R s : E → wp E (fault msg : M S C A) Q R s.
Proof. done. Qed.

Lemma wp_switch (E : Prop) {A} c (Q : A → S → Prop) R s :
  R c s → wp E (switch_out c : M S C A) Q R s.
Proof. done. Qed.

Lemma wp_deref E {A} msg (o : option A) (Q : A → S → Prop) (R : C → S → Prop) s :
  (∀ a, o = Some a → Q a s) → (o = None → E) → wp E (deref msg o) Q R s.
Proof. destruct o; unfold wp; simpl; eauto. Qed.

Lemma wp_when E b (m : M S C unit) Q R s :
  (b = true → wp E m Q R s) → (b = false → Q tt s) → wp E (when b m) Q R s.
Proof. intros H1 H2. destruct b; [by apply H1|by apply H2]. Qed.

Lemma wp_mfor E {A} (l : list A) (body : A → M S C unit) (I : S → Prop) (R : C → S → Prop) s :
  I s → (∀ x s, x ∈ l → I s → wp E (body x) (λ _, I) R s) →
  wp E (mfor l body) (λ _, I) R s.
Proof.
  revert s. induction l as [|x l IH]; intros s HI Hb; [done|].
  cbn [mfor]. apply wp_bind. eapply wp_mono; [apply Hb|..]; [set_solver|done| |done].
  intros [] s' HI'. apply IH; [done|]. intros y s'' Hy. apply Hb. set_solver.
Qed.

Lemma wp_Ret_inv E {A} (m : M S C A) Q R s a s' :
  wp E m Q R s → m s = Ret a s' → Q a s'.
Proof. unfold wp. intros H Hm. by rewrite Hm in H. Qed.

Lemma wp_Panic_inv E {A} (m : M S C A) Q R s msg s' :
  wp E m Q R s → m s = Panic msg s' → E.
Proof. unfold wp. intros H Hm. by rewrite Hm in H. Qed.

Lemma wp_bind_inv E {A B} (m : M S C A) (f : A → M S C B) Q R s :
  wp E (bindM m f) Q R s → wp E m (λ a s', wp E (f a) Q R s') R s.
Proof. unfold wp, bindM. by destruct (m s). Qed.

Lemma wp_mret_eq E {A} (a : A) Q R s : wp E (mret a : M S C A) Q R s ↔ Q a s.
Proof. done. Qed.

(** Two facts about one run hold of the same result. *)
Lemma wp_False_conj {A} (m : M S C A) (Q Q' : A → S → Prop) (R R' : C → S → Prop) s (P : Prop) :
  wp False m Q R s → wp False m Q' R' s →
  (∀ a s', Q a s' → Q' a s' → P) → (∀ c s', R c s' → R' c s' → P) → P.
Proof. unfold wp. destruct (m s); naive_solver. Qed.

Lemma wp_Switch_inv E {A} (m : M S C A) Q R s c s' :
  wp E m Q R s → m s = Switch c s' → R c s'.
Proof. unfold wp. intros H Hm. by rewrite Hm in H. Qed.

End wp.

#[global] Typeclasses Opaque M.
#[global] Opaque wp.

(** Unfold the monad and reduce. *)
Ltac mred :=
  unfold bindM, gets, modify, panic, fault, switch_out, deref, when, mret, M_ret; cbn.

(** Run the head of a sequence whose value is known. *)
Ltac mstep :=
  first [ rewrite bind_gets | rewrite bind_modify | rewrite bind_mret | rewrite bind_assoc
        | erewrite bind_deref by (cbn; eassumption) ]; cbn beta.

(** One step of symbolic execution of a goal [wp E m Q R s]. *)
Ltac wp_step :=
  lazymatch goal with
  | |- wp _ (bindM _ _) _ _ _ => apply wp_bind
  | |- wp _ (mret _) _ _ _ => apply wp_ret
  | |- wp _ (gets _) _ _ _ => apply wp_gets
  | |- wp _ (modify _) _ _ _ => apply wp_modify
  | |- wp _ (panic _) _ _ _ => apply wp_panic
  | |- wp _ (fault _) _ _ _ => apply wp_fault
  | |- wp _ (switch_out _) _ _ _ => apply wp_switch
  | |- wp _ (deref _ _) _ _ _ => apply wp_deref; [intros ? ?|intros ?]
  | |- wp _ (when _ _) _ _ _ => apply wp_when; intros ?
  | |- wp _ (if ?b then _ else _) _ _ _ => destruct b eqn:?
  | |- wp _ (match ?o with Some _ => _ | None => _ end) _ _ _ => destruct o eqn:?
  end.
Ltac wp_run := repeat (wp_step; simpl).

(** ** Table scans: [for (p = tab; p < &tab[N]; p++) if (P p) return p;] *)
Fixpoint find_idx {A} (P : A → bool) (l : list A) : option nat :=
  match l with
  | [] => None
  | x :: l => if P x then Some 0%nat else Datatypes.S <$> find_idx P l
  end.

Lemma find_idx_Some {A} (P : A → bool) (l : list A) i :
  find_idx P l = Some i ↔
  (∃ x, l !! i = Some x ∧ P x = true) ∧
  (∀ j y, (j < i)%nat → l !! j = Some y → P y = false).
Proof.
  revert i. induction l as [|x l IH]; intros i; simpl.
  { split; [done|]. intros [(x & Hx & _) _]. done. }
  destruct (P x) eqn:HP.
  - split.
    + intros [= <-]. split; [by exists x|intros; lia].
    + intros [_ Hj]. destruct i as [|i]; [done|].
      specialize (Hj 0%nat x ltac:(lia) eq_refl). congruence.
  - rewrite fmap_Some. split.
    + intros (i' & Hi' & ->). apply IH in Hi' as [? Hj]. split; [done|].
      intros [|j] y Hlt Hy; [by injection Hy as <-|]. apply (Hj j y); [lia|done].
    + intros [(y & Hy & HPy) Hj]. destruct i as [|i]; [simpl in Hy; congruence|].
      exists i. split; [|done]. apply IH. split; [by exists y|].
      intros j z Hlt Hz. apply (Hj (Datatypes.S j)); [lia|done].
Qed.

Lemma find_idx_None {A} (P : A → bool) (l : list A) :
  find_idx P l = None ↔ ∀ j y, l !! j = Some y → P y = false.
Proof.
  induction l as [|x l IH]; simpl; [done|].
  destruct (P x) eqn:HP.
  - split; [done|]. intros H. specialize (H 0%nat x eq_refl). congruence.
  - rewrite fmap_None, IH. split.
    + intros H [|j] y Hy; [by injection Hy as <-|by eapply H].
    + intros H j y Hy. by apply (H (Datatypes.S j)).
Qed.

Lemma find_idx_lt {A} (P : A → bool) (l : list A) i :
  find_idx P l = Some i → (i < length l)%nat.
Proof. intros [(x & Hx & _) _]%find_idx_Some. by eapply lookup_lt_Some. Qed.

(** How many entries of a table satisfy a predicate. *)
Definition countb {A} (P : A → bool) (l : list A) : nat := length (List.filter P l).

#[global] Arguments countb : simpl never.

Lemma countb_insert {A} (P : A → bool) (l : list A) i x y :
  l !! i = Some x →
  (countb P (<[i:=y]> l) + (if P x then 1 else 0) =
   countb P l + (if P y then 1 else 0))%nat.
Proof.
  unfold countb. revert i. induction l as [|z l IH]; intros [|i] Hi; simplify_eq/=.
  - destruct (P x), (P y); simpl; lia.
  - specialize (IH _ Hi). destruct (P z); simpl; lia.
Qed.

Lemma countb_le {A} (P : A → bool) (l : list A) : (countb P l ≤ length l)%nat.
Proof. unfold countb. induction l as [|x l IH]; simpl; [lia|]. destruct (P x); simpl; lia. Qed.

Lemma countb_full {A} (P : A → bool) (l : list A) :
  countb P l = length l ↔ find_idx (λ x, negb (P x)) l = None.
Proof.
  unfold countb. induction l as [|x l IH]; simpl; [done|].
  pose proof (countb_le P l) as Hle. unfold countb in Hle.
  destruct (P x); simpl; [|split; [lia|done]].
  rewrite fmap_None, <- IH. lia.
Qed.

(** ** In-place update of a table entry *)
Lemma alter_compose {A} (f g : A → A) i (l : list A) : alter f i (alter g i l) = alter (f ∘ g) i l.
Proof. revert i. induction l as [|x l IH]; intros [|i]; csimpl; [done..|]. f_equal. apply IH. Qed.

Lemma alter_comm {A} (f g : A → A) i j (l : list A) :
  i ≠ j → alter f i (alter g j l) = alter g j (alter f i l).
Proof.
  revert i j. induction l as [|x l IH]; intros [|i] [|j] H; csimpl; [done..|].
  f_equal. apply IH. congruence.
Qed.

Lemma alter_const {A} (f : A → A) x i (l : list A) :
  l !! i = Some x → alter f i l = <[i := f x]> l.
Proof. revert i. induction l as [|y l IH]; intros [|i] H; simplify_eq/=; [done|]. f_equal. by apply IH. Qed.

Lemma alter_ins {A} (g : A → A) i x (l : list A) : (i < length l)%nat → alter g i (<[i := x]> l) = <[i := g x]> l.
Proof. intros Hi. rewrite (alter_const g x) by (by apply list_lookup_insert_eq). by rewrite list_insert_insert_eq. Qed.

(** ** Flat memory: one byte per 32-bit address *)
Definition mem : Type := Z → Z.

Definition upd (m : mem) (a v : Z) : mem := λ b, if b =? a then v else m b.

(** [memset(a, c, n)], [n] bytes *)
Definition fill (m : mem) (a c n : Z) : mem :=
  λ b, if (a <=? b) && (b <? a + n) then c else m b.

(** The bytes of one block copied over another, both read before writing. *)
Definition blit (m : mem) (dst src n : Z) : mem :=
  λ b, if (dst <=? b) && (b <? dst + n) then m (src + (b - dst)) else m b.

Definition load32 (m : mem) (a : Z) : Z :=
  m a + 2 ^ 8 * m (a + 1) + 2 ^ 16 * m (a + 2) + 2 ^ 24 * m (a + 3).

Definition store32 (m : mem) (a v : Z) : mem := λ b,
  if b =? a then v mod 2 ^ 8
  else if b =? a + 1 then v / 2 ^ 8 mod 2 ^ 8
  else if b =? a + 2 then v / 2 ^ 16 mod 2 ^ 8
  else if b =? a + 3 then v / 2 ^ 24 mod 2 ^ 8
  else m b.

(** Every cell holds a byte. *)
Definition bytes_ok (m : mem) : Prop := ∀ a, 0 <= m a < 2 ^ 8.

Lemma load32_store32_eq m a v : load32 (store32 m a v) a = u32 v.
Proof.
  unfold load32, store32, u32.
  repeat (case_match; try lia). divlia.
Qed.

Lemma load32_store32_ne m a b v : a + 4 <= b ∨ b + 4 <= a → load32 (store32 m a v) b = load32 m b.
Proof. intros H. unfold load32, store32. repeat (case_match; try lia). Qed.

Lemma load32_range m a : bytes_ok m → 0 <= load32 m a < 2 ^ 32.
Proof.
  intros H. unfold load32.
  pose proof (H a). pose proof (H (a + 1)). pose proof (H (a + 2)). pose proof (H (a + 3)). lia.
Qed.

Lemma bytes_ok_store32 m a v : bytes_ok m → bytes_ok (store32 m a v).
Proof. intros H b. unfold store32. pose proof (H b). repeat (case_match; try divlia). Qed.

Lemma bytes_ok_fill m a c n : bytes_ok m → 0 <= c < 2 ^ 8 → bytes_ok (fill m a c n).
Proof. intros H Hc b. unfold fill. case_match; [done|apply H]. Qed.

Lemma bytes_ok_blit m d s n : bytes_ok m → bytes_ok (blit m d s n).
Proof. intros H b. unfold blit. case_match; apply H. Qed.

Lemma bytes_ok_upd m a v : bytes_ok m → 0 <= v < 2 ^ 8 → bytes_ok (upd m a v).
Proof. intros H Hv b. unfold upd. case_match; [done|apply H]. Qed.

Lemma load32_fill_in m a c n b :
  a <= b → b + 4 <= a + n → load32 (fill m a c n) b = c * 0x01010101.
Proof. intros. unfold load32, fill. repeat (case_match; try lia). Qed.

Lemma load32_fill_out m a c n b :
  b + 4 <= a ∨ a + n <= b → load32 (fill m a c n) b = load32 m b.
Proof. intros. unfold load32, fill. repeat (case_match; try lia). Qed.

Create HintDb mem.
#[export] Hint Resolve bytes_ok_store32 bytes_ok_fill bytes_ok_blit bytes_ok_upd : mem.
#[export] Hint Rewrite load32_store32_eq : mem.

(** ** Machine integers *)
Lemma u32_small x : 0 <= x < 2 ^ 32 → u32 x = x.
Proof. apply Z.mod_small. Qed.
Lemma u32_range x : 0 <= u32 x < 2 ^ 32.
Proof. apply Z.mod_pos_bound. lia. Qed.
Lemma s32_small x : - 2 ^ 31 <= x < 2 ^ 31 → s32 x = x.
Proof. intros. unfold s32. rewrite Z.mod_small; lia. Qed.
Lemma s32_range x : - 2 ^ 31 <= s32 x < 2 ^ 31.
Proof. unfold s32. pose proof (Z.mod_pos_bound (x + 2 ^ 31) (2 ^ 32)). lia. Qed.
Lemma u32_s32 x : u32 (s32 x) = u32 x.
Proof. unfold u32, s32. rewrite Zminus_mod, Zmod_mod, <- Zminus_mod. f_equal. lia. Qed.

#[export] Hint Rewrite u32_s32 : ints.

(** ** Bit fields of page addresses *)
Lemma testbit_above x w n : 0 <= x < 2 ^ w → 0 <= w <= n → Z.testbit x n = false.
Proof.
  intros Hx Hn. destruct (Z.eqb_spec x 0) as [->|]; [apply Z.bits_0|].
  apply Z.bits_above_log2; [lia|]. apply Z.log2_lt_pow2; [lia|].
  eapply Z.lt_le_trans; [apply Hx|]. apply Z.pow_le_mono_r; lia.
Qed.

Lemma land_page_mask x : 0 <= x < 2 ^ 32 → Z.land x 0xFFFFF000 = x - x mod 4096.
Proof.
  intros Hx. change 0xFFFFF000 with (Z.shiftl (Z.ones 20) 12).
  replace (x - x mod 4096) with (Z.shiftl (Z.shiftr x 12) 12)
    by (rewrite Z.shiftl_mul_pow2, Z.shiftr_div_pow2 by lia; change (2 ^ 12) with 4096; divlia).
  apply Z.bits_inj'. intros n Hn. rewrite Z.land_spec, !Z.shiftl_spec by done.
  destruct (Z.ltb_spec n 12).
  { rewrite (Z.testbit_neg_r (Z.ones 20)) by lia. rewrite (Z.testbit_neg_r (Z.shiftr x 12)) by lia. apply andb_false_r. }
  rewrite Z.shiftr_spec by lia. replace (n - 12 + 12) with n by lia.
  destruct (Z.ltb_spec n 32).
  - rewrite Z.ones_spec_low by lia. apply andb_true_r.
  - by rewrite (testbit_above x 32 n) by lia.
Qed.

Lemma land_page_flags p f : p mod 4096 = 0 → 0 <= f < 4096 → Z.land p f = 0.
Proof.
  intros Hp Hf. apply Z.bits_inj'. intros n Hn. rewrite Z.land_spec, Z.bits_0.
  destruct (Z.ltb_spec n 12).
  - assert (Z.testbit p n = false) as ->; [|done].
    replace p with (Z.shiftl (p / 4096) 12) by (rewrite Z.shiftl_mul_pow2 by lia; change (2 ^ 12) with 4096; divlia).
    rewrite Z.shiftl_spec_low by lia. done.
  - destruct (Z.eqb_spec f 0) as [->|]; [by rewrite Z.bits_0, andb_false_r|].
    rewrite (testbit_above f 12 n) by (change (2 ^ 12) with 4096; lia). apply andb_false_r.
Qed.

Lemma lor_page_flags p f : p mod 4096 = 0 → 0 <= f < 4096 → Z.lor p f = p + f.
Proof. intros Hp Hf. rewrite Z.add_nocarry_lor by (by apply land_page_flags). done. Qed.

Lemma PTE_ADDR_flags p f : 0 <= p < 2 ^ 32 → p mod 4096 = 0 → 0 <= f < 4096 → PTE_ADDR (Z.lor p f) = p.
Proof.
  intros Hr Hp Hf. unfold PTE_ADDR. change (u32 (Z.lnot 4095)) with 0xFFFFF000.
  rewrite lor_page_flags by done. rewrite land_page_mask by divlia. divlia.
Qed.

Lemma land_ones_mod x n : 0 <= n → Z.land x (Z.ones n) = x mod 2 ^ n.
Proof. intros. by apply Z.land_ones. Qed.

Lemma PTE_FLAGS_flags p f : p mod 4096 = 0 → 0 <= f < 4096 → PTE_FLAGS (Z.lor p f) = f.
Proof.
  intros Hp Hf. unfold PTE_FLAGS. change 0xFFF with (Z.ones 12). rewrite land_ones_mod by lia.
  rewrite lor_page_flags by done. change (2 ^ 12) with 4096. divlia.
Qed.

Lemma PTE_ADDR_aligned e : 0 <= e < 2 ^ 32 → PTE_ADDR e = e - e mod 4096.
Proof. intros. unfold PTE_ADDR. change (u32 (Z.lnot 4095)) with 0xFFFFF000. by apply land_page_mask. Qed.

Lemma PGROUNDDOWN_eq a : 0 <= a < 2 ^ 32 → PGROUNDDOWN a = a - a mod PGSIZE.
Proof. intros. unfold PGROUNDDOWN, PGSIZE. change (u32 (Z.lnot (4096 - 1))) with 0xFFFFF000. by apply land_page_mask. Qed.

Lemma PGROUNDUP_eq a : 0 <= a <= 2 ^ 32 - PGSIZE → PGROUNDUP a = a + (- a) mod PGSIZE.
Proof.
  unfold PGROUNDUP, PGSIZE. intros. change (u32 (Z.lnot (4096 - 1))) with 0xFFFFF000.
  rewrite u32_small by lia. rewrite land_page_mask by lia. divlia.
Qed.

Lemma PDX_eq va : 0 <= va < 2 ^ 32 → PDX va = va / 2 ^ 22.
Proof.
  intros. unfold PDX. change 0x3FF with (Z.ones 10). rewrite land_ones_mod, Z.shiftr_div_pow2 by (unfold PDXSHIFT; lia).
  unfold PDXSHIFT. change (2 ^ 10) with 1024. change (2 ^ 22) with 4194304. divlia.
Qed.

Lemma PTX_eq va : PTX va = va / 4096 mod 1024.
Proof.
  unfold PTX. change 0x3FF with (Z.ones 10). rewrite land_ones_mod, Z.shiftr_div_pow2 by (unfold PTXSHIFT; lia). done.
Qed.

Lemma V2P_P2V a : 0 <= a < 2 ^ 32 → V2P (P2V a) = a ∧ P2V (V2P a) = a.
Proof. unfold V2P, P2V, u32, KERNBASE. intros. change (2 ^ 32) with 4294967296 in *. split; divlia. Qed.
