(* ===== verification/Ring.v ===== *)
(** * Ring: circular buffers indexed by free-running 32-bit counters

    The console input buffer and the pipes keep their bytes in an array of
    [N] slots, [N] dividing 2^32; counter [a] designates slot [a % N].
    [ring N buf a n] is the string of [n] bytes from counter [a] on. *)

From S2P Require Import Prelude.

(** ** Definitions *)
Definition slot (N : Z) (i : Z) : nat := Z.to_nat (i mod N).
Definition ring (N : Z) (buf : list Z) (a : Z) (n : nat) : list Z :=
  (λ j, default 0 (buf !! slot N (a + Z.of_nat j))) <$> seq 0 n.

Section ring.
Variable N : Z.
Hypothesis HN : 0 < N.
Hypothesis HdivN : 2 ^ 32 mod N = 0.

Lemma slot_u32 x : slot N (u32 x) = slot N x.
Proof using HN HdivN.
  unfold slot, u32. f_equal. apply Z.div_exact in HdivN; [|lia].
  rewrite HdivN. rewrite Z.rem_mul_r by lia. by rewrite (Z.mul_comm N), Z.mod_add, Z.mod_mod by lia.
Qed.

Lemma slot_lt x : (slot N x < Z.to_nat N)%nat.
Proof using HN. unfold slot. pose proof (Z.mod_pos_bound x N HN). lia. Qed.

Lemma slot_inj a j j' : 0 <= j < N → 0 <= j' < N → slot N (a + j) = slot N (a + j') → j = j'.
Proof using HN.
  unfold slot. intros Hj Hj' E.
  pose proof (Z.mod_pos_bound (a + j) N HN). pose proof (Z.mod_pos_bound (a + j') N HN).
  apply Z2Nat.inj in E as E'; [|tauto..].
  pose proof (Z.div_mod (a + j) N ltac:(lia)) as H1. pose proof (Z.div_mod (a + j') N ltac:(lia)) as H2.
  rewrite E' in H1. clear -H1 H2 Hj Hj'. generalize dependent ((a + j) / N). generalize dependent ((a + j') / N).
  generalize ((a + j') mod N). intros r q' H2 q H1.
  destruct (Z.lt_trichotomy q q') as [Hq|[->|Hq]]; [|lia|]; exfalso; nia.
Qed.

Lemma length_ring buf a n : length (ring N buf a n) = n.
Proof using. unfold ring. by rewrite length_fmap, length_seq. Qed.

Lemma lookup_ring buf a n j : (j < n)%nat →
  ring N buf a n !! j = Some (default 0 (buf !! slot N (a + Z.of_nat j))).
Proof using. intros Hj. unfold ring. by rewrite list_lookup_fmap, lookup_seq_lt by done. Qed.

Lemma ring_S buf a n : ring N buf a (S n) = ring N buf a n ++ [default 0 (buf !! slot N (a + Z.of_nat n))].
Proof using. unfold ring. by rewrite seq_S, fmap_app. Qed.

Lemma ring_insert buf a n c :
  length buf = Z.to_nat N → Z.of_nat n < N →
  ring N (<[slot N (a + Z.of_nat n) := c]> buf) a (S n) = ring N buf a n ++ [c].
Proof using HN.
  intros Hl Hn. rewrite ring_S. f_equal.
  - unfold ring. apply list_fmap_ext. intros i j Hj. apply lookup_seq in Hj as [-> Hj]. cbn.
    rewrite list_lookup_insert_ne; [done|]. intros E. apply slot_inj in E; lia.
  - by rewrite list_lookup_insert_eq by (rewrite Hl; apply slot_lt).
Qed.

(** Taking the first byte advances the read counter. *)
Lemma ring_tail buf a n : ring N buf (u32 (a + 1)) n = tail (ring N buf a (S n)).
Proof using HN HdivN.
  apply list_eq. intros j. destruct (decide (j < n)%nat) as [Hj|Hj].
  - rewrite lookup_tail, !lookup_ring by lia. do 2 f_equal.
    rewrite <- (slot_u32 (u32 (a + 1) + Z.of_nat j)), <- (slot_u32 (a + Z.of_nat (S j))).
    f_equal. f_equal. unfold u32. rewrite Zplus_mod_idemp_l. f_equal. lia.
  - rewrite lookup_tail, !lookup_ge_None_2; [done| |]; rewrite length_ring; lia.
Qed.
End ring.
