(* ===== verification/Dll.v ===== *)
(** * Dll: circular doubly linked lists

    The buffer cache links its buffers through [next] and [prev] in a ring
    with a head. [dll nxt prv h o]: following [nxt] from [h] visits [o] and
    comes back to [h], and [prv] runs backwards. *)

From S2P Require Import Prelude.

(** ** Definitions *)
Definition edges (l : list nat) : list (nat * nat) := zip l (tail l).
Definition dll (nxt prv : nat → nat) (h : nat) (o : list nat) : Prop :=
  ∀ x y, (x, y) ∈ edges (h :: o ++ [h]) → nxt x = y ∧ prv y = x.

Definition fupd (f : nat → nat) (a v : nat) : nat → nat := λ x, if decide (x = a) then v else f x.

(** The first element of a list with a property. *)
Fixpoint first_of (P : nat → bool) (l : list nat) : option nat :=
  match l with
  | [] => None
  | x :: l => if P x then Some x else first_of P l
  end.

#[global] Arguments edges : simpl never.

(** ** Edges *)
Lemma edges_cons x y l : edges (x :: y :: l) = (x, y) :: edges (y :: l).
Proof. done. Qed.

Lemma edges_app l1 x l2 : edges (l1 ++ x :: l2) = edges (l1 ++ [x]) ++ edges (x :: l2).
Proof.
  induction l1 as [|a l1 IH]; [done|]. destruct l1 as [|b l1]; [done|].
  change (edges ((a :: b :: l1) ++ x :: l2)) with ((a, b) :: edges ((b :: l1) ++ x :: l2)).
  by rewrite IH.
Qed.

Lemma edges_in x y l : (x, y) ∈ edges l → ∃ l1 l2, l = l1 ++ x :: y :: l2.
Proof.
  induction l as [|a l IH]; [set_solver|]. destruct l as [|b l]; [set_solver|].
  rewrite edges_cons. intros [[= -> ->]|H]%elem_of_cons; [by exists [], l|].
  destruct (IH H) as (l1 & l2 & E). exists (a :: l1), l2. cbn. by rewrite E.
Qed.

Lemma edges_mid l1 x y l2 : (x, y) ∈ edges (l1 ++ x :: y :: l2).
Proof. rewrite edges_app, elem_of_app. right. rewrite edges_cons. set_solver. Qed.

Lemma edge_left x y l : (x, y) ∈ edges l → x ∈ l.
Proof. intros (l1 & l2 & ->)%edges_in. set_solver. Qed.
Lemma edge_right x y a l : (x, y) ∈ edges (a :: l) → y ∈ l.
Proof.
  intros H. destruct (edges_in _ _ _ H) as ([|b l1] & l2 & E); cbn in E; injection E as -> ->; set_solver.
Qed.
(** The left end of an edge is not the last element, in a list without
    duplicates. *)
Lemma edge_left_not_last x y l z : NoDup (l ++ [z]) → (x, y) ∈ edges (l ++ [z]) → x ≠ z.
Proof.
  intros Hnd (l1 & l2 & E)%edges_in ->. destruct (exists_last (l := y :: l2) ltac:(done)) as (l3 & w & E3).
  assert (E' : l ++ [z] = (l1 ++ z :: l3) ++ [w]) by (rewrite E, <- app_assoc; cbn; by rewrite <- E3).
  apply app_inj_tail in E' as [-> ->]. apply list.NoDup_app in Hnd as (_ & H & _). apply (H w); set_solver.
Qed.

Lemma dll_edges nxt prv h o l : dll nxt prv h o → edges l ⊆ edges (h :: o ++ [h]) →
  ∀ x y, (x, y) ∈ edges l → nxt x = y ∧ prv y = x.
Proof. intros H Hs x y Hx. apply H. by apply Hs. Qed.

(** ** Removing and adding *)
Section unlink.
Variables (nxt prv : nat → nat) (h : nat).

Lemma dll_unlink o1 b o2 : NoDup (h :: o1 ++ b :: o2) → dll nxt prv h (o1 ++ b :: o2) →
  dll (fupd nxt (prv b) (nxt b)) (fupd prv (nxt b) (prv b)) h (o1 ++ o2).
Proof using.
  intros Hnd Hd. destruct (exists_last (l := h :: o1) ltac:(done)) as (l1 & p & E1).
  assert (exists n l2, o2 ++ [h] = n :: l2) as (n & l2 & E2) by (destruct o2; [by exists h, []|by exists n, (o2 ++ [h])]).
  assert (Eold : h :: (o1 ++ b :: o2) ++ [h] = l1 ++ p :: b :: n :: l2).
  { rewrite <- app_assoc. cbn. rewrite app_comm_cons, E1, E2, <- app_assoc. done. }
  assert (Enew : h :: (o1 ++ o2) ++ [h] = l1 ++ p :: n :: l2).
  { rewrite <- app_assoc. cbn. rewrite app_comm_cons, E1, E2, <- app_assoc. done. }
  assert (Hp : nxt p = b ∧ prv b = p) by (apply Hd; rewrite Eold; apply edges_mid).
  assert (Hn : nxt b = n ∧ prv n = b).
  { apply Hd. rewrite Eold. change (l1 ++ p :: b :: n :: l2) with (l1 ++ [p] ++ b :: n :: l2). rewrite app_assoc. apply edges_mid. }
  destruct Hp as [_ ->], Hn as [-> _].
  assert (Hnd1 : NoDup (l1 ++ [p])) by (rewrite <- E1; apply list.NoDup_cons; apply list.NoDup_cons in Hnd as [? Hnd];
    apply list.NoDup_app in Hnd as (? & _ & _); split; [set_solver|done]).
  intros x y Hxy. rewrite Enew, edges_app, edges_cons in Hxy.
  assert (Hold : ∀ x y, (x, y) ∈ edges (l1 ++ [p]) ∨ (x, y) ∈ edges (n :: l2) → nxt x = y ∧ prv y = x).
  { intros x' y' H'. apply Hd. rewrite Eold, edges_app. rewrite elem_of_app. destruct H' as [H'|H']; [by left|right].
    rewrite !edges_cons. set_solver. }
  assert (Hne : ∀ y, y ∈ o1 → y ≠ n).
  { intros y' Hy ->. apply list.NoDup_cons in Hnd as [Hh Hnd]. apply list.NoDup_app in Hnd as (_ & Hdis & _).
    destruct o2 as [|n' o2]; cbn in E2; injection E2 as -> _; [set_solver|]. apply (Hdis n Hy). set_solver. }
  unfold fupd. apply elem_of_app in Hxy as [Hxy|[[= -> ->]|Hxy]%elem_of_cons].
  - pose proof (edge_left_not_last _ _ _ _ Hnd1 Hxy) as Hx. pose proof Hxy as Hxy'. rewrite <- E1 in Hxy'.
    apply edge_right in Hxy'. rewrite (decide_False (P := x = p)) by done.
    rewrite (decide_False (P := y = n)) by (by apply Hne). apply Hold. by left.
  - by rewrite !decide_True.
  - destruct (Hold x y (or_intror Hxy)) as [Hx Hy].
    assert (Hxin : x ∈ o2 ∧ y ≠ n).
    { destruct o2 as [|n' o2]; cbn in E2; injection E2 as -> <-; [set_solver|].
      apply list.NoDup_cons in Hnd as [Hh Hnd]. apply list.NoDup_app in Hnd as (_ & _ & Hnd).
      apply list.NoDup_cons in Hnd as [_ Hnd]. change (n :: o2 ++ [h]) with ((n :: o2) ++ [h]) in Hxy. split.
      - pose proof (edge_left _ _ _ Hxy) as Hin. apply elem_of_app in Hin as [Hin|Hin]; [done|].
        exfalso. apply (edge_left_not_last x y (n :: o2) h); [|done|set_solver].
        apply list.NoDup_app. split; [done|]. split; [set_solver|apply NoDup_singleton].
      - intros ->. apply edge_right in Hxy. apply list.NoDup_cons in Hnd as [Hn2 _].
        apply elem_of_app in Hxy as [?|?]; [done|set_solver]. }
    destruct Hxin as [Hxin Hyn]. rewrite (decide_False (P := y = n)) by done.
    rewrite decide_False; [done|]. intros ->. apply list.NoDup_cons in Hnd as [Hh Hnd].
    apply list.NoDup_app in Hnd as (_ & Hdis & _). assert (Hpin : p ∈ h :: o1) by (rewrite E1; set_solver).
    apply elem_of_cons in Hpin as [->|Hpin]; [set_solver|]. apply (Hdis p Hpin). set_solver.
Qed.

Lemma dll_front o b : NoDup (h :: o) → b ∉ h :: o → dll nxt prv h o →
  dll (fupd (fupd nxt b (nxt h)) h b) (fupd (fupd prv b h) (nxt h) b) h (b :: o).
Proof using.
  intros Hnd Hb Hd. assert (exists n l, o ++ [h] = n :: l) as (n & l & E) by (destruct o; [by exists h, []|by exists n, (o ++ [h])]).
  assert (Hn : nxt h = n ∧ prv n = h) by (apply Hd; cbn; rewrite E; apply (edges_mid [])).
  destruct Hn as [-> _]. intros x y Hxy. cbn in Hxy. rewrite E in Hxy. rewrite !edges_cons in Hxy.
  assert (Hnb : n ≠ b) by (intros ->; apply Hb; assert (Hn : b ∈ o ++ [h]) by (rewrite E; set_solver); set_solver).
  unfold fupd. apply elem_of_cons in Hxy as [[= -> ->]|[[= -> ->]|Hxy]%elem_of_cons].
  - rewrite decide_True by done. split; [done|]. rewrite decide_False by done. by rewrite decide_True.
  - rewrite decide_False by set_solver. rewrite decide_True by done. split; [done|]. by rewrite decide_True.
  - assert (Hold : nxt x = y ∧ prv y = x) by (apply Hd; cbn; rewrite E, edges_cons; set_solver).
    assert (Hx : x ∈ o ∧ y ≠ n ∧ y ≠ b ∧ x ≠ h).
    { apply list.NoDup_cons in Hnd as [Hh Hnd]. destruct o as [|n' o]; cbn in E; injection E as -> <-; [set_solver|].
      change (n :: o ++ [h]) with ((n :: o) ++ [h]) in Hxy.
      assert (Hxh : x ≠ h) by (apply (edge_left_not_last x y (n :: o) h); [apply list.NoDup_app; split; [done|]; split; [set_solver|apply NoDup_singleton]|done]).
      pose proof (edge_left _ _ _ Hxy) as Hin. apply edge_right in Hxy. apply list.NoDup_cons in Hnd as [Hn2 Hnd].
      split; [set_solver|]. split; [|split; [|done]]; intros ->; apply elem_of_app in Hxy as [?|?]; set_solver. }
    destruct Hx as (Hxo & Hyn & Hyb & Hxh). rewrite (decide_False (P := x = h)), (decide_False (P := x = b)) by set_solver.
    by rewrite (decide_False (P := y = n)), (decide_False (P := y = b)) by done.
Qed.
End unlink.
