(* ===== verification/CString.v ===== *)
(** * CString: the kernel and user string routines over flat memory

    [string.c] (kernel) and the string half of [ulib.c] (user), translated
    loop by loop; [itoa] of [fs.c], which names the swap files, is here too.
    Loops bounded by a count recurse on it; loops that stop at a NUL take
    fuel, and the theorems about them give the fuel that is enough. *)

From S2P Require Import Prelude.

(** ** Definitions *)

(** *** x86.h: [rep stosb] and [rep stosl] *)
Fixpoint stosb_loop (m : mem) (a c : Z) (cnt : nat) : mem :=
  match cnt with
  | O => m
  | S cnt => stosb_loop (upd m a (u8 c)) (a + 1) c cnt
  end.
Definition stosb (m : mem) (a c cnt : Z) : mem := stosb_loop m a c (Z.to_nat cnt).

Fixpoint stosl_loop (m : mem) (a data : Z) (cnt : nat) : mem :=
  match cnt with
  | O => m
  | S cnt => stosl_loop (store32 m a data) (a + 4) data cnt
  end.
Definition stosl (m : mem) (a data cnt : Z) : mem := stosl_loop m a data (Z.to_nat cnt).

(** *** string.c *)
Definition memset (m : mem) (dst c n : Z) : mem :=
  if (dst mod 4 =? 0) && (n mod 4 =? 0) then
    let c := Z.land c 0xFF in
    stosl m dst
      (Z.lor (Z.lor (Z.lor (Z.shiftl c 24) (Z.shiftl c 16)) (Z.shiftl c 8)) c)
      (n / 4)
  else stosb m dst c n.

Fixpoint memcmp_loop (m : mem) (s1 s2 : Z) (n : nat) : Z :=
  match n with
  | O => 0
  | S n => if m s1 =? m s2 then memcmp_loop m (s1 + 1) (s2 + 1) n else m s1 - m s2
  end.
Definition memcmp (m : mem) (v1 v2 n : Z) : Z := memcmp_loop m v1 v2 (Z.to_nat n).

Fixpoint copy_up (m : mem) (d s : Z) (n : nat) : mem :=
  match n with
  | O => m
  | S n => copy_up (upd m d (m s)) (d + 1) (s + 1) n
  end.
Fixpoint copy_down (m : mem) (d s : Z) (n : nat) : mem :=
  match n with
  | O => m
  | S n => copy_down (upd m (d - 1) (m (s - 1))) (d - 1) (s - 1) n
  end.
Definition memmove (m : mem) (dst src n : Z) : mem :=
  if (src <? dst) && (dst <? src + n) then copy_down m (dst + n) (src + n) (Z.to_nat n)
  else copy_up m dst src (Z.to_nat n).
Definition memcpy (m : mem) (dst src n : Z) : mem := memmove m dst src n.

Fixpoint strncmp_loop (m : mem) (p q : Z) (n : nat) : Z :=
  match n with
  | O => 0
  | S n' =>
      if negb (m p =? 0) && (m p =? m q) then strncmp_loop m (p + 1) (q + 1) n'
      else m p - m q
  end.
Definition strncmp (m : mem) (p q n : Z) : Z := strncmp_loop m p q (Z.to_nat n).

Fixpoint zero_loop (m : mem) (s : Z) (n : nat) : mem :=
  match n with
  | O => m
  | S n => zero_loop (upd m s 0) (s + 1) n
  end.
Fixpoint strncpy_loop (m : mem) (s t : Z) (n : nat) : mem :=
  match n with
  | O => m
  | S n =>
      let c := m t in
      let m := upd m s c in
      if c =? 0 then zero_loop m (s + 1) n else strncpy_loop m (s + 1) (t + 1) n
  end.
Definition strncpy (m : mem) (s t n : Z) : mem := strncpy_loop m s t (Z.to_nat n).

(** The copy loop of [safestrcpy], with [n - 1] characters left to copy. *)
Fixpoint safestrcpy_loop (m : mem) (s t : Z) (n : nat) : mem :=
  match n with
  | O => upd m s 0
  | S n =>
      let c := m t in
      let m := upd m s c in
      if c =? 0 then upd m (s + 1) 0 else safestrcpy_loop m (s + 1) (t + 1) n
  end.
Definition safestrcpy (m : mem) (s t n : Z) : mem :=
  if n <=? 0 then m else safestrcpy_loop m s t (Z.to_nat (n - 1)).

Fixpoint strlen (fuel : nat) (m : mem) (s : Z) : option Z :=
  match fuel with
  | O => None
  | S fuel => if m s =? 0 then Some 0 else Z.succ <$> strlen fuel m (s + 1)
  end.

(** *** ulib.c *)
Fixpoint strcpy (fuel : nat) (m : mem) (s t : Z) : option mem :=
  match fuel with
  | O => None
  | S fuel =>
      let c := m t in
      let m := upd m s c in
      if c =? 0 then Some m else strcpy fuel m (s + 1) (t + 1)
  end.

Fixpoint strcmp (fuel : nat) (m : mem) (p q : Z) : option Z :=
  match fuel with
  | O => None
  | S fuel =>
      if negb (m p =? 0) && (m p =? m q) then strcmp fuel m (p + 1) (q + 1)
      else Some (m p - m q)
  end.

(** [strchr]: the address of the first [c], or 0 *)
Fixpoint strchr (fuel : nat) (m : mem) (s c : Z) : option Z :=
  match fuel with
  | O => None
  | S fuel =>
      if m s =? 0 then Some 0 else if m s =? c then Some s else strchr fuel m (s + 1) c
  end.

Fixpoint atoi_loop (fuel : nat) (m : mem) (s n : Z) : option Z :=
  match fuel with
  | O => None
  | S fuel =>
      if (48 <=? s8 (m s)) && (s8 (m s) <=? 57)
      then atoi_loop fuel m (s + 1) (s32 (n * 10 + s8 (m s) - 48))
      else Some n
  end.
Definition atoi (fuel : nat) (m : mem) (s : Z) : option Z := atoi_loop fuel m s 0.

(** [ulib.c] has its own [memset] (always [stosb]) and a forward-only [memmove]. *)
Definition ulib_memset (m : mem) (dst c n : Z) : mem := stosb m dst c n.
Definition ulib_memmove (m : mem) (vdst vsrc n : Z) : mem := copy_up m vdst vsrc (Z.to_nat n).

(** *** fs.c: [itoa], the digits of the process id in a swap file's name.
    [do { ++p; shifter = shifter/10; } while(shifter);] then backwards. *)
Fixpoint itoa_width (fuel : nat) (shifter p : Z) : option Z :=
  match fuel with
  | O => None
  | S fuel =>
      let p := p + 1 in
      let shifter := shifter ÷ 10 in
      if shifter =? 0 then Some p else itoa_width fuel shifter p
  end.
Fixpoint itoa_digits (fuel : nat) (m : mem) (i p : Z) : option mem :=
  match fuel with
  | O => None
  | S fuel =>
      let p := p - 1 in
      let m := upd m p (48 + Z.rem i 10) in
      let i := i ÷ 10 in
      if i =? 0 then Some m else itoa_digits fuel m i p
  end.
Definition itoa (fuel : nat) (m : mem) (i b : Z) : option mem :=
  let '(m, i, p) :=
    if i <? 0 then (upd m b 45, s32 (i * -1), b + 1) else (m, i, b) in
  p ← itoa_width fuel i p;
  itoa_digits fuel (upd m p 0) i p.

(** ** Arrays inside structures

    Where the destination or the source of a copy is a [char] array that is a
    field of a structure, the components keep it as a list; these versions of
    the routines act on such blocks, [None] being an access past the end. *)

(** [*s = c] at index [i] of a block *)
Definition blk_set (d : list Z) (i : nat) (c : Z) : option (list Z) :=
  if decide (i < length d)%nat then Some (<[i:=c]> d) else None.

Fixpoint blk_zero (d : list Z) (i n : nat) : option (list Z) :=
  match n with
  | O => Some d
  | S n => d ← blk_set d i 0; blk_zero d (S i) n
  end.
Fixpoint blk_strncpy_loop (d : list Z) (i : nat) (t : list Z) (n : nat) {struct n} : option (list Z) :=
  match n, t with
  | O, _ => Some d
  | S _, [] => None
  | S n, c :: t =>
      d ← blk_set d i c;
      if c =? 0 then blk_zero d (S i) n else blk_strncpy_loop d (S i) t n
  end.
Definition blk_strncpy (d t : list Z) (n : Z) : option (list Z) :=
  blk_strncpy_loop d 0 t (Z.to_nat n).

Fixpoint blk_strncmp_loop (p q : list Z) (n : nat) {struct n} : option Z :=
  match n with
  | O => Some 0
  | S n =>
      match p, q with
      | x :: p, y :: q =>
          if negb (x =? 0) && (x =? y) then blk_strncmp_loop p q n else Some (x - y)
      | _, _ => None
      end
  end.
Definition blk_strncmp (p q : list Z) (n : Z) : option Z := blk_strncmp_loop p q (Z.to_nat n).

(** [strlen] of a block: the index of its first NUL *)
Definition blk_strlen (s : list Z) : option Z := Z.of_nat <$> find_idx (Z.eqb 0) s.

(** ** Layouts: what the routines promise is stated on lists of bytes *)

(** The block [l] lies at address [a]. *)
Definition layout (m : mem) (a : Z) (l : list Z) : Prop :=
  ∀ i c, l !! i = Some c → m (a + Z.of_nat i) = c.

(** The NUL-terminated string [s] lies at address [a]. *)
Definition cstr (m : mem) (a : Z) (s : list Z) : Prop :=
  Forall (λ c, 0 < c < 2 ^ 8) s ∧ layout m a (s ++ [0]).

(** What [strncpy] leaves in the first [n] bytes of its destination. *)
Definition strncpy_result (s : list Z) (n : nat) : list Z :=
  take n s ++ replicate (n - length s) 0.

(** A source the copy of [n] bytes cannot leave: long enough or terminated. *)
Definition src_ok (t : list Z) (n : Z) : Prop := n <= Z.of_nat (length t) ∨ 0 ∈ t.

(** ** Copying *)

Ltac mem_cases :=
  unfold blit, fill, upd in *;
  repeat match goal with
         | |- context [if ?b then _ else _] => destruct b eqn:?
         | H : context [if ?b then _ else _] |- _ => destruct b eqn:?
         end.

Lemma copy_up_blit m d s n b :
  d <= s ∨ s + Z.of_nat n <= d → copy_up m d s n b = blit m d s (Z.of_nat n) b.
Proof.
  revert m d s. induction n as [|n IH]; intros m d s H; cbn [copy_up].
  - mem_cases; try done; lia.
  - rewrite IH by lia. mem_cases; try (f_equal; lia); lia.
Qed.

Lemma copy_down_blit m d s n b :
  s <= d → copy_down m d s n b = blit m (d - Z.of_nat n) (s - Z.of_nat n) (Z.of_nat n) b.
Proof.
  revert m d s. induction n as [|n IH]; intros m d s H; cbn [copy_down].
  - mem_cases; try done; lia.
  - rewrite IH by lia. mem_cases; try (f_equal; lia); lia.
Qed.

(** [memmove] copies correctly however the two blocks overlap: the result is
    as if every source byte had been read before the first write. *)
Theorem memmove_blit m dst src n b :
  0 <= n → memmove m dst src n b = blit m dst src n b.
Proof.
  intros Hn. unfold memmove. destruct (_ && _) eqn:E.
  - rewrite copy_down_blit by lia. rewrite Z2Nat.id by lia. f_equal; lia.
  - rewrite copy_up_blit by lia. by rewrite Z2Nat.id by lia.
Qed.

(** The user library's forward-only [memmove] is right exactly on the
    regions where the kernel's takes its forward branch. *)
Theorem ulib_memmove_forward m dst src n b :
  0 <= n → dst <= src ∨ src + n <= dst →
  ulib_memmove m dst src n b = memmove m dst src n b.
Proof.
  intros Hn H. rewrite memmove_blit by done. unfold ulib_memmove.
  rewrite copy_up_blit by lia. by rewrite Z2Nat.id by lia.
Qed.

Lemma stosb_loop_fill m a c n b : stosb_loop m a c n b = fill m a (u8 c) (Z.of_nat n) b.
Proof.
  revert m a. induction n as [|n IH]; intros m a; cbn [stosb_loop].
  - mem_cases; try done; lia.
  - rewrite IH. mem_cases; try done; lia.
Qed.

Lemma stosl_loop_fill m a v c n b :
  v = c * 0x01010101 → 0 <= c < 2 ^ 8 →
  stosl_loop m a v n b = fill m a c (4 * Z.of_nat n) b.
Proof.
  intros -> Hc. revert m a. induction n as [|n IH]; intros m a; cbn [stosl_loop].
  - mem_cases; try done; lia.
  - rewrite IH. unfold store32. mem_cases; try done; try lia; divlia.
Qed.

Lemma memset_word c : 0 <= c < 2 ^ 8 →
  Z.lor (Z.lor (Z.lor (Z.shiftl c 24) (Z.shiftl c 16)) (Z.shiftl c 8)) c = c * 0x01010101.
Proof.
  intros Hc.
  assert (H : forallb (λ n, let c := Z.of_nat n in
    Z.lor (Z.lor (Z.lor (Z.shiftl c 24) (Z.shiftl c 16)) (Z.shiftl c 8)) c =? c * 0x01010101)
    (seq 0 256) = true) by (vm_compute; reflexivity).
  rewrite forallb_forall in H. specialize (H (Z.to_nat c)).
  rewrite Z2Nat.id in H by lia. apply Z.eqb_eq, H, in_seq. lia.
Qed.

(** [memset], whichever of its two store loops it takes, writes the low byte
    of [c] to the [n] bytes at [dst] and nothing else. *)
Theorem memset_fill m dst c n b :
  0 <= n → memset m dst c n b = fill m dst (u8 c) n b.
Proof.
  intros Hn. unfold memset. destruct (_ && _) eqn:E.
  - replace (Z.land c 255) with (u8 c) by (change 255 with (Z.ones 8); by rewrite Z.land_ones by lia).
    assert (0 <= u8 c < 2 ^ 8) by (apply Z.mod_pos_bound; lia).
    unfold stosl. rewrite memset_word by done. rewrite (stosl_loop_fill _ _ _ (u8 c)) by done.
    f_equal. rewrite Z2Nat.id by (apply Z.div_pos; lia). divlia.
  - unfold stosb. rewrite stosb_loop_fill. by rewrite Z2Nat.id by lia.
Qed.

(** ** Strings *)

Lemma cstr_nil m a : cstr m a [] → m a = 0.
Proof. intros [_ H]. specialize (H 0%nat 0 eq_refl). by rewrite Z.add_0_r in H. Qed.

Lemma cstr_cons m a c s : cstr m a (c :: s) → m a = c ∧ 0 < c < 2 ^ 8 ∧ cstr m (a + 1) s.
Proof.
  intros [Hs H]. apply Forall_cons_iff in Hs as [Hc Hs]. split; [|split; [done|split; [done|]]].
  - specialize (H 0%nat c eq_refl). by rewrite Z.add_0_r in H.
  - intros i x Hx. etrans; [|apply (H (S i) x Hx)]. f_equal. lia.
Qed.

Lemma cstr_frame m m' a s :
  cstr m a s → (∀ b, a <= b <= a + Z.of_nat (length s) → m' b = m b) → cstr m' a s.
Proof.
  intros [Hs H] Hm. split; [done|]. intros i c Hi.
  pose proof (lookup_lt_Some _ _ _ Hi) as Hlt. rewrite length_app in Hlt. simpl in Hlt.
  rewrite Hm by lia. by apply H.
Qed.

Lemma cstr_intro_cons m a c s : 0 < c < 2 ^ 8 → m a = c → cstr m (a + 1) s → cstr m a (c :: s).
Proof.
  intros Hc Ha [Hs H]. split; [by constructor|]. intros [|i] x Hx; simpl in Hx.
  - injection Hx as <-. by rewrite Z.add_0_r.
  - etrans; [|apply (H i x Hx)]. f_equal. lia.
Qed.

Lemma cstr_intro_nil m a : m a = 0 → cstr m a [].
Proof.
  intros H. split; [constructor|]. intros [|i] x Hx; simpl in Hx; [|done].
  injection Hx as <-. by rewrite Z.add_0_r.
Qed.

Lemma zero_loop_fill m s n b : zero_loop m s n b = fill m s 0 (Z.of_nat n) b.
Proof.
  revert m s. induction n as [|n IH]; intros m s; cbn [zero_loop].
  - mem_cases; try done; lia.
  - rewrite IH. mem_cases; try done; lia.
Qed.

Lemma strncpy_loop_spec n m s t str b :
  cstr m t str → s + Z.of_nat n <= t ∨ t + Z.of_nat (length str) + 1 <= s →
  strncpy_loop m s t n b =
    if (s <=? b) && (b <? s + Z.of_nat n) then default 0 (str !! Z.to_nat (b - s)) else m b.
Proof.
  revert m s t str. induction n as [|n IH]; intros m s t str Hstr Hdisj; cbn [strncpy_loop].
  { mem_cases; [lia|done]. }
  destruct str as [|c str].
  - rewrite (cstr_nil _ _ Hstr), Z.eqb_refl. rewrite zero_loop_fill. mem_cases; try done; lia.
  - apply cstr_cons in Hstr as (Hc & Hr & Hstr). simpl in Hdisj.
    rewrite Hc. destruct (Z.eqb_spec c 0) as [|_]; [lia|].
    rewrite (IH _ _ _ str) by
      (first [lia | eapply cstr_frame; [done|]; intros b' Hb'; mem_cases; [lia|done]]).
    mem_cases; try done; try lia.
    + replace (Z.to_nat (b - s)) with (S (Z.to_nat (b - (s + 1)))) by lia. done.
    + replace (Z.to_nat (b - s)) with 0%nat by lia. done.
Qed.

(** [strncpy] writes exactly the [n] bytes of its destination: the string up
    to its NUL or the bound, then zeros; a negative count writes nothing. *)
Theorem strncpy_spec m s t n str :
  cstr m t str → s + n <= t ∨ t + Z.of_nat (length str) + 1 <= s →
  layout (strncpy m s t n) s (strncpy_result str (Z.to_nat n)) ∧
  (∀ b, b < s ∨ s + n <= b → strncpy m s t n b = m b).
Proof.
  intros Hstr Hdisj. unfold strncpy. destruct (Z.le_gt_cases n 0) as [Hn|Hn].
  { replace (Z.to_nat n) with 0%nat by lia. split; [|done]. by intros i c Hi. }
  split.
  - intros i c Hi. rewrite (strncpy_loop_spec _ _ _ _ str) by (done || lia).
    pose proof (lookup_lt_Some _ _ _ Hi) as Hlt.
    unfold strncpy_result in *. rewrite length_app, length_take, length_replicate in Hlt.
    destruct (_ && _) eqn:E; [|lia].
    replace (Z.to_nat (s + Z.of_nat i - s)) with i by lia.
    destruct (decide (i < length str)%nat) as [Hi'|Hi'].
    + rewrite lookup_app_l in Hi by (rewrite length_take; lia).
      rewrite lookup_take_lt in Hi by lia. by rewrite Hi.
    + rewrite lookup_app_r in Hi by (rewrite length_take; lia).
      apply lookup_replicate in Hi as [-> _]. by rewrite (lookup_ge_None_2 str) by lia.
  - intros b Hb. rewrite (strncpy_loop_spec _ _ _ _ str) by (done || lia).
    destruct (_ && _) eqn:E; [lia|done].
Qed.

Lemma strncmp_loop_spec n m p q a b :
  cstr m p a → cstr m q b → (strncmp_loop m p q n = 0 ↔ take n a = take n b).
Proof.
  revert p q a b. induction n as [|n IH]; intros p q a b Ha Hb; cbn [strncmp_loop]; [done|].
  destruct a as [|x a], b as [|y b].
  - rewrite (cstr_nil _ _ Ha), (cstr_nil _ _ Hb). done.
  - apply cstr_cons in Hb as (Hy & ? & _). rewrite (cstr_nil _ _ Ha), Hy. simpl.
    split; [lia|done].
  - apply cstr_cons in Ha as (Hx & ? & _). rewrite (cstr_nil _ _ Hb), Hx.
    destruct (_ && _) eqn:E; [lia|]. simpl. split; [lia|done].
  - apply cstr_cons in Ha as (Hx & ? & Ha), Hb as (Hy & ? & Hb). rewrite Hx, Hy.
    destruct (_ && _) eqn:E; simpl.
    + assert (x = y) as -> by lia. rewrite (IH _ _ a b) by done.
      split; [by intros ->|by intros [=]].
    + split; [lia|]. intros [=]. lia.
Qed.

Lemma strlen_spec fuel m s str :
  cstr m s str → (length str < fuel)%nat → strlen fuel m s = Some (Z.of_nat (length str)).
Proof.
  revert s str. induction fuel as [|fuel IH]; intros s str Hs Hf; [lia|]. cbn [strlen].
  destruct str as [|c str].
  - by rewrite (cstr_nil _ _ Hs), Z.eqb_refl.
  - apply cstr_cons in Hs as (-> & ? & Hs). destruct (Z.eqb_spec c 0); [lia|].
    simpl in Hf. rewrite (IH _ str) by (done || lia). simpl. f_equal. lia.
Qed.

Lemma safestrcpy_loop_spec n m s t str :
  cstr m t str → s + Z.of_nat n + 1 <= t ∨ t + Z.of_nat (length str) + 1 <= s →
  cstr (safestrcpy_loop m s t n) s (take n str) ∧
  (∀ b, b < s ∨ s + Z.of_nat n + 1 <= b → safestrcpy_loop m s t n b = m b).
Proof.
  revert m s t str. induction n as [|n IH]; intros m s t str Hstr Hdisj; cbn [safestrcpy_loop].
  { split; [apply cstr_intro_nil|intros b Hb]; mem_cases; lia || done. }
  destruct str as [|c str].
  - rewrite (cstr_nil _ _ Hstr), Z.eqb_refl. split; [apply cstr_intro_nil|intros b Hb]; mem_cases; lia || done.
  - apply cstr_cons in Hstr as (Hc & Hr & Hstr). simpl in Hdisj.
    rewrite Hc. destruct (Z.eqb_spec c 0) as [|_]; [lia|].
    destruct (IH (upd m s c) (s + 1) (t + 1) str) as [IH1 IH2]; [|lia|].
    { eapply cstr_frame; [done|]. intros b' Hb'. mem_cases; [lia|done]. }
    split.
    + apply cstr_intro_cons; [done| |done]. rewrite IH2 by lia. mem_cases; [done|lia].
    + intros b Hb. rewrite IH2 by lia. mem_cases; [lia|done].
Qed.

(** [safestrcpy] always leaves a NUL-terminated string, the longest prefix of
    the source that fits, and writes only the [n] bytes it was given. *)
Theorem safestrcpy_spec m s t n str :
  0 < n → cstr m t str → s + n <= t ∨ t + Z.of_nat (length str) + 1 <= s →
  cstr (safestrcpy m s t n) s (take (Z.to_nat (n - 1)) str) ∧
  (∀ b, b < s ∨ s + n <= b → safestrcpy m s t n b = m b).
Proof.
  intros Hn Hstr Hdisj. unfold safestrcpy. destruct (Z.leb_spec n 0); [lia|].
  destruct (safestrcpy_loop_spec (Z.to_nat (n - 1)) m s t str) as [H1 H2]; [done|lia|].
  split; [done|]. intros b Hb. apply H2. lia.
Qed.

(** ** Decimal conversion *)

(** [i] is written with [k] decimal digits. *)
Definition ndigits (k : nat) (i : Z) : Prop :=
  (1 <= k)%nat ∧ 0 <= i < 10 ^ Z.of_nat k ∧ (k = 1%nat ∨ 10 ^ (Z.of_nat k - 1) <= i).

Lemma ndigits_exists n i :
  (1 <= n)%nat → 0 <= i < 10 ^ Z.of_nat n → ∃ k, (k <= n)%nat ∧ ndigits k i.
Proof.
  intros Hn Hi. induction n as [|n IH]; [lia|]. destruct (decide (n = 0%nat)) as [->|].
  - exists 1%nat. unfold ndigits. lia.
  - destruct (decide (i < 10 ^ Z.of_nat n)).
    + destruct IH as (k & ? & ?); [lia..|]. exists k. split; [lia|done].
    + exists (S n). unfold ndigits. replace (Z.of_nat (S n) - 1) with (Z.of_nat n) by lia. lia.
Qed.

Lemma ndigits_div k i : ndigits (S (S k)) i → ndigits (S k) (i ÷ 10) ∧ i ÷ 10 ≠ 0.
Proof.
  unfold ndigits. intros (_ & Hi & Hd). rewrite Z.quot_div_nonneg by lia.
  replace (Z.of_nat (S (S k)) - 1) with (Z.of_nat (S k)) in Hd by lia.
  replace (Z.of_nat (S k) - 1) with (Z.of_nat k) by lia.
  replace (Z.of_nat (S (S k))) with (Z.of_nat (S k) + 1) in * by lia.
  rewrite Z.pow_add_r in Hi by lia.
  assert (Hp : 10 ^ Z.of_nat (S k) = 10 ^ Z.of_nat k * 10)
    by (replace (Z.of_nat (S k)) with (Z.of_nat k + 1) by lia; by rewrite Z.pow_add_r by lia).
  assert (0 < 10 ^ Z.of_nat k) by lia. split; [|divlia]. split; [lia|]. split; [divlia|].
  right. divlia.
Qed.

Lemma ndigits_one i : ndigits 1 i → 0 <= i < 10 ∧ i ÷ 10 = 0.
Proof. unfold ndigits. intros (_ & Hi & _). split; [lia|]. apply Z.quot_small. lia. Qed.

Lemma itoa_width_spec k fuel i p :
  ndigits k i → (k <= fuel)%nat → itoa_width fuel i p = Some (p + Z.of_nat k).
Proof.
  revert fuel i p. induction k as [|k IH]; intros fuel i p Hd Hf.
  { destruct Hd. lia. }
  destruct fuel as [|fuel]; [lia|]. cbn [itoa_width]. destruct k as [|k].
  - destruct (ndigits_one _ Hd) as [_ ->]. done.
  - destruct (ndigits_div _ _ Hd) as [Hd' Hnz]. destruct (Z.eqb_spec (i ÷ 10) 0); [done|].
    rewrite IH by (done || lia). f_equal. lia.
Qed.

Lemma itoa_digits_spec k : ∀ fuel m i p,
  ndigits k i → (k <= fuel)%nat →
  ∃ m', itoa_digits fuel m i p = Some m' ∧
    (∀ b, b < p - Z.of_nat k ∨ p <= b → m' b = m b) ∧
    (∀ f acc, 0 <= acc → acc * 10 ^ Z.of_nat k + i < 2 ^ 31 →
      atoi_loop (k + f) m' (p - Z.of_nat k) acc =
      atoi_loop f m' p (acc * 10 ^ Z.of_nat k + i)).
Proof.
  induction k as [|k IH]; intros fuel m i p Hd Hf.
  { destruct Hd. lia. }
  destruct fuel as [|fuel]; [lia|]. cbn [itoa_digits].
  assert (Hi : 0 <= i) by (unfold ndigits in Hd; lia).
  assert (Hstep : ∀ m' f acc, 0 <= acc → acc * 10 + Z.rem i 10 < 2 ^ 31 →
    m' (p - 1) = 48 + Z.rem i 10 →
    atoi_loop (S f) m' (p - 1) acc = atoi_loop f m' p (acc * 10 + Z.rem i 10)).
  { intros m' f acc Hacc Hlt Hm. assert (0 <= Z.rem i 10 < 10) by (apply Z.rem_bound_pos; lia).
    cbn [atoi_loop]. rewrite Hm. unfold s8. rewrite Z.mod_small by lia.
    destruct (_ && _) eqn:E; [|lia]. rewrite s32_small by lia. f_equal; lia. }
  destruct k as [|k].
  - destruct (ndigits_one _ Hd) as [Hlt ->]. rewrite Z.eqb_refl.
    assert (Hrem : Z.rem i 10 = i) by (apply Z.rem_small; lia).
    eexists. split; [done|]. split; [intros b Hb; mem_cases; [lia|done]|].
    intros f acc Hacc Hb. change (Z.of_nat 1) with 1 in *. change (1 + f)%nat with (S f).
    rewrite Hstep; rewrite ?Hrem; [f_equal; lia|lia|lia|]. mem_cases; [done|lia].
  - destruct (ndigits_div _ _ Hd) as [Hd' Hnz]. destruct (Z.eqb_spec (i ÷ 10) 0); [done|].
    destruct (IH fuel (upd m (p - 1) (48 + Z.rem i 10)) (i ÷ 10) (p - 1) Hd' ltac:(lia))
      as (m' & -> & Hframe & Hval).
    exists m'. split; [done|]. split.
    { intros b Hb. rewrite Hframe by lia. mem_cases; [lia|done]. }
    intros f acc Hacc Hb.
    assert (Hq : i = 10 * (i ÷ 10) + Z.rem i 10) by (apply Z.quot_rem'; lia).
    assert (0 <= Z.rem i 10 < 10) by (apply Z.rem_bound_pos; lia).
    assert (Hp : 10 ^ Z.of_nat (S (S k)) = 10 ^ Z.of_nat (S k) * 10)
      by (replace (Z.of_nat (S (S k))) with (Z.of_nat (S k) + 1) by lia; by rewrite Z.pow_add_r by lia).
    assert (0 < 10 ^ Z.of_nat (S k)) by lia.
    rewrite Hp in *.
    replace (S (S k) + f)%nat with (S k + S f)%nat by lia.
    replace (p - Z.of_nat (S (S k))) with (p - 1 - Z.of_nat (S k)) by lia.
    rewrite Hval by lia. rewrite Hstep; [f_equal; lia|lia|lia|].
    rewrite Hframe by lia. mem_cases; [done|lia].
Qed.

(** Round trip: for every non-negative [int], [itoa] terminates within ten
    digits, writes only the digits and their NUL, and [atoi] reads the number
    back. *)
Theorem itoa_atoi m i b :
  0 <= i < 2 ^ 31 →
  ∃ m' k, itoa 10 m i b = Some m' ∧ (1 <= k <= 10)%nat ∧ atoi 11 m' b = Some i ∧
    m' (b + Z.of_nat k) = 0 ∧ (∀ a, a < b ∨ b + Z.of_nat k < a → m' a = m a).
Proof.
  intros Hi. destruct (ndigits_exists 10 i) as (k & Hk & Hd); [lia..|].
  unfold itoa. destruct (Z.ltb_spec i 0); [lia|].
  rewrite (itoa_width_spec k) by (done || lia). cbn [mbind option_bind].
  destruct (itoa_digits_spec k 10 (upd m (b + Z.of_nat k) 0) i (b + Z.of_nat k) Hd ltac:(lia))
    as (m' & -> & Hframe & Hval).
  assert (Hnul : m' (b + Z.of_nat k) = 0) by (rewrite Hframe by lia; mem_cases; [done|lia]).
  exists m', k. split; [done|]. split; [destruct Hd; lia|]. split; [|split; [done|]].
  - specialize (Hval (11 - k)%nat 0 ltac:(lia) ltac:(lia)).
    replace (b + Z.of_nat k - Z.of_nat k) with b in Hval by lia.
    replace (k + (11 - k))%nat with 11%nat in Hval by lia.
    unfold atoi. rewrite Hval. replace (11 - k)%nat with (S (10 - k)) by lia.
    cbn [atoi_loop]. rewrite Hnul. reflexivity.
  - intros a Ha. rewrite Hframe by lia. mem_cases; [lia|done].
Qed.

(** ** Block copies *)

Lemma layout_upd_insert m a (d : list Z) i c :
  layout m a d → (i < length d)%nat → layout (upd m (a + Z.of_nat i) c) a (<[i:=c]> d).
Proof.
  intros H Hi j x Hx. unfold upd. destruct (decide (i = j)) as [->|].
  - rewrite list_lookup_insert_eq in Hx by done. injection Hx as <-. by rewrite Z.eqb_refl.
  - rewrite list_lookup_insert_ne in Hx by done.
    destruct (Z.eqb_spec (a + Z.of_nat j) (a + Z.of_nat i)); [lia|]. by apply H.
Qed.

Lemma blk_zero_flat n m a d i d' :
  layout m a d → blk_zero d i n = Some d' →
  layout (zero_loop m (a + Z.of_nat i) n) a d' ∧ length d' = length d.
Proof.
  revert m d i. induction n as [|n IH]; intros m d i Hl H; cbn [blk_zero zero_loop] in *.
  { by injection H as <-. }
  unfold blk_set in H. destruct (decide _) as [Hi|]; [|done]. simpl in H.
  destruct (IH (upd m (a + Z.of_nat i) 0) (<[i:=0]> d) (S i)) as [H1 H2];
    [by apply layout_upd_insert|done|].
  split; [|by rewrite H2, length_insert].
  replace (a + Z.of_nat i + 1) with (a + Z.of_nat (S i)) by lia. done.
Qed.

Lemma blk_strncpy_loop_flat n m a b d i t d' :
  layout m a d → layout m b t → a + Z.of_nat (length d) <= b ∨ b + Z.of_nat (length t) <= a →
  blk_strncpy_loop d i t n = Some d' →
  layout (strncpy_loop m (a + Z.of_nat i) b n) a d' ∧ length d' = length d.
Proof.
  revert m b d i t. induction n as [|n IH]; intros m b d i t Hd Ht Hdisj H;
    cbn [blk_strncpy_loop strncpy_loop] in *.
  { by injection H as <-. }
  destruct t as [|c t]; [done|]. simpl in Hdisj.
  unfold blk_set in H. destruct (decide _) as [Hi|]; [|done]. simpl in H.
  assert (Hc : m b = c) by (rewrite <- (Z.add_0_r b); by apply (Ht 0%nat)).
  rewrite Hc. pose proof (layout_upd_insert m a d i c Hd Hi) as Hd'.
  replace (a + Z.of_nat i + 1) with (a + Z.of_nat (S i)) by lia.
  destruct (c =? 0) eqn:E.
  - destruct (blk_zero_flat _ _ _ _ _ _ Hd' H) as [? ->]. by rewrite length_insert.
  - destruct (IH (upd m (a + Z.of_nat i) c) (b + 1) (<[i:=c]> d) (S i) t) as [? ->];
      [done| |rewrite length_insert; lia|done|by rewrite length_insert].
    intros j x Hx. pose proof (lookup_lt_Some _ _ _ Hx). mem_cases; [lia|].
    etrans; [|apply (Ht (S j) x Hx)]. f_equal. lia.
Qed.

(** The block version of [strncpy] is the flat one wherever it is defined. *)
Theorem blk_strncpy_flat m a b d t n d' :
  layout m a d → layout m b t → a + Z.of_nat (length d) <= b ∨ b + Z.of_nat (length t) <= a →
  blk_strncpy d t n = Some d' →
  layout (strncpy m a b n) a d' ∧ length d' = length d.
Proof.
  intros Hd Ht Hdisj H. unfold strncpy. rewrite <- (Z.add_0_r a) at 1.
  by apply (blk_strncpy_loop_flat _ m a b d 0 t).
Qed.

Lemma blk_zero_ok n d i : (i + n <= length d)%nat →
  blk_zero d i n = Some (take i d ++ replicate n 0 ++ drop (i + n) d).
Proof.
  revert d i. induction n as [|n IH]; intros d i Hi; cbn [blk_zero].
  { rewrite Nat.add_0_r. cbn. by rewrite take_drop. }
  unfold blk_set. rewrite decide_True by lia. cbn [mbind option_bind].
  rewrite IH by (rewrite length_insert; lia). f_equal.
  rewrite drop_insert_lt by lia. rewrite (take_S_r _ _ 0) by (apply list_lookup_insert_eq; lia).
  rewrite take_insert_ge by lia. rewrite <- app_assoc. cbn. do 3 f_equal. f_equal. lia.
Qed.

Lemma blk_strncpy_loop_ok n d i t : (i + n <= length d)%nat → src_ok t (Z.of_nat n) →
  ∃ d', blk_strncpy_loop d i t n = Some d' ∧ length d' = length d ∧
    ∀ j, (j < i ∨ i + n <= j)%nat → d' !! j = d !! j.
Proof.
  revert d i t. induction n as [|n IH]; intros d i t Hi Ht; cbn [blk_strncpy_loop].
  { by exists d. }
  destruct t as [|c t]; [destruct Ht as [Ht|Ht]; [simpl in Ht; lia|set_solver]|].
  unfold blk_set. rewrite decide_True by lia. cbn [mbind option_bind].
  destruct (Z.eqb_spec c 0) as [->|Hc].
  - rewrite blk_zero_ok by (rewrite length_insert; lia). eexists. split; [done|].
    assert (length (<[i:=0]> d) = length d) as Hl by apply length_insert. split.
    + rewrite !length_app, length_take, length_replicate, length_drop. lia.
    + intros j Hj. rewrite drop_insert_lt by lia.
      destruct (decide (j < i)%nat) as [Hlt|Hge].
      * rewrite lookup_app_l by (rewrite length_take; lia).
        rewrite lookup_take_lt by lia. apply list_lookup_insert_ne. lia.
      * rewrite lookup_app_r by (rewrite length_take; lia).
        rewrite lookup_app_r by (rewrite length_take, length_replicate; lia).
        rewrite length_take, length_replicate, lookup_drop. f_equal. lia.
  - destruct (IH (<[i:=c]> d) (S i) t) as (d' & -> & Hl & Hj).
    + rewrite length_insert. lia.
    + destruct Ht as [Ht|Ht]; [left; simpl in Ht; lia|right; set_solver].
    + rewrite length_insert in Hl. exists d'. split; [done|]. split; [done|].
      intros j H. rewrite Hj by lia. apply list_lookup_insert_ne. lia.
Qed.

(** A copy within both bounds is defined and leaves the rest alone. *)
Lemma blk_strncpy_ok d t n : n <= Z.of_nat (length d) → src_ok t n →
  ∃ d', blk_strncpy d t n = Some d' ∧ length d' = length d ∧
    ∀ j, (Z.to_nat n <= j)%nat → d' !! j = d !! j.
Proof.
  intros Hd Ht. destruct (blk_strncpy_loop_ok (Z.to_nat n) d 0 t) as (d' & ? & ? & H).
  - lia.
  - destruct (decide (0 <= n)) as [H|H]; [by rewrite Z2Nat.id|].
    left. lia.
  - exists d'. split; [done|]. split; [done|]. intros j Hj. apply H. lia.
Qed.

Lemma blk_strncpy_loop_string n d i s rest :
  Forall (λ c, c ≠ 0) s → (i + n <= length d)%nat →
  blk_strncpy_loop d i (s ++ 0 :: rest) n =
    Some (take i d ++ strncpy_result s n ++ drop (i + n) d).
Proof.
  intros Hs. revert n d i. induction Hs as [|c s Hc Hs IH]; intros n d i Hi.
  - destruct n as [|n]; cbn [blk_strncpy_loop app].
    { unfold strncpy_result. cbn. by rewrite Nat.add_0_r, take_drop. }
    change (0 =? 0) with true. cbv iota.
    change (d ← blk_set d i 0; blk_zero d (S i) n) with (blk_zero d i (S n)).
    rewrite blk_zero_ok by lia. unfold strncpy_result. by rewrite firstn_nil, Nat.sub_0_r.
  - destruct n as [|n]; cbn [blk_strncpy_loop app].
    { unfold strncpy_result. cbn. by rewrite Nat.add_0_r, take_drop. }
    unfold blk_set. rewrite decide_True by lia. cbn [mbind option_bind].
    destruct (Z.eqb_spec c 0); [done|]. rewrite IH by (rewrite length_insert; lia). f_equal.
    rewrite drop_insert_lt by lia. rewrite (take_S_r _ _ c) by (apply list_lookup_insert_eq; lia).
    rewrite take_insert_ge by lia. rewrite <- app_assoc.
    replace (S i + n)%nat with (i + S n)%nat by lia. done.
Qed.

(** Copying a string into a block: the string, cut or padded to [n] bytes,
    then what the block held. *)
Theorem blk_strncpy_string d s rest n :
  Forall (λ c, c ≠ 0) s → 0 <= n <= Z.of_nat (length d) →
  blk_strncpy d (s ++ 0 :: rest) n =
    Some (strncpy_result s (Z.to_nat n) ++ drop (Z.to_nat n) d).
Proof. intros Hs Hn. unfold blk_strncpy. by rewrite blk_strncpy_loop_string by (done || lia). Qed.

(** Comparing a terminated string, up to its length, with a literal. *)
Lemma blk_strncmp_loop_ok n p lit : (n <= length p)%nat → Forall (λ c, c ≠ 0) (take n p) →
  ∃ r, blk_strncmp_loop p (lit ++ [0]) n = Some r.
Proof.
  revert p lit. induction n as [|n IH]; intros p lit Hn Hp; cbn [blk_strncmp_loop]; [by eexists|].
  destruct p as [|x p]; [simpl in Hn; lia|]. apply Forall_cons_iff in Hp as [Hx Hp].
  destruct lit as [|y lit]; cbn [app].
  - destruct (Z.eqb_spec x 0); [done|]. cbn. by eexists.
  - destruct (_ && _); [|by eexists]. apply IH; [simpl in Hn; lia|done].
Qed.

Lemma blk_strlen_string s rest :
  Forall (λ c, c ≠ 0) s → blk_strlen (s ++ 0 :: rest) = Some (Z.of_nat (length s)).
Proof.
  intros Hs. unfold blk_strlen.
  assert (find_idx (Z.eqb 0) (s ++ 0 :: rest) = Some (length s)) as ->; [|done].
  apply find_idx_Some. split; [exists 0; by rewrite list_lookup_middle|].
  intros j c Hj Hc. rewrite lookup_app_l in Hc by done.
  pose proof (Forall_lookup_1 _ _ _ _ Hs Hc). cbn in *. lia.
Qed.

Lemma blk_strlen_Some host len : blk_strlen host = Some len →
  0 <= len < Z.of_nat (length host) ∧ Forall (λ c, c ≠ 0) (take (Z.to_nat len) host).
Proof.
  unfold blk_strlen. intros (i & Hi & ->)%fmap_Some. rewrite Nat2Z.id.
  pose proof (find_idx_lt _ _ _ Hi). apply find_idx_Some in Hi as [_ Hj].
  split; [lia|]. apply Forall_lookup. intros j c Hc. apply lookup_take_Some in Hc as [Hc Hlt].
  specialize (Hj _ _ Hlt Hc). lia.
Qed.
