(* ===== verification/Kernel.v ===== *)
(** * Kernel: the kernel's data structures and its global state

    The structures of [proc.h], [sock.h], [file.h], [buf.h], [fs.h] and the
    file-level globals of the kernel's C files, with a setter per field
    ([set_f v r] is [r.f = v]). A pointer into a static table is the index of
    the entry, [None] being the null pointer; a pointer into physical memory
    is its (kernel virtual) address. The kernel has no other state: the
    record [kernel] collects the globals of all components. *)

From S2P Require Import Prelude.

(** ** Locks and sleep channels

    The addresses the kernel passes to [acquire] and to [sleep], one
    constructor per object. *)
Inductive sleeplock_id : Type :=
  | SlBuf (i : nat)
  | SlInode (i : nat).
#[export] Instance sleeplock_id_eq_dec : EqDecision sleeplock_id.
Proof. solve_decision. Defined.

Inductive lockid : Type :=
  | LkPtable | LkStable | LkKmem | LkTicks | LkFtable | LkIcache | LkBcache
  | LkLog | LkCons | LkIde
  | LkPipe (p : Z)
  | LkSleep (l : sleeplock_id).
#[export] Instance lockid_eq_dec : EqDecision lockid.
Proof. solve_decision. Defined.

Inductive chan : Type :=
  | ChSock (i : nat)          (* a socket *)
  | ChProc (i : nat)          (* a process, in wait() *)
  | ChTicks
  | ChLog
  | ChBuf (i : nat)           (* a buffer, in iderw() *)
  | ChLock (l : sleeplock_id)
  | ChPipeR (p : Z)           (* &p->nread *)
  | ChPipeW (p : Z)           (* &p->nwrite *)
  | ChCons.                   (* &input.r *)
#[export] Instance chan_eq_dec : EqDecision chan.
Proof. solve_decision. Defined.

(** ** proc.h *)
Inductive page_state : Type := NOT_USED | USED.
#[export] Instance page_state_eq_dec : EqDecision page_state.
Proof. solve_decision. Defined.

(** One page of a process, in memory or in its swap file. *)
Record page_t : Type := mk_page_t {
  pg_state : page_state;
  pg_pgdir : Z;
  pg_vAddr : Z;
}.
Definition set_pg_state (v : page_state) (r : page_t) : page_t :=
  mk_page_t v (pg_pgdir r) (pg_vAddr r).
Definition set_pg_pgdir (v : Z) (r : page_t) : page_t :=
  mk_page_t (pg_state r) v (pg_vAddr r).
Definition set_pg_vAddr (v : Z) (r : page_t) : page_t :=
  mk_page_t (pg_state r) (pg_pgdir r) v.

#[export] Instance page_t_eq_dec : EqDecision page_t.
Proof. solve_decision. Defined.

Inductive procstate : Type := UNUSED | EMBRYO | SLEEPING | RUNNABLE | RUNNING | ZOMBIE.
#[export] Instance procstate_eq_dec : EqDecision procstate.
Proof. solve_decision. Defined.

(** The fields of the trap frame the kernel reads or writes. *)
Record trapframe : Type := mk_trapframe {
  tf_eax : Z;
  tf_eip : Z;
  tf_esp : Z;
  tf_eflags : Z;
  tf_cs : Z;
  tf_ds : Z;
  tf_es : Z;
  tf_ss : Z;
  tf_trapno : Z;
  tf_err : Z;
}.
Definition set_tf_eax (v : Z) (r : trapframe) : trapframe :=
  mk_trapframe v (tf_eip r) (tf_esp r) (tf_eflags r) (tf_cs r) (tf_ds r) (tf_es r) (tf_ss r)
    (tf_trapno r) (tf_err r).
Definition set_tf_eip (v : Z) (r : trapframe) : trapframe :=
  mk_trapframe (tf_eax r) v (tf_esp r) (tf_eflags r) (tf_cs r) (tf_ds r) (tf_es r) (tf_ss r)
    (tf_trapno r) (tf_err r).
Definition set_tf_esp (v : Z) (r : trapframe) : trapframe :=
  mk_trapframe (tf_eax r) (tf_eip r) v (tf_eflags r) (tf_cs r) (tf_ds r) (tf_es r) (tf_ss r)
    (tf_trapno r) (tf_err r).
Definition set_tf_eflags (v : Z) (r : trapframe) : trapframe :=
  mk_trapframe (tf_eax r) (tf_eip r) (tf_esp r) v (tf_cs r) (tf_ds r) (tf_es r) (tf_ss r)
    (tf_trapno r) (tf_err r).
Definition set_tf_cs (v : Z) (r : trapframe) : trapframe :=
  mk_trapframe (tf_eax r) (tf_eip r) (tf_esp r) (tf_eflags r) v (tf_ds r) (tf_es r) (tf_ss
    r) (tf_trapno r) (tf_err r).
Definition set_tf_ds (v : Z) (r : trapframe) : trapframe :=
  mk_trapframe (tf_eax r) (tf_eip r) (tf_esp r) (tf_eflags r) (tf_cs r) v (tf_es r) (tf_ss
    r) (tf_trapno r) (tf_err r).
Definition set_tf_es (v : Z) (r : trapframe) : trapframe :=
  mk_trapframe (tf_eax r) (tf_eip r) (tf_esp r) (tf_eflags r) (tf_cs r) (tf_ds r) v (tf_ss
    r) (tf_trapno r) (tf_err r).
Definition set_tf_ss (v : Z) (r : trapframe) : trapframe :=
  mk_trapframe (tf_eax r) (tf_eip r) (tf_esp r) (tf_eflags r) (tf_cs r) (tf_ds r) (tf_es r)
    v (tf_trapno r) (tf_err r).
Definition set_tf_trapno (v : Z) (r : trapframe) : trapframe :=
  mk_trapframe (tf_eax r) (tf_eip r) (tf_esp r) (tf_eflags r) (tf_cs r) (tf_ds r) (tf_es r)
    (tf_ss r) v (tf_err r).
Definition set_tf_err (v : Z) (r : trapframe) : trapframe :=
  mk_trapframe (tf_eax r) (tf_eip r) (tf_esp r) (tf_eflags r) (tf_cs r) (tf_ds r) (tf_es r)
    (tf_ss r) (tf_trapno r) v.

(** struct proc. [name] is the 16-byte array; [context] keeps the saved program counter only. *)
Record proc : Type := mk_proc {
  p_sz : Z;
  p_pgdir : Z;
  p_kstack : Z;
  p_state : procstate;
  p_pid : Z;
  p_parent : option nat;
  p_tf : trapframe;
  p_context_eip : Z;
  p_chan : option chan;
  p_killed : Z;
  p_ofile : list (option nat);
  p_cwd : option nat;
  p_name : list Z;
  p_swapFile : option nat;
  p_file_manager : list page_t;
  p_ram_manager : list page_t;
  p_page_mem_count : Z;
  p_paged_out_count : Z;
  p_page_fault_count : Z;
  p_fifoIndexStart : Z;
  p_fifoIndexNext : Z;
}.
Definition set_p_sz (v : Z) (r : proc) : proc :=
  mk_proc v (p_pgdir r) (p_kstack r) (p_state r) (p_pid r) (p_parent r) (p_tf r)
    (p_context_eip r) (p_chan r) (p_killed r) (p_ofile r) (p_cwd r) (p_name r) (p_swapFile
    r) (p_file_manager r) (p_ram_manager r) (p_page_mem_count r) (p_paged_out_count r)
    (p_page_fault_count r) (p_fifoIndexStart r) (p_fifoIndexNext r).
Definition set_p_pgdir (v : Z) (r : proc) : proc :=
  mk_proc (p_sz r) v (p_kstack r) (p_state r) (p_pid r) (p_parent r) (p_tf r) (p_context_eip
    r) (p_chan r) (p_killed r) (p_ofile r) (p_cwd r) (p_name r) (p_swapFile r)
    (p_file_manager r) (p_ram_manager r) (p_page_mem_count r) (p_paged_out_count r)
    (p_page_fault_count r) (p_fifoIndexStart r) (p_fifoIndexNext r).
Definition set_p_kstack (v : Z) (r : proc) : proc :=
  mk_proc (p_sz r) (p_pgdir r) v (p_state r) (p_pid r) (p_parent r) (p_tf r) (p_context_eip
    r) (p_chan r) (p_killed r) (p_ofile r) (p_cwd r) (p_name r) (p_swapFile r)
    (p_file_manager r) (p_ram_manager r) (p_page_mem_count r) (p_paged_out_count r)
    (p_page_fault_count r) (p_fifoIndexStart r) (p_fifoIndexNext r).
Definition set_p_state (v : procstate) (r : proc) : proc :=
  mk_proc (p_sz r) (p_pgdir r) (p_kstack r) v (p_pid r) (p_parent r) (p_tf r) (p_context_eip
    r) (p_chan r) (p_killed r) (p_ofile r) (p_cwd r) (p_name r) (p_swapFile r)
    (p_file_manager r) (p_ram_manager r) (p_page_mem_count r) (p_paged_out_count r)
    (p_page_fault_count r) (p_fifoIndexStart r) (p_fifoIndexNext r).
Definition set_p_pid (v : Z) (r : proc) : proc :=
  mk_proc (p_sz r) (p_pgdir r) (p_kstack r) (p_state r) v (p_parent r) (p_tf r)
    (p_context_eip r) (p_chan r) (p_killed r) (p_ofile r) (p_cwd r) (p_name r) (p_swapFile
    r) (p_file_manager r) (p_ram_manager r) (p_page_mem_count r) (p_paged_out_count r)
    (p_page_fault_count r) (p_fifoIndexStart r) (p_fifoIndexNext r).
Definition set_p_parent (v : option nat) (r : proc) : proc :=
  mk_proc (p_sz r) (p_pgdir r) (p_kstack r) (p_state r) (p_pid r) v (p_tf r) (p_context_eip
    r) (p_chan r) (p_killed r) (p_ofile r) (p_cwd r) (p_name r) (p_swapFile r)
    (p_file_manager r) (p_ram_manager r) (p_page_mem_count r) (p_paged_out_count r)
    (p_page_fault_count r) (p_fifoIndexStart r) (p_fifoIndexNext r).
Definition set_p_tf (v : trapframe) (r : proc) : proc :=
  mk_proc (p_sz r) (p_pgdir r) (p_kstack r) (p_state r) (p_pid r) (p_parent r) v
    (p_context_eip r) (p_chan r) (p_killed r) (p_ofile r) (p_cwd r) (p_name r) (p_swapFile
    r) (p_file_manager r) (p_ram_manager r) (p_page_mem_count r) (p_paged_out_count r)
    (p_page_fault_count r) (p_fifoIndexStart r) (p_fifoIndexNext r).
Definition set_p_context_eip (v : Z) (r : proc) : proc :=
  mk_proc (p_sz r) (p_pgdir r) (p_kstack r) (p_state r) (p_pid r) (p_parent r) (p_tf r) v
    (p_chan r) (p_killed r) (p_ofile r) (p_cwd r) (p_name r) (p_swapFile r) (p_file_manager
    r) (p_ram_manager r) (p_page_mem_count r) (p_paged_out_count r) (p_page_fault_count r)
    (p_fifoIndexStart r) (p_fifoIndexNext r).
Definition set_p_chan (v : option chan) (r : proc) : proc :=
  mk_proc (p_sz r) (p_pgdir r) (p_kstack r) (p_state r) (p_pid r) (p_parent r) (p_tf r)
    (p_context_eip r) v (p_killed r) (p_ofile r) (p_cwd r) (p_name r) (p_swapFile r)
    (p_file_manager r) (p_ram_manager r) (p_page_mem_count r) (p_paged_out_count r)
    (p_page_fault_count r) (p_fifoIndexStart r) (p_fifoIndexNext r).
Definition set_p_killed (v : Z) (r : proc) : proc :=
  mk_proc (p_sz r) (p_pgdir r) (p_kstack r) (p_state r) (p_pid r) (p_parent r) (p_tf r)
    (p_context_eip r) (p_chan r) v (p_ofile r) (p_cwd r) (p_name r) (p_swapFile r)
    (p_file_manager r) (p_ram_manager r) (p_page_mem_count r) (p_paged_out_count r)
    (p_page_fault_count r) (p_fifoIndexStart r) (p_fifoIndexNext r).
Definition set_p_ofile (v : list (option nat)) (r : proc) : proc :=
  mk_proc (p_sz r) (p_pgdir r) (p_kstack r) (p_state r) (p_pid r) (p_parent r) (p_tf r)
    (p_context_eip r) (p_chan r) (p_killed r) v (p_cwd r) (p_name r) (p_swapFile r)
    (p_file_manager r) (p_ram_manager r) (p_page_mem_count r) (p_paged_out_count r)
    (p_page_fault_count r) (p_fifoIndexStart r) (p_fifoIndexNext r).
Definition set_p_cwd (v : option nat) (r : proc) : proc :=
  mk_proc (p_sz r) (p_pgdir r) (p_kstack r) (p_state r) (p_pid r) (p_parent r) (p_tf r)
    (p_context_eip r) (p_chan r) (p_killed r) (p_ofile r) v (p_name r) (p_swapFile r)
    (p_file_manager r) (p_ram_manager r) (p_page_mem_count r) (p_paged_out_count r)
    (p_page_fault_count r) (p_fifoIndexStart r) (p_fifoIndexNext r).
Definition set_p_name (v : list Z) (r : proc) : proc :=
  mk_proc (p_sz r) (p_pgdir r) (p_kstack r) (p_state r) (p_pid r) (p_parent r) (p_tf r)
    (p_context_eip r) (p_chan r) (p_killed r) (p_ofile r) (p_cwd r) v (p_swapFile r)
    (p_file_manager r) (p_ram_manager r) (p_page_mem_count r) (p_paged_out_count r)
    (p_page_fault_count r) (p_fifoIndexStart r) (p_fifoIndexNext r).
Definition set_p_swapFile (v : option nat) (r : proc) : proc :=
  mk_proc (p_sz r) (p_pgdir r) (p_kstack r) (p_state r) (p_pid r) (p_parent r) (p_tf r)
    (p_context_eip r) (p_chan r) (p_killed r) (p_ofile r) (p_cwd r) (p_name r) v
    (p_file_manager r) (p_ram_manager r) (p_page_mem_count r) (p_paged_out_count r)
    (p_page_fault_count r) (p_fifoIndexStart r) (p_fifoIndexNext r).
Definition set_p_file_manager (v : list page_t) (r : proc) : proc :=
  mk_proc (p_sz r) (p_pgdir r) (p_kstack r) (p_state r) (p_pid r) (p_parent r) (p_tf r)
    (p_context_eip r) (p_chan r) (p_killed r) (p_ofile r) (p_cwd r) (p_name r) (p_swapFile
    r) v (p_ram_manager r) (p_page_mem_count r) (p_paged_out_count r) (p_page_fault_count r)
    (p_fifoIndexStart r) (p_fifoIndexNext r).
Definition set_p_ram_manager (v : list page_t) (r : proc) : proc :=
  mk_proc (p_sz r) (p_pgdir r) (p_kstack r) (p_state r) (p_pid r) (p_parent r) (p_tf r)
    (p_context_eip r) (p_chan r) (p_killed r) (p_ofile r) (p_cwd r) (p_name r) (p_swapFile
    r) (p_file_manager r) v (p_page_mem_count r) (p_paged_out_count r) (p_page_fault_count
    r) (p_fifoIndexStart r) (p_fifoIndexNext r).
Definition set_p_page_mem_count (v : Z) (r : proc) : proc :=
  mk_proc (p_sz r) (p_pgdir r) (p_kstack r) (p_state r) (p_pid r) (p_parent r) (p_tf r)
    (p_context_eip r) (p_chan r) (p_killed r) (p_ofile r) (p_cwd r) (p_name r) (p_swapFile
    r) (p_file_manager r) (p_ram_manager r) v (p_paged_out_count r) (p_page_fault_count r)
    (p_fifoIndexStart r) (p_fifoIndexNext r).
Definition set_p_paged_out_count (v : Z) (r : proc) : proc :=
  mk_proc (p_sz r) (p_pgdir r) (p_kstack r) (p_state r) (p_pid r) (p_parent r) (p_tf r)
    (p_context_eip r) (p_chan r) (p_killed r) (p_ofile r) (p_cwd r) (p_name r) (p_swapFile
    r) (p_file_manager r) (p_ram_manager r) (p_page_mem_count r) v (p_page_fault_count r)
    (p_fifoIndexStart r) (p_fifoIndexNext r).
Definition set_p_page_fault_count (v : Z) (r : proc) : proc :=
  mk_proc (p_sz r) (p_pgdir r) (p_kstack r) (p_state r) (p_pid r) (p_parent r) (p_tf r)
    (p_context_eip r) (p_chan r) (p_killed r) (p_ofile r) (p_cwd r) (p_name r) (p_swapFile
    r) (p_file_manager r) (p_ram_manager r) (p_page_mem_count r) (p_paged_out_count r) v
    (p_fifoIndexStart r) (p_fifoIndexNext r).
Definition set_p_fifoIndexStart (v : Z) (r : proc) : proc :=
  mk_proc (p_sz r) (p_pgdir r) (p_kstack r) (p_state r) (p_pid r) (p_parent r) (p_tf r)
    (p_context_eip r) (p_chan r) (p_killed r) (p_ofile r) (p_cwd r) (p_name r) (p_swapFile
    r) (p_file_manager r) (p_ram_manager r) (p_page_mem_count r) (p_paged_out_count r)
    (p_page_fault_count r) v (p_fifoIndexNext r).
Definition set_p_fifoIndexNext (v : Z) (r : proc) : proc :=
  mk_proc (p_sz r) (p_pgdir r) (p_kstack r) (p_state r) (p_pid r) (p_parent r) (p_tf r)
    (p_context_eip r) (p_chan r) (p_killed r) (p_ofile r) (p_cwd r) (p_name r) (p_swapFile
    r) (p_file_manager r) (p_ram_manager r) (p_page_mem_count r) (p_paged_out_count r)
    (p_page_fault_count r) (p_fifoIndexStart r) v.

(** ** sock.h *)
Inductive sockstate : Type := CLOSED | OPENED | LISTENING | CONNECTED.
#[export] Instance sockstate_eq_dec : EqDecision sockstate.
Proof. solve_decision. Defined.

(** struct sock. [recvbuffer] is the array of [SBUFFSIZE] bytes. *)
Record sock : Type := mk_sock {
  s_sid : Z;
  s_state : sockstate;
  s_owner : option nat;
  s_recvbuffer : list Z;
  s_hasfullbuffer : bool;
  s_lPort : Z;
  s_rPort : Z;
}.
Definition set_s_sid (v : Z) (r : sock) : sock :=
  mk_sock v (s_state r) (s_owner r) (s_recvbuffer r) (s_hasfullbuffer r) (s_lPort r)
    (s_rPort r).
Definition set_s_state (v : sockstate) (r : sock) : sock :=
  mk_sock (s_sid r) v (s_owner r) (s_recvbuffer r) (s_hasfullbuffer r) (s_lPort r) (s_rPort
    r).
Definition set_s_owner (v : option nat) (r : sock) : sock :=
  mk_sock (s_sid r) (s_state r) v (s_recvbuffer r) (s_hasfullbuffer r) (s_lPort r) (s_rPort
    r).
Definition set_s_recvbuffer (v : list Z) (r : sock) : sock :=
  mk_sock (s_sid r) (s_state r) (s_owner r) v (s_hasfullbuffer r) (s_lPort r) (s_rPort r).
Definition set_s_hasfullbuffer (v : bool) (r : sock) : sock :=
  mk_sock (s_sid r) (s_state r) (s_owner r) (s_recvbuffer r) v (s_lPort r) (s_rPort r).
Definition set_s_lPort (v : Z) (r : sock) : sock :=
  mk_sock (s_sid r) (s_state r) (s_owner r) (s_recvbuffer r) (s_hasfullbuffer r) v (s_rPort
    r).
Definition set_s_rPort (v : Z) (r : sock) : sock :=
  mk_sock (s_sid r) (s_state r) (s_owner r) (s_recvbuffer r) (s_hasfullbuffer r) (s_lPort r)
    v.

(** The globals of sock.c: [stable.sock], [countSock] and [nextsid]. *)
Record stable_t : Type := mk_stable_t {
  st_sock : list sock;
  st_countSock : Z;
  st_nextsid : Z;
}.
Definition set_st_sock (v : list sock) (r : stable_t) : stable_t :=
  mk_stable_t v (st_countSock r) (st_nextsid r).
Definition set_st_countSock (v : Z) (r : stable_t) : stable_t :=
  mk_stable_t (st_sock r) v (st_nextsid r).
Definition set_st_nextsid (v : Z) (r : stable_t) : stable_t :=
  mk_stable_t (st_sock r) (st_countSock r) v.

(** ** kalloc.c *)
(** [kmem] and [numOfFreePages]; [freelist] is the address of the first free page. *)
Record kmem_t : Type := mk_kmem_t {
  km_use_lock : bool;
  km_freelist : Z;
  km_numOfFreePages : Z;
}.
Definition set_km_use_lock (v : bool) (r : kmem_t) : kmem_t :=
  mk_kmem_t v (km_freelist r) (km_numOfFreePages r).
Definition set_km_freelist (v : Z) (r : kmem_t) : kmem_t :=
  mk_kmem_t (km_use_lock r) v (km_numOfFreePages r).
Definition set_km_numOfFreePages (v : Z) (r : kmem_t) : kmem_t :=
  mk_kmem_t (km_use_lock r) (km_freelist r) v.

(** ** sleeplock.h *)
(** The state a sleep lock protects besides its spin lock. *)
Record sleeplock : Type := mk_sleeplock {
  sl_locked : bool;
  sl_pid : Z;
}.
Definition set_sl_locked (v : bool) (r : sleeplock) : sleeplock :=
  mk_sleeplock v (sl_pid r).
Definition set_sl_pid (v : Z) (r : sleeplock) : sleeplock :=
  mk_sleeplock (sl_locked r) v.

(** ** buf.h and bio.c *)
(** struct buf; [prev], [next] and [qnext] point into [bcache.buf], index [NBUF] being [bcache.head]. *)
Record buf : Type := mk_buf {
  b_flags : Z;
  b_dev : Z;
  b_blockno : Z;
  b_lock : sleeplock;
  b_refcnt : Z;
  b_prev : nat;
  b_next : nat;
  b_qnext : option nat;
  b_data : list Z;
}.
Definition set_b_flags (v : Z) (r : buf) : buf :=
  mk_buf v (b_dev r) (b_blockno r) (b_lock r) (b_refcnt r) (b_prev r) (b_next r) (b_qnext r)
    (b_data r).
Definition set_b_dev (v : Z) (r : buf) : buf :=
  mk_buf (b_flags r) v (b_blockno r) (b_lock r) (b_refcnt r) (b_prev r) (b_next r) (b_qnext
    r) (b_data r).
Definition set_b_blockno (v : Z) (r : buf) : buf :=
  mk_buf (b_flags r) (b_dev r) v (b_lock r) (b_refcnt r) (b_prev r) (b_next r) (b_qnext r)
    (b_data r).
Definition set_b_lock (v : sleeplock) (r : buf) : buf :=
  mk_buf (b_flags r) (b_dev r) (b_blockno r) v (b_refcnt r) (b_prev r) (b_next r) (b_qnext
    r) (b_data r).
Definition set_b_refcnt (v : Z) (r : buf) : buf :=
  mk_buf (b_flags r) (b_dev r) (b_blockno r) (b_lock r) v (b_prev r) (b_next r) (b_qnext r)
    (b_data r).
Definition set_b_prev (v : nat) (r : buf) : buf :=
  mk_buf (b_flags r) (b_dev r) (b_blockno r) (b_lock r) (b_refcnt r) v (b_next r) (b_qnext
    r) (b_data r).
Definition set_b_next (v : nat) (r : buf) : buf :=
  mk_buf (b_flags r) (b_dev r) (b_blockno r) (b_lock r) (b_refcnt r) (b_prev r) v (b_qnext
    r) (b_data r).
Definition set_b_qnext (v : option nat) (r : buf) : buf :=
  mk_buf (b_flags r) (b_dev r) (b_blockno r) (b_lock r) (b_refcnt r) (b_prev r) (b_next r) v
    (b_data r).
Definition set_b_data (v : list Z) (r : buf) : buf :=
  mk_buf (b_flags r) (b_dev r) (b_blockno r) (b_lock r) (b_refcnt r) (b_prev r) (b_next r)
    (b_qnext r) v.

(** ** fs.h, file.h *)
(** struct superblock. *)
Record superblock : Type := mk_superblock {
  sb_size : Z;
  sb_nblocks : Z;
  sb_ninodes : Z;
  sb_nlog : Z;
  sb_logstart : Z;
  sb_inodestart : Z;
  sb_bmapstart : Z;
}.
Definition set_sb_size (v : Z) (r : superblock) : superblock :=
  mk_superblock v (sb_nblocks r) (sb_ninodes r) (sb_nlog r) (sb_logstart r) (sb_inodestart
    r) (sb_bmapstart r).
Definition set_sb_nblocks (v : Z) (r : superblock) : superblock :=
  mk_superblock (sb_size r) v (sb_ninodes r) (sb_nlog r) (sb_logstart r) (sb_inodestart r)
    (sb_bmapstart r).
Definition set_sb_ninodes (v : Z) (r : superblock) : superblock :=
  mk_superblock (sb_size r) (sb_nblocks r) v (sb_nlog r) (sb_logstart r) (sb_inodestart r)
    (sb_bmapstart r).
Definition set_sb_nlog (v : Z) (r : superblock) : superblock :=
  mk_superblock (sb_size r) (sb_nblocks r) (sb_ninodes r) v (sb_logstart r) (sb_inodestart
    r) (sb_bmapstart r).
Definition set_sb_logstart (v : Z) (r : superblock) : superblock :=
  mk_superblock (sb_size r) (sb_nblocks r) (sb_ninodes r) (sb_nlog r) v (sb_inodestart r)
    (sb_bmapstart r).
Definition set_sb_inodestart (v : Z) (r : superblock) : superblock :=
  mk_superblock (sb_size r) (sb_nblocks r) (sb_ninodes r) (sb_nlog r) (sb_logstart r) v
    (sb_bmapstart r).
Definition set_sb_bmapstart (v : Z) (r : superblock) : superblock :=
  mk_superblock (sb_size r) (sb_nblocks r) (sb_ninodes r) (sb_nlog r) (sb_logstart r)
    (sb_inodestart r) v.

(** The in-memory inode. *)
Record inode : Type := mk_inode {
  i_dev : Z;
  i_inum : Z;
  i_ref : Z;
  i_lock : sleeplock;
  i_valid : Z;
  i_type : Z;
  i_major : Z;
  i_minor : Z;
  i_nlink : Z;
  i_size : Z;
  i_addrs : list Z;
}.
Definition set_i_dev (v : Z) (r : inode) : inode :=
  mk_inode v (i_inum r) (i_ref r) (i_lock r) (i_valid r) (i_type r) (i_major r) (i_minor r)
    (i_nlink r) (i_size r) (i_addrs r).
Definition set_i_inum (v : Z) (r : inode) : inode :=
  mk_inode (i_dev r) v (i_ref r) (i_lock r) (i_valid r) (i_type r) (i_major r) (i_minor r)
    (i_nlink r) (i_size r) (i_addrs r).
Definition set_i_ref (v : Z) (r : inode) : inode :=
  mk_inode (i_dev r) (i_inum r) v (i_lock r) (i_valid r) (i_type r) (i_major r) (i_minor r)
    (i_nlink r) (i_size r) (i_addrs r).
Definition set_i_lock (v : sleeplock) (r : inode) : inode :=
  mk_inode (i_dev r) (i_inum r) (i_ref r) v (i_valid r) (i_type r) (i_major r) (i_minor r)
    (i_nlink r) (i_size r) (i_addrs r).
Definition set_i_valid (v : Z) (r : inode) : inode :=
  mk_inode (i_dev r) (i_inum r) (i_ref r) (i_lock r) v (i_type r) (i_major r) (i_minor r)
    (i_nlink r) (i_size r) (i_addrs r).
Definition set_i_type (v : Z) (r : inode) : inode :=
  mk_inode (i_dev r) (i_inum r) (i_ref r) (i_lock r) (i_valid r) v (i_major r) (i_minor r)
    (i_nlink r) (i_size r) (i_addrs r).
Definition set_i_major (v : Z) (r : inode) : inode :=
  mk_inode (i_dev r) (i_inum r) (i_ref r) (i_lock r) (i_valid r) (i_type r) v (i_minor r)
    (i_nlink r) (i_size r) (i_addrs r).
Definition set_i_minor (v : Z) (r : inode) : inode :=
  mk_inode (i_dev r) (i_inum r) (i_ref r) (i_lock r) (i_valid r) (i_type r) (i_major r) v
    (i_nlink r) (i_size r) (i_addrs r).
Definition set_i_nlink (v : Z) (r : inode) : inode :=
  mk_inode (i_dev r) (i_inum r) (i_ref r) (i_lock r) (i_valid r) (i_type r) (i_major r)
    (i_minor r) v (i_size r) (i_addrs r).
Definition set_i_size (v : Z) (r : inode) : inode :=
  mk_inode (i_dev r) (i_inum r) (i_ref r) (i_lock r) (i_valid r) (i_type r) (i_major r)
    (i_minor r) (i_nlink r) v (i_addrs r).
Definition set_i_addrs (v : list Z) (r : inode) : inode :=
  mk_inode (i_dev r) (i_inum r) (i_ref r) (i_lock r) (i_valid r) (i_type r) (i_major r)
    (i_minor r) (i_nlink r) (i_size r) v.

Inductive filetype : Type := FD_NONE | FD_PIPE | FD_INODE.
#[export] Instance filetype_eq_dec : EqDecision filetype.
Proof. solve_decision. Defined.

(** struct file; [pipe] is the address of the pipe's page. *)
Record file : Type := mk_file {
  f_type : filetype;
  f_ref : Z;
  f_readable : Z;
  f_writable : Z;
  f_pipe : Z;
  f_ip : option nat;
  f_off : Z;
}.
Definition set_f_type (v : filetype) (r : file) : file :=
  mk_file v (f_ref r) (f_readable r) (f_writable r) (f_pipe r) (f_ip r) (f_off r).
Definition set_f_ref (v : Z) (r : file) : file :=
  mk_file (f_type r) v (f_readable r) (f_writable r) (f_pipe r) (f_ip r) (f_off r).
Definition set_f_readable (v : Z) (r : file) : file :=
  mk_file (f_type r) (f_ref r) v (f_writable r) (f_pipe r) (f_ip r) (f_off r).
Definition set_f_writable (v : Z) (r : file) : file :=
  mk_file (f_type r) (f_ref r) (f_readable r) v (f_pipe r) (f_ip r) (f_off r).
Definition set_f_pipe (v : Z) (r : file) : file :=
  mk_file (f_type r) (f_ref r) (f_readable r) (f_writable r) v (f_ip r) (f_off r).
Definition set_f_ip (v : option nat) (r : file) : file :=
  mk_file (f_type r) (f_ref r) (f_readable r) (f_writable r) (f_pipe r) v (f_off r).
Definition set_f_off (v : Z) (r : file) : file :=
  mk_file (f_type r) (f_ref r) (f_readable r) (f_writable r) (f_pipe r) (f_ip r) v.

(** struct pipe of pipe.c. *)
Record pipe : Type := mk_pipe {
  pi_data : list Z;
  pi_nread : Z;
  pi_nwrite : Z;
  pi_readopen : bool;
  pi_writeopen : bool;
}.
Definition set_pi_data (v : list Z) (r : pipe) : pipe :=
  mk_pipe v (pi_nread r) (pi_nwrite r) (pi_readopen r) (pi_writeopen r).
Definition set_pi_nread (v : Z) (r : pipe) : pipe :=
  mk_pipe (pi_data r) v (pi_nwrite r) (pi_readopen r) (pi_writeopen r).
Definition set_pi_nwrite (v : Z) (r : pipe) : pipe :=
  mk_pipe (pi_data r) (pi_nread r) v (pi_readopen r) (pi_writeopen r).
Definition set_pi_readopen (v : bool) (r : pipe) : pipe :=
  mk_pipe (pi_data r) (pi_nread r) (pi_nwrite r) v (pi_writeopen r).
Definition set_pi_writeopen (v : bool) (r : pipe) : pipe :=
  mk_pipe (pi_data r) (pi_nread r) (pi_nwrite r) (pi_readopen r) v.

(** ** log.c *)
(** struct log; [n] and [block] are the fields of the in-memory header [lh]. *)
Record log_t : Type := mk_log_t {
  lg_start : Z;
  lg_size : Z;
  lg_outstanding : Z;
  lg_committing : Z;
  lg_dev : Z;
  lg_n : Z;
  lg_block : list Z;
}.
Definition set_lg_start (v : Z) (r : log_t) : log_t :=
  mk_log_t v (lg_size r) (lg_outstanding r) (lg_committing r) (lg_dev r) (lg_n r) (lg_block
    r).
Definition set_lg_size (v : Z) (r : log_t) : log_t :=
  mk_log_t (lg_start r) v (lg_outstanding r) (lg_committing r) (lg_dev r) (lg_n r) (lg_block
    r).
Definition set_lg_outstanding (v : Z) (r : log_t) : log_t :=
  mk_log_t (lg_start r) (lg_size r) v (lg_committing r) (lg_dev r) (lg_n r) (lg_block r).
Definition set_lg_committing (v : Z) (r : log_t) : log_t :=
  mk_log_t (lg_start r) (lg_size r) (lg_outstanding r) v (lg_dev r) (lg_n r) (lg_block r).
Definition set_lg_dev (v : Z) (r : log_t) : log_t :=
  mk_log_t (lg_start r) (lg_size r) (lg_outstanding r) (lg_committing r) v (lg_n r)
    (lg_block r).
Definition set_lg_n (v : Z) (r : log_t) : log_t :=
  mk_log_t (lg_start r) (lg_size r) (lg_outstanding r) (lg_committing r) (lg_dev r) v
    (lg_block r).
Definition set_lg_block (v : list Z) (r : log_t) : log_t :=
  mk_log_t (lg_start r) (lg_size r) (lg_outstanding r) (lg_committing r) (lg_dev r) (lg_n r)
    v.

(** ** console.c *)
(** The console's line buffer [input]. *)
Record input_t : Type := mk_input_t {
  in_buf : list Z;
  in_r : Z;
  in_w : Z;
  in_e : Z;
}.
Definition set_in_buf (v : list Z) (r : input_t) : input_t :=
  mk_input_t v (in_r r) (in_w r) (in_e r).
Definition set_in_r (v : Z) (r : input_t) : input_t :=
  mk_input_t (in_buf r) v (in_w r) (in_e r).
Definition set_in_w (v : Z) (r : input_t) : input_t :=
  mk_input_t (in_buf r) (in_r r) v (in_e r).
Definition set_in_e (v : Z) (r : input_t) : input_t :=
  mk_input_t (in_buf r) (in_r r) (in_w r) v.

(** The devices and the remaining globals: the console's [input] and [cons.locking], [panicked]; the position register of the CRT controller, [uart], the keyboard's [shift]; which entries of [devsw] have their functions; forkret's [first]; the address of vm.c's [buff]; memide.c's [disksize]; what was sent to the serial line, latest first. *)
Record io_t : Type := mk_io_t {
  io_input : input_t;
  io_locking : bool;
  io_panicked : bool;
  io_cursor : Z;
  io_uart : bool;
  io_shift : Z;
  io_devsw : list bool;
  io_first : bool;
  io_buff : Z;
  io_disksize : Z;
  io_out : list Z;
}.
Definition set_io_input (v : input_t) (r : io_t) : io_t :=
  mk_io_t v (io_locking r) (io_panicked r) (io_cursor r) (io_uart r) (io_shift r) (io_devsw
    r) (io_first r) (io_buff r) (io_disksize r) (io_out r).
Definition set_io_locking (v : bool) (r : io_t) : io_t :=
  mk_io_t (io_input r) v (io_panicked r) (io_cursor r) (io_uart r) (io_shift r) (io_devsw r)
    (io_first r) (io_buff r) (io_disksize r) (io_out r).
Definition set_io_panicked (v : bool) (r : io_t) : io_t :=
  mk_io_t (io_input r) (io_locking r) v (io_cursor r) (io_uart r) (io_shift r) (io_devsw r)
    (io_first r) (io_buff r) (io_disksize r) (io_out r).
Definition set_io_cursor (v : Z) (r : io_t) : io_t :=
  mk_io_t (io_input r) (io_locking r) (io_panicked r) v (io_uart r) (io_shift r) (io_devsw
    r) (io_first r) (io_buff r) (io_disksize r) (io_out r).
Definition set_io_uart (v : bool) (r : io_t) : io_t :=
  mk_io_t (io_input r) (io_locking r) (io_panicked r) (io_cursor r) v (io_shift r) (io_devsw
    r) (io_first r) (io_buff r) (io_disksize r) (io_out r).
Definition set_io_shift (v : Z) (r : io_t) : io_t :=
  mk_io_t (io_input r) (io_locking r) (io_panicked r) (io_cursor r) (io_uart r) v (io_devsw
    r) (io_first r) (io_buff r) (io_disksize r) (io_out r).
Definition set_io_devsw (v : list bool) (r : io_t) : io_t :=
  mk_io_t (io_input r) (io_locking r) (io_panicked r) (io_cursor r) (io_uart r) (io_shift r)
    v (io_first r) (io_buff r) (io_disksize r) (io_out r).
Definition set_io_first (v : bool) (r : io_t) : io_t :=
  mk_io_t (io_input r) (io_locking r) (io_panicked r) (io_cursor r) (io_uart r) (io_shift r)
    (io_devsw r) v (io_buff r) (io_disksize r) (io_out r).
Definition set_io_buff (v : Z) (r : io_t) : io_t :=
  mk_io_t (io_input r) (io_locking r) (io_panicked r) (io_cursor r) (io_uart r) (io_shift r)
    (io_devsw r) (io_first r) v (io_disksize r) (io_out r).
Definition set_io_disksize (v : Z) (r : io_t) : io_t :=
  mk_io_t (io_input r) (io_locking r) (io_panicked r) (io_cursor r) (io_uart r) (io_shift r)
    (io_devsw r) (io_first r) (io_buff r) v (io_out r).
Definition set_io_out (v : list Z) (r : io_t) : io_t :=
  mk_io_t (io_input r) (io_locking r) (io_panicked r) (io_cursor r) (io_uart r) (io_shift r)
    (io_devsw r) (io_first r) (io_buff r) (io_disksize r) v.

(** ** The kernel state *)
(** This CPU: [ncli], [intena] of struct cpu, the interrupt flag of eflags, and the kernel stack and page table its registers point to. *)
Record cpu_t : Type := mk_cpu_t {
  c_ncli : Z;
  c_intena : bool;
  c_intr : bool;
  c_esp0 : Z;
  c_cr3 : Z;
}.
Definition set_c_ncli (v : Z) (r : cpu_t) : cpu_t :=
  mk_cpu_t v (c_intena r) (c_intr r) (c_esp0 r) (c_cr3 r).
Definition set_c_intena (v : bool) (r : cpu_t) : cpu_t :=
  mk_cpu_t (c_ncli r) v (c_intr r) (c_esp0 r) (c_cr3 r).
Definition set_c_intr (v : bool) (r : cpu_t) : cpu_t :=
  mk_cpu_t (c_ncli r) (c_intena r) v (c_esp0 r) (c_cr3 r).
Definition set_c_esp0 (v : Z) (r : cpu_t) : cpu_t :=
  mk_cpu_t (c_ncli r) (c_intena r) (c_intr r) v (c_cr3 r).
Definition set_c_cr3 (v : Z) (r : cpu_t) : cpu_t :=
  mk_cpu_t (c_ncli r) (c_intena r) (c_intr r) (c_esp0 r) v.

(** All globals. [cur] is this CPU's [c->proc]; [held] lists the spin locks this CPU holds; [end] and [data] are the linker's symbols; [disk] is what the disk holds and [power] the number of block writes it still completes before a power failure; [io] collects the devices. *)
Record kernel : Type := mk_kernel {
  k_procs : list proc;
  k_cur : option nat;
  k_cpu : cpu_t;
  k_held : list lockid;
  k_nextpid : Z;
  k_initproc : option nat;
  k_stable : stable_t;
  k_mem : mem;
  k_kmem : kmem_t;
  k_end : Z;
  k_data : Z;
  k_kpgdir : Z;
  k_ticks : Z;
  k_bufs : list buf;
  k_idequeue : option nat;
  k_disk : Z → list Z;
  k_power : option nat;
  k_log : log_t;
  k_sb : superblock;
  k_inodes : list inode;
  k_files : list file;
  k_pipes : gmap Z pipe;
  k_io : io_t;
}.
Definition set_k_procs (v : list proc) (r : kernel) : kernel :=
  mk_kernel v (k_cur r) (k_cpu r) (k_held r) (k_nextpid r) (k_initproc r) (k_stable r)
    (k_mem r) (k_kmem r) (k_end r) (k_data r) (k_kpgdir r) (k_ticks r) (k_bufs r)
    (k_idequeue r) (k_disk r) (k_power r) (k_log r) (k_sb r) (k_inodes r) (k_files r)
    (k_pipes r) (k_io r).
Definition set_k_cur (v : option nat) (r : kernel) : kernel :=
  mk_kernel (k_procs r) v (k_cpu r) (k_held r) (k_nextpid r) (k_initproc r) (k_stable r)
    (k_mem r) (k_kmem r) (k_end r) (k_data r) (k_kpgdir r) (k_ticks r) (k_bufs r)
    (k_idequeue r) (k_disk r) (k_power r) (k_log r) (k_sb r) (k_inodes r) (k_files r)
    (k_pipes r) (k_io r).
Definition set_k_cpu (v : cpu_t) (r : kernel) : kernel :=
  mk_kernel (k_procs r) (k_cur r) v (k_held r) (k_nextpid r) (k_initproc r) (k_stable r)
    (k_mem r) (k_kmem r) (k_end r) (k_data r) (k_kpgdir r) (k_ticks r) (k_bufs r)
    (k_idequeue r) (k_disk r) (k_power r) (k_log r) (k_sb r) (k_inodes r) (k_files r)
    (k_pipes r) (k_io r).
Definition set_k_held (v : list lockid) (r : kernel) : kernel :=
  mk_kernel (k_procs r) (k_cur r) (k_cpu r) v (k_nextpid r) (k_initproc r) (k_stable r)
    (k_mem r) (k_kmem r) (k_end r) (k_data r) (k_kpgdir r) (k_ticks r) (k_bufs r)
    (k_idequeue r) (k_disk r) (k_power r) (k_log r) (k_sb r) (k_inodes r) (k_files r)
    (k_pipes r) (k_io r).
Definition set_k_nextpid (v : Z) (r : kernel) : kernel :=
  mk_kernel (k_procs r) (k_cur r) (k_cpu r) (k_held r) v (k_initproc r) (k_stable r) (k_mem
    r) (k_kmem r) (k_end r) (k_data r) (k_kpgdir r) (k_ticks r) (k_bufs r) (k_idequeue r)
    (k_disk r) (k_power r) (k_log r) (k_sb r) (k_inodes r) (k_files r) (k_pipes r) (k_io r).
Definition set_k_initproc (v : option nat) (r : kernel) : kernel :=
  mk_kernel (k_procs r) (k_cur r) (k_cpu r) (k_held r) (k_nextpid r) v (k_stable r) (k_mem
    r) (k_kmem r) (k_end r) (k_data r) (k_kpgdir r) (k_ticks r) (k_bufs r) (k_idequeue r)
    (k_disk r) (k_power r) (k_log r) (k_sb r) (k_inodes r) (k_files r) (k_pipes r) (k_io r).
Definition set_k_stable (v : stable_t) (r : kernel) : kernel :=
  mk_kernel (k_procs r) (k_cur r) (k_cpu r) (k_held r) (k_nextpid r) (k_initproc r) v (k_mem
    r) (k_kmem r) (k_end r) (k_data r) (k_kpgdir r) (k_ticks r) (k_bufs r) (k_idequeue r)
    (k_disk r) (k_power r) (k_log r) (k_sb r) (k_inodes r) (k_files r) (k_pipes r) (k_io r).
Definition set_k_mem (v : mem) (r : kernel) : kernel :=
  mk_kernel (k_procs r) (k_cur r) (k_cpu r) (k_held r) (k_nextpid r) (k_initproc r)
    (k_stable r) v (k_kmem r) (k_end r) (k_data r) (k_kpgdir r) (k_ticks r) (k_bufs r)
    (k_idequeue r) (k_disk r) (k_power r) (k_log r) (k_sb r) (k_inodes r) (k_files r)
    (k_pipes r) (k_io r).
Definition set_k_kmem (v : kmem_t) (r : kernel) : kernel :=
  mk_kernel (k_procs r) (k_cur r) (k_cpu r) (k_held r) (k_nextpid r) (k_initproc r)
    (k_stable r) (k_mem r) v (k_end r) (k_data r) (k_kpgdir r) (k_ticks r) (k_bufs r)
    (k_idequeue r) (k_disk r) (k_power r) (k_log r) (k_sb r) (k_inodes r) (k_files r)
    (k_pipes r) (k_io r).
Definition set_k_end (v : Z) (r : kernel) : kernel :=
  mk_kernel (k_procs r) (k_cur r) (k_cpu r) (k_held r) (k_nextpid r) (k_initproc r)
    (k_stable r) (k_mem r) (k_kmem r) v (k_data r) (k_kpgdir r) (k_ticks r) (k_bufs r)
    (k_idequeue r) (k_disk r) (k_power r) (k_log r) (k_sb r) (k_inodes r) (k_files r)
    (k_pipes r) (k_io r).
Definition set_k_data (v : Z) (r : kernel) : kernel :=
  mk_kernel (k_procs r) (k_cur r) (k_cpu r) (k_held r) (k_nextpid r) (k_initproc r)
    (k_stable r) (k_mem r) (k_kmem r) (k_end r) v (k_kpgdir r) (k_ticks r) (k_bufs r)
    (k_idequeue r) (k_disk r) (k_power r) (k_log r) (k_sb r) (k_inodes r) (k_files r)
    (k_pipes r) (k_io r).
Definition set_k_kpgdir (v : Z) (r : kernel) : kernel :=
  mk_kernel (k_procs r) (k_cur r) (k_cpu r) (k_held r) (k_nextpid r) (k_initproc r)
    (k_stable r) (k_mem r) (k_kmem r) (k_end r) (k_data r) v (k_ticks r) (k_bufs r)
    (k_idequeue r) (k_disk r) (k_power r) (k_log r) (k_sb r) (k_inodes r) (k_files r)
    (k_pipes r) (k_io r).
Definition set_k_ticks (v : Z) (r : kernel) : kernel :=
  mk_kernel (k_procs r) (k_cur r) (k_cpu r) (k_held r) (k_nextpid r) (k_initproc r)
    (k_stable r) (k_mem r) (k_kmem r) (k_end r) (k_data r) (k_kpgdir r) v (k_bufs r)
    (k_idequeue r) (k_disk r) (k_power r) (k_log r) (k_sb r) (k_inodes r) (k_files r)
    (k_pipes r) (k_io r).
Definition set_k_bufs (v : list buf) (r : kernel) : kernel :=
  mk_kernel (k_procs r) (k_cur r) (k_cpu r) (k_held r) (k_nextpid r) (k_initproc r)
    (k_stable r) (k_mem r) (k_kmem r) (k_end r) (k_data r) (k_kpgdir r) (k_ticks r) v
    (k_idequeue r) (k_disk r) (k_power r) (k_log r) (k_sb r) (k_inodes r) (k_files r)
    (k_pipes r) (k_io r).
Definition set_k_idequeue (v : option nat) (r : kernel) : kernel :=
  mk_kernel (k_procs r) (k_cur r) (k_cpu r) (k_held r) (k_nextpid r) (k_initproc r)
    (k_stable r) (k_mem r) (k_kmem r) (k_end r) (k_data r) (k_kpgdir r) (k_ticks r) (k_bufs
    r) v (k_disk r) (k_power r) (k_log r) (k_sb r) (k_inodes r) (k_files r) (k_pipes r)
    (k_io r).
Definition set_k_disk (v : Z → list Z) (r : kernel) : kernel :=
  mk_kernel (k_procs r) (k_cur r) (k_cpu r) (k_held r) (k_nextpid r) (k_initproc r)
    (k_stable r) (k_mem r) (k_kmem r) (k_end r) (k_data r) (k_kpgdir r) (k_ticks r) (k_bufs
    r) (k_idequeue r) v (k_power r) (k_log r) (k_sb r) (k_inodes r) (k_files r) (k_pipes r)
    (k_io r).
Definition set_k_power (v : option nat) (r : kernel) : kernel :=
  mk_kernel (k_procs r) (k_cur r) (k_cpu r) (k_held r) (k_nextpid r) (k_initproc r)
    (k_stable r) (k_mem r) (k_kmem r) (k_end r) (k_data r) (k_kpgdir r) (k_ticks r) (k_bufs
    r) (k_idequeue r) (k_disk r) v (k_log r) (k_sb r) (k_inodes r) (k_files r) (k_pipes r)
    (k_io r).
Definition set_k_log (v : log_t) (r : kernel) : kernel :=
  mk_kernel (k_procs r) (k_cur r) (k_cpu r) (k_held r) (k_nextpid r) (k_initproc r)
    (k_stable r) (k_mem r) (k_kmem r) (k_end r) (k_data r) (k_kpgdir r) (k_ticks r) (k_bufs
    r) (k_idequeue r) (k_disk r) (k_power r) v (k_sb r) (k_inodes r) (k_files r) (k_pipes r)
    (k_io r).
Definition set_k_sb (v : superblock) (r : kernel) : kernel :=
  mk_kernel (k_procs r) (k_cur r) (k_cpu r) (k_held r) (k_nextpid r) (k_initproc r)
    (k_stable r) (k_mem r) (k_kmem r) (k_end r) (k_data r) (k_kpgdir r) (k_ticks r) (k_bufs
    r) (k_idequeue r) (k_disk r) (k_power r) (k_log r) v (k_inodes r) (k_files r) (k_pipes
    r) (k_io r).
Definition set_k_inodes (v : list inode) (r : kernel) : kernel :=
  mk_kernel (k_procs r) (k_cur r) (k_cpu r) (k_held r) (k_nextpid r) (k_initproc r)
    (k_stable r) (k_mem r) (k_kmem r) (k_end r) (k_data r) (k_kpgdir r) (k_ticks r) (k_bufs
    r) (k_idequeue r) (k_disk r) (k_power r) (k_log r) (k_sb r) v (k_files r) (k_pipes r)
    (k_io r).
Definition set_k_files (v : list file) (r : kernel) : kernel :=
  mk_kernel (k_procs r) (k_cur r) (k_cpu r) (k_held r) (k_nextpid r) (k_initproc r)
    (k_stable r) (k_mem r) (k_kmem r) (k_end r) (k_data r) (k_kpgdir r) (k_ticks r) (k_bufs
    r) (k_idequeue r) (k_disk r) (k_power r) (k_log r) (k_sb r) (k_inodes r) v (k_pipes r)
    (k_io r).
Definition set_k_pipes (v : gmap Z pipe) (r : kernel) : kernel :=
  mk_kernel (k_procs r) (k_cur r) (k_cpu r) (k_held r) (k_nextpid r) (k_initproc r)
    (k_stable r) (k_mem r) (k_kmem r) (k_end r) (k_data r) (k_kpgdir r) (k_ticks r) (k_bufs
    r) (k_idequeue r) (k_disk r) (k_power r) (k_log r) (k_sb r) (k_inodes r) (k_files r) v
    (k_io r).
Definition set_k_io (v : io_t) (r : kernel) : kernel :=
  mk_kernel (k_procs r) (k_cur r) (k_cpu r) (k_held r) (k_nextpid r) (k_initproc r)
    (k_stable r) (k_mem r) (k_kmem r) (k_end r) (k_data r) (k_kpgdir r) (k_ticks r) (k_bufs
    r) (k_idequeue r) (k_disk r) (k_power r) (k_log r) (k_sb r) (k_inodes r) (k_files r)
    (k_pipes r) v.

(** A field of the entry [i] of a table, or of the process [i]. *)
Definition upd_cpu (f : cpu_t → cpu_t) (k : kernel) : kernel :=
  set_k_cpu (f (k_cpu k)) k.
Definition upd_proc (i : nat) (f : proc → proc) (k : kernel) : kernel :=
  set_k_procs (alter f i (k_procs k)) k.
Definition upd_stable (f : stable_t → stable_t) (k : kernel) : kernel :=
  set_k_stable (f (k_stable k)) k.
Definition upd_sock (i : nat) (f : sock → sock) (k : kernel) : kernel :=
  upd_stable (λ t, set_st_sock (alter f i (st_sock t)) t) k.
Definition upd_kmem (f : kmem_t → kmem_t) (k : kernel) : kernel :=
  set_k_kmem (f (k_kmem k)) k.
Definition upd_buf (i : nat) (f : buf → buf) (k : kernel) : kernel :=
  set_k_bufs (alter f i (k_bufs k)) k.
Definition upd_inode (i : nat) (f : inode → inode) (k : kernel) : kernel :=
  set_k_inodes (alter f i (k_inodes k)) k.
Definition upd_file (i : nat) (f : file → file) (k : kernel) : kernel :=
  set_k_files (alter f i (k_files k)) k.
Definition upd_log (f : log_t → log_t) (k : kernel) : kernel :=
  set_k_log (f (k_log k)) k.
Definition upd_io (f : io_t → io_t) (k : kernel) : kernel :=
  set_k_io (f (k_io k)) k.
Definition upd_input (f : input_t → input_t) (k : kernel) : kernel :=
  upd_io (λ d, set_io_input (f (io_input d)) d) k.

(** ** The state at boot: zero-initialised globals *)
Definition page0 : page_t := mk_page_t NOT_USED 0 0.
Definition tf0 : trapframe := mk_trapframe 0 0 0 0 0 0 0 0 0 0.
Definition proc0 : proc :=
  mk_proc 0 0 0 UNUSED 0 None tf0 0 None 0 (replicate NOFILE None) None (replicate 16 0) None
    (replicate MAX_FILE_PAGES page0) (replicate MAX_PSYC_PAGES page0) 0 0 0 0 0.
Definition sock0 : sock := mk_sock 0 CLOSED None (replicate SBUFFSIZE 0) false 0 0.
Definition sleeplock0 : sleeplock := mk_sleeplock false 0.
Definition buf0 : buf := mk_buf 0 0 0 sleeplock0 0 0 0 None (replicate 512 0).
Definition inode0 : inode := mk_inode 0 0 0 sleeplock0 0 0 0 0 0 0 (replicate 13 0).
Definition file0 : file := mk_file FD_NONE 0 0 0 0 None 0.
Definition kernel0 : kernel :=
  mk_kernel (replicate NPROC proc0) None (mk_cpu_t 0 false true 0 0) [] 1 None
    (mk_stable_t (replicate NSOCK sock0) 0 0) (λ _, 0) (mk_kmem_t false 0 0)
    0x801154a8 0x80108000 0 0
    (replicate (S NBUF) buf0) None (λ _, replicate 512 0) None
    (mk_log_t 0 0 0 0 0 0 (replicate 30 0)) (mk_superblock 0 0 0 0 0 0 0)
    (replicate NINODE inode0) (replicate NFILE file0) ∅
    (mk_io_t (mk_input_t (replicate 128 0) 0 0 0) false false 0 false 0
      (replicate 10 false) true 0x80109000 FSSIZE []).
