(* ===== verification/Sched.v ===== *)
(** * Sched: spin locks as one CPU sees them, sleep, wakeup and the scheduler

    [spinlock.c] (acquire, release, holding, pushcli, popcli), the sleeping
    and scheduling half of [proc.c], [switchuvm] and [switchkvm] of [vm.c].
    The model follows one CPU: [k_held] lists the locks whose [locked] and
    [cpu] fields name this CPU. The spin loop of [acquire] waits for another
    CPU, so here it is passed as soon as the lock is not ours; taking a lock
    this CPU already holds is the [panic] of the code. A context switch ends
    a routine with [Switch c]: [c] says where the code continues, and
    [sleep_leave], [yield_leave] are the parts after it. *)

From S2P Require Import Prelude Kernel.

(** ** Definitions *)
Section sched.
Context {C : Type}.
Notation KM := (M kernel C).

Definition cli : KM unit := modify (upd_cpu (set_c_intr false)).
Definition sti : KM unit := modify (upd_cpu (set_c_intr true)).

Definition pushcli : KM unit :=
  eflags <- gets (λ k, c_intr (k_cpu k)) ;;
  cli ;;
  n <- gets (λ k, c_ncli (k_cpu k)) ;;
  when (n =? 0) (modify (upd_cpu (set_c_intena eflags))) ;;
  modify (upd_cpu (λ c, set_c_ncli (c_ncli c + 1) c)).

Definition popcli : KM unit :=
  i <- gets (λ k, c_intr (k_cpu k)) ;;
  if i then panic "popcli - interruptible" else
  modify (upd_cpu (λ c, set_c_ncli (c_ncli c - 1) c)) ;;
  c <- gets k_cpu ;;
  if c_ncli c <? 0 then panic "popcli" else
  when ((c_ncli c =? 0) && c_intena c) sti.

Definition holding (lk : lockid) : KM bool :=
  pushcli ;;
  r <- gets (λ k, bool_decide (lk ∈ k_held k)) ;;
  popcli ;;
  mret r.

Definition acquire (lk : lockid) : KM unit :=
  pushcli ;;
  h <- holding lk ;;
  if h then panic "acquire" else
  modify (λ k, set_k_held (lk :: k_held k) k).

Definition release (lk : lockid) : KM unit :=
  h <- holding lk ;;
  if negb h then panic "release" else
  modify (λ k, set_k_held (filter (.≠ lk) (k_held k)) k) ;;
  popcli.

Definition myproc : KM (option nat) :=
  pushcli ;;
  p <- gets k_cur ;;
  popcli ;;
  mret p.

(** [p->f] for a process pointer *)
Definition proc_at (p : nat) : KM proc :=
  k <- gets (λ k, k_procs k !! p) ;;
  deref "proc" k.

Definition lcr3 (v : Z) : KM unit := modify (upd_cpu (set_c_cr3 v)).
Definition switchkvm : KM unit :=
  d <- gets k_kpgdir ;;
  lcr3 (V2P d).
Definition switchuvm (p : option nat) : KM unit :=
  match p with
  | None => panic "switchuvm: no process"
  | Some p =>
      pr <- proc_at p ;;
      if p_kstack pr =? 0 then panic "switchuvm: no kstack" else
      if p_pgdir pr =? 0 then panic "switchuvm: no pgdir" else
      pushcli ;;
      modify (upd_cpu (set_c_esp0 (u32 (p_kstack pr + KSTACKSIZE)))) ;;
      lcr3 (V2P (p_pgdir pr)) ;;
      popcli
  end.

(** [sched], up to [swtch] *)
Definition sched (c : C) : KM unit :=
  p <- myproc ;;
  h <- holding LkPtable ;;
  if negb h then panic "sched ptable.lock" else
  n <- gets (λ k, c_ncli (k_cpu k)) ;;
  if negb (n =? 1) then panic "sched locks" else
  p <- deref "sched: no process" p ;;
  pr <- proc_at p ;;
  if bool_decide (p_state pr = RUNNING) then panic "sched running" else
  i <- gets (λ k, c_intr (k_cpu k)) ;;
  if i then panic "sched interruptible" else
  switch_out c.
(** ... and after it *)
Definition sched_back (intena : bool) : KM unit := modify (upd_cpu (set_c_intena intena)).

Definition yield (c : C) : KM unit :=
  acquire LkPtable ;;
  p <- myproc ;;
  p <- deref "yield: no process" p ;;
  modify (upd_proc p (set_p_state RUNNABLE)) ;;
  sched c.
Definition yield_leave (intena : bool) : KM unit :=
  sched_back intena ;;
  release LkPtable.

Definition sleep (ch : chan) (lk : option lockid) (c : C) : KM unit :=
  p <- myproc ;;
  match p, lk with
  | None, _ => panic "sleep"
  | _, None => panic "sleep without lk"
  | Some p, Some lk =>
      when (negb (bool_decide (lk = LkPtable)))
        (acquire LkPtable ;; release lk) ;;
      modify (upd_proc p (set_p_chan (Some ch))) ;;
      modify (upd_proc p (set_p_state SLEEPING)) ;;
      sched c
  end.
Definition sleep_leave (p : nat) (lk : lockid) (intena : bool) : KM unit :=
  sched_back intena ;;
  modify (upd_proc p (set_p_chan None)) ;;
  when (negb (bool_decide (lk = LkPtable)))
    (release LkPtable ;; acquire lk).

(** The body of [wakeup1]'s loop. *)
Definition wake (ch : chan) (p : proc) : proc :=
  if bool_decide (p_state p = SLEEPING) && bool_decide (p_chan p = Some ch)
  then set_p_state RUNNABLE p else p.
Definition wakeup1 (ch : chan) : KM unit :=
  modify (λ k, set_k_procs (wake ch <$> k_procs k) k).
Definition wakeup (ch : chan) : KM unit :=
  acquire LkPtable ;;
  wakeup1 ch ;;
  release LkPtable.

(** [scheduler], cut at [swtch]: [scheduler_from] is the loop over the table
    from entry [i], [n] entries before its end, up to the switch into the
    process it returns; [None] is the end of the pass. [scheduler_pass] starts
    a pass, [scheduler_back] goes on after process [p] has switched back. *)
Fixpoint scheduler_from (n i : nat) : KM (option nat) :=
  match n with
  | O => mret None
  | S n =>
      pr <- proc_at i ;;
      if negb (bool_decide (p_state pr = RUNNABLE)) then scheduler_from n (S i) else
      modify (set_k_cur (Some i)) ;;
      switchuvm (Some i) ;;
      modify (upd_proc i (set_p_state RUNNING)) ;;
      mret (Some i)
  end.
Definition scheduler_pass : KM (option nat) :=
  sti ;;
  acquire LkPtable ;;
  scheduler_from NPROC 0.
Definition scheduler_back (p : nat) : KM (option nat) :=
  switchkvm ;;
  modify (set_k_cur None) ;;
  scheduler_from (NPROC - S p) (S p).
Definition scheduler_end : KM unit := release LkPtable.
End sched.

(** ** Closed forms *)

(** The lock bookkeeping of this CPU is consistent: [ncli] counts the locks
    held, interrupts are off while there are any, and none is listed twice. *)
Definition cpu_ok (k : kernel) : Prop :=
  c_ncli (k_cpu k) = Z.of_nat (length (k_held k)) ∧
  (k_held k ≠ [] → c_intr (k_cpu k) = false) ∧
  NoDup (k_held k).

Definition pushed (c : cpu_t) : cpu_t :=
  mk_cpu_t (c_ncli c + 1) (if c_ncli c =? 0 then c_intr c else c_intena c) false
    (c_esp0 c) (c_cr3 c).
Definition popped (c : cpu_t) : cpu_t :=
  mk_cpu_t (c_ncli c - 1) (c_intena c) ((c_ncli c - 1 =? 0) && c_intena c)
    (c_esp0 c) (c_cr3 c).

Definition acquired (lk : lockid) (k : kernel) : kernel :=
  set_k_held (lk :: k_held k) (upd_cpu pushed k).
Definition released (lk : lockid) (k : kernel) : kernel :=
  upd_cpu popped (set_k_held (filter (.≠ lk) (k_held k)) k).

Section closed_forms.
Context {C : Type}.
Notation KM := (M kernel C).

Lemma pushcli_eq k : (pushcli : KM unit) k = Ret tt (upd_cpu pushed k).
Proof.
  unfold pushcli, cli, pushed, upd_cpu; mred. by destruct (c_ncli (k_cpu k) =? 0).
Qed.

Lemma popcli_eq k :
  c_intr (k_cpu k) = false → 0 < c_ncli (k_cpu k) →
  (popcli : KM unit) k = Ret tt (upd_cpu popped k).
Proof.
  intros Hi Hn. unfold popcli, sti, popped, upd_cpu. mred. rewrite Hi.
  destruct (Z.ltb_spec (c_ncli (k_cpu k) - 1) 0); [lia|].
  destruct (c_ncli (k_cpu k) - 1 =? 0), (c_intena (k_cpu k)) eqn:?; cbn;
    unfold set_k_cpu, set_c_ncli, set_c_intr; cbn; congruence.
Qed.

Lemma pushcli_popcli_eq {A} (f : kernel → A) k :
  0 <= c_ncli (k_cpu k) →
  (∀ c, f (set_k_cpu c k) = f k) →
  (pushcli ;; r <- gets f ;; popcli ;; mret r : KM A) k =
    Ret (f k) (upd_cpu popped (upd_cpu pushed k)).
Proof.
  intros Hn Hf. rewrite (bind_Ret_eq _ _ _ _ _ (pushcli_eq k)).
  unfold bindM, gets.
  rewrite popcli_eq; [|done|cbn; lia].
  unfold mret, M_ret. f_equal. unfold upd_cpu. apply Hf.
Qed.

Lemma cpu_ok_ncli k : cpu_ok k → 0 <= c_ncli (k_cpu k).
Proof. intros [-> _]. lia. Qed.

Lemma holding_eq lk k : cpu_ok k →
  (holding lk : KM bool) k =
    Ret (bool_decide (lk ∈ k_held k)) (upd_cpu popped (upd_cpu pushed k)).
Proof.
  intros Hok. apply (pushcli_popcli_eq (λ k, bool_decide (lk ∈ k_held k)));
    [by apply cpu_ok_ncli|done].
Qed.

(** Under a lock, a nested [pushcli]/[popcli] pair leaves no trace. *)
Lemma popped_pushed k :
  cpu_ok k → k_held k ≠ [] → upd_cpu popped (upd_cpu pushed k) = k.
Proof.
  intros (Hn & Hi & _) Hne. specialize (Hi Hne).
  destruct k as [? ? [n ie i e c] held]; cbn in *. subst i.
  unfold upd_cpu, popped, pushed; cbn. destruct held as [|x l]; [done|]. simpl in Hn.
  destruct (Z.eqb_spec n 0); [lia|]. destruct (Z.eqb_spec (n + 1 - 1) 0); [lia|]. cbn.
  by replace (n + 1 - 1) with n by lia.
Qed.

Lemma cpu_ok_acquired lk k : cpu_ok k → lk ∉ k_held k → cpu_ok (acquired lk k).
Proof.
  intros (Hn & Hi & Hnd) Hlk. destruct k as [? ? [n ie i e c] held]; cbn in *.
  split; [cbn; lia|]. split; [done|]. cbn. by constructor.
Qed.

Lemma acquire_eq lk k :
  cpu_ok k → lk ∉ k_held k → (acquire lk : KM unit) k = Ret tt (acquired lk k).
Proof.
  intros Hok Hlk. unfold acquire. rewrite (bind_Ret_eq _ _ _ _ _ (pushcli_eq k)).
  assert (Hh : (holding lk : KM bool) (upd_cpu pushed k) = Ret false (upd_cpu pushed k)).
  { unfold holding. rewrite (pushcli_popcli_eq (λ k, bool_decide (lk ∈ k_held k))).
    - rewrite bool_decide_eq_false_2 by done. f_equal.
      destruct Hok as (Hn & _). destruct k as [? ? [n ie i e c] held]; cbn in *.
      unfold upd_cpu, popped, pushed; cbn.
      destruct (Z.eqb_spec (n + 1) 0); [lia|]. destruct (Z.eqb_spec (n + 1 + 1 - 1) 0); [lia|].
      cbn. by replace (n + 1 + 1 - 1) with (n + 1) by lia.
    - destruct Hok as (Hn & _). destruct k as [? ? [n ie i e c] held]; cbn in *. lia.
    - done. }
  by rewrite (bind_Ret_eq _ _ _ _ _ Hh).
Qed.

(** A lock this CPU already holds is not taken again: [acquire] panics. *)
Lemma acquire_again lk k :
  cpu_ok k → lk ∈ k_held k → ∃ k', (acquire lk : KM unit) k = Panic "acquire" k'.
Proof.
  intros Hok Hlk. unfold acquire. rewrite (bind_Ret_eq _ _ _ _ _ (pushcli_eq k)).
  unfold holding. eexists. unfold bindM at 1.
  rewrite (pushcli_popcli_eq (λ k, bool_decide (lk ∈ k_held k))); [|..|done].
  - rewrite bool_decide_eq_true_2 by done. reflexivity.
  - destruct Hok as (Hn & _). destruct k as [? ? [n ie i e c] held]; cbn in *. lia.
Qed.

Lemma release_eq lk k :
  cpu_ok k → lk ∈ k_held k → (release lk : KM unit) k = Ret tt (released lk k).
Proof.
  intros Hok Hlk. unfold release.
  assert (Hne : k_held k ≠ []) by (intros E; rewrite E in Hlk; set_solver).
  rewrite (bind_Ret_eq _ _ _ _ _ (holding_eq lk k Hok)).
  rewrite popped_pushed by done. rewrite bool_decide_eq_true_2 by done. cbn [negb].
  unfold bindM, modify. destruct Hok as (Hn & Hi & _). specialize (Hi Hne).
  rewrite popcli_eq; [done|done|]. cbn. rewrite Hn. destruct (k_held k); [done|]. cbn. lia.
Qed.

Lemma filter_notin (lk : lockid) (l : list lockid) : lk ∉ l → filter (.≠ lk) l = l.
Proof.
  induction l as [|y l IH]; [done|]. intros [Hy Hl]%not_elem_of_cons.
  rewrite filter_cons, decide_True by done. f_equal. by apply IH.
Qed.

Lemma filter_head (lk : lockid) (l : list lockid) : lk ∉ l → filter (.≠ lk) (lk :: l) = l.
Proof.
  intros Hl. rewrite filter_cons, decide_False by (intros H; by apply H). by apply filter_notin.
Qed.

Lemma filter_remove (lk : lockid) l :
  NoDup l → lk ∈ l → S (length (filter (.≠ lk) l)) = length l.
Proof.
  induction 1 as [|x l Hx Hnd IH]; [set_solver|]. intros Hin.
  rewrite filter_cons. destruct (decide (x ≠ lk)) as [Hne|Hne]; cbn.
  - f_equal. apply IH. set_solver.
  - destruct (decide (x = lk)) as [->|]; [|done]. f_equal.
    f_equal. clear -Hx. induction l as [|y l IH]; [done|]. rewrite filter_cons.
    apply not_elem_of_cons in Hx as [? Hx]. rewrite decide_True by done. f_equal. by apply IH.
Qed.

Lemma cpu_ok_released lk k : cpu_ok k → lk ∈ k_held k → cpu_ok (released lk k).
Proof.
  intros (Hn & Hi & Hnd) Hlk. pose proof (filter_remove lk _ Hnd Hlk) as Hlen.
  destruct k as [? ? [n ie i e c] held]; cbn in *. split; [cbn; lia|]. split.
  - cbn. intros Hne. destruct (filter _ held) eqn:E; [done|]. cbn in Hlen.
    destruct (Z.eqb_spec (n - 1) 0); [lia|done].
  - cbn. by apply list.NoDup_filter.
Qed.

Lemma myproc_eq k : cpu_ok k →
  (myproc : KM (option nat)) k = Ret (k_cur k) (upd_cpu popped (upd_cpu pushed k)).
Proof. intros Hok. apply (pushcli_popcli_eq k_cur); [by apply cpu_ok_ncli|done]. Qed.

Lemma wakeup_eq ch k :
  cpu_ok k → LkPtable ∉ k_held k →
  (wakeup ch : KM unit) k =
    Ret tt (released LkPtable (set_k_procs (wake ch <$> k_procs k) (acquired LkPtable k))).
Proof.
  intros Hok Hlk. unfold wakeup. rewrite (bind_Ret_eq _ _ _ _ _ (acquire_eq _ _ Hok Hlk)).
  unfold bindM at 1, wakeup1, modify.
  pose proof (cpu_ok_acquired _ _ Hok Hlk) as Hok'.
  rewrite release_eq; [done| |cbn; set_solver]. exact Hok'.
Qed.

(** The same calls inside a critical section of another lock. *)
Lemma released_acquired lk k :
  cpu_ok k → k_held k ≠ [] → lk ∉ k_held k → released lk (acquired lk k) = k.
Proof.
  intros (Hn & Hi & _) Hne Hlk. specialize (Hi Hne).
  destruct k as [? ? [n ie i e c] held]; cbn in *. subst i.
  pose proof (filter_head lk held Hlk) as Hf.
  unfold released, acquired, upd_cpu, popped, pushed.
  cbn [k_held set_k_held set_k_cpu k_cpu c_ncli c_intr c_intena c_esp0 c_cr3]. rewrite Hf.
  destruct held as [|x l]; [done|]. simpl in Hn.
  destruct (Z.eqb_spec n 0); [lia|]. destruct (Z.eqb_spec (n + 1 - 1) 0); [lia|]. cbn.
  by replace (n + 1 - 1) with n by lia.
Qed.

Lemma myproc_locked k : cpu_ok k → k_held k ≠ [] →
  (myproc : KM (option nat)) k = Ret (k_cur k) k.
Proof. intros Hok Hne. rewrite myproc_eq by done. by rewrite popped_pushed. Qed.

Lemma wakeup_locked ch k :
  cpu_ok k → k_held k ≠ [] → LkPtable ∉ k_held k →
  (wakeup ch : KM unit) k = Ret tt (set_k_procs (wake ch <$> k_procs k) k).
Proof.
  intros Hok Hne Hlk. rewrite wakeup_eq by done. f_equal.
  etrans; [|by apply (released_acquired LkPtable (set_k_procs (wake ch <$> k_procs k) k))].
  done.
Qed.

Lemma holding_locked lk k : cpu_ok k → k_held k ≠ [] →
  (holding lk : KM bool) k = Ret (bool_decide (lk ∈ k_held k)) k.
Proof. intros Hok Hne. rewrite holding_eq by done. by rewrite popped_pushed. Qed.

(** [sched] with exactly [ptable.lock] held switches away. *)
Lemma sched_eq p pr c k :
  cpu_ok k → k_held k = [LkPtable] → k_cur k = Some p → k_procs k !! p = Some pr →
  p_state pr ≠ RUNNING → (sched c : KM unit) k = Switch c k.
Proof.
  intros Hok Hh Hc Hp Hs. assert (Hne : k_held k ≠ []) by (by rewrite Hh).
  unfold sched. rewrite (bind_Ret_eq _ _ _ _ _ (myproc_locked k Hok Hne)).
  rewrite (bind_Ret_eq _ _ _ _ _ (holding_locked _ k Hok Hne)), Hh, Hc.
  rewrite bool_decide_eq_true_2 by set_solver. cbn [negb].
  destruct Hok as (Hn & Hi & _). rewrite Hh in Hn.
  rewrite bind_gets, Hn. cbn [length Z.of_nat Pos.of_succ_nat]. rewrite Z.eqb_refl. cbn [negb].
  erewrite bind_deref by done. unfold proc_at. rewrite bind_assoc, bind_gets.
  erewrite bind_deref by done. rewrite bool_decide_eq_false_2 by done. by rewrite bind_gets, Hi.
Qed.

Lemma held_handover lk k : k_held k = [lk] → lk ≠ LkPtable →
  k_held (released lk (acquired LkPtable k)) = [LkPtable].
Proof.
  intros Hh Hlk. change (filter (.≠ lk) (LkPtable :: k_held k) = [LkPtable]). rewrite Hh.
  rewrite filter_cons, decide_True by done. by rewrite filter_cons, decide_False by naive_solver.
Qed.

(** [sleep] in a critical section of another lock: that lock is given back,
    [ptable.lock] is held across the switch. *)
Lemma sleep_eq ch lk p pr c k :
  cpu_ok k → k_held k = [lk] → lk ≠ LkPtable → k_cur k = Some p → k_procs k !! p = Some pr →
  ∃ k', (sleep ch (Some lk) c : KM unit) k = Switch c k' ∧
    cpu_ok k' ∧ k_held k' = [LkPtable] ∧
    k' = upd_proc p (set_p_state SLEEPING ∘ set_p_chan (Some ch)) (released lk (acquired LkPtable k)).
Proof.
  intros Hok Hh Hlk Hc Hp. assert (Hne : k_held k ≠ []) by (by rewrite Hh).
  assert (Hin : LkPtable ∉ k_held k) by (rewrite Hh; set_solver).
  pose proof (cpu_ok_acquired LkPtable k Hok Hin) as Hok'.
  eexists. split; [|split; [|split; [|reflexivity]]].
  - unfold sleep. rewrite (bind_Ret_eq _ _ _ _ _ (myproc_locked k Hok Hne)), Hc.
    rewrite bool_decide_eq_false_2 by done. cbn [negb when].
    rewrite bind_assoc, (bind_Ret_eq _ _ _ _ _ (acquire_eq LkPtable k Hok Hin)).
    rewrite (bind_Ret_eq _ _ _ _ _ (release_eq lk (acquired LkPtable k) Hok' ltac:(cbn; rewrite Hh; set_solver))).
    rewrite !bind_modify. rewrite (sched_eq p (set_p_state SLEEPING (set_p_chan (Some ch) pr))).
    + f_equal. unfold upd_proc. cbn. unfold set_k_procs. cbn. by rewrite alter_compose.
    + apply (cpu_ok_released lk (acquired LkPtable k)); [done|cbn; rewrite Hh; set_solver].
    + by apply held_handover.
    + done.
    + cbn. rewrite !list_lookup_alter, !decide_True by done. by rewrite Hp.
    + done.
  - apply (cpu_ok_released lk (acquired LkPtable k)); [done|cbn; rewrite Hh; set_solver].
  - by apply held_handover.
Qed.
End closed_forms.
