(* ===== verification/Sock.v ===== *)
(** * Sock: the socket table and the socket system calls of sock.c

    [stable] with its operations, the calls [listen], [connect], [send],
    [recv], [disconnect], and [closeprocsocks]. A call that sleeps is cut at
    [sleep]: it ends with [Switch pc], and [sock_wake pc] is the code that
    runs once the scheduler has chosen the process again. User buffers are
    the bytes from the pointer to the end of the accessible block. *)

From S2P Require Import Prelude CString Kernel Sched.

(** ** Definitions *)

Definition INV_PORT : Z := -1.
Definition SOCK_SID_DEF : Z := -1.
Definition SOCK_STATE_DEF : sockstate := CLOSED.
Definition SOCK_OWNER_DEF : option nat := None.
Definition SOCK_BUFFER_DEF : list Z := [0].
Definition SOCK_HASDATA_DEF : bool := false.
Definition SOCK_LPORT_DEF : Z := INV_PORT.
Definition SOCK_RPORT_DEF : Z := INV_PORT.

(** The string literals of [connect]. *)
Definition str_localhost : list Z := [108; 111; 99; 97; 108; 104; 111; 115; 116; 0].
Definition str_127_0_0_1 : list Z := [49; 50; 55; 46; 48; 46; 48; 46; 49; 0].

(** Where a sleeping call continues. *)
Inductive sock_pc : Type :=
  | PcListen (s : nat)
  | PcSend (local remote : nat) (data : list Z) (n : Z)
  | PcRecv (local remote : nat) (data : list Z) (n : Z).

Notation SM := (M kernel sock_pc).

Section sock.
Context {C : Type}.
Notation KM := (M kernel C).

Definition sock_at (s : nat) : KM sock :=
  o <- gets (λ k, st_sock (k_stable k) !! s) ;;
  deref "socket" o.

(** The test of [getsock]'s loop. *)
Definition is_open_at (port : Z) (s : sock) : bool :=
  negb (bool_decide (s_state s = CLOSED)) && (s_lPort s =? port).
Definition is_closed (s : sock) : bool := bool_decide (s_state s = CLOSED).
Definition is_open (s : sock) : bool := negb (is_closed s).

Definition getsock_tab (port : Z) (tab : list sock) : option nat :=
  if (0 <=? port) && (port <? NPORT) then find_idx (is_open_at port) tab else None.
Definition getsock (port : Z) : KM (option nat) :=
  gets (λ k, getsock_tab port (st_sock (k_stable k))).

(** [for(port = NPORT - 1; port; --port) ...] with [n] ports left *)
Fixpoint getfreeport_from (n : nat) (tab : list sock) : Z :=
  match n with
  | O => INV_PORT
  | S n' => match getsock_tab (Z.of_nat n) tab with
            | None => Z.of_nat n
            | Some _ => getfreeport_from n' tab
            end
  end.
Definition getfreeport : KM Z :=
  gets (λ k, getfreeport_from (Z.to_nat (NPORT - 1)) (st_sock (k_stable k))).

Definition retsockfunc {A} (code : A) : KM A :=
  release LkStable ;;
  mret code.

Definition setsockvalue (socket : option nat) (sid : Z) (state : sockstate)
    (owner : option nat) (lPort rPort : Z) (hasfullbuffer : bool) (buff : list Z)
    (overWriteToDef : bool) : KM unit :=
  match socket with
  | None => mret tt
  | Some s =>
      if overWriteToDef then
        modify (upd_sock s (set_s_owner owner)) ;;
        modify (upd_sock s (set_s_state state)) ;;
        modify (upd_sock s (set_s_lPort lPort)) ;;
        modify (upd_sock s (set_s_rPort rPort)) ;;
        modify (upd_sock s (set_s_hasfullbuffer hasfullbuffer)) ;;
        modify (upd_sock s (set_s_sid sid)) ;;
        sk <- sock_at s ;;
        b <- deref "strncpy" (blk_strncpy (s_recvbuffer sk) buff 1) ;;
        modify (upd_sock s (set_s_recvbuffer b))
      else
        when (negb (bool_decide (owner = SOCK_OWNER_DEF))) (modify (upd_sock s (set_s_owner owner))) ;;
        when (negb (bool_decide (state = SOCK_STATE_DEF))) (modify (upd_sock s (set_s_state state))) ;;
        when (negb (lPort =? SOCK_LPORT_DEF)) (modify (upd_sock s (set_s_lPort lPort))) ;;
        when (negb (rPort =? SOCK_RPORT_DEF)) (modify (upd_sock s (set_s_rPort rPort))) ;;
        when (negb (eqb hasfullbuffer SOCK_HASDATA_DEF))
          (modify (upd_sock s (set_s_hasfullbuffer hasfullbuffer))) ;;
        when (negb (sid =? SOCK_SID_DEF)) (modify (upd_sock s (set_s_sid sid))) ;;
        d <- deref "strncmp" (blk_strncmp buff SOCK_BUFFER_DEF 1) ;;
        when (negb (d =? 0))
          (sk <- sock_at s ;;
           b <- deref "strncpy" (blk_strncpy (s_recvbuffer sk) buff 1) ;;
           modify (upd_sock s (set_s_recvbuffer b)))
  end.

Definition resetsock (socket : option nat) : KM unit :=
  setsockvalue socket SOCK_SID_DEF SOCK_STATE_DEF SOCK_OWNER_DEF SOCK_LPORT_DEF SOCK_RPORT_DEF
    SOCK_HASDATA_DEF SOCK_BUFFER_DEF true.

Definition allocsock (lport : Z) : KM (option nat) :=
  g <- getsock lport ;;
  if (lport <? 0) || (NPORT <=? lport) || bool_decide (is_Some g) then mret None else
  s <- gets (λ k, find_idx is_closed (st_sock (k_stable k))) ;;
  match s with
  | None => mret None
  | Some s =>
      sid <- gets (λ k, st_nextsid (k_stable k)) ;;
      owner <- myproc ;;
      setsockvalue (Some s) sid OPENED owner lport SOCK_RPORT_DEF false [0] true ;;
      modify (upd_stable (λ t, set_st_countSock (s32 (st_countSock t + 1)) t)) ;;
      modify (upd_stable (λ t, set_st_nextsid (s32 (st_nextsid t + 1)) t)) ;;
      mret (Some s)
  end.

Definition removesock (socket : option nat) : KM bool :=
  match socket with
  | None => mret false
  | Some s =>
      wakeup (ChSock s) ;;
      resetsock (Some s) ;;
      modify (upd_stable (λ t, set_st_countSock (s32 (st_countSock t - 1)) t)) ;;
      mret true
  end.

Definition getprocsock_tab (process : option nat) (tab : list sock) : option nat :=
  find_idx (λ s, is_open s && bool_decide (s_owner s = process)) tab.
Definition getprocsock (process : option nat) : KM (option nat) :=
  gets (λ k, getprocsock_tab process (st_sock (k_stable k))).

(** [while((s = getprocsock(process)) != NULL) removesock(s);] *)
Fixpoint closeprocsocks_loop (fuel : nat) (process : option nat) : KM unit :=
  match fuel with
  | O => fault "closeprocsocks: out of fuel"
  | S fuel =>
      s <- getprocsock process ;;
      match s with
      | None => mret tt
      | Some s => removesock (Some s) ;; closeprocsocks_loop fuel process
      end
  end.
Definition closeprocsocks (process : option nat) : KM unit :=
  match process with
  | None => mret tt
  | Some _ =>
      acquire LkStable ;;
      closeprocsocks_loop (S NSOCK) process ;;
      release LkStable
  end.

Definition sinit : KM unit :=
  modify (upd_stable (λ t, set_st_countSock 0 t)) ;;
  modify (upd_stable (λ t, set_st_nextsid 0 t)).

Definition discard_inv_port (port : Z) : bool := (port <? 0) || (NPORT <=? port).

Definition connect (rport : Z) (host : list Z) : KM Z :=
  if discard_inv_port rport then mret E_INVALID_ARG else
  len <- deref "strlen" (blk_strlen host) ;;
  c1 <- deref "strncmp" (blk_strncmp host str_localhost (u32 len)) ;;
  c2 <- (if negb (c1 =? 0) then deref "strncmp" (blk_strncmp host str_127_0_0_1 (u32 len))
         else mret 0) ;;
  if negb (c1 =? 0) && negb (c2 =? 0) then mret E_INVALID_ARG else
  acquire LkStable ;;
  remote <- getsock rport ;;
  lport <- getfreeport ;;
  if lport =? INV_PORT then retsockfunc E_FAIL else
  match remote with
  | None => retsockfunc E_NOTFOUND
  | Some remote =>
      r <- sock_at remote ;;
      if negb (bool_decide (s_state r = LISTENING)) then retsockfunc E_WRONG_STATE else
      local <- allocsock lport ;;
      match local with
      | None => retsockfunc E_FAIL
      | Some local =>
          modify (upd_sock remote (set_s_state CONNECTED)) ;;
          modify (upd_sock local (set_s_state CONNECTED)) ;;
          r <- sock_at remote ;;
          modify (upd_sock local (set_s_rPort (s_lPort r))) ;;
          l <- sock_at local ;;
          modify (upd_sock remote (set_s_rPort (s_lPort l))) ;;
          modify (upd_sock local (set_s_hasfullbuffer false)) ;;
          modify (upd_sock remote (set_s_hasfullbuffer false)) ;;
          wakeup (ChSock remote) ;;
          retsockfunc lport
      end
  end.

Definition disconnect (lport : Z) : KM Z :=
  if discard_inv_port lport then mret E_INVALID_ARG else
  acquire LkStable ;;
  local <- getsock lport ;;
  match local with
  | None => retsockfunc E_NOTFOUND
  | Some local =>
      l <- sock_at local ;;
      me <- myproc ;;
      if negb (bool_decide (s_owner l = me)) then retsockfunc E_ACCESS_DENIED else
      removesock (Some local) ;;
      retsockfunc 0
  end.

(** [send] from the test after the sleep on. *)
Definition send_tail (local remote : nat) (data : list Z) (n : Z) : KM Z :=
  l <- sock_at local ;;
  g <- getsock (s_rPort l) ;;
  match g with
  | None =>
      removesock (Some local) ;;
      retsockfunc E_CONNECTION_RESET_BY_REMOTE
  | Some _ =>
      r <- sock_at remote ;;
      b <- deref "strncpy" (blk_strncpy (s_recvbuffer r) data n) ;;
      modify (upd_sock remote (set_s_recvbuffer b)) ;;
      modify (upd_sock remote (set_s_hasfullbuffer true)) ;;
      wakeup (ChSock local) ;;
      retsockfunc 0
  end.

(** [recv] from the copy after the sleep on; the result is the code and
    what the user's buffer holds. *)
Definition recv_tail (local : nat) (data : list Z) (n : Z) : KM (Z * list Z) :=
  l <- sock_at local ;;
  data <- deref "strncpy" (blk_strncpy data (s_recvbuffer l) n) ;;
  b <- deref "*recvbuffer" (blk_set (s_recvbuffer l) 0 0) ;;
  modify (upd_sock local (set_s_recvbuffer b)) ;;
  modify (upd_sock local (set_s_hasfullbuffer false)) ;;
  wakeup (ChSock local) ;;
  l <- sock_at local ;;
  g <- getsock (s_rPort l) ;;
  match g with
  | None =>
      removesock (Some local) ;;
      retsockfunc (E_CONNECTION_RESET_BY_REMOTE, data)
  | Some _ => retsockfunc (0, data)
  end.
End sock.

Definition listen (lport : Z) : SM Z :=
  if discard_inv_port lport then mret E_INVALID_ARG else
  acquire LkStable ;;
  n <- gets (λ k, st_countSock (k_stable k)) ;;
  if n =? Z.of_nat NSOCK then retsockfunc E_FAIL else
  s <- allocsock lport ;;
  match s with
  | None => retsockfunc E_ACCESS_DENIED
  | Some s =>
      modify (upd_sock s (set_s_state LISTENING)) ;;
      sleep (ChSock s) (Some LkStable) (PcListen s) ;;
      retsockfunc 0
  end.

Definition send (lport : Z) (data : list Z) (n : Z) : SM Z :=
  if discard_inv_port lport then mret E_INVALID_ARG else
  acquire LkStable ;;
  local <- getsock lport ;;
  match local with
  | None => retsockfunc E_NOTFOUND
  | Some local =>
      l <- sock_at local ;;
      me <- myproc ;;
      if negb (bool_decide (s_owner l = me)) then retsockfunc E_ACCESS_DENIED else
      if negb (bool_decide (s_state l = CONNECTED)) then retsockfunc E_WRONG_STATE else
      remote <- getsock (s_rPort l) ;;
      match remote with
      | None => retsockfunc E_NOTFOUND
      | Some remote =>
          r <- sock_at remote ;;
          if negb (bool_decide (s_state r = CONNECTED)) then retsockfunc E_WRONG_STATE else
          when (s_hasfullbuffer r)
            (sleep (ChSock remote) (Some LkStable) (PcSend local remote data n)) ;;
          send_tail local remote data n
      end
  end.

Definition recv (lport : Z) (data : list Z) (n : Z) : SM (Z * list Z) :=
  if discard_inv_port lport then mret (E_INVALID_ARG, data) else
  acquire LkStable ;;
  local <- getsock lport ;;
  match local with
  | None => retsockfunc (E_NOTFOUND, data)
  | Some local =>
      l <- sock_at local ;;
      me <- myproc ;;
      if negb (bool_decide (s_owner l = me)) then retsockfunc (E_ACCESS_DENIED, data) else
      if negb (bool_decide (s_state l = CONNECTED)) then retsockfunc (E_WRONG_STATE, data) else
      remote <- getsock (s_rPort l) ;;
      match remote with
      | None => retsockfunc (E_NOTFOUND, data)
      | Some remote =>
          r <- sock_at remote ;;
          if negb (bool_decide (s_state r = CONNECTED)) then retsockfunc (E_WRONG_STATE, data) else
          when (negb (s_hasfullbuffer l))
            (sleep (ChSock remote) (Some LkStable) (PcRecv local remote data n)) ;;
          recv_tail local data n
      end
  end.

(** The rest of a call whose process [p] has been switched back in. *)
Definition sock_wake (p : nat) (intena : bool) (pc : sock_pc) : SM (Z * list Z) :=
  sleep_leave p LkStable intena ;;
  match pc with
  | PcListen _ => c <- retsockfunc 0 ;; mret (c, [])
  | PcSend local remote data n => c <- send_tail local remote data n ;; mret (c, [])
  | PcRecv local remote data n => recv_tail local data n
  end.
