(* ===== verification/SockSpec.v ===== *)
(** * SockSpec: what the socket calls do, as functions on the socket table

    The abstract specification of [Sock]: every call is a pure function of
    the calling process and the socket table, giving either its result, the
    new table and the channels it wakes, or the point where it blocks. The
    theorem [sock_call_refines] says the kernel code computes it: locks taken
    and given back, processes woken or put to sleep, no panic and no access
    outside an object. *)

From S2P Require Import Prelude CString Kernel Sched Sock.

(** ** Definitions *)

(** The calls of a process, [CExit] being the cleanup [exit] makes. *)
Inductive sock_call : Type :=
  | CListen (lport : Z)
  | CConnect (rport : Z) (host : list Z)
  | CSend (lport : Z) (data : list Z) (n : Z)
  | CRecv (lport : Z) (data : list Z) (n : Z)
  | CDisconnect (lport : Z)
  | CExit.

Definition run_call (c : sock_call) : SM (Z * list Z) :=
  match c with
  | CListen lport => c <- listen lport ;; mret (c, [])
  | CConnect rport host => c <- connect rport host ;; mret (c, [])
  | CSend lport data n => c <- send lport data n ;; mret (c, [])
  | CRecv lport data n => recv lport data n
  | CDisconnect lport => c <- disconnect lport ;; mret (c, [])
  | CExit => me <- myproc ;; closeprocsocks me ;; mret (0, [])
  end.

(** What a call does: return, having woken the channels [ws] in turn, or
    block on [ch]. *)
Inductive effect : Type :=
  | Done (r : Z * list Z) (t : stable_t) (ws : list chan)
  | Block (pc : sock_pc) (ch : chan) (t : stable_t).

Definition t_sock (i : nat) (g : sock → sock) (t : stable_t) : stable_t :=
  set_st_sock (alter g i (st_sock t)) t.

(** A socket as [setsockvalue] with [overWriteToDef] leaves it. *)
Definition sock_init (sid : Z) (state : sockstate) (owner : option nat) (lport : Z) (s : sock) : sock :=
  mk_sock sid state owner (<[0%nat:=0]> (s_recvbuffer s)) false lport INV_PORT.

Definition t_alloc (i p : nat) (lport : Z) (t : stable_t) : stable_t :=
  let t1 := t_sock i (sock_init (st_nextsid t) OPENED (Some p) lport) t in
  mk_stable_t (st_sock t1) (s32 (st_countSock t + 1)) (s32 (st_nextsid t + 1)).

Definition t_remove (i : nat) (t : stable_t) : stable_t :=
  let t1 := t_sock i (sock_init SOCK_SID_DEF CLOSED None INV_PORT) t in
  mk_stable_t (st_sock t1) (s32 (st_countSock t - 1)) (st_nextsid t).

(** The entry of an open socket on a port, with its contents. *)
Definition find_port (port : Z) (t : stable_t) : option (nat * sock) :=
  i ← getsock_tab port (st_sock t); s ← st_sock t !! i; Some (i, s).

Definition free_slot (t : stable_t) : option nat := find_idx is_closed (st_sock t).
Definition free_port (t : stable_t) : Z := getfreeport_from (Z.to_nat (NPORT - 1)) (st_sock t).

Definition put_data (data : list Z) (n : Z) (s : sock) : sock :=
  set_s_hasfullbuffer true
    (set_s_recvbuffer (default (s_recvbuffer s) (blk_strncpy (s_recvbuffer s) data n)) s).
Definition take_data (s : sock) : sock :=
  set_s_hasfullbuffer false (set_s_recvbuffer (<[0%nat:=0]> (s_recvbuffer s)) s).
Definition connect_to (rport : Z) (s : sock) : sock :=
  set_s_hasfullbuffer false (set_s_rPort rport (set_s_state CONNECTED s)).

(** The host names [connect] takes: the NUL-terminated prefixes of its two
    literals. *)
Definition host_ok (host : list Z) : bool :=
  match blk_strlen host with
  | None => false
  | Some len =>
      bool_decide (blk_strncmp host str_localhost len = Some 0) ||
      bool_decide (blk_strncmp host str_127_0_0_1 len = Some 0)
  end.

Definition listen_spec (p : nat) (lport : Z) (t : stable_t) : effect :=
  if discard_inv_port lport then Done (E_INVALID_ARG, []) t [] else
  if st_countSock t =? Z.of_nat NSOCK then Done (E_FAIL, []) t [] else
  match getsock_tab lport (st_sock t), free_slot t with
  | None, Some i =>
      Block (PcListen i) (ChSock i) (t_sock i (set_s_state LISTENING) (t_alloc i p lport t))
  | _, _ => Done (E_ACCESS_DENIED, []) t []
  end.

Definition connect_spec (p : nat) (rport : Z) (host : list Z) (t : stable_t) : effect :=
  if discard_inv_port rport || negb (host_ok host) then Done (E_INVALID_ARG, []) t [] else
  let lport := free_port t in
  if lport =? INV_PORT then Done (E_FAIL, []) t [] else
  match find_port rport t with
  | None => Done (E_NOTFOUND, []) t []
  | Some (r, sr) =>
      if negb (bool_decide (s_state sr = LISTENING)) then Done (E_WRONG_STATE, []) t [] else
      match free_slot t with
      | None => Done (E_FAIL, []) t []
      | Some l =>
          Done (lport, [])
            (t_sock r (connect_to lport) (t_sock l (connect_to (s_lPort sr)) (t_alloc l p lport t)))
            [ChSock r]
      end
  end.

(** The checks [send] and [recv] share: the caller's socket and its peer. *)
Definition peers (p : nat) (lport : Z) (t : stable_t) : Z + (nat * sock) * (nat * sock) :=
  if discard_inv_port lport then inl E_INVALID_ARG else
  match find_port lport t with
  | None => inl E_NOTFOUND
  | Some (l, sl) =>
      if negb (bool_decide (s_owner sl = Some p)) then inl E_ACCESS_DENIED else
      if negb (bool_decide (s_state sl = CONNECTED)) then inl E_WRONG_STATE else
      match find_port (s_rPort sl) t with
      | None => inl E_NOTFOUND
      | Some (r, sr) =>
          if negb (bool_decide (s_state sr = CONNECTED)) then inl E_WRONG_STATE
          else inr ((l, sl), (r, sr))
      end
  end.

Definition rport_of (l : nat) (t : stable_t) : Z :=
  match st_sock t !! l with Some s => s_rPort s | None => INV_PORT end.

Definition send_tail_spec (l r : nat) (data : list Z) (n : Z) (t : stable_t) : effect :=
  match getsock_tab (rport_of l t) (st_sock t) with
  | None => Done (E_CONNECTION_RESET_BY_REMOTE, []) (t_remove l t) [ChSock l]
  | Some _ => Done (0, []) (t_sock r (put_data data n) t) [ChSock l]
  end.

Definition recv_tail_spec (l : nat) (data : list Z) (n : Z) (t : stable_t) : effect :=
  match st_sock t !! l with
  | None => Done (0, data) t []
  | Some sl =>
      let data' := default data (blk_strncpy data (s_recvbuffer sl) n) in
      let t' := t_sock l take_data t in
      match getsock_tab (s_rPort sl) (st_sock t') with
      | None => Done (E_CONNECTION_RESET_BY_REMOTE, data') (t_remove l t') [ChSock l; ChSock l]
      | Some _ => Done (0, data') t' [ChSock l]
      end
  end.

Definition send_spec (p : nat) (lport : Z) (data : list Z) (n : Z) (t : stable_t) : effect :=
  match peers p lport t with
  | inl e => Done (e, []) t []
  | inr ((l, _), (r, sr)) =>
      if s_hasfullbuffer sr then Block (PcSend l r data n) (ChSock r) t
      else send_tail_spec l r data n t
  end.

Definition recv_spec (p : nat) (lport : Z) (data : list Z) (n : Z) (t : stable_t) : effect :=
  match peers p lport t with
  | inl e => Done (e, data) t []
  | inr ((l, sl), (r, _)) =>
      if s_hasfullbuffer sl then recv_tail_spec l data n t
      else Block (PcRecv l r data n) (ChSock r) t
  end.

Definition disconnect_spec (p : nat) (lport : Z) (t : stable_t) : effect :=
  if discard_inv_port lport then Done (E_INVALID_ARG, []) t [] else
  match find_port lport t with
  | None => Done (E_NOTFOUND, []) t []
  | Some (l, sl) =>
      if bool_decide (s_owner sl = Some p) then Done (0, []) (t_remove l t) [ChSock l]
      else Done (E_ACCESS_DENIED, []) t []
  end.

(** Closing every socket of a process, in table order. *)
Definition owned_by (p : nat) (s : sock) : bool := is_open s && bool_decide (s_owner s = Some p).
Fixpoint t_close_all (fuel : nat) (p : nat) (t : stable_t) : stable_t * list chan :=
  match fuel, find_idx (owned_by p) (st_sock t) with
  | S fuel, Some i => let '(t', ws) := t_close_all fuel p (t_remove i t) in (t', ChSock i :: ws)
  | _, _ => (t, [])
  end.

Definition call_spec (p : nat) (c : sock_call) (t : stable_t) : effect :=
  match c with
  | CListen lport => listen_spec p lport t
  | CConnect rport host => connect_spec p rport host t
  | CSend lport data n => send_spec p lport data n t
  | CRecv lport data n => recv_spec p lport data n t
  | CDisconnect lport => disconnect_spec p lport t
  | CExit => let '(t', ws) := t_close_all NSOCK p t in Done (0, []) t' ws
  end.

Definition resume_spec (pc : sock_pc) (t : stable_t) : effect :=
  match pc with
  | PcListen _ => Done (0, []) t []
  | PcSend l r data n => send_tail_spec l r data n t
  | PcRecv l r data n => recv_tail_spec l data n t
  end.

(** What callers must provide: readable sources of at most [SBUFFSIZE - 1]
    bytes, terminated host names, writable destinations. *)
Definition call_ok (c : sock_call) : Prop :=
  match c with
  | CConnect _ host => ∃ len, blk_strlen host = Some len ∧ len < 2 ^ 32
  | CSend _ data n => n < Z.of_nat SBUFFSIZE ∧ src_ok data n
  | CRecv _ data n => n <= Z.of_nat (length data)
  | _ => True
  end.

(** ** The invariant of the socket table *)
Definition buf_ok (s : sock) : Prop :=
  length (s_recvbuffer s) = SBUFFSIZE ∧ s_recvbuffer s !! 127%nat = Some 0.

Record sock_ok (s : sock) : Prop := mk_sock_ok {
  so_buf : buf_ok s;
  so_port : is_open s = true → 0 <= s_lPort s < NPORT;
  so_owner : is_open s = true → is_Some (s_owner s);
  so_peer : s_state s = CONNECTED → 0 <= s_rPort s < NPORT;
}.

Record tab_ok (t : stable_t) : Prop := mk_tab_ok {
  to_length : length (st_sock t) = NSOCK;
  to_count : st_countSock t = Z.of_nat (countb is_open (st_sock t));
  to_socks : Forall sock_ok (st_sock t);
  to_distinct : ∀ i j s1 s2, st_sock t !! i = Some s1 → st_sock t !! j = Some s2 →
    is_open s1 = true → is_open s2 = true → s_lPort s1 = s_lPort s2 → i = j;
}.

(** What the rest of a suspended call needs: the socket [send] or [recv] works
    on is its caller's and the arguments are those of the call. The rest of
    [listen] touches no socket; [pc_owns] says what is true of it. *)
Definition pc_ok (p : nat) (pc : sock_pc) (t : stable_t) : Prop :=
  match pc with
  | PcListen _ => True
  | PcSend l r data n =>
      (∃ s, st_sock t !! l = Some s ∧ is_open s = true ∧ s_owner s = Some p) ∧
      (r < NSOCK)%nat ∧ n < Z.of_nat SBUFFSIZE ∧ src_ok data n
  | PcRecv l r data n =>
      (∃ s, st_sock t !! l = Some s ∧ is_open s = true ∧ s_owner s = Some p) ∧
      n <= Z.of_nat (length data)
  end.

(** The socket a suspended call works on. *)
Definition pc_sock (pc : sock_pc) : nat :=
  match pc with
  | PcListen l => l
  | PcSend l _ _ _ => l
  | PcRecv l _ _ _ => l
  end.

(** That socket is an open one of its caller's: a listener until a client
    connects and connected from then on, connected in [send] and [recv]. *)
Definition pc_owns (p : nat) (pc : sock_pc) (t : stable_t) : Prop :=
  ∃ s, st_sock t !! pc_sock pc = Some s ∧ is_open s = true ∧ s_owner s = Some p ∧
    match pc with
    | PcListen _ => s_state s = LISTENING ∨ s_state s = CONNECTED
    | _ => s_state s = CONNECTED
    end.

(** ** Kernel states around a call *)

(** This CPU runs process [p] holding the locks [held]; [ps] and [t] are the
    process and socket tables. *)
Definition at_ (held : list lockid) (p : nat) (ps : list proc) (t : stable_t) (k : kernel) : Prop :=
  cpu_ok k ∧ k_held k = held ∧ k_cur k = Some p ∧ k_procs k = ps ∧ k_stable k = t.

Definition wakes (ws : list chan) (ps : list proc) : list proc :=
  foldl (λ ps ch, wake ch <$> ps) ps ws.
Definition asleep (ch : chan) (p : proc) : proc := set_p_state SLEEPING (set_p_chan (Some ch) p).

(** The kernel run has the effect [e]. *)
Definition eff_ret (p : nat) (ps : list proc) (e : effect) (r : Z * list Z) (k : kernel) : Prop :=
  match e with
  | Done r' t ws => r = r' ∧ at_ [] p (wakes ws ps) t k
  | Block _ _ _ => False
  end.
Definition eff_switch (p : nat) (ps : list proc) (e : effect) (pc : sock_pc) (k : kernel) : Prop :=
  match e with
  | Done _ _ _ => False
  | Block pc' ch t => pc = pc' ∧ at_ [LkPtable] p (alter (asleep ch) p ps) t k
  end.
Definition has_effect (p : nat) (ps : list proc) (e : effect) (m : SM (Z * list Z)) (k : kernel) : Prop :=
  wp False m (eff_ret p ps e) (eff_switch p ps e) k.
