(* ===== verification/SockRefine.v ===== *)
(** * SockRefine: the code of sock.c implements the specification SockSpec

    The lemmas describe each helper of sock.c inside the critical section of
    [stable.lock]; the theorems put them together per call. *)

From S2P Require Import Prelude CString Kernel Sched Sock SockSpec.

#[local] Transparent wp.

Section crit.
Context {C : Type}.
Notation KM := (M kernel C).
Notation crit := (at_ [LkStable]).

Lemma at_sock held p ps t k i g : at_ held p ps t k → at_ held p ps (t_sock i g t) (upd_sock i g k).
Proof. intros (? & ? & ? & ? & <-). done. Qed.

Lemma at_stable held p ps t k g : at_ held p ps t k → at_ held p ps (g t) (upd_stable g k).
Proof. intros (? & ? & ? & ? & <-). done. Qed.

Lemma wp_acquire_stable E p ps t k (Q : unit → kernel → Prop) R :
  at_ [] p ps t k → (∀ k', crit p ps t k' → Q tt k') →
  wp E (acquire LkStable : KM unit) Q R k.
Proof.
  intros (Hok & Hh & Hc & Hp & Ht) HQ. unfold wp.
  rewrite acquire_eq; [|done|rewrite Hh; set_solver]. apply HQ. unfold at_.
  split; [apply cpu_ok_acquired; [done|rewrite Hh; set_solver]|]. cbn. by rewrite Hh.
Qed.

Lemma wp_release_stable E p ps t k (Q : unit → kernel → Prop) R :
  crit p ps t k → (∀ k', at_ [] p ps t k' → Q tt k') →
  wp E (release LkStable : KM unit) Q R k.
Proof.
  intros (Hok & Hh & Hc & Hp & Ht) HQ. unfold wp.
  rewrite release_eq; [|done|rewrite Hh; set_solver]. apply HQ. unfold at_.
  split; [apply cpu_ok_released; [done|rewrite Hh; set_solver]|]. cbn. by rewrite Hh.
Qed.

Lemma wp_release_ptable E p ps t k (Q : unit → kernel → Prop) R :
  at_ [LkPtable] p ps t k → (∀ k', at_ [] p ps t k' → Q tt k') →
  wp E (release LkPtable : KM unit) Q R k.
Proof.
  intros (Hok & Hh & Hc & Hp & Ht) HQ. unfold wp.
  rewrite release_eq; [|done|rewrite Hh; set_solver]. apply HQ. unfold at_.
  split; [apply cpu_ok_released; [done|rewrite Hh; set_solver]|]. cbn. by rewrite Hh.
Qed.

Lemma wp_eq_Ret E {A} (m : KM A) a s s' (Q : A → kernel → Prop) R :
  m s = Ret a s' → Q a s' → wp E m Q R s.
Proof. intros Hm HQ. unfold wp. by rewrite Hm. Qed.

Lemma at_pushpop p ps t k :
  at_ [] p ps t k → at_ [] p ps t (upd_cpu popped (upd_cpu pushed k)).
Proof.
  intros ((Hn & _ & Hnd) & Hh & Hc & Hp & Ht). unfold at_, cpu_ok. cbn in *. rewrite Hh in *.
  cbn in *. split_and!; try done. lia.
Qed.

Lemma wp_retsockfunc E {A} (a : A) p ps t k (Q : A → kernel → Prop) R :
  crit p ps t k → (∀ k', at_ [] p ps t k' → Q a k') →
  wp E (retsockfunc a : KM A) Q R k.
Proof.
  intros Hk HQ. apply wp_bind. eapply wp_release_stable; [done|]. intros k' Hk'.
  apply wp_ret. by apply HQ.
Qed.

Lemma wp_wakeup E ch p ps t k (Q : unit → kernel → Prop) R :
  crit p ps t k → (∀ k', crit p (wake ch <$> ps) t k' → Q tt k') →
  wp E (wakeup ch : KM unit) Q R k.
Proof.
  intros (Hok & Hh & Hc & <- & Ht) HQ. unfold wp.
  rewrite wakeup_locked; [|done|by rewrite Hh|rewrite Hh; set_solver]. by apply HQ.
Qed.

Lemma wp_myproc E p ps t k (Q : option nat → kernel → Prop) R :
  crit p ps t k → Q (Some p) k → wp E (myproc : KM (option nat)) Q R k.
Proof.
  intros (Hok & Hh & Hc & ? & Ht) HQ. unfold wp.
  rewrite myproc_locked; [|done|by rewrite Hh]. by rewrite Hc.
Qed.

Lemma wp_sock_at E p ps t k i s (Q : sock → kernel → Prop) R :
  crit p ps t k → st_sock t !! i = Some s → Q s k → wp E (sock_at i : KM sock) Q R k.
Proof.
  intros (? & ? & ? & ? & <-) Hs HQ. unfold sock_at. apply wp_bind, wp_gets.
  rewrite Hs. by apply wp_ret.
Qed.
End crit.

Lemma wp_sleep E ch pc p ps t k (Q : unit → kernel → Prop) (R : sock_pc → kernel → Prop) :
  at_ [LkStable] p ps t k → (p < length ps)%nat →
  (∀ k', at_ [LkPtable] p (alter (asleep ch) p ps) t k' → R pc k') →
  wp E (sleep ch (Some LkStable) pc : SM unit) Q R k.
Proof.
  intros (Hok & Hh & Hc & <- & Ht) Hlt HQ. apply lookup_lt_is_Some in Hlt as [pr Hpr].
  destruct (sleep_eq ch LkStable p pr pc k Hok Hh ltac:(done) Hc Hpr) as (k' & Hk & Hok' & Hh' & ->).
  unfold wp. rewrite Hk. by apply HQ.
Qed.

Lemma t_sock_compose i f g t : t_sock i f (t_sock i g t) = t_sock i (f ∘ g) t.
Proof. unfold t_sock, set_st_sock. cbn. by rewrite alter_compose. Qed.

Lemma t_sock_ext i f g t :
  (∀ s, st_sock t !! i = Some s → f s = g s) → t_sock i f t = t_sock i g t.
Proof. intros H. unfold t_sock. f_equal. by apply list_alter_ext. Qed.

Lemma t_sock_lookup i f t s : st_sock t !! i = Some s → st_sock (t_sock i f t) !! i = Some (f s).
Proof. intros H. cbn. rewrite list_lookup_alter, decide_True by done. by rewrite H. Qed.

Lemma t_sock_lookup_ne i j f t : i ≠ j → st_sock (t_sock i f t) !! j = st_sock t !! j.
Proof. intros H. cbn. rewrite list_lookup_alter, decide_False by done. done. Qed.

(** The same on kernel states. *)
Lemma upd_sock_compose i f g k : upd_sock i f (upd_sock i g k) = upd_sock i (f ∘ g) k.
Proof. unfold upd_sock, upd_stable. cbn. unfold set_k_stable, set_st_sock. cbn. by rewrite alter_compose. Qed.

Lemma upd_sock_ext i f g k :
  (∀ s, st_sock (k_stable k) !! i = Some s → f s = g s) → upd_sock i f k = upd_sock i g k.
Proof. intros H. unfold upd_sock, upd_stable. do 2 f_equal. by apply list_alter_ext. Qed.

Lemma upd_sock_lookup i f k s :
  st_sock (k_stable k) !! i = Some s → st_sock (k_stable (upd_sock i f k)) !! i = Some (f s).
Proof. apply (t_sock_lookup i f (k_stable k)). Qed.

Lemma blk_strncpy_one d : (0 < length d)%nat → blk_strncpy d [0] 1 = Some (<[0%nat:=0]> d).
Proof. intros H. by destruct d as [|x d]; [simpl in H; lia|]. Qed.

Section helpers.
Context {C : Type}.
Notation KM := (M kernel C).
Notation crit := (at_ [LkStable]).

Lemma setsockvalue_eq i sid state owner lport k s :
  st_sock (k_stable k) !! i = Some s → (0 < length (s_recvbuffer s))%nat →
  (setsockvalue (Some i) sid state owner lport INV_PORT false [0] true : KM unit) k =
    Ret tt (upd_sock i (sock_init sid state owner lport) k).
Proof.
  intros Hs Hl. unfold setsockvalue, sock_at. rewrite !bind_modify, bind_assoc, bind_gets.
  erewrite bind_deref by (do 6 apply upd_sock_lookup; exact Hs).
  erewrite bind_deref by (by apply blk_strncpy_one).
  unfold modify. f_equal. rewrite !upd_sock_compose. apply upd_sock_ext.
  intros s' Hs'. rewrite Hs in Hs'. by injection Hs' as <-.
Qed.

(** Where a table entry may be written: it exists and has a buffer. *)
Definition slot (i : nat) (t : stable_t) : Prop :=
  ∃ s, st_sock t !! i = Some s ∧ (0 < length (s_recvbuffer s))%nat.

Lemma wp_removesock E i p ps t k (Q : bool → kernel → Prop) R :
  crit p ps t k → slot i t →
  (∀ k', crit p (wake (ChSock i) <$> ps) (t_remove i t) k' → Q true k') →
  wp E (removesock (Some i) : KM bool) Q R k.
Proof.
  intros Hk (s & Hs & Hl) HQ. apply wp_bind. eapply wp_wakeup; [done|]. intros k1 Hk1.
  apply wp_bind. unfold wp at 1. unfold resetsock.
  rewrite (setsockvalue_eq _ _ _ _ _ _ s);
    [|by destruct Hk1 as (_ & _ & _ & _ & ->)|done].
  apply wp_bind, wp_modify, wp_ret, HQ.
  by destruct Hk1 as (? & ? & ? & ? & <-).
Qed.

Lemma wp_allocsock_Some E i lport p ps t k (Q : option nat → kernel → Prop) R :
  crit p ps t k → 0 <= lport < NPORT → getsock_tab lport (st_sock t) = None →
  free_slot t = Some i → slot i t →
  (∀ k', crit p ps (t_alloc i p lport t) k' → Q (Some i) k') →
  wp E (allocsock lport : KM (option nat)) Q R k.
Proof.
  intros Hk Hp Hg Hf (s & Hs & Hl) HQ.
  assert (Ht : k_stable k = t) by (by destruct Hk as (_ & _ & _ & _ & ->)).
  unfold allocsock, getsock. apply wp_bind, wp_gets. rewrite Ht, Hg.
  destruct (Z.ltb_spec lport 0); [lia|]. destruct (Z.leb_spec NPORT lport); [lia|].
  rewrite bool_decide_eq_false_2 by (by intros [? ?]). cbn [orb].
  apply wp_bind, wp_gets. rewrite Ht. unfold free_slot in Hf. rewrite Hf.
  apply wp_bind, wp_gets. apply wp_bind. eapply wp_myproc; [done|].
  apply wp_bind. unfold wp at 1. rewrite (setsockvalue_eq _ _ _ _ _ _ s) by (by rewrite ?Ht).
  apply wp_bind, wp_modify. apply wp_bind, wp_modify. apply wp_ret, HQ.
  by destruct Hk as (? & ? & ? & ? & <-).
Qed.

Lemma wp_allocsock_None E lport p ps t k (Q : option nat → kernel → Prop) R :
  crit p ps t k →
  getsock_tab lport (st_sock t) ≠ None ∨ free_slot t = None →
  Q None k → wp E (allocsock lport : KM (option nat)) Q R k.
Proof.
  intros Hk Hor HQ. assert (Ht : k_stable k = t) by (by destruct Hk as (_ & _ & _ & _ & ->)).
  unfold allocsock, getsock. apply wp_bind, wp_gets. rewrite Ht.
  destruct (getsock_tab lport (st_sock t)) eqn:Hg.
  { rewrite (bool_decide_eq_true_2 (is_Some (Some _))) by done. rewrite orb_true_r. by apply wp_ret. }
  destruct Hor as [?|Hf]; [done|]. unfold free_slot in Hf.
  case_match; [by apply wp_ret|]. apply wp_bind, wp_gets. rewrite Ht, Hf. by apply wp_ret.
Qed.

Lemma find_port_Some port t i s :
  find_port port t = Some (i, s) ↔
  0 <= port < NPORT ∧ getsock_tab port (st_sock t) = Some i ∧ st_sock t !! i = Some s ∧
  is_open s = true ∧ s_lPort s = port.
Proof.
  unfold find_port, getsock_tab. split.
  - intros (j & Hj & (s' & Hs & [= <- <-])%bind_Some)%bind_Some.
    destruct (_ && _) eqn:Hp in Hj; [|done]. rewrite Hp, Hj.
    apply find_idx_Some in Hj as [(x & Hx & Hop) _]. rewrite Hs in Hx. injection Hx as <-.
    apply andb_true_iff in Hop as [? ?%Z.eqb_eq]. split_and!; [lia|lia|done..].
  - intros (Hp & Hj & Hs & _). rewrite Hj. cbn. by rewrite Hs.
Qed.

Lemma find_port_None port t : find_port port t = None ↔ getsock_tab port (st_sock t) = None.
Proof.
  unfold find_port. destruct (getsock_tab port (st_sock t)) as [i|] eqn:Hg; [|done].
  unfold getsock_tab in Hg. destruct (_ && _) in Hg; [|done]. apply find_idx_lt in Hg.
  apply lookup_lt_is_Some in Hg as [s Hs]. cbn. by rewrite Hs.
Qed.

Lemma wp_getsock E port p ps t k (Q : option nat → kernel → Prop) R :
  crit p ps t k →
  (find_port port t = None → Q None k) →
  (∀ i s, find_port port t = Some (i, s) → Q (Some i) k) →
  wp E (getsock port : KM (option nat)) Q R k.
Proof.
  intros (_ & _ & _ & _ & Ht) Hn Hs. apply wp_gets. rewrite Ht.
  destruct (find_port port t) as [[i s]|] eqn:Hf.
  - pose proof Hf as Hf'. apply find_port_Some in Hf' as (_ & -> & _). by eapply Hs.
  - pose proof Hf as Hf'. apply find_port_None in Hf' as ->. by apply Hn.
Qed.

Lemma slot_ok i s t : tab_ok t → st_sock t !! i = Some s → slot i t.
Proof.
  intros Ht Hs. exists s. split; [done|].
  pose proof (Forall_lookup_1 _ _ _ _ (to_socks t Ht) Hs) as [[-> _] _ _ _]. unfold SBUFFSIZE. lia.
Qed.

Lemma free_slot_Some i t : free_slot t = Some i →
  ∃ s, st_sock t !! i = Some s ∧ is_closed s = true ∧ (i < length (st_sock t))%nat.
Proof.
  intros Hf. pose proof (find_idx_lt _ _ _ Hf). by apply find_idx_Some in Hf as [(s & ? & ?) _]; exists s.
Qed.
End helpers.
#[global] Opaque wp.

Notation crit := (at_ [LkStable]).

(** A call that ends: the lock is released and the code returned. *)
Lemma wp_done_data p ps t k ws (r : Z * list Z) :
  crit p (wakes ws ps) t k →
  wp False (retsockfunc r) (eff_ret p ps (Done r t ws)) (eff_switch p ps (Done r t ws)) k.
Proof. intros Hk. eapply wp_retsockfunc; [done|]. by intros k' Hk'. Qed.

Lemma wp_done p ps t k ws (code : Z) :
  crit p (wakes ws ps) t k →
  wp False (retsockfunc code)
    (λ a s', wp False (mret (a, []) : SM _) (eff_ret p ps (Done (code, []) t ws))
               (eff_switch p ps (Done (code, []) t ws)) s')
    (eff_switch p ps (Done (code, []) t ws)) k.
Proof. intros Hk. eapply wp_retsockfunc; [done|]. intros k' Hk'. by apply wp_ret. Qed.

Lemma disconnect_refines p ps t k lport :
  at_ [] p ps t k → tab_ok t →
  has_effect p ps (disconnect_spec p lport t) (run_call (CDisconnect lport)) k.
Proof.
  intros Hk Ht. unfold has_effect, disconnect_spec. cbn [run_call]. unfold disconnect.
  destruct (discard_inv_port lport); [by apply wp_bind, wp_ret, wp_ret|].
  apply wp_bind. apply wp_bind. eapply wp_acquire_stable; [done|]. intros k1 Hk1.
  apply wp_bind. eapply wp_getsock; [done|intros ->|intros l sl Hf].
  { by apply (wp_done _ _ _ _ []). }
  rewrite Hf. apply find_port_Some in Hf as (_ & _ & Hsl & _).
  apply wp_bind. eapply wp_sock_at; [done..|]. apply wp_bind. eapply wp_myproc; [done|].
  destruct (bool_decide (s_owner sl = Some p)); cbn [negb]; [|by apply (wp_done _ _ _ _ [])].
  apply wp_bind. eapply wp_removesock; [done|by eapply slot_ok|]. intros k2 Hk2.
  by apply (wp_done _ _ _ _ [ChSock l]).
Qed.

Lemma listen_refines p ps t k lport :
  at_ [] p ps t k → tab_ok t → (p < length ps)%nat →
  has_effect p ps (listen_spec p lport t) (run_call (CListen lport)) k.
Proof.
  intros Hk Ht Hp. unfold has_effect, listen_spec. cbn [run_call]. unfold listen.
  destruct (discard_inv_port lport) eqn:Hd; [by apply wp_bind, wp_ret, wp_ret|].
  apply wp_bind. apply wp_bind. eapply wp_acquire_stable; [done|]. intros k1 Hk1.
  apply wp_bind, wp_gets. replace (k_stable k1) with t by (by destruct Hk1 as (_ & _ & _ & _ & ->)).
  destruct (st_countSock t =? Z.of_nat NSOCK); [by apply (wp_done _ _ _ _ [])|].
  apply wp_bind. destruct (getsock_tab lport (st_sock t)) eqn:Hg.
  { eapply wp_allocsock_None; [done|by left; rewrite Hg|]. by apply (wp_done _ _ _ _ []). }
  destruct (free_slot t) as [i|] eqn:Hf.
  - pose proof Hf as (s & Hs & _ & _)%free_slot_Some.
    eapply wp_allocsock_Some; [done| |done|done|by eapply slot_ok|].
    { unfold discard_inv_port in Hd. lia. }
    intros k2 Hk2. apply wp_bind, wp_modify. apply wp_bind.
    eapply wp_sleep; [by apply at_sock|done|]. by intros k' Hk'.
  - eapply wp_allocsock_None; [done|by right|]. by apply (wp_done _ _ _ _ []).
Qed.

(** The peer check shared by [send] and [recv]. *)
Lemma peers_inr p lport t l sl r sr :
  peers p lport t = inr ((l, sl), (r, sr)) →
  find_port lport t = Some (l, sl) ∧ s_owner sl = Some p ∧ s_state sl = CONNECTED ∧
  find_port (s_rPort sl) t = Some (r, sr) ∧ s_state sr = CONNECTED.
Proof.
  unfold peers. intros H. repeat (case_match; try done); simplify_eq.
  repeat match goal with H : negb (bool_decide _) = false |- _ =>
    apply negb_false_iff, bool_decide_eq_true_1 in H end. done.
Qed.

(** The host check of [connect]: no access leaves the two strings. *)
Lemma host_check host len :
  blk_strlen host = Some len → len < 2 ^ 32 →
  ∃ c1 c2, blk_strncmp host str_localhost (u32 len) = Some c1 ∧
    blk_strncmp host str_127_0_0_1 (u32 len) = Some c2 ∧
    host_ok host = (c1 =? 0) || (c2 =? 0).
Proof.
  intros Hl Hlt. apply blk_strlen_Some in Hl as Hl'. destruct Hl' as [Hr Hnz].
  rewrite u32_small by lia. unfold blk_strncmp.
  destruct (blk_strncmp_loop_ok (Z.to_nat len) host (take 9 str_localhost)) as [c1 H1]; [lia|done|].
  destruct (blk_strncmp_loop_ok (Z.to_nat len) host (take 9 str_127_0_0_1)) as [c2 H2]; [lia|done|].
  exists c1, c2. split; [exact H1|]. split; [exact H2|].
  unfold host_ok, str_localhost, str_127_0_0_1. rewrite Hl. unfold blk_strncmp. cbn in H1, H2. rewrite H1, H2.
  assert (Hb : ∀ c, bool_decide (Some c = Some 0) = (c =? 0)); [|by rewrite !Hb].
  intros c. destruct (Z.eqb_spec c 0) as [->|]; [done|]. apply bool_decide_eq_false_2. congruence.
Qed.

Lemma free_port_range t : free_port t ≠ INV_PORT → 0 < free_port t < NPORT.
Proof.
  unfold free_port. assert (Hn : (Z.to_nat (NPORT - 1) <= 127)%nat) by done. revert Hn.
  generalize (Z.to_nat (NPORT - 1)). induction n as [|n IH]; intros Hn H; [done|].
  cbn [getfreeport_from] in *. destruct (getsock_tab _ _); [apply IH; [lia|done]|]. unfold NPORT. lia.
Qed.

Lemma free_port_free t : free_port t ≠ INV_PORT → getsock_tab (free_port t) (st_sock t) = None.
Proof.
  unfold free_port. generalize (Z.to_nat (NPORT - 1)). induction n as [|n IH]; intros H; [done|].
  cbn [getfreeport_from] in *. destruct (getsock_tab (Z.of_nat (S n)) _) eqn:E; [by apply IH|done].
Qed.

Lemma open_closed_ne t i j s s' :
  st_sock t !! i = Some s → st_sock t !! j = Some s' → is_open s = true → is_closed s' = true → i ≠ j.
Proof. intros Hi Hj Ho Hc ->. rewrite Hi in Hj. injection Hj as <-. unfold is_open in Ho. by rewrite Hc in Ho. Qed.

Lemma t_alloc_lookup_ne i p lport t j : i ≠ j → st_sock (t_alloc i p lport t) !! j = st_sock t !! j.
Proof. apply (t_sock_lookup_ne i j (sock_init (st_nextsid t) OPENED (Some p) lport)). Qed.

Lemma t_alloc_lookup i p lport t s : st_sock t !! i = Some s →
  st_sock (t_alloc i p lport t) !! i = Some (sock_init (st_nextsid t) OPENED (Some p) lport s).
Proof. apply (t_sock_lookup i (sock_init (st_nextsid t) OPENED (Some p) lport)). Qed.

(** The assignments of [connect], whatever order they are made in. *)
Lemma connect_table r l sr sl lport t : r ≠ l →
  st_sock t !! r = Some sr → st_sock t !! l = Some sl → s_lPort sl = lport →
  t_sock r (set_s_hasfullbuffer false) (t_sock l (set_s_hasfullbuffer false)
    (t_sock r (set_s_rPort (s_lPort sl)) (t_sock l (set_s_rPort (s_lPort sr))
      (t_sock l (set_s_state CONNECTED) (t_sock r (set_s_state CONNECTED) t))))) =
  t_sock r (connect_to lport) (t_sock l (connect_to (s_lPort sr)) t).
Proof.
  intros Hne Hr Hl <-. unfold t_sock, set_st_sock. cbn. f_equal. apply list_eq. intros i.
  rewrite !list_lookup_alter.
  destruct (decide (r = i)) as [<-|]; [|destruct (decide (l = i)) as [<-|]];
    repeat (case_decide; try congruence); [by rewrite Hr|by rewrite Hl|done].
Qed.

Lemma connect_refines p ps t k rport host :
  at_ [] p ps t k → tab_ok t → call_ok (CConnect rport host) →
  has_effect p ps (connect_spec p rport host t) (run_call (CConnect rport host)) k.
Proof.
  intros Hk Ht (len & Hl & Hlt). unfold has_effect, connect_spec. cbn [run_call]. unfold connect.
  destruct (discard_inv_port rport) eqn:Hd; [by apply wp_bind, wp_ret, wp_ret|].
  destruct (host_check host len Hl Hlt) as (c1 & c2 & H1 & H2 & ->).
  apply wp_bind. rewrite Hl. apply wp_bind, wp_ret. rewrite H1. apply wp_bind, wp_ret.
  apply wp_bind. rewrite H2.
  assert (Hif : (if negb (c1 =? 0) then deref "strncmp" (Some c2) else mret 0 : SM Z) =
    mret (if negb (c1 =? 0) then c2 else 0)) by (by destruct (c1 =? 0)).
  rewrite Hif. apply wp_ret. replace (negb (c1 =? 0) && _) with (negb ((c1 =? 0) || (c2 =? 0)))
    by (destruct (c1 =? 0); reflexivity).
  destruct ((c1 =? 0) || (c2 =? 0)) eqn:Hc; cbn [negb orb]; [|by apply wp_ret, wp_ret].
  apply wp_bind. eapply wp_acquire_stable; [done|]. intros k1 Hk1.
  assert (Ht1 : k_stable k1 = t) by (by destruct Hk1 as (_ & _ & _ & _ & ->)).
  apply wp_bind. unfold getsock at 1. apply wp_gets. apply wp_bind, wp_gets. rewrite Ht1.
  fold (free_port t). destruct (Z.eqb_spec (free_port t) INV_PORT) as [|Hfp];
    [by apply (wp_done _ _ _ _ [])|].
  destruct (find_port rport t) as [[r sr]|] eqn:Hfr; last first.
  { apply find_port_None in Hfr as ->. by apply (wp_done _ _ _ _ []). }
  apply find_port_Some in Hfr as (_ & -> & Hsr & Hop & Hpr).
  apply wp_bind. eapply wp_sock_at; [done..|].
  destruct (bool_decide_reflect (s_state sr = LISTENING)) as [Hst|]; cbn [negb];
    [|by apply (wp_done _ _ _ _ [])].
  pose proof (free_port_range t Hfp). pose proof (free_port_free t Hfp) as Hfree.
  apply wp_bind. destruct (free_slot t) as [l|] eqn:Hfs; last first.
  { eapply wp_allocsock_None; [done|by right|]. by apply (wp_done _ _ _ _ []). }
  pose proof Hfs as (sl & Hsl & Hcl & _)%free_slot_Some.
  eapply wp_allocsock_Some; [done|lia|done|done|by eapply slot_ok|]. intros k2 Hk2.
  assert (Hne : r ≠ l) by (by eapply open_closed_ne).
  apply (t_alloc_lookup l p (free_port t)) in Hsl.
  rewrite <- (t_alloc_lookup_ne l p (free_port t) t r) in Hsr by done.
  set (t1 := t_alloc l p (free_port t) t) in *.
  do 2 (apply wp_bind, wp_modify).
  apply wp_bind. eapply wp_sock_at; [by do 2 apply at_sock| |].
  { rewrite t_sock_lookup_ne by done. by apply t_sock_lookup. }
  apply wp_bind, wp_modify.
  apply wp_bind. eapply wp_sock_at; [by do 3 apply at_sock| |].
  { apply t_sock_lookup, t_sock_lookup. rewrite t_sock_lookup_ne by done. done. }
  do 3 (apply wp_bind, wp_modify).
  apply wp_bind. eapply wp_wakeup; [by do 6 apply at_sock|]. intros k3 Hk3.
  apply (wp_done _ _ _ _ [ChSock r]).
  rewrite <- (connect_table r l sr _ (free_port t) t1 Hne Hsr Hsl eq_refl). exact Hk3.
Qed.

(** What follows the sleep in [send] and [recv]. *)
Lemma send_tail_refines p ps t k l r data n :
  crit p ps t k → tab_ok t → is_Some (st_sock t !! l) → is_Some (st_sock t !! r) →
  n < Z.of_nat SBUFFSIZE → src_ok data n →
  wp False (send_tail l r data n)
    (λ a s', wp False (mret (a, []) : SM _) (eff_ret p ps (send_tail_spec l r data n t))
               (eff_switch p ps (send_tail_spec l r data n t)) s')
    (eff_switch p ps (send_tail_spec l r data n t)) k.
Proof.
  intros Hk Ht [sl Hsl] [sr Hsr] Hn Hd. unfold send_tail, send_tail_spec, rport_of. rewrite Hsl.
  apply wp_bind. eapply wp_sock_at; [done..|].
  apply wp_bind. eapply wp_getsock; [done|intros ->%find_port_None|intros i s Hf].
  - apply wp_bind. eapply wp_removesock; [done|by eapply slot_ok|]. intros k1 Hk1.
    by apply (wp_done _ _ _ _ [ChSock l]).
  - apply find_port_Some in Hf as (_ & -> & _). apply wp_bind. eapply wp_sock_at; [done..|].
    pose proof (Forall_lookup_1 _ _ _ _ (to_socks t Ht) Hsr) as [[Hlen _] _ _ _].
    destruct (blk_strncpy_ok (s_recvbuffer sr) data n) as (b & Hb & _); [lia|done|].
    apply wp_bind. rewrite Hb. apply wp_ret. apply wp_bind, wp_modify. apply wp_bind, wp_modify.
    apply wp_bind. eapply wp_wakeup; [by do 2 apply at_sock|]. intros k1 Hk1.
    apply (wp_done _ _ _ _ [ChSock l]). rewrite t_sock_compose in Hk1.
    erewrite t_sock_ext; [exact Hk1|]. intros s' Hs'. rewrite Hsr in Hs'. injection Hs' as <-.
    unfold put_data. by rewrite Hb.
Qed.

(** [strncpy] out of a receive buffer stops at its last byte at the latest. *)
Lemma buf_src_ok s n : buf_ok s → src_ok (s_recvbuffer s) n.
Proof. intros [_ H]. right. by apply list_elem_of_lookup; exists 127%nat. Qed.

Lemma recv_tail_refines p ps t k l data n :
  crit p ps t k → tab_ok t → is_Some (st_sock t !! l) → n <= Z.of_nat (length data) →
  wp False (recv_tail l data n) (eff_ret p ps (recv_tail_spec l data n t))
    (eff_switch p ps (recv_tail_spec l data n t)) k.
Proof.
  intros Hk Ht [sl Hsl] Hn. unfold recv_tail, recv_tail_spec. rewrite Hsl.
  apply wp_bind. eapply wp_sock_at; [done..|].
  pose proof (Forall_lookup_1 _ _ _ _ (to_socks t Ht) Hsl) as [Hbuf _ _ _].
  destruct (blk_strncpy_ok data (s_recvbuffer sl) n) as (d & Hd & _);
    [done|by apply buf_src_ok|].
  apply wp_bind. rewrite Hd. apply wp_ret. apply wp_bind.
  unfold blk_set. rewrite decide_True by (destruct Hbuf as [-> _]; unfold SBUFFSIZE; lia).
  apply wp_ret. apply wp_bind, wp_modify. apply wp_bind, wp_modify.
  apply wp_bind. eapply wp_wakeup; [by do 2 apply at_sock|]. intros k1 Hk1.
  assert (Htab : t_sock l (set_s_hasfullbuffer false) (t_sock l
    (set_s_recvbuffer (<[0%nat:=0]> (s_recvbuffer sl))) t) = t_sock l take_data t).
  { rewrite t_sock_compose. apply t_sock_ext. intros s' Hs'. rewrite Hsl in Hs'. by injection Hs' as <-. }
  rewrite Htab in Hk1. pose proof (t_sock_lookup l take_data t sl Hsl) as Hsl'.
  apply wp_bind. eapply wp_sock_at; [done..|].
  apply wp_bind. cbn [default from_option].
  eapply wp_getsock; [done|intros Hf|intros i s Hf].
  - apply find_port_None in Hf. change (s_rPort (take_data sl)) with (s_rPort sl) in Hf. rewrite Hf.
    apply wp_bind. eapply wp_removesock; [done| |].
    { exists (take_data sl). split; [done|]. cbn. rewrite length_insert.
      destruct Hbuf as [-> _]. unfold SBUFFSIZE. lia. }
    intros k2 Hk2. by apply (wp_done_data _ _ _ _ [ChSock l; ChSock l]).
  - apply find_port_Some in Hf as (_ & Hf & _). change (s_rPort (take_data sl)) with (s_rPort sl) in Hf. rewrite Hf.
    by apply (wp_done_data _ _ _ _ [ChSock l]).
Qed.

Lemma send_refines p ps t k lport data n :
  at_ [] p ps t k → tab_ok t → (p < length ps)%nat → call_ok (CSend lport data n) →
  has_effect p ps (send_spec p lport data n t) (run_call (CSend lport data n)) k.
Proof.
  intros Hk Ht Hp [Hn Hd]. unfold has_effect, send_spec, peers. cbn [run_call]. unfold send.
  destruct (discard_inv_port lport); [by apply wp_bind, wp_ret, wp_ret|].
  apply wp_bind. apply wp_bind. eapply wp_acquire_stable; [done|]. intros k1 Hk1.
  apply wp_bind. eapply wp_getsock; [done|intros ->|intros l sl Hf].
  { by apply (wp_done _ _ _ _ []). }
  rewrite Hf. apply find_port_Some in Hf as (_ & _ & Hsl & _).
  apply wp_bind. eapply wp_sock_at; [done..|]. apply wp_bind. eapply wp_myproc; [done|].
  destruct (bool_decide (s_owner sl = Some p)); cbn [negb]; [|by apply (wp_done _ _ _ _ [])].
  destruct (bool_decide (s_state sl = CONNECTED)); cbn [negb]; [|by apply (wp_done _ _ _ _ [])].
  apply wp_bind. eapply wp_getsock; [done|intros ->|intros r sr Hf].
  { by apply (wp_done _ _ _ _ []). }
  rewrite Hf. apply find_port_Some in Hf as (_ & _ & Hsr & _).
  apply wp_bind. eapply wp_sock_at; [done..|].
  destruct (bool_decide (s_state sr = CONNECTED)); cbn [negb]; [|by apply (wp_done _ _ _ _ [])].
  apply wp_bind, wp_when; intros Hfull; rewrite Hfull.
  - eapply wp_sleep; [done..|]. by intros k' Hk'.
  - by apply send_tail_refines.
Qed.

Lemma recv_refines p ps t k lport data n :
  at_ [] p ps t k → tab_ok t → (p < length ps)%nat → call_ok (CRecv lport data n) →
  has_effect p ps (recv_spec p lport data n t) (run_call (CRecv lport data n)) k.
Proof.
  intros Hk Ht Hp Hn. unfold has_effect, recv_spec, peers. cbn [run_call]. unfold recv.
  destruct (discard_inv_port lport); [by apply wp_ret|].
  apply wp_bind. eapply wp_acquire_stable; [done|]. intros k1 Hk1.
  apply wp_bind. eapply wp_getsock; [done|intros ->|intros l sl Hf].
  { by apply (wp_done_data _ _ _ _ []). }
  rewrite Hf. apply find_port_Some in Hf as (_ & _ & Hsl & _).
  apply wp_bind. eapply wp_sock_at; [done..|]. apply wp_bind. eapply wp_myproc; [done|].
  destruct (bool_decide (s_owner sl = Some p)); cbn [negb]; [|by apply (wp_done_data _ _ _ _ [])].
  destruct (bool_decide (s_state sl = CONNECTED)); cbn [negb]; [|by apply (wp_done_data _ _ _ _ [])].
  apply wp_bind. eapply wp_getsock; [done|intros ->|intros r sr Hf].
  { by apply (wp_done_data _ _ _ _ []). }
  rewrite Hf. apply find_port_Some in Hf as (_ & _ & Hsr & _).
  apply wp_bind. eapply wp_sock_at; [done..|].
  destruct (bool_decide (s_state sr = CONNECTED)); cbn [negb]; [|by apply (wp_done_data _ _ _ _ [])].
  apply wp_bind, wp_when; intros Hfull.
  - apply negb_true_iff in Hfull. rewrite Hfull. eapply wp_sleep; [done..|]. by intros k' Hk'.
  - apply negb_false_iff in Hfull. rewrite Hfull. by apply recv_tail_refines.
Qed.

(** [closeprocsocks]: as many rounds as the process has open sockets. *)
Definition bufs_nonempty (t : stable_t) : Prop :=
  Forall (λ s, (0 < length (s_recvbuffer s))%nat) (st_sock t).

Lemma tab_ok_nonempty t : tab_ok t → bufs_nonempty t.
Proof.
  intros Ht. apply Forall_lookup. intros i s Hs.
  destruct (Forall_lookup_1 _ _ _ _ (to_socks t Ht) Hs) as [[-> _] _ _ _]. unfold SBUFFSIZE. lia.
Qed.

Lemma t_remove_tab i t s : st_sock t !! i = Some s →
  st_sock (t_remove i t) = <[i := sock_init SOCK_SID_DEF CLOSED None INV_PORT s]> (st_sock t).
Proof. intros Hs. cbn. by apply alter_const. Qed.

Lemma closeprocsocks_loop_refines fuel p ps t k :
  crit p ps t k → bufs_nonempty t → (countb (owned_by p) (st_sock t) <= fuel)%nat →
  wp False (closeprocsocks_loop (S fuel) (Some p) : SM unit)
    (λ _ k', crit p (wakes (t_close_all fuel p t).2 ps) (t_close_all fuel p t).1 k')
    (λ _ _, False) k.
Proof.
  revert ps t k. induction fuel as [|fuel IH]; intros ps t k Hk Hb Hc; cbn [closeprocsocks_loop];
    apply wp_bind, wp_gets; replace (k_stable k) with t by (by destruct Hk as (_ & _ & _ & _ & ->));
    unfold getprocsock_tab; change (λ s, is_open s && bool_decide (s_owner s = Some p)) with (owned_by p);
    cbn [t_close_all]; destruct (find_idx (owned_by p) (st_sock t)) as [i|] eqn:Hf; [|by apply wp_ret| |by apply wp_ret].
  all: pose proof Hf as ((s & Hs & Ho) & _)%find_idx_Some.
  all: pose proof (countb_insert (owned_by p) _ _ _ (sock_init SOCK_SID_DEF CLOSED None INV_PORT s) Hs) as Hcnt;
    rewrite Ho, <- (t_remove_tab _ _ _ Hs) in Hcnt;
    change (owned_by p (sock_init _ _ _ _ _)) with false in Hcnt; cbv iota in Hcnt.
  - exfalso. lia.
  - apply wp_bind. eapply wp_removesock; [done| |].
    { exists s. split; [done|]. by apply (Forall_lookup_1 _ _ _ _ Hb Hs). }
    intros k1 Hk1. destruct (t_close_all fuel p (t_remove i t)) as [t' ws] eqn:Ht'. cbn [fst snd].
    specialize (IH _ _ _ Hk1). rewrite Ht' in IH. apply IH.
    + unfold bufs_nonempty. rewrite (t_remove_tab _ _ _ Hs). apply Forall_insert; [done|].
      cbn. rewrite length_insert. by apply (Forall_lookup_1 _ _ _ _ Hb Hs).
    + lia.
Qed.

Lemma exit_refines p ps t k :
  at_ [] p ps t k → tab_ok t → has_effect p ps (call_spec p CExit t) (run_call CExit) k.
Proof.
  intros Hk Ht. unfold has_effect. cbn [call_spec run_call].
  destruct (t_close_all NSOCK p t) as [t' ws] eqn:Hc. apply wp_bind.
  assert (Hme : (myproc : SM _) k = Ret (Some p) (upd_cpu popped (upd_cpu pushed k))).
  { destruct Hk as (Hok & _ & Hcur & _). by rewrite myproc_eq, Hcur. }
  apply (wp_eq_Ret _ _ _ _ _ _ _ Hme). apply wp_bind. unfold closeprocsocks.
  apply wp_bind. eapply wp_acquire_stable; [by apply at_pushpop|]. intros k1 Hk1.
  apply wp_bind. eapply wp_mono; [apply (closeprocsocks_loop_refines NSOCK)| |done].
  - done.
  - by apply tab_ok_nonempty.
  - rewrite <- (to_length t Ht). apply countb_le.
  - cbn beta. rewrite Hc. intros [] k2 Hk2. eapply wp_release_stable; [done|].
    intros k3 Hk3. by apply wp_ret.
Qed.

Lemma wp_sleep_leave E intena p ps t k (Q : unit → kernel → Prop) (R : sock_pc → kernel → Prop) :
  at_ [LkPtable] p ps t k →
  (∀ k', crit p (alter (set_p_chan None) p ps) t k' → Q tt k') →
  wp E (sleep_leave p LkStable intena : SM unit) Q R k.
Proof.
  intros Hk HQ. unfold sleep_leave, sched_back. do 2 (apply wp_bind, wp_modify).
  rewrite bool_decide_eq_false_2 by done. cbn [negb when].
  apply wp_bind. eapply (wp_release_ptable _ p (alter (set_p_chan None) p ps) t).
  - by destruct Hk as (Hok & ? & ? & <- & ?).
  - intros k1 Hk1. by eapply wp_acquire_stable.
Qed.

(** ** The refinement theorems *)
Lemma call_refines p ps t k c :
  at_ [] p ps t k → tab_ok t → (p < length ps)%nat → call_ok c →
  has_effect p ps (call_spec p c t) (run_call c) k.
Proof.
  intros Hk Ht Hp Hc. destruct c.
  - by apply listen_refines.
  - by apply connect_refines.
  - by apply send_refines.
  - by apply recv_refines.
  - by apply disconnect_refines.
  - by apply exit_refines.
Qed.

Lemma resume_refines p ps t k pc intena :
  at_ [LkPtable] p ps t k → tab_ok t → pc_ok p pc t →
  has_effect p (alter (set_p_chan None) p ps) (resume_spec pc t) (sock_wake p intena pc) k.
Proof.
  intros Hk Ht Hpc. unfold has_effect, sock_wake. apply wp_bind.
  eapply wp_sleep_leave; [done|]. intros k1 Hk1. destruct pc as [l|l r data n|l r data n]; cbn [resume_spec].
  - apply wp_bind. by apply (wp_done _ _ _ _ []).
  - destruct Hpc as ((s & Hs & _) & Hr & Hn & Hd). apply wp_bind. apply send_tail_refines; try done.
    apply lookup_lt_is_Some. by rewrite (to_length t Ht).
  - destruct Hpc as ((s & Hs & _) & Hn). by apply recv_tail_refines.
Qed.

(** C1: every socket call of a process, made in any kernel state whose socket
    table satisfies the invariant, has exactly the effect its specification
    gives: it returns the specified code and data in the specified table with
    all locks released and the specified channels woken, or it blocks on the
    specified channel; it never panics and never leaves an object. *)
Theorem sock_call_refines p ps t k c :
  at_ [] p ps t k → tab_ok t → (p < length ps)%nat → call_ok c →
  has_effect p ps (call_spec p c t) (run_call c) k.
Proof. apply call_refines. Qed.

(** C20: a call that blocked and is scheduled again finishes as specified:
    [listen] returns; [send] copies its data to its peer and [recv] takes the
    contents of its own buffer, without testing [hasfullbuffer] again, or
    either finds its peer gone and closes its socket. As the flag is tested
    once, before the sleep, and a call of the peer's in the same direction
    wakes the same channel, a resumed [send] can write over data not yet read
    and a resumed [recv] can return without data, where README.md says that
    both block; [send_overwrites_unread] and [recv_spurious_return] in
    SockProps are such runs. *)
Theorem sock_resume_refines p ps t k pc intena :
  at_ [LkPtable] p ps t k → tab_ok t → pc_ok p pc t →
  has_effect p (alter (set_p_chan None) p ps) (resume_spec pc t) (sock_wake p intena pc) k.
Proof. apply resume_refines. Qed.
