(* ===== verification/SockSafety.v ===== *)
(** * SockSafety: the socket table under every interleaving of calls

    Processes make socket calls, block in them and are resumed in any order;
    [sock_step] is one such step of the kernel. The invariant of the socket
    table holds in every reachable state and the sockets a blocked call works
    on stay its caller's. *)

From S2P Require Import Prelude CString Kernel Sched Sock SockSpec SockRefine.

(** ** Definitions *)

(** A kernel and the calls that are blocked, by process. *)
Definition sock_sys : Type := kernel * gmap nat sock_pc.

Inductive sock_step : sock_sys → sock_sys → Prop :=
  (** whatever the rest of the kernel does, scheduling included *)
  | step_other k k' pend : k_stable k' = k_stable k → sock_step (k, pend) (k', pend)
  | step_return p ps t k pend c r k' :
      at_ [] p ps t k → (p < length ps)%nat → pend !! p = None → call_ok c →
      run_call c k = Ret r k' → sock_step (k, pend) (k', pend)
  | step_block p ps t k pend c pc k' :
      at_ [] p ps t k → (p < length ps)%nat → pend !! p = None → call_ok c →
      run_call c k = Switch pc k' → sock_step (k, pend) (k', <[p := pc]> pend)
  | step_resume p ps t k pend pc intena r k' :
      at_ [LkPtable] p ps t k → pend !! p = Some pc →
      sock_wake p intena pc k = Ret r k' → sock_step (k, pend) (k', delete p pend).

(** The kernel after [sinit]. *)
Definition sock_boot (s : sock_sys) : Prop :=
  k_stable s.1 = mk_stable_t (replicate NSOCK sock0) 0 0 ∧ s.2 = ∅.

Definition sys_ok (s : sock_sys) : Prop :=
  tab_ok (k_stable s.1) ∧
  ∀ p pc, s.2 !! p = Some pc → pc_ok p pc (k_stable s.1) ∧ pc_owns p pc (k_stable s.1).

(** The state of a socket under calls of processes that do not own it. *)
Definition accepts (st st' : sockstate) : Prop :=
  st' = st ∨ st = LISTENING ∧ st' = CONNECTED.

(** Nothing of what other processes own is closed or changes hands, and of
    its state only a listener's changes, to connected. *)
Definition keeps (p : nat) (t t' : stable_t) : Prop :=
  ∀ l s, st_sock t !! l = Some s → is_open s = true → s_owner s ≠ Some p →
    ∃ s', st_sock t' !! l = Some s' ∧ is_open s' = true ∧ s_owner s' = s_owner s ∧
      accepts (s_state s) (s_state s').

Definition effect_ok (p : nat) (t : stable_t) (e : effect) : Prop :=
  match e with
  | Done _ t' _ => tab_ok t' ∧ keeps p t t'
  | Block pc _ t' => tab_ok t' ∧ keeps p t t' ∧ pc_ok p pc t' ∧ pc_owns p pc t'
  end.

(** ** The invariant and the table primitives *)
#[export] Instance accepts_preorder : PreOrder accepts.
Proof. split; [by left|]. intros x y z [->|[-> ->]] [->|[? ->]]; unfold accepts; auto. Qed.

#[export] Instance keeps_preorder p : PreOrder (keeps p).
Proof.
  split; [intros t l s Hs Ho Hw; exists s; split_and!; [done..|by left]|].
  intros t1 t2 t3 H12 H23 l s Hs Ho Hw. destruct (H12 l s Hs Ho Hw) as (s2 & Hs2 & Ho2 & Hw2 & Ha).
  destruct (H23 l s2 Hs2 Ho2 ltac:(congruence)) as (s3 & ? & ? & ? & Ha').
  exists s3. split_and!; [done|done|congruence|by etrans].
Qed.

Definition opens (s : sock) : Z := if is_open s then 1 else 0.

(** Replacing one entry. *)
Lemma tab_ok_insert t i s s' cnt sid :
  tab_ok t → st_sock t !! i = Some s → sock_ok s' →
  cnt = st_countSock t - opens s + opens s' →
  (is_open s' = true → ∀ j s2, j ≠ i → st_sock t !! j = Some s2 → is_open s2 = true →
     s_lPort s2 ≠ s_lPort s') →
  tab_ok (mk_stable_t (<[i := s']> (st_sock t)) cnt sid).
Proof.
  intros [Hl Hc Hs Hd] Hi Hok Hcnt Hfresh. pose proof (lookup_lt_Some _ _ _ Hi). split; cbn.
  - by rewrite length_insert.
  - pose proof (countb_insert is_open _ _ _ s' Hi) as Hn. subst cnt. unfold opens. revert Hn.
    destruct (is_open s), (is_open s'); lia.
  - by apply Forall_insert.
  - intros j1 j2 s1 s2 H1 H2 Ho1 Ho2 Hp.
    destruct (decide (j1 = i)) as [->|N1], (decide (j2 = i)) as [->|N2]; [done|..].
    + rewrite list_lookup_insert_eq in H1 by done. injection H1 as <-.
      rewrite list_lookup_insert_ne in H2 by done. by destruct (Hfresh Ho1 j2 s2).
    + rewrite list_lookup_insert_eq in H2 by done. injection H2 as <-.
      rewrite list_lookup_insert_ne in H1 by done. by destruct (Hfresh Ho2 j1 s1).
    + rewrite list_lookup_insert_ne in H1 by done. rewrite list_lookup_insert_ne in H2 by done.
      by eapply Hd.
Qed.

Lemma keeps_insert p t i s s' cnt sid :
  st_sock t !! i = Some s →
  (is_open s = true → s_owner s ≠ Some p →
     is_open s' = true ∧ s_owner s' = s_owner s ∧ accepts (s_state s) (s_state s')) →
  keeps p t (mk_stable_t (<[i := s']> (st_sock t)) cnt sid).
Proof.
  intros Hi H l s2 Hs2 Ho Hw. pose proof (lookup_lt_Some _ _ _ Hi). cbn.
  destruct (decide (l = i)) as [->|].
  - rewrite Hi in Hs2. injection Hs2 as <-. destruct (H Ho Hw) as (? & ? & ?). exists s'. by rewrite list_lookup_insert_eq.
  - exists s2. rewrite list_lookup_insert_ne by done. split_and!; [done..|by left].
Qed.

Lemma t_sock_insert i g t s : st_sock t !! i = Some s →
  t_sock i g t = mk_stable_t (<[i := g s]> (st_sock t)) (st_countSock t) (st_nextsid t).
Proof. intros H. unfold t_sock, set_st_sock. by rewrite (alter_const _ s). Qed.

Lemma tab_lookup_ok t i s : tab_ok t → st_sock t !! i = Some s → sock_ok s.
Proof. intros Ht Hs. by apply (Forall_lookup_1 _ _ _ _ (to_socks t Ht) Hs). Qed.

(** An update that leaves a socket open, on its port and with its owner. *)
Lemma tab_ok_t_sock t i g s :
  tab_ok t → st_sock t !! i = Some s → sock_ok (g s) → is_open (g s) = is_open s →
  s_lPort (g s) = s_lPort s → tab_ok (t_sock i g t).
Proof.
  intros Ht Hs Hg Ho Hp. rewrite (t_sock_insert _ _ _ _ Hs).
  eapply tab_ok_insert; [done..|unfold opens; rewrite Ho; lia|].
  intros Hop j s2 Hne H2 Ho2 Heq. apply Hne. rewrite Ho in Hop. eapply (to_distinct t Ht); try done. congruence.
Qed.

Lemma keeps_t_sock p t i g s :
  st_sock t !! i = Some s → is_open (g s) = is_open s → s_owner (g s) = s_owner s →
  (s_owner s ≠ Some p → accepts (s_state s) (s_state (g s))) →
  keeps p t (t_sock i g t).
Proof.
  intros Hs Ho Hw Ha. rewrite (t_sock_insert _ _ _ _ Hs). eapply keeps_insert; [done|]. rewrite Ho, Hw. auto.
Qed.

Lemma buf_ok_zero s : buf_ok s → length (<[0%nat:=0]> (s_recvbuffer s)) = SBUFFSIZE ∧
  <[0%nat:=0]> (s_recvbuffer s) !! 127%nat = Some 0.
Proof. intros [Hl H]. by rewrite length_insert, list_lookup_insert_ne. Qed.

Lemma tab_ok_alloc t i p lport s :
  tab_ok t → st_sock t !! i = Some s → is_closed s = true → 0 <= lport < NPORT →
  getsock_tab lport (st_sock t) = None →
  tab_ok (t_alloc i p lport t) ∧ keeps p t (t_alloc i p lport t).
Proof.
  intros Ht Hs Hc Hp Hg. unfold t_alloc. rewrite (t_sock_insert _ _ _ _ Hs). cbn.
  pose proof (tab_lookup_ok _ _ _ Ht Hs) as [Hb _ _ _].
  split.
  - eapply tab_ok_insert; [done..| | |].
    + split; [by apply buf_ok_zero|done|done|done].
    + assert (Hcl : opens s = 0) by (unfold opens, is_open; by rewrite Hc).
      rewrite Hcl. change (opens _) with 1. rewrite s32_small; [lia|].
      rewrite (to_count t Ht). pose proof (countb_le is_open (st_sock t)).
      rewrite (to_length t Ht) in *. unfold NSOCK in *. lia.
    + intros _ j s2 _ H2 Ho2 Heq. cbn in Heq. unfold getsock_tab in Hg.
      replace ((0 <=? lport) && (lport <? NPORT)) with true in Hg by lia.
      apply (proj1 (find_idx_None _ _) Hg) in H2. unfold is_open_at in H2.
      unfold is_open, is_closed in Ho2. rewrite Ho2, Heq, Z.eqb_refl in H2. done.
  - eapply keeps_insert; [done|]. unfold is_open. by rewrite Hc.
Qed.

Lemma tab_ok_remove t i p s :
  tab_ok t → st_sock t !! i = Some s → is_open s = true → s_owner s = Some p →
  tab_ok (t_remove i t) ∧ keeps p t (t_remove i t).
Proof.
  intros Ht Hs Ho Hw. unfold t_remove. rewrite (t_sock_insert _ _ _ _ Hs). cbn.
  pose proof (tab_lookup_ok _ _ _ Ht Hs) as [Hb _ _ _].
  split.
  - eapply tab_ok_insert; [done..| | |].
    + split; [by apply buf_ok_zero|done|done|done].
    + assert (Hop : opens s = 1) by (unfold opens; by rewrite Ho).
      rewrite Hop. change (opens _) with 0. rewrite s32_small; [lia|].
      rewrite (to_count t Ht). pose proof (countb_le is_open (st_sock t)).
      rewrite (to_length t Ht) in *. unfold NSOCK in *. lia.
    + done.
  - eapply keeps_insert; [done|]. by rewrite Hw.
Qed.

(** ** Each effect keeps the invariant *)
Lemma put_data_ok s data n :
  sock_ok s → n < Z.of_nat SBUFFSIZE → src_ok data n → sock_ok (put_data data n s).
Proof.
  intros [[Hl Hz] Hp Ho Hr] Hn Hd.
  destruct (blk_strncpy_ok (s_recvbuffer s) data n) as (b & Hb & Hlb & Hj); [lia|done|].
  unfold put_data. rewrite Hb. split; [split; cbn|exact Hp|exact Ho|exact Hr].
  - by rewrite Hlb.
  - rewrite Hj; [done|]. unfold SBUFFSIZE in Hn. lia.
Qed.

Lemma take_data_ok s : sock_ok s → sock_ok (take_data s).
Proof. intros [Hb Hp Ho Hr]. split; [by apply buf_ok_zero|exact Hp|exact Ho|exact Hr]. Qed.

Lemma tab_ok_put t i data n :
  tab_ok t → (i < NSOCK)%nat → n < Z.of_nat SBUFFSIZE → src_ok data n →
  tab_ok (t_sock i (put_data data n) t) ∧ ∀ p, keeps p t (t_sock i (put_data data n) t).
Proof.
  intros Ht Hi Hn Hd. rewrite <- (to_length t Ht) in Hi. apply lookup_lt_is_Some in Hi as [s Hs].
  split; [|intros p; eapply keeps_t_sock; [done..|by left]].
  eapply tab_ok_t_sock; [done..| |done|done]. apply put_data_ok; [by eapply tab_lookup_ok|done..].
Qed.

Lemma send_tail_ok p t l r data n :
  tab_ok t → pc_ok p (PcSend l r data n) t → effect_ok p t (send_tail_spec l r data n t).
Proof.
  intros Ht ((s & Hs & Ho & Hw) & Hr & Hn & Hd). unfold send_tail_spec.
  case_match; cbn.
  - destruct (tab_ok_put t r data n Ht Hr Hn Hd). auto.
  - by eapply tab_ok_remove.
Qed.

Lemma recv_tail_ok p t l r data n :
  tab_ok t → pc_ok p (PcRecv l r data n) t → effect_ok p t (recv_tail_spec l data n t).
Proof.
  intros Ht ((s & Hs & Ho & Hw) & Hn). unfold recv_tail_spec. rewrite Hs.
  assert (Ht' : tab_ok (t_sock l take_data t)).
  { eapply tab_ok_t_sock; [done..| |done|done]. apply take_data_ok. by eapply tab_lookup_ok. }
  assert (Hk : keeps p t (t_sock l take_data t)) by (eapply keeps_t_sock; [done..|by left]).
  case_match; cbn [effect_ok]; [done|].
  destruct (tab_ok_remove (t_sock l take_data t) l p (take_data s)) as [? ?]; [done| |done|done|].
  - by apply t_sock_lookup.
  - split; [done|]. by etrans.
Qed.

Lemma t_close_all_ok fuel p t :
  tab_ok t → tab_ok (t_close_all fuel p t).1 ∧ keeps p t (t_close_all fuel p t).1.
Proof.
  revert t. induction fuel as [|fuel IH]; intros t Ht; cbn [t_close_all]; [done|].
  destruct (find_idx (owned_by p) (st_sock t)) as [i|] eqn:Hf; [|done].
  apply find_idx_Some in Hf as [(s & Hs & [Ho Hw%bool_decide_eq_true]%andb_true_iff) _].
  destruct (tab_ok_remove t i p s Ht Hs Ho Hw) as [Ht' Hk].
  destruct (IH _ Ht'). destruct (t_close_all fuel p (t_remove i t)). cbn in *.
  split; [done|]. by etrans.
Qed.

Lemma listen_ok p t lport : tab_ok t → effect_ok p t (listen_spec p lport t).
Proof.
  intros Ht. unfold listen_spec.
  destruct (discard_inv_port lport) eqn:Hd; [done|]. case_match; [done|].
  destruct (getsock_tab lport (st_sock t)) eqn:Hg; [done|].
  destruct (free_slot t) as [i|] eqn:Hf; [|done].
  apply free_slot_Some in Hf as (s & Hs & Hc & _). unfold discard_inv_port in Hd.
  destruct (tab_ok_alloc t i p lport s) as [Ht' Hk]; [done..|lia|done|].
  pose proof (t_alloc_lookup i p lport t s Hs) as Hs'.
  pose proof (tab_lookup_ok _ _ _ Ht' Hs') as [Hb Hp Hw Hr].
  split; [|split; [|split; [done|]]].
  - by eapply tab_ok_t_sock.
  - etrans; [done|]. eapply keeps_t_sock; [done..|]. by intros [].
  - eexists. split; [by apply t_sock_lookup|]. split_and!; [done..|by left].
Qed.

Lemma connect_to_ok port s : sock_ok s → 0 <= port < NPORT → is_open s = true → sock_ok (connect_to port s).
Proof. intros [Hb Hp Ho Hr] Hport Hop. split; [exact Hb|intros _; by apply Hp|intros _; by apply Ho|done]. Qed.

Lemma connect_ok p t rport host : tab_ok t → effect_ok p t (connect_spec p rport host t).
Proof.
  intros Ht. unfold connect_spec. case_match; [done|].
  destruct (Z.eqb_spec (free_port t) INV_PORT) as [|Hfp]; [done|].
  destruct (find_port rport t) as [[r sr]|] eqn:Hr; [|done].
  apply find_port_Some in Hr as (Hrng & _ & Hsr & Hop & Hpr).
  destruct (bool_decide_reflect (s_state sr = LISTENING)) as [Hlis|]; cbn [negb]; [|done].
  destruct (free_slot t) as [l|] eqn:Hf; [|done].
  apply free_slot_Some in Hf as (sl & Hsl & Hc & _).
  pose proof (free_port_range t Hfp). pose proof (free_port_free t Hfp).
  destruct (tab_ok_alloc t l p (free_port t) sl) as [Ht1 Hk1]; [done..|lia|done|].
  assert (Hne : r ≠ l) by (by eapply open_closed_ne).
  pose proof (t_alloc_lookup l p (free_port t) t sl Hsl) as Hsl1.
  rewrite <- (t_alloc_lookup_ne l p (free_port t) t r) in Hsr by done.
  set (t1 := t_alloc l p (free_port t) t) in *.
  assert (Ht2 : tab_ok (t_sock l (connect_to (s_lPort sr)) t1)).
  { eapply tab_ok_t_sock; [done..| |done|done]. apply connect_to_ok; [by eapply tab_lookup_ok|by rewrite Hpr|done]. }
  rewrite <- (t_sock_lookup_ne l r (connect_to (s_lPort sr)) t1) in Hsr by done.
  cbn. split.
  - eapply tab_ok_t_sock; [done..| |by rewrite Hop|done].
    apply connect_to_ok; [by eapply tab_lookup_ok|lia|done].
  - etrans; [exact Hk1|]. transitivity (t_sock l (connect_to (s_lPort sr)) t1); [eapply keeps_t_sock; [done|done|done|by intros []]|].
    eapply keeps_t_sock; [done|by rewrite Hop|done|]. intros _. right. by split.
Qed.

Lemma peers_pc_ok p lport t l sl r sr data n :
  tab_ok t → peers p lport t = inr ((l, sl), (r, sr)) → n < Z.of_nat SBUFFSIZE → src_ok data n →
  pc_ok p (PcSend l r data n) t.
Proof.
  intros Ht (H1 & H2 & H3 & H4 & H5)%peers_inr Hn Hd.
  apply find_port_Some in H1 as (_ & _ & Hs & Ho & _). apply find_port_Some in H4 as (_ & _ & Hr & _).
  split; [by exists sl|]. split; [|done]. rewrite <- (to_length t Ht). by eapply lookup_lt_Some.
Qed.

Lemma peers_owns p lport t l sl r sr :
  peers p lport t = inr ((l, sl), (r, sr)) →
  ∃ s, st_sock t !! l = Some s ∧ is_open s = true ∧ s_owner s = Some p ∧ s_state s = CONNECTED.
Proof. intros (H1 & H2 & H3 & _)%peers_inr. apply find_port_Some in H1 as (_ & _ & Hs & Ho & _). by exists sl. Qed.

Lemma call_effect_ok p c t : tab_ok t → call_ok c → effect_ok p t (call_spec p c t).
Proof.
  intros Ht Hc. destruct c as [lport|rport host|lport data n|lport data n|lport|]; cbn [call_spec].
  - by apply listen_ok.
  - by apply connect_ok.
  - destruct Hc as [Hn Hd]. unfold send_spec.
    destruct (peers p lport t) as [e|[[l sl] [r sr]]] eqn:Hp; [done|].
    pose proof (peers_pc_ok _ _ _ _ _ _ _ _ _ Ht Hp Hn Hd). pose proof (peers_owns _ _ _ _ _ _ _ Hp).
    case_match; [done|]. by apply send_tail_ok.
  - unfold recv_spec. destruct (peers p lport t) as [e|[[l sl] [r sr]]] eqn:Hp; [done|].
    pose proof (peers_inr _ _ _ _ _ _ _ Hp) as (H1 & H2 & _).
    apply find_port_Some in H1 as (_ & _ & Hs & Ho & _).
    assert (pc_ok p (PcRecv l r data n) t) by (split; [by exists sl|done]).
    pose proof (peers_owns _ _ _ _ _ _ _ Hp). case_match; [|done]. by eapply recv_tail_ok.
  - unfold disconnect_spec. case_match; [done|].
    destruct (find_port lport t) as [[l sl]|] eqn:Hf; [|done].
    apply find_port_Some in Hf as (_ & _ & Hs & Ho & _).
    case_match; [|done]. eapply tab_ok_remove; [done..|]. by eapply bool_decide_eq_true.
  - pose proof (t_close_all_ok NSOCK p t Ht). by destruct (t_close_all NSOCK p t).
Qed.

(** C19: every call keeps the table invariant, and no call closes or takes
    over a socket of another process or changes its state, but to connect a
    listener; if it blocks, [listen] too, the socket it will work on when
    resumed is open and its own. *)
Theorem sock_call_isolated p ps t k c :
  at_ [] p ps t k → tab_ok t → (p < length ps)%nat → call_ok c →
  wp False (run_call c)
    (λ _ k', tab_ok (k_stable k') ∧ keeps p t (k_stable k'))
    (λ pc k', tab_ok (k_stable k') ∧ keeps p t (k_stable k') ∧
      pc_ok p pc (k_stable k') ∧ pc_owns p pc (k_stable k')) k.
Proof.
  intros Hk Ht Hp Hc. pose proof (call_effect_ok p c t Ht Hc) as Hok.
  eapply wp_mono; [by apply call_refines| |].
  - intros r k' He. destruct (call_spec p c t); [|done]. by destruct He as [_ (_ & _ & _ & _ & ->)].
  - intros pc k' He. destruct (call_spec p c t); [done|]. by destruct He as [-> (_ & _ & _ & _ & ->)].
Qed.

(** ** Reachability *)
Lemma pc_ok_keeps p q pc t t' :
  q ≠ p → keeps p t t' → pc_ok q pc t → pc_ok q pc t'.
Proof.
  intros Hne Hk. destruct pc as [l|l r data n|l r data n]; [done|..].
  - intros ((s & Hs & Ho & Hw) & ?). destruct (Hk l s Hs Ho) as (s' & ? & ? & ? & _); [congruence|].
    split; [|done]. exists s'. split_and!; [done|done|congruence].
  - intros ((s & Hs & Ho & Hw) & ?). destruct (Hk l s Hs Ho) as (s' & ? & ? & ? & _); [congruence|].
    split; [|done]. exists s'. split_and!; [done|done|congruence].
Qed.

Lemma pc_owns_keeps p q pc t t' :
  q ≠ p → keeps p t t' → pc_owns q pc t → pc_owns q pc t'.
Proof.
  intros Hne Hk (s & Hs & Ho & Hw & Hst). destruct (Hk _ s Hs Ho) as (s' & Hs' & ? & ? & Ha); [congruence|].
  exists s'. split_and!; [done|done|congruence|]. destruct Ha as [->|[E ->]]; [done|].
  destruct pc; [by right|by rewrite E in Hst..].
Qed.

Lemma pcs_keep p q pc t t' :
  q ≠ p → keeps p t t' → pc_ok q pc t ∧ pc_owns q pc t → pc_ok q pc t' ∧ pc_owns q pc t'.
Proof. intros Hne Hk [H1 H2]. split; [by eapply pc_ok_keeps|by eapply pc_owns_keeps]. Qed.

Lemma sys_ok_boot s : sock_boot s → sys_ok s.
Proof.
  intros [Hk Hp]. split; [|by rewrite Hp]. rewrite Hk. split; cbn [st_sock st_countSock].
  - by rewrite length_replicate.
  - reflexivity.
  - apply Forall_replicate. by split.
  - intros i j s1 s2 [-> _]%lookup_replicate. done.
Qed.

Lemma sys_ok_step s s' : sys_ok s → sock_step s s' → sys_ok s'.
Proof.
  intros [Ht Hpend] Hstep.
  destruct Hstep as [k k' pend Hk|p ps t k pend c r k' Hat Hlt Hn Hc Hr|p ps t k pend c pc k' Hat Hlt Hn Hc Hr
    |p ps t k pend pc intena r k' Hat Hp Hr]; cbn [fst snd] in *.
  - split; cbn; rewrite Hk; [done|]. intros p pc Hpc. by apply Hpend.
  - assert (Hkt : k_stable k = t) by (by destruct Hat as (_ & _ & _ & _ & ->)). rewrite Hkt in *.
    pose proof (call_refines _ _ _ _ _ Hat Ht Hlt Hc) as He.
    eapply wp_Ret_inv in He; [|done]. pose proof (call_effect_ok p c t Ht Hc) as Hok.
    destruct (call_spec p c t) as [r' t' ws|]; [|done]. destruct He as [_ (_ & _ & _ & _ & Ht')].
    destruct Hok as [Hok Hk]. split; cbn; rewrite Ht'; [done|].
    intros q pc Hq. apply (pcs_keep p q pc t); [congruence|done|by apply Hpend].
  - assert (Hkt : k_stable k = t) by (by destruct Hat as (_ & _ & _ & _ & ->)). rewrite Hkt in *.
    pose proof (call_refines _ _ _ _ _ Hat Ht Hlt Hc) as He.
    eapply wp_Switch_inv in He; [|done]. pose proof (call_effect_ok p c t Ht Hc) as Hok.
    destruct (call_spec p c t) as [|pc' ch t']; [done|]. destruct He as [-> (_ & _ & _ & _ & Ht')].
    destruct Hok as (Hok & Hk & Hpc). split; cbn; rewrite Ht'; [done|].
    intros q qc [[<- <-]|[? Hq]]%lookup_insert_Some; [done|].
    apply (pcs_keep p q qc t); [done|done|by apply Hpend].
  - assert (Hkt : k_stable k = t) by (by destruct Hat as (_ & _ & _ & _ & ->)). rewrite Hkt in *.
    destruct (Hpend _ _ Hp) as [Hpc _].
    pose proof (resume_refines _ _ _ _ _ intena Hat Ht Hpc) as He.
    eapply wp_Ret_inv in He; [|done].
    assert (Hok : effect_ok p t (resume_spec pc t)).
    { destruct pc; cbn [resume_spec]; [done|by apply send_tail_ok|by eapply recv_tail_ok]. }
    destruct (resume_spec pc t) as [r' t' ws|]; [|done]. destruct He as [_ (_ & _ & _ & _ & Ht')].
    destruct Hok as [Hok Hk]. split; cbn; rewrite Ht'; [done|].
    intros q qc [? Hq]%lookup_delete_Some. apply (pcs_keep p q qc t); [done|done|by apply Hpend].
Qed.

(** C4: in every state reachable by any interleaving of socket calls, blocked
    and resumed, the table holds at most 32 sockets counted by [countSock],
    open sockets have pairwise distinct ports in range and an owner, receive
    buffers stay terminated, and every blocked call still owns the open socket
    it works on: a blocked [listen] the one it put into the table, listening
    or, once a client has come, connected; a blocked [send] or [recv] its end
    of the connection. *)
Theorem sock_reachable_ok s0 s : sock_boot s0 → rtc sock_step s0 s → sys_ok s.
Proof.
  intros H0 Hs. apply sys_ok_boot in H0. induction Hs as [|s1 s2 s3 H12 _ IH]; [done|].
  apply IH. by eapply sys_ok_step.
Qed.
