(* ===== verification/SockProps.v ===== *)
(** * SockProps: what users of the socket calls can rely on

    Consequences of the specification [SockSpec]: the connection handshake,
    delivery of data with and without blocking, cleanup at exit, the choice
    of ports and hosts, and two ways the protocol falls short of blocking,
    connection-oriented sockets. *)

From S2P Require Import Prelude CString Kernel Sched Sock SockSpec SockRefine SockSafety.

(** ** Definitions *)

(** Two sockets connected to each other, owned by [p] and [q]. *)
Definition paired (p q : nat) (lp rp : Z) (l r : nat) (sl sr : sock) (t : stable_t) : Prop :=
  peers p lp t = inr ((l, sl), (r, sr)) ∧ peers q rp t = inr ((r, sr), (l, sl)).

(** A kernel in which process [p] is running with the table [t]. *)
Definition demo_kernel (held : list lockid) (p : nat) (t : stable_t) : kernel :=
  set_k_held held (upd_cpu (set_c_intr false ∘ set_c_ncli (Z.of_nat (length held)))
    (set_k_stable t (set_k_cur (Some p) kernel0))).

(** A scripted sequence of calls, each run to its end or to its sleep. *)
Definition run_on (t : stable_t) (pc : nat * sock_call) : stable_t :=
  match run_call pc.2 (demo_kernel [] pc.1 t) with
  | Ret _ k | Switch _ k | Panic _ k => k_stable k
  | Fault _ => t
  end.
Definition run_script (cs : list (nat * sock_call)) (t : stable_t) : stable_t := foldl run_on t cs.

(** ** Connecting *)
Lemma peers_intro p lport t l sl r sr :
  find_port lport t = Some (l, sl) → s_owner sl = Some p → s_state sl = CONNECTED →
  find_port (s_rPort sl) t = Some (r, sr) → s_state sr = CONNECTED →
  peers p lport t = inr ((l, sl), (r, sr)).
Proof.
  intros Hl Hw Hs Hr Hs'. unfold peers. pose proof Hl as (? & _)%find_port_Some.
  unfold discard_inv_port. destruct (Z.ltb_spec lport 0), (Z.leb_spec NPORT lport); try lia. cbn [orb].
  by rewrite Hl, Hw, Hs, !bool_decide_eq_true_2, Hr, Hs', bool_decide_eq_true_2 by done.
Qed.

Lemma find_port_intro t i s :
  tab_ok t → st_sock t !! i = Some s → is_open s = true → find_port (s_lPort s) t = Some (i, s).
Proof.
  intros Ht Hs Ho. pose proof (so_port s (tab_lookup_ok _ _ _ Ht Hs) Ho).
  apply find_port_Some. split_and!; try done; try lia. unfold getsock_tab.
  replace ((0 <=? s_lPort s) && (s_lPort s <? NPORT)) with true by lia.
  apply find_idx_Some. split.
  - exists s. split; [done|]. unfold is_open_at. unfold is_open, is_closed in Ho. by rewrite Ho, Z.eqb_refl.
  - intros j s' Hj Hs'. destruct (is_open_at (s_lPort s) s') eqn:E; [|done].
    apply andb_true_iff in E as [E1 E2%Z.eqb_eq].
    assert (j = i); [|lia]. by eapply (to_distinct t Ht).
Qed.

Lemma free_slot_exists t : tab_ok t → st_countSock t ≠ Z.of_nat NSOCK → is_Some (free_slot t).
Proof.
  intros Ht Hn. unfold free_slot. destruct (find_idx is_closed (st_sock t)) eqn:Hf; [done|].
  exfalso. apply Hn. rewrite (to_count t Ht), <- (to_length t Ht). f_equal. apply countb_full.
  apply find_idx_None. intros j s Hs. unfold is_open. rewrite negb_involutive.
  exact (proj1 (find_idx_None _ _) Hf j s Hs).
Qed.

(** Every port from 1 up is taken only if there are as many open sockets. *)
Lemma no_free_port t n : free_port t = INV_PORT → (1 <= n <= 127)%nat →
  ∃ i s, find_port (Z.of_nat n) t = Some (i, s).
Proof.
  unfold free_port. change (Z.to_nat (NPORT - 1)) with 127%nat. generalize 127%nat. intros m.
  induction m as [|m IH]; intros Hf Hn; [lia|]. cbn [getfreeport_from] in Hf.
  destruct (getsock_tab (Z.of_nat (S m)) (st_sock t)) eqn:Hg; [|unfold INV_PORT in Hf; lia].
  destruct (decide (n = S m)) as [->|]; [|apply IH; [done|lia]].
  destruct (find_port (Z.of_nat (S m)) t) as [[i s]|] eqn:E; [by exists i, s|].
  apply find_port_None in E. congruence.
Qed.

Lemma free_port_ok t :
  tab_ok t → 0 < free_port t < NPORT ∧ getsock_tab (free_port t) (st_sock t) = None.
Proof.
  intros Ht. destruct (decide (free_port t = INV_PORT)) as [Hf|Hf];
    [exfalso|split; [by apply free_port_range|by apply free_port_free]].
  set (idx := λ n, match find_port (Z.of_nat n) t with Some (i, _) => i | None => 0%nat end).
  assert (Hidx : ∀ n, n ∈ seq 1 127 → ∃ s, find_port (Z.of_nat n) t = Some (idx n, s)).
  { intros n Hn%elem_of_seq. destruct (no_free_port t n Hf ltac:(lia)) as (i & s & E).
    exists s. unfold idx. by rewrite E. }
  assert (Hsub : idx <$> seq 1 127 ⊆ seq 0 NSOCK).
  { intros i (n & -> & Hn)%list_elem_of_fmap. destruct (Hidx n Hn) as (s & E).
    apply find_port_Some in E as (_ & _ & Hs & _). apply lookup_lt_Some in Hs.
    rewrite (to_length t Ht) in Hs. apply elem_of_seq. lia. }
  assert (Hnd : NoDup (idx <$> seq 1 127)).
  { apply NoDup_fmap_2_strong; [|apply NoDup_seq]. intros n m Hn Hm Heq.
    destruct (Hidx n Hn) as (s & E). destruct (Hidx m Hm) as (s' & E').
    apply find_port_Some in E as (_ & _ & Hs & _ & P). apply find_port_Some in E' as (_ & _ & Hs' & _ & P').
    rewrite <- Heq, Hs in Hs'. injection Hs' as <-. lia. }
  apply NoDup_submseteq in Hsub; [|done]. apply submseteq_length in Hsub.
  rewrite length_fmap, !length_seq in Hsub. unfold NSOCK in Hsub. lia.
Qed.

(** with at most 32 sockets for 127 ports, [getfreeport] always finds a
    free port: it never returns [INV_PORT]. *)
Theorem getfreeport_succeeds k :
  tab_ok (k_stable k) →
  ∃ port, (getfreeport : SM Z) k = Ret port k ∧ 0 < port < NPORT ∧
    (getsock port : SM (option nat)) k = Ret None k.
Proof.
  intros Ht. destruct (free_port_ok _ Ht) as [Hr Hg]. exists (free_port (k_stable k)).
  split; [done|]. split; [done|]. unfold getsock, gets. by rewrite Hg.
Qed.

(** The table [connect] leaves. *)
Lemma connect_spec_ok t p q rport host r sr :
  tab_ok t → find_port rport t = Some (r, sr) → s_state sr = LISTENING → s_owner sr = Some q →
  host_ok host = true → st_countSock t ≠ Z.of_nat NSOCK →
  ∃ t' l sl' sr', connect_spec p rport host t = Done (free_port t, []) t' [ChSock r] ∧
    tab_ok t' ∧ paired p q (free_port t) rport l r sl' sr' t' ∧
    s_hasfullbuffer sl' = false ∧ s_hasfullbuffer sr' = false.
Proof.
  intros Ht Hr Hst Hw Hh Hn. pose proof (connect_ok p t rport host Ht) as Hok.
  destruct (free_port_ok t Ht) as [Hfp Hfree].
  destruct (free_slot_exists t Ht Hn) as [l Hl].
  pose proof Hr as (Hrng & _ & Hsr & Hop & Hpr)%find_port_Some.
  pose proof Hl as (sl & Hsl & Hcl & _)%free_slot_Some.
  assert (Hne : r ≠ l) by (by eapply open_closed_ne).
  unfold connect_spec in *. rewrite Hh, Hr, Hst, Hl in *.
  unfold discard_inv_port in *. replace ((rport <? 0) || (NPORT <=? rport)) with false in * by lia.
  destruct (Z.eqb_spec (free_port t) INV_PORT) as [E|]; [rewrite E in Hfp; unfold INV_PORT in Hfp; lia|].
  rewrite bool_decide_eq_true_2 in * by done. cbn [negb orb effect_ok] in *.
  destruct Hok as [Hok _].
  apply (t_alloc_lookup l p (free_port t)) in Hsl.
  rewrite <- (t_alloc_lookup_ne l p (free_port t) t r) in Hsr by done.
  set (t1 := t_alloc l p (free_port t) t) in *.
  set (sl1 := sock_init _ _ _ _ sl) in *.
  set (t2 := t_sock r _ _) in *.
  assert (Hl2 : st_sock t2 !! l = Some (connect_to (s_lPort sr) sl1)).
  { unfold t2. rewrite t_sock_lookup_ne by done. by apply t_sock_lookup. }
  assert (Hr2 : st_sock t2 !! r = Some (connect_to (free_port t) sr)).
  { unfold t2. apply t_sock_lookup. rewrite t_sock_lookup_ne by done. done. }
  exists t2, l, (connect_to (s_lPort sr) sl1), (connect_to (free_port t) sr).
  split; [done|]. split; [done|]. split; [|done].
  assert (Fl : find_port (free_port t) t2 = Some (l, connect_to (s_lPort sr) sl1))
    by (by apply (find_port_intro t2 l (connect_to (s_lPort sr) sl1))).
  assert (Fr : find_port rport t2 = Some (r, connect_to (free_port t) sr)).
  { rewrite <- Hpr. by apply (find_port_intro t2 r (connect_to (free_port t) sr)). }
  split; apply peers_intro; try done. cbn. by rewrite Hpr.
Qed.

(** connecting to a listening socket of process [q] from a supported host
    succeeds whenever a table entry is free: it returns a free local port,
    wakes exactly the listener, and afterwards the two sockets are each
    other's peer, so both processes can send and receive. *)
Theorem connect_handshake t ps k p q rport host r sr :
  at_ [] p ps t k → (p < length ps)%nat → call_ok (CConnect rport host) →
  tab_ok t → find_port rport t = Some (r, sr) → s_state sr = LISTENING → s_owner sr = Some q →
  host_ok host = true → st_countSock t ≠ Z.of_nat NSOCK →
  ∃ lport t' l sl' sr',
    has_effect p ps (Done (lport, []) t' [ChSock r]) (run_call (CConnect rport host)) k ∧
    0 < lport < NPORT ∧ getsock_tab lport (st_sock t) = None ∧
    tab_ok t' ∧ paired p q lport rport l r sl' sr' t' ∧
    s_hasfullbuffer sl' = false ∧ s_hasfullbuffer sr' = false.
Proof.
  intros Hk Hp Hc Ht Hr Hst Hw Hh Hn. destruct (free_port_ok t Ht) as [Hrng Hfree].
  destruct (connect_spec_ok t p q rport host r sr) as (t' & l & sl' & sr' & He & H'); [done..|].
  exists (free_port t), t', l, sl', sr'. split; [|done].
  rewrite <- He. by apply (call_refines p ps t k (CConnect rport host)).
Qed.

(** ** Delivery *)

(** What [send] leaves in the table when it does not block. *)
Lemma send_paired p q lp rp l r sl sr t data n :
  paired p q lp rp l r sl sr t →
  send_tail_spec l r data n t = Done (0, []) (t_sock r (put_data data n) t) [ChSock l].
Proof.
  intros [H1 _]. apply peers_inr in H1 as (Hl & _ & _ & Hr & _). unfold send_tail_spec, rport_of.
  apply find_port_Some in Hl as (_ & _ & -> & _). by apply find_port_Some in Hr as (_ & -> & _).
Qed.

Lemma getsock_tab_t_sock port i g t :
  (∀ s, st_sock t !! i = Some s → is_open (g s) = is_open s ∧ s_lPort (g s) = s_lPort s) →
  getsock_tab port (st_sock (t_sock i g t)) = getsock_tab port (st_sock t).
Proof.
  intros Hg. unfold getsock_tab. case_match; [|done]. cbn [t_sock st_sock set_st_sock].
  destruct (st_sock t !! i) as [s|] eqn:Hs.
  - destruct (Hg s eq_refl) as [Ho Hp]. rewrite (alter_const _ _ _ _ Hs).
    clear Hg. revert i Hs. generalize (st_sock t). intros tab.
    induction tab as [|x tab IH]; intros [|i] Hs; simplify_eq/=.
    + unfold is_open_at at 1. unfold is_open, is_closed in Ho. by rewrite Ho, Hp.
    + by rewrite IH.
  - f_equal. apply list_eq. intros j. rewrite list_lookup_alter. case_decide as E; [|done].
    rewrite <- E, Hs. done.
Qed.

(** What a resumed or immediate [recv] gives back when the buffer of its
    socket holds a string. *)
Lemma recv_tail_string t r sr str rest buf m :
  st_sock t !! r = Some sr → s_recvbuffer sr = str ++ 0 :: rest → Forall (λ c, c ≠ 0) str →
  0 <= m <= Z.of_nat (length buf) → is_Some (getsock_tab (s_rPort sr) (st_sock t)) →
  recv_tail_spec r buf m t =
    Done (0, strncpy_result str (Z.to_nat m) ++ drop (Z.to_nat m) buf) (t_sock r take_data t) [ChSock r].
Proof.
  intros Hr Hb Hs Hm [i Hg]. unfold recv_tail_spec. rewrite Hr, Hb, blk_strncpy_string by done.
  cbn [default from_option id]. rewrite getsock_tab_t_sock, Hg; [done|]. intros s _. done.
Qed.

Lemma put_data_string str rest n s :
  buf_ok s → Forall (λ c, c ≠ 0) str → Z.of_nat (length str) < n < Z.of_nat SBUFFSIZE →
  ∃ rest', s_recvbuffer (put_data (str ++ 0 :: rest) n s) = str ++ 0 :: rest'.
Proof.
  intros [Hl _] Hs Hn. unfold put_data. cbn. rewrite blk_strncpy_string by (done || lia). cbn.
  unfold strncpy_result. rewrite take_ge by lia.
  destruct (Z.to_nat n - length str)%nat as [|k] eqn:E; [lia|]. cbn.
  rewrite <- app_assoc. cbn. by eexists.
Qed.

Lemma send_recv_spec t p q lp rp l r sl sr str rest n buf m :
  tab_ok t → paired p q lp rp l r sl sr t → s_hasfullbuffer sr = false →
  Forall (λ c, c ≠ 0) str → Z.of_nat (length str) < n < Z.of_nat SBUFFSIZE →
  0 <= m <= Z.of_nat (length buf) →
  ∃ t' t'', send_spec p lp (str ++ 0 :: rest) n t = Done (0, []) t' [ChSock l] ∧
    recv_spec q rp buf m t' =
      Done (0, strncpy_result str (Z.to_nat m) ++ drop (Z.to_nat m) buf) t'' [ChSock r].
Proof.
  intros Ht Hp Hf Hs Hn Hm. pose proof Hp as [H1 H2].
  set (t' := t_sock r (put_data (str ++ 0 :: rest) n) t).
  exists t', (t_sock r take_data t'). unfold send_spec. rewrite H1, Hf, (send_paired p q lp rp l r sl sr) by done.
  split; [done|]. apply peers_inr in H2 as (Hr & Hrw & Hrs & Hl & Hls).
  pose proof Hr as (Hrng & Hg & Hsr & Ho & Hpr)%find_port_Some.
  assert (Hsr' : st_sock t' !! r = Some (put_data (str ++ 0 :: rest) n sr)) by (by apply t_sock_lookup).
  destruct (tab_ok_put t r (str ++ 0 :: rest) n) as [Ht' _]; [done|..].
  { rewrite <- (to_length t Ht). by eapply lookup_lt_Some. } { lia. } { right. set_solver. }
  fold t' in Ht'. pose proof Hl as (_ & Hgl & Hsl & Hol & Hpl)%find_port_Some.
  assert (Hgl' : getsock_tab (s_rPort sr) (st_sock t') = Some l).
  { unfold t'. by rewrite getsock_tab_t_sock. }
  assert (Hr' : find_port rp t' = Some (r, put_data (str ++ 0 :: rest) n sr)).
  { rewrite <- Hpr. by apply (find_port_intro t' r (put_data (str ++ 0 :: rest) n sr)). }
  assert (exists sl', find_port (s_rPort sr) t' = Some (l, sl') ∧ s_state sl' = CONNECTED) as (sl' & Hl' & Hls').
  { destruct (decide (r = l)) as [<-|].
    - rewrite Hsr in Hsl. injection Hsl as <-. exists (put_data (str ++ 0 :: rest) n sr). split; [|exact Hrs].
      rewrite <- Hpl. by apply (find_port_intro t' r (put_data (str ++ 0 :: rest) n sr)).
    - exists sl. split; [|done]. rewrite <- Hpl. apply find_port_intro; [done| |done].
      unfold t'. by rewrite t_sock_lookup_ne. }
  unfold recv_spec. erewrite (peers_intro q rp t' r); [|done..].
  cbn [put_data s_hasfullbuffer set_s_hasfullbuffer].
  pose proof (tab_lookup_ok _ _ _ Ht Hsr) as [Hb _ _ _].
  destruct (put_data_string str rest n sr Hb Hs Hn) as [rest' Hrest].
  by eapply recv_tail_string.
Qed.

Lemma recv_blocked_spec t p q lp rp l r sl sr str rest n buf m :
  tab_ok t → paired p q lp rp l r sl sr t → s_hasfullbuffer sr = false →
  Forall (λ c, c ≠ 0) str → Z.of_nat (length str) < n < Z.of_nat SBUFFSIZE →
  0 <= m <= Z.of_nat (length buf) →
  ∃ pc ch t' t'', recv_spec q rp buf m t = Block pc ch t ∧
    send_spec p lp (str ++ 0 :: rest) n t = Done (0, []) t' [ch] ∧
    resume_spec pc t' =
      Done (0, strncpy_result str (Z.to_nat m) ++ drop (Z.to_nat m) buf) t'' [ChSock r].
Proof.
  intros Ht Hp Hf Hs Hn Hm. pose proof Hp as [H1 H2].
  set (t' := t_sock r (put_data (str ++ 0 :: rest) n) t).
  exists (PcRecv r l buf m), (ChSock l), t', (t_sock r take_data t').
  unfold send_spec, recv_spec. rewrite H1, H2, Hf, (send_paired p q lp rp l r sl sr) by done.
  split; [done|]. split; [done|]. cbn [resume_spec].
  apply peers_inr in H2 as (Hr & _ & _ & Hl & _).
  pose proof Hr as (_ & _ & Hsr & _)%find_port_Some. pose proof Hl as (_ & Hgl & _)%find_port_Some.
  pose proof (tab_lookup_ok _ _ _ Ht Hsr) as [Hb _ _ _].
  destruct (put_data_string str rest n sr Hb Hs Hn) as [rest' Hrest].
  eapply recv_tail_string; [by apply t_sock_lookup|exact Hrest|done|done|].
  unfold t'. rewrite getsock_tab_t_sock by done. by exists l.
Qed.

Lemma recv_spurious_spec t p q lp rp l r sl sr str rest rest' buf m buf' m' :
  paired p q lp rp l r sl sr t → l ≠ r →
  s_hasfullbuffer sr = false → s_recvbuffer sr = 0 :: rest →
  s_hasfullbuffer sl = true → s_recvbuffer sl = str ++ 0 :: rest' → Forall (λ c, c ≠ 0) str →
  0 <= m <= Z.of_nat (length buf) → 0 <= m' <= Z.of_nat (length buf') →
  ∃ pc ch d t' t'', recv_spec q rp buf m t = Block pc ch t ∧
    recv_spec p lp buf' m' t = Done (0, d) t' [ch] ∧
    resume_spec pc t' = Done (0, replicate (Z.to_nat m) 0 ++ drop (Z.to_nat m) buf) t'' [ChSock r].
Proof.
  intros [H1 H2] Hne Hf Hb Hf' Hb' Hs Hm Hm'.
  set (t' := t_sock l take_data t).
  exists (PcRecv r l buf m), (ChSock l), (strncpy_result str (Z.to_nat m') ++ drop (Z.to_nat m') buf'), t',
    (t_sock r take_data t').
  unfold recv_spec. rewrite H1, H2, Hf, Hf'. split; [done|].
  apply peers_inr in H1 as (Hl & _ & _ & Hr & _). apply peers_inr in H2 as (Hr2 & _ & _ & Hl2 & _).
  pose proof Hl as (_ & _ & Hsl & _)%find_port_Some. pose proof Hr as (_ & Hgr & Hsr & _)%find_port_Some.
  pose proof Hl2 as (_ & Hgl & _)%find_port_Some.
  split; [by eapply recv_tail_string|]. cbn [resume_spec].
  rewrite (recv_tail_string t' r sr [] rest buf m); [|unfold t'; by rewrite t_sock_lookup_ne|done..|].
  - unfold strncpy_result. by rewrite take_nil, Nat.sub_0_r.
  - unfold t'. rewrite getsock_tab_t_sock by done. by exists l.
Qed.

Lemma send_overwrites_spec t p q lp rp l r sl sr data n data' n' :
  paired p q lp rp l r sl sr t → l ≠ r → s_hasfullbuffer sr = true → s_hasfullbuffer sl = false →
  ∃ t' t'', send_spec p lp data n t = Block (PcSend l r data n) (ChSock r) t ∧
    send_spec q rp data' n' t = Done (0, []) t' [ChSock r] ∧ st_sock t' !! r = Some sr ∧
    resume_spec (PcSend l r data n) t' = Done (0, []) t'' [ChSock l] ∧
    st_sock t'' !! r = Some (put_data data n sr).
Proof.
  intros Hp Hne Hf Hf'. pose proof Hp as [H1 H2]. set (t' := t_sock l (put_data data' n') t).
  exists t', (t_sock r (put_data data n) t'). unfold send_spec. rewrite H1, H2, Hf, Hf'. split; [done|].
  rewrite (send_paired q p rp lp r l sr sl) by (by split). split; [done|].
  apply peers_inr in H1 as (Hl & _ & _ & Hr & _).
  pose proof Hl as (_ & _ & Hsl & _)%find_port_Some. pose proof Hr as (_ & Hgr & Hsr & _)%find_port_Some.
  assert (Hsr' : st_sock t' !! r = Some sr) by (unfold t'; by rewrite t_sock_lookup_ne).
  split; [done|]. split; [|by apply t_sock_lookup]. cbn [resume_spec]. unfold send_tail_spec, rport_of.
  unfold t' at 1 2. rewrite (t_sock_lookup _ _ _ sl), getsock_tab_t_sock by done.
  cbn [put_data s_rPort set_s_hasfullbuffer set_s_recvbuffer]. by rewrite Hgr.
Qed.

(** The same, of the kernel code. [call_has p t c e]: in every kernel state
    with the table [t] in which process [p] runs, the call [c] has the effect [e]. *)
Definition call_has (p : nat) (t : stable_t) (c : sock_call) (e : effect) : Prop :=
  ∀ ps k, at_ [] p ps t k → (p < length ps)%nat → has_effect p ps e (run_call c) k.
Definition resume_has (p : nat) (t : stable_t) (pc : sock_pc) (e : effect) : Prop :=
  ∀ ps k intena, at_ [LkPtable] p ps t k →
    has_effect p (alter (set_p_chan None) p ps) e (sock_wake p intena pc) k.

Lemma call_has_spec p t c e : tab_ok t → call_ok c → call_spec p c t = e → call_has p t c e.
Proof. intros Ht Hc <- ps k Hk Hp. by apply call_refines. Qed.

Lemma resume_has_spec p t pc e : tab_ok t → pc_ok p pc t → resume_spec pc t = e → resume_has p t pc e.
Proof. intros Ht Hc <- ps k intena Hk. by apply resume_refines. Qed.

Lemma done_ok p t c r t' ws : tab_ok t → call_ok c → call_spec p c t = Done r t' ws → tab_ok t' ∧ keeps p t t'.
Proof. intros Ht Hc He. pose proof (call_effect_ok p c t Ht Hc) as Hok. by rewrite He in Hok. Qed.

Lemma string_src_ok str rest n : src_ok (str ++ 0 :: rest) n.
Proof. right. set_solver. Qed.

(** C22: data sent to a connected peer with an empty buffer is what the peer's
    next [recv] returns: the string, cut or padded to the length the receiver
    asks for, in front of the rest of its buffer. *)
Theorem send_recv_roundtrip t p q lp rp l r sl sr str rest n buf m :
  tab_ok t → paired p q lp rp l r sl sr t → s_hasfullbuffer sr = false →
  Forall (λ c, c ≠ 0) str → Z.of_nat (length str) < n < Z.of_nat SBUFFSIZE →
  0 <= m <= Z.of_nat (length buf) →
  ∃ t' t'', call_has p t (CSend lp (str ++ 0 :: rest) n) (Done (0, []) t' [ChSock l]) ∧
    call_has q t' (CRecv rp buf m)
      (Done (0, strncpy_result str (Z.to_nat m) ++ drop (Z.to_nat m) buf) t'' [ChSock r]).
Proof.
  intros Ht Hp Hf Hs Hn Hm.
  destruct (send_recv_spec t p q lp rp l r sl sr str rest n buf m) as (t' & t'' & H1 & H2); [done..|].
  assert (Hc : call_ok (CSend lp (str ++ 0 :: rest) n)) by (split; [lia|apply string_src_ok]).
  destruct (done_ok p t _ _ _ _ Ht Hc H1) as [Ht' _].
  exists t', t''. split; apply call_has_spec; try done. cbn. lia.
Qed.

(** a receiver that found no data sleeps on its peer's socket, and that
    peer's next [send] wakes exactly this channel; resumed, the receiver
    returns what was sent. *)
Theorem recv_blocked_then_sent t p q lp rp l r sl sr str rest n buf m :
  tab_ok t → p ≠ q → paired p q lp rp l r sl sr t → s_hasfullbuffer sr = false →
  Forall (λ c, c ≠ 0) str → Z.of_nat (length str) < n < Z.of_nat SBUFFSIZE →
  0 <= m <= Z.of_nat (length buf) →
  ∃ pc ch t' t'', call_has q t (CRecv rp buf m) (Block pc ch t) ∧
    call_has p t (CSend lp (str ++ 0 :: rest) n) (Done (0, []) t' [ch]) ∧
    resume_has q t' pc (Done (0, strncpy_result str (Z.to_nat m) ++ drop (Z.to_nat m) buf) t'' [ChSock r]).
Proof.
  intros Ht Hpq Hp Hf Hs Hn Hm.
  destruct (recv_blocked_spec t p q lp rp l r sl sr str rest n buf m) as (pc & ch & t' & t'' & H1 & H2 & H3); [done..|].
  assert (Hc : call_ok (CSend lp (str ++ 0 :: rest) n)) by (split; [lia|apply string_src_ok]).
  assert (Hc' : call_ok (CRecv rp buf m)) by (cbn; lia).
  destruct (done_ok p t _ _ _ _ Ht Hc H2) as [Ht' Hk].
  pose proof (call_effect_ok q (CRecv rp buf m) t Ht Hc') as Hok. cbn [call_spec] in Hok. rewrite H1 in Hok.
  exists pc, ch, t', t''. split_and!; [by apply call_has_spec..|].
  apply resume_has_spec; [done| |done]. eapply pc_ok_keeps; [|exact Hk|apply Hok]. done.
Qed.

(** [recv] does not always block until data arrives: the peer's own
    [recv] wakes the same channel, and the resumed call returns 0 with the
    contents of an empty buffer. *)
Theorem recv_spurious_return t p q lp rp l r sl sr str rest rest' buf m buf' m' :
  tab_ok t → p ≠ q → paired p q lp rp l r sl sr t → l ≠ r →
  s_hasfullbuffer sr = false → s_recvbuffer sr = 0 :: rest →
  s_hasfullbuffer sl = true → s_recvbuffer sl = str ++ 0 :: rest' → Forall (λ c, c ≠ 0) str →
  0 <= m <= Z.of_nat (length buf) → 0 <= m' <= Z.of_nat (length buf') →
  ∃ pc ch d t' t'', call_has q t (CRecv rp buf m) (Block pc ch t) ∧
    call_has p t (CRecv lp buf' m') (Done (0, d) t' [ch]) ∧
    resume_has q t' pc (Done (0, replicate (Z.to_nat m) 0 ++ drop (Z.to_nat m) buf) t'' [ChSock r]).
Proof.
  intros Ht Hpq Hp Hlr Hf Hb Hf' Hb' Hs Hm Hm'.
  destruct (recv_spurious_spec t p q lp rp l r sl sr str rest rest' buf m buf' m')
    as (pc & ch & d & t' & t'' & H1 & H2 & H3); [done..|].
  assert (Hc : call_ok (CRecv lp buf' m')) by (cbn; lia).
  assert (Hc' : call_ok (CRecv rp buf m)) by (cbn; lia).
  destruct (done_ok p t _ _ _ _ Ht Hc H2) as [Ht' Hk].
  pose proof (call_effect_ok q (CRecv rp buf m) t Ht Hc') as Hok. cbn [call_spec] in Hok. rewrite H1 in Hok.
  exists pc, ch, d, t', t''. split_and!; [by apply call_has_spec..|].
  apply resume_has_spec; [done| |done]. eapply pc_ok_keeps; [|exact Hk|apply Hok]. done.
Qed.

(** [send] does not always block until its peer has read: the peer's own
    [send] wakes the same channel, and the resumed call writes over the data
    that is still unread. *)
Theorem send_overwrites_unread t p q lp rp l r sl sr data n data' n' :
  tab_ok t → p ≠ q → paired p q lp rp l r sl sr t → l ≠ r →
  s_hasfullbuffer sr = true → s_hasfullbuffer sl = false →
  call_ok (CSend lp data n) → call_ok (CSend rp data' n') →
  ∃ pc ch t' t'', call_has p t (CSend lp data n) (Block pc ch t) ∧
    call_has q t (CSend rp data' n') (Done (0, []) t' [ch]) ∧ st_sock t' !! r = Some sr ∧
    resume_has p t' pc (Done (0, []) t'' [ChSock l]) ∧ st_sock t'' !! r = Some (put_data data n sr).
Proof.
  intros Ht Hpq Hp Hlr Hf Hf' Hc Hc'.
  destruct (send_overwrites_spec t p q lp rp l r sl sr data n data' n')
    as (t' & t'' & H1 & H2 & H3 & H4 & H5); [done..|].
  destruct (done_ok q t _ _ _ _ Ht Hc' H2) as [Ht' Hk].
  pose proof (call_effect_ok p (CSend lp data n) t Ht Hc) as Hok. cbn [call_spec] in Hok. rewrite H1 in Hok.
  exists (PcSend l r data n), (ChSock r), t', t''. split_and!; [by apply call_has_spec..|done| |done].
  apply resume_has_spec; [done| |done]. eapply pc_ok_keeps; [|exact Hk|apply Hok]. done.
Qed.

(** ** Cleanup at exit *)
Lemma t_close_all_spec fuel p t :
  (countb (owned_by p) (st_sock t) <= fuel)%nat →
  (∀ i s, st_sock (t_close_all fuel p t).1 !! i = Some s → owned_by p s = false) ∧
  (∀ i s, st_sock t !! i = Some s → owned_by p s = false →
     st_sock (t_close_all fuel p t).1 !! i = Some s) ∧
  (∀ i s, st_sock t !! i = Some s → owned_by p s = true → ChSock i ∈ (t_close_all fuel p t).2).
Proof.
  revert t. induction fuel as [|fuel IH]; intros t Hc; cbn [t_close_all].
  - assert (Hn : ∀ i s, st_sock t !! i = Some s → owned_by p s = false).
    { intros i s Hs. destruct (owned_by p s) eqn:Ho; [|done].
      pose proof (countb_insert (owned_by p) _ _ _ sock0 Hs) as H. rewrite Ho in H.
      change (owned_by p sock0) with false in H. cbv iota in H. lia. }
    split_and!; [exact Hn|done|]. intros i s Hs Ho. by rewrite (Hn i s Hs) in Ho.
  - destruct (find_idx (owned_by p) (st_sock t)) as [j|] eqn:Hf; last first.
    { pose proof (proj1 (find_idx_None _ _) Hf) as Hn. split_and!; [exact Hn|done|].
      intros i s Hs Ho. by rewrite (Hn i s Hs) in Ho. }
    apply find_idx_Some in Hf as [(sj & Hsj & Hoj) _]. pose proof (lookup_lt_Some _ _ _ Hsj).
    specialize (IH (t_remove j t)). rewrite (t_remove_tab _ _ _ Hsj) in IH.
    set (s' := sock_init _ _ _ _ sj) in *.
    pose proof (countb_insert (owned_by p) _ _ _ s' Hsj) as Hcnt. rewrite Hoj in Hcnt.
    change (owned_by p s') with false in Hcnt. cbv iota in Hcnt.
    destruct IH as (I1 & I2 & I3); [lia|].
    destruct (t_close_all fuel p (t_remove j t)) as [t' ws]. cbn [fst snd] in *.
    split_and!; [exact I1|intros i s Hs Ho|intros i s Hs Ho];
      (destruct (decide (i = j)) as [->|]; [rewrite Hsj in Hs; injection Hs as <-|]).
    + by rewrite Hoj in Ho.
    + apply I2; [by rewrite list_lookup_insert_ne|done].
    + set_solver.
    + apply elem_of_cons. right. apply (I3 i s); [by rewrite list_lookup_insert_ne|done].
Qed.

(** when a process exits, all its sockets are closed and whoever sleeps
    on one of them is woken; every other entry of the table is unchanged. *)
Theorem exit_closes_sockets p t :
  tab_ok t → ∃ t' ws, call_has p t CExit (Done (0, []) t' ws) ∧ tab_ok t' ∧
    (∀ i s, st_sock t' !! i = Some s → is_open s = true → s_owner s ≠ Some p) ∧
    (∀ i s, st_sock t !! i = Some s → s_owner s ≠ Some p → st_sock t' !! i = Some s) ∧
    (∀ i s, st_sock t !! i = Some s → is_open s = true → s_owner s = Some p → ChSock i ∈ ws).
Proof.
  intros Ht. destruct (t_close_all_spec NSOCK p t) as (H1 & H2 & H3).
  { rewrite <- (to_length t Ht). apply countb_le. }
  pose proof (t_close_all_ok NSOCK p t Ht) as [Hok _].
  destruct (t_close_all NSOCK p t) as [t' ws] eqn:E. cbn [fst snd] in *. exists t', ws.
  split_and!; [|done| | |].
  - apply call_has_spec; [done..|]. cbn [call_spec]. by rewrite E.
  - intros i s Hs Ho Hw. specialize (H1 i s Hs). unfold owned_by in H1.
    by rewrite Ho, Hw, bool_decide_eq_true_2 in H1.
  - intros i s Hs Hw. apply H2; [done|]. unfold owned_by. rewrite (bool_decide_eq_false_2 _ Hw).
    apply andb_false_r.
  - intros i s Hs Ho Hw. apply (H3 i s Hs). unfold owned_by. by rewrite Ho, bool_decide_eq_true_2.
Qed.

(** ** Hosts *)
Lemma blk_strncmp_prefix s rest lit :
  Forall (λ c, c ≠ 0) s →
  blk_strncmp_loop (s ++ rest) (lit ++ [0]) (length s) = Some 0 ↔ s `prefix_of` lit.
Proof.
  intros Hs. revert lit. induction Hs as [|c s Hc Hs IH]; intros lit; cbn [length app blk_strncmp_loop].
  { split; [intros _; apply prefix_nil|done]. }
  destruct lit as [|y lit]; cbn [app].
  - destruct (Z.eqb_spec c 0); [done|]. cbn. split; [intros [= ?]; lia|intros []%prefix_nil_not].
  - destruct (Z.eqb_spec c 0); [done|]. cbn [negb andb]. destruct (Z.eqb_spec c y) as [<-|].
    + rewrite IH. split; [apply prefix_cons|apply prefix_cons_inv_2].
    + split; [intros [= ?]; lia|]. intros ?%prefix_cons_inv_1. done.
Qed.

Lemma host_ok_prefix s rest :
  Forall (λ c, c ≠ 0) s →
  host_ok (s ++ 0 :: rest) = true ↔
    s `prefix_of` take 9 str_localhost ∨ s `prefix_of` take 9 str_127_0_0_1.
Proof.
  intros Hs. pose proof (blk_strlen_string s rest Hs) as Hl.
  unfold host_ok, blk_strncmp. rewrite Hl, Nat2Z.id, orb_true_iff, !bool_decide_eq_true.
  rewrite <- !(blk_strncmp_prefix s (0 :: rest)) by done. done.
Qed.

(** [connect] accepts a host exactly when it is a prefix of ["localhost"]
    or of ["127.0.0.1"], the empty string included, not only the two names:
    any other host is refused with [E_INVALID_ARG] before the table is looked
    at, and no prefix ever is. *)
Theorem connect_hosts p ps t k rport s rest :
  at_ [] p ps t k → tab_ok t → 0 <= rport < NPORT → Forall (λ c, c ≠ 0) s →
  Z.of_nat (length s) < 2 ^ 32 →
  (s `prefix_of` take 9 str_localhost ∨ s `prefix_of` take 9 str_127_0_0_1) ↔
    wp False (connect rport (s ++ 0 :: rest) : SM Z) (λ code _, code ≠ E_INVALID_ARG) (λ _ _, False) k.
Proof.
  intros Hk Ht Hr Hs Hl. rewrite <- (host_ok_prefix s rest) by done.
  assert (Hc : call_ok (CConnect rport (s ++ 0 :: rest))).
  { exists (Z.of_nat (length s)). split; [by apply blk_strlen_string|done]. }
  pose proof (connect_refines p ps t k rport (s ++ 0 :: rest) Hk Ht Hc) as He.
  unfold has_effect, run_call in He. apply wp_bind_inv in He.
  unfold connect_spec in He. unfold discard_inv_port in He.
  replace ((rport <? 0) || (NPORT <=? rport)) with false in He by lia. cbn [orb] in He.
  destruct (host_ok (s ++ 0 :: rest)) eqn:Hh; cbn [negb] in He; split; intros H; try done.
  - eapply wp_mono; [exact He| |].
    + intros code k' Hcode. apply wp_mret_eq in Hcode. unfold eff_ret in Hcode.
      pose proof (free_port_ok t Ht).
      destruct (free_port t =? INV_PORT); [by destruct Hcode as [[= ->] _]|].
      destruct (find_port rport t) as [[r sr]|]; [|by destruct Hcode as [[= ->] _]].
      destruct (negb _); [by destruct Hcode as [[= ->] _]|].
      destruct (free_slot t); destruct Hcode as [[= ->] _]; [|done]. unfold E_INVALID_ARG. lia.
    + intros pc k'. unfold eff_switch. destruct (free_port t =? INV_PORT); [done|].
      destruct (find_port rport t) as [[r sr]|]; [|done]. destruct (negb _); [done|]. by destruct (free_slot t).
  - exfalso. eapply wp_False_conj; [exact He|exact H|..]; [|done].
    intros code k' Hcode Hne. apply wp_mret_eq in Hcode as [[= ->] _]. done.
Qed.

(** ** Witnesses and examples *)
Definition boot_tab : stable_t := mk_stable_t (replicate NSOCK sock0) 0 0.
Definition demo_connect : list (nat * sock_call) :=
  [(1%nat, CListen 5); (2%nat, CConnect 5 str_localhost)].
Definition demo_tab : stable_t := run_script demo_connect boot_tab.
Lemma boot_ok : tab_ok boot_tab.
Proof. apply (sys_ok_boot (set_k_stable boot_tab kernel0, ∅)). by split. Qed.

Lemma demo_at held p t : NoDup held → at_ held p (replicate NPROC proc0) t (demo_kernel held p t).
Proof. intros H. split; [|done]. split; [done|]. by split. Qed.

Lemma run_on_ok t p c : call_ok c → (p < NPROC)%nat → tab_ok t → tab_ok (run_on t (p, c)).
Proof.
  intros Hc Hp Ht. unfold run_on. cbn [fst snd].
  pose proof (call_refines p _ t _ c (demo_at [] p t (NoDup_nil_2)) Ht) as He.
  rewrite length_replicate in He. specialize (He Hp Hc). pose proof (call_effect_ok p c t Ht Hc) as Hok.
  destruct (run_call c (demo_kernel [] p t)) as [r k|pc k|e k|e] eqn:E; [| | |done].
  - eapply wp_Ret_inv in He; [|done]. destruct (call_spec p c t); [|done].
    destruct He as [_ (_ & _ & _ & _ & ->)]. by destruct Hok.
  - eapply wp_Switch_inv in He; [|done]. destruct (call_spec p c t); [done|].
    destruct He as [_ (_ & _ & _ & _ & ->)]. by destruct Hok.
  - by apply (wp_Panic_inv _ _ _ _ _ _ _ He) in E.
Qed.

Lemma run_script_ok cs t :
  Forall (λ c, call_ok c.2 ∧ (c.1 < NPROC)%nat) cs → tab_ok t → tab_ok (run_script cs t).
Proof.
  intros Hcs. revert t. induction Hcs as [|[p c] cs [Hc Hp] Hcs IH]; intros t Ht; [done|].
  cbn. by apply IH, run_on_ok.
Qed.


Lemma demo_connect_ok : Forall (λ c, call_ok c.2 ∧ (c.1 < NPROC)%nat) demo_connect.
Proof. repeat constructor; try (cbn; lia). exists 9. by vm_compute. Qed.

Lemma demo_ok : tab_ok demo_tab.
Proof. apply run_script_ok; [apply demo_connect_ok|apply boot_ok]. Qed.

(** a connection outlives its peer: after process 1 disconnects and
    process 3 listens on the same port and accepts process 4, what process 2
    sends on its old connection is delivered to process 3. *)
Theorem half_open_hijack :
  let t := run_script (demo_connect ++
    [(1%nat, CDisconnect 5); (3%nat, CListen 5); (4%nat, CConnect 5 str_localhost);
     (2%nat, CSend 127 [120; 0] 100)]) boot_tab in
  ∃ t' ws r, peers 3 5 t = inr r ∧ s_owner r.2.2 = Some 4%nat ∧
    recv_spec 3 5 [1; 1; 1] 3 t = Done (0, [120; 0; 0]) t' ws.
Proof. vm_compute. by do 3 eexists. Qed.

Definition listen_tab : stable_t := run_script [(1%nat, CListen 5)] boot_tab.
Definition full_tab : stable_t := run_script (demo_connect ++ [(1%nat, CSend 5 [104; 105; 0] 100)]) boot_tab.
Definition entry (t : stable_t) (i : nat) : sock := default sock0 (st_sock t !! i).

Lemma listen_ok_tab : tab_ok listen_tab.
Proof. apply run_script_ok; [by repeat constructor|apply boot_ok]. Qed.

Lemma full_ok : tab_ok full_tab.
Proof.
  apply run_script_ok; [|apply boot_ok]. apply Forall_app. split; [apply demo_connect_ok|].
  apply Forall_singleton. split; [|cbn; unfold NPROC; lia]. split; [by vm_compute|]. right. set_solver.
Qed.

Lemma demo_paired : paired 2 1 127 5 1 0 (entry demo_tab 1) (entry demo_tab 0) demo_tab.
Proof. split; vm_compute; reflexivity. Qed.

Lemma str_hi : Forall (λ c, c ≠ 0) [104; 105].
Proof. by repeat constructor. Qed.

Lemma sock_call_refines_witness :
  has_effect 2 (replicate NPROC proc0) (call_spec 2 (CConnect 5 str_localhost) listen_tab)
    (run_call (CConnect 5 str_localhost)) (demo_kernel [] 2 listen_tab).
Proof.
  apply sock_call_refines.
  - apply demo_at. constructor.
  - exact listen_ok_tab.
  - cbn. lia.
  - exists 9. by vm_compute.
Defined.

Lemma sock_resume_refines_witness :
  has_effect 1 (alter (set_p_chan None) 1%nat (replicate NPROC proc0))
    (resume_spec (PcRecv 0 1 [7; 7; 7] 3) demo_tab) (sock_wake 1 true (PcRecv 0 1 [7; 7; 7] 3))
    (demo_kernel [LkPtable] 1 demo_tab).
Proof.
  apply sock_resume_refines.
  - apply demo_at. repeat constructor. set_solver.
  - exact demo_ok.
  - split; [|by vm_compute]. exists (entry demo_tab 0). by vm_compute.
Defined.

Lemma sock_call_isolated_witness :
  wp False (run_call (CSend 5 [104; 105; 0] 100))
    (λ _ k', tab_ok (k_stable k') ∧ keeps 1 demo_tab (k_stable k'))
    (λ pc k', tab_ok (k_stable k') ∧ keeps 1 demo_tab (k_stable k') ∧
      pc_ok 1 pc (k_stable k') ∧ pc_owns 1 pc (k_stable k'))
    (demo_kernel [] 1 demo_tab).
Proof.
  apply (sock_call_isolated 1 (replicate NPROC proc0)).
  - apply demo_at. constructor.
  - exact demo_ok.
  - cbn. lia.
  - split; [by vm_compute|]. right. set_solver.
Defined.

(** Steps of a system, as the specification gives them: in some kernel state
    with the table [t] the call can be made and runs to the specified end. *)
Definition sys_runs (t : stable_t) (pend : gmap nat sock_pc) (t' : stable_t) (pend' : gmap nat sock_pc) : Prop :=
  ∀ k, k_stable k = t → ∃ k', rtc sock_step (k, pend) (k', pend') ∧ k_stable k' = t'.

Lemma sys_runs_trans t1 p1 t2 p2 t3 p3 : sys_runs t1 p1 t2 p2 → sys_runs t2 p2 t3 p3 → sys_runs t1 p1 t3 p3.
Proof.
  intros H1 H2 k Hk. destruct (H1 k Hk) as (k' & Hs & Hk'). destruct (H2 k' Hk') as (k'' & Hs' & Hk'').
  exists k''. split; [by etrans|done].
Qed.

Lemma sys_runs_return p c t r t' ws pend :
  tab_ok t → (p < NPROC)%nat → pend !! p = None → call_ok c → call_spec p c t = Done r t' ws →
  sys_runs t pend t' pend.
Proof.
  intros Ht Hp Hn Hc He k Hk. pose proof (demo_at [] p t (NoDup_nil_2)) as Hat.
  assert (Hlt : (p < length (replicate NPROC proc0))%nat) by (by rewrite length_replicate).
  pose proof (call_refines p _ t _ c Hat Ht Hlt Hc) as Hw. rewrite He in Hw.
  apply wp_False_inv in Hw as [(r1 & k1 & E & _ & Hk1)|(pc & k1 & _ & [])]. exists k1.
  split; [|apply Hk1]. eapply rtc_l; [by apply (step_other _ (demo_kernel [] p t))|].
  apply rtc_once. by eapply step_return.
Qed.

Lemma sys_runs_block p c t pc ch t' pend :
  tab_ok t → (p < NPROC)%nat → pend !! p = None → call_ok c → call_spec p c t = Block pc ch t' →
  sys_runs t pend t' (<[p := pc]> pend).
Proof.
  intros Ht Hp Hn Hc He k Hk. pose proof (demo_at [] p t (NoDup_nil_2)) as Hat.
  assert (Hlt : (p < length (replicate NPROC proc0))%nat) by (by rewrite length_replicate).
  pose proof (call_refines p _ t _ c Hat Ht Hlt Hc) as Hw. rewrite He in Hw.
  apply wp_False_inv in Hw as [(r1 & k1 & _ & [])|(pc1 & k1 & E & -> & Hk1)]. exists k1.
  split; [|apply Hk1]. eapply rtc_l; [by apply (step_other _ (demo_kernel [] p t))|].
  apply rtc_once. by eapply step_block.
Qed.

Lemma sys_runs_resume p pc t r t' ws pend :
  tab_ok t → pend !! p = Some pc → pc_ok p pc t → resume_spec pc t = Done r t' ws →
  sys_runs t pend t' (delete p pend).
Proof.
  intros Ht Hn Hc He k Hk. assert (Hnd : NoDup [LkPtable]) by (repeat constructor; set_solver).
  pose proof (demo_at [LkPtable] p t Hnd) as Hat.
  pose proof (resume_refines p _ t _ pc false Hat Ht Hc) as Hw. rewrite He in Hw.
  apply wp_False_inv in Hw as [(r1 & k1 & E & _ & Hk1)|(pc1 & k1 & _ & [])]. exists k1.
  split; [|apply Hk1]. eapply rtc_l; [by apply (step_other _ (demo_kernel [LkPtable] p t))|].
  apply rtc_once. by eapply step_resume.
Qed.

(** A run of the system: process 1 listens and blocks, process 2 connects,
    process 1 is resumed and blocks in [recv], process 3 listens and blocks. *)
Definition demo_pend : gmap nat sock_pc := {[ 1%nat := PcRecv 0 1 [9; 9; 9; 9] 3; 3%nat := PcListen 2 ]}.
Definition demo_tab3 : stable_t :=
  match call_spec 3 (CListen 7) demo_tab with Block _ _ t => t | Done _ t _ => t end.

Lemma demo_runs : sys_runs boot_tab ∅ demo_tab3 demo_pend.
Proof.
  eapply sys_runs_trans; [apply (sys_runs_block 1 (CListen 5) boot_tab (PcListen 0) (ChSock 0) listen_tab)|].
  { exact boot_ok. } { unfold NPROC. lia. } { done. } { done. } { by vm_compute. }
  eapply sys_runs_trans; [apply (sys_runs_return 2 (CConnect 5 str_localhost) listen_tab (127, []) demo_tab [ChSock 0])|].
  { exact listen_ok_tab. } { unfold NPROC. lia. } { done. } { exists 9. by vm_compute. } { by vm_compute. }
  eapply sys_runs_trans; [apply (sys_runs_resume 1 (PcListen 0) demo_tab (0, []) demo_tab [])|].
  { exact demo_ok. } { done. } { done. } { done. }
  eapply sys_runs_trans; [apply (sys_runs_block 1 (CRecv 5 [9; 9; 9; 9] 3) demo_tab (PcRecv 0 1 [9; 9; 9; 9] 3) (ChSock 1) demo_tab)|].
  { exact demo_ok. } { unfold NPROC. lia. } { done. } { done. } { by vm_compute. }
  replace demo_pend with (<[3%nat := PcListen 2]> (<[1%nat := PcRecv 0 1 [9; 9; 9; 9] 3]> (delete 1%nat (<[1%nat := PcListen 0]> (∅ : gmap nat sock_pc)))));
    [|by vm_compute].
  apply (sys_runs_block 3 (CListen 7) demo_tab (PcListen 2) (ChSock 2)).
  { exact demo_ok. } { unfold NPROC. lia. } { done. } { done. } { by vm_compute. }
Qed.

Lemma sock_reachable_ok_witness : ∃ k, k_stable k = demo_tab3 ∧
  rtc sock_step (set_k_stable boot_tab kernel0, ∅) (k, demo_pend) ∧ sys_ok (k, demo_pend).
Proof.
  destruct (demo_runs (set_k_stable boot_tab kernel0) eq_refl) as (k & Hs & Hk). exists k.
  split; [exact Hk|]. split; [exact Hs|].
  apply (sock_reachable_ok (set_k_stable boot_tab kernel0, ∅)); [by split|exact Hs].
Defined.

Lemma getfreeport_succeeds_witness :
  ∃ port, (getfreeport : SM Z) (demo_kernel [] 1 demo_tab) = Ret port (demo_kernel [] 1 demo_tab) ∧
    0 < port < NPORT ∧
    (getsock port : SM (option nat)) (demo_kernel [] 1 demo_tab) = Ret None (demo_kernel [] 1 demo_tab).
Proof. apply getfreeport_succeeds. exact demo_ok. Defined.

Lemma connect_handshake_witness :
  ∃ lport t' l sl' sr',
    has_effect 2 (replicate NPROC proc0) (Done (lport, []) t' [ChSock 0]) (run_call (CConnect 5 str_localhost))
      (demo_kernel [] 2 listen_tab) ∧
    0 < lport < NPORT ∧ getsock_tab lport (st_sock listen_tab) = None ∧
    tab_ok t' ∧ paired 2 1 lport 5 l 0 sl' sr' t' ∧
    s_hasfullbuffer sl' = false ∧ s_hasfullbuffer sr' = false.
Proof.
  apply (connect_handshake listen_tab _ _ 2 1 5 str_localhost 0 (entry listen_tab 0)).
  - apply demo_at. constructor.
  - cbn. lia.
  - exists 9. by vm_compute.
  - exact listen_ok_tab.
  - by vm_compute.
  - by vm_compute.
  - by vm_compute.
  - by vm_compute.
  - by vm_compute.
Defined.

Lemma send_recv_roundtrip_witness :
  ∃ t' t'', call_has 2 demo_tab (CSend 127 [104; 105; 0] 100) (Done (0, []) t' [ChSock 1]) ∧
    call_has 1 t' (CRecv 5 [9; 9; 9; 9] 3) (Done (0, strncpy_result [104; 105] 3 ++ [9]) t'' [ChSock 0]).
Proof.
  apply (send_recv_roundtrip demo_tab 2 1 127 5 1 0 (entry demo_tab 1) (entry demo_tab 0) [104; 105] []).
  - exact demo_ok.
  - exact demo_paired.
  - by vm_compute.
  - exact str_hi.
  - by vm_compute.
  - by vm_compute.
Defined.

Lemma recv_blocked_then_sent_witness :
  ∃ pc ch t' t'', call_has 1 demo_tab (CRecv 5 [9; 9; 9; 9] 3) (Block pc ch demo_tab) ∧
    call_has 2 demo_tab (CSend 127 [104; 105; 0] 100) (Done (0, []) t' [ch]) ∧
    resume_has 1 t' pc (Done (0, strncpy_result [104; 105] 3 ++ [9]) t'' [ChSock 0]).
Proof.
  apply (recv_blocked_then_sent demo_tab 2 1 127 5 1 0 (entry demo_tab 1) (entry demo_tab 0) [104; 105] []).
  - exact demo_ok.
  - done.
  - exact demo_paired.
  - by vm_compute.
  - exact str_hi.
  - by vm_compute.
  - by vm_compute.
Defined.

Lemma recv_spurious_return_witness :
  ∃ pc ch d t' t'', call_has 1 full_tab (CRecv 5 [9; 9; 9; 9] 3) (Block pc ch full_tab) ∧
    call_has 2 full_tab (CRecv 127 [8; 8; 8] 3) (Done (0, d) t' [ch]) ∧
    resume_has 1 t' pc (Done (0, replicate 3 0 ++ [9]) t'' [ChSock 0]).
Proof.
  apply (recv_spurious_return full_tab 2 1 127 5 1 0 (entry full_tab 1) (entry full_tab 0) [104; 105]
    (replicate 127 0) (replicate 125 0)).
  - exact full_ok.
  - done.
  - split; vm_compute; reflexivity.
  - done.
  - by vm_compute.
  - by vm_compute.
  - by vm_compute.
  - by vm_compute.
  - exact str_hi.
  - by vm_compute.
  - by vm_compute.
Defined.

Lemma send_overwrites_unread_witness :
  ∃ pc ch t' t'', call_has 1 full_tab (CSend 5 [33; 0] 100) (Block pc ch full_tab) ∧
    call_has 2 full_tab (CSend 127 [63; 0] 100) (Done (0, []) t' [ch]) ∧
    st_sock t' !! 1%nat = Some (entry full_tab 1) ∧
    resume_has 1 t' pc (Done (0, []) t'' [ChSock 0]) ∧
    st_sock t'' !! 1%nat = Some (put_data [33; 0] 100 (entry full_tab 1)).
Proof.
  apply (send_overwrites_unread full_tab 1 2 5 127 0 1 (entry full_tab 0) (entry full_tab 1)).
  - exact full_ok.
  - done.
  - split; vm_compute; reflexivity.
  - done.
  - by vm_compute.
  - by vm_compute.
  - split; [by vm_compute|]. right. set_solver.
  - split; [by vm_compute|]. right. set_solver.
Defined.

Lemma exit_closes_sockets_witness :
  ∃ t' ws, call_has 1 demo_tab CExit (Done (0, []) t' ws) ∧ tab_ok t' ∧
    (∀ i s, st_sock t' !! i = Some s → is_open s = true → s_owner s ≠ Some 1%nat) ∧
    (∀ i s, st_sock demo_tab !! i = Some s → s_owner s ≠ Some 1%nat → st_sock t' !! i = Some s) ∧
    (∀ i s, st_sock demo_tab !! i = Some s → is_open s = true → s_owner s = Some 1%nat → ChSock i ∈ ws).
Proof. apply exit_closes_sockets. exact demo_ok. Defined.

Lemma connect_hosts_witness :
  ([108; 111] `prefix_of` take 9 str_localhost ∨ [108; 111] `prefix_of` take 9 str_127_0_0_1) ↔
    wp False (connect 5 ([108; 111] ++ [0]) : SM Z) (λ code _, code ≠ E_INVALID_ARG) (λ _ _, False)
      (demo_kernel [] 2 listen_tab).
Proof.
  apply (connect_hosts 2 (replicate NPROC proc0) listen_tab).
  - apply demo_at. constructor.
  - exact listen_ok_tab.
  - by vm_compute.
  - by repeat constructor.
  - by vm_compute.
Defined.
