(* ===== verification/Kalloc.v ===== *)
(** * Kalloc: the physical page allocator of kalloc.c

    Free pages are linked through their first word in [k_mem]; [kmem] holds
    the head of the list, [numOfFreePages] the author's counter. The theorems
    describe [kalloc] and [kfree] as pop and push on the list of free pages. *)

From S2P Require Import Prelude CString Kernel Sched.

(** ** Definitions *)
Section kalloc.
Context {C : Type}.
Notation KM := (M kernel C).

Definition getTotalPages : KM Z :=
  e <- gets k_end ;;
  mret (PGROUNDDOWN (u32 (PHYSTOP - V2P e)) / PGSIZE).

Definition getFreePages : KM Z := gets (λ k, km_numOfFreePages (k_kmem k)).

(** [if(kmem.use_lock) acquire(&kmem.lock)] and its counterpart *)
Definition kmem_acquire : KM unit :=
  u <- gets (λ k, km_use_lock (k_kmem k)) ;;
  when u (acquire LkKmem).
Definition kmem_release : KM unit :=
  u <- gets (λ k, km_use_lock (k_kmem k)) ;;
  when u (release LkKmem).

Definition kfree (v : Z) : KM unit :=
  e <- gets k_end ;;
  if negb (v mod PGSIZE =? 0) || (v <? e) || (PHYSTOP <=? V2P v) then panic "kfree" else
  modify (upd_kmem (λ m, set_km_numOfFreePages (s32 (km_numOfFreePages m + 1)) m)) ;;
  modify (λ k, set_k_mem (memset (k_mem k) v 1 PGSIZE) k) ;;
  kmem_acquire ;;
  f <- gets (λ k, km_freelist (k_kmem k)) ;;
  modify (λ k, set_k_mem (store32 (k_mem k) v f) k) ;;
  modify (upd_kmem (set_km_freelist v)) ;;
  kmem_release.

Definition kalloc : KM Z :=
  kmem_acquire ;;
  modify (upd_kmem (λ m, set_km_numOfFreePages (s32 (km_numOfFreePages m - 1)) m)) ;;
  r <- gets (λ k, km_freelist (k_kmem k)) ;;
  when (negb (r =? 0))
    (n <- gets (λ k, load32 (k_mem k) r) ;;
     modify (upd_kmem (set_km_freelist n))) ;;
  kmem_release ;;
  mret r.

(** [for(; p + PGSIZE <= (char* )vend; p += PGSIZE) kfree(p);] *)
Fixpoint freerange_loop (fuel : nat) (p vend : Z) : KM unit :=
  if u32 (p + PGSIZE) <=? vend then
    match fuel with
    | O => fault "freerange: out of fuel"
    | S fuel => kfree p ;; freerange_loop fuel (u32 (p + PGSIZE)) vend
    end
  else mret tt.
Definition freerange (fuel : nat) (vstart vend : Z) : KM unit :=
  freerange_loop fuel (PGROUNDUP vstart) vend.

Definition kinit1 (fuel : nat) (vstart vend : Z) : KM unit :=
  modify (upd_kmem (set_km_use_lock false)) ;;
  freerange fuel vstart vend.
Definition kinit2 (fuel : nat) (vstart vend : Z) : KM unit :=
  freerange fuel vstart vend ;;
  modify (upd_kmem (set_km_use_lock true)).
End kalloc.

(** ** The list of free pages *)

(** The pages linked from [p] on. *)
Inductive chain (m : mem) : Z → list Z → Prop :=
  | chain_nil : chain m 0 []
  | chain_cons p l : p ≠ 0 → chain m (load32 m p) l → chain m p (p :: l).

(** An address [kfree] takes. *)
Definition page_ok (k : kernel) (v : Z) : Prop :=
  v mod PGSIZE = 0 ∧ k_end k <= v < 2 ^ 32 ∧ V2P v < PHYSTOP.

Record free_ok (k : kernel) (l : list Z) : Prop := mk_free_ok {
  fo_chain : chain (k_mem k) (km_freelist (k_kmem k)) l;
  fo_nodup : NoDup l;
  fo_pages : Forall (page_ok k) l;
}.

(** A kernel state in which [kmem.lock] may be taken. *)
Definition kmem_idle (k : kernel) : Prop :=
  cpu_ok k ∧ LkKmem ∉ k_held k ∧ 0 < k_end k.

(** Only memory, the allocator and this CPU's interrupt state change. *)
Definition kmem_frame (k k' : kernel) : Prop :=
  k' = set_k_cpu (k_cpu k') (set_k_kmem (k_kmem k') (set_k_mem (k_mem k') k)) ∧
  km_use_lock (k_kmem k') = km_use_lock (k_kmem k) ∧
  c_cr3 (k_cpu k') = c_cr3 (k_cpu k) ∧ c_esp0 (k_cpu k') = c_esp0 (k_cpu k).

(** Memory is unchanged outside the pages [l]. *)
Definition same_outside (l : list Z) (m m' : mem) : Prop :=
  ∀ a, (∀ p, p ∈ l → ¬ (p <= a < p + PGSIZE)) → m' a = m a.

#[export] Instance kmem_frame_preorder : PreOrder kmem_frame.
Proof.
  split; [intros k; split; [by destruct k|done]|].
  intros k1 k2 k3 (E2 & A & B & D) (E3 & A' & B' & D'). split; [|by rewrite A', B', D'].
  rewrite E2 in E3. exact E3.
Qed.

Lemma kmem_frame_end k k' : kmem_frame k k' → k_end k' = k_end k.
Proof. intros [-> _]. done. Qed.

(** ** Facts about the list *)
Lemma pages_disjoint p q a b :
  p mod PGSIZE = 0 → q mod PGSIZE = 0 → p ≠ q →
  p <= a < p + PGSIZE → q <= b < q + PGSIZE → a ≠ b.
Proof. unfold PGSIZE. intros. divlia. Qed.

Lemma load32_same m m' p :
  (∀ a, p <= a < p + 4 → m' a = m a) → load32 m' p = load32 m p.
Proof. intros H. unfold load32. rewrite !H by lia. done. Qed.

(** The chain only depends on its own pages. *)
Lemma chain_frame m m' p l :
  (∀ q a, q ∈ l → q <= a < q + 4 → m' a = m a) → chain m p l → chain m' p l.
Proof.
  intros H Hc. induction Hc as [|p l Hp Hc IH]; [constructor|].
  constructor; [done|]. rewrite (load32_same m m').
  - apply IH. intros q a Hq. apply H. set_solver.
  - intros a. apply H. set_solver.
Qed.

Lemma chain_nonzero m p l : chain m p l → 0 ∉ l.
Proof. induction 1; set_solver. Qed.

Lemma page_ok_frame k k' v : k_end k' = k_end k → page_ok k v → page_ok k' v.
Proof. unfold page_ok. by intros ->. Qed.

Lemma pages_ok_frame k k' l : k_end k' = k_end k → Forall (page_ok k) l → Forall (page_ok k') l.
Proof. unfold page_ok. by intros ->. Qed.

Lemma page_ok_pos k v : 0 < k_end k → page_ok k v → 0 < v < 2 ^ 32 ∧ v mod PGSIZE = 0.
Proof. unfold page_ok. lia. Qed.

(** ** The lock brackets *)
Section brackets.
Context {C : Type}.
Notation KM := (M kernel C).

(** Inside the bracket the lock is held if it is used. *)
Definition lockd (k : kernel) : kernel := if km_use_lock (k_kmem k) then acquired LkKmem k else k.

(** The states of a bracket entered from [k]: memory, free list and counter. *)
Definition busy (k : kernel) (mm : mem) (f n : Z) : kernel :=
  set_k_kmem (mk_kmem_t (km_use_lock (k_kmem k)) f n) (set_k_mem mm (lockd k)).
Definition left (k : kernel) (c : cpu_t) (mm : mem) (f n : Z) : kernel :=
  set_k_cpu c (set_k_kmem (mk_kmem_t (km_use_lock (k_kmem k)) f n) (set_k_mem mm k)).

Lemma kmem_acquire_eq k :
  kmem_idle k → (kmem_acquire : KM unit) k =
    Ret tt (busy k (k_mem k) (km_freelist (k_kmem k)) (km_numOfFreePages (k_kmem k))).
Proof.
  intros (Hok & Hlk & _). unfold kmem_acquire, busy, lockd. rewrite bind_gets.
  destruct (km_use_lock (k_kmem k)) eqn:Hu; cbn [when].
  - rewrite acquire_eq by done. f_equal. rewrite <- Hu. destruct k as [????????[]]; reflexivity.
  - unfold mret, M_ret. f_equal. rewrite <- Hu. by destruct k as [????????[]].
Qed.

(** Leaving the bracket after an update of memory and of the free list. *)
Lemma kmem_release_eq k mm f n :
  kmem_idle k →
  ∃ c, (kmem_release : KM unit) (busy k mm f n) = Ret tt (left k c mm f n) ∧
    cpu_ok (left k c mm f n) ∧ c_cr3 c = c_cr3 (k_cpu k) ∧ c_esp0 c = c_esp0 (k_cpu k).
Proof.
  intros (Hok & Hlk & _). unfold kmem_release, busy, left, lockd. rewrite bind_gets.
  cbn [km_use_lock k_kmem set_k_kmem].
  destruct (km_use_lock (k_kmem k)) eqn:Hu; cbn [when].
  - pose proof (cpu_ok_acquired _ _ Hok Hlk) as Hok'.
    rewrite release_eq; [|exact Hok'|cbn; set_solver].
    pose proof (filter_head _ _ Hlk) as Hf.
    apply (cpu_ok_released LkKmem) in Hok'; [|cbn; set_solver].
    exists (popped (pushed (k_cpu k))). split; [|split; [|done]].
    + f_equal. unfold released, upd_cpu.
      change (k_held (set_k_kmem _ _)) with (LkKmem :: k_held k). by rewrite Hf.
    + unfold cpu_ok, released in *. change (k_held (acquired _ _)) with (LkKmem :: k_held k) in Hok'.
      rewrite Hf in Hok'. exact Hok'.
  - exists (k_cpu k). by split.
Qed.
End brackets.

(** ** What the two routines do *)
Section specs.
Context {C : Type}.
Notation KM := (M kernel C).

Lemma left_frame k c mm f n :
  c_cr3 c = c_cr3 (k_cpu k) → c_esp0 c = c_esp0 (k_cpu k) → kmem_frame k (left k c mm f n).
Proof. done. Qed.

Lemma kalloc_eq k :
  kmem_idle k →
  let r := km_freelist (k_kmem k) in
  ∃ k', (kalloc : KM Z) k = Ret r k' ∧ kmem_frame k k' ∧ cpu_ok k' ∧ k_mem k' = k_mem k ∧
    km_freelist (k_kmem k') = (if r =? 0 then r else load32 (k_mem k) r) ∧
    km_numOfFreePages (k_kmem k') = s32 (km_numOfFreePages (k_kmem k) - 1).
Proof.
  intros Hk r. unfold kalloc. rewrite (bind_Ret_eq _ _ _ _ _ (kmem_acquire_eq k Hk)).
  destruct (kmem_release_eq (C := C) k (k_mem k) (if r =? 0 then r else load32 (k_mem k) r)
    (s32 (km_numOfFreePages (k_kmem k) - 1)) Hk) as (c & Hr & Hok & H1 & H2).
  eexists. split; [|split; [by apply left_frame|split; [exact Hok|done]]].
  rewrite bind_modify, bind_gets. change (km_freelist _) with r.
  destruct (r =? 0); cbn [negb when]; [rewrite bind_mret|rewrite bind_assoc, bind_gets, bind_modify];
    (eapply bind_Ret_intro; [exact Hr|reflexivity]).
Qed.

Lemma kfree_eq k v :
  kmem_idle k → page_ok k v →
  ∃ k', (kfree v : KM unit) k = Ret tt k' ∧ kmem_frame k k' ∧ cpu_ok k' ∧
    k_mem k' = store32 (memset (k_mem k) v 1 PGSIZE) v (km_freelist (k_kmem k)) ∧
    km_freelist (k_kmem k') = v ∧
    km_numOfFreePages (k_kmem k') = s32 (km_numOfFreePages (k_kmem k) + 1).
Proof.
  intros Hk (Hal & Hr & Hp). unfold kfree. rewrite bind_gets.
  replace (negb (v mod PGSIZE =? 0) || (v <? k_end k) || (PHYSTOP <=? V2P v)) with false by lia.
  rewrite !bind_modify.
  set (n := s32 (km_numOfFreePages (k_kmem k) + 1)).
  set (k0 := set_k_mem _ _).
  assert (Hk0 : kmem_idle k0) by (destruct Hk as (? & ? & ?); done).
  rewrite (bind_Ret_eq _ _ _ _ _ (kmem_acquire_eq k0 Hk0)).
  destruct (kmem_release_eq (C := C) k0 (store32 (k_mem k0) v (km_freelist (k_kmem k0))) v n Hk0)
    as (c & He & Hok & H1 & H2).
  eexists. split; [|split; [|split; [exact Hok|done]]].
  - rewrite bind_gets, !bind_modify. exact He.
  - done.
Qed.
End specs.

(** What an update leaves of the list. *)
Lemma free_ok_pop k k' p l :
  kmem_frame k k' → k_mem k' = k_mem k → km_freelist (k_kmem k') = load32 (k_mem k) p →
  km_freelist (k_kmem k) = p → free_ok k (p :: l) → free_ok k' l.
Proof.
  intros [Hf _] Hm Hl Hp [Hc Hnd Hpg]. inversion Hc; subst. apply list.NoDup_cons in Hnd as [_ Hnd].
  apply Forall_cons_iff in Hpg as [_ Hpg].
  split; [by rewrite Hm, Hl|done|]. apply (pages_ok_frame k); [by rewrite Hf|done].
Qed.

Lemma store_page_same m v f :
  0 < v → v mod PGSIZE = 0 → same_outside [v] m (store32 (memset m v 1 PGSIZE) v f).
Proof.
  intros Hv Hal a Ha. specialize (Ha v ltac:(set_solver)). unfold PGSIZE in *.
  unfold store32. repeat (case_match; [lia|]). rewrite memset_fill by lia.
  unfold fill. case_match; [lia|done].
Qed.

Lemma free_ok_push k k' v l :
  0 < k_end k → kmem_frame k k' → page_ok k v → v ∉ l →
  k_mem k' = store32 (memset (k_mem k) v 1 PGSIZE) v (km_freelist (k_kmem k)) →
  km_freelist (k_kmem k') = v → 0 <= km_freelist (k_kmem k) < 2 ^ 32 →
  free_ok k l → free_ok k' (v :: l).
Proof.
  intros Hend [Hf _] Hv Hnin Hm Hl Hrng [Hc Hnd Hpg]. pose proof (page_ok_pos k v Hend Hv) as [Hpos Hal].
  split.
  - rewrite Hl, Hm. constructor; [lia|]. rewrite load32_store32_eq, u32_small by done.
    eapply chain_frame; [|exact Hc]. intros q a Hq Ha. apply store_page_same; [lia|done|].
    intros p ->%list_elem_of_singleton Hin.
    pose proof (proj1 (list.Forall_forall _ _) Hpg q Hq) as Hqok.
    apply (page_ok_pos k q Hend) in Hqok as [_ Hqal].
    apply (pages_disjoint v q a a); [done..|by intros ->|done| |done]. unfold PGSIZE. lia.
  - by constructor.
  - constructor; [apply (page_ok_frame k)|apply (pages_ok_frame k)]; try done; by rewrite Hf.
Qed.

Lemma chain_head m p l : chain m p l → p = match l with [] => 0 | q :: _ => q end.
Proof. by destruct 1. Qed.

Lemma free_ok_head k l : free_ok k l → km_freelist (k_kmem k) = match l with [] => 0 | q :: _ => q end.
Proof. intros [Hc _ _]. exact (chain_head _ _ _ Hc). Qed.

(** [kalloc] and [kfree] on the list of free pages; the kernel state they
    leave can call the allocator again. *)
Section free_list.
Context {C : Type}.
Notation KM := (M kernel C).

Lemma kmem_idle_frame k k' : kmem_frame k k' → cpu_ok k' → kmem_idle k → kmem_idle k'.
Proof. intros [-> _] Hok (_ & ? & ?). done. Qed.

Lemma kalloc_pop k l :
  kmem_idle k → free_ok k l →
  ∃ k', kmem_frame k k' ∧ kmem_idle k' ∧ k_mem k' = k_mem k ∧
    km_numOfFreePages (k_kmem k') = s32 (km_numOfFreePages (k_kmem k) - 1) ∧
    match l with
    | [] => (kalloc : KM Z) k = Ret 0 k' ∧ free_ok k' []
    | p :: l' => (kalloc : KM Z) k = Ret p k' ∧ page_ok k p ∧ p ∉ l' ∧ free_ok k' l'
    end.
Proof.
  intros Hk Hf. destruct (kalloc_eq (C := C) k Hk) as (k' & He & Hfr & Hok & Hm & Hl & Hn).
  exists k'. split; [done|]. split; [by eapply kmem_idle_frame|]. split; [done|]. split; [done|].
  pose proof (free_ok_head k l Hf) as Hh. destruct l as [|p l].
  - rewrite Hh in *. split; [done|]. split; [|constructor|constructor].
    rewrite Hl. constructor.
  - rewrite Hh in *. pose proof Hf as [Hc Hnd Hpg]. apply list.NoDup_cons in Hnd as [Hnin _].
    apply Forall_cons_iff in Hpg as [Hp _]. split; [done|]. split; [done|]. split; [done|].
    eapply free_ok_pop; [done|done| |done|done].
    destruct (Z.eqb_spec p 0); [|done]. destruct Hk as (_ & _ & Hend). apply page_ok_pos in Hp; lia.
Qed.

Lemma kfree_push k l v :
  kmem_idle k → free_ok k l → page_ok k v → v ∉ l →
  ∃ k', (kfree v : KM unit) k = Ret tt k' ∧ kmem_frame k k' ∧ kmem_idle k' ∧ free_ok k' (v :: l) ∧
    same_outside [v] (k_mem k) (k_mem k') ∧
    km_numOfFreePages (k_kmem k') = s32 (km_numOfFreePages (k_kmem k) + 1).
Proof.
  intros Hk Hf Hv Hnin. destruct (kfree_eq (C := C) k v Hk Hv) as (k' & He & Hfr & Hok & Hm & Hl & Hn).
  destruct (Hk) as (_ & _ & Hend). pose proof (page_ok_pos k v Hend Hv) as [Hpos Hal].
  exists k'. split; [done|]. split; [done|]. split; [by eapply kmem_idle_frame|].
  split; [|split; [|done]].
  - eapply free_ok_push; try done. rewrite (free_ok_head k l Hf). destruct l as [|q l]; [lia|].
    destruct Hf as [_ _ Hpg]. apply Forall_cons_iff in Hpg as [Hq _]. apply page_ok_pos in Hq; lia.
  - rewrite Hm. apply store_page_same; [lia|done].
Qed.

Lemma kfree_panics k v : ¬ page_ok k v → 0 <= v < 2 ^ 32 → (kfree v : KM unit) k = Panic "kfree" k.
Proof.
  intros Hv Hr. unfold kfree. rewrite bind_gets.
  replace (negb (v mod PGSIZE =? 0) || (v <? k_end k) || (PHYSTOP <=? V2P v)) with true; [done|].
  unfold page_ok in Hv. destruct (Z.eqb_spec (v mod PGSIZE) 0), (Z.ltb_spec v (k_end k)),
    (Z.leb_spec PHYSTOP (V2P v)); try done. exfalso. apply Hv. lia.
Qed.
End free_list.

(** ** Ownership *)

(** Callers of the allocator: each step allocates a page, or frees one that
    was allocated; [owned] are the pages handed out and not yet given back. *)
Inductive kmem_step : kernel * list Z → kernel * list Z → Prop :=
  | step_kalloc k k' owned r :
      (kalloc : M kernel unit Z) k = Ret r k' →
      kmem_step (k, owned) (k', if r =? 0 then owned else r :: owned)
  | step_kfree k k' owned1 v owned2 :
      (kfree v : M kernel unit unit) k = Ret tt k' →
      kmem_step (k, owned1 ++ v :: owned2) (k', owned1 ++ owned2)
  (** the owner of a page may write anything into it *)
  | step_write k owned p mm :
      p ∈ owned → same_outside [p] (k_mem k) mm → kmem_step (k, owned) (set_k_mem mm k, owned).

Definition kmem_ok (s : kernel * list Z) : Prop :=
  kmem_idle s.1 ∧ ∃ l, free_ok s.1 l ∧ NoDup (s.2 ++ l) ∧ Forall (page_ok s.1) s.2.

Lemma free_ok_write k l p mm :
  0 < k_end k → page_ok k p → p ∉ l → same_outside [p] (k_mem k) mm → free_ok k l → free_ok (set_k_mem mm k) l.
Proof.
  intros Hend Hp Hnin Hs [Hc Hnd Hpg]. split; [|done|done]. cbn.
  eapply chain_frame; [|exact Hc]. intros q a Hq Ha. apply Hs. intros p' ->%list_elem_of_singleton Hin.
  pose proof (proj1 (list.Forall_forall _ _) Hpg q Hq) as Hqok.
  apply (page_ok_pos k q Hend) in Hqok as [_ Hqal]. apply (page_ok_pos k p Hend) in Hp as [_ Hal].
  apply (pages_disjoint p q a a); [done..|by intros ->|done| |done]. unfold PGSIZE. lia.
Qed.

Lemma kmem_ok_step s s' : kmem_ok s → kmem_step s s' → kmem_ok s'.
Proof.
  intros [Hk (l & Hf & Hnd & Hpg)] Hs.
  destruct Hs as [k k' owned r He|k k' o1 v o2 He|k owned p mm Hp Hw]; cbn [fst snd] in *.
  - destruct (kalloc_pop (C := unit) k l Hk Hf) as (k1 & Hfr & Hk1 & _ & _ & Hl).
    destruct l as [|p l].
    + destruct Hl as [E Hf1]. rewrite E in He. injection He as <- <-. split; [done|].
      exists []. split; [done|]. split; [done|]. cbn [snd fst]. destruct Hfr as [-> _]. by apply (pages_ok_frame k).
    + destruct Hl as (E & Hp & Hnin & Hf1). rewrite E in He. injection He as <- <-.
      destruct (Hk) as (_ & _ & Hend). pose proof (page_ok_pos k p Hend Hp) as [Hpos _].
      destruct (Z.eqb_spec p 0); [lia|]. split; [done|]. exists l. cbn [fst snd]. split; [done|]. split.
      * revert Hnd. rewrite <- (Permutation_middle owned l p). done.
      * destruct Hfr as [-> _]. constructor; [done|]. by apply (pages_ok_frame k).
  - assert (Hv : page_ok k v) by (apply Forall_app in Hpg as [_ Hpg]; by apply Forall_cons_iff in Hpg as [? _]).
    assert (Hperm : (o1 ++ v :: o2) ++ l ≡ₚ (o1 ++ o2) ++ v :: l).
    { rewrite <- Permutation_middle. cbn. by rewrite Permutation_middle. }
    assert (Hnin : v ∉ l). { rewrite Hperm in Hnd. apply list.NoDup_app in Hnd as (_ & _ & H). by apply list.NoDup_cons in H as [? _]. }
    destruct (kfree_push (C := unit) k l v Hk Hf Hv Hnin) as (k1 & E & Hfr & Hk1 & Hf1 & _).
    rewrite E in He. injection He as <-. split; [done|]. exists (v :: l). cbn [fst snd].
    split; [done|]. split; [by rewrite <- Hperm|].
    apply Forall_app in Hpg as [H1 H2]. apply Forall_cons_iff in H2 as [_ H2].
    destruct Hfr as [-> _]. apply Forall_app. split; by apply (pages_ok_frame k).
  - destruct (Hk) as (? & ? & Hend). split; [done|]. exists l. split; [|done].
    apply (free_ok_write _ _ p); try done.
    + by apply (proj1 (list.Forall_forall _ _) Hpg).
    + intros Hin. apply list.NoDup_app in Hnd as (_ & Hd & _). by apply (Hd p).
Qed.

(** C9: pages in use are never handed out again: along any sequence of
    [kalloc]s, writes by owners to their pages and [kfree]s of owned pages,
    the free list stays a well-formed list of distinct page frames disjoint
    from all owned pages, which are distinct, aligned and in range. *)
Theorem kalloc_ownership s s' : kmem_ok s → rtc kmem_step s s' → kmem_ok s'.
Proof. intros H Hs. induction Hs as [|s1 s2 s3 H12 _ IH]; [done|]. apply IH. by eapply kmem_ok_step. Qed.

(** [kfree] takes back exactly the aligned frames between [end] and
    [PHYSTOP] and panics on any other address; a freed page is the next one
    [kalloc] returns, and no memory outside it is touched. *)
Theorem kfree_kalloc k l v :
  kmem_idle k → free_ok k l → 0 <= v < 2 ^ 32 → v ∉ l →
  (page_ok k v → ∃ k' k'', (kfree v ;; kalloc : M kernel unit Z) k = Ret v k'' ∧
     (kfree v : M kernel unit unit) k = Ret tt k' ∧ free_ok k' (v :: l) ∧ free_ok k'' l ∧
     same_outside [v] (k_mem k) (k_mem k'')) ∧
  (¬ page_ok k v → (kfree v : M kernel unit unit) k = Panic "kfree" k).
Proof.
  intros Hk Hf Hr Hnin. split; [|intros; by apply kfree_panics].
  intros Hv. destruct (kfree_push (C := unit) k l v Hk Hf Hv Hnin) as (k1 & E & Hfr & Hk1 & Hf1 & Hs & _).
  destruct (kalloc_pop (C := unit) k1 (v :: l) Hk1 Hf1) as (k2 & _ & _ & Hm & _ & E2 & _ & _ & Hf2).
  exists k1, k2. split; [by rewrite (bind_Ret_eq _ _ _ _ _ E)|]. by rewrite Hm.
Qed.

(** the count of free pages is right while allocation succeeds, but
    [kalloc] decrements it even when there is no page: at an empty list with
    count 0 it returns 0 and leaves the count at -1. *)
Theorem kalloc_count k l :
  kmem_idle k → free_ok k l → km_numOfFreePages (k_kmem k) = Z.of_nat (length l) →
  Z.of_nat (length l) < 2 ^ 31 →
  ∃ r k', (kalloc : M kernel unit Z) k = Ret r k' ∧
    free_ok k' (tail l) ∧ km_numOfFreePages (k_kmem k') = Z.of_nat (length l) - 1 ∧
    (r = 0 ↔ l = []).
Proof.
  intros Hk Hf Hn Hl. destruct (kalloc_pop (C := unit) k l Hk Hf) as (k' & _ & _ & _ & Hn' & H).
  rewrite Hn, s32_small in Hn' by lia. destruct l as [|p l]; cbn [tail].
  - destruct H as [E Hf']. exists 0, k'. done.
  - destruct H as (E & Hp & _ & Hf'). exists p, k'. split_and!; try done.
    destruct Hk as (_ & _ & Hend). apply page_ok_pos in Hp; [|done]. split; [lia|done].
Qed.

(** ** Initialisation *)
Definition page_seq (p : Z) (n : nat) : list Z := (λ i, p + PGSIZE * Z.of_nat i) <$> seq 0 n.

Lemma page_seq_cons p n : page_seq p (S n) = p :: page_seq (p + PGSIZE) n.
Proof.
  unfold page_seq. cbn [seq fmap list_fmap]. f_equal; [lia|].
  rewrite <- (fmap_S_seq 0 n), <- list_fmap_compose. apply list_fmap_ext. intros i x _. cbn. lia.
Qed.

Lemma page_seq_NoDup p n : NoDup (page_seq p n).
Proof. apply NoDup_fmap_2_strong; [|apply NoDup_seq]. unfold PGSIZE. intros. lia. Qed.

Lemma freerange_loop_frees fuel n k l p vend :
  kmem_idle k → free_ok k l → (n <= fuel)%nat → 0 <= p → vend + PGSIZE < 2 ^ 32 →
  p + PGSIZE * Z.of_nat n <= vend < p + PGSIZE * (Z.of_nat n + 1) →
  Forall (λ v, page_ok k v ∧ v ∉ l) (page_seq p n) →
  ∃ k', (freerange_loop fuel p vend : M kernel unit unit) k = Ret tt k' ∧ kmem_idle k' ∧
    kmem_frame k k' ∧ free_ok k' (reverse (page_seq p n) ++ l).
Proof.
  revert fuel k l p. induction n as [|n IH]; intros fuel k l p Hk Hf Hfuel Hp Hv Hr Hpg.
  - exists k. assert (E : u32 (p + PGSIZE) = p + PGSIZE) by (apply u32_small; unfold PGSIZE in *; lia).
    destruct fuel; cbn [freerange_loop]; rewrite E;
      (destruct (Z.leb_spec (p + PGSIZE) vend); [lia|]); (split; [done|]); (split; [done|]); (split; [|done]);
      by destruct k.
  - destruct fuel as [|fuel]; [lia|]. cbn [freerange_loop].
    assert (E : u32 (p + PGSIZE) = p + PGSIZE) by (apply u32_small; unfold PGSIZE in *; lia).
    rewrite E. destruct (Z.leb_spec (p + PGSIZE) vend); [|unfold PGSIZE in *; lia].
    pose proof (page_seq_NoDup p (S n)) as Hnd. rewrite page_seq_cons in *.
    apply Forall_cons_iff in Hpg as [[Hok Hnin] Hpg]. apply list.NoDup_cons in Hnd as [Hp' Hnd].
    destruct (kfree_push (C := unit) k l p Hk Hf Hok Hnin) as (k1 & E1 & Hfr & Hk1 & Hf1 & _).
    destruct (IH fuel k1 (p :: l) (p + PGSIZE)) as (k2 & E2 & Hk2 & Hfr2 & Hf2);
      try done; try (unfold PGSIZE in *; lia).
    + apply list.Forall_forall. intros v Hin. pose proof (proj1 (list.Forall_forall _ _) Hpg v Hin) as [Hvok Hvnin].
      split; [|set_solver]. destruct Hfr as [-> _]. by apply (page_ok_frame k).
    + exists k2. rewrite (bind_Ret_eq _ _ _ _ _ E1). split; [done|]. split; [done|]. split.
      * by etrans.
      * rewrite reverse_cons, <- app_assoc. done.
Qed.

(** [freerange] terminates and puts exactly the whole pages between its
    bounds on the free list, each once. *)
Theorem freerange_frees fuel n k l vstart vend :
  kmem_idle k → free_ok k l → (n <= fuel)%nat → 0 <= vstart → vend + PGSIZE < 2 ^ 32 →
  PGROUNDUP vstart + PGSIZE * Z.of_nat n <= vend < PGROUNDUP vstart + PGSIZE * (Z.of_nat n + 1) →
  Forall (λ v, page_ok k v ∧ v ∉ l) (page_seq (PGROUNDUP vstart) n) →
  ∃ k', (freerange fuel vstart vend : M kernel unit unit) k = Ret tt k' ∧
    free_ok k' (reverse (page_seq (PGROUNDUP vstart) n) ++ l).
Proof.
  intros Hk Hf Hn Hs Hv Hr Hpg.
  destruct (freerange_loop_frees fuel n k l (PGROUNDUP vstart) vend) as (k' & E & _ & _ & Hf'); try done.
  { unfold PGROUNDUP. apply Z.land_nonneg. left. apply u32_range. }
  by exists k'.
Qed.

(** ** Witnesses *)

(** One free page, and none allocated. *)
Definition page1 : Z := 0x80200000.
Definition demo_kmem : kernel :=
  set_k_kmem (mk_kmem_t true page1 1) (set_k_mem (λ _, 0) kernel0).

Lemma demo_kmem_idle : kmem_idle demo_kmem.
Proof. split; [by repeat constructor|]. split; [set_solver|done]. Qed.

Lemma page1_ok : page_ok demo_kmem page1.
Proof. split; [done|]. split; [by vm_compute|by vm_compute]. Qed.

Lemma demo_free_ok : free_ok demo_kmem [page1].
Proof.
  split; [apply chain_cons; [done|apply chain_nil]| |].
  - constructor; [set_solver|constructor].
  - constructor; [exact page1_ok|constructor].
Qed.

Lemma demo_kmem_ok : kmem_ok (demo_kmem, []).
Proof.
  split; [exact demo_kmem_idle|]. exists [page1]. split; [exact demo_free_ok|]. split; [|constructor].
  apply demo_free_ok.
Qed.

Lemma store32_inside m p i v : 0 <= i <= PGSIZE - 4 → same_outside [p] m (store32 m (p + i) v).
Proof.
  intros Hi a Ha. specialize (Ha p ltac:(set_solver)). unfold store32.
  repeat (case_match; [exfalso; apply Ha; lia|]). done.
Qed.

(** The page is allocated, written by its owner, freed and allocated again. *)
Lemma demo_kmem_run : ∃ k1 k2 k3,
  kmem_step (demo_kmem, []) (k1, [page1]) ∧
  kmem_step (k1, [page1]) (set_k_mem (store32 (k_mem k1) (page1 + 8) 42) k1, [page1]) ∧
  kmem_step (set_k_mem (store32 (k_mem k1) (page1 + 8) 42) k1, [page1]) (k2, []) ∧
  kmem_step (k2, []) (k3, [page1]).
Proof.
  destruct (kalloc_pop (C := unit) demo_kmem [page1] demo_kmem_idle demo_free_ok) as (k1 & Hf1 & Hk1 & _ & _ & E1 & _ & _ & Hl1).
  pose proof (step_kalloc _ _ [] _ E1) as S1. change (page1 =? 0) with false in S1. cbv iota in S1.
  assert (Hp1 : page_ok k1 page1) by (apply (page_ok_frame demo_kmem); [by apply kmem_frame_end|exact page1_ok]).
  assert (Hw : same_outside [page1] (k_mem k1) (store32 (k_mem k1) (page1 + 8) 42)) by (by apply store32_inside).
  set (k1' := set_k_mem (store32 (k_mem k1) (page1 + 8) 42) k1).
  assert (Hf1' : free_ok k1' []).
  { apply (free_ok_write k1 [] page1); [apply Hk1|exact Hp1|by intros ?%not_elem_of_nil|exact Hw|exact Hl1]. }
  destruct (kfree_push (C := unit) k1' [] page1 Hk1 Hf1' Hp1) as (k2 & E2 & Hf2 & Hk2 & Hl2 & _); [by intros ?%not_elem_of_nil|].
  destruct (kalloc_pop (C := unit) k2 [page1] Hk2 Hl2) as (k3 & _ & _ & _ & _ & E3 & _).
  exists k1, k2, k3. split; [exact S1|]. split; [apply (step_write _ _ page1); [by left|exact Hw]|].
  split; [exact (step_kfree k1' k2 [] page1 [] E2)|].
  pose proof (step_kalloc _ _ [] _ E3) as S3. exact S3.
Qed.

Lemma kalloc_ownership_witness : ∃ k1 k2 k3,
  kmem_step (demo_kmem, []) (k1, [page1]) ∧
  kmem_step (k1, [page1]) (set_k_mem (store32 (k_mem k1) (page1 + 8) 42) k1, [page1]) ∧
  kmem_step (set_k_mem (store32 (k_mem k1) (page1 + 8) 42) k1, [page1]) (k2, []) ∧
  kmem_step (k2, []) (k3, [page1]) ∧
  kmem_ok (k1, [page1]) ∧ kmem_ok (k2, []) ∧ kmem_ok (k3, [page1]).
Proof.
  destruct demo_kmem_run as (k1 & k2 & k3 & S1 & S2 & S3 & S4). exists k1, k2, k3.
  split; [exact S1|]. split; [exact S2|]. split; [exact S3|]. split; [exact S4|].
  split; [|split]; apply (kalloc_ownership (demo_kmem, []) _ demo_kmem_ok).
  - exact (rtc_once _ _ S1).
  - exact (rtc_l _ _ _ _ S1 (rtc_l _ _ _ _ S2 (rtc_once _ _ S3))).
  - exact (rtc_l _ _ _ _ S1 (rtc_l _ _ _ _ S2 (rtc_l _ _ _ _ S3 (rtc_once _ _ S4)))).
Defined.

Lemma kfree_kalloc_witness :
  let v := page1 + PGSIZE in
  (page_ok demo_kmem v → ∃ k' k'', (kfree v ;; kalloc : M kernel unit Z) demo_kmem = Ret v k'' ∧
     (kfree v : M kernel unit unit) demo_kmem = Ret tt k' ∧ free_ok k' (v :: [page1]) ∧ free_ok k'' [page1] ∧
     same_outside [v] (k_mem demo_kmem) (k_mem k'')) ∧
  (¬ page_ok demo_kmem v → (kfree v : M kernel unit unit) demo_kmem = Panic "kfree" demo_kmem).
Proof.
  apply kfree_kalloc.
  - exact demo_kmem_idle.
  - exact demo_free_ok.
  - done.
  - intros H%list_elem_of_singleton. done.
Defined.

Lemma kalloc_count_witness :
  ∃ r k', (kalloc : M kernel unit Z) demo_kmem = Ret r k' ∧
    free_ok k' (tail [page1]) ∧ km_numOfFreePages (k_kmem k') = Z.of_nat (length [page1]) - 1 ∧
    (r = 0 ↔ [page1] = []).
Proof. apply kalloc_count; [exact demo_kmem_idle|exact demo_free_ok|done|done]. Defined.

Lemma freerange_frees_witness :
  let vstart := page1 + 1 in let vend := page1 + 3 * PGSIZE + 7 in
  ∃ k', (freerange 5 vstart vend : M kernel unit unit) demo_kmem = Ret tt k' ∧
    free_ok k' (reverse (page_seq (PGROUNDUP vstart) 2) ++ [page1]).
Proof.
  apply freerange_frees.
  - exact demo_kmem_idle.
  - exact demo_free_ok.
  - lia.
  - done.
  - done.
  - by vm_compute.
  - repeat constructor; try (by vm_compute); intros H%list_elem_of_singleton; done.
Defined.
