(* ===== verification/Fifo.v ===== *)
(** * Fifo: the circular queue of resident pages of a process (vm.c)

    Each process keeps the pages it has in memory in [ram_manager], used as a
    circular queue by [fifoIndexStart], [fifoIndexNext] and [page_mem_count].
    The routines are modelled on the [proc] structure; the theorems say that
    on the list of resident pages, oldest first, they append, delete and
    rotate. *)

From S2P Require Import Prelude Kernel.

(** ** Definitions *)
Section fifo.
Context {C : Type}.
Notation PM := (M proc C).

Definition CAP : Z := Z.of_nat MAX_PSYC_PAGES.

(** [p->ram_manager[i]], and assignment to it *)
Definition ram_at (i : Z) : PM page_t :=
  o <- gets (λ p, if i <? 0 then None else p_ram_manager p !! Z.to_nat i) ;;
  deref "ram_manager" o.
Definition ram_set (i : Z) (f : page_t → page_t) : PM unit :=
  ram_at i ;;
  modify (λ p, set_p_ram_manager (alter f (Z.to_nat i) (p_ram_manager p)) p).

Definition isFIFOfull : PM bool := gets (λ p, p_page_mem_count p =? CAP).
Definition isFIFOEmpty : PM bool := gets (λ p, p_page_mem_count p =? 0).

Definition nextFIFOFreePageIndex : PM Z :=
  full <- isFIFOfull ;;
  if negb full then gets (λ p, s32 (p_fifoIndexNext p)) else mret (-1).
Definition nextFreePageIndexInRAM : PM Z := nextFIFOFreePageIndex.

Definition updateFIFONextFreePageIndex : PM unit :=
  modify (λ p, set_p_fifoIndexNext (u32 (p_fifoIndexStart p + p_page_mem_count p) mod CAP) p).

Definition nextFIFOSwapPageIndex : PM Z := gets (λ p, s32 (p_fifoIndexStart p)).
Definition nextSwapPageIndexInRAM : PM Z := nextFIFOSwapPageIndex.

Definition shiftFIFOIndex : PM unit :=
  modify (λ p, set_p_fifoIndexStart (u32 (p_fifoIndexStart p + 1) mod CAP) p) ;;
  modify (λ p, set_p_fifoIndexNext (u32 (p_fifoIndexNext p + 1) mod CAP) p).

Definition is_used (g : page_t) : bool := bool_decide (pg_state g = USED).

(** The loop of [organizeFIFORAMqueue]. *)
Fixpoint organize_loop (fuel : nat) (i nextIdx : Z) : PM unit :=
  next <- gets p_fifoIndexNext ;;
  if nextIdx =? next then mret tt else
  match fuel with
  | O => fault "organizeFIFORAMqueue: out of fuel"
  | S fuel =>
      gi <- ram_at i ;;
      gn <- ram_at nextIdx ;;
      i' <- (if negb (is_used gi) && is_used gn then
               ram_set i (λ _, gn) ;;
               ram_set nextIdx (set_pg_state NOT_USED) ;;
               mret nextIdx
             else if is_used gi then mret nextIdx else mret i) ;;
      organize_loop fuel i' ((nextIdx + 1) mod CAP)
  end.
Definition organizeFIFORAMqueue (from : Z) : PM unit :=
  if from <? 0 then panic "called to organize queue with invalid args" else
  organize_loop MAX_PSYC_PAGES from ((from + 1) mod CAP).

Definition insertPageToRAM (pgdir vAddr : Z) : PM unit :=
  index <- nextFreePageIndexInRAM ;;
  ram_set index (set_pg_state USED) ;;
  ram_set index (set_pg_pgdir pgdir) ;;
  ram_set index (set_pg_vAddr vAddr) ;;
  modify (λ p, set_p_page_mem_count (u32 (p_page_mem_count p + 1)) p) ;;
  updateFIFONextFreePageIndex.

Definition deletePageFromRAM (index : Z) (reform : bool) : PM unit :=
  ram_set index (set_pg_state NOT_USED) ;;
  modify (λ p, set_p_page_mem_count (u32 (p_page_mem_count p - 1)) p) ;;
  when reform
    (organizeFIFORAMqueue index ;;
     updateFIFONextFreePageIndex).

(** The page [removePageFromRAM] looks for. *)
Definition is_page (vAddr pgdir : Z) (g : page_t) : bool :=
  is_used g && (pg_vAddr g =? vAddr) && (pg_pgdir g =? pgdir).
Definition removePageFromRAM (vAddr pgdir : Z) : PM unit :=
  o <- gets (λ p, find_idx (is_page vAddr pgdir) (p_ram_manager p)) ;;
  match o with
  | Some i => deletePageFromRAM (Z.of_nat i) true
  | None => mret tt
  end.

Definition swapRamIndex (i j : Z) : PM unit :=
  temp <- ram_at i ;;
  gj <- ram_at j ;;
  ram_set i (λ _, gj) ;;
  ram_set j (λ _, temp).
End fifo.

(** ** The queue *)
Definition cap : nat := MAX_PSYC_PAGES.

(** The array index of the [j]th oldest page. *)
Definition slot_of (start : Z) (j : nat) : nat := Z.to_nat ((start + Z.of_nat j) mod CAP).
Definition queue_of (ram : list page_t) (start : Z) (n : nat) : list page_t :=
  (λ j, default page0 (ram !! slot_of start j)) <$> seq 0 n.

(** The resident pages of a process, oldest first. *)
Definition queue (p : proc) : list page_t :=
  queue_of (p_ram_manager p) (p_fifoIndexStart p) (Z.to_nat (p_page_mem_count p)).

Record fifo_ok (p : proc) : Prop := mk_fifo_ok {
  ff_length : length (p_ram_manager p) = cap;
  ff_start : 0 <= p_fifoIndexStart p < CAP;
  ff_count : 0 <= p_page_mem_count p <= CAP;
  ff_next : p_fifoIndexNext p = (p_fifoIndexStart p + p_page_mem_count p) mod CAP;
  ff_used : ∀ j g, (j < cap)%nat → p_ram_manager p !! slot_of (p_fifoIndexStart p) j = Some g →
    is_used g = bool_decide (j < Z.to_nat (p_page_mem_count p))%nat;
}.

(** Everything but the queue is left alone. *)
Definition fifo_frame (p p' : proc) : Prop :=
  p' = set_p_fifoIndexNext (p_fifoIndexNext p') (set_p_fifoIndexStart (p_fifoIndexStart p')
    (set_p_page_mem_count (p_page_mem_count p') (set_p_ram_manager (p_ram_manager p') p))).

(** ** Facts about slots *)
Lemma slot_of_lt start j : (slot_of start j < cap)%nat.
Proof. unfold slot_of, cap, CAP, MAX_PSYC_PAGES. pose proof (Z.mod_pos_bound (start + Z.of_nat j) 15). lia. Qed.

Lemma slot_of_inj start i j :
  slot_of start i = slot_of start j → (i < j + 15)%nat → (j < i + 15)%nat → i = j.
Proof.
  unfold slot_of, CAP, MAX_PSYC_PAGES. change (Z.of_nat 15) with 15.
  pose proof (Z.mod_pos_bound (start + Z.of_nat j) 15). pose proof (Z.mod_pos_bound (start + Z.of_nat i) 15).
  intros Heq Hi Hj. assert ((start + Z.of_nat i) mod 15 = (start + Z.of_nat j) mod 15) as E by lia.
  clear Heq. divlia.
Qed.

Lemma slot_of_Z start j : Z.of_nat (slot_of start j) = (start + Z.of_nat j) mod CAP.
Proof. unfold slot_of. pose proof (Z.mod_pos_bound (start + Z.of_nat j) CAP). unfold CAP, MAX_PSYC_PAGES in *. lia. Qed.

Lemma slot_of_succ start j : slot_of start (S j) = Z.to_nat ((Z.of_nat (slot_of start j) + 1) mod CAP).
Proof.
  rewrite slot_of_Z. unfold slot_of, CAP, MAX_PSYC_PAGES. f_equal.
  rewrite Zplus_mod_idemp_l. f_equal. lia.
Qed.

Lemma slot_of_surj start i : 0 <= start < CAP → (i < cap)%nat → ∃ j, (j < cap)%nat ∧ slot_of start j = i.
Proof.
  unfold cap, slot_of, CAP, MAX_PSYC_PAGES. intros Hs Hi.
  exists (Z.to_nat ((Z.of_nat i - start) mod 15)).
  pose proof (Z.mod_pos_bound (Z.of_nat i - start) 15). split; [lia|].
  rewrite Z2Nat.id by lia. change (Z.of_nat 15) with 15.
  rewrite Zplus_mod_idemp_r. replace (start + (Z.of_nat i - start)) with (Z.of_nat i) by lia.
  rewrite Z.mod_small by lia. lia.
Qed.

Lemma slot_of_shift start j : slot_of ((start + 1) mod CAP) j = slot_of start (S j).
Proof. unfold slot_of. f_equal. rewrite Zplus_mod_idemp_l. f_equal. lia. Qed.

(** ** The routines in closed form *)
Section closed.
Context {C : Type}.
Notation PM := (M proc C).

Lemma ram_at_eq (i : nat) g p :
  p_ram_manager p !! i = Some g → (ram_at (Z.of_nat i) : PM page_t) p = Ret g p.
Proof.
  intros H. unfold ram_at. rewrite bind_gets. destruct (Z.ltb_spec (Z.of_nat i) 0); [lia|].
  by rewrite Nat2Z.id, H.
Qed.

Lemma ram_set_eq (i : nat) f g p :
  p_ram_manager p !! i = Some g →
  (ram_set (Z.of_nat i) f : PM unit) p = Ret tt (set_p_ram_manager (<[i := f g]> (p_ram_manager p)) p).
Proof.
  intros H. unfold ram_set. rewrite (bind_Ret_eq _ _ _ _ _ (ram_at_eq i g p H)).
  unfold modify. by rewrite Nat2Z.id, (alter_const _ g).
Qed.

Lemma next_eq n start : (start + Z.of_nat n) mod CAP = Z.of_nat (slot_of start n).
Proof. by rewrite slot_of_Z. Qed.

Lemma succ_eq n start : (Z.of_nat (slot_of start n) + 1) mod CAP = Z.of_nat (slot_of start (S n)).
Proof.
  rewrite slot_of_succ. pose proof (Z.mod_pos_bound (Z.of_nat (slot_of start n) + 1) CAP).
  unfold CAP, MAX_PSYC_PAGES in *. lia.
Qed.

Lemma set_ram_again r r' p : set_p_ram_manager r (set_p_ram_manager r' p) = set_p_ram_manager r p.
Proof. done. Qed.

(** The loop moves every later page of the queue one place forward. *)
Lemma organize_loop_eq start c : 0 <= start < CAP → (c <= cap)%nat →
  ∀ m fuel a p,
  (m <= fuel)%nat → (a + S m = c)%nat → length (p_ram_manager p) = cap →
  p_fifoIndexNext p = Z.of_nat (slot_of start c) →
  (∀ g, p_ram_manager p !! slot_of start a = Some g → pg_state g = NOT_USED) →
  (∀ j g, (a < j < c)%nat → p_ram_manager p !! slot_of start j = Some g → is_used g = true) →
  ∃ ram', (organize_loop fuel (Z.of_nat (slot_of start a)) (Z.of_nat (slot_of start (S a))) : PM unit) p =
      Ret tt (set_p_ram_manager ram' p) ∧ length ram' = cap ∧
    ∀ j, (j < cap)%nat → ram' !! slot_of start j =
      if (bool_decide (a <= j < c - 1))%nat then p_ram_manager p !! slot_of start (S j)
      else if bool_decide (j = c - 1)%nat then set_pg_state NOT_USED <$> p_ram_manager p !! slot_of start j
      else p_ram_manager p !! slot_of start j.
Proof.
  intros Hs Hc. induction m as [|m IH]; intros fuel a p Hfuel Ha Hlen Hnext Hfree Hused.
  - exists (p_ram_manager p). split; [|split; [done|]].
    + replace (S a) with c by lia. destruct fuel; cbn [organize_loop]; rewrite bind_gets, Hnext, Z.eqb_refl;
        unfold mret, M_ret; f_equal; by destruct p.
    + intros j Hj. rewrite bool_decide_eq_false_2 by lia. case_bool_decide; [|done].
      subst j. replace (c - 1)%nat with a by lia. destruct (p_ram_manager p !! slot_of start a) as [g|] eqn:Hg; [|done].
      cbn. specialize (Hfree g eq_refl). by destruct g; simpl in *; subst.
  - destruct fuel as [|fuel]; [lia|]. cbn [organize_loop]. rewrite bind_gets, Hnext.
    destruct (Z.eqb_spec (Z.of_nat (slot_of start (S a))) (Z.of_nat (slot_of start c))) as [E|_].
    { apply Nat2Z.inj, slot_of_inj in E; unfold cap, MAX_PSYC_PAGES in *; lia. }
    destruct (lookup_lt_is_Some_2 (p_ram_manager p) (slot_of start a)) as [ga Hga]; [rewrite Hlen; apply slot_of_lt|].
    destruct (lookup_lt_is_Some_2 (p_ram_manager p) (slot_of start (S a))) as [gn Hgn]; [rewrite Hlen; apply slot_of_lt|].
    assert (Hne : slot_of start a ≠ slot_of start (S a)) by (intros E; apply slot_of_inj in E; lia).
    rewrite (bind_Ret_eq _ _ _ _ _ (ram_at_eq _ ga p Hga)), (bind_Ret_eq _ _ _ _ _ (ram_at_eq _ gn p Hgn)).
    assert (is_used ga = false) as -> by (unfold is_used; by rewrite (Hfree ga Hga)).
    rewrite (Hused (S a) gn) by (done || lia). cbn [negb andb].
    rewrite bind_assoc, (bind_Ret_eq _ _ _ _ _ (ram_set_eq _ _ ga p Hga)).
    assert (Hgn1 : p_ram_manager (set_p_ram_manager (<[slot_of start a := gn]> (p_ram_manager p)) p)
      !! slot_of start (S a) = Some gn) by (cbn; by rewrite list_lookup_insert_ne).
    rewrite bind_assoc, (bind_Ret_eq _ _ _ _ _ (ram_set_eq _ _ gn _ Hgn1)).
    rewrite bind_mret, succ_eq, set_ram_again. cbn [p_ram_manager set_p_ram_manager].
    set (ram1 := <[slot_of start (S a) := _]> _).
    assert (Hl1 : length ram1 = cap) by (unfold ram1; by rewrite !length_insert).
    destruct (IH fuel (S a) (set_p_ram_manager ram1 p)) as (ram' & He & Hl & Hj); try done; try lia.
    + cbn. intros g Hg. unfold ram1 in Hg. rewrite list_lookup_insert_eq in Hg by (rewrite length_insert, Hlen; apply slot_of_lt).
      by injection Hg as <-.
    + cbn. intros j g Hj Hg. unfold ram1 in Hg.
      rewrite !list_lookup_insert_ne in Hg by (intros E; apply slot_of_inj in E; unfold cap, MAX_PSYC_PAGES in *; lia).
      apply (Hused j g); [lia|done].
    + exists ram'. rewrite set_ram_again in He. split; [done|]. split; [done|].
      intros j Hjc. rewrite Hj by done. cbn [p_ram_manager set_p_ram_manager]. unfold ram1. clear Hj He IH.
      assert (Hin : ∀ i g, (i < cap)%nat → (i ≠ a → i ≠ S a → <[slot_of start (S a) := set_pg_state NOT_USED gn]>
        (<[slot_of start a := g]> (p_ram_manager p)) !! slot_of start i = p_ram_manager p !! slot_of start i)%nat).
      { intros i g Hi N1 N2. rewrite !list_lookup_insert_ne; [done|..]; intros E; apply slot_of_inj in E;
          unfold cap, MAX_PSYC_PAGES in *; lia. }
      destruct (decide (j = a)) as [->|].
      { rewrite (bool_decide_eq_false_2 (S a <= a < c - 1)%nat), (bool_decide_eq_false_2 (a = c - 1)%nat),
          (bool_decide_eq_true_2 (a <= a < c - 1)%nat) by lia.
        rewrite list_lookup_insert_ne by done. by rewrite list_lookup_insert_eq by (rewrite Hlen; apply slot_of_lt). }
      destruct (decide (S a <= j < c - 1)%nat).
      { rewrite !bool_decide_eq_true_2 by lia. apply Hin; lia. }
      rewrite (bool_decide_eq_false_2 (S a <= j < c - 1)%nat), (bool_decide_eq_false_2 (a <= j < c - 1)%nat) by lia.
      case_bool_decide as E; [|destruct (decide (j = S a)); [lia|by rewrite Hin by lia]].
      destruct (decide (j = S a)) as [E1|]; [|by rewrite Hin by lia].
      rewrite E1, list_lookup_insert_eq by (rewrite length_insert, Hlen; apply slot_of_lt). by rewrite Hgn.
Qed.
End closed.

(** ** The operations on the queue *)
Lemma queue_of_lookup ram start n j : (j < n)%nat →
  queue_of ram start n !! j = Some (default page0 (ram !! slot_of start j)).
Proof. intros Hj. unfold queue_of. by rewrite list_lookup_fmap, lookup_seq_lt. Qed.

Lemma queue_of_length ram start n : length (queue_of ram start n) = n.
Proof. unfold queue_of. by rewrite length_fmap, length_seq. Qed.

Lemma queue_of_ext ram ram' start start' n :
  (∀ j, (j < n)%nat → ram !! slot_of start j = ram' !! slot_of start' j) →
  queue_of ram start n = queue_of ram' start' n.
Proof.
  intros H. unfold queue_of. apply list_fmap_ext. intros i j [-> Hj]%lookup_seq. by rewrite H.
Qed.

Lemma queue_of_S ram start n :
  queue_of ram start (S n) = queue_of ram start n ++ [default page0 (ram !! slot_of start n)].
Proof. unfold queue_of. by rewrite seq_S, fmap_app. Qed.

Lemma queue_of_cons ram start n :
  queue_of ram start (S n) = default page0 (ram !! slot_of start 0) :: queue_of ram ((start + 1) mod CAP) n.
Proof.
  unfold queue_of. cbn [seq fmap list_fmap]. f_equal. rewrite <- (fmap_S_seq 0 n), <- list_fmap_compose.
  apply list_fmap_ext. intros i j _. cbn. by rewrite slot_of_shift.
Qed.

(** The state of a process with a given queue layout. *)
Definition with_fifo (ram : list page_t) (start : Z) (n : nat) (p : proc) : proc :=
  set_p_fifoIndexNext (Z.of_nat (slot_of start n)) (set_p_fifoIndexStart start
    (set_p_page_mem_count (Z.of_nat n) (set_p_ram_manager ram p))).

Lemma with_fifo_self p : fifo_ok p →
  p = with_fifo (p_ram_manager p) (p_fifoIndexStart p) (Z.to_nat (p_page_mem_count p)) p.
Proof.
  intros [Hl Hs Hc Hn Hu]. unfold with_fifo. rewrite <- next_eq, !Z2Nat.id by lia. rewrite <- Hn. by destruct p.
Qed.

Lemma with_fifo_frame ram start n p : fifo_frame p (with_fifo ram start n p).
Proof. done. Qed.

Lemma with_fifo_queue ram start n p : queue (with_fifo ram start n p) = queue_of ram start n.
Proof. unfold queue. cbn. by rewrite Nat2Z.id. Qed.

Lemma with_fifo_ok ram start n p :
  length ram = cap → 0 <= start < CAP → (n <= cap)%nat →
  (∀ j g, (j < cap)%nat → ram !! slot_of start j = Some g → is_used g = bool_decide (j < n)%nat) →
  fifo_ok (with_fifo ram start n p).
Proof.
  intros Hl Hs Hn Hu. split; cbn; try done.
  - unfold CAP, cap in *. lia.
  - by rewrite next_eq.
  - by rewrite Nat2Z.id.
Qed.

Lemma fifo_ok_inv ram start n p :
  fifo_ok (with_fifo ram start n p) →
  length ram = cap ∧ 0 <= start < CAP ∧ (n <= cap)%nat ∧
  ∀ j g, (j < cap)%nat → ram !! slot_of start j = Some g → is_used g = bool_decide (j < n)%nat.
Proof.
  intros [Hl Hs Hc _ Hu]. cbn in *. rewrite Nat2Z.id in Hu. unfold CAP, cap in *. split_and!; try done; lia.
Qed.

(** What the abstract queue does. *)
Inductive fifo_op : Type :=
  | OpInsert (pgdir vAddr : Z)      (* insertPageToRAM, with room *)
  | OpRemove (vAddr pgdir : Z)      (* removePageFromRAM *)
  | OpReplace (pgdir vAddr : Z).    (* the queue part of swap_out *)

Definition fifo_run {C} (op : fifo_op) : M proc C unit :=
  match op with
  | OpInsert pgdir vAddr => insertPageToRAM pgdir vAddr
  | OpRemove vAddr pgdir => removePageFromRAM vAddr pgdir
  | OpReplace pgdir vAddr =>
      page_index <- nextSwapPageIndexInRAM ;;
      deletePageFromRAM page_index false ;;
      insertPageToRAM pgdir vAddr ;;
      shiftFIFOIndex
  end.

Definition fifo_allowed (op : fifo_op) (p : proc) : Prop :=
  match op with
  | OpInsert _ _ => p_page_mem_count p ≠ CAP
  | OpRemove _ _ => True
  | OpReplace _ _ => p_page_mem_count p = CAP
  end.

Definition fifo_result (op : fifo_op) (q q' : list page_t) : Prop :=
  match op with
  | OpInsert pgdir vAddr => q' = q ++ [mk_page_t USED pgdir vAddr]
  | OpRemove vAddr pgdir =>
      (∃ j g, q !! j = Some g ∧ is_page vAddr pgdir g = true ∧ q' = delete j q) ∨
      (q' = q ∧ ∀ g, g ∈ q → is_page vAddr pgdir g = false)
  | OpReplace pgdir vAddr => q' = tail q ++ [mk_page_t USED pgdir vAddr]
  end.

Section ops.
Context {C : Type}.
Notation PM := (M proc C).

Lemma ram_lookup_slot (ram : list page_t) start j : length ram = cap → ∃ g, ram !! slot_of start j = Some g.
Proof. intros Hl. apply lookup_lt_is_Some. rewrite Hl. apply slot_of_lt. Qed.

(** An insertion at the index [fifoIndexNext] names. *)
Lemma insert_at_eq q (n i : nat) start pgdir va :
  length (p_ram_manager q) = cap → p_page_mem_count q = Z.of_nat n → (n < cap)%nat →
  p_fifoIndexNext q = Z.of_nat i → (i < cap)%nat → p_fifoIndexStart q = start → 0 <= start < CAP →
  (insertPageToRAM pgdir va : PM unit) q =
    Ret tt (set_p_fifoIndexNext (Z.of_nat (slot_of start (S n))) (set_p_page_mem_count (Z.of_nat (S n))
      (set_p_ram_manager (<[i := mk_page_t USED pgdir va]> (p_ram_manager q)) q))).
Proof.
  intros Hl Hc Hn Hi Hic Hst Hs.
  unfold insertPageToRAM, nextFreePageIndexInRAM, nextFIFOFreePageIndex, isFIFOfull.
  rewrite bind_assoc, bind_gets, Hc.
  destruct (Z.eqb_spec (Z.of_nat n) CAP) as [E|_]; [unfold CAP, cap in *; lia|]. cbn [negb].
  rewrite bind_gets, Hi. rewrite s32_small by (unfold cap, MAX_PSYC_PAGES in *; lia).
  destruct (lookup_lt_is_Some_2 (p_ram_manager q) i) as [g Hg]; [lia|].
  rewrite (bind_Ret_eq _ _ _ _ _ (ram_set_eq _ _ g q Hg)).
  erewrite bind_Ret_eq; [|eapply ram_set_eq; cbn; rewrite list_lookup_insert_eq; [done|lia]].
  erewrite bind_Ret_eq; [|eapply ram_set_eq; cbn; rewrite list_lookup_insert_eq; [done|rewrite length_insert; lia]].
  unfold updateFIFONextFreePageIndex. rewrite bind_modify. unfold modify. f_equal.
  rewrite !set_ram_again. cbn [p_ram_manager set_p_ram_manager]. rewrite !list_insert_insert_eq.
  change (set_pg_vAddr va _) with (mk_page_t USED pgdir va).
  set (q1 := set_p_ram_manager _ q).
  change (p_page_mem_count q1) with (p_page_mem_count q). rewrite Hc.
  replace (u32 (Z.of_nat n + 1)) with (Z.of_nat (S n))
    by (rewrite u32_small; unfold CAP, cap, MAX_PSYC_PAGES in *; lia).
  change (p_fifoIndexStart (set_p_page_mem_count (Z.of_nat (S n)) q1)) with (p_fifoIndexStart q).
  change (p_page_mem_count (set_p_page_mem_count (Z.of_nat (S n)) q1)) with (Z.of_nat (S n)).
  rewrite Hst, u32_small, next_eq by (unfold CAP, cap, MAX_PSYC_PAGES in *; lia). done.
Qed.

Lemma insert_eq ram start n p pgdir va :
  fifo_ok (with_fifo ram start n p) → (n < cap)%nat →
  (insertPageToRAM pgdir va : PM unit) (with_fifo ram start n p) =
    Ret tt (with_fifo (<[slot_of start n := mk_page_t USED pgdir va]> ram) start (S n) p).
Proof.
  intros Hok Hn. destruct (fifo_ok_inv _ _ _ _ Hok) as (Hl & Hs & _ & _).
  rewrite (insert_at_eq _ n (slot_of start n) start); try done. apply slot_of_lt.
Qed.

(** Deleting the [j]th page of the queue and closing the gap. *)
Lemma delete_eq ram start n p j :
  fifo_ok (with_fifo ram start n p) → (j < n)%nat →
  ∃ ram', (deletePageFromRAM (Z.of_nat (slot_of start j)) true : PM unit) (with_fifo ram start n p) =
      Ret tt (with_fifo ram' start (n - 1) p) ∧ length ram' = cap ∧
    ∀ i, (i < cap)%nat → ram' !! slot_of start i =
      if bool_decide (j <= i < n - 1)%nat then ram !! slot_of start (S i)
      else if bool_decide (i = n - 1)%nat then set_pg_state NOT_USED <$> ram !! slot_of start i
      else ram !! slot_of start i.
Proof.
  intros Hok Hj. destruct (fifo_ok_inv _ _ _ _ Hok) as (Hl & Hs & Hn & Hu).
  destruct (ram_lookup_slot ram start j Hl) as [g Hg].
  unfold deletePageFromRAM. rewrite (bind_Ret_eq _ _ _ _ _ (ram_set_eq _ _ g (with_fifo ram start n p) Hg)).
  rewrite bind_modify. cbn [when]. unfold organizeFIFORAMqueue.
  destruct (Z.ltb_spec (Z.of_nat (slot_of start j)) 0); [lia|]. rewrite succ_eq.
  set (ram1 := <[slot_of start j := set_pg_state NOT_USED g]> ram).
  set (p1 := set_p_page_mem_count _ _).
  assert (Ep1 : p1 = set_p_page_mem_count (Z.of_nat (n - 1)) (set_p_ram_manager ram1 (with_fifo ram start n p))).
  { unfold p1, ram1. f_equal. change (u32 (Z.of_nat n - 1) = Z.of_nat (n - 1)).
    rewrite u32_small; unfold CAP, cap, MAX_PSYC_PAGES in *; lia. }
  clearbody p1. subst p1. set (p1 := set_p_page_mem_count _ _).
  assert (Hp1 : p_ram_manager p1 = ram1 ∧ p_fifoIndexNext p1 = Z.of_nat (slot_of start n)) by done.
  destruct Hp1 as [Hr1 Hn1].
  assert (Hl1 : length ram1 = cap) by (unfold ram1; by rewrite length_insert).
  assert (Hne : ∀ i, i ≠ j → (i < cap)%nat → slot_of start j ≠ slot_of start i).
  { intros i Hi Hic E. apply slot_of_inj in E; unfold cap, MAX_PSYC_PAGES in *; lia. }
  destruct (organize_loop_eq (C := C) start n Hs Hn (n - 1 - j) MAX_PSYC_PAGES j p1) as (ram' & He & Hl' & Hr').
  - unfold cap in *. lia.
  - lia.
  - by rewrite Hr1.
  - exact Hn1.
  - rewrite Hr1. unfold ram1. intros g' Hg'. rewrite list_lookup_insert_eq in Hg' by (rewrite Hl; apply slot_of_lt).
    by injection Hg' as <-.
  - rewrite Hr1. unfold ram1. intros i g' Hi Hg'. rewrite list_lookup_insert_ne in Hg' by (apply Hne; lia).
    rewrite (Hu i g') by (lia || done). apply bool_decide_eq_true_2. lia.
  - exists ram'. rewrite (bind_Ret_eq _ _ _ _ _ He). split; [|split; [done|]].
    + unfold updateFIFONextFreePageIndex, modify. f_equal.
      change (p_page_mem_count (set_p_ram_manager ram' p1)) with (Z.of_nat (n - 1)).
      change (p_fifoIndexStart (set_p_ram_manager ram' p1)) with start.
      rewrite (u32_small (start + _)) by (unfold CAP, cap, MAX_PSYC_PAGES in *; lia).
      rewrite next_eq. reflexivity.
    + intros i Hi. rewrite Hr' by done. rewrite Hr1. unfold ram1.
      destruct (decide (i = j)) as [->|Hij].
      * destruct (decide (j <= j < n - 1)%nat); [rewrite !bool_decide_eq_true_2 by lia; apply list_lookup_insert_ne, Hne; lia|].
        rewrite !(bool_decide_eq_false_2 (j <= j < n - 1)%nat), !(bool_decide_eq_true_2 (j = n - 1)%nat) by lia.
        rewrite list_lookup_insert_eq by (rewrite Hl; apply slot_of_lt). by rewrite Hg.
      * rewrite (list_lookup_insert_ne _ _ (slot_of start i)) by (by apply Hne).
        case_bool_decide; [|done]. apply list_lookup_insert_ne, Hne; lia.
Qed.

(** Taking out the oldest page of a full queue for a new one. *)
Lemma replace_eq ram start p pgdir va :
  fifo_ok (with_fifo ram start cap p) →
  (fifo_run (OpReplace pgdir va) : PM unit) (with_fifo ram start cap p) =
    Ret tt (with_fifo (<[slot_of start 0 := mk_page_t USED pgdir va]> ram) ((start + 1) mod CAP) cap p).
Proof.
  intros Hok. destruct (fifo_ok_inv _ _ _ _ Hok) as (Hl & Hs & _ & Hu).
  cbn [fifo_run]. unfold nextSwapPageIndexInRAM, nextFIFOSwapPageIndex. rewrite bind_gets.
  change (p_fifoIndexStart (with_fifo ram start cap p)) with start.
  assert (E0 : slot_of start cap = slot_of start 0).
  { unfold slot_of. f_equal. unfold CAP, cap, MAX_PSYC_PAGES. divlia. }
  assert (Es : s32 start = Z.of_nat (slot_of start 0)).
  { rewrite s32_small, slot_of_Z by (unfold CAP, MAX_PSYC_PAGES in *; lia). cbn. rewrite Z.add_0_r, Z.mod_small; lia. }
  rewrite Es. destruct (ram_lookup_slot ram start 0 Hl) as [g Hg].
  unfold deletePageFromRAM. rewrite bind_assoc, (bind_Ret_eq _ _ _ _ _ (ram_set_eq _ _ g (with_fifo ram start cap p) Hg)).
  rewrite bind_assoc, bind_modify. cbn [when]. rewrite bind_mret.
  set (ram1 := <[slot_of start 0 := set_pg_state NOT_USED g]> ram).
  assert (Hl1 : length ram1 = cap) by (unfold ram1; by rewrite length_insert).
  set (q := set_p_page_mem_count _ _).
  rewrite (bind_Ret_eq _ _ _ _ _ (insert_at_eq q (cap - 1) (slot_of start 0) start pgdir va
    Hl1 eq_refl ltac:(unfold cap, MAX_PSYC_PAGES; lia) ltac:(unfold q; cbn; by rewrite E0) (slot_of_lt _ _) eq_refl Hs)).
  unfold shiftFIFOIndex. rewrite bind_modify. unfold modify. f_equal.
  set (q1 := set_p_fifoIndexNext (Z.of_nat (slot_of start (S (cap - 1)))) _).
  change (p_fifoIndexStart q1) with start.
  change (p_fifoIndexNext (set_p_fifoIndexStart _ q1)) with (Z.of_nat (slot_of start (S (cap - 1)))).
  assert (Hs1 : u32 (start + 1) = start + 1) by (apply u32_small; unfold CAP, MAX_PSYC_PAGES in *; lia).
  rewrite Hs1. pose proof (slot_of_lt start (S (cap - 1))) as Hlt. unfold cap, MAX_PSYC_PAGES in Hlt.
  rewrite u32_small by (unfold cap, MAX_PSYC_PAGES; lia). rewrite succ_eq.
  replace (S (S (cap - 1))) with (S cap) by done. rewrite <- slot_of_shift.
  assert (Hr : <[slot_of start 0 := mk_page_t USED pgdir va]> (p_ram_manager q) =
    <[slot_of start 0 := mk_page_t USED pgdir va]> ram) by apply list_insert_insert_eq.
  unfold q1. rewrite Hr. reflexivity.
Qed.
End ops.

Lemma queue_elem ram start n g :
  length ram = cap → g ∈ queue_of ram start n → ∃ j, (j < n)%nat ∧ ram !! slot_of start j = Some g.
Proof.
  intros Hl (j & -> & Hj%elem_of_seq)%list_elem_of_fmap. exists j. split; [lia|].
  destruct (ram_lookup_slot ram start j Hl) as [g Hg]. by rewrite Hg.
Qed.

(** Queue and invariant after a deletion. *)
Lemma delete_queue ram ram' start n j p :
  fifo_ok (with_fifo ram start n p) → (j < n)%nat → length ram' = cap →
  (∀ i, (i < cap)%nat → ram' !! slot_of start i =
      if bool_decide (j <= i < n - 1)%nat then ram !! slot_of start (S i)
      else if bool_decide (i = n - 1)%nat then set_pg_state NOT_USED <$> ram !! slot_of start i
      else ram !! slot_of start i) →
  fifo_ok (with_fifo ram' start (n - 1) p) ∧ queue_of ram' start (n - 1) = delete j (queue_of ram start n).
Proof.
  intros Hok Hj Hl' Hr'. destruct (fifo_ok_inv _ _ _ _ Hok) as (Hl & Hs & Hn & Hu). split.
  - apply with_fifo_ok; try done; [lia|]. intros i g Hi. rewrite Hr' by done.
    case_bool_decide.
    + intros Hg. rewrite (Hu (S i) g) by (lia || done). apply bool_decide_ext. lia.
    + case_bool_decide.
      * intros (g0 & Hg0 & ->)%fmap_Some. rewrite bool_decide_eq_false_2 by lia. done.
      * intros Hg. rewrite (Hu i g) by (lia || done). apply bool_decide_ext. lia.
  - apply list_eq. intros i. destruct (decide (i < n - 1)%nat) as [Hi|Hi].
    + rewrite queue_of_lookup by done. rewrite Hr' by lia.
      rewrite (bool_decide_eq_false_2 (i = n - 1)%nat) by lia.
      destruct (decide (j <= i)%nat).
      * rewrite bool_decide_eq_true_2 by lia. rewrite list_lookup_delete_ge by done. by rewrite queue_of_lookup by lia.
      * rewrite bool_decide_eq_false_2 by lia. rewrite list_lookup_delete_lt by lia. by rewrite queue_of_lookup by lia.
    + rewrite !lookup_ge_None_2; [done| |rewrite queue_of_length; lia].
      rewrite length_delete; [rewrite queue_of_length; lia|]. apply lookup_lt_is_Some. rewrite queue_of_length. lia.
Qed.

(** What each operation leaves, in terms of the layout. *)
Definition op_done (op : fifo_op) (p p' : proc) : Prop :=
  (fifo_run op : M proc unit unit) p = Ret tt p' ∧ fifo_ok p' ∧ fifo_frame p p' ∧
    fifo_result op (queue p) (queue p').

Lemma slot_ne start i j : (i < cap)%nat → (j < cap)%nat → i ≠ j → slot_of start i ≠ slot_of start j.
Proof. intros Hi Hj Hne E. apply slot_of_inj in E; unfold cap, MAX_PSYC_PAGES in *; lia. Qed.

Lemma insert_refines ram start n p pgdir va :
  fifo_ok (with_fifo ram start n p) → (n < cap)%nat →
  ∃ p', op_done (OpInsert pgdir va) (with_fifo ram start n p) p'.
Proof.
  intros Hok Hn. destruct (fifo_ok_inv _ _ _ _ Hok) as (Hl & Hs & _ & Hu).
  eexists. split; [by apply insert_eq|]. split; [|split; [done|]].
  - apply with_fifo_ok; [by rewrite length_insert|done|lia|]. intros j g Hj Hg.
    destruct (decide (j = n)) as [->|Hjn].
    + rewrite list_lookup_insert_eq in Hg by (rewrite Hl; apply slot_of_lt). injection Hg as <-.
      symmetry. apply bool_decide_eq_true_2. lia.
    + rewrite list_lookup_insert_ne in Hg by (apply slot_ne; lia).
      rewrite (Hu j g) by done. apply bool_decide_ext. lia.
  - cbn [fifo_result]. rewrite !with_fifo_queue, queue_of_S, list_lookup_insert_eq by (rewrite Hl; apply slot_of_lt).
    f_equal. apply queue_of_ext. intros j Hj. apply list_lookup_insert_ne, slot_ne; lia.
Qed.

Lemma remove_refines ram start n p va pgdir :
  fifo_ok (with_fifo ram start n p) →
  ∃ p', op_done (OpRemove va pgdir) (with_fifo ram start n p) p'.
Proof.
  intros Hok. destruct (fifo_ok_inv _ _ _ _ Hok) as (Hl & Hs & Hn & Hu).
  unfold op_done. cbn [fifo_run fifo_result]. unfold removePageFromRAM.
  destruct (find_idx (is_page va pgdir) ram) as [i|] eqn:Hf.
  - pose proof (find_idx_lt _ _ _ Hf) as Hi. rewrite Hl in Hi.
    pose proof Hf as [(g & Hg & Hpg) _]%find_idx_Some.
    destruct (slot_of_surj start i Hs Hi) as (j & Hj & <-).
    assert (Hjn : (j < n)%nat).
    { pose proof (Hu j g Hj Hg) as E. apply andb_true_iff in Hpg as [Hpg _]. apply andb_true_iff in Hpg as [Hpg _].
      rewrite Hpg in E. symmetry in E. by apply bool_decide_eq_true_1 in E. }
    destruct (delete_eq (C := unit) ram start n p j Hok Hjn) as (ram' & He & Hl' & Hr').
    destruct (delete_queue ram ram' start n j p Hok Hjn Hl' Hr') as [Hok' Hq'].
    eexists. split; [rewrite bind_gets; cbn [p_ram_manager with_fifo set_p_fifoIndexNext set_p_fifoIndexStart
      set_p_page_mem_count set_p_ram_manager]; rewrite Hf; exact He|]. split; [done|]. split; [done|].
    left. exists j, g. rewrite !with_fifo_queue. split; [|done]. by rewrite queue_of_lookup, Hg.
  - exists (with_fifo ram start n p). split; [rewrite bind_gets; cbn [p_ram_manager with_fifo set_p_fifoIndexNext
      set_p_fifoIndexStart set_p_page_mem_count set_p_ram_manager]; by rewrite Hf|].
    split; [done|]. split; [done|]. right. split; [done|].
    rewrite with_fifo_queue. intros g (j & _ & Hg)%queue_elem; [|done].
    by apply (proj1 (find_idx_None _ _) Hf (slot_of start j)).
Qed.

Lemma replace_refines ram start p pgdir va :
  fifo_ok (with_fifo ram start cap p) →
  ∃ p', op_done (OpReplace pgdir va) (with_fifo ram start cap p) p'.
Proof.
  intros Hok. destruct (fifo_ok_inv _ _ _ _ Hok) as (Hl & Hs & _ & Hu).
  assert (E0 : slot_of start cap = slot_of start 0).
  { unfold slot_of. f_equal. unfold CAP, cap, MAX_PSYC_PAGES. divlia. }
  eexists. split; [by apply replace_eq|]. split; [|split; [done|]].
  - apply with_fifo_ok; [by rewrite length_insert|apply Z.mod_pos_bound; done|lia|]. intros j g Hj Hg.
    rewrite (bool_decide_eq_true_2 _ Hj). rewrite slot_of_shift in Hg.
    destruct (decide (S j = cap)) as [E|E].
    + rewrite E, E0, list_lookup_insert_eq in Hg by (rewrite Hl; apply slot_of_lt). by injection Hg as <-.
    + rewrite list_lookup_insert_ne in Hg by (apply slot_ne; lia).
      rewrite (Hu (S j) g) by (lia || done). apply bool_decide_eq_true_2. lia.
  - cbn [fifo_result]. rewrite !with_fifo_queue. set (ram' := <[_ := _]> ram).
    pose proof (queue_of_S ram' ((start + 1) mod CAP) (cap - 1)) as Q1.
    pose proof (queue_of_cons ram start (cap - 1)) as Q2.
    replace (S (cap - 1)) with cap in Q1, Q2 by done. rewrite Q1, Q2. cbn [tail]. unfold ram'. f_equal.
    + apply queue_of_ext. intros j Hj. rewrite slot_of_shift. apply list_lookup_insert_ne, slot_ne; lia.
    + rewrite slot_of_shift. replace (S (cap - 1)) with cap by done.
      by rewrite E0, list_lookup_insert_eq by (rewrite Hl; apply slot_of_lt).
Qed.

(** C18: the routines of the circular array are a FIFO queue. In every state
    satisfying the invariant, inserting a page appends it, removing one
    deletes exactly that page and keeps the order of the others, and the
    replacement made by [swap_out] drops the oldest page and appends the new
    one; no routine panics, runs out of the array or touches anything else,
    and the invariant holds again. *)
Theorem fifo_refines_queue op p :
  fifo_ok p → fifo_allowed op p →
  ∃ p', (fifo_run op : M proc unit unit) p = Ret tt p' ∧ fifo_ok p' ∧ fifo_frame p p' ∧
    fifo_result op (queue p) (queue p').
Proof.
  intros Hok Ha. pose proof (ff_count p Hok) as Hc. pose proof (with_fifo_self p Hok) as Hp.
  change (∃ p', op_done op p p'). rewrite Hp. rewrite Hp in Hok.
  destruct op as [pgdir va|va pgdir|pgdir va]; cbn [fifo_allowed] in Ha.
  - apply insert_refines; [done|]. unfold CAP, cap in *. lia.
  - by apply remove_refines.
  - rewrite Ha in *. by apply replace_refines.
Qed.

(** ** Witness: a queue that wraps around the end of the array *)
Definition demo_proc : proc :=
  with_fifo (alter (λ _, mk_page_t USED 1 4096) 14%nat (alter (λ _, mk_page_t USED 1 8192) 0%nat
    (replicate cap page0))) 14 2 proc0.

Lemma demo_proc_ok : fifo_ok demo_proc.
Proof.
  apply with_fifo_ok; [done|done|unfold cap, MAX_PSYC_PAGES; lia|]. unfold cap, MAX_PSYC_PAGES. intros j g Hj.
  do 15 (destruct j as [|j]; [vm_compute; intros [= <-]; reflexivity|]). lia.
Qed.

Lemma fifo_refines_queue_witness :
  ∃ p', (fifo_run (OpRemove 4096 1) : M proc unit unit) demo_proc = Ret tt p' ∧ fifo_ok p' ∧
    fifo_frame demo_proc p' ∧ fifo_result (OpRemove 4096 1) (queue demo_proc) (queue p').
Proof. apply fifo_refines_queue; [exact demo_proc_ok|exact I]. Defined.
