(* ===== verification/Paging.v ===== *)
(** * Paging: page directories and page tables (vm.c)

    [walkpgdir] and what is built on it: mapping, unmapping, copying and
    translating. A page directory is the address of its page; its entries
    are the little-endian words stored there. The theorems describe the
    tables as a map from virtual pages to entries. The routines that move
    pages to and from the swap file are in [Swap]. *)

From S2P Require Import Prelude CString Kernel Sched Kalloc Fifo.

(** ** Definitions *)
(** The bytes [l] stored from [a] on. *)
Fixpoint store_bytes (m : mem) (a : Z) (l : list Z) : mem :=
  match l with
  | [] => m
  | b :: l => store_bytes (upd m a b) (a + 1) l
  end.

Section paging.
Context {C : Type}.
Notation KM := (M kernel C).

Definition mem_load32 (a : Z) : KM Z := gets (λ k, load32 (k_mem k) a).
Definition mem_store32 (a v : Z) : KM unit := modify (λ k, set_k_mem (store32 (k_mem k) a v) k).
Definition mem_set (a c n : Z) : KM unit := modify (λ k, set_k_mem (memset (k_mem k) a c n) k).
Definition mem_move (dst src n : Z) : KM unit := modify (λ k, set_k_mem (memmove (k_mem k) dst src n) k).

(** An operation on the structure of process [p]. *)
Definition on_proc {A} (p : nat) (m : M proc C A) : KM A := λ k,
  match k_procs k !! p with
  | None => Fault "proc"
  | Some pr =>
      match m pr with
      | Ret a pr' => Ret a (upd_proc p (λ _, pr') k)
      | Switch c pr' => Switch c (upd_proc p (λ _, pr') k)
      | Panic msg pr' => Panic msg (upd_proc p (λ _, pr') k)
      | Fault msg => Fault msg
      end
  end.

Definition is_shell_or_init (p : option nat) : KM bool :=
  match p with
  | None => mret false
  | Some p => pr <- proc_at p ;; mret (p_pid pr <=? 2)
  end.

Definition walkpgdir (pgdir va : Z) (alloc : bool) : KM Z :=
  let pde := u32 (pgdir + 4 * PDX va) in
  e <- mem_load32 pde ;;
  if negb (Z.land e PTE_P =? 0) then
    mret (u32 (P2V (PTE_ADDR e) + 4 * PTX va))
  else
    pgtab <- (if negb alloc then mret 0 else kalloc) ;;
    if pgtab =? 0 then mret 0 else
    mem_set pgtab 0 PGSIZE ;;
    mem_store32 pde (Z.lor (Z.lor (Z.lor (V2P pgtab) PTE_P) PTE_W) PTE_U) ;;
    mret (u32 (pgtab + 4 * PTX va)).

(** [*pte] through the pointer [walkpgdir] returned *)
Definition pte_get (pte : Z) : KM Z :=
  if pte =? 0 then fault "null pte" else mem_load32 pte.
Definition pte_set (pte v : Z) : KM unit :=
  if pte =? 0 then fault "null pte" else mem_store32 pte (u32 v).

Fixpoint mappages_loop (fuel : nat) (pgdir a last pa perm : Z) : KM Z :=
  match fuel with
  | O => fault "mappages: out of fuel"
  | S fuel =>
      pte <- walkpgdir pgdir a true ;;
      if pte =? 0 then mret (-1) else
      e <- pte_get pte ;;
      if negb (Z.land e PTE_P =? 0) then panic "remap" else
      pte_set pte (Z.lor (Z.lor pa perm) PTE_P) ;;
      if a =? last then mret 0 else
      mappages_loop fuel pgdir (u32 (a + PGSIZE)) last (u32 (pa + PGSIZE)) perm
  end.
Definition mappages (pgdir va size pa perm : Z) : KM Z :=
  let a := PGROUNDDOWN va in
  let last := PGROUNDDOWN (u32 (va + size - 1)) in
  mappages_loop (S (Z.to_nat (u32 (last - a) / PGSIZE))) pgdir a last pa perm.

Fixpoint deallocuvm_loop (fuel : nat) (p : nat) (pgdir a oldsz : Z) : KM unit :=
  if negb (a <? oldsz) then mret tt else
  match fuel with
  | O => fault "deallocuvm: out of fuel"
  | S fuel =>
      pte <- walkpgdir pgdir a false ;;
      if pte =? 0 then
        deallocuvm_loop fuel p pgdir (u32 (u32 (PGADDR (PDX a + 1) 0 0 - PGSIZE) + PGSIZE)) oldsz
      else
        e <- pte_get pte ;;
        when (negb (Z.land e PTE_P =? 0))
          (let pa := PTE_ADDR e in
           if pa =? 0 then panic "kfree" else
           kfree (P2V pa) ;;
           s <- is_shell_or_init (Some p) ;;
           when (negb s) (on_proc p (removePageFromRAM a pgdir)) ;;
           pte_set pte 0) ;;
        deallocuvm_loop fuel p pgdir (u32 (a + PGSIZE)) oldsz
  end.
Definition deallocuvm (pgdir oldsz newsz : Z) : KM Z :=
  p <- myproc ;;
  match p with
  | None => mret oldsz
  | Some p =>
      if oldsz <=? newsz then mret oldsz else
      deallocuvm_loop (S (Z.to_nat (oldsz / PGSIZE))) p pgdir (PGROUNDUP newsz) oldsz ;;
      mret newsz
  end.

Definition freevm (pgdir : Z) : KM unit :=
  if pgdir =? 0 then panic "freevm: no pgdir" else
  deallocuvm pgdir KERNBASE 0 ;;
  mfor (seqZ 0 NPDENTRIES) (λ i,
    e <- mem_load32 (u32 (pgdir + 4 * i)) ;;
    when (negb (Z.land e PTE_P =? 0)) (kfree (P2V (PTE_ADDR e)))) ;;
  kfree pgdir.

(** The rows of [kmap]: virt, phys_start, phys_end, perm. *)
Definition kmap (data : Z) : list (Z * Z * Z * Z) :=
  [(KERNBASE, 0, EXTMEM, PTE_W);
   (KERNLINK, V2P KERNLINK, V2P data, 0);
   (data, V2P data, PHYSTOP, PTE_W);
   (DEVSPACE, DEVSPACE, 0, PTE_W)].

Fixpoint setupkvm_loop (rows : list (Z * Z * Z * Z)) (pgdir : Z) : KM Z :=
  match rows with
  | [] => mret pgdir
  | (virt, ps, pe, perm) :: rows =>
      r <- mappages pgdir virt (u32 (pe - ps)) ps perm ;;
      if r <? 0 then freevm pgdir ;; mret 0 else setupkvm_loop rows pgdir
  end.
Definition setupkvm : KM Z :=
  pgdir <- kalloc ;;
  if pgdir =? 0 then mret 0 else
  mem_set pgdir 0 PGSIZE ;;
  if DEVSPACE <? P2V PHYSTOP then panic "PHYSTOP too high" else
  d <- gets k_data ;;
  setupkvm_loop (kmap d) pgdir.

Definition kvmalloc : KM unit :=
  d <- setupkvm ;;
  modify (set_k_kpgdir d) ;;
  switchkvm.

(** [init] and [sz] are the bytes of initcode. The code does not test the
    page [kalloc] gives; clearing address 0, which no one maps, is a fault. *)
Definition inituvm (pgdir init sz : Z) : KM unit :=
  if PGSIZE <=? sz then panic "inituvm: more than a page" else
  mem <- kalloc ;;
  if mem =? 0 then fault "inituvm: memset of page 0" else
  mem_set mem 0 PGSIZE ;;
  mappages pgdir 0 PGSIZE (V2P mem) (Z.lor PTE_W PTE_U) ;;
  mem_move mem init sz.

Definition clearpteu (pgdir uva : Z) : KM unit :=
  pte <- walkpgdir pgdir uva false ;;
  if pte =? 0 then panic "clearpteu" else
  e <- pte_get pte ;;
  pte_set pte (Z.land e (u32 (Z.lnot PTE_U))).

Definition update_pageOUT_pte_flags (p : nat) (vAddr pgdir : Z) : KM unit :=
  pte <- walkpgdir pgdir vAddr false ;;
  if pte =? 0 then panic "update_pageOUT_pte_flags: pte does NOT exist in pgdir" else
  e <- pte_get pte ;;
  pte_set pte (Z.lor e PTE_PG) ;;
  e <- pte_get pte ;;
  pte_set pte (Z.land e (u32 (Z.lnot PTE_P))) ;;
  e <- pte_get pte ;;
  pte_set pte (Z.land e (PTE_FLAGS e)) ;;
  pr <- proc_at p ;;
  lcr3 (V2P (p_pgdir pr)).

Definition update_pageIN_pte_flags (p : nat) (vAddr pagePAddr pgdir : Z) : KM unit :=
  pte <- walkpgdir pgdir vAddr false ;;
  if pte =? 0 then panic "update_pageIN_pte_flags: pte does NOT exist in pgdir" else
  e <- pte_get pte ;;
  if negb (Z.land e PTE_P =? 0) then panic "update_pageIN_pte_flags: page is already in memory!" else
  pte_set pte (Z.lor e (Z.lor (Z.lor PTE_P PTE_W) PTE_U)) ;;
  e <- pte_get pte ;;
  pte_set pte (Z.land e (u32 (Z.lnot PTE_PG))) ;;
  e <- pte_get pte ;;
  pte_set pte (Z.lor e pagePAddr) ;;
  pr <- proc_at p ;;
  lcr3 (V2P (p_pgdir pr)).

(** The repeated walk of [getPhysicalAddress] does not allocate: one walk. *)
Definition getPhysicalAddress (vAddr pgdir : Z) : KM Z :=
  pte <- walkpgdir pgdir vAddr false ;;
  if pte =? 0 then mret 0xFFFFFFFF else
  e <- pte_get pte ;;
  mret (PTE_ADDR e).

Definition isPageInSwapFile (p : nat) (vAddr : Z) : KM bool :=
  pr <- proc_at p ;;
  pte <- walkpgdir (p_pgdir pr) vAddr false ;;
  e <- pte_get pte ;;
  mret (negb (Z.land e PTE_PG =? 0)).

Fixpoint copyuvm_loop (fuel : nat) (p : nat) (pgdir d i sz : Z) : KM bool :=
  if negb (i <? sz) then mret true else
  match fuel with
  | O => fault "copyuvm: out of fuel"
  | S fuel =>
      pte <- walkpgdir pgdir i false ;;
      if pte =? 0 then panic "copyuvm: pte should exist" else
      e <- pte_get pte ;;
      if negb (Z.land e PTE_PG =? 0) then
        update_pageOUT_pte_flags p i d ;;
        copyuvm_loop fuel p pgdir d (u32 (i + PGSIZE)) sz
      else if Z.land e PTE_P =? 0 then panic "copyuvm: page not present" else
      let pa := PTE_ADDR e in
      let flags := PTE_FLAGS e in
      mem <- kalloc ;;
      if mem =? 0 then mret false else
      mem_move mem (P2V pa) PGSIZE ;;
      r <- mappages d i PGSIZE (V2P mem) flags ;;
      if r <? 0 then mret false else
      copyuvm_loop fuel p pgdir d (u32 (i + PGSIZE)) sz
  end.
Definition copyuvm (pgdir sz : Z) : KM Z :=
  p <- myproc ;;
  match p with
  | None => mret 0
  | Some p =>
      d <- setupkvm ;;
      if d =? 0 then mret 0 else
      ok <- copyuvm_loop (S (Z.to_nat (sz / PGSIZE))) p pgdir d 0 sz ;;
      if ok then mret d else freevm d ;; mret 0
  end.

Definition uva2ka (pgdir uva : Z) : KM Z :=
  pte <- walkpgdir pgdir uva false ;;
  e <- pte_get pte ;;
  if Z.land e PTE_P =? 0 then mret 0 else
  if Z.land e PTE_U =? 0 then mret 0 else
  mret (P2V (PTE_ADDR e)).

(** [memmove] of the bytes [l] to a kernel address. *)
Definition mem_write (a : Z) (l : list Z) : KM unit :=
  modify (λ k, set_k_mem (store_bytes (k_mem k) a l) k).

(** The source of [copyout] is given by its bytes. *)
Fixpoint copyout_loop (fuel : nat) (pgdir va : Z) (buf : list Z) : KM Z :=
  match buf with
  | [] => mret 0
  | _ =>
    match fuel with
    | O => fault "copyout: out of fuel"
    | S fuel =>
        let va0 := PGROUNDDOWN va in
        pa0 <- uva2ka pgdir va0 ;;
        if pa0 =? 0 then mret (-1) else
        let n := Z.min (PGSIZE - (va - va0)) (Z.of_nat (length buf)) in
        mem_write (u32 (pa0 + (va - va0))) (take (Z.to_nat n) buf) ;;
        copyout_loop fuel pgdir (u32 (va0 + PGSIZE)) (drop (Z.to_nat n) buf)
    end
  end.
Definition copyout (pgdir va : Z) (p : list Z) : KM Z :=
  copyout_loop (S (S (length p / Z.to_nat PGSIZE))) pgdir va p.
End paging.
