(* ===== verification/PagingSpec.v ===== *)
(** * PagingSpec: page tables as maps from virtual pages to entries

    [pte_val] reads the entry of a virtual address; [pt_ok] says that a
    directory and its tables are distinct frames that are not free. Walking
    with allocation leaves the map unchanged, and [mappages] changes exactly
    the entries of its range. *)

From S2P Require Import Prelude CString Kernel Sched Kalloc Fifo Paging.

(** ** Definitions *)
Definition present (e : Z) : bool := negb (Z.land e PTE_P =? 0).

(** The entry of directory [pgdir] for slot [d], and the table it names. *)
Definition pde_at (m : mem) (pgdir d : Z) : Z := load32 m (pgdir + 4 * d).
Definition table_of (e : Z) : Z := P2V (PTE_ADDR e).

(** The page table entry of [va]; 0 when there is no table for it. *)
Definition pte_val (m : mem) (pgdir va : Z) : Z :=
  let e := pde_at m pgdir (PDX va) in
  if present e then load32 m (table_of e + 4 * PTX va) else 0.

(** A well-formed page directory beside the free list [l]. *)
Record pt_ok (k : kernel) (pgdir : Z) (l : list Z) : Prop := mk_pt_ok {
  po_dir : page_ok k pgdir;
  po_dir_free : pgdir ∉ l;
  po_tab : ∀ d, 0 <= d < NPDENTRIES → present (pde_at (k_mem k) pgdir d) = true →
    let t := table_of (pde_at (k_mem k) pgdir d) in page_ok k t ∧ t ≠ pgdir ∧ t ∉ l;
  po_inj : ∀ d d', 0 <= d < NPDENTRIES → 0 <= d' < NPDENTRIES →
    present (pde_at (k_mem k) pgdir d) = true → present (pde_at (k_mem k) pgdir d') = true →
    table_of (pde_at (k_mem k) pgdir d) = table_of (pde_at (k_mem k) pgdir d') → d = d';
}.

(** Frames that are neither free nor part of the directory keep their bytes. *)
Definition other_frame (k : kernel) (pgdir : Z) (l : list Z) (q : Z) : Prop :=
  page_ok k q ∧ q ∉ l ∧ q ≠ pgdir ∧
  ∀ d, 0 <= d < NPDENTRIES → present (pde_at (k_mem k) pgdir d) = true →
    q ≠ table_of (pde_at (k_mem k) pgdir d).
Definition others_kept (k : kernel) (pgdir : Z) (l : list Z) (m' : mem) : Prop :=
  ∀ q a, other_frame k pgdir l q → q <= a < q + PGSIZE → m' a = k_mem k a.

(** The tables a directory names in its first [n] slots. *)
Definition slot_table (m : mem) (pgdir d : Z) : option Z :=
  if present (pde_at m pgdir d) then Some (table_of (pde_at m pgdir d)) else None.
Definition tables (m : mem) (pgdir n : Z) : list Z := omap (slot_table m pgdir) (seqZ 0 n).

(** From free list [l] to [l'] the frames taken became tables. *)
Definition took (m m' : mem) (pgdir : Z) (l l' : list Z) : Prop :=
  ∃ ps, l = ps ++ l' ∧ tables m' pgdir NPDENTRIES ≡ₚ ps ++ tables m pgdir NPDENTRIES.

(** The slots of the directory for which [P] fails are as they were. *)
Definition slots_kept (m m' : mem) (pgdir : Z) (P : Z → Prop) : Prop :=
  ∀ x, 0 <= x < NPDENTRIES → ¬ P x → pde_at m' pgdir x = pde_at m pgdir x.

(** ** The tables of a directory *)
Lemma slots_kept_trans m m1 m2 pgdir (P Q R : Z → Prop) : (∀ x, P x → R x) → (∀ x, Q x → R x) →
  slots_kept m m1 pgdir P → slots_kept m1 m2 pgdir Q → slots_kept m m2 pgdir R.
Proof. intros HP HQ H1 H2 x Hx Hn. rewrite (H2 x Hx), (H1 x Hx); naive_solver. Qed.

Lemma slots_kept_sub m m' pgdir (P Q : Z → Prop) : (∀ x, P x → Q x) → slots_kept m m' pgdir P → slots_kept m m' pgdir Q.
Proof. intros HP H x Hx Hn. apply (H x Hx). naive_solver. Qed.

Lemma tables_ext m m' pgdir n : (∀ d, 0 <= d < n → pde_at m' pgdir d = pde_at m pgdir d) → tables m' pgdir n = tables m pgdir n.
Proof.
  intros H. unfold tables. apply list_eq. intros i. revert i. assert (Hall : ∀ d, d ∈ seqZ 0 n → slot_table m' pgdir d = slot_table m pgdir d).
  { intros d Hd%elem_of_seqZ. unfold slot_table. by rewrite H by lia. }
  induction (seqZ 0 n) as [|d ds IH]; intros i; [done|]. cbn. rewrite (Hall d) by (by left).
  destruct (slot_table m pgdir d); [destruct i; cbn; [done|]|]; apply IH; intros; apply Hall; by right.
Qed.

Lemma seqZ_at n d : 0 <= d < n → seqZ 0 n = seqZ 0 d ++ d :: seqZ (d + 1) (n - d - 1).
Proof.
  intros H. replace n with (d + (1 + (n - d - 1))) at 1 by lia. rewrite !seqZ_app by lia. by rewrite Z.add_0_l.
Qed.

Lemma tables_add m m' pgdir d pg : 0 <= d < NPDENTRIES → present (pde_at m pgdir d) = false →
  (∀ d', 0 <= d' < NPDENTRIES → d' ≠ d → pde_at m' pgdir d' = pde_at m pgdir d') →
  slot_table m' pgdir d = Some pg → tables m' pgdir NPDENTRIES ≡ₚ pg :: tables m pgdir NPDENTRIES.
Proof.
  intros Hd Hno Hsame Hyes. unfold tables. rewrite (seqZ_at NPDENTRIES d Hd), !omap_app. cbn [omap list_omap].
  assert (Hn : slot_table m pgdir d = None) by (unfold slot_table; by rewrite Hno).
  assert (He : ∀ ds : list Z, (∀ d', d' ∈ ds → 0 <= d' < NPDENTRIES ∧ d' ≠ d) → omap (slot_table m' pgdir) ds = omap (slot_table m pgdir) ds).
  { intros ds Hds. induction ds as [|x ds IH]; [done|]. destruct (Hds x) as [H1 H2]; [by left|].
    assert (E : slot_table m' pgdir x = slot_table m pgdir x) by (unfold slot_table; by rewrite (Hsame x H1 H2)).
    cbn. rewrite E, IH; [done|]. intros; apply Hds; by right. }
  rewrite (He (seqZ 0 d)) by (intros d' ?%elem_of_seqZ; lia). rewrite (He (seqZ (d + 1) _)) by (intros d' ?%elem_of_seqZ; lia).
  rewrite Hn, Hyes. by rewrite Permutation_middle.
Qed.

Lemma tables_eq m pgdir n : tables m pgdir n = omap (slot_table m pgdir) (seqZ 0 n).
Proof. reflexivity. Qed.

#[global] Opaque tables.

Lemma took_refl m m' pgdir l : (∀ d, 0 <= d < NPDENTRIES → pde_at m' pgdir d = pde_at m pgdir d) → took m m' pgdir l l.
Proof. intros H. exists []. split; [done|]. rewrite (tables_ext m m') by exact H. reflexivity. Qed.

Lemma took_trans m m1 m2 pgdir l l1 l2 : took m m1 pgdir l l1 → took m1 m2 pgdir l1 l2 → took m m2 pgdir l l2.
Proof. intros (p1 & -> & H1) (p2 & -> & H2). exists (p1 ++ p2). split; [by rewrite app_assoc|]. rewrite H2, H1, !app_assoc. by rewrite (Permutation_app_comm p2). Qed.

Lemma took_nil m m' pgdir l' : took m m' pgdir [] l' → l' = [].
Proof. intros (ps & E & _). symmetry in E. by apply app_eq_nil in E as [_ ->]. Qed.

Lemma took_sub m m' pgdir l l' : took m m' pgdir l l' → l' ⊆ l.
Proof. intros (ps & -> & _). set_solver. Qed.

(** ** Arithmetic of frames and entries *)
Lemma page_ok_range k v : 0 < k_end k → page_ok k v → KERNBASE <= v < 2 ^ 32 ∧ v mod PGSIZE = 0 ∧ 0 <= V2P v < PHYSTOP.
Proof.
  intros He (Ha & Hr & Hp). assert (0 <= V2P v) by apply u32_range. split; [|done].
  split; [|lia]. unfold V2P, u32, KERNBASE, PHYSTOP in *. change (2 ^ 32) with 4294967296 in *. divlia.
Qed.

Lemma page_ok_entry k v f :
  0 < k_end k → page_ok k v → 0 <= f < PGSIZE → table_of (Z.lor (V2P v) f) = v.
Proof.
  intros He Hv Hf. destruct (page_ok_range k v He Hv) as (Hr & Ha & Hp). unfold table_of.
  rewrite PTE_ADDR_flags; [apply V2P_P2V; unfold KERNBASE in *; lia|unfold PHYSTOP in *; lia| |done].
  unfold V2P, u32, KERNBASE, PGSIZE in *. change (2 ^ 32) with 4294967296 in *. divlia.
Qed.

Lemma present_flags p f : p mod 4096 = 0 → 0 <= f < 4096 → present (Z.lor p f) = negb (Z.land f 1 =? 0).
Proof.
  intros Hp Hf. unfold present, PTE_P. rewrite Z.land_lor_distr_l, (land_page_flags p 1) by (done || lia).
  by rewrite Z.lor_0_l.
Qed.

Lemma PDX_range va : 0 <= va < 2 ^ 32 → 0 <= PDX va < NPDENTRIES.
Proof. intros. rewrite PDX_eq by done. unfold NPDENTRIES. change (2 ^ 22) with 4194304. change (2 ^ 32) with 4294967296 in *. divlia. Qed.

Lemma PTX_range va : 0 <= PTX va < NPTENTRIES.
Proof. rewrite PTX_eq. unfold NPTENTRIES. apply Z.mod_pos_bound. lia. Qed.

Lemma page_index va va' : 0 <= va < 2 ^ 32 → 0 <= va' < 2 ^ 32 →
  PDX va = PDX va' → PTX va = PTX va' → va / PGSIZE = va' / PGSIZE.
Proof.
  intros H H'. rewrite !PDX_eq, !PTX_eq by done. unfold PGSIZE. change (2 ^ 22) with 4194304.
  intros. divlia.
Qed.

Lemma pte_val_page m pgdir va va' : 0 <= va < 2 ^ 32 → 0 <= va' < 2 ^ 32 →
  va / PGSIZE = va' / PGSIZE → pte_val m pgdir va = pte_val m pgdir va'.
Proof.
  intros H H' E. unfold pte_val. rewrite !PTX_eq, !PDX_eq by done. unfold PGSIZE in E. rewrite E.
  replace (va / 2 ^ 22) with (va' / 2 ^ 22); [done|]. change (2 ^ 22) with 4194304. divlia.
Qed.

(** ** Reading entries through memory updates *)

(** A word of one frame is not affected by a store into another place. *)
Lemma load32_other m a v b : a mod 4 = 0 → b mod 4 = 0 → a ≠ b → load32 (store32 m a v) b = load32 m b.
Proof. intros. apply load32_store32_ne. divlia. Qed.

Lemma load32_page_same m m' p i :
  0 <= i < 1024 → (∀ a, p <= a < p + PGSIZE → m' a = m a) → load32 m' (p + 4 * i) = load32 m (p + 4 * i).
Proof. intros Hi H. apply load32_same. intros a Ha. apply H. unfold PGSIZE. lia. Qed.

Section walk.
Context {C : Type}.
Notation KM := (M kernel C).
Variables (k : kernel) (pgdir : Z) (l : list Z).
Hypothesis Hidle : kmem_idle k.
Hypothesis Hfree : free_ok k l.
Hypothesis Hpt : pt_ok k pgdir l.

Lemma kend_pos : 0 < k_end k.
Proof using Hidle. by destruct Hidle as (_ & _ & ?). Qed.

Lemma pde_addr va : 0 <= va < 2 ^ 32 → u32 (pgdir + 4 * PDX va) = pgdir + 4 * PDX va.
Proof using Hidle Hpt.
  intros Hva. destruct (page_ok_range k pgdir kend_pos (po_dir _ _ _ Hpt)) as (Hr & Ha & _).
  pose proof (PDX_range va Hva). apply u32_small. unfold NPDENTRIES, PGSIZE, KERNBASE in *.
  change (2 ^ 32) with 4294967296 in *. divlia.
Qed.

Lemma pte_addr t va : page_ok k t → u32 (t + 4 * PTX va) = t + 4 * PTX va.
Proof using Hidle.
  intros Ht. destruct (page_ok_range k t kend_pos Ht) as (Hr & Ha & _).
  pose proof (PTX_range va). apply u32_small. unfold NPTENTRIES, PGSIZE, KERNBASE in *.
  change (2 ^ 32) with 4294967296 in *. divlia.
Qed.

(** Walking without allocation. *)
Lemma walkpgdir_look va : 0 <= va < 2 ^ 32 →
  (walkpgdir pgdir va false : KM Z) k =
    Ret (if present (pde_at (k_mem k) pgdir (PDX va))
         then table_of (pde_at (k_mem k) pgdir (PDX va)) + 4 * PTX va else 0) k.
Proof using Hidle Hpt.
  intros Hva. unfold walkpgdir, mem_load32. rewrite bind_gets, pde_addr by done.
  fold (pde_at (k_mem k) pgdir (PDX va)). fold (present (pde_at (k_mem k) pgdir (PDX va))).
  destruct (present _) eqn:Hp; [|done].
  destruct (po_tab _ _ _ Hpt (PDX va) (PDX_range va Hva) Hp) as [Ht _].
  fold (table_of (pde_at (k_mem k) pgdir (PDX va))). by rewrite pte_addr.
Qed.
End walk.

(** ** Adding a table to a directory *)
Lemma free_ok_suffix_frame k k' l : kmem_frame k k' → k_mem k' = k_mem k → km_freelist (k_kmem k') = km_freelist (k_kmem k) →
  free_ok k l → free_ok k' l.
Proof.
  intros [Hf _] Hm Hl [Hc Hnd Hp]. split; [by rewrite Hm, Hl|done|].
  apply (pages_ok_frame k); [by rewrite Hf|done].
Qed.

Lemma load32_memset_zero m p i :
  0 <= i < 1024 → load32 (memset m p 0 PGSIZE) (p + 4 * i) = 0.
Proof.
  intros Hi. rewrite (load32_same (fill m p 0 PGSIZE)); [|intros a _; by rewrite memset_fill by done].
  rewrite load32_fill_in by (unfold PGSIZE; lia). done.
Qed.

Lemma frame_distinct p q a : p mod PGSIZE = 0 → q mod PGSIZE = 0 → p ≠ q → p <= a < p + PGSIZE →
  q <= a < q + PGSIZE → False.
Proof. intros. by apply (pages_disjoint p q a a). Qed.

(** The memory after the table in frame [pg] has been added for slot [d]. *)
Definition add_table (m : mem) (pgdir d pg : Z) : mem :=
  store32 (memset m pg 0 PGSIZE) (pgdir + 4 * d) (Z.lor (V2P pg) 7).

Section add_table.
Variables (k : kernel) (pgdir d pg : Z) (l : list Z).
Hypothesis Hend : 0 < k_end k.
Hypothesis Hpt : pt_ok k pgdir (pg :: l).
Hypothesis Hpg : page_ok k pg.
Hypothesis Hd : 0 <= d < NPDENTRIES.
Hypothesis Hnew : present (pde_at (k_mem k) pgdir d) = false.
Hypothesis Hnin : pg ∉ l.
Notation m := (k_mem k).
Notation m' := (add_table (k_mem k) pgdir d pg).

Lemma add_table_dir : page_ok k pgdir ∧ pgdir ≠ pg ∧ pgdir ∉ l ∧ pgdir mod PGSIZE = 0 ∧ pg mod PGSIZE = 0.
Proof using All. destruct Hpt as [(Ha & H1) Hnot _ _]. destruct Hpg as (Hb & _). split_and!; try done; set_solver. Qed.

(** Outside the two frames nothing changes. *)
Lemma add_table_same q : q mod PGSIZE = 0 → q ≠ pg → q ≠ pgdir →
  ∀ a, q <= a < q + PGSIZE → m' a = m a.
Proof using All.
  destruct add_table_dir as (_ & _ & _ & Hal & Hal'). intros Hq Hne Hne' a Ha. unfold add_table.
  unfold store32. unfold NPDENTRIES in Hd.
  assert (Hno : ¬ (pgdir <= a < pgdir + PGSIZE)) by (intros H; by apply (frame_distinct q pgdir a)).
  assert (Hno' : ¬ (pg <= a < pg + PGSIZE)) by (intros H; by apply (frame_distinct q pg a)).
  unfold PGSIZE in *. repeat (case_match; [lia|]). rewrite memset_fill by done. unfold fill. case_match; [lia|done].
Qed.

Lemma add_table_pde d' : 0 <= d' < NPDENTRIES →
  pde_at m' pgdir d' = if d' =? d then Z.lor (V2P pg) 7 else pde_at m pgdir d'.
Proof using All.
  intros Hd'. destruct add_table_dir as (_ & Hne & _ & Hal & Hal'). unfold pde_at, add_table.
  destruct (page_ok_range k pg Hend Hpg) as (Hr & _ & HP).
  destruct (Z.eqb_spec d' d) as [->|Hdd].
  - rewrite load32_store32_eq. apply u32_small. rewrite lor_page_flags; unfold PHYSTOP in *; [lia| |lia].
    unfold V2P, u32, KERNBASE, PGSIZE in *. change (2 ^ 32) with 4294967296 in *. divlia.
  - rewrite load32_other by (unfold PGSIZE in *; divlia || lia).
    apply load32_page_same; [done|]. intros a Ha. rewrite memset_fill by done. unfold fill.
    case_match; [|done]. exfalso. apply (frame_distinct pgdir pg a); try done. lia.
Qed.

Lemma add_table_entry : present (Z.lor (V2P pg) 7) = true ∧ table_of (Z.lor (V2P pg) 7) = pg.
Proof using All.
  split; [|apply (page_ok_entry k); unfold PGSIZE; done || lia].
  destruct (page_ok_range k pg Hend Hpg) as (Hr & Ha & _).
  rewrite present_flags; [done| |lia].
  unfold V2P, u32, KERNBASE, PGSIZE in *. change (2 ^ 32) with 4294967296 in *. divlia.
Qed.

Lemma add_table_pt_ok : pt_ok (set_k_mem m' k) pgdir l.
Proof using All.
  destruct add_table_dir as (Hok & Hne & Hnl & Hal & Hal'). destruct add_table_entry as [Hp Ht].
  destruct Hpt as [_ _ Htab Hinj].
  split; [done|done|..]; cbn [k_mem set_k_mem].
  - intros d' Hd'. rewrite add_table_pde by done. destruct (Z.eqb_spec d' d) as [->|].
    + intros _. rewrite Ht. split_and!; [exact Hpg|by apply not_eq_sym|done].
    + intros Hp'. destruct (Htab d' Hd' Hp') as (? & ? & ?). split_and!; try done. set_solver.
  - intros d1 d2 H1 H2. rewrite !add_table_pde by done.
    destruct (Z.eqb_spec d1 d) as [->|N1], (Z.eqb_spec d2 d) as [->|N2]; try done.
    + intros _ Hp2. rewrite Ht. intros E. destruct (Htab d2 H2 Hp2) as (_ & _ & Hx). set_solver.
    + intros Hp1 _. rewrite Ht. intros E. destruct (Htab d1 H1 Hp1) as (_ & _ & Hx). set_solver.
    + by apply Hinj.
Qed.

Lemma add_table_pte va : 0 <= va < 2 ^ 32 → pte_val m' pgdir va = pte_val m pgdir va.
Proof using All.
  intros Hva. destruct add_table_dir as (Hok & Hne & Hnl & Hal & Hal'). destruct add_table_entry as [Hp Ht].
  unfold pte_val. rewrite add_table_pde by (by apply PDX_range). destruct (Z.eqb_spec (PDX va) d) as [E|E].
  - rewrite E, Hnew, Hp, Ht. unfold add_table. pose proof (PTX_range va) as Hx. unfold NPTENTRIES, NPDENTRIES in *.
    rewrite load32_other by (unfold PGSIZE in *; divlia). by apply load32_memset_zero.
  - destruct (present (pde_at m pgdir (PDX va))) eqn:Hpr; [|done].
    destruct (po_tab _ _ _ Hpt (PDX va) (PDX_range va Hva) Hpr) as ((Hta & _) & Hn1 & Hn2).
    apply load32_page_same; [apply PTX_range|]. apply add_table_same; [done|set_solver|done].
Qed.

Lemma add_table_others : others_kept k pgdir (pg :: l) m'.
Proof using All.
  intros q a ((Hqa & _) & Hq & Hqd & _). apply add_table_same; [done|set_solver|done].
Qed.

Lemma add_table_free k1 : kmem_frame k k1 → k_mem k1 = m → free_ok k1 l →
  free_ok (set_k_mem m' k1) l.
Proof using All.
  intros [Hf _] Hm Hfree. destruct add_table_dir as (Hok & Hne & Hnl & Hal & Hal').
  destruct Hfree as [Hc Hnd Hpages]. split; [|done|done]. cbn. eapply chain_frame; [|exact Hc].
  intros q a Hq Ha. rewrite Hm. pose proof (proj1 (list.Forall_forall _ _) Hpages q Hq) as (Hqa & _).
  apply (add_table_same q); [done|intros ->; done|intros ->; done|unfold PGSIZE; lia].
Qed.
End add_table.

(** ** Walking with allocation *)

(** A page-table state: allocator idle, free list [l], directory well-formed. *)
Definition pg_state_ok (k : kernel) (pgdir : Z) (l : list Z) : Prop :=
  kmem_idle k ∧ free_ok k l ∧ pt_ok k pgdir l.

(** From [k] to [k']: some free frames [ps] became tables, the map of
    entries changed as [f] says, all other frames are untouched. *)
Definition pt_step (k k' : kernel) (pgdir : Z) (l l' : list Z) (f : Z → Z) : Prop :=
  kmem_frame k k' ∧ pg_state_ok k' pgdir l' ∧ took (k_mem k) (k_mem k') pgdir l l' ∧
  others_kept k pgdir l (k_mem k') ∧
  (∀ q, other_frame k pgdir l q → other_frame k' pgdir l' q) ∧
  (∀ va, 0 <= va < 2 ^ 32 → pte_val (k_mem k') pgdir va = f va).

Definition pte_ptr (m : mem) (pgdir va : Z) : Z := table_of (pde_at m pgdir (PDX va)) + 4 * PTX va.

Lemma set_mem_frame k mm : kmem_frame k (set_k_mem mm k).
Proof. split; [by destruct k|done]. Qed.

Lemma pt_ok_mono k pgdir l l' : l' ⊆ l → pt_ok k pgdir l → pt_ok k pgdir l'.
Proof.
  intros Hs [H1 H2 H3 H4]. split; [done|set_solver| |done].
  intros d Hd Hp. destruct (H3 d Hd Hp) as (? & ? & ?). split_and!; [done|done|set_solver].
Qed.

Lemma pt_ok_frame k k' pgdir l : k_mem k' = k_mem k → k_end k' = k_end k → pt_ok k pgdir l → pt_ok k' pgdir l.
Proof.
  intros Hm He [H1 H2 H3 H4]. split; [by eapply page_ok_frame|done|..]; rewrite Hm; [|done].
  intros d Hd Hp. destruct (H3 d Hd Hp) as (? & ? & ?). split_and!; [by eapply page_ok_frame|done..].
Qed.

Lemma add_table_other k k1 pgdir d pg l q :
  0 < k_end k → pt_ok k pgdir (pg :: l) → page_ok k pg → 0 <= d < NPDENTRIES →
  present (pde_at (k_mem k) pgdir d) = false → pg ∉ l → k_end k1 = k_end k → k_mem k1 = add_table (k_mem k) pgdir d pg →
  other_frame k pgdir (pg :: l) q → other_frame k1 pgdir l q.
Proof.
  intros Hend Hpt Hpg Hd Hnew Hnl He Hm (Hq & Hnin & Hne & Hd').
  split; [by eapply page_ok_frame|]. split; [set_solver|]. split; [done|].
  intros d' Hd1. rewrite Hm, (add_table_pde k) with (l := l) by done.
  destruct (d' =? d); [|by apply Hd'].
  destruct (add_table_entry k pgdir d pg l) as [_ ->]; try done. set_solver.
Qed.

Lemma pt_step_refl k pgdir l : pg_state_ok k pgdir l → pt_step k k pgdir l l (pte_val (k_mem k) pgdir).
Proof. intros H. split; [reflexivity|]. split; [done|]. split; [by apply took_refl|]. split; [by intros ?|]. by split. Qed.

Lemma walkpgdir_alloc {C} k pgdir l va :
  pg_state_ok k pgdir l → 0 <= va < 2 ^ 32 →
  ∃ k' l' r, (walkpgdir pgdir va true : M kernel C Z) k = Ret r k' ∧
    pt_step k k' pgdir l l' (pte_val (k_mem k) pgdir) ∧
    slots_kept (k_mem k) (k_mem k') pgdir (λ x, x = PDX va) ∧
    (r = 0 ∧ l = [] ∧ present (pde_at (k_mem k') pgdir (PDX va)) = false ∨
     r = pte_ptr (k_mem k') pgdir va ∧ present (pde_at (k_mem k') pgdir (PDX va)) = true).
Proof.
  intros (Hk & Hf & Hpt) Hva. pose proof (kend_pos k Hk) as Hend.
  unfold walkpgdir, mem_load32. rewrite bind_gets, (pde_addr k pgdir l) by done.
  fold (pde_at (k_mem k) pgdir (PDX va)). fold (present (pde_at (k_mem k) pgdir (PDX va))).
  pose proof (PDX_range va Hva) as Hd.
  destruct (present (pde_at (k_mem k) pgdir (PDX va))) eqn:Hp.
  { destruct (po_tab _ _ _ Hpt (PDX va) Hd Hp) as [Ht _].
    exists k, l. eexists. split; [reflexivity|]. split.
    - by apply pt_step_refl.
    - split; [done|]. right. split; [|done]. fold (table_of (pde_at (k_mem k) pgdir (PDX va))).
      by rewrite (pte_addr k). }
  cbn [negb]. destruct (kalloc_pop (C := C) k l Hk Hf) as (k1 & Hfr & Hk1 & Hm & _ & Hl).
  destruct l as [|pg l].
  { destruct Hl as [E Hf1]. exists k1, [], 0. rewrite (bind_Ret_eq _ _ _ _ _ E). split; [done|].
    split; [|split; [intros x _ _; by rewrite Hm|left; by rewrite Hm]]. pose proof (kmem_frame_end _ _ Hfr) as He.
    split; [done|]. split; [split; [done|split; [done|by apply (pt_ok_frame k)]]|].
    split; [apply took_refl; by rewrite Hm|]. split; [intros q a _ _; by rewrite Hm|]. split; [|intros; by rewrite Hm].
    intros q (? & ? & ? & ?). unfold other_frame. rewrite Hm. split_and!; try done. by apply (page_ok_frame k). }
  destruct Hl as (E & Hpg & Hnin & Hf1). rewrite (bind_Ret_eq _ _ _ _ _ E).
  destruct (page_ok_range k pg Hend Hpg) as (Hr & Hal & _).
  destruct (Z.eqb_spec pg 0); [unfold KERNBASE in *; lia|].
  unfold mem_set, mem_store32. rewrite !bind_modify.
  assert (Hlor : Z.lor (Z.lor (Z.lor (V2P pg) PTE_P) PTE_W) PTE_U = Z.lor (V2P pg) 7)
    by (by rewrite <- !Z.lor_assoc). rewrite Hlor, (pte_addr k) by done.
  set (k2 := set_k_mem _ _).
  assert (Hm2 : k_mem k2 = add_table (k_mem k) pgdir (PDX va) pg) by (unfold k2; cbn; by rewrite Hm).
  assert (He2 : k_end k2 = k_end k) by exact (kmem_frame_end _ _ Hfr).
  assert (Hpt2 : pt_ok k2 pgdir l).
  { apply (pt_ok_frame (set_k_mem (add_table (k_mem k) pgdir (PDX va) pg) k)); [done|done|].
    apply add_table_pt_ok; done. }
  exists k2, l, (pg + 4 * PTX va). split; [done|]. split.
  - split; [etrans; [exact Hfr|]; unfold k2; etrans; apply set_mem_frame|].
    split; [split; [done|split; [|done]]|].
    + unfold k2. cbn. change (free_ok (set_k_mem (add_table (k_mem k1) pgdir (PDX va) pg) k1) l).
      rewrite Hm. by apply (add_table_free k pgdir (PDX va) pg l).
    + split.
      { exists [pg]. split; [done|]. rewrite Hm2. destruct (add_table_entry k pgdir (PDX va) pg l Hend Hpt Hpg Hd Hp Hnin) as [Hq1 Hq2].
        apply (tables_add _ _ pgdir (PDX va) pg Hd Hp).
        - intros d' Hd' Hne. rewrite (add_table_pde k pgdir (PDX va) pg l) by done. by rewrite (proj2 (Z.eqb_neq _ _) Hne).
        - unfold slot_table. by rewrite (add_table_pde k pgdir (PDX va) pg l), Z.eqb_refl, Hq1, Hq2 by done. }
      split; [intros q a; rewrite Hm2; by apply (add_table_others k)|].
      split; [intros q; by apply (add_table_other k k2 pgdir (PDX va) pg l)|].
      intros va' Hva'. rewrite Hm2. by apply (add_table_pte k _ _ _ l).
  - split.
    { intros x Hx Hne. rewrite Hm2, (add_table_pde k pgdir (PDX va) pg l) by done. by rewrite (proj2 (Z.eqb_neq _ _) Hne). }
    right. unfold pte_ptr. rewrite Hm2, (add_table_pde k pgdir (PDX va) pg l) by done. rewrite Z.eqb_refl.
    destruct (add_table_entry k pgdir (PDX va) pg l Hend Hpt Hpg Hd Hp Hnin) as [-> ->]. by split.
Qed.

Lemma pt_step_trans k k1 k2 pgdir l l1 l2 f1 f2 :
  pt_step k k1 pgdir l l1 f1 → pt_step k1 k2 pgdir l1 l2 f2 → pt_step k k2 pgdir l l2 f2.
Proof.
  intros (F1 & S1 & X1 & O1 & Q1 & V1) (F2 & S2 & X2 & O2 & Q2 & V2).
  split; [by etrans|]. split; [done|]. split; [by eapply took_trans|]. split; [|split; [|done]].
  - intros q a Hq Ha. rewrite (O2 q a) by (auto || done). by apply (O1 q).
  - intros q Hq. by apply Q2, Q1.
Qed.

Lemma pt_step_ext k k' pgdir l l' f g :
  (∀ va, 0 <= va < 2 ^ 32 → f va = g va) → pt_step k k' pgdir l l' f → pt_step k k' pgdir l l' g.
Proof. intros H (? & ? & ? & ? & ? & V). repeat (split; [done|]). intros va Hva. by rewrite V, H. Qed.

(** ** Storing an entry *)
Section store_entry.
Variables (k : kernel) (pgdir : Z) (l : list Z) (va v : Z).
Hypothesis Hst : pg_state_ok k pgdir l.
Hypothesis Hva : 0 <= va < 2 ^ 32.
Hypothesis Hp : present (pde_at (k_mem k) pgdir (PDX va)) = true.
Notation m := (k_mem k).
Notation t := (table_of (pde_at (k_mem k) pgdir (PDX va))).
Notation r := (pte_ptr (k_mem k) pgdir va).
Notation m' := (store32 (k_mem k) (pte_ptr (k_mem k) pgdir va) v).

Lemma entry_table : page_ok k t ∧ t ≠ pgdir ∧ t ∉ l ∧ t mod PGSIZE = 0 ∧ pgdir mod PGSIZE = 0.
Proof using All.
  destruct Hst as (_ & _ & Hpt). destruct (po_tab _ _ _ Hpt (PDX va) (PDX_range va Hva) Hp) as (H1 & H2 & H3).
  split; [done|]. split; [done|]. split; [done|]. split; [apply H1|apply (po_dir _ _ _ Hpt)].
Qed.

Lemma entry_range : t <= r ∧ r + 4 <= t + PGSIZE ∧ r mod 4 = 0.
Proof using All.
  destruct entry_table as (_ & _ & _ & Ha & _). pose proof (PTX_range va).
  unfold pte_ptr, NPTENTRIES, PGSIZE in *. divlia.
Qed.

Lemma entry_same q a : q mod PGSIZE = 0 → q ≠ t → q <= a < q + PGSIZE → m' a = m a.
Proof using All.
  intros Hq Hne Ha. destruct entry_range as (R1 & R2 & _). destruct entry_table as (_ & _ & _ & Hal & _).
  assert (¬ (t <= a < t + PGSIZE)) by (intros H; by apply (frame_distinct q t a)).
  unfold store32. repeat (case_match; [lia|]). done.
Qed.

Lemma entry_pde d : 0 <= d < NPDENTRIES → pde_at m' pgdir d = pde_at m pgdir d.
Proof using All.
  intros Hd. destruct entry_table as (_ & Hne & _ & _ & Hal).
  apply load32_page_same; [done|]. intros a. apply entry_same; [done|by apply not_eq_sym].
Qed.

Lemma entry_pte va' : 0 <= va' < 2 ^ 32 →
  pte_val m' pgdir va' = if va' / PGSIZE =? va / PGSIZE then u32 v else pte_val m pgdir va'.
Proof using All.
  intros Hva'. destruct entry_range as (R1 & R2 & R3). destruct entry_table as (Ht & Hne & _ & Hal & Hal').
  destruct (Z.eqb_spec (va' / PGSIZE) (va / PGSIZE)) as [E|E].
  - rewrite (pte_val_page m' pgdir va' va) by done. unfold pte_val at 1.
    rewrite entry_pde, Hp by (by apply PDX_range). apply load32_store32_eq.
  - unfold pte_val. rewrite entry_pde by (by apply PDX_range).
    destruct (present (pde_at m pgdir (PDX va'))) eqn:Hp'; [|done].
    destruct Hst as (_ & _ & Hpt). destruct (decide (PDX va' = PDX va)) as [Ed|Ed].
    + assert (PTX va' ≠ PTX va) by (intros Ex; by apply E, page_index). rewrite Ed.
      pose proof (PTX_range va') as Hx. unfold NPTENTRIES, PGSIZE in *.
      apply load32_other; [done|divlia|unfold pte_ptr; lia].
    + destruct (po_tab _ _ _ Hpt (PDX va') (PDX_range va' Hva') Hp') as ((Hta & _) & _ & _).
      apply load32_page_same; [apply PTX_range|]. intros a. apply entry_same; [done|].
      intros Et. apply Ed. by apply (po_inj _ _ _ Hpt); [apply PDX_range|apply PDX_range| | |].
Qed.

Lemma entry_step :
  pt_step k (set_k_mem m' k) pgdir l l
    (λ va', if va' / PGSIZE =? va / PGSIZE then u32 v else pte_val m pgdir va').
Proof using All.
  destruct entry_table as (Ht & Hne & Hnl & Hal & Hal'). destruct Hst as (Hk & Hf & Hpt).
  split; [apply set_mem_frame|]. split; [split; [done|split]|].
  - destruct Hf as [Hc Hnd Hpg]. split; [|done|done]. cbn. eapply chain_frame; [|exact Hc].
    intros q a Hq Ha. pose proof (proj1 (list.Forall_forall _ _) Hpg q Hq) as (Hqa & _).
    apply (entry_same q); [done|by intros ->|unfold PGSIZE; lia].
  - destruct Hpt as [P1 P2 P3 P4]. split; [done|done|..]; cbn [k_mem set_k_mem].
    + intros d Hd. rewrite entry_pde by done. by apply P3.
    + intros d1 d2 H1 H2. rewrite !entry_pde by done. by apply P4.
  - split; [apply took_refl; by apply entry_pde|]. split; [|split].
    + intros q a ((Hqa & _) & _ & _ & Hqt). apply entry_same; [done|]. by apply Hqt; [apply PDX_range|].
    + intros q (Hq & H1 & H2 & H3). split; [done|]. split; [done|]. split; [done|]. cbn [k_mem set_k_mem].
      intros d Hd. rewrite entry_pde by done. by apply H3.
    + intros va' Hva'. by apply entry_pte.
Qed.
End store_entry.

(** ** Mapping a range *)

(** The entries after the first [n] pages from [a] on have been mapped to the
    frames from [pa] on. *)
Definition map_range (a : Z) (n : nat) (pa perm : Z) (g : Z → Z) (va : Z) : Z :=
  if (a <=? va) && (va <? a + PGSIZE * Z.of_nat n)
  then Z.lor (pa + (va - va mod PGSIZE - a)) (Z.lor perm PTE_P) else g va.

Lemma lor_small f : 0 <= f < 4096 → 0 <= Z.lor f PTE_P < 4096.
Proof.
  intros Hf. unfold PTE_P. split; [apply Z.lor_nonneg; lia|]. change 4096 with (2 ^ 12) in *.
  apply Z.log2_lt_cancel. destruct (Z.eqb_spec f 0) as [->|]; [done|].
  rewrite Z.log2_lor by lia. change (Z.log2 1) with 0. rewrite Z.max_l by (apply Z.log2_nonneg).
  change (Z.log2 (2 ^ 12)) with 12. apply Z.log2_lt_pow2; lia.
Qed.

Lemma map_range_0 a pa perm g va : map_range a 0 pa perm g va = g va.
Proof. unfold map_range, PGSIZE. case_match; [lia|done]. Qed.

Lemma map_range_S a n pa perm g va : 0 <= va → a mod PGSIZE = 0 →
  map_range (a + PGSIZE) n (pa + PGSIZE) perm
    (λ va', if va' / PGSIZE =? a / PGSIZE then Z.lor pa (Z.lor perm PTE_P) else g va') va =
  map_range a (S n) pa perm g va.
Proof.
  intros Hva Ha. unfold map_range, PGSIZE in *.
  destruct (Z.leb_spec (a + 4096) va), (Z.ltb_spec va (a + 4096 + 4096 * Z.of_nat n)),
    (Z.leb_spec a va), (Z.ltb_spec va (a + 4096 * Z.of_nat (S n))); cbn [andb]; try lia;
    try (f_equal; lia); destruct (Z.eqb_spec (va / 4096) (a / 4096)); try done; try (exfalso; divlia).
  f_equal. divlia.
Qed.

Lemma entry_value pa perm :
  0 <= pa < 2 ^ 32 → pa mod 4096 = 0 → 0 <= perm < 4096 →
  u32 (u32 (Z.lor (Z.lor pa perm) PTE_P)) = Z.lor pa (Z.lor perm PTE_P).
Proof.
  intros Hp Ha Hf. pose proof (lor_small perm Hf). rewrite <- Z.lor_assoc.
  rewrite lor_page_flags by done. rewrite (u32_small (pa + _)) by divlia. apply u32_small. divlia.
Qed.

Lemma pte_ptr_pos k pgdir l va : pg_state_ok k pgdir l → 0 <= va < 2 ^ 32 →
  present (pde_at (k_mem k) pgdir (PDX va)) = true → pte_ptr (k_mem k) pgdir va ≠ 0.
Proof.
  intros Hst Hva Hp. pose proof (entry_table k pgdir l va 0 Hst Hva Hp) as (Ht & _).
  pose proof Hst as (Hk & _). destruct (page_ok_range k _ (kend_pos k Hk) Ht) as (Hr & _).
  pose proof (PTX_range va). unfold pte_ptr, KERNBASE in *. lia.
Qed.

(** One round of the loop: out of memory, or one more page mapped. *)
Lemma mappages_step {C} fuel k pgdir l a last pa perm :
  pg_state_ok k pgdir l → 0 <= a < 2 ^ 32 → pa mod PGSIZE = 0 → 0 <= pa < 2 ^ 32 → 0 <= perm < PGSIZE →
  present (pte_val (k_mem k) pgdir a) = false →
  (∃ k', (mappages_loop (S fuel) pgdir a last pa perm : M kernel C Z) k = Ret (-1) k' ∧
     pt_step k k' pgdir l [] (pte_val (k_mem k) pgdir) ∧ slots_kept (k_mem k) (k_mem k') pgdir (λ x, x = PDX a) ∧
     present (pde_at (k_mem k') pgdir (PDX a)) = false) ∨
  (∃ k' l', (mappages_loop (S fuel) pgdir a last pa perm : M kernel C Z) k =
      (if a =? last then mret 0 else mappages_loop fuel pgdir (u32 (a + PGSIZE)) last (u32 (pa + PGSIZE)) perm) k' ∧
     pt_step k k' pgdir l l'
       (λ va, if va / PGSIZE =? a / PGSIZE then Z.lor pa (Z.lor perm PTE_P) else pte_val (k_mem k) pgdir va) ∧
     slots_kept (k_mem k) (k_mem k') pgdir (λ x, x = PDX a)).
Proof.
  intros Hst Hva Hpa Hpav Hperm Habs. cbn [mappages_loop].
  destruct (walkpgdir_alloc (C := C) k pgdir l a Hst Hva) as (k1 & l1 & r & E & Hstep & Hsl & Hr).
  rewrite (bind_Ret_eq _ _ _ _ _ E). pose proof Hstep as (_ & Hst1 & Hx & _ & _ & Hv1).
  destruct Hr as [(-> & -> & Hno)|[-> Hp1]].
  { left. exists k1. split; [done|]. by apply took_nil in Hx as ->. }
  right. pose proof (pte_ptr_pos k1 pgdir l1 a Hst1 Hva Hp1) as Hne.
  destruct (Z.eqb_spec (pte_ptr (k_mem k1) pgdir a) 0); [done|].
  unfold pte_get, pte_set, mem_load32, mem_store32.
  destruct (Z.eqb_spec (pte_ptr (k_mem k1) pgdir a) 0); [done|]. rewrite bind_gets.
  assert (Hload : load32 (k_mem k1) (pte_ptr (k_mem k1) pgdir a) = pte_val (k_mem k) pgdir a).
  { rewrite <- Hv1 by done. unfold pte_val, pte_ptr. by rewrite Hp1. }
  rewrite Hload. fold (present (pte_val (k_mem k) pgdir a)). rewrite Habs, bind_modify.
  pose proof (entry_step k1 pgdir l1 a (u32 (Z.lor (Z.lor pa perm) PTE_P)) Hst1 Hva Hp1) as Hstep2.
  eexists _, l1. split; [reflexivity|]. split; cycle 1.
  { intros x Hx1 Hne1. cbn [k_mem set_k_mem]. rewrite (entry_pde k1 pgdir l1 a _ Hst1 Hva Hp1) by done. by apply Hsl. }
  eapply pt_step_trans; [exact Hstep|].
  eapply pt_step_ext; [|exact Hstep2]. intros va Hva'. cbv beta. rewrite entry_value by done.
  case_match; [done|]. by apply Hv1.
Qed.

(** A slot of the directory for an address of the range; one without a table. *)
Definition slot_in (a len x : Z) : Prop := ∃ va, a <= va < a + len ∧ x = PDX va.
Definition slot_out (m : mem) (pgdir a len : Z) : Prop :=
  ∃ va, a <= va < a + len ∧ present (pde_at m pgdir (PDX va)) = false.

Lemma slot_in_sub a len a' len' x : a <= a' → a' + len' <= a + len → slot_in a' len' x → slot_in a len x.
Proof. intros H1 H2 (va & Hva & ->). exists va. split; [lia|done]. Qed.

Lemma slot_in_first a len x : 0 < len → x = PDX a → slot_in a len x.
Proof. intros H ->. exists a. split; [lia|done]. Qed.

Lemma mappages_loop_spec {C} n : ∀ fuel k pgdir l a pa perm,
  pg_state_ok k pgdir l → (n < fuel)%nat →
  a mod PGSIZE = 0 → 0 <= a → a + PGSIZE * (Z.of_nat n + 1) <= 2 ^ 32 →
  pa mod PGSIZE = 0 → 0 <= pa → pa + PGSIZE * (Z.of_nat n + 1) <= 2 ^ 32 → 0 <= perm < PGSIZE →
  (∀ va, a <= va < a + PGSIZE * (Z.of_nat n + 1) → present (pte_val (k_mem k) pgdir va) = false) →
  ∃ k' l' r j, (mappages_loop fuel pgdir a (a + PGSIZE * Z.of_nat n) pa perm : M kernel C Z) k = Ret r k' ∧
    pt_step k k' pgdir l l' (map_range a j pa perm (pte_val (k_mem k) pgdir)) ∧
    slots_kept (k_mem k) (k_mem k') pgdir (slot_in a (PGSIZE * (Z.of_nat n + 1))) ∧
    (r = 0 ∧ j = S n ∨ r = -1 ∧ l' = [] ∧ (j <= n)%nat ∧ slot_out (k_mem k') pgdir a (PGSIZE * (Z.of_nat n + 1))).
Proof.
  induction n as [|n IH]; intros fuel k pgdir l a pa perm Hst Hfuel Ha Ha0 Har Hpa Hpa0 Hpr Hperm Habs;
    (destruct fuel as [|fuel]; [lia|]).
  - destruct (mappages_step (C := C) fuel k pgdir l a (a + PGSIZE * Z.of_nat 0) pa perm Hst)
      as [(k1 & E & Hs & Hsl & Hno)|(k1 & l1 & E & Hs & Hsl)]; try done; try (unfold PGSIZE in *; lia);
      [apply Habs; unfold PGSIZE; lia|..].
    + exists k1, [], (-1), 0%nat. split; [done|]. split; cycle 1.
      { split; [eapply slots_kept_sub; [|exact Hsl]; intros x; apply slot_in_first; unfold PGSIZE; lia|].
        right. split_and!; [done|done|lia|]. exists a. split; [unfold PGSIZE; lia|done]. }
      eapply pt_step_ext; [|exact Hs]. intros va _. by rewrite map_range_0.
    + exists k1, l1, 0, 1%nat. rewrite E. destruct (Z.eqb_spec a (a + PGSIZE * Z.of_nat 0)); [|lia].
      split; [done|]. split; cycle 1.
      { split; [|by left]. eapply slots_kept_sub; [|exact Hsl]; intros x; apply slot_in_first; unfold PGSIZE; lia. }
      eapply pt_step_ext; [|exact Hs].
      intros va Hva. rewrite <- map_range_S by (done || lia). by rewrite map_range_0.
  - destruct (mappages_step (C := C) fuel k pgdir l a (a + PGSIZE * Z.of_nat (S n)) pa perm Hst)
      as [(k1 & E & Hs & Hsl & Hno)|(k1 & l1 & E & Hs & Hsl)]; try done; try (unfold PGSIZE in *; lia);
      [apply Habs; unfold PGSIZE; lia|..].
    + exists k1, [], (-1), 0%nat. split; [done|]. split; cycle 1.
      { split; [eapply slots_kept_sub; [|exact Hsl]; intros x; apply slot_in_first; unfold PGSIZE; lia|].
        right. split_and!; [done|done|lia|]. exists a. split; [unfold PGSIZE; lia|done]. }
      eapply pt_step_ext; [|exact Hs]. intros va _. by rewrite map_range_0.
    + rewrite E. destruct (Z.eqb_spec a (a + PGSIZE * Z.of_nat (S n))); [unfold PGSIZE in *; lia|].
      pose proof Hs as (_ & Hst1 & _ & _ & _ & Hv). rewrite !u32_small by (unfold PGSIZE in *; lia).
      destruct (IH fuel k1 pgdir l1 (a + PGSIZE) (pa + PGSIZE) perm) as (k2 & l2 & r & j & E2 & Hs2 & Hsl2 & Hr);
        try done; try (unfold PGSIZE in *; lia); try (unfold PGSIZE in *; divlia).
      { intros va Hva. rewrite Hv by (unfold PGSIZE in *; lia).
        destruct (Z.eqb_spec (va / PGSIZE) (a / PGSIZE)); [unfold PGSIZE in *; exfalso; divlia|].
        apply Habs. unfold PGSIZE in *. lia. }
      exists k2, l2, r, (S j). replace (a + PGSIZE * Z.of_nat (S n)) with (a + PGSIZE + PGSIZE * Z.of_nat n) by (unfold PGSIZE; lia).
      split; [done|]. split; cycle 1.
      { split.
        - eapply slots_kept_trans; [| |exact Hsl|exact Hsl2]; intros x; [apply slot_in_first|apply slot_in_sub]; unfold PGSIZE; lia.
        - destruct Hr as [[-> ->]|(-> & -> & ? & (va & Hva & Hno))]; [by left|right]. split_and!; [done|done|lia|].
          exists va. split; [unfold PGSIZE in *; lia|done]. }
      eapply pt_step_trans; [exact Hs|]. eapply pt_step_ext; [|exact Hs2].
      intros va Hva. rewrite <- map_range_S by (done || lia). unfold map_range. case_match; [done|]. by apply Hv.
Qed.

(** The page range of [mappages(pgdir, va, size, ...)]: [first] page and
    number of pages. *)
Definition first_page (va : Z) : Z := va - va mod PGSIZE.
Definition pages_of (va size : Z) : nat := S (Z.to_nat ((first_page (va + size - 1) - first_page va) / PGSIZE)).

Lemma pages_of_eq va size : 0 < size →
  first_page va + PGSIZE * Z.of_nat (pages_of va size) = first_page (va + size - 1) + PGSIZE.
Proof.
  intros Hsz. unfold pages_of. rewrite Nat2Z.inj_succ, Z2Nat.id by (unfold first_page, PGSIZE; divlia).
  unfold first_page, PGSIZE. divlia.
Qed.

Lemma mappages_spec {C} k pgdir l va size pa perm :
  pg_state_ok k pgdir l → 0 <= va → 0 < size → va + size <= 2 ^ 32 →
  pa mod PGSIZE = 0 → 0 <= pa → pa + PGSIZE * Z.of_nat (pages_of va size) <= 2 ^ 32 →
  0 <= perm < PGSIZE →
  (∀ va', first_page va <= va' < first_page va + PGSIZE * Z.of_nat (pages_of va size) →
     present (pte_val (k_mem k) pgdir va') = false) →
  ∃ k' l' r j, (mappages pgdir va size pa perm : M kernel C Z) k = Ret r k' ∧
    pt_step k k' pgdir l l' (map_range (first_page va) j pa perm (pte_val (k_mem k) pgdir)) ∧
    slots_kept (k_mem k) (k_mem k') pgdir (slot_in (first_page va) (PGSIZE * Z.of_nat (pages_of va size))) ∧
    (r = 0 ∧ j = pages_of va size ∨ r = -1 ∧ l' = [] ∧ (j < pages_of va size)%nat ∧
       slot_out (k_mem k') pgdir (first_page va) (PGSIZE * Z.of_nat (pages_of va size))).
Proof.
  intros Hst Hva Hsz Hr Hpa Hpa0 Hpr Hperm Habs. unfold mappages.
  set (n := Z.to_nat ((first_page (va + size - 1) - first_page va) / PGSIZE)) in *.
  change (pages_of va size) with (S n) in *.
  assert (Hn : first_page (va + size - 1) = first_page va + PGSIZE * Z.of_nat n)
    by (unfold n, first_page, PGSIZE in *; divlia).
  assert (Hlast : first_page va + PGSIZE * (Z.of_nat n + 1) <= 2 ^ 32)
    by (unfold first_page, PGSIZE in *; change (2 ^ 32) with 4294967296 in *; divlia).
  rewrite (u32_small (va + size - 1)) by lia.
  rewrite !PGROUNDDOWN_eq by lia. fold (first_page va). fold (first_page (va + size - 1)). rewrite Hn.
  replace (u32 (first_page va + PGSIZE * Z.of_nat n - first_page va)) with (PGSIZE * Z.of_nat n);
    [|rewrite u32_small by (unfold first_page, PGSIZE in *; divlia); lia].
  replace (PGSIZE * Z.of_nat n / PGSIZE) with (Z.of_nat n) by (unfold PGSIZE; divlia). rewrite Nat2Z.id.
  destruct (mappages_loop_spec (C := C) n (S n) k pgdir l (first_page va) pa perm)
    as (k' & l' & r & j & E & Hs & Hsl & Hcase);
    try done; try (unfold first_page, PGSIZE in *; divlia).
  { intros va' Hva'. apply Habs. lia. }
  replace (Z.of_nat n + 1) with (Z.of_nat (S n)) in Hsl, Hcase by lia.
  exists k', l', r, j. split; [done|]. split; [done|]. split; [done|].
  destruct Hcase as [?|(? & ? & ? & ?)]; [by left|right]. split_and!; [done|done|lia|done].
Qed.

(** Translating through the tables. *)
Lemma uva2ka_eq {C} k pgdir l va :
  pg_state_ok k pgdir l → 0 <= va < 2 ^ 32 → present (pde_at (k_mem k) pgdir (PDX va)) = true →
  (uva2ka pgdir va : M kernel C Z) k =
    Ret (if present (pte_val (k_mem k) pgdir va) && negb (Z.land (pte_val (k_mem k) pgdir va) PTE_U =? 0)
         then table_of (pte_val (k_mem k) pgdir va) else 0) k.
Proof.
  intros Hst Hva Hp. pose proof (pte_ptr_pos k pgdir l va Hst Hva Hp) as Hne.
  destruct Hst as (Hk & Hf & Hpt). unfold uva2ka.
  rewrite (bind_Ret_eq _ _ _ _ _ (walkpgdir_look (C := C) k pgdir l Hk Hpt va Hva)), Hp.
  fold (pte_ptr (k_mem k) pgdir va). unfold pte_get, mem_load32.
  destruct (Z.eqb_spec (pte_ptr (k_mem k) pgdir va) 0); [done|]. rewrite bind_gets.
  assert (Hload : load32 (k_mem k) (pte_ptr (k_mem k) pgdir va) = pte_val (k_mem k) pgdir va)
    by (unfold pte_val, pte_ptr; by rewrite Hp).
  rewrite Hload. unfold present.
  by destruct (Z.land (pte_val (k_mem k) pgdir va) PTE_P =? 0), (Z.land (pte_val (k_mem k) pgdir va) PTE_U =? 0).
Qed.

Lemma present_pde m pgdir va : present (pte_val m pgdir va) = true → present (pde_at m pgdir (PDX va)) = true.
Proof. unfold pte_val. by destruct (present (pde_at m pgdir (PDX va))). Qed.

(** C21: mapping a range that has no present entry terminates, and either
    returns 0 having mapped exactly the pages of the range to consecutive
    frames with the permissions asked for, or returns -1 with the allocator
    exhausted and a prefix of the range mapped. Every other entry, every frame
    outside the page tables and the free list, and the well-formedness of the
    directory are kept. *)
Theorem mappages_maps {C} k pgdir l va size pa perm :
  pg_state_ok k pgdir l → 0 <= va → 0 < size → va + size <= 2 ^ 32 →
  pa mod PGSIZE = 0 → 0 <= pa → pa + PGSIZE * Z.of_nat (pages_of va size) <= 2 ^ 32 →
  0 <= perm < PGSIZE →
  (∀ va', first_page va <= va' < first_page va + PGSIZE * Z.of_nat (pages_of va size) →
     present (pte_val (k_mem k) pgdir va') = false) →
  ∃ k' l' r j, (mappages pgdir va size pa perm : M kernel C Z) k = Ret r k' ∧
    pt_step k k' pgdir l l' (map_range (first_page va) j pa perm (pte_val (k_mem k) pgdir)) ∧
    (r = 0 ∧ j = pages_of va size ∨ r = -1 ∧ l' = [] ∧ (j < pages_of va size)%nat).
Proof.
  intros H1 H2 H3 H4 H5 H6 H7 H8 H9.
  destruct (mappages_spec (C := C) k pgdir l va size pa perm H1 H2 H3 H4 H5 H6 H7 H8 H9) as (k' & l' & r & j & E & Hs & _ & Hcase).
  exists k', l', r, j. split; [done|]. split; [done|]. destruct Hcase as [?|(? & ? & ? & _)]; [by left|by right].
Qed.

(** after a successful [mappages] with [PTE_U], [uva2ka] translates every
    address of the range to the kernel address of its frame; without [PTE_U]
    it refuses with 0. *)
Theorem mappages_uva2ka {C} k k' pgdir l va size pa perm va' :
  pg_state_ok k pgdir l → 0 <= va → 0 < size → va + size <= 2 ^ 32 →
  pa mod PGSIZE = 0 → 0 <= pa → pa + PGSIZE * Z.of_nat (pages_of va size) <= 2 ^ 32 →
  0 <= perm < PGSIZE →
  (∀ va', first_page va <= va' < first_page va + PGSIZE * Z.of_nat (pages_of va size) →
     present (pte_val (k_mem k) pgdir va') = false) →
  (mappages pgdir va size pa perm : M kernel C Z) k = Ret 0 k' → va <= va' < va + size →
  (uva2ka pgdir va' : M kernel C Z) k' =
    Ret (if Z.land perm PTE_U =? 0 then 0 else P2V (pa + (first_page va' - first_page va))) k'.
Proof.
  intros Hst Hva Hsz Hr Hpa Hpa0 Hpr Hperm Habs E Hin.
  destruct (mappages_spec (C := C) k pgdir l va size pa perm) as (k1 & l1 & r & j & E1 & Hs & _ & Hcase); try done.
  rewrite E in E1. injection E1 as <- <-. destruct Hcase as [[_ ->]|[H _]]; [|done].
  pose proof Hs as (_ & Hst1 & _ & _ & _ & Hv).
  assert (Hwin : first_page va <= va' < first_page va + PGSIZE * Z.of_nat (pages_of va size))
    by (rewrite pages_of_eq by done; unfold first_page, PGSIZE; divlia).
  assert (Hval : pte_val (k_mem k') pgdir va' =
    Z.lor (pa + (first_page va' - first_page va)) (Z.lor perm PTE_P)).
  { rewrite Hv by lia. unfold map_range. fold (first_page va').
    destruct (Z.leb_spec (first_page va) va'), (Z.ltb_spec va' (first_page va + PGSIZE * Z.of_nat (pages_of va size)));
      cbn [andb]; try lia. }
  pose proof (lor_small perm Hperm) as Hl.
  set (f := pa + (first_page va' - first_page va)) in *.
  assert (Hf : f mod 4096 = 0) by (unfold f, first_page, PGSIZE in *; divlia).
  assert (Hwin2 : first_page va <= first_page va' /\ first_page va' + PGSIZE <= first_page va + PGSIZE * Z.of_nat (pages_of va size)).
  { clear - Hwin. set (N := Z.of_nat (pages_of va size)) in *. unfold first_page, PGSIZE in *. divlia. }
  assert (Hf2 : 0 <= f < 2 ^ 32) by (unfold f, PGSIZE in *; lia).
  assert (Hp : present (pte_val (k_mem k') pgdir va') = true).
  { rewrite Hval, present_flags by done. unfold PTE_P. rewrite Z.land_lor_distr_l.
    change (Z.land 1 1) with 1. destruct (Z.eqb_spec (Z.lor (Z.land perm 1) 1) 0) as [H|]; [|done].
    apply Z.lor_eq_0_iff in H. lia. }
  rewrite (uva2ka_eq k' pgdir l1 va') by (done || lia || by apply present_pde). rewrite Hp. cbn [andb].
  rewrite Hval at 1. unfold PTE_U. rewrite Z.land_lor_distr_l, (land_page_flags f 4), Z.lor_0_l by (done || lia).
  rewrite Z.land_lor_distr_l. change (Z.land PTE_P 4) with 0. rewrite Z.lor_0_r.
  destruct (Z.land perm 4 =? 0); [done|]. cbn [negb]. rewrite Hval. unfold table_of.
  by rewrite PTE_ADDR_flags.
Qed.

(** ** Witnesses *)

(** An empty directory beside one free frame. *)
Definition demo_dir : Z := page1 + PGSIZE.

Lemma demo_dir_ok : pg_state_ok demo_kmem demo_dir [page1].
Proof.
  split; [exact demo_kmem_idle|]. split; [exact demo_free_ok|].
  assert (H : ∀ d, present (pde_at (k_mem demo_kmem) demo_dir d) = false) by done. split.
  - split; [done|]. split; by vm_compute.
  - intros Hin%list_elem_of_singleton. done.
  - intros d _ Hd. by rewrite H in Hd.
  - intros d d' _ _ Hd. by rewrite H in Hd.
Qed.

Lemma demo_unmapped va : present (pte_val (k_mem demo_kmem) demo_dir va) = false.
Proof. done. Qed.

Lemma mappages_maps_witness :
  let f := pte_val (k_mem demo_kmem) demo_dir in
  ∃ k' l' r j, (mappages demo_dir 0x1000 PGSIZE 0x3000 6 : M kernel unit Z) demo_kmem = Ret r k' ∧
    pt_step demo_kmem k' demo_dir [page1] l' (map_range (first_page 0x1000) j 0x3000 6 f) ∧
    (r = 0 ∧ j = pages_of 0x1000 PGSIZE ∨ r = -1 ∧ l' = [] ∧ (j < pages_of 0x1000 PGSIZE)%nat).
Proof.
  apply mappages_maps; [exact demo_dir_ok|done|done|done|done|done|done|done|].
  intros va' _. apply demo_unmapped.
Defined.

Lemma mappages_uva2ka_witness :
  match (mappages demo_dir 0x1000 PGSIZE 0x3000 6 : M kernel unit Z) demo_kmem with
  | Ret r k' => r = 0 → (uva2ka demo_dir 0x1234 : M kernel unit Z) k' =
      Ret (if Z.land 6 PTE_U =? 0 then 0 else P2V (0x3000 + (first_page 0x1234 - first_page 0x1000))) k'
  | _ => False
  end ∧ (match (mappages demo_dir 0x1000 PGSIZE 0x3000 6 : M kernel unit Z) demo_kmem with Ret r _ => r | _ => -2 end) = 0.
Proof.
  assert (Hr : (match (mappages demo_dir 0x1000 PGSIZE 0x3000 6 : M kernel unit Z) demo_kmem with Ret r _ => r | _ => -2 end) = 0) by (vm_compute; reflexivity).
  split; [|exact Hr]. destruct ((mappages demo_dir 0x1000 PGSIZE 0x3000 6 : M kernel unit Z) demo_kmem) as [r k'|c k'|e k'|e] eqn:E; try discriminate Hr. intros ->.
  pose proof (mappages_uva2ka (C := unit) demo_kmem k' demo_dir [page1] 0x1000 PGSIZE 0x3000 6 0x1234 demo_dir_ok) as H.
  specialize (H ltac:(lia) ltac:(unfold PGSIZE; lia) ltac:(unfold PGSIZE; lia) eq_refl ltac:(lia)).
  specialize (H ltac:(vm_compute; discriminate) ltac:(unfold PGSIZE; lia) (λ va' _, demo_unmapped va') E).
  exact (H ltac:(unfold PGSIZE; lia)).
Defined.
