(* ===== verification/AddrSpec.v ===== *)
(** * AddrSpec: freeing an address space

    [deallocuvm] and [freevm] give back exactly the frames of the pages, of
    the page tables and of the directory, each once. *)

From S2P Require Import Prelude CString Kernel Sched Kalloc Fifo Paging PagingSpec.

(** ** Definitions *)

(** The frame of page number [i], and those of the pages from [i] to [n]. *)
Definition frame_at (m : mem) (pgdir i : Z) : option Z :=
  let e := pte_val m pgdir (PGSIZE * i) in if present e then Some (table_of e) else None.
Definition frames (m : mem) (pgdir i n : Z) : list Z := omap (frame_at m pgdir) (seqZ i (n - i)).

(** The running process keeps no record of a resident page of [pgdir]. *)
Definition no_record (k : kernel) (p : nat) (pgdir : Z) : Prop :=
  ∃ pr, k_procs k !! p = Some pr ∧ (p_pid pr <= 2 ∨ ∀ g, g ∈ p_ram_manager pr → is_used g = true → pg_pgdir g ≠ pgdir).

(** The pages of the range are frames of their own: distinct, neither free
    nor page tables. *)
Definition owns_pages (k : kernel) (pgdir : Z) (l : list Z) (i n : Z) : Prop :=
  NoDup (frames (k_mem k) pgdir i n) ∧ ∀ f, f ∈ frames (k_mem k) pgdir i n → other_frame k pgdir l f.

(** ** The frames of a range *)
Lemma elem_of_rev {A} (x : A) l : x ∈ rev l ↔ x ∈ l.
Proof. by rewrite !list_elem_of_In, <- in_rev. Qed.

Lemma frames_nil m pgdir i n : n <= i → frames m pgdir i n = [].
Proof. intros H. unfold frames. by rewrite seqZ_nil by lia. Qed.

Lemma frames_step m pgdir i n : i < n → frames m pgdir i n = option_list (frame_at m pgdir i) ++ frames m pgdir (i + 1) n.
Proof.
  intros H. unfold frames. rewrite seqZ_cons by lia. replace (Z.succ i) with (i + 1) by lia. replace (Z.pred (n - i)) with (n - (i + 1)) by lia.
  cbn. by destruct (frame_at m pgdir i).
Qed.

Lemma frames_skip m pgdir i j n : i <= j → (∀ x, i <= x < j → x < n → frame_at m pgdir x = None) → frames m pgdir i n = frames m pgdir j n.
Proof.
  intros Hij. remember (Z.to_nat (j - i)) as d eqn:Hd. revert i Hij Hd. induction d as [|d IH]; intros i Hij Hd H.
  - by replace j with i by lia.
  - destruct (decide (i < n)) as [Hin|Hin]; [|by rewrite !frames_nil by lia].
    rewrite frames_step, (H i) by lia. cbn [option_list app]. apply IH; [lia|lia|]. intros x Hx. apply H. lia.
Qed.

Lemma frames_ext m m' pgdir i n : (∀ x, i <= x < n → pte_val m' pgdir (PGSIZE * x) = pte_val m pgdir (PGSIZE * x)) → frames m' pgdir i n = frames m pgdir i n.
Proof.
  intros H. remember (Z.to_nat (n - i)) as d eqn:Hd. revert i Hd H. induction d as [|d IH]; intros i Hd H; [by rewrite !frames_nil by lia|].
  rewrite (frames_step m'), (frames_step m) by lia. unfold frame_at. rewrite H by lia. rewrite IH; [done|lia|intros; apply H; lia].
Qed.

(** ** Giving a frame back *)
Section give.
Context {C : Type} (k : kernel) (pgdir : Z) (l : list Z) (v : Z).
Hypothesis (Hst : pg_state_ok k pgdir l) (Hv : other_frame k pgdir l v).

Lemma give_frame : ∃ k', (kfree v : M kernel C unit) k = Ret tt k' ∧ kmem_frame k k' ∧ pg_state_ok k' pgdir (v :: l) ∧
  same_outside [v] (k_mem k) (k_mem k') ∧
  (∀ d, 0 <= d < NPDENTRIES → pde_at (k_mem k') pgdir d = pde_at (k_mem k) pgdir d) ∧
  (∀ va, 0 <= va < 2 ^ 32 → pte_val (k_mem k') pgdir va = pte_val (k_mem k) pgdir va) ∧
  (∀ q, other_frame k pgdir l q → q ≠ v → other_frame k' pgdir (v :: l) q).
Proof using Hst Hv.
  destruct Hst as (Hk & Hf & Hpt). destruct Hv as (Hok & Hnl & Hnd & Hnt).
  destruct (kfree_push (C := C) k l v Hk Hf Hok Hnl) as (k' & E & Hfr & Hk' & Hf' & Hs & _).
  assert (Hend : k_end k' = k_end k) by (by apply kmem_frame_end).
  assert (Hpage : ∀ q a, page_ok k q → q ≠ v → q <= a < q + PGSIZE → k_mem k' a = k_mem k a).
  { intros q a (Hqa & _) Hne Ha. apply Hs. intros p ->%list_elem_of_singleton Hin. by apply (frame_distinct q v a); [done|apply Hok|..]. }
  assert (Hpde : ∀ d, 0 <= d < NPDENTRIES → pde_at (k_mem k') pgdir d = pde_at (k_mem k) pgdir d).
  { intros d Hd. apply load32_page_same; [done|]. intros a. apply Hpage; [apply (po_dir _ _ _ Hpt)|by apply not_eq_sym]. }
  assert (Hpte : ∀ va, 0 <= va < 2 ^ 32 → pte_val (k_mem k') pgdir va = pte_val (k_mem k) pgdir va).
  { intros va Hva. unfold pte_val. rewrite Hpde by (by apply PDX_range). destruct (present _) eqn:Hp; [|done].
    destruct (po_tab _ _ _ Hpt (PDX va) (PDX_range va Hva) Hp) as (Ht & _). apply load32_page_same; [apply PTX_range|].
    intros a. apply Hpage; [done|]. apply not_eq_sym, Hnt; [by apply PDX_range|done]. }
  exists k'. split; [done|]. split; [done|]. split; [|split; [done|split; [done|split; [done|]]]].
  - split; [done|]. split; [done|]. destruct Hpt as [P1 P2 P3 P4]. split; [by apply (page_ok_frame k)|set_solver| |].
    + intros d Hd. rewrite Hpde by done. intros Hp. destruct (P3 d Hd Hp) as (T1 & T2 & T3). split; [by apply (page_ok_frame k)|]. split; [done|].
      rewrite not_elem_of_cons. split; [|done]. apply not_eq_sym, Hnt; done.
    + intros d d' Hd Hd'. rewrite !Hpde by done. by apply P4.
  - intros q (Q1 & Q2 & Q3 & Q4) Hqv. split; [by apply (page_ok_frame k)|]. split; [by rewrite not_elem_of_cons|]. split; [done|].
    intros d Hd. rewrite Hpde by done. by apply Q4.
Qed.
End give.

(** Nothing recorded: [removePageFromRAM] finds no page. *)
Lemma removePageFromRAM_none {C} k p pgdir a : no_record k p pgdir →
  (s <- is_shell_or_init (Some p) ;; when (negb s) (on_proc p (removePageFromRAM a pgdir)) : M kernel C unit) k = Ret tt k.
Proof.
  intros (pr & Hpr & Hno). unfold is_shell_or_init, proc_at. rewrite !bind_assoc, bind_gets. erewrite bind_deref by done. rewrite bind_mret.
  destruct (Z.leb_spec (p_pid pr) 2) as [|Hpid]; cbn [negb when]; [done|]. destruct Hno as [|Hno]; [lia|].
  unfold on_proc. rewrite Hpr. unfold removePageFromRAM. rewrite bind_gets.
  assert (Hf : find_idx (is_page a pgdir) (p_ram_manager pr) = None).
  { apply find_idx_None. intros j g Hg. unfold is_page. destruct (is_used g) eqn:Hu; [|done]. cbn [andb].
    rewrite (proj2 (Z.eqb_neq (pg_pgdir g) pgdir)), andb_false_r; [done|]. apply Hno; [by eapply list_elem_of_lookup_2|done]. }
  rewrite Hf. unfold mret, M_ret. f_equal. unfold upd_proc. rewrite (alter_const _ pr) by done. rewrite list_insert_id by done. by destruct k.
Qed.

(** ** Unmapping a range *)

(** From [k] to [k'] the pages from [i] to [n] were unmapped and their frames
    freed, the last one first on the list. *)
Definition freed_range (k k' : kernel) (pgdir : Z) (l : list Z) (i n : Z) : Prop :=
  let fr := frames (k_mem k) pgdir i n in
  kmem_frame k k' ∧ pg_state_ok k' pgdir (rev fr ++ l) ∧
  (∀ d, 0 <= d < NPDENTRIES → pde_at (k_mem k') pgdir d = pde_at (k_mem k) pgdir d) ∧
  (∀ va, 0 <= va < 2 ^ 32 → ¬ (i <= va / PGSIZE < n) → pte_val (k_mem k') pgdir va = pte_val (k_mem k) pgdir va) ∧
  (∀ va, 0 <= va < 2 ^ 32 → i <= va / PGSIZE < n → present (pte_val (k_mem k') pgdir va) = false) ∧
  (∀ q, other_frame k pgdir l q → q ∉ fr → other_frame k' pgdir (rev fr ++ l) q ∧ ∀ a, q <= a < q + PGSIZE → k_mem k' a = k_mem k a).

Lemma freed_range_refl k pgdir l i n : pg_state_ok k pgdir l → (∀ x, i <= x < n → frame_at (k_mem k) pgdir x = None) → 0 <= i → freed_range k k pgdir l i n.
Proof.
  intros Hst Hno Hi. assert (Hfr : frames (k_mem k) pgdir i n = []).
  { rewrite (frames_skip _ _ i (Z.max i n) n) by (lia || (intros; apply Hno; lia)). apply frames_nil. lia. }
  unfold freed_range. rewrite Hfr. split; [reflexivity|]. split; [done|]. split; [done|]. split; [done|]. split; [|done].
  intros va Hva Hr. specialize (Hno _ Hr). unfold frame_at in Hno. rewrite (pte_val_page _ _ va (PGSIZE * (va / PGSIZE))); [by destruct (present _)|done| |].
  - unfold PGSIZE in *. change (2 ^ 32) with 4294967296 in *. divlia.
  - unfold PGSIZE. divlia.
Qed.

Lemma pte_page_at m pgdir va i : 0 <= va < 2 ^ 32 → va / PGSIZE = i → pte_val m pgdir va = pte_val m pgdir (PGSIZE * i).
Proof.
  intros Hva <-. apply pte_val_page; [done| |]; unfold PGSIZE in *; change (2 ^ 32) with 4294967296 in *; divlia.
Qed.

(** A first part that frees at most the page [i], then the rest. *)
Lemma freed_range_cons k k1 k2 pgdir l i j n : freed_range k k1 pgdir l i j → freed_range k1 k2 pgdir (rev (frames (k_mem k) pgdir i j) ++ l) j n →
  0 <= i <= j → j <= n → PGSIZE * n <= 2 ^ 32 → frames (k_mem k) pgdir i n = frames (k_mem k) pgdir i j ++ frames (k_mem k) pgdir j n →
  freed_range k k2 pgdir l i n.
Proof.
  intros (F1 & S1 & D1 & V1 & A1 & O1) (F2 & S2 & D2 & V2 & A2 & O2) Hi Hj Hn Hfr.
  assert (E : frames (k_mem k1) pgdir j n = frames (k_mem k) pgdir j n).
  { apply frames_ext. intros x Hx. apply V1; unfold PGSIZE in *; change (2 ^ 32) with 4294967296 in *; [lia|]. replace (4096 * x / 4096) with x by divlia. lia. }
  unfold freed_range. rewrite Hfr, rev_app_distr, <- app_assoc. rewrite E in *. split; [by etrans|]. split; [done|]. split; [|split; [|split]].
  - intros d Hd. by rewrite D2, D1.
  - intros va Hva Hnot. rewrite V2, V1 by (done || lia). done.
  - intros va Hva Hin. destruct (decide (j <= va / PGSIZE)); [apply A2; [done|lia]|]. rewrite V2 by (done || lia). apply A1; [done|lia].
  - intros q Hq Hnin. rewrite not_elem_of_app in Hnin. destruct Hnin as [H1 H2]. destruct (O1 q Hq H1) as [Hq1 Hm1]. destruct (O2 q Hq1 H2) as [Hq2 Hm2].
    split; [done|]. intros a Ha. by rewrite Hm2, Hm1.
Qed.

Lemma pte_at_ptr m pgdir va : present (pde_at m pgdir (PDX va)) = true → load32 m (pte_ptr m pgdir va) = pte_val m pgdir va.
Proof. intros Hp. unfold pte_val, pte_ptr. by rewrite Hp. Qed.

Lemma frames_one m pgdir i : frames m pgdir i (i + 1) = option_list (frame_at m pgdir i).
Proof. rewrite frames_step by lia. by rewrite frames_nil, app_nil_r by lia. Qed.

Lemma P2V_zero_frame k v : KERNBASE < k_end k → page_ok k v → ∀ e, v = table_of e → PTE_ADDR e ≠ 0.
Proof. intros Hend (_ & Hr & _) e -> E. unfold table_of in Hr. rewrite E in Hr. change (P2V 0) with KERNBASE in Hr. lia. Qed.

Section unmap.
Context {C : Type} (k : kernel) (p : nat) (pgdir : Z) (l : list Z) (i : Z).
Notation va := (PGSIZE * i).
Hypothesis (Hst : pg_state_ok k pgdir l) (Hi : 0 <= i) (Hva : va < 2 ^ 32) (Hend : KERNBASE < k_end k).
Hypothesis (Hpd : present (pde_at (k_mem k) pgdir (PDX va)) = true) (Hrec : no_record k p pgdir).
Hypothesis (Hown : ∀ f, frame_at (k_mem k) pgdir i = Some f → other_frame k pgdir l f).

Lemma va_range : 0 <= va < 2 ^ 32 ∧ va / PGSIZE = i.
Proof using Hi Hva. clear -Hi Hva. unfold PGSIZE in *. split; [lia|divlia]. Qed.

Lemma unmap_page : ∃ k', (e <- pte_get (pte_ptr (k_mem k) pgdir va) ;;
    when (negb (Z.land e PTE_P =? 0))
      (let pa := PTE_ADDR e in
       if pa =? 0 then panic "kfree" else
       kfree (P2V pa) ;;
       s <- is_shell_or_init (Some p) ;;
       when (negb s) (on_proc p (removePageFromRAM va pgdir)) ;;
       pte_set (pte_ptr (k_mem k) pgdir va) 0) : M kernel C unit) k = Ret tt k' ∧ freed_range k k' pgdir l i (i + 1).
Proof using Hst Hi Hva Hend Hpd Hrec Hown.
  destruct va_range as [Hr Hd]. pose proof (pte_ptr_pos k pgdir l va Hst Hr Hpd) as Hne.
  unfold pte_get, pte_set, mem_load32. rewrite (proj2 (Z.eqb_neq _ _) Hne), bind_gets, pte_at_ptr by done.
  fold (present (pte_val (k_mem k) pgdir va)). destruct (present (pte_val (k_mem k) pgdir va)) eqn:Hpr; cbn [when].
  2: { exists k. split; [done|]. apply freed_range_refl; [done| |done]. intros x Hx. replace x with i by lia. unfold frame_at. by rewrite Hpr. }
  set (f := table_of (pte_val (k_mem k) pgdir va)).
  assert (Hf : frame_at (k_mem k) pgdir i = Some f) by (unfold frame_at; by rewrite Hpr).
  pose proof (Hown f Hf) as Ho. cbv zeta. rewrite (proj2 (Z.eqb_neq _ _) (P2V_zero_frame k f Hend (proj1 Ho) _ eq_refl)).
  change (P2V (PTE_ADDR (pte_val (k_mem k) pgdir va))) with f.
  destruct (give_frame (C := C) k pgdir l f Hst Ho) as (k1 & E1 & F1 & S1 & M1 & D1 & V1 & O1). rewrite (bind_Ret_eq _ _ _ _ _ E1).
  assert (Hrec1 : no_record k1 p pgdir) by (destruct F1 as [-> _]; exact Hrec).
  rewrite <- bind_assoc, (bind_Ret_eq _ _ _ _ _ (removePageFromRAM_none k1 p pgdir va Hrec1)).
  assert (Hp1 : present (pde_at (k_mem k1) pgdir (PDX va)) = true) by (rewrite D1 by (by apply PDX_range); done).
  assert (Hptr : pte_ptr (k_mem k) pgdir va = pte_ptr (k_mem k1) pgdir va) by (unfold pte_ptr; by rewrite D1 by (by apply PDX_range)).
  rewrite Hptr. pose proof (entry_step k1 pgdir (f :: l) va 0 S1 Hr Hp1) as (F2 & S2 & _ & O2 & Q2 & V2).
  eexists. split; [reflexivity|]. unfold freed_range. rewrite frames_one, Hf. cbn [option_list rev app].
  split; [etrans; [exact F1|exact F2]|]. split; [exact S2|]. split; [|split; [|split]].
  - intros d Hd'. cbn [k_mem set_k_mem]. rewrite (entry_pde k1 pgdir (f :: l) va 0 S1 Hr Hp1) by done. by apply D1.
  - intros va' Hva' Hnot. change (u32 0) with 0 in V2. rewrite V2 by done. rewrite (proj2 (Z.eqb_neq _ _)) by lia. by apply V1.
  - intros va' Hva' Hin. change (u32 0) with 0 in V2. rewrite V2 by done. by rewrite (proj2 (Z.eqb_eq _ _)) by lia.
  - intros q Hq Hnin. assert (Hqf : q ≠ f) by (intros ->; apply Hnin; by left). pose proof (O1 q Hq Hqf) as Hq1. split; [by apply Q2|].
    intros a Ha. etrans; [exact (O2 q a Hq1 Ha)|]. apply M1. intros x ->%list_elem_of_singleton Hin. apply (frame_distinct q f a); [apply Hq|apply Ho|done..].
Qed.
End unmap.

Lemma PGADDR_next d : 0 <= d < 512 → u32 (u32 (PGADDR (d + 1) 0 0 - PGSIZE) + PGSIZE) = PGSIZE * (1024 * (d + 1)).
Proof.
  intros Hd. unfold PGADDR. change (Z.shiftl 0 PTXSHIFT) with 0. rewrite !Z.lor_0_r. rewrite Z.shiftl_mul_pow2 by done.
  change (2 ^ PDXSHIFT) with 4194304. unfold u32, PGSIZE. change (2 ^ 32) with 4294967296. divlia.
Qed.

(** No table: nothing is mapped up to the next slot of the directory. *)
Lemma no_table_none m pgdir i x : 0 <= i → PGSIZE * i < 2 ^ 31 → present (pde_at m pgdir (PDX (PGSIZE * i))) = false →
  i <= x < 1024 * (PDX (PGSIZE * i) + 1) → frame_at m pgdir x = None.
Proof.
  intros Hi Hr Hp Hx. unfold frame_at, pte_val. rewrite PDX_eq in * by (unfold PGSIZE in *; change (2 ^ 31) with 2147483648 in *; change (2 ^ 32) with 4294967296; lia).
  assert (E : PDX (PGSIZE * x) = PGSIZE * i / 2 ^ 22).
  { unfold PGSIZE in *. change (2 ^ 31) with 2147483648 in *. change (2 ^ 22) with 4194304 in *. rewrite PDX_eq by (change (2 ^ 32) with 4294967296; divlia). change (2 ^ 22) with 4194304. divlia. }
  by rewrite E, Hp.
Qed.

Lemma freed_range_widen k k' pgdir l i j n : freed_range k k' pgdir l j n → 0 <= i <= j → PGSIZE * n <= 2 ^ 31 →
  (∀ x, i <= x < j → frame_at (k_mem k) pgdir x = None) → freed_range k k' pgdir l i n.
Proof.
  intros (F & S & D & V & A & O) Hi Hn Hno. unfold freed_range. rewrite (frames_skip _ _ i j n) by (lia || (intros; apply Hno; lia)).
  split; [done|]. split; [done|]. split; [done|]. split; [|split; [|done]].
  - intros va Hva Hnot. apply V; [done|lia].
  - intros va Hva Hin. destruct (decide (j <= va / PGSIZE < n)); [by apply A|]. rewrite V by done.
    specialize (Hno (va / PGSIZE) ltac:(lia)). unfold frame_at in Hno. rewrite (pte_page_at _ _ va (va / PGSIZE)) by done. by destruct (present _).
Qed.

Section range.
Context {C : Type} (p : nat) (pgdir oldsz n : Z).
Hypothesis (Hold : PGSIZE * (n - 1) < oldsz <= PGSIZE * n) (Hn : PGSIZE * n <= 2 ^ 31).

Lemma deallocuvm_loop_frees fuel : ∀ k l i, pg_state_ok k pgdir l → no_record k p pgdir → KERNBASE < k_end k → owns_pages k pgdir l i n → 0 <= i →
  n - i <= Z.of_nat fuel →
  ∃ k', (deallocuvm_loop fuel p pgdir (PGSIZE * i) oldsz : M kernel C unit) k = Ret tt k' ∧ freed_range k k' pgdir l i n.
Proof using Hold Hn.
  assert (HP : PGSIZE = 4096) by done. change (2 ^ 31) with 2147483648 in Hn.
  induction fuel as [|fuel IH]; intros k l i Hst Hrec Hend [Hnd Hown] Hi Hf; cbn [deallocuvm_loop].
  { rewrite (proj2 (Z.ltb_ge _ _)) by lia. exists k. split; [done|]. apply freed_range_refl; [done|lia|done]. }
  destruct (Z.ltb_spec (PGSIZE * i) oldsz) as [Hlt|Hge]; cbn [negb].
  2: { exists k. split; [done|]. apply freed_range_refl; [done|lia|done]. }
  assert (Hin : i < n) by lia. assert (Hva : 0 <= PGSIZE * i < 2 ^ 32) by (change (2 ^ 32) with 4294967296; lia).
  pose proof Hst as (Hk & _ & Hpt). rewrite (bind_Ret_eq _ _ _ _ _ (walkpgdir_look (C := C) k pgdir l Hk Hpt _ Hva)).
  destruct (present (pde_at (k_mem k) pgdir (PDX (PGSIZE * i)))) eqn:Hp.
  - fold (pte_ptr (k_mem k) pgdir (PGSIZE * i)). rewrite (proj2 (Z.eqb_neq _ _) (pte_ptr_pos k pgdir l _ Hst Hva Hp)).
    assert (Hfr : frames (k_mem k) pgdir i n = frames (k_mem k) pgdir i (i + 1) ++ frames (k_mem k) pgdir (i + 1) n) by (by rewrite frames_one, <- frames_step by lia).
    destruct (unmap_page (C := C) k p pgdir l i Hst Hi ltac:(lia) Hend Hp Hrec) as (k1 & E1 & R1).
    { intros f Hf1. apply Hown. rewrite Hfr, frames_one, Hf1. by left. }
    rewrite <- bind_assoc, (bind_Ret_eq _ _ _ _ _ E1). pose proof R1 as (F1 & S1 & D1 & V1 & _ & O1).
    assert (E : frames (k_mem k1) pgdir (i + 1) n = frames (k_mem k) pgdir (i + 1) n).
    { apply frames_ext. intros x Hx. apply V1; [change (2 ^ 32) with 4294967296; lia|]. rewrite HP. replace (4096 * x / 4096) with x by divlia. lia. }
    rewrite Hfr in Hnd. apply list.NoDup_app in Hnd as (_ & Hdis & Hnd).
    rewrite u32_small by (change (2 ^ 32) with 4294967296; lia). replace (PGSIZE * i + PGSIZE) with (PGSIZE * (i + 1)) by lia.
    destruct (IH k1 _ (i + 1) S1) as (k2 & E2 & R2); [destruct F1 as [-> _]; exact Hrec|by rewrite (kmem_frame_end _ _ F1)| |lia|lia|].
    { split; [by rewrite E|]. rewrite E. intros f Hf2. apply O1; [apply Hown; rewrite Hfr; set_solver|]. intros H. by apply (Hdis f). }
    exists k2. split; [exact E2|]. apply (freed_range_cons k k1 k2 pgdir l i (i + 1) n R1 R2); [lia|lia|change (2 ^ 32) with 4294967296; lia|done].
  - cbn [Z.eqb]. assert (Hd : 0 <= PDX (PGSIZE * i) < 512) by (rewrite PDX_eq by done; change (2 ^ 22) with 4194304; divlia).
    rewrite (PGADDR_next _ Hd). set (j := 1024 * (PDX (PGSIZE * i) + 1)).
    assert (Hno : ∀ x, i <= x < j → frame_at (k_mem k) pgdir x = None) by (intros x Hx; by apply (no_table_none _ _ i); [|change (2 ^ 31) with 2147483648; lia|..]).
    assert (Hij : i < j) by (unfold j; rewrite PDX_eq by done; change (2 ^ 22) with 4194304; divlia).
    assert (E : frames (k_mem k) pgdir i n = frames (k_mem k) pgdir j n) by (apply frames_skip; [lia|intros; apply Hno; lia]).
    destruct (IH k l j Hst Hrec Hend) as (k2 & E2 & R2); [split; rewrite <- E; done|lia|lia|].
    exists k2. split; [exact E2|]. apply (freed_range_widen k k2 pgdir l i j n R2); [lia|change (2 ^ 31) with 2147483648; lia|done].
Qed.
End range.

(** ** [deallocuvm] and [freevm] *)
Definition pages_below (sz : Z) : Z := (sz + PGSIZE - 1) / PGSIZE.

Lemma myproc_frame {C} k p : kmem_idle k → k_cur k = Some p → ∃ c,
  (myproc : M kernel C (option nat)) k = Ret (Some p) (set_k_cpu c k) ∧ kmem_frame k (set_k_cpu c k) ∧ cpu_ok (set_k_cpu c k).
Proof.
  intros (Hok & _ & _) Hp. exists (popped (pushed (k_cpu k))). rewrite myproc_eq, Hp by done. split; [done|]. split; [done|].
  destruct Hok as (Hn & Hi & Hd). destruct k as [? ? [n ie i e c] held]. cbn in *. unfold cpu_ok, popped, pushed. cbn.
  split; [lia|]. split; [|done]. intros Hne. destruct held; [done|]. cbn in Hn. by rewrite (proj2 (Z.eqb_neq _ _)) by lia.
Qed.

Lemma pg_state_cpu k c pgdir l : cpu_ok (set_k_cpu c k) → pg_state_ok k pgdir l → pg_state_ok (set_k_cpu c k) pgdir l.
Proof.
  intros Hc ((_ & Hl & He) & [F1 F2 F3] & [P1 P2 P3 P4]). split; [done|]. by split.
Qed.

Lemma wp_deallocuvm {C} k p pgdir l oldsz newsz (i := PGROUNDUP newsz / PGSIZE) (n := pages_below oldsz) :
  pg_state_ok k pgdir l → k_cur k = Some p → no_record k p pgdir → KERNBASE < k_end k → owns_pages k pgdir l i n →
  0 <= newsz < oldsz → oldsz <= KERNBASE →
  ∃ k', (deallocuvm pgdir oldsz newsz : M kernel C Z) k = Ret newsz k' ∧ freed_range k k' pgdir l i n.
Proof.
  intros Hst Hcur Hrec Hend Hown Hnew Hold. unfold deallocuvm.
  destruct (myproc_frame (C := C) k p (proj1 Hst) Hcur) as (c & E & Hfr & Hc). rewrite (bind_Ret_eq _ _ _ _ _ E). cbn [Nat.eqb].
  rewrite (proj2 (Z.leb_gt _ _)) by lia.
  assert (HP : PGSIZE = 4096) by done. assert (HK : KERNBASE = 2147483648) by done.
  assert (Hup : PGROUNDUP newsz = PGSIZE * i).
  { unfold i. rewrite PGROUNDUP_eq by (rewrite HP; change (2 ^ 32) with 4294967296; lia). rewrite HP. divlia. }
  assert (Hi : 0 <= i). { unfold i. apply Z.div_pos; [|lia]. rewrite PGROUNDUP_eq by (rewrite HP; change (2 ^ 32) with 4294967296; lia). pose proof (Z.mod_pos_bound (- newsz) PGSIZE ltac:(done)). lia. }
  assert (Hn : PGSIZE * (n - 1) < oldsz <= PGSIZE * n) by (unfold n, pages_below; rewrite HP; divlia).
  assert (Hn31 : PGSIZE * n <= 2 ^ 31).
  { assert (n <= 524288); [|change (2 ^ 31) with 2147483648; lia]. unfold n, pages_below. rewrite HP. apply Z.lt_succ_r, Z.div_lt_upper_bound; lia. }
  destruct (deallocuvm_loop_frees (C := C) p pgdir oldsz n Hn Hn31
    (S (Z.to_nat (oldsz / PGSIZE))) (set_k_cpu c k) l i) as (k' & E' & R'); try done; [by apply pg_state_cpu| |].
  { rewrite Nat2Z.inj_succ, Z2Nat.id by (apply Z.div_pos; lia). clear -Hi. clearbody i. unfold n, pages_below. unfold PGSIZE. divlia. }
  rewrite Hup, (bind_Ret_eq _ _ _ _ _ E'). exists k'. split; [done|]. destruct R' as (F & R'). split; [by etrans|exact R'].
Qed.

(** The loop over the directory. *)
Lemma free_tables {C} pgdir ds : ∀ k l, kmem_idle k → free_ok k l → page_ok k pgdir → pgdir ∉ l → Forall (λ d, 0 <= d < NPDENTRIES) ds →
  NoDup (omap (slot_table (k_mem k) pgdir) ds) → (∀ t, t ∈ omap (slot_table (k_mem k) pgdir) ds → page_ok k t ∧ t ≠ pgdir ∧ t ∉ l) →
  ∃ k', (mfor ds (λ i, e <- mem_load32 (u32 (pgdir + 4 * i)) ;; when (negb (Z.land e PTE_P =? 0)) (kfree (P2V (PTE_ADDR e)))) : M kernel C unit) k = Ret tt k' ∧
    kmem_frame k k' ∧ kmem_idle k' ∧ free_ok k' (rev (omap (slot_table (k_mem k) pgdir) ds) ++ l) ∧
    same_outside (omap (slot_table (k_mem k) pgdir) ds) (k_mem k) (k_mem k').
Proof.
  induction ds as [|d ds IH]; intros k l Hk Hf Hdir Hdl Hr Hnd Hown.
  { exists k. split; [done|]. split; [reflexivity|]. by split_and!. }
  apply list.Forall_cons_1 in Hr as [Hd Hr]. cbn [mfor]. unfold mem_load32 at 1.
  destruct (page_ok_range k pgdir (proj2 (proj2 Hk)) Hdir) as (Hrange & Hal & _).
  assert (Hu : u32 (pgdir + 4 * d) = pgdir + 4 * d). { apply u32_small. unfold NPDENTRIES, PGSIZE, KERNBASE in *. change (2 ^ 32) with 4294967296 in *. divlia. }
  rewrite bind_assoc, bind_gets, Hu. fold (pde_at (k_mem k) pgdir d). fold (present (pde_at (k_mem k) pgdir d)).
  assert (Ho : omap (slot_table (k_mem k) pgdir) (d :: ds) = match slot_table (k_mem k) pgdir d with Some t => t :: omap (slot_table (k_mem k) pgdir) ds | None => omap (slot_table (k_mem k) pgdir) ds end) by done.
  rewrite Ho in *. clear Ho.
  destruct (slot_table (k_mem k) pgdir d) as [t|] eqn:Hslot; unfold slot_table in Hslot;
    (destruct (present (pde_at (k_mem k) pgdir d)) eqn:Hp; [|done || (cbn [when]; rewrite bind_mret; by apply IH)]); [|done].
  cbn [when]. injection Hslot as Et. fold (table_of (pde_at (k_mem k) pgdir d)). rewrite Et.
  apply list.NoDup_cons in Hnd as [Htn Hnd]. destruct (Hown t ltac:(left)) as (Ht & Htd & Htl).
  destruct (kfree_push (C := C) k l t Hk Hf Ht Htl) as (k1 & E1 & F1 & Hk1 & Hf1 & M1 & _). rewrite (bind_Ret_eq _ _ _ _ _ E1).
  assert (Hpd : ∀ a, pgdir <= a < pgdir + PGSIZE → k_mem k1 a = k_mem k a).
  { intros a Ha. apply M1. intros x ->%list_elem_of_singleton Hin. by apply (frame_distinct pgdir t a); [|apply Ht|apply not_eq_sym|..]. }
  assert (Hs : ∀ ds', Forall (λ d, 0 <= d < NPDENTRIES) ds' → omap (slot_table (k_mem k1) pgdir) ds' = omap (slot_table (k_mem k) pgdir) ds').
  { intros ds' Hds. induction Hds as [|x ds' Hx _ IHds]; [done|]. cbn. assert (Ex : slot_table (k_mem k1) pgdir x = slot_table (k_mem k) pgdir x).
    { unfold slot_table, pde_at. rewrite (load32_page_same (k_mem k) (k_mem k1)) by done. done. } by rewrite Ex, IHds. }
  specialize (Hs ds Hr). destruct (IH k1 (t :: l)) as (k2 & E2 & F2 & Hk2 & Hf2 & M2); try done.
  - by apply (page_ok_frame k); [apply kmem_frame_end|].
  - rewrite not_elem_of_cons. split; [by apply not_eq_sym|done].
  - by rewrite Hs.
  - rewrite Hs. intros x Hx. destruct (Hown x ltac:(by right)) as (X1 & X2 & X3). split; [by apply (page_ok_frame k); [apply kmem_frame_end|]|]. split; [done|].
    rewrite not_elem_of_cons. split; [by intros ->|done].
  - rewrite Hs in *. exists k2. split; [exact E2|]. split; [by etrans|]. split; [done|]. split.
    + cbn [rev]. by rewrite <- app_assoc.
    + intros a Ha. rewrite M2 by (intros x Hx; apply Ha; by right). apply M1. intros x ->%list_elem_of_singleton. apply Ha. by left.
Qed.

Lemma slots_NoDup k pgdir l ds : pt_ok k pgdir l → NoDup ds → Forall (λ d, 0 <= d < NPDENTRIES) ds → NoDup (omap (slot_table (k_mem k) pgdir) ds).
Proof.
  intros Hpt Hnd. induction Hnd as [|d ds Hd _ IH]; intros Hr; [constructor|]. apply list.Forall_cons_1 in Hr as [Hdr Hr]. cbn.
  destruct (slot_table (k_mem k) pgdir d) as [t|] eqn:E; [|by apply IH]. constructor; [|by apply IH].
  intros (d' & Hd' & E')%list_elem_of_omap. unfold slot_table in E, E'. rewrite list.Forall_forall in Hr. specialize (Hr d' Hd').
  destruct (present (pde_at (k_mem k) pgdir d)) eqn:Hp; [|done]. destruct (present (pde_at (k_mem k) pgdir d')) eqn:Hp'; [|done].
  injection E as <-. injection E' as E'. rewrite (po_inj _ _ _ Hpt d' d Hr Hdr Hp' Hp E') in Hd'. done.
Qed.

Lemma slots_in k pgdir l ds t : pt_ok k pgdir l → Forall (λ d, 0 <= d < NPDENTRIES) ds → t ∈ omap (slot_table (k_mem k) pgdir) ds → page_ok k t ∧ t ≠ pgdir ∧ t ∉ l.
Proof.
  intros Hpt Hr (d & Hd & E)%list_elem_of_omap. rewrite list.Forall_forall in Hr. unfold slot_table in E.
  destruct (present (pde_at (k_mem k) pgdir d)) eqn:Hp; [|done]. injection E as <-. by apply (po_tab _ _ _ Hpt d); [apply Hr|].
Qed.

Lemma slots_range : Forall (λ d, 0 <= d < NPDENTRIES) (seqZ 0 NPDENTRIES).
Proof. apply list.Forall_forall. intros d ?%elem_of_seqZ. lia. Qed.

(** The rest of [freevm], for the slots [ds] of the directory. *)
Lemma freevm_tail {C} k pgdir L ds : pg_state_ok k pgdir L → Forall (λ d, 0 <= d < NPDENTRIES) ds → NoDup ds → (∀ d, 0 <= d < NPDENTRIES → d ∈ ds) →
  ∃ k', (mfor ds (λ i, e <- mem_load32 (u32 (pgdir + 4 * i)) ;; when (negb (Z.land e PTE_P =? 0)) (kfree (P2V (PTE_ADDR e)))) ;; kfree pgdir : M kernel C unit) k = Ret tt k' ∧
    kmem_frame k k' ∧ kmem_idle k' ∧ free_ok k' (pgdir :: rev (omap (slot_table (k_mem k) pgdir) ds) ++ L) ∧
    ∀ q a, other_frame k pgdir L q → q <= a < q + PGSIZE → k_mem k' a = k_mem k a.
Proof.
  intros (Hk & Hf & Hpt) Hr Hnd Hcov.
  destruct (free_tables (C := C) pgdir ds k L Hk Hf (po_dir _ _ _ Hpt) (po_dir_free _ _ _ Hpt) Hr (slots_NoDup _ _ _ _ Hpt Hnd Hr)) as (k2 & E2 & F2 & Hk2 & Hf2 & M2).
  { intros t Ht. by apply (slots_in _ _ _ ds t Hpt). }
  rewrite (bind_Ret_eq _ _ _ _ _ E2). set (ts := omap (slot_table (k_mem k) pgdir) ds) in *.
  assert (Hts : ∀ t, t ∈ ts → page_ok k t ∧ t ≠ pgdir ∧ t ∉ L) by (intros t; by apply slots_in).
  assert (Hdir2 : pgdir ∉ rev ts ++ L).
  { rewrite elem_of_app, elem_of_rev. intros [H|H]; [by destruct (Hts _ H) as (_ & ? & _)|]. by apply (po_dir_free _ _ _ Hpt). }
  destruct (kfree_push (C := C) k2 (rev ts ++ L) pgdir Hk2 Hf2) as (k3 & E3 & F3 & Hk3 & Hf3 & M3 & _); [by apply (page_ok_frame k), Hpt; apply kmem_frame_end|done|].
  exists k3. split; [exact E3|]. split; [by etrans|]. split; [done|]. split; [done|].
  intros q a (Hq & _ & Hqd & Hqt) Ha.
  rewrite M3 by (intros x ->%list_elem_of_singleton Hin; by apply (frame_distinct q pgdir a); [apply Hq|apply Hpt|..]).
  apply M2. intros x Hx Hin. apply (frame_distinct q x a); [apply Hq|by apply Hts| |done|done]. intros ->.
  unfold ts in Hx. apply list_elem_of_omap in Hx as (d & Hd & E). rewrite list.Forall_forall in Hr. unfold slot_table in E.
  destruct (present (pde_at (k_mem k) pgdir d)) eqn:Hp; [|done]. injection E as E. by apply (Hqt d (Hr d Hd) Hp).
Qed.

Lemma freevm_dir {C} k pgdir L : pg_state_ok k pgdir L →
  ∃ k', (mfor (seqZ 0 NPDENTRIES) (λ i, e <- mem_load32 (u32 (pgdir + 4 * i)) ;; when (negb (Z.land e PTE_P =? 0)) (kfree (P2V (PTE_ADDR e)))) ;; kfree pgdir : M kernel C unit) k = Ret tt k' ∧
    kmem_frame k k' ∧ kmem_idle k' ∧ free_ok k' (pgdir :: rev (tables (k_mem k) pgdir NPDENTRIES) ++ L) ∧
    ∀ q a, other_frame k pgdir L q → q <= a < q + PGSIZE → k_mem k' a = k_mem k a.
Proof.
  intros Hst. rewrite tables_eq. assert (Hcov : ∀ d, 0 <= d < NPDENTRIES → d ∈ seqZ 0 NPDENTRIES) by (intros; apply elem_of_seqZ; lia).
  pose proof slots_range as Hr. pose proof (NoDup_seqZ 0 NPDENTRIES) as Hnd. revert Hr Hnd Hcov. generalize (seqZ 0 NPDENTRIES). intros ds Hr Hnd Hcov.
  by apply freevm_tail.
Qed.

Lemma PGROUNDUP_0 : PGROUNDUP 0 / PGSIZE = 0.
Proof. reflexivity. Qed.

Lemma freevm_eq {C} pgdir sz k k1 r : pgdir ≠ 0 → sz = KERNBASE → (deallocuvm pgdir sz 0 : M kernel C Z) k = Ret r k1 →
  (freevm pgdir : M kernel C unit) k =
  (mfor (seqZ 0 NPDENTRIES) (λ i, e <- mem_load32 (u32 (pgdir + 4 * i)) ;; when (negb (Z.land e PTE_P =? 0)) (kfree (P2V (PTE_ADDR e)))) ;; kfree pgdir) k1.
Proof. intros Hd -> E. unfold freevm. rewrite (proj2 (Z.eqb_neq _ _) Hd). by rewrite (bind_Ret_eq _ _ _ _ _ E). Qed.

Lemma wp_freevm {C} k p pgdir l sz (fr := frames (k_mem k) pgdir 0 (pages_below sz)) : sz = KERNBASE →
  pg_state_ok k pgdir l → k_cur k = Some p → no_record k p pgdir → KERNBASE < k_end k → owns_pages k pgdir l 0 (pages_below sz) →
  ∃ k', (freevm pgdir : M kernel C unit) k = Ret tt k' ∧ kmem_frame k k' ∧ kmem_idle k' ∧
    free_ok k' (pgdir :: rev (tables (k_mem k) pgdir NPDENTRIES) ++ rev fr ++ l) ∧
    ∀ q a, other_frame k pgdir l q → q ∉ fr → q <= a < q + PGSIZE → k_mem k' a = k_mem k a.
Proof.
  intros Hsz Hst Hcur Hrec Hend Hown. pose proof Hst as (Hk & Hf & Hpt).
  destruct (page_ok_range k pgdir (proj2 (proj2 Hk)) (po_dir _ _ _ Hpt)) as (Hrange & _ & _).
  pose proof (wp_deallocuvm (C := C) k p pgdir l sz 0) as Hd. rewrite PGROUNDUP_0 in Hd.
  destruct (Hd Hst Hcur Hrec Hend Hown) as (k1 & E1 & F1 & S1 & D1 & _ & _ & O1); [unfold KERNBASE in *; lia|lia|]. clear Hd. fold fr in S1, O1.
  rewrite (freevm_eq pgdir sz k k1 0) by (done || (unfold KERNBASE in *; lia)).
  destruct (freevm_dir (C := C) k1 pgdir (rev fr ++ l) S1) as (k2 & E2 & F2 & Hk2 & Hf2 & M2).
  assert (Et : tables (k_mem k1) pgdir NPDENTRIES = tables (k_mem k) pgdir NPDENTRIES) by (by apply tables_ext).
  rewrite Et in Hf2. exists k2. split; [exact E2|]. split; [by etrans|]. split; [done|]. split; [done|].
  intros q a Hq Hqf Ha. destruct (O1 q Hq Hqf) as [Hq1 Hm]. rewrite (M2 q a Hq1 Ha). by apply Hm.
Qed.

(** C17: [freevm] gives back exactly the memory of an address space. On a
    well-formed directory whose user pages are frames of its own it ends
    without a panic, and the free list is then the directory, its page tables
    and the frames of its present user pages, each once, before what was free
    already: nothing is leaked and nothing freed twice. Every other frame
    keeps its bytes. *)
Theorem freevm_frees {C} k p pgdir l (fr := frames (k_mem k) pgdir 0 (pages_below KERNBASE)) :
  pg_state_ok k pgdir l → k_cur k = Some p → no_record k p pgdir → KERNBASE < k_end k → owns_pages k pgdir l 0 (pages_below KERNBASE) →
  ∃ k', (freevm pgdir : M kernel C unit) k = Ret tt k' ∧ kmem_frame k k' ∧ kmem_idle k' ∧
    free_ok k' (pgdir :: rev (tables (k_mem k) pgdir NPDENTRIES) ++ rev fr ++ l) ∧
    ∀ q a, other_frame k pgdir l q → q ∉ fr → q <= a < q + PGSIZE → k_mem k' a = k_mem k a.
Proof. by apply wp_freevm. Qed.

(** ** Witnesses *)

(** A directory with one table and one user page, beside one free frame, for
    a running process that has recorded nothing. *)
Definition demo_table : Z := demo_dir + PGSIZE.
Definition demo_frame : Z := demo_table + PGSIZE.
Definition demo_user_mem : mem :=
  store32 (store32 (λ _, 0) demo_dir (Z.lor (V2P demo_table) 7)) demo_table (Z.lor (V2P demo_frame) 7).
Definition demo_user : kernel :=
  set_k_cur (Some 0%nat) (upd_proc 0 (set_p_pid 3) (set_k_mem demo_user_mem demo_kmem)).

Lemma demo_pde d : 0 <= d < NPDENTRIES → pde_at demo_user_mem demo_dir d = if d =? 0 then Z.lor (V2P demo_table) 7 else 0.
Proof.
  intros Hd. unfold pde_at, demo_user_mem, demo_table, demo_dir, page1, NPDENTRIES, PGSIZE in *. rewrite load32_other by (done || divlia).
  destruct (Z.eqb_spec d 0) as [->|Hne]; [done|]. rewrite load32_other by (done || divlia). done.
Qed.

Lemma demo_pte va : 0 <= va < 2 ^ 32 → pte_val demo_user_mem demo_dir va = if va / PGSIZE =? 0 then Z.lor (V2P demo_frame) 7 else 0.
Proof.
  intros Hva. unfold pte_val. rewrite demo_pde by (by apply PDX_range). rewrite PDX_eq, PTX_eq by done.
  change (2 ^ 22) with 4194304. change (2 ^ 32) with 4294967296 in Hva. unfold PGSIZE. destruct (Z.eqb_spec (va / 4194304) 0) as [E|E].
  2: { rewrite (proj2 (Z.eqb_neq (va / 4096) 0)) by divlia. done. }
  change (present (Z.lor (V2P demo_table) 7)) with true. change (table_of (Z.lor (V2P demo_table) 7)) with demo_table. cbv iota.
  destruct (Z.eqb_spec (va / 4096) 0) as [E2|E2]; [by rewrite E2|]. unfold demo_user_mem, demo_table, demo_dir, page1, PGSIZE in *.
  rewrite !load32_other by (done || divlia). done.
Qed.

Lemma demo_user_ok : pg_state_ok demo_user demo_dir [page1].
Proof.
  split; [exact demo_kmem_idle|]. split.
  - split; [apply chain_cons; [done|apply chain_nil]|apply NoDup_singleton|]. constructor; [exact page1_ok|constructor].
  - split; [split; [done|split; by vm_compute]|by intros Hin%list_elem_of_singleton|..].
    + intros d Hd. change (k_mem demo_user) with demo_user_mem. rewrite demo_pde by done. destruct (Z.eqb_spec d 0); [|done]. intros _.
      change (table_of (Z.lor (V2P demo_table) 7)) with demo_table. split; [split; [done|split; by vm_compute]|]. split; [done|]. by intros Hin%list_elem_of_singleton.
    + intros d d' Hd Hd'. change (k_mem demo_user) with demo_user_mem. rewrite !demo_pde by done. by destruct (Z.eqb_spec d 0), (Z.eqb_spec d' 0); subst.
Qed.

Lemma demo_frames n : 1 <= n <= 524288 → frames demo_user_mem demo_dir 0 n = [demo_frame].
Proof.
  intros Hn. rewrite frames_step by lia. assert (Hf : frame_at demo_user_mem demo_dir 0 = Some demo_frame) by (unfold frame_at; by rewrite demo_pte).
  rewrite Hf, (frames_skip _ _ (0 + 1) n n); [by rewrite frames_nil by lia|lia|]. intros x Hx _. unfold frame_at.
  rewrite demo_pte by (unfold PGSIZE; change (2 ^ 32) with 4294967296; lia). rewrite (proj2 (Z.eqb_neq _ _)) by (unfold PGSIZE; divlia). done.
Qed.

Lemma demo_owns : owns_pages demo_user demo_dir [page1] 0 (pages_below KERNBASE).
Proof.
  unfold owns_pages. change (k_mem demo_user) with demo_user_mem. rewrite demo_frames by (vm_compute; split; discriminate). split; [apply NoDup_singleton|].
  intros f ->%list_elem_of_singleton. split; [split; [done|split; by vm_compute]|]. split; [by intros Hin%list_elem_of_singleton|]. split; [done|].
  intros d Hd. change (k_mem demo_user) with demo_user_mem. rewrite demo_pde by done. by destruct (Z.eqb_spec d 0).
Qed.

Lemma demo_no_record d : no_record demo_user 0 d.
Proof.
  exists (set_p_pid 3 proc0). split; [done|]. right. intros g Hg. apply elem_of_replicate in Hg as [-> _]. done.
Qed.

Lemma freevm_frees_witness : ∃ k', (freevm demo_dir : M kernel unit unit) demo_user = Ret tt k' ∧ kmem_frame demo_user k' ∧ kmem_idle k' ∧
  free_ok k' (demo_dir :: rev (tables (k_mem demo_user) demo_dir NPDENTRIES) ++ rev (frames (k_mem demo_user) demo_dir 0 (pages_below KERNBASE)) ++ [page1]) ∧
  ∀ q a, other_frame demo_user demo_dir [page1] q → q ∉ frames (k_mem demo_user) demo_dir 0 (pages_below KERNBASE) → q <= a < q + PGSIZE → k_mem k' a = k_mem demo_user a.
Proof.
  apply (freevm_frees demo_user 0 demo_dir [page1]); [exact demo_user_ok|reflexivity|exact (demo_no_record demo_dir)|reflexivity|exact demo_owns].
Defined.
