(* ===== verification/SetupSpec.v ===== *)
(** * SetupSpec: building an address space

    What holds of a directory under construction: the frames it took from the
    free list are its tables and its pages, and every frame in use elsewhere
    is untouched. [setupkvm] builds the kernel's half, a directory and 64
    tables; when memory runs out it gives back everything it took. *)

From S2P Require Import Prelude CString Kernel Sched Kalloc Fifo Paging PagingSpec AddrSpec.

(** ** Definitions *)

(** The number of user pages of an address space. *)
Definition UPAGES : Z := pages_below KERNBASE.

(** Frames in use when the free list was [l0] keep their bytes. *)
Definition in_use_kept (k0 : kernel) (l0 : list Z) (k : kernel) : Prop :=
  ∀ q a, page_ok k0 q → q ∉ l0 → q <= a < q + PGSIZE → k_mem k a = k_mem k0 a.

(** A directory [d] under construction since [k0], when [l0] was free: the
    frames taken are [d], its tables, its pages, and [x], not yet mapped. *)
Record building (k0 : kernel) (l0 : list Z) (k : kernel) (d : Z) (x l : list Z) : Prop := mk_building {
  bd_frame : kmem_frame k0 k;
  bd_state : pg_state_ok k d l;
  bd_count : l0 ≡ₚ d :: tables (k_mem k) d NPDENTRIES ++ frames (k_mem k) d 0 UPAGES ++ x ++ l;
  bd_own : owns_pages k d l 0 UPAGES;
  bd_kept : in_use_kept k0 l0 k;
}.

(** Nothing mapped from page [i] on. *)
Definition unmapped_from (k : kernel) (d i : Z) : Prop := ∀ x, i <= x < UPAGES → present (pte_val (k_mem k) d (PGSIZE * x)) = false.

Lemma UPAGES_eq : UPAGES = 524288.
Proof. reflexivity. Qed.

(** ** Writing into a frame of one's own *)
Section write.
Context (k : kernel) (d : Z) (l : list Z) (f : Z) (m' : mem).
Hypothesis (Hst : pg_state_ok k d l) (Hf : other_frame k d l f) (Hm : same_outside [f] (k_mem k) m').

Lemma write_same q a : q mod PGSIZE = 0 → q ≠ f → q <= a < q + PGSIZE → m' a = k_mem k a.
Proof using Hst Hf Hm. intros Hq Hne Ha. apply Hm. intros x ->%list_elem_of_singleton Hin. by apply (frame_distinct q f a); [|apply Hf|..]. Qed.

Lemma write_pde x : 0 <= x < NPDENTRIES → pde_at m' d x = pde_at (k_mem k) d x.
Proof using Hst Hf Hm.
  intros Hx. destruct Hst as (_ & _ & Hpt). apply load32_page_same; [done|]. intros a. apply write_same; [exact (proj1 (po_dir _ _ _ Hpt))|].
  destruct Hf as (_ & _ & Hd & _). by apply not_eq_sym.
Qed.

Lemma write_pte va : 0 <= va < 2 ^ 32 → pte_val m' d va = pte_val (k_mem k) d va.
Proof using Hst Hf Hm.
  intros Hva. unfold pte_val. rewrite write_pde by (by apply PDX_range). destruct (present _) eqn:Hp; [|done].
  destruct Hst as (_ & _ & Hpt). destruct (po_tab _ _ _ Hpt (PDX va) (PDX_range va Hva) Hp) as ((Ht & _) & _).
  apply load32_page_same; [apply PTX_range|]. intros a. apply write_same; [done|]. destruct Hf as (_ & _ & _ & Ht'). apply not_eq_sym, Ht'; [by apply PDX_range|done].
Qed.

Lemma write_state : pg_state_ok (set_k_mem m' k) d l.
Proof using Hst Hf Hm.
  destruct Hst as (Hk & [F1 F2 F3] & [P1 P2 P3 P4]). split; [done|]. split.
  - split; [|done|done]. cbn. eapply chain_frame; [|exact F1]. intros q a Hq Ha.
    pose proof (proj1 (list.Forall_forall _ _) F3 q Hq) as (Hqa & _). apply (write_same q); [done| |unfold PGSIZE; lia]. intros ->. destruct Hf as (_ & Hl & _). done.
  - split; [done|done|..]; cbn [k_mem set_k_mem].
    + intros x Hx. rewrite write_pde by done. by apply P3.
    + intros x y Hx Hy. rewrite !write_pde by done. by apply P4.
Qed.

Lemma write_other q : other_frame k d l q → other_frame (set_k_mem m' k) d l q.
Proof using Hst Hf Hm. intros (H1 & H2 & H3 & H4). split; [done|]. split; [done|]. split; [done|]. cbn [k_mem set_k_mem]. intros x Hx. rewrite write_pde by done. by apply H4. Qed.
End write.

(** The page numbers and their addresses. *)
Lemma upage_range x : 0 <= x < UPAGES → 0 <= PGSIZE * x < 2 ^ 31 ∧ 0 <= PGSIZE * x < 2 ^ 32 ∧ (PGSIZE * x) / PGSIZE = x.
Proof. rewrite UPAGES_eq. unfold PGSIZE. change (2 ^ 31) with 2147483648. change (2 ^ 32) with 4294967296. intros. split; [lia|]. split; [lia|]. divlia. Qed.

Lemma tables_in k d l t : pt_ok k d l → t ∈ tables (k_mem k) d NPDENTRIES → page_ok k t ∧ t ≠ d ∧ t ∉ l.
Proof. intros Hpt. rewrite tables_eq. apply (slots_in k d l _ t Hpt). exact slots_range. Qed.

Lemma table_slot k d x : 0 <= x < NPDENTRIES → present (pde_at (k_mem k) d x) = true → table_of (pde_at (k_mem k) d x) ∈ tables (k_mem k) d NPDENTRIES.
Proof. intros Hx Hp. rewrite tables_eq. apply list_elem_of_omap. exists x. split; [by apply elem_of_seqZ; lia|]. unfold slot_table. by rewrite Hp. Qed.

(** What was taken from the free list is not in use elsewhere. *)
Lemma building_other k0 l0 k d x l q : building k0 l0 k d x l → page_ok k0 q → q ∉ l0 → other_frame k d l q.
Proof.
  intros [Hfr Hst Hc _ _] Hq Hn. rewrite Hc, not_elem_of_cons, !not_elem_of_app in Hn. destruct Hn as (Hd & Ht & _ & _ & Hl).
  split; [by apply (page_ok_frame k0); [apply kmem_frame_end|]|]. split; [done|]. split; [done|]. intros s Hs Hp ->. apply Ht. by apply (table_slot k d).
Qed.

(** ** One more page *)
Lemma frames_app m pgdir i j n : i <= j <= n → frames m pgdir i n = frames m pgdir i j ++ frames m pgdir j n.
Proof.
  intros H. unfold frames. replace (n - i) with ((j - i) + (n - j)) by lia. rewrite seqZ_app by lia. rewrite omap_app.
  by replace (i + (j - i)) with j by lia.
Qed.

Lemma frames_insert m m' pgdir i n f : 0 <= i < n → frame_at m pgdir i = None → frame_at m' pgdir i = Some f →
  (∀ x, 0 <= x < n → x ≠ i → pte_val m' pgdir (PGSIZE * x) = pte_val m pgdir (PGSIZE * x)) → frames m' pgdir 0 n ≡ₚ f :: frames m pgdir 0 n.
Proof.
  intros Hi Hno Hyes Hsame. rewrite (frames_app m' pgdir 0 i n), (frames_app m pgdir 0 i n), (frames_step m' pgdir i), (frames_step m pgdir i), Hno, Hyes by lia.
  rewrite (frames_ext m m' pgdir 0 i) by (intros; apply Hsame; lia). rewrite (frames_ext m m' pgdir (i + 1) n) by (intros; apply Hsame; lia).
  cbn [option_list app]. by rewrite Permutation_middle.
Qed.

Lemma entry_frame k f e : 0 < k_end k → page_ok k f → 0 <= e < PGSIZE → present (Z.lor (V2P f) (Z.lor e PTE_P)) = true ∧ table_of (Z.lor (V2P f) (Z.lor e PTE_P)) = f.
Proof.
  intros Hend Hf He. pose proof (lor_small e He) as Hl. split; [|by apply (page_ok_entry k)].
  destruct (page_ok_range k f Hend Hf) as (Hr & Ha & _). rewrite present_flags; [| |done].
  - unfold PTE_P. rewrite Z.land_lor_distr_l. change (Z.land 1 1) with 1. destruct (Z.eqb_spec (Z.lor (Z.land e 1) 1) 0) as [H|]; [|done]. apply Z.lor_eq_0_iff in H. lia.
  - unfold V2P, u32, KERNBASE, PGSIZE in *. change (2 ^ 32) with 4294967296 in *. divlia.
Qed.

Lemma map_one_page i : 0 <= i < UPAGES → first_page (PGSIZE * i) = PGSIZE * i ∧ pages_of (PGSIZE * i) PGSIZE = 1%nat.
Proof.
  rewrite UPAGES_eq. intros Hi. assert (H1 : first_page (PGSIZE * i) = PGSIZE * i) by (unfold first_page, PGSIZE; divlia).
  split; [done|]. unfold pages_of. rewrite H1. assert (H2 : first_page (PGSIZE * i + PGSIZE - 1) = PGSIZE * i) by (unfold first_page, PGSIZE; divlia).
  rewrite H2, Z.sub_diag. done.
Qed.

Lemma map_range_one i f perm g va : 0 <= i < UPAGES → 0 <= va < 2 ^ 32 →
  map_range (PGSIZE * i) 1 (V2P f) perm g va = if va / PGSIZE =? i then Z.lor (V2P f) (Z.lor perm PTE_P) else g va.
Proof.
  intros Hi Hva. unfold map_range. destruct (Z.eqb_spec (va / PGSIZE) i) as [<-|Hne].
  - replace ((PGSIZE * (va / PGSIZE) <=? va) && (va <? PGSIZE * (va / PGSIZE) + PGSIZE * Z.of_nat 1)) with true by (unfold PGSIZE; divlia).
    f_equal. unfold PGSIZE. divlia.
  - replace ((PGSIZE * i <=? va) && (va <? PGSIZE * i + PGSIZE * Z.of_nat 1)) with false; [done|]. unfold PGSIZE in *. symmetry. divlia.
Qed.

Lemma building_kept_step k0 l0 k d x l k' l' g : building k0 l0 k d x l → pt_step k k' d l l' g → in_use_kept k0 l0 k'.
Proof.
  intros Hb (_ & _ & _ & Ho & _) q a Hq Hn Ha. rewrite (Ho q a) by (by try apply (building_other k0 l0 k d x l)). by apply (bd_kept _ _ _ _ _ _ Hb q).
Qed.

Lemma shuffle {A} (d : A) t f x p l : d :: t ++ f ++ x ++ p ++ l ≡ₚ d :: (p ++ t) ++ f ++ x ++ l.
Proof. constructor. rewrite (Permutation_app_comm p t), <- app_assoc. apply Permutation_app_head. rewrite (Permutation_app_swap_app x p l). apply Permutation_app_swap_app. Qed.

Lemma shuffle_map {A} (d f : A) t fs p l : d :: t ++ fs ++ [f] ++ p ++ l ≡ₚ d :: (p ++ t) ++ (f :: fs) ++ [] ++ l.
Proof. rewrite shuffle. constructor. apply Permutation_app_head. cbn. by rewrite Permutation_middle. Qed.

(** Tables were added, no user page changed. *)
Lemma building_step k0 l0 k d x l k' l' g : building k0 l0 k d x l → pt_step k k' d l l' g →
  (∀ y, 0 <= y < UPAGES → g (PGSIZE * y) = pte_val (k_mem k) d (PGSIZE * y)) → building k0 l0 k' d x l'.
Proof.
  intros Hb Hs Hg. pose proof (building_kept_step _ _ _ _ _ _ _ _ _ Hb Hs) as Hkept. destruct Hb as [Hfr Hst Hc [Hnd Hown] _].
  destruct Hs as (F & S & (ps & -> & Ht) & _ & Q & V).
  assert (Ef : frames (k_mem k') d 0 UPAGES = frames (k_mem k) d 0 UPAGES).
  { apply frames_ext. intros y Hy. destruct (upage_range y Hy) as (_ & Hr & _). rewrite V by done. by apply Hg. }
  split; [by etrans|done| |split; rewrite Ef; [done|]|done].
  - rewrite Hc, Ht, Ef. apply shuffle.
  - intros q Hq. by apply Q, Hown.
Qed.

(** The frame [f] was mapped at page [i]. *)
Lemma building_map k0 l0 k d f l k' l' i e : building k0 l0 k d [f] l → other_frame k d l f → 0 <= i < UPAGES → 0 <= e < PGSIZE →
  present (pte_val (k_mem k) d (PGSIZE * i)) = false → f ∉ frames (k_mem k) d 0 UPAGES →
  pt_step k k' d l l' (λ va, if va / PGSIZE =? i then Z.lor (V2P f) (Z.lor e PTE_P) else pte_val (k_mem k) d va) → building k0 l0 k' d [] l'.
Proof.
  intros Hb Hf Hi He Hno Hnf Hs. pose proof (building_kept_step _ _ _ _ _ _ _ _ _ Hb Hs) as Hkept. destruct Hb as [Hfr Hst Hc [Hnd Hown] _].
  destruct Hs as (F & S & (ps & -> & Ht) & _ & Q & V). destruct (upage_range i Hi) as (_ & Hr & Hd).
  destruct (entry_frame k f e (kend_pos k (proj1 Hst)) (proj1 Hf) He) as [Hp Htf].
  assert (Ef : frames (k_mem k') d 0 UPAGES ≡ₚ f :: frames (k_mem k) d 0 UPAGES).
  { apply (frames_insert _ _ d i UPAGES f Hi).
    - unfold frame_at. by rewrite Hno.
    - unfold frame_at. rewrite V, Hd, Z.eqb_refl by done. by rewrite Hp, Htf.
    - intros x Hx Hne. destruct (upage_range x Hx) as (_ & Hrx & Hdx). rewrite V, Hdx by done. by rewrite (proj2 (Z.eqb_neq _ _) Hne). }
  split; [by etrans|done| |split; [rewrite Ef; by constructor|]|done].
  - rewrite Hc, Ht, Ef. apply shuffle_map.
  - intros q. rewrite Ef. intros [->|Hq]%elem_of_cons; apply Q; [done|by apply Hown].
Qed.

(** Mapping the copy [f] at page [i]. *)
Lemma map_copy {C} k0 l0 k d f l i e : building k0 l0 k d [f] l → other_frame k d l f → 0 <= i < UPAGES → 0 <= e < PGSIZE →
  present (pte_val (k_mem k) d (PGSIZE * i)) = false → f ∉ frames (k_mem k) d 0 UPAGES →
  ∃ r k' l', (mappages d (PGSIZE * i) PGSIZE (V2P f) e : M kernel C Z) k = Ret r k' ∧
    ((r = 0 ∧ building k0 l0 k' d [] l' ∧
      pt_step k k' d l l' (λ va, if va / PGSIZE =? i then Z.lor (V2P f) (Z.lor e PTE_P) else pte_val (k_mem k) d va)) ∨
     (r = -1 ∧ l' = [] ∧ building k0 l0 k' d [f] l' ∧ (∀ va, 0 <= va < 2 ^ 32 → pte_val (k_mem k') d va = pte_val (k_mem k) d va) ∧
      present (pde_at (k_mem k') d (PDX (PGSIZE * i))) = false)) ∧
    slots_kept (k_mem k) (k_mem k') d (λ x, x = PDX (PGSIZE * i)).
Proof.
  intros Hb Hf Hi He Hno Hnf. pose proof (bd_state _ _ _ _ _ _ Hb) as Hst. destruct (upage_range i Hi) as (H31 & Hr & Hd).
  destruct (map_one_page i Hi) as [H1 H2].
  destruct (page_ok_range k f (kend_pos k (proj1 Hst)) (proj1 Hf)) as (Hfr & Hfa & Hfp).
  destruct (mappages_spec (C := C) k d l (PGSIZE * i) PGSIZE (V2P f) e Hst) as (k' & l' & r & j & E & Hs & Hsl & Hcase); rewrite ?H1, ?H2; try done; try lia.
  - unfold PGSIZE in *. change (2 ^ 31) with 2147483648 in *. change (2 ^ 32) with 4294967296 in *. lia.
  - unfold V2P, u32, KERNBASE, PGSIZE in *. change (2 ^ 32) with 4294967296 in *. divlia.
  - unfold PHYSTOP, PGSIZE in *. change (2 ^ 32) with 4294967296 in *. lia.
  - intros va Hva. assert (Hvr : 0 <= va < 2 ^ 32) by (unfold PGSIZE in *; change (2 ^ 31) with 2147483648 in *; change (2 ^ 32) with 4294967296 in *; lia).
    rewrite (pte_page_at _ _ va i) by (done || (unfold PGSIZE in *; divlia)). done.
  - assert (Hpdx : ∀ va, PGSIZE * i <= va < PGSIZE * i + PGSIZE * Z.of_nat 1 → PDX va = PDX (PGSIZE * i)).
    { intros va Hva. unfold PGSIZE in *. change (2 ^ 31) with 2147483648 in *. change (2 ^ 32) with 4294967296 in *.
      rewrite !PDX_eq by (change (2 ^ 32) with 4294967296; lia). change (2 ^ 22) with 4194304. divlia. }
    rewrite H1 in Hs. exists r, k', l'. split; [done|]. rewrite H1, H2 in Hcase, Hsl. split; cycle 1.
    { eapply slots_kept_sub; [|exact Hsl]. intros x (va & Hva & ->). by apply Hpdx. }
    destruct Hcase as [[-> ->]|(-> & -> & Hj & va & Hva & Hout)]; [left|right]; (split; [done|]).
    + assert (Hs' : pt_step k k' d l l' (λ va, if va / PGSIZE =? i then Z.lor (V2P f) (Z.lor e PTE_P) else pte_val (k_mem k) d va)).
      { eapply pt_step_ext; [|exact Hs]. intros va Hva. by apply map_range_one. }
      split; [by eapply building_map|done].
    + assert (j = 0)%nat as -> by lia. split; [done|]. split; [|split].
      * eapply building_step; [done|exact Hs|]. intros y Hy. apply map_range_0.
      * destruct Hs as (_ & _ & _ & _ & _ & V). intros va' Hva'. rewrite V by done. apply map_range_0.
      * by rewrite <- (Hpdx va Hva).
Qed.

(** ** A fresh page with a copy of the parent's *)
Lemma building_kalloc {C} k0 l0 k d l : building k0 l0 k d [] l →
  ∃ k', match l with
    | [] => (kalloc : M kernel C Z) k = Ret 0 k' ∧ building k0 l0 k' d [] []
    | f :: l' => (kalloc : M kernel C Z) k = Ret f k' ∧ f ≠ 0 ∧ building k0 l0 k' d [f] l' ∧ other_frame k' d l' f ∧ f ∉ frames (k_mem k) d 0 UPAGES ∧ f ∈ l0 ∧
        page_ok k0 f ∧ k_mem k' = k_mem k ∧ ∀ q, other_frame k d l q → other_frame k' d l' q
    end.
Proof.
  intros [Hfr (Hk & Hf & Hpt) Hc [Hnd Hown] Hkept]. destruct (kalloc_pop (C := C) k l Hk Hf) as (k' & F & Hk' & Hm & _ & Hl). exists k'.
  pose proof (kmem_frame_end _ _ F) as He. assert (Hpt' : ∀ l', l' ⊆ l → pt_ok k' d l') by (intros l' Hs; apply (pt_ok_mono k' d l l' Hs); by apply (pt_ok_frame k)).
  assert (Hoth : ∀ l' q, l' ⊆ l → other_frame k d l q → other_frame k' d l' q).
  { intros l' q Hs (Q1 & Q2 & Q3 & Q4). split; [by apply (page_ok_frame k)|]. split; [intros H; by apply Q2, Hs|]. split; [done|]. by rewrite Hm. }
  assert (Hsub : ∀ f (l' : list Z), l' ⊆ f :: l') by (intros f l' x Hx; by right).
  destruct l as [|f l'].
  - destruct Hl as [E Hf']. split; [done|]. split; [by etrans| |by rewrite Hm|split; [by rewrite Hm|]|].
    + split; [done|]. split; [done|]. by apply Hpt'.
    + rewrite Hm. intros q Hq. by apply Hoth, Hown.
    + intros q a Hq Hn Ha. rewrite Hm. by apply (Hkept q).
  - destruct Hl as (E & Hfok & Hfn & Hf'). destruct (page_ok_range k f (kend_pos k Hk) Hfok) as (Hr & _).
    assert (Hff : f ∉ frames (k_mem k) d 0 UPAGES).
    { intros H. destruct (Hown f H) as (_ & Hn & _). apply Hn. by left. }
    split; [done|]. split; [unfold KERNBASE in *; lia|]. split; [|split; [|split; [done|]]].
    + split; [by etrans| |by rewrite Hm|split; [by rewrite Hm|]|].
      * split; [done|]. split; [done|]. apply Hpt', Hsub.
      * rewrite Hm. intros q Hq. apply Hoth; [apply Hsub|by apply Hown].
      * intros q a Hq Hn Ha. rewrite Hm. by apply (Hkept q).
    + split; [by apply (page_ok_frame k)|]. split; [done|]. destruct Hpt as [P1 P2 P3 P4]. split; [intros ->; apply P2; by left|].
      rewrite Hm. intros x Hx Hp ->. destruct (P3 x Hx Hp) as (_ & _ & Hn). apply Hn. by left.
    + split; [rewrite Hc, elem_of_cons, !elem_of_app; right; right; right; right; by left|]. split; [apply (page_ok_frame k); [symmetry; by apply kmem_frame_end|done]|]. split; [done|]. intros q. apply Hoth, Hsub.
Qed.

Lemma building_write k0 l0 k d f l m' : building k0 l0 k d [f] l → other_frame k d l f → f ∈ l0 → f ∉ frames (k_mem k) d 0 UPAGES → same_outside [f] (k_mem k) m' →
  building k0 l0 (set_k_mem m' k) d [f] l ∧ (∀ va, 0 <= va < 2 ^ 32 → pte_val m' d va = pte_val (k_mem k) d va) ∧
  frames m' d 0 UPAGES = frames (k_mem k) d 0 UPAGES ∧ (∀ q, other_frame k d l q → other_frame (set_k_mem m' k) d l q).
Proof.
  intros [Hfr Hst Hc [Hnd Hown] Hkept] Hf Hfl Hff Hm.
  assert (Hpte : ∀ va, 0 <= va < 2 ^ 32 → pte_val m' d va = pte_val (k_mem k) d va) by (intros va; by apply (write_pte k d l f)).
  assert (Ef : frames m' d 0 UPAGES = frames (k_mem k) d 0 UPAGES).
  { apply frames_ext. intros x Hx. apply Hpte. by apply upage_range. }
  assert (Et : tables m' d NPDENTRIES = tables (k_mem k) d NPDENTRIES) by (apply tables_ext; intros; by apply (write_pde k d l f)).
  split; [|split; [done|split; [done|intros q; by apply (write_other k d l f)]]]. constructor.
  - etrans; [exact Hfr|apply set_mem_frame].
  - by apply (write_state k d l f).
  - change (k_mem (set_k_mem m' k)) with m'. rewrite Et, Ef. exact Hc.
  - unfold owns_pages. change (k_mem (set_k_mem m' k)) with m'. rewrite Ef. split; [exact Hnd|]. intros q Hq. by apply (write_other k d l f), Hown.
  - intros q a Hq Hn Ha. change (k_mem (set_k_mem m' k)) with m'. rewrite (write_same k d l f m' Hst Hf Hm q a (proj1 Hq)); [by apply (Hkept q)| |done].
    by intros ->.
Qed.

(** ** Giving up *)

(** Everything taken from [l0] is free again, but for [x]. *)
Definition gave_back (k0 : kernel) (l0 : list Z) (k : kernel) (x : list Z) : Prop :=
  kmem_frame k0 k ∧ kmem_idle k ∧ in_use_kept k0 l0 k ∧ ∃ l, free_ok k l ∧ l0 ≡ₚ x ++ l.

Lemma building_freevm {C} k0 l0 k d x l p : building k0 l0 k d x l → k_cur k0 = Some p → no_record k0 p d → KERNBASE < k_end k0 →
  ∃ k', (freevm d : M kernel C unit) k = Ret tt k' ∧ gave_back k0 l0 k' x.
Proof.
  intros Hb Hcur Hrec Hend. pose proof Hb as [Hfr Hst Hc Hown Hkept]. unfold UPAGES in Hown.
  assert (Hcur' : k_cur k = Some p ∧ no_record k p d) by (destruct Hfr as [-> _]; done). destruct Hcur' as [Hcur' Hrec'].
  destruct (wp_freevm (C := C) k p d l KERNBASE eq_refl Hst Hcur' Hrec') as (k' & E & F & Hk & Hf & Ho); [by rewrite (kmem_frame_end _ _ Hfr)|done|].
  exists k'. split; [done|]. split; [by etrans|]. split; [done|]. split.
  - intros q a Hq Hn Ha. rewrite (Ho q a) by (done || (by apply (building_other k0 l0 k d x l)) || (intros H; apply Hn; rewrite Hc, elem_of_cons, !elem_of_app; right; right; by left)).
    by apply (Hkept q).
  - eexists. split; [exact Hf|]. rewrite Hc. fold UPAGES. generalize (tables (k_mem k) d NPDENTRIES) (frames (k_mem k) d 0 UPAGES). intros ts fs.
    rewrite <- (Permutation_middle x). constructor. rewrite <- (Permutation_rev ts), <- (Permutation_rev fs).
    rewrite (Permutation_app_swap_app fs x l), (Permutation_app_swap_app ts x). done.
Qed.

(** ** How many frames it takes *)

(** The slots of the kernel's half: the memory below [PHYSTOP] and the
    devices. *)
Definition kern_slot (x : Z) : Prop := 512 <= x < 568 ∨ 1016 <= x < 1024.
Definition KTABLES : Z := 64.

(** Tables only in the first [u] slots and in the kernel's half. *)
Definition slots_below (m : mem) (d u : Z) : Prop :=
  ∀ x, 0 <= x < NPDENTRIES → present (pde_at m d x) = true → x < u ∨ kern_slot x.
Definition slot_list (u : Z) : list Z := seqZ 0 u ++ seqZ 512 56 ++ seqZ 1016 8.
Definition in_use (m : mem) (d : Z) : list Z := filter (λ x, present (pde_at m d x) = true) (seqZ 0 NPDENTRIES).

(** The tables for [n] user pages, and all frames of an address space of
    [n] user pages: the directory, the tables and the pages. *)
Definition user_tables (n : Z) : Z := (n + NPTENTRIES - 1) / NPTENTRIES.
Definition frames_needed (n : Z) : Z := 1 + KTABLES + user_tables n + n.

Lemma elem_of_slot_list u x : x ∈ slot_list u ↔ 0 <= x < u ∨ kern_slot x.
Proof. unfold slot_list, kern_slot. rewrite !elem_of_app, !elem_of_seqZ. lia. Qed.

Lemma slot_list_NoDup u : u <= 512 → NoDup (slot_list u).
Proof.
  intros Hu. unfold slot_list. rewrite !list.NoDup_app. setoid_rewrite elem_of_app. setoid_rewrite elem_of_seqZ.
  split; [apply NoDup_seqZ|]. split; [intros; lia|]. split; [apply NoDup_seqZ|]. split; [intros; lia|apply NoDup_seqZ].
Qed.

Lemma slot_list_length u : 0 <= u → Z.of_nat (length (slot_list u)) = u + KTABLES.
Proof. intros Hu. unfold slot_list, KTABLES. rewrite !length_app, !length_seqZ. lia. Qed.

Lemma elem_of_in_use m d x : x ∈ in_use m d ↔ 0 <= x < NPDENTRIES ∧ present (pde_at m d x) = true.
Proof. unfold in_use. rewrite list_elem_of_filter, elem_of_seqZ. rewrite Z.add_0_l. tauto. Qed.

Lemma in_use_NoDup m d : NoDup (in_use m d).
Proof. apply list.NoDup_filter, NoDup_seqZ. Qed.

Lemma tables_length m d : length (tables m d NPDENTRIES) = length (in_use m d).
Proof.
  rewrite tables_eq. unfold in_use. induction (seqZ 0 NPDENTRIES) as [|x xs IH]; [done|]. cbn [omap list_omap].
  unfold slot_table at 1. destruct (present (pde_at m d x)) eqn:E.
  - rewrite filter_cons_True by done. cbn. by rewrite <- IH.
  - rewrite filter_cons_False by congruence. exact IH.
Qed.

Lemma NoDup_length_le (l k : list Z) : NoDup l → l ⊆ k → Z.of_nat (length l) <= Z.of_nat (length k).
Proof. intros Hn Hs. pose proof (submseteq_length _ _ (NoDup_submseteq l k Hn Hs)). lia. Qed.

Lemma tables_at_most m d u : 0 <= u → slots_below m d u → Z.of_nat (length (tables m d NPDENTRIES)) <= u + KTABLES.
Proof.
  intros Hu Hs. rewrite tables_length, <- slot_list_length by done. apply NoDup_length_le; [apply in_use_NoDup|].
  intros x [Hx Hp]%elem_of_in_use. apply elem_of_slot_list. destruct (Hs x Hx Hp); [left; lia|by right].
Qed.

Lemma tables_fewer m d u x : 0 <= u → slots_below m d u → x < u ∨ kern_slot x → 0 <= x → present (pde_at m d x) = false →
  Z.of_nat (length (tables m d NPDENTRIES)) < u + KTABLES.
Proof.
  intros Hu Hs Hx Hx0 Hno. rewrite tables_length, <- slot_list_length by done. apply Z.le_succ_l. rewrite <- Nat2Z.inj_succ.
  change (S (length (in_use m d))) with (length (x :: in_use m d)). apply NoDup_length_le.
  - apply list.NoDup_cons. split; [|apply in_use_NoDup]. intros [_ Hp]%elem_of_in_use. congruence.
  - intros y [->|[Hy Hp]%elem_of_in_use]%elem_of_cons; apply elem_of_slot_list.
    + destruct Hx; [left; lia|by right].
    + destruct (Hs y Hy Hp); [left; lia|by right].
Qed.

Lemma tables_at_least m d u : 0 <= u <= 512 → (∀ x, 0 <= x < u ∨ kern_slot x → present (pde_at m d x) = true) →
  u + KTABLES <= Z.of_nat (length (tables m d NPDENTRIES)).
Proof.
  intros Hu Hp. rewrite tables_length, <- slot_list_length by lia. apply NoDup_length_le; [apply slot_list_NoDup; lia|].
  intros x Hx%elem_of_slot_list. apply elem_of_in_use. split; [|by apply Hp]. unfold kern_slot, NPDENTRIES in *. lia.
Qed.

Lemma slots_below_step m m' d (P : Z → Prop) u : slots_kept m m' d P → (∀ x, P x → x < u ∨ kern_slot x) → slots_below m d u → slots_below m' d u.
Proof.
  intros Hk HP Hs x Hx Hp. destruct (decide (x < u)); [by left|]. destruct (decide (512 <= x < 568)); [right; by left|].
  destruct (decide (1016 <= x < 1024)); [right; by right|]. apply (Hs x Hx). rewrite <- (Hk x Hx); [done|]. intros H%HP. unfold kern_slot in H. lia.
Qed.

Lemma frames_length m d i j : Z.of_nat (length (frames m d i j)) <= Z.max 0 (j - i).
Proof.
  unfold frames. assert (H : (length (omap (frame_at m d) (seqZ i (j - i))) <= length (seqZ i (j - i)))%nat).
  { induction (seqZ i (j - i)) as [|x xs IH]; [done|]. cbn. destruct (frame_at m d x); cbn; lia. }
  rewrite length_seqZ in H. lia.
Qed.

Lemma frames_at_most m d i n : 0 <= i <= n → (∀ x, i <= x < n → present (pte_val m d (PGSIZE * x)) = false) → Z.of_nat (length (frames m d 0 n)) <= i.
Proof.
  intros Hi Hno. rewrite (frames_app m d 0 i n), (frames_skip m d i n n), (frames_nil m d n n), app_nil_r; [|lia|lia|intros x Hx _; unfold frame_at; by rewrite Hno|lia].
  pose proof (frames_length m d 0 i). lia.
Qed.

Lemma frames_at_least m d i n : 0 <= i <= n → (∀ x, 0 <= x < i → present (pte_val m d (PGSIZE * x)) = true) → i <= Z.of_nat (length (frames m d 0 n)).
Proof.
  intros Hi Hp. rewrite (frames_app m d 0 i n), length_app by lia.
  assert (H : length (frames m d 0 i) = length (seqZ 0 (i - 0))); [|rewrite H, length_seqZ; lia]. unfold frames.
  assert (Hin : Forall (λ x, 0 <= x < i) (seqZ 0 (i - 0))) by (apply list.Forall_forall; intros x ?%elem_of_seqZ; lia).
  induction Hin as [|x xs Hx _ IH]; [done|]. cbn. unfold frame_at at 1. rewrite Hp by done. cbn. by rewrite IH.
Qed.

Lemma building_length k0 l0 k d x l : building k0 l0 k d x l → Z.of_nat (length l0) =
  1 + Z.of_nat (length (tables (k_mem k) d NPDENTRIES)) + Z.of_nat (length (frames (k_mem k) d 0 UPAGES)) + Z.of_nat (length x) + Z.of_nat (length l).
Proof. intros Hb. rewrite (Permutation_length (bd_count _ _ _ _ _ _ Hb)). cbn. rewrite !length_app. lia. Qed.

(** ** The kernel's half *)

(** The rows of a map are sorted, disjoint, whole pages, from [lo] on. *)
Fixpoint rows_from (lo : Z) (rows : list (Z * Z * Z * Z)) : Prop :=
  match rows with
  | [] => True
  | (virt, ps, pe, perm) :: rows => let size := u32 (pe - ps) in
      lo <= virt ∧ 0 < size ∧ virt + size <= 2 ^ 32 ∧ 0 <= ps ∧ ps + size <= 2 ^ 32 ∧
      virt mod PGSIZE = 0 ∧ size mod PGSIZE = 0 ∧ ps mod PGSIZE = 0 ∧ 0 <= perm < PGSIZE ∧ rows_from (virt + size) rows
  end.

Definition row_mapped (m : mem) (d : Z) (row : Z * Z * Z * Z) : Prop :=
  let '(virt, ps, pe, perm) := row in
  ∀ va, virt <= va < virt + u32 (pe - ps) → pte_val m d va = Z.lor (ps + (first_page va - virt)) (Z.lor perm PTE_P).

Definition clear_from (m : mem) (d lo : Z) : Prop := ∀ va, lo <= va < 2 ^ 32 → present (pte_val m d va) = false.

Lemma whole_pages va size : 0 < size → va mod PGSIZE = 0 → size mod PGSIZE = 0 → first_page va = va ∧ PGSIZE * Z.of_nat (pages_of va size) = size.
Proof.
  intros Hs Hv Hz. pose proof (pages_of_eq va size Hs) as H. assert (E : first_page va = va) by (unfold first_page; lia). split; [done|].
  rewrite E in H. unfold first_page, PGSIZE in *. divlia.
Qed.

Lemma setup_row {C} k0 l0 k d l lo virt ps pe perm rows : building k0 l0 k d [] l → KERNBASE <= lo → clear_from (k_mem k) d lo →
  rows_from lo ((virt, ps, pe, perm) :: rows) →
  ∃ r k' l', (mappages d virt (u32 (pe - ps)) ps perm : M kernel C Z) k = Ret r k' ∧ building k0 l0 k' d [] l' ∧
    slots_kept (k_mem k) (k_mem k') d (slot_in virt (u32 (pe - ps))) ∧
    (∀ va, 0 <= va < virt → pte_val (k_mem k') d va = pte_val (k_mem k) d va) ∧
    (r = -1 ∧ l' = [] ∧ slot_out (k_mem k') d virt (u32 (pe - ps)) ∨
     r = 0 ∧ row_mapped (k_mem k') d (virt, ps, pe, perm) ∧ clear_from (k_mem k') d (virt + u32 (pe - ps))).
Proof.
  intros Hb Hlo Hcl (Hv & Hs & Hv2 & Hp & Hp2 & Hva & Hsa & Hpa & Hpe & _). set (size := u32 (pe - ps)) in *.
  assert (HK : KERNBASE = 2147483648) by done. assert (HU : UPAGES = 524288) by done. assert (HP : PGSIZE = 4096) by done.
  destruct (whole_pages virt size Hs Hva Hsa) as [E1 E2].
  destruct (mappages_spec (C := C) k d l virt size ps perm (bd_state _ _ _ _ _ _ Hb)) as (k' & l' & r & j & E & Hst & Hsl & Hcase); rewrite ?E1, ?E2; try done; try lia.
  { intros va Hin. apply Hcl. lia. }
  exists r, k', l'. split; [done|]. rewrite E1, ?E2 in *. split; [|split; [done|split]].
  - eapply building_step; [done|exact Hst|]. intros y Hy. unfold map_range. rewrite (proj2 (Z.leb_gt _ _)) by lia. done.
  - destruct Hst as (_ & _ & _ & _ & _ & V). intros va Hin. rewrite V by lia. unfold map_range. by rewrite (proj2 (Z.leb_gt _ _)) by lia.
  - destruct Hcase as [[-> ->]|(-> & -> & _ & Hout)]; [right|by left]. split; [done|]. destruct Hst as (_ & _ & _ & _ & _ & V). split.
    + intros va Hin. rewrite V by lia. unfold map_range. rewrite E2, (proj2 (Z.leb_le _ _)), (proj2 (Z.ltb_lt _ _)) by lia. done.
    + intros va Hin. rewrite V by lia. unfold map_range. rewrite E2, (proj2 (Z.ltb_ge _ _)), andb_false_r by lia. apply Hcl. lia.
Qed.

Lemma row_mapped_kept m m' d row lo : (∀ va, 0 <= va < lo → pte_val m' d va = pte_val m d va) →
  (let '(virt, ps, pe, _) := row in 0 <= virt ∧ virt + u32 (pe - ps) <= lo) → row_mapped m d row → row_mapped m' d row.
Proof. destruct row as [[[virt ps] pe] perm]. intros H Hr Hm va Hva. rewrite H by lia. by apply Hm. Qed.

(** The rows lie in the slots of the kernel's half. *)
Definition row_kern (row : Z * Z * Z * Z) : Prop :=
  let '(virt, ps, pe, _) := row in ∀ va, virt <= va < virt + u32 (pe - ps) → kern_slot (PDX va).

(** Nothing is mapped for the user. *)
Definition no_user (m : mem) (d : Z) : Prop := ∀ va, 0 <= va < KERNBASE → present (pte_val m d va) = false.

(** The loop over the rows: it fails only when there are too few frames for
    the directory and the kernel's tables. *)
Lemma setupkvm_rows {C} k0 l0 p d rows : k_cur k0 = Some p → no_record k0 p d → KERNBASE < k_end k0 → ∀ lo k l,
  building k0 l0 k d [] l → KERNBASE <= lo → clear_from (k_mem k) d lo → rows_from lo rows → Forall row_kern rows → slots_below (k_mem k) d 0 → no_user (k_mem k) d →
  ∃ r k', (setupkvm_loop rows d : M kernel C Z) k = Ret r k' ∧
    (r = 0 ∧ Z.of_nat (length l0) < 1 + KTABLES ∧ gave_back k0 l0 k' [] ∨
     r = d ∧ (∃ l', building k0 l0 k' d [] l') ∧ slots_below (k_mem k') d 0 ∧ Forall (row_mapped (k_mem k') d) rows ∧
     ∀ va, 0 <= va < lo → pte_val (k_mem k') d va = pte_val (k_mem k) d va).
Proof.
  intros Hcur Hrec Hend. induction rows as [|[[[virt ps] pe] perm] rows IH]; intros lo k l Hb Hlo Hcl Hr Hkern Hsb Hnu; cbn [setupkvm_loop].
  { exists d, k. split; [done|]. right. split; [done|]. split; [by exists l|]. by split. }
  destruct (setup_row (C := C) k0 l0 k d l lo virt ps pe perm rows Hb Hlo Hcl Hr) as (r & k1 & l1 & E & Hb1 & Hsl & Hs1 & Hcase). rewrite (bind_Ret_eq _ _ _ _ _ E).
  apply Forall_cons_iff in Hkern as [Hk Hkern]. assert (HK : KERNBASE = 2147483648) by done.
  destruct Hr as (Hv & Hsz & Hv2 & _ & _ & _ & _ & _ & _ & Hr).
  assert (Hsb1 : slots_below (k_mem k1) d 0).
  { eapply slots_below_step; [exact Hsl| |done]. intros x (va & Hva & ->). right. by apply Hk. }
  assert (Hnu1 : no_user (k_mem k1) d) by (intros va Hva; rewrite Hs1 by lia; by apply Hnu).
  destruct Hcase as [(-> & -> & (va & Hva & Hout))|(-> & Hm & Hcl1)]; [change (-1 <? 0) with true|change (0 <? 0) with false]; cbv iota.
  { destruct (building_freevm (C := C) k0 l0 k1 d [] [] p Hb1 Hcur Hrec Hend) as (k2 & E2 & H2). exists 0, k2. rewrite (bind_Ret_eq _ _ _ _ _ E2). split; [done|]. left. split; [done|].
    split; [|done]. rewrite (building_length _ _ _ _ _ _ Hb1). pose proof (PDX_range va ltac:(lia)).
    pose proof (tables_fewer (k_mem k1) d 0 (PDX va) ltac:(lia) Hsb1 (or_intror (Hk va Hva)) ltac:(lia) Hout).
    assert (Hfr : Z.of_nat (length (frames (k_mem k1) d 0 UPAGES)) <= 0).
    { apply frames_at_most; rewrite UPAGES_eq; [lia|]. intros x Hx. apply Hnu1. unfold PGSIZE. lia. }
    cbn [length]. lia. }
  destruct (IH (virt + u32 (pe - ps)) k1 l1 Hb1) as (r & k2 & E2 & H2); [lia|done..|].
  exists r, k2. split; [exact E2|]. destruct H2 as [H2|(-> & Hb2 & Hsb2 & Hm2 & Hs2)]; [by left|right]. split; [done|]. split; [done|]. split; [done|]. split.
  - constructor; [|done]. apply (row_mapped_kept (k_mem k1) _ _ _ (virt + u32 (pe - ps))); [done|lia|done].
  - intros va Hva. rewrite Hs2, Hs1 by lia. done.
Qed.

Lemma kmap_rows data : KERNLINK < data < P2V PHYSTOP → data mod PGSIZE = 0 → rows_from KERNBASE (kmap data).
Proof.
  intros Hd Ha. assert (E1 : KERNLINK = 2148532224) by done. assert (E2 : P2V PHYSTOP = 2382364672) by (vm_compute; done).
  assert (E3 : V2P KERNLINK = 1048576) by (vm_compute; done). assert (E4 : V2P data = data - 2147483648).
  { unfold V2P, KERNBASE. apply u32_small. lia. }
  assert (E5 : PHYSTOP = 234881024) by done. assert (HK : KERNBASE = 2147483648) by done. assert (HX : EXTMEM = 1048576) by done. assert (HD : DEVSPACE = 4261412864) by done.
  assert (Hw : 0 <= PTE_W < PGSIZE) by done. unfold kmap, rows_from. rewrite E3, E4, E5, HK, HX, HD, E1.
  rewrite (u32_small (1048576 - 0)), (u32_small (data - 2147483648 - 1048576)), (u32_small (234881024 - (data - 2147483648))) by lia.
  change (u32 (0 - 4261412864)) with 33554432. change (2 ^ 32) with 4294967296. unfold PGSIZE in *. split_and!; try lia; try done; divlia.
Qed.

Lemma kmap_kern data : KERNLINK < data < P2V PHYSTOP → Forall row_kern (kmap data).
Proof.
  intros Hd. assert (E1 : KERNLINK = 2148532224) by done. assert (E2 : P2V PHYSTOP = 2382364672) by (vm_compute; done).
  assert (E3 : V2P KERNLINK = 1048576) by (vm_compute; done). assert (E4 : V2P data = data - 2147483648).
  { unfold V2P, KERNBASE. apply u32_small. lia. }
  assert (H : ∀ a b, 2147483648 <= a → a + b <= 2382364672 → ∀ va, a <= va < a + b → kern_slot (PDX va)).
  { intros a b Ha Hb va Hva. rewrite PDX_eq by (change (2 ^ 32) with 4294967296; lia). left. change (2 ^ 22) with 4194304. divlia. }
  unfold kmap. rewrite E3, E4. change PHYSTOP with 234881024. change EXTMEM with 1048576. change KERNBASE with 2147483648. change DEVSPACE with 4261412864. rewrite E1 in *.
  rewrite E2 in Hd. rewrite !list.Forall_cons. split_and!; [..|by apply list.Forall_nil]; unfold row_kern.
  - rewrite u32_small by lia. apply H; lia.
  - rewrite u32_small by lia. apply H; lia.
  - rewrite u32_small by lia. apply H; lia.
  - change (u32 (0 - 4261412864)) with 33554432. intros va Hva. right. rewrite PDX_eq by (change (2 ^ 32) with 4294967296; lia). change (2 ^ 22) with 4194304. divlia.
Qed.

(** A new directory: one free frame, all zero. *)
Lemma building_new k0 k1 l d : kmem_frame k0 k1 → kmem_idle k1 → k_mem k1 = k_mem k0 → page_ok k0 d → d ∉ l → free_ok k1 l →
  let k := set_k_mem (memset (k_mem k1) d 0 PGSIZE) k1 in building k0 (d :: l) k d [] l ∧ clear_from (k_mem k) d 0 ∧ slots_below (k_mem k) d 0.
Proof.
  intros F Hk Hm Hd Hnl Hf k. assert (Hpde : ∀ x, 0 <= x < NPDENTRIES → pde_at (k_mem k) d x = 0) by (intros x Hx; by apply load32_memset_zero).
  assert (Hz : ∀ va, 0 <= va < 2 ^ 32 → pte_val (k_mem k) d va = 0) by (intros va Hva; unfold pte_val; by rewrite Hpde by (by apply PDX_range)).
  assert (Hsame : ∀ q a, q mod PGSIZE = 0 → q ≠ d → q <= a < q + PGSIZE → k_mem k a = k_mem k1 a).
  { intros q a Hq Hne Ha. unfold k. cbn [k_mem set_k_mem]. rewrite memset_fill by done. unfold fill. destruct (_ && _) eqn:Hin; [|done].
    exfalso. apply (frame_distinct q d a); try done; [apply Hd|lia]. }
  assert (Hfr : frames (k_mem k) d 0 UPAGES = []).
  { rewrite (frames_skip _ _ 0 UPAGES UPAGES); [by apply frames_nil|by rewrite UPAGES_eq|]. intros x Hx Hlt. destruct (upage_range x Hx) as (_ & Hr & _). unfold frame_at. by rewrite Hz. }
  assert (Hst : pg_state_ok k d l).
  { split; [done|]. destruct Hf as [F1 F2 F3]. split.
    - split; [|done|done]. eapply chain_frame; [|exact F1]. intros q a Hq Ha. pose proof (proj1 (list.Forall_forall _ _) F3 q Hq) as (Hqa & _).
      apply (Hsame q); [done| |unfold PGSIZE; lia]. by intros ->.
    - split; [|done|..].
      + apply (page_ok_frame k0); [exact (kmem_frame_end _ _ F)|done].
      + intros x Hx. by rewrite Hpde.
      + intros x y Hx Hy. by rewrite Hpde. }
  split; [constructor|split; [|intros x Hx; by rewrite Hpde]].
  - etrans; [exact F|apply set_mem_frame].
  - done.
  - rewrite Hfr, tables_eq. cbn [app]. replace (omap _ _) with (@nil Z); [done|]. symmetry. apply elem_of_nil_inv. intros t (x & Hx%elem_of_seqZ & E)%list_elem_of_omap.
    unfold slot_table in E. by rewrite Hpde in E by lia.
  - unfold owns_pages. rewrite Hfr. split; [constructor|]. by intros f ?%not_elem_of_nil.
  - intros q a Hq Hn Ha. rewrite (Hsame q a); [by rewrite Hm|apply Hq| |done]. intros ->. apply Hn. by left.
  - intros va Hva. rewrite Hz by lia. done.
Qed.

(** ** [setupkvm] *)

(** The kernel's half of an address space. *)
Definition kernel_half (data : Z) (m : mem) (d : Z) : Prop := Forall (row_mapped m d) (kmap data).

Lemma present_lor a b : present (Z.lor a (Z.lor b PTE_P)) = true.
Proof.
  unfold present, PTE_P. destruct (Z.eqb_spec (Z.land (Z.lor a (Z.lor b 1)) 1) 0) as [H|]; [|done].
  apply (f_equal (λ z, Z.testbit z 0)) in H. rewrite Z.land_spec, !Z.lor_spec, Z.bits_0 in H.
  change (Z.testbit 1 0) with true in H. by rewrite !orb_true_r in H.
Qed.

Lemma row_slot m d row va : row_mapped m d row → (let '(virt, ps, pe, _) := row in virt <= va < virt + u32 (pe - ps)) → present (pde_at m d (PDX va)) = true.
Proof. destruct row as [[[virt ps] pe] perm]. intros H Hva. apply present_pde. rewrite (H va Hva). apply present_lor. Qed.

(** The kernel's half takes all its tables. *)
Lemma kernel_half_slots data m d x : KERNLINK < data < P2V PHYSTOP → kernel_half data m d → kern_slot x → present (pde_at m d x) = true.
Proof.
  intros Hd Hh Hx. assert (E1 : KERNLINK = 2148532224) by done. assert (E2 : P2V PHYSTOP = 2382364672) by (vm_compute; done).
  assert (E3 : V2P KERNLINK = 1048576) by (vm_compute; done). assert (E4 : V2P data = data - 2147483648).
  { unfold V2P, KERNBASE. apply u32_small. lia. }
  assert (Ex : x = PDX (x * 4194304)).
  { unfold kern_slot in Hx. rewrite PDX_eq by (change (2 ^ 32) with 4294967296; lia). change (2 ^ 22) with 4194304. divlia. }
  rewrite Ex. unfold kernel_half, kmap in Hh. rewrite E3, E4 in Hh. rewrite !list.Forall_cons in Hh. destruct Hh as (R1 & R2 & R3 & R4 & _).
  rewrite E1, E2 in *. destruct Hx as [Hx|Hx].
  - destruct (decide (x = 512)) as [->|]; [apply (row_slot _ _ _ _ R1); by vm_compute|]. destruct (decide (x * 4194304 < data)).
    + apply (row_slot _ _ _ _ R2). rewrite u32_small by lia. lia.
    + apply (row_slot _ _ _ _ R3). change PHYSTOP with 234881024. rewrite u32_small by lia. lia.
  - apply (row_slot _ _ _ _ R4). change (u32 (0 - DEVSPACE)) with 33554432. change DEVSPACE with 4261412864. lia.
Qed.

Lemma wp_setupkvm {C} k l p : kmem_idle k → free_ok k l → k_cur k = Some p → (∀ f, f ∈ l → no_record k p f) → KERNBASE < k_end k →
  KERNLINK < k_data k < P2V PHYSTOP → k_data k mod PGSIZE = 0 →
  ∃ r k', (setupkvm : M kernel C Z) k = Ret r k' ∧
    (r = 0 ∧ Z.of_nat (length l) < 1 + KTABLES ∧ gave_back k l k' [] ∨
     r ≠ 0 ∧ r ∈ l ∧ (∃ l', building k l k' r [] l') ∧ slots_below (k_mem k') r 0 ∧ kernel_half (k_data k) (k_mem k') r ∧ ∀ va, 0 <= va < KERNBASE → present (pte_val (k_mem k') r va) = false).
Proof.
  intros Hk Hf Hcur Hrec Hend Hd Ha. unfold setupkvm. destruct (kalloc_pop (C := C) k l Hk Hf) as (k1 & F & Hk1 & Hm & _ & Hl). destruct l as [|d l].
  { destruct Hl as [E Hf1]. rewrite (bind_Ret_eq _ _ _ _ _ E). exists 0, k1. split; [done|]. left. split; [done|]. split; [done|]. split; [done|]. split; [done|].
    split; [intros q a _ _ _; by rewrite Hm|]. by exists []. }
  destruct Hl as (E & Hdok & Hdn & Hf1). rewrite (bind_Ret_eq _ _ _ _ _ E). destruct (page_ok_range k d (proj2 (proj2 Hk)) Hdok) as (Hr & _).
  rewrite (proj2 (Z.eqb_neq d 0)) by (unfold KERNBASE in *; lia). unfold mem_set. rewrite bind_modify.
  replace (DEVSPACE <? P2V PHYSTOP) with false by (by vm_compute). rewrite bind_gets.
  destruct (building_new k k1 l d F Hk1 Hm Hdok Hdn Hf1) as (Hb & Hcl & Hsb). set (k2 := set_k_mem _ k1) in *.
  assert (Hdata : k_data k2 = k_data k) by (change (k_data k2) with (k_data k1); destruct F as [-> _]; done). rewrite Hdata.
  destruct (setupkvm_rows (C := C) k (d :: l) p d (kmap (k_data k)) Hcur (Hrec d ltac:(left)) Hend KERNBASE k2 l Hb) as (r & k3 & E3 & H3); [lia| |by apply kmap_rows|by apply kmap_kern|done| |].
  { intros va Hva. apply Hcl. unfold KERNBASE in Hva. lia. }
  { intros va Hva. apply Hcl. unfold KERNBASE in Hva. change (2 ^ 32) with 4294967296. lia. }
  exists r, k3. split; [exact E3|]. destruct H3 as [H3|(-> & Hb3 & Hsb3 & Hm3 & Hs3)]; [by left|right]. split; [unfold KERNBASE in *; lia|]. split; [by left|]. split; [done|]. split; [done|]. split; [done|].
  intros va Hva. rewrite Hs3 by done. apply Hcl. unfold KERNBASE in Hva. change (2 ^ 32) with 4294967296. lia.
Qed.
