(* ===== verification/CopySpec.v ===== *)
(** * CopySpec: [copyuvm] gives the child its own copy

    [copyuvm] adds to a new directory, page by page, a copy of the parent's
    memory. The parent and every frame in use stay as they are; when there are
    fewer free frames than the copy takes, what was built is freed again, but
    for one page. *)

From S2P Require Import Prelude CString Kernel Sched Kalloc Fifo Paging PagingSpec AddrSpec SetupSpec.

(** ** Definitions *)

(** Page [x] of the parent is resident in a frame that is in use. *)
Definition resident (k : kernel) (pgdir : Z) (l : list Z) (x : Z) : Prop :=
  let e := pte_val (k_mem k) pgdir (PGSIZE * x) in
  present e = true ∧ Z.land e PTE_PG = 0 ∧ page_ok k (table_of e) ∧ table_of e ∉ l.

(** In [k], page [x] of [d] is a copy of page [x] of [pgdir] in [k0], in a
    frame that was free, with the same permissions. *)
Definition page_copied (k0 : kernel) (pgdir : Z) (l0 : list Z) (k : kernel) (d x : Z) : Prop :=
  let e := pte_val (k_mem k0) pgdir (PGSIZE * x) in
  ∃ f, f ∈ l0 ∧ page_ok k0 f ∧ pte_val (k_mem k) d (PGSIZE * x) = Z.lor (V2P f) (Z.lor (PTE_FLAGS e) PTE_P) ∧
    ∀ j, 0 <= j < PGSIZE → k_mem k (f + j) = k_mem k0 (table_of e + j).

(** ** The parent stays as it is *)
Section parent.
Context (k0 : kernel) (pgdir : Z) (l0 : list Z) (k : kernel).
Hypothesis (Hpt : pt_ok k0 pgdir l0) (Hkept : in_use_kept k0 l0 k) (Hend : k_end k = k_end k0).

Lemma parent_pde x : 0 <= x < NPDENTRIES → pde_at (k_mem k) pgdir x = pde_at (k_mem k0) pgdir x.
Proof using Hpt Hkept.
  intros Hx. apply load32_page_same; [done|]. intros a. apply Hkept; [apply (po_dir _ _ _ Hpt)|apply (po_dir_free _ _ _ Hpt)].
Qed.

Lemma parent_pte va : 0 <= va < 2 ^ 32 → pte_val (k_mem k) pgdir va = pte_val (k_mem k0) pgdir va.
Proof using Hpt Hkept.
  intros Hva. unfold pte_val. rewrite parent_pde by (by apply PDX_range). destruct (present _) eqn:Hp; [|done].
  destruct (po_tab _ _ _ Hpt (PDX va) (PDX_range va Hva) Hp) as (Ht & _ & Hn). apply load32_page_same; [apply PTX_range|]. intros a. by apply Hkept.
Qed.

Lemma parent_ok l : l ⊆ l0 → pt_ok k pgdir l.
Proof using Hpt Hkept Hend.
  intros Hl. destruct Hpt as [P1 P2 P3 P4]. split.
  - by apply (page_ok_frame k0).
  - intros H. by apply P2, Hl.
  - intros x Hx. rewrite parent_pde by done. intros Hp. destruct (P3 x Hx Hp) as (T1 & T2 & T3). split; [by apply (page_ok_frame k0)|]. split; [done|].
    intros H. by apply T3, Hl.
  - intros x y Hx Hy. rewrite !parent_pde by done. by apply P4.
Qed.
End parent.

Lemma building_sub k0 l0 k d x l : building k0 l0 k d x l → l ⊆ l0.
Proof. intros Hb y Hy. rewrite (bd_count _ _ _ _ _ _ Hb), elem_of_cons, !elem_of_app. auto. Qed.

Lemma frame_in_use k0 l0 k d l f x : building k0 l0 k d [] l → 0 <= x < UPAGES → frame_at (k_mem k) d x = Some f → f ∈ frames (k_mem k) d 0 UPAGES.
Proof. intros _ Hx Hf. apply list_elem_of_omap. exists x. split; [apply elem_of_seqZ; lia|done]. Qed.

(** ** Copied pages stay copied *)
Lemma page_copied_frame k0 pgdir l0 k d x : 0 < k_end k0 → page_copied k0 pgdir l0 k d x → ∃ f, frame_at (k_mem k) d x = Some f ∧ page_ok k0 f ∧
  ∀ j, 0 <= j < PGSIZE → k_mem k (f + j) = k_mem k0 (table_of (pte_val (k_mem k0) pgdir (PGSIZE * x)) + j).
Proof.
  intros Hend (f & Hf & Hok & He & Hc). destruct (entry_frame k0 f (PTE_FLAGS (pte_val (k_mem k0) pgdir (PGSIZE * x))) Hend Hok) as [E1 E2].
  { unfold PTE_FLAGS. change 0xFFF with (Z.ones 12). rewrite Z.land_ones by done. apply Z.mod_pos_bound. done. }
  exists f. split; [|done]. unfold frame_at. rewrite He, E1. by rewrite E2.
Qed.

Lemma page_copied_step k0 pgdir l0 k k' d l x : building k0 l0 k d [] l → 0 <= x < UPAGES → page_copied k0 pgdir l0 k d x →
  pte_val (k_mem k') d (PGSIZE * x) = pte_val (k_mem k) d (PGSIZE * x) →
  (∀ q a, other_frame k d l q → q ∈ frames (k_mem k) d 0 UPAGES → q <= a < q + PGSIZE → k_mem k' a = k_mem k a) → page_copied k0 pgdir l0 k' d x.
Proof.
  intros Hb Hx Hc He Hsame. pose proof (bd_state _ _ _ _ _ _ Hb) as ((_ & _ & Hend) & _). rewrite (kmem_frame_end _ _ (bd_frame _ _ _ _ _ _ Hb)) in Hend.
  destruct (page_copied_frame k0 pgdir l0 k d x Hend Hc) as (f' & Hf' & _). destruct Hc as (f & Hf & Hok & Hpte & Hc). exists f. split; [done|]. split; [done|].
  split; [by rewrite He|]. intros j Hj. rewrite <- Hc by done. assert (f' = f) as ->.
  { unfold frame_at in Hf'. rewrite Hpte in Hf'. destruct (present _); [|done]. injection Hf' as <-. rewrite (page_ok_entry k0); [done..|].
    unfold PTE_FLAGS. apply lor_small. change 0xFFF with (Z.ones 12). rewrite Z.land_ones by done. by apply Z.mod_pos_bound. }
  pose proof (frame_in_use k0 l0 k d l f x Hb Hx Hf') as Hin. apply (Hsame f); [|done|lia]. by apply (proj2 (bd_own _ _ _ _ _ _ Hb)).
Qed.

(** ** One page *)

(** The directory being built for the child: copied up to page [i], nothing
    mapped from there to the kernel's half, which is as in [kh]. *)
Record copying (k0 : kernel) (pgdir : Z) (l0 : list Z) (kh : Z → Z) (k : kernel) (d i : Z) (l : list Z) : Prop := mk_copying {
  cp_build : building k0 l0 k d [] l;
  cp_done : ∀ x, 0 <= x < i → page_copied k0 pgdir l0 k d x;
  cp_rest : unmapped_from k d i;
  cp_kern : ∀ va, KERNBASE <= va < 2 ^ 32 → pte_val (k_mem k) d va = kh va;
  cp_slots : slots_below (k_mem k) d (user_tables i);
}.

Lemma PTE_FLAGS_range e : 0 <= PTE_FLAGS e < PGSIZE.
Proof. unfold PTE_FLAGS. change 0xFFF with (Z.ones 12). rewrite Z.land_ones by done. by apply Z.mod_pos_bound. Qed.

Lemma memmove_same_outside m f g : same_outside [f] m (memmove m f g PGSIZE).
Proof.
  intros a Ha. rewrite memmove_blit by done. unfold blit. destruct ((f <=? a) && (a <? f + PGSIZE)) eqn:H; [|done].
  destruct (Ha f ltac:(left)). lia.
Qed.

Lemma memmove_at m f g j : 0 <= j < PGSIZE → memmove m f g PGSIZE (f + j) = m (g + j).
Proof. intros Hj. rewrite memmove_blit by done. unfold blit. replace ((f <=? f + j) && (f + j <? f + PGSIZE)) with true by lia. f_equal. lia. Qed.

(** The table of page [i]. *)
Lemma upage_slot i : 0 <= i < UPAGES → PDX (PGSIZE * i) = i / 1024.
Proof.
  intros Hi. destruct (upage_range i Hi) as (_ & Hr & _). rewrite PDX_eq by done. unfold PGSIZE. change (2 ^ 22) with 4194304. divlia.
Qed.

Lemma user_tables_step i : 0 <= i → user_tables i <= user_tables (i + 1) ∧ i / 1024 < user_tables (i + 1) ∧ user_tables i <= i / 1024 + 1.
Proof. unfold user_tables, NPTENTRIES. intros. split_and!; divlia. Qed.

Lemma user_tables_mono i n : 0 <= i <= n → user_tables i <= user_tables n.
Proof. unfold user_tables, NPTENTRIES. intros. divlia. Qed.

(** Memory ran out while page [i] was copied. *)
Lemma copying_short k0 l0 k d x i n : building k0 l0 k d x [] → 0 <= i < n → i < UPAGES → unmapped_from k d i → slots_below (k_mem k) d (user_tables i) →
  (x = [] ∨ ∃ f, x = [f] ∧ present (pde_at (k_mem k) d (PDX (PGSIZE * i))) = false) → Z.of_nat (length l0) < frames_needed n.
Proof.
  intros Hb Hi Hu Hno Hs Hx. rewrite (building_length _ _ _ _ _ _ Hb). unfold frames_needed.
  assert (Hfr : Z.of_nat (length (frames (k_mem k) d 0 UPAGES)) <= i) by (apply frames_at_most; [lia|exact Hno]).
  destruct (user_tables_step i) as (U1 & U2 & U3); [lia|]. pose proof (user_tables_mono (i + 1) n ltac:(lia)) as U4.
  assert (0 <= user_tables i) by (unfold user_tables, NPTENTRIES; divlia).
  destruct Hx as [->|(f & -> & Hp)]; cbn [length].
  - pose proof (tables_at_most (k_mem k) d (user_tables i) ltac:(done) Hs). lia.
  - rewrite upage_slot in Hp by lia. assert (0 <= i / 1024) by divlia.
    assert (Hs' : slots_below (k_mem k) d (user_tables (i + 1))) by (intros y Hy Hpy; destruct (Hs y Hy Hpy); [left; lia|by right]).
    pose proof (tables_fewer (k_mem k) d (user_tables (i + 1)) (i / 1024) ltac:(lia) Hs' ltac:(by left) ltac:(done) Hp). lia.
Qed.

(** Page [i] was copied and mapped. *)
Lemma copying_next k0 pgdir l0 kh k d i l k1 l1 f k3 l3 : copying k0 pgdir l0 kh k d i l → 0 <= i < UPAGES → resident k0 pgdir l0 i →
  let e := pte_val (k_mem k0) pgdir (PGSIZE * i) in let k2 := set_k_mem (memmove (k_mem k1) f (table_of e) PGSIZE) k1 in
  k_mem k1 = k_mem k → building k0 l0 k1 d [f] l1 → other_frame k1 d l1 f → f ∈ l0 → f ∉ frames (k_mem k) d 0 UPAGES → (∀ q, other_frame k d l q → other_frame k1 d l1 q) →
  slots_kept (k_mem k2) (k_mem k3) d (λ x, x = PDX (PGSIZE * i)) →
  building k0 l0 k3 d [] l3 → pt_step k2 k3 d l1 l3 (λ va, if va / PGSIZE =? i then Z.lor (V2P f) (Z.lor (PTE_FLAGS e) PTE_P) else pte_val (k_mem k2) d va) →
  copying k0 pgdir l0 kh k3 d (i + 1) l3.
Proof.
  intros [Hb Hdone Hrest Hkern Hslots] Hi (Hp & _ & Hg & Hgn) e k2 Hm1 Hb1 Hf Hfl Hff Hoth Hsl Hb3 (_ & _ & _ & Ho & _ & V).
  destruct (building_write k0 l0 k1 d f l1 (k_mem k2) Hb1 Hf Hfl) as (_ & Hpte & _ & Hoth2); [by rewrite Hm1|apply memmove_same_outside|].
  assert (Hpde : ∀ x, 0 <= x < NPDENTRIES → pde_at (k_mem k2) d x = pde_at (k_mem k) d x).
  { intros x Hx. rewrite <- Hm1. apply (write_pde k1 d l1 f); [exact (bd_state _ _ _ _ _ _ Hb1)|done|apply memmove_same_outside|done]. }
  assert (HP : PGSIZE = 4096) by done. assert (HU : UPAGES = 524288) by done. assert (HK : KERNBASE = 2147483648) by done.
  assert (V' : ∀ va, 0 <= va < 2 ^ 32 → va / PGSIZE ≠ i → pte_val (k_mem k3) d va = pte_val (k_mem k) d va).
  { intros va Hva Hne. rewrite V, (proj2 (Z.eqb_neq _ _)) by done. rewrite <- Hm1. by apply Hpte. }
  split; [done| | | |].
  - intros x Hx. destruct (decide (x = i)) as [->|Hne].
    + exists f. split; [done|]. destruct (upage_range i Hi) as (_ & Hr & Hd). split; [apply (page_ok_frame k1); [symmetry; apply kmem_frame_end, (bd_frame _ _ _ _ _ _ Hb1)|apply Hf]|].
      split; [by rewrite V, Hd, Z.eqb_refl by done|]. intros j Hj.
      rewrite (Ho f) by (lia || by apply Hoth2). change (k_mem k2) with (memmove (k_mem k1) f (table_of e) PGSIZE).
      rewrite memmove_at, Hm1 by done. apply (bd_kept _ _ _ _ _ _ Hb (table_of e)); [done|done|fold e; lia].
    + assert (Hx' : 0 <= x < i) by lia. destruct (upage_range x) as (_ & Hr & Hd); [lia|].
      apply (page_copied_step k0 pgdir l0 k k3 d l x Hb); [lia|by apply Hdone|apply V'; [done|lia]|].
      intros q a Hq Hqf Ha. rewrite (Ho q a) by (done || by apply Hoth2, Hoth). rewrite <- Hm1. apply memmove_same_outside.
      intros y ->%list_elem_of_singleton Hin. apply (frame_distinct q f a); [apply Hq|apply Hf| |done|done]. by intros ->.
  - intros x Hx. destruct (upage_range x) as (_ & Hr & Hd); [lia|]. rewrite V' by (done || lia). apply Hrest. lia.
  - intros va Hva. rewrite V'; [by apply Hkern| |]; [|rewrite HP; divlia]. lia.
  - destruct (user_tables_step i) as [U1 U2]; [lia|]. eapply slots_below_step; [exact Hsl|intros x ->; left; rewrite upage_slot by done; lia|].
    intros x Hx. rewrite Hpde by done. intros Hx1. destruct (Hslots x Hx Hx1); [left; lia|by right].
Qed.

(** One round of the loop. *)
Lemma copy_round {C} k0 pgdir l0 kh k d i l fuel p sz n : pt_ok k0 pgdir l0 → copying k0 pgdir l0 kh k d i l → 0 <= i < UPAGES → i < n → PGSIZE * i < sz → resident k0 pgdir l0 i →
  ∃ k', (copyuvm_loop (S fuel) p pgdir d (PGSIZE * i) sz : M kernel C bool) k = Ret false k' ∧
      Z.of_nat (length l0) < frames_needed n ∧ (∃ x l', building k0 l0 k' d x l' ∧ (length x <= 1)%nat) ∨
    (copyuvm_loop (S fuel) p pgdir d (PGSIZE * i) sz : M kernel C bool) k = copyuvm_loop fuel p pgdir d (PGSIZE * (i + 1)) sz k' ∧ ∃ l', copying k0 pgdir l0 kh k' d (i + 1) l'.
Proof.
  intros Hpt Hcp Hi Hn Hlt Hres. pose proof Hcp as [Hb Hdone Hrest Hkern Hslots]. destruct (upage_range i Hi) as (_ & Hr & Hd).
  pose proof (bd_state _ _ _ _ _ _ Hb) as (Hk & Hf & _). pose proof (kmem_frame_end _ _ (bd_frame _ _ _ _ _ _ Hb)) as Hend.
  pose proof (parent_ok k0 pgdir l0 k Hpt (bd_kept _ _ _ _ _ _ Hb) Hend l (building_sub _ _ _ _ _ _ Hb)) as Hpar.
  cbn [copyuvm_loop]. rewrite (proj2 (Z.ltb_lt _ _) Hlt). cbn [negb]. rewrite (bind_Ret_eq _ _ _ _ _ (walkpgdir_look (C := C) k pgdir l Hk Hpar _ Hr)).
  destruct Hres as (Hp & Hpg & Hg & Hgn). set (e := pte_val (k_mem k0) pgdir (PGSIZE * i)) in *.
  pose proof (parent_pte k0 pgdir l0 k Hpt (bd_kept _ _ _ _ _ _ Hb) (PGSIZE * i) Hr) as He. fold e in He.
  assert (Hpd : present (pde_at (k_mem k) pgdir (PDX (PGSIZE * i))) = true) by (apply (present_pde _ _ (PGSIZE * i)); by rewrite He).
  rewrite Hpd. fold (pte_ptr (k_mem k) pgdir (PGSIZE * i)). pose proof (pte_ptr_pos k pgdir l _ (conj Hk (conj Hf Hpar)) Hr Hpd) as Hne.
  rewrite (proj2 (Z.eqb_neq _ _) Hne). unfold pte_get, mem_load32. rewrite (proj2 (Z.eqb_neq _ _) Hne), bind_gets, pte_at_ptr, He, Hpg by done.
  change (0 =? 0) with true. cbn [negb]. cbv iota. rewrite <- (negb_involutive (Z.land e PTE_P =? 0)). fold (present e). rewrite Hp. cbn [negb]. cbv iota zeta.
  destruct (building_kalloc (C := C) k0 l0 k d l Hb) as (k1 & H1). destruct l as [|f l1].
  { destruct H1 as [E1 Hb1]. exists k1. left. rewrite (bind_Ret_eq _ _ _ _ _ E1). split; [done|].
    split; [apply (copying_short k0 l0 k d [] i n Hb); auto; lia|]. exists [], []. split; [done|]. cbn. lia. }
  destruct H1 as (E1 & Hf0 & Hb1 & Hfo & Hff & Hfl & Hfok & Hm1 & Hoth). rewrite (bind_Ret_eq _ _ _ _ _ E1), (proj2 (Z.eqb_neq _ _) Hf0).
  unfold mem_move. rewrite bind_modify. change (P2V (PTE_ADDR e)) with (table_of e).
  destruct (building_write k0 l0 k1 d f l1 _ Hb1 Hfo Hfl ltac:(by rewrite Hm1) (memmove_same_outside (k_mem k1) f (table_of e))) as (Hb2 & Hpte & Hfs & Hoth2).
  set (k2 := set_k_mem (memmove (k_mem k1) f (table_of e) PGSIZE) k1) in *.
  destruct (map_copy (C := C) k0 l0 k2 d f l1 i (PTE_FLAGS e) Hb2) as (r & k3 & l3 & E3 & H3 & Hsl); [by apply Hoth2|done|apply PTE_FLAGS_range| | |].
  { change (k_mem k2) with (memmove (k_mem k1) f (table_of e) PGSIZE). rewrite Hpte, Hm1 by done. apply Hrest. lia. }
  { change (k_mem k2) with (memmove (k_mem k1) f (table_of e) PGSIZE). by rewrite Hfs, Hm1. }
  exists k3. rewrite (bind_Ret_eq _ _ _ _ _ E3). destruct H3 as [(-> & Hb3 & Hs3)|(-> & -> & Hb3 & Hv3 & Hout)].
  - right. change (0 <? 0) with false. cbv iota. split.
    + rewrite u32_small; [by replace (PGSIZE * i + PGSIZE) with (PGSIZE * (i + 1)) by lia|]. rewrite UPAGES_eq in Hi. unfold PGSIZE. change (2 ^ 32) with 4294967296. lia.
    + exists l3. by apply (copying_next k0 pgdir l0 kh k d i (f :: l1) k1 l1 f k3 l3).
  - left. change (-1 <? 0) with true. cbv iota. split; [done|]. split; [|exists [f], []; split; [done|]; cbn; lia].
    apply (copying_short k0 l0 k3 d [f] i n Hb3); [lia|lia| | |right; by exists f].
    + intros x Hx. destruct (upage_range x) as (_ & Hrx & _); [lia|]. change (k_mem k2) with (memmove (k_mem k1) f (table_of e) PGSIZE) in Hv3.
      rewrite Hv3, Hpte, Hm1 by done. by apply Hrest.
    + intros x Hx Hpx. destruct (decide (x = PDX (PGSIZE * i))) as [->|Hnx]; [congruence|]. apply (Hslots x Hx). rewrite <- Hpx, (Hsl x Hx Hnx), <- Hm1. f_equal. symmetry.
      apply (write_pde k1 d l1 f); [exact (bd_state _ _ _ _ _ _ Hb1)|done|apply memmove_same_outside|done].
Qed.

(** The whole loop. *)
Lemma copyuvm_loop_copies {C} k0 pgdir l0 kh p d sz (n := pages_below sz) : pt_ok k0 pgdir l0 → sz <= KERNBASE → (∀ x, 0 <= x < n → resident k0 pgdir l0 x) → ∀ fuel k i l,
  copying k0 pgdir l0 kh k d i l → 0 <= i <= n → n - i <= Z.of_nat fuel →
  ∃ b k', (copyuvm_loop fuel p pgdir d (PGSIZE * i) sz : M kernel C bool) k = Ret b k' ∧
    (b = false ∧ Z.of_nat (length l0) < frames_needed n ∧ (∃ x l', building k0 l0 k' d x l' ∧ (length x <= 1)%nat) ∨
     b = true ∧ ∃ l', copying k0 pgdir l0 kh k' d n l').
Proof.
  intros Hpt Hsz0 Hres. assert (HP : PGSIZE = 4096) by done. assert (HK : KERNBASE = 2147483648) by done.
  assert (Hn : PGSIZE * (n - 1) < sz <= PGSIZE * n) by (unfold n, pages_below; rewrite HP; divlia).
  assert (HnU : n <= UPAGES) by (rewrite UPAGES_eq; unfold n, pages_below in *; rewrite HP in *; lia). clear Hsz0. clearbody n.
  induction fuel as [|fuel IH]; intros k i l Hcp Hi Hf; (destruct (Z.ltb_spec (PGSIZE * i) sz) as [Hlt|Hge]; [|]).
  - lia.
  - exists true, k. cbn [copyuvm_loop]. rewrite (proj2 (Z.ltb_ge _ _) Hge). split; [done|]. right. split; [done|]. exists l. by replace n with i by lia.
  - destruct (copy_round (C := C) k0 pgdir l0 kh k d i l fuel p sz n Hpt Hcp) as (k1 & [[E H]|[E (l1 & H)]]); [lia|unfold PGSIZE in *; lia|done|apply Hres; unfold PGSIZE in *; lia| |].
    + exists false, k1. split; [done|]. by left.
    + rewrite E. apply (IH k1 (i + 1) l1 H); lia.
  - exists true, k. cbn [copyuvm_loop]. rewrite (proj2 (Z.ltb_ge _ _) Hge). split; [done|]. right. split; [done|]. exists l. by replace n with i by lia.
Qed.

(** ** [copyuvm] *)
Lemma rows_range lo rows : rows_from lo rows → Forall (λ row, let '(virt, ps, pe, _) := row in lo <= virt ∧ virt + u32 (pe - ps) <= 2 ^ 32) rows.
Proof.
  revert lo. induction rows as [|[[[virt ps] pe] perm] rows IH]; intros lo H; [constructor|]. destruct H as (H1 & H2 & H3 & _ & _ & _ & _ & _ & _ & H).
  constructor; [done|]. eapply list.Forall_impl; [exact (IH _ H)|]. intros [[[v s] e] q]. lia.
Qed.

Lemma kernel_half_kept data m m' d : KERNLINK < data < P2V PHYSTOP → data mod PGSIZE = 0 →
  (∀ va, KERNBASE <= va < 2 ^ 32 → pte_val m' d va = pte_val m d va) → kernel_half data m d → kernel_half data m' d.
Proof.
  intros Hd Ha H Hh. pose proof (rows_range _ _ (kmap_rows data Hd Ha)) as Hr. unfold kernel_half in *. rewrite !list.Forall_forall in *.
  intros [[[virt ps] pe] perm] Hin va Hva. specialize (Hr _ Hin). specialize (Hh _ Hin). cbn in Hr. rewrite H by lia. by apply Hh.
Qed.

(** The parent's directory is still one beside the free frames that are left. *)
Lemma parent_state k0 pgdir l0 k d x l : pt_ok k0 pgdir l0 → building k0 l0 k d x l → pg_state_ok k pgdir l.
Proof.
  intros Hpt Hb. pose proof (bd_state _ _ _ _ _ _ Hb) as (Hk & Hf & _). split; [done|]. split; [done|].
  apply (parent_ok k0 pgdir l0 k Hpt (bd_kept _ _ _ _ _ _ Hb)); [apply kmem_frame_end, (bd_frame _ _ _ _ _ _ Hb)|by apply (building_sub k0 l0 k d x)].
Qed.

(** The outcome of [copyuvm]. *)
Definition copied (k : kernel) (pgdir : Z) (l : list Z) (sz : Z) (k' : kernel) (d : Z) : Prop :=
  (∃ l', pg_state_ok k' d l' ∧ pg_state_ok k' pgdir l' ∧ owns_pages k' d l' 0 UPAGES ∧ l ≡ₚ d :: tables (k_mem k') d NPDENTRIES ++ frames (k_mem k') d 0 UPAGES ++ l') ∧
  (∀ x, 0 <= x < pages_below sz → page_copied k pgdir l k' d x) ∧ unmapped_from k' d (pages_below sz) ∧ kernel_half (k_data k) (k_mem k') d.

Lemma copying_copied k pgdir l kh k' d sz l' : pt_ok k pgdir l → KERNLINK < k_data k < P2V PHYSTOP → k_data k mod PGSIZE = 0 →
  copying k pgdir l kh k' d (pages_below sz) l' → (∃ m, kernel_half (k_data k) m d ∧ ∀ va, kh va = pte_val m d va) → copied k pgdir l sz k' d.
Proof.
  intros Hpt Hd Ha [Hb Hdone Hrest Hkern _] (m & Hm & Hkh). split; [|split; [done|split; [done|]]].
  - exists l'. pose proof Hb as [_ Hst Hc Hown _]. split; [done|]. split; [by apply (parent_state k pgdir l k' d [])|]. by split.
  - apply (kernel_half_kept _ m); [done|done| |done]. intros va Hva. by rewrite Hkern, Hkh.
Qed.

(** A copy takes all the frames of an address space of that size. *)
Lemma copied_length k pgdir l sz k' d : 0 < k_end k → KERNLINK < k_data k < P2V PHYSTOP → 0 <= sz <= KERNBASE → copied k pgdir l sz k' d →
  frames_needed (pages_below sz) <= Z.of_nat (length l).
Proof.
  intros Hend Hd Hsz ((l' & _ & _ & _ & Hperm) & Hc & _ & Hh). rewrite (Permutation_length Hperm). cbn [length]. rewrite !length_app.
  assert (Hn : 0 <= pages_below sz <= UPAGES).
  { rewrite UPAGES_eq. unfold pages_below, PGSIZE, KERNBASE in *. divlia. }
  assert (Hp : ∀ x, 0 <= x < pages_below sz → present (pte_val (k_mem k') d (PGSIZE * x)) = true).
  { intros x Hx. destruct (Hc x Hx) as (f & _ & _ & -> & _). apply present_lor. }
  pose proof (frames_at_least (k_mem k') d _ UPAGES Hn Hp) as Hfr. rewrite UPAGES_eq in Hn, Hfr.
  assert (Ht : user_tables (pages_below sz) + KTABLES <= Z.of_nat (length (tables (k_mem k') d NPDENTRIES))).
  { apply tables_at_least; [unfold user_tables, NPTENTRIES; divlia|]. intros x [Hx|Hx]; [|by eapply kernel_half_slots].
    assert (Hx' : 0 <= 1024 * x < pages_below sz) by (unfold user_tables, NPTENTRIES in Hx; divlia).
    replace x with (PDX (PGSIZE * (1024 * x))); [by apply present_pde, Hp|]. rewrite upage_slot by (rewrite UPAGES_eq; lia). divlia. }
  unfold frames_needed. rewrite UPAGES_eq. lia.
Qed.

Lemma wp_copyuvm {C} k p pgdir l sz : pg_state_ok k pgdir l → k_cur k = Some p → (∀ f, f ∈ l → no_record k p f) → KERNBASE < k_end k →
  KERNLINK < k_data k < P2V PHYSTOP → k_data k mod PGSIZE = 0 → 0 <= sz <= KERNBASE → (∀ x, 0 <= x < pages_below sz → resident k pgdir l x) →
  ∃ d k', (copyuvm pgdir sz : M kernel C Z) k = Ret d k' ∧ kmem_frame k k' ∧ in_use_kept k l k' ∧
    (d = 0 ∧ Z.of_nat (length l) < frames_needed (pages_below sz) ∧ (∃ x, (length x <= 1)%nat ∧ gave_back k l k' x) ∨
     d ≠ 0 ∧ frames_needed (pages_below sz) <= Z.of_nat (length l) ∧ copied k pgdir l sz k' d).
Proof.
  intros Hst Hcur Hrec Hend Hd Ha Hsz Hres. unfold copyuvm. destruct (myproc_frame (C := C) k p (proj1 Hst) Hcur) as (c & E & Hfr & Hc). rewrite (bind_Ret_eq _ _ _ _ _ E).
  pose proof (pg_state_cpu k c pgdir l Hc Hst) as (Hk & Hf & Hpt). set (k0 := set_k_cpu c k) in *.
  assert (Hback : ∀ k' x, gave_back k0 l k' x → gave_back k l k' x) by (intros k' x (G1 & G); split; [by etrans|exact G]).
  destruct (wp_setupkvm (C := C) k0 l p Hk Hf Hcur Hrec Hend Hd Ha) as (d & k1 & E1 & H1). rewrite (bind_Ret_eq _ _ _ _ _ E1).
  assert (Hn0 : 0 <= pages_below sz) by (unfold pages_below, PGSIZE; divlia).
  destruct H1 as [(-> & Hshort & H1)|(Hd0 & Hdl & (l1 & Hb1) & Hsb & Hh & Hclear)].
  { exists 0, k1. split; [done|]. pose proof (Hback _ _ H1) as (G1 & G2 & G3 & _). split; [done|]. split; [done|]. left. split; [done|].
    split; [unfold frames_needed; assert (0 <= user_tables (pages_below sz)) by (unfold user_tables, NPTENTRIES; divlia); lia|]. exists []. split; [cbn; lia|]. by apply Hback. }
  rewrite (proj2 (Z.eqb_neq _ _) Hd0). replace 0 with (PGSIZE * 0) by done.
  destruct (copyuvm_loop_copies (C := C) k0 pgdir l (pte_val (k_mem k1) d) p d sz Hpt (proj2 Hsz) Hres (S (Z.to_nat (sz / PGSIZE))) k1 0 l1) as (b & k2 & E2 & H2).
  - split; [done|lia| |done|exact Hsb]. intros x Hx. destruct (upage_range x Hx) as (Hx31 & _ & _). apply Hclear. unfold KERNBASE. change (2 ^ 31) with 2147483648 in Hx31. lia.
  - unfold pages_below. clear -Hsz. unfold PGSIZE. divlia.
  - rewrite Nat2Z.inj_succ, Z2Nat.id by (apply Z.div_pos; [lia|done]). unfold pages_below. clear. unfold PGSIZE. divlia.
  - rewrite (bind_Ret_eq _ _ _ _ _ E2). destruct H2 as [(-> & Hshort & x & l2 & Hb2 & Hx)|(-> & l2 & Hcp)].
    + destruct (building_freevm (C := C) k0 l k2 d x l2 p Hb2 Hcur (Hrec d Hdl) Hend) as (k3 & E3 & H3). exists 0, k3. rewrite (bind_Ret_eq _ _ _ _ _ E3).
      split; [done|]. pose proof (Hback _ _ H3) as (G1 & G2 & G3 & _). split; [done|]. split; [done|]. left. split; [done|]. split; [done|]. exists x. split; [done|]. by apply Hback.
    + exists d, k2. split; [done|]. pose proof (cp_build _ _ _ _ _ _ _ _ Hcp) as Hb2. split; [etrans; [exact Hfr|apply (bd_frame _ _ _ _ _ _ Hb2)]|].
      split; [exact (bd_kept _ _ _ _ _ _ Hb2)|]. right. split; [done|].
      assert (Hcop : copied k pgdir l sz k2 d); [|split; [|done]; apply (copied_length k pgdir l sz k2 d); try done; unfold KERNBASE in Hend; lia].
      exact (copying_copied k0 pgdir l _ k2 d sz l2 Hpt Hd Ha Hcp (ex_intro _ (k_mem k1) (conj Hh (λ va, eq_refl)))).
Qed.

(** C16: the child of [fork] gets memory of its own. For a parent whose pages
    below [sz] are resident, [copyuvm] ends without a panic in one of two ways,
    and which one the length of the free list decides: it needs a frame for the
    directory, 64 for the kernel's tables, one for every 1024 user pages begun
    and one for every page. With as many it returns a new directory, made of
    frames that were free, each used once: every page below [sz] is a copy of
    the parent's, byte by byte and with the same permissions, nothing else is
    mapped below [KERNBASE], and the kernel's half is [kmap]'s. With fewer it
    returns 0 and every frame taken is free again, but for at most one, the
    page that could not be mapped. In both cases each frame in use before, the
    parent's too, keeps its bytes. *)
Theorem copyuvm_copies {C} k p pgdir l sz : pg_state_ok k pgdir l → k_cur k = Some p → (∀ f, f ∈ l → no_record k p f) → KERNBASE < k_end k →
  KERNLINK < k_data k < P2V PHYSTOP → k_data k mod PGSIZE = 0 → 0 <= sz <= KERNBASE → (∀ x, 0 <= x < pages_below sz → resident k pgdir l x) →
  ∃ d k', (copyuvm pgdir sz : M kernel C Z) k = Ret d k' ∧ kmem_frame k k' ∧ in_use_kept k l k' ∧
    (d = 0 ∧ Z.of_nat (length l) < frames_needed (pages_below sz) ∧ (∃ x, (length x <= 1)%nat ∧ gave_back k l k' x) ∨
     d ≠ 0 ∧ frames_needed (pages_below sz) <= Z.of_nat (length l) ∧ copied k pgdir l sz k' d).
Proof. apply wp_copyuvm. Qed.

(** ** Witnesses *)

(** [n] free pages from [p] on, linked in order. *)
Fixpoint link_pages (n : nat) (p : Z) (m : mem) : mem :=
  match n with
  | O => m
  | S n => store32 (link_pages n (p + PGSIZE) m) p (if (n =? 0)%nat then 0 else p + PGSIZE)
  end.

Lemma link_below n p m a : a < p → link_pages n p m a = m a.
Proof.
  revert p. induction n as [|n IH]; intros p Ha; [done|]. cbn [link_pages]. unfold store32. repeat (case_match; [lia|]).
  apply IH. unfold PGSIZE. lia.
Qed.

Lemma link_load n p m a : a + 4 <= p → load32 (link_pages n p m) a = load32 m a.
Proof. intros Ha. apply load32_same. intros b Hb. apply link_below. lia. Qed.

Lemma elem_of_page_seq p n v : v ∈ page_seq p n → ∃ i, (i < n)%nat ∧ v = p + PGSIZE * Z.of_nat i.
Proof. unfold page_seq. intros (i & -> & Hi%elem_of_seq)%list_elem_of_fmap. exists i. split; [lia|done]. Qed.

Lemma link_chain n p m : 0 < p → p + PGSIZE * Z.of_nat n < 2 ^ 32 → chain (link_pages n p m) (if (n =? 0)%nat then 0 else p) (page_seq p n).
Proof.
  revert p. induction n as [|n IH]; intros p Hp Hr; [constructor|]. rewrite page_seq_cons. cbn [link_pages Nat.eqb]. constructor; [lia|].
  rewrite load32_store32_eq, u32_small by (destruct (n =? 0)%nat; unfold PGSIZE in *; lia).
  eapply chain_frame; [|apply IH; unfold PGSIZE in *; lia]. intros q a (i & Hi & ->)%elem_of_page_seq Ha.
  unfold store32, PGSIZE in *. repeat (case_match; [lia|]). done.
Qed.

(** The process of [demo_user] with as many free pages as a copy takes. *)
Definition big_free : Z := demo_frame + PGSIZE.
Definition demo_big : kernel :=
  set_k_kmem (mk_kmem_t true big_free 67) (set_k_mem (link_pages 67 big_free demo_user_mem) demo_user).
Notation big_list := (page_seq big_free 67).

Lemma big_elem v : v ∈ big_list → big_free <= v /\ page_ok demo_big v.
Proof.
  intros (i & Hi & ->)%elem_of_page_seq. assert (E : big_free = 2149597184) by done. rewrite E. split; [unfold PGSIZE; lia|].
  unfold page_ok. split; [unfold PGSIZE; divlia|]. assert (Hk : k_end demo_big <= 2149597184) by (by vm_compute).
  change PHYSTOP with 234881024. unfold V2P, KERNBASE, PGSIZE in *. change (2 ^ 32) with 4294967296. split; [lia|]. rewrite u32_small by lia. lia.
Qed.

Lemma big_pde d : 0 <= d < NPDENTRIES → pde_at (k_mem demo_big) demo_dir d = pde_at demo_user_mem demo_dir d.
Proof. intros Hd. apply link_load. unfold big_free, demo_frame, demo_table, demo_dir, PGSIZE, NPDENTRIES in *. lia. Qed.

Lemma big_pte va : 0 <= va < 2 ^ 32 → pte_val (k_mem demo_big) demo_dir va = pte_val demo_user_mem demo_dir va.
Proof.
  intros Hva. pose proof (PDX_range va Hva) as Hd. unfold pte_val. rewrite big_pde, demo_pde by done. destruct (Z.eqb_spec (PDX va) 0) as [E|E]; [|done].
  change (present (Z.lor (V2P demo_table) 7)) with true. change (table_of (Z.lor (V2P demo_table) 7)) with demo_table. cbv iota.
  apply link_load. pose proof (PTX_range va). unfold big_free, demo_frame, demo_table, demo_dir, PGSIZE, NPTENTRIES in *. lia.
Qed.

Lemma big_below v : v < big_free → v ∉ big_list.
Proof. intros H [Hv _]%big_elem. lia. Qed.

Lemma demo_big_ok : pg_state_ok demo_big demo_dir big_list.
Proof.
  split; [exact demo_kmem_idle|]. split.
  - split; [by apply (link_chain 67 big_free)|apply page_seq_NoDup|]. apply list.Forall_forall. intros v Hv. by apply big_elem.
  - pose proof (po_tab _ _ _ (proj2 (proj2 demo_user_ok))) as Ht. pose proof (po_inj _ _ _ (proj2 (proj2 demo_user_ok))) as Hi.
    change (k_mem demo_user) with demo_user_mem in *. split.
    + split; [done|split; by vm_compute].
    + by apply big_below.
    + intros d Hd. rewrite big_pde by done. intros Hp. destruct (Ht d Hd Hp) as (H1 & H2 & _). split; [exact H1|]. split; [exact H2|].
      rewrite demo_pde in * by done. destruct (Z.eqb_spec d 0); [|done]. by apply big_below.
    + intros d d' Hd Hd'. rewrite !big_pde by done. by apply Hi.
Qed.

(** With one free page the copy fails; with the 67 it takes, the directory,
    64 tables of the kernel, one of the user and the page, it succeeds. *)
Lemma copyuvm_copies_witness :
  (∃ k' x, (copyuvm demo_dir PGSIZE : M kernel unit Z) demo_user = Ret 0 k' ∧ gave_back demo_user [page1] k' x) ∧
  (∃ d k', (copyuvm demo_dir PGSIZE : M kernel unit Z) demo_big = Ret d k' ∧ d ≠ 0 ∧ copied demo_big demo_dir big_list PGSIZE k' d).
Proof.
  assert (Hx : ∀ x, 0 <= x < pages_below PGSIZE → x = 0) by (intros x Hx; change (pages_below PGSIZE) with 1 in Hx; lia). split.
  - destruct (copyuvm_copies (C := unit) demo_user 0 demo_dir [page1] PGSIZE) as (d & k' & E & _ & _ & H);
      [exact demo_user_ok|reflexivity|intros f _; apply demo_no_record|reflexivity|split; vm_compute; reflexivity|reflexivity|split; vm_compute; discriminate| |].
    + intros x ->%Hx. unfold resident. change (k_mem demo_user) with demo_user_mem.
      rewrite demo_pte by done. split; [done|]. split; [done|]. split; [split; [done|split; by vm_compute]|]. by intros Hin%list_elem_of_singleton.
    + destruct H as [(-> & _ & x & _ & G)|(_ & Hn & _)]; [exists k', x; split; [exact E|exact G]|].
      exfalso. vm_compute in Hn. by apply Hn.
  - destruct (copyuvm_copies (C := unit) demo_big 0 demo_dir big_list PGSIZE) as (d & k' & E & _ & _ & H);
      [exact demo_big_ok|reflexivity|intros f _; exact (demo_no_record f)|reflexivity|split; vm_compute; reflexivity|reflexivity|split; vm_compute; discriminate| |].
    + intros x ->%Hx. unfold resident. rewrite big_pte, demo_pte by done. split; [done|]. split; [done|].
      split; [split; [done|split; by vm_compute]|by apply big_below].
    + destruct H as [(_ & Hn & _)|(Hd & _ & Hc)]; [exfalso; vm_compute in Hn; discriminate Hn|exists d, k'; split; [exact E|split; [exact Hd|exact Hc]]].
Defined.
