(* ===== verification/Vmem.v ===== *)
(** * Vmem: the memory a running routine sees

    The kernel dereferences pointers of two kinds. Addresses from [KERNBASE]
    on are physical memory, mapped at a fixed offset by every page table;
    lower ones are user addresses, translated through the page table the CPU
    runs on ([k_cpu]'s [cr3]). A user page that is not in memory raises a
    page fault, which is where the routine leaves to [trap]. *)

From S2P Require Import Prelude CString Kernel Sched Sock Kalloc Fifo Paging.

(** ** Definitions *)

(** Where a routine leaves the CPU: asleep on a channel, at a page fault,
    because the power went, asleep inside a socket call, or by giving the CPU
    up ([LYield]) or away for ever ([LExit]). *)
Inductive leave : Type :=
  | LSleep (ch : chan)
  | LPageFault (va : Z)
  | LPowerOff
  | LSock (pc : sock_pc)
  | LYield
  | LExit.
Notation KM := (M kernel leave).

(** The two-level table walk of the MMU. *)
Definition translate (m : mem) (cr3 va : Z) : option Z :=
  let pde := load32 m (P2V cr3 + 4 * PDX va) in
  if Z.land pde PTE_P =? 0 then None else
  let pte := load32 m (P2V (PTE_ADDR pde) + 4 * PTX va) in
  if Z.land pte PTE_P =? 0 then None else
  Some (P2V (PTE_ADDR pte) + va mod PGSIZE).

Definition vaddr (va : Z) : KM Z :=
  if KERNBASE <=? va then mret va else
  t <- gets (λ k, translate (k_mem k) (c_cr3 (k_cpu k)) va) ;;
  match t with Some a => mret a | None => switch_out (LPageFault va) end.

Definition vload8 (va : Z) : KM Z :=
  a <- vaddr va ;;
  gets (λ k, k_mem k a).
Definition vstore8 (va v : Z) : KM unit :=
  a <- vaddr va ;;
  modify (λ k, set_k_mem (upd (k_mem k) a v) k).

Fixpoint vload (va : Z) (n : nat) : KM (list Z) :=
  match n with
  | O => mret []
  | S n => b <- vload8 va ;; l <- vload (u32 (va + 1)) n ;; mret (b :: l)
  end.
Fixpoint vstore (va : Z) (l : list Z) : KM unit :=
  match l with
  | [] => mret tt
  | b :: l => vstore8 va b ;; vstore (u32 (va + 1)) l
  end.

(** Little-endian integers as bytes. *)
Fixpoint le_bytes (n : nat) (v : Z) : list Z :=
  match n with
  | O => []
  | S n => v mod 2 ^ 8 :: le_bytes n (v / 2 ^ 8)
  end.
Fixpoint le_val (l : list Z) : Z :=
  match l with
  | [] => 0
  | b :: l => b + 2 ^ 8 * le_val l
  end.

Definition vload32 (va : Z) : KM Z := l <- vload va 4 ;; mret (le_val l).
Definition vstore32 (va v : Z) : KM unit := vstore va (le_bytes 4 v).

(** A slice of a byte array, and an array with a slice overwritten. *)
Definition slice (off n : nat) (l : list Z) : list Z := take n (drop off l).
Definition splice (off : nat) (new l : list Z) : list Z :=
  take off l ++ new ++ drop (off + length new) l.

(** The 16- and 32-bit fields of a structure laid out in bytes. *)
Definition get16 (off : nat) (l : list Z) : Z := le_val (slice off 2 l).
Definition get32 (off : nat) (l : list Z) : Z := le_val (slice off 4 l).
Definition put16 (off : nat) (v : Z) (l : list Z) : list Z := splice off (le_bytes 2 v) l.
Definition put32 (off : nat) (v : Z) (l : list Z) : list Z := splice off (le_bytes 4 v) l.

(** The bytes up to the terminating NUL: the string stored in an array. *)
Fixpoint cstring (l : list Z) : list Z :=
  match l with
  | [] => []
  | c :: l => if c =? 0 then [] else c :: cstring l
  end.

(** The bytes of a string literal. *)
Definition lit (s : string) : list Z := (λ c, Z.of_N (Ascii.N_of_ascii c)) <$> String.list_ascii_of_string s.

(** ** Integers as bytes *)
Lemma length_le_bytes n v : length (le_bytes n v) = n.
Proof. revert v. induction n as [|n IH]; intros v; [done|]. cbn [le_bytes length]. by rewrite IH. Qed.

Lemma le_val_le_bytes n v : le_val (le_bytes n v) = v mod 2 ^ (8 * Z.of_nat n).
Proof.
  revert v. induction n as [|n IH]; intros v; cbn [le_bytes le_val].
  { by rewrite Z.mod_1_r. }
  rewrite IH. replace (8 * Z.of_nat (S n)) with (8 + 8 * Z.of_nat n) by lia.
  rewrite Z.pow_add_r, Z.rem_mul_r by lia. done.
Qed.

Lemma le_val_range l : Forall (λ b, 0 <= b < 2 ^ 8) l → 0 <= le_val l < 2 ^ (8 * Z.of_nat (length l)).
Proof.
  induction 1 as [|b l Hb Hl IH]; cbn [le_val length]; [done|].
  replace (8 * Z.of_nat (S (length l))) with (8 + 8 * Z.of_nat (length l)) by lia.
  rewrite Z.pow_add_r by lia. nia.
Qed.

Lemma le_bytes_le_val l : Forall (λ b, 0 <= b < 2 ^ 8) l → le_bytes (length l) (le_val l) = l.
Proof.
  induction 1 as [|b l Hb Hl IH]; [done|]. cbn [le_val length le_bytes]. change (2 ^ 8) with 256 in *.
  rewrite (Z.mul_comm 256), Z.mod_add, Z.mod_small, Z.div_add, Z.div_small by lia.
  rewrite Z.add_0_l. by f_equal.
Qed.

Lemma le_bytes_ok n v : Forall (λ b, 0 <= b < 2 ^ 8) (le_bytes n v).
Proof.
  revert v. induction n as [|n IH]; intros v; cbn [le_bytes]; constructor; [|apply IH].
  apply Z.mod_pos_bound. lia.
Qed.

(** ** Slices *)
Lemma length_splice off new l : (off + length new <= length l)%nat → length (splice off new l) = length l.
Proof. intros H. unfold splice. rewrite !length_app, length_take, length_drop. lia. Qed.

Lemma slice_splice_same off new l : (off + length new <= length l)%nat → slice off (length new) (splice off new l) = new.
Proof.
  intros H. unfold slice, splice. rewrite drop_app_ge by (rewrite length_take; lia).
  rewrite length_take. replace (off - off `min` length l)%nat with 0%nat by lia.
  by rewrite drop_0, take_app_length.
Qed.

Lemma lookup_splice off new l i : (off + length new <= length l)%nat →
  splice off new l !! i = if decide (off <= i < off + length new)%nat then new !! (i - off)%nat else l !! i.
Proof.
  intros H. unfold splice. case_decide as Hi.
  - rewrite lookup_app_r by (rewrite length_take; lia). rewrite length_take.
    replace (i - off `min` length l)%nat with (i - off)%nat by lia. by rewrite lookup_app_l by lia.
  - destruct (decide (i < off)%nat).
    + rewrite lookup_app_l by (rewrite length_take; lia). by rewrite lookup_take_lt by lia.
    + rewrite !lookup_app_r by (rewrite ?length_take; lia). rewrite lookup_drop, length_take. f_equal. lia.
Qed.

Lemma slice_splice_other off new l off' n : (off + length new <= length l)%nat →
  (off' + n <= off ∨ off + length new <= off')%nat → slice off' n (splice off new l) = slice off' n l.
Proof.
  intros H Hd. unfold slice. apply list_eq. intros i. destruct (decide (i < n)%nat).
  - rewrite !lookup_take_lt, !lookup_drop, lookup_splice by done. case_decide; [lia|done].
  - by rewrite !lookup_take_ge by lia.
Qed.

Lemma get16_put16 off v l : (off + 2 <= length l)%nat → get16 off (put16 off v l) = v mod 2 ^ 16.
Proof.
  intros H. unfold get16, put16. pose proof (length_le_bytes 2 v) as Hl.
  rewrite <- Hl at 1. rewrite slice_splice_same by (rewrite Hl; done). by rewrite le_val_le_bytes.
Qed.

Lemma get32_put32 off v l : (off + 4 <= length l)%nat → get32 off (put32 off v l) = v mod 2 ^ 32.
Proof.
  intros H. unfold get32, put32. pose proof (length_le_bytes 4 v) as Hl.
  rewrite <- Hl at 1. rewrite slice_splice_same by (rewrite Hl; done). by rewrite le_val_le_bytes.
Qed.

Lemma get_put_other off new l off' n : (off + length new <= length l)%nat →
  (off' + n <= off ∨ off + length new <= off')%nat →
  le_val (slice off' n (splice off new l)) = le_val (slice off' n l).
Proof. intros. by rewrite slice_splice_other. Qed.

#[export] Hint Rewrite length_le_bytes length_splice : bytes.
