(* ===== verification/Umalloc.v ===== *)
(** * Umalloc: the memory allocator of the user programs (umalloc.c)

    A process's memory, [sbrk] as the kernel answers it, and the first-fit
    allocator on a circular list of free blocks kept in the memory it manages.
    A block is a header of eight bytes, the link and the size in units of
    eight bytes, and its payload. *)

From S2P Require Import Prelude.

(** ** Definitions *)

(** A process: its memory, its size, the address the linker gave the static
    header [base], the static [freep] (0 is null), and whether the kernel
    will find memory for each request to come. *)
Record ustate : Type := mk_ustate {
  us_mem : mem;
  us_sz : Z;
  us_base : Z;
  us_freep : Z;
  us_grants : list bool;
}.
Definition set_us_mem (m : mem) (s : ustate) : ustate := mk_ustate m (us_sz s) (us_base s) (us_freep s) (us_grants s).
Definition set_us_freep (p : Z) (s : ustate) : ustate := mk_ustate (us_mem s) (us_sz s) (us_base s) p (us_grants s).
Notation UM := (M ustate Empty_set).

(** A word of the process; outside its size there is a fault. *)
Definition in_proc (a : Z) (s : ustate) : bool := (0 <=? a) && (a + 4 <=? us_sz s).
Definition uload (a : Z) : UM Z :=
  ok <- gets (in_proc a) ;;
  if ok : bool then gets (λ s, load32 (us_mem s) a) else fault "trap 14".
Definition ustore (a v : Z) : UM unit :=
  ok <- gets (in_proc a) ;;
  if ok : bool then modify (λ s, set_us_mem (store32 (us_mem s) a v) s) else fault "trap 14".

(** [sbrk]: [sys_sbrk] and [growproc] with the checks of [allocuvm] and
    [deallocuvm]; new pages are zero. *)
Definition sbrk (n : Z) : UM Z := λ s,
  let n := s32 n in
  let sz := us_sz s in
  if 0 <? n then
    let newsz := u32 (sz + n) in
    if KERNBASE <=? newsz then Ret (-1) s else
    if newsz <? sz then Ret sz s else
    match us_grants s with
    | true :: g =>
        Ret sz (mk_ustate (fill (us_mem s) (PGROUNDUP sz) 0 (newsz - PGROUNDUP sz)) newsz (us_base s) (us_freep s) g)
    | g => Ret (-1) (mk_ustate (us_mem s) sz (us_base s) (us_freep s) (tail g))
    end
  else if n <? 0 then
    let newsz := u32 (sz + n) in
    if sz <=? newsz then Ret sz s else
    if newsz =? 0 then Ret (-1) s else
    Ret sz (mk_ustate (us_mem s) newsz (us_base s) (us_freep s) (us_grants s))
  else Ret sz s.

(** The fields of a header. *)
Definition h_ptr (p : Z) : UM Z := uload p.
Definition h_size (p : Z) : UM Z := uload (p + 4).
Definition set_h_ptr (p v : Z) : UM unit := ustore p v.
Definition set_h_size (p v : Z) : UM unit := ustore (p + 4) v.

(** The free list has at most one header per eight bytes of the process. *)
Definition walk_fuel (s : ustate) : nat := Z.to_nat (us_sz s / 8) + 1.

(** The search of [free]: the link [q] is where [bp] belongs. *)
Definition belongs (bp p q : Z) : bool :=
  ((p <? bp) && (bp <? q)) || ((q <=? p) && ((p <? bp) || (bp <? q))).
Fixpoint free_search (fuel : nat) (bp p : Z) : UM Z :=
  match fuel with
  | O => fault "fuel"
  | S fuel =>
      q <- h_ptr p ;;
      if belongs bp p q then mret p else free_search fuel bp q
  end.

Definition free (ap : Z) : UM unit :=
  let bp := u32 (ap - 8) in
  fuel <- gets walk_fuel ;;
  f <- gets us_freep ;;
  p <- free_search fuel bp f ;;
  n <- h_size bp ;;
  q <- h_ptr p ;;
  (if u32 (bp + 8 * n) =? q then
     qn <- h_size q ;;
     set_h_size bp (n + qn) ;;
     qq <- h_ptr q ;;
     set_h_ptr bp qq
   else set_h_ptr bp q) ;;
  pn <- h_size p ;;
  (if u32 (p + 8 * pn) =? bp then
     bn <- h_size bp ;;
     set_h_size p (pn + bn) ;;
     bq <- h_ptr bp ;;
     set_h_ptr p bq
   else set_h_ptr p bp) ;;
  modify (set_us_freep p).

Definition morecore (nu : Z) : UM Z :=
  let nu := if nu <? 4096 then 4096 else nu in
  p <- sbrk (u32 (nu * 8)) ;;
  if p =? -1 then mret 0 else
  set_h_size p nu ;;
  free (u32 (p + 8)) ;;
  gets us_freep.

(** A block that fits is unlinked, or its tail is cut off. *)
Definition malloc_take (nunits prevp p n : Z) : UM Z :=
  r <- (if n =? nunits then
          q <- h_ptr p ;;
          set_h_ptr prevp q ;;
          mret p
        else
          set_h_size p (u32 (n - nunits)) ;;
          n <- h_size p ;;
          set_h_size (u32 (p + 8 * n)) nunits ;;
          mret (u32 (p + 8 * n))) ;;
  modify (set_us_freep prevp) ;;
  mret (u32 (r + 8)).

Fixpoint malloc_loop (fuel : nat) (nunits prevp p : Z) : UM Z :=
  match fuel with
  | O => fault "fuel"
  | S fuel =>
      n <- h_size p ;;
      if nunits <=? n then malloc_take nunits prevp p n else
      f <- gets us_freep ;;
      if p =? f then
        p <- morecore nunits ;;
        if p =? 0 then mret 0 else
        q <- h_ptr p ;;
        malloc_loop fuel nunits p q
      else
        q <- h_ptr p ;;
        malloc_loop fuel nunits p q
  end.

Definition malloc_nunits (nbytes : Z) : Z := u32 (u32 (nbytes + 8 - 1) / 8 + 1).

Definition malloc (nbytes : Z) : UM Z :=
  let nunits := malloc_nunits nbytes in
  fuel <- gets walk_fuel ;;
  f <- gets us_freep ;;
  prevp <- (if f =? 0 then
              base <- gets us_base ;;
              modify (set_us_freep base) ;;
              set_h_ptr base base ;;
              set_h_size base 0 ;;
              mret base
            else mret f) ;;
  p <- h_ptr prevp ;;
  malloc_loop (2 * fuel + 1) nunits prevp p.
