(* ===== verification/UmallocSpec.v ===== *)
(** * UmallocSpec: the allocator hands out disjoint blocks and loses none

    The heap from the first [sbrk] on is a row of blocks, free or live, with
    no two free ones side by side. The free list of the code is the row's
    free blocks in order, closed into a ring by [base]. [malloc] and [free]
    end, never fault, and edit the row. *)

From Stdlib Require Import Sorted.
From S2P Require Import Prelude Umalloc.

(** ** Definitions *)

(** A row of blocks: free or not, and the size in units. *)
Notation row := (list (bool * Z)).
Fixpoint units (L : row) : Z := match L with [] => 0 | (_, n) :: L => n + units L end.
Fixpoint blocks (w : bool) (a : Z) (L : row) : list (Z * Z) :=
  match L with
  | [] => []
  | (f, n) :: L => (if Bool.eqb f w then cons (a, n) else id) (blocks w (a + 8 * n) L)
  end.
Notation free_blocks := (blocks true).
Notation live_blocks := (blocks false).

(** No two free blocks side by side. *)
Definition begins_free (B : row) : bool := match B with (f, _) :: _ => f | [] => false end.
Fixpoint coalesced (L : row) : Prop :=
  match L with [] => True | (f, _) :: L => f && begins_free L = false ∧ coalesced L end.

(** The links and sizes of a list of headers, the last one linked to [z]. *)
Definition first (z : Z) (xs : list (Z * Z)) : Z := match xs with [] => z | x :: _ => x.1 end.
Fixpoint chain (m : mem) (z : Z) (xs : list (Z * Z)) : Prop :=
  match xs with
  | [] => True
  | (a, n) :: xs => load32 m a = first z xs ∧ load32 m (a + 4) = n ∧ chain m z xs
  end.

Definition nodes (base lo : Z) (L : row) : list (Z * Z) := (base, 0) :: free_blocks lo L.

Record heap (s : ustate) (lo : Z) (L : row) : Prop := mk_heap {
  hp_base : 0 < us_base s ∧ us_base s + 8 <= lo;
  hp_end : us_sz s = lo + 8 * units L;
  hp_top : us_sz s < KERNBASE;
  hp_pos : Forall (λ b, 0 < b.2) L;
  hp_gap : coalesced L;
  hp_ring : chain (us_mem s) (us_base s) (nodes (us_base s) lo L);
  hp_live : ∀ a n, (a, n) ∈ live_blocks lo L → load32 (us_mem s) (a + 4) = n;
  hp_freep : us_freep s ∈ (nodes (us_base s) lo L).*1;
}.

(** Before the first call of [malloc]. *)
Definition fresh (s : ustate) (lo : Z) : Prop :=
  us_freep s = 0 ∧ us_sz s = lo ∧ lo < KERNBASE ∧ 0 < us_base s ∧ us_base s + 8 <= lo.

(** What the program may use: the payload of the live blocks, and what is
    neither heap nor [base]. *)
Definition owned (s : ustate) (lo : Z) (live : list (Z * Z)) (x : Z) : Prop :=
  (∃ a n, (a, n) ∈ live ∧ a + 8 <= x < a + 8 * n) ∨ (x < lo ∧ (x < us_base s ∨ us_base s + 8 <= x)).
Definition keeps (P : Z → Prop) (s s' : ustate) : Prop := us_base s' = us_base s ∧ ∀ x, P x → us_mem s' x = us_mem s x.

(** ** Rows *)
Lemma units_app L1 L2 : units (L1 ++ L2) = units L1 + units L2.
Proof. induction L1 as [|[f n] L1 IH]; cbn [units app]; lia. Qed.

Lemma units_nonneg L : Forall (λ b : bool * Z, 0 < b.2) L → 0 <= units L.
Proof. induction 1 as [|[f n] L H _ IH]; cbn [units snd] in *; lia. Qed.

Lemma blocks_app w a L1 L2 : blocks w a (L1 ++ L2) = blocks w a L1 ++ blocks w (a + 8 * units L1) L2.
Proof.
  revert a. induction L1 as [|[f n] L1 IH]; intros a; cbn [app blocks units]; [by rewrite Z.mul_0_r, Z.add_0_r|].
  rewrite IH. replace (a + 8 * n + 8 * units L1) with (a + 8 * (n + units L1)) by lia. by destruct (Bool.eqb f w).
Qed.

Lemma blocks_in w a L x n : Forall (λ b : bool * Z, 0 < b.2) L → (x, n) ∈ blocks w a L → 0 < n ∧ a <= x ∧ x + 8 * n <= a + 8 * units L.
Proof.
  intros H. revert a. induction H as [|[f k] L Hk HL IH]; intros a; cbn [app blocks units]; [set_solver|].
  pose proof (units_nonneg L HL). cbn in Hk. destruct (Bool.eqb f w); cbn.
  - rewrite elem_of_cons. intros [[= -> ->]|Hx]; [lia|]. specialize (IH _ Hx). lia.
  - intros Hx. specialize (IH _ Hx). lia.
Qed.

Lemma blocks_length w a L : Forall (λ b : bool * Z, 0 < b.2) L → Z.of_nat (length (blocks w a L)) <= units L.
Proof.
  intros H. revert a. induction H as [|[f k] L Hk HL IH]; intros a; cbn [blocks units]; [cbn; lia|]. cbn in Hk. specialize (IH (a + 8 * k)).
  destruct (Bool.eqb f w); cbn [length id]; lia.
Qed.

(** Two different blocks of a row do not overlap. *)
Lemma blocks_disjoint a L w w' x n x' n' : Forall (λ b : bool * Z, 0 < b.2) L →
  (x, n) ∈ blocks w a L → (x', n') ∈ blocks w' a L → (w = w' ∧ x = x' ∧ n = n') ∨ x + 8 * n <= x' ∨ x' + 8 * n' <= x.
Proof.
  intros H. revert a. induction H as [|[f k] L Hk HL IH]; intros a; cbn [app blocks units]; [set_solver|]. cbn in Hk.
  assert (Hone : ∀ v y m, (y, m) ∈ (if Bool.eqb f v then cons (a, k) else id) (blocks v (a + 8 * k) L) →
    (f = v ∧ y = a ∧ m = k) ∨ (y, m) ∈ blocks v (a + 8 * k) L).
  { intros v y m. destruct (Bool.eqb_spec f v) as [->|]; cbn; [|by right]. rewrite elem_of_cons. intros [[= -> ->]|]; [by left|by right]. }
  intros [(<- & -> & ->)|Hx]%Hone [(<- & -> & ->)|Hx']%Hone; [by left| | |by eapply IH].
  - apply blocks_in in Hx'; [lia|done].
  - apply blocks_in in Hx; [lia|done].
Qed.

Lemma blocks_NoDup w a L : Forall (λ b : bool * Z, 0 < b.2) L → NoDup (blocks w a L).*1.
Proof.
  intros H. revert a. induction H as [|[f k] L Hk HL IH]; intros a; cbn; [constructor|]. cbn in Hk.
  destruct (Bool.eqb f w); [|apply IH]. cbn. constructor; [|apply IH].
  intros ([x n] & -> & Hx)%list_elem_of_fmap. apply blocks_in in Hx; [cbn in *; lia|done].
Qed.

(** ** Chains *)
Lemma first_app z xs ys : first z (xs ++ ys) = first (first z ys) xs.
Proof. by destruct xs. Qed.

Lemma chain_app m z xs ys : chain m z (xs ++ ys) ↔ chain m (first z ys) xs ∧ chain m z ys.
Proof. induction xs as [|[a n] xs IH]; cbn; [tauto|]. rewrite first_app, IH. tauto. Qed.

Lemma chain_store m z xs x v : (∀ a n, (a, n) ∈ xs → x + 4 <= a ∨ a + 8 <= x) → chain m z xs → chain (store32 m x v) z xs.
Proof.
  induction xs as [|[a n] xs IH]; cbn; [done|]. intros H (H1 & H2 & H3).
  destruct (H a n) as [Hx|Hx]; [left|..].
  all: rewrite !load32_store32_ne by lia; split_and!; [done|done|apply IH; [|done]].
  all: intros; apply (H a0 n0); by right.
Qed.

Lemma load32_agree m m' a : (∀ x, a <= x < a + 4 → m' x = m x) → load32 m' a = load32 m a.
Proof. intros H. unfold load32. by rewrite !H by lia. Qed.

Lemma chain_agree m m' z xs : (∀ a n, (a, n) ∈ xs → ∀ x, a <= x < a + 8 → m' x = m x) → chain m z xs → chain m' z xs.
Proof.
  induction xs as [|[a n] xs IH]; cbn; [done|]. intros H (H1 & H2 & H3).
  assert (Ha : ∀ x, a <= x < a + 8 → m' x = m x) by (apply (H a n); left).
  rewrite !(load32_agree m m') by (intros; apply Ha; lia). split_and!; [done|done|apply IH; [|done]].
  intros; eapply H; [by right|done].
Qed.

(** In a ring the predecessor of a node is unique. *)
Lemma chain_lookup m z xs i a n : chain m z xs → xs !! i = Some (a, n) → load32 m a = first z (drop (S i) xs) ∧ load32 m (a + 4) = n.
Proof.
  revert i. induction xs as [|[b k] xs IH]; intros [|i]; cbn; [done..| |].
  - intros (H1 & H2 & _) [= -> ->]. by rewrite drop_0.
  - intros (_ & _ & H3) Hi. by apply IH.
Qed.

Lemma chain_prev m z xs A p x B y : chain m (first z xs) xs → NoDup xs.*1 → xs = A ++ p :: x :: B → y ∈ xs.*1 → load32 m y = x.1 → y = p.1.
Proof.
  intros Hc Hnd E (i & Hi)%list_elem_of_lookup Hy.
  rewrite list_lookup_fmap in Hi. destruct (xs !! i) as [[y' k]|] eqn:Hxi; [|done]. injection Hi as Ey. cbn in Ey. subst y'.
  destruct (chain_lookup _ _ _ _ _ _ Hc Hxi) as [Hn _]. rewrite Hy in Hn.
  assert (Hx : xs.*1 !! (length A + 1)%nat = Some x.1).
  { rewrite E, fmap_app, lookup_app_r, length_fmap by (rewrite length_fmap; lia). by replace (_ + 1 - _)%nat with 1%nat by lia. }
  destruct (drop (S i) xs) as [|x' r] eqn:Hd; cbn in Hn.
  - destruct xs as [|x0 xs0] eqn:E0; [done|]. cbn in Hn. 
    assert (0 = length A + 1)%nat; [|lia]. eapply (NoDup_lookup (x0 :: xs0).*1); [done| |exact Hx]. cbn. by rewrite Hn.
  - assert (Hx' : xs.*1 !! S i = Some x.1).
    { rewrite list_lookup_fmap. replace (S i) with (S i + 0)%nat by lia. rewrite <- lookup_drop, Hd. cbn. by rewrite Hn. }
    pose proof (NoDup_lookup _ _ _ _ Hnd Hx Hx') as Ei. assert (i = length A) as -> by lia.
    rewrite E, lookup_app_r, Nat.sub_diag in Hxi by lia. injection Hxi as ->. done.
Qed.

Lemma chain_rotate m z P Q : Q ≠ [] → z = first z (P ++ Q) → chain m z (P ++ Q) → chain m (first z Q) (Q ++ P).
Proof.
  intros HQ Hz [H1 H2]%chain_app. apply chain_app.
  destruct Q as [|x Q]; [done|]. cbn [first] in *. split; [|done].
  destruct P as [|y P]; cbn [first app] in *; congruence.
Qed.

(** ** Sorted headers *)
Notation below := (λ x y : Z * Z, x.1 + 8 <= y.1).

Lemma sorted_lookup {X} (R : X → X → Prop) xs i j x y : StronglySorted R xs → (i < j)%nat → xs !! i = Some x → xs !! j = Some y → R x y.
Proof.
  intros H. revert i j. induction H as [|z xs H IH Hz]; intros i [|j] Hij Hi Hj; try lia; [done|].
  destruct i as [|i]; [|apply (IH i j); [lia|done..]]. injection Hi as ->. cbn in Hj.
  rewrite Forall_lookup in Hz. by eapply Hz.
Qed.

Lemma blocks_sorted w a L : Forall (λ b : bool * Z, 0 < b.2) L → StronglySorted below (blocks w a L).
Proof.
  intros H. revert a. induction H as [|[f k] L Hk HL IH]; intros a; cbn [blocks]; [constructor|]. cbn in Hk.
  destruct (Bool.eqb f w); [|apply IH]. constructor; [apply IH|].
  apply list.Forall_forall. intros [x n] Hx. apply blocks_in in Hx; [cbn in *; lia|done].
Qed.

Lemma nodes_sorted base lo L : base + 8 <= lo → Forall (λ b : bool * Z, 0 < b.2) L → StronglySorted below (nodes base lo L).
Proof.
  intros Hb H. constructor; [by apply blocks_sorted|]. apply list.Forall_forall. intros [x n] Hx. apply blocks_in in Hx; [cbn in *; lia|done].
Qed.

Lemma sorted_NoDup xs : StronglySorted below xs → NoDup xs.*1.
Proof.
  induction 1 as [|x xs H IH Hx]; cbn; constructor; [|done].
  intros (y & E & Hy)%list_elem_of_fmap. rewrite list.Forall_forall in Hx. specialize (Hx y Hy). cbn in Hx. lia.
Qed.

Lemma drop_first z xs i : first z (drop i xs) = match xs !! i with Some x => x.1 | None => z end.
Proof. revert i. induction xs as [|x xs IH]; intros [|i]; [done..|]. apply IH. Qed.

(** In a sorted ring the search stops at the node before [bp] only. *)
Lemma belongs_iff m z X p Y bp : StronglySorted below (X ++ p :: Y) → chain m (first z (X ++ p :: Y)) (X ++ p :: Y) →
  p.1 < bp → (∀ y, y ∈ Y → bp < y.1) → ∀ x, x ∈ (X ++ p :: Y).*1 → belongs bp x (load32 m x) = bool_decide (x = p.1).
Proof.
  intros Hs Hc Hp HY x (i & Hi)%list_elem_of_lookup. set (xs := X ++ p :: Y) in *.
  rewrite list_lookup_fmap in Hi. destruct (xs !! i) as [[x' n]|] eqn:Hxi; [|done]. injection Hi as E. cbn in E. subst x'.
  destruct (chain_lookup _ _ _ _ _ _ Hc Hxi) as [Hn _]. rewrite Hn, drop_first. clear Hn.
  assert (Hpi : xs !! length X = Some p) by (unfold xs; by rewrite lookup_app_r, Nat.sub_diag by lia).
  assert (Hlt : ∀ i j u v, xs !! i = Some u → xs !! j = Some v → (i < j)%nat → u.1 + 8 <= v.1).
  { intros ?? u v Hu Hv Hij. exact (sorted_lookup _ _ _ _ _ _ Hs Hij Hu Hv). }
  assert (HYi : ∀ j y, (length X < j)%nat → xs !! j = Some y → bp < y.1).
  { intros j y Hj Hy. apply HY. unfold xs in Hy. rewrite lookup_app_r in Hy by lia.
    destruct (j - length X)%nat as [|d] eqn:Ed; [lia|]. cbn in Hy. by eapply list_elem_of_lookup_2. }
  assert (H0 : ∃ u, xs !! 0%nat = Some u ∧ first z xs = u.1).
  { destruct xs as [|u r]; [by destruct X|]. by exists u. }
  destruct H0 as (u & Hu & ->). unfold belongs.
  assert (Hmin : ∀ j v, xs !! j = Some v → u.1 <= v.1).
  { intros [|j] v Hv; [rewrite Hu in Hv; injection Hv as ->; lia|]. specialize (Hlt 0%nat (S j) _ _ Hu Hv ltac:(lia)). lia. }
  pose proof (Hmin _ _ Hxi) as Hux. pose proof (Hmin _ _ Hpi) as Hup. cbn in Hux.
  destruct (lt_eq_lt_dec i (length X)) as [[Hlt'|Heq]|Hgt].
  - pose proof (Hlt _ _ _ _ Hxi Hpi Hlt') as H1. cbn in H1.
    destruct (xs !! S i) as [v|] eqn:Hv; [|apply lookup_ge_None in Hv; apply lookup_lt_Some in Hpi; lia].
    pose proof (Hlt _ _ _ _ Hxi Hv ltac:(lia)) as H2. cbn in H2.
    assert (H3 : v.1 <= p.1).
    { destruct (decide (S i = length X)) as [E|]; [rewrite E, Hpi in Hv; injection Hv as ->; lia|]. specialize (Hlt _ _ _ _ Hv Hpi ltac:(lia)). lia. }
    rewrite bool_decide_eq_false_2 by lia. lia.
  - subst i. rewrite Hpi in Hxi. injection Hxi as ->. cbn in Hp |- *. rewrite bool_decide_eq_true_2 by done.
    destruct (xs !! S (length X)) as [v|] eqn:Hv; [|lia]. specialize (HYi _ _ (Nat.lt_succ_diag_r _) Hv). lia.
  - specialize (HYi _ _ Hgt Hxi) as H1. cbn in H1. rewrite bool_decide_eq_false_2 by lia.
    destruct (xs !! S i) as [v|] eqn:Hv; [|lia]. specialize (Hlt _ _ _ _ Hxi Hv ltac:(lia)). cbn in Hlt. lia.
Qed.

(** ** Words of the process *)
Lemma uload_eq a s : 0 <= a → a + 4 <= us_sz s → uload a s = Ret (load32 (us_mem s) a) s.
Proof. intros. unfold uload. rewrite bind_gets. unfold in_proc. rewrite !(proj2 (Z.leb_le _ _)) by lia. done. Qed.

Lemma wp_uload a s E (Q : Z → ustate → Prop) R : 0 <= a → a + 4 <= us_sz s → Q (load32 (us_mem s) a) s → wp E (uload a) Q R s.
Proof. intros. eapply wp_of_Ret; [by apply uload_eq|done]. Qed.

Lemma wp_ustore a v s E (Q : unit → ustate → Prop) R : 0 <= a → a + 4 <= us_sz s →
  Q tt (set_us_mem (store32 (us_mem s) a v) s) → wp E (ustore a v) Q R s.
Proof. intros. eapply wp_of_Ret; [|done]. unfold ustore. rewrite bind_gets. unfold in_proc. by rewrite !(proj2 (Z.leb_le _ _)) by lia. Qed.

Lemma free_search_chain s bp p z xs : chain (us_mem s) z xs → p ∈ xs.*1 → (∀ x, x ∈ xs.*1 → 0 <= x ∧ x + 4 <= us_sz s) →
  (∀ x, x ∈ xs.*1 → belongs bp x (load32 (us_mem s) x) = bool_decide (x = p)) →
  ∀ fuel, (length xs ≤ fuel)%nat → free_search fuel bp (first z xs) s = Ret p s.
Proof.
  induction xs as [|[a n] xs IH]; intros Hc Hp Hin Hb fuel Hf; [by apply elem_of_nil in Hp|].
  destruct fuel as [|fuel]; cbn in Hf; [lia|]. cbn [free_search first fst].
  cbn in Hin. destruct (Hin a ltac:(left)) as [Ha1 Ha2].
  rewrite (bind_Ret_eq _ _ _ _ _ (uload_eq a s Ha1 Ha2)), (Hb a) by (left). case_bool_decide as Hap; [by subst|].
  destruct Hc as (-> & _ & Hc). cbn in Hp. apply elem_of_cons in Hp as [->|Hp]; [done|].
  apply IH; [done|done| | |lia]; intros; [apply Hin|apply Hb]; by right.
Qed.

(** ** Joining a block with its neighbours *)
Definition same_but (a : Z) (m m' : mem) : Prop := ∀ x, x < a ∨ a + 8 <= x → m' x = m x.

Definition absorb_next (n : Z) (B : row) : Z * row :=
  match B with (true, k) :: B => (n + k, B) | _ => (n, B) end.
Definition absorb_prev (A : row) (n : Z) (B : row) : row :=
  match list.last A with Some (true, k) => removelast A ++ (true, k + n) :: B | _ => A ++ (true, n) :: B end.
Definition freed (A : row) (n : Z) (B : row) : row := absorb_prev A (absorb_next n B).1 (absorb_next n B).2.

Lemma same_but_store m a x v : a <= x → x + 4 <= a + 8 → same_but a m (store32 m x v).
Proof. intros H1 H2 y Hy. unfold store32. by rewrite !(proj2 (Z.eqb_neq y _)) by lia. Qed.

Lemma same_but_trans a m1 m2 m3 : same_but a m1 m2 → same_but a m2 m3 → same_but a m1 m3.
Proof. intros H1 H2 x Hx. by rewrite H2, H1. Qed.

Lemma chain_same_but a m m' z xs : same_but a m m' → (∀ x n, (x, n) ∈ xs → x + 8 <= a ∨ a + 8 <= x) → chain m z xs → chain m' z xs.
Proof. intros H Hx. apply chain_agree. intros b n Hb x Hxb. apply H. specialize (Hx b n Hb). lia. Qed.

Lemma first_free z a L : Forall (λ b : bool * Z, 0 < b.2) L → z < a →
  match L with (true, _) :: _ => first z (free_blocks a L) = a | _ => first z (free_blocks a L) ≠ a end.
Proof.
  intros H Hz. destruct H as [|[[] k] L Hk HL]; cbn; [lia|done|]. cbn in Hk.
  destruct (free_blocks (a + 8 * k) L) as [|[x n] r] eqn:E; cbn; [lia|].
  assert (Hx : (x, n) ∈ free_blocks (a + 8 * k) L) by (rewrite E; left). apply blocks_in in Hx; [lia|done].
Qed.

Lemma u32_id x : 0 <= x < 2147483648 → u32 x = x.
Proof. intros. apply u32_small. change (2 ^ 32) with 4294967296. lia. Qed.

Lemma first_range base a L : Forall (λ b : bool * Z, 0 < b.2) L → 0 <= base < 2147483648 → 0 <= a → a + 8 * units L < 2147483648 →
  0 <= first base (free_blocks a L) < 2147483648.
Proof.
  intros HL Hb Ha Ht. destruct (free_blocks a L) as [|[x j] r] eqn:E; cbn [first fst]; [lia|].
  assert (Hx : (x, j) ∈ free_blocks a L) by (rewrite E; left). apply blocks_in in Hx; [lia|done].
Qed.

(** The nodes before the last one of a row lie below it. *)
Lemma below_last base lo A X p pn y j : Forall (λ b : bool * Z, 0 < b.2) A → base + 8 <= lo → nodes base lo A = X ++ [(p, pn)] → (y, j) ∈ X → y + 8 <= p.
Proof.
  intros HA Hb HX (i & Hi)%list_elem_of_lookup. pose proof (nodes_sorted base lo A Hb HA) as Hs. rewrite HX in Hs.
  apply (sorted_lookup _ _ i (length X) (y, j) (p, pn) Hs); [by eapply lookup_lt_Some|by apply lookup_app_l_Some|].
  by rewrite lookup_app_r, Nat.sub_diag by lia.
Qed.

(** The first half of [free]: the block [bp] with what follows it. *)
Lemma join_next s base bp n B (m := us_mem s) : Forall (λ b : bool * Z, 0 < b.2) B → 0 < n → 0 < base → base + 8 <= bp →
  bp + 8 * (n + units B) = us_sz s → us_sz s < KERNBASE → load32 m (bp + 4) = n → chain m base (free_blocks (bp + 8 * n) B) →
  wp False (if u32 (bp + 8 * n) =? first base (free_blocks (bp + 8 * n) B) then
      qn <- h_size (first base (free_blocks (bp + 8 * n) B)) ;; set_h_size bp (n + qn) ;;
      qq <- h_ptr (first base (free_blocks (bp + 8 * n) B)) ;; set_h_ptr bp qq
    else set_h_ptr bp (first base (free_blocks (bp + 8 * n) B)))
   (λ _ s', ∃ m1, s' = set_us_mem m1 s ∧ same_but bp m m1 ∧
      chain m1 base ((bp, (absorb_next n B).1) :: free_blocks (bp + 8 * (absorb_next n B).1) (absorb_next n B).2)) (λ _ _, False) s.
Proof.
  intros HB Hn Hbase Hbp Hend Htop Hsz Hc. subst m. unfold KERNBASE in Htop. pose proof (units_nonneg B HB) as HuB. rewrite u32_id by lia.
  pose proof (first_free base (bp + 8 * n) B HB ltac:(lia)) as Hf.
  set (q := first base (free_blocks (bp + 8 * n) B)) in *.
  assert (Hq : 0 <= q ∧ q + 8 <= us_sz s).
  { unfold q. destruct (free_blocks (bp + 8 * n) B) as [|[x k] r] eqn:E; cbn [first fst]; [lia|].
    assert (Hx : (x, k) ∈ free_blocks (bp + 8 * n) B) by (rewrite E; left). apply blocks_in in Hx; [lia|done]. }
  destruct (Z.eqb_spec (bp + 8 * n) q) as [E|E].
  - destruct B as [|[[] k] B]; cbn [absorb_next fst snd]; [done| |done]. clear Hf.
    destruct Hc as (Hq1 & Hq2 & Hc). fold free_blocks in Hc. apply list.Forall_cons_1 in HB as [Hk HB]. cbn in Hk. cbn [units] in *.
    pose proof (units_nonneg B HB).
    apply wp_bind, wp_uload; [lia|lia|]. rewrite <- E, Hq2. apply wp_bind, wp_ustore; [lia|lia|].
    apply wp_bind, wp_uload; [cbn; lia|cbn; lia|]. apply wp_ustore; [cbn; lia|cbn; lia|]. cbn [us_mem set_us_mem].
    rewrite load32_store32_ne, Hq1 by lia. eexists. split; [reflexivity|].
    assert (Hs : same_but bp (us_mem s) (store32 (store32 (us_mem s) (bp + 4) (n + k)) bp (first base (free_blocks (bp + 8 * n + 8 * k) B)))).
    { eapply same_but_trans; apply same_but_store; lia. }
    split; [exact Hs|]. cbn [chain]. replace (bp + 8 * (n + k)) with (bp + 8 * n + 8 * k) by lia.
    rewrite load32_store32_eq, load32_store32_ne, load32_store32_eq by lia.
    split_and!; [|apply u32_id; lia|].
    + apply u32_id, first_range; [done|lia..].
    + eapply chain_same_but; [exact Hs| |exact Hc]. intros x j Hx. apply blocks_in in Hx; [lia|done].
  - assert (Ha : absorb_next n B = (n, B)). { destruct B as [|[[] k] B]; [done| |done]. by rewrite Hf in E. }
    rewrite Ha. cbn [fst snd]. apply wp_ustore; [lia|lia|]. eexists. split; [reflexivity|].
    assert (Hs : same_but bp (us_mem s) (store32 (us_mem s) bp q)) by (apply same_but_store; lia). split; [exact Hs|].
    cbn [chain]. fold q. rewrite load32_store32_eq, load32_store32_ne by lia. split_and!; [apply u32_id; lia|done|].
    eapply chain_same_but; [exact Hs| |exact Hc]. intros x j Hx. apply blocks_in in Hx; [lia|done].
Qed.

Lemma nodes_app base lo A B : nodes base lo (A ++ B) = nodes base lo A ++ free_blocks (lo + 8 * units A) B.
Proof. unfold nodes. by rewrite blocks_app. Qed.

Lemma nodes_in base lo L x n : Forall (λ b : bool * Z, 0 < b.2) L → base + 8 <= lo → (x, n) ∈ nodes base lo L →
  (x, n) = (base, 0) ∨ (0 < n ∧ lo <= x ∧ x + 8 * n <= lo + 8 * units L).
Proof. intros HL Hb [?|H]%elem_of_cons; [by left|right]. by apply blocks_in in H. Qed.

(** The second half of [free]: the node before [bp] with [bp]. *)
Lemma join_prev s base lo A bp n B X p pn : Forall (λ b : bool * Z, 0 < b.2) A → Forall (λ b : bool * Z, 0 < b.2) B → 0 < n → 0 < base → base + 8 <= lo →
  bp = lo + 8 * units A → bp + 8 * (n + units B) = us_sz s → us_sz s < KERNBASE →
  nodes base lo A = X ++ [(p, pn)] → chain (us_mem s) p X → load32 (us_mem s) (p + 4) = pn →
  chain (us_mem s) base ((bp, n) :: free_blocks (bp + 8 * n) B) →
  wp False (if u32 (p + 8 * pn) =? bp then
      bn <- h_size bp ;; set_h_size p (pn + bn) ;; bq <- h_ptr bp ;; set_h_ptr p bq
    else set_h_ptr p bp)
   (λ _ s', ∃ m2, s' = set_us_mem m2 s ∧ same_but p (us_mem s) m2 ∧ chain m2 base (nodes base lo (absorb_prev A n B)) ∧
      p ∈ (nodes base lo (absorb_prev A n B)).*1) (λ _ _, False) s.
Proof.
  intros HA HB Hn Hb0 Hb -> Hend Htop HX Hc Hpn (H1 & H2 & H3). unfold KERNBASE in Htop.
  pose proof (units_nonneg A HA) as HuA. pose proof (units_nonneg B HB) as HuB. set (bp := lo + 8 * units A) in *.
  assert (Hin : (p, pn) ∈ nodes base lo A) by (rewrite HX; set_solver).
  assert (HXp : ∀ x k, (x, k) ∈ X → x + 8 <= p ∨ p + 8 <= x) by (intros x k Hx; left; by apply (below_last base lo A X p pn x k)).
  assert (Hp : 0 <= pn ∧ base <= p ∧ p + 8 * pn <= bp ∧ p + 8 <= bp).
  { apply nodes_in in Hin as [[= -> ->]|]; [unfold bp; lia|unfold bp; lia|done..]. }
  rewrite u32_id by lia.
  assert (HBp : ∀ x k, (x, k) ∈ free_blocks (bp + 8 * n) B → p + 8 <= x) by (intros x k Hx; apply blocks_in in Hx; [lia|done]).
  assert (Hq : 0 <= first base (free_blocks (bp + 8 * n) B) < 2147483648) by (apply first_range; [done|lia..]).
  destruct (Z.eqb_spec (p + 8 * pn) bp) as [E|E].
  - destruct A as [|[[] k] A _] using rev_ind.
    { apply nodes_in in Hin as [[= -> ->]|]; [unfold bp in E; cbn in E; lia|cbn in *; lia|done..]. }
    2: { apply list.Forall_app in HA as [HA Hk]. apply list.Forall_cons_1 in Hk as [Hk _]. cbn in Hk. rewrite nodes_app in Hin. cbn [blocks Bool.eqb id] in Hin. rewrite app_nil_r in Hin.
         unfold bp in E. rewrite units_app in E. cbn [units] in E. pose proof (units_nonneg A HA). apply nodes_in in Hin as [[= -> ->]|]; [lia|lia|done..]. }
    rewrite nodes_app in HX. cbn [blocks Bool.eqb] in HX. apply app_inj_tail in HX as [<- [= <- <-]]. apply list.Forall_app in HA as [HA Hk]. apply list.Forall_cons_1 in Hk as [Hk _]. cbn in Hk.
    unfold absorb_prev. rewrite list.last_snoc, removelast_last. rewrite nodes_app. cbn [blocks Bool.eqb].
    set (p := lo + 8 * units A) in *.
    apply wp_bind, wp_uload; [lia|lia|]. rewrite H2. apply wp_bind, wp_ustore; [lia|lia|].
    apply wp_bind, wp_uload; [cbn; lia|cbn; lia|]. apply wp_ustore; [cbn; lia|cbn; lia|]. cbn [us_mem set_us_mem].
    rewrite load32_store32_ne, H1 by lia. eexists. split; [reflexivity|].
    assert (Hs : same_but p (us_mem s) (store32 (store32 (us_mem s) (p + 4) (k + n)) p (first base (free_blocks (bp + 8 * n) B)))).
    { eapply same_but_trans; apply same_but_store; lia. }
    split; [exact Hs|]. split; [|rewrite fmap_app; set_solver].
    apply chain_app. split; [by eapply chain_same_but|]. cbn [chain]. replace (p + 8 * (k + n)) with (bp + 8 * n) by lia.
    rewrite load32_store32_eq, load32_store32_ne, load32_store32_eq by lia. split_and!; [by apply u32_id|apply u32_id; lia|].
    eapply chain_same_but; [exact Hs| |exact H3]. intros x j Hx. specialize (HBp x j Hx). lia.
  - assert (Ha : absorb_prev A n B = A ++ (true, n) :: B).
    { unfold absorb_prev. destruct A as [|[[] k] A _] using rev_ind; [done| |by rewrite list.last_snoc].
      rewrite nodes_app in HX. cbn [blocks Bool.eqb] in HX. apply app_inj_tail in HX as [<- [= <- <-]]. unfold bp in E. rewrite units_app in E. cbn [units] in E. lia. }
    rewrite Ha. apply wp_ustore; [lia|lia|]. eexists. split; [reflexivity|].
    assert (Hs : same_but p (us_mem s) (store32 (us_mem s) p bp)) by (apply same_but_store; lia).
    split; [exact Hs|]. rewrite nodes_app, HX. cbn [blocks Bool.eqb]. fold bp. split; [|rewrite !fmap_app; set_solver].
    apply chain_app. split.
    + apply chain_app. split; [by eapply chain_same_but|]. cbn [chain first fst]. rewrite load32_store32_eq, load32_store32_ne by lia.
      split_and!; [apply u32_id; lia|done|done].
    + eapply (chain_same_but p); [exact Hs| |by cbn]. intros x j [[= -> ->]|Hx]%elem_of_cons; [lia|]. specialize (HBp x j Hx). lia.
Qed.

(** ** Rows after [free] *)
Definition ends_free (A : row) : bool := match list.last A with Some (f, _) => f | None => false end.

Lemma coalesced_cons f n L : coalesced ((f, n) :: L) ↔ coalesced L ∧ f && begins_free L = false.
Proof. cbn. tauto. Qed.

Lemma coalesced_app A B : coalesced (A ++ B) ↔ coalesced A ∧ coalesced B ∧ ends_free A && begins_free B = false.
Proof.
  induction A as [|[f n] A IH]; [cbn; naive_solver|]. cbn [app]. rewrite !coalesced_cons, IH.
  destruct A as [|[g k] A]; [destruct f; cbn; intuition reflexivity|]. cbn [app begins_free]. assert (ends_free ((f, n) :: (g, k) :: A) = ends_free ((g, k) :: A)) as -> by done. tauto.
Qed.

Lemma absorb_prev_case A : (∃ A0 k, A = A0 ++ [(true, k)] ∧ ∀ n B, absorb_prev A n B = A0 ++ (true, k + n) :: B) ∨
  (ends_free A = false ∧ ∀ n B, absorb_prev A n B = A ++ (true, n) :: B).
Proof.
  unfold absorb_prev, ends_free. destruct A as [|[[] k] A _] using rev_ind; [by right| |].
  - left. exists A, k. rewrite list.last_snoc, removelast_last. done.
  - right. by rewrite list.last_snoc.
Qed.

Lemma absorb_next_case n B : (∃ k B0, B = (true, k) :: B0 ∧ absorb_next n B = (n + k, B0)) ∨ (begins_free B = false ∧ absorb_next n B = (n, B)).
Proof. destruct B as [|[[] k] B]; [by right|left; by exists k, B|by right]. Qed.

Lemma freed_ok A n B : Forall (λ b : bool * Z, 0 < b.2) (A ++ (false, n) :: B) → coalesced (A ++ (false, n) :: B) →
  Forall (λ b : bool * Z, 0 < b.2) (freed A n B) ∧ coalesced (freed A n B) ∧ units (freed A n B) = units (A ++ (false, n) :: B) ∧
  ∀ a, live_blocks a (freed A n B) = live_blocks a A ++ live_blocks (a + 8 * units A + 8 * n) B.
Proof.
  rewrite list.Forall_app, coalesced_app, coalesced_cons, units_app. cbn [units]. intros [HA [Hn HB]%list.Forall_cons_1] (CA & [CB _] & _). cbn in Hn.
  unfold freed.
  assert (HN : ∃ n' B', absorb_next n B = (n', B') ∧ 0 < n' ∧ Forall (λ b : bool * Z, 0 < b.2) B' ∧ coalesced B' ∧ begins_free B' = false ∧
    n' + units B' = n + units B ∧ ∀ a, live_blocks (a + 8 * n') B' = live_blocks (a + 8 * n) B).
  { destruct (absorb_next_case n B) as [(k & B0 & -> & ->)|[Hb ->]]; eexists _, _; (split; [reflexivity|]); [|by split_and!].
    apply list.Forall_cons_1 in HB as [Hk HB]. cbn in Hk. apply coalesced_cons in CB as [CB Hb]. cbn in Hb. cbn [units].
    split_and!; [lia|done|done|done|lia|]. intros a. cbn [blocks Bool.eqb id]. f_equal. lia. }
  destruct HN as (n' & B' & -> & Hn' & HB' & CB' & Hb' & Hu & Hl). cbn [fst snd].
  destruct (absorb_prev_case A) as [(A0 & k & -> & E)|[He E]]; rewrite E.
  - rewrite list.Forall_app in HA. destruct HA as [HA [Hk _]%list.Forall_cons_1]. cbn in Hk. apply coalesced_app in CA as (CA & _ & He). rewrite !units_app. cbn [units].
    split_and!; [by repeat constructor; auto; apply list.Forall_app; split; [|constructor; [cbn; lia|]]| |lia|].
    + apply coalesced_app. rewrite coalesced_cons, Hb'. cbn in *. split_and!; [done..|]. by rewrite andb_true_r in *.
    + intros a. rewrite !blocks_app. cbn [blocks Bool.eqb id]. rewrite app_nil_r. f_equal.
      replace (a + 8 * units A0 + 8 * (k + n')) with (a + 8 * units A0 + 8 * k + 8 * n') by lia. rewrite Hl. f_equal. lia.
  - rewrite units_app. cbn [units]. split_and!; [by apply list.Forall_app; split; [|constructor; [cbn; lia|]]| |lia|].
    + apply coalesced_app. by rewrite coalesced_cons, Hb', He.
    + intros a. rewrite blocks_app. cbn [blocks Bool.eqb id]. f_equal. apply Hl.
Qed.

(** ** [free] *)
Lemma heap_pos s lo L x n : heap s lo L → (x, n) ∈ nodes (us_base s) lo L → us_base s <= x ∧ 0 <= n ∧ x + 8 <= us_sz s ∧ x + 8 * n <= us_sz s.
Proof.
  intros H Hx. pose proof (hp_base _ _ _ H). rewrite (hp_end _ _ _ H). pose proof (units_nonneg L (hp_pos _ _ _ H)).
  apply nodes_in in Hx as [[= -> ->]|]; [lia|lia|apply H|lia].
Qed.

Lemma freep_range s lo L : heap s lo L → 0 < us_freep s ∧ us_freep s + 8 <= us_sz s.
Proof.
  intros H. pose proof (hp_freep _ _ _ H) as ([x j] & -> & Hx)%list_elem_of_fmap. pose proof (hp_base _ _ _ H).
  destruct (heap_pos _ _ _ _ _ H Hx) as (? & ? & ? & ?). cbn. lia.
Qed.

Lemma nodes_length s lo L : heap s lo L → (length (nodes (us_base s) lo L) ≤ walk_fuel s)%nat.
Proof.
  intros H. unfold walk_fuel. cbn [nodes length]. pose proof (blocks_length true lo L (hp_pos _ _ _ H)) as Hl. pose proof (hp_base _ _ _ H).
  rewrite (hp_end _ _ _ H). assert (units L <= (lo + 8 * units L) / 8) by (apply Z.div_le_lower_bound; lia). lia.
Qed.

(** The ring, seen from any of its nodes. *)
Lemma ring_from m xs x : chain m (first 0 xs) xs → x ∈ xs.*1 → ∃ P Q n, xs = P ++ (x, n) :: Q ∧ chain m x ((x, n) :: Q ++ P).
Proof.
  intros Hc ([y n] & -> & (P & Q & ->)%list_elem_of_split)%list_elem_of_fmap. cbn [fst] in *. exists P, Q, n. split; [done|].
  apply (chain_rotate m _ P ((y, n) :: Q)) in Hc; [exact Hc|done|]. by destruct P.
Qed.

Lemma free_finds s lo A n B X p pn : heap s lo (A ++ (false, n) :: B) → nodes (us_base s) lo A = X ++ [(p, pn)] →
  free_search (walk_fuel s) (lo + 8 * units A) (us_freep s) s = Ret p s.
Proof.
  intros H HX. pose proof (nodes_length _ _ _ H) as Hl. pose proof (hp_ring _ _ _ H) as Hc. pose proof (hp_pos _ _ _ H) as HL. destruct (hp_base _ _ _ H) as [Hb0 Hb].
  destruct (ring_from (us_mem s) (nodes (us_base s) lo (A ++ (false, n) :: B)) _ Hc (hp_freep _ _ _ H)) as (P & Q & k & E & Hrot).
  assert (Hperm : ((us_freep s, k) :: Q ++ P) ≡ₚ nodes (us_base s) lo (A ++ (false, n) :: B)) by (rewrite E; by rewrite (app_comm_cons Q P), Permutation_app_comm).
  assert (Hs := nodes_sorted (us_base s) lo _ Hb HL). rewrite nodes_app in Hs, Hc. cbn [blocks Bool.eqb id] in Hs, Hc. rewrite HX, <- app_assoc in Hs, Hc.
  apply list.Forall_app in HL as [HA HB]. apply list.Forall_cons_1 in HB as [Hn HB]. cbn in Hn.
  assert (HE : nodes (us_base s) lo (A ++ (false, n) :: B) = X ++ (p, pn) :: free_blocks (lo + 8 * units A + 8 * n) B).
  { rewrite nodes_app, HX, <- app_assoc. done. }
  apply (free_search_chain s _ p (us_freep s) ((us_freep s, k) :: Q ++ P)); [exact Hrot| | | |].
  - rewrite Hperm, HE, fmap_app. set_solver.
  - intros x. rewrite Hperm. intros ([y j] & -> & Hy)%list_elem_of_fmap. cbn. destruct (heap_pos _ _ _ _ _ H Hy) as (? & ? & ? & ?). lia.
  - intros x. rewrite Hperm, HE. apply (belongs_iff _ 0 X (p, pn)); [done| | |].
    + rewrite <- HE. exact (hp_ring _ _ _ H).
    + cbn. assert (Hin : (p, pn) ∈ nodes (us_base s) lo A) by (rewrite HX; set_solver). pose proof (units_nonneg A HA).
      apply nodes_in in Hin as [[= -> ->]|]; [lia|lia|done|lia].
    + intros [y j] Hy. apply blocks_in in Hy; [cbn; lia|done].
  - rewrite <- (Permutation_length Hperm) in Hl. exact Hl.
Qed.

Lemma last_node base lo A : ∃ X p pn, nodes base lo A = X ++ [(p, pn)].
Proof. destruct (exists_last (l := nodes base lo A)) as (X & [p pn] & E); [done|]. by exists X, p, pn. Qed.

(** A live block of the row, seen from the node before [bp] and from [bp]. *)
Lemma live_apart base lo A n B X p pn a k : Forall (λ b : bool * Z, 0 < b.2) (A ++ (false, n) :: B) → base + 8 <= lo →
  nodes base lo A = X ++ [(p, pn)] → (a, k) ∈ live_blocks lo A ++ live_blocks (lo + 8 * units A + 8 * n) B →
  (0 < k ∧ lo <= a) ∧ (a + 8 * k <= lo + 8 * units A ∨ lo + 8 * units A + 8 <= a) ∧ (a + 8 * k <= p ∨ p + 8 <= a).
Proof.
  rewrite list.Forall_app. intros [HA [Hn HB]%list.Forall_cons_1] Hb HX Hin. cbn in Hn. pose proof (units_nonneg A HA).
  assert (Hp : (p, pn) ∈ nodes base lo A) by (rewrite HX; set_solver).
  apply elem_of_app in Hin as [Hin|Hin]; pose proof Hin as Hin'; (apply blocks_in in Hin; [|done]); (split; [lia|]); (split; [lia|]).
  - apply elem_of_cons in Hp as [[= -> ->]|Hp]; [lia|]. pose proof Hp as Hp'. apply blocks_in in Hp'; [|done].
    destruct (blocks_disjoint _ _ _ _ _ _ _ _ HA Hin' Hp) as [(? & _)|[?|?]]; [done|lia..].
  - apply nodes_in in Hp as [[= -> ->]|]; [lia|lia|done..].
Qed.

(** What is left to say once only the headers [bp] and [p] have changed. *)
Lemma heap_freed s lo A n B X p pn m2 : heap s lo (A ++ (false, n) :: B) → nodes (us_base s) lo A = X ++ [(p, pn)] →
  (∀ x, (x < lo + 8 * units A ∨ lo + 8 * units A + 8 <= x) → (x < p ∨ p + 8 <= x) → m2 x = us_mem s x) →
  chain m2 (us_base s) (nodes (us_base s) lo (freed A n B)) → p ∈ (nodes (us_base s) lo (freed A n B)).*1 →
  let s' := set_us_freep p (set_us_mem m2 s) in
  heap s' lo (freed A n B) ∧ keeps (owned s lo (live_blocks lo (freed A n B))) s s'.
Proof.
  intros H HX Hsame Hc Hp s'. destruct (hp_base _ _ _ H) as [Hb0 Hb]. pose proof (hp_pos _ _ _ H) as HL.
  destruct (freed_ok A n B HL (hp_gap _ _ _ H)) as (HL' & Hg & Hu & Hlv).
  assert (Hap : ∀ a k, (a, k) ∈ live_blocks lo (freed A n B) → (0 < k ∧ lo <= a) ∧ (a + 8 * k <= lo + 8 * units A ∨ lo + 8 * units A + 8 <= a) ∧ (a + 8 * k <= p ∨ p + 8 <= a)).
  { intros a k Hin. rewrite Hlv in Hin. by apply (live_apart (us_base s) lo A n B X p pn). }
  split; [split; cbn [us_base us_sz us_mem us_freep set_us_freep set_us_mem s']; try done; [rewrite Hu| |]; try apply H|split; [done|]].
  - intros a k Hin. pose proof (Hap a k Hin) as ((Hk & _) & H1 & H2). rewrite (load32_agree (us_mem s)) by (intros; apply Hsame; lia).
    apply (hp_live _ _ _ H). rewrite Hlv in Hin. rewrite blocks_app. cbn [blocks Bool.eqb id]. rewrite elem_of_app, elem_of_cons in *. tauto.
  - intros x [(a & k & Hin & Hx)|[Hx1 Hx2]]; cbn [us_mem set_us_freep set_us_mem s'].
    + pose proof (Hap a k Hin) as (? & ? & ?). apply Hsame; lia.
    + apply list.Forall_app in HL as [HA _]. pose proof (units_nonneg A HA). assert (Hin : (p, pn) ∈ nodes (us_base s) lo A) by (rewrite HX; set_solver).
      apply Hsame; [lia|]. apply nodes_in in Hin as [[= -> ->]|]; [lia|lia|done..].
Qed.

Lemma absorb_next_ok n B : Forall (λ b : bool * Z, 0 < b.2) B → 0 < n →
  0 < (absorb_next n B).1 ∧ Forall (λ b : bool * Z, 0 < b.2) (absorb_next n B).2 ∧ (absorb_next n B).1 + units (absorb_next n B).2 = n + units B.
Proof.
  intros HB Hn. destruct (absorb_next_case n B) as [(k & B0 & -> & ->)|[_ ->]]; cbn [fst snd units]; [|done].
  apply list.Forall_cons_1 in HB as [Hk HB]. cbn in Hk. split; [lia|split; [done|lia]].
Qed.

Lemma wp_free_row s lo A n B : heap s lo (A ++ (false, n) :: B) →
  wp False (free (lo + 8 * units A + 8)) (λ _ s', heap s' lo (freed A n B) ∧ us_sz s' = us_sz s ∧ us_grants s' = us_grants s ∧
    keeps (owned s lo (live_blocks lo (freed A n B))) s s') (λ _ _, False) s.
Proof.
  intros H. destruct (hp_base _ _ _ H) as [Hb0 Hb]. pose proof (hp_pos _ _ _ H) as HL. 
  pose proof HL as [HA [Hn HB]%list.Forall_cons_1]%list.Forall_app. cbn in Hn. pose proof (units_nonneg A HA). pose proof (units_nonneg B HB).
  pose proof (hp_top _ _ _ H) as Htop. pose proof (hp_end _ _ _ H) as Hend. rewrite units_app in Hend. cbn [units] in Hend.
  destruct (last_node (us_base s) lo A) as (X & p & pn & HX). set (bp := lo + 8 * units A) in *.
  pose proof (hp_ring _ _ _ H) as Hc. rewrite nodes_app in Hc. cbn [blocks Bool.eqb id] in Hc. fold bp in Hc.
  apply chain_app in Hc as [HcA HcB]. rewrite HX in HcA. apply chain_app in HcA as [HcX (Hq & Hpn & _)]. cbn [first fst] in HcX, Hq.
  assert (Hp : 0 <= p ∧ p + 8 <= bp).
  { assert (Hin : (p, pn) ∈ nodes (us_base s) lo A) by (rewrite HX; set_solver). unfold bp. apply nodes_in in Hin as [[= -> ->]|]; [lia|lia|done..]. }
  assert (Hnb : load32 (us_mem s) (bp + 4) = n).
  { apply (hp_live _ _ _ H). rewrite blocks_app. cbn. set_solver. }
  assert (HXb : ∀ x k, (x, k) ∈ X → x + 8 <= bp).
  { intros x k Hx. assert (Hin : (x, k) ∈ nodes (us_base s) lo A) by (rewrite HX; set_solver). unfold bp. apply nodes_in in Hin as [[= -> ->]|]; [lia|lia|done..]. }
  unfold free. replace (bp + 8 - 8) with bp by lia. unfold KERNBASE in Htop. rewrite u32_id by lia.
  apply wp_bind, wp_gets, wp_bind, wp_gets, wp_bind. eapply wp_of_Ret; [by apply (free_finds s lo A n B X p pn)|].
  apply wp_bind, wp_uload; [lia|lia|]. apply wp_bind, wp_uload; [lia|lia|]. rewrite Hq, Hnb.
  apply wp_bind. eapply wp_mono; [apply (join_next s (us_base s) bp n B); try done; lia| |done].
  intros _ s1 (m1 & -> & Hs1 & Hc1). cbn beta.
  destruct (absorb_next_ok n B HB Hn) as (Hn' & HB' & Hu').
  apply wp_bind, wp_uload; [lia|cbn; lia|]. cbn [us_mem set_us_mem].
  assert (Hpn1 : load32 m1 (p + 4) = pn) by (rewrite (load32_agree (us_mem s)); [done|intros; apply Hs1; lia]). rewrite Hpn1.
  apply wp_bind. eapply wp_mono; [apply (join_prev (set_us_mem m1 s) (us_base s) lo A bp (absorb_next n B).1 (absorb_next n B).2 X p pn); try done; cbn [us_sz us_mem set_us_mem]; try lia| |done].
  { eapply chain_same_but; [exact Hs1| |exact HcX]. intros x k Hx. left. by eapply HXb. }
  intros _ s2 (m2 & -> & Hs2 & Hc2 & Hp2). apply wp_modify. cbn [us_mem set_us_mem] in Hs2.
  destruct (heap_freed s lo A n B X p pn m2 H HX) as [Hh Hk]; [|exact Hc2|exact Hp2|by split_and!].
  intros x Hx1 Hx2. by rewrite (Hs2 x Hx2), (Hs1 x Hx1).
Qed.

(** ** [malloc] takes a block that fits *)
Lemma ring_split s lo A n B : heap s lo (A ++ (true, n) :: B) → ∃ X p pn,
  nodes (us_base s) lo A = X ++ [(p, pn)] ∧ chain (us_mem s) p X ∧ load32 (us_mem s) (p + 4) = pn ∧ (us_base s <= p ∧ p + 8 <= lo + 8 * units A) ∧
  load32 (us_mem s) p = lo + 8 * units A ∧ load32 (us_mem s) (lo + 8 * units A) = first (us_base s) (free_blocks (lo + 8 * units A + 8 * n) B) ∧
  load32 (us_mem s) (lo + 8 * units A + 4) = n ∧ chain (us_mem s) (us_base s) (free_blocks (lo + 8 * units A + 8 * n) B) ∧
  (∀ y, y ∈ (nodes (us_base s) lo (A ++ (true, n) :: B)).*1 → load32 (us_mem s) y = lo + 8 * units A → y = p).
Proof.
  intros H. destruct (last_node (us_base s) lo A) as (X & p & pn & HX). exists X, p, pn. split; [done|].
  destruct (hp_base _ _ _ H) as [Hb0 Hb]. pose proof (hp_pos _ _ _ H) as HL. pose proof (hp_ring _ _ _ H) as Hc.
  pose proof (sorted_NoDup _ (nodes_sorted (us_base s) lo _ Hb HL)) as Hnd.
  apply list.Forall_app in HL as [HA HB]. apply list.Forall_cons_1 in HB as [Hn HB]. cbn in Hn. pose proof (units_nonneg A HA).
  assert (HE : nodes (us_base s) lo (A ++ (true, n) :: B) = X ++ (p, pn) :: (lo + 8 * units A, n) :: free_blocks (lo + 8 * units A + 8 * n) B).
  { rewrite nodes_app, HX, <- app_assoc. done. }
  assert (Hin : (p, pn) ∈ nodes (us_base s) lo A) by (rewrite HX; set_solver).
  assert (Hp : us_base s <= p ∧ p + 8 <= lo + 8 * units A) by (apply nodes_in in Hin as [[= -> ->]|]; [lia|lia|done..]).
  assert (Hu : ∀ y, y ∈ (nodes (us_base s) lo (A ++ (true, n) :: B)).*1 → load32 (us_mem s) y = lo + 8 * units A → y = p).
  { intros y Hy Hl. apply (chain_prev (us_mem s) 0 (nodes (us_base s) lo (A ++ (true, n) :: B)) X (p, pn) (lo + 8 * units A, n) (free_blocks (lo + 8 * units A + 8 * n) B) y Hc Hnd HE Hy Hl). }
  rewrite HE in Hc. apply chain_app in Hc as [HcX (Hp1 & Hp2 & Hx1 & Hx2 & Hc)]. exact (conj HcX (conj Hp2 (conj Hp (conj Hp1 (conj Hx1 (conj Hx2 (conj Hc Hu))))))).

Qed.

(** Writes inside a free block or to the header before it leave the rest. *)
Lemma keeps_free s lo A n B X p pn m' f : heap s lo (A ++ (true, n) :: B) → nodes (us_base s) lo A = X ++ [(p, pn)] →
  (∀ x, (x < lo + 8 * units A ∨ lo + 8 * units A + 8 * n <= x) → (x < p ∨ p + 8 <= x) → m' x = us_mem s x) →
  keeps (owned s lo (live_blocks lo (A ++ (true, n) :: B))) s (set_us_freep f (set_us_mem m' s)) ∧
  (∀ a k, (a, k) ∈ live_blocks lo (A ++ (true, n) :: B) → load32 m' (a + 4) = k).
Proof.
  intros H HX Hsame. destruct (hp_base _ _ _ H) as [Hb0 Hb]. pose proof (hp_pos _ _ _ H) as HL.
  set (x0 := lo + 8 * units A) in *.
  assert (Hx0 : (x0, n) ∈ free_blocks lo (A ++ (true, n) :: B)) by (rewrite blocks_app; cbn; set_solver).
  assert (Hp : (p, pn) ∈ nodes (us_base s) lo (A ++ (true, n) :: B)) by (rewrite nodes_app, HX; set_solver).
  assert (Hap : ∀ a k, (a, k) ∈ live_blocks lo (A ++ (true, n) :: B) → (0 < k ∧ lo <= a) ∧ (a + 8 * k <= x0 ∨ x0 + 8 * n <= a) ∧ (a + 8 * k <= p ∨ p + 8 <= a)).
  { intros a k Ha. pose proof Ha as Ha'. apply blocks_in in Ha'; [|done]. split; [lia|]. split.
    - destruct (blocks_disjoint _ _ _ _ _ _ _ _ HL Ha Hx0) as [(? & _)|?]; [done|lia].
    - apply elem_of_cons in Hp as [[= -> ->]|Hp]; [lia|]. destruct (blocks_disjoint _ _ _ _ _ _ _ _ HL Ha Hp) as [(? & _)|?]; [done|].
      apply blocks_in in Hp; [lia|done]. }
  split; [split; [done|]|].
  - intros x [(a & k & Ha & Hx)|[Hx1 Hx2]]; cbn [us_mem set_us_freep set_us_mem].
    + destruct (Hap a k Ha) as (? & ? & ?). apply Hsame; lia.
    + apply blocks_in in Hx0; [|done]. apply Hsame; [lia|]. apply nodes_in in Hp as [[= -> ->]|]; [lia|lia|done..].
  - intros a k Ha. destruct (Hap a k Ha) as (? & ? & ?). rewrite (load32_agree (us_mem s)); [by apply (hp_live _ _ _ H)|]. intros x Hx. apply Hsame; lia.
Qed.

(** The row after a block is taken: all of it, or its tail. *)
Definition taken (k : Z) (A : row) (n : Z) (B : row) : row :=
  if n =? k then A ++ (false, n) :: B else A ++ (true, n - k) :: (false, k) :: B.

Lemma taken_ok k a A n B : Forall (λ b : bool * Z, 0 < b.2) (A ++ (true, n) :: B) → coalesced (A ++ (true, n) :: B) → 0 < k <= n →
  Forall (λ b : bool * Z, 0 < b.2) (taken k A n B) ∧ coalesced (taken k A n B) ∧ units (taken k A n B) = units (A ++ (true, n) :: B) ∧
  live_blocks a (taken k A n B) = live_blocks a A ++ (a + 8 * units A + 8 * (n - k), k) :: live_blocks (a + 8 * units A + 8 * n) B.
Proof.
  rewrite list.Forall_app, coalesced_app, coalesced_cons. intros [HA [Hn HB]%list.Forall_cons_1] (CA & [CB Hb] & He) Hk. cbn in Hn.
  unfold taken. destruct (Z.eqb_spec n k) as [->|E].
  - rewrite list.Forall_app, coalesced_app, coalesced_cons, blocks_app, !units_app. cbn [blocks Bool.eqb id begins_free units]. rewrite andb_false_r.
    replace (a + 8 * units A + 8 * (k - k)) with (a + 8 * units A) by lia. split_and!; try done. by constructor.
  - rewrite list.Forall_app, coalesced_app, !coalesced_cons, blocks_app, !units_app. cbn [blocks Bool.eqb id begins_free units] in *. rewrite andb_true_r in *.
    replace (a + 8 * units A + 8 * (n - k) + 8 * k) with (a + 8 * units A + 8 * n) by lia. split_and!; try done; [|lia].
    constructor; [cbn; lia|]. constructor; [cbn; lia|done].
Qed.

(** The heap after a write that leaves a row [taken]. *)
Lemma heap_taken s lo A n B k X p pn m' : heap s lo (A ++ (true, n) :: B) → 0 < k <= n → nodes (us_base s) lo A = X ++ [(p, pn)] →
  (∀ x, (x < lo + 8 * units A ∨ lo + 8 * units A + 8 * n <= x) → (x < p ∨ p + 8 <= x) → m' x = us_mem s x) →
  chain m' (us_base s) (nodes (us_base s) lo (taken k A n B)) → load32 m' (lo + 8 * units A + 8 * (n - k) + 4) = k →
  let s' := set_us_freep p (set_us_mem m' s) in
  heap s' lo (taken k A n B) ∧ keeps (owned s lo (live_blocks lo (A ++ (true, n) :: B))) s s'.
Proof.
  intros H Hk HX Hsame Hc Hsz s'. destruct (keeps_free s lo A n B X p pn m' p H HX Hsame) as [Hkeep Hl]. split; [|exact Hkeep].
  destruct (taken_ok k lo A n B (hp_pos _ _ _ H) (hp_gap _ _ _ H) Hk) as (HL' & Hg & Hu & Hlv).
  split; cbn [us_base us_sz us_mem us_freep set_us_freep set_us_mem s']; try done; [apply H|rewrite Hu; apply H|apply H| |].
  - intros a j. rewrite Hlv, elem_of_app, elem_of_cons. intros [Ha|[[= -> ->]|Ha]]; [|done|]; apply Hl; rewrite blocks_app; cbn [blocks Bool.eqb id]; set_solver.
  - unfold taken. destruct (n =? k); rewrite nodes_app, HX, !fmap_app, !elem_of_app; left; right; left.
Qed.

Section take.
Context (s : ustate) (lo : Z) (A : row) (n : Z) (B : row) (k : Z) (X : list (Z * Z)) (p pn : Z).
Hypothesis (H : heap s lo (A ++ (true, n) :: B)) (Hk : 0 < k <= n) (HX : nodes (us_base s) lo A = X ++ [(p, pn)]).
Notation x := (lo + 8 * units A).
Hypothesis (HcX : chain (us_mem s) p X) (Hpn : load32 (us_mem s) (p + 4) = pn) (Hp : us_base s <= p ∧ p + 8 <= x).
Hypothesis (Hp1 : load32 (us_mem s) p = x) (Hx1 : load32 (us_mem s) x = first (us_base s) (free_blocks (x + 8 * n) B)).
Hypothesis (Hx2 : load32 (us_mem s) (x + 4) = n) (HcB : chain (us_mem s) (us_base s) (free_blocks (x + 8 * n) B)).

Lemma take_range : 0 < us_base s ∧ us_base s + 8 <= lo ∧ 0 <= units A ∧ 0 <= units B ∧ us_sz s = lo + 8 * (units A + (n + units B)) ∧ us_sz s < 2147483648 ∧
  Forall (λ b : bool * Z, 0 < b.2) A ∧ Forall (λ b : bool * Z, 0 < b.2) B.
Proof using H.
  destruct (hp_base _ _ _ H). pose proof (hp_pos _ _ _ H) as [HA [Hn HB]%list.Forall_cons_1]%list.Forall_app.
  pose proof (hp_end _ _ _ H) as Hend. rewrite units_app in Hend. pose proof (hp_top _ _ _ H). unfold KERNBASE in *.
  pose proof (units_nonneg A HA). pose proof (units_nonneg B HB). by split_and!.
Qed.

Lemma take_below : (∀ y j, (y, j) ∈ X → y + 8 <= p) ∧ (∀ y j, (y, j) ∈ free_blocks (x + 8 * n) B → x + 8 * n <= y).
Proof using H HX.
  destruct take_range as (_ & Hb & _ & _ & _ & _ & HA & HB). split; intros y j Hy; [by apply (below_last (us_base s) lo A X p pn y j)|].
  apply blocks_in in Hy; [lia|done].
Qed.

Lemma wp_take_all : n = k → wp False (malloc_take k p x n) (λ r s', heap s' lo (taken k A n B) ∧ r = x + 8 * (n - k) + 8 ∧
    keeps (owned s lo (live_blocks lo (A ++ (true, n) :: B))) s s') (λ _ _, False) s.
Proof using H Hk HX HcX Hpn Hp Hx1 Hx2 HcB.
  intros E. destruct take_range as (Hb0 & Hb & HuA & HuB & Hend & Htop & HA & HB). destruct take_below as [HXp HBx].
  assert (Hq : 0 <= first (us_base s) (free_blocks (x + 8 * n) B) < 2147483648) by (apply first_range; [done|lia..]).
  unfold malloc_take. apply wp_bind. rewrite (proj2 (Z.eqb_eq n k) E).
  apply wp_bind, wp_uload; [lia|lia|]. rewrite Hx1. apply wp_bind, wp_ustore; [lia|lia|]. apply wp_ret, wp_bind, wp_modify, wp_ret.
  rewrite u32_id by lia. set (m' := store32 _ _ _).
  assert (Hs : same_but p (us_mem s) m') by (apply same_but_store; lia).
  destruct (heap_taken s lo A n B k X p pn m' H Hk HX) as [Hh Hkeep]; [intros y _ Hy; by apply Hs| | |split; [exact Hh|]; split; [lia|exact Hkeep]].
  - unfold taken. rewrite (proj2 (Z.eqb_eq n k) E), nodes_app, HX. cbn [blocks Bool.eqb id]. apply chain_app.
    split; [|eapply chain_same_but; [exact Hs| |exact HcB]; intros y j Hy; specialize (HBx y j Hy); lia].
    apply chain_app. split; [eapply chain_same_but; [exact Hs| |exact HcX]; intros y j Hy; specialize (HXp y j Hy); lia|].
    cbn [chain first fst]. unfold m'. rewrite load32_store32_eq, load32_store32_ne, u32_id by lia. done.
  - replace (x + 8 * (n - k) + 4) with (x + 4) by lia. unfold m'. rewrite load32_store32_ne by lia. lia.
Qed.

Lemma wp_cut_tail : n ≠ k → wp False (malloc_take k p x n) (λ r s', heap s' lo (taken k A n B) ∧ r = x + 8 * (n - k) + 8 ∧
    keeps (owned s lo (live_blocks lo (A ++ (true, n) :: B))) s s') (λ _ _, False) s.
Proof using H Hk HX HcX Hpn Hp Hp1 Hx1 Hx2 HcB.
  intros E. destruct take_range as (Hb0 & Hb & HuA & HuB & Hend & Htop & HA & HB). destruct take_below as [HXp HBx].
  unfold malloc_take. apply wp_bind. rewrite (proj2 (Z.eqb_neq n k) E).
  apply wp_bind, wp_ustore; [lia|lia|]. rewrite (u32_id (n - k)) by lia. apply wp_bind, wp_uload; [cbn; lia|cbn; lia|]. cbn [us_mem set_us_mem].
  rewrite load32_store32_eq, (u32_id (n - k)), (u32_id (x + _)) by lia. apply wp_bind, wp_ustore; [cbn; lia|cbn; lia|]. apply wp_ret, wp_bind, wp_modify, wp_ret.
  cbn [us_mem set_us_mem]. rewrite u32_id by lia. set (m' := store32 (store32 _ _ _) _ _).
  assert (Hs : ∀ y, y < x + 4 ∨ x + 8 * n <= y → m' y = us_mem s y).
  { intros y Hy. unfold m', store32. by rewrite !(proj2 (Z.eqb_neq y _)) by lia. }
  change (set_us_mem m' (set_us_mem _ s)) with (set_us_mem m' s).
  destruct (heap_taken s lo A n B k X p pn m' H Hk HX) as [Hh Hkeep]; [intros y Hy _; apply Hs; lia| | |split; [exact Hh|]; split; [lia|exact Hkeep]].
  - unfold taken. rewrite (proj2 (Z.eqb_neq n k) E), nodes_app, HX. cbn [blocks Bool.eqb id].
    replace (x + 8 * (n - k) + 8 * k) with (x + 8 * n) by lia. apply chain_app. cbn [first fst chain]. split.
    + apply (chain_agree (us_mem s)); [intros y j Hy z Hz; apply Hs|apply chain_app; by cbn].
      apply elem_of_app in Hy as [Hy|[= -> ->]%list_elem_of_singleton]; [specialize (HXp y j Hy)|]; lia.
    + split_and!; [rewrite (load32_agree (us_mem s)); [done|intros; apply Hs; lia]| |].
      * unfold m'. rewrite load32_store32_ne, load32_store32_eq, u32_id by lia. done.
      * apply (chain_agree (us_mem s)); [|done]. intros y j Hy z Hz. specialize (HBx y j Hy). apply Hs. lia.
  - unfold m'. rewrite load32_store32_eq, u32_id by lia. done.
Qed.
End take.

Lemma wp_malloc_take s lo A n B k prevp : heap s lo (A ++ (true, n) :: B) → 0 < k <= n →
  prevp ∈ (nodes (us_base s) lo (A ++ (true, n) :: B)).*1 → load32 (us_mem s) prevp = lo + 8 * units A →
  wp False (malloc_take k prevp (lo + 8 * units A) n) (λ r s', heap s' lo (taken k A n B) ∧ r = lo + 8 * units A + 8 * (n - k) + 8 ∧
    keeps (owned s lo (live_blocks lo (A ++ (true, n) :: B))) s s') (λ _ _, False) s.
Proof.
  intros H Hk Hprev Hl. destruct (ring_split s lo A n B H) as (X & p & pn & HX & HcX & Hpn & Hp & Hp1 & Hx1 & Hx2 & HcB & Hu).
  rewrite (Hu prevp Hprev Hl). destruct (decide (n = k)); [by apply (wp_take_all s lo A n B k X p pn)|by apply (wp_cut_tail s lo A n B k X p pn)].
Qed.

(** ** Growing the heap *)
Lemma sbrk_grows s n : 0 < n -> us_sz s < KERNBASE → 0 <= us_sz s → n < 2147483648 →
  (∃ g, sbrk n s = Ret (-1) (mk_ustate (us_mem s) (us_sz s) (us_base s) (us_freep s) g)) ∨
  (∃ m g, sbrk n s = Ret (us_sz s) (mk_ustate m (us_sz s + n) (us_base s) (us_freep s) g) ∧ us_sz s + n < KERNBASE ∧
     ∀ x, x < us_sz s → m x = us_mem s x).
Proof.
  intros Hn Ht H0 Hb. unfold sbrk, KERNBASE in *. rewrite s32_small by (change (2 ^ 31) with 2147483648; lia).
  rewrite (proj2 (Z.ltb_lt 0 n)) by done. rewrite u32_small by (change (2 ^ 32) with 4294967296; lia).
  destruct (Z.leb_spec 2147483648 (us_sz s + n)); [left; exists (us_grants s); by destruct s|].
  rewrite (proj2 (Z.ltb_ge _ _)) by lia. destruct (us_grants s) as [|[] g]; [left; by exists []| |left; by exists g].
  right. eexists _, _. split; [reflexivity|]. split; [lia|]. intros x Hx. unfold fill.
  pose proof (PGROUNDUP_eq (us_sz s)) as HP. rewrite HP by (unfold PGSIZE; change (2 ^ 32) with 4294967296; lia).
  pose proof (Z.mod_pos_bound (- us_sz s) PGSIZE ltac:(done)). by rewrite (proj2 (Z.leb_gt _ _)) by lia.
Qed.

(** The kernel refuses memory: nothing changes but its answers to come. *)
Definition refused (s s' : ustate) : Prop := ∃ g, s' = mk_ustate (us_mem s) (us_sz s) (us_base s) (us_freep s) g.

Lemma heap_refused s s' lo L : refused s s' → heap s lo L → heap s' lo L.
Proof. intros [g ->] []. by split. Qed.

Definition grown (nu : Z) : Z := if nu <? 4096 then 4096 else nu.

Lemma wp_morecore s lo L nu : heap s lo L → 0 < nu → 8 * nu < 2147483648 →
  wp False (morecore nu) (λ r s', (r = 0 ∧ refused s s') ∨
    (r = us_freep s' ∧ heap s' lo (freed L (grown nu) []) ∧ keeps (owned s lo (live_blocks lo L)) s s')) (λ _ _, False) s.
Proof.
  intros H Hnu Hb. unfold morecore. fold (grown nu). set (n := grown nu). assert (Hn : nu <= n ∧ 0 < n ∧ 8 * n < 2147483648) by (unfold n, grown; destruct (Z.ltb_spec nu 4096); lia).
  destruct (hp_base _ _ _ H) as [Hb0 Hb1]. pose proof (units_nonneg L (hp_pos _ _ _ H)). pose proof (hp_end _ _ _ H) as Hend. pose proof (hp_top _ _ _ H) as Htop.
  rewrite u32_id by lia. apply wp_bind.
  destruct (sbrk_grows s (n * 8)) as [[g E]|(m & g & E & Ht & Hm)]; [lia|done|lia|lia| |]; (eapply wp_of_Ret; [exact E|]).
  { apply wp_ret. left. split; [done|]. by exists g. }
  rewrite (proj2 (Z.eqb_neq _ _)) by lia. unfold KERNBASE in *. apply wp_bind, wp_ustore; [lia|cbn; lia|]. cbn [us_mem set_us_mem us_sz us_base us_freep us_grants].
  set (s1 := set_us_mem _ _). rewrite (u32_id (us_sz s + 8)) by lia.
  assert (Hm1 : ∀ x, x < us_sz s → us_mem s1 x = us_mem s x).
  { intros x Hx. cbn [s1 us_mem set_us_mem]. unfold store32. rewrite !(proj2 (Z.eqb_neq x _)) by lia. by apply Hm. }
  assert (H1 : heap s1 lo (L ++ (false, n) :: [])).
  { destruct H. split; cbn [s1 us_base us_sz us_freep set_us_mem]; try done.
    - rewrite units_app. cbn [units]. lia.
    - apply list.Forall_app. split; [done|]. constructor; [cbn; lia|constructor].
    - apply coalesced_app. cbn. by rewrite andb_false_r.
    - rewrite nodes_app. cbn [blocks Bool.eqb id]. rewrite app_nil_r. eapply chain_agree; [|exact hp_ring0].
      intros a k Ha x Hx. apply Hm1. apply nodes_in in Ha as [[= -> ->]|]; [lia|lia|done..].
    - intros a k. rewrite blocks_app. cbn [blocks Bool.eqb id]. rewrite elem_of_app, list_elem_of_singleton. intros [Ha|[= -> ->]].
      + rewrite (load32_agree (us_mem s)); [by apply hp_live0|]. intros x Hx. apply blocks_in in Ha; [|done]. apply Hm1. lia.
      + rewrite <- hp_end0. cbn [s1 us_mem set_us_mem]. rewrite load32_store32_eq. apply u32_id. lia.
    - rewrite nodes_app. cbn [blocks Bool.eqb id]. by rewrite app_nil_r. }
  apply wp_bind. rewrite Hend. eapply wp_mono; [apply (wp_free_row s1 lo L n []); done| |done].
  intros _ s2 (H2 & _ & _ & Hk1 & Hk2). apply wp_gets. right. split; [done|]. split; [done|]. split; [done|].
  destruct (freed_ok L n [] (hp_pos _ _ _ H1) (hp_gap _ _ _ H1)) as (_ & _ & _ & Hlv). specialize (Hlv lo). cbn [blocks] in Hlv. rewrite app_nil_r in Hlv.
  intros x Hx. rewrite Hk2; [|by rewrite Hlv]. apply Hm1. destruct Hx as [(a & k & Ha & Hx)|Hx]; [|lia]. apply blocks_in in Ha; [lia|apply H].
Qed.

(** The new row has a free block that is large enough. *)
Lemma freed_has L n : 0 < n → Forall (λ b : bool * Z, 0 < b.2) L → ∃ A k, freed L n [] = A ++ [(true, k)] ∧ n <= k.
Proof.
  intros Hn HL. unfold freed. cbn [absorb_next fst snd]. destruct (absorb_prev_case L) as [(A & k & -> & E)|[_ E]]; rewrite E.
  - exists A, (k + n). apply list.Forall_app in HL as [_ [Hk _]%list.Forall_cons_1]. cbn in Hk. split; [done|lia].
  - exists L, n. split; [done|lia].
Qed.

(** ** [malloc] *)
Lemma blocks_split w a L x n : (x, n) ∈ blocks w a L → ∃ A B, L = A ++ (w, n) :: B ∧ x = a + 8 * units A.
Proof.
  revert a. induction L as [|[f k] L IH]; intros a; cbn [blocks]; [set_solver|].
  assert (Hrec : (x, n) ∈ blocks w (a + 8 * k) L → ∃ A B, (f, k) :: L = A ++ (w, n) :: B ∧ x = a + 8 * units A).
  { intros (A & B & -> & ->)%IH. exists ((f, k) :: A), B. split; [done|cbn [units]; lia]. }
  destruct (Bool.eqb_spec f w) as [->|]; [|done]. intros [[= -> ->]|Hx]%elem_of_cons; [|by apply Hrec].
  exists [], L. split; [done|cbn; lia].
Qed.

(** One round of the search over the ring: it stops at the first block that
    fits, or asks for memory at [freep]. *)
Lemma malloc_scan s k z f n Y : f = us_freep s → f ∉ Y.*1 → (∀ x, x ∈ (Y ++ [(f, n)]).*1 → 0 <= x ∧ x + 8 <= us_sz s) →
  chain (us_mem s) z (Y ++ [(f, n)]) → ∀ prev, load32 (us_mem s) prev = first z (Y ++ [(f, n)]) →
  (∃ x j prev', (x, j) ∈ Y ++ [(f, n)] ∧ k <= j ∧ prev' ∈ prev :: Y.*1 ∧ load32 (us_mem s) prev' = x ∧
     ∀ fuel, malloc_loop (S (length Y) + fuel) k prev (first z (Y ++ [(f, n)])) s = malloc_take k prev' x j s) ∨
  (Forall (λ x, x.2 < k) (Y ++ [(f, n)]) ∧
     ∀ fuel, malloc_loop (S (length Y) + fuel) k prev (first z (Y ++ [(f, n)])) s =
       (p <- morecore k ;; if p =? 0 then mret 0 else q <- h_ptr p ;; malloc_loop fuel k p q) s).
Proof.
  intros Hf. induction Y as [|[y j] Y IH]; intros Hnin Hin Hc prev Hprev.
  - destruct Hc as (H1 & H2 & _). cbn [first app fst] in *. destruct (Hin f ltac:(left)) as [Hr1 Hr2].
    assert (Hsz : h_size f s = Ret n s) by (unfold h_size; rewrite uload_eq, H2 by lia; done).
    destruct (Z.leb_spec k n).
    + left. exists f, n, prev. split; [by left|]. split; [done|]. split; [by left|]. split; [done|]. intros fuel. cbn [malloc_loop length Nat.add].
      rewrite (bind_Ret_eq _ _ _ _ _ Hsz). by rewrite (proj2 (Z.leb_le _ _)) by done.
    + right. split; [by constructor|]. intros fuel. cbn [malloc_loop length Nat.add].
      rewrite (bind_Ret_eq _ _ _ _ _ Hsz), (proj2 (Z.leb_gt _ _)), bind_gets by done. by rewrite <- Hf, Z.eqb_refl.
  - destruct Hc as (H1 & H2 & Hc). fold (@app (Z * Z)) in H1, Hc. cbn [first app fst] in *. cbn in Hnin. destruct (Hin y ltac:(left)) as [Hr1 Hr2].
    assert (Hsz : h_size y s = Ret j s) by (unfold h_size; rewrite uload_eq, H2 by lia; done).
    assert (Hyf : y ≠ f) by set_solver.
    assert (Hstep : j < k → ∀ fuel, malloc_loop (S (S (length Y)) + fuel) k prev y s = malloc_loop (S (length Y) + fuel) k y (first z (Y ++ [(f, n)])) s).
    { intros Hj fuel. cbn [malloc_loop Nat.add]. rewrite (bind_Ret_eq _ _ _ _ _ Hsz), (proj2 (Z.leb_gt _ _)), bind_gets by done.
      rewrite <- Hf, (proj2 (Z.eqb_neq _ _)) by done. unfold h_ptr. rewrite (bind_Ret_eq _ _ _ _ _ (uload_eq y s ltac:(lia) ltac:(lia))), H1. done. }
    destruct (Z.leb_spec k j).
    + left. exists y, j, prev. split; [by left|]. split; [done|]. split; [by left|]. split; [done|]. intros fuel. cbn [malloc_loop length Nat.add].
      rewrite (bind_Ret_eq _ _ _ _ _ Hsz). by rewrite (proj2 (Z.leb_le _ _)) by done.
    + destruct (IH ltac:(set_solver) ltac:(intros; apply Hin; by right) Hc y H1) as [(x & j' & prev' & Hx & Hj' & Hp' & Hl' & E)|[Hall E]]; [left|right].
      * exists x, j', prev'. split; [by right|]. split; [done|]. split; [cbn; set_solver|]. split; [done|]. intros fuel. cbn [length]. by rewrite Hstep.
      * split; [by constructor|]. intros fuel. cbn [length]. by rewrite Hstep.
Qed.

(** The loop from [freep] on a heap. *)
Lemma malloc_round s lo L k : heap s lo L → 0 < k →
  (∃ A n B prevp, L = A ++ (true, n) :: B ∧ k <= n ∧ prevp ∈ (nodes (us_base s) lo L).*1 ∧ load32 (us_mem s) prevp = lo + 8 * units A ∧
     ∀ fuel, (length (nodes (us_base s) lo L) ≤ fuel)%nat → malloc_loop fuel k (us_freep s) (load32 (us_mem s) (us_freep s)) s = malloc_take k prevp (lo + 8 * units A) n s) ∨
  (Forall (λ x, x.2 < k) (nodes (us_base s) lo L) ∧
     ∀ fuel, malloc_loop (length (nodes (us_base s) lo L) + fuel) k (us_freep s) (load32 (us_mem s) (us_freep s)) s =
       (p <- morecore k ;; if p =? 0 then mret 0 else q <- h_ptr p ;; malloc_loop fuel k p q) s).
Proof.
  intros H Hk. pose proof (hp_ring _ _ _ H) as Hc. destruct (hp_base _ _ _ H) as [Hb0 Hb]. pose proof (hp_pos _ _ _ H) as HL.
  destruct (ring_from (us_mem s) (nodes (us_base s) lo L) _ Hc (hp_freep _ _ _ H)) as (P & Q & n & E & (H1 & H2 & Hrot)).
  set (f := us_freep s) in *. set (Y := Q ++ P) in *.
  assert (Hperm : Y ++ [(f, n)] ≡ₚ nodes (us_base s) lo L).
  { rewrite E. unfold Y. rewrite Permutation_app_comm. cbn. by rewrite (app_comm_cons Q P), Permutation_app_comm. }
  assert (Hlen : S (length Y) = length (nodes (us_base s) lo L)) by (rewrite <- Hperm, length_app; cbn; lia).
  assert (Hc' : chain (us_mem s) (first f Y) (Y ++ [(f, n)])) by (apply chain_app; by cbn).
  assert (Hl : load32 (us_mem s) f = first (first f Y) (Y ++ [(f, n)])) by (rewrite H1; by destruct Y).
  assert (Hnin : f ∉ Y.*1).
  { pose proof (sorted_NoDup _ (nodes_sorted (us_base s) lo _ Hb HL)) as Hnd. rewrite <- Hperm, fmap_app in Hnd. apply list.NoDup_app in Hnd as (_ & Hd & _). intros Hf. apply (Hd f Hf). by left. }
  rewrite Hl. destruct (malloc_scan s k (first f Y) f n Y eq_refl Hnin ltac:(intros x; rewrite Hperm; intros ([y j] & -> & Hy)%list_elem_of_fmap; destruct (heap_pos _ _ _ _ _ H Hy) as (? & ? & ? & ?); cbn; lia) Hc' f Hl)
    as [(x & j & prev' & Hx & Hj & Hp & Hlx & Ev)|[Hall Ev]].
  - left. rewrite Hperm in Hx. apply elem_of_cons in Hx as [[= -> ->]|Hx]; [lia|]. destruct (blocks_split _ _ _ _ _ Hx) as (A & B & HA & Hxa). exists A, j, B, prev'.
    split; [done|]. split; [done|]. split.
    { rewrite <- Hperm, fmap_app. cbn. set_solver. }
    split; [congruence|]. intros fuel Hfu. rewrite <- Hxa. replace fuel with (S (length Y) + (fuel - S (length Y)))%nat by lia. apply Ev.
  - right. split; [by rewrite <- Hperm|]. intros fuel. rewrite <- Hlen. apply Ev.
Qed.

Lemma taken_live lo k A n B : Forall (λ b : bool * Z, 0 < b.2) (A ++ (true, n) :: B) → coalesced (A ++ (true, n) :: B) → 0 < k <= n →
  live_blocks lo (taken k A n B) ≡ₚ (lo + 8 * units A + 8 * (n - k), k) :: live_blocks lo (A ++ (true, n) :: B).
Proof.
  intros HL Hg Hk. destruct (taken_ok k lo A n B HL Hg Hk) as (_ & _ & _ & ->). rewrite blocks_app. cbn [blocks Bool.eqb id].
  by rewrite Permutation_middle.
Qed.

(** What [malloc] leaves: no memory and the same heap, or one more live
    block; what the program owned is as it was. *)
Definition malloc_post (lo : Z) (L : row) (k : Z) (s : ustate) (r : Z) (s' : ustate) : Prop :=
  keeps (owned s lo (live_blocks lo L)) s s' ∧
  ((r = 0 ∧ heap s' lo L) ∨ (∃ L', heap s' lo L' ∧ live_blocks lo L' ≡ₚ (r - 8, k) :: live_blocks lo L)).

Lemma wp_malloc_found s0 s lo L0 L k fuel : heap s lo L → 0 < k → us_base s = us_base s0 → live_blocks lo L = live_blocks lo L0 →
  keeps (owned s0 lo (live_blocks lo L0)) s0 s → (length (nodes (us_base s) lo L) ≤ fuel)%nat →
  (∃ x n, (x, n) ∈ nodes (us_base s) lo L ∧ k <= n) →
  wp False (malloc_loop fuel k (us_freep s) (load32 (us_mem s) (us_freep s))) (malloc_post lo L0 k s0) (λ _ _, False) s.
Proof.
  intros H Hk Hbase Hlv [_ Hkeep] Hf Hbig. destruct (malloc_round s lo L k H Hk) as [(A & n & B & prevp & -> & Hn & Hp & Hl & E)|[Hall _]].
  - eapply wp_eq; [by apply E|]. apply (wp_mono False _ _ (malloc_post lo L0 k s0) _ (λ _ _, False) s (wp_malloc_take s lo A n B k prevp H (conj Hk Hn) Hp Hl)); [|done].
    intros r s' (H' & -> & [Hb' Hkeep']). split.
    + split; [congruence|]. intros x Hx. rewrite Hkeep'; [by apply Hkeep|]. rewrite Hlv. unfold owned in *. by rewrite Hbase.
    + right. exists (taken k A n B). split; [done|]. rewrite <- Hlv. rewrite taken_live by (by try apply H). do 2 f_equiv. lia.
  - destruct Hbig as (x & n & Hx & Hn). rewrite list.Forall_forall in Hall. specialize (Hall _ Hx). cbn in Hall. lia.
Qed.

Lemma wp_malloc_loop s lo L k fuel : heap s lo L → 0 < k → 8 * k < 2147483648 → (2 * walk_fuel s + 1 ≤ fuel)%nat →
  wp False (malloc_loop fuel k (us_freep s) (load32 (us_mem s) (us_freep s))) (malloc_post lo L k s) (λ _ _, False) s.
Proof.
  intros H Hk Hb Hf. pose proof (nodes_length _ _ _ H) as Hlen.
  destruct (malloc_round s lo L k H Hk) as [(A & n & B & prevp & HL & Hn & Hp & Hl & _)|[_ E]].
  - apply (wp_malloc_found s s lo L L); [done..|lia|]. exists (lo + 8 * units A), n. split; [|done].
    rewrite HL, nodes_app. cbn [blocks Bool.eqb]. set_solver.
  - replace fuel with (length (nodes (us_base s) lo L) + (fuel - length (nodes (us_base s) lo L)))%nat by lia. eapply wp_eq; [apply E|].
    set (fuel' := (fuel - _)%nat). assert (Hf' : (S (length (nodes (us_base s) lo L)) ≤ fuel')%nat) by lia. clearbody fuel'. 
    apply wp_bind. eapply wp_mono; [by apply (wp_morecore s lo L k H Hk)| |done]. intros r s' [[-> Hr]|(-> & H' & Hkeep)].
    + apply wp_ret. split; [destruct Hr as [g ->]; by split|]. left. split; [done|]. by eapply heap_refused.
    + pose proof (freep_range _ _ _ H') as Hr.
      rewrite (proj2 (Z.eqb_neq _ _)) by lia. apply wp_bind, wp_uload; [lia|lia|]. destruct Hkeep as [Hbase Hkeep].
      assert (Hg : 0 < grown k ∧ k <= grown k) by (unfold grown; destruct (Z.ltb_spec k 4096); lia).
      destruct (freed_has L (grown k) (proj1 Hg) (hp_pos _ _ _ H)) as (A & n & EA & Hn).
      assert (Hlv : live_blocks lo (freed L (grown k) []) = live_blocks lo L).
      { destruct (freed_ok L (grown k) []) as (_ & _ & _ & E2); [| |rewrite E2; cbn; by rewrite app_nil_r].
        - apply list.Forall_app. split; [apply H|]. constructor; [cbn; lia|constructor].
        - apply coalesced_app. cbn. rewrite andb_false_r. split; [apply H|done]. }
      apply (wp_malloc_found s s' lo L (freed L (grown k) [])); [done..| |].
      * rewrite Hbase. unfold freed. cbn [absorb_next fst snd]. destruct (absorb_prev_case L) as [(A0 & j & -> & ->)|[_ ->]]; rewrite !nodes_app, !length_app in *; cbn [blocks Bool.eqb length] in *; lia.
      * exists (lo + 8 * units A), n. split; [|lia]. rewrite EA, nodes_app. cbn [blocks Bool.eqb]. set_solver.
Qed.

(** ** The two calls *)

(** A heap, or none yet. *)
Definition heap_state (s : ustate) (lo : Z) (L : row) : Prop := heap s lo L ∨ (fresh s lo ∧ L = []).

(** The largest request that does not overflow: [nunits * 8] stays an [int]. *)
Definition request (nbytes : Z) : Prop := 0 <= nbytes <= 2147483632.

Lemma nunits_eq nbytes : request nbytes → malloc_nunits nbytes = (nbytes + 7) / 8 + 1.
Proof.
  unfold request, malloc_nunits. intros H. replace (nbytes + 8 - 1) with (nbytes + 7) by lia.
  assert (0 <= (nbytes + 7) / 8) by (apply Z.div_pos; lia). assert ((nbytes + 7) / 8 <= nbytes + 7) by (apply Z.div_le_upper_bound; lia).
  rewrite (u32_small (nbytes + 7)) by (change (2 ^ 32) with 4294967296; lia). apply u32_small. change (2 ^ 32) with 4294967296. lia.
Qed.

Lemma nunits_bounds nbytes : request nbytes → 0 < malloc_nunits nbytes ∧ 8 * malloc_nunits nbytes < 2147483648 ∧ nbytes <= 8 * (malloc_nunits nbytes - 1).
Proof. intros H. rewrite (nunits_eq _ H). unfold request in H. pose proof (Z.div_mod (nbytes + 7) 8 ltac:(lia)). pose proof (Z.mod_pos_bound (nbytes + 7) 8 ltac:(lia)). lia. Qed.

Lemma malloc_on_heap s lo L nbytes : heap s lo L → request nbytes → wp False (malloc nbytes) (malloc_post lo L (malloc_nunits nbytes) s) (λ _ _, False) s.
Proof.
  intros H Hr. destruct (nunits_bounds _ Hr) as (Hk & Hk8 & _). unfold malloc. apply wp_bind, wp_gets, wp_bind, wp_gets.
  pose proof (freep_range _ _ _ H) as Hf.
  rewrite (proj2 (Z.eqb_neq _ _)) by lia. apply wp_bind, wp_ret, wp_bind, wp_uload; [lia|lia|]. apply wp_malloc_loop; [done..|lia].
Qed.

(** The first call sets [base] up. *)
Lemma malloc_first s lo nbytes : fresh s lo → request nbytes → wp False (malloc nbytes) (malloc_post lo [] (malloc_nunits nbytes) s) (λ _ _, False) s.
Proof.
  intros (Hf & Hsz & Ht & Hb0 & Hb) Hr. destruct (nunits_bounds _ Hr) as (Hk & Hk8 & _). unfold KERNBASE in *.
  unfold malloc. apply wp_bind, wp_gets, wp_bind, wp_gets. rewrite Hf. cbn [Z.eqb]. apply wp_bind, wp_bind, wp_gets, wp_bind, wp_modify.
  apply wp_bind, wp_ustore; [lia|cbn; lia|]. apply wp_bind, wp_ustore; [lia|cbn; lia|]. apply wp_ret. set (s1 := set_us_mem _ _).
  assert (Hm : ∀ x, x < us_base s ∨ us_base s + 8 <= x → us_mem s1 x = us_mem s x).
  { intros x Hx. cbn [s1 us_mem set_us_mem set_us_freep]. unfold store32. by rewrite !(proj2 (Z.eqb_neq x _)) by lia. }
  assert (H1 : heap s1 lo []).
  { split; cbn [s1 us_base us_sz us_mem us_freep set_us_mem set_us_freep units blocks nodes chain first fst coalesced]; unfold KERNBASE; try done; try lia.
    - rewrite load32_store32_ne, !load32_store32_eq by lia. split; [apply u32_id; lia|done].
    - set_solver.
    - by left. }
  apply wp_bind, wp_uload; [lia|cbn; lia|]. change (us_base s) with (us_freep s1) at 1 2.
  eapply wp_mono; [apply (wp_malloc_loop s1 lo [] (malloc_nunits nbytes)); [done..|apply le_n]| |done].
  intros r s' [[Hb' Hkeep] Hpost]. split; [|done]. split; [exact Hb'|]. intros x Hx. rewrite Hkeep by exact Hx. apply Hm.
  destruct Hx as [(a & k & Ha & _)|Hx]; [by apply elem_of_nil in Ha|lia].
Qed.

Lemma malloc_runs s lo L nbytes : heap_state s lo L → request nbytes → wp False (malloc nbytes) (malloc_post lo L (malloc_nunits nbytes) s) (λ _ _, False) s.
Proof. intros [H|[H ->]] Hr; [by apply malloc_on_heap|by apply malloc_first]. Qed.

Lemma free_runs s lo L a k : heap s lo L → (a, k) ∈ live_blocks lo L →
  wp False (free (a + 8)) (λ _ s', ∃ L', heap s' lo L' ∧ live_blocks lo L ≡ₚ (a, k) :: live_blocks lo L' ∧ us_sz s' = us_sz s ∧
    keeps (owned s lo (live_blocks lo L')) s s') (λ _ _, False) s.
Proof.
  intros H Ha. destruct (blocks_split _ _ _ _ _ Ha) as (A & B & -> & ->). eapply wp_mono; [by apply (wp_free_row s lo A k B)| |done].
  intros _ s' (H' & Hsz & _ & Hkeep). exists (freed A k B). split; [done|]. split; [|by split].
  destruct (freed_ok A k B (hp_pos _ _ _ H) (hp_gap _ _ _ H)) as (_ & _ & _ & ->). rewrite blocks_app. cbn [blocks Bool.eqb]. by rewrite Permutation_middle.
Qed.

(** C13: [malloc] ends and never faults, and gives a block of its own. Within
    the requests that do not overflow, whatever the heap: what the program
    owned (the payloads of its blocks, and its memory outside the heap) is
    unchanged; and either [malloc] returns 0 and the blocks are as they were,
    or it returns a block of at least [nbytes] bytes inside the process,
    disjoint from every block handed out before, headers included. *)
Theorem malloc_gives s lo L nbytes : heap_state s lo L → request nbytes →
  ∃ r s', malloc nbytes s = Ret r s' ∧ keeps (owned s lo (live_blocks lo L)) s s' ∧
    ((r = 0 ∧ heap s' lo L) ∨
     (∃ L', heap s' lo L' ∧ live_blocks lo L' ≡ₚ (r - 8, malloc_nunits nbytes) :: live_blocks lo L ∧
        lo + 8 <= r ∧ r + nbytes <= us_sz s' ∧
        ∀ a k, (a, k) ∈ live_blocks lo L → a + 8 * k <= r - 8 ∨ r + nbytes <= a)).
Proof.
  intros H Hr. destruct (nunits_bounds _ Hr) as (Hk & _ & Hn).
  destruct (wp_False_inv _ _ _ _ (malloc_runs s lo L nbytes H Hr)) as [(r & s' & E & Hkeep & Hpost)|(? & ? & _ & [])].
  exists r, s'. split; [done|]. split; [done|]. destruct Hpost as [Hpost|(L' & H' & Hl)]; [by left|]. right. exists L'.
  assert (Hin : (r - 8, malloc_nunits nbytes) ∈ live_blocks lo L') by (rewrite Hl; left).
  pose proof (blocks_in _ _ _ _ _ (hp_pos _ _ _ H') Hin) as Hb. rewrite (hp_end _ _ _ H').
  split; [done|]. split; [done|]. split; [lia|]. split; [lia|]. intros a k Ha.
  assert (Ha' : (a, k) ∈ live_blocks lo L') by (rewrite Hl; by right).
  destruct (blocks_disjoint _ _ _ _ _ _ _ _ (hp_pos _ _ _ H') Ha' Hin) as [(_ & -> & ->)|?]; [|lia].
  exfalso. pose proof (NoDup_fmap_1 fst _ (blocks_NoDup false lo L' (hp_pos _ _ _ H'))) as Hnd. rewrite Hl in Hnd. by apply list.NoDup_cons in Hnd as [? _].
Qed.

(** [free] ends and never faults on a block [malloc] gave out: the block
    is gone from the live ones, every other block and its contents are
    unchanged, and no two free blocks are left side by side ([heap] says so). *)
Theorem free_takes s lo L a k : heap s lo L → (a, k) ∈ live_blocks lo L →
  ∃ s' L', free (a + 8) s = Ret tt s' ∧ heap s' lo L' ∧ live_blocks lo L ≡ₚ (a, k) :: live_blocks lo L' ∧ us_sz s' = us_sz s ∧
    keeps (owned s lo (live_blocks lo L')) s s'.
Proof.
  intros H Ha. destruct (wp_False_inv _ _ _ _ (free_runs s lo L a k H Ha)) as [([] & s' & E & L' & Hpost)|(? & ? & _ & [])].
  exists s', L'. by split.
Qed.

(** ** A program that allocates, frees and writes to its blocks

    [client lo s lv]: the process [s] is reached with the blocks [lv], each a
    pointer and the bytes asked for. *)
Inductive client (lo : Z) : ustate → list (Z * Z) → Prop :=
  | client_start s : fresh s lo → client lo s []
  | client_malloc s lv nbytes r s' : client lo s lv → request nbytes → malloc nbytes s = Ret r s' →
      client lo s' (if r =? 0 then lv else (r, nbytes) :: lv)
  | client_free s lv1 p n lv2 s' : client lo s (lv1 ++ (p, n) :: lv2) → free p s = Ret tt s' → client lo s' (lv1 ++ lv2)
  | client_write s lv p n x v : client lo s lv → (p, n) ∈ lv → p <= x < p + n → client lo (set_us_mem (upd (us_mem s) x v) s) lv.

(** The pointers a program holds and the live blocks. *)
Definition holds (pb ak : Z * Z) : Prop := pb.1 = ak.1 + 8 ∧ 0 <= pb.2 <= 8 * (ak.2 - 1).

Lemma heap_write s lo L x v a k : heap s lo L → (a, k) ∈ live_blocks lo L → a + 8 <= x < a + 8 * k → heap (set_us_mem (upd (us_mem s) x v) s) lo L.
Proof.
  intros H Ha Hx. pose proof (hp_pos _ _ _ H) as HL. destruct (hp_base _ _ _ H). pose proof (blocks_in _ _ _ _ _ HL Ha).
  assert (Hm : ∀ y, y ≠ x → upd (us_mem s) x v y = us_mem s y) by (intros y Hy; unfold upd; by rewrite (proj2 (Z.eqb_neq _ _))).
  split; cbn [us_base us_sz us_mem us_freep set_us_mem]; try apply H.
  - eapply chain_agree; [|apply H]. intros b n Hb y Hy. apply Hm.
    apply elem_of_cons in Hb as [[= -> ->]|Hb]; [lia|]. pose proof (blocks_in _ _ _ _ _ HL Hb). destruct (blocks_disjoint _ _ _ _ _ _ _ _ HL Ha Hb) as [(? & _)|?]; [done|lia].
  - intros b n Hb. rewrite (load32_agree (us_mem s)); [by apply (hp_live _ _ _ H)|]. intros y Hy. apply Hm.
    pose proof (blocks_in _ _ _ _ _ HL Hb). destruct (blocks_disjoint _ _ _ _ _ _ _ _ HL Ha Hb) as [(_ & -> & ->)|?]; lia.
Qed.

Lemma client_heap lo s lv : client lo s lv → ∃ L l, heap_state s lo L ∧ Forall2 holds lv l ∧ l ≡ₚ live_blocks lo L.
Proof.
  induction 1 as [s H|s lv nbytes r s' _ (L & l & H & Hl & Hp) Hr E|s lv1 p n lv2 s' _ (L & l & H & Hl & Hp) E|s lv p n x v _ (L & l & H & Hl & Hp) Hin Hx].
  - exists [], []. split; [by right|]. by split.
  - destruct (nunits_bounds _ Hr) as (_ & _ & Hn). pose proof (wp_Ret_inv _ _ _ _ _ _ _ (malloc_runs s lo L nbytes H Hr) E) as [_ [[-> H']|(L' & H' & Hl')]].
    + exists L, l. cbn. split; [by left|done].
    + assert (Hin : (r - 8, malloc_nunits nbytes) ∈ live_blocks lo L') by (rewrite Hl'; left). pose proof (blocks_in _ _ _ _ _ (hp_pos _ _ _ H') Hin). pose proof (hp_base _ _ _ H').
      rewrite (proj2 (Z.eqb_neq _ _)) by lia. exists L', ((r - 8, malloc_nunits nbytes) :: l). split; [by left|]. split; [|by rewrite Hl', Hp].
      constructor; [|done]. unfold holds, request in *. cbn. lia.
  - apply Forall2_app_inv_l in Hl as (l1 & l' & Hl1 & Hl' & ->). apply Forall2_cons_inv_l in Hl' as ([a k] & l2 & [Hpa _] & Hl2 & ->). cbn in Hpa. subst p.
    assert (Ha : (a, k) ∈ live_blocks lo L) by (rewrite <- Hp; set_solver).
    destruct H as [H|[_ ->]]; [|by apply elem_of_nil in Ha].
    pose proof (wp_Ret_inv _ _ _ _ _ _ _ (free_runs s lo L a k H Ha) E) as (L' & H' & Hlv & _). exists L', (l1 ++ l2). split; [by left|]. split; [by apply Forall2_app|].
    rewrite <- Hp, <- Permutation_middle in Hlv. by apply Permutation_cons_inv in Hlv.
  - exists L, l. split; [|done]. apply list_elem_of_lookup in Hin as [i Hi]. destruct (Forall2_lookup_l _ _ _ _ _ Hl Hi) as ([a k] & Hak & [Hpa Hb]). cbn in Hpa, Hb.
    assert (Ha : (a, k) ∈ live_blocks lo L) by (rewrite <- Hp; by eapply list_elem_of_lookup_2).
    destruct H as [H|[_ ->]]; [|by apply elem_of_nil in Ha]. left. eapply heap_write; [done|exact Ha|lia].
Qed.

(** With no block out, the heap is one free block. *)
Lemma all_free lo L : live_blocks lo L = [] → Forall (λ b : bool * Z, 0 < b.2) L → coalesced L → L = [] ∨ L = [(true, units L)].
Proof.
  destruct L as [|[[] n] [|[[] m] L]]; cbn; [by left|right|naive_solver..]. by rewrite Z.add_0_r.
Qed.

Lemma malloc_serves s lo L nbytes A n B : heap s lo L → request nbytes → L = A ++ (true, n) :: B → malloc_nunits nbytes <= n →
  ∃ r s', malloc nbytes s = Ret r s' ∧ r ≠ 0 ∧ us_sz s' = us_sz s.
Proof.
  intros H Hr HL Hn. destruct (nunits_bounds _ Hr) as (Hk & _ & _). pose proof (nodes_length _ _ _ H) as Hlen.
  destruct (malloc_round s lo L _ H Hk) as [(A' & n' & B' & prevp & -> & Hn' & Hp & Hl & E)|[Hall _]].
  - destruct (wp_False_inv _ _ _ _ (wp_malloc_take s lo A' n' B' _ prevp H (conj Hk Hn') Hp Hl)) as [(r & s' & E' & H' & Hrv & _)|(? & ? & _ & [])].
    exists r, s'. pose proof (hp_pos _ _ _ H) as HA%list.Forall_app. pose proof (units_nonneg A' (proj1 HA)). destruct (hp_base _ _ _ H).
    split; [|split; [lia|]].
    + unfold malloc. rewrite bind_gets, bind_gets.
      pose proof (freep_range _ _ _ H) as Hf.
      rewrite (proj2 (Z.eqb_neq _ _)), bind_mret by lia. unfold h_ptr. rewrite (bind_Ret_eq _ _ _ _ _ (uload_eq (us_freep s) s ltac:(lia) ltac:(lia))), E by lia. done.
    + rewrite (hp_end _ _ _ H'), (hp_end _ _ _ H). destruct (taken_ok (malloc_nunits nbytes) lo A' n' B' (hp_pos _ _ _ H) (hp_gap _ _ _ H) (conj Hk Hn')) as (_ & _ & -> & _). done.
  - rewrite list.Forall_forall in Hall. specialize (Hall (lo + 8 * units A, n)). rewrite HL, nodes_app in Hall. cbn [blocks Bool.eqb snd] in Hall.
    assert (n < malloc_nunits nbytes); [|lia]. apply Hall. set_solver.
Qed.

(** C15: A program that allocates, frees what it was given and writes only to
    its own blocks. After any such history every further request and every
    [free] of a block it holds ends without a fault; its blocks lie inside
    the process and do not overlap; and when it holds none, nothing is lost
    to fragmentation: a request of up to the whole heap less one header is
    served without growing the process. *)
Theorem allocator_client lo s lv : client lo s lv →
  (∀ nbytes, request nbytes → ∃ r s', malloc nbytes s = Ret r s') ∧
  (∀ p n, (p, n) ∈ lv → (∃ s', free p s = Ret tt s') ∧ lo + 8 <= p ∧ p + n <= us_sz s) ∧
  (∀ i j p n p' n', lv !! i = Some (p, n) → lv !! j = Some (p', n') → i ≠ j → p + n <= p' ∨ p' + n' <= p) ∧
  (lv = [] → ∀ nbytes, request nbytes → nbytes + 8 <= us_sz s - lo → ∃ r s', malloc nbytes s = Ret r s' ∧ r ≠ 0 ∧ us_sz s' = us_sz s).
Proof.
  intros H. destruct (client_heap lo s lv H) as (L & l & HS & Hl & Hp). split_and!.
  - intros nbytes Hr. destruct (wp_False_inv _ _ _ _ (malloc_runs s lo L nbytes HS Hr)) as [(r & s' & E & _)|(? & ? & _ & [])]. by exists r, s'.
  - intros p n (i & Hi)%list_elem_of_lookup. destruct (Forall2_lookup_l _ _ _ _ _ Hl Hi) as ([a k] & Hak & [Hpa Hb]). cbn in Hpa, Hb. subst p.
    assert (Ha : (a, k) ∈ live_blocks lo L) by (rewrite <- Hp; by eapply list_elem_of_lookup_2).
    destruct HS as [HS|[_ ->]]; [|by apply elem_of_nil in Ha].
    destruct (wp_False_inv _ _ _ _ (free_runs s lo L a k HS Ha)) as [([] & s' & E & _)|(? & ? & _ & [])]. split; [by exists s'|].
    pose proof (blocks_in _ _ _ _ _ (hp_pos _ _ _ HS) Ha). rewrite (hp_end _ _ _ HS). lia.
  - intros i j p n p' n' Hi Hj Hij. destruct (Forall2_lookup_l _ _ _ _ _ Hl Hi) as ([a k] & Hak & [Hpa Hb]). destruct (Forall2_lookup_l _ _ _ _ _ Hl Hj) as ([a' k'] & Hak' & [Hpa' Hb']).
    cbn in Hpa, Hb, Hpa', Hb'. subst p p'.
    assert (Ha : (a, k) ∈ live_blocks lo L) by (rewrite <- Hp; by eapply list_elem_of_lookup_2).
    assert (Ha' : (a', k') ∈ live_blocks lo L) by (rewrite <- Hp; by eapply list_elem_of_lookup_2).
    destruct HS as [HS|[_ ->]]; [|by apply elem_of_nil in Ha].
    destruct (blocks_disjoint _ _ _ _ _ _ _ _ (hp_pos _ _ _ HS) Ha Ha') as [(_ & -> & ->)|?]; [|lia].
    exfalso. apply Hij. pose proof (NoDup_fmap_1 fst _ (blocks_NoDup false lo L (hp_pos _ _ _ HS))) as Hnd. rewrite <- Hp in Hnd. by eapply NoDup_lookup.
  - intros -> nbytes Hr Hfit. apply Forall2_nil_inv_l in Hl as ->. apply Permutation_nil in Hp.
    destruct (nunits_bounds _ Hr) as (_ & _ & Hn). pose proof (proj1 Hr).
    destruct HS as [HS|[(_ & Hsz & _) _]]; [|lia]. destruct (all_free lo L Hp (hp_pos _ _ _ HS) (hp_gap _ _ _ HS)) as [->|E]; pose proof (hp_end _ _ _ HS) as Hend; [cbn in Hend; lia|].
    apply (malloc_serves s lo L nbytes [] (units L) []); [done|done|done|].
    rewrite (nunits_eq _ Hr). assert ((nbytes + 7) / 8 < units L); [|lia]. apply Z.div_lt_upper_bound; lia.
Qed.

(** ** A process of 0x1000 bytes that allocates twice and frees *)
Definition demo_process : ustate := mk_ustate (λ _, 0) 0x1000 0x100 0 [true].
Definition state_after {A} (m : UM A) (s : ustate) : ustate := match m s with Ret _ s' => s' | _ => s end.
Definition demo_one : ustate := state_after (malloc 10) demo_process.
Definition demo_two : ustate := state_after (malloc 100) demo_one.

Lemma demo_fresh : fresh demo_process 0x1000.
Proof. done. Qed.

Lemma demo_one_client : client 0x1000 demo_one [(0x8FF0, 10)].
Proof. refine (client_malloc _ demo_process [] 10 0x8FF0 demo_one (client_start _ _ demo_fresh) _ _); [done|]. vm_compute. reflexivity. Qed.

Lemma demo_two_client : client 0x1000 demo_two [(0x8F80, 100); (0x8FF0, 10)].
Proof. refine (client_malloc _ demo_one _ 100 0x8F80 demo_two demo_one_client _ _); [done|]. vm_compute. reflexivity. Qed.

Lemma malloc_gives_witness :
  ∃ r s', malloc 10 demo_process = Ret r s' ∧ keeps (owned demo_process 0x1000 []) demo_process s' ∧
    ((r = 0 ∧ heap s' 0x1000 []) ∨
     (∃ L', heap s' 0x1000 L' ∧ live_blocks 0x1000 L' ≡ₚ [(r - 8, malloc_nunits 10)] ∧ 0x1000 + 8 <= r ∧ r + 10 <= us_sz s' ∧
        ∀ a k, (a, k) ∈ live_blocks 0x1000 [] → a + 8 * k <= r - 8 ∨ r + 10 <= a)).
Proof. apply (malloc_gives demo_process 0x1000 [] 10); [right; split; [exact demo_fresh|reflexivity]|done]. Defined.

Lemma allocator_client_witness :
  (∃ s', free 0x8F80 demo_two = Ret tt s') ∧ (∃ r s', malloc 50 demo_two = Ret r s') ∧ 0x8F80 + 100 <= 0x8FF0.
Proof.
  destruct (allocator_client 0x1000 demo_two _ demo_two_client) as (Hm & Hf & Hd & _).
  split; [exact (proj1 (Hf 0x8F80 100 ltac:(left)))|]. split; [by apply (Hm 50)|done].
Defined.

Definition demo_row : row := [(true, 4093); (false, 3)].
Lemma demo_one_heap : heap demo_one 0x1000 demo_row.
Proof.
  split; [by vm_compute|by vm_compute|by vm_compute|by repeat constructor|by vm_compute|by vm_compute| |vm_compute; left].
  intros a n [= -> ->]%list_elem_of_singleton. by vm_compute.
Qed.

Lemma free_takes_witness :
  ∃ s' L', free (0x8FE8 + 8) demo_one = Ret tt s' ∧ heap s' 0x1000 L' ∧ live_blocks 0x1000 demo_row ≡ₚ (0x8FE8, 3) :: live_blocks 0x1000 L' ∧
    us_sz s' = us_sz demo_one ∧ keeps (owned demo_one 0x1000 (live_blocks 0x1000 L')) demo_one s'.
Proof. apply (free_takes demo_one 0x1000 demo_row 0x8FE8 3); [exact demo_one_heap|by vm_compute; left]. Defined.
