(* ===== verification/Grep.v ===== *)
(** * Grep: the pattern matcher and the line loop (grep.c)

    A [char*] that is only read forward is the list of bytes before its NUL:
    [re[0]], [re[1]], [re+1] are head and tail. The matcher is proved
    equivalent to the language of its pattern; the loop over the 1023-byte
    buffer prints the matching lines of an input whose reads each complete a
    line, and loses text when one does not. *)

From S2P Require Import Prelude CString Vmem.

(** ** Definitions *)
Definition CARET : Z := 94.
Definition DOLLAR : Z := 36.
Definition STAR : Z := 42.
Definition DOT : Z := 46.
Definition NL : Z := 10.

(** The loop of [matchstar], with [here] for [matchhere(re, text)]. *)
Fixpoint matchstar (here : list Z → bool) (c : Z) (text : list Z) : bool :=
  if here text then true else
  match text with
  | [] => false
  | t :: text => if (t =? c) || (c =? DOT) then matchstar here c text else false
  end.

Fixpoint matchhere (re text : list Z) : bool :=
  match re with
  | [] => true
  | c :: re1 =>
      let plain :=
        match text with
        | t :: text => if (c =? DOT) || (c =? t) then matchhere re1 text else false
        | [] => false
        end in
      match re1 with
      | s :: re2 => if s =? STAR then matchstar (matchhere re2) c text else plain
      | [] => if c =? DOLLAR then bool_decide (text = []) else plain
      end
  end.

Fixpoint match_loop (re text : list Z) : bool :=
  if matchhere re text then true else
  match text with
  | [] => false
  | _ :: text => match_loop re text
  end.
Definition match_ (re text : list Z) : bool :=
  match re with
  | c :: re1 => if c =? CARET then matchhere re1 text else match_loop re text
  | [] => match_loop re text
  end.

(** One pass of [while((q = strchr(p, '\n')) != 0)]: the lines of the buffer
    from [p] on; what is printed, and [p] at the end. *)
Fixpoint strchr_split (c : Z) (s : list Z) : option (list Z * list Z) :=
  match s with
  | [] => None
  | x :: s => if x =? 0 then None else if x =? c then Some ([], s)
      else match strchr_split c s with Some (a, b) => Some (x :: a, b) | None => None end
  end.
Fixpoint grep_lines (fuel : nat) (pattern p : list Z) : list Z * list Z :=
  match fuel with
  | O => ([], p)
  | S fuel =>
      match strchr_split NL p with
      | None => ([], p)
      | Some (line, p') =>
          let '(out, rest) := grep_lines fuel pattern p' in
          ((if match_ pattern line then line ++ [NL] else []) ++ out, rest)
      end
  end.

Definition bufsize : nat := 1024.

(** [grep]: [kept] is [buf[0..m)], [reads] what the successive calls of
    [read] deliver (the file ends after them); the output. *)
Fixpoint grep (pattern kept : list Z) (reads : list (list Z)) : list Z :=
  match reads with
  | [] | [] :: _ => []
  | r :: reads =>
      let buf := kept ++ r in
      let '(out, p) := grep_lines (length buf) pattern buf in
      out ++ grep pattern (if (length p =? length buf)%nat then [] else p) reads
  end.

(** ** The language of a pattern *)
Inductive item : Type := One (c : Z) | Many (c : Z).
Record regex : Type := mk_regex { rx_items : list item; rx_end : bool }.

Fixpoint parse_re (re : list Z) : regex :=
  match re with
  | [] => mk_regex [] false
  | c :: re1 =>
      let plain := let r := parse_re re1 in mk_regex (One c :: rx_items r) (rx_end r) in
      match re1 with
      | s :: re2 => if s =? STAR then let r := parse_re re2 in mk_regex (Many c :: rx_items r) (rx_end r) else plain
      | [] => if c =? DOLLAR then mk_regex [] true else plain
      end
  end.

(** The character [c] of a pattern stands for [x]. *)
Definition char_is (c x : Z) : Prop := c = DOT ∨ c = x.

Inductive lang : list item → list Z → Prop :=
  | lang_nil : lang [] []
  | lang_one c x l w : char_is c x → lang l w → lang (One c :: l) (x :: w)
  | lang_many c s l w : Forall (char_is c) s → lang l w → lang (Many c :: l) (s ++ w).

(** [text] starts with a word of the pattern, and is one if it ends in [$]. *)
Definition matches_at (r : regex) (text : list Z) : Prop :=
  ∃ w rest, text = w ++ rest ∧ lang (rx_items r) w ∧ (rx_end r = true → rest = []).

Definition matches (re text : list Z) : Prop :=
  match re with
  | c :: re1 => if c =? CARET then matches_at (parse_re re1) text
                else ∃ pre post, text = pre ++ post ∧ matches_at (parse_re re) post
  | [] => True
  end.

(** The complete lines of an input. *)
Fixpoint lines_of (cur s : list Z) : list (list Z) :=
  match s with
  | [] => []
  | x :: s => if x =? NL then cur :: lines_of [] s else lines_of (cur ++ [x]) s
  end.
Definition print_matching (pattern : list Z) (ls : list (list Z)) : list Z :=
  concat ((λ l, l ++ [NL]) <$> List.filter (match_ pattern) ls).

(** ** The matcher *)
Lemma matchstar_iff here c text : matchstar here c text = true ↔
  ∃ s rest, text = s ++ rest ∧ Forall (char_is c) s ∧ here rest = true.
Proof.
  induction text as [|t text IH]; cbn [matchstar].
  - destruct (here []) eqn:E; [split; [by exists [], []|done]|]. split; [done|].
    intros (s & rest & Ht & _ & H). symmetry in Ht. apply app_eq_nil in Ht as [-> ->]. congruence.
  - destruct (here (t :: text)) eqn:E; [split; [by exists [], (t :: text)|done]|].
    destruct ((t =? c) || (c =? DOT)) eqn:Ec.
    + rewrite IH. split; intros (s & rest & Ht & Hs & H).
      * exists (t :: s), rest. split; [by rewrite Ht|]. split; [|done]. constructor; [|done]. unfold char_is. lia.
      * destruct s as [|x s]; cbn in Ht; [by rewrite <- Ht, E in H|]. injection Ht as <- ->.
        apply Forall_cons_iff in Hs as [_ Hs]. by exists s, rest.
    + split; [done|]. intros (s & rest & Ht & Hs & H). destruct s as [|x s]; cbn in Ht; [by rewrite <- Ht, E in H|].
      injection Ht as <- ->. apply Forall_cons_iff in Hs as [Hx _]. unfold char_is in Hx. lia.
Qed.

Lemma matches_at_one c r e text : matches_at (mk_regex (One c :: r) e) text ↔
  ∃ x text', text = x :: text' ∧ char_is c x ∧ matches_at (mk_regex r e) text'.
Proof.
  split.
  - intros (w & rest & -> & Hl & He). cbn in Hl. inversion Hl as [|? x ? w' Hc Hl'|]; subst. exists x, (w' ++ rest).
    split; [done|]. split; [done|]. by exists w', rest.
  - intros (x & text' & -> & Hc & w & rest & -> & Hl & He). exists (x :: w), rest. split; [done|]. split; [by constructor|done].
Qed.

Lemma matches_at_many c r e text : matches_at (mk_regex (Many c :: r) e) text ↔
  ∃ s rest, text = s ++ rest ∧ Forall (char_is c) s ∧ matches_at (mk_regex r e) rest.
Proof.
  split.
  - intros (w & rest & -> & Hl & He). cbn in Hl. inversion Hl as [| |? s ? w' Hs Hl']; subst. exists s, (w' ++ rest).
    split; [by rewrite app_assoc|]. split; [done|]. by exists w', rest.
  - intros (s & rest' & -> & Hs & w & rest & -> & Hl & He). exists (s ++ w), rest.
    split; [by rewrite app_assoc|]. split; [by constructor|done].
Qed.

Lemma regex_eta r : mk_regex (rx_items r) (rx_end r) = r.
Proof. by destruct r. Qed.

Lemma matchhere_iff re : ∀ text, matchhere re text = true ↔ matches_at (parse_re re) text.
Proof.
  remember (length re) as n eqn:En. revert re En. induction (lt_wf n) as [n _ IH]. intros [|c re1] -> text.
  - cbn. split; [intros _; exists [], text; split; [done|]; split; [constructor|done]|done].
  - assert (Hplain : match text with t :: text => if (c =? DOT) || (c =? t) then matchhere re1 text else false | [] => false end = true ↔
      matches_at (mk_regex (One c :: rx_items (parse_re re1)) (rx_end (parse_re re1))) text).
    { rewrite matches_at_one. setoid_rewrite regex_eta. destruct text as [|t text]; [naive_solver|].
      destruct ((c =? DOT) || (c =? t)) eqn:Ec.
      - rewrite (IH (length re1)) by (done || cbn; lia). split.
        + intros H. exists t, text. split; [done|]. split; [unfold char_is; lia|done].
        + intros (x & text' & [= <- <-] & _ & H). done.
      - split; [done|]. intros (x & text' & [= <- <-] & Hc & _). unfold char_is in Hc. lia. }
    cbn [matchhere parse_re]. destruct re1 as [|s re2].
    + destruct (c =? DOLLAR); [|exact Hplain]. rewrite bool_decide_eq_true. split.
      * intros ->. exists [], []. split; [done|]. split; [constructor|done].
      * intros (w & rest & -> & Hl & He). cbn in *. inversion Hl. by rewrite He.
    + destruct (s =? STAR); [|exact Hplain]. rewrite matchstar_iff, matches_at_many. setoid_rewrite regex_eta.
      split; intros (x & rest & Ht & Hs & H); exists x, rest; (split; [done|]); (split; [done|]); revert H; rewrite (IH (length re2)); (done || cbn; lia).
Qed.

Lemma match_loop_iff re text : match_loop re text = true ↔ ∃ pre post, text = pre ++ post ∧ matches_at (parse_re re) post.
Proof.
  induction text as [|t text IH]; cbn [match_loop].
  - destruct (matchhere re []) eqn:E.
    + split; [intros _; exists [], []; split; [done|by apply matchhere_iff]|done].
    + split; [done|]. intros (pre & post & Ht & H). symmetry in Ht. apply app_eq_nil in Ht as [-> ->].
      apply matchhere_iff in H. congruence.
  - destruct (matchhere re (t :: text)) eqn:E.
    + split; [intros _; exists [], (t :: text); split; [done|by apply matchhere_iff]|done].
    + rewrite IH. split; intros (pre & post & Ht & H).
      * exists (t :: pre), post. by rewrite Ht.
      * destruct pre as [|x pre]; cbn in Ht; [subst; apply matchhere_iff in H; congruence|]. injection Ht as <- ->. by exists pre, post.
Qed.

(** C26: the matcher decides the language of the pattern: [^] anchors the
    start, [$] the end, [.] stands for any character and [c*] for any number
    of them; without anchors the match may be anywhere in the line. *)
Theorem match_language re text : match_ re text = true ↔ matches re text.
Proof.
  unfold match_, matches. destruct re as [|c re1].
  - split; [done|]. intros _. destruct text; reflexivity.
  - destruct (c =? CARET); [apply matchhere_iff|apply match_loop_iff].
Qed.

(** ** The line loop *)
Lemma strchr_split_Some s line rest : Forall (.≠ 0) s → strchr_split NL s = Some (line, rest) ↔ s = line ++ NL :: rest ∧ NL ∉ line.
Proof.
  revert line rest. induction s as [|x s IH]; intros line rest Hs; cbn [strchr_split].
  { split; [done|]. intros [H _]. by destruct line. }
  apply Forall_cons_iff in Hs as [Hx Hs]. rewrite (proj2 (Z.eqb_neq _ _)) by done. destruct (Z.eqb_spec x NL) as [->|Hn].
  - split; [intros [= <- <-]; split; [done|set_solver]|]. intros [H Hni]. destruct line as [|y line]; cbn in H; [by injection H as <-|].
    injection H as <- _. set_solver.
  - destruct (strchr_split NL s) as [[a b]|] eqn:E; cbn.
    + destruct (proj1 (IH a b Hs) eq_refl) as [-> Ha]. split.
      * intros [= <- <-]. split; [done|set_solver].
      * intros [H Hni]. destruct line as [|y line]; cbn in H; [by injection H as ? _|]. injection H as <- H.
        assert (E2 : Some (a, b) = Some (line, rest)) by (apply IH; [done|]; split; [done|set_solver]). by injection E2 as <- <-.
    + split; [done|]. intros [H Hni]. destruct line as [|y line]; cbn in H; [by injection H as ? _|]. injection H as <- ->.
      assert (E2 : None = Some (line, rest)) by (apply IH; [done|]; split; [done|set_solver]). done.
Qed.

Lemma strchr_split_None s : Forall (.≠ 0) s → strchr_split NL s = None ↔ NL ∉ s.
Proof.
  intros Hs. destruct (strchr_split NL s) as [[a b]|] eqn:E.
  - apply strchr_split_Some in E as [-> _]; [|done]. split; [done|set_solver].
  - split; [|done]. intros _ Hin. apply list_elem_of_split_l in Hin as (l1 & l2 & Hs' & Hni).
    assert (E2 : strchr_split NL s = Some (l1, l2)) by (by apply strchr_split_Some). congruence.
Qed.

Lemma lines_of_app cur a s : NL ∉ a → lines_of cur (a ++ s) = lines_of (cur ++ a) s.
Proof.
  revert cur. induction a as [|x a IH]; intros cur Ha; cbn [app lines_of]; [by rewrite app_nil_r|].
  rewrite (proj2 (Z.eqb_neq _ _)) by set_solver. rewrite IH by set_solver. by rewrite <- app_assoc.
Qed.

Lemma lines_of_line a s : NL ∉ a → lines_of [] (a ++ NL :: s) = a :: lines_of [] s.
Proof. intros Ha. rewrite lines_of_app by done. cbn. by rewrite Z.eqb_refl. Qed.

(** The inner loop prints the matching lines and keeps what follows the last
    newline. *)
Lemma grep_lines_ok pattern fuel : ∀ p, Forall (.≠ 0) p → (length p <= fuel)%nat →
  ∃ done rest, p = done ++ rest ∧ NL ∉ rest ∧ (done = [] ∨ ∃ d, done = d ++ [NL]) ∧
    ∀ s, lines_of [] (p ++ s) = lines_of [] done ++ lines_of [] (rest ++ s) ∧
    grep_lines fuel pattern p = (print_matching pattern (lines_of [] done), rest).
Proof.
  induction fuel as [|fuel IH]; intros p Hp Hf.
  { destruct p; [|cbn in Hf; lia]. exists [], []. split_and!; [done|set_solver|by left|done]. }
  cbn [grep_lines]. destruct (strchr_split NL p) as [[line p']|] eqn:E.
  - apply strchr_split_Some in E as [-> Hl]; [|done]. pose proof Hp as [Hp1 Hp2]%Forall_app. apply Forall_cons_iff in Hp2 as [_ Hp2].
    rewrite length_app in Hf. cbn in Hf. destruct (IH p' Hp2 ltac:(lia)) as (dn & rest & -> & Hr & Hd & Hs).
    exists (line ++ NL :: dn), rest. split; [by rewrite <- app_assoc|]. split; [done|]. split.
    { right. destruct Hd as [-> | [d ->]]; [by exists line|]. exists (line ++ NL :: d). by rewrite <- app_assoc. }
    intros s. destruct (Hs s) as [Hs1 ->]. rewrite (lines_of_line line dn) by done. split.
    + rewrite <- app_assoc. cbn [app]. rewrite lines_of_line by done. by rewrite Hs1.
    + unfold print_matching. cbn [List.filter]. destruct (match_ pattern line); done.
  - apply strchr_split_None in E; [|done]. exists [], p. split; [done|]. split; [done|]. split; [by left|]. done.
Qed.

(** Reads that each bring the end of a line and fit in the buffer. *)
Fixpoint completes (kept : list Z) (reads : list (list Z)) : Prop :=
  match reads with
  | [] => True
  | r :: reads => r ≠ [] ∧ (length kept + length r <= 1023)%nat ∧ NL ∈ r ∧
      ∃ dn rest, kept ++ r = dn ++ NL :: rest ∧ NL ∉ rest ∧ completes rest reads
  end.

Lemma last_split (a b c d : list Z) : a ++ NL :: b = c ++ NL :: d → NL ∉ b → NL ∉ d → b = d.
Proof.
  intros E Hb Hd. apply (f_equal (@rev Z)) in E. rewrite !rev_app_distr in E. cbn in E. rewrite <- !app_assoc in E. cbn in E.
  assert (H : ∀ x y u v, x ++ NL :: u = y ++ NL :: v → NL ∉ x → NL ∉ y → x = y).
  { induction x as [|p x IH]; intros [|q y] u v H Hx Hy; cbn in H; [done|injection H as <- _; set_solver|injection H as -> _; set_solver|].
    injection H as <- H. f_equal. eapply IH; [exact H|set_solver|set_solver]. }
  rewrite <- (rev_involutive b), <- (rev_involutive d). f_equal. eapply H; [exact E|..]; rewrite list_elem_of_In, <- in_rev, <- list_elem_of_In; done.
Qed.

Lemma grep_lines_whole pattern reads : ∀ kept, Forall (.≠ 0) kept → NL ∉ kept → Forall (Forall (.≠ 0)) reads → completes kept reads →
  grep pattern kept reads = print_matching pattern (lines_of [] (kept ++ concat reads)).
Proof.
  induction reads as [|r reads IH]; intros kept Hk Hnl Hr Hc; cbn [grep completes concat] in *.
  { rewrite app_nil_r. rewrite <- (app_nil_r kept), lines_of_app by done. done. }
  destruct Hc as (Hne & _ & Hin & dn0 & rest0 & E0 & Hr0 & Hc). apply Forall_cons_iff in Hr as [Hr1 Hr2].
  destruct r as [|x r]; [done|]. set (b := kept ++ x :: r) in *.
  assert (Hb : Forall (.≠ 0) b) by (by apply Forall_app).
  destruct (grep_lines_ok pattern (length b) b Hb (Nat.le_refl _)) as (dn & rest & Eb & Hrest & Hd & Hs).
  destruct (Hs (concat reads)) as [Hs1 ->].
  destruct Hd as [-> | [d ->]].
  { cbn in Eb. rewrite Eb in E0. exfalso. apply Hrest. rewrite E0. set_solver. }
  assert (Erest : rest = rest0).
  { eapply (last_split d rest dn0 rest0); [|done|done]. rewrite <- E0, Eb, <- app_assoc. done. }
  subst rest0. rewrite (proj2 (Nat.eqb_neq _ _)); [|rewrite Eb, !length_app; cbn; lia].
  assert (Hrn : Forall (.≠ 0) rest) by (rewrite Eb in Hb; apply Forall_app in Hb as [_ Hb]; exact Hb).
  rewrite (IH rest Hrn Hrest Hr2 Hc), app_assoc. fold b. rewrite Hs1. unfold print_matching.
  by rewrite List.filter_app, fmap_app, concat_app.
Qed.

(** C27: when every read fits in the buffer and brings the end of a line,
    [grep] prints exactly the complete lines that match, in order, however
    the input is cut into reads. *)
Theorem grep_prints_lines pattern reads :
  Forall (Forall (.≠ 0)) reads → completes [] reads →
  grep pattern [] reads = print_matching pattern (lines_of [] (concat reads)).
Proof. intros Hr Hc. apply (grep_lines_whole pattern reads []); [done|set_solver|done|done]. Qed.

Lemma grep_prints_lines_witness : let reads := [[97; 98; 10; 99]; [97; 10]] in
  completes [] reads ∧ grep [97] [] reads = print_matching [97] (lines_of [] (concat reads)).
Proof.
  intros reads. assert (Hc : completes [] reads).
  { split; [done|]. split; [cbn; lia|]. split; [set_solver|]. exists [97; 98], [99]. split; [done|]. split; [set_solver|].
    split; [done|]. split; [cbn; lia|]. split; [set_solver|]. exists [99; 97], []. split; [done|]. split; [set_solver|done]. }
  split; [exact Hc|]. apply grep_prints_lines; [|exact Hc]. repeat constructor; done.
Defined.

(** A read without a newline is dropped: the line "ab" then "c" is printed
    for the pattern "^c". *)
Example grep_loses_partial : grep [CARET; 99] [] [[97; 98]; [99; 10]] = [99; 10] ∧
  print_matching [CARET; 99] (lines_of [] [97; 98; 99; 10]) = [].
Proof. done. Qed.
