(* ===== verification/Sh.v ===== *)
(** * Sh: the shell's parser and its execution of commands (sh.c)

    A command line is a buffer of bytes ending in NUL. The parser moves a
    position [*ps] up to [es], the buffer's length, and builds a command whose
    words are pairs of positions, the start [q] and the end [eq] of a word;
    [nulterminate] writes NULs at the ends. [runcmd] is the sequence of system
    calls the shell makes, with [fork] branching. *)

From S2P Require Import Prelude.

Local Open Scope Z_scope.

(** ** Definitions *)
Definition MAXARGS : nat := 10.
Definition O_RDONLY : Z := 0.
Definition O_WRONLY : Z := 1.
Definition O_RDWR : Z := 2.
Definition O_CREATE : Z := 512.

(** Commands over words of type [W]: positions in the buffer, or strings. *)
Inductive cmd (W : Type) : Type :=
  | EXEC (argv : list W)
  | REDIR (c : cmd W) (file : W) (mode fd : Z)
  | PIPE (left right : cmd W)
  | LIST (left right : cmd W)
  | BACK (c : cmd W).
Arguments EXEC {W} argv.
Arguments REDIR {W} c file mode fd.
Arguments PIPE {W} left right.
Arguments LIST {W} left right.
Arguments BACK {W} c.

Definition word : Type := nat * nat.

(** *** Characters *)
Definition whitespace : list Z := [32; 9; 13; 10; 11].
Definition symbols : list Z := [60; 124; 62; 38; 59; 40; 41].

(** [strchr(toks, c) != 0] *)
Definition in_set (toks : list Z) (c : Z) : bool := bool_decide (c ∈ toks) && negb (c =? 0).

(** A pass of the parser: the state is [*ps]. *)
Definition P (A : Type) : Type := M nat Empty_set A.

Section parser.
Variables (buf : list Z) (es : nat).

(** [*s] *)
Definition chr (s : nat) : Z := default 0 (buf !! s).

(** [while(s < es && f( *s )) s++], at most [n = es - s] times *)
Fixpoint skip_while (f : Z → bool) (n s : nat) : nat :=
  match n with
  | O => s
  | Datatypes.S n => if f (chr s) then skip_while f n (Datatypes.S s) else s
  end.
Definition skip_ws (s : nat) : nat := skip_while (in_set whitespace) (es - s) s.

(** The token's kind, [q], [eq] and the new [*ps]. *)
Definition gettoken_at (s : nat) : Z * nat * nat * nat :=
  let s := skip_ws s in
  let q := s in
  let c := chr s in
  let '(ret, s) :=
    if c =? 0 then (c, s)
    else if bool_decide (c ∈ [124; 40; 41; 59; 38; 60]) then (c, (s + 1)%nat)
    else if c =? 62 then
      let s := (s + 1)%nat in
      if chr s =? 62 then (43, (s + 1)%nat) else (c, s)
    else (97, skip_while (λ c, negb (in_set whitespace c) && negb (in_set symbols c)) (es - s) s) in
  (ret, q, s, skip_ws s).
Definition gettoken : P (Z * nat * nat) := λ s,
  let '(ret, q, eq, s) := gettoken_at s in Ret (ret, q, eq) s.

Definition peek (toks : list Z) : P bool := λ s,
  let s := skip_ws s in
  Ret (negb (chr s =? 0) && in_set toks (chr s)) s.

(** *** [parseredirs]: the redirections met, in order. In [parseexec] the
    command they wrap is still being filled, so it is added afterwards. *)
Definition redir : Type := word * Z * Z.
Definition redircmd (c : cmd word) (r : redir) : cmd word :=
  let '(w, mode, fd) := r in REDIR c w mode fd.
Definition redir_of (tok : Z) (q eq : nat) : list redir :=
  if tok =? 60 then [((q, eq), O_RDONLY, 0)]
  else if tok =? 62 then [((q, eq), Z.lor O_WRONLY O_CREATE, 1)]
  else if tok =? 43 then [((q, eq), Z.lor O_WRONLY O_CREATE, 1)]
  else [].
Fixpoint parseredirs (fuel : nat) : P (list redir) :=
  match fuel with
  | O => fault "parseredirs: out of fuel"
  | Datatypes.S fuel =>
      b <- peek [60; 62] ;;
      if negb b then mret [] else
      t <- gettoken ;;
      w <- gettoken ;;
      if negb (w.1.1 =? 97) then panic "missing file for redirection" else
      rs <- parseredirs fuel ;;
      mret (redir_of t.1.1 w.1.2 w.2 ++ rs)
  end.

(** The loop of [parseexec]: the words and the redirections. *)
Fixpoint parseexec_loop (fuel argc : nat) : P (list word * list redir) :=
  match fuel with
  | O => fault "parseexec: out of fuel"
  | Datatypes.S fuel =>
      b <- peek [124; 41; 38; 59] ;;
      if b then mret ([], []) else
      t <- gettoken ;;
      if t.1.1 =? 0 then mret ([], []) else
      if negb (t.1.1 =? 97) then panic "syntax" else
      if (MAXARGS <=? argc + 1)%nat then panic "too many args" else
      rs <- parseredirs fuel ;;
      r <- parseexec_loop fuel (argc + 1) ;;
      mret ((t.1.2, t.2) :: r.1, rs ++ r.2)
  end.

(** [while(peek(ps, es, "&"))] of [parseline] *)
Fixpoint parseback (fuel : nat) (c : cmd word) : P (cmd word) :=
  match fuel with
  | O => fault "parseline: out of fuel"
  | Datatypes.S fuel =>
      b <- peek [38] ;;
      if b then gettoken ;; parseback fuel (BACK c) else mret c
  end.

Fixpoint parseline (fuel : nat) : P (cmd word) :=
  match fuel with
  | O => fault "parseline: out of fuel"
  | Datatypes.S fuel =>
      c <- parsepipe fuel ;;
      c <- parseback fuel c ;;
      b <- peek [59] ;;
      if b then gettoken ;; r <- parseline fuel ;; mret (LIST c r) else mret c
  end
with parsepipe (fuel : nat) : P (cmd word) :=
  match fuel with
  | O => fault "parsepipe: out of fuel"
  | Datatypes.S fuel =>
      c <- parseexec fuel ;;
      b <- peek [124] ;;
      if b then gettoken ;; r <- parsepipe fuel ;; mret (PIPE c r) else mret c
  end
with parseexec (fuel : nat) : P (cmd word) :=
  match fuel with
  | O => fault "parseexec: out of fuel"
  | Datatypes.S fuel =>
      b <- peek [40] ;;
      if b then parseblock fuel else
      rs <- parseredirs fuel ;;
      r <- parseexec_loop fuel 0 ;;
      mret (foldl redircmd (EXEC r.1) (rs ++ r.2))
  end
with parseblock (fuel : nat) : P (cmd word) :=
  match fuel with
  | O => fault "parseblock: out of fuel"
  | Datatypes.S fuel =>
      b <- peek [40] ;;
      if negb b then panic "parseblock" else
      gettoken ;;
      c <- parseline fuel ;;
      b <- peek [41] ;;
      if negb b then panic "syntax - missing )" else
      gettoken ;;
      rs <- parseredirs fuel ;;
      mret (foldl redircmd c rs)
  end.
End parser.

(** [nulterminate]: a NUL at the end of every word. *)
Fixpoint nulterminate (c : cmd word) (buf : list Z) : list Z :=
  match c with
  | EXEC argv => foldl (λ b (w : word), <[w.2 := 0]> b) buf argv
  | REDIR c w _ _ => <[w.2 := 0]> (nulterminate c buf)
  | PIPE l r => nulterminate r (nulterminate l buf)
  | LIST l r => nulterminate r (nulterminate l buf)
  | BACK c => nulterminate c buf
  end.

(** [strlen(s)] *)
Definition strlen (buf : list Z) : option nat := find_idx (Z.eqb 0) buf.

(** Enough for every line of [n] bytes. *)
Definition parse_fuel (n : nat) : nat := 4 * n + 8.
Definition parsecmd (buf : list Z) : P (cmd word * list Z) :=
  es <- deref "strlen" (strlen buf) ;;
  c <- parseline buf es (parse_fuel es) ;;
  peek buf es [] ;;
  s <- gets (λ s, s) ;;
  if negb (s =? es)%nat then panic "syntax" else
  mret (c, nulterminate c buf).

(** The string at a position, and the command the shell then runs. *)
Fixpoint until_nul (l : list Z) : list Z :=
  match l with
  | [] => []
  | c :: l => if c =? 0 then [] else c :: until_nul l
  end.
Fixpoint cmd_map {V W} (f : V → W) (c : cmd V) : cmd W :=
  match c with
  | EXEC argv => EXEC (f <$> argv)
  | REDIR c w mode fd => REDIR (cmd_map f c) (f w) mode fd
  | PIPE l r => PIPE (cmd_map f l) (cmd_map f r)
  | LIST l r => LIST (cmd_map f l) (cmd_map f r)
  | BACK c => BACK (cmd_map f c)
  end.
Definition arg_at (buf : list Z) (w : word) : list Z := until_nul (drop w.1 buf).
Definition parsed (r : cmd word * list Z) : cmd (list Z) := cmd_map (arg_at r.2) r.1.

(** *** [runcmd]: the system calls of a process and of those it forks *)
Inductive sysprog : Type :=
  | Exit
  | Print (msg : list Z) (k : sysprog)
  | Exec (argv : list (list Z)) (k : sysprog)   (* [k] runs when it fails *)
  | Open (file : list Z) (mode : Z) (k : Z → sysprog)
  | Close (fd : Z) (k : sysprog)
  | Dup (fd : Z) (k : sysprog)
  | Pipe (k : option (Z * Z) → sysprog)
  | Fork (child parent failed : sysprog)
  | Wait (k : sysprog).

(** The messages do not matter below; they are kept short. *)
Definition panic_prog (msg : list Z) : sysprog := Print msg Exit.
Definition fork1 (child parent : sysprog) : sysprog := Fork child parent (panic_prog [102; 111; 114; 107]).

Fixpoint runcmd (c : cmd (list Z)) : sysprog :=
  match c with
  | EXEC [] => Exit
  | EXEC (a :: argv) => Exec (a :: argv) (Print a Exit)
  | REDIR c file mode fd =>
      Close fd (Open file mode (λ r, if r <? 0 then Print file Exit else runcmd c))
  | LIST l r => fork1 (runcmd l) (Wait (runcmd r))
  | PIPE l r =>
      Pipe (λ p, match p with
        | None => panic_prog [112; 105; 112; 101]
        | Some (p0, p1) =>
            fork1 (Close 1 (Dup p1 (Close p0 (Close p1 (runcmd l)))))
              (fork1 (Close 0 (Dup p0 (Close p0 (Close p1 (runcmd r)))))
                 (Close p0 (Close p1 (Wait (Wait Exit)))))
        end)
  | BACK c => fork1 (runcmd c) Exit
  end.

(** *** Reading command lines *)

(** [gets]: up to [max - 1] bytes of the input, through the end of a line. *)
Fixpoint gets_loop (n : nat) (input : list Z) : list Z * list Z :=
  match n, input with
  | O, _ => ([], input)
  | _, [] => ([], [])
  | Datatypes.S n, c :: input =>
      if (c =? 10) || (c =? 13) then ([c], input)
      else let '(l, rest) := gets_loop n input in (c :: l, rest)
  end.
Definition ulib_gets (max : nat) (input : list Z) : list Z * list Z := gets_loop (max - 1) input.

(** The buffer after [memset] and [gets], [None] at the end of the input. *)
Definition getcmd (nbuf : nat) (input : list Z) : option (list Z) * list Z :=
  let '(l, rest) := ulib_gets nbuf input in
  let buf := l ++ replicate (nbuf - length l) 0 in
  (if default 0 (buf !! 0%nat) =? 0 then None else Some buf, rest).

(** What [main] does with a line: [chdir], or a child that parses and runs. *)
Inductive action : Type :=
  | Chdir (path : list Z)
  | RunLine (r : outcome nat Empty_set (cmd word * list Z)).
Definition main_line (buf : list Z) : action :=
  if (default 0 (buf !! 0%nat) =? 99) && (default 0 (buf !! 1%nat) =? 100) && (default 0 (buf !! 2%nat) =? 32) then
    let buf := match strlen buf with Some n => <[(n - 1)%nat := 0]> buf | None => buf end in
    Chdir (until_nul (drop 3 buf))
  else RunLine (parsecmd buf 0%nat).
Fixpoint sh_main (fuel : nat) (input : list Z) : list action :=
  match fuel with
  | O => []
  | Datatypes.S fuel =>
      match getcmd 100 input with
      | (None, _) => []
      | (Some buf, rest) => main_line buf :: sh_main fuel rest
      end
  end.
