(* ===== verification/ShSpec.v ===== *)
(** * ShSpec: the shell parses what it should

    The parser terminates on every line, with a command or a syntax error;
    it reads back every command from its printed form; and the system calls
    of [runcmd] give each program the files the command's structure says. *)

From S2P Require Import Prelude Sh.

Local Open Scope Z_scope.

(** ** Definitions *)

(** The run returns, with [Q], or reports a syntax error. *)
Definition reads_ok {A} (m : P A) (Q : A → nat → Prop) (s : nat) : Prop :=
  match m s with
  | Ret a s' => Q a s'
  | Panic _ _ => True
  | _ => False
  end.

Definition wordc (c : Z) : bool := negb (in_set whitespace c) && negb (in_set symbols c).

(** ** Rules for [reads_ok] *)
Lemma ro_ret {A} (a : A) (Q : A → nat → Prop) s : Q a s → reads_ok (mret a : M nat Empty_set A) Q s.
Proof. done. Qed.
Lemma ro_panic {A} msg (Q : A → nat → Prop) s : reads_ok (panic msg : M nat Empty_set A) Q s.
Proof. done. Qed.
Lemma ro_bind {A B} (m : P A) (f : A → P B) Q s : reads_ok m (λ a s', reads_ok (f a) Q s') s → reads_ok (bindM m f) Q s.
Proof. unfold reads_ok, bindM. by destruct (m s). Qed.
Lemma ro_mono {A} (m : P A) (Q Q' : A → nat → Prop) s : reads_ok m Q s → (∀ a s', Q a s' → Q' a s') → reads_ok m Q' s.
Proof. unfold reads_ok. destruct (m s); auto. Qed.

(** ** Termination *)
Section total.
Variables (buf : list Z) (es : nat).
Hypothesis Hes : strlen buf = Some es.

Notation chr := (chr buf).

Lemma chr_es : chr es = 0.
Proof using Hes.
  apply find_idx_Some in Hes as [(x & Hx & E) _]. apply Z.eqb_eq in E. unfold Sh.chr. by rewrite Hx.
Qed.

(** Within the line a character that is not NUL is before the end. *)
Lemma chr_lt s : (s <= es)%nat → chr s ≠ 0 → (s < es)%nat.
Proof using Hes. intros Hs Hc. destruct (decide (s = es)) as [->|]; [by rewrite chr_es in Hc|lia]. Qed.

Lemma skip_while_le f n : ∀ s, (s <= skip_while buf f n s <= s + n)%nat.
Proof using. induction n as [|n IH]; intros s; cbn; [lia|]. destruct (f _); [|lia]. specialize (IH (S s)). lia. Qed.

Lemma skip_ws_le s : (s <= es)%nat → (s <= skip_ws buf es s <= es)%nat.
Proof using. intros Hs. pose proof (skip_while_le (in_set whitespace) (es - s) s). unfold skip_ws. lia. Qed.

Lemma skip_while_stop f n : ∀ s, skip_while buf f n s = (s + n)%nat ∨ f (chr (skip_while buf f n s)) = false.
Proof using.
  induction n as [|n IH]; intros s; cbn; [left; lia|]. destruct (f (chr s)) eqn:E; [|by right].
  destruct (IH (S s)) as [H|H]; [left; lia|by right].
Qed.

Lemma skip_ws_stop s : (s <= es)%nat → in_set whitespace (chr (skip_ws buf es s)) = false.
Proof using Hes.
  intros Hs. unfold skip_ws. destruct (skip_while_stop (in_set whitespace) (es - s) s) as [H|H]; [|done].
  rewrite H. replace (s + (es - s))%nat with es by lia. by rewrite chr_es.
Qed.

Lemma ro_peek toks (Q : bool → nat → Prop) s : (s <= es)%nat →
  (∀ s', (s <= s' <= es)%nat → Q (negb (chr s' =? 0) && in_set toks (chr s')) s') → reads_ok (peek buf es toks) Q s.
Proof using. intros Hs HQ. unfold reads_ok, peek. apply HQ. by apply skip_ws_le. Qed.

(** A token other than the end takes at least one character. *)
Lemma ro_gettoken (Q : Z * nat * nat → nat → Prop) s : (s <= es)%nat →
  (∀ t s', (s <= s' <= es)%nat → (t.1.1 ≠ 0 → (s < s')%nat) → (chr s ≠ 0 ∧ in_set whitespace (chr s) = false → (s < s')%nat) → Q t s') →
  reads_ok (gettoken buf es) Q s.
Proof using Hes.
  intros Hs HQ. unfold reads_ok, gettoken, gettoken_at. pose proof (skip_ws_le s Hs) as H1.
  set (s1 := skip_ws buf es s) in *.
  assert (Hsk : chr s ≠ 0 ∧ in_set whitespace (chr s) = false → s1 = s).
  { intros [_ Hw]. unfold s1, skip_ws. destruct (es - s)%nat; [done|]. cbn. by rewrite Hw. }
  assert (Hend : ∀ (t : Z * nat * nat) s2, (s1 <= s2 <= es)%nat → (t.1.1 ≠ 0 → (s1 < s2)%nat) → (chr s1 ≠ 0 → (s1 < s2)%nat) → Q t (skip_ws buf es s2)).
  { intros t s2 H2 H3 H4. pose proof (skip_ws_le s2 ltac:(lia)) as H5. apply HQ; [lia|intros Hz; specialize (H3 Hz); lia|].
    intros Hc. rewrite (Hsk Hc) in H4. destruct Hc as [Hc _]. specialize (H4 Hc). lia. }
  destruct (Z.eqb_spec (chr s1) 0) as [E0|E0].
  { apply Hend; cbn; [lia|done|done]. }
  pose proof (chr_lt s1 ltac:(lia) E0) as Hlt.
  destruct (bool_decide _) eqn:Hsy; [apply Hend; cbn; lia|].
  destruct (Z.eqb_spec (chr s1) 62) as [E1|E1].
  { destruct (Z.eqb_spec (chr (s1 + 1)) 62) as [E2|E2]; [|apply Hend; cbn; lia].
    pose proof (chr_lt (s1 + 1) ltac:(lia) ltac:(lia)). apply Hend; cbn; lia. }
  assert (Hw : (s1 < skip_while buf (λ c, negb (in_set whitespace c) && negb (in_set symbols c)) (es - s1) s1)%nat).
  { destruct (es - s1)%nat as [|n] eqn:En; [lia|]. cbn [skip_while]. unfold s1 at 2. rewrite skip_ws_stop by done. fold s1. cbn [negb andb].
    assert (Hsym : in_set symbols (chr s1) = false).
    { unfold in_set. rewrite (bool_decide_eq_false_2 (chr s1 ∈ symbols)); [done|]. unfold symbols.
      match goal with H : bool_decide _ = false |- _ => apply bool_decide_eq_false_1 in H; set_solver end. }
    rewrite Hsym. cbn [negb]. pose proof (skip_while_le (λ c, negb (in_set whitespace c) && negb (in_set symbols c)) n (S s1)). lia. }
  pose proof (skip_while_le (λ c, negb (in_set whitespace c) && negb (in_set symbols c)) (es - s1) s1). apply Hend; cbn; lia.
Qed.

(** After a successful [peek] the token is there. *)
Lemma peeked toks s : (∀ c, c ∈ toks → in_set whitespace c = false) → negb (chr s =? 0) && in_set toks (chr s) = true →
  chr s ≠ 0 ∧ in_set whitespace (chr s) = false.
Proof using.
  intros Ht H. apply andb_true_iff in H as [H1 H2]. apply negb_true_iff, Z.eqb_neq in H1. split; [done|].
  apply Ht. unfold in_set in H2. apply andb_true_iff in H2 as [H2 _]. by apply bool_decide_eq_true_1 in H2.
Qed.

Ltac not_ws := let c := fresh in let H := fresh in intros c H; repeat (apply elem_of_cons in H as [->|H]; [reflexivity|]); by apply elem_of_nil in H.

Lemma ro_parseredirs fuel : ∀ s, (s <= es)%nat → (es - s < fuel)%nat →
  reads_ok (parseredirs buf es fuel) (λ _ s', (s <= s' <= es)%nat) s.
Proof using Hes.
  induction fuel as [|fuel IH]; intros s Hs Hf; [lia|]. cbn [parseredirs]. apply ro_bind, ro_peek; [done|]. intros s1 H1.
  destruct (negb (chr s1 =? 0) && in_set [60; 62] (chr s1)) eqn:Hb; cbn [negb]; [|apply ro_ret; lia].
  apply ro_bind, ro_gettoken; [lia|]. intros t s2 H2 _ Ht. specialize (Ht (peeked [60; 62] s1 ltac:(not_ws) Hb)).
  apply ro_bind, ro_gettoken; [lia|]. intros w s3 H3 _ _. destruct (negb (w.1.1 =? 97)); [apply ro_panic|].
  apply ro_bind. eapply ro_mono; [apply IH; lia|cbn beta]. intros rs s4 H4. apply ro_ret. lia.
Qed.

Lemma ro_parseexec_loop fuel : ∀ argc s, (s <= es)%nat → (es - s < fuel)%nat →
  reads_ok (parseexec_loop buf es fuel argc) (λ _ s', (s <= s' <= es)%nat) s.
Proof using Hes.
  induction fuel as [|fuel IH]; intros argc s Hs Hf; [lia|]. cbn [parseexec_loop]. apply ro_bind, ro_peek; [done|]. intros s1 H1.
  destruct (_ && _); [apply ro_ret; lia|]. apply ro_bind, ro_gettoken; [lia|]. intros t s2 H2 Ht _.
  destruct (Z.eqb_spec t.1.1 0) as [E|E]; [apply ro_ret; lia|]. specialize (Ht E).
  destruct (negb (t.1.1 =? 97)); [apply ro_panic|]. destruct (_ <=? _)%nat; [apply ro_panic|].
  apply ro_bind. eapply ro_mono; [apply ro_parseredirs; lia|cbn beta]. intros rs s3 H3.
  apply ro_bind. eapply ro_mono; [apply IH; lia|cbn beta]. intros r s4 H4. apply ro_ret. lia.
Qed.

Lemma ro_parseback fuel : ∀ c s, (s <= es)%nat → (es - s < fuel)%nat →
  reads_ok (parseback buf es fuel c) (λ _ s', (s <= s' <= es)%nat) s.
Proof using Hes.
  induction fuel as [|fuel IH]; intros c s Hs Hf; [lia|]. cbn [parseback]. apply ro_bind, ro_peek; [done|]. intros s1 H1.
  destruct (negb (chr s1 =? 0) && in_set [38] (chr s1)) eqn:Hb; [|apply ro_ret; lia].
  apply ro_bind, ro_gettoken; [lia|]. intros t s2 H2 _ Ht. specialize (Ht (peeked [38] s1 ltac:(not_ws) Hb)).
  eapply ro_mono; [apply IH; lia|cbn beta]. intros r s3 H3. lia.
Qed.

(** The four mutually recursive routines: each round of the recursion takes
    a character. *)
Lemma ro_parse n : ∀ s, (s <= es)%nat → (es - s <= n)%nat →
  (∀ fuel, (4 * n + 4 <= fuel)%nat → reads_ok (parseline buf es fuel) (λ _ s', (s <= s' <= es)%nat) s) ∧
  (∀ fuel, (4 * n + 3 <= fuel)%nat → reads_ok (parsepipe buf es fuel) (λ _ s', (s <= s' <= es)%nat) s) ∧
  (∀ fuel, (4 * n + 2 <= fuel)%nat → reads_ok (parseexec buf es fuel) (λ _ s', (s <= s' <= es)%nat) s) ∧
  (∀ fuel, (4 * n + 1 <= fuel)%nat → reads_ok (parseblock buf es fuel) (λ _ s', (s <= s' <= es)%nat) s).
Proof using Hes.
  induction n as [n IH] using lt_wf_ind. intros s Hs Hn.
  assert (Hblock : ∀ fuel, (4 * n + 1 <= fuel)%nat → reads_ok (parseblock buf es fuel) (λ _ s', (s <= s' <= es)%nat) s).
  { intros [|fuel] Hf; [lia|]. cbn [parseblock]. apply ro_bind, ro_peek; [done|]. intros s1 H1.
    destruct (negb (chr s1 =? 0) && in_set [40] (chr s1)) eqn:Hb; cbn [negb]; [|apply ro_panic].
    apply ro_bind, ro_gettoken; [lia|]. intros t s2 H2 _ Ht. specialize (Ht (peeked [40] s1 ltac:(not_ws) Hb)).
    apply ro_bind. eapply ro_mono; [apply (proj1 (IH (n - 1)%nat ltac:(lia) s2 ltac:(lia) ltac:(lia))); lia|cbn beta]. intros c s3 H3.
    apply ro_bind, ro_peek; [lia|]. intros s4 H4. destruct (negb (_ && _)); [apply ro_panic|].
    apply ro_bind, ro_gettoken; [lia|]. intros t' s5 H5 _ _.
    apply ro_bind. eapply ro_mono; [apply ro_parseredirs; lia|cbn beta]. intros rs s6 H6. apply ro_ret. lia. }
  assert (Hexec : ∀ fuel, (4 * n + 2 <= fuel)%nat → reads_ok (parseexec buf es fuel) (λ _ s', (s <= s' <= es)%nat) s).
  { intros [|fuel] Hf; [lia|]. cbn [parseexec]. apply ro_bind, ro_peek; [done|]. intros s1 H1. destruct (_ && _).
    - destruct (decide (s1 = s)) as [->|Hne]; [apply Hblock; lia|].
      eapply ro_mono; [apply (IH (n - 1)%nat ltac:(lia) s1 ltac:(lia) ltac:(lia)); lia|]. cbn beta. lia.
    - apply ro_bind. eapply ro_mono; [apply ro_parseredirs; lia|cbn beta]. intros rs s2 H2.
      apply ro_bind. eapply ro_mono; [apply ro_parseexec_loop; lia|cbn beta]. intros r s3 H3. apply ro_ret. lia. }
  assert (Hpipe : ∀ fuel, (4 * n + 3 <= fuel)%nat → reads_ok (parsepipe buf es fuel) (λ _ s', (s <= s' <= es)%nat) s).
  { intros [|fuel] Hf; [lia|]. cbn [parsepipe]. apply ro_bind. eapply ro_mono; [apply Hexec; lia|cbn beta]. intros c s1 H1.
    apply ro_bind, ro_peek; [lia|]. intros s2 H2. destruct (negb (chr s2 =? 0) && in_set [124] (chr s2)) eqn:Hb; [|apply ro_ret; lia].
    apply ro_bind, ro_gettoken; [lia|]. intros t s3 H3 _ Ht. specialize (Ht (peeked [124] s2 ltac:(not_ws) Hb)).
    apply ro_bind. eapply ro_mono; [apply (IH (n - 1)%nat ltac:(lia) s3 ltac:(lia) ltac:(lia)); lia|cbn beta]. intros r s4 H4. apply ro_ret. lia. }
  split; [|split; [exact Hpipe|by split]].
  intros [|fuel] Hf; [lia|]. cbn [parseline]. apply ro_bind. eapply ro_mono; [apply Hpipe; lia|cbn beta]. intros c s1 H1.
  apply ro_bind. eapply ro_mono; [apply ro_parseback; lia|cbn beta]. intros c' s2 H2.
  apply ro_bind, ro_peek; [lia|]. intros s3 H3. destruct (negb (chr s3 =? 0) && in_set [59] (chr s3)) eqn:Hb; [|apply ro_ret; lia].
  apply ro_bind, ro_gettoken; [lia|]. intros t s4 H4 _ Ht. specialize (Ht (peeked [59] s3 ltac:(not_ws) Hb)).
  apply ro_bind. eapply ro_mono; [apply (IH (n - 1)%nat ltac:(lia) s4 ltac:(lia) ltac:(lia)); lia|cbn beta]. intros r s5 H5. apply ro_ret. lia.
Qed.
End total.

Lemma parsecmd_total buf : 0 ∈ buf → reads_ok (parsecmd buf) (λ _ _, True) 0.
Proof.
  intros H0. unfold parsecmd. destruct (strlen buf) as [es|] eqn:Hes; cycle 1.
  { exfalso. apply list_elem_of_lookup in H0 as [i Hi]. unfold strlen in Hes. rewrite find_idx_None in Hes. specialize (Hes i 0 Hi). done. }
  apply ro_bind. change (reads_ok (mret es : M nat Empty_set nat) (λ a s', reads_ok (c <- parseline buf a (parse_fuel a) ;; peek buf a [] ;; s <- gets (λ s, s) ;;
    if negb (s =? a)%nat then panic "syntax" else mret (c, nulterminate c buf)) (λ _ _, True) s') 0%nat). apply ro_ret.
  apply ro_bind. eapply ro_mono; [apply (ro_parse buf es Hes es 0); unfold parse_fuel; lia|cbn beta]. intros c s1 H1.
  apply ro_bind, ro_peek; [lia|]. intros s2 H2. unfold reads_ok, bindM, gets. by destruct (negb _).
Qed.

(** ** Printing commands *)

(** A word is separated by a space; a command is put in parentheses where
    the grammar wants a command of a higher level: 0 for lines, 1 for [&],
    2 for pipes, 3 for programs and blocks. *)
Definition paren (b : bool) (t : list Z) : list Z := if b then 40 :: t ++ [41] else t.
Definition print_args (argv : list (list Z)) : list Z := concat ((λ w, 32 :: w) <$> argv).
Definition print_redir (fd : Z) (f : list Z) : list Z := (if fd =? 0 then 60 else 62) :: f.
Fixpoint print (lv : nat) (c : cmd (list Z)) : list Z :=
  match c with
  | EXEC argv => print_args argv
  | REDIR c f _ fd => print 3 c ++ print_redir fd f
  | PIPE l r => paren (2 <? lv)%nat (print 3 l ++ 124 :: print 2 r)
  | BACK c => paren (1 <? lv)%nat (print 1 c ++ [38])
  | LIST l r => paren (0 <? lv)%nat (print 1 l ++ 59 :: print 0 r)
  end.

(** Words are not empty and have no blanks, symbols or NULs; programs have
    fewer than [MAXARGS] words; redirections are the two the syntax has. *)
Definition word_ok (w : list Z) : Prop := w ≠ [] ∧ Forall (λ c, wordc c = true ∧ c ≠ 0) w.
Definition redir_ok (mode fd : Z) : Prop := mode = O_RDONLY ∧ fd = 0 ∨ mode = Z.lor O_WRONLY O_CREATE ∧ fd = 1.
Fixpoint cmd_ok (c : cmd (list Z)) : Prop :=
  match c with
  | EXEC argv => (length argv < MAXARGS)%nat ∧ Forall word_ok argv
  | REDIR c f mode fd => cmd_ok c ∧ word_ok f ∧ redir_ok mode fd
  | PIPE l r | LIST l r => cmd_ok l ∧ cmd_ok r
  | BACK c => cmd_ok c
  end.

(** ** Positions in a line *)
Fixpoint dropw (t : list Z) : list Z :=
  match t with
  | c :: t' => if in_set whitespace c then dropw t' else t
  | [] => []
  end.
Definition hd0 (t : list Z) : Z := default 0 (head t).

Section line.
Variables (line junk : list Z).
Hypothesis Hnz : Forall (λ c, c ≠ 0) line.

Notation buf := (line ++ 0 :: junk).
Notation es := (length line).

(** [t] is what is left of the line at position [pos t]. *)
Definition suf (t : list Z) : Prop := ∃ pre, line = pre ++ t.
Definition pos (t : list Z) : nat := es - length t.

Lemma suf_app a b : suf (a ++ b) → suf b.
Proof using. intros [pre E]. exists (pre ++ a). rewrite E. by rewrite app_assoc. Qed.
Lemma suf_cons x t : suf (x :: t) → suf t.
Proof using. apply (suf_app [x]). Qed.
Lemma suf_len t : suf t → (length t <= es)%nat.
Proof using. intros [pre E]. rewrite E, length_app. lia. Qed.
Lemma pos_cons x t : suf (x :: t) → S (pos (x :: t)) = pos t.
Proof using. intros H%suf_len. cbn in H. unfold pos. cbn [length]. lia. Qed.
Lemma pos_app a b : suf (a ++ b) → pos b = (pos (a ++ b) + length a)%nat.
Proof using. intros H%suf_len. rewrite length_app in H. unfold pos. rewrite length_app. lia. Qed.

Lemma strlen_line : strlen buf = Some es.
Proof using Hnz.
  apply find_idx_Some. split; [exists 0; by rewrite list_lookup_middle|]. intros j c Hj Hc. rewrite lookup_app_l in Hc by done.
  pose proof (Forall_lookup_1 _ _ _ _ Hnz Hc). cbn in *. lia.
Qed.

Lemma chr_pos t : suf t → chr buf (pos t) = hd0 t.
Proof using.
  intros [pre E]. unfold chr, pos. rewrite E, length_app. replace (length pre + length t - length t)%nat with (length pre + 0)%nat by lia.
  rewrite <- app_assoc, lookup_app_r by lia. replace (length pre + 0 - length pre)%nat with 0%nat by lia. by destruct t.
Qed.

Lemma hd0_nz t : suf t → t ≠ [] → hd0 t ≠ 0.
Proof using Hnz.
  intros [pre E] Ht. destruct t as [|x t]; [done|]. cbn. rewrite E in Hnz. apply Forall_app in Hnz as [_ H]. apply Forall_cons_iff in H; by destruct H.
Qed.

Lemma in_set_0 toks : in_set toks 0 = false.
Proof using. unfold in_set. by rewrite andb_false_r. Qed.

Lemma suf_dropw t : suf t → suf (dropw t).
Proof using. induction t as [|c t IH]; cbn; [done|]. intros H. destruct (in_set whitespace c); [apply IH; by eapply suf_cons|done]. Qed.

Lemma dropw_idem t : dropw (dropw t) = dropw t.
Proof using. induction t as [|c t IH]; cbn; [done|]. destruct (in_set whitespace c) eqn:E; [done|]. cbn. by rewrite E. Qed.

Lemma skip_ws_pos t : suf t → skip_ws buf es (pos t) = pos (dropw t).
Proof using.
  intros H. unfold skip_ws. replace (es - pos t)%nat with (length t) by (unfold pos; apply suf_len in H; lia).
  induction t as [|c t IH]; [done|]. cbn [length skip_while dropw]. rewrite chr_pos by done. repeat match goal with |- context [hd0 (?x :: ?t)] => change (hd0 (x :: t)) with x end.
  destruct (in_set whitespace c); [|done]. rewrite pos_cons by done. apply IH. by eapply suf_cons.
Qed.

Lemma peek_pos toks t : suf t → peek buf es toks (pos t) = Ret (in_set toks (hd0 (dropw t))) (pos (dropw t)).
Proof using Hnz.
  intros H. unfold peek. rewrite skip_ws_pos by done. f_equal. rewrite chr_pos by (by apply suf_dropw).
  destruct (Z.eqb_spec (hd0 (dropw t)) 0) as [E|E]; [by rewrite E, in_set_0|done].
Qed.

(** A symbol other than [>]. *)
Lemma gettoken_symbol c t : suf (c :: t) → c ∈ [124; 40; 41; 59; 38; 60] →
  gettoken buf es (pos (c :: t)) = Ret (c, pos (c :: t), pos t) (pos (dropw t)).
Proof using.
  intros H Hc. assert (Hcase : c ≠ 0 ∧ in_set whitespace c = false).
  { repeat (apply elem_of_cons in Hc as [->|Hc]; [done|]). by apply elem_of_nil in Hc. }
  unfold gettoken, gettoken_at. rewrite skip_ws_pos by done. cbn [dropw]. rewrite (proj2 Hcase). rewrite chr_pos by done.
  repeat match goal with |- context [hd0 (?x :: ?t)] => change (hd0 (x :: t)) with x end. rewrite (proj2 (Z.eqb_neq _ _) (proj1 Hcase)). rewrite bool_decide_eq_true_2 by done.
  rewrite Nat.add_1_r, pos_cons by done. rewrite skip_ws_pos by (by eapply suf_cons). done.
Qed.

(** [>] before a word *)
Lemma gettoken_gt t : suf (62 :: t) → hd0 t ≠ 62 →
  gettoken buf es (pos (62 :: t)) = Ret (62, pos (62 :: t), pos t) (pos (dropw t)).
Proof using.
  intros H Hc. unfold gettoken, gettoken_at. rewrite skip_ws_pos by done. change (dropw (62 :: t)) with (62 :: t).
  rewrite chr_pos by done. change (hd0 (62 :: t)) with 62. change (62 =? 0) with false. change (62 =? 62) with true.
  rewrite bool_decide_eq_false_2 by (unfold not; intros Hin; repeat (apply elem_of_cons in Hin as [[=]|Hin]); by apply elem_of_nil in Hin).
  cbn zeta iota. rewrite (Nat.add_1_r (pos (62 :: t))), pos_cons by done. rewrite chr_pos by (by eapply suf_cons).
  rewrite (proj2 (Z.eqb_neq _ _) Hc). cbn iota. rewrite skip_ws_pos by (by eapply suf_cons). done.
Qed.

(** A word, up to what cannot be part of it *)
Definition ends (t : list Z) : Prop := match t with [] => True | x :: _ => wordc x = false end.

Lemma skip_word w t : Forall (λ c, wordc c = true ∧ c ≠ 0) w → ends t → suf (w ++ t) →
  skip_while buf wordc (length (w ++ t)) (pos (w ++ t)) = pos t.
Proof using.
  intros Hw Ht. induction w as [|x w IH]; intros H.
  - cbn [app] in *. destruct t as [|y t]; [reflexivity|]. cbn [length skip_while]. rewrite chr_pos by done. change (hd0 (y :: t)) with y. by rewrite Ht.
  - apply Forall_cons_iff in Hw as [[Hx _] Hw]. cbn [app length skip_while] in *. rewrite chr_pos by done.
    change (hd0 (x :: w ++ t)) with x. rewrite Hx, pos_cons by done. apply IH; [done|]. by eapply suf_cons.
Qed.

Lemma wordc_plain x : wordc x = true → x ≠ 0 → in_set whitespace x = false ∧ x ∉ symbols.
Proof using.
  intros H Hz. apply andb_true_iff in H as [H1 H2]. apply negb_true_iff in H1, H2. split; [done|].
  unfold in_set in H2. rewrite (proj2 (Z.eqb_neq _ _) Hz) in H2. cbn [negb] in H2. rewrite andb_true_r in H2. by apply bool_decide_eq_false_1 in H2.
Qed.

Lemma gettoken_word w t : word_ok w → ends t → suf (w ++ t) →
  gettoken buf es (pos (w ++ t)) = Ret (97, pos (w ++ t), pos t) (pos (dropw t)).
Proof using Hnz.
  intros [Hne Hw] Ht H. destruct w as [|x w]; [done|]. pose proof (Forall_inv Hw) as [Hx Hx0]. destruct (wordc_plain x Hx Hx0) as [Hws Hsy].
  unfold gettoken, gettoken_at. rewrite skip_ws_pos by done.
  assert (Hd : dropw ((x :: w) ++ t) = (x :: w) ++ t) by (cbn; by rewrite Hws). rewrite Hd. rewrite chr_pos by done.
  change (hd0 ((x :: w) ++ t)) with x. rewrite (proj2 (Z.eqb_neq _ _) Hx0).
  rewrite bool_decide_eq_false_2 by (unfold symbols in Hsy; set_solver).
  rewrite (proj2 (Z.eqb_neq x 62)) by (unfold symbols in Hsy; set_solver). cbn zeta iota.
  replace (es - pos ((x :: w) ++ t))%nat with (length ((x :: w) ++ t)) by (apply suf_len in H; unfold pos; lia).
  change (λ c, negb (in_set whitespace c) && negb (in_set symbols c)) with wordc. rewrite skip_word by done.
  rewrite skip_ws_pos by (by eapply suf_app). done.
Qed.

(** ** Words and the commands they make *)
Definition text (w : word) : list Z := take (w.2 - w.1) (drop w.1 line).

(** The word is made of word characters and ends where they end. *)
Definition good (w : word) : Prop :=
  ∃ s t, word_ok s ∧ ends t ∧ suf (s ++ t) ∧ w = (pos (s ++ t), pos t).

Lemma text_pos w t : suf (w ++ t) → text (pos (w ++ t), pos t) = w.
Proof using.
  intros H. unfold text. cbn [fst snd]. rewrite (pos_app w t H). replace (pos (w ++ t) + length w - pos (w ++ t))%nat with (length w) by lia.
  destruct H as [pre E]. unfold pos. rewrite E, !length_app. replace (length pre + (length w + length t) - (length w + length t))%nat with (length pre) by lia.
  rewrite drop_app_length, take_app_length. done.
Qed.

Fixpoint all_words (Pw : word → Prop) (c : cmd word) : Prop :=
  match c with
  | EXEC argv => Forall Pw argv
  | REDIR c w _ _ => all_words Pw c ∧ Pw w
  | PIPE l r | LIST l r => all_words Pw l ∧ all_words Pw r
  | BACK c => all_words Pw c
  end.

(** The parsed command [p] stands for [c]. *)
Definition stands (p : cmd word) (c : cmd (list Z)) : Prop := cmd_map text p = c ∧ all_words good p.

Lemma good_word w t : word_ok w → ends t → suf (w ++ t) → good (pos (w ++ t), pos t) ∧ text (pos (w ++ t), pos t) = w.
Proof using. intros Hw Ht H. split; [by exists w, t|by apply text_pos]. Qed.

(** What may follow a command: the end, or one of some symbols. *)
Definition follows (f t : list Z) : Prop := t = [] ∨ hd0 t ∈ f.
Definition F3 : list Z := [124; 41; 38; 59].
Definition F2 : list Z := [41; 38; 59].
Definition F1 : list Z := [41; 59].
Definition F0 : list Z := [41].

Lemma F3_symbol c : c ∈ F3 → in_set whitespace c = false ∧ wordc c = false ∧ c ≠ 0 ∧ in_set [60; 62] c = false ∧ in_set F3 c = true ∧ c ≠ 40.
Proof using. intros H. repeat (apply elem_of_cons in H as [->|H]; [done|]). by apply elem_of_nil in H. Qed.

Lemma follows_weaken f t : follows f t → f ⊆ F3 → follows F3 t.
Proof using. intros [->|H] Hf; [by left|right; by apply Hf]. Qed.

Lemma follows_facts t : follows F3 t → dropw t = t ∧ ends t ∧ in_set [60; 62] (hd0 t) = false ∧ hd0 t ≠ 40.
Proof using.
  intros [->|H]; [done|]. destruct (F3_symbol _ H) as (H1 & H2 & H3 & H4 & H5 & H6). destruct t as [|c t]; [done|].
  change (hd0 (c :: t)) with c in *. cbn. rewrite H1. done.
Qed.

Lemma word_head w t : word_ok w → dropw (w ++ t) = w ++ t ∧ wordc (hd0 (w ++ t)) = true ∧ hd0 (w ++ t) ≠ 0.
Proof using.
  intros [Hne Hw]. destruct w as [|x w]; [done|]. apply Forall_cons_iff in Hw as [[Hx Hx0] _].
  destruct (wordc_plain x Hx Hx0) as [Hws _]. cbn. by rewrite Hws.
Qed.

Lemma word_not toks x : wordc x = true → x ≠ 0 → toks ⊆ symbols → in_set toks x = false.
Proof using.
  intros Hx Hx0 Ht. destruct (wordc_plain x Hx Hx0) as [_ Hs]. unfold in_set. rewrite bool_decide_eq_false_2; [done|]. intros H. by apply Hs, Ht.
Qed.

Lemma gettoken_end : gettoken buf es (pos []) = Ret (0, pos [], pos []) (pos []).
Proof using.
  assert (H : suf []) by (exists line; by rewrite app_nil_r).
  unfold gettoken, gettoken_at. rewrite skip_ws_pos by done. change (dropw []) with (@nil Z). rewrite chr_pos by done. change (hd0 []) with 0.
  change (0 =? 0) with true. cbn zeta iota. rewrite skip_ws_pos by done. done.
Qed.

(** *** Redirections *)
Notation rdr := (list Z * Z * Z)%type.
Definition print_redirs (rs : list rdr) : list Z := concat ((λ r : rdr, print_redir r.2 r.1.1) <$> rs).
Definition rdr_ok (r : rdr) : Prop := word_ok r.1.1 ∧ redir_ok r.1.2 r.2.
Definition rstands (r' : redir) (r : rdr) : Prop := (text r'.1.1, r'.1.2, r'.2) = r ∧ good r'.1.1.

Lemma parseredirs_none fuel t : suf t → in_set [60; 62] (hd0 (dropw t)) = false →
  parseredirs buf es (S fuel) (pos t) = Ret [] (pos (dropw t)).
Proof using Hnz. intros H Hn. cbn [parseredirs]. rewrite (bind_Ret_eq _ _ _ _ _ (peek_pos [60; 62] t H)), Hn. done. Qed.

Lemma parseredirs_dropw fuel t : suf t → parseredirs buf es (S fuel) (pos (dropw t)) = parseredirs buf es (S fuel) (pos t).
Proof using Hnz.
  intros H. cbn [parseredirs]. unfold bindM at 1. rewrite peek_pos by (by apply suf_dropw). rewrite dropw_idem.
  symmetry. unfold bindM at 1. by rewrite peek_pos.
Qed.

Lemma redirs_head rs t : ends t → ends (print_redirs rs ++ t).
Proof using. intros Ht. destruct rs as [|[[f m] fd] rs]; [done|]. cbn. by destruct (fd =? 0). Qed.

Lemma parseredirs_print rs : ∀ t fuel, Forall rdr_ok rs → suf (print_redirs rs ++ t) → ends t → in_set [60; 62] (hd0 (dropw t)) = false →
  (length rs < fuel)%nat →
  ∃ rs', parseredirs buf es fuel (pos (print_redirs rs ++ t)) = Ret rs' (pos (dropw t)) ∧ Forall2 rstands rs' rs.
Proof using Hnz.
  induction rs as [|[[f m] fd] rs IH]; intros t [|fuel] Hok Hs He Hn Hf; cbn [length] in Hf; try lia.
  { exists []. split; [by apply parseredirs_none|constructor]. }
  apply Forall_cons_iff in Hok as [[Hw Hr] Hok]. cbn [fst snd] in Hw, Hr.
  assert (Et : print_redirs ((f, m, fd) :: rs) ++ t = (if fd =? 0 then 60 else 62) :: f ++ print_redirs rs ++ t).
  { unfold print_redirs. cbn [fmap list_fmap concat fst snd]. unfold print_redir at 1. cbn. by rewrite <- app_assoc. }
  rewrite Et in *. set (next := print_redirs rs ++ t) in *. pose proof (suf_cons _ _ Hs) as Hs1. pose proof (suf_app _ _ Hs1) as Hs2.
  destruct (word_head f next Hw) as (Hd & Hwc & Hw0).
  assert (Hends : ends next) by (by apply redirs_head).
  destruct (IH t fuel Hok Hs2 He Hn ltac:(lia)) as (rs' & E & Hrs).
  destruct (good_word f next Hw Hends Hs1) as [Hg Htx].
  assert (Htok : gettoken buf es (pos ((if fd =? 0 then 60 else 62) :: f ++ next)) =
    Ret ((if fd =? 0 then 60 else 62), pos ((if fd =? 0 then 60 else 62) :: f ++ next), pos (f ++ next)) (pos (f ++ next))).
  { rewrite <- Hd at 4. destruct Hr as [[-> ->]|[-> ->]]; cbn [Z.eqb].
    - apply gettoken_symbol; [done|set_solver].
    - apply gettoken_gt; [done|]. intros E62. rewrite E62 in Hwc. discriminate Hwc. }
  exists (((pos (f ++ next), pos next), m, fd) :: rs'). split; [|constructor; [|done]].
  - cbn [parseredirs]. rewrite (bind_Ret_eq _ _ _ _ _ (peek_pos [60; 62] _ Hs)).
    assert (Hd2 : dropw ((if fd =? 0 then 60 else 62) :: f ++ next) = (if fd =? 0 then 60 else 62) :: f ++ next) by (by destruct (fd =? 0)).
    rewrite Hd2. assert (Hin : in_set [60; 62] (hd0 ((if fd =? 0 then 60 else 62) :: f ++ next)) = true) by (by destruct (fd =? 0)).
    rewrite Hin. cbn [negb]. rewrite (bind_Ret_eq _ _ _ _ _ Htok), (bind_Ret_eq _ _ _ _ _ (gettoken_word f next Hw Hends Hs1)). cbn [fst snd].
    change (97 =? 97) with true. cbn [negb]. destruct fuel as [|fuel]; [lia|].
    assert (E' : parseredirs buf es (S fuel) (pos (dropw next)) = Ret rs' (pos (dropw t))) by (by rewrite parseredirs_dropw).
    rewrite (bind_Ret_eq _ _ _ _ _ E'). unfold mret, M_ret. f_equal. by destruct Hr as [[-> ->]|[-> ->]].
  - split; [cbn [fst snd]; by rewrite Htx|exact Hg].
Qed.

(** *** Programs: words, then redirections *)
Definition wstands (w' : word) (w : list Z) : Prop := text w' = w ∧ good w'.

Lemma loop_dropw fuel argc t : suf t → parseexec_loop buf es (S fuel) argc (pos (dropw t)) = parseexec_loop buf es (S fuel) argc (pos t).
Proof using Hnz.
  intros H. cbn [parseexec_loop]. unfold bindM at 1. rewrite peek_pos by (by apply suf_dropw). rewrite dropw_idem.
  symmetry. unfold bindM at 1. by rewrite peek_pos.
Qed.

Lemma loop_end fuel argc t : suf t → follows F3 t → parseexec_loop buf es (S fuel) argc (pos t) = Ret ([], []) (pos t).
Proof using Hnz.
  intros H Hf. destruct (follows_facts t Hf) as (Hd & _). cbn [parseexec_loop].
  rewrite (bind_Ret_eq _ _ _ _ _ (peek_pos [124; 41; 38; 59] t H)), Hd. destruct Hf as [->|Hf].
  - change (in_set [124; 41; 38; 59] (hd0 [])) with false. cbn iota. rewrite (bind_Ret_eq _ _ _ _ _ gettoken_end). done.
  - destruct (F3_symbol _ Hf) as (_ & _ & _ & _ & Hin & _). change [124; 41; 38; 59] with F3. rewrite Hin. done.
Qed.

Lemma args_head argv rs t : ends t → ends (print_args argv ++ print_redirs rs ++ t).
Proof using. intros Ht. destruct argv as [|w argv]; [by apply redirs_head|done]. Qed.

Lemma loop_print argv : ∀ argc rs t fuel, argv ≠ [] → Forall word_ok argv → (argc + length argv < MAXARGS)%nat → Forall rdr_ok rs →
  suf (print_args argv ++ print_redirs rs ++ t) → follows F3 t → (length argv + length rs + 1 < fuel)%nat →
  ∃ argv' rs', parseexec_loop buf es fuel argc (pos (print_args argv ++ print_redirs rs ++ t)) = Ret (argv', rs') (pos t) ∧
    Forall2 wstands argv' argv ∧ Forall2 rstands rs' rs.
Proof using Hnz.
  induction argv as [|w argv IH]; intros argc rs t [|fuel] Hne Hw Hargc Hrs Hs Hf Hfuel; [done|done|lia|]. cbn [length] in *.
  apply Forall_cons_iff in Hw as [Hw Hargv]. destruct (follows_facts t Hf) as (Hdt & Het & Hnr & _).
  set (next := print_args argv ++ print_redirs rs ++ t).
  assert (Et : print_args (w :: argv) ++ print_redirs rs ++ t = 32 :: w ++ next).
  { unfold print_args, next. cbn. by rewrite <- app_assoc. }
  rewrite Et in *. pose proof (suf_cons _ _ Hs) as Hs1. pose proof (suf_app _ _ Hs1) as Hs2.
  assert (Hends : ends next) by (by apply args_head).
  destruct (word_head w next Hw) as (Hd & Hwc & Hw0). destruct (good_word w next Hw Hends Hs1) as [Hg Htx].
  assert (Hpk : peek buf es [124; 41; 38; 59] (pos (32 :: w ++ next)) = Ret false (pos (w ++ next))).
  { rewrite peek_pos by done. change (dropw (32 :: w ++ next)) with (dropw (w ++ next)). rewrite Hd.
    rewrite word_not by (done || set_solver). done. }
  assert (Hmax : (MAXARGS <=? argc + 1)%nat = false) by (apply Nat.leb_gt; lia).
  cbn [parseexec_loop]. rewrite (bind_Ret_eq _ _ _ _ _ Hpk). cbn iota.
  rewrite (bind_Ret_eq _ _ _ _ _ (gettoken_word w next Hw Hends Hs1)). cbn [fst snd]. change (97 =? 0) with false. change (97 =? 97) with true.
  cbn [negb]. cbn iota. rewrite Hmax. destruct fuel as [|fuel]; [lia|]. destruct (decide (argv = [])) as [->|Hne'].
  - destruct (parseredirs_print rs t (S fuel) Hrs Hs2 Het ltac:(by rewrite Hdt) ltac:(cbn in Hfuel; lia)) as (rs' & Er & Hrs').
    assert (Er' : parseredirs buf es (S fuel) (pos (dropw next)) = Ret rs' (pos t)) by (rewrite Hdt in Er; rewrite parseredirs_dropw by done; exact Er).
    rewrite (bind_Ret_eq _ _ _ _ _ Er'). assert (Hst : suf t) by (exact (suf_app (print_redirs rs) t Hs2)).
    rewrite (bind_Ret_eq _ _ _ _ _ (loop_end fuel (argc + 1) t Hst Hf)). cbn [fst snd]. rewrite app_nil_r.
    exists [(pos (w ++ next), pos next)], rs'. split; [done|]. split; [|done]. constructor; [by split|constructor].
  - destruct (IH (argc + 1)%nat rs t (S fuel) Hne' Hargv ltac:(lia) Hrs Hs2 Hf ltac:(lia)) as (argv' & rs' & E & Ha & Hr).
    assert (Hnone : parseredirs buf es (S fuel) (pos (dropw next)) = Ret [] (pos (dropw next))).
    { rewrite parseredirs_none; [by rewrite dropw_idem|by apply suf_dropw|]. rewrite dropw_idem. destruct argv as [|w' argv]; [done|].
      apply Forall_cons_iff in Hargv as [Hw' _]. unfold next, print_args. cbn [fmap list_fmap concat app dropw]. 
      change (in_set whitespace 32) with true. cbn iota. rewrite <- app_assoc.
      destruct (word_head w' (concat ((λ w, 32 :: w) <$> argv) ++ print_redirs rs ++ t) Hw') as (Hd' & Hwc' & Hw0').
      rewrite Hd'. apply word_not; [done|done|set_solver]. }
    rewrite (bind_Ret_eq _ _ _ _ _ Hnone).
    assert (El : parseexec_loop buf es (S fuel) (argc + 1) (pos (dropw next)) = Ret (argv', rs') (pos t)) by (by rewrite loop_dropw).
    rewrite (bind_Ret_eq _ _ _ _ _ El). cbn [fst snd app].
    exists ((pos (w ++ next), pos next) :: argv'), rs'. split; [done|]. split; [|done]. constructor; [by split|done].
Qed.

(** *** A command as redirections around a program or a block *)
Fixpoint base (c : cmd (list Z)) : cmd (list Z) := match c with REDIR c _ _ _ => base c | _ => c end.
Fixpoint redirs (c : cmd (list Z)) : list rdr := match c with REDIR c f m fd => redirs c ++ [(f, m, fd)] | _ => [] end.
Definition wrap (c : cmd (list Z)) (r : rdr) : cmd (list Z) := REDIR c r.1.1 r.1.2 r.2.

Lemma base_wrap c : c = foldl wrap (base c) (redirs c).
Proof using. induction c as [|c IH f m fd| | |]; try done. cbn [base redirs]. rewrite foldl_app. by rewrite <- IH. Qed.

Lemma print_base c : print 3 c = print 3 (base c) ++ print_redirs (redirs c).
Proof using.
  induction c as [|c IH f m fd| | |]; cbn [base redirs]; try (unfold print_redirs; cbn [fmap list_fmap concat]; by rewrite app_nil_r).
  cbn [print]. rewrite IH. unfold print_redirs. rewrite fmap_app, concat_app, <- app_assoc. cbn. by rewrite app_nil_r.
Qed.

Lemma ok_base c : cmd_ok c → cmd_ok (base c) ∧ Forall rdr_ok (redirs c).
Proof using.
  induction c as [|c IH f m fd| | |]; cbn [base redirs]; try (intros H; by split; [|constructor]).
  intros (Hc & Hf & Hr). destruct (IH Hc) as [H1 H2]. split; [done|]. apply Forall_app. split; [done|]. constructor; [done|constructor].
Qed.

Lemma stands_wrap rs rs' : ∀ p c, Forall2 rstands rs' rs → stands p c → stands (foldl redircmd p rs') (foldl wrap c rs).
Proof using.
  revert rs'. induction rs as [|[[f m] fd] rs IH]; intros rs' p c H Hp; inversion H; subst; [done|]. cbn [foldl]. apply IH; [done|].
  destruct x as [[w m'] fd']. match goal with Hx : rstands _ _ |- _ => destruct Hx as [E Hg] end. cbn [fst snd] in *. injection E as <- <- <-.
  destruct Hp as [<- Hp]. by split.
Qed.

Lemma stands_exec argv' argv : Forall2 wstands argv' argv → stands (EXEC argv') (EXEC argv).
Proof using.
  intros H. split; cbn; [f_equal|]; induction H as [|w' w l' l [E Hg] _ IH]; try done; [by cbn; rewrite E, IH|by constructor].
Qed.

Definition is_exec (c : cmd (list Z)) : Prop := match c with EXEC _ => True | _ => False end.

(** *** What each level of the parser reads back *)
Definition L3 (c : cmd (list Z)) : Prop := ∀ t fuel, suf (print 3 c ++ t) → follows F3 t → (4 * length (print 3 c ++ t) + 2 <= fuel)%nat →
  ∃ p, parseexec buf es fuel (pos (print 3 c ++ t)) = Ret p (pos t) ∧ stands p c.
Definition L2 (c : cmd (list Z)) : Prop := ∀ t fuel, suf (print 2 c ++ t) → follows F2 t → (4 * length (print 2 c ++ t) + 3 <= fuel)%nat →
  ∃ p, parsepipe buf es fuel (pos (print 2 c ++ t)) = Ret p (pos t) ∧ stands p c.
Definition L1 (c : cmd (list Z)) : Prop := ∀ t fuel, suf (print 1 c ++ t) → follows F2 t → (4 * length (print 1 c ++ t) + 3 <= fuel)%nat →
  ∃ p fuel', (c0 <- parsepipe buf es fuel ;; parseback buf es fuel c0) (pos (print 1 c ++ t)) = parseback buf es fuel' p (pos t) ∧
    stands p c ∧ (length t < fuel')%nat.
Definition L0 (c : cmd (list Z)) : Prop := ∀ t fuel, suf (print 0 c ++ t) → follows F0 t → (4 * length (print 0 c ++ t) + 4 <= fuel)%nat →
  ∃ p, parseline buf es fuel (pos (print 0 c ++ t)) = Ret p (pos t) ∧ stands p c.

(** The equations of the parser. *)
Lemma parseline_S fuel : parseline buf es (S fuel) = (c <- parsepipe buf es fuel ;; c <- parseback buf es fuel c ;;
  b <- peek buf es [59] ;; if b then gettoken buf es ;; r <- parseline buf es fuel ;; mret (LIST c r) else mret c).
Proof using. done. Qed.
Lemma parsepipe_S fuel : parsepipe buf es (S fuel) = (c <- parseexec buf es fuel ;;
  b <- peek buf es [124] ;; if b then gettoken buf es ;; r <- parsepipe buf es fuel ;; mret (PIPE c r) else mret c).
Proof using. done. Qed.
Lemma parseexec_S fuel : parseexec buf es (S fuel) = (b <- peek buf es [40] ;; if b then parseblock buf es fuel else
  rs <- parseredirs buf es fuel ;; r <- parseexec_loop buf es fuel 0 ;; mret (foldl redircmd (EXEC r.1) (rs ++ r.2))).
Proof using. done. Qed.
Lemma parseblock_S fuel : parseblock buf es (S fuel) = (b <- peek buf es [40] ;; if negb b then panic "parseblock" else gettoken buf es ;;
  c <- parseline buf es fuel ;; b <- peek buf es [41] ;; if negb b then panic "syntax - missing )" else gettoken buf es ;;
  rs <- parseredirs buf es fuel ;; mret (foldl redircmd c rs)).
Proof using. done. Qed.

Lemma exec_dropw fuel t : suf t → parseexec buf es (S fuel) (pos (dropw t)) = parseexec buf es (S fuel) (pos t).
Proof using Hnz.
  intros H. rewrite !parseexec_S. unfold bindM at 1. rewrite peek_pos by (by apply suf_dropw). rewrite dropw_idem.
  symmetry. unfold bindM at 1. by rewrite peek_pos.
Qed.
Lemma pipe_dropw fuel t : suf t → parsepipe buf es (S (S fuel)) (pos (dropw t)) = parsepipe buf es (S (S fuel)) (pos t).
Proof using Hnz. intros H. rewrite !(parsepipe_S (S fuel)). unfold bindM at 1. rewrite exec_dropw by done. done. Qed.
Lemma line_dropw fuel t : suf t → parseline buf es (S (S (S fuel))) (pos (dropw t)) = parseline buf es (S (S (S fuel))) (pos t).
Proof using Hnz. intros H. rewrite !(parseline_S (S (S fuel))). unfold bindM at 1. rewrite pipe_dropw by done. done. Qed.

(** A symbol of the grammar at the head. *)
Lemma peek_symbol toks x t : suf (x :: t) → in_set whitespace x = false →
  peek buf es toks (pos (x :: t)) = Ret (in_set toks x) (pos (x :: t)).
Proof using Hnz.
  intros H Hx. rewrite peek_pos by done. assert (E : dropw (x :: t) = x :: t) by (cbn; by rewrite Hx). by rewrite E.
Qed.

Lemma peek_follows toks f t : suf t → follows f t → f ⊆ F3 → (∀ x, x ∈ f → in_set toks x = false) →
  peek buf es toks (pos t) = Ret false (pos t).
Proof using Hnz.
  intros H Hf Hsub Hn. destruct (follows_facts t (follows_weaken _ _ Hf Hsub)) as (Hd & _). rewrite peek_pos, Hd by done. f_equal.
  destruct Hf as [->|Hf]; [by rewrite in_set_0|by apply Hn].
Qed.

(** Programs *)
Lemma exec_print argv rs t fuel : cmd_ok (EXEC argv) → Forall rdr_ok rs → suf (print_args argv ++ print_redirs rs ++ t) → follows F3 t →
  (4 * length (print_args argv ++ print_redirs rs ++ t) + 2 <= fuel)%nat →
  ∃ argv' rs', parseexec buf es fuel (pos (print_args argv ++ print_redirs rs ++ t)) = Ret (foldl redircmd (EXEC argv') rs') (pos t) ∧
    Forall2 wstands argv' argv ∧ Forall2 rstands rs' rs.
Proof using Hnz.
  intros [Hlen Hw] Hrs Hs Hf Hfuel. set (X := print_args argv ++ print_redirs rs ++ t) in *.
  destruct (follows_facts t Hf) as (Hdt & Het & Hnr & Hnb).
  assert (Hl : (length argv + length argv + length rs + length t <= length X)%nat).
  { unfold X. rewrite !length_app. assert (H1 : (2 * length argv <= length (print_args argv))%nat).
    { clear - Hw. induction Hw as [|w l [Hne _] _ IH]; [done|]. unfold print_args in *. cbn [fmap list_fmap concat]. cbn [length app].
      rewrite length_app. cbn [length]. destruct w; [done|]. cbn [length]. lia. }
    assert (H2 : (length rs <= length (print_redirs rs))%nat).
    { clear. induction rs as [|r l IH]; [done|]. unfold print_redirs in *. cbn [fmap list_fmap concat]. unfold print_redir at 1. cbn [length app].
      rewrite length_app. lia. }
    lia. }
  destruct fuel as [|[|fuel]]; [lia|lia|]. rewrite parseexec_S.
  assert (Hpk : peek buf es [40] (pos X) = Ret false (pos (dropw X))).
  { rewrite peek_pos by done. f_equal. unfold X. destruct argv as [|w argv].
    - destruct rs as [|[[f m] fd] rs].
      + cbn [print_args print_redirs fmap list_fmap concat app]. rewrite Hdt. unfold in_set. rewrite bool_decide_eq_false_2; [done|]. by intros E%list_elem_of_singleton.
      + unfold print_redirs. cbn. by destruct (fd =? 0).
    - apply Forall_cons_iff in Hw as [Hw _]. unfold print_args. cbn [fmap list_fmap concat app dropw].
      change (in_set whitespace 32) with true. cbn iota. rewrite <- !app_assoc.
      destruct (word_head w (concat ((λ w, 32 :: w) <$> argv) ++ print_redirs rs ++ t) Hw) as (Hd & Hwc & Hw0). rewrite Hd.
      apply word_not; [done|done|set_solver]. }
  rewrite (bind_Ret_eq _ _ _ _ _ Hpk). cbn iota. destruct (decide (argv = [])) as [->|Hne].
  - destruct (parseredirs_print rs t (S fuel) Hrs Hs Het ltac:(by rewrite Hdt) ltac:(lia)) as (rs' & Er & Hrs'). rewrite Hdt in Er.
    assert (Er' : parseredirs buf es (S fuel) (pos (dropw X)) = Ret rs' (pos t)) by (rewrite parseredirs_dropw by done; exact Er).
    rewrite (bind_Ret_eq _ _ _ _ _ Er'). assert (Hst : suf t) by exact (suf_app (print_redirs rs) t Hs).
    rewrite (bind_Ret_eq _ _ _ _ _ (loop_end fuel 0 t Hst Hf)). cbn [fst snd]. rewrite app_nil_r. exists [], rs'. split; [done|]. by split.
  - destruct (loop_print argv 0 rs t (S fuel) Hne Hw Hlen Hrs Hs Hf) as (argv' & rs' & El & Ha & Hr).
    { destruct argv; [done|]. cbn [length] in *. lia. }
    assert (Hnone : parseredirs buf es (S fuel) (pos (dropw X)) = Ret [] (pos (dropw X))).
    { rewrite parseredirs_none; [by rewrite dropw_idem|by apply suf_dropw|]. rewrite dropw_idem. destruct argv as [|w argv]; [done|].
      apply Forall_cons_iff in Hw as [Hw _]. unfold X, print_args. cbn [fmap list_fmap concat app dropw].
      change (in_set whitespace 32) with true. cbn iota. rewrite <- app_assoc.
      destruct (word_head w (concat ((λ w, 32 :: w) <$> argv) ++ print_redirs rs ++ t) Hw) as (Hd & Hwc & Hw0).
      rewrite Hd. apply word_not; [done|done|set_solver]. }
    rewrite (bind_Ret_eq _ _ _ _ _ Hnone).
    assert (El' : parseexec_loop buf es (S fuel) 0 (pos (dropw X)) = Ret (argv', rs') (pos t)) by (by rewrite loop_dropw).
    rewrite (bind_Ret_eq _ _ _ _ _ El'). cbn [fst snd app]. exists argv', rs'. done.
Qed.

(** Blocks: a line in parentheses and redirections *)
Lemma block_print b rs t fuel : L0 b → Forall rdr_ok rs → suf (40 :: print 0 b ++ 41 :: print_redirs rs ++ t) → follows F3 t →
  (4 * length (40%Z :: print 0 b ++ 41%Z :: print_redirs rs ++ t) + 2 <= fuel)%nat →
  ∃ p rs', parseexec buf es fuel (pos (40 :: print 0 b ++ 41 :: print_redirs rs ++ t)) = Ret (foldl redircmd p rs') (pos t) ∧
    stands p b ∧ Forall2 rstands rs' rs.
Proof using Hnz.
  intros Hb Hrs Hs Hf Hfuel. destruct (follows_facts t Hf) as (Hdt & Het & Hnr & _).
  set (Y := print_redirs rs ++ t) in *. set (X := print 0 b ++ 41 :: Y) in *. pose proof (suf_cons _ _ Hs) as Hs1.
  assert (HsY : suf Y) by (eapply suf_cons, suf_app; exact Hs1).
  assert (Hs2 : suf (41 :: Y)) by (eapply suf_app; exact Hs1).
  assert (Hl : (length rs <= length Y ∧ length Y < length X)%nat).
  { unfold X, Y. rewrite !length_app. cbn [length]. rewrite length_app. assert (H2 : (length rs <= length (print_redirs rs))%nat); [|lia].
    clear. induction rs as [|r l IH]; [done|]. unfold print_redirs in *. cbn [fmap list_fmap concat]. unfold print_redir at 1. cbn [length app].
    rewrite length_app. lia. }
  cbn [length] in Hfuel. destruct fuel as [|[|[|[|fuel]]]]; [lia..|]. rewrite parseexec_S.
  rewrite (bind_Ret_eq _ _ _ _ _ (peek_symbol [40] 40 X Hs eq_refl)). change (in_set [40] 40) with true. cbn iota.
  rewrite parseblock_S, (bind_Ret_eq _ _ _ _ _ (peek_symbol [40] 40 X Hs eq_refl)). change (negb (in_set [40] 40)) with false. cbn iota.
  rewrite (bind_Ret_eq _ _ _ _ _ (gettoken_symbol 40 X Hs ltac:(set_solver))).
  destruct (Hb (41 :: Y) (S (S fuel)) Hs1 ltac:(right; left) ltac:(fold X; lia)) as (p & Ep & Hp). fold X in Ep.
  assert (Ep' : parseline buf es (S (S fuel)) (pos (dropw X)) = Ret p (pos (41 :: Y))).
  { destruct fuel as [|fuel]; [lia|]. by rewrite line_dropw. }
  rewrite (bind_Ret_eq _ _ _ _ _ Ep'), (bind_Ret_eq _ _ _ _ _ (peek_symbol [41] 41 Y Hs2 eq_refl)).
  change (negb (in_set [41] 41)) with false. cbn iota. rewrite (bind_Ret_eq _ _ _ _ _ (gettoken_symbol 41 Y Hs2 ltac:(set_solver))).
  destruct (parseredirs_print rs t (S (S fuel)) Hrs HsY Het ltac:(by rewrite Hdt) ltac:(lia)) as (rs' & Er & Hrs'). rewrite Hdt in Er. fold Y in Er.
  assert (Er' : parseredirs buf es (S (S fuel)) (pos (dropw Y)) = Ret rs' (pos t)) by (by rewrite parseredirs_dropw).
  rewrite (bind_Ret_eq _ _ _ _ _ Er'). exists p, rs'. done.
Qed.

Lemma L3_of_base c : cmd_ok c → is_exec (base c) ∨ (print 3 (base c) = paren true (print 0 (base c)) ∧ L0 (base c)) → L3 c.
Proof using Hnz.
  intros Hc Hb t fuel Hs Hf Hfuel. destruct (ok_base c Hc) as [Hbase Hrs].
  assert (Ep : print 3 c ++ t = print 3 (base c) ++ print_redirs (redirs c) ++ t) by (by rewrite print_base, <- app_assoc).
  rewrite Ep in *.
  assert (Hst : ∀ p, stands p (foldl wrap (base c) (redirs c)) → stands p c) by (intros p H; by rewrite (base_wrap c)).
  destruct Hb as [Hb|[Epar Hb]].
  - destruct (base c) as [argv| | | |]; try done. cbn [print] in *.
    destruct (exec_print argv (redirs c) t fuel Hbase Hrs Hs Hf Hfuel) as (argv' & rs' & E & Ha & Hr).
    exists (foldl redircmd (EXEC argv') rs'). split; [exact E|]. apply Hst, stands_wrap; [done|by apply stands_exec].
  - rewrite Epar in *. cbn [paren] in *.
    assert (Eb : (40 :: print 0 (base c) ++ [41]) ++ print_redirs (redirs c) ++ t = 40 :: print 0 (base c) ++ 41 :: print_redirs (redirs c) ++ t).
    { cbn [app]. by rewrite <- app_assoc. }
    rewrite Eb in *. destruct (block_print (base c) (redirs c) t fuel Hb Hrs Hs Hf Hfuel) as (p & rs' & E & Hp & Hr).
    exists (foldl redircmd p rs'). split; [exact E|]. by apply Hst, stands_wrap.
Qed.

Lemma F2_F3 t : follows F2 t → follows F3 t.
Proof using. intros H. eapply follows_weaken; [exact H|]. intros x Hx. by right. Qed.
Lemma F0_F2 t : follows F0 t → follows F2 t.
Proof using. intros [->|H]; [by left|right]. apply list_elem_of_singleton in H. rewrite H. left. Qed.

(** From one level to the next, for a command the level has no symbol for. *)
Lemma L2_of_L3 c : print 2 c = print 3 c → L3 c → L2 c.
Proof using Hnz.
  intros E H t fuel Hs Hf Hfuel. rewrite E in *. destruct fuel as [|fuel]; [lia|].
  destruct (H t fuel Hs (F2_F3 t Hf) ltac:(lia)) as (p & Ep & Hp). exists p. split; [|done].
  rewrite parsepipe_S, (bind_Ret_eq _ _ _ _ _ Ep). assert (Hst : suf t) by (by eapply suf_app).
  rewrite (bind_Ret_eq _ _ _ _ _ (peek_follows [124] F2 t Hst Hf ltac:(intros x Hx; by right) ltac:(intros x Hx;
    repeat (apply elem_of_cons in Hx as [->|Hx]; [reflexivity|]); by apply elem_of_nil in Hx))). done.
Qed.

Lemma L1_of_L2 c : print 1 c = print 2 c → L2 c → L1 c.
Proof using Hnz.
  intros E H t fuel Hs Hf Hfuel. rewrite E in *. destruct (H t fuel Hs Hf ltac:(lia)) as (p & Ep & Hp).
  exists p, fuel. split; [by rewrite (bind_Ret_eq _ _ _ _ _ Ep)|]. split; [done|]. rewrite length_app in Hfuel. lia.
Qed.

(** The end of the loop over [&]. *)
Lemma parseback_end fuel p t : suf t → follows F1 t → parseback buf es (S fuel) p (pos t) = Ret p (pos t).
Proof using Hnz.
  intros Hs Hf. cbn [parseback]. rewrite (bind_Ret_eq _ _ _ _ _ (peek_follows [38] F1 t Hs Hf ltac:(intros x Hx;
    repeat (apply elem_of_cons in Hx as [->|Hx]; [set_solver|]); by apply elem_of_nil in Hx) ltac:(intros x Hx;
    repeat (apply elem_of_cons in Hx as [->|Hx]; [reflexivity|]); by apply elem_of_nil in Hx))). done.
Qed.

Lemma L0_of_L1 c : print 0 c = print 1 c → L1 c → L0 c.
Proof using Hnz.
  intros E H t fuel Hs Hf Hfuel. rewrite E in *. destruct fuel as [|fuel]; [lia|].
  assert (Hst : suf t) by (by eapply suf_app).
  destruct (H t fuel Hs (F0_F2 t Hf) ltac:(lia)) as (p & f' & Ep & Hp & Hf'). exists p. split; [|done].
  rewrite parseline_S, <- bind_assoc. destruct f' as [|f']; [lia|].
  assert (Hf1 : follows F1 t) by (destruct Hf as [->|Hf]; [by left|right; apply list_elem_of_singleton in Hf; rewrite Hf; left]).
  rewrite parseback_end in Ep by done. rewrite (bind_Ret_eq _ _ _ _ _ Ep).
  rewrite (bind_Ret_eq _ _ _ _ _ (peek_follows [59] F0 t Hst Hf ltac:(intros x Hx; apply list_elem_of_singleton in Hx as ->; set_solver)
    ltac:(intros x Hx; by apply list_elem_of_singleton in Hx as ->))). done.
Qed.

(** The symbols of the levels *)
Lemma pipe_print l r : L3 l → L2 r → L2 (PIPE l r).
Proof using Hnz.
  intros Hl Hr t fuel Hs Hf Hfuel. cbn [print paren Nat.ltb Nat.leb] in *.
  assert (E : (print 3 l ++ 124 :: print 2 r) ++ t = print 3 l ++ 124 :: print 2 r ++ t) by (by rewrite <- app_assoc).
  rewrite E in *. set (X := print 2 r ++ t) in *. pose proof (suf_app _ _ Hs) as Hs1. pose proof (suf_cons _ _ Hs1) as Hs2.
  assert (Hlen : (length X < length (print 3 l ++ 124%Z :: X))%nat) by (rewrite length_app; cbn [length]; lia).
  destruct fuel as [|[|[|fuel]]]; [lia..|]. destruct (Hl (124 :: X) (S (S fuel)) Hs ltac:(right; left) ltac:(lia)) as (p & Ep & Hp).
  destruct (Hr t (S (S fuel)) Hs2 Hf ltac:(fold X; lia)) as (q & Eq & Hq). fold X in Eq.
  exists (PIPE p q). rewrite parsepipe_S, (bind_Ret_eq _ _ _ _ _ Ep), (bind_Ret_eq _ _ _ _ _ (peek_symbol [124] 124 X Hs1 eq_refl)).
  change (in_set [124] 124) with true. cbn iota. rewrite (bind_Ret_eq _ _ _ _ _ (gettoken_symbol 124 X Hs1 ltac:(set_solver))).
  assert (Eq' : parsepipe buf es (S (S fuel)) (pos (dropw X)) = Ret q (pos t)) by (by rewrite pipe_dropw).
  rewrite (bind_Ret_eq _ _ _ _ _ Eq'). split; [done|]. destruct Hp as [<- Hp], Hq as [<- Hq]. by split.
Qed.

Lemma back_print c : L1 c → L1 (BACK c).
Proof using Hnz.
  intros Hc t fuel Hs Hf Hfuel. cbn [print paren Nat.ltb Nat.leb] in *.
  assert (E : (print 1 c ++ [38]) ++ t = print 1 c ++ 38 :: t) by (by rewrite <- app_assoc).
  rewrite E in *. pose proof (suf_app _ _ Hs) as Hs1. destruct (follows_facts t (F2_F3 t Hf)) as (Hdt & _).
  destruct (Hc (38 :: t) fuel Hs ltac:(right; right; left) ltac:(lia)) as (p & f' & Ep & Hp & Hf'). cbn [length] in Hf'.
  destruct f' as [|f']; [lia|]. exists (BACK p), f'. split; [|split; [|lia]].
  - rewrite Ep. cbn [parseback]. rewrite (bind_Ret_eq _ _ _ _ _ (peek_symbol [38] 38 t Hs1 eq_refl)).
    change (in_set [38] 38) with true. cbn iota. rewrite (bind_Ret_eq _ _ _ _ _ (gettoken_symbol 38 t Hs1 ltac:(set_solver))). by rewrite Hdt.
  - destruct Hp as [<- Hp]. by split.
Qed.

Lemma list_print l r : L1 l → L0 r → L0 (LIST l r).
Proof using Hnz.
  intros Hl Hr t fuel Hs Hf Hfuel. cbn [print paren Nat.ltb Nat.leb] in *.
  assert (E : (print 1 l ++ 59 :: print 0 r) ++ t = print 1 l ++ 59 :: print 0 r ++ t) by (by rewrite <- app_assoc).
  rewrite E in *. set (X := print 0 r ++ t) in *. pose proof (suf_app _ _ Hs) as Hs1. pose proof (suf_cons _ _ Hs1) as Hs2.
  assert (Hlen : (length X < length (print 1 l ++ 59%Z :: X))%nat) by (rewrite length_app; cbn [length]; lia).
  destruct fuel as [|[|[|[|fuel]]]]; [lia..|].
  destruct (Hl (59 :: X) (S (S (S fuel))) Hs ltac:(right; right; right; left) ltac:(lia)) as (p & f' & Ep & Hp & Hf').
  destruct (Hr t (S (S (S fuel))) Hs2 Hf ltac:(fold X; lia)) as (q & Eq & Hq). fold X in Eq.
  exists (LIST p q). rewrite parseline_S, <- bind_assoc. destruct f' as [|f']; [lia|].
  rewrite parseback_end in Ep by (done || (right; right; left)). rewrite (bind_Ret_eq _ _ _ _ _ Ep).
  rewrite (bind_Ret_eq _ _ _ _ _ (peek_symbol [59] 59 X Hs1 eq_refl)).
  change (in_set [59] 59) with true. cbn iota. rewrite (bind_Ret_eq _ _ _ _ _ (gettoken_symbol 59 X Hs1 ltac:(set_solver))).
  assert (Eq' : parseline buf es (S (S (S fuel))) (pos (dropw X)) = Ret q (pos t)) by (by rewrite line_dropw).
  rewrite (bind_Ret_eq _ _ _ _ _ Eq'). split; [done|]. destruct Hp as [<- Hp], Hq as [<- Hq]. by split.
Qed.

(** Every level of the parser reads back what was printed for it. *)
Record reads_back (c : cmd (list Z)) : Prop := mk_reads_back {
  rb_line : L0 c; rb_back : L1 c; rb_pipe : L2 c; rb_exec : L3 c;
  rb_base : is_exec (base c) ∨ (print 3 (base c) = paren true (print 0 (base c)) ∧ L0 (base c));
}.

Lemma parse_print c : cmd_ok c → reads_back c.
Proof using Hnz.
  induction c as [argv|c IH f m fd|l IHl r IHr|l IHl r IHr|c IH]; intros Hc.
  - assert (H3 : L3 (EXEC argv)) by (apply L3_of_base; [done|by left]).
    pose proof (L2_of_L3 (EXEC argv) eq_refl H3) as H2. pose proof (L1_of_L2 (EXEC argv) eq_refl H2) as H1. pose proof (L0_of_L1 (EXEC argv) eq_refl H1) as H0.
    split; try done. by left.
  - destruct (IH (proj1 Hc)) as [_ _ _ _ Hb]. assert (H3 : L3 (REDIR c f m fd)) by (by apply L3_of_base).
    pose proof (L2_of_L3 (REDIR c f m fd) eq_refl H3) as H2. pose proof (L1_of_L2 (REDIR c f m fd) eq_refl H2) as H1. pose proof (L0_of_L1 (REDIR c f m fd) eq_refl H1) as H0. by split.
  - destruct Hc as [Hl Hr]. pose proof (pipe_print l r (rb_exec _ (IHl Hl)) (rb_pipe _ (IHr Hr))) as H2.
    pose proof (L1_of_L2 (PIPE l r) eq_refl H2) as H1. pose proof (L0_of_L1 (PIPE l r) eq_refl H1) as H0.
    assert (Hb : is_exec (base (PIPE l r)) ∨ print 3 (PIPE l r) = paren true (print 0 (PIPE l r)) ∧ L0 (PIPE l r)) by (by right).
    split; try done. by apply L3_of_base.
  - destruct Hc as [Hl Hr]. pose proof (list_print l r (rb_back _ (IHl Hl)) (rb_line _ (IHr Hr))) as H0.
    assert (Hb : is_exec (base (LIST l r)) ∨ print 3 (LIST l r) = paren true (print 0 (LIST l r)) ∧ L0 (LIST l r)) by (by right).
    assert (H3 : L3 (LIST l r)) by (by apply L3_of_base). pose proof (L2_of_L3 (LIST l r) eq_refl H3) as H2. pose proof (L1_of_L2 (LIST l r) eq_refl H2) as H1. by split.
  - pose proof (back_print c (rb_back _ (IH Hc))) as H1. pose proof (L0_of_L1 (BACK c) eq_refl H1) as H0.
    assert (Hb : is_exec (base (BACK c)) ∨ print 3 (BACK c) = paren true (print 0 (BACK c)) ∧ L0 (BACK c)) by (by right).
    assert (H3 : L3 (BACK c)) by (by apply L3_of_base). pose proof (L2_of_L3 (BACK c) eq_refl H3) as H2. by split.
Qed.

(** ** [nulterminate] *)
Fixpoint word_ends (p : cmd word) : list nat :=
  match p with
  | EXEC argv => snd <$> argv
  | REDIR c w _ _ => word_ends c ++ [w.2]
  | PIPE l r | LIST l r => word_ends l ++ word_ends r
  | BACK c => word_ends c
  end.
Definition zero_at (i : nat) (b : list Z) : list Z := <[i := 0]> b.

Lemma nulterminate_ends p : ∀ b, nulterminate p b = foldl (λ b i, zero_at i b) b (word_ends p).
Proof using.
  induction p as [argv|c IH w m fd|l IHl r IHr|l IHl r IHr|c IH]; intros b; cbn [nulterminate word_ends].
  - revert b. induction argv as [|w argv IH]; intros b; [done|]. cbn. apply IH.
  - by rewrite foldl_app, <- IH.
  - by rewrite foldl_app, <- IHl, <- IHr.
  - by rewrite foldl_app, <- IHl, <- IHr.
  - apply IH.
Qed.

Lemma zeroed_lookup es' : ∀ b i, (foldl (λ b i, zero_at i b) b es') !! i = if decide (i ∈ es' ∧ (i < length b)%nat) then Some 0 else b !! i.
Proof using.
  induction es' as [|e es' IH]; intros b i; cbn [foldl].
  { rewrite decide_False; [done|]. intros [H _]. by apply elem_of_nil in H. }
  rewrite IH. assert (Hlen : length (zero_at e b) = length b) by apply length_insert.
  destruct (decide (i ∈ es' ∧ (i < length (zero_at e b))%nat)) as [H|H]; rewrite Hlen in H; unfold zero_at.
  - rewrite decide_True; [done|]. split; [right; apply H|apply H].
  - destruct (decide (e = i)) as [->|Hne].
    + destruct (decide (i < length b)%nat) as [Hl|Hl].
      * rewrite decide_True by (split; [left|done]). by rewrite list_lookup_insert_eq.
      * rewrite decide_False by (intros [_ ?]; done). rewrite list_insert_ge by lia. done.
    + rewrite list_lookup_insert_ne by done. destruct (decide (i ∈ e :: es' ∧ (i < length b)%nat)) as [[Hi Hl]|_]; [|done].
      exfalso. apply H. split; [|done]. apply elem_of_cons in Hi as [->|Hi]; done.
Qed.

Lemma until_nul_spec s : ∀ l, Forall (λ c, c ≠ 0) s → (∀ j, (j < length s)%nat → l !! j = s !! j) → l !! length s = Some 0 → until_nul l = s.
Proof using.
  induction s as [|x s IH]; intros l Hs Hl H0.
  - destruct l as [|y l]; [done|]. injection H0 as ->. done.
  - apply Forall_cons_iff in Hs as [Hx Hs]. destruct l as [|y l]; [done|]. pose proof (Hl 0%nat ltac:(cbn; lia)) as E. injection E as ->.
    cbn. rewrite (proj2 (Z.eqb_neq _ _) Hx). f_equal. apply IH; [done| |exact H0]. intros j Hj. apply (Hl (S j)). cbn. lia.
Qed.

(** The ends of good words are not inside any word. *)
Definition end_pos (i : nat) : Prop := ∃ t, ends t ∧ suf t ∧ i = pos t.

Lemma ends_good p : all_words good p → Forall end_pos (word_ends p).
Proof using.
  assert (Hg : ∀ w, good w → end_pos w.2).
  { intros w (s & t & _ & He & Hs & ->). exists t. split; [done|]. split; [by eapply suf_app|done]. }
  induction p as [argv|c IH w m fd|l IHl r IHr|l IHl r IHr|c IH]; cbn [all_words word_ends].
  - intros H. apply Forall_fmap. eapply Forall_impl; [exact Hg|exact H].
  - intros [H1 H2]. apply Forall_app. split; [by apply IH|]. apply Forall_singleton. by apply Hg.
  - intros [H1 H2]. apply Forall_app. by split; [apply IHl|apply IHr].
  - intros [H1 H2]. apply Forall_app. by split; [apply IHl|apply IHr].
  - apply IH.
Qed.

Lemma arg_good E w : good w → Forall end_pos E → w.2 ∈ E → arg_at (foldl (λ b i, zero_at i b) buf E) w = text w.
Proof using Hnz.
  intros (s & t & Hw & He & Hs & ->) HE Hin. rewrite text_pos by done. cbn [snd] in Hin. unfold arg_at. cbn [fst].
  pose proof (pos_app s t Hs) as Ep. pose proof (suf_len _ Hs) as Hlen. rewrite length_app in Hlen.
  assert (Hchr : ∀ j x, s !! j = Some x → buf !! (pos (s ++ t) + j)%nat = Some x).
  { intros j x Hj. destruct Hs as [pre El]. pose proof (lookup_lt_Some _ _ _ Hj).
    rewrite lookup_app_l by (unfold pos; rewrite length_app; lia). unfold pos. rewrite El, !length_app.
    replace (length pre + (length s + length t) - (length s + length t) + j)%nat with (length pre + j)%nat by lia.
    rewrite lookup_app_r by lia. replace (length pre + j - length pre)%nat with j by lia. by rewrite lookup_app_l. }
  apply until_nul_spec.
  - eapply Forall_impl; [|apply (proj2 Hw)]. by intros x [_ Hx].
  - intros j Hj. rewrite lookup_drop, zeroed_lookup. destruct (lookup_lt_is_Some_2 s j Hj) as [x Hx].
    rewrite decide_False; [by rewrite (Hchr j x Hx), Hx|]. intros [Hj2 _]. rewrite list.Forall_forall in HE.
    destruct (HE _ Hj2) as (t' & He' & Hs' & Epos). pose proof (chr_pos t' Hs') as Ec. rewrite <- Epos in Ec. unfold chr in Ec.
    rewrite (Hchr j x Hx) in Ec. cbn in Ec. destruct Hw as [_ Hw]. pose proof (Forall_lookup_1 _ _ _ _ Hw Hx) as [Hwc Hx0].
    destruct t' as [|y t']; [change (x = 0) in Ec; done|]. change (x = y) in Ec. subst y. cbn in He'. by rewrite Hwc in He'.
  - rewrite lookup_drop, zeroed_lookup, <- Ep. rewrite decide_True; [done|]. split; [done|]. rewrite length_app. cbn [length].
    unfold pos. lia.
Qed.

Lemma cmd_map_ext (E : list nat) p (f g : word → list Z) : (∀ w, good w → w.2 ∈ E → f w = g w) → all_words good p →
  (∀ i, i ∈ word_ends p → i ∈ E) → cmd_map f p = cmd_map g p.
Proof using Hnz.
  intros Hfg. induction p as [argv|c IH w m fd|l IHl r IHr|l IHl r IHr|c IH]; cbn [all_words word_ends cmd_map]; intros Hg Hi.
  - f_equal. apply list_fmap_ext. intros i w Hw. apply Hfg; [by eapply Forall_lookup_1|]. apply Hi, list_elem_of_fmap. exists w. split; [done|].
    by eapply list_elem_of_lookup_2.
  - destruct Hg as [Hg Hw]. f_equal; [apply IH; [done|]; intros i H; apply Hi; set_solver|apply Hfg; [done|apply Hi; set_solver]].
  - destruct Hg as [Hg Hw]. f_equal; [apply IHl|apply IHr]; try done; intros i H; apply Hi; set_solver.
  - destruct Hg as [Hg Hw]. f_equal; [apply IHl|apply IHr]; try done; intros i H; apply Hi; set_solver.
  - f_equal. by apply IH.
Qed.

Lemma parsed_stands p c : stands p c → parsed (p, nulterminate p buf) = c.
Proof using Hnz.
  intros [Hc Hg]. unfold parsed. cbn [fst snd]. rewrite <- Hc. apply (cmd_map_ext (word_ends p)); [|done|done].
  intros w Hw Hin. rewrite nulterminate_ends. apply arg_good; [done|by apply ends_good|done].
Qed.
End line.

Lemma word_nz w : word_ok w → Forall (λ c, c ≠ 0) w.
Proof. intros [_ H]. eapply Forall_impl; [|exact H]. by intros x [_ Hx]. Qed.

Lemma print_nz c : cmd_ok c → ∀ lv, Forall (λ x, x ≠ 0) (print lv c).
Proof.
  assert (Hp : ∀ b t, Forall (λ x, x ≠ 0) t → Forall (λ x, x ≠ 0) (paren b t)).
  { intros [] t Ht; [|done]. cbn. constructor; [done|]. apply Forall_app. split; [done|]. by apply Forall_singleton. }
  induction c as [argv|c IH f m fd|l IHl r IHr|l IHl r IHr|c IH]; cbn [cmd_ok print]; intros H lv.
  - destruct H as [_ H]. unfold print_args. induction H as [|w l Hw _ IH]; [constructor|]. cbn. constructor; [done|].
    apply Forall_app. split; [by apply word_nz|done].
  - destruct H as (Hc & Hf & _). apply Forall_app. split; [by apply IH|]. unfold print_redir. constructor; [by destruct (fd =? 0)|by apply word_nz].
  - destruct H as [Hl Hr]. apply Hp, Forall_app. split; [by apply IHl|]. constructor; [done|by apply IHr].
  - destruct H as [Hl Hr]. apply Hp, Forall_app. split; [by apply IHl|]. constructor; [done|by apply IHr].
  - apply Hp, Forall_app. split; [by apply IH|]. by apply Forall_singleton.
Qed.

(** C31: the shell's parser is total and inverts printing. On every buffer
    with a NUL [parsecmd] returns a command or stops with a syntax error; it
    never runs on. And it reads back every command from its printed line:
    programs with their words, redirections, pipes, lists, background jobs
    and parentheses, nested in any way; the strings at the positions it
    stores, once [nulterminate] has cut the buffer up, are the words of the
    command. *)
Theorem sh_parse_roundtrip :
  (∀ buf, 0 ∈ buf → (∃ r s, parsecmd buf 0%nat = Ret r s) ∨ (∃ msg s, parsecmd buf 0%nat = Panic msg s)) ∧
  (∀ c junk, cmd_ok c → ∃ r, parsecmd (print 0 c ++ 0 :: junk) 0%nat = Ret r (length (print 0 c)) ∧ parsed r = c).
Proof.
  split.
  - intros buf H0. pose proof (parsecmd_total buf H0) as H. unfold reads_ok in H.
    destruct (parsecmd buf 0%nat) as [r s| |msg s|]; [left; by eexists _, _|done|right; by eexists _, _|done].
  - intros c junk Hc. set (line := print 0 c). pose proof (print_nz c Hc 0 : Forall _ line) as Hnz.
    assert (Hs : suf line (print 0 c ++ [])) by (exists []; by rewrite app_nil_r).
    destruct (rb_line _ _ _ (parse_print line junk Hnz c Hc) [] (parse_fuel (length line)) Hs ltac:(by left)) as (p & Ep & Hp).
    { rewrite app_nil_r. unfold parse_fuel. fold line. lia. }
    rewrite app_nil_r in Ep. fold line in Ep. assert (E0 : pos line line = 0%nat) by (unfold pos; lia). rewrite E0 in Ep.
    exists (p, nulterminate p (line ++ 0 :: junk)). split; [|by apply parsed_stands].
    unfold parsecmd. rewrite (strlen_line line junk Hnz). erewrite bind_deref by done. rewrite (bind_Ret_eq _ _ _ _ _ Ep).
    assert (Hsn : suf line []) by (exists line; by rewrite app_nil_r).
    rewrite (bind_Ret_eq _ _ _ _ _ (peek_pos line junk Hnz [] [] Hsn)). change (dropw []) with (@nil Z).
    assert (En : pos line [] = length line) by (unfold pos; cbn; lia). rewrite En, bind_gets, Nat.eqb_refl. done.
Qed.

(** ** [( ls -l <f|wc )&;echo hi >g] *)
Definition demo_cmd : cmd (list Z) :=
  LIST (BACK (BACK (PIPE (REDIR (EXEC [[108; 115]; [45; 108]]) [102] O_RDONLY 0) (EXEC [[119; 99]]))))
       (REDIR (EXEC [[101; 99; 104; 111]; [104; 105]]) [103] (Z.lor O_WRONLY O_CREATE) 1).

Lemma demo_cmd_ok : cmd_ok demo_cmd.
Proof.
  assert (Hw : ∀ w, bool_decide (w ≠ []) && forallb (λ c, wordc c && negb (c =? 0)) w = true → word_ok w).
  { intros w [H1 H2]%andb_true_iff. apply bool_decide_eq_true_1 in H1. split; [done|]. apply Forall_forall. intros c Hc.
    rewrite forallb_forall in H2. specialize (H2 c Hc). apply andb_true_iff in H2 as [H2 H3]. split; [done|]. by apply negb_true_iff, Z.eqb_neq in H3. }
  cbn [demo_cmd cmd_ok]. unfold redir_ok.
  repeat match goal with
  | |- _ ∧ _ => split
  | |- Forall _ _ => constructor
  | |- word_ok _ => apply Hw; vm_compute; reflexivity
  | |- (_ < _)%nat => cbn; unfold MAXARGS; lia
  end; auto.
Qed.

Lemma sh_parse_roundtrip_witness :
  (∃ r s, parsecmd (print 0 demo_cmd ++ [0]) 0%nat = Ret r s ∧ parsed r = demo_cmd) ∧
  ((∃ r s, parsecmd [40; 97; 0] 0%nat = Ret r s) ∨ (∃ msg s, parsecmd [40; 97; 0] 0%nat = Panic msg s)).
Proof.
  destruct sh_parse_roundtrip as [Ht Hr]. split.
  - destruct (Hr demo_cmd [] demo_cmd_ok) as (r & E & H). exists r, (length (print 0 demo_cmd)). split; [exact E|exact H].
  - apply (Ht [40; 97; 0]). right. right. left.
Defined.
