(* ===== verification/ShRun.v ===== *)
(** * ShRun: the programs a command starts, and their files

    The system calls of [runcmd] are run against a table of open files per
    process, in which [open], [dup] and [pipe] take the lowest free
    descriptors. Each program starts with the three descriptors the
    structure of the command gives it and no others. *)

From S2P Require Import Prelude Sh.

Local Open Scope Z_scope.

(** ** Definitions *)

(** An open file: one the shell was given, an opened path, or an end of the
    pipe made by a process. A process is named by its path of forks. *)
Definition pid : Type := list bool.
Inductive ofile : Type :=
  | Given (n : nat)
  | Opened (path : list Z) (mode : Z)
  | PipeRead (maker : pid)
  | PipeWrite (maker : pid).
Definition files : Type := list (option ofile).

(** What may succeed or fail: opening a path, starting a program, forking. *)
Record world : Type := mk_world {
  can_open : list Z → Z → bool;
  can_exec : list (list Z) → bool;
  can_fork : pid → bool;
}.

Definition is_free (f : option ofile) : bool := match f with None => true | Some _ => false end.
Definition lowest (fs : files) : option nat := find_idx is_free fs.

(** A program that was started, and its descriptors. *)
Definition started : Type := list (list Z) * files.

Fixpoint exec_prog (w : world) (me : pid) (fs : files) (p : sysprog) : list started :=
  match p with
  | Exit => []
  | Print _ k => exec_prog w me fs k
  | Exec argv k => if can_exec w argv then [(argv, fs)] else exec_prog w me fs k
  | Open path mode k =>
      match (if can_open w path mode then lowest fs else None) with
      | Some i => exec_prog w me (<[i := Some (Opened path mode)]> fs) (k (Z.of_nat i))
      | None => exec_prog w me fs (k (-1))
      end
  | Close fd k => exec_prog w me (<[Z.to_nat fd := None]> fs) k
  | Dup fd k =>
      match fs !! Z.to_nat fd, lowest fs with
      | Some (Some f), Some i => exec_prog w me (<[i := Some f]> fs) k
      | _, _ => exec_prog w me fs k
      end
  | Pipe k =>
      match lowest fs with
      | Some i =>
          let fs1 := <[i := Some (PipeRead me)]> fs in
          match lowest fs1 with
          | Some j => exec_prog w me (<[j := Some (PipeWrite me)]> fs1) (k (Some (Z.of_nat i, Z.of_nat j)))
          | None => exec_prog w me fs (k None)
          end
      | None => exec_prog w me fs (k None)
      end
  | Fork child parent failed =>
      if can_fork w me then exec_prog w (me ++ [true]) fs child ++ exec_prog w (me ++ [false]) fs parent
      else exec_prog w me fs failed
  | Wait k => exec_prog w me fs k
  end.

(** *** What a command means: its programs and their standard files *)
Definition NOFILE : nat := 16.
Definition std (i o e : ofile) : files := [Some i; Some o; Some e] ++ replicate (NOFILE - 3) None.

Fixpoint meaning (w : world) (me : pid) (i o e : ofile) (c : cmd (list Z)) : list started :=
  match c with
  | EXEC [] => []
  | EXEC (a :: argv) => if can_exec w (a :: argv) then [(a :: argv, std i o e)] else []
  | REDIR c path mode fd =>
      if can_open w path mode then
        if fd =? 0 then meaning w me (Opened path mode) o e c else meaning w me i (Opened path mode) e c
      else []
  | LIST l r => if can_fork w me then meaning w (me ++ [true]) i o e l ++ meaning w (me ++ [false]) i o e r else []
  | PIPE l r =>
      if can_fork w me then
        meaning w (me ++ [true]) i (PipeWrite me) e l ++
        (if can_fork w (me ++ [false]) then meaning w ((me ++ [false]) ++ [true]) (PipeRead me) o e r else [])
      else []
  | BACK c => if can_fork w me then meaning w (me ++ [true]) i o e c else []
  end.

(** Redirections are of descriptors 0 and 1, as the parser makes them. *)
Fixpoint redirs_std {W} (c : cmd W) : Prop :=
  match c with
  | EXEC _ => True
  | REDIR c _ _ fd => redirs_std c ∧ (fd = 0 ∨ fd = 1)
  | PIPE l r | LIST l r => redirs_std l ∧ redirs_std r
  | BACK c => redirs_std c
  end.

(** ** Running is meaning *)
Lemma runcmd_meaning w c : redirs_std c → ∀ me i o e, exec_prog w me (std i o e) (runcmd c) = meaning w me i o e c.
Proof.
  induction c as [argv|c IH path mode fd|l IHl r IHr|l IHl r IHr|c IH]; intros Hc me i o e; cbn [runcmd meaning exec_prog].
  - destruct argv as [|a argv]; [done|]. cbn [exec_prog]. by destruct (can_exec w (a :: argv)).
  - destruct Hc as [Hc Hfd]. destruct (can_open w path mode) eqn:Eo; [|done].
    destruct Hfd as [-> | ->]; cbn [Z.eqb]; apply (IH Hc).
  - destruct Hc as [Hl Hr]. unfold fork1. cbn. destruct (can_fork w me) eqn:E1; [|done].
    change (exec_prog w (me ++ [true]) (std i (PipeWrite me) e) (runcmd l) ++
      (if can_fork w (me ++ [false]) then exec_prog w ((me ++ [false]) ++ [true]) (std (PipeRead me) o e) (runcmd r) ++ [] else []) =
      meaning w (me ++ [true]) i (PipeWrite me) e l ++
      (if can_fork w (me ++ [false]) then meaning w ((me ++ [false]) ++ [true]) (PipeRead me) o e r else [])).
    rewrite (IHl Hl). f_equal. destruct (can_fork w (me ++ [false])); [|done]. by rewrite app_nil_r, (IHr Hr).
  - destruct Hc as [Hl Hr]. unfold fork1. cbn [exec_prog]. destruct (can_fork w me); [|done]. by rewrite (IHl Hl), (IHr Hr).
  - unfold fork1. cbn [exec_prog]. destruct (can_fork w me); [|done]. by rewrite (IH Hc), app_nil_r.
Qed.

Lemma meaning_std w c : ∀ me i o e, Forall (λ st, ∃ i o e, st.2 = std i o e) (meaning w me i o e c).
Proof.
  induction c as [argv|c IH path mode fd|l IHl r IHr|l IHl r IHr|c IH]; intros me i o e; cbn [meaning].
  - destruct argv as [|a argv]; [constructor|]. destruct (can_exec w (a :: argv)); [|constructor]. constructor; [|constructor]. by exists i, o, e.
  - destruct (can_open w path mode); [|constructor]. by destruct (fd =? 0).
  - destruct (can_fork w me); [|constructor]. apply Forall_app. split; [done|]. by destruct (can_fork w (me ++ [false])).
  - destruct (can_fork w me); [|constructor]. by apply Forall_app.
  - by destruct (can_fork w me).
Qed.

(** ** The parser makes such commands *)
Lemma redir_of_std tok q eq : Forall (λ r : redir, r.2 = 0 ∨ r.2 = 1) (redir_of tok q eq).
Proof.
  unfold redir_of. destruct (tok =? 60); [|destruct (tok =? 62); [|destruct (tok =? 43); [|constructor]]];
    (constructor; [cbn; tauto|constructor]).
Qed.

Lemma wrap_std rs : ∀ c, redirs_std c → Forall (λ r : redir, r.2 = 0 ∨ r.2 = 1) rs → redirs_std (foldl redircmd c rs).
Proof.
  induction rs as [|[[w m] fd] rs IH]; intros c Hc H; [done|]. apply Forall_cons_iff in H as [H1 H2]. cbn [foldl]. by apply IH.
Qed.

Section std.
Variables (buf : list Z) (es : nat).
Notation wps m Q := (∀ s, wp True m Q (λ _ _, True) s).

Lemma parseredirs_std fuel : wps (parseredirs buf es fuel) (λ rs _, Forall (λ r : redir, r.2 = 0 ∨ r.2 = 1) rs).
Proof using.
  induction fuel as [|fuel IH]; intros s; [done|]. cbn [parseredirs]. apply wp_bind. unfold wp at 1, peek. destruct (negb (negb _ && _)); [constructor|].
  apply wp_bind. unfold wp at 1, gettoken. destruct (gettoken_at _ _ _) as [[[tok q1] e1] s1]. apply wp_bind. unfold wp at 1.
  destruct (gettoken_at buf es s1) as [[[tok2 q2] e2] s2]. destruct (negb _); [done|]. apply wp_bind. eapply wp_mono; [apply IH| |done].
  intros rs s3 H. apply wp_ret, Forall_app. split; [apply redir_of_std|done].
Qed.

Lemma parseexec_loop_std fuel : ∀ argc, wps (parseexec_loop buf es fuel argc) (λ r _, Forall (λ r : redir, r.2 = 0 ∨ r.2 = 1) r.2).
Proof using.
  induction fuel as [|fuel IH]; intros argc s; [done|]. cbn [parseexec_loop]. apply wp_bind. unfold wp at 1, peek. destruct (negb _ && _); [constructor|].
  apply wp_bind. unfold wp at 1, gettoken. destruct (gettoken_at _ _ _) as [[[tok q1] e1] s1]. destruct (_ =? 0); [constructor|].
  destruct (negb _); [done|]. destruct (_ <=? _)%nat; [done|]. apply wp_bind. eapply wp_mono; [apply parseredirs_std| |done]. intros rs s2 H1.
  apply wp_bind. eapply wp_mono; [apply IH| |done]. intros r s3 H2. apply wp_ret, Forall_app. by split.
Qed.

Lemma parseback_std fuel : ∀ c, redirs_std c → wps (parseback buf es fuel c) (λ c _, redirs_std c).
Proof using.
  induction fuel as [|fuel IH]; intros c Hc s; [done|]. cbn [parseback]. apply wp_bind. unfold wp at 1, peek. destruct (negb _ && _); [|done].
  apply wp_bind. unfold wp at 1, gettoken. destruct (gettoken_at _ _ _) as [[[tok q1] e1] s1]. by apply (IH (BACK c)).
Qed.

Lemma parse_std fuel :
  wps (parseline buf es fuel) (λ c _, redirs_std c) ∧ wps (parsepipe buf es fuel) (λ c _, redirs_std c) ∧
  wps (parseexec buf es fuel) (λ c _, redirs_std c) ∧ wps (parseblock buf es fuel) (λ c _, redirs_std c).
Proof using.
  induction fuel as [|fuel (IHl & IHp & IHe & IHb)]; [done|].
  assert (Htok : ∀ A (m : P A) Q s, wps m Q → wp True (gettoken buf es ;; m) Q (λ _ _, True) s).
  { intros A m Q s Hm. apply wp_bind. unfold wp at 1, gettoken. destruct (gettoken_at _ _ _) as [[[tok q1] e1] s1]. apply Hm. }
  assert (Hpeek : ∀ A toks (m1 m2 : P A) Q s, wps m1 Q → wps m2 Q → wp True (b <- peek buf es toks ;; if b then m1 else m2) Q (λ _ _, True) s).
  { intros A toks m1 m2 Q s H1 H2. apply wp_bind. unfold wp at 1, peek. destruct (negb _ && _); [apply H1|apply H2]. }
  assert (Hpeekn : ∀ A toks (m1 m2 : P A) Q s, wps m1 Q → wps m2 Q → wp True (b <- peek buf es toks ;; if negb b then m1 else m2) Q (λ _ _, True) s).
  { intros A toks m1 m2 Q s H1 H2. apply wp_bind. unfold wp at 1, peek. destruct (negb _ && _); [apply H2|apply H1]. }
  repeat split; intros s.
  - cbn [parseline]. apply wp_bind. eapply wp_mono; [apply IHp| |done]. intros c s1 Hc. apply wp_bind. eapply wp_mono; [by apply parseback_std| |done].
    intros c2 s2 Hc2. apply Hpeek; [|done]. intros s3. apply Htok. intros s4. apply wp_bind. eapply wp_mono; [apply IHl| |done]. intros r s5 Hr. by apply wp_ret.
  - cbn [parsepipe]. apply wp_bind. eapply wp_mono; [apply IHe| |done]. intros c s1 Hc.
    apply Hpeek; [|done]. intros s3. apply Htok. intros s4. apply wp_bind. eapply wp_mono; [apply IHp| |done]. intros r s5 Hr. by apply wp_ret.
  - cbn [parseexec]. apply Hpeek; [exact IHb|]. intros s1. apply wp_bind. eapply wp_mono; [apply parseredirs_std| |done]. intros rs s2 Hrs.
    apply wp_bind. eapply wp_mono; [apply parseexec_loop_std| |done]. intros r s3 Hr. apply wp_ret, wrap_std; [done|]. apply Forall_app. by split.
  - cbn [parseblock]. apply Hpeekn; [done|]. intros s1. apply Htok. intros s2. apply wp_bind. eapply wp_mono; [apply IHl| |done]. intros c s3 Hc.
    apply Hpeekn; [done|]. intros s4. apply Htok. intros s5. apply wp_bind. eapply wp_mono; [apply parseredirs_std| |done]. intros rs s6 Hrs.
    by apply wp_ret, wrap_std.
Qed.
End std.

Lemma redirs_std_map {V W} (f : V → W) c : redirs_std c → redirs_std (cmd_map f c).
Proof. induction c; cbn; tauto. Qed.

Lemma parsecmd_std buf r s : parsecmd buf 0%nat = Ret r s → redirs_std (parsed r).
Proof.
  intros E. assert (Hwp : wp True (parsecmd buf) (λ r _, redirs_std (parsed r)) (λ _ _, True) 0%nat); [|exact (wp_Ret_inv _ _ _ _ _ _ _ Hwp E)].
  unfold parsecmd. apply wp_bind. destruct (strlen buf) as [es|]; [|done]. apply wp_ret. apply wp_bind.
  eapply wp_mono; [apply parse_std| |done]. intros c s1 Hc. apply wp_bind. unfold wp at 1, peek. apply wp_bind, wp_gets.
  destruct (negb _); [done|]. apply wp_ret. unfold parsed. cbn [fst snd]. by apply redirs_std_map.
Qed.

(** C32: a command line runs the programs it says, with the files it says.
    For every line the parser accepts, and whatever opens, programs and
    forks succeed, the system calls [runcmd] makes start exactly the
    programs of the command's meaning: the left side of a pipe writes where
    the right side reads, a redirection replaces standard input or output of
    all it wraps, lists and background jobs inherit; nothing runs behind a
    failed open or fork. Every program starts with descriptors 0, 1 and 2
    and no others, so no end of a pipe stays open by accident. *)
Theorem runcmd_runs_meaning buf r s w me i o e : parsecmd buf 0%nat = Ret r s →
  exec_prog w me (std i o e) (runcmd (parsed r)) = meaning w me i o e (parsed r) ∧
  Forall (λ st, ∃ i o e, st.2 = std i o e) (exec_prog w me (std i o e) (runcmd (parsed r))).
Proof.
  intros E. pose proof (parsecmd_std _ _ _ E) as H. rewrite (runcmd_meaning w _ H). split; [done|apply meaning_std].
Qed.

(** [a<f|b>g] *)
Definition demo_line : list Z := [97; 60; 102; 124; 98; 62; 103; 0].
Definition demo_world : world := mk_world (λ _ _, true) (λ _, true) (λ _, true).

Lemma runcmd_runs_meaning_witness : ∃ r s, parsecmd demo_line 0%nat = Ret r s ∧
  exec_prog demo_world [] (std (Given 0) (Given 1) (Given 2)) (runcmd (parsed r)) =
    [([[97]], std (Opened [102] O_RDONLY) (PipeWrite []) (Given 2));
     ([[98]], std (PipeRead []) (Opened [103] (Z.lor O_WRONLY O_CREATE)) (Given 2))].
Proof.
  eexists _, _. split; [vm_compute; reflexivity|].
  rewrite (proj1 (runcmd_runs_meaning demo_line _ _ demo_world [] (Given 0) (Given 1) (Given 2) ltac:(vm_compute; reflexivity))).
  vm_compute. reflexivity.
Defined.
