(* ===== verification/Cake.v ===== *)
(** * Cake: the cake factory (IPC/CakeFactory/CakeFactory.cpp)

    Two chefs put cakes into a bounded queue, a third carries them to the
    queue of their kind, and a waiter per kind sells them. The five threads
    are lists of the statements that touch shared data, each one atomic, run
    by an interleaving step function. What C++ leaves undefined (the front of
    an empty queue, unlocking another thread's mutex, flowing off the end of
    a thread function) is an outcome of its own. *)

From stdpp Require Import base list functions strings pretty.
From S2P Require Import Prelude.

Local Open Scope Z_scope.

(** ** Definitions *)
Definition MAX_NO_OF_PRODUCDED_CAKES : Z := 5.
Definition MAX_NO_OF_VANILLA_CAKES : Z := 5.
Definition MAX_NO_OF_CHOCOLATE_CAKES : Z := 5.

Definition NL : string := String (Ascii.ascii_of_nat 10) "".

Definition cake_t : Type := string.
Definition chef_t : Type := string.
Definition CAKE_CHOCOLATE : cake_t := "Chocolate Cake".
Definition CAKE_VANILLA : cake_t := "Vanilla Cake".
Definition CHEF_X : chef_t := "Chef_X".
Definition CHEF_Y : chef_t := "Chef_Y".
Definition CHEF_Z : chef_t := "Chef_Z".
Definition WAITER_VANILLA : string := "Vanilla Waiter".
Definition WAITER_CHOCOLATE : string := "Chocolate Waiter".

Inductive thread : Type := threadChefX | threadChefY | threadChefZ | threadWaiterChocolate | threadWaiterVanilla.
Inductive mutex : Type := lock_console | lock_Q1 | lock_VanillaQ | lock_ChocolateQ.
Inductive sem : Type := q1_full | q1_empty | qVanilla_full | qVanilla_empty | qChocolate_full | qChocolate_empty.
#[export] Instance thread_eq_dec : EqDecision thread.
Proof. solve_decision. Defined.
#[export] Instance mutex_eq_dec : EqDecision mutex.
Proof. solve_decision. Defined.
#[export] Instance sem_eq_dec : EqDecision sem.
Proof. solve_decision. Defined.

(** A printed message may contain the thread's local variables. *)
Inductive piece : Type := Lit (s : string) | VarTop | VarCake | VarSize.

(** The statements on shared data; [IChoose] is the test of [topCakeQ1]. *)
Inductive instr : Type :=
  | IWait (s : sem) | IPost (s : sem)
  | ILock (m : mutex) | IUnlock (m : mutex)
  | IPush (c : cake_t)         (* q1.push(cake) *)
  | IPop                       (* q1.pop() *)
  | ISize                      (* qSize = q1.size() *)
  | IFrontTop                  (* topCakeQ1 = q1.front() *)
  | IFrontCake                 (* cake = q1.front() *)
  | IIncVanilla | IIncChocolate (* qSize = ++n *)
  | IDecVanilla | IDecChocolate (* qSize = --n *)
  | IOut (msg : list piece)    (* cout << msg << endl << endl *)
  | IChoose.
#[export] Instance piece_eq_dec : EqDecision piece.
Proof. solve_decision. Defined.
#[export] Instance instr_eq_dec : EqDecision instr.
Proof. solve_decision. Defined.

(** *** The routines *)
Definition semaphoreP (s : sem) : list instr := [IWait s].
Definition semaphoreV (s : sem) : list instr := [IPost s].
Definition lock (m : mutex) : list instr := [ILock m].
Definition unlock (m : mutex) : list instr := [IUnlock m].
Definition printInConsole (msg : list piece) : list instr := [IOut msg].
Definition printInConsoleWithLocking (msg : list piece) : list instr :=
  lock lock_console ++ [IOut msg] ++ unlock lock_console.

Definition putInQ1 (chef : chef_t) (cake : cake_t) : list instr :=
  lock lock_Q1 ++ [IPush cake; ISize] ++ semaphoreV q1_full ++
  lock lock_console ++ unlock lock_Q1 ++
  printInConsole [Lit (chef ++ " has just put a " ++ cake ++ " in Queue1" ++ NL ++ "#Cakes in Q1: "); VarSize] ++
  unlock lock_console.

Definition popFromQ1 (chef : chef_t) : list instr :=
  lock lock_Q1 ++ [IFrontCake; IPop; ISize] ++ semaphoreV q1_empty ++
  lock lock_console ++ unlock lock_Q1 ++
  printInConsole [Lit (chef ++ " has just taken a "); VarCake; Lit (" from Queue1" ++ NL ++ "#Cakes in Q1: "); VarSize] ++
  unlock lock_console.

Definition lookIntoQ1 (chef : chef_t) : list instr :=
  lock lock_Q1 ++ [IFrontTop] ++ unlock lock_Q1 ++
  printInConsoleWithLocking [Lit (chef ++ " has checked and found "); VarTop; Lit (" at top of Queue1" ++ NL)].

(** The bodies of the thread functions' loops. *)
Definition supply (chef : chef_t) (cake : cake_t) : list instr :=
  printInConsoleWithLocking [Lit (">> " ++ chef ++ " is waiting to put a " ++ cake ++ " in Q1.....")] ++
  semaphoreP q1_empty ++
  printInConsoleWithLocking [Lit (">> " ++ chef ++ " has started supplying " ++ cake ++ " in Q1.")] ++
  putInQ1 chef cake.
Definition vanillaChef : list instr := supply CHEF_Y CAKE_VANILLA.
Definition chocolateChef : list instr := supply CHEF_X CAKE_CHOCOLATE.

Definition carry (q : string) (empty full : sem) (lk : mutex) (inc : instr) (what : string) : list instr :=
  printInConsoleWithLocking [Lit (">> " ++ CHEF_Z ++ " is waiting to put a "); VarTop; Lit (" in " ++ q ++ ".....")] ++
  semaphoreP empty ++
  printInConsoleWithLocking [Lit (">> " ++ CHEF_Z ++ " has started supplying "); VarTop; Lit (" in " ++ q ++ ".")] ++
  popFromQ1 CHEF_Z ++
  lock lk ++ [inc] ++ unlock lk ++
  lock lock_console ++ semaphoreV full ++
  printInConsole [Lit (CHEF_Z ++ " has just put a "); VarCake; Lit (" in " ++ q ++ NL ++ "#Cakes in " ++ what ++ ": "); VarSize] ++
  unlock lock_console.
Definition carrierChef_if (topCakeQ1 : cake_t) : list instr :=
  if decide (topCakeQ1 = CAKE_VANILLA) then
    carry "Queue_Vanilla" qVanilla_empty qVanilla_full lock_VanillaQ IIncVanilla "QVanilla"
  else if decide (topCakeQ1 = CAKE_CHOCOLATE) then
    carry "Queue_Chocolate" qChocolate_empty qChocolate_full lock_ChocolateQ IIncChocolate "QChocolate"
  else [].
Definition carrierChef : list instr :=
  printInConsoleWithLocking [Lit (">> " ++ CHEF_Z ++ " is waiting to take a Cake From Q1.....")] ++
  semaphoreP q1_full ++
  printInConsoleWithLocking [Lit (">> " ++ CHEF_Z ++ " has started looking into Q1.")] ++
  lookIntoQ1 CHEF_Z ++ [IChoose].

Definition sell (waiter : string) (cake q : string) (full empty : sem) (lk : mutex) (dec : instr) (what : string) : list instr :=
  printInConsoleWithLocking [Lit (">> " ++ waiter ++ " is waiting to take " ++ cake ++ ".....")] ++
  semaphoreP full ++
  printInConsoleWithLocking [Lit (">> " ++ waiter ++ " has started selling  from " ++ q ++ ".")] ++
  lock lk ++ [dec] ++ semaphoreV empty ++
  lock lock_console ++ unlock lk ++
  printInConsole [Lit (waiter ++ " has just sold a cake from " ++ q ++ NL ++ "#Cakes in " ++ what ++ ": "); VarSize] ++
  unlock lock_console.
Definition vanillaWaiter : list instr :=
  sell WAITER_VANILLA CAKE_VANILLA "Queue_Vanilla" qVanilla_full qVanilla_empty lock_VanillaQ IDecVanilla "QVanilla".
Definition chocolateWaiter : list instr :=
  sell WAITER_CHOCOLATE CAKE_CHOCOLATE "Queue_Chocolate" qChocolate_full qChocolate_empty lock_ChocolateQ IDecChocolate "QChocolate".

(** *** The shared state and the threads *)
Record tstate : Type := mk_tstate {
  t_code : list instr;   (* what is left of the current pass *)
  t_top : cake_t;        (* topCakeQ1 *)
  t_cake : cake_t;       (* cake *)
  t_size : Z;            (* qSize *)
}.
Record state : Type := mk_state {
  timeoutPassed : bool;
  q1 : list cake_t;
  nVanilla : Z;
  nChocolate : Z;
  semval : sem → Z;
  owner : mutex → option thread;
  cout : list string;    (* the latest message first *)
  threads : thread → tstate;
}.

Definition set_code (c : list instr) (t : tstate) : tstate := mk_tstate c (t_top t) (t_cake t) (t_size t).
Definition set_top (v : cake_t) (t : tstate) : tstate := mk_tstate (t_code t) v (t_cake t) (t_size t).
Definition set_cake (v : cake_t) (t : tstate) : tstate := mk_tstate (t_code t) (t_top t) v (t_size t).
Definition set_size (v : Z) (t : tstate) : tstate := mk_tstate (t_code t) (t_top t) (t_cake t) v.

Definition upd_thread (t : thread) (f : tstate → tstate) (s : state) : state :=
  mk_state (timeoutPassed s) (q1 s) (nVanilla s) (nChocolate s) (semval s) (owner s) (cout s) (<[t := f (threads s t)]> (threads s)).
Definition set_q1 (q : list cake_t) (s : state) : state :=
  mk_state (timeoutPassed s) q (nVanilla s) (nChocolate s) (semval s) (owner s) (cout s) (threads s).
Definition set_vanilla (n : Z) (s : state) : state :=
  mk_state (timeoutPassed s) (q1 s) n (nChocolate s) (semval s) (owner s) (cout s) (threads s).
Definition set_chocolate (n : Z) (s : state) : state :=
  mk_state (timeoutPassed s) (q1 s) (nVanilla s) n (semval s) (owner s) (cout s) (threads s).
Definition add_sem (x : sem) (d : Z) (s : state) : state :=
  mk_state (timeoutPassed s) (q1 s) (nVanilla s) (nChocolate s) (<[x := semval s x + d]> (semval s)) (owner s) (cout s) (threads s).
Definition set_owner (m : mutex) (o : option thread) (s : state) : state :=
  mk_state (timeoutPassed s) (q1 s) (nVanilla s) (nChocolate s) (semval s) (<[m := o]> (owner s)) (cout s) (threads s).
Definition add_out (msg : string) (s : state) : state :=
  mk_state (timeoutPassed s) (q1 s) (nVanilla s) (nChocolate s) (semval s) (owner s) (msg :: cout s) (threads s).

(** The text of a message. *)
Definition show_piece (t : tstate) (p : piece) : string :=
  match p with Lit s => s | VarTop => t_top t | VarCake => t_cake t | VarSize => pretty (t_size t) end.
Definition show (t : tstate) (msg : list piece) : string := String.concat "" (show_piece t <$> msg).

(** [size_t] arithmetic *)
Definition u64 (x : Z) : Z := x mod 2 ^ 64.

Definition body (t : thread) : list instr :=
  match t with
  | threadChefX => chocolateChef
  | threadChefY => vanillaChef
  | threadChefZ => carrierChef
  | threadWaiterChocolate => chocolateWaiter
  | threadWaiterVanilla => vanillaWaiter
  end.

(** Blocked, undefined behaviour, or the next state. *)
Inductive outcome : Type := Blocked | Undefined | Next (s : state).

(** The effect of one statement of thread [t]. *)
Definition exec (t : thread) (i : instr) (s : state) : outcome :=
  match i with
  | IWait x => if semval s x <=? 0 then Blocked else Next (add_sem x (-1) s)
  | IPost x => Next (add_sem x 1 s)
  | ILock m => match owner s m with None => Next (set_owner m (Some t) s) | Some _ => Blocked end
  | IUnlock m => if decide (owner s m = Some t) then Next (set_owner m None s) else Undefined
  | IPush c => Next (set_q1 (q1 s ++ [c]) s)
  | IPop => match q1 s with [] => Undefined | _ :: q => Next (set_q1 q s) end
  | ISize => Next (upd_thread t (set_size (Z.of_nat (length (q1 s)))) s)
  | IFrontTop => match q1 s with [] => Undefined | c :: _ => Next (upd_thread t (set_top c) s) end
  | IFrontCake => match q1 s with [] => Undefined | c :: _ => Next (upd_thread t (set_cake c) s) end
  | IIncVanilla => let n := u64 (nVanilla s + 1) in Next (upd_thread t (set_size n) (set_vanilla n s))
  | IIncChocolate => let n := u64 (nChocolate s + 1) in Next (upd_thread t (set_size n) (set_chocolate n s))
  | IDecVanilla => let n := u64 (nVanilla s - 1) in Next (upd_thread t (set_size n) (set_vanilla n s))
  | IDecChocolate => let n := u64 (nChocolate s - 1) in Next (upd_thread t (set_size n) (set_chocolate n s))
  | IOut msg => Next (add_out (show (threads s t) msg) s)
  | IChoose => Next (upd_thread t (λ x, set_code (carrierChef_if (t_top x) ++ t_code x) x) s)
  end.

(** One step of thread [t]: its next statement, or [while(!timeoutPassed)]. *)
Definition step (t : thread) (s : state) : outcome :=
  match t_code (threads s t) with
  | i :: c => exec t i (upd_thread t (set_code c) s)
  | [] => if timeoutPassed s then Undefined else Next (upd_thread t (set_code (body t)) s)
  end.

(** [main] after [initLocks] and the [pthread_create]s. *)
Definition started (arg : string) : tstate := mk_tstate (printInConsoleWithLocking [Lit arg]) "" "" 0.
Definition initLocks (x : sem) : Z :=
  match x with
  | q1_empty => MAX_NO_OF_PRODUCDED_CAKES | q1_full => 0
  | qVanilla_empty => MAX_NO_OF_VANILLA_CAKES | qVanilla_full => 0
  | qChocolate_empty => MAX_NO_OF_CHOCOLATE_CAKES | qChocolate_full => 0
  end.
Definition thread_arg (t : thread) : string :=
  match t with
  | threadChefX => NL ++ ">>> Chef X Started" ++ NL
  | threadChefY => NL ++ ">>> Chef Y Started" ++ NL
  | threadChefZ => NL ++ ">>> Chef Z Started" ++ NL
  | threadWaiterChocolate => NL ++ ">>> Chocolate Waiter Started" ++ NL
  | threadWaiterVanilla => NL ++ ">>> Vanilla Waiter Started" ++ NL
  end.
Definition main : state :=
  mk_state false [] 0 0 initLocks (λ _, None) [] (λ t, started (thread_arg t)).

(** Runs: the threads that take the steps, in order. *)
Inductive run : list thread → state → state → Prop :=
  | run_nil s : run [] s s
  | run_step t ts s s1 s' : step t s = Next s1 → run ts s1 s' → run (t :: ts) s s'.
Definition reachable (s : state) : Prop := ∃ ts, run ts main s.

(** The step sells a cake: a waiter takes one out of his queue. *)
Definition sells (t : thread) (s : state) : bool :=
  match t_code (threads s t) with
  | IDecVanilla :: _ | IDecChocolate :: _ => true
  | _ => false
  end.
