(* ===== verification/CakeSpec.v ===== *)
(** * CakeSpec: the cake factory is safe and never stops selling

    Every quantity the semaphores count is conserved: what the threads still
    owe is read off the code left in their passes. From these balances, the
    owners of the mutexes and the places in the code follow the absence of
    undefined behaviour and of deadlock, and a bound on the steps between
    two sales. *)

From stdpp Require Import base list functions strings pretty.
From S2P Require Import Prelude Cake.

Local Open Scope Z_scope.

(** ** Definitions *)

(** The places in a pass: the suffixes of the code. *)
Fixpoint tails {A} (l : list A) : list (list A) :=
  l :: match l with [] => [] | _ :: l' => tails l' end.

Definition places (t : thread) : list (list instr) :=
  match t with
  | threadChefZ => tails carrierChef ++ tails (carrierChef_if CAKE_VANILLA) ++ tails (carrierChef_if CAKE_CHOCOLATE)
  | _ => tails (body t)
  end.

(** Before the first pass a thread only prints its argument. *)
Definition place_list (t : thread) : list (list instr) :=
  places t ++ tails (printInConsoleWithLocking [Lit (thread_arg t)]).

(** The thread holds the mutex: its next operation on it is an unlock. *)
Fixpoint holds (m : mutex) (c : list instr) : bool :=
  match c with
  | ILock m' :: c => if decide (m = m') then false else holds m c
  | IUnlock m' :: c => if decide (m = m') then true else holds m c
  | _ :: c => holds m c
  | [] => false
  end.

Definition code (s : state) (t : thread) : list instr := t_code (threads s t).

(** A quantity: what a statement adds to it, and its value in a state. *)
Record quantity : Type := mk_quantity {
  adds : instr → Z;
  value : state → Z;
}.
(** What the code left in a pass still adds; both kinds of cake alike. *)
Definition owed (d : instr → Z) (c : list instr) : Z :=
  foldr (λ i n, d i + (if decide (i = IChoose) then foldr (λ i n, d i + n) 0 (carrierChef_if CAKE_VANILLA) else 0) + n) 0 c.

Definition all_threads : list thread := [threadChefX; threadChefY; threadChefZ; threadWaiterChocolate; threadWaiterVanilla].
Definition total (f : thread → Z) : Z := foldr (λ t n, f t + n) 0 all_threads.
Definition balance (q : quantity) (s : state) : Z := value q s + total (λ t, owed (adds q) (code s t)).

Definition sem_adds (x : sem) (i : instr) : Z :=
  match i with
  | IWait y => if decide (x = y) then -1 else 0
  | IPost y => if decide (x = y) then 1 else 0
  | _ => 0
  end.
Definition q1_adds (i : instr) : Z := match i with IPush _ => 1 | IPop => -1 | _ => 0 end.
Definition vanilla_adds (i : instr) : Z := match i with IIncVanilla => 1 | IDecVanilla => -1 | _ => 0 end.
Definition chocolate_adds (i : instr) : Z := match i with IIncChocolate => 1 | IDecChocolate => -1 | _ => 0 end.

(** Free and taken places of the three queues. *)
Definition q1_free : quantity := mk_quantity (λ i, sem_adds q1_empty i + q1_adds i) (λ s, semval s q1_empty + Z.of_nat (length (q1 s))).
Definition q1_used : quantity := mk_quantity (λ i, sem_adds q1_full i - q1_adds i) (λ s, semval s q1_full - Z.of_nat (length (q1 s))).
Definition vanilla_free : quantity := mk_quantity (λ i, sem_adds qVanilla_empty i + vanilla_adds i) (λ s, semval s qVanilla_empty + nVanilla s).
Definition vanilla_used : quantity := mk_quantity (λ i, sem_adds qVanilla_full i - vanilla_adds i) (λ s, semval s qVanilla_full - nVanilla s).
Definition chocolate_free : quantity := mk_quantity (λ i, sem_adds qChocolate_empty i + chocolate_adds i) (λ s, semval s qChocolate_empty + nChocolate s).
Definition chocolate_used : quantity := mk_quantity (λ i, sem_adds qChocolate_full i - chocolate_adds i) (λ s, semval s qChocolate_full - nChocolate s).

(** Chef Z has looked at the first cake and will take it. *)
Definition looked (c : list instr) : bool :=
  bool_decide (IPop ∈ c) || bool_decide (IChoose ∈ c) && negb (bool_decide (IFrontTop ∈ c)).
Definition kind (c : cake_t) : Prop := c = CAKE_VANILLA ∨ c = CAKE_CHOCOLATE.

(** Chef Z is on his way to the queue of [c]: the cake he saw, and then the
    one he has taken, is [c]. *)
Definition brings (c : cake_t) (inc : instr) (s : state) : Prop :=
  let z := threads s threadChefZ in
  inc ∈ t_code z → t_top z = c ∧ (IFrontCake ∉ t_code z → t_cake z = c).

Record inv (s : state) : Prop := mk_inv {
  inv_time : timeoutPassed s = false;
  inv_place : ∀ t, code s t ∈ place_list t;
  inv_owner : ∀ m t, owner s m = Some t ↔ holds m (code s t) = true;
  inv_sems : ∀ x, 0 <= semval s x;
  inv_q1_free : balance q1_free s = MAX_NO_OF_PRODUCDED_CAKES;
  inv_q1_used : balance q1_used s = 0;
  inv_vanilla_free : balance vanilla_free s = MAX_NO_OF_VANILLA_CAKES;
  inv_vanilla_used : balance vanilla_used s = 0;
  inv_chocolate_free : balance chocolate_free s = MAX_NO_OF_CHOCOLATE_CAKES;
  inv_chocolate_used : balance chocolate_used s = 0;
  inv_kinds : Forall kind (q1 s);
  inv_looked : looked (code s threadChefZ) = true → head (q1 s) = Some (t_top (threads s threadChefZ));
  inv_vanilla : brings CAKE_VANILLA IIncVanilla s;
  inv_chocolate : brings CAKE_CHOCOLATE IIncChocolate s;
}.

(** ** Places *)
Lemma tails_cons {A} (x : A) c l : x :: c ∈ tails l → c ∈ tails l.
Proof.
  induction l as [|y l IH]; cbn; intros H; apply elem_of_cons in H as [H|H]; try done.
  - by apply elem_of_nil in H.
  - injection H as -> ->. right. destruct l; left.
  - right. by apply IH.
Qed.

Lemma place_next t i c : i :: c ∈ place_list t → c ∈ place_list t.
Proof.
  unfold place_list. rewrite !elem_of_app. intros [H|H]; [left|right; by eapply tails_cons].
  destruct t; cbn [places] in *; rewrite ?elem_of_app in *; try by eapply tails_cons.
  destruct H as [H|[H|H]]; [left|right; left|right; right]; by eapply tails_cons.
Qed.

Lemma tails_all {A} (l : list A) : l ∈ tails l.
Proof. destruct l; left. Qed.

Lemma place_body t : body t ∈ place_list t.
Proof. unfold place_list. apply elem_of_app. left. destruct t; cbn [places]; rewrite ?elem_of_app; try apply tails_all. left. apply tails_all. Qed.

(** What a computation finds true of every place. *)
Lemma place_check (P : thread → list instr → bool) :
  forallb (λ t, forallb (P t) (place_list t)) all_threads = true → ∀ t c, c ∈ place_list t → P t c = true.
Proof.
  rewrite forallb_forall. intros H t c Hc.
  assert (Ht : In t all_threads) by (destruct t; cbn; tauto). specialize (H t Ht). rewrite forallb_forall in H.
  apply H. by apply list_elem_of_In.
Qed.

(** [by_places t P H Hb]: [P] holds of the place of [H], by evaluation. *)
Ltac by_places t P H Hb :=
  assert (Hb : forallb (λ u, forallb (P u) (place_list u)) all_threads = true) by (vm_compute; reflexivity);
  let Hc := fresh in pose proof (place_check P Hb t _ H) as Hc; clear Hb; rename Hc into Hb; cbn beta iota in Hb.

Lemma choose_place t c : IChoose :: c ∈ place_list t → t = threadChefZ ∧ c = [].
Proof.
  intros H. by_places t (λ t c, match c with IChoose :: c => bool_decide (t = threadChefZ) && bool_decide (c = []) | _ => true end) H Hb.
  apply andb_true_iff in Hb as [H1 H2]. by split; eapply bool_decide_eq_true_1.
Qed.

Lemma holds_place t i c : i :: c ∈ place_list t →
  match i with ILock m => holds m c = true | IUnlock m => holds m c = false | _ => True end.
Proof.
  intros H. by_places t (λ (_ : thread) c, match c with ILock m :: c => holds m c | IUnlock m :: c => negb (holds m c) | _ => true end) H Hb.
  destruct i; try done. by destruct (holds m c).
Qed.

Lemma holds_body m t : holds m (body t) = false.
Proof. by destruct m, t. Qed.
Lemma holds_branch m c : kind c → holds m (carrierChef_if c) = false.
Proof. intros [-> | ->]; by destruct m. Qed.

(** ** What a step does *)
Definition after (i : instr) (c : list instr) (top : cake_t) : list instr :=
  match i with IChoose => carrierChef_if top ++ c | _ => c end.

Lemma code_upd t f s t' : code (upd_thread t f s) t' = if decide (t' = t) then t_code (f (threads s t)) else code s t'.
Proof. unfold code, upd_thread. cbn. destruct (decide (t' = t)) as [->|Hn]; [by rewrite fn_lookup_insert|by rewrite fn_lookup_insert_ne]. Qed.

Lemma set_code_same x : set_code (t_code x) x = x.
Proof. by destruct x. Qed.

Section step.
Variables (t : thread) (i : instr) (c : list instr) (s s' : state).
Hypothesis Hcode : code s t = i :: c.
Hypothesis Hstep : step t s = Next s'.

Lemma step_exec : exec t i (upd_thread t (set_code c) s) = Next s'.
Proof using Hcode Hstep. unfold step in Hstep. unfold code in Hcode. by rewrite Hcode in Hstep. Qed.

Ltac exec_cases :=
  pose proof step_exec as Hs; unfold exec in Hs; destruct i; cbn [semval owner q1 upd_thread] in Hs;
  repeat match type of Hs with
  | context [if ?b then _ else _] => destruct b eqn:?; try discriminate Hs
  | context [match ?o with None => _ | Some _ => _ end] => destruct o eqn:?; try discriminate Hs
  | context [match ?q with [] => _ | _ :: _ => _ end] => destruct q eqn:?; try discriminate Hs
  end; injection Hs as <-.

Lemma step_code t' : code s' t' = if decide (t' = t) then after i c (t_top (threads s t)) else code s t'.
Proof using Hcode Hstep.
  exec_cases; cbn [after]; rewrite ?code_upd; cbn [set_q1 set_vanilla set_chocolate add_sem set_owner add_out threads t_code set_code set_top set_cake set_size];
    try (change (code (upd_thread t (set_code c) s) t' = if decide (t' = t) then c else code s t'); rewrite code_upd; by destruct (decide (t' = t)));
    destruct (decide (t' = t)) as [->|Hn]; cbn [upd_thread threads]; rewrite ?fn_lookup_insert; try done.
  all: unfold code; cbn; by rewrite fn_lookup_insert_ne.
Qed.

Lemma step_sem x : semval s' x = semval s x + sem_adds x i.
Proof using Hcode Hstep.
  exec_cases; cbn; try lia.
  - destruct (decide (x = s0)) as [->|Hn]; [rewrite fn_lookup_insert; done|rewrite fn_lookup_insert_ne by done; lia].
  - destruct (decide (x = s0)) as [->|Hn]; [rewrite fn_lookup_insert; done|rewrite fn_lookup_insert_ne by done; lia].
Qed.

Lemma step_q1 : Z.of_nat (length (q1 s')) = Z.of_nat (length (q1 s)) + q1_adds i.
Proof using Hcode Hstep. exec_cases; cbn; rewrite ?length_app; try match goal with H : q1 s = _ |- _ => rewrite H end; cbn; lia. Qed.

Lemma step_vanilla : 0 <= nVanilla s + vanilla_adds i < 2 ^ 64 → nVanilla s' = nVanilla s + vanilla_adds i.
Proof using Hcode Hstep. intros Hr. exec_cases; cbn in *; try lia; unfold u64; by apply Z.mod_small. Qed.

Lemma step_chocolate : 0 <= nChocolate s + chocolate_adds i < 2 ^ 64 → nChocolate s' = nChocolate s + chocolate_adds i.
Proof using Hcode Hstep. intros Hr. exec_cases; cbn in *; try lia; unfold u64; by apply Z.mod_small. Qed.

Lemma step_queue : q1 s' = match i with IPush x => q1 s ++ [x] | IPop => tail (q1 s) | _ => q1 s end.
Proof using Hcode Hstep. by exec_cases. Qed.

Lemma step_top t' : t_top (threads s' t') = if decide (t' = t ∧ i = IFrontTop) then default "" (head (q1 s)) else t_top (threads s t').
Proof using Hcode Hstep.
  exec_cases; destruct (decide (t' = t)) as [->|Hn]; unfold upd_thread; cbn; rewrite ?fn_lookup_insert, ?fn_lookup_insert_ne by done;
    try (rewrite decide_False by naive_solver; done).
  by rewrite decide_True.
Qed.

Lemma step_cake t' : t_cake (threads s' t') = if decide (t' = t ∧ i = IFrontCake) then default "" (head (q1 s)) else t_cake (threads s t').
Proof using Hcode Hstep.
  exec_cases; destruct (decide (t' = t)) as [->|Hn]; unfold upd_thread; cbn; rewrite ?fn_lookup_insert, ?fn_lookup_insert_ne by done;
    try (rewrite decide_False by naive_solver; done).
  by rewrite decide_True.
Qed.

Lemma step_front : i = IFrontTop ∨ i = IFrontCake → q1 s ≠ [].
Proof using Hcode Hstep. pose proof step_exec as Hs. intros [E|E]; rewrite E in Hs; cbn in Hs; by destruct (q1 s). Qed.

Lemma step_wait x : i = IWait x → 0 < semval s x.
Proof using Hcode Hstep. pose proof step_exec as Hs. intros E. rewrite E in Hs. cbn in Hs. destruct (Z.leb_spec (semval s x) 0); [discriminate|lia]. Qed.

Lemma step_owner m : owner s' m = match i with
  | ILock m' => if decide (m = m') then Some t else owner s m
  | IUnlock m' => if decide (m = m') then None else owner s m
  | _ => owner s m end.
Proof using Hcode Hstep.
  exec_cases; cbn; try done; destruct (decide (m = m0)) as [->|Hn]; rewrite ?fn_lookup_insert, ?fn_lookup_insert_ne by done; done.
Qed.

Lemma step_locked m : i = ILock m → owner s m = None.
Proof using Hcode Hstep. pose proof step_exec as Hs. intros E. rewrite E in Hs. cbn in Hs. by destruct (owner s m). Qed.

Lemma step_time : timeoutPassed s' = timeoutPassed s.
Proof using Hcode Hstep. by exec_cases. Qed.
End step.

(** ** Balances *)
Lemma total_change f g t : (∀ t', t' ≠ t → g t' = f t') → total g = total f - f t + g t.
Proof.
  intros H. unfold total, all_threads. cbn [foldr].
  destruct t; rewrite ?(H threadChefX), ?(H threadChefY), ?(H threadChefZ), ?(H threadWaiterChocolate), ?(H threadWaiterVanilla) by done; lia.
Qed.

Lemma total_nonneg f : (∀ t, 0 <= f t) → ∀ t, f t <= total f.
Proof.
  intros H t. unfold total, all_threads. cbn [foldr]. pose proof (H threadChefX). pose proof (H threadChefY).
  pose proof (H threadChefZ). pose proof (H threadWaiterChocolate). pose proof (H threadWaiterVanilla). destruct t; lia.
Qed.

(** The quantities of the factory. *)
Definition counted (q : quantity) : Prop :=
  q = q1_free ∨ q = q1_used ∨ q = vanilla_free ∨ q = vanilla_used ∨ q = chocolate_free ∨ q = chocolate_used.

Lemma owed_plain d c : IChoose ∉ c → owed d c = foldr (λ i n, d i + n) 0 c.
Proof.
  induction c as [|i c IH]; [done|]. intros [H1 H2]%not_elem_of_cons. cbn [foldr]. rewrite <- IH by done.
  unfold owed at 1. cbn [foldr]. rewrite decide_False by done. unfold owed. lia.
Qed.

Lemma owed_cons d i c : owed d (i :: c) = d i + (if decide (i = IChoose) then owed d (carrierChef_if CAKE_VANILLA) else 0) + owed d c.
Proof.
  unfold owed at 1 3. cbn [foldr]. destruct (decide (i = IChoose)); [|done]. do 2 f_equal.
  rewrite owed_plain; [done|]. apply (bool_decide_eq_true_1 (IChoose ∉ _)). vm_compute. reflexivity.
Qed.

Lemma owed_branch q c : counted q → kind c → owed (adds q) (carrierChef_if c) = owed (adds q) (carrierChef_if CAKE_VANILLA).
Proof. intros Hq [-> | ->]; [done|]. by destruct Hq as [->|[->|[->|[->|[->| ->]]]]]. Qed.

Lemma owed_body q t : counted q → owed (adds q) (body t) = 0.
Proof. intros Hq. by destruct Hq as [->|[->|[->|[->|[->| ->]]]]], t. Qed.

Lemma owed_place q t c : counted q → c ∈ place_list t → 0 <= owed (adds q) c.
Proof.
  intros Hq H. destruct Hq as [->|[->|[->|[->|[->| ->]]]]];
    match goal with |- 0 <= owed ?d _ => by_places t (λ (_ : thread) c, 0 <=? owed d c) H Hb end; lia.
Qed.

Lemma balance_load q s t : counted q → code s t = [] → balance q (upd_thread t (set_code (body t)) s) = balance q s.
Proof.
  intros Hq Hc. unfold balance. rewrite (total_change (λ t, owed (adds q) (code s t)) _ t).
  - rewrite code_upd, decide_True by done. cbn [t_code set_code]. rewrite Hc, owed_body by done. change (owed (adds q) []) with 0.
    replace (value q (upd_thread t (set_code (body t)) s)) with (value q s); [lia|].
    by destruct Hq as [->|[->|[->|[->|[->| ->]]]]].
  - intros t' Hn. rewrite code_upd. by rewrite decide_False.
Qed.

Section keep.
Variables (t : thread) (i : instr) (c : list instr) (s s' : state).
Hypothesis Hcode : code s t = i :: c.
Hypothesis Hstep : step t s = Next s'.

(** A statement changes each quantity by what it adds, and it then owes that
    much less. *)
Lemma balance_step q : counted q → value q s' = value q s + adds q i → (i = IChoose → kind (t_top (threads s t)) ∧ c = []) →
  balance q s' = balance q s.
Proof using Hcode Hstep.
  intros Hq Hv Hk. unfold balance. rewrite Hv.
  pose proof (step_code t i c s s' Hcode Hstep) as Hc.
  rewrite (total_change (λ t, owed (adds q) (code s t)) (λ t, owed (adds q) (code s' t)) t).
  - rewrite Hc, decide_True, Hcode, owed_cons by done. unfold after. destruct (decide (i = IChoose)) as [->|Hn].
    + destruct (Hk eq_refl) as [Hk' ->]. rewrite app_nil_r, (owed_branch q (t_top (threads s t))) by done. change (owed (adds q) []) with 0. lia.
    + assert (E : match i with IChoose => carrierChef_if (t_top (threads s t)) ++ c | _ => c end = c) by (by destruct i). rewrite E. lia.
  - intros t' Hn. by rewrite Hc, decide_False.
Qed.
End keep.

(** ** The invariant *)
Record bounds (s : state) : Prop := mk_bounds {
  bd_q1 : Z.of_nat (length (q1 s)) <= 5;
  bd_vanilla : 0 <= nVanilla s <= 5;
  bd_chocolate : 0 <= nChocolate s <= 5;
}.

(** What thread [t] owes, all threads owe. *)
Lemma owed_le q s t : counted q → inv s → 0 <= owed (adds q) (code s t) <= total (λ t, owed (adds q) (code s t)).
Proof.
  intros Hq Hs. split; [by eapply owed_place, inv_place|].
  apply (total_nonneg (λ t, owed (adds q) (code s t))). intros t'. by eapply owed_place, inv_place.
Qed.

Ltac owes q Hs t := pose proof (owed_le q _ t ltac:(unfold counted; tauto) Hs).

Lemma inv_bounds s : inv s → bounds s.
Proof.
  intros Hs. owes q1_free Hs threadChefX. owes vanilla_free Hs threadChefX. owes vanilla_used Hs threadChefX.
  owes chocolate_free Hs threadChefX. owes chocolate_used Hs threadChefX.
  pose proof (inv_q1_free _ Hs) as E1. pose proof (inv_vanilla_free _ Hs) as E2. pose proof (inv_vanilla_used _ Hs) as E3.
  pose proof (inv_chocolate_free _ Hs) as E4. pose proof (inv_chocolate_used _ Hs) as E5.
  unfold balance, MAX_NO_OF_PRODUCDED_CAKES, MAX_NO_OF_VANILLA_CAKES, MAX_NO_OF_CHOCOLATE_CAKES in *.
  cbn [value q1_free vanilla_free vanilla_used chocolate_free chocolate_used] in *.
  pose proof (inv_sems _ Hs q1_empty). pose proof (inv_sems _ Hs qVanilla_empty). pose proof (inv_sems _ Hs qVanilla_full).
  pose proof (inv_sems _ Hs qChocolate_empty). pose proof (inv_sems _ Hs qChocolate_full). split; lia.
Qed.

Section preserve.
Variables (t : thread) (i : instr) (c : list instr) (s : state).
Hypothesis Hcode : code s t = i :: c.
Hypothesis Hs : inv s.

Lemma at_place : i :: c ∈ place_list t.
Proof using Hcode Hs. rewrite <- Hcode. apply Hs. Qed.

Lemma owed_here q : counted q → i ≠ IChoose → adds q i <= total (λ t, owed (adds q) (code s t)).
Proof using Hcode Hs.
  intros Hq Hi. destruct (owed_le q s t Hq Hs) as [_ H]. rewrite Hcode, owed_cons, decide_False in H by done.
  pose proof (owed_place q t c Hq (place_next _ _ _ at_place)). lia.
Qed.

Lemma vanilla_range : 0 <= nVanilla s + vanilla_adds i < 2 ^ 64.
Proof using Hcode Hs.
  pose proof (bd_vanilla _ (inv_bounds s Hs)) as Hb. change (2 ^ 64) with 18446744073709551616.
  pose proof (inv_vanilla_used _ Hs) as E. pose proof (inv_sems _ Hs qVanilla_full) as Hf. unfold balance in E. cbn [value vanilla_used] in E.
  pose proof owed_here vanilla_used ltac:(unfold counted; tauto) as Ho. clear Hcode. destruct i; cbn [vanilla_adds]; try lia.
  specialize (Ho ltac:(done)). change (1 <= total (λ t, owed (adds vanilla_used) (code s t))) in Ho. lia.
Qed.

Lemma chocolate_range : 0 <= nChocolate s + chocolate_adds i < 2 ^ 64.
Proof using Hcode Hs.
  pose proof (bd_chocolate _ (inv_bounds s Hs)) as Hb. change (2 ^ 64) with 18446744073709551616.
  pose proof (inv_chocolate_used _ Hs) as E. pose proof (inv_sems _ Hs qChocolate_full) as Hf. unfold balance in E. cbn [value chocolate_used] in E.
  pose proof owed_here chocolate_used ltac:(unfold counted; tauto) as Ho. clear Hcode. destruct i; cbn [chocolate_adds]; try lia.
  specialize (Ho ltac:(done)). change (1 <= total (λ t, owed (adds chocolate_used) (code s t))) in Ho. lia.
Qed.

Lemma choose_kind : i = IChoose → kind (t_top (threads s t)) ∧ c = [].
Proof using Hcode Hs.
  intros Hi. pose proof at_place as H. rewrite Hi in H. apply choose_place in H as [Ht ->]. split; [|done].
  assert (Hl : head (q1 s) = Some (t_top (threads s threadChefZ))).
  { apply (inv_looked _ Hs). rewrite <- Ht, Hcode, Hi. reflexivity. }
  rewrite Ht. pose proof (inv_kinds _ Hs) as Hk. destruct (q1 s) as [|x q]; [done|]. cbn in Hl. injection Hl as Hx. rewrite <- Hx. apply Forall_cons_iff in Hk; by destruct Hk.
Qed.

Variable (s' : state).
Hypothesis Hstep : step t s = Next s'.

Lemma values_step q : counted q → value q s' = value q s + adds q i.
Proof using Hcode Hs Hstep.
  pose proof (step_vanilla _ _ _ _ _ Hcode Hstep vanilla_range). pose proof (step_chocolate _ _ _ _ _ Hcode Hstep chocolate_range).
  pose proof (step_q1 _ _ _ _ _ Hcode Hstep). pose proof (step_sem _ _ _ _ _ Hcode Hstep) as Hx.
  intros [->|[->|[->|[->|[->| ->]]]]]; cbn [value adds q1_free q1_used vanilla_free vanilla_used chocolate_free chocolate_used]; rewrite Hx; lia.
Qed.

Lemma balances_step q : counted q → balance q s' = balance q s.
Proof using Hcode Hs Hstep. intros Hq. apply (balance_step t i c s s' Hcode Hstep q Hq); [by apply values_step|exact choose_kind]. Qed.

Lemma place_step t' : code s' t' ∈ place_list t'.
Proof using Hcode Hs Hstep.
  rewrite (step_code _ _ _ _ _ Hcode Hstep). destruct (decide (t' = t)) as [->|Hn]; [|apply Hs].
  destruct (decide (i = IChoose)) as [Hi|Hi].
  - destruct (choose_kind Hi) as [Hk Hc]. pose proof at_place as H. rewrite Hi in H. apply choose_place in H as [Ht _].
    rewrite Hi, Hc. cbn [after]. rewrite app_nil_r, Ht. unfold place_list. apply elem_of_app. left. cbn [places]. rewrite !elem_of_app.
    rewrite Ht in Hk. destruct Hk as [-> | ->]; [right; left|right; right]; apply tails_all.
  - assert (E : after i c (t_top (threads s t)) = c) by (clear Hcode; by destruct i). rewrite E. eapply place_next, at_place.
Qed.

Lemma owner_step m t' : owner s' m = Some t' ↔ holds m (code s' t') = true.
Proof using Hcode Hs Hstep.
  rewrite (step_owner _ _ _ _ _ Hcode Hstep), (step_code _ _ _ _ _ Hcode Hstep).
  pose proof (inv_owner _ Hs m t') as Ho. pose proof (inv_owner _ Hs m t) as Ht. rewrite Hcode in Ht.
  pose proof (holds_place _ _ _ at_place) as Hp. pose proof choose_kind as Hk.
  pose proof (step_locked _ _ _ _ _ Hcode Hstep m) as Hl.
  destruct (decide (t' = t)) as [->|Hn].
  - clear Hcode. destruct i; cbn [after holds] in *; try exact Ht.
    + destruct (decide (m = m0)) as [->|]; [|exact Ht]. by rewrite Hp.
    + destruct (decide (m = m0)) as [->|]; [|exact Ht]. rewrite Hp. naive_solver.
    + destruct (Hk eq_refl) as [Hk' ->]. rewrite app_nil_r, holds_branch by done. exact Ht.
  - clear Hcode. destruct i; cbn [holds] in Ht; try exact Ho.
    + destruct (decide (m = m0)) as [->|]; [|exact Ho]. rewrite (Hl eq_refl) in Ho. rewrite <- Ho. naive_solver.
    + destruct (decide (m = m0)) as [->|]; [|exact Ho]. rewrite <- Ho. destruct Ht as [_ Ht]. rewrite (Ht eq_refl). naive_solver.
Qed.

Lemma sems_step x : 0 <= semval s' x.
Proof using Hcode Hs Hstep.
  rewrite (step_sem _ _ _ _ _ Hcode Hstep). pose proof (inv_sems _ Hs x). pose proof (step_wait _ _ _ _ _ Hcode Hstep x) as Hw.
  clear Hcode. destruct i; cbn [sem_adds]; try lia; destruct (decide (x = s0)) as [->|]; try lia. specialize (Hw eq_refl). lia.
Qed.

Lemma kinds_step : Forall kind (q1 s').
Proof using Hcode Hs Hstep.
  rewrite (step_queue _ _ _ _ _ Hcode Hstep). pose proof (inv_kinds _ Hs) as Hk. pose proof at_place as Hp.
  by_places t (λ (_ : thread) c, match c with IPush x :: _ => bool_decide (x = CAKE_VANILLA) || bool_decide (x = CAKE_CHOCOLATE) | _ => true end) Hp Hb.
  clear Hcode. destruct i; try done.
  - apply Forall_app. split; [done|]. apply Forall_singleton. apply orb_true_iff in Hb as [Hb|Hb]; apply bool_decide_eq_true_1 in Hb; [by left|by right].
  - destruct (q1 s); [done|]. by apply Forall_cons_iff in Hk as [_ Hk].
Qed.

(** A thread other than chef Z leaves the front of the queue alone. *)
Lemma others_step : t ≠ threadChefZ → head (q1 s) ≠ None → head (q1 s') = head (q1 s).
Proof using Hcode Hs Hstep.
  rewrite (step_queue _ _ _ _ _ Hcode Hstep). intros Ht Hh. pose proof at_place as Hp.
  by_places t (λ t c, match c with IPop :: _ => bool_decide (t = threadChefZ) | _ => true end) Hp Hb.
  clear Hcode. destruct i; try done; [by destruct (q1 s)|]. by apply bool_decide_eq_true_1 in Hb.
Qed.

Lemma looked_step : looked (code s' threadChefZ) = true → head (q1 s') = Some (t_top (threads s' threadChefZ)).
Proof using Hcode Hs Hstep.
  rewrite (step_code _ _ _ _ _ Hcode Hstep), (step_top _ _ _ _ _ Hcode Hstep). pose proof (inv_looked _ Hs) as Hl.
  pose proof at_place as Hp. pose proof (step_front _ _ _ _ _ Hcode Hstep) as Hf. pose proof choose_kind as Hk.
  pose proof others_step as Ho. rewrite (step_queue _ _ _ _ _ Hcode Hstep) in *. pose proof Hcode as Hc.
  clear Hcode. destruct (decide (threadChefZ = t)) as [<-|Hn]; cycle 1.
  { intros H. specialize (Hl H). rewrite decide_False by naive_solver. rewrite Ho; [done|done|by rewrite Hl]. }
  rewrite Hc in Hl. intros H.
  by_places threadChefZ (λ u c, match c with IPop :: c => negb (looked c) | IPush _ :: _ => negb (bool_decide (u = threadChefZ))
    | IFrontTop :: c => true | i :: c => implb (looked c) (looked (i :: c)) | [] => true end) Hp Hb.
  destruct (decide (i = IFrontTop)) as [->|Hft].
  { rewrite decide_True by done. specialize (Hf (or_introl eq_refl)). clear - Hf. by destruct (q1 s). }
  rewrite decide_False by (intros [_ ?]; done). clear Hf Ho Hp Hc.
  destruct i; cbn [after] in H; try (apply Hl; rewrite H in Hb; exact Hb).
  - discriminate Hb.
  - rewrite H in Hb. discriminate Hb.
  - done.
  - apply Hl. destruct (Hk eq_refl) as [_ ->]. reflexivity.
Qed.

Lemma brings_step x inc : (x = CAKE_VANILLA ∧ inc = IIncVanilla ∨ x = CAKE_CHOCOLATE ∧ inc = IIncChocolate) →
  brings x inc s → brings x inc s'.
Proof using Hcode Hs Hstep.
  unfold brings. cbn zeta. change (t_code (threads ?s ?t)) with (code s t). intros Hx Hb.
  rewrite (step_code _ _ _ _ _ Hcode Hstep), (step_top _ _ _ _ _ Hcode Hstep), (step_cake _ _ _ _ _ Hcode Hstep).
  pose proof at_place as Hp. pose proof (inv_looked _ Hs) as Hl. pose proof choose_kind as Hk. pose proof Hcode as Hc0. clear Hcode.
  destruct (decide (threadChefZ = t)) as [<-|Hn]; [|rewrite !decide_False by naive_solver; exact Hb].
  rewrite Hc0 in Hb, Hl.
  by_places threadChefZ (λ (_ : thread) c, match c with
    | IFrontTop :: c => negb (bool_decide (IIncVanilla ∈ c)) && negb (bool_decide (IIncChocolate ∈ c))
    | IFrontCake :: c => looked (IFrontCake :: c) | _ => true end) Hp Hc.
  intros Hi.
  destruct (decide (i = IChoose)) as [->|Hch].
  { cbn [after] in *. rewrite !decide_False by naive_solver. destruct (Hk eq_refl) as [Hk' ->]. rewrite app_nil_r in *.
    assert (Hkx : t_top (threads s threadChefZ) = x ∧ IFrontCake ∈ carrierChef_if x).
    { destruct Hk' as [E|E]; rewrite E in Hi |- *; destruct Hx as [[-> ->]|[-> ->]]; split; try done;
        try (eapply (bool_decide_eq_true_1 (_ ∈ _)); vm_compute; reflexivity);
        exfalso; revert Hi; eapply (bool_decide_eq_false_1 (_ ∈ _)); vm_compute; reflexivity. }
    destruct Hkx as [-> Hfc]. split; [done|]. intros Hnc. by destruct Hnc. }
  assert (E : after i c (t_top (threads s threadChefZ)) = c) by (by destruct i). rewrite E in *.
  destruct (Hb ltac:(by right)) as [Ht Hcake].
  rewrite (decide_False (P := threadChefZ = threadChefZ ∧ i = IFrontTop)); cycle 1.
  { intros [_ ->]. apply andb_true_iff in Hc as [H1 H2]. apply negb_true_iff, bool_decide_eq_false_1 in H1, H2.
    destruct Hx as [[-> ->]|[-> ->]]; done. }
  split; [done|]. intros Hnc. destruct (decide (threadChefZ = threadChefZ ∧ i = IFrontCake)) as [[_ ->]|Hni].
  - rewrite (Hl Hc). exact Ht.
  - apply Hcake. intros [E'|E']%elem_of_cons; [naive_solver|done].
Qed.

Lemma inv_exec : inv s'.
Proof using Hcode Hs Hstep.
  pose proof balances_step as Hb.
  split; [rewrite (step_time _ _ _ _ _ Hcode Hstep)| | | | | | | | | | | | |]; try (rewrite Hb by (unfold counted; tauto)); try apply Hs.
  - exact place_step.
  - exact owner_step.
  - exact sems_step.
  - exact kinds_step.
  - exact looked_step.
  - apply brings_step; [by left|apply Hs].
  - apply brings_step; [by right|apply Hs].
Qed.
End preserve.

Lemma inv_load t s : code s t = [] → inv s → inv (upd_thread t (set_code (body t)) s).
Proof.
  intros Hc Hs. set (s' := upd_thread t (set_code (body t)) s).
  assert (Hcode : ∀ t', code s' t' = if decide (t' = t) then body t else code s t').
  { intros t'. unfold s'. by rewrite code_upd. }
  assert (Htop : ∀ t', t_top (threads s' t') = t_top (threads s t') ∧ t_cake (threads s' t') = t_cake (threads s t')).
  { intros t'. unfold s'. cbn. destruct (decide (t' = t)) as [->|Hn]; [by rewrite fn_lookup_insert|by rewrite fn_lookup_insert_ne]. }
  assert (Hb : ∀ q, counted q → balance q s' = balance q s) by (intros q Hq; by apply balance_load).
  assert (Hbr : ∀ x inc, inc ∉ carrierChef → brings x inc s → brings x inc s').
  { intros x inc Hni Hx. unfold brings in *. cbn zeta in *. destruct (Htop threadChefZ) as [-> ->].
    change (t_code (threads ?s ?t)) with (code s t). rewrite Hcode.
    destruct (decide (threadChefZ = t)) as [<-|Hn]; [done|exact Hx]. }
  split; try (rewrite Hb by (unfold counted; tauto)); try apply Hs.
  - intros t'. rewrite Hcode. destruct (decide (t' = t)) as [->|Hn]; [apply place_body|apply Hs].
  - intros m t'. change (owner s' m) with (owner s m). rewrite Hcode, (inv_owner _ Hs).
    destruct (decide (t' = t)) as [->|Hn]; [|done]. by rewrite Hc, holds_body.
  - rewrite Hcode, (proj1 (Htop _)). destruct (decide (threadChefZ = t)) as [<-|Hn]; [|apply Hs]. vm_compute. discriminate.
  - apply Hbr; [|apply Hs]. eapply (bool_decide_eq_false_1 (_ ∈ _)). vm_compute. reflexivity.
  - apply Hbr; [|apply Hs]. eapply (bool_decide_eq_false_1 (_ ∈ _)). vm_compute. reflexivity.
Qed.

Lemma inv_main : inv main.
Proof.
  split; try (vm_compute; reflexivity).
  - intros t. unfold place_list. apply elem_of_app. right. apply tails_all.
  - intros m t. by destruct m, t.
  - by intros [].
  - constructor.
  - discriminate.
  - intros H. exfalso. revert H. eapply (bool_decide_eq_false_1 (_ ∈ _)). vm_compute. reflexivity.
  - intros H. exfalso. revert H. eapply (bool_decide_eq_false_1 (_ ∈ _)). vm_compute. reflexivity.
Qed.

Lemma inv_step t s s' : inv s → step t s = Next s' → inv s'.
Proof.
  intros Hs E. destruct (code s t) as [|i c] eqn:Hc; [|by eapply inv_exec].
  pose proof E as E'. unfold step in E'. change (t_code (threads s t)) with (code s t) in E'. rewrite Hc, (inv_time _ Hs) in E'.
  injection E' as <-. by apply inv_load.
Qed.

Lemma inv_reachable s : reachable s → inv s.
Proof. intros [ts H]. pose proof inv_main as Hm. induction H as [|t ts s s1 s' E _ IH]; [done|]. apply IH. by eapply inv_step. Qed.

(** ** Safety *)
Lemma q1_nonempty s : inv s → looked (code s threadChefZ) = true → q1 s ≠ [].
Proof. intros Hs Hl. apply (inv_looked _ Hs) in Hl. by destruct (q1 s). Qed.

(** The first cake is looked at only when there is one. *)
Lemma front_nonempty s c : inv s → code s threadChefZ = IFrontTop :: c → q1 s ≠ [].
Proof.
  intros Hs Hc. destruct (owed_le q1_used s threadChefZ) as [_ Ho]; [unfold counted; tauto|done|].
  pose proof (inv_place _ Hs threadChefZ) as Hp. rewrite Hc in Hp, Ho.
  by_places threadChefZ (λ (_ : thread) c, match c with IFrontTop :: _ => 1 <=? owed (adds q1_used) c | _ => true end) Hp Hb.
  pose proof (inv_q1_used _ Hs) as E. unfold balance in E. change (value q1_used s) with (semval s q1_full - Z.of_nat (length (q1 s))) in E.
  pose proof (inv_sems _ Hs q1_full). intros Hq. rewrite Hq in E. change (Z.of_nat (length [])) with 0 in E. lia.
Qed.

Lemma step_defined t s : inv s → step t s ≠ Undefined.
Proof.
  intros Hs. unfold step. change (t_code (threads s t)) with (code s t). destruct (code s t) as [|i c] eqn:Hc; [by rewrite (inv_time _ Hs)|].
  pose proof (inv_place _ Hs t) as Hp. rewrite Hc in Hp.
  by_places t (λ t c, match c with IFrontTop :: _ => bool_decide (t = threadChefZ)
    | IFrontCake :: _ | IPop :: _ => bool_decide (t = threadChefZ) && looked c | _ => true end) Hp Hb.
  assert (Hq : (t = threadChefZ ∧ looked (i :: c) = true) ∨ (t = threadChefZ ∧ i = IFrontTop) → q1 s ≠ []).
  { intros [[-> Hl]|[-> ->]]; [apply q1_nonempty; [done|by rewrite Hc]|by eapply front_nonempty]. }
  unfold exec. destruct i; cbn [semval owner q1 upd_thread]; try done.
  - by destruct (_ <=? _).
  - by destruct (owner s m).
  - rewrite decide_True; [done|]. apply (inv_owner _ Hs). rewrite Hc. cbn. by rewrite decide_True.
  - apply andb_true_iff in Hb as [H1 H2]. apply bool_decide_eq_true_1 in H1. specialize (Hq (or_introl (conj H1 H2))). by destruct (q1 s).
  - apply bool_decide_eq_true_1 in Hb. specialize (Hq (or_intror (conj Hb eq_refl))). by destruct (q1 s).
  - apply andb_true_iff in Hb as [H1 H2]. apply bool_decide_eq_true_1 in H1. specialize (Hq (or_introl (conj H1 H2))). by destruct (q1 s).
Qed.

(** C29: the cake factory is safe. In every state the five threads reach,
    under any interleaving of their statements, no thread is about to do
    anything undefined (take from or look into the empty queue, unlock a
    mutex it does not own, leave its function without a value); no queue
    holds more than its five cakes and no counter has gone below zero; no
    two threads are inside the same critical section; and what chef Z counts
    into a kind's queue is a cake of that kind. *)
Theorem cake_factory_safe s : reachable s →
  (∀ t, step t s ≠ Undefined) ∧
  Z.of_nat (length (q1 s)) <= MAX_NO_OF_PRODUCDED_CAKES ∧
  0 <= nVanilla s <= MAX_NO_OF_VANILLA_CAKES ∧ 0 <= nChocolate s <= MAX_NO_OF_CHOCOLATE_CAKES ∧
  (∀ m t t', holds m (code s t) = true → holds m (code s t') = true → t = t') ∧
  (∀ c, code s threadChefZ = IIncVanilla :: c → t_cake (threads s threadChefZ) = CAKE_VANILLA) ∧
  (∀ c, code s threadChefZ = IIncChocolate :: c → t_cake (threads s threadChefZ) = CAKE_CHOCOLATE).
Proof.
  intros Hs%inv_reachable. destruct (inv_bounds _ Hs) as [H1 H2 H3].
  split; [intros t; by apply step_defined|]. split; [exact H1|]. split; [exact H2|]. split; [exact H3|]. split; [|split].
  - intros m t t' Ht Ht'. apply (inv_owner _ Hs) in Ht, Ht'. by simplify_eq.
  - intros c Hc. apply (inv_vanilla _ Hs); change (t_code (threads s threadChefZ)) with (code s threadChefZ); rewrite Hc; [left|].
    pose proof (inv_place _ Hs threadChefZ) as Hp. rewrite Hc in Hp.
    by_places threadChefZ (λ (_ : thread) c, match c with IIncVanilla :: _ => negb (bool_decide (IFrontCake ∈ c)) | _ => true end) Hp Hb.
    by apply negb_true_iff, bool_decide_eq_false_1 in Hb.
  - intros c Hc. apply (inv_chocolate _ Hs); change (t_code (threads s threadChefZ)) with (code s threadChefZ); rewrite Hc; [left|].
    pose proof (inv_place _ Hs threadChefZ) as Hp. rewrite Hc in Hp.
    by_places threadChefZ (λ (_ : thread) c, match c with IIncChocolate :: _ => negb (bool_decide (IFrontCake ∈ c)) | _ => true end) Hp Hb.
    by apply negb_true_iff, bool_decide_eq_false_1 in Hb.
Qed.

(** ** Progress *)

(** Some thread can take a step. *)
Definition enabled (t : thread) (s : state) : Prop := ∃ s', step t s = Next s'.

Definition blocking (i : instr) : bool := match i with IWait _ | ILock _ => true | _ => false end.

Lemma enabled_head t s : inv s → (∀ i c, code s t = i :: c → blocking i = true →
    (∃ x, i = IWait x ∧ 0 < semval s x) ∨ (∃ m, i = ILock m ∧ owner s m = None)) → enabled t s.
Proof.
  intros Hs Hb. pose proof (step_defined t s Hs) as Hd. unfold enabled. destruct (step t s) as [| |s'] eqn:E; [|done|by exists s'].
  exfalso. unfold step in E. change (t_code (threads s t)) with (code s t) in E.
  destruct (code s t) as [|i c]; [by destruct (timeoutPassed s)|]. specialize (Hb i c eq_refl).
  unfold exec in E. destruct i; cbn [semval owner q1 upd_thread] in E; try discriminate E.
  - destruct (Hb eq_refl) as [(x & [= <-] & Hx)|(m & [=] & _)]. destruct (Z.leb_spec (semval s s0) 0); [lia|discriminate E].
  - destruct (Hb eq_refl) as [(x & [=] & _)|(m' & [= <-] & Hm)]. by rewrite Hm in E.
  - by destruct (decide _).
  - by destruct (q1 s).
  - by destruct (q1 s).
  - by destruct (q1 s).
Qed.

(** A thread that holds the console does not wait; one that holds another
    mutex waits for the console at most. *)
Lemma console_goes t s : inv s → owner s lock_console = Some t → enabled t s.
Proof.
  intros Hs Ho. apply (inv_owner _ Hs) in Ho. apply enabled_head; [done|]. intros i c Hc Hi. rewrite Hc in Ho.
  pose proof (inv_place _ Hs t) as Hp. rewrite Hc in Hp.
  by_places t (λ (_ : thread) c, match c with i :: _ => implb (holds lock_console c) (negb (blocking i)) | [] => true end) Hp Hb.
  by rewrite Ho, Hi in Hb.
Qed.

Lemma holder_goes m t s : inv s → owner s lock_console = None → owner s m = Some t → enabled t s.
Proof.
  intros Hs Hfree Ho. apply (inv_owner _ Hs) in Ho. apply enabled_head; [done|]. intros i c Hc Hi. rewrite Hc in Ho.
  pose proof (inv_place _ Hs t) as Hp. rewrite Hc in Hp.
  by_places t (λ (_ : thread) c, match c with i :: _ => implb (existsb (λ m, holds m c) [lock_console; lock_Q1; lock_VanillaQ; lock_ChocolateQ])
    (negb (blocking i) || bool_decide (i = ILock lock_console)) | [] => true end) Hp Hb.
  assert (Hex : existsb (λ m, holds m (i :: c)) [lock_console; lock_Q1; lock_VanillaQ; lock_ChocolateQ] = true).
  { apply existsb_exists. exists m. split; [by destruct m; cbn; tauto|done]. }
  rewrite Hex, Hi in Hb. cbn [implb negb orb] in Hb. apply bool_decide_eq_true_1 in Hb as ->. right. by exists lock_console.
Qed.

(** The semaphores a thread waits for; it owes nothing then, but for the
    cake chef Z has seen and not yet taken. *)
Definition waits_for (t : thread) : list sem :=
  match t with
  | threadChefX | threadChefY => [q1_empty]
  | threadChefZ => [q1_full; qVanilla_empty; qChocolate_empty]
  | threadWaiterVanilla => [qVanilla_full]
  | threadWaiterChocolate => [qChocolate_full]
  end.
Definition settled (x : sem) (c : list instr) : bool :=
  forallb (λ q, owed (adds q) c =? 0) [q1_free; vanilla_free; vanilla_used; chocolate_free; chocolate_used] &&
  (bool_decide (x ∈ [qVanilla_empty; qChocolate_empty]) || (owed (adds q1_used) c =? 0)).

Lemma waits_place t x c : IWait x :: c ∈ place_list t → x ∈ waits_for t ∧ settled x (IWait x :: c) = true.
Proof.
  intros H. by_places t (λ t c, match c with IWait x :: _ => bool_decide (x ∈ waits_for t) && settled x c | _ => true end) H Hb.
  apply andb_true_iff in Hb as [H1 H2]. by apply bool_decide_eq_true_1 in H1.
Qed.

Lemma enabled_or_waits t s : inv s → (∀ m, owner s m = None) →
  enabled t s ∨ ∃ x c, code s t = IWait x :: c ∧ semval s x = 0 ∧ x ∈ waits_for t ∧ settled x (code s t) = true.
Proof.
  intros Hs Hm. pose proof (inv_place _ Hs t) as Hp. destruct (code s t) as [|i c] eqn:Hc.
  { left. apply enabled_head; [done|]. intros i c Hc'. by rewrite Hc in Hc'. }
  destruct (decide (blocking i = true)) as [Hb|Hb]; cycle 1.
  { left. apply enabled_head; [done|]. intros i' c' Hc' Hi. rewrite Hc in Hc'. by injection Hc' as <- <-. }
  destruct i; try discriminate Hb.
  - pose proof (inv_sems _ Hs s0) as Hx. destruct (decide (0 < semval s s0)) as [Hlt|Hge].
    + left. apply enabled_head; [done|]. intros i' c' Hc' _. rewrite Hc in Hc'. injection Hc' as <- <-. left. by exists s0.
    + right. destruct (waits_place _ _ _ Hp) as [H1 H2]. exists s0, c. split; [done|]. split; [lia|done].
  - left. apply enabled_head; [done|]. intros i' c' Hc' _. rewrite Hc in Hc'. injection Hc' as <- <-. right. by exists m.
Qed.

(** Not all five threads wait. *)
Lemma not_all_wait s : inv s →
  (∀ t, ∃ x c, code s t = IWait x :: c ∧ semval s x = 0 ∧ x ∈ waits_for t ∧ settled x (code s t) = true) → False.
Proof.
  intros Hs H.
  assert (Ht : ∀ q, q ∈ [q1_free; vanilla_free; vanilla_used; chocolate_free; chocolate_used] → total (λ t, owed (adds q) (code s t)) = 0).
  { intros q Hq. assert (Hz : ∀ t, owed (adds q) (code s t) = 0).
    { intros t. destruct (H t) as (x & c & _ & _ & _ & Hset). apply andb_true_iff in Hset as [Hset _].
      rewrite forallb_forall in Hset. apply Z.eqb_eq, Hset. by apply list_elem_of_In. }
    unfold total, all_threads. cbn [foldr]. by rewrite !Hz. }
  pose proof (Ht q1_free ltac:(set_solver)) as T1. pose proof (Ht vanilla_free ltac:(set_solver)) as T2.
  pose proof (Ht vanilla_used ltac:(set_solver)) as T3. pose proof (Ht chocolate_free ltac:(set_solver)) as T4.
  pose proof (Ht chocolate_used ltac:(set_solver)) as T5.
  pose proof (inv_q1_free _ Hs) as E1. pose proof (inv_vanilla_free _ Hs) as E2. pose proof (inv_vanilla_used _ Hs) as E3.
  pose proof (inv_chocolate_free _ Hs) as E4. pose proof (inv_chocolate_used _ Hs) as E5. pose proof (inv_q1_used _ Hs) as E6.
  unfold balance, MAX_NO_OF_PRODUCDED_CAKES, MAX_NO_OF_VANILLA_CAKES, MAX_NO_OF_CHOCOLATE_CAKES in *.
  cbn [value q1_free q1_used vanilla_free vanilla_used chocolate_free chocolate_used] in *.
  assert (Wv : semval s qVanilla_full = 0) by (destruct (H threadWaiterVanilla) as (x & c & _ & Hx & ->%list_elem_of_singleton & _); done).
  assert (Wc : semval s qChocolate_full = 0) by (destruct (H threadWaiterChocolate) as (x & c & _ & Hx & ->%list_elem_of_singleton & _); done).
  assert (We : semval s q1_empty = 0) by (destruct (H threadChefX) as (x & c & _ & Hx & ->%list_elem_of_singleton & _); done).
  destruct (H threadChefZ) as (x & c & Hc & Hx & Hin & Hset). cbn [waits_for] in Hin.
  apply elem_of_cons in Hin as [->|Hin]; [|apply elem_of_cons in Hin as [-> | ->%list_elem_of_singleton]; lia].
  assert (Hu : ∀ t, owed (adds q1_used) (code s t) = 0).
  { intros t. destruct (H t) as (y & c' & Hc' & _ & Hy & Hset'). destruct (decide (t = threadChefZ)) as [->|Hn].
    - apply andb_true_iff in Hset as [_ Hset]. apply Z.eqb_eq. exact Hset.
    - apply andb_true_iff in Hset' as [_ Hset']. apply Z.eqb_eq. rewrite bool_decide_eq_false_2 in Hset'; [exact Hset'|].
      destruct t; try done; cbn [waits_for] in Hy; apply list_elem_of_singleton in Hy as ->; set_solver. }
  assert (T6 : total (λ t, owed (adds q1_used) (code s t)) = 0) by (unfold total, all_threads; cbn [foldr]; by rewrite !Hu).
  lia.
Qed.

Lemma progress s : inv s → ∃ t, enabled t s.
Proof.
  intros Hs. destruct (owner s lock_console) as [t|] eqn:Hc; [exists t; by apply console_goes|].
  assert (Hm : (∃ m t, owner s m = Some t) ∨ ∀ m, owner s m = None).
  { destruct (owner s lock_Q1) eqn:H1; [left; eauto|]. destruct (owner s lock_VanillaQ) eqn:H2; [left; eauto|].
    destruct (owner s lock_ChocolateQ) eqn:H3; [left; eauto|]. right. by intros []. }
  destruct Hm as [(m & t & Hm)|Hm]; [exists t; by eapply holder_goes|].
  assert (Hall : ∀ l : list thread, (∃ t, enabled t s) ∨ ∀ t, t ∈ l →
    ∃ x c, code s t = IWait x :: c ∧ semval s x = 0 ∧ x ∈ waits_for t ∧ settled x (code s t) = true).
  { induction l as [|t l [IH|IH]]; [right; set_solver|by left|].
    destruct (enabled_or_waits t s Hs Hm) as [He|Hw]; [left; by exists t|]. right. intros t' [->|Ht']%elem_of_cons; [done|by apply IH]. }
  destruct (Hall all_threads) as [He|Hw]; [done|]. exfalso. apply (not_all_wait s Hs). intros t. apply Hw. destruct t; set_solver.
Qed.

(** ** How long until the next sale *)

(** A token is worth the steps it lets the threads take without a sale. *)
Definition weight (x : sem) : Z :=
  match x with
  | q1_full => 0
  | q1_empty => 17
  | qVanilla_full | qChocolate_full => 16
  | qVanilla_empty | qChocolate_empty => 80
  end.
Definition cost (i : instr) : Z :=
  1 + match i with IWait x => - weight x | IPost x => weight x | IDecVanilla | IDecChocolate => -100 | _ => 0 end.
Definition all_sems : list sem := [q1_full; q1_empty; qVanilla_full; qVanilla_empty; qChocolate_full; qChocolate_empty].
Definition tokens (s : state) : Z := foldr (λ x n, weight x * semval s x + n) 0 all_sems.
Definition energy (s : state) : Z := tokens s + total (λ t, owed cost (code s t)).

(** The number of steps within which a cake is sold. *)
Definition sale_bound : nat := 2045.

Lemma cost_body t : owed cost (body t) <= -1.
Proof. destruct t; vm_compute; discriminate. Qed.

Lemma cost_place t c : c ∈ place_list t → -100 <= owed cost c <= 100.
Proof. intros H. by_places t (λ (_ : thread) c, (-100 <=? owed cost c) && (owed cost c <=? 100)) H Hb. lia. Qed.

Lemma tokens_step t i c s s' : code s t = i :: c → step t s = Next s' →
  tokens s' = tokens s + match i with IWait x => - weight x | IPost x => weight x | _ => 0 end.
Proof.
  intros Hc E. unfold tokens, all_sems. cbn [foldr]. rewrite !(step_sem _ _ _ _ _ Hc E).
  destruct i; cbn [sem_adds]; try lia; destruct s0; repeat case_decide; try done; cbn [weight]; lia.
Qed.

Lemma energy_step t s s' : inv s → step t s = Next s' → sells t s = false → energy s' <= energy s - 1.
Proof.
  intros Hs E Hn. unfold energy. destruct (code s t) as [|i c] eqn:Hc.
  - pose proof E as E'. unfold step in E'. change (t_code (threads s t)) with (code s t) in E'. rewrite Hc, (inv_time _ Hs) in E'.
    injection E' as <-. rewrite (total_change (λ t, owed cost (code s t)) _ t).
    + rewrite code_upd, decide_True by done. cbn [t_code set_code]. rewrite Hc. change (owed cost []) with 0.
      change (tokens (upd_thread t (set_code (body t)) s)) with (tokens s). pose proof (cost_body t). lia.
    + intros t' Hne. rewrite code_upd. by rewrite decide_False.
  - rewrite (tokens_step t i c s s' Hc E). rewrite (total_change (λ t, owed cost (code s t)) (λ t, owed cost (code s' t)) t); cycle 1.
    { intros t' Hne. by rewrite (step_code _ _ _ _ _ Hc E), decide_False. }
    rewrite (step_code _ _ _ _ _ Hc E), decide_True, Hc by done. pose proof (choose_kind t i c s Hc Hs) as Hk.
    unfold sells in Hn. change (t_code (threads s t)) with (code s t) in Hn. rewrite Hc in Hn. rewrite owed_cons.
    destruct (decide (i = IChoose)) as [->|Hi].
    + destruct (Hk eq_refl) as [Hkind ->]. cbn [after]. rewrite app_nil_r. change (owed cost []) with 0. change (cost IChoose) with 1.
      assert (Eb : owed cost (carrierChef_if (t_top (threads s t))) = owed cost (carrierChef_if CAKE_VANILLA)) by (by destruct Hkind as [-> | ->]).
      lia.
    + assert (Ea : after i c (t_top (threads s t)) = c) by (by destruct i). rewrite Ea. set (owed cost c). set (total _). destruct i; try discriminate Hn; unfold cost; lia.
Qed.

(** No semaphore ever exceeds its queue's capacity. *)
Lemma sems_le s x : inv s → semval s x <= 5.
Proof.
  intros Hs. destruct (inv_bounds _ Hs) as [H1 H2 H3].
  assert (Ht : ∀ q, counted q → 0 <= total (λ t, owed (adds q) (code s t))).
  { intros q Hq. destruct (owed_le q s threadChefX Hq Hs). lia. }
  pose proof (inv_q1_free _ Hs) as E1. pose proof (inv_vanilla_free _ Hs) as E2. pose proof (inv_vanilla_used _ Hs) as E3.
  pose proof (inv_chocolate_free _ Hs) as E4. pose proof (inv_chocolate_used _ Hs) as E5. pose proof (inv_q1_used _ Hs) as E6.
  pose proof (Ht q1_free ltac:(unfold counted; tauto)). pose proof (Ht q1_used ltac:(unfold counted; tauto)).
  pose proof (Ht vanilla_free ltac:(unfold counted; tauto)). pose proof (Ht vanilla_used ltac:(unfold counted; tauto)).
  pose proof (Ht chocolate_free ltac:(unfold counted; tauto)). pose proof (Ht chocolate_used ltac:(unfold counted; tauto)).
  unfold balance, MAX_NO_OF_PRODUCDED_CAKES, MAX_NO_OF_VANILLA_CAKES, MAX_NO_OF_CHOCOLATE_CAKES in *.
  change (value q1_free s) with (semval s q1_empty + Z.of_nat (length (q1 s))) in *.
  change (value q1_used s) with (semval s q1_full - Z.of_nat (length (q1 s))) in *.
  cbn [value vanilla_free vanilla_used chocolate_free chocolate_used] in *. destruct x; lia.
Qed.

Lemma energy_bounds s : inv s → -500 <= energy s <= 1545.
Proof.
  intros Hs. unfold energy, tokens, total, all_sems, all_threads. cbn [foldr weight].
  pose proof (cost_place _ _ (inv_place _ Hs threadChefX)). pose proof (cost_place _ _ (inv_place _ Hs threadChefY)).
  pose proof (cost_place _ _ (inv_place _ Hs threadChefZ)). pose proof (cost_place _ _ (inv_place _ Hs threadWaiterChocolate)).
  pose proof (cost_place _ _ (inv_place _ Hs threadWaiterVanilla)).
  pose proof (λ x, inv_sems _ Hs x) as Hlo. pose proof (λ x, sems_le s x Hs) as Hhi.
  pose proof (Hlo q1_empty). pose proof (Hlo qVanilla_full). pose proof (Hlo qVanilla_empty). pose proof (Hlo qChocolate_full). pose proof (Hlo qChocolate_empty).
  pose proof (Hhi q1_empty). pose proof (Hhi qVanilla_full). pose proof (Hhi qVanilla_empty). pose proof (Hhi qChocolate_full). pose proof (Hhi qChocolate_empty).
  lia.
Qed.

(** A cake is sold during the run. *)
Inductive sale_in : list thread → state → Prop :=
  | sale_now t ts s : sells t s = true → sale_in (t :: ts) s
  | sale_later t ts s s1 : step t s = Next s1 → sale_in ts s1 → sale_in (t :: ts) s.

Lemma run_energy ts s s' : run ts s s' → inv s → sale_in ts s ∨ energy s' <= energy s - Z.of_nat (length ts).
Proof.
  induction 1 as [s|t ts s s1 s' E _ IH]; intros Hs; [right; cbn; lia|].
  destruct (sells t s) eqn:Hn; [left; by constructor|]. pose proof (energy_step t s s1 Hs E Hn).
  destruct (IH (inv_step _ _ _ Hs E)) as [Hsale|Hle]; [left; by eapply sale_later|]. right. cbn [length]. lia.
Qed.

(** C30: the cake factory never stops selling. In every reachable state some
    thread can take a step, so the factory never deadlocks; and every run
    from a reachable state, whatever the scheduler does, sells a cake within
    the given number of steps. *)
Theorem cake_factory_sells s : reachable s →
  (∃ t s', step t s = Next s') ∧
  ∀ ts s', run ts s s' → (sale_bound < length ts)%nat → sale_in ts s.
Proof.
  intros Hs%inv_reachable. split; [exact (progress s Hs)|]. intros ts s' Hr Hlen.
  destruct (run_energy ts s s' Hr Hs) as [H|H]; [exact H|]. exfalso.
  pose proof (energy_bounds s Hs). pose proof (energy_bounds s') as Hb.
  assert (Hs' : inv s') by (clear - Hr Hs; induction Hr as [|t ts s s1 s' E _ IH]; [done|]; apply IH; by eapply inv_step).
  specialize (Hb Hs'). unfold sale_bound in Hlen. lia.
Qed.

(** ** Runs that can be evaluated *)
Fixpoint play (ts : list thread) (s : state) : option state :=
  match ts with
  | [] => Some s
  | t :: ts => match step t s with Next s1 => play ts s1 | _ => None end
  end.

Lemma play_run ts : ∀ s s', play ts s = Some s' → run ts s s'.
Proof.
  induction ts as [|t ts IH]; intros s s'; cbn; [intros [= <-]; constructor|].
  destruct (step t s) as [| |s1] eqn:E; try discriminate. intros H. econstructor; [exact E|by apply IH].
Qed.

(** Chef Y makes a cake, chef Z carries it, Y makes another; Z counts it
    into the vanilla queue; the waiter sells the first cake and prints; then
    Z prints. *)
Definition schedule : list thread :=
  replicate (4 + length vanillaChef) threadChefY ++
  replicate (4 + length carrierChef + length (carrierChef_if CAKE_VANILLA)) threadChefZ ++
  replicate (1 + length vanillaChef) threadChefY ++
  replicate (1 + length carrierChef + 19) threadChefZ.
Definition overtaken : list thread :=
  schedule ++ replicate (4 + length vanillaWaiter) threadWaiterVanilla ++ replicate 4 threadChefZ.

Definition factory (ts : list thread) : state := default main (play ts main).

Lemma factory_reachable ts : is_Some (play ts main) → reachable (factory ts).
Proof. intros [s E]. exists ts. unfold factory. rewrite E. by apply play_run. Qed.

(** Putting a vanilla cake prints after releasing the queue's mutex, so its
    message can come after that of a later sale: the log says one cake is
    left after the sale, then that putting a cake makes two. *)
Example vanilla_log_out_of_order :
  take 2 (cout (factory overtaken)) =
    ["Chef_Z has just put a Vanilla Cake in Queue_Vanilla" ++ NL ++ "#Cakes in QVanilla: 2";
     "Vanilla Waiter has just sold a cake from Queue_Vanilla" ++ NL ++ "#Cakes in QVanilla: 1"]%string ∧
  nVanilla (factory overtaken) = 1.
Proof. split; vm_compute; reflexivity. Qed.

Lemma cake_factory_safe_witness : let s := factory (take (length schedule - 2) schedule) in
  code s threadChefZ = IIncVanilla :: drop 18 (carrierChef_if CAKE_VANILLA) ∧ t_cake (threads s threadChefZ) = CAKE_VANILLA ∧
  nVanilla s <= MAX_NO_OF_VANILLA_CAKES.
Proof.
  intros s. assert (Hr : reachable s) by (apply factory_reachable; vm_compute; by eexists).
  assert (Hc : code s threadChefZ = IIncVanilla :: drop 18 (carrierChef_if CAKE_VANILLA)) by (vm_compute; reflexivity).
  destruct (cake_factory_safe s Hr) as (_ & _ & Hv & _ & _ & Ht & _). split; [exact Hc|]. split; [exact (Ht _ Hc)|apply Hv].
Defined.

Lemma cake_factory_sells_witness : let s := factory schedule in
  semval s qVanilla_full = 1 ∧ (∃ t s', step t s = Next s') ∧ ∀ ts s', run ts s s' → (sale_bound < length ts)%nat → sale_in ts s.
Proof.
  intros s. assert (Hr : reachable s) by (apply factory_reachable; vm_compute; by eexists).
  split; [vm_compute; reflexivity|]. exact (cake_factory_sells s Hr).
Defined.
