(* ===== verification/VmemSpec.v ===== *)
(** * VmemSpec: when the kernel may follow a pointer

    [src_at k addr l]: the bytes [l] can be read at [addr]. [dst_at k addr n f]:
    [n] bytes can be stored there, at the physical places [f i]; storing them
    does not change the translation, as long as the places are not part of
    the page tables that map them. Every kernel buffer satisfies it. *)

From S2P Require Import Prelude CString Kernel Sched Sock Kalloc Fifo Paging Vmem.

(** ** Definitions *)
Definition vaddr_at (m : mem) (cr3 va : Z) : option Z :=
  if KERNBASE <=? va then Some va else translate m cr3 va.

Definition src_at (k : kernel) (addr : Z) (l : list Z) : Prop :=
  ∀ i b, l !! i = Some b →
    ∃ a, vaddr_at (k_mem k) (c_cr3 (k_cpu k)) (u32 (addr + Z.of_nat i)) = Some a ∧ k_mem k a = b.

Record dst_at (k : kernel) (addr : Z) (n : nat) (f : nat → Z) : Prop := mk_dst_at {
  da_inj : ∀ i j, (i < n)%nat → (j < n)%nat → f i = f j → i = j;
  da_map : ∀ m', (∀ a, (∀ i, (i < n)%nat → a ≠ f i) → m' a = k_mem k a) →
    ∀ i, (i < n)%nat → vaddr_at m' (c_cr3 (k_cpu k)) (u32 (addr + Z.of_nat i)) = Some (f i);
}.

(** Memory [m'] holds [l] at the places [f], and agrees with [m] elsewhere. *)
Definition stored (m m' : mem) (f : nat → Z) (l : list Z) : Prop :=
  (∀ i b, l !! i = Some b → m' (f i) = b) ∧
  (∀ a, (∀ i, (i < length l)%nat → a ≠ f i) → m' a = m a).

(** ** Reading and storing *)
Lemma vaddr_eq k va : vaddr va k =
  match vaddr_at (k_mem k) (c_cr3 (k_cpu k)) va with Some a => Ret a k | None => Switch (LPageFault va) k end.
Proof.
  unfold vaddr, vaddr_at. destruct (KERNBASE <=? va); [done|]. rewrite bind_gets.
  by destruct (translate _ _ _).
Qed.

Lemma vload8_ok k addr l i b : src_at k addr l → l !! i = Some b → vload8 (u32 (addr + Z.of_nat i)) k = Ret b k.
Proof.
  intros Hs Hi. destruct (Hs i b Hi) as (a & Ha & Hb). unfold vload8.
  assert (E : vaddr (u32 (addr + Z.of_nat i)) k = Ret a k) by (by rewrite vaddr_eq, Ha).
  rewrite (bind_Ret_eq _ _ _ _ _ E). unfold gets. by rewrite Hb.
Qed.

Lemma src_at_frame k k' addr l : k_mem k' = k_mem k → c_cr3 (k_cpu k') = c_cr3 (k_cpu k) → src_at k addr l → src_at k' addr l.
Proof. intros Hm Hc Hs i b Hi. rewrite Hm, Hc. by apply Hs. Qed.

Lemma dst_at_frame k k' addr n f :
  (∀ a, (∀ i, (i < n)%nat → a ≠ f i) → k_mem k' a = k_mem k a) → c_cr3 (k_cpu k') = c_cr3 (k_cpu k) →
  dst_at k addr n f → dst_at k' addr n f.
Proof.
  intros Hm Hc [Hi Hd]. split; [done|]. intros m' Hm' i Hin. rewrite Hc. apply Hd; [|done].
  intros a Ha. rewrite Hm', Hm by done. done.
Qed.

Lemma dst_at_le k addr n n' f : (n' <= n)%nat → dst_at k addr n f → dst_at k addr n' f.
Proof.
  intros Hn [Hi Hd]. split; [intros i j ? ?; apply Hi; lia|]. intros m' Hm' i Hin. apply Hd; [|lia].
  intros a Ha. apply Hm'. intros j Hj. apply Ha. lia.
Qed.

Lemma vstore8_ok k addr n f i b : dst_at k addr n f → (i < n)%nat →
  vstore8 (u32 (addr + Z.of_nat i)) b k = Ret tt (set_k_mem (upd (k_mem k) (f i) b) k).
Proof.
  intros Hd Hi. unfold vstore8.
  assert (E : vaddr (u32 (addr + Z.of_nat i)) k = Ret (f i) k) by (rewrite vaddr_eq; by rewrite (da_map _ _ _ _ Hd (k_mem k))).
  by rewrite (bind_Ret_eq _ _ _ _ _ E).
Qed.

(** A kernel buffer. *)
Lemma dst_at_kernel k addr n : KERNBASE <= addr → addr + Z.of_nat n <= 2 ^ 32 → dst_at k addr n (λ i, addr + Z.of_nat i).
Proof.
  intros Ha Hn. split; [intros; lia|]. intros m' _ i Hi. unfold vaddr_at.
  unfold KERNBASE in *. rewrite u32_small by lia. destruct (Z.leb_spec 2147483648 (addr + Z.of_nat i)); [done|lia].
Qed.

Lemma src_at_kernel k addr l : KERNBASE <= addr → addr + Z.of_nat (length l) <= 2 ^ 32 →
  (∀ i b, l !! i = Some b → k_mem k (addr + Z.of_nat i) = b) → src_at k addr l.
Proof.
  intros Ha Hn Hl i b Hi. pose proof (lookup_lt_Some _ _ _ Hi). exists (addr + Z.of_nat i).
  split; [|by apply Hl]. unfold vaddr_at, KERNBASE in *. rewrite u32_small by lia.
  destruct (Z.leb_spec 2147483648 (addr + Z.of_nat i)); [done|lia].
Qed.

(** Bytes stored one after the other. *)
Lemma stored_snoc m m' k addr n f l b : dst_at k addr n f → (length l < n)%nat →
  stored m m' f l → stored m (upd m' (f (length l)) b) f (l ++ [b]).
Proof.
  intros Hd Hl [H1 H2]. split.
  - intros i c Hi. unfold upd. destruct (Z.eqb_spec (f i) (f (length l))) as [E|E].
    + pose proof (lookup_lt_Some _ _ _ Hi) as Hlt. rewrite length_app in Hlt. cbn in Hlt.
      apply (da_inj _ _ _ _ Hd) in E; [|lia|lia]. subst i. rewrite lookup_app_r, Nat.sub_diag in Hi by lia.
      by injection Hi.
    + apply H1. pose proof (lookup_lt_Some _ _ _ Hi) as Hlt. rewrite length_app in Hlt. cbn in Hlt.
      destruct (decide (i = length l)) as [->|]; [done|]. by rewrite lookup_app_l in Hi by lia.
  - intros a Ha. rewrite length_app in Ha. cbn in Ha. unfold upd. destruct (Z.eqb_spec a (f (length l))) as [E|E].
    + exfalso. apply (Ha (length l)); [lia|done].
    + apply H2. intros i Hi. apply Ha. lia.
Qed.

Lemma stored_nil m f : stored m m f [].
Proof. by split. Qed.
