(* ===== verification/Cons.v ===== *)
(** * Cons: printing on the console (console.c, uart.c)

    [printint], [cprintf], [consputc], [cgaputc], [uartputc]. Characters go
    to the serial line ([io_out], latest first) and to the text screen, 25
    rows of 80 cells of 16 bits at physical address 0xb8000; the CRT
    controller keeps the cursor position. The theorems show that the number
    printed is the positional notation of the argument and that the cursor
    never leaves the screen, so that [cgaputc] neither panics nor writes
    outside the screen memory. *)

From S2P Require Import Prelude CString Kernel Sched Kalloc Fifo Paging Vmem.

(** ** Definitions *)
Definition digit (d : Z) : Z := if d <? 10 then 48 + d else 97 + (d - 10).

(** [do { buf[i++] = digits[x % base]; } while ((x /= base) != 0)] *)
Fixpoint printint_digits (fuel : nat) (x base : Z) : list Z :=
  match fuel with
  | O => []
  | S fuel => digit (x mod base) :: (if x / base =? 0 then [] else printint_digits fuel (x / base) base)
  end.

(** The characters of [buf], in the order in which they were stored. *)
Definition printint_buf (xx base : Z) (sign : bool) : list Z :=
  let neg := sign && (xx <? 0) in
  let x := u32 (if neg then - xx else xx) in
  printint_digits 32 x base ++ (if neg then [45] else []).

Definition BACKSPACE : Z := 0x100.
Definition crt : Z := P2V 0xb8000.

Definition uartputc (c : Z) : KM unit :=
  u <- gets (λ k, io_uart (k_io k)) ;;
  when u (modify (upd_io (λ d, set_io_out (u8 c :: io_out d) d))).

Definition store16 (m : mem) (a v : Z) : mem := upd (upd m a (v mod 2 ^ 8)) (a + 1) (v / 2 ^ 8 mod 2 ^ 8).
Definition crt_set (pos v : Z) : KM unit :=
  modify (λ k, set_k_mem (store16 (k_mem k) (crt + 2 * pos) v) k).

(** The position after writing [c], the cell written if any. *)
Definition cga_advance (c pos : Z) : KM Z :=
  if c =? 10 then mret (pos + (80 - pos mod 80))
  else if c =? BACKSPACE then mret (if 0 <? pos then pos - 1 else pos)
  else crt_set pos (Z.lor (Z.land c 0xff) 0x0700) ;; mret (pos + 1).
Definition cga_scroll (pos : Z) : KM Z :=
  if 24 <=? pos / 80 then
    mem_move crt (crt + 2 * 80) (2 * 23 * 80) ;;
    let pos := pos - 80 in
    mem_set (crt + 2 * pos) 0 (2 * (24 * 80 - pos)) ;;
    mret pos
  else mret pos.
Definition cgaputc (c : Z) : KM unit :=
  pos <- gets (λ k, io_cursor (k_io k)) ;;
  pos <- cga_advance c pos ;;
  if (pos <? 0) || (25 * 80 <? pos) then panic "pos under/overflow" else
  pos <- cga_scroll pos ;;
  modify (upd_io (set_io_cursor (pos mod 2 ^ 16))) ;;
  crt_set pos (Z.lor 32 0x0700).

(** When another CPU has panicked, [consputc] spins for ever. *)
Definition consputc (c : Z) : KM unit :=
  p <- gets (λ k, io_panicked (k_io k)) ;;
  if p then cli ;; panic "frozen" else
  (if c =? BACKSPACE then uartputc 8 ;; uartputc 32 ;; uartputc 8 else uartputc c) ;;
  cgaputc c.

Definition printint (xx base : Z) (sign : bool) : KM unit :=
  let buf := printint_buf xx base sign in
  if Z.of_nat (length buf) <=? 16 then mfor (rev buf) consputc else fault "printint: buf".

(** An argument of [cprintf]: a word or a string ([None] is the null pointer). *)
Inductive carg : Type :=
  | AInt (z : Z)
  | AStr (s : option (list Z)).

Definition cprintf_spec (c : Z) (a : carg) : KM unit :=
  match a with
  | AInt z => if c =? 100 then printint (s32 z) 10 true else printint (s32 z) 16 false
  | AStr s => mfor (cstring (default (lit "(null)") s)) (λ b, consputc (s8 b))
  end.

(** The arguments are taken from the stack in order; running out of them, or
    printing a string as a number, is undefined in C. *)
Fixpoint cprintf_loop (fmt : list Z) (args : list carg) : KM unit :=
  match fmt with
  | [] => mret tt
  | c :: fmt =>
      if c =? 0 then mret tt
      else if negb (c =? 37) then consputc c ;; cprintf_loop fmt args
      else match fmt with
      | [] => mret tt
      | c :: fmt =>
          if c =? 0 then mret tt
          else if (c =? 100) || (c =? 120) || (c =? 112) then
            match args with
            | AInt z :: args => cprintf_spec c (AInt z) ;; cprintf_loop fmt args
            | _ => fault "cprintf: argument"
            end
          else if c =? 115 then
            match args with
            | AStr s :: args => cprintf_spec c (AStr s) ;; cprintf_loop fmt args
            | _ => fault "cprintf: argument"
            end
          else if c =? 37 then consputc 37 ;; cprintf_loop fmt args
          else consputc 37 ;; consputc c ;; cprintf_loop fmt args
      end
  end.
Definition cprintf (fmt : string) (args : list carg) : KM unit :=
  locking <- gets (λ k, io_locking (k_io k)) ;;
  when locking (acquire LkCons) ;;
  cprintf_loop (lit fmt) args ;;
  when locking (release LkCons).

(** ** Positional notation *)

(** The value of digits in base [b], least significant first. *)
Definition digit_val (c : Z) : Z := if c <? 58 then c - 48 else c - 87.
Fixpoint digits_val (b : Z) (l : list Z) : Z :=
  match l with
  | [] => 0
  | c :: l => digit_val c + b * digits_val b l
  end.

Lemma digit_val_digit d : 0 <= d < 16 → digit_val (digit d) = d.
Proof. intros. unfold digit, digit_val. repeat (case_match; try lia). Qed.

Lemma printint_digits_val fuel : ∀ x b, 2 <= b <= 16 → 0 <= x < 2 ^ Z.of_nat fuel →
  digits_val b (printint_digits fuel x b) = x ∧
  (∀ c, c ∈ printint_digits fuel x b → ∃ d, 0 <= d < b ∧ c = digit d) ∧
  (x ≠ 0 → (0 < fuel)%nat → list.last (printint_digits fuel x b) ≠ Some (digit 0)).
Proof.
  induction fuel as [|fuel IH]; intros x b Hb Hx.
  { change (2 ^ Z.of_nat 0) with 1 in Hx. split; [cbn; lia|]. split; [set_solver|lia]. }
  rewrite Nat2Z.inj_succ, Z.pow_succ_r in Hx by lia.
  pose proof (Z.mod_pos_bound x b ltac:(lia)) as Hm. pose proof (Z.div_mod x b ltac:(lia)) as Hdm.
  cbn [printint_digits digits_val]. destruct (Z.eqb_spec (x / b) 0) as [E|E].
  - cbn [digits_val]. rewrite digit_val_digit by lia. split; [lia|]. split.
    + intros c Hc%list_elem_of_singleton. by exists (x mod b).
    + intros Hx0 _. cbn. intros [= H]. rewrite E in Hdm.
      apply (f_equal digit_val) in H. rewrite !digit_val_digit in H by lia. lia.
  - assert (0 <= x / b) by (apply Z.div_pos; lia). assert (x / b < 2 ^ Z.of_nat fuel) by nia.
    destruct (IH (x / b) b Hb ltac:(lia)) as (Hv & Hd & Hl). rewrite Hv, digit_val_digit by lia.
    split; [lia|]. split.
    + intros c [->|Hc]%elem_of_cons; [by exists (x mod b)|by apply Hd].
    + intros _ _. assert (Hf : (0 < fuel)%nat) by (destruct fuel; [change (2 ^ Z.of_nat 0) with 1 in *; lia|lia]).
      specialize (Hl E Hf). destruct (printint_digits fuel (x / b) b) eqn:Ep; [|done].
      destruct fuel; [lia|done].
Qed.

Lemma length_printint_digits fuel : ∀ n x b, 2 <= b → 0 <= x < b ^ Z.of_nat n → (0 < n)%nat →
  (length (printint_digits fuel x b) <= n)%nat.
Proof.
  induction fuel as [|fuel IH]; intros n x b Hb Hx Hn; [cbn; lia|]. cbn [printint_digits length].
  destruct (Z.eqb_spec (x / b) 0); [cbn; lia|]. destruct n as [|n]; [lia|].
  rewrite Nat2Z.inj_succ, Z.pow_succ_r in Hx by lia.
  assert (0 <= x / b) by (apply Z.div_pos; lia).
  assert (x / b < b ^ Z.of_nat n) by (apply Z.div_lt_upper_bound; lia).
  destruct n; [change (b ^ Z.of_nat 0) with 1 in *; lia|].
  pose proof (IH (S n) (x / b) b Hb ltac:(lia) ltac:(lia)). lia.
Qed.

(** [printint] prints the sign of its argument and the base-10 or base-16
    notation of its magnitude (of its unsigned reading when unsigned), without
    leading zeros, and never overruns its 16-byte buffer. *)
Theorem printint_notation xx base sign :
  (base = 10 ∨ base = 16) → - 2 ^ 31 <= xx < 2 ^ 31 →
  let neg := sign && (xx <? 0) in
  ∃ ds, printint xx base sign = mfor ((if neg then [45] else []) ++ rev ds) consputc ∧
    digits_val base ds = (if neg then - xx else u32 xx) ∧
    (length ds <= 10)%nat ∧
    (∀ c, c ∈ ds → ∃ d, 0 <= d < base ∧ c = digit d) ∧
    (xx ≠ 0 → list.last ds ≠ Some (digit 0)).
Proof.
  intros Hb Hx neg. set (x := u32 (if neg then - xx else xx)). exists (printint_digits 32 x base).
  pose proof (u32_range (if neg then - xx else xx)) as Hr. fold x in Hr.
  assert (Hb' : 2 <= base <= 16) by lia.
  destruct (printint_digits_val 32 x base Hb' Hr) as (Hv & Hd & Hl).
  assert (Hlen : (length (printint_digits 32 x base) <= 10)%nat).
  { apply length_printint_digits; [lia| |lia]. change (2 ^ 32) with 4294967296 in *.
    destruct Hb as [-> | ->]; [change (10 ^ Z.of_nat 10) with 10000000000|change (16 ^ Z.of_nat 10) with 1099511627776]; lia. }
  assert (Hneg : neg = true → xx < 0) by (unfold neg; destruct sign; cbn; lia).
  split; [|split; [|split; [done|split; [done|]]]].
  - unfold printint, printint_buf. fold neg. fold x. rewrite rev_app_distr.
    assert (Hl16 : (length (printint_digits 32 x base ++ (if neg then [45%Z] else [])) <= 11)%nat)
      by (rewrite length_app; destruct neg; cbn [length]; lia).
    destruct (Z.leb_spec (Z.of_nat (length (printint_digits 32 x base ++ (if neg then [45] else [])))) 16); [|lia].
    f_equal. by destruct neg.
  - rewrite Hv. unfold x. destruct neg; [|done]. rewrite u32_small; [done|].
    specialize (Hneg eq_refl). change (2 ^ 32) with 4294967296. lia.
  - intros Hx0. apply Hl; [|lia]. unfold x. destruct neg eqn:E.
    + specialize (Hneg eq_refl). rewrite u32_small; [lia|]. change (2 ^ 32) with 4294967296. lia.
    + unfold u32. change (2 ^ 32) with 4294967296 in *. change (2 ^ 31) with 2147483648 in *. divlia.
Qed.

Lemma printint_notation_witness :
  ∃ ds, printint (-123) 10 true = mfor ([45] ++ rev ds) consputc ∧
    digits_val 10 ds = - - 123 ∧ (length ds <= 10)%nat ∧
    (∀ c, c ∈ ds → ∃ d, 0 <= d < 10 ∧ c = digit d) ∧ (-123 ≠ 0 → list.last ds ≠ Some (digit 0)).
Proof. apply (printint_notation (-123) 10 true); [by left|lia]. Defined.

(** ** The screen *)
Definition screen_ok (k : kernel) : Prop := 0 <= io_cursor (k_io k) < 24 * 80.

(** [k'] differs from [k] in the screen memory and the cursor only. *)
Definition screen_frame (k k' : kernel) : Prop :=
  ∃ m c, k' = set_k_mem m (upd_io (set_io_cursor c) k) ∧
    ∀ a, a < crt ∨ crt + 2 * (25 * 80) <= a → m a = k_mem k a.

(** The character in cell [p]. *)
Definition cell (k : kernel) (p : Z) : Z := k_mem k (crt + 2 * p).

Lemma store16_other m a v b : b ≠ a → b ≠ a + 1 → store16 m a v b = m b.
Proof. intros. unfold store16, upd. repeat (case_match; try lia). Qed.

(** What [cgaputc] does to position and memory, [scroll] included. *)
Definition cga_next (c pos : Z) : Z :=
  if c =? 10 then pos + (80 - pos mod 80) else if c =? BACKSPACE then Z.max 0 (pos - 1) else pos + 1.
Definition cga_mem (m : mem) (c pos : Z) : mem :=
  let m := if (c =? 10) || (c =? BACKSPACE) then m else store16 m (crt + 2 * pos) (Z.lor (Z.land c 0xff) 0x0700) in
  let p := cga_next c pos in
  if 24 <=? p / 80 then
    store16 (memset (memmove m crt (crt + 160) 3680) (crt + 2 * (p - 80)) 0 (2 * (1920 - (p - 80))))
      (crt + 2 * (p - 80)) (Z.lor 32 0x0700)
  else store16 m (crt + 2 * p) (Z.lor 32 0x0700).

Lemma cgaputc_eq c k : screen_ok k →
  let p := cga_next c (io_cursor (k_io k)) in
  let p' := if 24 <=? p / 80 then p - 80 else p in
  cgaputc c k = Ret tt (set_k_mem (cga_mem (k_mem k) c (io_cursor (k_io k))) (upd_io (set_io_cursor p') k)) ∧
  0 <= p' < 1920 ∧ 0 <= p <= 1920.
Proof.
  intros Hs p p'. unfold screen_ok in Hs. set (pos := io_cursor (k_io k)) in *.
  assert (Hp : 0 <= p <= 1920) by (unfold p, cga_next; repeat case_match; divlia).
  assert (Hp' : 0 <= p' < 1920) by (unfold p'; destruct (Z.leb_spec 24 (p / 80)); divlia).
  split; [|done]. unfold cgaputc. rewrite bind_gets. fold pos.
  assert (Ha : cga_advance c pos k = Ret p (set_k_mem (if (c =? 10) || (c =? BACKSPACE) then k_mem k
      else store16 (k_mem k) (crt + 2 * pos) (Z.lor (Z.land c 0xff) 0x0700)) k)).
  { unfold cga_advance, p, cga_next. destruct (c =? 10); cbn [orb]; [by destruct k|].
    destruct (c =? BACKSPACE); cbn [orb]; [|done]. destruct (Z.ltb_spec 0 pos).
    - replace (Z.max 0 (pos - 1)) with (pos - 1) by lia. by destruct k.
    - replace (Z.max 0 (pos - 1)) with pos by lia. by destruct k. }
  rewrite (bind_Ret_eq _ _ _ _ _ Ha).
  destruct (Z.ltb_spec p 0); [lia|]. destruct (Z.ltb_spec (25 * 80) p); [lia|]. cbn [orb].
  unfold cga_scroll, cga_mem. fold p. unfold p' in *. destruct (24 <=? p / 80).
  - unfold mem_move, mem_set, crt_set. rewrite !bind_assoc, bind_modify, bind_assoc, bind_modify, bind_mret, bind_modify.
    rewrite Z.mod_small by (change (2 ^ 16) with 65536; lia). reflexivity.
  - rewrite bind_mret, bind_modify. rewrite Z.mod_small by (change (2 ^ 16) with 65536; lia). reflexivity.
Qed.

(** C25: with the cursor on the first 24 rows, [cgaputc] never panics, leaves
    the cursor there again and writes only the screen's 2000 cells: a plain
    character appears at the cursor, in the row above after a scroll, and is
    followed by a blank. *)
Theorem cgaputc_screen c k :
  screen_ok k → ∃ k', cgaputc c k = Ret tt k' ∧ screen_ok k' ∧ screen_frame k k' ∧
    cell k' (io_cursor (k_io k')) = 32 ∧
    (c ≠ 10 → c ≠ BACKSPACE → cell k' (io_cursor (k_io k') - 1) = u8 c).
Proof.
  intros Hs. destruct (cgaputc_eq c k Hs) as (E & Hp' & Hp). eexists. split; [exact E|].
  set (pos := io_cursor (k_io k)) in *. set (p := cga_next c pos) in *. unfold screen_ok in Hs. fold pos in Hs.
  split; [exact Hp'|]. split; [|split].
  - exists (cga_mem (k_mem k) c pos). eexists. split; [reflexivity|]. intros a Ha.
    unfold cga_mem. fold p. destruct (Z.leb_spec 24 (p / 80)).
    + rewrite store16_other by divlia. rewrite memset_fill by divlia. unfold fill.
      destruct (Z.leb_spec (crt + 2 * (p - 80)) a), (Z.ltb_spec a (crt + 2 * (p - 80) + 2 * (1920 - (p - 80)))); cbn [andb];
        try (exfalso; divlia).
      all: rewrite memmove_blit by lia; unfold blit;
        destruct (Z.leb_spec crt a), (Z.ltb_spec a (crt + 3680)); cbn [andb]; try (exfalso; divlia);
        destruct (_ || _); try done; apply store16_other; lia.
    + rewrite store16_other by divlia. destruct (_ || _); [done|]. apply store16_other; lia.
  - unfold cell. cbn. fold pos. unfold cga_mem. fold p. destruct (24 <=? p / 80); unfold store16, upd;
      rewrite ?Z.eqb_refl; repeat (case_match; try lia); done.
  - intros H10 HB. unfold cell. cbn. fold pos. unfold cga_mem. fold p.
    destruct (Z.eqb_spec c 10); [done|]. destruct (Z.eqb_spec c BACKSPACE); [done|]. cbn [orb].
    assert (Hpp : p = pos + 1) by (unfold p, cga_next; destruct (Z.eqb_spec c 10); [done|]; by destruct (Z.eqb_spec c BACKSPACE)).
    assert (Hch : ∀ m a, store16 m a (Z.lor (Z.land c 255) 1792) a = u8 c).
    { intros m a. unfold store16, upd. rewrite Z.eqb_refl. destruct (Z.eqb_spec a (a + 1)); [lia|].
      change 255 with (Z.ones 8). rewrite <- !Z.land_ones, Z.land_lor_distr_l, <- Z.land_assoc, Z.land_diag by lia.
      change (Z.land 1792 (Z.ones 8)) with 0. rewrite Z.lor_0_r. by rewrite Z.land_ones by lia. }
    destruct (Z.leb_spec 24 (p / 80)).
    + rewrite store16_other by lia. rewrite memset_fill by divlia. unfold fill.
      destruct (Z.leb_spec (crt + 2 * (p - 80)) (crt + 2 * (p - 80 - 1))); [lia|]. cbn [andb].
      rewrite memmove_blit by lia. unfold blit.
      destruct (Z.leb_spec crt (crt + 2 * (p - 80 - 1))); [|divlia].
      destruct (Z.ltb_spec (crt + 2 * (p - 80 - 1)) (crt + 3680)); [|divlia]. cbn [andb].
      rewrite <- (Hch (k_mem k) (crt + 2 * pos)). f_equal. lia.
    + rewrite store16_other by lia. rewrite <- (Hch (k_mem k) (crt + 2 * pos)). f_equal. lia.
Qed.

Lemma cgaputc_screen_witness :
  ∃ k', cgaputc 65 kernel0 = Ret tt k' ∧ screen_ok k' ∧ screen_frame kernel0 k' ∧
    cell k' (io_cursor (k_io k')) = 32 ∧
    (65 ≠ 10 → 65 ≠ BACKSPACE → cell k' (io_cursor (k_io k') - 1) = u8 65).
Proof. apply cgaputc_screen. unfold screen_ok. cbn. lia. Defined.
