(* ===== verification/Kbd.v ===== *)
(** * Kbd: the keyboard driver (kbd.c, kbd.h)

    [kbdgetc] turns the byte the keyboard controller delivers into a
    character, keeping the modifier keys in the bits of [shift]. The theorem
    shows that it implements a table-free description: a record of modifier
    flags, makes and breaks of keys, an escape prefix. *)

From S2P Require Import Prelude CString Kernel Sched Kalloc Fifo Paging Vmem.

(** ** Definitions *)
Definition KBS_DIB : Z := 0x01.
Definition NO : Z := 0.
Definition SHIFT : Z := Z.shiftl 1 0.
Definition CTL : Z := Z.shiftl 1 1.
Definition ALT : Z := Z.shiftl 1 2.
Definition CAPSLOCK : Z := Z.shiftl 1 3.
Definition NUMLOCK : Z := Z.shiftl 1 4.
Definition SCROLLLOCK : Z := Z.shiftl 1 5.
Definition E0ESC : Z := Z.shiftl 1 6.
Definition KEY_HOME : Z := 0xE0.
Definition KEY_END : Z := 0xE1.
Definition KEY_UP : Z := 0xE2.
Definition KEY_DN : Z := 0xE3.
Definition KEY_LF : Z := 0xE4.
Definition KEY_RT : Z := 0xE5.
Definition KEY_PGUP : Z := 0xE6.
Definition KEY_PGDN : Z := 0xE7.
Definition KEY_INS : Z := 0xE8.
Definition KEY_DEL : Z := 0xE9.

(** [C(x)], stored in a [uchar] *)
Definition ctl (x : Z) : Z := u8 (x - 64).

(** A 256-entry table from its leading entries and its designated ones; the
    others are zero. *)
Definition table256 (base : list Z) (upds : list (Z * Z)) : list Z :=
  fold_left (λ l e, <[Z.to_nat e.1 := e.2]> l) upds (base ++ replicate (256 - length base) 0).

Definition shiftcode : list Z :=
  table256 [] [(0x1D, CTL); (0x2A, SHIFT); (0x36, SHIFT); (0x38, ALT); (0x9D, CTL); (0xB8, ALT)].
Definition togglecode : list Z :=
  table256 [] [(0x3A, CAPSLOCK); (0x45, NUMLOCK); (0x46, SCROLLLOCK)].

(** The escaped keys, the same in the three maps. *)
Definition escaped (enter div : Z) : list (Z * Z) :=
  [(0x9C, enter); (0xB5, div); (0xC8, KEY_UP); (0xD0, KEY_DN); (0xC9, KEY_PGUP); (0xD1, KEY_PGDN);
   (0xCB, KEY_LF); (0xCD, KEY_RT); (0x97, KEY_HOME); (0xCF, KEY_END); (0xD2, KEY_INS); (0xD3, KEY_DEL)].

Definition normalmap : list Z :=
  table256
    ([NO; 0x1B] ++ lit "1234567890-=" ++ [8; 9] ++
     lit "qwertyuiop[]" ++ [10; NO] ++ lit "as" ++
     lit "dfghjkl;" ++ [39; 96; NO; 92] ++ lit "zxcv" ++
     lit "bnm,./" ++ [NO] ++ lit "*" ++ [NO; 32; NO; NO; NO; NO; NO; NO] ++
     [NO; NO; NO; NO; NO; NO; NO] ++ lit "789-456+1" ++
     lit "230." ++ [NO; NO; NO; NO])
    (escaped 10 47).
Definition shiftmap : list Z :=
  table256
    ([NO; 27] ++ lit "!@#$%^&*()_+" ++ [8; 9] ++
     lit "QWERTYUIOP{}" ++ [10; NO] ++ lit "AS" ++
     lit "DFGHJKL:" ++ [34; 126; NO; 124] ++ lit "ZXCV" ++
     lit "BNM<>?" ++ [NO] ++ lit "*" ++ [NO; 32; NO; NO; NO; NO; NO; NO] ++
     [NO; NO; NO; NO; NO; NO; NO] ++ lit "789-456+1" ++
     lit "230." ++ [NO; NO; NO; NO])
    (escaped 10 47).
Definition ctlmap : list Z :=
  table256
    (replicate 16 NO ++
     (ctl <$> lit "QWERTYUIOP") ++ [NO; NO; 13; NO] ++ (ctl <$> lit "AS") ++
     (ctl <$> lit "DFGHJKL") ++ [NO; NO; NO; NO; ctl 92] ++ (ctl <$> lit "ZXCV") ++
     (ctl <$> lit "BNM") ++ [NO; NO; ctl 47; NO; NO])
    (escaped 13 (ctl 47)).
Definition charcode (i : Z) : list Z :=
  if i =? 0 then normalmap else if i =? 1 then shiftmap else ctlmap.

Definition at256 (t : list Z) (i : Z) : KM Z := deref "table" (t !! Z.to_nat i).

(** [port] is the byte the controller holds, if its status bit says so. *)
Definition kbdgetc (port : option Z) : KM Z :=
  match port with
  | None => mret (-1)
  | Some data =>
      shift <- gets (λ k, io_shift (k_io k)) ;;
      let set s := modify (upd_io (set_io_shift s)) in
      if data =? 0xE0 then
        set (Z.lor shift E0ESC) ;; mret 0
      else if negb (Z.land data 0x80 =? 0) then
        let data := if negb (Z.land shift E0ESC =? 0) then data else Z.land data 0x7F in
        sc <- at256 shiftcode data ;;
        set (Z.land shift (u32 (Z.lnot (Z.lor sc E0ESC)))) ;; mret 0
      else
        let '(data, shift) :=
          if negb (Z.land shift E0ESC =? 0) then (Z.lor data 0x80, Z.land shift (u32 (Z.lnot E0ESC)))
          else (data, shift) in
        sc <- at256 shiftcode data ;;
        tc <- at256 togglecode data ;;
        let shift := Z.lxor (Z.lor shift sc) tc in
        set shift ;;
        c <- at256 (charcode (Z.land shift (Z.lor CTL SHIFT))) data ;;
        mret (if negb (Z.land shift CAPSLOCK =? 0) then
                if (97 <=? c) && (c <=? 122) then u32 (c + (65 - 97))
                else if (65 <=? c) && (c <=? 90) then u32 (c + (97 - 65)) else c
              else c)
  end.

(** ** The keyboard as a table of flags *)
Record mods : Type := mk_mods {
  m_shift : bool; m_ctl : bool; m_alt : bool;
  m_caps : bool; m_num : bool; m_scroll : bool;
  m_e0 : bool;
}.

#[export] Instance mods_eq_dec : EqDecision mods.
Proof. solve_decision. Defined.

Inductive modkey : Type := KShift | KCtl | KAlt | KCaps | KNum | KScroll | KPlain.
(** Keys are numbered by make code, escaped ones from 0x80 on. *)
Definition modkey_of (key : Z) : modkey :=
  if (key =? 0x2A) || (key =? 0x36) then KShift
  else if (key =? 0x1D) || (key =? 0x9D) then KCtl
  else if (key =? 0x38) || (key =? 0xB8) then KAlt
  else if key =? 0x3A then KCaps
  else if key =? 0x45 then KNum
  else if key =? 0x46 then KScroll
  else KPlain.

Definition set_mod (key : modkey) (down : bool) (m : mods) : mods :=
  let '(mk_mods s c a cl n sl e) := m in
  match key with
  | KShift => mk_mods down c a cl n sl e
  | KCtl => mk_mods s down a cl n sl e
  | KAlt => mk_mods s c down cl n sl e
  | KCaps => mk_mods s c a (if down then negb cl else cl) n sl e
  | KNum => mk_mods s c a cl (if down then negb n else n) sl e
  | KScroll => mk_mods s c a cl n (if down then negb sl else sl) e
  | KPlain => m
  end.
Definition set_e0 (e : bool) (m : mods) : mods :=
  let '(mk_mods s c a cl n sl _) := m in mk_mods s c a cl n sl e.

Definition swap_case (c : Z) : Z :=
  if (97 <=? c) && (c <=? 122) then c - 32 else if (65 <=? c) && (c <=? 90) then c + 32 else c.
Definition char_of (m : mods) (key : Z) : Z :=
  let t := if m_ctl m then ctlmap else if m_shift m then shiftmap else normalmap in
  let c := t !!! Z.to_nat key in
  if m_caps m then swap_case c else c.

(** One byte from the keyboard: the new flags and the character, 0 for none. *)
Definition kbd_step (m : mods) (data : Z) : mods * Z :=
  if data =? 0xE0 then (set_e0 true m, 0)
  else if 0x80 <=? data then
    let key := if m_e0 m then data else data - 0x80 in
    (set_e0 false (set_mod (modkey_of key) false m), 0)
  else
    let key := if m_e0 m then data + 0x80 else data in
    let m' := set_e0 false (set_mod (modkey_of key) true m) in
    (m', char_of m' key).

(** The word that represents the flags. *)
Definition bit (b : bool) (v : Z) : Z := if b then v else 0.
Definition encode (m : mods) : Z :=
  bit (m_shift m) SHIFT + bit (m_ctl m) CTL + bit (m_alt m) ALT + bit (m_caps m) CAPSLOCK +
  bit (m_num m) NUMLOCK + bit (m_scroll m) SCROLLLOCK + bit (m_e0 m) E0ESC.

(** ** The driver implements it *)
Definition bools : list bool := [false; true].
Definition all_mods : list mods :=
  s ← bools; c ← bools; a ← bools; cl ← bools; n ← bools; sl ← bools; e ← bools;
  [mk_mods s c a cl n sl e].

Lemma all_mods_complete m : m ∈ all_mods.
Proof.
  apply (bool_decide_unpack _). by destruct m as [[] [] [] [] [] [] []].
Qed.

(** The driver's effect on a given [shift], as a value. *)
Definition kbd_run (shift data : Z) : option (Z * Z) :=
  match kbdgetc (Some data) (upd_io (set_io_shift shift) kernel0) with
  | Ret c k => Some (io_shift (k_io k), c)
  | _ => None
  end.

Definition kbd_agrees (m : mods) (data : Z) : bool :=
  let '(m', c) := kbd_step m data in
  bool_decide (kbd_run (encode m) data = Some (encode m', c)).

Lemma kbd_agrees_all : forallb (λ m, forallb (kbd_agrees m) (seqZ 0 256)) all_mods = true.
Proof. vm_compute. reflexivity. Qed.

(** The driver reads and writes [shift] only. *)
Lemma kbdgetc_run data k :
  kbdgetc (Some data) k =
    match kbd_run (io_shift (k_io k)) data with
    | Some (s, c) => Ret c (upd_io (set_io_shift s) k)
    | None => Fault "table"
    end.
Proof.
  unfold kbd_run, kbdgetc, at256. rewrite !bind_gets.
  change (io_shift (k_io (upd_io (set_io_shift ?s) kernel0))) with s.
  generalize (io_shift (k_io k)) as s. intros s.
  destruct (data =? 0xE0); [done|]. destruct (negb (Z.land data 0x80 =? 0)).
  - destruct (shiftcode !! _); done.
  - destruct (negb (Z.land s E0ESC =? 0)); destruct (shiftcode !! _); [|done| |done];
      cbn [deref]; rewrite !bind_mret; destruct (togglecode !! _); [|done| |done]; cbn [deref]; rewrite !bind_mret, !bind_modify;
      destruct (charcode _ !! _); done.
Qed.

(** C24: on every byte the controller can deliver, [kbdgetc] stays inside its
    tables, returns the character of the pressed key under the held and
    toggled modifiers, and its [shift] word keeps representing the flags. *)
Theorem kbdgetc_refines m data k :
  0 <= data < 256 → io_shift (k_io k) = encode m →
  kbdgetc (Some data) k = Ret (kbd_step m data).2 (upd_io (set_io_shift (encode (kbd_step m data).1)) k).
Proof.
  intros Hd Hs. rewrite kbdgetc_run, Hs. pose proof kbd_agrees_all as H.
  rewrite forallb_forall in H. specialize (H m (proj1 (list_elem_of_In _ _) (all_mods_complete m))).
  rewrite forallb_forall in H. specialize (H data). unfold kbd_agrees in H.
  destruct (kbd_step m data) as [m' c].
  assert (Hin : In data (seqZ 0 256)) by (apply list_elem_of_In, elem_of_seqZ; lia).
  by rewrite (bool_decide_eq_true_1 _ (H Hin)).
Qed.

Lemma kbdgetc_refines_witness :
  let m := mk_mods true false false false false false false in
  let k := upd_io (set_io_shift SHIFT) kernel0 in
  kbdgetc (Some 0x1E) k = Ret 65 (upd_io (set_io_shift SHIFT) k).
Proof.
  apply (kbdgetc_refines (mk_mods true false false false false false false) 0x1E
    (upd_io (set_io_shift SHIFT) kernel0)); [lia|reflexivity].
Defined.
