(* ===== verification/Printf.v ===== *)
(** * Printf: formatted output of the user programs (printf.c)

    A user program sees the world through its system calls, the class
    [usys]. [printf] writes its output one character at a time. What it
    prints is described by the pieces of the format string. *)

From S2P Require Import Prelude CString Kernel Sched Kalloc Fifo Paging Vmem Cons.

(** ** Definitions *)

(** The fields of [struct stat] that the programs use. *)
Record ustat : Type := mk_ustat { st_type : Z; st_ino : Z; st_size : Z }.

(** The system calls, over the world [W]: their result, and the bytes or the
    structure they store ([None] for an error). *)
Class usys (W : Type) : Type := mk_usys {
  us_read : Z → Z → W → option (list Z) * W;
  us_write : Z → list Z → W → Z * W;
  us_open : list Z → Z → W → Z * W;
  us_close : Z → W → Z * W;
  us_fstat : Z → W → option ustat * W;
  us_mkdir : list Z → W → Z * W;
  us_unlink : list Z → W → Z * W;
  us_link : list Z → list Z → W → Z * W;
  us_kill : Z → W → Z * W;
}.

(** [exit()] *)
Inductive uexit : Type := UExit.

Section printf.
Context {W : Type} `{usys W}.
Notation UM := (M W uexit).

Definition call {A} (f : W → A * W) : UM A := λ w, let '(a, w) := f w in Ret a w.
Definition exit {A} : UM A := switch_out UExit.

Definition putc (fd c : Z) : UM unit := call (us_write fd [u8 c]) ;; mret tt.

(** [digits\[x % base\]] *)
Definition udigit (d : Z) : Z := if d <? 10 then 48 + d else 65 + (d - 10).
Fixpoint uprint_digits (fuel : nat) (x base : Z) : list Z :=
  match fuel with
  | O => []
  | S fuel => udigit (x mod base) :: (if x / base =? 0 then [] else uprint_digits fuel (x / base) base)
  end.
Definition uprint_buf (xx base : Z) (sgn : bool) : list Z :=
  let neg := sgn && (xx <? 0) in
  let x := u32 (if neg then - xx else xx) in
  uprint_digits 32 x base ++ (if neg then [45] else []).
Definition printint (fd xx base : Z) (sgn : bool) : UM unit :=
  let buf := uprint_buf xx base sgn in
  if Z.of_nat (length buf) <=? 16 then mfor (rev buf) (putc fd) else fault "printint: buf".

(** [state] is whether the character before was a percent sign. *)
Fixpoint printf_loop (fd : Z) (fmt : list Z) (state : bool) (ap : list carg) : UM unit :=
  match fmt with
  | [] => mret tt
  | c :: fmt =>
      if c =? 0 then mret tt
      else if negb state then
        if c =? 37 then printf_loop fd fmt true ap
        else putc fd c ;; printf_loop fd fmt false ap
      else if c =? 100 then
        match ap with
        | AInt z :: ap => printint fd (s32 z) 10 true ;; printf_loop fd fmt false ap
        | _ => fault "printf: argument"
        end
      else if (c =? 120) || (c =? 112) then
        match ap with
        | AInt z :: ap => printint fd (s32 z) 16 false ;; printf_loop fd fmt false ap
        | _ => fault "printf: argument"
        end
      else if c =? 115 then
        match ap with
        | AStr s :: ap => mfor (cstring (default (lit "(null)") s)) (putc fd) ;; printf_loop fd fmt false ap
        | _ => fault "printf: argument"
        end
      else if c =? 99 then
        match ap with
        | AInt z :: ap => putc fd z ;; printf_loop fd fmt false ap
        | _ => fault "printf: argument"
        end
      else if c =? 37 then putc fd c ;; printf_loop fd fmt false ap
      else putc fd 37 ;; putc fd c ;; printf_loop fd fmt false ap
  end.
Definition printf (fd : Z) (fmt : list Z) (args : list carg) : UM unit := printf_loop fd fmt false args.

(** The world after writing the bytes [l] one by one. *)
Fixpoint puts (fd : Z) (l : list Z) (w : W) : W :=
  match l with
  | [] => w
  | c :: l => puts fd l (us_write fd [c] w).2
  end.
End printf.

(** ** Formats as pieces *)
Inductive piece : Type :=
  | PChar (c : Z)
  | PDec (z : Z)
  | PHex (c z : Z)
  | PStr (s : option (list Z))
  | PChr (z : Z)
  | PPercent
  | PUnknown (c : Z).

(** The characters after a percent sign that mean something. *)
Definition known (c : Z) : bool := existsb (Z.eqb c) [100; 120; 112; 115; 99; 37].

Definition piece_ok (p : piece) : Prop :=
  match p with
  | PChar c => 0 < c < 256 ∧ c ≠ 37
  | PHex c _ => c = 120 ∨ c = 112
  | PStr (Some s) => Forall (λ c, 0 < c < 256) s
  | PUnknown c => 0 < c < 256 ∧ known c = false
  | _ => True
  end.
Definition piece_text (p : piece) : list Z :=
  match p with
  | PChar c => [c]
  | PDec _ => [37; 100]
  | PHex c _ => [37; c]
  | PStr _ => [37; 115]
  | PChr _ => [37; 99]
  | PPercent => [37; 37]
  | PUnknown c => [37; c]
  end.
Definition piece_args (p : piece) : list carg :=
  match p with
  | PDec z | PHex _ z | PChr z => [AInt z]
  | PStr s => [AStr s]
  | _ => []
  end.

(** A number in base [b]: digits without a leading zero. *)
Definition udigit_val (c : Z) : Z := if c <? 58 then c - 48 else c - 55.
Definition number_val (b : Z) (l : list Z) : Z := fold_left (λ n c, n * b + udigit_val c) l 0.
Record notation (b x : Z) (l : list Z) : Prop := mk_notation {
  nt_digits : ∀ c, c ∈ l → ∃ d, 0 <= d < b ∧ c = udigit d;
  nt_val : number_val b l = x;
  nt_lead : ∀ l', l = udigit 0 :: l' → l' = [];
  nt_some : l ≠ [];
}.

Inductive prints : piece → list Z → Prop :=
  | prints_char c : prints (PChar c) [c]
  | prints_dec z l : notation 10 (Z.abs (s32 z)) l → prints (PDec z) (if s32 z <? 0 then 45 :: l else l)
  | prints_hex c z l : notation 16 (u32 z) l → prints (PHex c z) l
  | prints_str s : prints (PStr (Some s)) s
  | prints_null : prints (PStr None) (lit "(null)")
  | prints_chr z : prints (PChr z) [u8 z]
  | prints_percent : prints PPercent [37]
  | prints_unknown c : prints (PUnknown c) [37; c].

(** ** Numbers *)
Lemma udigit_val_udigit d : 0 <= d < 16 → udigit_val (udigit d) = d.
Proof. intros. unfold udigit, udigit_val. repeat (case_match; try lia). Qed.

Lemma number_val_snoc b l c : number_val b (l ++ [c]) = number_val b l * b + udigit_val c.
Proof. unfold number_val. by rewrite fold_left_app. Qed.

Lemma uprint_digits_S fuel x b : uprint_digits (S fuel) x b = udigit (x mod b) :: (if x / b =? 0 then [] else uprint_digits fuel (x / b) b).
Proof. done. Qed.

Lemma uprint_digits_notation b : 2 <= b <= 16 → ∀ fuel x, 0 <= x < 2 ^ Z.of_nat (S fuel) → notation b x (rev (uprint_digits (S fuel) x b)).
Proof.
  intros Hb. induction fuel as [|fuel IH]; intros x Hx; pose proof (Z.mod_pos_bound x b ltac:(lia)) as Hm; pose proof (Z.div_mod x b ltac:(lia)) as Hdm;
    rewrite uprint_digits_S; destruct (Z.eqb_spec (x / b) 0) as [E|E].
  1,3: split; [intros c Hc%list_elem_of_singleton; by exists (x mod b)|unfold number_val; cbn; rewrite udigit_val_udigit; lia|by intros l' [= _ <-]|done].
  - exfalso. apply E. change (2 ^ Z.of_nat 1) with 2 in Hx. apply Z.div_small. lia.
  - assert (Hq : 0 <= x / b < 2 ^ Z.of_nat (S fuel)).
    { rewrite (Nat2Z.inj_succ (S fuel)), Z.pow_succ_r in Hx by lia. split; [apply Z.div_pos; lia|]. apply Z.div_lt_upper_bound; nia. }
    destruct (IH (x / b) Hq) as [H1 H2 H3 H4].
    cbn [rev]. set (l := rev (uprint_digits (S fuel) (x / b) b)) in *. split.
    + intros c [Hc|Hc%list_elem_of_singleton]%elem_of_app; [by apply H1|by exists (x mod b)].
    + rewrite number_val_snoc, H2, udigit_val_udigit by lia. lia.
    + intros l' Hl. destruct l as [|y l0]; [done|]. cbn in Hl. injection Hl as -> _. rewrite (H3 l0 eq_refl) in H2.
      exfalso. apply E. rewrite <- H2. reflexivity.
    + by destruct l.
Qed.

Lemma notation_length b x l n : 2 <= b <= 16 → notation b x l → x < b ^ Z.of_nat n → (0 < n)%nat → (length l <= n)%nat.
Proof.
  intros Hb N Hx Hn. assert (Hlow : ∀ l : list Z, (∀ c, c ∈ l → ∃ d, 0 <= d < b ∧ c = udigit d) → 0 <= number_val b l).
  { induction l0 as [|c l0 IH] using rev_ind; intros Hd; [done|]. rewrite number_val_snoc. specialize (IH ltac:(set_solver)). destruct (Hd c ltac:(set_solver)) as (d & Hdr & ->). rewrite udigit_val_udigit by lia. nia. }
  assert (H : ∀ l, (∀ c, c ∈ l → ∃ d, 0 <= d < b ∧ c = udigit d) → (∀ l', l = udigit 0 :: l' → l' = []) → (1 < length l)%nat → b ^ (Z.of_nat (length l) - 1) <= number_val b l).
  { clear l N. induction l as [|c l IH] using rev_ind; intros Hd Hl Hlen; [cbn in Hlen; lia|]. rewrite number_val_snoc, length_app. cbn [length] in *. rewrite length_app in Hlen. cbn in Hlen.
    destruct (Hd c ltac:(set_solver)) as (d & Hdr & ->). rewrite udigit_val_udigit by lia. replace (Z.of_nat (length l + 1) - 1) with (Z.succ (Z.of_nat (length l) - 1)) by lia. rewrite Z.pow_succ_r by lia.
    enough (b ^ (Z.of_nat (length l) - 1) <= number_val b l) by nia.
    destruct (decide (length l = 1)%nat) as [E1|E1].
    - destruct l as [|c' [|]]; try done. destruct (Hd c' ltac:(set_solver)) as (d' & Hd' & ->). unfold number_val. cbn. rewrite udigit_val_udigit by lia.
      destruct (decide (d' = 0)) as [->|]; [|lia]. specialize (Hl [udigit d] eq_refl). done.
    - apply IH; [set_solver| |lia]. intros l' ->. specialize (Hl (l' ++ [udigit d]) eq_refl). by destruct l'. }
  destruct (decide (length l <= 1)%nat); [lia|]. pose proof (H l (nt_digits _ _ _ N) (nt_lead _ _ _ N) ltac:(lia)) as Hlo. rewrite (nt_val _ _ _ N) in Hlo.
  destruct (decide (length l <= n)%nat); [done|]. exfalso. pose proof (Z.pow_le_mono_r b (Z.of_nat n) (Z.of_nat (length l) - 1) ltac:(lia) ltac:(lia)). lia.
Qed.

(** ** Output *)
Section output.
Context {W : Type} `{usys W}.

Lemma putc_eq fd c (w : W) : putc fd c w = Ret tt (us_write fd [u8 c] w).2.
Proof. unfold putc, call, bindM. by destruct (us_write fd [u8 c] w). Qed.

Lemma puts_app fd l1 l2 (w : W) : puts fd (l1 ++ l2) w = puts fd l2 (puts fd l1 w).
Proof. revert w. induction l1 as [|c l1 IH]; intros w; [done|]. apply IH. Qed.

Lemma mfor_putc fd l : Forall (λ c, 0 <= c < 256) l → ∀ w : W, mfor l (putc fd) w = Ret tt (puts fd l w).
Proof.
  induction 1 as [|c l Hc _ IH]; intros w; [done|]. cbn [mfor puts]. rewrite (bind_Ret_eq _ _ _ _ _ (putc_eq fd c w)). rewrite IH.
  unfold u8. by rewrite Z.mod_small.
Qed.

Lemma udigits_bytes b x l : 2 <= b <= 16 → notation b x l → Forall (λ c, 0 <= c < 256) l.
Proof.
  intros Hb N. apply list.Forall_forall. intros c Hc. destruct (nt_digits _ _ _ N c Hc) as (d & Hd & ->). unfold udigit. destruct (d <? 10); lia.
Qed.

Lemma printint_prints fd xx b sgn : b = 10 ∨ b = 16 → - 2 ^ 31 <= xx < 2 ^ 32 → (sgn = true → xx < 2 ^ 31) →
  ∃ l, notation b (if sgn then Z.abs xx else u32 xx) l ∧ ∀ w : W, printint fd xx b sgn w = Ret tt (puts fd (if sgn && (xx <? 0) then 45 :: l else l) w).
Proof.
  intros Hb Hx Hs. assert (Hb' : 2 <= b <= 16) by lia. change (2 ^ 31) with 2147483648 in *. change (2 ^ 32) with 4294967296 in *. set (neg := sgn && (xx <? 0)).
  assert (Ex : u32 (if neg then - xx else xx) = if sgn then Z.abs xx else u32 xx).
  { unfold neg. destruct sgn; cbn [andb]; [|done]. specialize (Hs eq_refl). destruct (Z.ltb_spec xx 0); rewrite u32_small; lia. }
  set (x := if sgn then Z.abs xx else u32 xx) in *. assert (Hr : 0 <= x < 2 ^ Z.of_nat 32).
  { rewrite <- Ex. apply u32_range. }
  pose proof (uprint_digits_notation b Hb' 31 x Hr) as N. set (l := rev (uprint_digits 32 x b)) in *. exists l. split; [done|]. intros w.
  assert (Hlen : (length l <= 10)%nat).
  { apply (notation_length b x l 10 Hb' N); [|lia]. change (2 ^ Z.of_nat 32) with 4294967296 in Hr. destruct Hb as [-> | ->]; [change (10 ^ Z.of_nat 10) with 10000000000|change (16 ^ Z.of_nat 10) with 1099511627776]; lia. }
  unfold printint, uprint_buf. fold neg. rewrite Ex. assert (E : rev (uprint_digits 32 x b ++ (if neg then [45] else [])) = if neg then 45 :: l else l).
  { unfold l. rewrite rev_app_distr. by destruct neg. }
  assert (Hl16 : (length (uprint_digits 32 x b ++ (if neg then [45%Z] else [])) <= 11)%nat).
  { rewrite <- length_rev, E. destruct neg; cbn [length]; lia. }
  rewrite (proj2 (Z.leb_le _ 16)) by lia. rewrite E. apply mfor_putc. pose proof (udigits_bytes b x l Hb' N). destruct neg; [by constructor|done].
Qed.

Lemma putc_then fd c (m : M W uexit unit) (w : W) : 0 <= c < 256 → (putc fd c ;; m) w = m (puts fd [c] w).
Proof. intros Hc. rewrite (bind_Ret_eq _ _ _ _ _ (putc_eq fd c w)). unfold u8. by rewrite Z.mod_small. Qed.

Lemma cstring_all s : Forall (λ c, 0 < c < 256) s → cstring s = s.
Proof. induction 1 as [|c s Hc _ IH]; [done|]. cbn. rewrite (proj2 (Z.eqb_neq c 0)) by lia. by rewrite IH. Qed.

(** One step of [printf] on a known character. *)
Ltac eqb_consts :=
  repeat match goal with |- context [Z.eqb (Zpos ?a) ?b] =>
    let v := eval vm_compute in (Z.eqb (Zpos a) b) in match v with true => idtac | false => idtac end; change (Z.eqb (Zpos a) b) with v
  end; cbn [orb]; cbv iota.
Ltac printf_step := cbn [printf_loop negb default]; eqb_consts.

(** One piece. *)
Lemma printf_piece fd p fmt args : piece_ok p → ∃ out, prints p out ∧
  ∀ w : W, printf_loop fd (piece_text p ++ fmt) false (piece_args p ++ args) w = printf_loop fd fmt false args (puts fd out w).
Proof.
  intros Hp. destruct p as [c|z|c z|[s|]|z| |c]; cbn [piece_text piece_args app].
  - destruct Hp as [Hr Hn]. exists [c]. split; [constructor|]. intros w. printf_step. rewrite (proj2 (Z.eqb_neq c 0)), (proj2 (Z.eqb_neq c 37)) by lia. by rewrite putc_then by lia.
  - pose proof (s32_range z). destruct (printint_prints fd (s32 z) 10 true) as (l & N & E); [by left|lia|lia|]. exists (if s32 z <? 0 then 45 :: l else l). split; [by constructor|].
    intros w. printf_step. by rewrite (bind_Ret_eq _ _ _ _ _ (E w)).
  - pose proof (s32_range z). destruct (printint_prints fd (s32 z) 16 false) as (l & N & E); [by right|lia|done|]. exists l. rewrite u32_s32 in N. split; [by constructor|].
    intros w. printf_step. cbn in Hp. assert ((c =? 0) = false) as -> by lia. assert ((c =? 100) = false) as -> by lia. assert ((c =? 120) || (c =? 112) = true) as -> by lia.
     by rewrite (bind_Ret_eq _ _ _ _ _ (E w)).
  - cbn in Hp. exists s. split; [constructor|]. intros w. printf_step.  rewrite cstring_all by done.
    erewrite bind_Ret_eq; [reflexivity|]. apply mfor_putc. eapply list.Forall_impl; [exact Hp|]. cbn. lia.
  - exists (lit "(null)"). split; [constructor|]. intros w. printf_step. change (cstring (default (lit "(null)") None)) with (lit "(null)").
    erewrite bind_Ret_eq; [reflexivity|]. apply mfor_putc. repeat constructor; done.
  - exists [u8 z]. split; [constructor|]. intros w. printf_step. by rewrite (bind_Ret_eq _ _ _ _ _ (putc_eq fd z w)).
  - exists [37]. split; [constructor|]. intros w. printf_step. by rewrite (bind_Ret_eq _ _ _ _ _ (putc_eq fd 37 w)).
  - destruct Hp as [Hr Hk]. exists [37; c]. split; [constructor|]. intros w. printf_step. cbn in Hk. assert ((c =? 0) = false) as -> by lia.
    assert ((c =? 100) = false) as -> by lia. assert ((c =? 120) || (c =? 112) = false) as -> by lia. assert ((c =? 115) = false) as -> by lia. assert ((c =? 99) = false) as -> by lia. assert ((c =? 37) = false) as -> by lia.
    rewrite (putc_then fd 37) by lia. by rewrite putc_then by lia.
Qed.

(** Printing a format made of pieces prints each piece. *)
Lemma printf_pieces fd ps : Forall piece_ok ps → ∃ outs, Forall2 prints ps outs ∧
  ∀ w : W, printf fd (concat (piece_text <$> ps)) (concat (piece_args <$> ps)) w = Ret tt (puts fd (concat outs) w).
Proof.
  induction 1 as [|p ps Hp _ (outs & Ho & IH)]; [by exists []|]. cbn [fmap list_fmap concat].
  destruct (printf_piece fd p (concat (piece_text <$> ps)) (concat (piece_args <$> ps)) Hp) as (out & H1 & E). exists (out :: outs). split; [by constructor|].
  intros w. unfold printf in *. rewrite E, IH. cbn [concat]. by rewrite puts_app.
Qed.
End output.

(** ** What is printed with [%d] is read by [atoi] *)
Lemma number_fold_mono b l : 1 <= b → ∀ n, 0 <= n → (∀ c, c ∈ l → 0 <= udigit_val c) → n <= fold_left (λ n c, n * b + udigit_val c) l n.
Proof.
  intros Hb. induction l as [|c l IH]; intros n Hn Hd; [done|]. cbn. pose proof (Hd c ltac:(set_solver)). etrans; [|apply IH; [nia|set_solver]]. nia.
Qed.

Lemma atoi_loop_digits l : ∀ m a n fuel, (length l < fuel)%nat → cstr m a l → 0 <= n → (∀ c, c ∈ l → ∃ d, 0 <= d < 10 ∧ c = udigit d) →
  fold_left (λ n c, n * 10 + udigit_val c) l n < 2 ^ 31 → atoi_loop fuel m a n = Some (fold_left (λ n c, n * 10 + udigit_val c) l n).
Proof.
  induction l as [|c l IH]; intros m a n [|fuel] Hf Hs Hn Hd Hv; [cbn in Hf; lia| |cbn in Hf; lia|]; cbn [atoi_loop fold_left] in *.
  - by rewrite (cstr_nil m a Hs).
  - destruct (cstr_cons m a c l Hs) as (Hc & _ & Hs'). destruct (Hd c ltac:(set_solver)) as (d & Hdr & Ed). assert (Hd' : ∀ x, x ∈ l → ∃ d, 0 <= d < 10 ∧ x = udigit d) by (intros; apply Hd; set_solver).
    assert (Ec : c = 48 + d) by (rewrite Ed; unfold udigit; by rewrite (proj2 (Z.ltb_lt d 10)) by lia). assert (Eu : udigit_val c = d) by (rewrite Ed, udigit_val_udigit; lia). rewrite Eu in *.
    assert (E8 : s8 c = c) by (unfold s8; rewrite Z.mod_small; lia). rewrite Hc, E8. rewrite (proj2 (Z.leb_le 48 c)), (proj2 (Z.leb_le c 57)) by lia. cbn [andb].
    assert (Hm : n * 10 + d < 2 ^ 31).
    { eapply Z.le_lt_trans; [|exact Hv]. apply number_fold_mono; [lia|lia|]. intros x Hx. destruct (Hd' x Hx) as (e & He & ->). rewrite udigit_val_udigit; lia. }
    replace (s32 (n * 10 + c - 48)) with (n * 10 + d).
    + apply IH; [cbn in Hf; lia|done|lia|done|done].
    + unfold s32. rewrite Z.mod_small by lia. lia.
Qed.

Lemma atoi_notation x l m a : notation 10 x l → x < 2 ^ 31 → cstr m a l → atoi (S (length l)) m a = Some x.
Proof.
  intros N Hx Hs. unfold atoi. rewrite <- (nt_val _ _ _ N) in Hx |- *. apply atoi_loop_digits; [lia|done|done|by apply N|done].
Qed.

(** ** Property *)

(** C34: [printf] prints what its format says. For a format made of pieces,
    with their arguments: ordinary characters as they are, [%d] the sign and
    the decimal digits of an int without leading zeros, [%x] and [%p] the
    hexadecimal digits of a word, [%s] the string or (null), [%c] the
    character, [%%] a percent sign, and an unknown sequence unchanged; one
    byte per write, in order. (The comment above the routine names only [%d],
    [%x], [%p] and [%s]; the code takes [%c] and [%%] as well.) What is printed
    for a non-negative int, [atoi] reads as that int. *)
Theorem printf_prints W (U : usys W) fd ps : Forall piece_ok ps → ∃ outs, Forall2 prints ps outs ∧
  (∀ w : W, printf fd (concat (piece_text <$> ps)) (concat (piece_args <$> ps)) w = Ret tt (puts fd (concat outs) w)) ∧
  (∀ i z l m a, ps !! i = Some (PDec z) → outs !! i = Some l → 0 <= s32 z → cstr m a l → atoi (S (length l)) m a = Some (s32 z)).
Proof.
  intros Hps. destruct (printf_pieces fd ps Hps) as (outs & Ho & E). exists outs. split; [done|]. split; [exact E|].
  intros i z l m a Hp Hl Hz Hs. pose proof (Forall2_lookup_lr _ _ _ _ _ _ Ho Hp Hl) as H. inversion H as [|? l' N| | | | | |]; subst. rewrite (proj2 (Z.ltb_ge (s32 z) 0)) in * by lia.
  rewrite Z.abs_eq in N by lia. apply atoi_notation; [done| |done]. apply s32_range.
Qed.

(** A world that keeps what is written. *)
#[local] Instance demo_sys : usys (list Z) := {|
  us_read fd n w := (None, w); us_write fd l w := (Z.of_nat (length l), w ++ l); us_open p f w := (-1, w); us_close fd w := (-1, w);
  us_fstat fd w := (None, w); us_mkdir p w := (-1, w); us_unlink p w := (-1, w); us_link p q w := (-1, w); us_kill p w := (-1, w) |}.

Lemma printf_prints_witness : ∃ outs, Forall2 prints [PDec (2 ^ 32 - 7); PChar 32; PHex 120 255; PUnknown 113] outs ∧
  printf 1 (lit "%d %x%q") [AInt (2 ^ 32 - 7); AInt 255] [] = Ret tt (puts 1 (concat outs) []) ∧
  printf 1 (lit "%d %x%q") [AInt (2 ^ 32 - 7); AInt 255] [] = Ret tt (lit "-7 FF%q").
Proof.
  destruct (printf_prints (list Z) demo_sys 1 [PDec (2 ^ 32 - 7); PChar 32; PHex 120 255; PUnknown 113]) as (outs & Ho & E & _).
  - repeat constructor; done.
  - exists outs. split; [exact Ho|]. split; [exact (E [])|]. vm_compute. reflexivity.
Defined.
