(* ===== verification/Sleeplock.v ===== *)
(** * Sleeplock: locks held across sleeps (sleeplock.c)

    A sleep lock belongs to a buffer or to a cached inode. [acquiresleep]
    leaves the CPU while the lock is taken; [acquiresleep_woken] is what runs
    when [sleep] returns. *)

From S2P Require Import Prelude CString Kernel Sched Kalloc Fifo Paging Vmem.

(** ** Definitions *)
Definition sl_get (l : sleeplock_id) (k : kernel) : option sleeplock :=
  match l with
  | SlBuf i => b_lock <$> k_bufs k !! i
  | SlInode i => i_lock <$> k_inodes k !! i
  end.
Definition sl_put (l : sleeplock_id) (v : sleeplock) : kernel → kernel :=
  match l with
  | SlBuf i => upd_buf i (set_b_lock v)
  | SlInode i => upd_inode i (set_i_lock v)
  end.
Definition sl_at (l : sleeplock_id) : KM sleeplock :=
  s <- gets (sl_get l) ;;
  deref "sleep lock" s.

(** [myproc()->pid] *)
Definition mypid : KM Z :=
  p <- myproc ;;
  p <- deref "myproc" p ;;
  pr <- proc_at p ;;
  mret (p_pid pr).

Definition initsleeplock (l : sleeplock_id) : KM unit := modify (sl_put l (mk_sleeplock false 0)).

(** From the test of [lk->locked] on. *)
Definition acquiresleep_try (l : sleeplock_id) : KM unit :=
  s <- sl_at l ;;
  if sl_locked s then sleep (ChLock l) (Some (LkSleep l)) (LSleep (ChLock l)) else
  pid <- mypid ;;
  modify (sl_put l (mk_sleeplock true pid)) ;;
  release (LkSleep l).
Definition acquiresleep (l : sleeplock_id) : KM unit :=
  acquire (LkSleep l) ;;
  acquiresleep_try l.
Definition acquiresleep_woken (p : nat) (l : sleeplock_id) (intena : bool) : KM unit :=
  sleep_leave p (LkSleep l) intena ;;
  acquiresleep_try l.

Definition releasesleep (l : sleeplock_id) : KM unit :=
  acquire (LkSleep l) ;;
  modify (sl_put l (mk_sleeplock false 0)) ;;
  wakeup (ChLock l) ;;
  release (LkSleep l).

Definition holdingsleep (l : sleeplock_id) : KM bool :=
  acquire (LkSleep l) ;;
  s <- sl_at l ;;
  r <- (if sl_locked s then pid <- mypid ;; mret (sl_pid s =? pid) else mret false) ;;
  release (LkSleep l) ;;
  mret r.
