(* ===== verification/LockSpec.v ===== *)
(** * LockSpec: closed forms for routines entered with no lock held

    [idle k]: this CPU holds no spin lock. A critical section entered from an
    idle state returns to it; its only trace on the CPU is that [intena]
    records the interrupt flag ([quiet]). The sleep-lock routines of
    sleeplock.c get closed forms from this. *)

From S2P Require Import Prelude CString Kernel Sched Sock Kalloc Fifo Paging Vmem Sleeplock.

(** ** Definitions *)
Definition idle (k : kernel) : Prop := cpu_ok k ∧ k_held k = [].
Definition locked (lk : lockid) (k : kernel) : Prop := cpu_ok k ∧ k_held k = [lk].

Definition quiet (k : kernel) : kernel := upd_cpu (λ c, set_c_intena (c_intr c) c) k.

(** The current process and its pid. *)
Definition current (k : kernel) (me : nat) (pr : proc) : Prop := k_cur k = Some me ∧ k_procs k !! me = Some pr.

(** ** Spin locks *)
Lemma locked_in lk k : locked lk k → k_held k ≠ [] ∧ lk ∈ k_held k.
Proof. intros [_ Hh]. rewrite Hh. split; [done|set_solver]. Qed.

Lemma locked_ptable lk k : lk ≠ LkPtable → locked lk k → LkPtable ∉ k_held k.
Proof. intros Hn [_ Hh]. rewrite Hh. set_solver. Qed.

Lemma acquire_idle lk k : idle k →
  (acquire lk : KM unit) k = Ret tt (acquired lk k) ∧ locked lk (acquired lk k).
Proof.
  intros [Hc Hh]. assert (Hin : lk ∉ k_held k) by (rewrite Hh; set_solver).
  split; [by apply acquire_eq|]. split; [by apply cpu_ok_acquired|]. cbn. by rewrite Hh.
Qed.

Lemma release_locked lk k : locked lk k →
  (release lk : KM unit) k = Ret tt (released lk k) ∧ idle (released lk k).
Proof.
  intros Hk. destruct (locked_in lk k Hk) as [Hne Hin]. destruct Hk as [Hc Hh].
  split; [by apply release_eq|]. split; [by apply cpu_ok_released|]. change (filter (.≠ lk) (k_held k) = []).
  rewrite Hh. by rewrite filter_head by set_solver.
Qed.

(** A critical section that changes [k] by [f], which leaves CPU and locks
    alone. *)
Lemma section_eq lk k (f : kernel → kernel) : idle k →
  (∀ k c h, f (set_k_held h (set_k_cpu c k)) = set_k_held h (set_k_cpu c (f k))) →
  released lk (f (acquired lk k)) = f (quiet k).
Proof.
  intros [(Hn & Hi & _) Hh] Hf. rewrite Hh in Hn. cbn in Hn. unfold acquired, upd_cpu.
  assert (Ec : popped (pushed (k_cpu k)) = set_c_intena (c_intr (k_cpu k)) (k_cpu k)).
  { destruct (k_cpu k) as [n ie i e c]. cbn in Hn. subst n. unfold popped, pushed, set_c_intena. cbn. by destruct i. }
  rewrite Hf. unfold released, upd_cpu, quiet, upd_cpu.
  change (k_held (set_k_cpu (pushed (k_cpu k)) k)) with (k_held k). rewrite Hh.
  change (k_held (set_k_held [lk] (set_k_cpu (pushed (k_cpu k)) (f k)))) with [lk].
  rewrite filter_head by set_solver.
  change (k_cpu (set_k_held [] (set_k_held [lk] (set_k_cpu (pushed (k_cpu k)) (f k))))) with (pushed (k_cpu k)).
  rewrite Ec. specialize (Hf k (set_c_intena (c_intr (k_cpu k)) (k_cpu k)) []).
  assert (Ek : set_k_held [] (set_k_cpu (set_c_intena (c_intr (k_cpu k)) (k_cpu k)) k) =
               set_k_cpu (set_c_intena (c_intr (k_cpu k)) (k_cpu k)) k) by (rewrite <- Hh; by destruct k).
  rewrite <- Ek, Hf. done.
Qed.

Lemma quiet_idle k : idle k → idle (quiet k).
Proof. intros [(Hn & Hi & Hd) Hh]. by split. Qed.

Lemma quiet_quiet k : quiet (quiet k) = quiet k.
Proof. by destruct k as [? ? []]. Qed.

Lemma current_locked lk k me pr : locked lk k → current k me pr → mypid k = Ret (p_pid pr) k.
Proof.
  intros Hk [Hcur Hpr]. destruct (locked_in lk k Hk) as [Hne _]. unfold mypid.
  rewrite (bind_Ret_eq _ _ _ _ _ (myproc_locked k (proj1 Hk) Hne)), Hcur.
  erewrite bind_deref by done. unfold proc_at. rewrite bind_assoc, bind_gets. by erewrite bind_deref by done.
Qed.

(** ** Sleep locks *)
Lemma sl_put_comm l v : ∀ k c h, sl_put l v (set_k_held h (set_k_cpu c k)) = set_k_held h (set_k_cpu c (sl_put l v k)).
Proof. by destruct l. Qed.

Lemma sl_put_quiet l v k : quiet (sl_put l v k) = sl_put l v (quiet k).
Proof. by destruct l. Qed.

Lemma acquiresleep_eq l k s me pr : idle k → current k me pr → sl_get l k = Some s → sl_locked s = false →
  acquiresleep l k = Ret tt (sl_put l (mk_sleeplock true (p_pid pr)) (quiet k)).
Proof.
  intros Hk Hme Hs Hf. destruct (acquire_idle (LkSleep l) k Hk) as [Ea Hl].
  unfold acquiresleep. rewrite (bind_Ret_eq _ _ _ _ _ Ea). unfold acquiresleep_try, sl_at.
  rewrite bind_assoc, bind_gets. assert (Hs' : sl_get l (acquired (LkSleep l) k) = Some s) by (rewrite <- Hs; by destruct l).
  rewrite Hs'. erewrite bind_deref by done. rewrite Hf.
  rewrite (bind_Ret_eq _ _ _ _ _ (current_locked _ _ me pr Hl Hme)), bind_modify.
  rewrite <- (section_eq (LkSleep l) k _ Hk (sl_put_comm l (mk_sleeplock true (p_pid pr)))).
  apply release_locked. destruct Hl as [Hc Hh]. split; [|rewrite <- Hh; by destruct l].
  clear -Hc. by destruct l.
Qed.

Lemma holdingsleep_eq l k s me pr : idle k → current k me pr → sl_get l k = Some s →
  holdingsleep l k = Ret (sl_locked s && (sl_pid s =? p_pid pr)) (quiet k).
Proof.
  intros Hk Hme Hs. destruct (acquire_idle (LkSleep l) k Hk) as [Ea Hl].
  unfold holdingsleep. rewrite (bind_Ret_eq _ _ _ _ _ Ea). unfold sl_at.
  rewrite bind_assoc, bind_gets. assert (Hs' : sl_get l (acquired (LkSleep l) k) = Some s) by (rewrite <- Hs; by destruct l).
  rewrite Hs'. erewrite bind_deref by done.
  assert (Er : (if sl_locked s then pid <- mypid ;; mret (sl_pid s =? pid) else mret false) (acquired (LkSleep l) k) =
               Ret (sl_locked s && (sl_pid s =? p_pid pr)) (acquired (LkSleep l) k)).
  { destruct (sl_locked s); [|done]. by rewrite (bind_Ret_eq _ _ _ _ _ (current_locked _ _ me pr Hl Hme)). }
  rewrite (bind_Ret_eq _ _ _ _ _ Er), (bind_Ret_eq _ _ _ _ _ (proj1 (release_locked _ _ Hl))).
  unfold mret, M_ret. f_equal. exact (section_eq (LkSleep l) k (λ k, k) Hk (λ _ _ _, eq_refl)).
Qed.

Definition sl_freed (l : sleeplock_id) (k : kernel) : kernel :=
  set_k_procs (wake (ChLock l) <$> k_procs k) (sl_put l (mk_sleeplock false 0) k).

Lemma releasesleep_eq l k : idle k → releasesleep l k = Ret tt (sl_freed l (quiet k)).
Proof.
  intros Hk. destruct (acquire_idle (LkSleep l) k Hk) as [Ea Hl].
  unfold releasesleep. rewrite (bind_Ret_eq _ _ _ _ _ Ea), bind_modify.
  set (k1 := sl_put l (mk_sleeplock false 0) (acquired (LkSleep l) k)).
  assert (Hl1 : locked (LkSleep l) k1).
  { destruct Hl as [Hc Hh]. split; [clear -Hc; by destruct l|rewrite <- Hh; by destruct l]. }
  destruct (locked_in _ _ Hl1) as [Hne _]. pose proof (locked_ptable (LkSleep l) k1 ltac:(done) Hl1) as Hpt.
  rewrite (bind_Ret_eq _ _ _ _ _ (wakeup_locked (ChLock l) k1 (proj1 Hl1) Hne Hpt)).
  assert (Ek : set_k_procs (wake (ChLock l) <$> k_procs k1) k1 = sl_freed l (acquired (LkSleep l) k))
    by (unfold k1, sl_freed; by destruct l).
  assert (Hf : ∀ k c h, sl_freed l (set_k_held h (set_k_cpu c k)) = set_k_held h (set_k_cpu c (sl_freed l k)))
    by (intros; by destruct l).
  rewrite Ek, <- (section_eq (LkSleep l) k _ Hk Hf). apply release_locked. rewrite <- Ek. exact Hl1.
Qed.
