(* ===== verification/SchedSpec.v ===== *)
(** * SchedSpec: the scheduler is round robin

    The scheduler's loop never panics while the processes it may run have a
    stack and an address space, and no process waits for more than one turn
    of every other entry of the table. *)

From S2P Require Import Prelude CString Kernel Sched Sock Kalloc Fifo Paging Vmem Sleeplock LockSpec.

(** ** Definitions *)
Definition runnable (pr : proc) : bool := bool_decide (p_state pr = RUNNABLE).

(** A state in which the scheduler holds [ptable.lock] and may run any
    process that is RUNNABLE. *)
Record sched_ok (k : kernel) : Prop := mk_sched_ok {
  so_len : length (k_procs k) = NPROC;
  so_run : ∀ i pr, k_procs k !! i = Some pr → runnable pr = true → p_kstack pr ≠ 0 ∧ p_pgdir pr ≠ 0;
}.

(** Where the scheduler stands: at the start of a pass, or back from the
    process in an entry. *)
Notation standing := (option nat).
Definition cursor (at_ : standing) : nat := match at_ with None => 0 | Some p => S p end.

(** No process stops being RUNNABLE. *)
Definition still_runnable (k k' : kernel) : Prop :=
  ∀ i pr, k_procs k !! i = Some pr → runnable pr = true → k_procs k' !! i = Some pr.

(** [turn at_ k q k']: from [k] the scheduler goes on until it switches into
    the process of entry [q] in state [k']. Between two passes it holds no
    lock, and interrupts may change the state, but they only wake processes. *)
Inductive turn : standing → kernel → nat → kernel → Prop :=
  | turn_first k q k' : idle k → sched_ok k → (scheduler_pass : KM (option nat)) k = Ret (Some q) k' → turn None k q k'
  | turn_next p k q k' : locked LkPtable k → sched_ok k → (scheduler_back p : KM (option nat)) k = Ret (Some q) k' → turn (Some p) k q k'
  | turn_wrap p k k1 k2 k3 q k' : locked LkPtable k → sched_ok k → (scheduler_back p : KM (option nat)) k = Ret None k1 →
      (scheduler_end : KM unit) k1 = Ret tt k2 → still_runnable k2 k3 → turn None k3 q k' → turn (Some p) k q k'.

(** [turns r at_ k qs]: the scheduler goes on from [k] and runs the processes
    [qs] one after the other. Each may do anything before it switches back,
    but [r], unless it is the one that ran, is still RUNNABLE then. *)
Definition waiting (r : nat) (k : kernel) : Prop := ∃ pr, k_procs k !! r = Some pr ∧ runnable pr = true.
Inductive turns (r : nat) : standing → kernel → list nat → Prop :=
  | turns_nil at_ k : turns r at_ k []
  | turns_cons at_ k q k' k'' qs : waiting r k → turn at_ k q k' → turns r (Some q) k'' qs → turns r at_ k (q :: qs).

(** ** One step of the loop *)
Lemma find_from (l : list proc) i n : (i + n = length l)%nat →
  match n with
  | O => find_idx runnable (drop i l) = None
  | S _ => ∃ pr, l !! i = Some pr ∧ find_idx runnable (drop i l) = if runnable pr then Some 0%nat else S <$> find_idx runnable (drop (S i) l)
  end.
Proof.
  intros H. destruct n as [|n]; [by rewrite drop_ge by lia|]. destruct (l !! i) as [pr|] eqn:E; [|apply lookup_ge_None in E; lia].
  exists pr. split; [done|]. by rewrite (drop_S _ _ _ E).
Qed.

(** The state a process is started in. *)
Definition started (q : nat) (pr : proc) (k : kernel) : kernel :=
  upd_proc q (set_p_state RUNNING) (upd_cpu (λ c, set_c_cr3 (V2P (p_pgdir pr)) (set_c_esp0 (u32 (p_kstack pr + KSTACKSIZE)) c)) (set_k_cur (Some q) k)).

Lemma switchuvm_eq q pr k : cpu_ok k → k_held k ≠ [] → k_procs k !! q = Some pr → p_kstack pr ≠ 0 → p_pgdir pr ≠ 0 →
  (switchuvm (Some q) : KM unit) k = Ret tt (upd_cpu (λ c, set_c_cr3 (V2P (p_pgdir pr)) (set_c_esp0 (u32 (p_kstack pr + KSTACKSIZE)) c)) k).
Proof.
  intros Hc Hh Hq Hs Hd. unfold switchuvm, proc_at. rewrite bind_assoc, bind_gets. erewrite bind_deref by done.
  rewrite (proj2 (Z.eqb_neq _ _) Hs), (proj2 (Z.eqb_neq _ _) Hd). rewrite (bind_Ret_eq _ _ _ _ _ (pushcli_eq k)), bind_modify. unfold lcr3. rewrite bind_modify.
  pose proof (cpu_ok_ncli k Hc). rewrite popcli_eq; [|done|cbn; lia]. f_equal.
  destruct Hc as (Hn & Hi & _). specialize (Hi Hh). destruct k as [? ? [n ie i e c] held]. cbn in *. subst i. unfold upd_cpu, popped, pushed. cbn.
  destruct held as [|x l]; [done|]. cbn in Hn. rewrite (proj2 (Z.eqb_neq n 0)), (proj2 (Z.eqb_neq (n + 1 - 1) 0)) by lia. cbn. by replace (n + 1 - 1) with n by lia.
Qed.

Lemma scheduler_from_S n i k pr : k_procs k !! i = Some pr →
  (scheduler_from (S n) i : KM (option nat)) k =
    (if runnable pr then modify (set_k_cur (Some i)) ;; switchuvm (Some i) ;; modify (upd_proc i (set_p_state RUNNING)) ;; mret (Some i)
     else scheduler_from n (S i)) k.
Proof.
  intros Hpr. cbn [scheduler_from]. unfold proc_at at 1. rewrite bind_assoc, bind_gets. erewrite bind_deref by done.
  fold (runnable pr). by destruct (runnable pr).
Qed.

Lemma scheduler_from_eq n : ∀ i k, locked LkPtable k → sched_ok k → (i + n = NPROC)%nat →
  match find_idx runnable (drop i (k_procs k)) with
  | None => (scheduler_from n i : KM (option nat)) k = Ret None k
  | Some d => ∃ pr, k_procs k !! (i + d)%nat = Some pr ∧ runnable pr = true ∧
      (scheduler_from n i : KM (option nat)) k = Ret (Some (i + d)%nat) (started (i + d) pr k)
  end.
Proof.
  induction n as [|n IH]; intros i k Hl Hok Hn.
  - pose proof (find_from (k_procs k) i 0) as Hf. cbn in Hf. rewrite Hf; [done|]. rewrite (so_len _ Hok). lia.
  - destruct (find_from (k_procs k) i (S n)) as (pr & Hpr & ->); [rewrite (so_len _ Hok); lia|].
    destruct (runnable pr) eqn:Hr.
    + exists pr. rewrite Nat.add_0_r. split; [done|]. split; [done|]. rewrite (scheduler_from_S n i k pr Hpr), Hr. destruct (so_run _ Hok i pr Hpr Hr) as [Hs Hd].
      destruct (locked_in _ _ Hl) as [Hh _]. rewrite bind_modify, (bind_Ret_eq _ _ _ _ _ (switchuvm_eq i pr (set_k_cur (Some i) k) (proj1 Hl) Hh Hpr Hs Hd)). done.
    + specialize (IH (S i) k Hl Hok ltac:(lia)). destruct (find_idx runnable (drop (S i) (k_procs k))) as [d|]; cbn [fmap option_fmap option_map].
      * destruct IH as (pr' & H1 & H2 & H3). exists pr'. replace (i + S d)%nat with (S i + d)%nat by lia. by rewrite (scheduler_from_S n i k pr Hpr), Hr.
      * by rewrite (scheduler_from_S n i k pr Hpr), Hr.
Qed.

Lemma waiting_len r k : sched_ok k → waiting r k → (r < NPROC)%nat.
Proof. intros Hok (pr & Hpr & _). rewrite <- (so_len _ Hok). by eapply lookup_lt_Some. Qed.

(** What the loop finds when a process at or after its place waits. *)
Lemma scheduler_from_waiting r i k : locked LkPtable k → sched_ok k → waiting r k → (i <= NPROC)%nat →
  match find_idx runnable (drop i (k_procs k)) with
  | None => (r < i)%nat
  | Some d => (i <= r → i + d <= r)%nat
  end.
Proof.
  intros Hl Hok (pr & Hpr & Hr) Hi. destruct (find_idx _ _) as [d|] eqn:E.
  - intros Hir. apply find_idx_Some in E as [_ Hmin]. destruct (decide (i + d <= r)%nat); [done|].
    exfalso. specialize (Hmin (r - i)%nat pr ltac:(lia)). rewrite lookup_drop in Hmin. replace (i + (r - i))%nat with r in Hmin by lia. specialize (Hmin Hpr). congruence.
  - rewrite find_idx_None in E. destruct (decide (r < i)%nat); [done|]. exfalso. specialize (E (r - i)%nat pr). rewrite lookup_drop in E.
    replace (i + (r - i))%nat with r in E by lia. specialize (E Hpr). congruence.
Qed.

Definition in_pass (k : kernel) : kernel := acquired LkPtable (upd_cpu (set_c_intr true) k).
Definition backed (k : kernel) : kernel := set_k_cur None (upd_cpu (set_c_cr3 (V2P (k_kpgdir k))) k).

Lemma scheduler_pass_eq k : idle k →
  (scheduler_pass : KM (option nat)) k = (scheduler_from NPROC 0) (in_pass k) ∧ locked LkPtable (in_pass k).
Proof.
  intros [(Hn & Hi & Hd) Hh]. unfold scheduler_pass, sti. rewrite bind_modify.
  assert (Hk : idle (upd_cpu (set_c_intr true) k)) by (split; [split; [exact Hn|split; [intros He; by destruct (He Hh)|exact Hd]]|exact Hh]).
  destruct (acquire_idle LkPtable _ Hk) as [E Hl]. split; [|exact Hl]. by rewrite (bind_Ret_eq _ _ _ _ _ E).
Qed.

Lemma scheduler_back_eq p k : locked LkPtable k →
  (scheduler_back p : KM (option nat)) k = (scheduler_from (NPROC - S p) (S p)) (backed k) ∧ locked LkPtable (backed k).
Proof. intros Hl. split; [|exact Hl]. unfold scheduler_back, switchkvm, lcr3. by rewrite bind_assoc, bind_gets, !bind_modify. Qed.

(** The state the scheduler stands in. *)
Definition stands (at_ : standing) (k : kernel) : Prop :=
  sched_ok k ∧ match at_ with None => idle k | Some p => locked LkPtable k ∧ (p < NPROC)%nat end.

(** How far the waiting process is from its turn. *)
Definition distance (at_ : standing) (r : nat) : nat :=
  if (cursor at_ <=? r)%nat then r - cursor at_ else NPROC - cursor at_ + r.

Lemma pass_turn r k q k' : sched_ok k → idle k → waiting r k → (scheduler_pass : KM (option nat)) k = Ret (Some q) k' → (q <= r)%nat.
Proof.
  intros Hok Hi Hw. destruct (scheduler_pass_eq k Hi) as [-> Hl].
  pose proof (scheduler_from_eq NPROC 0 (in_pass k) Hl) as He. pose proof (scheduler_from_waiting r 0 (in_pass k) Hl) as Hf.
  specialize (He ltac:(by destruct Hok) eq_refl). specialize (Hf ltac:(by destruct Hok) Hw ltac:(lia)).
  destruct (find_idx _ _) as [d|]; [|lia]. destruct He as (pr & _ & _ & ->). intros [= <- _]. specialize (Hf ltac:(lia)). lia.
Qed.

(** A turn brings a process that waits closer to its own. *)
Lemma turn_closer r at_ k q k' : stands at_ k → waiting r k → turn at_ k q k' → q ≠ r → (distance (Some q) r < distance at_ r)%nat ∧ (q < NPROC)%nat.
Proof.
  intros [Hok Hst] Hw Ht Hqr. pose proof (waiting_len r k Hok Hw) as Hr. unfold distance. destruct Ht as [k q k' Hi _ E|p k q k' Hl _ E|p k k1 k2 k3 q k' Hl _ E1 E2 Hsame Ht].
  - pose proof (pass_turn r k q k' Hok Hi Hw E) as Hq. cbn [cursor]. destruct (Nat.leb_spec (S q) r), (Nat.leb_spec 0 r); lia.
  - destruct Hst as [_ Hp]. destruct (scheduler_back_eq p k Hl) as [Eb Hl']. rewrite Eb in E.
    pose proof (scheduler_from_eq (NPROC - S p) (S p) (backed k) Hl' ltac:(by destruct Hok) ltac:(unfold NPROC in *; lia)) as He.
    pose proof (scheduler_from_waiting r (S p) (backed k) Hl' ltac:(by destruct Hok) Hw ltac:(unfold NPROC in *; lia)) as Hf.
    destruct (find_idx _ _) as [d|] eqn:Ed; [|rewrite He in E; discriminate E]. destruct He as (pr & Hpr & _ & He). rewrite He in E. injection E as <- _.
    apply lookup_lt_Some in Hpr. change (k_procs (backed k)) with (k_procs k) in Hpr. rewrite (so_len _ Hok) in Hpr. unfold NPROC in *.
    cbn [cursor]. destruct (Nat.leb_spec (S (S (p + d))) r), (Nat.leb_spec (S p) r); lia.
  - destruct Hst as [_ Hp]. destruct (scheduler_back_eq p k Hl) as [Eb Hl']. rewrite Eb in E1.
    pose proof (scheduler_from_eq (NPROC - S p) (S p) (backed k) Hl' ltac:(by destruct Hok) ltac:(unfold NPROC in *; lia)) as He.
    pose proof (scheduler_from_waiting r (S p) (backed k) Hl' ltac:(by destruct Hok) Hw ltac:(unfold NPROC in *; lia)) as Hf.
    destruct (find_idx _ _) as [d|] eqn:Ed; [destruct He as (pr & _ & _ & He); rewrite He in E1; discriminate E1|].
    rewrite He in E1. injection E1 as <-. destruct (release_locked LkPtable (backed k) Hl') as [Er _]. unfold scheduler_end in E2. rewrite Er in E2. injection E2 as <-.
    inversion Ht as [k3' q' k'' Hi3 Hok3 E3| |]; subst. assert (Hw3 : waiting r k3).
    { destruct Hw as (pr & Hpr & Hrun). exists pr. split; [|done]. by apply Hsame. }
    pose proof (pass_turn r k3 q k' Hok3 Hi3 Hw3 E3) as Hq. unfold NPROC in *. cbn [cursor]. destruct (Nat.leb_spec (S q) r), (Nat.leb_spec (S p) r); lia.
Qed.

(** There is a next turn. *)
Lemma turn_exists r at_ k : stands at_ k → waiting r k → ∃ q k', turn at_ k q k'.
Proof.
  intros [Hok Hst] Hw. destruct at_ as [p|].
  - destruct Hst as [Hl Hp]. destruct (scheduler_back_eq p k Hl) as [Eb Hl'].
    pose proof (scheduler_from_eq (NPROC - S p) (S p) (backed k) Hl' ltac:(by destruct Hok) ltac:(unfold NPROC in *; lia)) as He. rewrite <- Eb in He.
    destruct (find_idx _ _) as [d|]; [destruct He as (pr & _ & _ & He); eexists _, _; by eapply turn_next|].
    destruct (release_locked LkPtable (backed k) Hl') as [Er Hi]. set (k2 := released LkPtable (backed k)) in *.
    assert (Hok2 : sched_ok k2) by (by destruct Hok). assert (Hw2 : waiting r k2) by exact Hw.
    destruct (scheduler_pass_eq k2 Hi) as [E2 Hl2]. pose proof (scheduler_from_eq NPROC 0 (in_pass k2) Hl2 ltac:(by destruct Hok2) eq_refl) as H2.
    pose proof (scheduler_from_waiting r 0 (in_pass k2) Hl2 ltac:(by destruct Hok2) Hw2 ltac:(lia)) as Hf2.
    destruct (find_idx _ _) as [d|]; [|lia]. destruct H2 as (pr & _ & _ & H2). rewrite <- E2 in H2.
    eexists _, _. eapply (turn_wrap p k (backed k) k2 k2); [done|done|exact He|exact Er|by intros ?|by apply turn_first].
  - destruct (scheduler_pass_eq k Hst) as [E2 Hl2]. pose proof (scheduler_from_eq NPROC 0 (in_pass k) Hl2 ltac:(by destruct Hok) eq_refl) as H2.
    pose proof (scheduler_from_waiting r 0 (in_pass k) Hl2 ltac:(by destruct Hok) Hw ltac:(lia)) as Hf2.
    destruct (find_idx _ _) as [d|]; [|lia]. destruct H2 as (pr & _ & _ & H2). rewrite <- E2 in H2. eexists _, _. by apply turn_first.
Qed.

Lemma turn_stands at_ k q k' : turn at_ k q k' → sched_ok k.
Proof. by destruct 1. Qed.

Lemma turns_reach r at_ k qs : turns r at_ k qs → (∀ p, at_ = Some p → (p < NPROC)%nat) → (distance at_ r < length qs)%nat → r ∈ take (S (distance at_ r)) qs.
Proof.
  induction 1 as [at_ k|at_ k q k' k'' qs Hw Ht _ IH]; intros Hp Hlen; [cbn in Hlen; lia|].
  cbn [take]. destruct (decide (q = r)) as [->|Hqr]; [by left|]. right.
  assert (Hst : stands at_ k) by (split; [by eapply turn_stands|]; destruct Ht; [done|by split; [|apply Hp]..]).
  destruct (turn_closer r at_ k q k' Hst Hw Ht Hqr) as [Hd Hq]. cbn in Hlen.
  assert (Hin : r ∈ take (S (distance (Some q) r)) qs) by (apply IH; [by intros ? [= <-]|lia]).
  apply list_elem_of_lookup in Hin as [i Hi]. apply list_elem_of_lookup. exists i. apply lookup_take_Some in Hi as [Hi Hl]. apply lookup_take_Some. split; [done|lia].
Qed.

(** C14: The scheduler is fair. Wherever it stands, when some process is
    RUNNABLE it finds a process to run, without a panic, passing the end of
    the table at most once; and a process that stays RUNNABLE is run within
    [NPROC] turns, whatever the processes run in between do. *)
Theorem scheduler_fair r at_ k : stands at_ k → waiting r k →
  (∃ q k', turn at_ k q k') ∧ (∀ qs, turns r at_ k qs → (NPROC <= length qs)%nat → r ∈ take NPROC qs).
Proof.
  intros Hst Hw. split; [by apply (turn_exists r)|]. intros qs Ht Hlen. pose proof (waiting_len r k (proj1 Hst) Hw) as Hr.
  assert (Hp : ∀ p, at_ = Some p → (p < NPROC)%nat) by (intros p ->; apply Hst).
  assert (Hd : (distance at_ r < NPROC)%nat) by (unfold distance; destruct at_ as [p|]; cbn [cursor]; [specialize (Hp p eq_refl); destruct (Nat.leb_spec (S p) r)|destruct (Nat.leb_spec 0 r)]; unfold NPROC in *; lia).
  pose proof (turns_reach r at_ k qs Ht Hp ltac:(lia)) as Hin. apply list_elem_of_lookup in Hin as [i Hi]. apply list_elem_of_lookup. exists i.
  apply lookup_take_Some in Hi as [Hi Hl]. apply lookup_take_Some. split; [done|lia].
Qed.

(** ** One process waits in a table of idle entries *)
Definition demo_waiter : proc := set_p_state RUNNABLE (set_p_kstack 0x80001000 (set_p_pgdir 0x80002000 proc0)).
Definition demo_sched : kernel := set_k_procs (<[3%nat := demo_waiter]> (replicate NPROC proc0)) kernel0.

Lemma demo_sched_stands : stands None demo_sched.
Proof.
  split; [split; [done|]|split; [split; [done|split; [done|apply NoDup_nil_2]]|done]].
  intros i pr Hi Hr. cbn [k_procs demo_sched set_k_procs] in Hi. destruct (decide (i = 3%nat)) as [->|Hne].
  - rewrite list_lookup_insert_eq in Hi by (rewrite length_replicate; unfold NPROC; lia). by injection Hi as <-.
  - rewrite list_lookup_insert_ne in Hi by done. apply lookup_replicate_1 in Hi as [-> _]. done.
Qed.

Lemma scheduler_fair_witness :
  (∃ q k', turn None demo_sched q k') ∧ (∀ qs, turns 3 None demo_sched qs → (NPROC <= length qs)%nat → 3%nat ∈ take NPROC qs).
Proof. apply (scheduler_fair 3 None demo_sched); [exact demo_sched_stands|by exists demo_waiter]. Defined.
