(* ===== verification/Bio.v ===== *)
(** * Bio: the buffer cache and the disk under it (bio.c, memide.c, buf.h)

    The cache is a ring of the [NBUF] buffers through [bcache.head] (index
    [NBUF]), most recently used first. The disk is the one of memide.c, the
    driver of the [kernelmemfs] build: a block is read or written when
    [iderw] returns. [k_power] counts the writes the disk still completes
    before a power failure. *)

From S2P Require Import Prelude CString Kernel Sched Kalloc Fifo Paging Vmem Sleeplock.

(** ** Definitions *)
Definition BSIZE : Z := 512.
Definition B_VALID : Z := 0x2.
Definition B_DIRTY : Z := 0x4.
Definition head_buf : nat := NBUF.

Definition buf_at (i : nat) : KM buf :=
  b <- gets (λ k, k_bufs k !! i) ;;
  deref "buf" b.

(** [memmove(p, b->data, BSIZE)] into the disk image: one block write. *)
Definition disk_write (blk : Z) (data : list Z) : KM unit := λ k,
  let write k := set_k_disk (λ b, if b =? blk then data else k_disk k b) k in
  match k_power k with
  | None => Ret tt (write k)
  | Some O => Switch LPowerOff k
  | Some (S n) => Ret tt (set_k_power (Some n) (write k))
  end.

Definition iderw (i : nat) : KM unit :=
  h <- holdingsleep (SlBuf i) ;;
  if negb h then panic "iderw: buf not locked" else
  b <- buf_at i ;;
  if Z.land (b_flags b) (Z.lor B_VALID B_DIRTY) =? B_VALID then panic "iderw: nothing to do" else
  if negb (b_dev b =? 1) then panic "iderw: request not for disk 1" else
  size <- gets (λ k, io_disksize (k_io k)) ;;
  if size <=? b_blockno b then panic "iderw: block out of range" else
  (if negb (Z.land (b_flags b) B_DIRTY =? 0) then
     modify (upd_buf i (set_b_flags (Z.land (b_flags b) (Z.lnot B_DIRTY)))) ;;
     disk_write (b_blockno b) (b_data b)
   else
     d <- gets (λ k, k_disk k (b_blockno b)) ;;
     modify (upd_buf i (set_b_data d))) ;;
  modify (upd_buf i (λ b, set_b_flags (Z.lor (b_flags b) B_VALID) b)).

(** One pass of [binit]'s loop: [b] goes to the front of the ring. *)
Definition link_front (b : nat) : KM unit :=
  h <- buf_at head_buf ;;
  modify (upd_buf b (set_b_next (b_next h))) ;;
  modify (upd_buf b (set_b_prev head_buf)).
Definition link_done (b : nat) : KM unit :=
  h <- buf_at head_buf ;;
  modify (upd_buf (b_next h) (set_b_prev b)) ;;
  modify (upd_buf head_buf (set_b_next b)).
Definition binit : KM unit :=
  modify (upd_buf head_buf (set_b_prev head_buf)) ;;
  modify (upd_buf head_buf (set_b_next head_buf)) ;;
  mfor (seq 0 NBUF) (λ b,
    link_front b ;;
    initsleeplock (SlBuf b) ;;
    link_done b).

(** The scan along [next] for a cached block, along [prev] for a free one. *)
Fixpoint bget_cached (fuel : nat) (b : nat) (dev blockno : Z) : KM (option nat) :=
  if decide (b = head_buf) then mret None else
  match fuel with
  | O => fault "bget: ring"
  | S fuel =>
      r <- buf_at b ;;
      if (b_dev r =? dev) && (b_blockno r =? blockno) then mret (Some b)
      else bget_cached fuel (b_next r) dev blockno
  end.
Fixpoint bget_unused (fuel : nat) (b : nat) : KM (option nat) :=
  if decide (b = head_buf) then mret None else
  match fuel with
  | O => fault "bget: ring"
  | S fuel =>
      r <- buf_at b ;;
      if (b_refcnt r =? 0) && (Z.land (b_flags r) B_DIRTY =? 0) then mret (Some b)
      else bget_unused fuel (b_prev r)
  end.
Definition bget (dev blockno : Z) : KM nat :=
  acquire LkBcache ;;
  h <- buf_at head_buf ;;
  c <- bget_cached NBUF (b_next h) dev blockno ;;
  match c with
  | Some b =>
      modify (upd_buf b (λ r, set_b_refcnt (u32 (b_refcnt r + 1)) r)) ;;
      release LkBcache ;;
      acquiresleep (SlBuf b) ;;
      mret b
  | None =>
      u <- bget_unused NBUF (b_prev h) ;;
      match u with
      | Some b =>
          modify (upd_buf b (set_b_dev dev)) ;;
          modify (upd_buf b (set_b_blockno blockno)) ;;
          modify (upd_buf b (set_b_flags 0)) ;;
          modify (upd_buf b (set_b_refcnt 1)) ;;
          release LkBcache ;;
          acquiresleep (SlBuf b) ;;
          mret b
      | None => panic "bget: no buffers"
      end
  end.

Definition bread (dev blockno : Z) : KM nat :=
  b <- bget dev blockno ;;
  r <- buf_at b ;;
  when (Z.land (b_flags r) B_VALID =? 0) (iderw b) ;;
  mret b.

Definition bwrite (b : nat) : KM unit :=
  h <- holdingsleep (SlBuf b) ;;
  if negb h then panic "bwrite" else
  modify (upd_buf b (λ r, set_b_flags (Z.lor (b_flags r) B_DIRTY) r)) ;;
  iderw b.

Definition brelse (b : nat) : KM unit :=
  h <- holdingsleep (SlBuf b) ;;
  if negb h then panic "brelse" else
  releasesleep (SlBuf b) ;;
  acquire LkBcache ;;
  modify (upd_buf b (λ r, set_b_refcnt (u32 (b_refcnt r - 1)) r)) ;;
  r <- buf_at b ;;
  when (b_refcnt r =? 0)
    (modify (upd_buf (b_next r) (set_b_prev (b_prev r))) ;;
     r <- buf_at b ;;
     modify (upd_buf (b_prev r) (set_b_next (b_next r))) ;;
     link_front b ;;
     link_done b) ;;
  release LkBcache.

(** [b->data] read and written through the pointer. *)
Definition bdata (b : nat) : KM (list Z) := r <- buf_at b ;; mret (b_data r).
Definition bdata_set (b : nat) (d : list Z) : KM unit := modify (upd_buf b (set_b_data d)).
