(* ===== verification/BioSpec.v ===== *)
(** * BioSpec: the buffer cache as seen by its only user

    [cache k me pid o A]: the process [me] runs, holds no spin lock and is the
    cache's only user. The ring visits the buffers in the order [o], most
    recently used first, and no block is cached twice. The abstract state [A]
    says which buffer is held for which block, what each block contains for
    the user ([cs_view], in the cache or on the disk), which blocks are cached
    with [B_DIRTY] set, and what the disk contains. A block that is neither
    dirty nor held has the same content on the disk.

    [bread], [bwrite] and [brelse] are then transformers of the abstract
    state, and [bwrite] is atomic with respect to a power failure. *)

From S2P Require Import Prelude Dll CString Kernel Sched Sock Kalloc Fifo Paging Vmem Sleeplock LockSpec Bio.

(** ** Definitions *)
Definition nxt (B : list buf) (x : nat) : nat := default 0%nat (b_next <$> B !! x).
Definition prv (B : list buf) (x : nat) : nat := default 0%nat (b_prev <$> B !! x).

Definition current_pid (k : kernel) (me : nat) (pid : Z) : Prop :=
  ∃ pr, current k me pr ∧ p_pid pr = pid.

Definition clean : Z := B_VALID.
Definition dirty : Z := Z.lor B_VALID B_DIRTY.
Definition has_block (blk : Z) (b : buf) : bool := (b_dev b =? 1) && (b_blockno b =? blk).

(** The abstract state. *)
Record cstate : Type := mk_cstate {
  cs_held : gmap nat Z;
  cs_view : Z → list Z;
  cs_dirty : gset Z;
  cs_disk : Z → list Z;
}.
Definition fset {B} (f : Z → B) (a : Z) (v : B) : Z → B := λ x, if x =? a then v else f x.

Record buf_good (size pid : Z) (A : cstate) (i : nat) (b : buf) : Prop := mk_buf_good {
  bg_lock : if decide (is_Some (cs_held A !! i)) then b_lock b = mk_sleeplock true pid ∧ b_refcnt b = 1
            else sl_locked (b_lock b) = false ∧ b_refcnt b = 0;
  bg_held : ∀ blk, cs_held A !! i = Some blk → b_dev b = 1 ∧ b_blockno b = blk;
  bg_block : b_dev b = 1 → 0 <= b_blockno b < size ∧ b_data b = cs_view A (b_blockno b) ∧
    b_flags b = if bool_decide (b_blockno b ∈ cs_dirty A) then dirty else clean;
  bg_none : b_dev b ≠ 1 → b_flags b = 0;
}.

Record cache (k : kernel) (me : nat) (pid : Z) (o : list nat) (A : cstate) : Prop := mk_cache {
  ca_idle : idle k;
  ca_me : current_pid k me pid;
  ca_len : length (k_bufs k) = S NBUF;
  ca_perm : o ≡ₚ seq 0 NBUF;
  ca_ring : dll (nxt (k_bufs k)) (prv (k_bufs k)) head_buf o;
  ca_uniq : ∀ i j bi bj blk, (i < NBUF)%nat → (j < NBUF)%nat → k_bufs k !! i = Some bi → k_bufs k !! j = Some bj →
    has_block blk bi = true → has_block blk bj = true → i = j;
  ca_good : ∀ i b, (i < NBUF)%nat → k_bufs k !! i = Some b → buf_good (io_disksize (k_io k)) pid A i b;
  ca_range : ∀ i, is_Some (cs_held A !! i) → (i < NBUF)%nat;
  ca_disk : ∀ blk, k_disk k blk = cs_disk A blk;
  ca_clean : ∀ blk, blk ∉ cs_dirty A → (∀ i, cs_held A !! i ≠ Some blk) → cs_view A blk = cs_disk A blk;
  ca_dirty : ∀ blk, blk ∈ cs_dirty A → ∃ i b, (i < NBUF)%nat ∧ k_bufs k !! i = Some b ∧ has_block blk b = true;
}.

(** A process is as before, or was woken. *)
Definition woken (p p' : proc) : Prop := p' = p ∨ p_state p = SLEEPING ∧ p' = set_p_state RUNNABLE p.

(** What the cache may change. *)
Definition bio_frame (k k' : kernel) : Prop :=
  ∃ c P B d w, k' = set_k_cpu c (set_k_procs P (set_k_bufs B (set_k_disk d (set_k_power w k)))) ∧
    Forall2 woken (k_procs k) P ∧ (w = None ↔ k_power k = None) ∧ c_cr3 c = c_cr3 (k_cpu k).

(** ** Frames *)
#[export] Instance woken_preorder : PreOrder woken.
Proof. split; [by left|]. intros p p1 p2 [->|[H ->]] [->|[H' ->]]; try by left. all: by right. Qed.
Lemma woken_wake ch p : woken p (wake ch p).
Proof.
  unfold wake. destruct (bool_decide (p_state p = SLEEPING)) eqn:E; cbn [andb]; [|by left].
  apply bool_decide_eq_true_1 in E. destruct (bool_decide _); [by right|by left].
Qed.
Lemma woken_table ch P : Forall2 woken P (wake ch <$> P).
Proof. apply Forall2_fmap_r, Forall_Forall2_diag, list.Forall_forall. intros p _. apply woken_wake. Qed.

#[export] Instance bio_frame_preorder : PreOrder bio_frame.
Proof.
  split.
  - intros k. exists (k_cpu k), (k_procs k), (k_bufs k), (k_disk k), (k_power k). split; [by destruct k|done].
  - intros k k1 k2 (c1 & P1 & B1 & d1 & w1 & -> & H1 & W1 & C1) (c2 & P2 & B2 & d2 & w2 & -> & H2 & W2 & C2).
    exists c2, P2, B2, d2, w2. split; [by destruct k|]. cbn in W2, C2. split; [|by rewrite W2, C2].
    etrans; [exact H1|exact H2].
Qed.

Lemma current_woken k me pid P c B d w : current_pid k me pid → Forall2 woken (k_procs k) P →
  current_pid (set_k_cpu c (set_k_procs P (set_k_bufs B (set_k_disk d (set_k_power w k))))) me pid.
Proof.
  intros (pr & [Hc Hp] & <-) Hw. destruct (Forall2_lookup_l _ _ _ _ _ Hw Hp) as (pr' & Hp' & [->|[_ ->]]);
    eexists; (split; [split; [exact Hc|exact Hp']|done]).
Qed.

(** ** Looking up a block *)
Section lookup.
Variables (k : kernel) (me : nat) (pid : Z) (o : list nat) (A : cstate).
Hypothesis Hok : cache k me pid o A.

Lemma ca_lookup i : (i <= NBUF)%nat → ∃ b, k_bufs k !! i = Some b.
Proof using Hok. intros Hi. apply lookup_lt_is_Some_2. rewrite (ca_len _ _ _ _ _ Hok). lia. Qed.

Lemma ca_order i : i ∈ o ↔ (i < NBUF)%nat.
Proof using Hok. rewrite (ca_perm _ _ _ _ _ Hok), elem_of_seq. lia. Qed.

Lemma ca_order_lt : Forall (λ i, (i < NBUF)%nat) o.
Proof using Hok. apply list.Forall_forall. intros i. by rewrite ca_order. Qed.

Lemma ca_nodup : NoDup (head_buf :: o).
Proof using Hok.
  apply list.NoDup_cons. split; [rewrite ca_order; unfold head_buf; lia|].
  rewrite (ca_perm _ _ _ _ _ Hok). apply NoDup_seq.
Qed.

Lemma has_block_spec blk b : has_block blk b = true ↔ b_dev b = 1 ∧ b_blockno b = blk.
Proof using. unfold has_block. lia. Qed.

(** A block that no buffer is held for: its buffer, if any, is free. *)
Lemma ca_not_held i b blk : (i < NBUF)%nat → k_bufs k !! i = Some b → has_block blk b = true →
  (∀ j, cs_held A !! j ≠ Some blk) → cs_held A !! i = None.
Proof using Hok.
  intros Hi Hb [Hd Hn]%has_block_spec Hh. destruct (cs_held A !! i) as [blk'|] eqn:E; [|done].
  destruct (bg_held _ _ _ _ _ (ca_good _ _ _ _ _ Hok i b Hi Hb) _ E) as [_ E']. exfalso. apply (Hh i). congruence.
Qed.

Lemma ca_held_buf i blk : cs_held A !! i = Some blk → (i < NBUF)%nat ∧ ∃ b, k_bufs k !! i = Some b ∧
  b_lock b = mk_sleeplock true pid ∧ b_refcnt b = 1 ∧ b_dev b = 1 ∧ b_blockno b = blk ∧ b_data b = cs_view A blk ∧
  b_flags b = (if bool_decide (blk ∈ cs_dirty A) then dirty else clean) ∧ 0 <= blk < io_disksize (k_io k).
Proof using Hok.
  intros E. assert (Hi : (i < NBUF)%nat) by (by eapply (ca_range _ _ _ _ _ Hok)). split; [done|].
  destruct (ca_lookup i ltac:(lia)) as [b Hb]. exists b. split; [done|].
  destruct (ca_good _ _ _ _ _ Hok i b Hi Hb) as [Hl Hh Hbl _]. rewrite decide_True in Hl by done.
  destruct (Hh _ E) as [Hd <-]. destruct (Hbl Hd) as (Hr & Hda & Hf). destruct Hl. done.
Qed.
End lookup.

(** ** The scans of [bget] follow the order *)
Definition buf_is (P : buf → bool) (B : list buf) (i : nat) : bool := default false (P <$> B !! i).

Lemma first_of_Some P l x : first_of P l = Some x → x ∈ l ∧ P x = true.
Proof.
  induction l as [|a l IH]; [done|]. cbn. destruct (P a) eqn:E; [intros [= <-]; set_solver|]. intros H%IH. set_solver.
Qed.
Lemma first_of_None P l : first_of P l = None → ∀ x, x ∈ l → P x = false.
Proof.
  induction l as [|a l IH]; [set_solver|]. cbn. destruct (P a) eqn:E; [done|]. intros H x [->|Hx]%elem_of_cons; [done|by apply IH].
Qed.

Section scan.
Variables (k : kernel) (o : list nat).
Hypothesis Hlen : length (k_bufs k) = S NBUF.
Hypothesis Hring : dll (nxt (k_bufs k)) (prv (k_bufs k)) head_buf o.
Hypothesis Hlt : Forall (λ i, (i < NBUF)%nat) o.

Lemma ring_next x n pre s s' : o = pre ++ s → s ++ [head_buf] = n :: s' →
  hd head_buf (rev (head_buf :: pre)) = x → nxt (k_bufs k) x = n ∧ prv (k_bufs k) n = x.
Proof using Hring.
  intros Eo Es Ex. destruct (exists_last (l := head_buf :: pre) ltac:(done)) as (l1 & x' & E1).
  rewrite E1, rev_unit in Ex. cbn in Ex. subst x'. apply Hring. rewrite Eo, <- app_assoc, Es.
  rewrite app_comm_cons, E1, <- app_assoc. apply edges_mid.
Qed.

Lemma scan_next dev blk s : ∀ fuel pre, o = pre ++ s → (length s <= fuel)%nat →
  bget_cached fuel (hd head_buf (s ++ [head_buf])) dev blk k =
    Ret (first_of (buf_is (λ b, (b_dev b =? dev) && (b_blockno b =? blk)) (k_bufs k)) s) k.
Proof using All.
  induction s as [|x s IH]; intros fuel pre Eo Hf; cbn [app hd first_of].
  { destruct fuel; cbn [bget_cached]; by rewrite decide_True. }
  destruct fuel as [|fuel]; [cbn in Hf; lia|]. cbn [bget_cached].
  assert (Hx : (x < NBUF)%nat) by (rewrite list.Forall_forall in Hlt; apply Hlt; rewrite Eo; set_solver).
  rewrite decide_False by (unfold head_buf; lia).
  destruct (lookup_lt_is_Some_2 (k_bufs k) x ltac:(lia)) as [b Hb]. unfold buf_at, buf_is at 1.
  rewrite bind_assoc, bind_gets, Hb. erewrite bind_deref by done. cbn [fmap option_fmap option_map default].
  destruct (_ && _) eqn:Ec; [done|].
  assert (En : b_next b = hd head_buf (s ++ [head_buf])).
  { assert (exists n s', s ++ [head_buf] = n :: s') as (n & s' & Es) by (destruct s; [by exists head_buf, []|by eexists _, _]).
    destruct (ring_next x n (pre ++ [x]) s s') as [Hn _]; [by rewrite <- app_assoc|done| |].
    { by rewrite app_comm_cons, rev_unit. }
    unfold nxt in Hn. rewrite Hb in Hn. cbn in Hn. by rewrite Es. }
  rewrite En. apply (IH fuel (pre ++ [x])); [by rewrite <- app_assoc|cbn in Hf; lia].
Qed.

Lemma scan_prev s : ∀ fuel post, o = s ++ post → (length s <= fuel)%nat →
  bget_unused fuel (hd head_buf (rev (head_buf :: s))) k =
    Ret (first_of (buf_is (λ b, (b_refcnt b =? 0) && (Z.land (b_flags b) B_DIRTY =? 0)) (k_bufs k)) (rev s)) k.
Proof using All.
  induction s as [|x s IH] using rev_ind; intros fuel post Eo Hf.
  { destruct fuel; cbn; by rewrite decide_True. }
  rewrite app_comm_cons, !rev_unit. cbn [hd first_of]. rewrite length_app in Hf. cbn in Hf. destruct fuel as [|fuel]; [lia|].
  cbn [bget_unused].
  assert (Hx : (x < NBUF)%nat) by (rewrite list.Forall_forall in Hlt; apply Hlt; rewrite Eo; set_solver).
  rewrite decide_False by (unfold head_buf; lia).
  destruct (lookup_lt_is_Some_2 (k_bufs k) x ltac:(lia)) as [b Hb]. unfold buf_at, buf_is at 1.
  rewrite bind_assoc, bind_gets, Hb. erewrite bind_deref by done. cbn [fmap option_fmap option_map default].
  destruct (_ && _) eqn:Ec; [done|].
  assert (En : b_prev b = hd head_buf (rev (head_buf :: s))).
  { destruct (ring_next (hd head_buf (rev (head_buf :: s))) x s (x :: post) (post ++ [head_buf])) as [_ Hp]; try done.
    { by rewrite Eo, <- app_assoc. }
    unfold prv in Hp. by rewrite Hb in Hp. }
  rewrite En. apply (IH fuel (x :: post)); [by rewrite Eo, <- app_assoc|lia].
Qed.
End scan.

(** ** Closed forms *)
Definition buf_taken (pid : Z) (b : buf) : buf := set_b_lock (mk_sleeplock true pid) (set_b_refcnt 1 b).
Definition buf_recycled (pid blk : Z) (b : buf) : buf :=
  set_b_flags 0 (set_b_blockno blk (set_b_dev 1 (buf_taken pid b))).
Definition put_buf (i : nat) (b : buf) (k : kernel) : kernel := set_k_bufs (<[i := b]> (k_bufs k)) (quiet k).

Lemma put_buf_idle i b k : idle k → idle (put_buf i b k).
Proof. intros H. exact (quiet_idle k H). Qed.
Lemma put_buf_current i b k me pr : current k me pr → current (put_buf i b k) me pr.
Proof. done. Qed.
Lemma quiet_put_buf i b k : quiet (put_buf i b k) = put_buf i b k.
Proof. by destruct k as [? ? []]. Qed.
Lemma put_put_buf i b b' k : put_buf i b' (put_buf i b k) = put_buf i b' k.
Proof.
  unfold put_buf at 1. rewrite quiet_put_buf. unfold put_buf. cbn [k_bufs set_k_bufs]. by rewrite list_insert_insert_eq.
Qed.
Lemma upd_put_buf i b f k : k_bufs k !! i = Some b → upd_buf i f (quiet k) = put_buf i (f b) k.
Proof. intros Hb. unfold upd_buf, put_buf. change (k_bufs (quiet k)) with (k_bufs k). by erewrite alter_const. Qed.

(** Taking the sleep lock of a buffer just prepared. *)
Lemma acquiresleep_put i b k me pr : idle k → current k me pr → (i < length (k_bufs k))%nat → sl_locked (b_lock b) = false →
  acquiresleep (SlBuf i) (put_buf i b k) = Ret tt (put_buf i (set_b_lock (mk_sleeplock true (p_pid pr)) b) k).
Proof.
  intros Hi Hc Hlt Hf. rewrite (acquiresleep_eq (SlBuf i) (put_buf i b k) (b_lock b) me pr); [|by apply put_buf_idle|done| |done].
  - f_equal. rewrite quiet_put_buf. unfold sl_put. rewrite <- quiet_put_buf at 1. erewrite upd_put_buf.
    + apply put_put_buf.
    + unfold put_buf. cbn. by rewrite list_lookup_insert_eq.
  - unfold sl_get, put_buf. cbn. by rewrite list_lookup_insert_eq.
Qed.

Section bget.
Variables (k : kernel) (me : nat) (pid : Z) (o : list nat) (A : cstate).
Hypothesis Hok : cache k me pid o A.

Lemma head_links h : k_bufs k !! head_buf = Some h →
  b_next h = hd head_buf (o ++ [head_buf]) ∧ b_prev h = hd head_buf (rev (head_buf :: o)).
Proof using Hok.
  intros Hh. split.
  - assert (exists n s', o ++ [head_buf] = n :: s') as (n & s' & Es) by (destruct o; [by exists head_buf, []|by eexists _, _]).
    destruct (ring_next k o (ca_ring _ _ _ _ _ Hok) head_buf n [] o s') as [Hn _]; try done. unfold nxt in Hn. rewrite Hh in Hn. by rewrite Es.
  - destruct (ring_next k o (ca_ring _ _ _ _ _ Hok) (hd head_buf (rev (head_buf :: o))) head_buf o [] []) as [_ Hp]; try done.
    { by rewrite app_nil_r. }
    unfold prv in Hp. by rewrite Hh in Hp.
Qed.

Lemma order_len : length o = NBUF.
Proof using Hok. rewrite (ca_perm _ _ _ _ _ Hok). apply length_seq. Qed.

Lemma bget_cached_eq h blk : k_bufs k !! head_buf = Some h →
  bget_cached NBUF (b_next h) 1 blk (acquired LkBcache k) =
    Ret (first_of (buf_is (has_block blk) (k_bufs k)) o) (acquired LkBcache k).
Proof using Hok.
  intros Hh. destruct (head_links h Hh) as [-> _].
  apply (scan_next (acquired LkBcache k) o (ca_len _ _ _ _ _ Hok) (ca_ring _ _ _ _ _ Hok) (ca_order_lt _ _ _ _ _ Hok) 1 blk o NBUF []);
    [done|]. rewrite order_len. lia.
Qed.

Lemma bget_unused_eq h : k_bufs k !! head_buf = Some h →
  bget_unused NBUF (b_prev h) (acquired LkBcache k) =
    Ret (first_of (buf_is (λ b, (b_refcnt b =? 0) && (Z.land (b_flags b) B_DIRTY =? 0)) (k_bufs k)) (rev o)) (acquired LkBcache k).
Proof using Hok.
  intros Hh. destruct (head_links h Hh) as [_ ->].
  apply (scan_prev (acquired LkBcache k) o (ca_len _ _ _ _ _ Hok) (ca_ring _ _ _ _ _ Hok) (ca_order_lt _ _ _ _ _ Hok) o NBUF []);
    [by rewrite app_nil_r|]. rewrite order_len. lia.
Qed.

Lemma bget_hit i b blk pr : current k me pr → (i < NBUF)%nat → k_bufs k !! i = Some b → has_block blk b = true →
  sl_locked (b_lock b) = false → b_refcnt b = 0 →
  bget 1 blk k = Ret i (put_buf i (buf_taken (p_pid pr) b) k).
Proof using Hok.
  intros Hc Hi Hb Hbl Hl Hr. destruct (acquire_idle LkBcache k (ca_idle _ _ _ _ _ Hok)) as [Ea Hlk].
  destruct (ca_lookup _ _ _ _ _ Hok head_buf (Nat.le_refl _)) as [h Hh].
  unfold bget. rewrite (bind_Ret_eq _ _ _ _ _ Ea). unfold buf_at at 1. rewrite bind_assoc, bind_gets.
  change (k_bufs (acquired LkBcache k)) with (k_bufs k). rewrite Hh. erewrite bind_deref by done.
  rewrite (bind_Ret_eq _ _ _ _ _ (bget_cached_eq h blk Hh)).
  assert (Ef : first_of (buf_is (has_block blk) (k_bufs k)) o = Some i).
  { destruct (first_of _ _) as [j|] eqn:E.
    - apply first_of_Some in E as [Hj Hp]. rewrite ca_order in Hj by done. unfold buf_is in Hp.
      destruct (k_bufs k !! j) as [bj|] eqn:Ej; [|done]. cbn in Hp. f_equal. by apply (ca_uniq _ _ _ _ _ Hok j i bj b blk).
    - eapply first_of_None in E; [|by apply (ca_order _ _ _ _ _ Hok i)]. unfold buf_is in E. rewrite Hb in E. cbn in E. congruence. }
  rewrite Ef. cbn match. rewrite bind_modify.
  set (f := upd_buf i (λ r, set_b_refcnt (u32 (b_refcnt r + 1)) r)).
  rewrite (bind_Ret_eq _ _ _ _ _ (proj1 (release_locked LkBcache (f (acquired LkBcache k)) Hlk))).
  rewrite (section_eq LkBcache k f (ca_idle _ _ _ _ _ Hok)) by done. unfold f. rewrite (upd_put_buf i b) by done.
  assert (Hlen : (i < length (k_bufs k))%nat) by (rewrite (ca_len _ _ _ _ _ Hok); lia).
  rewrite (bind_Ret_eq _ _ _ _ _ (acquiresleep_put i (set_b_refcnt (u32 (b_refcnt b + 1)) b) k me pr (ca_idle _ _ _ _ _ Hok) Hc Hlen Hl)).
  by rewrite Hr.
Qed.

Lemma bget_miss i b blk pr : current k me pr → (i < NBUF)%nat → k_bufs k !! i = Some b →
  first_of (buf_is (has_block blk) (k_bufs k)) o = None →
  first_of (buf_is (λ b, (b_refcnt b =? 0) && (Z.land (b_flags b) B_DIRTY =? 0)) (k_bufs k)) (rev o) = Some i →
  sl_locked (b_lock b) = false →
  bget 1 blk k = Ret i (put_buf i (buf_recycled (p_pid pr) blk b) k).
Proof using Hok.
  intros Hc Hi Hb E1 E2 Hl. destruct (acquire_idle LkBcache k (ca_idle _ _ _ _ _ Hok)) as [Ea Hlk].
  destruct (ca_lookup _ _ _ _ _ Hok head_buf (Nat.le_refl _)) as [h Hh].
  unfold bget. rewrite (bind_Ret_eq _ _ _ _ _ Ea). unfold buf_at at 1. rewrite bind_assoc, bind_gets.
  change (k_bufs (acquired LkBcache k)) with (k_bufs k). rewrite Hh. erewrite bind_deref by done.
  rewrite (bind_Ret_eq _ _ _ _ _ (bget_cached_eq h blk Hh)), E1. cbn match.
  rewrite (bind_Ret_eq _ _ _ _ _ (bget_unused_eq h Hh)), E2. cbn match. rewrite !bind_modify.
  set (g := λ b, set_b_refcnt 1 (set_b_flags 0 (set_b_blockno blk (set_b_dev 1 b)))).
  assert (Eu : upd_buf i (set_b_refcnt 1) (upd_buf i (set_b_flags 0) (upd_buf i (set_b_blockno blk)
    (upd_buf i (set_b_dev 1) (acquired LkBcache k)))) = upd_buf i g (acquired LkBcache k)).
  { unfold upd_buf. cbn [k_bufs set_k_bufs]. rewrite !alter_compose. done. }
  rewrite Eu. set (f := upd_buf i g).
  rewrite (bind_Ret_eq _ _ _ _ _ (proj1 (release_locked LkBcache (f (acquired LkBcache k)) Hlk))).
  rewrite (section_eq LkBcache k f (ca_idle _ _ _ _ _ Hok)) by done. unfold f. rewrite (upd_put_buf i b) by done.
  assert (Hlen : (i < length (k_bufs k))%nat) by (rewrite (ca_len _ _ _ _ _ Hok); lia).
  by rewrite (bind_Ret_eq _ _ _ _ _ (acquiresleep_put i (g b) k me pr (ca_idle _ _ _ _ _ Hok) Hc Hlen Hl)).
Qed.
End bget.

(** ** The disk *)
Lemma holdingsleep_put i b k me pr : idle k → current k me pr → (i < length (k_bufs k))%nat →
  b_lock b = mk_sleeplock true (p_pid pr) → holdingsleep (SlBuf i) (put_buf i b k) = Ret true (put_buf i b k).
Proof.
  intros Hi Hc Hlt Hl. rewrite (holdingsleep_eq (SlBuf i) (put_buf i b k) (b_lock b) me pr); [|by apply put_buf_idle|done|].
  - by rewrite quiet_put_buf, Hl, Z.eqb_refl.
  - unfold sl_get, put_buf. cbn. by rewrite list_lookup_insert_eq.
Qed.

Lemma put_buf_get i b k : (i < length (k_bufs k))%nat → k_bufs (put_buf i b k) !! i = Some b.
Proof. intros. unfold put_buf. cbn. by rewrite list_lookup_insert_eq. Qed.

Lemma upd_buf_put i b f k : (i < length (k_bufs k))%nat → upd_buf i f (put_buf i b k) = put_buf i (f b) k.
Proof.
  intros H. rewrite <- (quiet_put_buf i b k), (upd_put_buf i b) by (by apply put_buf_get). apply put_put_buf.
Qed.

Lemma put_buf_id i b k : k_bufs k !! i = Some b → quiet k = k → put_buf i b k = k.
Proof. intros Hb Hq. unfold put_buf. rewrite Hq, list_insert_id by done. by destruct k. Qed.

Lemma bind_buf_at {B} i b (f : buf → KM B) k : k_bufs k !! i = Some b → bindM (buf_at i) f k = f b k.
Proof. intros H. unfold buf_at. rewrite bind_assoc, bind_gets, H. by erewrite bind_deref. Qed.

Lemma iderw_read i b k me pr : idle k → current k me pr → (i < length (k_bufs k))%nat →
  b_lock b = mk_sleeplock true (p_pid pr) → b_flags b = 0 → b_dev b = 1 → b_blockno b < io_disksize (k_io k) →
  iderw i (put_buf i b k) = Ret tt (put_buf i (set_b_flags clean (set_b_data (k_disk k (b_blockno b)) b)) k).
Proof.
  intros Hi Hc Hlt Hl Hf Hd Hs. unfold iderw. rewrite (bind_Ret_eq _ _ _ _ _ (holdingsleep_put i b k me pr Hi Hc Hlt Hl)).
  cbn [negb]. rewrite (bind_buf_at i b) by (by apply put_buf_get). rewrite Hf, Hd.
  change (Z.land 0 (Z.lor B_VALID B_DIRTY) =? B_VALID) with false. change (negb (1 =? 1)) with false. cbn match.
  rewrite bind_gets. change (io_disksize (k_io (put_buf i b k))) with (io_disksize (k_io k)).
  rewrite (proj2 (Z.leb_gt _ _) Hs). change (negb (Z.land 0 B_DIRTY =? 0)) with false. cbn match.
  rewrite bind_assoc, bind_gets, bind_modify. unfold modify.
  rewrite !upd_buf_put by done. cbn [b_flags set_b_data]. by rewrite Hf.
Qed.

Lemma iderw_write i b k me pr : idle k → current k me pr → (i < length (k_bufs k))%nat →
  b_lock b = mk_sleeplock true (p_pid pr) → b_flags b = dirty → b_dev b = 1 → b_blockno b < io_disksize (k_io k) →
  iderw i (put_buf i b k) = disk_write (b_blockno b) (b_data b) (put_buf i (set_b_flags clean b) k).
Proof.
  intros Hi Hc Hlt Hl Hf Hd Hs. unfold iderw. rewrite (bind_Ret_eq _ _ _ _ _ (holdingsleep_put i b k me pr Hi Hc Hlt Hl)).
  cbn [negb]. rewrite (bind_buf_at i b) by (by apply put_buf_get). rewrite Hf, Hd.
  change (Z.land dirty (Z.lor B_VALID B_DIRTY) =? B_VALID) with false. change (negb (1 =? 1)) with false. cbn match.
  rewrite bind_gets. change (io_disksize (k_io (put_buf i b k))) with (io_disksize (k_io k)).
  rewrite (proj2 (Z.leb_gt _ _) Hs). change (negb (Z.land dirty B_DIRTY =? 0)) with true. cbn match.
  rewrite bind_assoc, bind_modify. rewrite upd_buf_put by done. change (Z.land dirty (Z.lnot B_DIRTY)) with clean.
  set (k1 := put_buf i (set_b_flags clean b) k).
  assert (Hid : ∀ k2, k_bufs k2 = k_bufs k1 → upd_buf i (λ b0, set_b_flags (Z.lor (b_flags b0) B_VALID) b0) k2 = k2).
  { intros k2 E. unfold upd_buf. rewrite E, (alter_const _ (set_b_flags clean b)) by (by apply put_buf_get).
    cbn [b_flags set_b_flags]. change (Z.lor clean B_VALID) with clean.
    change (set_b_flags clean (set_b_flags clean b)) with (set_b_flags clean b).
    rewrite list_insert_id by (by apply put_buf_get). rewrite <- E. by destruct k2. }
  unfold bindM, disk_write. destruct (k_power k1) as [[|n]|]; [done|..]; unfold modify; by rewrite Hid.
Qed.

(** ** Keeping the invariant *)

(** One buffer gets new contents, its links aside. *)
Lemma nxt_insert B i b b' : B !! i = Some b → b_next b' = b_next b → ∀ x, nxt (<[i := b']> B) x = nxt B x.
Proof.
  intros Hb E x. unfold nxt. destruct (decide (x = i)) as [->|Hn]; [|by rewrite list_lookup_insert_ne].
  rewrite list_lookup_insert_eq by (by eapply lookup_lt_Some). rewrite Hb. cbn. done.
Qed.
Lemma prv_insert B i b b' : B !! i = Some b → b_prev b' = b_prev b → ∀ x, prv (<[i := b']> B) x = prv B x.
Proof.
  intros Hb E x. unfold prv. destruct (decide (x = i)) as [->|Hn]; [|by rewrite list_lookup_insert_ne].
  rewrite list_lookup_insert_eq by (by eapply lookup_lt_Some). rewrite Hb. cbn. done.
Qed.
Lemma dll_ext n n' p p' h o : (∀ x, n' x = n x) → (∀ x, p' x = p x) → dll n p h o → dll n' p' h o.
Proof. intros Hn Hp H x y Hxy. rewrite Hn, Hp. by apply H. Qed.

Lemma lookup_put {T} (l : list T) i j x y z : l !! i = Some x → <[i := y]> l !! j = Some z →
  i = j ∧ z = y ∨ i ≠ j ∧ l !! j = Some z.
Proof.
  intros Hx Hz. destruct (decide (i = j)) as [->|Hn].
  - rewrite list_lookup_insert_eq in Hz by (by eapply lookup_lt_Some). left. by simplify_eq.
  - rewrite list_lookup_insert_ne in Hz by done. by right.
Qed.

Lemma cache_put k k' me pid o A A' i b b' :
  cache k me pid o A → (i < NBUF)%nat → k_bufs k !! i = Some b → k_bufs k' = <[i := b']> (k_bufs k) →
  b_next b' = b_next b → b_prev b' = b_prev b → idle k' → current_pid k' me pid →
  io_disksize (k_io k') = io_disksize (k_io k) →
  (∀ blk j bj, has_block blk b' = true → j ≠ i → (j < NBUF)%nat → k_bufs k !! j = Some bj → has_block blk bj = false) →
  buf_good (io_disksize (k_io k)) pid A' i b' →
  (∀ j bj, j ≠ i → (j < NBUF)%nat → k_bufs k !! j = Some bj → buf_good (io_disksize (k_io k)) pid A j bj →
     buf_good (io_disksize (k_io k)) pid A' j bj) →
  (∀ j, is_Some (cs_held A' !! j) → (j < NBUF)%nat) →
  (∀ blk, k_disk k' blk = cs_disk A' blk) →
  (∀ blk, blk ∉ cs_dirty A' → (∀ j, cs_held A' !! j ≠ Some blk) → cs_view A' blk = cs_disk A' blk) →
  (∀ blk, blk ∈ cs_dirty A' → has_block blk b' = true ∨
     ∃ j bj, j ≠ i ∧ (j < NBUF)%nat ∧ k_bufs k !! j = Some bj ∧ has_block blk bj = true) →
  cache k' me pid o A'.
Proof.
  intros Hok Hi Hb EB En Ep Hidle Hcur Esz Huniq Hg Hgs Hr Hd Hcl Hdi. destruct Hok as [_ _ Hlen Hperm Hring Huq Hgd _ _ _ _].
  split; try done.
  - by rewrite EB, length_insert.
  - rewrite EB. eapply dll_ext; [by eapply nxt_insert|by eapply prv_insert|done].
  - rewrite EB. intros x y bx bX blk Hx Hy Ex Ey Hbx Hby.
    destruct (lookup_put _ _ _ _ _ _ Hb Ex) as [[<- ->]|[Hnx Ex']], (lookup_put _ _ _ _ _ _ Hb Ey) as [[<- ->]|[Hny Ey']].
    + done.
    + by rewrite (Huniq blk y bX) in Hby.
    + by rewrite (Huniq blk x bx) in Hbx.
    + by apply (Huq x y bx bX blk).
  - rewrite EB, Esz. intros j bj Hj Ej. destruct (lookup_put _ _ _ _ _ _ Hb Ej) as [[<- ->]|[Hn Ej']]; [done|].
    apply Hgs; try done. by apply Hgd.
  - intros blk Hblk. rewrite EB. destruct (Hdi blk Hblk) as [Hb'|(j & bj & Hn & Hj & Ej & Hbj)].
    + exists i, b'. rewrite list_lookup_insert_eq by (by eapply lookup_lt_Some). done.
    + exists j, bj. by rewrite list_lookup_insert_ne.
Qed.

(** *** [bread] *)
Definition cs_take (i : nat) (blk : Z) (A : cstate) : cstate :=
  mk_cstate (<[i := blk]> (cs_held A)) (cs_view A) (cs_dirty A) (cs_disk A).
Definition cs_drop (i : nat) (A : cstate) : cstate :=
  mk_cstate (delete i (cs_held A)) (cs_view A) (cs_dirty A) (cs_disk A).
Definition cs_edit (blk : Z) (d : list Z) (A : cstate) : cstate :=
  mk_cstate (cs_held A) (fset (cs_view A) blk d) (cs_dirty A) (cs_disk A).
Definition cs_pin (blk : Z) (A : cstate) : cstate :=
  mk_cstate (cs_held A) (cs_view A) ({[blk]} ∪ cs_dirty A) (cs_disk A).
Definition cs_flush (blk : Z) (A : cstate) : cstate :=
  mk_cstate (cs_held A) (cs_view A) (cs_dirty A ∖ {[blk]}) (fset (cs_disk A) blk (cs_view A blk)).

(** The blocks in use: held or dirty. *)
Definition cs_busy (A : cstate) : gset Z := cs_dirty A ∪ map_img (cs_held A).

Lemma buf_good_frame sz pid A A' i b : cs_held A' !! i = cs_held A !! i →
  (b_dev b = 1 → cs_view A' (b_blockno b) = cs_view A (b_blockno b) ∧
     (b_blockno b ∈ cs_dirty A' ↔ b_blockno b ∈ cs_dirty A)) →
  buf_good sz pid A i b → buf_good sz pid A' i b.
Proof.
  intros Eh Ev [Hl Hh Hb Hn]. split; [by rewrite Eh|by rewrite Eh| |done].
  intros Hd. destruct (Ev Hd) as [-> Hdi]. destruct (Hb Hd) as (? & ? & ->). split; [done|]. split; [done|].
  erewrite (bool_decide_ext (_ ∈ cs_dirty A)); [done|]. by rewrite Hdi.
Qed.

Lemma quiet_frame k B : bio_frame k (set_k_bufs B (quiet k)).
Proof. exists (k_cpu (quiet k)), (k_procs k), B, (k_disk k), (k_power k). split; [by destruct k|done]. Qed.

Lemma upd_frame k i f : bio_frame k (upd_buf i f k).
Proof. exists (k_cpu k), (k_procs k), (alter f i (k_bufs k)), (k_disk k), (k_power k). split; [by destruct k|done]. Qed.

Lemma dirty_land : Z.land dirty B_DIRTY =? 0 = false.
Proof. done. Qed.
Lemma clean_land : Z.land clean B_DIRTY =? 0 = true.
Proof. done. Qed.

Section ops.
Variables (k : kernel) (me : nat) (pid : Z) (o : list nat) (A : cstate).
Hypothesis Hok : cache k me pid o A.

(** Pigeonhole: a buffer that is neither held nor dirty. *)
Lemma room_unused : (size (cs_busy A) < NBUF)%nat →
  ∃ u b, (u < NBUF)%nat ∧ k_bufs k !! u = Some b ∧ cs_held A !! u = None ∧ Z.land (b_flags b) B_DIRTY = 0.
Proof using Hok.
  intros Hsz. destruct (decide (Exists (λ u, cs_held A !! u = None ∧ Z.land (default 0 (b_flags <$> k_bufs k !! u)) B_DIRTY = 0) (seq 0 NBUF)))
    as [(u & Hu%elem_of_seq & Hh & Hf)%list.Exists_exists|Hno].
  { destruct (ca_lookup _ _ _ _ _ Hok u ltac:(lia)) as [b Hb]. exists u, b. rewrite Hb in Hf. split_and!; (done || lia). }
  exfalso. set (f := λ u, default 0 (b_blockno <$> k_bufs k !! u)).
  assert (Hin : ∀ u, u ∈ seq 0 NBUF → ∃ b, (u < NBUF)%nat ∧ k_bufs k !! u = Some b ∧ b_dev b = 1 ∧ b_blockno b ∈ cs_busy A).
  { intros u Hu. pose proof Hu as Hu'%elem_of_seq. destruct (ca_lookup _ _ _ _ _ Hok u ltac:(lia)) as [b Hb]. exists b.
    assert (Hlt : (u < NBUF)%nat) by lia. pose proof (ca_good _ _ _ _ _ Hok u b Hlt Hb) as [Hl Hh Hbl Hn].
    split; [done|]. split; [done|]. unfold cs_busy. destruct (cs_held A !! u) as [blk|] eqn:E.
    - destruct (Hh blk eq_refl) as [Hd <-]. split; [done|]. apply elem_of_union_r. by apply (elem_of_map_img_2 _ u).
    - assert (Hf : Z.land (b_flags b) B_DIRTY ≠ 0).
      { intros Hf. apply Hno, list.Exists_exists. exists u. split; [done|]. split; [done|]. by rewrite Hb. }
      destruct (decide (b_dev b = 1)) as [Hd|Hd]; [|by rewrite (Hn Hd) in Hf].
      split; [done|]. apply elem_of_union_l. destruct (Hbl Hd) as (_ & _ & Ef). rewrite Ef in Hf.
      destruct (bool_decide _) eqn:Eb; [by apply bool_decide_eq_true_1 in Eb|]. by cbn in Hf. }
  assert (Hnd : NoDup (f <$> seq 0 NBUF)).
  { apply NoDup_fmap_2_strong; [|apply NoDup_seq]. intros x y Hx Hy E.
    destruct (Hin x Hx) as (bx & Hxl & Ex & Hdx & _), (Hin y Hy) as (bY & Hyl & Ey & Hdy & _).
    unfold f in E. rewrite Ex, Ey in E. cbn in E.
    apply (ca_uniq _ _ _ _ _ Hok x y bx bY (b_blockno bx)); try done; by apply has_block_spec. }
  assert (Hsub : (list_to_set (f <$> seq 0 NBUF) : gset Z) ⊆ cs_busy A).
  { intros z. rewrite elem_of_list_to_set, list_elem_of_fmap. intros (u & -> & Hu).
    destruct (Hin u Hu) as (b & _ & Eb & _ & Hb). unfold f. by rewrite Eb. }
  apply subseteq_size in Hsub. rewrite size_list_to_set in Hsub by done. rewrite length_fmap, length_seq in Hsub. lia.
Qed.

Lemma cached_or blk : (∃ i b, (i < NBUF)%nat ∧ k_bufs k !! i = Some b ∧ has_block blk b = true) ∨
  first_of (buf_is (has_block blk) (k_bufs k)) o = None.
Proof using Hok.
  destruct (first_of _ _) as [j|] eqn:E; [left|by right]. apply first_of_Some in E as [Hj Hp]. unfold buf_is in Hp.
  destruct (k_bufs k !! j) as [b|] eqn:Eb; [|done]. exists j, b. rewrite ca_order in Hj by done. done.
Qed.

Lemma uncached blk i b : first_of (buf_is (has_block blk) (k_bufs k)) o = None → (i < NBUF)%nat → k_bufs k !! i = Some b →
  has_block blk b = false.
Proof using Hok.
  intros E Hi Hb. apply (ca_order _ _ _ _ _ Hok) in Hi. apply (first_of_None _ _ E) in Hi. unfold buf_is in Hi. by rewrite Hb in Hi.
Qed.

(** Buffer [i] is taken for [blk], whose block no other buffer caches. *)
Lemma cache_take blk i b b' : (i < NBUF)%nat → k_bufs k !! i = Some b → b_next b' = b_next b → b_prev b' = b_prev b →
  cs_held A !! i = None → b_lock b' = mk_sleeplock true pid → b_refcnt b' = 1 → b_dev b' = 1 → b_blockno b' = blk →
  0 <= blk < io_disksize (k_io k) → b_data b' = cs_view A blk →
  b_flags b' = (if bool_decide (blk ∈ cs_dirty A) then dirty else clean) →
  (∀ j bj, j ≠ i → (j < NBUF)%nat → k_bufs k !! j = Some bj → has_block blk bj = false) →
  (∀ blk', blk' ∈ cs_dirty A → has_block blk' b = true → blk' = blk) →
  cache (put_buf i b' k) me pid o (cs_take i blk A).
Proof using Hok.
  intros Hi Hb En Ep Hh Hl Hr Hd Hn Hrg Hda Hf Hu Hdi. eapply (cache_put k _ me pid o A); try done.
  - apply put_buf_idle, Hok.
  - apply Hok.
  - intros blk' j bj [_ <-]%has_block_spec. rewrite Hn. apply Hu.
  - split; cbn; rewrite ?lookup_insert_eq.
    + by rewrite decide_True.
    + intros ? [= <-]. done.
    + intros _. by rewrite Hn.
    + done.
  - intros j bj Hj Hlt Ej. apply buf_good_frame; [cbn; by rewrite lookup_insert_ne|done].
  - intros j. cbn. destruct (decide (i = j)) as [<-|]; [done|]. rewrite lookup_insert_ne by done. apply Hok.
  - apply Hok.
  - intros blk' Hnd Hnh. cbn in *. apply (ca_clean _ _ _ _ _ Hok blk' Hnd). intros j Ej. apply (Hnh j).
    rewrite lookup_insert_ne; [done|]. congruence.
  - intros blk' Hin. cbn in Hin. destruct (decide (blk' = blk)) as [->|Hne]; [left; by apply has_block_spec|right].
    destruct (ca_dirty _ _ _ _ _ Hok blk' Hin) as (j & bj & Hj & Ej & Hbj). exists j, bj. split_and!; try done.
    intros ->. rewrite Hb in Ej. simplify_eq. by apply Hne, Hdi.
Qed.

Lemma bread_ok blk : 0 <= blk < io_disksize (k_io k) → (∀ i, cs_held A !! i ≠ Some blk) →
  blk ∈ cs_dirty A ∨ (size (cs_busy A) < NBUF)%nat →
  ∃ i b', cs_held A !! i = None ∧ bread 1 blk k = Ret i (put_buf i b' k) ∧
    b_data b' = cs_view A blk ∧ cache (put_buf i b' k) me pid o (cs_take i blk A).
Proof using Hok.
  intros Hrg Hnh Hroom. destruct (ca_me _ _ _ _ _ Hok) as (pr & Hc & Hpid).
  assert (Hlen : ∀ i, (i < NBUF)%nat → (i < length (k_bufs k))%nat) by (rewrite (ca_len _ _ _ _ _ Hok); lia).
  destruct (cached_or blk) as [(i & b & Hi & Hb & Hblk)|Hno].
  - pose proof (ca_not_held _ _ _ _ _ Hok i b blk Hi Hb Hblk Hnh) as Hh.
    destruct (ca_good _ _ _ _ _ Hok i b Hi Hb) as [Hl _ Hbl _]. rewrite decide_False in Hl by (rewrite Hh; intros [? [=]]).
    destruct Hl as [Hl Hr]. pose proof Hblk as [Hd Hn]%has_block_spec. destruct (Hbl Hd) as (_ & Hda & Hf). rewrite Hn in Hda, Hf.
    exists i, (buf_taken pid b). split; [done|]. split; [|split; [done|]].
    + unfold bread. rewrite (bind_Ret_eq _ _ _ _ _ (bget_hit _ _ _ _ _ Hok i b blk pr Hc Hi Hb Hblk Hl Hr)), Hpid.
      rewrite (bind_buf_at i (buf_taken pid b)) by (apply put_buf_get; auto).
      assert (Ev : Z.land (b_flags (buf_taken pid b)) B_VALID =? 0 = false).
      { change (b_flags (buf_taken pid b)) with (b_flags b). rewrite Hf. by destruct (bool_decide (blk ∈ _)). }
      by rewrite Ev.
    + apply (cache_take blk i b); try done.
      * intros j bj Hj Hlt Ej. destruct (has_block blk bj) eqn:E; [|done]. destruct Hj. by apply (ca_uniq _ _ _ _ _ Hok j i bj b blk).
      * intros blk' _ [_ Hn']%has_block_spec. congruence.
  - assert (Hnd : blk ∉ cs_dirty A).
    { intros Hin. destruct (ca_dirty _ _ _ _ _ Hok blk Hin) as (j & bj & Hj & Ej & Hbj). by rewrite (uncached blk j bj) in Hbj. }
    destruct Hroom as [|Hroom]; [done|]. destruct (room_unused Hroom) as (u & bu & Hu & Eu & Hhu & Hfu).
    destruct (first_of (buf_is (λ b, (b_refcnt b =? 0) && (Z.land (b_flags b) B_DIRTY =? 0)) (k_bufs k)) (rev o)) as [i|] eqn:Ef; cycle 1.
    { eapply first_of_None in Ef; [|apply list_elem_of_In, (proj1 (in_rev _ _)), list_elem_of_In, (ca_order _ _ _ _ _ Hok), Hu].
      unfold buf_is in Ef. rewrite Eu in Ef. cbn in Ef. destruct (ca_good _ _ _ _ _ Hok u bu Hu Eu) as [Hl _ _ _].
      rewrite decide_False in Hl by (rewrite Hhu; intros [? [=]]). destruct Hl as [_ Hl]. by rewrite Hl, Hfu in Ef. }
    pose proof Ef as [Hi Hp]%first_of_Some. apply list_elem_of_In, (proj2 (in_rev _ _)), list_elem_of_In in Hi. rewrite (ca_order _ _ _ _ _ Hok) in Hi.
    destruct (ca_lookup _ _ _ _ _ Hok i ltac:(lia)) as [b Hb]. unfold buf_is in Hp. rewrite Hb in Hp. cbn in Hp.
    apply andb_prop in Hp as [Hr%Z.eqb_eq Hf%Z.eqb_eq].
    destruct (ca_good _ _ _ _ _ Hok i b Hi Hb) as [Hl Hhb Hbl _].
    assert (Hh : cs_held A !! i = None).
    { destruct (cs_held A !! i) as [?|] eqn:E; [|done]. rewrite decide_True in Hl by done. lia. }
    rewrite decide_False in Hl by (rewrite Hh; intros [? [=]]).
    set (b1 := buf_recycled pid blk b). set (b2 := set_b_flags clean (set_b_data (k_disk k blk) b1)).
    exists i, b2. split; [done|].
    assert (Hv : k_disk k blk = cs_view A blk) by (rewrite (ca_disk _ _ _ _ _ Hok); symmetry; by apply (ca_clean _ _ _ _ _ Hok)).
    split; [|split; [done|]].
    + unfold bread. rewrite (bind_Ret_eq _ _ _ _ _ (bget_miss _ _ _ _ _ Hok i b blk pr Hc Hi Hb Hno Ef (proj1 Hl))), Hpid.
      rewrite (bind_buf_at i b1) by (apply put_buf_get; auto). change (Z.land (b_flags b1) B_VALID =? 0) with true. cbn [when].
      rewrite (bind_Ret_eq _ _ _ _ _ (iderw_read i b1 k me pr (ca_idle _ _ _ _ _ Hok) Hc (Hlen i Hi) ltac:(rewrite Hpid; done) eq_refl eq_refl (proj2 Hrg))).
      done.
    + apply (cache_take blk i b); try done.
      * cbn. by rewrite bool_decide_eq_false_2.
      * intros j bj _ Hlt Ej. by apply (uncached blk j bj Hno).
      * intros blk' Hin [Hd Hn]%has_block_spec. destruct (Hbl Hd) as (_ & _ & Efl). rewrite Efl, Hn, bool_decide_eq_true_2 in Hf by done.
        by cbn in Hf.
Qed.

(** *** Changing a held buffer *)
Lemma cache_change k' A' i blk b b' : cs_held A !! i = Some blk → k_bufs k !! i = Some b →
  k_bufs k' = <[i := b']> (k_bufs k) → b_next b' = b_next b → b_prev b' = b_prev b →
  b_lock b' = b_lock b → b_refcnt b' = b_refcnt b → b_dev b' = b_dev b → b_blockno b' = b_blockno b →
  idle k' → current_pid k' me pid → io_disksize (k_io k') = io_disksize (k_io k) →
  cs_held A' = cs_held A → b_data b' = cs_view A' blk → b_flags b' = (if bool_decide (blk ∈ cs_dirty A') then dirty else clean) →
  (∀ x, k_disk k' x = cs_disk A' x) →
  (∀ x, x ≠ blk → cs_view A' x = cs_view A x ∧ (x ∈ cs_dirty A' ↔ x ∈ cs_dirty A) ∧ cs_disk A' x = cs_disk A x) →
  cache k' me pid o A'.
Proof using Hok.
  intros Hh Hb EB En Ep El Er Ed Ebl Hidle Hcur Esz Eh Hda Hf Hdisk Hx.
  destruct (ca_held_buf _ _ _ _ _ Hok i blk Hh) as (Hi & b0 & Hb0 & Hl0 & Hr0 & Hd0 & Hn0 & _ & _ & Hrg).
  rewrite Hb in Hb0. injection Hb0 as <-.
  assert (Hother : ∀ x j bj, has_block x b' = true → j ≠ i → (j < NBUF)%nat → k_bufs k !! j = Some bj → has_block x bj = false).
  { intros x j bj [_ Hx']%has_block_spec Hj Hlt Ej. destruct (has_block x bj) eqn:E; [|done]. destruct Hj.
    apply (ca_uniq _ _ _ _ _ Hok j i bj b x); try done. apply has_block_spec. split; [done|]. congruence. }
  eapply (cache_put k k' me pid o A); try done.
  - split; rewrite ?Eh.
    + rewrite decide_True by done. by rewrite El, Er.
    + rewrite Hh. intros ? [= <-]. by rewrite Ed, Ebl.
    + rewrite Ebl, Hn0. done.
    + rewrite Ed, Hd0. done.
  - intros j bj Hj Hlt Ej. apply buf_good_frame; [by rewrite Eh|]. intros Hdj.
    destruct (Hx (b_blockno bj)) as (? & ? & _); [|done]. intros E.
    assert (Hbj : has_block blk bj = false) by (apply (Hother blk j bj); try done; apply has_block_spec; split; congruence).
    rewrite (proj2 (has_block_spec blk bj)) in Hbj by done. done.
  - rewrite Eh. apply Hok.
  - intros x Hnd Hnh. rewrite Eh in Hnh. assert (Hne : x ≠ blk) by (intros ->; by apply (Hnh i)).
    destruct (Hx x Hne) as (-> & Hd' & ->). apply (ca_clean _ _ _ _ _ Hok); [by rewrite <- Hd'|done].
  - intros x Hin. destruct (decide (x = blk)) as [->|Hne]; [left; apply has_block_spec; split; congruence|right].
    destruct (Hx x Hne) as (_ & Hd' & _). rewrite Hd' in Hin.
    destruct (ca_dirty _ _ _ _ _ Hok x Hin) as (j & bj & Hj & Ej & Hbj). exists j, bj. split_and!; try done.
    intros ->. rewrite Hb in Ej. simplify_eq. apply has_block_spec in Hbj as [_ Hbj]. congruence.
Qed.

Lemma fset_eq {B} (f : Z → B) a v : fset f a v a = v.
Proof using. unfold fset. by rewrite Z.eqb_refl. Qed.
Lemma fset_ne {B} (f : Z → B) a v x : x ≠ a → fset f a v x = f x.
Proof using. intros. unfold fset. by rewrite (proj2 (Z.eqb_neq _ _)). Qed.

Lemma bdata_set_ok i blk d : cs_held A !! i = Some blk →
  ∃ k', bdata_set i d k = Ret tt k' ∧ cache k' me pid o (cs_edit blk d A) ∧ bio_frame k k' ∧ k_disk k' = k_disk k.
Proof using Hok.
  intros Hh. destruct (ca_held_buf _ _ _ _ _ Hok i blk Hh) as (Hi & b & Hb & _ & _ & _ & _ & Hda & Hf & _).
  eexists. split; [done|]. split; [|split; [apply upd_frame|done]].
  apply (cache_change _ (cs_edit blk d A) i blk b (set_b_data d b)); try done.
  - unfold upd_buf. cbn. by erewrite alter_const.
  - apply Hok.
  - apply Hok.
  - cbn. by rewrite fset_eq.
  - apply Hok.
  - intros x Hx. cbn. by rewrite fset_ne.
Qed.

Lemma bdata_ok i blk : cs_held A !! i = Some blk → bdata i k = Ret (cs_view A blk) k.
Proof using Hok.
  intros Hh. destruct (ca_held_buf _ _ _ _ _ Hok i blk Hh) as (Hi & b & Hb & _ & _ & _ & _ & Hda & _).
  unfold bdata. rewrite (bind_buf_at i b) by done. by rewrite <- Hda.
Qed.

(** [b->flags |= B_DIRTY] *)
Lemma pin_ok i blk : cs_held A !! i = Some blk →
  cache (upd_buf i (λ r, set_b_flags (Z.lor (b_flags r) B_DIRTY) r) k) me pid o (cs_pin blk A).
Proof using Hok.
  intros Hh. destruct (ca_held_buf _ _ _ _ _ Hok i blk Hh) as (Hi & b & Hb & _ & _ & _ & _ & Hda & Hf & _).
  apply (cache_change _ (cs_pin blk A) i blk b (set_b_flags (Z.lor (b_flags b) B_DIRTY) b)); try done.
  - unfold upd_buf. cbn. by erewrite alter_const.
  - apply Hok.
  - apply Hok.
  - cbn. rewrite Hf, (bool_decide_eq_true_2 (blk ∈ {[blk]} ∪ cs_dirty A)) by set_solver. by destruct (bool_decide (blk ∈ _)).
  - apply Hok.
  - intros x Hx. cbn. split; [done|]. split; [set_solver|done].
Qed.

Lemma bwrite_run i blk b pr : cs_held A !! i = Some blk → k_bufs k !! i = Some b → current k me pr → p_pid pr = pid →
  bwrite i k = disk_write blk (cs_view A blk) (put_buf i (set_b_flags clean b) k).
Proof using Hok.
  intros Hh Hb Hc Hpid. destruct (ca_held_buf _ _ _ _ _ Hok i blk Hh) as (Hi & b0 & Hb0 & Hl & _ & Hd & Hn & Hda & Hf & Hrg).
  rewrite Hb in Hb0. injection Hb0 as <-.
  unfold bwrite. rewrite (bind_Ret_eq _ _ _ _ _ (holdingsleep_eq (SlBuf i) k (b_lock b) me pr (ca_idle _ _ _ _ _ Hok) Hc ltac:(cbn; by rewrite Hb))).
  rewrite Hl, Hpid. cbn [sl_locked sl_pid]. rewrite Z.eqb_refl. cbn [andb negb]. rewrite bind_modify, (upd_put_buf i b) by done.
  assert (Ef : Z.lor (b_flags b) B_DIRTY = dirty) by (rewrite Hf; by destruct (bool_decide (blk ∈ _))). rewrite Ef.
  rewrite (iderw_write i (set_b_flags dirty b) k me pr (ca_idle _ _ _ _ _ Hok) Hc); try done.
  - cbn. by rewrite Hn, Hda.
  - rewrite (ca_len _ _ _ _ _ Hok). lia.
  - cbn. by rewrite Hpid.
  - cbn. rewrite Hn. apply Hrg.
Qed.

(** The block reaches the disk, or the power fails and the disk is as it was. *)
Lemma bwrite_ok i blk : cs_held A !! i = Some blk →
  wp False (bwrite i) (λ _ k', cache k' me pid o (cs_flush blk A) ∧ bio_frame k k')
    (λ c k', c = LPowerOff ∧ k_power k ≠ None ∧ k_disk k' = k_disk k) k.
Proof using Hok.
  intros Hh. destruct (ca_held_buf _ _ _ _ _ Hok i blk Hh) as (Hi & b & Hb & _ & _ & _ & _ & Hda & _).
  destruct (ca_me _ _ _ _ _ Hok) as (pr & Hc & Hpid). pose proof (bwrite_run i blk b pr Hh Hb Hc Hpid) as Er.
  assert (Hcache : ∀ w, cache (set_k_power w (set_k_disk (λ x, if x =? blk then cs_view A blk else k_disk k x)
     (put_buf i (set_b_flags clean b) k))) me pid o (cs_flush blk A)).
  { intros w. apply (cache_change _ (cs_flush blk A) i blk b (set_b_flags clean b)); try done.
    - exact (quiet_idle k (ca_idle _ _ _ _ _ Hok)).
    - exact (ca_me _ _ _ _ _ Hok).
    - cbn. by rewrite bool_decide_eq_false_2 by set_solver.
    - intros x. cbn. unfold fset. case_match; [done|]. apply Hok.
    - intros x Hx. cbn. rewrite fset_ne by done. split; [done|]. split; [set_solver|done]. }
  assert (Hfr : ∀ d w, (w = None ↔ k_power k = None) → bio_frame k (set_k_power w (set_k_disk d (put_buf i (set_b_flags clean b) k)))).
  { intros d w Hw. exists (k_cpu (quiet k)), (k_procs k), (<[i := set_b_flags clean b]> (k_bufs k)), d, w. split; [by destruct k|done]. }
  unfold disk_write in Er. change (k_power (put_buf i (set_b_flags clean b) k)) with (k_power k) in Er.
  destruct (k_power k) as [[|n]|] eqn:Ep.
  - eapply wp_of_Switch; [exact Er|]. done.
  - eapply wp_of_Ret; [exact Er|]. split; [exact (Hcache (Some n))|]. exact (Hfr _ (Some n) ltac:(done)).
  - eapply wp_of_Ret; [exact Er|].
    assert (Ek : ∀ d, set_k_disk d (put_buf i (set_b_flags clean b) k) = set_k_power None (set_k_disk d (put_buf i (set_b_flags clean b) k)))
      by (intros; rewrite <- Ep; by destruct k).
    rewrite Ek. split; [apply Hcache|]. by apply Hfr.
Qed.
End ops.

(** ** [brelse]: the buffer goes to the front of the ring *)

(** Equal but for the links. *)
Definition relinked (b b' : buf) : Prop := b' = set_b_prev (b_prev b') (set_b_next (b_next b') b).
#[export] Instance relinked_preorder : PreOrder relinked.
Proof.
  unfold relinked. split; [by intros []|]. intros b b1 b2 H1 H2. destruct b, b1, b2. cbn in *. injection H1 as -> -> -> -> -> -> ->.
  by injection H2 as -> -> -> -> -> -> ->.
Qed.

Lemma relinked_prev B i v : Forall2 relinked B (alter (set_b_prev v) i B).
Proof.
  apply Forall2_same_length_lookup_2; [by rewrite length_alter|]. intros j b b' Hb. rewrite list_lookup_alter.
  case_decide; subst; rewrite Hb; intros [= <-]; by destruct b.
Qed.
Lemma relinked_next B i v : Forall2 relinked B (alter (set_b_next v) i B).
Proof.
  apply Forall2_same_length_lookup_2; [by rewrite length_alter|]. intros j b b' Hb. rewrite list_lookup_alter.
  case_decide; subst; rewrite Hb; intros [= <-]; by destruct b.
Qed.

Lemma nxt_alter_next B i v x : (i < length B)%nat → nxt (alter (set_b_next v) i B) x = fupd (nxt B) i v x.
Proof.
  intros Hi. unfold nxt, fupd. rewrite list_lookup_alter. destruct (lookup_lt_is_Some_2 B i Hi) as [b Hb].
  repeat case_decide; subst; try done. by rewrite Hb.
Qed.
Lemma nxt_alter_prev B i v x : nxt (alter (set_b_prev v) i B) x = nxt B x.
Proof. unfold nxt. rewrite list_lookup_alter. case_decide; subst; [|done]. by destruct (B !! x). Qed.
Lemma prv_alter_prev B i v x : (i < length B)%nat → prv (alter (set_b_prev v) i B) x = fupd (prv B) i v x.
Proof.
  intros Hi. unfold prv, fupd. rewrite list_lookup_alter. destruct (lookup_lt_is_Some_2 B i Hi) as [b Hb].
  repeat case_decide; subst; try done. by rewrite Hb.
Qed.
Lemma prv_alter_next B i v x : prv (alter (set_b_next v) i B) x = prv B x.
Proof. unfold prv. rewrite list_lookup_alter. case_decide; subst; [|done]. by destruct (B !! x). Qed.

(** The six pointer writes. *)
Definition unlinked (i : nat) (B : list buf) : list buf :=
  alter (set_b_next (nxt B i)) (prv B i) (alter (set_b_prev (prv B i)) (nxt B i) B).
Definition fronted (i : nat) (B : list buf) : list buf :=
  alter (set_b_next i) head_buf (alter (set_b_prev i) (nxt B head_buf)
    (alter (set_b_prev head_buf) i (alter (set_b_next (nxt B head_buf)) i B))).

Lemma relinked_front i B : Forall2 relinked B (fronted i (unlinked i B)).
Proof.
  unfold fronted, unlinked. do 5 (etrans; [|apply relinked_next || apply relinked_prev]). apply relinked_prev.
Qed.

Lemma dll_unlinked B o1 i o2 : length B = S NBUF → NoDup (head_buf :: o1 ++ i :: o2) → Forall (λ x, (x < NBUF)%nat) (o1 ++ i :: o2) →
  dll (nxt B) (prv B) head_buf (o1 ++ i :: o2) →
  dll (nxt (unlinked i B)) (prv (unlinked i B)) head_buf (o1 ++ o2) ∧ (nxt B i < length B)%nat ∧ (prv B i < length B)%nat ∧ nxt B i ≠ i.
Proof.
  intros Hlen Hnd Hlt Hd.
  assert (Hin : ∀ x, x ∈ head_buf :: o1 ++ i :: o2 ++ [head_buf] → (x < length B)%nat).
  { intros x Hx. rewrite Hlen. assert (Hx' : x = head_buf ∨ x ∈ o1 ++ i :: o2) by set_solver. destruct Hx' as [->|Hx']; [unfold head_buf; lia|].
    rewrite list.Forall_forall in Hlt. specialize (Hlt x Hx'). lia. }
  assert (exists n l, o2 ++ [head_buf] = n :: l) as (n & l & E) by (destruct o2 as [|n o2]; [by exists head_buf, []|by exists n, (o2 ++ [head_buf])]).
  assert (Hn : nxt B i = n).
  { apply Hd. rewrite <- app_assoc. cbn. rewrite E, app_comm_cons. apply edges_mid. }
  destruct (exists_last (l := head_buf :: o1) ltac:(done)) as (l1 & p & E1).
  assert (Hp : prv B i = p).
  { apply Hd. rewrite <- app_assoc. cbn. rewrite app_comm_cons, E1, <- app_assoc. apply edges_mid. }
  assert (Hnl : (nxt B i < length B)%nat).
  { apply Hin. rewrite E, Hn. set_solver. }
  assert (Hpl : (prv B i < length B)%nat).
  { apply Hin. rewrite app_comm_cons, E1, Hp. set_solver. }
  split; [|split; [done|split; [done|]]].
  - eapply dll_ext; [..|exact (dll_unlink (nxt B) (prv B) head_buf o1 i o2 Hnd Hd)].
    + intros x. unfold unlinked. rewrite nxt_alter_next by (by rewrite length_alter). unfold fupd. by rewrite nxt_alter_prev.
    + intros x. unfold unlinked. rewrite prv_alter_next. by apply prv_alter_prev.
  - rewrite Hn. intros ->. apply list.NoDup_cons in Hnd as [Hh Hnd]. apply list.NoDup_app in Hnd as (_ & _ & Hnd).
    apply list.NoDup_cons in Hnd as [Hi _]. destruct o2; cbn in E; injection E as E _; subst; set_solver.
Qed.

Lemma dll_fronted B o i : length B = S NBUF → NoDup (head_buf :: o) → i ∉ head_buf :: o → (i < NBUF)%nat → Forall (λ x, (x < NBUF)%nat) o →
  dll (nxt B) (prv B) head_buf o → dll (nxt (fronted i B)) (prv (fronted i B)) head_buf (i :: o).
Proof.
  intros Hlen Hnd Hni Hi Hlt Hd.
  assert (exists n l, o ++ [head_buf] = n :: l) as (n & l & E) by (destruct o as [|n o]; [by exists head_buf, []|by exists n, (o ++ [head_buf])]).
  assert (Hn : nxt B head_buf = n) by (apply Hd; cbn; rewrite E; apply (edges_mid [])).
  assert (Hnl : (nxt B head_buf < length B)%nat).
  { rewrite Hn, Hlen. assert (Hx : n ∈ o ++ [head_buf]) by (rewrite E; set_solver). apply elem_of_app in Hx as [Hx|Hx].
    - rewrite list.Forall_forall in Hlt. specialize (Hlt n Hx). lia.
    - apply list_elem_of_singleton in Hx as ->. unfold head_buf. lia. }
  eapply dll_ext; [..|exact (dll_front (nxt B) (prv B) head_buf o i Hnd Hni Hd)].
  - intros x. unfold fronted. rewrite nxt_alter_next by (rewrite !length_alter, Hlen; unfold head_buf; lia).
    unfold fupd at 1 2. case_decide; [done|]. rewrite !nxt_alter_prev. rewrite nxt_alter_next by lia. done.
  - intros x. unfold fronted. rewrite prv_alter_next, prv_alter_prev by (by rewrite !length_alter).
    unfold fupd at 1 2. case_decide; [done|]. rewrite prv_alter_prev by (rewrite length_alter; lia).
    unfold fupd. case_decide; [done|]. by rewrite prv_alter_next.
Qed.

Lemma nxt_lookup B i b : B !! i = Some b → b_next b = nxt B i.
Proof. unfold nxt. by intros ->. Qed.
Lemma prv_lookup B i b : B !! i = Some b → b_prev b = prv B i.
Proof. unfold prv. by intros ->. Qed.

(** The statements of [brelse] under [if (b->refcnt == 0)]. *)
Lemma front_run k i r : (i < length (k_bufs k))%nat → length (k_bufs k) = S NBUF → i ≠ head_buf → nxt (k_bufs k) i ≠ i →
  k_bufs k !! i = Some r →
  (modify (upd_buf (b_next r) (set_b_prev (b_prev r))) ;;
   r <- buf_at i ;;
   modify (upd_buf (b_prev r) (set_b_next (b_next r))) ;;
   link_front i ;;
   link_done i) k = Ret tt (set_k_bufs (fronted i (unlinked i (k_bufs k))) k).
Proof.
  intros Hi Hlen Hih Hn Hr. rewrite bind_modify.
  rewrite (bind_buf_at i r); [|unfold upd_buf; cbn; rewrite list_lookup_alter_ne; [done|by rewrite (nxt_lookup _ _ _ Hr)]].
  rewrite bind_modify. rewrite (nxt_lookup _ _ _ Hr), (prv_lookup _ _ _ Hr).
  set (k1 := upd_buf (prv _ _) _ _). change (fronted i (unlinked i (k_bufs k))) with (fronted i (k_bufs k1)).
  destruct (lookup_lt_is_Some_2 (k_bufs k1) head_buf) as [h Hh].
  { unfold k1, upd_buf. cbn. rewrite !length_alter, Hlen. unfold head_buf. lia. }
  unfold link_front, link_done. rewrite bind_assoc, (bind_buf_at head_buf h) by done. rewrite bind_assoc, !bind_modify.
  assert (E2 : ∀ k2, k_bufs k2 = k_bufs k1 → (h0 <- buf_at head_buf ;; modify (upd_buf (b_next h0) (set_b_prev i)) ;; modify (upd_buf head_buf (set_b_next i)))
    (upd_buf i (set_b_prev head_buf) (upd_buf i (set_b_next (b_next h)) k2)) = Ret tt (set_k_bufs (fronted i (k_bufs k1)) k2)).
  { intros k2 E. rewrite (bind_buf_at head_buf h); [|unfold upd_buf; cbn; by rewrite E, !list_lookup_alter_ne].
    rewrite bind_modify, (nxt_lookup _ _ _ Hh). unfold modify. f_equal. unfold fronted, upd_buf. cbn. by rewrite E. }
  rewrite (E2 k1 eq_refl). unfold k1. f_equal.
Qed.

Definition lru (i : nat) (o : list nat) : list nat := i :: filter (.≠ i) o.

Lemma filter_ne (l : list nat) i : i ∉ l → filter (.≠ i) l = l.
Proof.
  induction l as [|x l IH]; [done|]. intros [H1 H2]%not_elem_of_cons. rewrite filter_cons_True by done. by rewrite IH.
Qed.

Lemma filter_split (o1 o2 : list nat) i : i ∉ o1 → i ∉ o2 → filter (.≠ i) (o1 ++ i :: o2) = o1 ++ o2.
Proof.
  intros H1 H2. rewrite list.filter_app, filter_cons_False by (intros H; by apply H). by rewrite !filter_ne.
Qed.

Lemma put_freed W F i b k : set_k_bufs F (quiet (set_k_procs W (put_buf i b k))) = set_k_procs W (set_k_bufs F (quiet k)).
Proof. by destruct k as [? ? []]. Qed.

(** Closed form of [brelse] for a buffer held once. *)
Lemma brelse_run k me pid o A i blk b pr : cache k me pid o A → cs_held A !! i = Some blk → k_bufs k !! i = Some b →
  current k me pr → p_pid pr = pid → nxt (k_bufs k) i ≠ i →
  let B := <[i := set_b_refcnt 0 (set_b_lock (mk_sleeplock false 0) b)]> (k_bufs k) in
  brelse i k = Ret tt (set_k_procs (wake (ChLock (SlBuf i)) <$> k_procs k) (set_k_bufs (fronted i (unlinked i B)) (quiet k))).
Proof.
  intros Hok Hh Hb Hc Hpid Hnx B.
  destruct (ca_held_buf _ _ _ _ _ Hok i blk Hh) as (Hi & b0 & Hb0 & Hl & Hr & _). rewrite Hb in Hb0. injection Hb0 as <-.
  assert (Hlen : (i < length (k_bufs k))%nat) by (rewrite (ca_len _ _ _ _ _ Hok); lia).
  unfold brelse. rewrite (bind_Ret_eq _ _ _ _ _ (holdingsleep_eq (SlBuf i) k (b_lock b) me pr (ca_idle _ _ _ _ _ Hok) Hc ltac:(cbn; by rewrite Hb))).
  rewrite Hl, Hpid. cbn [sl_locked sl_pid]. rewrite Z.eqb_refl. cbn [andb negb].
  rewrite (bind_Ret_eq _ _ _ _ _ (releasesleep_eq (SlBuf i) (quiet k) (quiet_idle k (ca_idle _ _ _ _ _ Hok)))). rewrite quiet_quiet.
  assert (E2 : sl_freed (SlBuf i) (quiet k) = set_k_procs (wake (ChLock (SlBuf i)) <$> k_procs k) (put_buf i (set_b_lock (mk_sleeplock false 0) b) k)).
  { unfold sl_freed, sl_put. by rewrite (upd_put_buf i b) by done. }
  rewrite E2. set (k2 := set_k_procs _ _). assert (Hk2 : idle k2) by exact (quiet_idle k (ca_idle _ _ _ _ _ Hok)).
  destruct (acquire_idle LkBcache k2 Hk2) as [Ea Hlk]. rewrite (bind_Ret_eq _ _ _ _ _ Ea), bind_modify.
  set (b1 := set_b_lock (mk_sleeplock false 0) b). set (k3 := upd_buf i _ _).
  assert (EB : k_bufs k3 = B).
  { change (k_bufs k3) with (alter (λ r, set_b_refcnt (u32 (b_refcnt r - 1)) r) i (<[i := b1]> (k_bufs k))).
    erewrite alter_const by (by rewrite list_lookup_insert_eq). rewrite list_insert_insert_eq. unfold b1. cbn [b_refcnt set_b_lock]. by rewrite Hr. }
  rewrite (bind_buf_at i (set_b_refcnt 0 b1)) by (rewrite EB; by apply list_lookup_insert_eq).
  cbn [b_refcnt set_b_refcnt]. change (0 =? 0) with true. cbn [when].
  rewrite (bind_Ret_eq _ _ _ _ _ (front_run k3 i (set_b_refcnt 0 b1) ltac:(rewrite EB; unfold B; by rewrite length_insert)
    ltac:(rewrite EB; unfold B; by rewrite length_insert, (ca_len _ _ _ _ _ Hok)) ltac:(unfold head_buf; lia)
    ltac:(rewrite EB; unfold B; by rewrite (nxt_insert _ _ b)) ltac:(rewrite EB; by apply list_lookup_insert_eq))).
  rewrite EB. set (F := fronted i (unlinked i B)).
  change (set_k_bufs F k3) with (set_k_bufs F (acquired LkBcache k2)).
  rewrite (proj1 (release_locked LkBcache (set_k_bufs F (acquired LkBcache k2)) Hlk)).
  rewrite (section_eq LkBcache k2 (set_k_bufs F) Hk2); [|done]. unfold k2. by rewrite put_freed.
Qed.

Lemma buf_good_relinked sz pid A i b b' : relinked b b' → buf_good sz pid A i b → buf_good sz pid A i b'.
Proof. intros -> [H1 H2 H3 H4]. split; cbn; done. Qed.
Lemma has_block_relinked b b' blk : relinked b b' → has_block blk b' = has_block blk b.
Proof. by intros ->. Qed.

(** Only the links and the order changed. *)
Lemma cache_relink k k' me pid o o' A : cache k me pid o A → Forall2 relinked (k_bufs k) (k_bufs k') → o' ≡ₚ o →
  dll (nxt (k_bufs k')) (prv (k_bufs k')) head_buf o' →
  idle k' → current_pid k' me pid → io_disksize (k_io k') = io_disksize (k_io k) → (∀ blk, k_disk k' blk = k_disk k blk) →
  cache k' me pid o' A.
Proof.
  intros [_ _ Hlen Hperm _ Huq Hgd Hrg Hd Hcl Hdi] Hrel Ho Hdll Hidle Hcur Esz Edisk. split; try done.
  - rewrite <- (Forall2_length Hrel). done.
  - by rewrite Ho.
  - intros i j bi bj blk Hi Hj Ei Ej Hbi Hbj.
    destruct (Forall2_lookup_r _ _ _ _ _ Hrel Ei) as (ci & Fi & Ri), (Forall2_lookup_r _ _ _ _ _ Hrel Ej) as (cj & Fj & Rj).
    rewrite (has_block_relinked _ _ _ Ri) in Hbi. rewrite (has_block_relinked _ _ _ Rj) in Hbj. by apply (Huq i j ci cj blk).
  - intros i b' Hi Ei. destruct (Forall2_lookup_r _ _ _ _ _ Hrel Ei) as (b & Fi & Ri). rewrite Esz.
    eapply buf_good_relinked; [done|]. by apply Hgd.
  - intros blk. by rewrite Edisk.
  - intros blk Hin. destruct (Hdi blk Hin) as (j & b & Hj & Ej & Hb). destruct (Forall2_lookup_l _ _ _ _ _ Hrel Ej) as (b' & Ej' & Rj).
    exists j, b'. by rewrite (has_block_relinked _ _ _ Rj).
Qed.

Section brelse.
Variables (k : kernel) (me : nat) (pid : Z) (o : list nat) (A : cstate).
Hypothesis Hok : cache k me pid o A.

(** Giving a buffer back without its links. *)
Lemma cache_drop i blk b (k1 : kernel) : cs_held A !! i = Some blk → blk ∈ cs_dirty A ∨ cs_view A blk = cs_disk A blk →
  k_bufs k !! i = Some b →
  k_bufs k1 = <[i := set_b_refcnt 0 (set_b_lock (mk_sleeplock false 0) b)]> (k_bufs k) →
  idle k1 → current_pid k1 me pid → io_disksize (k_io k1) = io_disksize (k_io k) → (∀ blk, k_disk k1 blk = k_disk k blk) →
  cache k1 me pid o (cs_drop i A).
Proof using Hok.
  intros Hh Hcl Hb EB Hidle Hcur Esz Ed. destruct (ca_held_buf _ _ _ _ _ Hok i blk Hh) as (Hi & b0 & Hb0 & _ & _ & Hdv & Hn & _).
  rewrite Hb in Hb0. injection Hb0 as <-.
  assert (Hone : ∀ j, cs_held A !! j = Some blk → j = i).
  { intros j Hj. destruct (ca_held_buf _ _ _ _ _ Hok j blk Hj) as (Hjl & bj & Ej & _ & _ & Hdj & Hnj & _).
    apply (ca_uniq _ _ _ _ _ Hok j i bj b blk); try done; by apply has_block_spec. }
  eapply (cache_put k k1 me pid o A); try done.
  - intros x j bj [_ Hx]%has_block_spec Hj Hlt Ej. destruct (has_block x bj) eqn:E; [|done]. destruct Hj.
    apply (ca_uniq _ _ _ _ _ Hok j i bj b x); try done. by apply has_block_spec.
  - destruct (ca_good _ _ _ _ _ Hok i b Hi Hb) as [_ _ Hbl Hnd]. split; cbn; [|by rewrite lookup_delete_eq|done|done].
    rewrite decide_False; [done|]. rewrite lookup_delete_eq. by intros [? [=]].
  - intros j bj Hj Hlt Ej. apply buf_good_frame; [|done]. cbn. by rewrite lookup_delete_ne.
  - intros j [x Hx]. cbn in Hx. apply lookup_delete_Some in Hx as [_ Hx]. by eapply (ca_range _ _ _ _ _ Hok).
  - intros x. rewrite Ed. apply Hok.
  - intros x Hnd Hnh. cbn in *. destruct (decide (x = blk)) as [->|Hne]; [by destruct Hcl|].
    apply (ca_clean _ _ _ _ _ Hok x Hnd). intros j Ej. apply (Hnh j). rewrite lookup_delete_ne; [done|]. congruence.
  - intros x Hin. cbn in Hin. destruct (ca_dirty _ _ _ _ _ Hok x Hin) as (j & bj & Hj & Ej & Hbj).
    destruct (decide (j = i)) as [->|Hne]; [left|right; by exists j, bj]. rewrite Hb in Ej. simplify_eq. done.
Qed.

(** A released buffer is the most recently used. *)
Lemma brelse_ok i blk : cs_held A !! i = Some blk → blk ∈ cs_dirty A ∨ cs_view A blk = cs_disk A blk →
  ∃ k', brelse i k = Ret tt k' ∧ cache k' me pid (lru i o) (cs_drop i A) ∧ bio_frame k k' ∧ k_disk k' = k_disk k.
Proof using Hok.
  intros Hh Hcl. destruct (ca_held_buf _ _ _ _ _ Hok i blk Hh) as (Hi & b & Hb & _).
  destruct (ca_me _ _ _ _ _ Hok) as (pr & Hc & Hpid).
  assert (Hio : i ∈ o) by (by apply (ca_order _ _ _ _ _ Hok)). apply list_elem_of_split in Hio as (o1 & o2 & Eo).
  pose proof (ca_nodup _ _ _ _ _ Hok) as Hnd. pose proof (ca_order_lt _ _ _ _ _ Hok) as Hlt. pose proof (ca_ring _ _ _ _ _ Hok) as Hring.
  rewrite Eo in Hnd, Hlt, Hring.
  destruct (dll_unlinked (k_bufs k) o1 i o2 (ca_len _ _ _ _ _ Hok) Hnd Hlt Hring) as (_ & _ & _ & Hnx).
  pose proof (brelse_run k me pid o A i blk b pr Hok Hh Hb Hc Hpid Hnx) as Er.
  set (B := <[i := set_b_refcnt 0 (set_b_lock (mk_sleeplock false 0) b)]> (k_bufs k)) in Er. cbn zeta in Er.
  set (k' := set_k_procs _ _) in Er. exists k'. split; [exact Er|].
  set (k1 := set_k_procs (wake (ChLock (SlBuf i)) <$> k_procs k) (set_k_bufs B (quiet k))).
  assert (Hfr : ∀ X, bio_frame k (set_k_procs (wake (ChLock (SlBuf i)) <$> k_procs k) (set_k_bufs X (quiet k)))).
  { intros X. exists (k_cpu (quiet k)), (wake (ChLock (SlBuf i)) <$> k_procs k), X, (k_disk k), (k_power k).
    split; [clear; by destruct k|]. split; [apply woken_table|done]. }
  assert (Hcur : ∀ X, current_pid (set_k_procs (wake (ChLock (SlBuf i)) <$> k_procs k) (set_k_bufs X (quiet k))) me pid).
  { intros X. pose proof (current_woken k me pid (wake (ChLock (SlBuf i)) <$> k_procs k) (k_cpu k) X (k_disk k) (k_power k)
      (ca_me _ _ _ _ _ Hok) (woken_table _ _)) as H. exact H. }
  assert (H1 : cache k1 me pid o (cs_drop i A)).
  { eapply cache_drop; try done; [exact (quiet_idle k (ca_idle _ _ _ _ _ Hok))|apply Hcur]. }
  assert (HlenB : length B = S NBUF) by (unfold B; rewrite length_insert; apply (ca_len _ _ _ _ _ Hok)).
  assert (Hd1 : dll (nxt B) (prv B) head_buf (o1 ++ i :: o2)) by (rewrite <- Eo; apply (ca_ring _ _ _ _ _ H1)).
  destruct (dll_unlinked B o1 i o2 HlenB Hnd Hlt Hd1) as (Hd2 & Hn1 & Hp1 & _).
  pose proof Hnd as [Hh1 Hnd2]%list.NoDup_cons. pose proof Hnd2 as (Hnd3 & Hdis & [Hi2 Hnd4]%list.NoDup_cons)%list.NoDup_app.
  assert (Hi1 : i ∉ o1) by (intros H; apply (Hdis i H); set_solver).
  assert (Hnd' : NoDup (head_buf :: o1 ++ o2)).
  { apply list.NoDup_cons. split; [set_solver|]. apply list.NoDup_app. split; [done|]. split; [set_solver|done]. }
  assert (Hlt' : Forall (λ x, (x < NBUF)%nat) (o1 ++ o2)).
  { apply Forall_app in Hlt as [? [? ?]%Forall_cons_iff]. by apply Forall_app. }
  split; [|split; [apply Hfr|done]]. unfold lru. rewrite Eo, filter_split by done.
  apply (cache_relink k1 k' me pid o); [done|apply relinked_front| | |exact (quiet_idle k (ca_idle _ _ _ _ _ Hok))|apply Hcur|done|done].
  - rewrite Eo. apply Permutation_middle.
  - apply dll_fronted; [|done| |done|done|done].
    + unfold unlinked. by rewrite !length_alter.
    + unfold head_buf. intros [?|?]%elem_of_cons; [lia|set_solver].
Qed.
End brelse.

(** ** [binit] *)
Definition cs_boot (d : Z → list Z) : cstate := mk_cstate ∅ d ∅ d.

Definition boot_bufs : list buf :=
  imap (λ i b, set_b_prev (if decide (i = head_buf) then 0%nat else S i)
    (set_b_next (if decide (i = 0%nat) then head_buf else pred i) b)) (replicate (S NBUF) buf0).

Lemma binit_run k : k_bufs k = replicate (S NBUF) buf0 → binit k = Ret tt (set_k_bufs boot_bufs k).
Proof. intros E. destruct k. cbn in E. subst. vm_compute. reflexivity. Qed.

Lemma boot_bufs_relinked i b : boot_bufs !! i = Some b → relinked buf0 b.
Proof.
  unfold boot_bufs. rewrite list_lookup_imap. intros (c & [-> _]%lookup_replicate & ->)%fmap_Some. done.
Qed.

Lemma boot_bufs_ring : dll (nxt boot_bufs) (prv boot_bufs) head_buf (rev (seq 0 NBUF)).
Proof.
  assert (H : forallb (λ e, Nat.eqb (nxt boot_bufs e.1) e.2 && Nat.eqb (prv boot_bufs e.2) e.1)
    (edges (head_buf :: rev (seq 0 NBUF) ++ [head_buf])) = true) by (vm_compute; reflexivity).
  intros x y Hxy. rewrite forallb_forall in H. specialize (H (x, y) (proj1 (list_elem_of_In _ _) Hxy)). apply andb_prop in H as [?%Nat.eqb_eq ?%Nat.eqb_eq]. done.
Qed.

Lemma binit_ok k me pid : idle k → current_pid k me pid → k_bufs k = replicate (S NBUF) buf0 →
  ∃ k', binit k = Ret tt k' ∧ cache k' me pid (rev (seq 0 NBUF)) (cs_boot (k_disk k)) ∧ bio_frame k k' ∧ k_disk k' = k_disk k.
Proof.
  intros Hi Hc E. eexists. split; [exact (binit_run k E)|].
  assert (Hno : ∀ i b blk, boot_bufs !! i = Some b → has_block blk b = false)
    by (intros i b blk Eb; rewrite (has_block_relinked _ _ _ (boot_bufs_relinked i b Eb)); done).
  split; [split|split; [|done]].
  - exact Hi.
  - exact Hc.
  - reflexivity.
  - symmetry. apply Permutation_rev.
  - exact boot_bufs_ring.
  - intros i j bi bj blk _ _ Ei _ Hbi _. by rewrite (Hno i bi blk Ei) in Hbi.
  - intros i b Hil Ei. eapply buf_good_relinked; [exact (boot_bufs_relinked i b Ei)|]. split; [|by intros ?|done|done].
    cbn. rewrite decide_False; [done|]. rewrite lookup_empty. by intros [? [=]].
  - intros i [x Hx]. done.
  - done.
  - done.
  - set_solver.
  - exists (k_cpu k), (k_procs k), boot_bufs, (k_disk k), (k_power k). split; [clear; by destruct k|done].
Qed.

(** ** The operations of the cache's user refine the abstract state *)
Inductive bop : Type :=
  | BRead (blk : Z) | BEdit (i : nat) (d : list Z) | BWrite (i : nat) | BRelse (i : nat).

Definition bop_run (op : bop) : KM (option (nat * list Z)) :=
  match op with
  | BRead blk => i <- bread 1 blk ;; d <- bdata i ;; mret (Some (i, d))
  | BEdit i d => bdata_set i d ;; mret None
  | BWrite i => bwrite i ;; mret None
  | BRelse i => brelse i ;; mret None
  end.

Definition bop_pre (size : Z) (A : cstate) (op : bop) : Prop :=
  match op with
  | BRead blk => 0 <= blk < size ∧ (∀ i, cs_held A !! i ≠ Some blk) ∧
      (blk ∈ cs_dirty A ∨ (base.size (cs_busy A) < NBUF)%nat)
  | BEdit i _ | BWrite i => is_Some (cs_held A !! i)
  | BRelse i => ∃ blk, cs_held A !! i = Some blk ∧ (blk ∈ cs_dirty A ∨ cs_view A blk = cs_disk A blk)
  end.

Inductive bop_step : list nat * cstate → bop → option (nat * list Z) → list nat * cstate → Prop :=
  | step_read o A blk i : cs_held A !! i = None →
      bop_step (o, A) (BRead blk) (Some (i, cs_view A blk)) (o, cs_take i blk A)
  | step_edit o A i blk d : cs_held A !! i = Some blk → bop_step (o, A) (BEdit i d) None (o, cs_edit blk d A)
  | step_write o A i blk : cs_held A !! i = Some blk → bop_step (o, A) (BWrite i) None (o, cs_flush blk A)
  | step_relse o A i blk : cs_held A !! i = Some blk → bop_step (o, A) (BRelse i) None (lru i o, cs_drop i A).

Lemma bop_refines k me pid o A op : cache k me pid o A → bop_pre (io_disksize (k_io k)) A op →
  wp False (bop_run op) (λ r k', ∃ o' A', bop_step (o, A) op r (o', A') ∧ cache k' me pid o' A' ∧ bio_frame k k')
    (λ c k', (∃ i, op = BWrite i) ∧ c = LPowerOff ∧ k_power k ≠ None ∧ k_disk k' = k_disk k) k.
Proof.
  intros Hok Hpre. destruct op as [blk|i d|i|i]; cbn [bop_pre bop_run] in *.
  - destruct Hpre as (Hr & Hnh & Hroom). destruct (bread_ok k me pid o A Hok blk Hr Hnh Hroom) as (i & b & Hi & E & Hd & Hok').
    eapply wp_of_Ret.
    { rewrite (bind_Ret_eq _ _ _ _ _ E). rewrite (bind_Ret_eq _ _ _ _ _ (bdata_ok _ me pid o _ Hok' i blk (lookup_insert_eq _ _ _))). done. }
    exists o, (cs_take i blk A). split; [by apply (step_read o A)|]. split; [done|apply quiet_frame].
  - destruct Hpre as [blk Hb]. destruct (bdata_set_ok k me pid o A Hok i blk d Hb) as (k' & E & Hok' & Hf & _).
    eapply wp_of_Ret; [by rewrite (bind_Ret_eq _ _ _ _ _ E)|]. exists o, (cs_edit blk d A). split; [by constructor|done].
  - destruct Hpre as [blk Hb]. apply wp_bind. eapply wp_mono; [exact (bwrite_ok k me pid o A Hok i blk Hb)|..]; cbn beta.
    + intros _ k' [Hok' Hf]. apply wp_ret. exists o, (cs_flush blk A). split; [by constructor|done].
    + intros c k' H. split; [by exists i|exact H].
  - destruct Hpre as (blk & Hb & Hcl). destruct (brelse_ok k me pid o A Hok i blk Hb Hcl) as (k' & E & Hok' & Hf & _).
    eapply wp_of_Ret; [by rewrite (bind_Ret_eq _ _ _ _ _ E)|]. exists (lru i o), (cs_drop i A). split; [by econstructor|done].
Qed.

(** C5: the buffer cache is coherent. From any state satisfying the invariant,
    [bread], edits, [bwrite] and [brelse] neither panic nor leave the ring,
    return and store the abstract contents of the blocks, move a released
    buffer to the front of the ring, and keep the invariant; a write reaches
    the disk whole or, at a power failure, not at all. *)
Theorem bcache_refines k me pid o A op : cache k me pid o A → bop_pre (io_disksize (k_io k)) A op →
  (∃ r k' o' A', bop_run op k = Ret r k' ∧ bop_step (o, A) op r (o', A') ∧ cache k' me pid o' A' ∧ bio_frame k k') ∨
  (∃ i k', op = BWrite i ∧ k_power k ≠ None ∧ bop_run op k = Switch LPowerOff k' ∧ k_disk k' = k_disk k).
Proof.
  intros Hok Hpre. destruct (wp_False_inv _ _ _ _ (bop_refines k me pid o A op Hok Hpre)) as [(r & k' & E & o' & A' & H)|(c & k' & E & (i & ->) & -> & Hp & Hd)].
  - left. exists r, k', o', A'. done.
  - right. exists i, k'. done.
Qed.

(** ** Witness: the first read after boot *)
Definition boot_kernel : kernel := set_k_cur (Some 0%nat) kernel0.

Lemma boot_idle : idle boot_kernel.
Proof. split; [|done]. split; [done|]. split; [by intros []|apply NoDup_nil_2]. Qed.

Lemma boot_cache k me pid : idle k → current_pid k me pid → k_bufs k = replicate (S NBUF) buf0 →
  cache (set_k_bufs boot_bufs k) me pid (rev (seq 0 NBUF)) (cs_boot (k_disk k)).
Proof.
  intros Hi Hc E. destruct (binit_ok k me pid Hi Hc E) as (k' & Er & H & _). rewrite binit_run in Er by done. by injection Er as <-.
Qed.

Lemma bcache_refines_witness :
  let k := set_k_bufs boot_bufs boot_kernel in let A := cs_boot (k_disk boot_kernel) in
  bop_pre (io_disksize (k_io k)) A (BRead 5) ∧
  ((∃ r k' o' A', bop_run (BRead 5) k = Ret r k' ∧ bop_step (rev (seq 0 NBUF), A) (BRead 5) r (o', A') ∧ cache k' 0 0 o' A' ∧ bio_frame k k') ∨
   (∃ i k', BRead 5 = BWrite i ∧ k_power k ≠ None ∧ bop_run (BRead 5) k = Switch LPowerOff k' ∧ k_disk k' = k_disk k)).
Proof.
  intros k A. assert (Hpre : bop_pre (io_disksize (k_io k)) A (BRead 5)).
  { split; [split; [done|reflexivity]|]. split; [by intros i|]. right. vm_compute. lia. }
  split; [exact Hpre|]. apply bcache_refines; [|exact Hpre].
  apply boot_cache; [exact boot_idle|by exists proc0|done].
Defined.
