(* ===== verification/Log.v ===== *)
(** * Log: transactions (log.c)

    A physical redo log: [log_write] pins a modified buffer, [commit] copies
    the pinned blocks to the log area, writes the header, installs the blocks
    and clears the header. [recover_from_log] is what runs at boot. *)

From S2P Require Import Prelude CString Kernel Sched Kalloc Fifo Paging Vmem Sleeplock Bio.

(** ** Definitions *)

(** [readsb]: the superblock as stored in block 1. *)
Definition superblock_of (d : list Z) : superblock :=
  mk_superblock (get32 0 d) (get32 4 d) (get32 8 d) (get32 12 d) (get32 16 d) (get32 20 d) (get32 24 d).
Definition readsb (dev : Z) : KM superblock :=
  bp <- bread dev 1 ;;
  d <- bdata bp ;;
  brelse bp ;;
  mret (superblock_of d).

Definition log_get : KM log_t := gets k_log.
(** [log.lh.block[i]] *)
Definition lh_block (i : nat) : KM Z :=
  l <- log_get ;;
  deref "log.lh.block" (lg_block l !! i).
Definition lh_block_set (i : nat) (v : Z) : KM unit :=
  l <- log_get ;;
  if (i <? length (lg_block l))%nat then modify (upd_log (set_lg_block (<[i := v]> (lg_block l))))
  else fault "log.lh.block".

Definition copy_block (from to : nat) : KM unit :=
  d <- bdata from ;;
  bdata_set to d.

Definition install_trans : KM unit :=
  l <- log_get ;;
  mfor (seq 0 (Z.to_nat (lg_n l))) (λ tail,
    lbuf <- bread (lg_dev l) (u32 (lg_start l + Z.of_nat tail + 1)) ;;
    blk <- lh_block tail ;;
    dbuf <- bread (lg_dev l) blk ;;
    copy_block lbuf dbuf ;;
    bwrite dbuf ;;
    brelse lbuf ;;
    brelse dbuf).

Definition read_head : KM unit :=
  l <- log_get ;;
  buf <- bread (lg_dev l) (lg_start l) ;;
  d <- bdata buf ;;
  modify (upd_log (set_lg_n (s32 (get32 0 d)))) ;;
  mfor (seq 0 (Z.to_nat (s32 (get32 0 d)))) (λ i,
    lh_block_set i (s32 (get32 (4 + 4 * i) d))) ;;
  brelse buf.

Definition write_head : KM unit :=
  l <- log_get ;;
  buf <- bread (lg_dev l) (lg_start l) ;;
  d <- bdata buf ;;
  bdata_set buf (put32 0 (lg_n l) d) ;;
  mfor (seq 0 (Z.to_nat (lg_n l))) (λ i,
    blk <- lh_block i ;;
    d <- bdata buf ;;
    bdata_set buf (put32 (4 + 4 * i) blk d)) ;;
  bwrite buf ;;
  brelse buf.

Definition recover_from_log : KM unit :=
  read_head ;;
  install_trans ;;
  modify (upd_log (set_lg_n 0)) ;;
  write_head.

Definition initlog (dev : Z) : KM unit :=
  sb <- readsb dev ;;
  modify (upd_log (set_lg_start (sb_logstart sb))) ;;
  modify (upd_log (set_lg_size (sb_nlog sb))) ;;
  modify (upd_log (set_lg_dev dev)) ;;
  recover_from_log.

(** One pass of [begin_op]'s loop, with [log.lock] held. *)
Definition begin_op_try : KM unit :=
  l <- log_get ;;
  if negb (lg_committing l =? 0) then sleep ChLog (Some LkLog) (LSleep ChLog)
  else if LOGSIZE <? lg_n l + (lg_outstanding l + 1) * MAXOPBLOCKS then
    sleep ChLog (Some LkLog) (LSleep ChLog)
  else
    modify (upd_log (set_lg_outstanding (lg_outstanding l + 1))) ;;
    release LkLog.
Definition begin_op : KM unit :=
  acquire LkLog ;;
  begin_op_try.
Definition begin_op_woken (p : nat) (intena : bool) : KM unit :=
  sleep_leave p LkLog intena ;;
  begin_op_try.

Definition write_log : KM unit :=
  l <- log_get ;;
  mfor (seq 0 (Z.to_nat (lg_n l))) (λ tail,
    to <- bread (lg_dev l) (u32 (lg_start l + Z.of_nat tail + 1)) ;;
    blk <- lh_block tail ;;
    from <- bread (lg_dev l) blk ;;
    copy_block from to ;;
    bwrite to ;;
    brelse from ;;
    brelse to).

Definition commit : KM unit :=
  l <- log_get ;;
  when (0 <? lg_n l)
    (write_log ;;
     write_head ;;
     install_trans ;;
     modify (upd_log (set_lg_n 0)) ;;
     write_head).

Definition end_op : KM unit :=
  acquire LkLog ;;
  modify (upd_log (λ l, set_lg_outstanding (lg_outstanding l - 1) l)) ;;
  l <- log_get ;;
  if negb (lg_committing l =? 0) then panic "log.committing" else
  let do_commit := lg_outstanding l =? 0 in
  (if do_commit then modify (upd_log (set_lg_committing 1)) else wakeup ChLog) ;;
  release LkLog ;;
  when do_commit
    (commit ;;
     acquire LkLog ;;
     modify (upd_log (set_lg_committing 0)) ;;
     wakeup ChLog ;;
     release LkLog).

Definition log_write (b : nat) : KM unit :=
  l <- log_get ;;
  if (LOGSIZE <=? lg_n l) || (lg_size l - 1 <=? lg_n l) then panic "too big a transaction" else
  if lg_outstanding l <? 1 then panic "log_write outside of trans" else
  acquire LkLog ;;
  r <- buf_at b ;;
  let n := Z.to_nat (lg_n l) in
  let i := default n (find_idx (λ blk, u32 blk =? b_blockno r) (take n (lg_block l))) in
  lh_block_set i (s32 (b_blockno r)) ;;
  when (Z.of_nat i =? lg_n l) (modify (upd_log (set_lg_n (lg_n l + 1)))) ;;
  modify (upd_buf b (λ r, set_b_flags (Z.lor (b_flags r) B_DIRTY) r)) ;;
  release LkLog.
