(* ===== verification/LogSpec.v ===== *)
(** * LogSpec: transactions are atomic with respect to power failures

    [recovered start d] is the disk that [recover_from_log] makes of [d]: the
    blocks listed in the header at [start] are copied from the log to their
    places. A commit interrupted at any block write leaves a disk whose
    recovery is, outside the log, either the one before the transaction or
    the one after it; a recovery interrupted at any block write can be
    repeated. The proofs run on the abstract state of BioSpec. *)

From S2P Require Import Prelude Dll CString Kernel Sched Sock Kalloc Fifo Paging Vmem Sleeplock LockSpec Bio BioSpec Log.

(** ** Definitions *)

(** The header in a block: [n] and [block[0..n)]. *)
Definition head_n (b : list Z) : Z := s32 (get32 0 b).
Definition head_blocks (b : list Z) : list Z :=
  (λ i, s32 (get32 (4 + 4 * i) b)) <$> seq 0 (Z.to_nat (head_n b)).

(** Copying log block [start + tail + 1] to the home of each block in turn. *)
Fixpoint install (start tail : Z) (bl : list Z) (d : Z → list Z) : Z → list Z :=
  match bl with
  | [] => d
  | b :: bl => install start (tail + 1) bl (fset d b (d (start + tail + 1)))
  end.
Definition recovered (start : Z) (d : Z → list Z) : Z → list Z := install start 0 (head_blocks (d start)) d.

(** Two disks that agree outside the log's [size] blocks. *)
Definition same_data (start size : Z) (d d' : Z → list Z) : Prop :=
  ∀ x, ¬ (start <= x < start + size) → d x = d' x.

(** The geometry of the log and of the blocks of a transaction. *)
Record log_geom (disksize start size : Z) (bl : list Z) : Prop := mk_log_geom {
  lg_range : 0 <= start ∧ start + size <= disksize < 2 ^ 31;
  lg_fits : Z.of_nat (length bl) < size;
  lg_max : (length bl < NBUF)%nat;
  lg_homes : ∀ b, b ∈ bl → 0 <= b < disksize ∧ ¬ (start <= b < start + size);
}.

(** The header on a disk describes a log. *)
Record log_disk_ok (disksize start size : Z) (d : Z → list Z) : Prop := mk_log_disk_ok {
  ld_geom : log_geom disksize start size (head_blocks (d start));
  ld_n : 0 <= head_n (d start);
  ld_len : length (d start) = 512%nat;
}.

(** The in-memory log describes the transaction [bl]. *)
Record log_is (l : log_t) (start : Z) (bl : list Z) : Prop := mk_log_is {
  li_start : lg_start l = start;
  li_dev : lg_dev l = 1;
  li_n : lg_n l = Z.of_nat (length bl);
  li_len : length (lg_block l) = 30%nat;
  li_blocks : take (length bl) (lg_block l) = bl;
}.

(** ** The abstract disk *)
Lemma install_skip start bl : ∀ tail d x, x ∉ bl → install start tail bl d x = d x.
Proof.
  induction bl as [|b bl IH]; intros tail d x Hx; [done|]. cbn. rewrite IH by set_solver. apply fset_ne. set_solver.
Qed.

Lemma install_snoc start bl b : ∀ tail d, install start tail (bl ++ [b]) d =
  let d' := install start tail bl d in fset d' b (d' (start + (tail + Z.of_nat (length bl)) + 1)).
Proof.
  induction bl as [|c bl IH]; intros tail d; cbn [app install length].
  - by rewrite Z.add_0_r.
  - rewrite IH. cbn zeta. do 3 f_equal. lia.
Qed.

Lemma install_ext start bl : ∀ tail d d', (∀ x, d x = d' x) → ∀ x, install start tail bl d x = install start tail bl d' x.
Proof.
  induction bl as [|b bl IH]; intros tail d d' H x; [by apply H|]. cbn. apply IH. intros y. unfold fset. by rewrite !H.
Qed.

(** Installing does not depend on what it overwrites. *)
Lemma install_indep start bl : ∀ tail d d', 0 <= tail → (∀ b, b ∈ bl → ¬ (start <= b <= start + tail + Z.of_nat (length bl))) →
  (∀ x, x ∉ bl → d x = d' x) → ∀ x, install start tail bl d x = install start tail bl d' x.
Proof.
  induction bl as [|b bl IH]; intros tail d d' Ht Hb H x; [apply H; set_solver|]. cbn [install].
  apply IH; [lia|..].
  - intros c Hc. specialize (Hb c ltac:(set_solver)). cbn in Hb. lia.
  - intros y Hy. unfold fset. destruct (Z.eqb_spec y b) as [->|Hn]; [|apply H; set_solver].
    apply H. intros Hin. specialize (Hb _ Hin). cbn in Hb. lia.
Qed.

(** Installing from a log that holds the contents [v]. *)
Lemma install_new start bl v : ∀ tail d, 0 <= tail →
  (∀ b, b ∈ bl → ¬ (start <= b <= start + tail + Z.of_nat (length bl))) →
  (∀ i b, bl !! i = Some b → d (start + tail + Z.of_nat i + 1) = v b) →
  ∀ x, install start tail bl d x = if decide (x ∈ bl) then v x else d x.
Proof.
  induction bl as [|b bl IH]; intros tail d Ht Hb Hv x; [done|]. cbn [install].
  rewrite IH; [|lia|..].
  - pose proof (Hv 0%nat b eq_refl) as H0. rewrite Z.add_0_r in H0. rewrite H0.
    destruct (decide (x ∈ bl)) as [H|H]; [by rewrite decide_True by set_solver|].
    unfold fset. destruct (Z.eqb_spec x b) as [->|Hn]; [by rewrite decide_True by set_solver|].
    by rewrite decide_False by set_solver.
  - intros c Hc. specialize (Hb c ltac:(set_solver)). cbn in Hb. lia.
  - intros i c Hi. rewrite fset_ne.
    + rewrite <- (Hv (S i) c Hi). f_equal. lia.
    + specialize (Hb b ltac:(set_solver)). apply lookup_lt_Some in Hi. cbn in Hb. lia.
Qed.

(** ** The header block *)
Definition head_put (bl : list Z) (b : list Z) : list Z :=
  foldl (λ d e, put32 (4 + 4 * e.1) e.2 d) (put32 0 (Z.of_nat (length bl)) b) (imap pair bl).

Lemma length_put32 off v l : (off + 4 <= length l)%nat → length (put32 off v l) = length l.
Proof. intros H. unfold put32. apply length_splice. by rewrite length_le_bytes. Qed.

Lemma get32_put32_ne off off' v l : (off + 4 <= length l)%nat → (off' + 4 <= off ∨ off + 4 <= off')%nat →
  get32 off' (put32 off v l) = get32 off' l.
Proof. intros H H'. unfold get32, put32. apply get_put_other; by rewrite length_le_bytes. Qed.

Lemma head_fold n bl : ∀ d, (length bl + n <= 127)%nat → length d = 512%nat →
  let d' := foldl (λ d e, put32 (4 + 4 * e.1) e.2 d) d (imap (λ i b, (n + i, b)%nat) bl) in
  length d' = 512%nat ∧ (∀ off, (off + 4 <= 4 + 4 * n)%nat → get32 off d' = get32 off d) ∧
  (∀ i b, bl !! i = Some b → get32 (4 + 4 * (n + i)) d' = b mod 2 ^ 32).
Proof.
  revert n. induction bl as [|b bl IH]; intros n d Hn Hd; cbn [imap foldl length] in *; [done|].
  assert (Hoff : (4 + 4 * (n + 0) + 4 <= length d)%nat) by lia.
  pose proof (length_put32 _ b d Hoff) as Hl. rewrite Hd in Hl.
  assert (E : imap ((λ i b, ((n + i)%nat, b)) ∘ S) bl = imap (λ i b, ((S n + i)%nat, b)) bl).
  { apply imap_ext. intros i x _. cbn. f_equal. lia. }
  rewrite E. destruct (IH (S n) (put32 (4 + 4 * (n + 0)) b d) ltac:(lia) Hl) as (H1 & H2 & H3). cbn [fst snd] in *.
  split; [done|]. split.
  - intros off Ho. rewrite H2 by lia. apply get32_put32_ne; lia.
  - intros [|i] c Hi; cbn in Hi.
    + injection Hi as <-. rewrite H2 by lia. by apply get32_put32.
    + rewrite <- (H3 i c Hi). f_equal. lia.
Qed.

Lemma head_put_spec bl b : (length bl <= 30)%nat → length b = 512%nat → Forall (λ x, 0 <= x < 2 ^ 31) bl →
  length (head_put bl b) = 512%nat ∧ head_n (head_put bl b) = Z.of_nat (length bl) ∧ head_blocks (head_put bl b) = bl.
Proof.
  intros Hn Hb Hbl. unfold head_put.
  destruct (head_fold 0 bl (put32 0 (Z.of_nat (length bl)) b) ltac:(lia)) as (H1 & H2 & H3).
  { by rewrite length_put32 by lia. }
  set (d' := foldl _ _ _) in *. assert (En : head_n d' = Z.of_nat (length bl)).
  { unfold head_n. rewrite H2 by lia. rewrite get32_put32 by lia.
    rewrite Z.mod_small by (change (2 ^ 32) with 4294967296; lia). apply s32_small. change (2 ^ 31) with 2147483648. lia. }
  split; [done|]. split; [done|]. unfold head_blocks. rewrite En, Nat2Z.id.
  apply list_eq. intros i. rewrite list_lookup_fmap. destruct (bl !! i) as [x|] eqn:E.
  - pose proof (lookup_lt_Some _ _ _ E) as Hi. rewrite lookup_seq_lt by done. cbn [fmap option_fmap option_map]. f_equal.
    rewrite (H3 i x E). rewrite list.Forall_forall in Hbl. specialize (Hbl x (list_elem_of_lookup_2 _ _ _ E)).
    change (2 ^ 32) with 4294967296. change (2 ^ 31) with 2147483648 in Hbl. rewrite Z.mod_small by lia. apply s32_small. lia.
  - apply lookup_ge_None in E. by rewrite lookup_seq_ge.
Qed.

(** ** Rules for the cache's operations *)
Lemma frame_log k k' : bio_frame k k' → k_log k' = k_log k ∧ k_io k' = k_io k ∧ (k_power k' = None ↔ k_power k = None).
Proof. by intros (c & P & B & d & w & -> & _ & Hw & _). Qed.

Section rules.
Variables (me : nat) (pid : Z) (k0 : kernel).

(** The abstract state reached from [k0]. *)
Definition cache_at (k : kernel) (A : cstate) : Prop := bio_frame k0 k ∧ ∃ o, cache k me pid o A.

(** A power failure leaves one of the disks [P]. *)
Definition crash (P : (Z → list Z) → Prop) (c : leave) (k : kernel) : Prop :=
  c = LPowerOff ∧ k_power k0 ≠ None ∧ P (k_disk k).

Lemma wp_bread k A blk Q R : cache_at k A → 0 <= blk < io_disksize (k_io k0) → (∀ i, cs_held A !! i ≠ Some blk) →
  blk ∈ cs_dirty A ∨ (size (cs_busy A) < NBUF)%nat →
  (∀ i k', cs_held A !! i = None → cache_at k' (cs_take i blk A) → Q i k') → wp False (bread 1 blk) Q R k.
Proof using.
  intros [Hf [o Hok]] Hr Hnh Hroom HQ. destruct (frame_log _ _ Hf) as (_ & Hio & _). rewrite <- Hio in Hr.
  destruct (bread_ok k me pid o A Hok blk Hr Hnh Hroom) as (i & b & Hi & E & _ & Hok'). eapply wp_of_Ret; [exact E|].
  apply HQ; [done|]. split; [|by exists o]. etrans; [exact Hf|apply quiet_frame].
Qed.

Lemma wp_bdata k A i blk Q R : cache_at k A → cs_held A !! i = Some blk → Q (cs_view A blk) k → wp False (bdata i) Q R k.
Proof using. intros [Hf [o Hok]] Hh HQ. eapply wp_of_Ret; [by apply (bdata_ok k me pid o A Hok)|done]. Qed.

Lemma wp_bdata_set k A i blk d Q R : cache_at k A → cs_held A !! i = Some blk →
  (∀ k', cache_at k' (cs_edit blk d A) → Q tt k') → wp False (bdata_set i d) Q R k.
Proof using.
  intros [Hf [o Hok]] Hh HQ. destruct (bdata_set_ok k me pid o A Hok i blk d Hh) as (k' & E & Hok' & Hf' & _).
  eapply wp_of_Ret; [exact E|]. apply HQ. split; [by etrans|by exists o].
Qed.

Lemma wp_bwrite (P : (Z → list Z) → Prop) k A i blk Q : cache_at k A → cs_held A !! i = Some blk →
  (∀ d, (∀ x, d x = cs_disk A x) → P d) →
  (∀ k', cache_at k' (cs_flush blk A) → Q tt k') → wp False (bwrite i) Q (crash P) k.
Proof using.
  intros [Hf [o Hok]] Hh HP HQ. eapply wp_mono; [exact (bwrite_ok k me pid o A Hok i blk Hh)|..]; cbn beta.
  - intros [] k' [Hok' Hf']. apply HQ. split; [by etrans|by exists o].
  - intros c k' (-> & Hp & Hd). split; [done|]. destruct (frame_log _ _ Hf) as (_ & _ & Hw). split; [by rewrite <- Hw|].
    apply HP. intros x. rewrite Hd. apply Hok.
Qed.

Lemma wp_brelse k A i blk Q R : cache_at k A → cs_held A !! i = Some blk → blk ∈ cs_dirty A ∨ cs_view A blk = cs_disk A blk →
  (∀ k', cache_at k' (cs_drop i A) → Q tt k') → wp False (brelse i) Q R k.
Proof using.
  intros [Hf [o Hok]] Hh Hc HQ. destruct (brelse_ok k me pid o A Hok i blk Hh Hc) as (k' & E & Hok' & Hf' & _).
  eapply wp_of_Ret; [exact E|]. apply HQ. split; [by etrans|by eexists].
Qed.

Lemma wp_copy_block k A i j src dst Q R : cache_at k A → cs_held A !! i = Some src → cs_held A !! j = Some dst →
  (∀ k', cache_at k' (cs_edit dst (cs_view A src) A) → Q tt k') → wp False (copy_block i j) Q R k.
Proof using.
  intros H Hi Hj HQ. unfold copy_block. apply wp_bind. eapply wp_bdata; [exact H|exact Hi|]. by eapply wp_bdata_set.
Qed.

Lemma cache_at_clean k A x : cache_at k A → cs_held A = ∅ → x ∉ cs_dirty A → cs_view A x = cs_disk A x.
Proof using. intros [_ [o Hok]] He Hx. apply (ca_clean _ _ _ _ _ Hok x Hx). intros i. by rewrite He. Qed.

Lemma cache_at_log k A : cache_at k A → k_log k = k_log k0.
Proof using. intros [Hf _]. by apply frame_log. Qed.

(** The disk of the abstract state. *)
Lemma cache_at_disk k A x : cache_at k A → k_disk k x = cs_disk A x.
Proof using. intros [_ [o Hok]]. apply Hok. Qed.
End rules.

(** Loops over indices with an invariant. *)
Lemma wp_mfor_seq {S C} E (body : nat → M S C unit) (I : nat → S → Prop) R n : ∀ a s,
  I a s → (∀ i s, (a <= i < a + n)%nat → I i s → wp E (body i) (λ _, I (Datatypes.S i)) R s) →
  wp E (mfor (seq a n) body) (λ _, I (a + n)%nat) R s.
Proof.
  induction n as [|n IH]; intros a s HI Hb; cbn [seq mfor].
  - apply wp_ret. by rewrite Nat.add_0_r.
  - apply wp_bind. eapply wp_mono; [apply Hb; [lia|done]| |done]. intros [] s' HI'.
    replace (a + Datatypes.S n)%nat with (Datatypes.S a + n)%nat by lia. apply IH; [done|]. intros i s2 Hi. apply Hb. lia.
Qed.

Lemma wp_lh_block E (k : kernel) start bl i b (Q : Z → kernel → Prop) (R : leave → kernel → Prop) :
  log_is (k_log k) start bl → bl !! i = Some b → Q b k → wp E (lh_block i) Q R k.
Proof.
  intros Hl Hi HQ. unfold lh_block, log_get. apply wp_bind, wp_gets. rewrite <- (li_blocks _ _ _ Hl) in Hi.
  apply lookup_take_Some in Hi as [Hi _]. rewrite Hi. by apply wp_ret.
Qed.

(** ** Copying one block to the log, or from the log home *)
Lemma delete_two (i j : nat) (a b : Z) : (<[i := a]> ∅ : gmap nat Z) !! j = None →
  delete i (delete j (<[j := b]> (<[i := a]> (∅ : gmap nat Z)))) = ∅ ∧ delete j (delete i (<[j := b]> (<[i := a]> (∅ : gmap nat Z)))) = ∅.
Proof.
  intros Hj. assert (Hn : i ≠ j) by (intros ->; by rewrite lookup_insert_eq in Hj). split.
  - by rewrite (delete_insert_id _ j), delete_insert_id.
  - by rewrite delete_insert_ne, (delete_insert_id _ i), delete_insert_id.
Qed.

Lemma size_two (D : gset Z) (i : nat) (lb : Z) : (base.size (D ∪ map_img (<[i := lb]> ∅ : gmap nat Z)) <= S (base.size D))%nat.
Proof.
  rewrite map_img_insert_notin by done. rewrite map_img_empty_L, union_empty_r_L, union_comm_L.
  rewrite size_union_alt, size_singleton. pose proof (subseteq_size (D ∖ {[lb]}) D ltac:(set_solver)). lia.
Qed.

Section move.
Variables (me : nat) (pid : Z) (k0 : kernel) (start size : Z) (bl : list Z).
Hypothesis Hlog : log_is (k_log k0) start bl.
Hypothesis Hgeom : log_geom (io_disksize (k_io k0)) start size bl.

(** No buffer is held; the rest of the abstract state, pointwise. *)
Definition at_rest (k : kernel) (D : gset Z) (v d : Z → list Z) : Prop :=
  ∃ A, cache_at me pid k0 k A ∧ cs_held A = ∅ ∧ cs_dirty A = D ∧ (∀ x, cs_view A x = v x) ∧ (∀ x, cs_disk A x = d x).

Lemma at_rest_disk k D v d x : at_rest k D v d → k_disk k x = d x.
Proof using. intros (A & HA & _ & _ & _ & <-). by eapply cache_at_disk. Qed.

Lemma at_rest_log k D v d : at_rest k D v d → k_log k = k_log k0.
Proof using. intros (A & HA & _). by eapply cache_at_log. Qed.

Lemma at_rest_ext k D v d v' d' : (∀ x, v x = v' x) → (∀ x, d x = d' x) → at_rest k D v d → at_rest k D v' d'.
Proof using.
  intros Hv Hd (A & HA & ? & ? & Hv0 & Hd0). exists A. split_and!; try done; intros x; by rewrite ?Hv0, ?Hd0.
Qed.

(** One pass of [write_log]. *)
Lemma wp_to_log (P : (Z → list Z) → Prop) k D v d tail blk (Q : unit → kernel → Prop) :
  at_rest k D v d → bl !! tail = Some blk → let lb := start + Z.of_nat tail + 1 in
  lb ∉ D → blk ∈ D → (base.size D < NBUF)%nat →
  (∀ d', (∀ x, d' x = d x) → P d') →
  (∀ k', at_rest k' D (fset v lb (v blk)) (fset d lb (v blk)) → Q tt k') →
  wp False (to <- bread 1 lb ;; b <- lh_block tail ;; from <- bread 1 b ;; copy_block from to ;; bwrite to ;; brelse from ;; brelse to)
    Q (crash k0 P) k.
Proof using Hlog Hgeom.
  intros (A & HA & Hh & HD & Hv & Hd) Htail lb Hlb Hblk Hsz HP HQ.
  pose proof (lg_range _ _ _ _ Hgeom) as Hrg. pose proof (lg_fits _ _ _ _ Hgeom) as Hfit. pose proof (lookup_lt_Some _ _ _ Htail) as Hlt.
  destruct (lg_homes _ _ _ _ Hgeom blk (list_elem_of_lookup_2 _ _ _ Htail)) as [Hb1 Hb2].
  assert (Hne : lb ≠ blk) by (unfold lb; lia).
  apply wp_bind. eapply (wp_bread me pid k0 k A lb); [done|unfold lb; lia|intros i; by rewrite Hh| |].
  { right. unfold cs_busy. rewrite Hh, HD, map_img_empty_L, union_empty_r_L. done. }
  intros to k1 _ H1. apply wp_bind. apply (wp_lh_block _ _ start bl _ blk); [by rewrite (cache_at_log _ _ _ _ _ H1)|done|].
  apply wp_bind. eapply (wp_bread me pid k0 k1 _ blk); [exact H1|done| |left; by rewrite <- HD in Hblk|].
  { intros i. cbn. rewrite Hh, lookup_insert_Some. by intros [[_ ?]|[_ ?]]. }
  intros from k2 Hfrom H2. cbn in Hfrom. rewrite Hh in Hfrom. assert (Hft : from ≠ to) by (intros ->; by rewrite lookup_insert_eq in Hfrom).
  apply wp_bind. eapply (wp_copy_block me pid k0 k2 _ from to blk lb); [exact H2|cbn; by rewrite lookup_insert_eq| |].
  { cbn. by rewrite lookup_insert_ne, lookup_insert_eq. }
  intros k3 H3. apply wp_bind. eapply (wp_bwrite me pid k0 P k3 _ to lb); [exact H3| | |].
  { cbn. by rewrite lookup_insert_ne, lookup_insert_eq. }
  { intros d' Hd'. apply HP. intros x. by rewrite Hd', <- Hd. }
  intros k4 H4. apply wp_bind. eapply (wp_brelse me pid k0 k4 _ from blk); [exact H4|cbn; by rewrite lookup_insert_eq| |].
  { left. cbn. rewrite HD. set_solver. }
  intros k5 H5. eapply (wp_brelse me pid k0 k5 _ to lb); [exact H5| | |].
  { cbn. by rewrite lookup_delete_ne, lookup_insert_ne, lookup_insert_eq. }
  { right. cbn. by rewrite !fset_eq. }
  intros k6 H6. apply HQ. eexists. split; [exact H6|]. cbn. split; [|split; [|split]].
  - rewrite Hh. by apply delete_two.
  - rewrite HD. set_solver.
  - intros x. unfold fset. by rewrite !Hv.
  - intros x. rewrite fset_eq. unfold fset. by rewrite Hd, Hv.
Qed.

(** One pass of [install_trans]. *)
Lemma wp_from_log (P : (Z → list Z) → Prop) k D v d tail blk (Q : unit → kernel → Prop) :
  at_rest k D v d → bl !! tail = Some blk → let lb := start + Z.of_nat tail + 1 in
  lb ∉ D → blk ∈ D ∨ (S (base.size D) < NBUF)%nat → (base.size D < NBUF)%nat →
  (∀ d', (∀ x, d' x = d x) → P d') →
  (∀ k', at_rest k' (D ∖ {[blk]}) (fset v blk (d lb)) (fset d blk (d lb)) → Q tt k') →
  wp False (lbuf <- bread 1 lb ;; b <- lh_block tail ;; dbuf <- bread 1 b ;; copy_block lbuf dbuf ;; bwrite dbuf ;; brelse lbuf ;; brelse dbuf)
    Q (crash k0 P) k.
Proof using Hlog Hgeom.
  intros (A & HA & Hh & HD & Hv & Hd) Htail lb Hlb Hblk Hsz HP HQ.
  pose proof (lg_range _ _ _ _ Hgeom) as Hrg. pose proof (lg_fits _ _ _ _ Hgeom) as Hfit. pose proof (lookup_lt_Some _ _ _ Htail) as Hlt.
  destruct (lg_homes _ _ _ _ Hgeom blk (list_elem_of_lookup_2 _ _ _ Htail)) as [Hb1 Hb2].
  assert (Hne : lb ≠ blk) by (unfold lb; lia).
  assert (Hvd : cs_view A lb = cs_disk A lb) by (apply (cache_at_clean me pid k0 k); [done|done|by rewrite HD]).
  apply wp_bind. eapply (wp_bread me pid k0 k A lb); [done|unfold lb; lia|intros i; by rewrite Hh| |].
  { right. unfold cs_busy. rewrite Hh, HD, map_img_empty_L, union_empty_r_L. done. }
  intros lbuf k1 _ H1. apply wp_bind. apply (wp_lh_block _ _ start bl _ blk); [by rewrite (cache_at_log _ _ _ _ _ H1)|done|].
  apply wp_bind. eapply (wp_bread me pid k0 k1 _ blk); [exact H1|done| | |].
  { intros i. cbn. rewrite Hh, lookup_insert_Some. by intros [[_ ?]|[_ ?]]. }
  { destruct Hblk as [Hblk|Hblk]; [left; cbn; by rewrite HD|right]. unfold cs_busy. cbn. rewrite Hh, HD.
    eapply Nat.le_lt_trans; [apply size_two|done]. }
  intros dbuf k2 Hfrom H2. cbn in Hfrom. rewrite Hh in Hfrom. assert (Hft : dbuf ≠ lbuf) by (intros ->; by rewrite lookup_insert_eq in Hfrom).
  apply wp_bind. eapply (wp_copy_block me pid k0 k2 _ lbuf dbuf lb blk); [exact H2| |cbn; by rewrite lookup_insert_eq|].
  { cbn. by rewrite lookup_insert_ne, lookup_insert_eq. }
  intros k3 H3. apply wp_bind. eapply (wp_bwrite me pid k0 P k3 _ dbuf blk); [exact H3|cbn; by rewrite lookup_insert_eq| |].
  { intros d' Hd'. apply HP. intros x. by rewrite Hd', <- Hd. }
  intros k4 H4. apply wp_bind. eapply (wp_brelse me pid k0 k4 _ lbuf lb); [exact H4| | |].
  { cbn. by rewrite lookup_insert_ne, lookup_insert_eq. }
  { right. cbn. rewrite !fset_ne by done. done. }
  intros k5 H5. eapply (wp_brelse me pid k0 k5 _ dbuf blk); [exact H5| | |].
  { cbn. by rewrite lookup_delete_ne, lookup_insert_eq. }
  { right. cbn. by rewrite !fset_eq. }
  intros k6 H6. apply HQ. eexists. split; [exact H6|]. cbn. split; [|split; [|split]].
  - rewrite Hh. by apply delete_two.
  - by rewrite HD.
  - intros x. unfold fset. by rewrite Hvd, Hd, Hv.
  - intros x. rewrite fset_eq. unfold fset. by rewrite Hvd, !Hd.
Qed.

(** *** [write_log] *)

(** The contents [v] of the first [j] blocks, in the log. *)
Definition lset (v : Z → list Z) (j : nat) (f : Z → list Z) : Z → list Z := λ x,
  if (start <? x) && (x <=? start + Z.of_nat j) then
    match bl !! Z.to_nat (x - start - 1) with Some b => v b | None => f x end
  else f x.

Lemma lset_0 v f x : lset v 0 f x = f x.
Proof using. unfold lset. by replace ((start <? x) && (x <=? start + Z.of_nat 0)) with false by lia. Qed.

Lemma lset_S v j f b x : bl !! j = Some b → fset (lset v j f) (start + Z.of_nat j + 1) (v b) x = lset v (S j) f x.
Proof using.
  intros Hb. unfold fset, lset. destruct (Z.eqb_spec x (start + Z.of_nat j + 1)) as [->|Hn].
  - replace ((start <? start + Z.of_nat j + 1) && (start + Z.of_nat j + 1 <=? start + Z.of_nat (S j))) with true by lia.
    replace (Z.to_nat (start + Z.of_nat j + 1 - start - 1)) with j by lia. by rewrite Hb.
  - by replace ((start <? x) && (x <=? start + Z.of_nat (S j))) with ((start <? x) && (x <=? start + Z.of_nat j)) by lia.
Qed.

Lemma lset_out v j f x : ¬ (start < x <= start + Z.of_nat j) → lset v j f x = f x.
Proof using. intros H. unfold lset. by replace ((start <? x) && (x <=? start + Z.of_nat j)) with false by lia. Qed.

Lemma lset_in v j f i b : bl !! i = Some b → (i < j)%nat → lset v j f (start + Z.of_nat i + 1) = v b.
Proof using.
  intros Hb Hi. unfold lset. replace (_ && _) with true by lia.
  replace (Z.to_nat (start + Z.of_nat i + 1 - start - 1)) with i by lia. by rewrite Hb.
Qed.

Lemma lset_len v j f x : (∀ x, length (v x) = 512%nat) → (∀ x, length (f x) = 512%nat) → length (lset v j f x) = 512%nat.
Proof using. intros Hv Hf. unfold lset. destruct (_ && _); [|done]. by destruct (bl !! _). Qed.

Lemma home_out b j : b ∈ bl → (j <= length bl)%nat → ¬ (start < b <= start + Z.of_nat j).
Proof using Hgeom.
  intros Hb Hj. destruct (lg_homes _ _ _ _ Hgeom b Hb) as [_ H]. pose proof (lg_fits _ _ _ _ Hgeom). lia.
Qed.

Lemma log_addr tail : (tail < length bl)%nat → u32 (lg_start (k_log k0) + Z.of_nat tail + 1) = start + Z.of_nat tail + 1.
Proof using Hlog Hgeom.
  intros H. rewrite (li_start _ _ _ Hlog). pose proof (lg_range _ _ _ _ Hgeom) as Hr. pose proof (lg_fits _ _ _ _ Hgeom).
  change (2 ^ 31) with 2147483648 in Hr. apply u32_small. change (2 ^ 32) with 4294967296. lia.
Qed.

Lemma wp_write_log (P : (Z → list Z) → Prop) k D v d (Q : unit → kernel → Prop) :
  at_rest k D v d → (∀ b, b ∈ bl → b ∈ D) → (∀ b, b ∈ D → ¬ (start <= b < start + size)) → (base.size D < NBUF)%nat →
  (∀ j d', (∀ x, d' x = lset v j d x) → (j <= length bl)%nat → P d') →
  (∀ k', at_rest k' D (lset v (length bl) v) (lset v (length bl) d) → Q tt k') →
  wp False write_log Q (crash k0 P) k.
Proof using Hlog Hgeom.
  intros Hk HblD HDlog Hsz HP HQ. unfold write_log, log_get. apply wp_bind, wp_gets. rewrite (at_rest_log _ _ _ _ Hk).
  rewrite (li_dev _ _ _ Hlog), (li_n _ _ _ Hlog), Nat2Z.id.
  eapply (wp_mono _ _ (λ _ k, at_rest k D (lset v (0 + length bl) v) (lset v (0 + length bl) d)));
    [|intros [] k' H; apply (HQ k'); exact H|intros c k' H; exact H].
  apply (wp_mfor_seq False _ (λ j k, at_rest k D (lset v j v) (lset v j d)) _ (length bl) 0%nat).
  { eapply at_rest_ext; [intros x; symmetry; apply lset_0..|exact Hk]. }
  intros j k1 Hj H1. destruct (lookup_lt_is_Some_2 bl j ltac:(lia)) as [b Hb]. pose proof (list_elem_of_lookup_2 _ _ _ Hb) as Hbin.
  rewrite log_addr by lia. pose proof (lg_fits _ _ _ _ Hgeom).
  eapply (wp_to_log P k1 D _ _ j b); [exact H1|exact Hb| |by apply HblD|done| |].
  - intros Hin. apply (HDlog _ Hin). lia.
  - intros d' Hd'. apply (HP j); [done|lia].
  - intros k2 H2. assert (Ev : lset v j v b = v b) by (apply lset_out, home_out; [done|lia]). rewrite Ev in H2.
    eapply at_rest_ext; [| |exact H2]; intros x; by apply lset_S.
Qed.

(** *** [install_trans] *)
Lemma wp_install_trans (P : (Z → list Z) → Prop) k D v d (Q : unit → kernel → Prop) :
  at_rest k D v d → (∀ b, b ∈ D → ¬ (start <= b < start + size)) → (base.size D < NBUF)%nat →
  (∀ j b, bl !! j = Some b → b ∈ D ∖ list_to_set (take j bl) ∨ (S (base.size D) < NBUF)%nat) →
  (∀ j d', (∀ x, d' x = install start 0 (take j bl) d x) → P d') →
  (∀ k' v', at_rest k' (D ∖ list_to_set bl) v' (install start 0 bl d) → Q tt k') →
  wp False install_trans Q (crash k0 P) k.
Proof using Hlog Hgeom.
  intros Hk HDlog Hsz Hroom HP HQ. unfold install_trans, log_get. apply wp_bind, wp_gets. rewrite (at_rest_log _ _ _ _ Hk).
  rewrite (li_dev _ _ _ Hlog), (li_n _ _ _ Hlog), Nat2Z.id.
  eapply (wp_mono _ _ (λ _ k, ∃ v', at_rest k (D ∖ list_to_set (take (0 + length bl) bl)) v' (install start 0 (take (0 + length bl) bl) d)));
    [|intros [] k' [v' H]; apply (HQ k' v'); rewrite take_ge in H by lia; exact H|intros c k' H; exact H].
  apply (wp_mfor_seq False _ (λ j k, ∃ v', at_rest k (D ∖ list_to_set (take j bl)) v' (install start 0 (take j bl) d)) _ (length bl) 0%nat).
  { exists v. rewrite take_0, list_to_set_nil, difference_empty_L. exact Hk. }
  intros j k1 Hj [v1 H1]. destruct (lookup_lt_is_Some_2 bl j ltac:(lia)) as [b Hb].
  rewrite log_addr by lia. pose proof (lg_fits _ _ _ _ Hgeom).
  assert (Hsub : (base.size (D ∖ list_to_set (take j bl)) <= base.size D)%nat) by (apply subseteq_size; set_solver).
  eapply (wp_from_log P k1 _ _ _ j b); [exact H1|exact Hb| | |lia| |].
  - intros [Hin _]%elem_of_difference. apply (HDlog _ Hin). lia.
  - destruct (Hroom j b Hb); [by left|right; lia].
  - intros d' Hd'. by apply (HP j).
  - intros k2 H2. eexists. rewrite (take_S_r _ _ _ Hb), install_snoc. cbn zeta. rewrite length_take.
    replace (j `min` length bl)%nat with j by lia. rewrite Z.add_0_l.
    replace (D ∖ list_to_set (take j bl ++ [b])) with (D ∖ list_to_set (take j bl) ∖ {[b]}); [exact H2|].
    rewrite list_to_set_app_L. set_solver.
Qed.

(** *** [write_head] *)
Lemma wp_write_head (P : (Z → list Z) → Prop) k D v d (Q : unit → kernel → Prop) :
  at_rest k D v d → start ∉ D → 0 <= start < io_disksize (k_io k0) → (base.size D < NBUF)%nat →
  (∀ d', (∀ x, d' x = d x) → P d') →
  (∀ k', at_rest k' D (fset v start (head_put bl (d start))) (fset d start (head_put bl (d start))) → Q tt k') →
  wp False write_head Q (crash k0 P) k.
Proof using Hlog Hgeom.
  intros (A & HA & Hh & HD & Hv & Hd) Hst Hrg Hsz HP HQ. unfold write_head, log_get. apply wp_bind, wp_gets.
  rewrite (cache_at_log _ _ _ _ _ HA), (li_dev _ _ _ Hlog), (li_n _ _ _ Hlog), (li_start _ _ _ Hlog), Nat2Z.id.
  assert (Hvd : v start = d start) by (rewrite <- Hv, <- Hd; apply (cache_at_clean me pid k0 k); [done|done|by rewrite HD]).
  apply wp_bind. eapply (wp_bread me pid k0 k A start); [done|done|intros i; by rewrite Hh| |].
  { right. unfold cs_busy. rewrite Hh, HD, map_img_empty_L, union_empty_r_L. done. }
  intros buf k1 _ H1. apply wp_bind. eapply (wp_bdata me pid k0 k1 _ buf start); [exact H1|cbn; by rewrite lookup_insert_eq|].
  apply wp_bind. eapply (wp_bdata_set me pid k0 k1 _ buf start); [exact H1|cbn; by rewrite lookup_insert_eq|].
  intros k2 H2. cbn [cs_take cs_view cs_edit cs_held cs_dirty cs_disk] in H2. rewrite Hv, Hvd in H2.
  set (part := λ j, foldl (λ d e, put32 (4 + 4 * e.1) e.2 d) (put32 0 (Z.of_nat (length bl)) (d start)) (take j (imap pair bl))).
  set (I := λ j k, ∃ A, cache_at me pid k0 k A ∧ cs_held A = {[buf := start]} ∧ cs_dirty A = D ∧
    (∀ x, cs_view A x = fset v start (part j) x) ∧ (∀ x, cs_disk A x = d x)).
  apply wp_bind. eapply wp_mono.
  { apply (wp_mfor_seq False _ I (crash k0 P) (length bl) 0%nat k2).
    - eexists. split; [exact H2|]. cbn. rewrite Hh, HD. split_and!; try done. intros x. unfold fset. by rewrite Hv.
    - intros j k3 Hj (A3 & HA3 & Hh3 & HD3 & Hv3 & Hd3). destruct (lookup_lt_is_Some_2 bl j ltac:(lia)) as [b Hb].
      apply wp_bind. apply (wp_lh_block _ _ start bl _ b); [by rewrite (cache_at_log _ _ _ _ _ HA3)|done|].
      apply wp_bind. eapply (wp_bdata me pid k0 k3 A3 buf start); [done|rewrite Hh3; apply lookup_insert_eq|].
      eapply (wp_bdata_set me pid k0 k3 A3 buf start); [done|rewrite Hh3; apply lookup_insert_eq|].
      intros k4 H4. eexists. split; [exact H4|]. cbn. split_and!; try done. intros x.
      destruct (decide (x = start)) as [->|Hx]; [|by rewrite fset_ne, Hv3, !fset_ne]. rewrite Hv3, !fset_eq. unfold part.
      rewrite (take_S_r _ _ (j, b)); [by rewrite foldl_app|]. by rewrite list_lookup_imap, Hb. }
  2:{ intros c k' H. exact H. }
  intros [] k3 (A3 & HA3 & Hh3 & HD3 & Hv3 & Hd3).
  assert (Ep : part (0 + length bl)%nat = head_put bl (d start)) by (unfold part, head_put; by rewrite take_ge by (rewrite length_imap; lia)).
  rewrite Ep in Hv3. apply wp_bind. eapply (wp_bwrite me pid k0 P k3 A3 buf start); [done|rewrite Hh3; apply lookup_insert_eq| |].
  { intros d' Hd'. apply HP. intros x. by rewrite Hd', <- Hd3. }
  intros k4 H4. eapply (wp_brelse me pid k0 k4 _ buf start); [exact H4|cbn; rewrite Hh3; apply lookup_insert_eq| |].
  { right. cbn. by rewrite fset_eq. }
  intros k5 H5. apply HQ. eexists. split; [exact H5|]. cbn. rewrite Hh3, HD3. split_and!.
  - by rewrite delete_singleton_eq.
  - set_solver.
  - done.
  - intros x. unfold fset. rewrite Hv3, Hd3, fset_eq. done.
Qed.
End move.

(** ** Changing the in-memory log *)
Lemma cache_set_log l k me pid o A : cache k me pid o A → cache (set_k_log l k) me pid o A.
Proof. intros [H1 H2 H3 H4 H5 H6 H7 H8 H9 H10 H11]. by split. Qed.

(** Everything but the cache, the log and the scheduler's data is as before. *)
Definition fs_frame (k k' : kernel) : Prop := bio_frame (set_k_log (k_log k') k) k'.

#[export] Instance fs_frame_preorder : PreOrder fs_frame.
Proof.
  split.
  - intros k. unfold fs_frame. replace (set_k_log (k_log k) k) with k by (by destruct k). reflexivity.
  - intros k k1 k2 H1 H2. unfold fs_frame in *. etrans; [|exact H2].
    destruct H1 as (c & P & B & d & w & E & Hw). exists c, P, B, d, w. split; [|exact Hw]. rewrite E. by destruct k.
Qed.

Lemma bio_fs_frame k k' : bio_frame k k' → fs_frame k k'.
Proof.
  intros H. unfold fs_frame. destruct (frame_log _ _ H) as (-> & _). by replace (set_k_log (k_log k) k) with k by (by destruct k).
Qed.

Lemma fs_frame_log l k k' : fs_frame k k' → fs_frame k (set_k_log l k').
Proof.
  intros (c & P & B & d & w & E & Hw). exists c, P, B, d, w. split; [|exact Hw]. rewrite E. by destruct k.
Qed.

(** The rest of the kernel, crashes and addresses included. *)
Definition same_machine (k k' : kernel) : Prop := k_io k' = k_io k ∧ (k_power k' = None ↔ k_power k = None) ∧ fs_frame k k'.

Lemma same_machine_log l k k' : same_machine k k' → same_machine k (set_k_log l k').
Proof. intros (H1 & H2 & H3). split; [done|]. split; [done|]. by apply fs_frame_log. Qed.

Lemma cache_at_machine me pid k0 k A : cache_at me pid k0 k A → same_machine k0 k.
Proof. intros [Hf _]. destruct (frame_log _ _ Hf) as (_ & ? & ?). split; [done|]. split; [done|]. by apply bio_fs_frame. Qed.

Lemma cache_at_rebase me pid k0 k A l : cache_at me pid k0 k A → cache_at me pid (set_k_log l k) (set_k_log l k) A.
Proof. intros [_ [o H]]. split; [done|]. exists o. by apply cache_set_log. Qed.

Lemma at_rest_rebase me pid k0 k D v d l : at_rest me pid k0 k D v d → at_rest me pid (set_k_log l k) (set_k_log l k) D v d.
Proof. intros (A & HA & H). exists A. split; [by eapply cache_at_rebase|done]. Qed.

Lemma at_rest_machine me pid k0 k D v d : at_rest me pid k0 k D v d → same_machine k0 k.
Proof. intros (A & HA & _). by eapply cache_at_machine. Qed.

Lemma crash_rebase k0 k1 P c k : same_machine k0 k1 → crash k1 P c k → crash k0 P c k.
Proof. intros (_ & Hw & _) (-> & Hp & HP). split; [done|]. split; [by rewrite <- Hw|done]. Qed.

Lemma same_machine_trans k k1 k2 : same_machine k k1 → same_machine k1 k2 → same_machine k k2.
Proof. intros (H1 & W1 & F1) (H2 & W2 & F2). split; [congruence|]. split; [by rewrite W2|by etrans]. Qed.

Lemma at_rest_clean me pid k0 k v d x : at_rest me pid k0 k ∅ v d → v x = d x.
Proof.
  intros (A & HA & Hh & HD & Hv & Hd). rewrite <- Hv, <- Hd. apply (cache_at_clean me pid k0 k); [done|done|]. by rewrite HD.
Qed.

Lemma log_is_cleared l start bl : log_is l start bl → log_is (set_lg_n 0 l) start [].
Proof. intros [H1 H2 H3 H4 H5]. by split. Qed.

Lemma log_geom_nil sz start size bl : log_geom sz start size bl → log_geom sz start size [].
Proof. intros [H1 H2 H3 H4]. split; [done|cbn; lia|cbn; unfold NBUF; lia|set_solver]. Qed.

(** *** Clearing the header *)
Lemma wp_clear (P : (Z → list Z) → Prop) me pid k0 k start size bl D v d (Q : unit → kernel → Prop) :
  log_is (k_log k0) start bl → log_geom (io_disksize (k_io k0)) start size bl →
  at_rest me pid k0 k D v d → start ∉ D → (base.size D < NBUF)%nat →
  (∀ d', (∀ x, d' x = d x) → P d') →
  (∀ k1 k', same_machine k0 k1 → k_log k1 = set_lg_n 0 (k_log k0) →
     at_rest me pid k1 k' D (fset v start (head_put [] (d start))) (fset d start (head_put [] (d start))) → Q tt k') →
  wp False (modify (upd_log (set_lg_n 0)) ;; write_head) Q (crash k0 P) k.
Proof.
  intros Hlog Hgeom Hk Hst Hsz HP HQ. apply wp_bind, wp_modify. unfold upd_log.
  set (k1 := set_k_log _ k). pose proof (at_rest_rebase _ _ _ _ _ _ _ (set_lg_n 0 (k_log k)) Hk) as H1. fold k1 in H1.
  pose proof (at_rest_machine _ _ _ _ _ _ _ Hk) as Hm. pose proof (at_rest_log _ _ _ _ _ _ _ Hk) as El.
  assert (Hm1 : same_machine k0 k1) by (by apply same_machine_log).
  assert (Hl1 : log_is (k_log k1) start []) by (cbn; rewrite El; by eapply log_is_cleared).
  assert (Hg1 : log_geom (io_disksize (k_io k1)) start size []) by (rewrite (proj1 Hm1); by eapply log_geom_nil).
  eapply wp_mono; [|intros a k' H; exact H|intros c k' H; by eapply crash_rebase].
  eapply (wp_write_head me pid k1 start size [] Hl1 Hg1 P k1 D v d); [exact H1|done| |done|done|].
  - destruct (lg_range _ _ _ _ Hg1). pose proof (lg_fits _ _ _ _ Hg1) as Hf. cbn in Hf. lia.
  - intros k' H. apply (HQ k1 k'); [done| |done]. cbn. by rewrite El.
Qed.

(** *** [read_head] *)
Lemma wp_read_head me pid k0 k start v d (Q : unit → kernel → Prop) (R : leave → kernel → Prop) :
  let bl := head_blocks (d start) in
  log_is (k_log k0) start [] → 0 <= head_n (d start) → (length bl < NBUF)%nat → 0 <= start < io_disksize (k_io k0) →
  at_rest me pid k0 k ∅ v d →
  (∀ k1 k', same_machine k0 k1 → log_is (k_log k1) start bl → lg_size (k_log k1) = lg_size (k_log k0) →
     at_rest me pid k1 k' ∅ v d → Q tt k') →
  wp False read_head Q R k.
Proof.
  intros bl Hlog Hn Hlen Hrg (A & HA & Hh & HD & Hv & Hd) HQ. unfold read_head, log_get. apply wp_bind, wp_gets.
  rewrite (cache_at_log _ _ _ _ _ HA), (li_dev _ _ _ Hlog), (li_start _ _ _ Hlog).
  apply wp_bind. eapply (wp_bread me pid k0 k A start); [done|done|intros i; by rewrite Hh| |].
  { right. unfold cs_busy. rewrite Hh, HD, map_img_empty_L, union_empty_r_L. rewrite size_empty. unfold NBUF. lia. }
  intros buf k1 _ H1. apply wp_bind. eapply (wp_bdata me pid k0 k1 _ buf start); [exact H1|cbn; by rewrite lookup_insert_eq|].
  assert (Evd : cs_view (cs_take buf start A) start = d start).
  { cbn. rewrite (cache_at_clean me pid k0 k A); [done|done|done|by rewrite HD]. }
  rewrite Evd. apply wp_bind, wp_modify.
  assert (Elen : Z.to_nat (s32 (get32 0 (d start))) = length bl) by (unfold bl, head_blocks; by rewrite length_fmap, length_seq). rewrite Elen.
  set (I := λ j (k : kernel), ∃ l, k = set_k_log l k1 ∧ lg_start l = start ∧ lg_dev l = 1 ∧ lg_n l = head_n (d start) ∧
    lg_size l = lg_size (k_log k0) ∧ length (lg_block l) = 30%nat ∧ take j (lg_block l) = take j bl).
  apply wp_bind. eapply (wp_mono _ _ (λ _, I (0 + length bl)%nat)).
  { apply (wp_mfor_seq False _ I R (length bl) 0%nat).
    - unfold upd_log. eexists. split; [reflexivity|]. cbn [lg_start lg_dev lg_n lg_size lg_block set_lg_n].
      rewrite (cache_at_log _ _ _ _ _ H1). destruct Hlog. split_and!; done.
    - intros j k2 Hj (l & -> & ? & ? & ? & ? & Hl & Ht). unfold lh_block_set, log_get. apply wp_bind, wp_gets. cbn [k_log set_k_log].
      rewrite (proj2 (Nat.ltb_lt _ _)) by (rewrite Hl; unfold NBUF in Hlen; lia). apply wp_modify. unfold upd_log.
      eexists. split; [reflexivity|]. cbn. split_and!; try done; [by rewrite length_insert|].
      destruct (lookup_lt_is_Some_2 bl j ltac:(lia)) as [b Hb]. rewrite (take_S_r _ _ _ Hb).
      rewrite (take_S_r _ _ (s32 (get32 (4 + 4 * j) (d start)))).
      + rewrite take_insert_ge by lia. f_equal; [done|]. f_equal. unfold bl, head_blocks in Hb. rewrite list_lookup_fmap in Hb.
        rewrite lookup_seq_lt in Hb by (unfold bl, head_blocks in Hj; rewrite length_fmap, length_seq in Hj; lia). by injection Hb as <-.
      + apply list_lookup_insert_eq. unfold NBUF in Hlen. lia. }
  2:{ done. }
  intros [] k2 (l & -> & Hl1 & Hl2 & Hl3 & Hl4 & Hl5 & Hl6).
  pose proof (cache_at_rebase _ _ _ _ _ l H1) as H2.
  assert (Hm : same_machine k0 (set_k_log l k1)) by (apply same_machine_log; exact (cache_at_machine _ _ _ _ _ H1)).
  eapply (wp_brelse me pid _ _ _ buf start); [exact H2|cbn; by rewrite lookup_insert_eq| |].
  { right. cbn. by rewrite (cache_at_clean me pid k0 k A) by (rewrite ?HD; done). }
  intros k3 H3. apply (HQ (set_k_log l k1) k3 Hm); [|done|].
  - cbn [k_log set_k_log]. rewrite (take_ge bl) in Hl6 by lia. split; try done.
    rewrite Hl3, <- Elen. unfold head_n in *. lia.
  - eexists. split; [exact H3|]. cbn. rewrite Hh. split_and!; try done. by rewrite delete_insert_id.
Qed.

(** ** Commit and recovery *)
Lemma s32_0_blocks b : head_n b = 0 → head_blocks b = [].
Proof. intros H. unfold head_blocks. by rewrite H. Qed.

Lemma recovered_clear start d : head_n (d start) = 0 → recovered start d = d.
Proof. intros H. unfold recovered. by rewrite s32_0_blocks. Qed.

Lemma recovered_ext start d d' : (∀ x, d x = d' x) → ∀ x, recovered start d x = recovered start d' x.
Proof. intros H x. unfold recovered. rewrite (H start). by apply install_ext. Qed.

(** A partial installation recovers like the whole. *)
Lemma recovered_partial start size sz bl j d : log_geom sz start size bl → head_blocks (d start) = bl →
  ∀ x, recovered start (install start 0 (take j bl) d) x = install start 0 bl d x.
Proof.
  intros Hg Hb x. pose proof (lg_fits _ _ _ _ Hg).
  assert (Hst : start ∉ bl) by (intros Hin; destruct (lg_homes _ _ _ _ Hg _ Hin); lia).
  unfold recovered. rewrite (install_skip start (take j bl)) by (intros Hin; exact (Hst (subseteq_take j bl _ Hin))).
  rewrite Hb. apply install_indep; [lia|..].
  - intros b Hin. destruct (lg_homes _ _ _ _ Hg _ Hin). lia.
  - intros y Hy. apply install_skip. intros Hin. exact (Hy (subseteq_take j bl _ Hin)).
Qed.

Lemma recover_spec me pid k o A start size :
  cache k me pid o A → cs_held A = ∅ → cs_dirty A = ∅ → log_is (k_log k) start [] →
  log_disk_ok (io_disksize (k_io k)) start size (cs_disk A) →
  wp False recover_from_log
    (λ _ k', ∃ o' A', cache k' me pid o' A' ∧ cs_held A' = ∅ ∧ cs_dirty A' = ∅ ∧ lg_n (k_log k') = 0 ∧
       head_n (cs_disk A' start) = 0 ∧ same_data start size (cs_disk A') (recovered start (cs_disk A)))
    (crash k (λ d, d start = cs_disk A start ∧ ∀ x, recovered start d x = recovered start (cs_disk A) x)) k.
Proof.
  intros Hok Hh HD Hlog [Hg Hn Hlen]. set (d := cs_disk A). set (bl := head_blocks (cs_disk A start)) in *.
  assert (H0 : at_rest me pid k k ∅ (cs_view A) d) by (exists A; split; [split; [done|by exists o]|done]).
  pose proof (lg_range _ _ _ _ Hg) as Hrg. pose proof (lg_fits _ _ _ _ Hg) as Hfit.
  assert (Hst : start ∉ bl) by (intros Hin; destruct (lg_homes _ _ _ _ Hg _ Hin); lia).
  assert (Hidem : ∀ j d', (∀ x, d' x = install start 0 (take j bl) d x) →
    d' start = d start ∧ ∀ x, recovered start d' x = recovered start d x).
  { intros j d' Hd'. split.
    { rewrite Hd'. apply install_skip. intros Hin. exact (Hst (subseteq_take j bl _ Hin)). }
    intros x. rewrite (recovered_ext start _ _ Hd'). by rewrite (recovered_partial start size _ bl j d Hg eq_refl). }
  unfold recover_from_log. apply wp_bind.
  apply (wp_read_head me pid k k start (cs_view A) d); [done|done|exact (lg_max _ _ _ _ Hg)|lia|exact H0|].
  intros k1 k2 Hm Hl1 _ H2.
  eapply wp_mono; [|intros a k' H; exact H|intros c k' H; eapply crash_rebase; [exact Hm|exact H]]. apply wp_bind.
  eapply (wp_install_trans me pid k1 start size bl Hl1 ltac:(by rewrite (proj1 Hm)) _ k2 ∅); [exact H2|set_solver|rewrite size_empty; unfold NBUF; lia| |exact Hidem|].
  { intros j b _. right. rewrite size_empty. unfold NBUF. lia. }
  intros k3 v3 H3. rewrite difference_empty_L in H3 || replace (∅ ∖ list_to_set bl) with (∅ : gset Z) in H3 by set_solver.
  eapply (wp_clear _ me pid k1 k3 start size bl ∅); [done|by rewrite (proj1 Hm)|exact H3|set_solver|rewrite size_empty; unfold NBUF; lia| |].
  { intros d' Hd'. apply (Hidem (length bl)). intros y. by rewrite take_ge by lia. }
  intros k4 k5 Hm4 El4 H5. pose proof (at_rest_log _ _ _ _ _ _ _ H5) as El5.
  destruct H5 as (A5 & [Hf5 [o5 H5]] & Hh5 & HD5 & Hv5 & Hd5). exists o5, A5. split; [done|]. split; [done|]. split; [done|].
  split; [by rewrite El5, El4|]. assert (Est : install start 0 bl d start = d start) by (by apply install_skip).
  rewrite Est in Hd5. destruct (head_put_spec [] (d start)) as (_ & Hhn & _); [cbn; lia|done|done|].
  split; [by rewrite Hd5, fset_eq|]. intros x Hx. rewrite Hd5, fset_ne by lia. done.
Qed.

Lemma commit_spec me pid k o A start size bl :
  cache k me pid o A → cs_held A = ∅ → cs_dirty A = list_to_set bl → NoDup bl → log_is (k_log k) start bl →
  log_geom (io_disksize (k_io k)) start size bl → head_n (cs_disk A start) = 0 → length (cs_disk A start) = 512%nat →
  wp False commit
    (λ _ k', ∃ o' A', cache k' me pid o' A' ∧ cs_held A' = ∅ ∧ cs_dirty A' = ∅ ∧ lg_n (k_log k') = 0 ∧
       head_n (cs_disk A' start) = 0 ∧ same_data start size (cs_disk A') (cs_view A) ∧ fs_frame k k' ∧ k_log k' = set_lg_n 0 (k_log k) ∧
       ((∀ x, length (cs_view A x) = 512%nat) → (∀ x, length (cs_disk A x) = 512%nat) → ∀ x, length (cs_disk A' x) = 512%nat))
    (crash k (λ d, log_disk_ok (io_disksize (k_io k)) start size d ∧
       (same_data start size (recovered start d) (cs_disk A) ∨ same_data start size (recovered start d) (cs_view A)))) k.
Proof.
  intros Hok Hh HD Hnd Hlog Hg Hn Hlen. set (d := cs_disk A). set (v := cs_view A).
  pose proof (lg_range _ _ _ _ Hg) as Hrg. pose proof (lg_fits _ _ _ _ Hg) as Hfit. pose proof (lg_max _ _ _ _ Hg) as Hmax.
  assert (Hst : start ∉ bl) by (intros Hin; destruct (lg_homes _ _ _ _ Hg _ Hin); lia).
  assert (Hclean : ∀ x, x ∉ bl → v x = d x).
  { intros x Hx. apply (ca_clean _ _ _ _ _ Hok); [rewrite HD; set_solver|intros i; by rewrite Hh]. }
  unfold commit, log_get. apply wp_bind, wp_gets. rewrite (li_n _ _ _ Hlog). apply wp_when; intros Hpos; cycle 1.
  { assert (bl = []) as -> by (destruct bl; [done|cbn in Hpos; lia]). exists o, A. split_and!; try done.
    - by rewrite (li_n _ _ _ Hlog).
    - intros x _. symmetry. apply Hclean. set_solver.
    - destruct (k_log k) eqn:El. pose proof (li_n _ _ _ Hlog) as En. cbn in En. unfold set_lg_n. by rewrite En. }
  assert (H0 : at_rest me pid k k (list_to_set bl) v d) by (exists A; split; [split; [done|by exists o]|done]).
  assert (Hsz : (base.size (list_to_set bl : gset Z) < NBUF)%nat) by (by rewrite size_list_to_set).
  assert (Hout : ∀ b, b ∈ (list_to_set bl : gset Z) → ¬ (start <= b < start + size)).
  { intros b Hb. apply elem_of_list_to_set in Hb. by apply (lg_homes _ _ _ _ Hg). }
  set (P := λ d', log_disk_ok (io_disksize (k_io k)) start size d' ∧ (same_data start size (recovered start d') d ∨ same_data start size (recovered start d') v)).
  (* before the header is written *)
  assert (Hpre : ∀ j d', (∀ x, d' x = lset start bl v j d x) → (j <= length bl)%nat → P d').
  { intros j d' Hd' Hj. assert (Es : d' start = d start) by (rewrite Hd'; apply lset_out; lia).
    split; [split; rewrite Es, ?s32_0_blocks by done; [by eapply log_geom_nil|unfold d; lia|done]|]. left. intros x Hx. rewrite (recovered_ext start d' _ Hd').
    rewrite recovered_clear by (rewrite lset_out by lia; done). apply lset_out. lia. }
  (* after it *)
  set (d1 := lset start bl v (length bl) d). set (H := head_put bl (d1 start)). set (d2 := fset d1 start H).
  assert (Ed1 : d1 start = d start) by (apply lset_out; lia).
  destruct (head_put_spec bl (d1 start)) as (HHl & HHn & HHb); [unfold NBUF in Hmax; lia|by rewrite Ed1| |].
  { apply list.Forall_forall. intros b Hb. destruct (lg_homes _ _ _ _ Hg b Hb). change (2 ^ 31) with 2147483648 in *. lia. }
  fold H in HHl, HHn, HHb. assert (E2 : d2 start = H) by (apply fset_eq).
  assert (Hnew : same_data start size (install start 0 bl d2) v).
  { intros x Hx. rewrite (install_new start bl v); [|lia|..].
    - destruct (decide (x ∈ bl)); [done|]. unfold d2. rewrite fset_ne by lia. unfold d1. rewrite lset_out by lia. symmetry. by apply Hclean.
    - intros b Hb. destruct (lg_homes _ _ _ _ Hg b Hb). lia.
    - intros i b Hb. unfold d2. rewrite fset_ne by lia. rewrite Z.add_0_r. apply lset_in; [done|]. by eapply lookup_lt_Some. }
  assert (Hpost : ∀ j d', (∀ x, d' x = install start 0 (take j bl) d2 x) → P d').
  { intros j d' Hd'. assert (Es : d' start = H).
    { rewrite Hd', install_skip; [done|]. intros Hin. exact (Hst (subseteq_take j bl _ Hin)). }
    split; [split; rewrite Es; [by rewrite HHb|lia|done]|]. right. intros x Hx. rewrite (recovered_ext start d' _ Hd').
    rewrite (recovered_partial start size _ bl j d2 Hg) by (by rewrite E2). by apply Hnew. }
  apply wp_bind. apply (wp_write_log me pid k start size bl Hlog Hg P k (list_to_set bl) v d); [done|set_solver|done|done|exact Hpre|].
  intros k1 H1. apply wp_bind.
  eapply (wp_write_head me pid k start size bl Hlog Hg P k1); [exact H1|set_solver|lia|done| |].
  { intros d' Hd'. by apply (Hpre (length bl)). }
  intros k2 H2. fold d1 H d2 in H2. apply wp_bind.
  eapply (wp_install_trans me pid k start size bl Hlog Hg P k2); [exact H2|done|done| |exact Hpost|].
  { intros j b Hb. left. apply elem_of_difference. rewrite !elem_of_list_to_set. split; [by eapply list_elem_of_lookup_2|].
    intros Hin. apply elem_of_take in Hin as (i & Hi & Hij). pose proof (NoDup_lookup _ _ _ _ Hnd Hb Hi). lia. }
  intros k3 v3 H3. rewrite difference_diag_L in H3.
  eapply (wp_clear P me pid k k3 start size bl ∅); [done|done|exact H3|set_solver|rewrite size_empty; unfold NBUF; lia| |].
  { intros d' Hd'. apply (Hpost (length bl)). intros y. by rewrite take_ge by lia. }
  intros k4 k5 Hm4 El4 H5. pose proof (at_rest_log _ _ _ _ _ _ _ H5) as El5.
  destruct H5 as (A5 & [Hf5 [o5 H5]] & Hh5 & HD5 & Hv5 & Hd5). exists o5, A5. split; [done|]. split; [done|]. split; [done|].
  split; [by rewrite El5, El4|]. assert (Est : install start 0 bl d2 start = H) by (by rewrite install_skip).
  rewrite Est in Hd5.
  destruct (head_put_spec [] H) as (Hcl & Hhn & _); [cbn; lia|done|done|].
  split; [by rewrite Hd5, fset_eq|]. split; [intros x Hx; rewrite Hd5, fset_ne by lia; by apply Hnew|].
  split; [etrans; [apply Hm4|by apply bio_fs_frame]|]. split; [by rewrite El5, El4|].
  intros Hlv Hld x. rewrite Hd5. unfold fset at 1. destruct (Z.eqb_spec x start) as [->|Hn']; [exact Hcl|].
  destruct (decide (x ∈ bl)) as [Hin|Hin]; [rewrite Hnew; [apply Hlv|]|].
  - by apply (lg_homes _ _ _ _ Hg).
  - rewrite install_skip by done. unfold d2. rewrite fset_ne by done. unfold d1. apply lset_len; [exact Hlv|exact Hld].
Qed.

(** C3: a commit is atomic. Run to its end it leaves the transaction's
    contents on the disk, nothing dirty and an empty log; when the power fails
    at any of its block writes, recovery of the disk it leaves gives, outside
    the log, either all the old contents or all the new ones. Without a power
    failure it does run to its end. *)
Theorem commit_atomic me pid k o A start size bl :
  cache k me pid o A → cs_held A = ∅ → cs_dirty A = list_to_set bl → NoDup bl → log_is (k_log k) start bl →
  log_geom (io_disksize (k_io k)) start size bl → head_n (cs_disk A start) = 0 → length (cs_disk A start) = 512%nat →
  (∃ k' o' A', commit k = Ret tt k' ∧ cache k' me pid o' A' ∧ cs_held A' = ∅ ∧ cs_dirty A' = ∅ ∧ lg_n (k_log k') = 0 ∧
     head_n (cs_disk A' start) = 0 ∧ same_data start size (cs_disk A') (cs_view A)) ∨
  (∃ k', commit k = Switch LPowerOff k' ∧ k_power k ≠ None ∧ log_disk_ok (io_disksize (k_io k)) start size (k_disk k') ∧
     (same_data start size (recovered start (k_disk k')) (cs_disk A) ∨ same_data start size (recovered start (k_disk k')) (cs_view A))).
Proof.
  intros Hok Hh HD Hnd Hlog Hg Hn Hlen.
  destruct (wp_False_inv _ _ _ _ (commit_spec me pid k o A start size bl Hok Hh HD Hnd Hlog Hg Hn Hlen)) as [([] & k' & E & o' & A' & H1 & H2 & H3 & H4 & H5 & H6 & _)|(c & k' & E & -> & Hp & HP)].
  - left. by exists k', o', A'.
  - right. by exists k'.
Qed.

(** recovery is repeatable. It installs exactly the blocks the header
    lists and clears the header; interrupted at any block write, it leaves a
    disk with the same header and the same recovery. *)
Theorem recovery_repeatable me pid k o d start size :
  cache k me pid o (cs_boot d) → log_is (k_log k) start [] → log_disk_ok (io_disksize (k_io k)) start size d →
  (∃ k', recover_from_log k = Ret tt k' ∧ head_n (k_disk k' start) = 0 ∧ same_data start size (k_disk k') (recovered start d)) ∨
  (∃ k', recover_from_log k = Switch LPowerOff k' ∧ k_power k ≠ None ∧ k_disk k' start = d start ∧
     ∀ x, recovered start (k_disk k') x = recovered start d x).
Proof.
  intros Hok Hlog Hd.
  destruct (wp_False_inv _ _ _ _ (recover_spec me pid k o (cs_boot d) start size Hok eq_refl eq_refl Hlog Hd))
    as [([] & k' & E & o' & A' & Hok' & _ & _ & _ & Hn & Hs)|(c & k' & E & -> & Hp & Hst & Hr)].
  - left. exists k'. split; [done|]. split; [by rewrite (ca_disk _ _ _ _ _ Hok')|]. intros x Hx. rewrite (ca_disk _ _ _ _ _ Hok'). by apply Hs.
  - right. by exists k'.
Qed.

(** ** A machine that keeps failing *)

(** Booting from the disk [d] and recovering: any number of boots are cut
    short by another power failure, the last one ends with the disk [d']. *)
Inductive boots (disksize start : Z) : (Z → list Z) → (Z → list Z) → Prop :=
  | boot_last me pid k o d k' : cache k me pid o (cs_boot d) → log_is (k_log k) start [] → io_disksize (k_io k) = disksize →
      recover_from_log k = Ret tt k' → boots disksize start d (k_disk k')
  | boot_again me pid k o d k' d' : cache k me pid o (cs_boot d) → log_is (k_log k) start [] → io_disksize (k_io k) = disksize →
      recover_from_log k = Switch LPowerOff k' → boots disksize start (k_disk k') d' → boots disksize start d d'.

Lemma boots_recovered disksize start size d d' : boots disksize start d d' → log_disk_ok disksize start size d →
  same_data start size d' (recovered start d).
Proof.
  induction 1 as [me pid k o d k' Hok Hlog Hsz E|me pid k o d k' d' Hok Hlog Hsz E _ IH]; intros Hd; rewrite <- Hsz in *.
  - pose proof (recover_spec me pid k o (cs_boot d) start size Hok eq_refl eq_refl Hlog Hd) as Hr.
    destruct (wp_Ret_inv _ _ _ _ _ _ _ Hr E) as (o' & A' & Hok' & _ & _ & _ & _ & Hs). intros x Hx. rewrite (ca_disk _ _ _ _ _ Hok'). by apply Hs.
  - pose proof (recover_spec me pid k o (cs_boot d) start size Hok eq_refl eq_refl Hlog Hd) as Hr.
    destruct (wp_Switch_inv _ _ _ _ _ _ _ Hr E) as (_ & _ & Hst & Hx). cbn in Hst, Hx.
    intros x Hnx. rewrite IH; [by rewrite Hx|destruct Hd; by split; rewrite Hst|done].
Qed.

(** C6: a transaction survives any number of power failures, all or nothing:
    a commit cut short, then recoveries cut short, then one that completes,
    leave outside the log all the old contents or all the new ones. *)
Theorem transaction_all_or_nothing me pid k o A start size bl k' d' :
  cache k me pid o A → cs_held A = ∅ → cs_dirty A = list_to_set bl → NoDup bl → log_is (k_log k) start bl →
  log_geom (io_disksize (k_io k)) start size bl → head_n (cs_disk A start) = 0 → length (cs_disk A start) = 512%nat →
  commit k = Switch LPowerOff k' → boots (io_disksize (k_io k)) start (k_disk k') d' →
  same_data start size d' (cs_disk A) ∨ same_data start size d' (cs_view A).
Proof.
  intros Hok Hh HD Hnd Hlog Hg Hn Hlen E Hb.
  pose proof (commit_spec me pid k o A start size bl Hok Hh HD Hnd Hlog Hg Hn Hlen) as Hc.
  destruct (wp_Switch_inv _ _ _ _ _ _ _ Hc E) as (_ & _ & Hd & Hs).
  pose proof (boots_recovered _ _ size _ _ Hb Hd) as Hr. destruct Hs as [Hs|Hs]; [left|right]; intros x Hx; rewrite Hr by done; by apply Hs.
Qed.

(** ** [log_write] *)
Definition logged_blocks (bl : list Z) (blk : Z) : list Z := if decide (blk ∈ bl) then bl else bl ++ [blk].

Lemma find_block bl blk : Forall (λ x, 0 <= x < 2 ^ 31) bl →
  match find_idx (λ x, u32 x =? blk) bl with Some i => bl !! i = Some blk | None => blk ∉ bl end.
Proof.
  intros Hbl. assert (Hu : ∀ x, x ∈ bl → u32 x = x).
  { intros x Hx. rewrite list.Forall_forall in Hbl. specialize (Hbl x Hx). apply u32_small.
    change (2 ^ 31) with 2147483648 in *. change (2 ^ 32) with 4294967296. lia. }
  destruct (find_idx _ bl) as [i|] eqn:E.
  - apply find_idx_Some in E as [(x & Hx & Hp) _]. rewrite Hu in Hp by (by eapply list_elem_of_lookup_2). rewrite Hx. f_equal. lia.
  - intros [i Hi]%list_elem_of_lookup. rewrite find_idx_None in E. specialize (E i blk Hi). rewrite Hu in E by (by eapply list_elem_of_lookup_2). lia.
Qed.

(** The header after [log.lh.block[i] = b->blockno] and the test of [n]. *)
Lemma log_absorb l start bl blk : log_is l start bl → (length bl < 30)%nat → Forall (λ x, 0 <= x < 2 ^ 31) bl →
  let i := default (length bl) (find_idx (λ x, u32 x =? blk) bl) in
  log_is (if Z.of_nat i =? lg_n l then set_lg_n (lg_n l + 1) (set_lg_block (<[i := blk]> (lg_block l)) l)
          else set_lg_block (<[i := blk]> (lg_block l)) l) start (logged_blocks bl blk).
Proof.
  intros [H1 H2 H3 H4 H5] Hlen Hbl i. pose proof (find_block bl blk Hbl) as Hf. unfold logged_blocks. rewrite H3.
  subst i. destruct (find_idx _ bl) as [i|]; cbn [from_option id].
  - pose proof (lookup_lt_Some _ _ _ Hf) as Hi. rewrite decide_True by (by eapply list_elem_of_lookup_2).
    rewrite (proj2 (Z.eqb_neq _ _)) by lia. split; try done; cbn; [by rewrite length_insert|].
    rewrite list_insert_id; [done|]. rewrite <- H5 in Hf. by apply lookup_take_Some in Hf as [? _].
  - rewrite decide_False by done. rewrite Z.eqb_refl. split; try done; cbn.
    + rewrite length_app. cbn. lia.
    + by rewrite length_insert.
    + rewrite length_app. cbn. replace (length bl + 1)%nat with (S (length bl)) by lia.
      rewrite (take_S_r _ _ blk) by (apply list_lookup_insert_eq; lia). by rewrite take_insert_ge, H5 by lia.
Qed.

Lemma upd_log_comm i f l k : upd_buf i f (set_k_log l k) = set_k_log l (upd_buf i f k).
Proof. done. Qed.

Lemma log_write_run me pid k o A start size bl i blk :
  cache k me pid o A → cs_held A !! i = Some blk → log_is (k_log k) start bl → log_geom (io_disksize (k_io k)) start size bl →
  lg_size (k_log k) = size → Z.of_nat (length bl) < size - 1 → 0 < lg_outstanding (k_log k) →
  ∃ l', log_write i k = Ret tt (upd_buf i (λ r, set_b_flags (Z.lor (b_flags r) B_DIRTY) r) (set_k_log l' (quiet k))) ∧
    log_is l' start (logged_blocks bl blk) ∧ lg_size l' = size ∧ lg_outstanding l' = lg_outstanding (k_log k) ∧ lg_committing l' = lg_committing (k_log k).
Proof.
  intros Hok Hh Hlog Hg Hsz Hn Ho. destruct (ca_held_buf _ _ _ _ _ Hok i blk Hh) as (Hi & b & Hb & _ & _ & _ & Hbn & _ & _ & Hrg).
  pose proof (lg_range _ _ _ _ Hg) as Hr. pose proof (lg_max _ _ _ _ Hg) as Hmax.
  assert (Hbl : Forall (λ x, 0 <= x < 2 ^ 31) bl).
  { apply list.Forall_forall. intros x Hx. destruct (lg_homes _ _ _ _ Hg x Hx). lia. }
  set (l := k_log k) in *. set (j := default (length bl) (find_idx (λ x, u32 x =? blk) bl)).
  set (l1 := set_lg_block (<[j := blk]> (lg_block l)) l).
  exists (if Z.of_nat j =? lg_n l then set_lg_n (lg_n l + 1) l1 else l1).
  split; [|split; [by apply (log_absorb l start bl blk)|by destruct (_ =? _)]].
  unfold log_write, log_get. rewrite bind_gets. fold l. pose proof (li_n _ _ _ Hlog) as En.
  replace ((LOGSIZE <=? lg_n l) || (lg_size l - 1 <=? lg_n l)) with false by (rewrite En, Hsz; unfold LOGSIZE, MAXOPBLOCKS, NBUF in *; lia).
  replace (lg_outstanding l <? 1) with false by lia. cbn match.
  destruct (acquire_idle LkLog k (ca_idle _ _ _ _ _ Hok)) as [Ea Hlk]. rewrite (bind_Ret_eq _ _ _ _ _ Ea).
  rewrite (bind_buf_at i b) by done. cbn zeta. rewrite Hbn, En, Nat2Z.id, (li_blocks _ _ _ Hlog). fold j.
  assert (Hj : (j < 30)%nat).
  { unfold j. destruct (find_idx _ bl) as [x|] eqn:E; cbn [from_option id]; [apply find_idx_lt in E|]; unfold NBUF in Hmax; lia. }
  assert (Es : s32 blk = blk) by (apply s32_small; lia). rewrite Es.
  unfold lh_block_set, log_get. rewrite bind_assoc, bind_gets. change (k_log (acquired LkLog k)) with l.
  rewrite (proj2 (Nat.ltb_lt _ _)) by (by rewrite (li_len _ _ _ Hlog)). rewrite bind_modify.
  set (flag := λ r, set_b_flags _ r).
  assert (Hfin : ∀ l', ((modify (upd_buf i flag) ;; release LkLog) : KM unit) (set_k_log l' (acquired LkLog k)) =
    Ret tt (upd_buf i flag (set_k_log l' (quiet k)))).
  { intros l'. rewrite bind_modify. set (f := λ k, upd_buf i flag (set_k_log l' k)).
    etrans; [exact (proj1 (release_locked LkLog (f (acquired LkLog k)) Hlk))|].
    by rewrite (section_eq LkLog k f (ca_idle _ _ _ _ _ Hok)). }
  unfold upd_log at 1. change (k_log (acquired LkLog k)) with l. fold l1. rewrite <- En.
  destruct (Z.of_nat j =? lg_n l); cbn [when].
  - rewrite bind_modify. exact (Hfin (set_lg_n (lg_n l + 1) l1)).
  - rewrite bind_mret. exact (Hfin l1).
Qed.

(** [log_write] inside a transaction pins the block's buffer and lists
    the block once: a block already in the transaction is absorbed. *)
Theorem log_write_absorbs me pid k o A start size bl i blk :
  cache k me pid o A → cs_held A !! i = Some blk → log_is (k_log k) start bl → log_geom (io_disksize (k_io k)) start size bl →
  lg_size (k_log k) = size → Z.of_nat (length bl) < size - 1 → 0 < lg_outstanding (k_log k) →
  ∃ k', log_write i k = Ret tt k' ∧ cache k' me pid o (cs_pin blk A) ∧
    log_is (k_log k') start (if decide (blk ∈ bl) then bl else bl ++ [blk]) ∧ k_disk k' = k_disk k.
Proof.
  intros Hok Hh Hlog Hg Hsz Hn Ho. destruct (log_write_run me pid k o A start size bl i blk Hok Hh Hlog Hg Hsz Hn Ho) as (l' & E & Hl' & _).
  eexists. split; [exact E|]. split; [|done].
  assert (Hok' : cache (set_k_log l' (quiet k)) me pid o A).
  { apply cache_set_log. destruct Hok as [H1 H2 H3 H4 H5 H6 H7 H8 H9 H10 H11]. by split. }
  by apply (pin_ok _ me pid o A).
Qed.

(** ** Witness: one block written after boot *)
Definition demo_log : log_t := mk_log_t 2 30 1 0 1 0 (replicate 30 0).
Definition demo_boot_from (d : Z → list Z) (w : option nat) : kernel :=
  set_k_log demo_log (set_k_power w (set_k_bufs boot_bufs (set_k_disk d boot_kernel))).
Definition demo_boot : option nat → kernel := demo_boot_from (λ _, replicate 512 0).
Definition demo_edit : KM nat := i <- bread 1 100 ;; bdata_set i (replicate 512 7) ;; mret i.
Definition demo : KM unit := i <- demo_edit ;; log_write i ;; brelse i.

Lemma demo_boot_cache d w : cache (demo_boot_from d w) 0 0 (rev (seq 0 NBUF)) (cs_boot d).
Proof.
  apply cache_set_log. destruct (boot_cache (set_k_disk d boot_kernel) 0 0) as [H1 H2 H3 H4 H5 H6 H7 H8 H9 H10 H11]; [exact boot_idle| |done|by split].
  exists proc0. split; [split; reflexivity|reflexivity].
Qed.

Lemma demo_geom bl : bl = [] ∨ bl = [100] → log_geom FSSIZE 2 30 bl.
Proof.
  intros H. assert (Hl : (length bl <= 1)%nat) by (by destruct H as [-> | ->]; cbn; lia). split.
  - unfold FSSIZE. change (2 ^ 31) with 2147483648. lia.
  - lia.
  - unfold NBUF. lia.
  - intros b Hb. assert (b = 100) as -> by (destruct H as [-> | ->]; set_solver). unfold FSSIZE. lia.
Qed.

Lemma demo_edited w : ∃ i k A, demo_edit (demo_boot w) = Ret i k ∧ cache k 0 0 (rev (seq 0 NBUF)) A ∧ cs_held A = {[i := 100]} ∧
  cs_dirty A = ∅ ∧ k_log k = demo_log ∧ k_io k = k_io boot_kernel ∧ cs_disk A = (λ _, replicate 512 0) ∧
  cs_view A = fset (λ _, replicate 512 0) 100 (replicate 512 7).
Proof.
  pose proof (demo_boot_cache (λ _, replicate 512 0) w) as Hok. fold demo_boot in Hok.
  destruct (bread_ok _ 0 0 _ _ Hok 100) as (i & b & Hi & E & _ & Hok1); [change (0 <= 100 < FSSIZE); unfold FSSIZE; lia|done|right; vm_compute; lia|].
  destruct (bdata_set_ok _ 0 0 _ _ Hok1 i 100 (replicate 512 7) (lookup_insert_eq _ _ _)) as (k2 & E2 & Hok2 & Hf2 & _).
  exists i, k2, (cs_edit 100 (replicate 512 7) (cs_take i 100 (cs_boot (λ _, replicate 512 0)))).
  destruct (frame_log _ _ Hf2) as (El & Ei & _). split; [|split; [exact Hok2|]].
  - unfold demo_edit. rewrite (bind_Ret_eq _ _ _ _ _ E), (bind_Ret_eq _ _ _ _ _ E2). done.
  - rewrite El, Ei. done.
Qed.

Lemma demo_done w : ∃ k o A, demo (demo_boot w) = Ret tt k ∧ cache k 0 0 o A ∧ cs_held A = ∅ ∧ cs_dirty A = list_to_set [100] ∧
  log_is (k_log k) 2 [100] ∧ io_disksize (k_io k) = FSSIZE ∧ cs_disk A = (λ _, replicate 512 0) ∧
  cs_view A = fset (λ _, replicate 512 0) 100 (replicate 512 7).
Proof.
  destruct (demo_edited w) as (i & k1 & A1 & E1 & Hok1 & Hh1 & HD1 & El1 & Ei1 & Hd1 & Hv1).
  assert (Hh : cs_held A1 !! i = Some 100) by (rewrite Hh1; apply lookup_singleton_eq).
  destruct (log_write_run 0 0 k1 (rev (seq 0 NBUF)) A1 2 30 [] i 100) as (l' & E2 & Hl' & _).
  { exact Hok1. } { exact Hh. } { by rewrite El1. } { rewrite Ei1. apply (demo_geom []). by left. }
  { by rewrite El1. } { cbn. lia. } { rewrite El1. cbn. lia. }
  set (k2 := upd_buf i _ _) in E2.
  assert (Hok2 : cache k2 0 0 (rev (seq 0 NBUF)) (cs_pin 100 A1)).
  { apply pin_ok; [|done]. apply cache_set_log. destruct Hok1 as [H1 H2 H3 H4 H5 H6 H7 H8 H9 H10 H11]. by split. }
  destruct (brelse_ok k2 0 0 _ _ Hok2 i 100 Hh) as (k3 & E3 & Hok3 & Hf3 & _).
  { left. cbn. set_solver. }
  destruct (frame_log _ _ Hf3) as (El3 & Ei3 & _).
  exists k3, (lru i (rev (seq 0 NBUF))), (cs_drop i (cs_pin 100 A1)). split; [|split; [exact Hok3|]].
  - unfold demo. rewrite (bind_Ret_eq _ _ _ _ _ E1), (bind_Ret_eq _ _ _ _ _ E2). exact E3.
  - cbn. rewrite Hh1, HD1, Hd1, Hv1. split; [apply delete_singleton_eq|]. split; [set_solver|]. rewrite El3, Ei3. split; [exact Hl'|].
    split; [|done]. unfold k2, upd_buf. cbn. by rewrite Ei1.
Qed.

Lemma log_write_absorbs_witness : ∃ i k k' A, cs_held A !! i = Some 100 ∧ log_write i k = Ret tt k' ∧
  cache k' 0 0 (rev (seq 0 NBUF)) (cs_pin 100 A) ∧ log_is (k_log k') 2 [100] ∧ k_disk k' = k_disk k.
Proof.
  destruct (demo_edited None) as (i & k1 & A1 & E1 & Hok1 & Hh1 & HD1 & El1 & Ei1 & Hd1 & Hv1).
  assert (Hh : cs_held A1 !! i = Some 100) by (rewrite Hh1; apply lookup_singleton_eq).
  destruct (log_write_absorbs 0 0 k1 (rev (seq 0 NBUF)) A1 2 30 [] i 100) as (k' & H).
  { exact Hok1. } { exact Hh. } { by rewrite El1. } { rewrite Ei1. apply (demo_geom []). by left. }
  { by rewrite El1. } { cbn. lia. } { rewrite El1. cbn. lia. }
  exists i, k1, k', A1. split; [exact Hh|exact H].
Defined.

Lemma commit_atomic_witness : ∃ k o A, demo (demo_boot (Some 2%nat)) = Ret tt k ∧ cs_view A 100 ≠ cs_disk A 100 ∧
  ((∃ k' o' A', commit k = Ret tt k' ∧ cache k' 0 0 o' A' ∧ cs_held A' = ∅ ∧ cs_dirty A' = ∅ ∧ lg_n (k_log k') = 0 ∧
     head_n (cs_disk A' 2) = 0 ∧ same_data 2 30 (cs_disk A') (cs_view A)) ∨
   (∃ k', commit k = Switch LPowerOff k' ∧ k_power k ≠ None ∧ log_disk_ok (io_disksize (k_io k)) 2 30 (k_disk k') ∧
     (same_data 2 30 (recovered 2 (k_disk k')) (cs_disk A) ∨ same_data 2 30 (recovered 2 (k_disk k')) (cs_view A)))) ∧ cache k 0 0 o A.
Proof.
  destruct (demo_done (Some 2%nat)) as (k & o & A & E & Hok & Hh & HD & Hl & Hsz & Hd & Hv). exists k, o, A.
  split; [exact E|]. split; [rewrite Hv, Hd; vm_compute; intros [=]|]. split; [|exact Hok].
  apply (commit_atomic 0 0 k o A 2 30 [100]); [exact Hok|exact Hh|exact HD|apply NoDup_singleton|exact Hl| | |].
  - rewrite Hsz. apply demo_geom. by right.
  - rewrite Hd. reflexivity.
  - rewrite Hd. reflexivity.
Defined.

Lemma recovery_repeatable_witness : let d := λ _ : Z, replicate 512 0 in let k := demo_boot None in
  (∃ k', recover_from_log k = Ret tt k' ∧ head_n (k_disk k' 2) = 0 ∧ same_data 2 30 (k_disk k') (recovered 2 d)) ∨
  (∃ k', recover_from_log k = Switch LPowerOff k' ∧ k_power k ≠ None ∧ k_disk k' 2 = d 2 ∧ ∀ x, recovered 2 (k_disk k') x = recovered 2 d x).
Proof.
  intros d k. apply (recovery_repeatable 0 0 k (rev (seq 0 NBUF)) d 2 30); [exact (demo_boot_cache d None)|split; reflexivity|].
  split; [apply (demo_geom []); by left|vm_compute; by intros [=]|reflexivity].
Defined.

Lemma demo_fails : match (demo ;; commit) (demo_boot (Some 2%nat)) with Switch LPowerOff _ => true | _ => false end = true.
Proof. vm_compute. reflexivity. Qed.

Lemma demo_recovers d : log_disk_ok FSSIZE 2 30 d → ∃ k', recover_from_log (demo_boot_from d None) = Ret tt k'.
Proof.
  intros Hd. pose proof (recover_spec 0 0 (demo_boot_from d None) _ (cs_boot d) 2 30 (demo_boot_cache d None) eq_refl eq_refl) as H.
  destruct (wp_False_inv _ _ _ _ (H ltac:(by split) Hd)) as [([] & k' & E & _)|(c & k' & _ & _ & Hp & _)]; [by exists k'|done].
Qed.

Lemma transaction_all_or_nothing_witness : ∃ k o A k' d', demo (demo_boot (Some 2%nat)) = Ret tt k ∧ cache k 0 0 o A ∧
  commit k = Switch LPowerOff k' ∧ boots FSSIZE 2 (k_disk k') d' ∧
  (same_data 2 30 d' (cs_disk A) ∨ same_data 2 30 d' (cs_view A)).
Proof.
  destruct (demo_done (Some 2%nat)) as (k & o & A & E & Hok & Hh & HD & Hl & Hsz & Hd & Hv).
  assert (Hg : log_geom (io_disksize (k_io k)) 2 30 [100]) by (rewrite Hsz; apply demo_geom; by right).
  pose proof (commit_spec 0 0 k o A 2 30 [100] Hok Hh HD (NoDup_singleton _) Hl Hg ltac:(rewrite Hd; reflexivity) ltac:(rewrite Hd; reflexivity)) as Hc.
  pose proof demo_fails as Hf. rewrite (bind_Ret_eq _ _ _ _ _ E) in Hf.
  destruct (commit k) as [|[] k'| |] eqn:Ec; try done.
  destruct (wp_Switch_inv _ _ _ _ _ _ _ Hc Ec) as (_ & _ & Hdk & _). rewrite Hsz in Hdk.
  destruct (demo_recovers (k_disk k') Hdk) as (k2 & Er).
  assert (Hb : boots FSSIZE 2 (k_disk k') (k_disk k2)).
  { eapply (boot_last _ _ 0 0 (demo_boot_from (k_disk k') None)); [exact (demo_boot_cache _ _)|by split|done|exact Er]. }
  exists k, o, A, k', (k_disk k2). split; [exact E|]. split; [exact Hok|]. split; [exact Ec|]. split; [exact Hb|].
  apply (transaction_all_or_nothing 0 0 k o A 2 30 [100] k'); [exact Hok|exact Hh|exact HD|apply NoDup_singleton|exact Hl|exact Hg| | |exact Ec|].
  - rewrite Hd. reflexivity.
  - rewrite Hd. reflexivity.
  - rewrite Hsz. exact Hb.
Defined.
