(* ===== verification/Inode.v ===== *)
(** * Inode: blocks and inodes (the first half of fs.c, fs.h, file.h)

    The block allocator on the free bitmap, the inode cache, and the map from
    file offsets to disk blocks. An in-memory inode is its index in
    [icache.inode]. *)

From S2P Require Import Prelude CString Kernel Sched Kalloc Fifo Paging Vmem Cons Sleeplock Bio Log.

(** ** Definitions *)
Definition ROOTINO : Z := 1.
Definition NDIRECT : nat := 12.
Definition NINDIRECT : nat := 128.
Definition MAXFILE : Z := Z.of_nat (NDIRECT + NINDIRECT).
Definition IPB : Z := BSIZE / 64.
Definition BPB : Z := BSIZE * 8.
Definition IBLOCK (i : Z) (sb : superblock) : Z := u32 (i / IPB + sb_inodestart sb).
Definition BBLOCK (b : Z) (sb : superblock) : Z := u32 (b / BPB + sb_bmapstart sb).
Definition T_DIR : Z := 1.
Definition T_FILE : Z := 2.
Definition T_DEV : Z := 3.
Definition s16 (x : Z) : Z := (x + 2 ^ 15) mod 2 ^ 16 - 2 ^ 15.

Definition sb_get : KM superblock := gets k_sb.

Definition bzero (dev bno : Z) : KM unit :=
  bp <- bread dev bno ;;
  bdata_set bp (replicate 512 0) ;;
  log_write bp ;;
  brelse bp.

(** Bit [bi] of the bitmap block [d]: [d[bi/8] & (1 << bi%8)]. *)
Definition bit_of (bi : Z) (d : list Z) : bool :=
  negb (Z.land (default 0 (d !! Z.to_nat (bi / 8))) (Z.shiftl 1 (bi mod 8)) =? 0).
Definition bit_put (bi : Z) (v : bool) (d : list Z) : list Z :=
  let x := default 0 (d !! Z.to_nat (bi / 8)) in
  let m := Z.shiftl 1 (bi mod 8) in
  <[Z.to_nat (bi / 8) := u8 (if v then Z.lor x m else Z.land x (Z.lnot m))]> d.

(** The inner loop of [balloc]: the first free bit of the block. *)
Definition balloc_scan (d : list Z) (b size : Z) : option Z :=
  let n := Z.to_nat (Z.min BPB (size - b)) in
  Z.of_nat <$> find_idx (λ bi, negb (bit_of (Z.of_nat bi) d)) (seq 0 n).
Fixpoint balloc_loop (fuel : nat) (dev b : Z) : KM Z :=
  sb <- sb_get ;;
  if negb (b <? sb_size sb) then panic "balloc: out of blocks" else
  match fuel with
  | O => fault "balloc: out of fuel"
  | S fuel =>
      bp <- bread dev (BBLOCK b sb) ;;
      d <- bdata bp ;;
      match balloc_scan d b (sb_size sb) with
      | Some bi =>
          bdata_set bp (bit_put bi true d) ;;
          log_write bp ;;
          brelse bp ;;
          bzero dev (b + bi) ;;
          mret (b + bi)
      | None =>
          brelse bp ;;
          balloc_loop fuel dev (b + BPB)
      end
  end.
Definition balloc (dev : Z) : KM Z :=
  sb <- sb_get ;;
  balloc_loop (S (Z.to_nat (sb_size sb / BPB))) dev 0.

Definition bfree (dev b : Z) : KM unit :=
  sb <- readsb dev ;;
  modify (set_k_sb sb) ;;
  bp <- bread dev (BBLOCK b sb) ;;
  d <- bdata bp ;;
  let bi := b mod BPB in
  if negb (bit_of bi d) then panic "freeing free block" else
  bdata_set bp (bit_put bi false d) ;;
  log_write bp ;;
  brelse bp.

Definition iinit (dev : Z) : KM unit :=
  mfor (seq 0 NINODE) (λ i, initsleeplock (SlInode i)) ;;
  sb <- readsb dev ;;
  modify (set_k_sb sb) ;;
  cprintf "sb: size %d nblocks %d ninodes %d nlog %d logstart %d inodestart %d bmap start %d
"
    [AInt (sb_size sb); AInt (sb_nblocks sb); AInt (sb_ninodes sb); AInt (sb_nlog sb);
     AInt (sb_logstart sb); AInt (sb_inodestart sb); AInt (sb_bmapstart sb)].

(** *** On-disk inodes: 64 bytes, [type] at 0 ... [addrs] at 12 *)
Definition ip_at (i : nat) : KM inode :=
  ip <- gets (λ k, k_inodes k !! i) ;;
  deref "inode" ip.
Definition dinode_off (inum : Z) : nat := Z.to_nat (64 * (inum mod IPB)).

Definition put_addrs (off : nat) (a : list Z) (d : list Z) : list Z :=
  splice off (concat (le_bytes 4 <$> a)) d.
Definition get_addrs (off : nat) (d : list Z) : list Z :=
  (λ j, get32 (off + 4 * j) d) <$> seq 0 (S NDIRECT).
Definition dinode_put (ip : inode) (off : nat) (d : list Z) : list Z :=
  put_addrs (off + 12) (i_addrs ip)
    (put32 (off + 8) (i_size ip) (put16 (off + 6) (i_nlink ip) (put16 (off + 4) (i_minor ip)
      (put16 (off + 2) (i_major ip) (put16 off (i_type ip) d))))).
Definition dinode_load (off : nat) (d : list Z) (ip : inode) : inode :=
  set_i_addrs (get_addrs (off + 12) d)
    (set_i_size (get32 (off + 8) d) (set_i_nlink (s16 (get16 (off + 6) d)) (set_i_minor (s16 (get16 (off + 4) d))
      (set_i_major (s16 (get16 (off + 2) d)) (set_i_type (s16 (get16 off d)) ip))))).

(** The cached entry of [inum], else the first unreferenced one. *)
Definition iget_match (dev inum : Z) (ip : inode) : bool :=
  (0 <? i_ref ip) && (i_dev ip =? dev) && (i_inum ip =? inum).
Definition iget (dev inum : Z) : KM nat :=
  acquire LkIcache ;;
  l <- gets k_inodes ;;
  match find_idx (iget_match dev inum) l with
  | Some i =>
      modify (upd_inode i (λ ip, set_i_ref (i_ref ip + 1) ip)) ;;
      release LkIcache ;;
      mret i
  | None =>
      match find_idx (λ ip, i_ref ip =? 0) l with
      | None => panic "iget: no inodes"
      | Some i =>
          modify (upd_inode i (λ ip,
            set_i_valid 0 (set_i_ref 1 (set_i_inum inum (set_i_dev dev ip))))) ;;
          release LkIcache ;;
          mret i
      end
  end.

(** [for(inum = 1; inum < sb.ninodes; inum++)] *)
Fixpoint ialloc_loop (fuel : nat) (dev type inum : Z) : KM nat :=
  sb <- sb_get ;;
  if negb (inum <? sb_ninodes sb) then panic "ialloc: no inodes" else
  match fuel with
  | O => fault "ialloc: out of fuel"
  | S fuel =>
      bp <- bread dev (IBLOCK inum sb) ;;
      d <- bdata bp ;;
      let off := dinode_off inum in
      if s16 (get16 off d) =? 0 then
        bdata_set bp (put16 off type (splice off (replicate 64 0) d)) ;;
        log_write bp ;;
        brelse bp ;;
        iget dev inum
      else
        brelse bp ;;
        ialloc_loop fuel dev type (inum + 1)
  end.
Definition ialloc (dev type : Z) : KM nat :=
  sb <- sb_get ;;
  ialloc_loop (Z.to_nat (sb_ninodes sb)) dev type 1.

Definition iupdate (i : nat) : KM unit :=
  ip <- ip_at i ;;
  sb <- sb_get ;;
  bp <- bread (i_dev ip) (IBLOCK (i_inum ip) sb) ;;
  d <- bdata bp ;;
  bdata_set bp (dinode_put ip (dinode_off (i_inum ip)) d) ;;
  log_write bp ;;
  brelse bp.

Definition idup (i : nat) : KM nat :=
  acquire LkIcache ;;
  modify (upd_inode i (λ ip, set_i_ref (i_ref ip + 1) ip)) ;;
  release LkIcache ;;
  mret i.

Definition ilock (i : nat) : KM unit :=
  ip <- ip_at i ;;
  if i_ref ip <? 1 then panic "ilock" else
  acquiresleep (SlInode i) ;;
  ip <- ip_at i ;;
  when (i_valid ip =? 0)
    (sb <- sb_get ;;
     bp <- bread (i_dev ip) (IBLOCK (i_inum ip) sb) ;;
     d <- bdata bp ;;
     modify (upd_inode i (dinode_load (dinode_off (i_inum ip)) d)) ;;
     brelse bp ;;
     modify (upd_inode i (set_i_valid 1)) ;;
     ip <- ip_at i ;;
     if i_type ip =? 0 then panic "ilock: no type" else mret tt).

Definition iunlock (i : nat) : KM unit :=
  h <- holdingsleep (SlInode i) ;;
  if negb h then panic "iunlock" else
  ip <- ip_at i ;;
  if i_ref ip <? 1 then panic "iunlock" else
  releasesleep (SlInode i).

(** *** Truncation *)
Definition addr_at (i : nat) (j : nat) : KM Z :=
  ip <- ip_at i ;;
  deref "addrs" (i_addrs ip !! j).
Definition addr_set (i : nat) (j : nat) (v : Z) : KM unit :=
  modify (upd_inode i (λ ip, set_i_addrs (<[j := v]> (i_addrs ip)) ip)).

Definition itrunc (i : nat) : KM unit :=
  ip <- ip_at i ;;
  let dev := i_dev ip in
  mfor (seq 0 NDIRECT) (λ j,
    a <- addr_at i j ;;
    when (negb (a =? 0)) (bfree dev a ;; addr_set i j 0)) ;;
  a <- addr_at i NDIRECT ;;
  when (negb (a =? 0))
    (bp <- bread dev a ;;
     mfor (seq 0 NINDIRECT) (λ j,
       d <- bdata bp ;;
       let e := get32 (4 * j) d in
       when (negb (e =? 0)) (bfree dev e)) ;;
     brelse bp ;;
     bfree dev a ;;
     addr_set i NDIRECT 0) ;;
  modify (upd_inode i (set_i_size 0)) ;;
  iupdate i.

Definition iput (i : nat) : KM unit :=
  acquiresleep (SlInode i) ;;
  ip <- ip_at i ;;
  when (negb (i_valid ip =? 0) && (i_nlink ip =? 0))
    (acquire LkIcache ;;
     ip <- ip_at i ;;
     let r := i_ref ip in
     release LkIcache ;;
     when (r =? 1)
       (itrunc i ;;
        modify (upd_inode i (set_i_type 0)) ;;
        iupdate i ;;
        modify (upd_inode i (set_i_valid 0)))) ;;
  releasesleep (SlInode i) ;;
  acquire LkIcache ;;
  modify (upd_inode i (λ ip, set_i_ref (i_ref ip - 1) ip)) ;;
  release LkIcache.

Definition iunlockput (i : nat) : KM unit :=
  iunlock i ;;
  iput i.

(** The disk block of block [bn] of the file, allocated if there is none. *)
Definition bmap (i : nat) (bn : Z) : KM Z :=
  ip <- ip_at i ;;
  let dev := i_dev ip in
  if bn <? Z.of_nat NDIRECT then
    a <- addr_at i (Z.to_nat bn) ;;
    if a =? 0 then a <- balloc dev ;; addr_set i (Z.to_nat bn) a ;; mret a else mret a
  else
  let bn := bn - Z.of_nat NDIRECT in
  if bn <? Z.of_nat NINDIRECT then
    a <- addr_at i NDIRECT ;;
    a <- (if a =? 0 then a <- balloc dev ;; addr_set i NDIRECT a ;; mret a else mret a) ;;
    bp <- bread dev a ;;
    d <- bdata bp ;;
    let e := get32 (4 * Z.to_nat bn) d in
    if e =? 0 then
      e <- balloc dev ;;
      d <- bdata bp ;;
      bdata_set bp (put32 (4 * Z.to_nat bn) e d) ;;
      log_write bp ;;
      brelse bp ;;
      mret e
    else
      brelse bp ;;
      mret e
  else panic "bmap: out of range".
