(* ===== verification/BlockSpec.v ===== *)
(** * BlockSpec: blocks and inodes inside a transaction

    [intx]: the current process is the cache's only user and inside a
    transaction; the dirty blocks are those the log lists. On it the block
    allocator works on the free bitmap, and inodes go to the disk and come
    back unchanged. *)

From S2P Require Import Prelude Dll CString Kernel Sched Sock Kalloc Fifo Paging Vmem Sleeplock LockSpec Bio BioSpec Log LogSpec Cons Inode.

(** ** Definitions *)

Record intx (me : nat) (pid start size : Z) (k : kernel) (A : cstate) (bl : list Z) : Prop := mk_intx {
  tx_cache : ∃ o, cache k me pid o A;
  tx_log : log_is (k_log k) start bl;
  tx_geom : log_geom (io_disksize (k_io k)) start size bl;
  tx_size : lg_size (k_log k) = size;
  tx_open : lg_outstanding (k_log k) = 1 ∧ lg_committing (k_log k) = 0;
  tx_dirty : cs_dirty A = list_to_set bl;
  tx_nodup : NoDup bl;
}.

(** A block the log may list: on the disk, outside the log. *)
Definition home (disksize start size blk : Z) : Prop := 0 <= blk < disksize ∧ ¬ (start <= blk < start + size).

(** ** Frames *)
Lemma fs_frame_fields k k' : fs_frame k k' →
  k_io k' = k_io k ∧ k_sb k' = k_sb k ∧ k_inodes k' = k_inodes k ∧ k_mem k' = k_mem k ∧ k_files k' = k_files k ∧ k_cur k' = k_cur k.
Proof. intros (c & P & B & d & w & -> & _). done. Qed.

(** ** Rules *)
Section tx.
Variables (me : nat) (pid start size : Z).
Notation tx := (intx me pid start size).

Lemma tx_frame k k' A bl : bio_frame k k' → (∃ o, cache k' me pid o A) → cs_dirty A = list_to_set bl →
  ∀ A0, tx k A0 bl → tx k' A bl.
Proof using.
  intros Hf Hc Hd A0 [_ H2 H3 H4 H5 _ H7]. destruct (frame_log _ _ Hf) as (El & Ei & _). split; rewrite ?El, ?Ei; done.
Qed.

Lemma wp_bread_tx k A bl blk (Q : nat → kernel → Prop) R : tx k A bl → 0 <= blk < io_disksize (k_io k) →
  (∀ i, cs_held A !! i ≠ Some blk) → blk ∈ cs_dirty A ∨ (base.size (cs_busy A) < NBUF)%nat →
  (∀ i k', cs_held A !! i = None → tx k' (cs_take i blk A) bl → fs_frame k k' → Q i k') → wp False (bread 1 blk) Q R k.
Proof using.
  intros Htx Hr Hnh Hroom HQ. destruct (tx_cache _ _ _ _ _ _ _ Htx) as [o Hok].
  destruct (bread_ok k me pid o A Hok blk Hr Hnh Hroom) as (i & b & Hi & E & _ & Hok').
  pose proof (quiet_frame k (<[i := b]> (k_bufs k))) as Hf. eapply wp_of_Ret; [exact E|].
  apply HQ; [done| |by apply bio_fs_frame]. eapply tx_frame; [exact Hf|by exists o|by apply Htx|exact Htx].
Qed.

Lemma wp_bdata_tx k A bl i blk (Q : list Z → kernel → Prop) R : tx k A bl → cs_held A !! i = Some blk →
  Q (cs_view A blk) k → wp False (bdata i) Q R k.
Proof using.
  intros Htx Hh HQ. destruct (tx_cache _ _ _ _ _ _ _ Htx) as [o Hok]. eapply wp_of_Ret; [by apply (bdata_ok k me pid o A)|done].
Qed.

Lemma wp_bdata_set_tx k A bl i blk d (Q : unit → kernel → Prop) R : tx k A bl → cs_held A !! i = Some blk →
  (∀ k', tx k' (cs_edit blk d A) bl → fs_frame k k' → Q tt k') → wp False (bdata_set i d) Q R k.
Proof using.
  intros Htx Hh HQ. destruct (tx_cache _ _ _ _ _ _ _ Htx) as [o Hok].
  destruct (bdata_set_ok k me pid o A Hok i blk d Hh) as (k' & E & Hok' & Hf & _). eapply wp_of_Ret; [exact E|].
  apply HQ; [|by apply bio_fs_frame]. eapply tx_frame; [exact Hf|by exists o|by apply Htx|exact Htx].
Qed.

Lemma wp_brelse_tx k A bl i blk (Q : unit → kernel → Prop) R : tx k A bl → cs_held A !! i = Some blk →
  blk ∈ cs_dirty A ∨ cs_view A blk = cs_disk A blk →
  (∀ k', tx k' (cs_drop i A) bl → fs_frame k k' → Q tt k') → wp False (brelse i) Q R k.
Proof using.
  intros Htx Hh Hc HQ. destruct (tx_cache _ _ _ _ _ _ _ Htx) as [o Hok].
  destruct (brelse_ok k me pid o A Hok i blk Hh Hc) as (k' & E & Hok' & Hf & _). eapply wp_of_Ret; [exact E|].
  apply HQ; [|by apply bio_fs_frame]. eapply tx_frame; [exact Hf|by eexists|by apply Htx|exact Htx].
Qed.

Lemma logged_dirty bl blk : list_to_set (logged_blocks bl blk) = ({[blk]} ∪ list_to_set bl : gset Z).
Proof using. unfold logged_blocks. case_decide; [set_solver|]. rewrite list_to_set_app_L. set_solver. Qed.

Lemma logged_nodup bl blk : NoDup bl → NoDup (logged_blocks bl blk).
Proof using.
  intros H. unfold logged_blocks. case_decide; [done|]. apply list.NoDup_app. split; [done|]. split; [set_solver|apply NoDup_singleton].
Qed.

Lemma logged_length bl blk : (length (logged_blocks bl blk) <= S (length bl))%nat.
Proof using. unfold logged_blocks. case_decide; [lia|]. rewrite length_app. cbn. lia. Qed.

Lemma logged_geom sz bl blk : log_geom sz start size bl → home sz start size blk → Z.of_nat (length bl) < size - 1 → (S (length bl) < NBUF)%nat →
  log_geom sz start size (logged_blocks bl blk).
Proof using.
  intros [H1 H2 H3 H4] Hh Hn Hm. pose proof (logged_length bl blk). split; [done|lia|lia|].
  intros b Hb. unfold logged_blocks in Hb. case_decide; [by apply H4|]. apply elem_of_app in Hb as [Hb|Hb]; [by apply H4|].
  apply list_elem_of_singleton in Hb as ->. done.
Qed.

Lemma wp_log_write_tx k A bl i blk (Q : unit → kernel → Prop) R : tx k A bl → cs_held A !! i = Some blk →
  home (io_disksize (k_io k)) start size blk → Z.of_nat (length bl) < size - 1 → (S (length bl) < NBUF)%nat →
  (∀ k', tx k' (cs_pin blk A) (logged_blocks bl blk) → fs_frame k k' → Q tt k') → wp False (log_write i) Q R k.
Proof using.
  intros Htx Hh Hhome Hn Hm HQ. pose proof Htx as [[o Hok] Hlog Hg Hsz [Hop Hcm] Hd Hnd].
  destruct (log_write_run me pid k o A start size bl i blk Hok Hh Hlog Hg Hsz Hn ltac:(lia)) as (l' & E & Hl' & Hsz' & Hop' & Hcm').
  eapply wp_of_Ret; [exact E|].
  assert (Hok' : cache (set_k_log l' (quiet k)) me pid o A).
  { apply cache_set_log. destruct Hok as [H1 H2 H3 H4 H5 H6 H7 H8 H9 H10 H11]. by split. }
  pose proof (pin_ok _ me pid o A Hok' i blk Hh) as Hok2. apply HQ.
  - split; cbn; [by exists o|done|by apply logged_geom|done|by rewrite Hop', Hcm'|by rewrite logged_dirty, Hd|by apply logged_nodup].
  - exists (k_cpu (quiet k)), (k_procs k), (alter (λ r, set_b_flags (Z.lor (b_flags r) B_DIRTY) r) i (k_bufs k)), (k_disk k), (k_power k).
    split; [by destruct k|done].
Qed.
End tx.

(** ** The free bitmap *)
Lemma land_bit_testbit x i : 0 <= i → (Z.land x (Z.shiftl 1 i) =? 0) = negb (Z.testbit x i).
Proof.
  intros Hi. rewrite Z.shiftl_1_l. destruct (Z.testbit x i) eqn:E; cbn.
  - apply Z.eqb_neq. intros H. apply (f_equal (λ z, Z.testbit z i)) in H. rewrite Z.land_spec, E, Z.pow2_bits_true, Z.bits_0 in H by lia. done.
  - apply Z.eqb_eq. apply Z.bits_inj'. intros n Hn. rewrite Z.land_spec, Z.bits_0. destruct (decide (n = i)) as [->|Hne]; [by rewrite E|].
    rewrite Z.pow2_bits_false by lia. apply andb_false_r.
Qed.

Lemma bit_of_testbit bi d : 0 <= bi → bit_of bi d = Z.testbit (default 0 (d !! Z.to_nat (bi / 8))) (bi mod 8).
Proof. intros H. unfold bit_of. rewrite land_bit_testbit by divlia. apply negb_involutive. Qed.

Lemma testbit_u8 x i : 0 <= i < 8 → Z.testbit (u8 x) i = Z.testbit x i.
Proof. intros H. unfold u8. by rewrite Z.mod_pow2_bits_low by lia. Qed.

(** Setting or clearing a bit changes that bit only. *)
Lemma bit_of_put bi bi' v d : 0 <= bi → 0 <= bi' → (Z.to_nat (bi / 8) < length d)%nat →
  bit_of bi' (bit_put bi v d) = if bi' =? bi then v else bit_of bi' d.
Proof.
  intros H H' Hl. rewrite !bit_of_testbit by done. unfold bit_put.
  destruct (decide (bi' / 8 = bi / 8)) as [E|E].
  - rewrite E, list_lookup_insert_eq by done. cbn [from_option id]. rewrite testbit_u8 by divlia.
    assert (E8 : (bi' =? bi) = (bi' mod 8 =? bi mod 8)) by (apply eq_true_iff_eq; rewrite !Z.eqb_eq; divlia). rewrite E8.
    rewrite Z.shiftl_1_l. destruct (Z.eqb_spec (bi' mod 8) (bi mod 8)) as [->|Hn].
    + destruct v; [rewrite Z.lor_spec, Z.pow2_bits_true by divlia; apply orb_true_r|].
      rewrite Z.land_spec, Z.lnot_spec, Z.pow2_bits_true by divlia. apply andb_false_r.
    + destruct v; [rewrite Z.lor_spec, Z.pow2_bits_false by lia; apply orb_false_r|].
      rewrite Z.land_spec, Z.lnot_spec, Z.pow2_bits_false by divlia. apply andb_true_r.
  - rewrite (proj2 (Z.eqb_neq bi' bi)) by (intros ->; done). rewrite list_lookup_insert_ne; [done|]. intros Hx. apply E.
    assert (0 <= bi' / 8 ∧ 0 <= bi / 8) by divlia. lia.
Qed.

Lemma length_bit_put bi v d : length (bit_put bi v d) = length d.
Proof. apply length_insert. Qed.

(** ** Reading, and changing one block *)
Definition cs_update (blk : Z) (d : list Z) (A : cstate) : cstate := cs_pin blk (cs_edit blk d A).

Lemma cs_drop_take i blk A : cs_held A !! i = None → cs_drop i (cs_take i blk A) = A.
Proof. intros H. unfold cs_drop, cs_take. cbn. rewrite delete_insert_id by done. by destruct A. Qed.

Lemma cs_drop_update i blk d A : cs_held A !! i = None →
  cs_drop i (cs_pin blk (cs_edit blk d (cs_take i blk A))) = cs_update blk d A.
Proof. intros H. unfold cs_drop, cs_pin, cs_edit, cs_take, cs_update. cbn. by rewrite delete_insert_id. Qed.

Lemma busy_update blk d A : (base.size (cs_busy (cs_update blk d A)) <= S (base.size (cs_busy A)))%nat.
Proof.
  unfold cs_busy, cs_update. cbn. rewrite <- union_assoc_L. rewrite size_union_alt, size_singleton.
  pose proof (subseteq_size ((cs_dirty A ∪ map_img (cs_held A)) ∖ {[blk]}) (cs_dirty A ∪ map_img (cs_held A)) ltac:(set_solver)). lia.
Qed.

Section blocks.
Variables (me : nat) (pid start size : Z).
Notation tx := (intx me pid start size).

(** Room in the log for [n] more blocks. *)
Definition log_room (n : nat) (bl : list Z) : Prop :=
  Z.of_nat (length bl + n) <= size - 1 ∧ (length bl + n < NBUF)%nat.

Lemma log_room_logged n bl blk : log_room (S n) bl → log_room n (logged_blocks bl blk).
Proof using. intros [H1 H2]. pose proof (logged_length bl blk). split; lia. Qed.

Lemma wp_update_tail k A bl i blk x (Q : unit → kernel → Prop) R :
  tx k (cs_take i blk A) bl → cs_held A !! i = None → home (io_disksize (k_io k)) start size blk → log_room 1 bl →
  (∀ k', tx k' (cs_update blk x A) (logged_blocks bl blk) → fs_frame k k' → Q tt k') →
  wp False (bdata_set i x ;; log_write i ;; brelse i) Q R k.
Proof using.
  intros Htx Hi Hh [Hr1 Hr2] HQ. apply wp_bind. eapply (wp_bdata_set_tx me pid start size); [exact Htx|apply lookup_insert_eq|].
  intros k1 H1 F1. apply wp_bind. eapply (wp_log_write_tx me pid start size); [exact H1|apply lookup_insert_eq| |lia|lia|].
  { by rewrite (proj1 (fs_frame_fields _ _ F1)). }
  intros k2 H2 F2. eapply (wp_brelse_tx me pid start size); [exact H2|apply lookup_insert_eq|left; cbn; set_solver|].
  intros k3 H3 F3. apply HQ; [|by etrans; [exact F1|etrans]]. by rewrite cs_drop_update in H3.
Qed.

Lemma wp_update_then {B} k A bl i blk x (m : KM B) (Q : B → kernel → Prop) R :
  tx k (cs_take i blk A) bl → cs_held A !! i = None → home (io_disksize (k_io k)) start size blk → log_room 1 bl →
  (∀ k', tx k' (cs_update blk x A) (logged_blocks bl blk) → fs_frame k k' → wp False m Q R k') →
  wp False (bdata_set i x ;; log_write i ;; brelse i ;; m) Q R k.
Proof using.
  intros Htx Hi Hh [Hr1 Hr2] HQ. apply wp_bind. eapply (wp_bdata_set_tx me pid start size); [exact Htx|apply lookup_insert_eq|].
  intros k1 H1 F1. apply wp_bind. eapply (wp_log_write_tx me pid start size); [exact H1|apply lookup_insert_eq| |lia|lia|].
  { by rewrite (proj1 (fs_frame_fields _ _ F1)). }
  intros k2 H2 F2. apply wp_bind. eapply (wp_brelse_tx me pid start size); [exact H2|apply lookup_insert_eq|left; cbn; set_solver|].
  intros k3 H3 F3. apply HQ; [|by etrans; [exact F1|etrans]]. by rewrite cs_drop_update in H3.
Qed.

(** [brelse] of a block just read. *)
Lemma wp_brelse_read k A bl i blk (Q : unit → kernel → Prop) R :
  tx k (cs_take i blk A) bl → cs_held A !! i = None → (∀ j, cs_held A !! j ≠ Some blk) → ∀ k0, tx k0 A bl →
  (∀ k', tx k' A bl → fs_frame k k' → Q tt k') → wp False (brelse i) Q R k.
Proof using.
  intros Htx Hi Hnh k0 H0 HQ. eapply (wp_brelse_tx me pid start size); [exact Htx|apply lookup_insert_eq| |].
  { cbn. destruct (decide (blk ∈ cs_dirty A)); [by left|right]. destruct (tx_cache _ _ _ _ _ _ _ H0) as [o Hok].
    by apply (ca_clean _ _ _ _ _ Hok). }
  intros k' H' F'. apply HQ; [|done]. by rewrite cs_drop_take in H'.
Qed.

Lemma wp_bzero k A bl blk (Q : unit → kernel → Prop) R :
  tx k A bl → home (io_disksize (k_io k)) start size blk → (∀ i, cs_held A !! i ≠ Some blk) →
  (base.size (cs_busy A) < NBUF)%nat → log_room 1 bl →
  (∀ k', tx k' (cs_update blk (replicate 512 0) A) (logged_blocks bl blk) → fs_frame k k' → Q tt k') →
  wp False (bzero 1 blk) Q R k.
Proof using.
  intros Htx Hh Hnh Hroom Hlog HQ. unfold bzero. apply wp_bind.
  eapply (wp_bread_tx me pid start size); [exact Htx|apply Hh|done|by right|]. intros i k1 Hi H1 F1.
  eapply wp_update_tail; [exact H1|done| |done|].
  { by rewrite (proj1 (fs_frame_fields _ _ F1)). }
  intros k2 H2 F2. apply HQ; [done|by etrans].
Qed.

(** *** [balloc] *)
Lemma balloc_scan_Some d b sz bi : balloc_scan d b sz = Some bi ↔
  0 <= bi < Z.min BPB (sz - b) ∧ bit_of bi d = false ∧ ∀ bj, 0 <= bj < bi → bit_of bj d = true.
Proof using.
  unfold balloc_scan. set (n := Z.to_nat (Z.min BPB (sz - b))). rewrite fmap_Some. setoid_rewrite find_idx_Some. split.
  - intros (i & [(x & Hx & Hp) Hj] & ->). apply lookup_seq in Hx as [-> Hlt]. split; [lia|]. split.
    { by apply negb_true_iff in Hp. }
    intros bj Hbj. specialize (Hj (Z.to_nat bj) (Z.to_nat bj)). apply negb_false_iff. rewrite <- (Z2Nat.id bj) at 1 by lia.
    apply Hj; [lia|]. apply lookup_seq. lia.
  - intros (Hr & Hf & Hj). exists (Z.to_nat bi). split; [|lia]. split.
    + exists (Z.to_nat bi). split; [apply lookup_seq; lia|]. rewrite Z2Nat.id by lia. by rewrite Hf.
    + intros j y Hlt Hy. apply lookup_seq in Hy as [-> _]. rewrite (Hj (Z.of_nat (0 + j))) by lia. done.
Qed.

Lemma balloc_scan_None d b sz : balloc_scan d b sz = None ↔ ∀ bj, 0 <= bj < Z.min BPB (sz - b) → bit_of bj d = true.
Proof using.
  unfold balloc_scan. rewrite fmap_None, find_idx_None. split.
  - intros H bj Hbj. specialize (H (Z.to_nat bj) (Z.to_nat bj)). apply negb_false_iff. rewrite <- (Z2Nat.id bj) at 1 by lia.
    apply H. apply lookup_seq. lia.
  - intros H j y Hy. apply lookup_seq in Hy as [-> Hlt]. rewrite H by lia. done.
Qed.

(** Block [b] is in use. *)
Definition in_use (sb : superblock) (v : Z → list Z) (b : Z) : bool := bit_of (b mod BPB) (v (BBLOCK b sb)).

(** The bitmap lies on the disk, outside the log, and is not held. *)
Record bitmap_ok (sb : superblock) (disksize : Z) (A : cstate) : Prop := mk_bitmap_ok {
  bm_size : 0 <= sb_size sb <= 2 ^ 31;
  bm_home : ∀ b, 0 <= b < sb_size sb → home disksize start size (BBLOCK b sb) ∧ ∀ i, cs_held A !! i ≠ Some (BBLOCK b sb);
  bm_len : ∀ b, length (cs_view A b) = 512%nat;
}.

(** The first free block, a block that may be used for data. *)
Record first_free (sb : superblock) (disksize : Z) (A : cstate) (b : Z) : Prop := mk_first_free {
  ff_range : 0 <= b < sb_size sb;
  ff_free : in_use sb (cs_view A) b = false;
  ff_first : ∀ b', 0 <= b' < b → in_use sb (cs_view A) b' = true;
  ff_home : home disksize start size b;
  ff_held : ∀ i, cs_held A !! i ≠ Some b;
  ff_data : ∀ b', 0 <= b' < sb_size sb → BBLOCK b' sb ≠ b;
}.

(** What [balloc] does: mark and clear the block. *)
Definition balloc_view (sb : superblock) (b : Z) (v : Z → list Z) : Z → list Z :=
  fset (fset v (BBLOCK b sb) (bit_put (b mod BPB) true (v (BBLOCK b sb)))) b (replicate 512 0).

Lemma BPB_eq : BPB = 4096.
Proof using. reflexivity. Qed.

Lemma BBLOCK_same sb b bi : b mod BPB = 0 → 0 <= bi < BPB → BBLOCK (b + bi) sb = BBLOCK b sb ∧ (b + bi) mod BPB = bi.
Proof using. rewrite BPB_eq. intros Hb Hbi. unfold BBLOCK. rewrite BPB_eq. split; [do 2 f_equal; divlia|divlia]. Qed.

Lemma wp_balloc_loop sb b0 fuel : ∀ k A bl b (Q : Z → kernel → Prop) R,
  tx k A bl → k_sb k = sb → bitmap_ok sb (io_disksize (k_io k)) A → first_free sb (io_disksize (k_io k)) A b0 →
  (S (base.size (cs_busy A)) < NBUF)%nat → log_room 2 bl →
  b mod BPB = 0 → 0 <= b <= b0 → (b0 - b) / BPB < Z.of_nat fuel →
  (∀ k' A' bl', tx k' A' bl' → fs_frame k k' → cs_held A' = cs_held A → cs_view A' = balloc_view sb b0 (cs_view A) →
     cs_disk A' = cs_disk A → bl' = logged_blocks (logged_blocks bl (BBLOCK b0 sb)) b0 → Q b0 k') →
  wp False (balloc_loop fuel 1 b) Q R k.
Proof using.
  induction fuel as [|fuel IH]; intros k A bl b Q R Htx Hsb Hbm Hff Hroom Hlog Hb Hle Hf HQ.
  { exfalso. assert (0 <= (b0 - b) / BPB) by (apply Z.div_pos; [lia|rewrite BPB_eq; lia]). lia. }
  pose proof (ff_range _ _ _ _ Hff) as Hb0. cbn [balloc_loop]. unfold sb_get. apply wp_bind, wp_gets. rewrite Hsb.
  rewrite (proj2 (Z.ltb_lt _ _)) by lia. cbn [negb].
  destruct (bm_home _ _ _ Hbm b ltac:(lia)) as [Hhome Hnh].
  apply wp_bind. eapply (wp_bread_tx me pid start size); [exact Htx|apply Hhome|exact Hnh|right; lia|]. intros i k1 Hi H1 F1.
  apply wp_bind. eapply (wp_bdata_tx me pid start size); [exact H1|apply lookup_insert_eq|]. cbn [cs_take cs_view].
  destruct (fs_frame_fields _ _ F1) as (Eio & Esb & _).
  destruct (balloc_scan (cs_view A (BBLOCK b sb)) b (sb_size sb)) as [bi|] eqn:E.
  - apply balloc_scan_Some in E as (Hr & Hfree & Hfirst). destruct (BBLOCK_same sb b bi Hb ltac:(lia)) as [EB Em].
    assert (E0 : b + bi = b0).
    { destruct (Z.lt_trichotomy (b + bi) b0) as [Hlt|[?|Hgt]]; [|done|].
      - pose proof (ff_first _ _ _ _ Hff (b + bi) ltac:(lia)) as Hu. unfold in_use in Hu. rewrite EB, Em in Hu. congruence.
      - pose proof (ff_free _ _ _ _ Hff) as Hu. destruct (BBLOCK_same sb b (b0 - b) Hb ltac:(lia)) as [EB' Em'].
        replace (b + (b0 - b)) with b0 in EB', Em' by lia. unfold in_use in Hu. rewrite EB', Em' in Hu.
        rewrite Hfirst in Hu by lia. done. }
    pose proof (fs_frame_fields _ _ F1) as (Eio1 & _).
    eapply wp_update_then; [exact H1|done|by rewrite Eio1|destruct Hlog; split; lia|]. intros k2 H2 F2.
    destruct (fs_frame_fields _ _ F2) as (Eio2 & _). rewrite E0. apply wp_bind.
    assert (Hne : BBLOCK b sb ≠ b0) by (apply (ff_data _ _ _ _ Hff); lia).
    pose proof (busy_update (BBLOCK b sb) (bit_put bi true (cs_view A (BBLOCK b sb))) A) as Hbusy.
    eapply wp_bzero; [exact H2|rewrite Eio2, Eio1; apply Hff|exact (ff_held _ _ _ _ Hff)|lia|by apply log_room_logged|].
    intros k3 H3 F3. apply wp_ret. assert (EB0 : BBLOCK b0 sb = BBLOCK b sb ∧ b0 mod BPB = bi) by (by rewrite <- E0).
    destruct EB0 as [EB0 Em0]. eapply HQ; [exact H3|by etrans; [exact F1|etrans]|done| |done|by rewrite EB0].
    unfold balloc_view. by rewrite EB0, Em0.
  - rewrite balloc_scan_None in E. assert (Hb2 : b + BPB <= b0).
    { destruct (decide (b + BPB <= b0)) as [|Hn]; [done|]. exfalso.
      pose proof (ff_free _ _ _ _ Hff) as Hu. destruct (BBLOCK_same sb b (b0 - b) Hb ltac:(lia)) as [EB' Em'].
      replace (b + (b0 - b)) with b0 in EB', Em' by lia. unfold in_use in Hu. rewrite EB', Em', E in Hu by lia. done. }
    apply wp_bind. eapply wp_brelse_read; [exact H1|done|exact Hnh|exact Htx|]. intros k2 H2 F2.
    destruct (fs_frame_fields _ _ F2) as (Eio2 & Esb2 & _).
    assert (Eio' : k_io k2 = k_io k) by congruence.
    apply (IH k2 A bl (b + BPB)); [exact H2|congruence|by rewrite Eio'|by rewrite Eio'|done|done| |rewrite BPB_eq in *; lia| |].
    + rewrite BPB_eq in *. divlia.
    + replace (b0 - (b + BPB)) with (b0 - b + (-1) * BPB) by lia. rewrite Z.div_add by (rewrite BPB_eq; lia). lia.
    + intros k' A' bl' H' F'. apply HQ; [exact H'|by etrans; [exact F1|etrans]].
Qed.

Lemma balloc_ok k A bl b0 : tx k A bl → bitmap_ok (k_sb k) (io_disksize (k_io k)) A → first_free (k_sb k) (io_disksize (k_io k)) A b0 →
  (S (base.size (cs_busy A)) < NBUF)%nat → log_room 2 bl →
  ∃ k' A' bl', balloc 1 k = Ret b0 k' ∧ tx k' A' bl' ∧ fs_frame k k' ∧ cs_held A' = cs_held A ∧
    cs_view A' = balloc_view (k_sb k) b0 (cs_view A) ∧ cs_disk A' = cs_disk A ∧
    bl' = logged_blocks (logged_blocks bl (BBLOCK b0 (k_sb k))) b0.
Proof using.
  intros Htx Hbm Hff Hroom Hlog. pose proof (ff_range _ _ _ _ Hff) as Hr.
  assert (Hwp : wp False (balloc 1) (λ r k', ∃ A' bl', r = b0 ∧ tx k' A' bl' ∧ fs_frame k k' ∧ cs_held A' = cs_held A ∧
    cs_view A' = balloc_view (k_sb k) b0 (cs_view A) ∧ cs_disk A' = cs_disk A ∧
    bl' = logged_blocks (logged_blocks bl (BBLOCK b0 (k_sb k))) b0) (λ _ _, False) k).
  { unfold balloc, sb_get. apply wp_bind, wp_gets. eapply wp_balloc_loop; [exact Htx|done|exact Hbm|exact Hff|done|done|done|lia| |].
    - rewrite Z.sub_0_r. assert (b0 / BPB <= sb_size (k_sb k) / BPB) by (apply Z.div_le_mono; [rewrite BPB_eq; lia|lia]).
      assert (0 <= sb_size (k_sb k) / BPB) by (apply Z.div_pos; [lia|rewrite BPB_eq; lia]). lia.
    - intros k' A' bl' H1 H2 H3 H4 H5 H6. by exists A', bl'. }
  destruct (wp_False_inv _ _ _ _ Hwp) as [(r & k' & E & A' & bl' & -> & H)|(c & k' & _ & [])]. by exists k', A', bl'.
Qed.
End blocks.

(** The bit of the block allocated, and only it. *)
Lemma in_use_balloc start size sb disksize A b0 b : bitmap_ok start size sb disksize A → first_free start size sb disksize A b0 → 0 <= b0 < sb_size sb → 0 <= b < sb_size sb →
  in_use sb (balloc_view sb b0 (cs_view A)) b = (b =? b0) || in_use sb (cs_view A) b.
Proof.
  intros Hbm Hff Hr Hb'. unfold in_use, balloc_view. rewrite fset_ne by (by apply (ff_data _ _ _ _ _ _ Hff)).
  destruct (decide (BBLOCK b sb = BBLOCK b0 sb)) as [EB|EB].
  + rewrite EB, fset_eq. rewrite bit_of_put; [| | |rewrite (bm_len _ _ _ _ _ Hbm)].
    * assert (Eb : (b mod BPB =? b0 mod BPB) = (b =? b0)).
      { apply eq_true_iff_eq. rewrite !Z.eqb_eq. split; [|by intros ->]. intros Em.
        pose proof (bm_size _ _ _ _ _ Hbm) as Hsz. unfold BBLOCK, u32 in EB. rewrite BPB_eq in *.
        change (2 ^ 32) with 4294967296 in *. change (2 ^ 31) with 2147483648 in *. clear - EB Em Hsz Hb' Hr. divlia. }
      rewrite Eb. by destruct (b =? b0).
    * apply Z.mod_pos_bound. rewrite BPB_eq. lia.
    * apply Z.mod_pos_bound. rewrite BPB_eq. lia.
    * pose proof (Z.mod_pos_bound b0 BPB ltac:(rewrite BPB_eq; lia)). rewrite BPB_eq in *. divlia.
  + rewrite fset_ne by done. rewrite (proj2 (Z.eqb_neq b b0)) by (intros ->; done). done.
Qed.

(** Inside a transaction [balloc] returns the first free block, and only
    it becomes used: its bit is set, its contents are zero, every other bit
    and every other block is as before; both blocks are in the transaction
    and the disk is untouched. It terminates and does not panic. *)
Theorem balloc_allocates me pid start size k A bl b0 : intx me pid start size k A bl →
  bitmap_ok start size (k_sb k) (io_disksize (k_io k)) A → first_free start size (k_sb k) (io_disksize (k_io k)) A b0 →
  (S (base.size (cs_busy A)) < NBUF)%nat → log_room size 2 bl →
  ∃ k' A' bl', balloc 1 k = Ret b0 k' ∧ intx me pid start size k' A' bl' ∧ fs_frame k k' ∧
    (∀ b, 0 <= b < sb_size (k_sb k) → in_use (k_sb k) (cs_view A') b = (b =? b0) || in_use (k_sb k) (cs_view A) b) ∧
    cs_view A' b0 = replicate 512 0 ∧ (∀ x, x ≠ b0 → x ≠ BBLOCK b0 (k_sb k) → cs_view A' x = cs_view A x) ∧
    b0 ∈ bl' ∧ BBLOCK b0 (k_sb k) ∈ bl' ∧ cs_disk A' = cs_disk A ∧ cs_held A' = cs_held A.
Proof.
  intros Htx Hbm Hff Hroom Hlog.
  destruct (balloc_ok me pid start size k A bl b0 Htx Hbm Hff Hroom Hlog) as (k' & A' & bl' & E & Htx' & Hf & Hh & Hv & Hd & Hb).
  exists k', A', bl'. split; [done|]. split; [done|]. split; [done|].
  pose proof (ff_range _ _ _ _ _ _ Hff) as Hr.
  assert (Hin : b0 ∈ bl' ∧ BBLOCK b0 (k_sb k) ∈ bl').
  { rewrite Hb. rewrite <- !(elem_of_list_to_set (C := gset Z)), !logged_dirty. set_solver. }
  split; [|split; [|split; [|split; [apply Hin|split; [apply Hin|done]]]]].
  - intros b Hb'. rewrite Hv. by apply (in_use_balloc start size _ (io_disksize (k_io k))).
  - rewrite Hv. apply fset_eq.
  - intros x H1 H2. rewrite Hv. unfold balloc_view. by rewrite !fset_ne by done.
Qed.

(** ** On-disk inodes *)
Lemma slice_splice_in off new l a n : (off + length new <= length l)%nat → (a + n <= length new)%nat →
  slice (off + a) n (splice off new l) = slice a n new.
Proof.
  intros H Ha. unfold slice. apply list_eq. intros i. destruct (decide (i < n)%nat).
  - rewrite !lookup_take_lt, !lookup_drop, lookup_splice by done. rewrite decide_True by lia. f_equal. lia.
  - by rewrite !lookup_take_ge by lia.
Qed.

Lemma length_addrs a : length (concat (le_bytes 4 <$> a)) = (4 * length a)%nat.
Proof. induction a as [|x a IH]; [done|]. cbn [fmap list_fmap concat length]. rewrite length_app, length_le_bytes, IH. lia. Qed.

Lemma slice_addrs a : ∀ j x, a !! j = Some x → slice (4 * j) 4 (concat (le_bytes 4 <$> a)) = le_bytes 4 x.
Proof.
  induction a as [|y a IH]; intros [|j] x Hj; [done..|injection Hj as ->|]; unfold slice; cbn [fmap list_fmap concat].
  - rewrite drop_0. apply take_app_length'. by rewrite length_le_bytes.
  - rewrite drop_app_ge by (rewrite length_le_bytes; lia). rewrite length_le_bytes.
    replace (4 * S j - 4)%nat with (4 * j)%nat by lia. by apply IH.
Qed.

Lemma get_put_addrs off a d : length a = S NDIRECT → Forall (λ x, 0 <= x < 2 ^ 32) a → (off + 52 <= length d)%nat →
  get_addrs off (put_addrs off a d) = a.
Proof.
  intros Hl Ha Hd. unfold NDIRECT in Hl. pose proof (length_addrs a) as Hla. apply list_eq. intros j. unfold get_addrs. rewrite list_lookup_fmap.
  destruct (a !! j) as [x|] eqn:E.
  - pose proof (lookup_lt_Some _ _ _ E). rewrite lookup_seq_lt by (unfold NDIRECT; lia). cbn [fmap option_fmap option_map]. f_equal.
    unfold get32, put_addrs. rewrite Nat.add_0_l, slice_splice_in by lia. rewrite (slice_addrs a j x E), le_val_le_bytes.
    rewrite list.Forall_forall in Ha. apply Z.mod_small, Ha. by eapply list_elem_of_lookup_2.
  - apply lookup_ge_None in E. by rewrite lookup_seq_ge by (unfold NDIRECT; lia).
Qed.

Lemma get_put_addrs_other off a d off' n : length a = S NDIRECT → (off + 52 <= length d)%nat → (off' + n <= off ∨ off + 52 <= off')%nat →
  slice off' n (put_addrs off a d) = slice off' n d.
Proof.
  intros Hl Hd Ho. unfold NDIRECT in Hl. pose proof (length_addrs a). apply slice_splice_other; lia.
Qed.

(** The fields an inode keeps on the disk, within their widths. *)
Record inode_typed (ip : inode) : Prop := mk_inode_typed {
  it_type : - 2 ^ 15 <= i_type ip < 2 ^ 15;
  it_major : - 2 ^ 15 <= i_major ip < 2 ^ 15;
  it_minor : - 2 ^ 15 <= i_minor ip < 2 ^ 15;
  it_nlink : - 2 ^ 15 <= i_nlink ip < 2 ^ 15;
  it_isize : 0 <= i_size ip < 2 ^ 32;
  it_len : length (i_addrs ip) = S NDIRECT;
  it_addrs : Forall (λ x, 0 <= x < 2 ^ 32) (i_addrs ip);
}.
Definition same_contents (ip ip' : inode) : Prop :=
  i_type ip' = i_type ip ∧ i_major ip' = i_major ip ∧ i_minor ip' = i_minor ip ∧ i_nlink ip' = i_nlink ip ∧
  i_size ip' = i_size ip ∧ i_addrs ip' = i_addrs ip.

Lemma same_contents_valid ip x v : same_contents ip x → same_contents ip (set_i_valid v x).
Proof. done. Qed.

Lemma s16_u16 x : - 2 ^ 15 <= x < 2 ^ 15 → s16 (x mod 2 ^ 16) = x.
Proof. unfold s16. change (2 ^ 15) with 32768. change (2 ^ 16) with 65536. intros. divlia. Qed.

Lemma length_put16 off v l : (off + 2 <= length l)%nat → length (put16 off v l) = length l.
Proof. intros H. unfold put16. apply length_splice. by rewrite length_le_bytes. Qed.

Lemma get16_put16_ne off off' v l : (off + 2 <= length l)%nat → (off' + 2 <= off ∨ off + 2 <= off')%nat →
  get16 off' (put16 off v l) = get16 off' l.
Proof. intros H H'. unfold get16, put16. apply get_put_other; by rewrite length_le_bytes. Qed.

Lemma dinode_roundtrip ip off d ip0 : inode_typed ip → (off + 64 <= length d)%nat →
  same_contents ip (dinode_load off (dinode_put ip off d) ip0).
Proof.
  intros [Ht Hma Hmi Hnl Hs Hl Ha] Hd. unfold dinode_load, dinode_put.
  set (d1 := put16 off (i_type ip) d). assert (L1 : length d1 = length d) by (apply length_put16; lia).
  set (d2 := put16 (off + 2) (i_major ip) d1). assert (L2 : length d2 = length d) by (unfold d2; rewrite length_put16; lia).
  set (d3 := put16 (off + 4) (i_minor ip) d2). assert (L3 : length d3 = length d) by (unfold d3; rewrite length_put16; lia).
  set (d4 := put16 (off + 6) (i_nlink ip) d3). assert (L4 : length d4 = length d) by (unfold d4; rewrite length_put16; lia).
  set (d5 := put32 (off + 8) (i_size ip) d4). assert (L5 : length d5 = length d) by (unfold d5; rewrite length_put32; lia).
  assert (Hhi : ∀ o n, (o + n <= off + 12)%nat → slice o n (put_addrs (off + 12) (i_addrs ip) d5) = slice o n d5)
    by (intros; apply get_put_addrs_other; [done|lia|lia]).
  assert (H16 : ∀ o, (o + 2 <= off + 8)%nat → get16 o (put_addrs (off + 12) (i_addrs ip) d5) = get16 o d4).
  { intros o Ho. unfold get16. rewrite Hhi by lia. unfold d5, put32. apply get_put_other; rewrite length_le_bytes; lia. }
  unfold same_contents. cbn [i_type i_major i_minor i_nlink i_size i_addrs set_i_addrs set_i_size set_i_nlink set_i_minor set_i_major set_i_type].
  rewrite !H16 by lia. split_and!.
  - unfold d4. rewrite get16_put16_ne by lia. unfold d3. rewrite get16_put16_ne by lia. unfold d2. rewrite get16_put16_ne by lia. unfold d1. rewrite get16_put16 by lia. by apply s16_u16.
  - unfold d4. rewrite get16_put16_ne by lia. unfold d3. rewrite get16_put16_ne by lia. unfold d2. rewrite get16_put16 by lia. by apply s16_u16.
  - unfold d4. rewrite get16_put16_ne by lia. unfold d3. rewrite get16_put16 by lia. by apply s16_u16.
  - unfold d4. rewrite get16_put16 by lia. by apply s16_u16.
  - unfold get32. rewrite Hhi by lia. change (get32 (off + 8) d5 = i_size ip). unfold d5. rewrite get32_put32 by lia. by apply Z.mod_small.
  - apply get_put_addrs; [done|done|lia].
Qed.

Lemma dinode_put_other ip off d off' n : length (i_addrs ip) = S NDIRECT → (off + 64 <= length d)%nat → (off' + n <= off ∨ off + 64 <= off')%nat →
  slice off' n (dinode_put ip off d) = slice off' n d.
Proof.
  intros Hl Hd Ho. unfold dinode_put.
  assert (H16 : ∀ o v x, (off <= o)%nat → (o + 2 <= off + 64)%nat → length x = length d →
    length (put16 o v x) = length d ∧ slice off' n (put16 o v x) = slice off' n x).
  { intros o v x H1 H2 Hx. split; [rewrite length_put16; lia|]. apply slice_splice_other; rewrite length_le_bytes; lia. }
  set (d1 := put16 off (i_type ip) d). destruct (H16 off (i_type ip) d) as [L1 E1]; [lia..|]. fold d1 in L1, E1.
  set (d2 := put16 (off + 2) (i_major ip) d1). destruct (H16 (off + 2)%nat (i_major ip) d1) as [L2 E2]; [lia..|]. fold d2 in L2, E2.
  set (d3 := put16 (off + 4) (i_minor ip) d2). destruct (H16 (off + 4)%nat (i_minor ip) d2) as [L3 E3]; [lia..|]. fold d3 in L3, E3.
  set (d4 := put16 (off + 6) (i_nlink ip) d3). destruct (H16 (off + 6)%nat (i_nlink ip) d3) as [L4 E4]; [lia..|]. fold d4 in L4, E4.
  rewrite get_put_addrs_other; [|done|rewrite length_put32; lia|lia]. rewrite <- E1, <- E2, <- E3, <- E4.
  apply slice_splice_other; rewrite length_le_bytes; lia.
Qed.

(** ** [iupdate] and [ilock] *)
Lemma dinode_off_fits inum : (dinode_off inum + 64 <= 512)%nat.
Proof. unfold dinode_off, IPB, BSIZE. change (512 / 64) with 8. pose proof (Z.mod_pos_bound inum 8). lia. Qed.

Lemma bind_ip_at {B} i ip (f : inode → KM B) k : k_inodes k !! i = Some ip → bindM (ip_at i) f k = f ip k.
Proof. intros H. unfold ip_at. rewrite bind_assoc, bind_gets, H. by erewrite bind_deref. Qed.

Lemma wp_ip_at {B} E i ip (f : inode → KM B) Q R k : k_inodes k !! i = Some ip → wp E (f ip) Q R k → wp E (bindM (ip_at i) f) Q R k.
Proof. intros H Hf. apply wp_bind. unfold ip_at. apply wp_bind, wp_gets. rewrite H. by apply wp_ret. Qed.

Section inodes.
Variables (me : nat) (pid start size : Z).
Notation tx := (intx me pid start size).

Lemma tx_set_inodes l k A bl : tx k A bl → tx (set_k_inodes l k) A bl.
Proof using.
  intros [[o [H1 H2 H3 H4 H5 H6 H7 H8 H9 H10 H11]] ? ? ? ? ? ?]. split; try done. exists o. by split.
Qed.

Lemma tx_quiet k A bl : tx k A bl → tx (quiet k) A bl.
Proof using.
  intros [[o [H1 H2 H3 H4 H5 H6 H7 H8 H9 H10 H11]] ? ? ? ? ? ?]. split; try done. exists o. by split.
Qed.

(** The block of an inode and the bytes [iupdate] puts there. *)
Lemma wp_iupdate k A bl i ip (Q : unit → kernel → Prop) R :
  let blk := IBLOCK (i_inum ip) (k_sb k) in
  tx k A bl → k_inodes k !! i = Some ip → i_dev ip = 1 → home (io_disksize (k_io k)) start size blk →
  (∀ j, cs_held A !! j ≠ Some blk) → (base.size (cs_busy A) < NBUF)%nat → log_room size 1 bl →
  (∀ k', tx k' (cs_update blk (dinode_put ip (dinode_off (i_inum ip)) (cs_view A blk)) A) (logged_blocks bl blk) →
     fs_frame k k' → Q tt k') →
  wp False (iupdate i) Q R k.
Proof using.
  intros blk Htx Hi Hdev Hh Hnh Hroom Hlog HQ. unfold iupdate. apply (wp_ip_at _ i ip); [done|].
  unfold sb_get. apply wp_bind, wp_gets. rewrite Hdev. fold blk. apply wp_bind.
  eapply (wp_bread_tx me pid start size); [exact Htx|apply Hh|exact Hnh|by right|]. intros bp k1 Hbp H1 F1.
  apply wp_bind. eapply (wp_bdata_tx me pid start size); [exact H1|apply lookup_insert_eq|]. cbn [cs_take cs_view].
  eapply wp_update_tail; [exact H1|done|by rewrite (proj1 (fs_frame_fields _ _ F1))|done|].
  intros k2 H2 F2. apply HQ; [exact H2|by etrans].
Qed.

(** [ilock] of a cached inode that is not valid reads it from its block. *)
Lemma wp_ilock_read k A bl i ip (Q : unit → kernel → Prop) R :
  let blk := IBLOCK (i_inum ip) (k_sb k) in
  tx k A bl → k_inodes k !! i = Some ip → i_dev ip = 1 → 1 <= i_ref ip → sl_locked (i_lock ip) = false → i_valid ip = 0 →
  0 <= blk < io_disksize (k_io k) → (∀ j, cs_held A !! j ≠ Some blk) → (base.size (cs_busy A) < NBUF)%nat →
  (let ip' := set_i_valid 1 (dinode_load (dinode_off (i_inum ip)) (cs_view A blk) (set_i_lock (mk_sleeplock true pid) ip)) in
   i_type ip' ≠ 0 ∧ (∀ k', tx k' A bl → k_inodes k' = <[i := ip']> (k_inodes k) → k_sb k' = k_sb k → k_io k' = k_io k → Q tt k')) →
  wp False (ilock i) Q R k.
Proof using.
  intros blk Htx Hi Hdev Href Hfree Hval Hrg Hnh Hroom [Hty HQ]. pose proof Htx as [[o Hok] _ _ _ _ _ _].
  destruct (ca_me _ _ _ _ _ Hok) as (pr & Hc & Hpid). pose proof (lookup_lt_Some _ _ _ Hi) as Hlt.
  set (ip1 := set_i_lock (mk_sleeplock true pid) ip) in *. set (ip2 := dinode_load (dinode_off (i_inum ip)) (cs_view A blk) ip1) in *.
  unfold ilock. apply (wp_ip_at _ i ip); [done|]. replace (i_ref ip <? 1) with false by lia. apply wp_bind.
  eapply wp_of_Ret.
  { apply (acquiresleep_eq (SlInode i) k (i_lock ip) me pr); [apply Hok|done| |done]. unfold sl_get. by rewrite Hi. }
  rewrite Hpid. unfold sl_put. change (upd_inode i (set_i_lock (mk_sleeplock true pid)) (quiet k)) with
    (set_k_inodes (alter (set_i_lock (mk_sleeplock true pid)) i (k_inodes k)) (quiet k)).
  rewrite (alter_const _ ip) by done. fold ip1. set (k1 := set_k_inodes _ _).
  assert (H1 : tx k1 A bl) by apply tx_set_inodes, tx_quiet, Htx.
  assert (E1 : k_inodes k1 !! i = Some ip1) by (by apply list_lookup_insert_eq).
  apply (wp_ip_at _ i ip1); [done|]. change (i_valid ip1) with (i_valid ip). rewrite Hval. change (0 =? 0) with true. cbn [when].
  unfold sb_get. apply wp_bind, wp_gets. change (i_dev ip1) with (i_dev ip). rewrite Hdev.
  change (IBLOCK (i_inum ip1) (k_sb k1)) with blk. apply wp_bind.
  eapply (wp_bread_tx me pid start size); [exact H1|exact Hrg|exact Hnh|by right|]. intros bp k2 Hbp H2 F2.
  apply wp_bind. eapply (wp_bdata_tx me pid start size); [exact H2|apply lookup_insert_eq|]. cbn [cs_take cs_view].
  apply wp_bind, wp_modify. destruct (fs_frame_fields _ _ F2) as (Eio & Esb & Ein & _).
  change (dinode_off (i_inum ip1)) with (dinode_off (i_inum ip)).
  set (k3 := upd_inode i _ k2).
  assert (E3 : k_inodes k3 = <[i := ip2]> (k_inodes k)).
  { change (alter (dinode_load (dinode_off (i_inum ip)) (cs_view A blk)) i (k_inodes k2) = <[i := ip2]> (k_inodes k)).
    rewrite Ein, (alter_const _ ip1) by done. unfold k1. cbn. by rewrite list_insert_insert_eq. }
  apply wp_bind. eapply (wp_brelse_read me pid start size k3 A bl bp blk); [by apply tx_set_inodes|done|exact Hnh|exact H1|].
  intros k4 H4 F4. destruct (fs_frame_fields _ _ F4) as (Eio4 & Esb4 & Ein4 & _). apply wp_bind, wp_modify.
  set (k5 := upd_inode i _ k4).
  assert (E5 : k_inodes k5 = <[i := set_i_valid 1 ip2]> (k_inodes k)).
  { change (alter (set_i_valid 1) i (k_inodes k4) = <[i := set_i_valid 1 ip2]> (k_inodes k)).
    rewrite Ein4, E3, (alter_const _ ip2) by (by apply list_lookup_insert_eq). by rewrite list_insert_insert_eq. }
  apply (wp_ip_at _ i (set_i_valid 1 ip2)); [rewrite E5; by apply list_lookup_insert_eq|].
  rewrite (proj2 (Z.eqb_neq _ _) Hty). apply wp_ret. apply HQ.
  - by apply tx_set_inodes.
  - exact E5.
  - unfold k5, upd_inode. cbn [k_sb set_k_inodes]. rewrite Esb4. unfold k3, upd_inode. cbn [k_sb set_k_inodes]. by rewrite Esb.
  - unfold k5, upd_inode. cbn [k_io set_k_inodes]. rewrite Eio4. unfold k3, upd_inode. cbn [k_io set_k_inodes]. by rewrite Eio.
Qed.
End inodes.

(** an inode survives on the disk. [iupdate] stores the in-memory fields
    in the inode's 64 bytes of its block and leaves the other inodes of the
    block and all other blocks alone; whenever the block is read again, an
    [ilock] of an entry of the cache that is not valid yields the same type,
    device numbers, link count, size and addresses. *)
Theorem inode_roundtrip me pid start size k A bl i ip :
  let blk := IBLOCK (i_inum ip) (k_sb k) in
  intx me pid start size k A bl → k_inodes k !! i = Some ip → inode_typed ip → i_dev ip = 1 → i_type ip ≠ 0 →
  home (io_disksize (k_io k)) start size blk → length (cs_view A blk) = 512%nat →
  (∀ j, cs_held A !! j ≠ Some blk) → (base.size (cs_busy A) < NBUF)%nat → log_room size 1 bl →
  ∃ k' A' bl', iupdate i k = Ret tt k' ∧ intx me pid start size k' A' bl' ∧ fs_frame k k' ∧ blk ∈ bl' ∧
    (∀ inum, inum mod IPB ≠ i_inum ip mod IPB →
       slice (dinode_off inum) 64 (cs_view A' blk) = slice (dinode_off inum) 64 (cs_view A blk)) ∧
    (∀ x, x ≠ blk → cs_view A' x = cs_view A x) ∧
    ∀ k2 A2 bl2 j jp, intx me pid start size k2 A2 bl2 → cs_view A2 blk = cs_view A' blk → k_sb k2 = k_sb k → k_io k2 = k_io k →
      k_inodes k2 !! j = Some jp → i_dev jp = 1 → i_inum jp = i_inum ip → 1 <= i_ref jp → sl_locked (i_lock jp) = false → i_valid jp = 0 →
      (∀ j, cs_held A2 !! j ≠ Some blk) → (base.size (cs_busy A2) < NBUF)%nat →
      ∃ k3 jp', ilock j k2 = Ret tt k3 ∧ intx me pid start size k3 A2 bl2 ∧ k_inodes k3 = <[j := jp']> (k_inodes k2) ∧
        same_contents ip jp' ∧ i_valid jp' = 1 ∧ i_lock jp' = mk_sleeplock true pid.
Proof.
  intros blk Htx Hi Hty Hdev Hnz Hh Hlen Hnh Hroom Hlog. pose proof (dinode_off_fits (i_inum ip)) as Hoff.
  set (d' := dinode_put ip (dinode_off (i_inum ip)) (cs_view A blk)).
  assert (Hwp : wp False (iupdate i) (λ _ k', intx me pid start size k' (cs_update blk d' A) (logged_blocks bl blk) ∧ fs_frame k k') (λ _ _, False) k).
  { eapply wp_iupdate; try done. }
  destruct (wp_False_inv _ _ _ _ Hwp) as [([] & k' & E & Htx' & Hf)|(c & k' & _ & [])].
  exists k', (cs_update blk d' A), (logged_blocks bl blk). split; [done|]. split; [done|]. split; [done|]. split; [|split; [|split]].
  - rewrite <- (elem_of_list_to_set (C := gset Z)), logged_dirty. set_solver.
  - intros inum Hne. cbn. rewrite fset_eq. apply dinode_put_other; [apply Hty|by rewrite Hlen|].
    unfold dinode_off, IPB, BSIZE in *. change (512 / 64) with 8 in *. pose proof (Z.mod_pos_bound inum 8). pose proof (Z.mod_pos_bound (i_inum ip) 8). lia.
  - intros x Hx. cbn. by rewrite fset_ne.
  - intros k2 A2 bl2 j jp Htx2 Hv2 Hsb2 Hio2 Hj Hdj Hin Href Hlk Hval Hnh2 Hroom2. cbn in Hv2. rewrite fset_eq in Hv2.
    assert (Hblk : IBLOCK (i_inum jp) (k_sb k2) = blk) by (unfold blk; by rewrite Hin, Hsb2).
    set (jp' := set_i_valid 1 (dinode_load (dinode_off (i_inum ip)) d' (set_i_lock (mk_sleeplock true pid) jp))).
    assert (Hsame : same_contents ip jp') by (apply same_contents_valid, dinode_roundtrip; [done|by rewrite Hlen]).
    assert (Hwp2 : wp False (ilock j) (λ _ k3, intx me pid start size k3 A2 bl2 ∧ k_inodes k3 = <[j := jp']> (k_inodes k2)) (λ _ _, False) k2).
    { eapply wp_ilock_read; try done; rewrite ?Hblk, ?Hio2; try done; [apply Hh|]. rewrite Hv2, Hin. fold jp'. split; [|done].
      by rewrite (proj1 Hsame). }
    destruct (wp_False_inv _ _ _ _ Hwp2) as [([] & k3 & E3 & H3 & Hin3)|(c & k3 & _ & [])]. by exists k3, jp'.
Qed.

(** ** Witnesses: the file system made by mkfs.c, freshly booted *)
Definition demo_sb : superblock := mk_superblock FSSIZE 941 200 30 2 32 58.
Definition demo_bitmap : list Z := replicate 7 255 ++ 7 :: replicate 504 0.
Definition demo_disk : Z → list Z := λ x, if x =? 58 then demo_bitmap else replicate 512 0.
Definition demo_inode : inode := mk_inode 1 1 1 sleeplock0 1 T_DIR 0 0 1 512 (59 :: replicate 12 0).
Definition demo_fs : kernel :=
  set_k_inodes (demo_inode :: replicate 49 inode0) (set_k_sb demo_sb (demo_boot_from demo_disk None)).

Lemma demo_tx : intx 0 0 2 30 demo_fs (cs_boot demo_disk) [].
Proof.
  apply tx_set_inodes. split; try done.
  - exists (rev (seq 0 NBUF)). destruct (demo_boot_cache demo_disk None) as [H1 H2 H3 H4 H5 H6 H7 H8 H9 H10 H11]. by split.
  - apply (demo_geom []). by left.
  - apply NoDup_nil_2.
Qed.

Lemma demo_BBLOCK b : 0 <= b < FSSIZE → BBLOCK b demo_sb = 58.
Proof.
  unfold FSSIZE, BBLOCK, u32, BPB, BSIZE. cbn [sb_bmapstart demo_sb]. change (512 * 8) with 4096. change (2 ^ 32) with 4294967296. intros. divlia.
Qed.

Lemma demo_bitmap_ok : bitmap_ok 2 30 demo_sb FSSIZE (cs_boot demo_disk).
Proof.
  split.
  - cbn. unfold FSSIZE. change (2 ^ 31) with 2147483648. lia.
  - intros b Hb. rewrite demo_BBLOCK by exact Hb. split; [unfold home, FSSIZE; lia|by intros i].
  - intros b. cbn. unfold demo_disk. by destruct (b =? 58).
Qed.

Lemma demo_first_free : first_free 2 30 demo_sb FSSIZE (cs_boot demo_disk) 59.
Proof.
  split.
  - cbn. unfold FSSIZE. lia.
  - vm_compute. reflexivity.
  - assert (H : forallb (λ b, in_use demo_sb demo_disk (Z.of_nat b)) (seq 0 59) = true) by (vm_compute; reflexivity).
    intros b Hb. rewrite forallb_forall in H. rewrite <- (Z2Nat.id b) by lia. apply H, list_elem_of_In, elem_of_seq. lia.
  - unfold home, FSSIZE. lia.
  - by intros i.
  - intros b Hb. rewrite demo_BBLOCK by exact Hb. lia.
Qed.

Lemma balloc_allocates_witness : ∃ k' A' bl', balloc 1 demo_fs = Ret 59 k' ∧ intx 0 0 2 30 k' A' bl' ∧ fs_frame demo_fs k' ∧
    (∀ b, 0 <= b < sb_size demo_sb → in_use demo_sb (cs_view A') b = (b =? 59) || in_use demo_sb demo_disk b) ∧
    cs_view A' 59 = replicate 512 0 ∧ (∀ x, x ≠ 59 → x ≠ BBLOCK 59 demo_sb → cs_view A' x = demo_disk x) ∧
    59 ∈ bl' ∧ BBLOCK 59 demo_sb ∈ bl' ∧ cs_disk A' = demo_disk ∧ cs_held A' = ∅.
Proof.
  apply (balloc_allocates 0 0 2 30 demo_fs (cs_boot demo_disk) [] 59 demo_tx); [exact demo_bitmap_ok|exact demo_first_free|vm_compute; lia|].
  split; [cbn; lia|cbn; unfold NBUF; lia].
Defined.

Lemma demo_inode_typed : inode_typed demo_inode.
Proof.
  split; cbn; unfold T_DIR; change (2 ^ 15) with 32768; change (2 ^ 32) with 4294967296; try lia; [done|].
  repeat (apply list.Forall_cons; split; [lia|]). constructor.
Qed.

Lemma inode_roundtrip_witness : ∃ k' A' bl', iupdate 0 demo_fs = Ret tt k' ∧ intx 0 0 2 30 k' A' bl' ∧ 32 ∈ bl' ∧
  ∀ k2 A2 bl2 j jp, intx 0 0 2 30 k2 A2 bl2 → cs_view A2 32 = cs_view A' 32 → k_sb k2 = demo_sb → k_io k2 = k_io demo_fs →
    k_inodes k2 !! j = Some jp → i_dev jp = 1 → i_inum jp = 1 → 1 <= i_ref jp → sl_locked (i_lock jp) = false → i_valid jp = 0 →
    (∀ j, cs_held A2 !! j ≠ Some 32) → (base.size (cs_busy A2) < NBUF)%nat →
    ∃ k3 jp', ilock j k2 = Ret tt k3 ∧ k_inodes k3 = <[j := jp']> (k_inodes k2) ∧ same_contents demo_inode jp'.
Proof.
  destruct (inode_roundtrip 0 0 2 30 demo_fs (cs_boot demo_disk) [] 0 demo_inode demo_tx eq_refl) as (k' & A' & bl' & E & H & _ & Hb & _ & _ & Hl).
  - exact demo_inode_typed.
  - reflexivity.
  - discriminate.
  - change (IBLOCK (i_inum demo_inode) (k_sb demo_fs)) with 32. change (io_disksize (k_io demo_fs)) with FSSIZE. unfold home, FSSIZE. lia.
  - reflexivity.
  - by intros j.
  - vm_compute. lia.
  - split; [cbn; lia|cbn; unfold NBUF; lia].
  - exists k', A', bl'. split; [exact E|]. split; [exact H|]. split; [exact Hb|].
    intros k2 A2 bl2 j jp H1 H2 H3 H4 H5 H6 H7 H8 H9 H10 H11 H12.
    destruct (Hl k2 A2 bl2 j jp H1 H2 H3 H4 H5 H6 H7 H8 H9 H10 H11 H12) as (k3 & jp' & E3 & _ & Hi & Hs & _).
    exists k3, jp'. split; [exact E3|]. split; [exact Hi|exact Hs].
Defined.
