(* ===== verification/Console.v ===== *)
(** * Console: the line discipline (console.c) and the process listing

    Characters from the keyboard or the serial line are edited in the
    circular buffer [input] between [w] and [e]; a finished line is handed to
    readers by moving [w]. *)

From S2P Require Import Prelude CString Kernel Sched Kalloc Fifo Paging Vmem Cons Kbd Sleeplock Bio Log Inode.

(** ** Definitions *)
Definition INPUT_BUF : Z := 128.

(** *** procdump (proc.c) *)
Definition state_name (s : procstate) : string :=
  match s with
  | UNUSED => "unused" | EMBRYO => "embryo" | SLEEPING => "sleep "
  | RUNNABLE => "runble" | RUNNING => "run   " | ZOMBIE => "zombie"
  end.
Definition getNumOfPagesInFile (p : proc) : Z := Z.of_nat (countb is_used (p_file_manager p)).
Definition getNumOfPagesInMem (p : proc) : Z := s32 (p_page_mem_count p).

(** [pcs i] is what [getcallerpcs] finds on the kernel stack of process [i]. *)
Definition procdump_line (pcs : nat → list Z) (i : nat) : KM unit :=
  p <- proc_at i ;;
  if decide (p_state p = UNUSED) then mret tt else
  cprintf "%d %s %d %d %d %d %s"
    [AInt (p_pid p); AStr (Some (lit (state_name (p_state p)))); AInt (PGROUNDUP (p_sz p) / PGSIZE);
     AInt (getNumOfPagesInFile p); AInt (p_page_fault_count p); AInt (p_paged_out_count p);
     AStr (Some (p_name p))] ;;
  when (bool_decide (p_state p = SLEEPING))
    (mfor (take 10 (cstring (pcs i))) (λ pc, cprintf " %p" [AInt pc])) ;;
  cprintf "
" [].
Definition procdump (pcs : nat → list Z) : KM unit :=
  mfor (seq 0 NPROC) (procdump_line pcs) ;;
  free <- getFreePages ;;
  total <- getTotalPages ;;
  cprintf "Used pages in the system: %d
" [AInt (total - free)] ;;
  cprintf "Free pages in the system: %d/%d" [AInt free; AInt total] ;;
  cprintf "
" [].

(** *** Input *)
Definition input_get : KM input_t := gets (λ k, io_input (k_io k)).
Definition input_mod (f : input_t → input_t) : KM unit := modify (upd_input f).
Definition in_slot (i : Z) : nat := Z.to_nat (i mod INPUT_BUF).
(** [input.e--; consputc(BACKSPACE);] *)
Definition input_rubout : KM unit :=
  input_mod (λ i, set_in_e (u32 (in_e i - 1)) i) ;;
  consputc BACKSPACE.

Fixpoint input_kill (fuel : nat) : KM unit :=
  i <- input_get ;;
  if negb (in_e i =? in_w i) && negb (default 0 (in_buf i !! in_slot (u32 (in_e i - 1))) =? 10) then
    match fuel with
    | O => fault "consoleintr: fuel"
    | S fuel => input_rubout ;; input_kill fuel
    end
  else mret tt.

(** [input.buf[input.e++ % INPUT_BUF] = c] *)
Definition input_put (c : Z) : KM unit :=
  input_mod (λ i, set_in_e (u32 (in_e i + 1)) (set_in_buf (<[in_slot (in_e i) := u8 c]> (in_buf i)) i)).

(** The body of [consoleintr]'s loop: was [procdump] asked for? *)
Definition consoleintr_char (c : Z) : KM bool :=
  if c =? 16 then mret true
  else if c =? 21 then
    i <- input_get ;;
    input_kill (Z.to_nat (u32 (in_e i - in_w i))) ;; mret false
  else if (c =? 8) || (c =? 0x7f) then
    i <- input_get ;;
    when (negb (in_e i =? in_w i)) input_rubout ;; mret false
  else
    i <- input_get ;;
    when (negb (c =? 0) && (u32 (in_e i - in_r i) <? INPUT_BUF))
      (let c := if c =? 13 then 10 else c in
       input_put c ;;
       consputc c ;;
       i <- input_get ;;
       when ((c =? 10) || (c =? 4) || (in_e i =? u32 (in_r i + INPUT_BUF)))
         (input_mod (λ i, set_in_w (in_e i) i) ;;
          wakeup ChCons)) ;;
    mret false.

(** [getc] is applied to each byte the device delivers during the interrupt. *)
Fixpoint consoleintr_loop (getc : Z → KM Z) (pending : list Z) (doprocdump : bool) : KM bool :=
  match pending with
  | [] => mret doprocdump
  | d :: pending =>
      c <- getc d ;;
      if c <? 0 then mret doprocdump else
      b <- consoleintr_char c ;;
      consoleintr_loop getc pending (doprocdump || b)
  end.
Definition consoleintr (pcs : nat → list Z) (getc : Z → KM Z) (pending : list Z) : KM unit :=
  acquire LkCons ;;
  doprocdump <- consoleintr_loop getc pending false ;;
  release LkCons ;;
  when doprocdump (procdump pcs).

Definition kbdintr (pcs : nat → list Z) (pending : list Z) : KM unit :=
  consoleintr pcs (λ d, kbdgetc (Some d)) pending.
Definition uartgetc (d : Z) : KM Z :=
  u <- gets (λ k, io_uart (k_io k)) ;;
  mret (if u then d else -1).
Definition uartintr (pcs : nat → list Z) (pending : list Z) : KM unit :=
  consoleintr pcs uartgetc pending.

(** *** Reading and writing the console device *)

(** The loop of [consoleread], with [cons.lock] held: the count left. [None]
    when the process was killed while waiting (the lock is then released);
    [sleep] leaves and does not return here. *)
Fixpoint consoleread_loop (n : nat) (dst target : Z) : KM (option nat) :=
  match n with
  | O => mret (Some O)
  | S n' =>
      i <- input_get ;;
      if in_r i =? in_w i then
        p <- myproc ;;
        p <- deref "myproc" p ;;
        pr <- proc_at p ;;
        if negb (p_killed pr =? 0) then release LkCons ;; mret None
        else sleep ChCons (Some LkCons) (LSleep ChCons) ;; mret None
      else
        let c := default 0 (in_buf i !! in_slot (in_r i)) in
        input_mod (set_in_r (u32 (in_r i + 1))) ;;
        if c =? 4 then
          when (Z.of_nat n <? target) (input_mod (λ i, set_in_r (u32 (in_r i - 1)) i)) ;;
          mret (Some n)
        else
          vstore8 dst c ;;
          if c =? 10 then mret (Some n')
          else consoleread_loop n' (u32 (dst + 1)) target
  end.
Definition consoleread_from (ip : nat) (dst n target : Z) : KM Z :=
  r <- consoleread_loop (Z.to_nat n) dst target ;;
  match r with
  | None => ilock ip ;; mret (-1)
  | Some left =>
      release LkCons ;;
      ilock ip ;;
      mret (target - (if 0 <? n then Z.of_nat left else n))
  end.
Definition consoleread (ip : nat) (dst n : Z) : KM Z :=
  iunlock ip ;;
  acquire LkCons ;;
  consoleread_from ip dst n n.
(** Woken in the middle of a read of [target] bytes with [n] still to read. *)
Definition consoleread_woken (p : nat) (intena : bool) (ip : nat) (dst n target : Z) : KM Z :=
  sleep_leave p LkCons intena ;;
  consoleread_from ip dst n target.

Definition consolewrite (ip : nat) (buf n : Z) : KM Z :=
  iunlock ip ;;
  acquire LkCons ;;
  mfor (seq 0 (Z.to_nat n)) (λ i, b <- vload8 (u32 (buf + Z.of_nat i)) ;; consputc b) ;;
  release LkCons ;;
  ilock ip ;;
  mret n.

Definition CONSOLE : nat := 1.
Definition consoleinit : KM unit :=
  modify (upd_io (λ d, set_io_devsw (<[CONSOLE := true]> (io_devsw d)) d)) ;;
  modify (upd_io (set_io_locking true)).
