(* ===== verification/ConsoleSpec.v ===== *)
(** * ConsoleSpec: the line discipline

    The circular buffer holds two strings: the bytes readers may take
    ([ready]) and the line being edited ([editing]). Each character from the
    keyboard acts on them as a terminal's line editor does, and the 128 slots
    never overflow. *)

From S2P Require Import Prelude Ring CString Kernel Sched Kalloc Fifo Paging Vmem Cons Kbd Sleeplock Bio Log Inode Console.

(** ** Definitions *)

(** The line editor on the two strings: the new strings, and whether readers
    are woken. *)
Definition edit_char (rd ed : list Z) (c : Z) : list Z * list Z * bool :=
  if c =? 16 then (rd, ed, false)
  else if c =? 21 then (rd, [], false)
  else if (c =? 8) || (c =? 0x7f) then (rd, removelast ed, false)
  else if (c =? 0) || (INPUT_BUF <=? Z.of_nat (length (rd ++ ed))) then (rd, ed, false)
  else
    let c := if c =? 13 then 10 else c in
    let ed := ed ++ [c] in
    if (c =? 10) || (c =? 4) || (Z.of_nat (length (rd ++ ed)) =? INPUT_BUF) then (rd ++ ed, [], true)
    else (rd, ed, false).

Definition chars : list Z → Z → nat → list Z := ring INPUT_BUF.

(** [i] holds the strings [rd] and [ed]. *)
Record input_is (i : input_t) (rd ed : list Z) : Prop := mk_input_is {
  ii_len : length (in_buf i) = Z.to_nat INPUT_BUF;
  ii_r : 0 <= in_r i < 2 ^ 32;
  ii_w : in_w i = u32 (in_r i + Z.of_nat (length rd));
  ii_e : in_e i = u32 (in_r i + Z.of_nat (length (rd ++ ed)));
  ii_cap : Z.of_nat (length (rd ++ ed)) <= INPUT_BUF;
  ii_chars : chars (in_buf i) (in_r i) (length (rd ++ ed)) = rd ++ ed;
  ii_line : 10 ∉ ed;
}.

(** [k'] is [k] after some echo: only the screen, the cursor and the serial
    line differ. *)
Definition echoed (k k' : kernel) : Prop :=
  ∃ m c o, k' = set_k_mem m (upd_io (λ d, set_io_out o (set_io_cursor c d)) k) ∧ 0 <= c < 24 * 80.

Definition echo_ok (k : kernel) : Prop := screen_ok k ∧ io_panicked (k_io k) = false.

(** ** Echo *)
Lemma echoed_refl k : screen_ok k → echoed k k.
Proof. intros Hs. exists (k_mem k), (io_cursor (k_io k)), (io_out (k_io k)). split; [by destruct k as [? ? ? ? ? ? ? ? ? ? ? ? ? ? ? ? ? ? ? ? ? ? []]|exact Hs]. Qed.

Lemma echoed_trans k k1 k2 : echoed k k1 → echoed k1 k2 → echoed k k2.
Proof. intros (m1 & c1 & o1 & -> & H1) (m2 & c2 & o2 & -> & H2). by exists m2, c2, o2. Qed.

Lemma echoed_ok k k' : echo_ok k → echoed k k' → echo_ok k'.
Proof. intros [_ Hp] (m & c & o & -> & Hc). by split. Qed.

Lemma uartputc_echoed c k : screen_ok k → ∃ k', uartputc c k = Ret tt k' ∧ echoed k k'.
Proof.
  intros Hs. unfold uartputc. rewrite bind_gets. destruct (io_uart (k_io k)); cbn [when].
  - eexists. split; [reflexivity|]. exists (k_mem k), (io_cursor (k_io k)), (u8 c :: io_out (k_io k)). split; [|exact Hs].
    by destruct k as [? ? ? ? ? ? ? ? ? ? ? ? ? ? ? ? ? ? ? ? ? ? []].
  - exists k. split; [done|by apply echoed_refl].
Qed.

Lemma cgaputc_echoed c k : screen_ok k → ∃ k', cgaputc c k = Ret tt k' ∧ echoed k k'.
Proof.
  intros Hs. destruct (cgaputc_eq c k Hs) as (E & Hp & _). eexists. split; [exact E|].
  eexists (cga_mem (k_mem k) c (io_cursor (k_io k))), _, (io_out (k_io k)). split; [|exact Hp].
  by destruct k as [? ? ? ? ? ? ? ? ? ? ? ? ? ? ? ? ? ? ? ? ? ? []].
Qed.

Lemma echo_bind {A} (m : KM unit) (f : unit → KM A) k (Q : outcome kernel leave A → Prop) :
  echo_ok k → (∃ k', m k = Ret tt k' ∧ echoed k k') →
  (∀ k', echo_ok k' → echoed k k' → Q (f tt k')) → Q (bindM m f k).
Proof.
  intros Hk (k' & E & He) H. rewrite (bind_Ret_eq _ _ _ _ _ E). apply H; [by eapply echoed_ok|done].
Qed.

Lemma consputc_echoed c k : echo_ok k → ∃ k', consputc c k = Ret tt k' ∧ echoed k k'.
Proof.
  intros Hk. unfold consputc. rewrite bind_gets. rewrite (proj2 Hk).
  set (Q k (o : outcome kernel leave unit) := ∃ k', o = Ret tt k' ∧ echoed k k').
  assert (Hu : Q k ((if c =? BACKSPACE then uartputc 8 ;; uartputc 32 ;; uartputc 8 else uartputc c) k)).
  { destruct (c =? BACKSPACE); [|apply uartputc_echoed, Hk].
    apply (echo_bind _ _ k (Q k)); [done|apply uartputc_echoed, Hk|]. intros k1 Hk1 H1.
    apply (echo_bind _ _ k1 (Q k)); [done|apply uartputc_echoed, Hk1|]. intros k2 Hk2 H2.
    destruct (uartputc_echoed 8 k2 (proj1 Hk2)) as (k3 & E3 & H3). exists k3. split; [done|].
    eapply echoed_trans; [exact H1|]. by eapply echoed_trans. }
  apply (echo_bind _ _ k (Q k)); [done|done|]. intros k1 Hk1 H1.
  destruct (cgaputc_echoed c k1 (proj1 Hk1)) as (k2 & E2 & H2). exists k2.
  split; [done|by eapply echoed_trans].
Qed.

(** ** Slots *)
Lemma in_slot_u32 x : in_slot (u32 x) = in_slot x.
Proof. by apply (slot_u32 INPUT_BUF). Qed.

Lemma chars_S buf a n : chars buf a (S n) = chars buf a n ++ [default 0 (buf !! in_slot (a + Z.of_nat n))].
Proof. apply (ring_S INPUT_BUF). Qed.

Lemma chars_insert buf a n c :
  length buf = Z.to_nat INPUT_BUF → Z.of_nat n < INPUT_BUF →
  chars (<[in_slot (a + Z.of_nat n) := c]> buf) a (S n) = chars buf a n ++ [c].
Proof. by apply (ring_insert INPUT_BUF). Qed.

(** ** The operations on [input] *)
Section input.
Variables (i : input_t) (rd ed : list Z).
Hypothesis Hi : input_is i rd ed.

Lemma ii_length : length (rd ++ ed) = (length rd + length ed)%nat.
Proof using. apply length_app. Qed.

Lemma ii_counts :
  u32 (in_e i - in_w i) = Z.of_nat (length ed) ∧ u32 (in_e i - in_r i) = Z.of_nat (length (rd ++ ed)) ∧
  (in_e i = in_w i ↔ ed = []) ∧ (in_r i = in_w i ↔ rd = []).
Proof using Hi.
  destruct Hi as [Hl Hr Hw He Hc _ _]. rewrite ii_length in *. unfold INPUT_BUF in *.
  rewrite Hw, He. unfold u32 in *. change (2 ^ 32) with 4294967296 in *.
  split; [divlia|]. split; [divlia|]. split.
  - split; [intros|intros ->; f_equal; cbn [length]; lia]. apply length_zero_iff_nil. divlia.
  - split; [intros|intros ->; cbn [length]; divlia]. apply length_zero_iff_nil. divlia.
Qed.

(** Dropping the last character of the line. *)
Lemma input_is_rubout : ed ≠ [] → input_is (set_in_e (u32 (in_e i - 1)) i) rd (removelast ed).
Proof using Hi.
  intros Hne. destruct (exists_last Hne) as (ed' & c & E). destruct Hi as [Hl Hr Hw He Hc Hch Hli].
  rewrite E in *. rewrite removelast_last. rewrite app_assoc, length_app in *. cbn [length] in *.
  unfold INPUT_BUF in *. split; cbn; try done.
  - rewrite He. unfold u32. change (2 ^ 32) with 4294967296 in *. divlia.
  - unfold INPUT_BUF. lia.
  - rewrite Nat.add_1_r, chars_S in Hch. by apply app_inj_tail in Hch as [Hch _].
  - set_solver.
Qed.

(** The slot before [e] holds the last character of the line. *)
Lemma input_is_last c ed' : ed = ed' ++ [c] → default 0 (in_buf i !! in_slot (u32 (in_e i - 1))) = c.
Proof using Hi.
  intros ->. destruct Hi as [Hl Hr Hw He Hc Hch Hli]. rewrite app_assoc, length_app in *. cbn [length] in *.
  rewrite Nat.add_1_r, chars_S in Hch. apply app_inj_tail in Hch as [_ <-].
  do 2 f_equal. rewrite in_slot_u32, He. unfold in_slot, u32, INPUT_BUF. f_equal.
  change (2 ^ 32) with 4294967296. divlia.
Qed.

(** Storing a character. *)
Lemma input_is_put c : Z.of_nat (length (rd ++ ed)) < INPUT_BUF → c ≠ 10 →
  input_is (set_in_e (u32 (in_e i + 1)) (set_in_buf (<[in_slot (in_e i) := c]> (in_buf i)) i)) rd (ed ++ [c]).
Proof using Hi.
  intros Hlt Hc10. destruct Hi as [Hl Hr Hw He Hc Hch Hli]. unfold INPUT_BUF in *.
  split; cbn; rewrite ?app_assoc, ?(length_app (rd ++ ed)); cbn [length].
  - by rewrite length_insert.
  - done.
  - done.
  - rewrite He. unfold u32. change (2 ^ 32) with 4294967296 in *. divlia.
  - unfold INPUT_BUF. lia.
  - rewrite Nat.add_1_r, He, in_slot_u32, chars_insert by (unfold INPUT_BUF; lia || done). by rewrite Hch.
  - rewrite elem_of_app, list_elem_of_singleton. naive_solver.
Qed.

(** Handing the line to the readers. *)
Lemma input_is_commit c : Z.of_nat (length (rd ++ ed)) < INPUT_BUF →
  let i' := set_in_e (u32 (in_e i + 1)) (set_in_buf (<[in_slot (in_e i) := c]> (in_buf i)) i) in
  input_is (set_in_w (in_e i') i') (rd ++ ed ++ [c]) [].
Proof using Hi.
  intros Hlt i'. destruct Hi as [Hl Hr Hw He Hc Hch Hli]. unfold INPUT_BUF in *.
  split; cbn; rewrite ?app_nil_r, ?app_assoc, ?(length_app (rd ++ ed)); cbn [length].
  - by rewrite length_insert.
  - done.
  - rewrite He. unfold u32. change (2 ^ 32) with 4294967296 in *. divlia.
  - rewrite He. unfold u32. change (2 ^ 32) with 4294967296 in *. divlia.
  - unfold INPUT_BUF. lia.
  - rewrite Nat.add_1_r, He, in_slot_u32, chars_insert by (unfold INPUT_BUF; lia || done). by rewrite Hch.
  - set_solver.
Qed.
End input.

(** ** One character *)
Definition console_st (k : kernel) (rd ed : list Z) : Prop :=
  input_is (io_input (k_io k)) rd ed ∧ echo_ok k ∧ cpu_ok k ∧ LkCons ∈ k_held k ∧ LkPtable ∉ k_held k.

(** From [k] to [k'] the strings became [rd] and [ed], and the readers were
    woken if [w]. *)
Definition console_step (k k' : kernel) (rd ed : list Z) (w : bool) : Prop :=
  console_st k' rd ed ∧ k_held k' = k_held k ∧ io_uart (k_io k') = io_uart (k_io k) ∧
  k_procs k' = (if w then wake ChCons <$> k_procs k else k_procs k).

Lemma echoed_st k k' rd ed : console_st k rd ed → echoed k k' → console_step k k' rd ed false.
Proof.
  intros (Hi & He & Hc & Hl & Hp) Hk. pose proof (echoed_ok _ _ He Hk) as He'. destruct Hk as (m & c & o & -> & ?).
  by split.
Qed.

Lemma input_mod_st k i rd ed rd' ed' : console_st k rd ed → input_is i rd' ed' →
  console_st (upd_input (λ _, i) k) rd' ed'.
Proof. intros (_ & [Hs Hp] & Hc & Hl & Hpt) Hi. by split. Qed.

Lemma rubout_step k rd ed : console_st k rd ed → ed ≠ [] →
  ∃ k', input_rubout k = Ret tt k' ∧ console_step k k' rd (removelast ed) false.
Proof.
  intros Hst Hne. unfold input_rubout, input_mod. rewrite bind_modify.
  set (k1 := upd_input _ k). assert (Hst1 : console_st k1 rd (removelast ed)).
  { apply (input_mod_st k _ rd ed); [done|]. by apply (input_is_rubout (io_input (k_io k)) rd ed (proj1 Hst)). }
  destruct (consputc_echoed BACKSPACE k1 (proj1 (proj2 Hst1))) as (k2 & E & He). exists k2. split; [done|].
  by apply (echoed_st k1 k2 rd (removelast ed) Hst1 He).
Qed.

Lemma kill_step n : ∀ k rd ed, console_st k rd ed → length ed = n →
  ∃ k', input_kill n k = Ret tt k' ∧ console_step k k' rd [] false.
Proof.
  induction n as [|n IH]; intros k rd ed Hst Hn; pose proof (ii_counts _ _ _ (proj1 Hst)) as (_ & _ & Hw & _);
    cbn [input_kill]; unfold input_get; rewrite bind_gets.
  - apply length_zero_iff_nil in Hn as ->. rewrite (proj2 Hw eq_refl), Z.eqb_refl. cbn [negb andb].
    exists k. by split.
  - assert (Hne : ed ≠ []) by (by intros ->). destruct (Z.eqb_spec (in_e (io_input (k_io k))) (in_w (io_input (k_io k)))).
    { by apply Hw in e. }
    destruct (exists_last Hne) as (ed' & c & Ed). rewrite (input_is_last _ _ _ (proj1 Hst) _ _ Ed).
    destruct (Z.eqb_spec c 10) as [->|]; [destruct (ii_line _ _ _ (proj1 Hst)); rewrite Ed; set_solver|]. cbn [negb andb].
    destruct (rubout_step k rd ed Hst Hne) as (k1 & E1 & Hs1). rewrite (bind_Ret_eq _ _ _ _ _ E1).
    pose proof Hs1 as (Hst1 & Hh & Hu & Hp). rewrite Ed, removelast_last in Hst1.
    destruct (IH k1 rd ed' Hst1) as (k2 & E2 & Hst2 & Hh2 & Hu2 & Hp2).
    { rewrite Ed, length_app in Hn. cbn in Hn. lia. }
    exists k2. split; [done|]. split; [done|]. split; [by rewrite Hh2|]. split; [by rewrite Hu2|by rewrite Hp2].
Qed.

(** Storing and echoing a character, and waking the readers at a line's end. *)
Lemma put_step k rd ed c : console_st k rd ed → 0 <= c < 256 → Z.of_nat (length (rd ++ ed)) < INPUT_BUF →
  let fin := (c =? 10) || (c =? 4) || (Z.of_nat (length (rd ++ ed ++ [c])) =? INPUT_BUF) in
  ∃ k', (input_put c ;; consputc c ;; i <- input_get ;;
         when ((c =? 10) || (c =? 4) || (in_e i =? u32 (in_r i + INPUT_BUF)))
           (input_mod (λ i, set_in_w (in_e i) i) ;; wakeup ChCons)) k = Ret tt k' ∧
    (if fin then console_step k k' (rd ++ ed ++ [c]) [] true else console_step k k' rd (ed ++ [c]) false).
Proof.
  intros Hst Hc Hlt fin. unfold input_put, input_mod, input_get. rewrite bind_modify. set (k1 := upd_input _ k).
  pose proof Hst as (Hi & He & Hcpu & Hlk & Hpt). set (i0 := io_input (k_io k)) in *.
  assert (He1 : echo_ok k1) by exact He.
  destruct (consputc_echoed c k1 He1) as (k2 & E2 & Hec). rewrite (bind_Ret_eq _ _ _ _ _ E2), bind_gets.
  assert (Hin : io_input (k_io k2) = set_in_e (u32 (in_e i0 + 1)) (set_in_buf (<[in_slot (in_e i0) := c]> (in_buf i0)) i0)).
  { destruct Hec as (m & cu & o & -> & _). cbn. unfold u8. by rewrite Z.mod_small by lia. }
  assert (Hk2 : cpu_ok k2 ∧ k_held k2 = k_held k ∧ k_procs k2 = k_procs k ∧ io_uart (k_io k2) = io_uart (k_io k))
    by (destruct Hec as (m & cu & o & -> & _); done).
  destruct Hk2 as (Hcpu2 & Hh2 & Hp2 & Hu2). pose proof (echoed_ok _ _ He1 Hec) as He2.
  assert (Hfin : in_e (io_input (k_io k2)) =? u32 (in_r (io_input (k_io k2)) + INPUT_BUF) =
                 (Z.of_nat (length (rd ++ ed ++ [c])) =? INPUT_BUF)).
  { rewrite Hin. cbn. rewrite (ii_e _ _ _ Hi), app_assoc, (length_app (rd ++ ed)). cbn [length].
    pose proof (ii_r _ _ _ Hi). unfold u32, INPUT_BUF in *. change (2 ^ 32) with 4294967296 in *.
    destruct (Z.eqb_spec (Z.of_nat (length (rd ++ ed) + 1)) 128), (Z.eqb_spec
      (((in_r i0 + Z.of_nat (length (rd ++ ed))) mod 4294967296 + 1) mod 4294967296) ((in_r i0 + 128) mod 4294967296));
      try done; exfalso; divlia. }
  rewrite Hfin. fold fin. destruct fin eqn:Ef; cbn [when].
  - rewrite bind_modify. set (k3 := upd_input _ k2).
    assert (Hw : (wakeup ChCons : KM unit) k3 = Ret tt (set_k_procs (wake ChCons <$> k_procs k3) k3)).
    { apply wakeup_locked; [done| |]; change (k_held k3) with (k_held k2); rewrite Hh2; [|done]. intros E. rewrite E in Hlk. set_solver. }
    eexists. split; [exact Hw|]. split; [|split; [exact Hh2|split; [exact Hu2|]]].
    + split; [|split; [exact He2|split; [exact Hcpu2|]]]; [|cbn; by rewrite Hh2].
      cbn. rewrite Hin. by apply (input_is_commit i0 rd ed Hi c).
    + change (wake ChCons <$> k_procs k2 = wake ChCons <$> k_procs k). by rewrite Hp2.
  - exists k2. split; [done|]. split; [|by rewrite Hh2]. split; [|split; [exact He2|split; [exact Hcpu2|by rewrite Hh2]]].
    rewrite Hin. apply (input_is_put i0 rd ed Hi c); [done|]. unfold fin in Ef. destruct (Z.eqb_spec c 10); [done|lia].
Qed.

Lemma char_step k rd ed c : console_st k rd ed → 0 <= c < 256 →
  let '(rd', ed', w) := edit_char rd ed c in
  ∃ k', consoleintr_char c k = Ret (c =? 16) k' ∧ console_step k k' rd' ed' w.
Proof.
  intros Hst Hc. unfold edit_char, consoleintr_char.
  pose proof (ii_counts _ _ _ (proj1 Hst)) as (Hew & Her & Hw & _). pose proof (ii_cap _ _ _ (proj1 Hst)) as Hcap.
  destruct (Z.eqb_spec c 16) as [->|]; [exists k; by split|].
  destruct (Z.eqb_spec c 21) as [->|].
  { unfold input_get at 1. rewrite bind_gets, Hew, Nat2Z.id. destruct (kill_step _ k rd ed Hst eq_refl) as (k1 & E & Hs).
    exists k1. by rewrite (bind_Ret_eq _ _ _ _ _ E). }
  destruct ((c =? 8) || (c =? 127)).
  { unfold input_get. rewrite bind_gets. destruct (Z.eqb_spec (in_e (io_input (k_io k))) (in_w (io_input (k_io k)))) as [E|E].
    - apply Hw in E as ->. cbn [negb when]. rewrite bind_mret. exists k. by split.
    - cbn [negb when]. assert (Hne : ed ≠ []) by (intros ->; by apply E, Hw).
      destruct (rubout_step k rd ed Hst Hne) as (k1 & E1 & Hs). exists k1. by rewrite (bind_Ret_eq _ _ _ _ _ E1). }
  unfold input_get at 1. rewrite bind_gets, Her.
  destruct (Z.eqb_spec c 0) as [->|]; cbn [negb andb orb when]; [rewrite bind_mret; exists k; by split|].
  destruct (Z.ltb_spec (Z.of_nat (length (rd ++ ed))) INPUT_BUF) as [Hlt|Hge];
    destruct (Z.leb_spec INPUT_BUF (Z.of_nat (length (rd ++ ed)))); try lia; cbn [when];
    [|rewrite bind_mret; exists k; by split].
  assert (Hc' : 0 <= (if c =? 13 then 10 else c) < 256) by (case_match; lia).
  destruct (put_step k rd ed (if c =? 13 then 10 else c) Hst Hc' Hlt) as (k1 & E & Hs). destruct (_ || _ || _) eqn:Ef.
  - exists k1. by rewrite (bind_Ret_eq _ _ _ _ _ E).
  - exists k1. by rewrite (bind_Ret_eq _ _ _ _ _ E).
Qed.

(** ** A burst of characters *)
Fixpoint edit_chars (rd ed : list Z) (l : list Z) : list Z * list Z * bool :=
  match l with
  | [] => (rd, ed, false)
  | c :: l =>
      let '(rd, ed, w) := edit_char rd ed c in
      let '(rd, ed, w') := edit_chars rd ed l in
      (rd, ed, w || w')
  end.

Lemma wake_wake ch p : wake ch (wake ch p) = wake ch p.
Proof.
  destruct (bool_decide (p_state p = SLEEPING) && bool_decide (p_chan p = Some ch)) eqn:E.
  - assert (Hw : wake ch p = set_p_state RUNNABLE p) by (unfold wake; by rewrite E). by rewrite Hw.
  - assert (Hw : wake ch p = p) by (unfold wake; by rewrite E). by rewrite !Hw.
Qed.

Lemma wake_wake_table ch (l : list proc) : wake ch <$> (wake ch <$> l) = wake ch <$> l.
Proof. rewrite <- list_fmap_compose. apply list_fmap_ext. intros i p _. apply wake_wake. Qed.

Lemma loop_steps l : ∀ k rd ed, console_st k rd ed → io_uart (k_io k) = true →
  Forall (λ c, 0 <= c < 256 ∧ c ≠ 16) l →
  let '(rd', ed', w) := edit_chars rd ed l in
  ∃ k', consoleintr_loop uartgetc l false k = Ret false k' ∧ console_step k k' rd' ed' w.
Proof.
  induction l as [|c l IH]; intros k rd ed Hst Hu Hl; cbn [edit_chars].
  { exists k. by split. }
  apply Forall_cons_iff in Hl as [[Hc H16] Hl]. pose proof (char_step k rd ed c Hst Hc) as Hs.
  destruct (edit_char rd ed c) as [[rd1 ed1] w1]. destruct Hs as (k1 & E1 & Hst1 & Hh1 & Hu1 & Hp1).
  specialize (IH k1 rd1 ed1 Hst1 ltac:(by rewrite Hu1) Hl). destruct (edit_chars rd1 ed1 l) as [[rd2 ed2] w2].
  destruct IH as (k2 & E2 & Hst2 & Hh2 & Hu2 & Hp2). exists k2. split.
  - cbn [consoleintr_loop]. unfold uartgetc at 1. rewrite bind_assoc, bind_gets, Hu, bind_mret.
    destruct (Z.ltb_spec c 0); [lia|]. rewrite (bind_Ret_eq _ _ _ _ _ E1).
    destruct (Z.eqb_spec c 16); [done|]. exact E2.
  - split; [done|]. split; [by rewrite Hh2|]. split; [by rewrite Hu2|]. rewrite Hp2, Hp1.
    destruct w1, w2; cbn [orb]; try done. apply wake_wake_table.
Qed.

(** C23: an interrupt that delivers characters edits the line as a terminal
    does: [^U] and erase act on the line being edited only, a newline, [^D]
    or a full buffer hands it to the readers and wakes them, characters that
    do not fit are dropped; the strings in the 128 slots stay what the line
    editor says, and no lock is left held. *)
Theorem console_line_discipline pcs k rd ed l :
  cpu_ok k → k_held k = [] → echo_ok k → io_uart (k_io k) = true →
  input_is (io_input (k_io k)) rd ed → Forall (λ c, 0 <= c < 256 ∧ c ≠ 16) l →
  let '(rd', ed', w) := edit_chars rd ed l in
  ∃ k', uartintr pcs l k = Ret tt k' ∧ input_is (io_input (k_io k')) rd' ed' ∧
    k_procs k' = (if w then wake ChCons <$> k_procs k else k_procs k) ∧ k_held k' = [] ∧ cpu_ok k' ∧ echo_ok k'.
Proof.
  intros Hcpu Hh He Hu Hi Hl. assert (Hin : LkCons ∉ k_held k) by (rewrite Hh; set_solver).
  assert (Hst : console_st (acquired LkCons k) rd ed).
  { split; [done|]. split; [done|]. split; [by apply cpu_ok_acquired|]. cbn. rewrite Hh. set_solver. }
  pose proof (loop_steps l _ rd ed Hst Hu Hl) as Hs. destruct (edit_chars rd ed l) as [[rd' ed'] w].
  destruct Hs as (k1 & E & (Hi1 & He1 & Hc1 & Hlk1 & _) & Hh1 & _ & Hp1). exists (released LkCons k1). split.
  - unfold uartintr, consoleintr. rewrite (bind_Ret_eq _ _ _ _ _ (acquire_eq LkCons k Hcpu Hin)).
    rewrite (bind_Ret_eq _ _ _ _ _ E), (bind_Ret_eq _ _ _ _ _ (release_eq LkCons k1 Hc1 Hlk1)). done.
  - split; [exact Hi1|]. split; [exact Hp1|]. split; [|split; [by apply cpu_ok_released|exact He1]].
    change (filter (.≠ LkCons) (k_held k1) = []). rewrite Hh1. change (k_held (acquired LkCons k)) with (LkCons :: k_held k).
    rewrite Hh. by rewrite filter_head by set_solver.
Qed.

(** "ls", an erased character, a newline *)
Definition demo_console : kernel := upd_io (set_io_uart true) kernel0.
Lemma console_line_discipline_witness :
  ∃ k', uartintr (λ _, []) [108; 120; 8; 115; 13] demo_console = Ret tt k' ∧
    input_is (io_input (k_io k')) [108; 115; 10] [] ∧
    k_procs k' = wake ChCons <$> k_procs demo_console ∧ k_held k' = [] ∧ cpu_ok k' ∧ echo_ok k'.
Proof.
  apply (console_line_discipline (λ _, []) demo_console [] [] [108; 120; 8; 115; 13]).
  - split; [done|]. split; [done|]. constructor.
  - done.
  - split; [|done]. split; [done|]. done.
  - done.
  - split; try done. set_solver.
  - repeat constructor; done.
Defined.
