(* ===== verification/Fs.v ===== *)
(** * Fs: file contents, directories and paths (the second half of fs.c)

    [readi] and [writei] move bytes between a file and a buffer: an address,
    or a local variable of the caller whose bytes are passed as a list.
    Directories are files of 16-byte entries. *)

From S2P Require Import Prelude CString Kernel Sched Kalloc Fifo Paging Vmem Cons Kbd Sleeplock Bio Log Inode Console.

(** ** Definitions *)
Definition stati (i : nat) (st : Z) : KM unit :=
  ip <- ip_at i ;;
  vstore32 (u32 (st + 4)) (i_dev ip) ;;
  vstore32 (u32 (st + 8)) (i_inum ip) ;;
  vstore st (le_bytes 2 (i_type ip)) ;;
  vstore (u32 (st + 12)) (le_bytes 2 (i_nlink ip)) ;;
  vstore32 (u32 (st + 16)) (i_size ip).

(** [devsw[major].f] is installed. *)
Definition has_dev (major : Z) : KM bool :=
  d <- gets (λ k, io_devsw (k_io k)) ;;
  mret ((0 <=? major) && (major <? NDEV) && default false (d !! Z.to_nat major)).

(** Where [readi] puts the bytes: at an address, or in a local variable of
    the caller ([None]); the bytes read are returned in both cases. *)
Fixpoint readi_loop (fuel : nat) (i : nat) (dst : option Z) (off n tot : Z) : KM (list Z) :=
  if negb (tot <? n) then mret [] else
  match fuel with
  | O => fault "readi: out of fuel"
  | S fuel =>
      ip <- ip_at i ;;
      blk <- bmap i (off / BSIZE) ;;
      bp <- bread (i_dev ip) blk ;;
      let m := Z.min (n - tot) (BSIZE - off mod BSIZE) in
      d <- bdata bp ;;
      let bytes := slice (Z.to_nat (off mod BSIZE)) (Z.to_nat m) d in
      match dst with Some a => vstore a bytes | None => mret tt end ;;
      brelse bp ;;
      rest <- readi_loop fuel i ((λ a, u32 (a + m)) <$> dst) (u32 (off + m)) n (tot + m) ;;
      mret (bytes ++ rest)
  end.
Definition readi (i : nat) (dst : option Z) (off n : Z) : KM (Z * list Z) :=
  ip <- ip_at i ;;
  if i_type ip =? T_DEV then
    h <- has_dev (i_major ip) ;;
    if negb h then mret (-1, []) else
    match dst with
    | Some a => r <- consoleread i a (s32 n) ;; mret (r, [])
    | None => fault "readi: device into a local variable"
    end
  else
    if (i_size ip <? off) || (u32 (off + n) <? off) then mret (-1, []) else
    let n := if i_size ip <? u32 (off + n) then i_size ip - off else n in
    l <- readi_loop (S (S (Z.to_nat (n / BSIZE)))) i dst off n 0 ;;
    mret (s32 n, l).

(** What [writei] writes: the bytes at an address, or a local variable. *)
Inductive source : Type :=
  | FromMem (a : Z)
  | FromLocal (bytes : list Z).
Definition src_bytes (s : source) (off m : Z) : KM (list Z) :=
  match s with
  | FromMem a => vload (u32 (a + off)) (Z.to_nat m)
  | FromLocal l => if off + m <=? Z.of_nat (length l) then mret (slice (Z.to_nat off) (Z.to_nat m) l)
                   else fault "writei: source"
  end.
Fixpoint writei_loop (fuel : nat) (i : nat) (src : source) (off n tot : Z) : KM Z :=
  if negb (tot <? n) then mret off else
  match fuel with
  | O => fault "writei: out of fuel"
  | S fuel =>
      ip <- ip_at i ;;
      blk <- bmap i (off / BSIZE) ;;
      bp <- bread (i_dev ip) blk ;;
      let m := Z.min (n - tot) (BSIZE - off mod BSIZE) in
      bytes <- src_bytes src tot m ;;
      d <- bdata bp ;;
      bdata_set bp (splice (Z.to_nat (off mod BSIZE)) bytes d) ;;
      log_write bp ;;
      brelse bp ;;
      writei_loop fuel i src (u32 (off + m)) n (tot + m)
  end.
Definition writei (i : nat) (src : source) (off n : Z) : KM Z :=
  ip <- ip_at i ;;
  if i_type ip =? T_DEV then
    h <- has_dev (i_major ip) ;;
    if negb h then mret (-1) else
    match src with
    | FromMem a => consolewrite i a (s32 n)
    | FromLocal _ => fault "writei: device from a local variable"
    end
  else
    if (i_size ip <? off) || (u32 (off + n) <? off) then mret (-1) else
    if MAXFILE * BSIZE <? u32 (off + n) then mret (-1) else
    off <- writei_loop (S (S (Z.to_nat (n / BSIZE)))) i src off n 0 ;;
    ip <- ip_at i ;;
    when ((0 <? n) && (i_size ip <? off))
      (modify (upd_inode i (set_i_size off)) ;;
       iupdate i) ;;
    mret (s32 n).

(** *** Directories: 16-byte entries, [inum] at 0, [name] at 2 *)
Definition DIRSIZ : nat := 14.
Definition DIRENT : Z := 16.
Definition de_inum (de : list Z) : Z := get16 0 de.
Definition de_name (de : list Z) : list Z := slice 2 DIRSIZ de.

(** Comparison and copy of names: blocks of [DIRSIZ] bytes, or strings. *)
Definition namecmp (s t : list Z) : KM Z := deref "namecmp" (blk_strncmp s t (Z.of_nat DIRSIZ)).

(** The entry at [off], or the code's [panic]. *)
Definition read_dirent (dp : nat) (off : Z) (msg : string) : KM (list Z) :=
  r <- readi dp None off DIRENT ;;
  if negb (r.1 =? DIRENT) then panic msg else mret r.2.

(** [dirlookup] returns the inode and the offset stored in [*poff]. *)
Fixpoint dirlookup_loop (fuel : nat) (dp : nat) (name : list Z) (off : Z) : KM (option (nat * Z)) :=
  d <- ip_at dp ;;
  if negb (off <? i_size d) then mret None else
  match fuel with
  | O => fault "dirlookup: out of fuel"
  | S fuel =>
      de <- read_dirent dp off "dirlookup read" ;;
      if de_inum de =? 0 then dirlookup_loop fuel dp name (off + DIRENT) else
      c <- namecmp name (de_name de) ;;
      if c =? 0 then
        ip <- iget (i_dev d) (de_inum de) ;;
        mret (Some (ip, off))
      else dirlookup_loop fuel dp name (off + DIRENT)
  end.
Definition dirlookup (dp : nat) (name : list Z) : KM (option (nat * Z)) :=
  d <- ip_at dp ;;
  if negb (i_type d =? T_DIR) then panic "dirlookup not DIR" else
  dirlookup_loop (S (Z.to_nat (i_size d / DIRENT))) dp name 0.

(** The offset of the first empty entry, or the size. *)
Fixpoint dirlink_loop (fuel : nat) (dp : nat) (off : Z) : KM Z :=
  d <- ip_at dp ;;
  if negb (off <? i_size d) then mret off else
  match fuel with
  | O => fault "dirlink: out of fuel"
  | S fuel =>
      de <- read_dirent dp off "dirlink read" ;;
      if de_inum de =? 0 then mret off else dirlink_loop fuel dp (off + DIRENT)
  end.
Definition dirlink (dp : nat) (name : list Z) (inum : Z) : KM Z :=
  f <- dirlookup dp name ;;
  match f with
  | Some (ip, _) => iput ip ;; mret (-1)
  | None =>
      d <- ip_at dp ;;
      off <- dirlink_loop (S (Z.to_nat (i_size d / DIRENT))) dp 0 ;;
      nm <- deref "strncpy" (blk_strncpy (replicate DIRSIZ 0) name (Z.of_nat DIRSIZ)) ;;
      r <- writei dp (FromLocal (le_bytes 2 inum ++ nm)) off DIRENT ;;
      if negb (r =? DIRENT) then panic "dirlink" else mret 0
  end.

(** *** Paths: the bytes of a string without its NUL *)
Fixpoint skip_slashes (path : list Z) : list Z :=
  match path with
  | c :: path' => if c =? 47 then skip_slashes path' else path
  | [] => []
  end.
Fixpoint take_elem (path : list Z) : list Z * list Z :=
  match path with
  | c :: path' => if c =? 47 then ([], path) else let '(e, r) := take_elem path' in (c :: e, r)
  | [] => ([], [])
  end.
(** [skipelem(path, name)]: the rest of the path and the new contents of the
    array [name]; [None] when there is no element. *)
Definition skipelem (path name : list Z) : option (list Z * list Z) :=
  match skip_slashes path with
  | [] => None
  | path =>
      let '(s, rest) := take_elem path in
      let name :=
        if (DIRSIZ <=? length s)%nat then splice 0 (take DIRSIZ s) name
        else splice 0 (s ++ [0]) name in
      Some (skip_slashes rest, name)
  end.

(** [namex]: the inode, and the array [name] when the parent is wanted. *)
Fixpoint namex_loop (fuel : nat) (ip : nat) (path : list Z) (parent : bool) (name : list Z) : KM (option (nat * list Z)) :=
  match skipelem path name with
  | None =>
      if parent then iput ip ;; mret None else mret (Some (ip, name))
  | Some (path, name) =>
      match fuel with
      | O => fault "namex: out of fuel"
      | S fuel =>
          ilock ip ;;
          d <- ip_at ip ;;
          if negb (i_type d =? T_DIR) then iunlockput ip ;; mret None else
          if parent && bool_decide (path = []) then iunlock ip ;; mret (Some (ip, name)) else
          next <- dirlookup ip name ;;
          match next with
          | None => iunlockput ip ;; mret None
          | Some (next, _) => iunlockput ip ;; namex_loop fuel next path parent name
          end
      end
  end.
Definition namex (path : list Z) (parent : bool) (name : list Z) : KM (option (nat * list Z)) :=
  ip <- (match path with
         | 47 :: _ => iget ROOTDEV ROOTINO
         | _ =>
             p <- myproc ;;
             p <- deref "myproc" p ;;
             pr <- proc_at p ;;
             cwd <- deref "cwd" (p_cwd pr) ;;
             idup cwd
         end) ;;
  namex_loop (length path) ip path parent name.

(** The local [name] is not initialised; its contents do not matter. *)
Definition namei (path : list Z) : KM (option nat) :=
  r <- namex path false (replicate DIRSIZ 0) ;;
  mret (fst <$> r).
Definition nameiparent (path : list Z) : KM (option (nat * list Z)) :=
  namex path true (replicate DIRSIZ 0).
