(* ===== verification/Utils.v ===== *)
(** * Utils: the small user programs

    wc, cat, ls, echo, mkdir, rm, ln and kill, over the system calls of
    [usys], and [stat] of ulib.c. A program's arguments are
    [argv\[1\]] and the following. *)

From S2P Require Import Prelude CString Kernel Sched Kalloc Fifo Paging Vmem Cons Printf Sleeplock Bio Log Inode Fs.

(** ** Definitions *)
Definition nl : list Z := [10].

Section utils.
Context {W : Type} `{usys W}.
Notation UM := (M W uexit).

(** *** ulib.c *)
Definition stat (path : list Z) : UM (option ustat) :=
  fd <- call (us_open path 0) ;;
  if fd <? 0 then mret None else
  r <- call (us_fstat fd) ;;
  call (us_close fd) ;;
  mret r.

(** *** wc.c *)
Record wc_t : Type := mk_wc_t { wc_l : Z; wc_w : Z; wc_c : Z; wc_inword : bool }.
Definition blank (x : Z) : bool := existsb (Z.eqb x) [32; 13; 9; 10; 11].
Definition wc_byte (s : wc_t) (x : Z) : wc_t :=
  let c := s32 (wc_c s + 1) in
  let l := if x =? 10 then s32 (wc_l s + 1) else wc_l s in
  if blank x then mk_wc_t l (wc_w s) c false
  else if negb (wc_inword s) then mk_wc_t l (s32 (wc_w s + 1)) c true
  else mk_wc_t l (wc_w s) c (wc_inword s).
Fixpoint wc_loop (fuel : nat) (fd : Z) (s : wc_t) : UM wc_t :=
  match fuel with
  | O => fault "wc: out of fuel"
  | S fuel =>
      r <- call (us_read fd 512) ;;
      match r with
      | None => printf 1 (lit "wc: read error" ++ nl) [] ;; exit
      | Some [] => mret s
      | Some buf => wc_loop fuel fd (fold_left wc_byte buf s)
      end
  end.
Definition wc (fuel : nat) (fd : Z) (name : list Z) : UM unit :=
  s <- wc_loop fuel fd (mk_wc_t 0 0 0 false) ;;
  printf 1 (lit "%d %d %d %s" ++ nl) [AInt (wc_l s); AInt (wc_w s); AInt (wc_c s); AStr (Some name)].
Definition wc_main (fuel : nat) (argv : list (list Z)) : UM unit :=
  match argv with
  | [] => wc fuel 0 [] ;; exit
  | _ =>
      mfor argv (λ a,
        fd <- call (us_open a 0) ;;
        if fd <? 0 then printf 1 (lit "wc: cannot open %s" ++ nl) [AStr (Some a)] ;; exit else
        wc fuel fd a ;;
        call (us_close fd) ;; mret tt) ;;
      exit
  end.

(** *** cat.c *)
Fixpoint cat (fuel : nat) (fd : Z) : UM unit :=
  match fuel with
  | O => fault "cat: out of fuel"
  | S fuel =>
      r <- call (us_read fd 512) ;;
      match r with
      | None => printf 1 (lit "cat: read error" ++ nl) [] ;; exit
      | Some [] => mret tt
      | Some buf =>
          n <- call (us_write 1 buf) ;;
          if negb (n =? Z.of_nat (length buf)) then printf 1 (lit "cat: write error" ++ nl) [] ;; exit else
          cat fuel fd
      end
  end.
Definition cat_main (fuel : nat) (argv : list (list Z)) : UM unit :=
  match argv with
  | [] => cat fuel 0 ;; exit
  | _ =>
      mfor argv (λ a,
        fd <- call (us_open a 0) ;;
        if fd <? 0 then printf 1 (lit "cat: cannot open %s" ++ nl) [AStr (Some a)] ;; exit else
        cat fuel fd ;;
        call (us_close fd) ;; mret tt) ;;
      exit
  end.

(** *** ls.c *)

(** [for(p=path+strlen(path); p >= path && *p != '/'; p--); p++]: where the
    scan of [path], down from [path+i], leaves [p]. *)
Fixpoint fmt_scan (path : list Z) (i : nat) : nat :=
  if default 0 (path !! i) =? 47 then S i else
  match i with O => O | S i => fmt_scan path i end.
Definition fmtname (path : list Z) : list Z :=
  let p := drop (fmt_scan path (length path)) path in
  if (DIRSIZ <=? length p)%nat then p else p ++ replicate (DIRSIZ - length p) 32.

Definition ls_line (path : list Z) (st : ustat) : UM unit :=
  printf 1 (lit "%s %d %d %d" ++ nl) [AStr (Some (fmtname path)); AInt (st_type st); AInt (st_ino st); AInt (st_size st)].
(** [while(read(fd, &de, sizeof(de)) == sizeof(de))]; [p] is what is before
    the name in [buf]. *)
Fixpoint ls_loop (fuel : nat) (fd : Z) (p : list Z) : UM unit :=
  match fuel with
  | O => fault "ls: out of fuel"
  | S fuel =>
      r <- call (us_read fd 16) ;;
      match r with
      | Some de =>
          if negb (Z.of_nat (length de) =? 16) then mret tt else
          if de_inum de =? 0 then ls_loop fuel fd p else
          let path := cstring (p ++ de_name de) in
          st <- stat path ;;
          match st with
          | None => printf 1 (lit "ls: cannot stat %s" ++ nl) [AStr (Some path)] ;; ls_loop fuel fd p
          | Some st => ls_line path st ;; ls_loop fuel fd p
          end
      | None => mret tt
      end
  end.
Definition ls (fuel : nat) (path : list Z) : UM unit :=
  fd <- call (us_open path 0) ;;
  if fd <? 0 then printf 2 (lit "ls: cannot open %s" ++ nl) [AStr (Some path)] else
  st <- call (us_fstat fd) ;;
  match st with
  | None => printf 2 (lit "ls: cannot stat %s" ++ nl) [AStr (Some path)] ;; call (us_close fd) ;; mret tt
  | Some st =>
      (if st_type st =? T_FILE then ls_line path st
       else if st_type st =? T_DIR then
         if 512 <? Z.of_nat (length path) + 1 + Z.of_nat DIRSIZ + 1 then printf 1 (lit "ls: path too long" ++ nl) []
         else ls_loop fuel fd (path ++ [47])
       else mret tt) ;;
      call (us_close fd) ;; mret tt
  end.
Definition ls_main (fuel : nat) (argv : list (list Z)) : UM unit :=
  match argv with
  | [] => ls fuel (lit ".") ;; exit
  | _ => mfor argv (ls fuel) ;; exit
  end.

(** *** echo.c, mkdir.c, rm.c, ln.c, kill.c *)
Fixpoint echo_loop (argv : list (list Z)) : UM unit :=
  match argv with
  | [] => mret tt
  | a :: argv =>
      printf 1 (lit "%s%s") [AStr (Some a); AStr (Some (if bool_decide (argv = []) then nl else [32]))] ;;
      echo_loop argv
  end.
Definition echo_main (argv : list (list Z)) : UM unit := echo_loop argv ;; exit.

(** [for(...) if(f(argv\[i\]) < 0) { printf(...); break; }] *)
Fixpoint until_fails (f : list Z → W → Z * W) (msg : list Z) (argv : list (list Z)) : UM unit :=
  match argv with
  | [] => mret tt
  | a :: argv =>
      r <- call (f a) ;;
      if r <? 0 then printf 2 msg [AStr (Some a)] else until_fails f msg argv
  end.
Definition mkdir_main (argv : list (list Z)) : UM unit :=
  if bool_decide (argv = []) then printf 2 (lit "Usage: mkdir files..." ++ nl) [] ;; exit else
  until_fails us_mkdir (lit "mkdir: %s failed to create" ++ nl) argv ;;
  exit.
Definition rm_main (argv : list (list Z)) : UM unit :=
  if bool_decide (argv = []) then printf 2 (lit "Usage: rm files..." ++ nl) [] ;; exit else
  until_fails us_unlink (lit "rm: %s failed to delete" ++ nl) argv ;;
  exit.
Definition ln_main (argv : list (list Z)) : UM unit :=
  match argv with
  | [a; b] =>
      r <- call (us_link a b) ;;
      when (r <? 0) (printf 2 (lit "link %s %s: failed" ++ nl) [AStr (Some a); AStr (Some b)]) ;;
      exit
  | _ => printf 2 (lit "Usage: ln old new" ++ nl) [] ;; exit
  end.
(** [atoi] of an argument. *)
Fixpoint atoi_bytes (s : list Z) (n : Z) : Z :=
  match s with
  | c :: s => if (48 <=? s8 c) && (s8 c <=? 57) then atoi_bytes s (s32 (n * 10 + s8 c - 48)) else n
  | [] => n
  end.
Definition kill_main (argv : list (list Z)) : UM unit :=
  if bool_decide (argv = []) then printf 2 (lit "usage: kill pid..." ++ nl) [] ;; exit else
  mfor argv (λ a, call (us_kill (atoi_bytes a 0)) ;; mret tt) ;;
  exit.

(** *** Reads *)

(** Reading [n] bytes at a time from [fd] delivers these chunks, then the end
    of the file. *)
Inductive reads_from (fd n : Z) : W → list (list Z) → W → Prop :=
  | rf_end w w' : us_read fd n w = (Some [], w') → reads_from fd n w [] w'
  | rf_more w l w1 ls w2 : us_read fd n w = (Some l, w1) → l ≠ [] → reads_from fd n w1 ls w2 → reads_from fd n w (l :: ls) w2.
End utils.

(** The words of a text: its maximal runs without blanks. *)
Fixpoint words_of (cur s : list Z) : list (list Z) :=
  match s with
  | [] => if bool_decide (cur = []) then [] else [cur]
  | x :: s =>
      if blank x then (if bool_decide (cur = []) then [] else [cur]) ++ words_of [] s
      else words_of (cur ++ [x]) s
  end.
Definition newlines (s : list Z) : Z := Z.of_nat (length (List.filter (Z.eqb 10) s)).


(** ** wc *)

(** The counters after the text [a]; [cur] is the word under way. *)
Definition wc_counted (a cur : list Z) (s : wc_t) : Prop :=
  wc_l s = newlines a ∧ wc_c s = Z.of_nat (length a) ∧ wc_inword s = negb (bool_decide (cur = [])) ∧
  ∀ b, Z.of_nat (length (words_of [] (a ++ b))) = wc_w s - (if wc_inword s then 1 else 0) + Z.of_nat (length (words_of cur b)).

Lemma newlines_snoc a x : newlines (a ++ [x]) = newlines a + (if x =? 10 then 1 else 0).
Proof. unfold newlines. rewrite List.filter_app, length_app. cbn. rewrite Z.eqb_sym. destruct (x =? 10); cbn; lia. Qed.

Lemma newlines_le a : 0 <= newlines a <= Z.of_nat (length a).
Proof. unfold newlines. pose proof (List.filter_length_le (Z.eqb 10) a). lia. Qed.

Lemma words_le cur s : Z.of_nat (length (words_of cur s)) <= Z.of_nat (length s) + (if bool_decide (cur = []) then 0 else 1).
Proof.
  revert cur. induction s as [|x s IH]; intros cur; cbn [words_of length]; [by case_bool_decide|]. destruct (blank x).
  - rewrite length_app. specialize (IH []). rewrite bool_decide_eq_true_2 in IH by done. case_bool_decide; cbn [length]; lia.
  - specialize (IH (cur ++ [x])). rewrite bool_decide_eq_false_2 in IH by (by destruct cur). case_bool_decide; lia.
Qed.

Lemma wc_byte_counted a cur s x : wc_counted a cur s → Z.of_nat (length a) + 1 < 2 ^ 31 →
  wc_counted (a ++ [x]) (if blank x then [] else cur ++ [x]) (wc_byte s x).
Proof.
  intros (Hl & Hc & Hi & Hw) Hlen. pose proof (newlines_le a) as Hn. assert (Hws : 0 <= wc_w s <= Z.of_nat (length a)).
  { pose proof (Hw []) as H. rewrite app_nil_r in H. pose proof (words_le [] a) as H1. rewrite bool_decide_eq_true_2 in H1 by done. pose proof (words_le cur []) as H2. cbn [length] in H2.
    rewrite Hi in H. case_bool_decide; cbn [negb] in H; subst; [cbn in H|cbn in H; rewrite bool_decide_eq_false_2 in H by done; cbn in H]; lia. }
  unfold wc_byte. rewrite Hc, Hl, (s32_small (Z.of_nat (length a) + 1)) by lia. assert (El : (if x =? 10 then s32 (newlines a + 1) else newlines a) = newlines (a ++ [x])).
  { rewrite newlines_snoc. destruct (x =? 10); [rewrite s32_small|]; lia. }
  rewrite El. assert (Hlen' : Z.of_nat (length a) + 1 = Z.of_nat (length (a ++ [x]))) by (rewrite length_app; cbn; lia).
  assert (Hw' : ∀ b, Z.of_nat (length (words_of [] ((a ++ [x]) ++ b))) = wc_w s - (if wc_inword s then 1 else 0) + Z.of_nat (length (words_of cur (x :: b)))) by (intros b; rewrite <- Hw, <- app_assoc; done).
  destruct (blank x) eqn:Eb; [|destruct (wc_inword s) eqn:Ei; cbn [negb]]; (split; [done|split; [done|]]); cbn [wc_inword wc_w].
  - split; [by rewrite bool_decide_eq_true_2|]. intros b. rewrite Hw'. cbn [words_of]. rewrite Eb, length_app. rewrite Hi. case_bool_decide; cbn [negb length]; lia.
  - split; [by rewrite bool_decide_eq_false_2 by (by destruct cur)|]. intros b. rewrite Hw'. cbn [words_of]. by rewrite Eb.
  - split; [by rewrite bool_decide_eq_false_2 by (by destruct cur)|]. intros b. rewrite Hw', s32_small by lia. cbn [words_of]. rewrite Eb. lia.
Qed.

Lemma wc_fold_counted b : ∀ a cur s, wc_counted a cur s → Z.of_nat (length (a ++ b)) < 2 ^ 31 → ∃ cur', wc_counted (a ++ b) cur' (fold_left wc_byte b s).
Proof.
  induction b as [|x b IH]; intros a cur s Hs Hlen; cbn [fold_left]; [exists cur; by rewrite app_nil_r|]. rewrite length_app in Hlen. cbn [length] in Hlen.
  replace (a ++ x :: b) with ((a ++ [x]) ++ b) by (by rewrite <- app_assoc). eapply IH; [apply wc_byte_counted; [done|lia]|]. rewrite !length_app. cbn [length]. lia.
Qed.

Lemma wc_counted_end a cur s : wc_counted a cur s → wc_l s = newlines a ∧ wc_w s = Z.of_nat (length (words_of [] a)) ∧ wc_c s = Z.of_nat (length a).
Proof.
  intros (Hl & Hc & Hi & Hw). split; [done|]. split; [|done]. specialize (Hw []). rewrite app_nil_r in Hw. rewrite Hw. cbn [words_of]. rewrite Hi. case_bool_decide; cbn [negb length]; lia.
Qed.

Section reads.
Context {W : Type} `{usys W}.

Lemma call_eq {A} (f : W → A * W) w a w' : f w = (a, w') → call f w = Ret a w'.
Proof. intros E. unfold call. by rewrite E. Qed.

Lemma wc_loop_reads fd w chunks w' : reads_from fd 512 w chunks w' → ∀ fuel s, (length chunks < fuel)%nat → wc_loop fuel fd s w = Ret (fold_left wc_byte (concat chunks) s) w'.
Proof.
  induction 1 as [w w' E|w l w1 ls w2 E Hl _ IH]; intros [|fuel] s Hf; cbn [length] in Hf; [lia| |lia|]; cbn [wc_loop]; rewrite (bind_Ret_eq _ _ _ _ _ (call_eq _ _ _ _ E)); [done|].
  destruct l as [|x l]; [done|]. rewrite IH by lia. cbn [concat]. by rewrite fold_left_app.
Qed.

End reads.

(** ** ls *)
Lemma fmt_scan_last a b i : Forall (λ c, c ≠ 47) b → (i <= length b)%nat → fmt_scan (a ++ 47 :: b) (S (length a) + i) = S (length a).
Proof.
  intros Hb. induction i as [|i IH]; intros Hi.
  - rewrite Nat.add_0_r. cbn [fmt_scan]. replace (default 0 ((a ++ 47 :: b) !! S (length a))) with (default 0 (b !! 0%nat)) by (rewrite lookup_app_r by lia; by rewrite Nat.sub_succ_l, Nat.sub_diag by lia).
    assert ((default 0 (b !! 0%nat) =? 47) = false) as ->.
    { destruct b as [|c b]; [done|]. cbn. apply Z.eqb_neq. by inversion Hb. }
    destruct (length a) as [|n] eqn:El; cbn [fmt_scan]; rewrite lookup_app_r, El, ?Nat.sub_diag by lia; done.
  - rewrite Nat.add_succ_r. cbn [Nat.add fmt_scan]. rewrite lookup_app_r by lia. replace (S (S (length a + i)) - length a)%nat with (S (S i)) by lia. change ((47 :: b) !! S (S i)) with (b !! S i).
    assert ((default 0 (b !! S i) =? 47) = false) as ->; [|apply IH; lia]. destruct (b !! S i) eqn:E; [|done]. apply Z.eqb_neq. by apply (Forall_lookup_1 _ _ _ _ Hb) in E.
Qed.

Lemma fmt_scan_none b i : Forall (λ c, c ≠ 47) b → fmt_scan b i = O.
Proof.
  intros Hb. induction i as [|i IH]; cbn [fmt_scan]; (assert (∀ j, (default 0 (b !! j) =? 47) = false) as -> by
    (intros j; destruct (b !! j) eqn:E; [|done]; apply Z.eqb_neq; by apply (Forall_lookup_1 _ _ _ _ Hb) in E)); done.
Qed.

(** What follows the last slash, padded with blanks to 14 characters. *)
Theorem fmtname_last dir b : Forall (λ c, c ≠ 47) b →
  fmtname (dir ++ [47] ++ b) = b ++ replicate (DIRSIZ - length b) 32 ∧ fmtname b = b ++ replicate (DIRSIZ - length b) 32.
Proof.
  intros Hb. assert (Hpad : (if (DIRSIZ <=? length b)%nat then b else b ++ replicate (DIRSIZ - length b) 32) = b ++ replicate (DIRSIZ - length b) 32).
  { destruct (Nat.leb_spec DIRSIZ (length b)); [|done]. replace (DIRSIZ - length b)%nat with 0%nat by lia. by rewrite app_nil_r. }
  unfold fmtname. split.
  - replace (length (dir ++ [47] ++ b)) with (S (length dir) + length b)%nat by (rewrite length_app; cbn; lia). change ([47] ++ b) with (47 :: b). rewrite fmt_scan_last by done.
    replace (drop (S (length dir)) (dir ++ 47 :: b)) with b; [done|]. rewrite drop_app_ge by lia. by replace (S (length dir) - length dir)%nat with 1%nat by lia.
  - rewrite fmt_scan_none by done. by rewrite drop_0.
Qed.

(** ** Property *)

(** C35: wc counts, however its input is cut into reads. When reading [fd]
    delivers the chunks of a text of fewer than 2^31 bytes and then the end of
    the file, [wc] prints the number of newlines, of words (maximal runs
    without blanks, newlines, tabs or returns) and of bytes of the whole
    text, and the name. *)
Theorem wc_counts W (U : usys W) fd w chunks w' name fuel (s := concat chunks) :
  reads_from fd 512 w chunks w' → Z.of_nat (length s) < 2 ^ 31 → (length chunks < fuel)%nat →
  wc fuel fd name w = printf 1 (lit "%d %d %d %s" ++ nl) [AInt (newlines s); AInt (Z.of_nat (length (words_of [] s))); AInt (Z.of_nat (length s)); AStr (Some name)] w'.
Proof.
  intros Hr Hlen Hf. unfold wc. rewrite (bind_Ret_eq _ _ _ _ _ (wc_loop_reads fd w chunks w' Hr fuel _ Hf)).
  destruct (wc_fold_counted s [] [] (mk_wc_t 0 0 0 false)) as (cur & Hc); [by split_and!|done|]. destruct (wc_counted_end _ _ _ Hc) as (El & Ew & Ec). cbn [app] in *. fold s. by rewrite El, Ew, Ec.
Qed.

(** A world with one input, read in blocks, that keeps what is written. *)
#[local] Instance demo_world : usys (list (list Z) * list Z) := {|
  us_read fd n w := (Some (default [] (head w.1)), (tail w.1, w.2)); us_write fd l w := (Z.of_nat (length l), (w.1, w.2 ++ l)); us_open p f w := (3, w); us_close fd w := (0, w);
  us_fstat fd w := (None, w); us_mkdir p w := (-1, w); us_unlink p w := (-1, w); us_link p q w := (-1, w); us_kill p w := (-1, w) |}.

Lemma wc_counts_witness : ∃ w', wc 5 3 (lit "f") ([lit "one t"; lit "wo" ++ nl ++ lit " x"], []) = Ret tt w' ∧ w'.2 = lit "1 3 10 f" ++ nl.
Proof.
  rewrite (wc_counts _ demo_world 3 _ [lit "one t"; lit "wo" ++ nl ++ lit " x"] ([], []) (lit "f") 5).
  - eexists. split; [vm_compute; reflexivity|reflexivity].
  - eapply rf_more; [reflexivity|done|]. eapply rf_more; [reflexivity|done|]. by apply rf_end.
  - vm_compute. done.
  - cbn. lia.
Defined.
