(* ===== verification/FileSpec.v ===== *)
(** * FileSpec: reading a file gives its contents

    The contents of a file are the bytes of its blocks, found through the
    direct addresses and the indirect block. [readi] returns them, cut at the
    end of the file, without changing the cache's abstract state. *)

From S2P Require Import Prelude Dll CString Kernel Sched Sock Kalloc Fifo Paging Vmem Sleeplock LockSpec Bio BioSpec Log LogSpec.
From S2P Require Import Cons Kbd Console Inode BlockSpec Fs.

(** ** Definitions *)

(** The disk block of block [bn] of the file, 0 when there is none. *)
Definition file_block (ip : inode) (v : Z → list Z) (bn : Z) : Z :=
  if bn <? 12 then default 0 (i_addrs ip !! Z.to_nat bn)
  else get32 (4 * Z.to_nat (bn - 12)) (v (default 0 (i_addrs ip !! NDIRECT))).

Definition file_byte (ip : inode) (v : Z → list Z) (off : Z) : Z :=
  default 0 (v (file_block ip v (off / BSIZE)) !! Z.to_nat (off mod BSIZE)).

(** [n] bytes of the file from [off] on. *)
Definition file_bytes (ip : inode) (v : Z → list Z) (off : Z) (n : nat) : list Z :=
  (λ i, file_byte ip v (off + Z.of_nat i)) <$> seq 0 n.

(** The blocks below the size are allocated, on the disk and not held. *)
Record file_ok (disksize : Z) (A : cstate) (ip : inode) : Prop := mk_file_ok {
  fk_dev : i_dev ip = 1;
  fk_len : length (i_addrs ip) = S NDIRECT;
  fk_size : 0 <= i_size ip <= MAXFILE * BSIZE;
  fk_blocks : ∀ bn, 0 <= bn → bn * BSIZE < i_size ip → let b := file_block ip (cs_view A) bn in
    b ≠ 0 ∧ 0 <= b < disksize ∧ (∀ j, cs_held A !! j ≠ Some b) ∧ length (cs_view A b) = 512%nat;
  fk_indirect : 12 * BSIZE < i_size ip → let b := default 0 (i_addrs ip !! NDIRECT) in
    b ≠ 0 ∧ 0 <= b < disksize ∧ (∀ j, cs_held A !! j ≠ Some b);
}.

(** ** Bytes of a block *)
Lemma BSIZE_eq : BSIZE = 512.
Proof. reflexivity. Qed.

Lemma file_bytes_app ip v off n m : file_bytes ip v off (n + m) = file_bytes ip v off n ++ file_bytes ip v (off + Z.of_nat n) m.
Proof.
  unfold file_bytes. rewrite seq_app, fmap_app. f_equal. rewrite <- (fmap_S_seq_from n m) || idtac.
  apply list_eq. intros i. rewrite !list_lookup_fmap. destruct (decide (i < m)%nat).
  - rewrite !lookup_seq_lt by done. cbn. do 2 f_equal. lia.
  - by rewrite !lookup_seq_ge by lia.
Qed.

(** The part of one block. *)
Lemma file_bytes_block ip v off m : 0 <= off → length (v (file_block ip v (off / BSIZE))) = 512%nat →
  off mod BSIZE + Z.of_nat m <= BSIZE →
  slice (Z.to_nat (off mod BSIZE)) m (v (file_block ip v (off / BSIZE))) = file_bytes ip v off m.
Proof.
  rewrite BSIZE_eq. intros Ho Hl Hm. unfold file_bytes, slice. apply list_eq. intros i. rewrite list_lookup_fmap.
  destruct (decide (i < m)%nat) as [Hi|Hi].
  - rewrite lookup_take_lt, lookup_drop, lookup_seq_lt by done. cbn [fmap option_fmap option_map]. unfold file_byte. rewrite BSIZE_eq.
    replace ((off + Z.of_nat (0 + i)) / 512) with (off / 512) by divlia.
    replace (Z.to_nat ((off + Z.of_nat (0 + i)) mod 512)) with (Z.to_nat (off mod 512) + i)%nat by divlia.
    set (l := v _) in *. destruct (lookup_lt_is_Some_2 l (Z.to_nat (off mod 512) + i)) as [x Hx]; [rewrite Hl; divlia|]. by rewrite Hx.
  - rewrite lookup_take_ge, lookup_seq_ge by lia. done.
Qed.

(** ** [bmap] and [readi] *)
Section readi.
Variables (me : nat) (pid : Z) (k0 : kernel) (i : nat) (ip : inode) (A : cstate).
Hypothesis Hip : k_inodes k0 !! i = Some ip.
Hypothesis Hfile : file_ok (io_disksize (k_io k0)) A ip.
Hypothesis Hroom : (size (cs_busy A) < NBUF)%nat.

Notation at_ k := (cache_at me pid k0 k A).

Lemma at_inode k A' : cache_at me pid k0 k A' → k_inodes k !! i = Some ip.
Proof using Hip. intros [(c & P & B & d & w & -> & _) _]. exact Hip. Qed.

(** A block is read and given back. *)
Lemma wp_read_block {B} k blk (m : nat → KM B) Q R : at_ k → 0 <= blk < io_disksize (k_io k0) → (∀ j, cs_held A !! j ≠ Some blk) →
  (∀ bp k', cs_held A !! bp = None → cache_at me pid k0 k' (cs_take bp blk A) → wp False (m bp) Q R k') →
  wp False (bindM (bread 1 blk) m) Q R k.
Proof using Hroom.
  intros Hk Hr Hnh Hm. apply wp_bind. eapply wp_bread; [exact Hk|done|done|by right|exact Hm].
Qed.

Lemma wp_brelse_block {B} k0' k bp blk (m : unit → KM B) Q R : cache_at me pid k0 k (cs_take bp blk A) → cs_held A !! bp = None →
  (∀ j, cs_held A !! j ≠ Some blk) → at_ k0' →
  (∀ k', at_ k' → wp False (m tt) Q R k') → wp False (bindM (brelse bp) m) Q R k.
Proof using.
  intros Hk Hbp Hnh [_ [o Hok]] Hm. apply wp_bind. eapply wp_brelse; [exact Hk|apply lookup_insert_eq| |].
  - cbn. destruct (decide (blk ∈ cs_dirty A)); [by left|right]. by apply (ca_clean _ _ _ _ _ Hok).
  - intros k' H'. rewrite cs_drop_take in H' by done. by apply Hm.
Qed.

Lemma wp_addr_at {B} k j a (f : Z → KM B) Q R A' : cache_at me pid k0 k A' → i_addrs ip !! j = Some a → wp False (f a) Q R k →
  wp False (bindM (addr_at i j) f) Q R k.
Proof using Hip.
  intros Hk Ha Hf. apply wp_bind. unfold addr_at. apply (wp_ip_at _ i ip); [by eapply at_inode|]. rewrite Ha. by apply wp_ret.
Qed.

Lemma wp_bmap_read k bn (Q : Z → kernel → Prop) R : at_ k → 0 <= bn → bn * BSIZE < i_size ip →
  (∀ k', at_ k' → Q (file_block ip (cs_view A) bn) k') → wp False (bmap i bn) Q R k.
Proof using Hip Hfile Hroom.
  intros Hk Hbn Hsz HQ. destruct (fk_blocks _ _ _ Hfile bn Hbn Hsz) as (Hnz & _). pose proof (fk_len _ _ _ Hfile) as Hl.
  pose proof (fk_size _ _ _ Hfile) as Hmax. unfold MAXFILE, NDIRECT, NINDIRECT in *. rewrite BSIZE_eq in *.
  unfold bmap. apply (wp_ip_at _ i ip); [by eapply at_inode|]. cbn zeta. rewrite (fk_dev _ _ _ Hfile).
  unfold file_block in *. change (Z.of_nat NDIRECT) with 12. destruct (Z.ltb_spec bn 12) as [Hlt|Hge].
  - destruct (lookup_lt_is_Some_2 (i_addrs ip) (Z.to_nat bn)) as [a Ha]; [lia|]. rewrite Ha in *. cbn [from_option id] in *.
    eapply wp_addr_at; [exact Hk|exact Ha|]. rewrite (proj2 (Z.eqb_neq _ _) Hnz). apply wp_ret. by apply HQ.
  - change (Z.of_nat NINDIRECT) with 128. rewrite (proj2 (Z.ltb_lt (bn - 12) 128)) by lia.
    destruct (fk_indirect _ _ _ Hfile) as (Hinz & Hir & Hih); [rewrite BSIZE_eq; lia|].
    destruct (lookup_lt_is_Some_2 (i_addrs ip) NDIRECT) as [a Ha]; [unfold NDIRECT; lia|]. rewrite Ha in *. cbn [from_option id] in *.
    eapply wp_addr_at; [exact Hk|exact Ha|]. rewrite (proj2 (Z.eqb_neq _ _) Hinz). apply wp_bind, wp_ret.
    eapply wp_read_block; [exact Hk|exact Hir|exact Hih|]. intros bp k1 Hbp H1.
    apply wp_bind. eapply wp_bdata; [exact H1|apply lookup_insert_eq|]. cbn [cs_take cs_view]. cbn zeta.
    rewrite (proj2 (Z.eqb_neq _ _) Hnz). eapply wp_brelse_block; [exact H1|done|exact Hih|exact Hk|].
    intros k2 H2. apply wp_ret. by apply HQ.
Qed.

Lemma wp_readi_loop fuel : ∀ k off n tot (Q : list Z → kernel → Prop) R,
  at_ k → 0 <= off → 0 <= tot <= n → off + (n - tot) <= i_size ip → (tot < n → (off mod BSIZE + (n - tot) + 511) / BSIZE <= Z.of_nat fuel) →
  (∀ k', at_ k' → Q (file_bytes ip (cs_view A) off (Z.to_nat (n - tot))) k') →
  wp False (readi_loop fuel i None off n tot) Q R k.
Proof using Hip Hfile Hroom.
  pose proof (fk_size _ _ _ Hfile) as Hmax. unfold MAXFILE, NDIRECT, NINDIRECT in Hmax. rewrite BSIZE_eq in Hmax. cbn in Hmax.
  induction fuel as [|fuel IH]; intros k off n tot Q R Hk Ho Ht Hsz Hf HQ; rewrite BSIZE_eq in *; cbn [readi_loop];
    (destruct (Z.ltb_spec tot n) as [Hlt|Hge]; cbn [negb]; cycle 1;
    [apply wp_ret; assert (n - tot = 0) as E by lia; rewrite E in HQ; by apply HQ|specialize (Hf Hlt)]).
  { exfalso. clear - Hf Hlt Ho. divlia. }
  apply (wp_ip_at _ i ip); [by eapply at_inode|]. rewrite BSIZE_eq. rewrite (fk_dev _ _ _ Hfile).
  assert (Hbn : 0 <= off / 512 ∧ off / 512 * BSIZE < i_size ip) by (rewrite BSIZE_eq; divlia).
  destruct (fk_blocks _ _ _ Hfile _ (proj1 Hbn) (proj2 Hbn)) as (Hnz & Hr & Hnh & Hlen).
  apply wp_bind. eapply wp_bmap_read; [exact Hk|apply Hbn|apply Hbn|]. intros k1 H1.
  eapply wp_read_block; [exact H1|exact Hr|exact Hnh|]. intros bp k2 Hbp H2. cbn zeta.
  apply wp_bind. eapply wp_bdata; [exact H2|apply lookup_insert_eq|]. cbn [cs_take cs_view].
  set (m := Z.min (n - tot) (512 - off mod 512)). assert (Hm : 0 < m) by (unfold m; divlia).
  apply wp_bind, wp_ret. eapply wp_brelse_block; [exact H2|done|exact Hnh|exact H1|]. intros k3 H3.
  cbn [fmap option_fmap option_map].
  assert (Eu : u32 (off + m) = off + m) by (apply u32_small; change (2 ^ 32) with 4294967296; unfold m; lia). rewrite Eu.
  apply wp_bind. eapply (IH k3 (off + m) n (tot + m)); [exact H3|lia|unfold m; lia|lia| |].
  { destruct (Z.min_spec (n - tot) (512 - off mod 512)) as [[? E]|[? E]]; unfold m; rewrite E; intros Hlt'; clear - H Hlt Hlt' Ho Hf; divlia. }
  intros k4 H4. apply wp_ret. pose proof (file_bytes_block ip (cs_view A) off (Z.to_nat m) Ho) as Hb. rewrite BSIZE_eq in Hb.
  rewrite Hb by (done || (unfold m; lia)). replace (n - (tot + m)) with (n - tot - m) by lia.
  replace (off + m) with (off + Z.of_nat (Z.to_nat m)) by lia. rewrite <- file_bytes_app.
  replace (Z.to_nat m + Z.to_nat (n - tot - m))%nat with (Z.to_nat (n - tot)) by (unfold m; lia). by apply HQ.
Qed.
End readi.


Lemma u32_wraps off n : 0 <= off < 2 ^ 32 → 0 <= n < 2 ^ 32 → (u32 (off + n) <? off) = (2 ^ 32 <=? off + n).
Proof.
  intros Ho Hn. change (2 ^ 32) with 4294967296 in *. destruct (Z.leb_spec 4294967296 (off + n)) as [H|H]; unfold u32; change (2 ^ 32) with 4294967296.
  - apply Z.ltb_lt. rewrite <- (Z_mod_plus_full _ (-1)), Z.mod_small by lia. lia.
  - apply Z.ltb_ge. rewrite Z.mod_small by lia. lia.
Qed.

(** What [readi] answers: -1 past the end of the file or when the offset
    wraps around, otherwise the bytes up to the end of the file. *)
Definition read_result (ip : inode) (v : Z → list Z) (off n : Z) : Z * list Z :=
  if (i_size ip <? off) || (2 ^ 32 <=? off + n) then (-1, [])
  else let m := Z.min n (i_size ip - off) in (m, file_bytes ip v off (Z.to_nat m)).

Lemma wp_readi me pid k0 i ip A k off n Q R : k_inodes k0 !! i = Some ip → file_ok (io_disksize (k_io k0)) A ip →
  (size (cs_busy A) < NBUF)%nat → i_type ip ≠ T_DEV → cache_at me pid k0 k A → 0 <= off < 2 ^ 32 → 0 <= n < 2 ^ 32 →
  (∀ k', cache_at me pid k0 k' A → Q (read_result ip (cs_view A) off n) k') → wp False (readi i None off n) Q R k.
Proof.
  intros Hip Hfile Hroom Hty Hk Ho Hn HQ. pose proof (fk_size _ _ _ Hfile) as Hmax. unfold MAXFILE, NDIRECT, NINDIRECT in Hmax.
  rewrite BSIZE_eq in Hmax. cbn in Hmax. unfold readi. apply (wp_ip_at _ i ip); [by eapply at_inode|].
  rewrite (proj2 (Z.eqb_neq _ _) Hty), u32_wraps by done. unfold read_result in HQ.
  destruct ((i_size ip <? off) || (2 ^ 32 <=? off + n)) eqn:Eg; [by apply wp_ret, HQ|].
  apply orb_false_iff in Eg as [E1 E2]. apply Z.ltb_ge in E1. apply Z.leb_gt in E2. rewrite u32_small by lia.
  set (m := Z.min n (i_size ip - off)) in *.
  assert (Em : (if i_size ip <? off + n then i_size ip - off else n) = m).
  { destruct (Z.ltb_spec (i_size ip) (off + n)); unfold m; lia. }
  cbn zeta. rewrite Em. apply wp_bind. eapply (wp_readi_loop me pid k0 i ip A Hip Hfile Hroom); [exact Hk|lia|unfold m; lia|unfold m; lia| |].
  { intros Hlt. rewrite BSIZE_eq. assert (Hoff : 0 <= off) by lia. clear - Hlt Hoff. divlia. }
  intros k' H'. apply wp_ret. rewrite Z.sub_0_r. assert (s32 m = m) as -> by (apply s32_small; change (2 ^ 31) with 2147483648; unfold m; lia). by apply HQ.
Qed.

Lemma readi_run me pid k0 i ip A k off n : k_inodes k0 !! i = Some ip → file_ok (io_disksize (k_io k0)) A ip →
  (size (cs_busy A) < NBUF)%nat → i_type ip ≠ T_DEV → cache_at me pid k0 k A → 0 <= off < 2 ^ 32 → 0 <= n < 2 ^ 32 →
  ∃ k', readi i None off n k = Ret (read_result ip (cs_view A) off n) k' ∧ cache_at me pid k0 k' A.
Proof.
  intros Hip Hf Hroom Hty Hc Ho Hn.
  assert (Hwp : wp False (readi i None off n) (λ r k', r = read_result ip (cs_view A) off n ∧ cache_at me pid k0 k' A) (λ _ _, False) k).
  { eapply (wp_readi me pid k0 i ip A); try done. }
  destruct (wp_False_inv _ _ _ _ Hwp) as [(r & k' & E & -> & Hc')|(c & k' & _ & [])]. by exists k'.
Qed.

(** C28: reading a file returns its contents. For an inode that is no device
    and whose blocks are on the disk, [readi] into a local variable answers
    -1 exactly when the offset is past the end or offset plus length wraps
    around; otherwise it returns the bytes from the offset up to the length
    asked for or the end of the file, gathered over the direct and indirect
    blocks, and leaves the contents of every block, the buffers held and the
    rest of the kernel (up to the buffer cache itself) as they were. *)
Theorem readi_reads me pid k o A i ip off n :
  cache k me pid o A → k_inodes k !! i = Some ip → file_ok (io_disksize (k_io k)) A ip → (size (cs_busy A) < NBUF)%nat →
  i_type ip ≠ T_DEV → 0 <= off < 2 ^ 32 → 0 <= n < 2 ^ 32 →
  ∃ k' o', readi i None off n k = Ret (read_result ip (cs_view A) off n) k' ∧ cache k' me pid o' A ∧ bio_frame k k'.
Proof.
  intros Hc Hip Hf Hroom Hty Ho Hn.
  destruct (readi_run me pid k i ip A k off n) as (k' & E & Hf' & o' & Hc'); try done; [split; [reflexivity|by exists o]|]. by exists k', o'.
Qed.

(** ** A root directory with two entries *)
Definition demo_dir : list Z :=
  [1; 0; 46; 0] ++ replicate 12 0 ++ [1; 0; 46; 46; 0] ++ replicate 11 0 ++ [7; 0; 115; 104; 0] ++ replicate 11 0 ++ replicate 464 0.
Definition demo_disk2 : Z → list Z := λ x, if x =? 59 then demo_dir else replicate 512 0.
Definition demo_root : kernel :=
  set_k_inodes (demo_inode :: replicate 49 inode0) (set_k_sb demo_sb (demo_boot_from demo_disk2 None)).

Lemma demo_root_cache : cache demo_root 0 0 (rev (seq 0 NBUF)) (cs_boot demo_disk2).
Proof. destruct (demo_boot_cache demo_disk2 None) as [H1 H2 H3 H4 H5 H6 H7 H8 H9 H10 H11]. by split. Qed.

Lemma demo_file_ok : file_ok FSSIZE (cs_boot demo_disk2) demo_inode.
Proof.
  split; try done.
  intros bn H0 Hs. change (bn * 512 < 512) in Hs. replace bn with 0 by lia. unfold FSSIZE.
  split; [discriminate|]. split; [split; [discriminate|reflexivity]|]. split; [by intros j|reflexivity].
Qed.

Lemma readi_reads_witness : ∃ k' o', readi 0 None 30 10 demo_root = Ret (10, [0; 0; 7; 0; 115; 104; 0; 0; 0; 0]) k' ∧
  cache k' 0 0 o' (cs_boot demo_disk2) ∧ bio_frame demo_root k'.
Proof.
  apply (readi_reads 0 0 demo_root (rev (seq 0 NBUF)) (cs_boot demo_disk2) 0 demo_inode 30 10 demo_root_cache eq_refl);
    [exact demo_file_ok|apply Nat.ltb_lt; vm_compute; reflexivity|discriminate|lia|lia].
Defined.
