(* ===== verification/DirSpec.v ===== *)
(** * DirSpec: looking a name up in a directory

    The entries of a directory are its contents cut into pieces of 16 bytes.
    [dirlookup] finds the first entry in use whose name agrees with the one
    wanted up to its NUL or its 14th byte, and takes a reference to the
    entry's inode in the inode cache. *)

From S2P Require Import Prelude Dll CString Kernel Sched Sock Kalloc Fifo Paging Vmem Sleeplock LockSpec Bio BioSpec Log LogSpec.
From S2P Require Import Cons Kbd Console Inode BlockSpec Fs FileSpec.

(** ** Definitions *)

(** The name in an array of bytes: up to its first NUL. *)
Fixpoint cname (l : list Z) : list Z :=
  match l with
  | [] => []
  | c :: l => if c =? 0 then [] else c :: cname l
  end.

(** The entries of the directory [ip]. *)
Definition dirents (ip : inode) (v : Z → list Z) : list (list Z) :=
  (λ j, file_bytes ip v (16 * Z.of_nat j) 16) <$> seq 0 (Z.to_nat (i_size ip / 16)).

(** The entry is in use and has the name wanted. *)
Definition dirent_is (name de : list Z) : bool :=
  negb (de_inum de =? 0) && bool_decide (cname (take DIRSIZ name) = cname (de_name de)).

(** The slot of the inode cache [iget] chooses, and what it stores there. *)
Definition iget_slot (dev inum : Z) (l : list inode) : option nat :=
  match find_idx (iget_match dev inum) l with
  | Some i => Some i
  | None => find_idx (λ ip, i_ref ip =? 0) l
  end.
Definition iget_entry (dev inum : Z) (ip : inode) : inode :=
  if iget_match dev inum ip then set_i_ref (i_ref ip + 1) ip
  else set_i_valid 0 (set_i_ref 1 (set_i_inum inum (set_i_dev dev ip))).

(** ** Names *)
Lemma blk_strncmp_key n : ∀ p q, (n <= length p)%nat ∨ 0 ∈ p → (n <= length q)%nat ∨ 0 ∈ q →
  ∃ r, blk_strncmp_loop p q n = Some r ∧ (r = 0 ↔ cname (take n p) = cname (take n q)).
Proof.
  induction n as [|n IH]; intros p q Hp Hq; cbn [blk_strncmp_loop]; [by exists 0|].
  destruct p as [|x p]; [destruct Hp as [Hp|Hp]; [simpl in Hp; lia|by apply elem_of_nil in Hp]|].
  destruct q as [|y q]; [destruct Hq as [Hq|Hq]; [simpl in Hq; lia|by apply elem_of_nil in Hq]|].
  cbn [take cname]. destruct (Z.eqb_spec x 0) as [->|Hx]; cbn [negb andb].
  { exists (0 - y). split; [done|]. destruct (Z.eqb_spec y 0); split; intros H; try done; lia. }
  destruct (Z.eqb_spec x y) as [<-|Hy].
  - rewrite (proj2 (Z.eqb_neq _ _) Hx). destruct (IH p q) as (r & E & Hr).
    + destruct Hp as [Hp|Hp]; [left; simpl in Hp; lia|right; set_solver].
    + destruct Hq as [Hq|Hq]; [left; simpl in Hq; lia|right; set_solver].
    + exists r. split; [done|]. rewrite Hr. split; [by intros ->|by intros [=]].
  - exists (x - y). split; [done|]. destruct (y =? 0); split; intros H; try lia; by simplify_eq.
Qed.

Lemma namecmp_key p q k : (DIRSIZ <= length p)%nat ∨ 0 ∈ p → (DIRSIZ <= length q)%nat ∨ 0 ∈ q →
  ∃ r, namecmp p q k = Ret r k ∧ (r = 0 ↔ cname (take DIRSIZ p) = cname (take DIRSIZ q)).
Proof.
  intros Hp Hq. destruct (blk_strncmp_key DIRSIZ p q Hp Hq) as (r & E & Hr). exists r. split; [|done].
  unfold namecmp, blk_strncmp. rewrite Nat2Z.id, E. done.
Qed.

(** ** The inode cache *)
Lemma upd_inode_comm i f : ∀ k c h, upd_inode i f (set_k_held h (set_k_cpu c k)) = set_k_held h (set_k_cpu c (upd_inode i f k)).
Proof. done. Qed.

Lemma upd_inode_ext i f g k : (∀ ip, k_inodes k !! i = Some ip → f ip = g ip) → upd_inode i f k = upd_inode i g k.
Proof.
  intros H. unfold upd_inode. f_equal. apply list_eq. intros j. destruct (decide (i = j)) as [<-|Hj].
  - rewrite !list_lookup_alter_eq. destruct (k_inodes k !! i) eqn:E; [|done]. cbn. by rewrite H.
  - by rewrite !list_lookup_alter_ne by done.
Qed.

Lemma iget_eq dev inum k : idle k →
  match iget_slot dev inum (k_inodes k) with
  | Some s => iget dev inum k = Ret s (upd_inode s (iget_entry dev inum) (quiet k))
  | None => iget dev inum k = Panic "iget: no inodes" (acquired LkIcache k)
  end.
Proof.
  intros Hk. destruct (acquire_idle LkIcache k Hk) as [Ea Hl]. unfold iget, iget_slot.
  rewrite (bind_Ret_eq _ _ _ _ _ Ea), bind_gets. change (k_inodes (acquired LkIcache k)) with (k_inodes k).
  assert (Hrel : ∀ s f, (release LkIcache : KM unit) (upd_inode s f (acquired LkIcache k)) = Ret tt (upd_inode s f (quiet k))).
  { intros s f. destruct (release_locked LkIcache (upd_inode s f (acquired LkIcache k))) as [Er _]; [exact Hl|].
    rewrite Er. f_equal. exact (section_eq LkIcache k _ Hk (upd_inode_comm s f)). }
  destruct (find_idx (iget_match dev inum) (k_inodes k)) as [s|] eqn:E1.
  - rewrite bind_modify, (bind_Ret_eq _ _ _ _ _ (Hrel _ _)). unfold mret, M_ret. f_equal. apply upd_inode_ext.
    intros ip Hip. destruct (proj1 (proj1 (find_idx_Some _ _ _) E1)) as (x & Hx & Hm). change (k_inodes k !! s = Some ip) in Hip.
    rewrite Hx in Hip. injection Hip as <-. unfold iget_entry. by rewrite Hm.
  - destruct (find_idx (λ ip, i_ref ip =? 0) (k_inodes k)) as [s|] eqn:E2; [|done].
    rewrite bind_modify, (bind_Ret_eq _ _ _ _ _ (Hrel _ _)). unfold mret, M_ret. f_equal. apply upd_inode_ext.
    intros ip Hip. destruct (proj1 (proj1 (find_idx_Some _ _ _) E2)) as (x & Hx & Hm). change (k_inodes k !! s = Some ip) in Hip.
    rewrite Hx in Hip. injection Hip as <-. unfold iget_entry, iget_match. apply Z.eqb_eq in Hm. rewrite Hm. done.
Qed.


(** ** Scanning the entries *)
Lemma length_file_bytes ip v off n : length (file_bytes ip v off n) = n.
Proof. unfold file_bytes. by rewrite length_fmap, length_seq. Qed.

(** The size of a file fits. *)
Lemma file_size_fits disksize A ip : file_ok disksize A ip → 0 <= i_size ip < 2147483648.
Proof. intros Hf. pose proof (fk_size _ _ _ Hf) as H. unfold MAXFILE, NDIRECT, NINDIRECT, BSIZE in H. cbn in H. lia. Qed.

Section lookup.
Variables (me : nat) (pid : Z) (k0 : kernel) (dp : nat) (ip : inode) (A : cstate) (name : list Z).
Hypothesis Hip : k_inodes k0 !! dp = Some ip.
Hypothesis Hfile : file_ok (io_disksize (k_io k0)) A ip.
Hypothesis Hroom : (size (cs_busy A) < NBUF)%nat.
Hypothesis Hdir : i_type ip = T_DIR.
Hypothesis Hsize : i_size ip mod 16 = 0.

Notation entries := (dirents ip (cs_view A)).

Lemma length_dirents : length entries = Z.to_nat (i_size ip / 16).
Proof using. unfold dirents. by rewrite length_fmap, length_seq. Qed.

Lemma dirents_lookup j : (j < Z.to_nat (i_size ip / 16))%nat → entries !! j = Some (file_bytes ip (cs_view A) (16 * Z.of_nat j) 16).
Proof using. intros Hj. unfold dirents. by rewrite list_lookup_fmap, lookup_seq_lt by done. Qed.

Lemma read_dirent_run j k msg : cache_at me pid k0 k A → (j < Z.to_nat (i_size ip / 16))%nat →
  ∃ k', read_dirent dp (16 * Z.of_nat j) msg k = Ret (file_bytes ip (cs_view A) (16 * Z.of_nat j) 16) k' ∧ cache_at me pid k0 k' A.
Proof using Hip Hfile Hroom Hdir Hsize.
  intros Hk Hj. pose proof (file_size_fits _ _ _ Hfile) as Hs.
  assert (Hj' : 16 * Z.of_nat j + 16 <= i_size ip) by (clear - Hj Hsize Hs; divlia).
  destruct (readi_run me pid k0 dp ip A k (16 * Z.of_nat j) DIRENT) as (k' & E & Hk'); try done.
  { by rewrite Hdir. }
  { change (2 ^ 32) with 4294967296. lia. }
  exists k'. split; [|done]. unfold read_dirent. rewrite (bind_Ret_eq _ _ _ _ _ E). unfold read_result, DIRENT.
  change (2 ^ 32) with 4294967296. rewrite (proj2 (Z.ltb_ge _ _)), (proj2 (Z.leb_gt _ _)) by lia. cbn [orb].
  cbn zeta. rewrite Z.min_l by lia. cbn [fst snd]. done.
Qed.

Hypothesis Hname : (DIRSIZ <= length name)%nat ∨ 0 ∈ name.

Lemma dirlookup_loop_run fuel : ∀ j k, cache_at me pid k0 k A → (j <= length entries)%nat → (length entries < j + fuel)%nat →
  ∃ k', cache_at me pid k0 k' A ∧ dirlookup_loop fuel dp name (16 * Z.of_nat j) k =
    match find_idx (dirent_is name) (drop j entries) with
    | None => Ret None k'
    | Some x => (s <- iget (i_dev ip) (de_inum (default [] (entries !! (j + x)%nat))) ;; mret (Some (s, 16 * Z.of_nat (j + x)))) k'
    end.
Proof using Hip Hfile Hroom Hdir Hsize Hname.
  pose proof (file_size_fits _ _ _ Hfile) as Hs. pose proof length_dirents as Hlen.
  induction fuel as [|fuel IH]; intros j k Hk Hj Hf; [lia|]. cbn [dirlookup_loop].
  rewrite (bind_ip_at _ ip) by (by eapply at_inode). destruct (Z.ltb_spec (16 * Z.of_nat j) (i_size ip)) as [Hlt|Hge]; cbn [negb]; cycle 1.
  { exists k. split; [done|]. rewrite drop_ge by (rewrite Hlen; clear - Hge Hs Hsize; divlia). done. }
  assert (Hj' : (j < Z.to_nat (i_size ip / 16))%nat) by (clear - Hlt Hs Hsize; divlia).
  destruct (read_dirent_run j k "dirlookup read" Hk Hj') as (k1 & E1 & Hk1). rewrite (bind_Ret_eq _ _ _ _ _ E1).
  pose proof (dirents_lookup j Hj') as Hl. rewrite (drop_S _ _ _ Hl). cbn [find_idx].
  set (de := file_bytes ip (cs_view A) (16 * Z.of_nat j) 16) in *.
  assert (Hnext : ∃ k', cache_at me pid k0 k' A ∧ dirlookup_loop fuel dp name (16 * Z.of_nat j + DIRENT) k1 =
    match Datatypes.S <$> find_idx (dirent_is name) (drop (S j) entries) with
    | None => Ret None k'
    | Some x => (s <- iget (i_dev ip) (de_inum (default [] (entries !! (j + x)%nat))) ;; mret (Some (s, 16 * Z.of_nat (j + x)))) k'
    end).
  { destruct (IH (S j) k1 Hk1) as (k' & Hk' & E); [lia|lia|]. exists k'. split; [done|].
    replace (16 * Z.of_nat j + DIRENT) with (16 * Z.of_nat (S j)) by (unfold DIRENT; lia). rewrite E.
    destruct (find_idx _ _); [|done]. cbn [fmap option_fmap option_map]. by rewrite Nat.add_succ_r. }
  unfold dirent_is at 1. destruct (de_inum de =? 0) eqn:Ez; cbn [negb andb]; [exact Hnext|].
  destruct (namecmp_key name (de_name de) k1 Hname) as (r & Er & Hr).
  { left. unfold de_name, slice. rewrite length_take, length_drop. unfold de. rewrite length_file_bytes. unfold DIRSIZ. lia. }
  rewrite (bind_Ret_eq _ _ _ _ _ Er).
  assert (Et : take DIRSIZ (de_name de) = de_name de) by (apply take_ge; unfold de_name, slice; rewrite length_take; lia).
  rewrite Et in Hr. destruct (Z.eqb_spec r 0) as [->|Hne].
  - rewrite bool_decide_eq_true_2 by (by apply Hr). exists k1. split; [done|]. rewrite Nat.add_0_r, Hl. done.
  - rewrite bool_decide_eq_false_2 by (by rewrite <- Hr). exact Hnext.
Qed.
End lookup.


(** The rest of the kernel is as before, but for the inode cache. *)
Definition inode_frame (k k' : kernel) : Prop := bio_frame (set_k_inodes (k_inodes k') k) k'.

Lemma cache_set_inodes l k me pid o A : cache k me pid o A → cache (set_k_inodes l k) me pid o A.
Proof. intros [H1 H2 H3 H4 H5 H6 H7 H8 H9 H10 H11]. by split. Qed.

Lemma cache_quiet k me pid o A : cache k me pid o A → cache (quiet k) me pid o A.
Proof. intros [H1 H2 H3 H4 H5 H6 H7 H8 H9 H10 H11]. split; first [done|exact (quiet_idle k H1)]. Qed.

Lemma inode_frame_upd s f k k' : bio_frame k k' → inode_frame k (upd_inode s f (quiet k')) ∧ k_inodes (upd_inode s f (quiet k')) = alter f s (k_inodes k).
Proof.
  intros (c & P & B & d & w & -> & Hp & Hw). split; [|done].
  exists (set_c_intena (c_intr c) c), P, B, d, w. split; [by destruct k|done].
Qed.

Lemma dirlookup_run me pid k o A dp ip name :
  cache k me pid o A → k_inodes k !! dp = Some ip → file_ok (io_disksize (k_io k)) A ip → (size (cs_busy A) < NBUF)%nat →
  i_type ip = T_DIR → i_size ip mod 16 = 0 → (DIRSIZ <= length name)%nat ∨ 0 ∈ name →
  match find_idx (dirent_is name) (dirents ip (cs_view A)) with
  | None => ∃ k' o', dirlookup dp name k = Ret None k' ∧ cache k' me pid o' A ∧ bio_frame k k'
  | Some j =>
      let inum := de_inum (default [] (dirents ip (cs_view A) !! j)) in
      match iget_slot 1 inum (k_inodes k) with
      | Some s => ∃ k' o', dirlookup dp name k = Ret (Some (s, 16 * Z.of_nat j)) k' ∧ cache k' me pid o' A ∧
          inode_frame k k' ∧ k_inodes k' = alter (iget_entry 1 inum) s (k_inodes k)
      | None => ∃ k', dirlookup dp name k = Panic "iget: no inodes" k'
      end
  end.
Proof.
  intros Hc Hip Hf Hroom Hdir Hsz Hname. pose proof (length_dirents ip A) as Hlen.
  destruct (dirlookup_loop_run me pid k dp ip A name Hip Hf Hroom Hdir Hsz Hname (S (Z.to_nat (i_size ip / DIRENT))) 0 k)
    as (k1 & (Hfr & o1 & Hc1) & E); [by split; [|exists o]|lia|rewrite Hlen; unfold DIRENT; lia|].
  assert (Ed : dirlookup dp name k = dirlookup_loop (S (Z.to_nat (i_size ip / DIRENT))) dp name (16 * Z.of_nat 0) k).
  { unfold dirlookup. rewrite (bind_ip_at _ ip) by done. by rewrite Hdir. }
  rewrite Ed, E, drop_0. destruct (find_idx _ _) as [j|]; [|by exists k1, o1].
  cbn zeta. rewrite Nat.add_0_l, (fk_dev _ _ _ Hf). set (inum := de_inum _).
  assert (Ei : k_inodes k1 = k_inodes k) by (destruct Hfr as (c & P & B & d & w & -> & _); done).
  pose proof (iget_eq 1 inum k1 (ca_idle _ _ _ _ _ Hc1)) as Hg. rewrite Ei in Hg.
  destruct (iget_slot 1 inum (k_inodes k)) as [s|].
  - destruct (inode_frame_upd s (iget_entry 1 inum) k k1 Hfr) as [Hf2 Ek2]. eexists _, o1.
    split; [by rewrite (bind_Ret_eq _ _ _ _ _ Hg)|]. split; [|by split].
    apply cache_set_inodes. by apply cache_quiet.
  - eexists. unfold bindM. rewrite Hg. reflexivity.
Qed.

(** looking a name up finds the first entry in use with that name.
    [dirlookup] compares up to the NUL or 14 bytes, reads each entry through
    the buffer cache, and terminates. Without a matching entry it returns
    null and changes nothing but the buffer cache's order. With one it
    returns the entry's byte offset and the slot of the inode cache [iget]
    chooses, the one that already caches the inode or else the first free
    one, with one more reference; it panics when the inode cache is full. *)
Theorem dirlookup_finds me pid k o A dp ip name :
  cache k me pid o A → k_inodes k !! dp = Some ip → file_ok (io_disksize (k_io k)) A ip → (size (cs_busy A) < NBUF)%nat →
  i_type ip = T_DIR → i_size ip mod 16 = 0 → (DIRSIZ <= length name)%nat ∨ 0 ∈ name →
  match find_idx (dirent_is name) (dirents ip (cs_view A)) with
  | None => ∃ k' o', dirlookup dp name k = Ret None k' ∧ cache k' me pid o' A ∧ bio_frame k k'
  | Some j =>
      let inum := de_inum (default [] (dirents ip (cs_view A) !! j)) in
      match iget_slot 1 inum (k_inodes k) with
      | Some s => ∃ k' o', dirlookup dp name k = Ret (Some (s, 16 * Z.of_nat j)) k' ∧ cache k' me pid o' A ∧
          inode_frame k k' ∧ k_inodes k' = alter (iget_entry 1 inum) s (k_inodes k)
      | None => ∃ k', dirlookup dp name k = Panic "iget: no inodes" k'
      end
  end.
Proof. apply dirlookup_run. Qed.

Lemma dirlookup_finds_witness : ∃ k' o', dirlookup 0 [115; 104; 0] demo_root = Ret (Some (1%nat, 32)) k' ∧
  cache k' 0 0 o' (cs_boot demo_disk2) ∧ inode_frame demo_root k' ∧
  k_inodes k' = alter (iget_entry 1 7) 1%nat (k_inodes demo_root).
Proof.
  exact (dirlookup_finds 0 0 demo_root (rev (seq 0 NBUF)) (cs_boot demo_disk2) 0 demo_inode [115; 104; 0] demo_root_cache eq_refl
    demo_file_ok ltac:(vm_compute; lia) eq_refl eq_refl ltac:(right; set_solver)).
Defined.
