(* ===== verification/Slots.v ===== *)
(** * Slots: the block addresses of a file

    A file has 141 places for block addresses: the twelve direct ones, the one
    of the indirect block (number 12) and its 128 entries. [file_wf] says that
    the addresses in use are distinct allocated data blocks. Allocating a
    block for an empty place keeps that, the other places and their contents. *)

From S2P Require Import Prelude Dll CString Kernel Sched Sock Kalloc Fifo Paging Vmem Sleeplock LockSpec Bio BioSpec Log LogSpec.
From S2P Require Import Cons Kbd Console Inode BlockSpec Fs FileSpec.

(** ** Definitions *)
Definition NSLOT : Z := 141.
Definition slot_of (bn : Z) : Z := if bn <? 12 then bn else bn + 1.
Definition slot (ip : inode) (v : Z → list Z) (s : Z) : Z :=
  let ind := default 0 (i_addrs ip !! NDIRECT) in
  if s <? 13 then default 0 (i_addrs ip !! Z.to_nat s) else if ind =? 0 then 0 else get32 (4 * Z.to_nat (s - 13)) (v ind).

(** The disk as mkfs.c lays it out: log, inodes, one block of bitmap, data. *)
Record layout (sb : superblock) (disksize start size : Z) : Prop := mk_layout {
  ly_size : 0 <= sb_size sb <= BPB;
  ly_disk : sb_size sb <= disksize;
  ly_bitmap : home disksize start size (BBLOCK 0 sb);
  ly_log : start + size <= BBLOCK 0 sb;
}.
Definition data_block (sb : superblock) (b : Z) : Prop := BBLOCK 0 sb < b < sb_size sb.

(** The blocks of the file. *)
Record file_wf (sb : superblock) (v : Z → list Z) (ip : inode) : Prop := mk_file_wf {
  fw_dev : i_dev ip = 1;
  fw_len : length (i_addrs ip) = S NDIRECT;
  fw_slot : ∀ s, 0 <= s < NSLOT → slot ip v s ≠ 0 → data_block sb (slot ip v s) ∧ in_use sb v (slot ip v s) = true;
  fw_inj : ∀ s s', 0 <= s < NSLOT → 0 <= s' < NSLOT → slot ip v s ≠ 0 → slot ip v s = slot ip v s' → s = s';
}.

(** The blocks that can still be allocated. *)
Definition free_blocks (sb : superblock) (v : Z → list Z) : list Z := filter (λ b, in_use sb v b = false) (seqZ 0 (sb_size sb)).
Definition free_ok (sb : superblock) (v : Z → list Z) : Prop := ∀ b, b ∈ free_blocks sb v → data_block sb b.

(** One block [b] more, at the place [s]. *)
Record grown (sb : superblock) (ip : inode) (v : Z → list Z) (ip' : inode) (v' : Z → list Z) (s b : Z) : Prop := mk_grown {
  gr_range : 0 <= s < NSLOT;
  gr_empty : slot ip v s = 0;
  gr_fresh : data_block sb b ∧ in_use sb v b = false;
  gr_ip : ∃ a, ip' = set_i_addrs a ip ∧ length a = S NDIRECT;
  gr_slot : ∀ s', 0 <= s' < NSLOT → slot ip' v' s' = if s' =? s then b else slot ip v s';
  gr_use : ∀ x, 0 <= x < sb_size sb → in_use sb v' x = (x =? b) || in_use sb v x;
  gr_zero : v' b = replicate 512 0;
  gr_view : ∀ x, x ≠ b → x ≠ BBLOCK 0 sb → slot ip v 12 = 0 ∨ x ≠ slot ip v 12 → v' x = v x;
}.

(** ** Places *)
Lemma slot_file_block ip v bn : 0 <= bn → slot ip v (slot_of bn) ≠ 0 → file_block ip v bn = slot ip v (slot_of bn).
Proof.
  intros H Hn. unfold file_block, slot, slot_of in *. destruct (Z.ltb_spec bn 12) as [Hlt|Hge].
  - by rewrite (proj2 (Z.ltb_lt _ _)) by lia.
  - rewrite (proj2 (Z.ltb_ge _ _)) in * by lia. destruct (Z.eqb_spec (default 0 (i_addrs ip !! NDIRECT)) 0); [done|]. do 2 f_equal. lia.
Qed.

Lemma slot_of_range bn : 0 <= bn < 140 → 0 <= slot_of bn < NSLOT ∧ slot_of bn ≠ 12.
Proof. unfold slot_of, NSLOT. destruct (Z.ltb_spec bn 12); lia. Qed.

Lemma place_inj bn bn' : slot_of bn = slot_of bn' → bn = bn'.
Proof. unfold slot_of. destruct (Z.ltb_spec bn 12), (Z.ltb_spec bn' 12); lia. Qed.

Lemma slot_12 ip v : slot ip v 12 = default 0 (i_addrs ip !! NDIRECT).
Proof. done. Qed.

(** An entry needs the indirect block. *)
Lemma slot_indirect ip v s : 13 <= s → slot ip v s ≠ 0 → slot ip v 12 ≠ 0.
Proof. intros Hs. rewrite slot_12. unfold slot. rewrite (proj2 (Z.ltb_ge _ _)) by lia. by destruct (Z.eqb_spec (default 0 (i_addrs ip !! NDIRECT)) 0). Qed.

Lemma get32_zero off : get32 off (replicate 512 0) = 0.
Proof.
  unfold get32, slice. rewrite drop_replicate, take_replicate. generalize (4 `min` (512 - off))%nat. intros n. induction n as [|n IH]; [done|]. cbn [replicate le_val]. lia.
Qed.

(** Views that agree on the indirect block give the same places. *)
Lemma slot_ext ip v v' s : (slot ip v 12 ≠ 0 → v' (slot ip v 12) = v (slot ip v 12)) → slot ip v' s = slot ip v s.
Proof.
  rewrite slot_12. intros H. unfold slot. destruct (s <? 13); [done|]. destruct (Z.eqb_spec (default 0 (i_addrs ip !! NDIRECT)) 0); [done|]. by rewrite H.
Qed.

Section sb.
Variables (sb : superblock) (disksize start size : Z).
Hypothesis Hly : layout sb disksize start size.

Lemma BBLOCK_one b : 0 <= b < sb_size sb → BBLOCK b sb = BBLOCK 0 sb.
Proof using Hly. intros H. pose proof (ly_size _ _ _ _ Hly) as Hs. rewrite BPB_eq in Hs. unfold BBLOCK. rewrite BPB_eq. do 2 f_equal. rewrite !Z.div_small; lia. Qed.

Lemma data_home b : data_block sb b → home disksize start size b ∧ b ≠ BBLOCK 0 sb ∧ b ≠ 0 ∧ 0 <= b < sb_size sb.
Proof using Hly.
  intros [H1 H2]. pose proof (ly_disk _ _ _ _ Hly). pose proof (ly_log _ _ _ _ Hly). pose proof (proj1 (ly_bitmap _ _ _ _ Hly)). unfold home. lia.
Qed.

Lemma free_blocks_in v b : b ∈ free_blocks sb v ↔ in_use sb v b = false ∧ 0 <= b < sb_size sb.
Proof using. unfold free_blocks. rewrite list_elem_of_filter, elem_of_seqZ. split; intros [? ?]; (split; [done|lia]). Qed.

Lemma free_blocks_nodup v : NoDup (free_blocks sb v).
Proof using. apply list.NoDup_filter, NoDup_seqZ. Qed.

(** The first of them, when there is one. *)
Lemma first_free_exists A : free_ok sb (cs_view A) → (0 < length (free_blocks sb (cs_view A)))%nat → (∀ i b, cs_held A !! i = Some b → in_use sb (cs_view A) b = true) →
  ∃ b, first_free start size sb disksize A b ∧ data_block sb b.
Proof using Hly.
  intros Hok Hl Hh. destruct (find_idx (λ b, negb (in_use sb (cs_view A) b)) (seqZ 0 (sb_size sb))) as [n|] eqn:E.
  - apply find_idx_Some in E as [(b & Hb & Hp) Hf]. apply lookup_seqZ in Hb as [-> Hr]. apply negb_true_iff in Hp. exists (0 + Z.of_nat n).
    assert (Hd : data_block sb (0 + Z.of_nat n)) by (apply Hok, free_blocks_in; split; [done|lia]). split; [|done]. split; [lia|done| |by apply data_home| |].
    + intros b' Hb'. apply negb_false_iff, (Hf (Z.to_nat b') b'); [lia|]. apply lookup_seqZ. lia.
    + intros i Hi. rewrite (Hh _ _ Hi) in Hp. done.
    + intros b' Hb'. rewrite BBLOCK_one by done. intros Hx. destruct (data_home _ Hd) as (_ & Hn & _). by rewrite Hx in Hn.
  - rewrite find_idx_None in E. exfalso. destruct (free_blocks sb (cs_view A)) as [|b l] eqn:El; [cbn in Hl; lia|].
    assert (Hin : b ∈ free_blocks sb (cs_view A)) by (rewrite El; by apply list_elem_of_here). apply free_blocks_in in Hin as [Hu Hr].
    specialize (E (Z.to_nat b) b ltac:(apply lookup_seqZ; lia)). by rewrite Hu in E.
Qed.

Lemma free_blocks_take v v' b : b ∈ free_blocks sb v → (∀ x, 0 <= x < sb_size sb → in_use sb v' x = (x =? b) || in_use sb v x) →
  length (free_blocks sb v) = S (length (free_blocks sb v')).
Proof using.
  intros Hb Hu. assert (Hp : free_blocks sb v ≡ₚ b :: free_blocks sb v').
  - apply NoDup_Permutation; [apply free_blocks_nodup| |].
    + apply list.NoDup_cons. split; [|apply free_blocks_nodup]. rewrite free_blocks_in. intros [H Hr]. rewrite Hu, Z.eqb_refl in H by done. done.
    + intros x. rewrite elem_of_cons, !free_blocks_in. apply free_blocks_in in Hb as [Hbu Hbr]. split.
      * intros [Hx Hr]. destruct (decide (x = b)) as [->|Hn]; [by left|right]. rewrite Hu, Hx by done. rewrite (proj2 (Z.eqb_neq _ _) Hn). done.
      * intros [->|[Hx Hr]]; [done|]. rewrite Hu in Hx by done. by apply orb_false_iff in Hx as [_ Hx].
  - by rewrite Hp.
Qed.

Lemma grown_free ip v ip' v' s b : grown sb ip v ip' v' s b → free_ok sb v → free_ok sb v' ∧ length (free_blocks sb v) = S (length (free_blocks sb v')).
Proof using Hly.
  intros G Hok. destruct (gr_fresh _ _ _ _ _ _ _ G) as [Hd Hf]. pose proof (data_home b Hd) as (_ & _ & _ & Hr). split.
  - intros x. rewrite free_blocks_in. intros [Hx Hxr]. apply Hok, free_blocks_in. rewrite (gr_use _ _ _ _ _ _ _ G) in Hx by done. by apply orb_false_iff in Hx as [_ Hx].
  - apply (free_blocks_take v v' b); [by apply free_blocks_in|exact (gr_use _ _ _ _ _ _ _ G)].
Qed.

Lemma grown_wf ip v ip' v' s b : grown sb ip v ip' v' s b → file_wf sb v ip → file_wf sb v' ip'.
Proof using Hly.
  intros G [W1 W2 W3 W4]. destruct (gr_fresh _ _ _ _ _ _ _ G) as [Hd Hf]. destruct (gr_ip _ _ _ _ _ _ _ G) as (a & -> & Ha). pose proof (data_home b Hd) as (_ & _ & Hb0 & Hr).
  assert (Hne : ∀ s', 0 <= s' < NSLOT → slot ip v s' ≠ b).
  { intros s' Hs' E. destruct (W3 s' Hs') as [_ Hu]; [by rewrite E|]. rewrite E, Hf in Hu. done. }
  split; [done|done| |].
  - intros s' Hs'. rewrite (gr_slot _ _ _ _ _ _ _ G s' Hs'). destruct (Z.eqb_spec s' s) as [->|Hn]; intros Hnz.
    + split; [done|]. by rewrite (gr_use _ _ _ _ _ _ _ G), Z.eqb_refl by done.
    + destruct (W3 s' Hs' Hnz) as [Hd' Hu]. split; [done|]. rewrite (gr_use _ _ _ _ _ _ _ G) by (by apply data_home). rewrite Hu. apply orb_true_r.
  - intros s1 s2 H1 H2. rewrite !(gr_slot _ _ _ _ _ _ _ G) by done. destruct (Z.eqb_spec s1 s) as [->|N1], (Z.eqb_spec s2 s) as [->|N2]; intros Hnz E; try done.
    + exfalso. by apply (Hne s2 H2).
    + exfalso. by apply (Hne s1 H1).
    + by apply W4.
Qed.
End sb.

(** ** Growing *)

(** What a file may become while it is written: its blocks stay, new ones were
    free, and nothing else changes. *)
Record extends (sb : superblock) (ip : inode) (v : Z → list Z) (ip' : inode) (v' : Z → list Z) : Prop := mk_extends {
  ex_ip : ∃ a, ip' = set_i_addrs a ip;
  ex_slot : ∀ s, 0 <= s < NSLOT → slot ip v s ≠ 0 → slot ip' v' s = slot ip v s;
  ex_fresh : ∀ s, 0 <= s < NSLOT → slot ip v s = 0 → slot ip' v' s ≠ 0 → in_use sb v (slot ip' v' s) = false;
  ex_use : ∀ x, 0 <= x < sb_size sb → in_use sb v x = true → in_use sb v' x = true;
  ex_view : ∀ x, 0 <= x < sb_size sb → in_use sb v x = true → x ≠ BBLOCK 0 sb →
    (∀ s, 0 <= s < NSLOT → slot ip v s ≠ 0 → slot ip v s ≠ x) → v' x = v x;
}.

(** ... when its data stay, and its new blocks are zero. *)
Record mapped (sb : superblock) (ip : inode) (v : Z → list Z) (ip' : inode) (v' : Z → list Z) : Prop := mk_mapped {
  mp_ext : extends sb ip v ip' v';
  mp_data : ∀ s, 0 <= s < NSLOT → s ≠ 12 → slot ip v s ≠ 0 → v' (slot ip v s) = v (slot ip v s);
  mp_zero : ∀ s, 0 <= s < NSLOT → s ≠ 12 → slot ip v s = 0 → slot ip' v' s ≠ 0 → v' (slot ip' v' s) = replicate 512 0;
}.

Lemma extends_refl sb ip v : extends sb ip v ip v.
Proof. split; try done. exists (i_addrs ip). by destruct ip. Qed.

Lemma mapped_refl sb ip v : mapped sb ip v ip v.
Proof. split; [apply extends_refl|done|]. intros s _ _ -> Hn. done. Qed.

Section extending.
Variables (sb : superblock) (disksize start size : Z).
Hypothesis Hly : layout sb disksize start size.

(** A place in use is a data block. *)
Lemma slot_data ip v s : file_wf sb v ip → 0 <= s < NSLOT → slot ip v s ≠ 0 →
  0 <= slot ip v s < sb_size sb ∧ slot ip v s ≠ BBLOCK 0 sb ∧ in_use sb v (slot ip v s) = true.
Proof using Hly. intros W Hs Hn. destruct (fw_slot _ _ _ W s Hs Hn) as [Hd Hu]. by destruct (data_home sb disksize start size Hly _ Hd) as (_ & ? & _ & ?). Qed.

Lemma extends_trans ip v ip1 v1 ip2 v2 : file_wf sb v1 ip1 → file_wf sb v2 ip2 →
  extends sb ip v ip1 v1 → extends sb ip1 v1 ip2 v2 → extends sb ip v ip2 v2.
Proof using Hly.
  intros W1 W2 [(a & ->) S1 F1 U1 V1] [(a' & ->) S2 F2 U2 V2]. set (ip1 := set_i_addrs a ip) in *. set (ip2 := set_i_addrs a' ip1) in *. split.
  - by exists a'.
  - intros s Hs Hn. rewrite S2, S1; [done..|]. by rewrite S1.
  - intros s Hs H0 Hn. destruct (decide (slot ip1 v1 s = 0)) as [E|E].
    + pose proof (F2 s Hs E Hn) as Hf. apply not_true_iff_false. intros Ht. rewrite U1 in Hf; [done|by apply (slot_data ip2 v2 s W2)|done].
    + rewrite S2 in * by done. by apply F1.
  - intros x Hr Hx. by apply U2, U1.
  - intros x Hr Hx Hb Hs. rewrite V2; [by apply V1|done|by apply U1|done|]. intros s Hsr En E.
    destruct (decide (slot ip v s = 0)) as [E0|E0]; [|rewrite S1 in E, En by done; by apply (Hs s)].
    pose proof (F1 s Hsr E0 En) as Hf. rewrite E, Hx in Hf. done.
Qed.

Lemma mapped_trans ip v ip1 v1 ip2 v2 : file_wf sb v1 ip1 → file_wf sb v2 ip2 →
  mapped sb ip v ip1 v1 → mapped sb ip1 v1 ip2 v2 → mapped sb ip v ip2 v2.
Proof using Hly.
  intros W1 W2 [X1 D1 Z1] [X2 D2 Z2]. split.
  - exact (extends_trans _ _ _ _ _ _ W1 W2 X1 X2).
  - intros s Hs H12 Hn. pose proof (ex_slot _ _ _ _ _ X1 s Hs Hn) as E1. rewrite <- (D1 s Hs H12 Hn), <- E1. apply D2; [done..|]. by rewrite E1.
  - intros s Hs H12 H0 Hn. destruct (decide (slot ip1 v1 s = 0)) as [E|E]; [by apply Z2|].
    rewrite (ex_slot _ _ _ _ _ X2 s Hs E) in *. rewrite (D2 s Hs H12 E). by apply Z1.
Qed.

Lemma grown_mapped ip v ip' v' s b : file_wf sb v ip → grown sb ip v ip' v' s b → mapped sb ip v ip' v'.
Proof using Hly.
  intros W G. destruct (gr_fresh _ _ _ _ _ _ _ G) as [Hd Hf]. pose proof (data_home sb disksize start size Hly b Hd) as (_ & _ & Hb0 & Hr).
  assert (Hkeep : ∀ s', 0 <= s' < NSLOT → slot ip v s' ≠ 0 → slot ip v s' ≠ b).
  { intros s' Hs' Hn E. destruct (slot_data ip v s' W Hs' Hn) as (_ & _ & Hu). rewrite E, Hf in Hu. done. }
  split; [split|..].
  - destruct (gr_ip _ _ _ _ _ _ _ G) as (a & -> & _). by exists a.
  - intros s' Hs' Hn. rewrite (gr_slot _ _ _ _ _ _ _ G s' Hs'). destruct (Z.eqb_spec s' s) as [->|]; [|done]. exfalso. apply Hn, G.
  - intros s' Hs' H0. rewrite (gr_slot _ _ _ _ _ _ _ G s' Hs'). destruct (Z.eqb_spec s' s) as [->|]; [done|]. by rewrite H0.
  - intros x Hx Hu. rewrite (gr_use _ _ _ _ _ _ _ G), Hu by done. apply orb_true_r.
  - intros x Hx Hu Hbm Hs. apply (gr_view _ _ _ _ _ _ _ G); [by intros ->; rewrite Hu in Hf|done|].
    destruct (decide (slot ip v 12 = 0)) as [E|E]; [by left|right]. intros ->. by apply (Hs 12).
  - intros s' Hs' H12 Hn. apply (gr_view _ _ _ _ _ _ _ G); [by apply Hkeep|by apply slot_data|].
    right. intros E. apply H12. by apply (fw_inj _ _ _ W s' 12 Hs').
  - intros s' Hs' H12 H0. rewrite (gr_slot _ _ _ _ _ _ _ G s' Hs'). destruct (Z.eqb_spec s' s) as [->|]; [|done]. intros _. apply G.
Qed.
End extending.
