(* ===== verification/WriteSpec.v ===== *)
(** * WriteSpec: writing a file

    [bmap] finds the block of an offset or allocates it, [writei] puts the
    bytes into the blocks. The file then reads as the old one with the new
    bytes in place, every other block in use is as before, and the log has
    room whenever it has it for one block per block touched and three more. *)

From S2P Require Import Prelude Dll CString Kernel Sched Sock Kalloc Fifo Paging Vmem Sleeplock LockSpec Bio BioSpec Log LogSpec.
From S2P Require Import Cons Kbd Console Inode BlockSpec Fs FileSpec Slots.

(** ** Definitions *)

(** Room in the log for [n] blocks and for those of [X] it has not yet. *)
Definition budget (size : Z) (n : nat) (bl : list Z) (X : gset Z) : Prop :=
  log_room size (S (n + base.size (X ∖ list_to_set bl))) bl.

(** 1 if the indirect block is still to be allocated. *)
Definition pending (ip : inode) : nat := if default 0 (i_addrs ip !! NDIRECT) =? 0 then 1 else 0.

(** ** The log's room *)
Lemma budget_room size n bl X : budget size n bl X → log_room size (S n) bl.
Proof. intros [H1 H2]. split; lia. Qed.

Lemma budget_add size n bl X b : budget size (S n) bl X → budget size n bl ({[b]} ∪ X).
Proof.
  intros [H1 H2]. assert (Hs : (base.size (({[b]} ∪ X) ∖ list_to_set bl) <= S (base.size (X ∖ list_to_set bl)))%nat).
  { etrans; [apply (subseteq_size _ ({[b]} ∪ X ∖ list_to_set bl)); set_solver|]. rewrite size_union_alt, size_singleton.
    pose proof (subseteq_size ((X ∖ list_to_set bl) ∖ {[b]}) (X ∖ list_to_set bl) ltac:(set_solver)). lia. }
  split; lia.
Qed.

Lemma budget_log size n bl X b : b ∈ X → budget size n bl X → budget size n (logged_blocks bl b) X.
Proof.
  intros Hb [H1 H2]. pose proof (logged_length bl b) as Hl. destruct (decide (b ∈ bl)) as [Hin|Hin].
  - unfold logged_blocks. rewrite decide_True by done. by split.
  - assert (Hs : X ∖ list_to_set bl = {[b]} ∪ X ∖ list_to_set (logged_blocks bl b)).
    { rewrite logged_dirty. apply set_eq. intros x. rewrite elem_of_union, !elem_of_difference, elem_of_union, elem_of_singleton, elem_of_list_to_set.
      destruct (decide (x = b)) as [->|]; [|set_solver]. split; [by left|done]. }
    rewrite Hs, size_union_alt, size_singleton in H1, H2.
    assert (Hd : (X ∖ list_to_set (logged_blocks bl b)) ∖ {[b]} = X ∖ list_to_set (logged_blocks bl b)) by (rewrite logged_dirty; set_solver).
    rewrite Hd in H1, H2. unfold budget, log_room. lia.
Qed.

Lemma budget_weaken size n m bl X : (m <= n)%nat → budget size n bl X → budget size m bl X.
Proof. intros Hm [H1 H2]. split; lia. Qed.

(** ** One block more *)
Section grow.
Variables (sb : superblock) (disksize start size : Z).
Hypothesis Hly : layout sb disksize start size.
Variables (A : cstate) (ip : inode) (b : Z).
Hypothesis Hbm : bitmap_ok start size sb disksize A.
Hypothesis Hff : first_free start size sb disksize A b.
Hypothesis Hd : data_block sb b.
Hypothesis Hwf : file_wf sb (cs_view A) ip.
Notation v := (cs_view A).

Lemma balloc_other x : x ≠ b → x ≠ BBLOCK 0 sb → balloc_view sb b v x = v x.
Proof using Hly Hff. intros H1 H2. unfold balloc_view. rewrite !fset_ne; [done| |done]. by rewrite (BBLOCK_one sb disksize start size Hly b (ff_range _ _ _ _ _ _ Hff)). Qed.

Lemma fresh_slot s : 0 <= s < NSLOT → slot ip v s ≠ 0 → slot ip v s ≠ b.
Proof using Hly Hff Hwf.
  intros Hs Hn E. destruct (slot_data sb disksize start size Hly ip v s Hwf Hs Hn) as (_ & _ & Hu). pose proof (ff_free _ _ _ _ _ _ Hff). congruence.
Qed.

Lemma balloc_indirect : slot ip v 12 ≠ 0 → balloc_view sb b v (slot ip v 12) = v (slot ip v 12).
Proof using Hly Hff Hwf.
  intros Hn. apply balloc_other; [by apply (fresh_slot 12); [unfold NSLOT; lia|]|]. by apply (slot_data sb disksize start size Hly ip v 12 Hwf).
Qed.

Lemma grown_addr j : (j <= 12)%nat → i_addrs ip !! j = Some 0 → grown sb ip v (set_i_addrs (<[j := b]> (i_addrs ip)) ip) (balloc_view sb b v) (Z.of_nat j) b.
Proof using Hly Hbm Hff Hd Hwf.
  intros Hj H0. pose proof (lookup_lt_Some _ _ _ H0) as Hlt. destruct (data_home sb disksize start size Hly b Hd) as (_ & _ & Hb0 & Hr). split.
  - unfold NSLOT. lia.
  - unfold slot. rewrite (proj2 (Z.ltb_lt _ _)), Nat2Z.id, H0 by lia. done.
  - split; [done|apply Hff].
  - eexists. split; [reflexivity|]. rewrite length_insert. apply Hwf.
  - intros s Hs. unfold slot at 1. cbn [i_addrs set_i_addrs]. destruct (Z.ltb_spec s 13) as [Hlo|Hhi].
    + unfold slot. rewrite (proj2 (Z.ltb_lt _ _)) by done. destruct (Z.eqb_spec s (Z.of_nat j)) as [->|Hn].
      * rewrite Nat2Z.id, list_lookup_insert_eq by done. done.
      * rewrite list_lookup_insert_ne by lia. done.
    + rewrite (proj2 (Z.eqb_neq s (Z.of_nat j))) by lia. destruct (decide (j = NDIRECT)) as [->|Hn].
      * rewrite list_lookup_insert_eq by done. cbn [from_option id]. rewrite (proj2 (Z.eqb_neq _ _) Hb0). unfold balloc_view. rewrite fset_eq, get32_zero.
        unfold slot. rewrite (proj2 (Z.ltb_ge _ _)), H0 by lia. done.
      * rewrite list_lookup_insert_ne by done. unfold slot at 1. rewrite (proj2 (Z.ltb_ge _ _)) by lia.
        pose proof balloc_indirect as Hbi. rewrite slot_12 in Hbi. destruct (Z.eqb_spec (default 0 (i_addrs ip !! NDIRECT)) 0) as [|En]; [done|]. by rewrite Hbi.
  - intros x Hx. by apply (in_use_balloc start size sb disksize).
  - apply fset_eq.
  - intros x H1 H2 _. by apply balloc_other.
Qed.

Lemma grown_entry s : 13 <= s < NSLOT → slot ip v 12 ≠ 0 → slot ip v s = 0 →
  grown sb ip v ip (fset (balloc_view sb b v) (slot ip v 12) (put32 (4 * Z.to_nat (s - 13)) b (balloc_view sb b v (slot ip v 12)))) s b.
Proof using Hly Hbm Hff Hd Hwf.
  intros Hs Hi H0. destruct (data_home sb disksize start size Hly b Hd) as (_ & Hbb & Hb0 & Hr). destruct (slot_data sb disksize start size Hly ip v 12 Hwf ltac:(unfold NSLOT; lia) Hi) as (Hir & Hib & Hiu).
  assert (Hib' : slot ip v 12 ≠ b) by (apply (fresh_slot 12); [unfold NSLOT; lia|done]). unfold NSLOT in Hs.
  pose proof (bm_len _ _ _ _ _ Hbm (slot ip v 12)) as Hlen. split.
  - unfold NSLOT. lia.
  - done.
  - split; [done|apply Hff].
  - exists (i_addrs ip). split; [by destruct ip|apply Hwf].
  - intros s' Hs'. unfold NSLOT in Hs'. destruct (Z.ltb_spec s' 13) as [Hlo|Hhi].
    + rewrite (proj2 (Z.eqb_neq s' s)) by lia. unfold slot. by rewrite (proj2 (Z.ltb_lt _ _)) by done.
    + pose proof (balloc_indirect Hi) as Hbi. rewrite slot_12 in *. unfold slot. rewrite (proj2 (Z.ltb_ge _ _)), (proj2 (Z.eqb_neq _ _) Hi), fset_eq by lia.
      rewrite Hbi. destruct (Z.eqb_spec s' s) as [->|Hn].
      * rewrite get32_put32 by lia. apply Z.mod_small. pose proof (ly_size _ _ _ _ Hly) as Hsz. rewrite BPB_eq in Hsz. change (2 ^ 32) with 4294967296. lia.
      * apply get32_put32_ne; lia.
  - intros x Hx. rewrite <- (in_use_balloc start size sb disksize A b x Hbm Hff Hr Hx). unfold in_use.
    rewrite fset_ne; [done|]. by rewrite (BBLOCK_one sb disksize start size Hly x Hx).
  - rewrite fset_ne by done. apply fset_eq.
  - intros x H1 H2 [E|H3]; [done|]. rewrite fset_ne by done. by apply balloc_other.
Qed.
End grow.

Lemma length_dinode_put ip off d : length (i_addrs ip) = S NDIRECT → (off + 64 <= length d)%nat → length (dinode_put ip off d) = length d.
Proof.
  intros Ha Hd. unfold dinode_put, put_addrs. set (d1 := put16 off _ d). assert (L1 : length d1 = length d) by (apply length_put16; lia).
  set (d2 := put16 (off + 2) _ d1). assert (L2 : length d2 = length d) by (rewrite <- L1; apply length_put16; lia).
  set (d3 := put16 (off + 4) _ d2). assert (L3 : length d3 = length d) by (rewrite <- L2; apply length_put16; lia).
  set (d4 := put16 (off + 6) _ d3). assert (L4 : length d4 = length d) by (rewrite <- L3; apply length_put16; lia).
  set (d5 := put32 (off + 8) _ d4). assert (L5 : length d5 = length d) by (rewrite <- L4; apply length_put32; lia).
  rewrite length_splice; [done|]. rewrite length_addrs, Ha. unfold NDIRECT. lia.
Qed.

(** ** The state while a file is written *)

(** At most the buffer of one block of the file is held. *)
Definition held_one (sb : superblock) (A : cstate) : Prop :=
  cs_held A = ∅ ∨ ∃ bp b, cs_held A = {[bp := b]} ∧ in_use sb (cs_view A) b = true ∧ b ≠ BBLOCK 0 sb.

Section write.
Variables (me : nat) (pid start size : Z) (dk : Z → list Z) (e : nat) (k0 : kernel) (i : nat).
Notation sb := (k_sb k0).
Notation disksize := (io_disksize (k_io k0)).
Notation tx := (intx me pid start size).
Hypothesis Hly : layout sb disksize start size.
Hypothesis Hi : (i < length (k_inodes k0))%nat.

(** The kernel is [k0], up to cache and log, with the inode [ip]; [n] more
    blocks can be allocated and logged. *)
Record wstate (n : nat) (X : gset Z) (k : kernel) (A : cstate) (bl : list Z) (ip : inode) : Prop := mk_wstate {
  ws_tx : tx k A bl;
  ws_frame : fs_frame (set_k_inodes (<[i := ip]> (k_inodes k0)) k0) k;
  ws_len : ∀ b, length (cs_view A b) = 512%nat;
  ws_wf : file_wf sb (cs_view A) ip;
  ws_free : free_ok sb (cs_view A);
  ws_count : (e + n <= length (free_blocks sb (cs_view A)))%nat;
  ws_budget : budget size n bl X;
  ws_bm : BBLOCK 0 sb ∈ X;
  ws_ind : slot ip (cs_view A) 12 ≠ 0 → slot ip (cs_view A) 12 ∈ X;
  ws_disk : cs_disk A = dk;
}.

Lemma ws_fields n X k A bl ip : wstate n X k A bl ip → k_io k = k_io k0 ∧ k_sb k = sb ∧ k_inodes k !! i = Some ip ∧ k_mem k = k_mem k0.
Proof using Hly Hi dk e.
  intros W. destruct (fs_frame_fields _ _ (ws_frame _ _ _ _ _ _ W)) as (-> & -> & -> & -> & _). split; [done|]. split; [done|]. split; [|done]. by apply list_lookup_insert_eq.
Qed.

Lemma ws_weaken n X k A bl ip b : wstate (S n) X k A bl ip → wstate n ({[b]} ∪ X) k A bl ip.
Proof using Hly Hi dk e. intros [W1 W2 W3 W4 W5 W6 W7 W8 W9 W10]. split; try done; [lia|by apply budget_add|set_solver|]. intros Hn. specialize (W9 Hn). set_solver. Qed.

Lemma ws_less n m X k A bl ip : (m <= n)%nat → wstate n X k A bl ip → wstate m X k A bl ip.
Proof using Hly Hi dk e. intros Hm [W1 W2 W3 W4 W5 W6 W7 W8 W9 W10]. split; [done..|lia|by eapply budget_weaken|done|done|done]. Qed.

Lemma ws_bitmap n X k A bl ip : wstate n X k A bl ip → held_one sb A → bitmap_ok start size sb disksize A.
Proof using Hly Hi dk e.
  intros W Hh. split.
  - pose proof (ly_size _ _ _ _ Hly) as Hs. rewrite BPB_eq in Hs. change (2 ^ 31) with 2147483648. lia.
  - intros b Hb. rewrite (BBLOCK_one sb disksize start size Hly b Hb). split; [apply Hly|]. intros j Hj.
    destruct Hh as [E|(bp & b' & E & _ & Hn)]; rewrite E in Hj; [done|]. apply lookup_singleton_Some in Hj as [_ ->]. done.
  - apply W.
Qed.

Lemma held_busy k A bl : tx k A bl → held_one sb A → (base.size (cs_busy A) <= S (length bl))%nat.
Proof using Hly Hi dk e.
  intros Htx Hh. unfold cs_busy. rewrite (tx_dirty _ _ _ _ _ _ _ Htx). destruct Hh as [E|(bp & b & E & _)]; rewrite E.
  - rewrite map_img_empty_L, union_empty_r_L, size_list_to_set; [lia|apply Htx].
  - rewrite map_img_singleton_L, union_comm_L, size_union_alt, size_singleton.
    pose proof (subseteq_size (list_to_set bl ∖ {[b]}) (list_to_set bl : gset Z) ltac:(set_solver)) as Hs. rewrite size_list_to_set in Hs by apply Htx. lia.
Qed.

(** [balloc] finds a block. *)
Lemma wp_balloc_ws n X k A bl ip (Q : Z → kernel → Prop) R : wstate (S n) X k A bl ip → held_one sb A →
  (∀ b A' bl' k', first_free start size sb disksize A b → data_block sb b → tx k' A' bl' → fs_frame (set_k_inodes (<[i := ip]> (k_inodes k0)) k0) k' →
     cs_held A' = cs_held A → cs_view A' = balloc_view sb b (cs_view A) → cs_disk A' = dk → budget size n bl' ({[b]} ∪ X) → Q b k') →
  wp False (balloc 1) Q R k.
Proof using Hly Hi dk e.
  intros W Hh HQ. destruct (ws_fields _ _ _ _ _ _ W) as (Eio & Esb & _). pose proof (ws_bitmap _ _ _ _ _ _ W Hh) as Hbm.
  destruct (first_free_exists sb disksize start size Hly A (ws_free _ _ _ _ _ _ W)) as (b & Hff & Hd).
  { pose proof (ws_count _ _ _ _ _ _ W). lia. }
  { intros j x Hj. destruct Hh as [E|(bp & b & E & Hu & _)]; rewrite E in Hj; [done|]. by apply lookup_singleton_Some in Hj as [_ <-]. }
  pose proof (budget_room _ _ _ _ (ws_budget _ _ _ _ _ _ W)) as [Hr1 Hr2]. pose proof (held_busy k A bl (ws_tx _ _ _ _ _ _ W) Hh) as Hbusy.
  destruct (balloc_ok me pid start size k A bl b) as (k' & A' & bl' & E & Htx' & Hf & Hh' & Hv & Hdk & Hbl); rewrite ?Esb, ?Eio; try done; [apply W|lia|split; lia|].
  eapply wp_of_Ret; [exact E|]. rewrite Esb in *. rewrite (BBLOCK_one sb disksize start size Hly b (ff_range _ _ _ _ _ _ Hff)) in Hbl.
  eapply (HQ b A' bl'); [done|done|done|etrans; [apply W|exact Hf]|done|done|rewrite Hdk; apply W|]. rewrite Hbl.
  apply budget_log; [set_solver|]. apply budget_log; [pose proof (ws_bm _ _ _ _ _ _ W); set_solver|]. by apply budget_add, (ws_budget _ _ _ _ _ _ W).
Qed.

(** The state once the block is entered. *)
Lemma ws_grown n X k A bl ip k' A' bl' ip' s b : wstate (S n) X k A bl ip → grown sb ip (cs_view A) ip' (cs_view A') s b →
  tx k' A' bl' → fs_frame (set_k_inodes (<[i := ip']> (k_inodes k0)) k0) k' → (∀ b, length (cs_view A' b) = 512%nat) → budget size n bl' ({[b]} ∪ X) → cs_disk A' = dk →
  wstate n ({[b]} ∪ X) k' A' bl' ip'.
Proof using Hly Hi dk e.
  intros W G Htx Hf Hlen Hb Hdk. destruct (grown_free sb disksize start size Hly _ _ _ _ _ _ G (ws_free _ _ _ _ _ _ W)) as [Hfo Hfn].
  split; try done.
  - exact (grown_wf sb disksize start size Hly _ _ _ _ _ _ G (ws_wf _ _ _ _ _ _ W)).
  - pose proof (ws_count _ _ _ _ _ _ W). lia.
  - pose proof (ws_bm _ _ _ _ _ _ W). set_solver.
  - rewrite (gr_slot _ _ _ _ _ _ _ G) by (unfold NSLOT; lia). destruct (12 =? s); intros Hn; [set_solver|]. pose proof (ws_ind _ _ _ _ _ _ W Hn). set_solver.
Qed.

Lemma balloc_view_len A b x : (∀ b, length (cs_view A b) = 512%nat) → length (balloc_view sb b (cs_view A) x) = 512%nat.
Proof using Hly Hi dk e.
  intros Hl. unfold balloc_view, fset. destruct (x =? b); [done|]. destruct (x =? _); [|done]. by rewrite length_bit_put.
Qed.

(** Changing the inode in memory. *)
Lemma frame_inode f ip k : fs_frame (set_k_inodes (<[i := ip]> (k_inodes k0)) k0) k →
  fs_frame (set_k_inodes (<[i := f ip]> (k_inodes k0)) k0) (upd_inode i f k).
Proof using Hly Hi dk e.
  intros (c & P & B & d & w & E & Hw). exists c, P, B, d, w. split; [|exact Hw]. rewrite E. unfold upd_inode.
  cbn [k_inodes set_k_cpu set_k_procs set_k_bufs set_k_disk set_k_power set_k_log set_k_inodes k_log]. by rewrite alter_ins.
Qed.
(** *** [bmap] *)
Lemma pending_addrs ip a : a !! NDIRECT = i_addrs ip !! NDIRECT → pending (set_i_addrs a ip) = pending ip.
Proof using Hly Hi dk e. intros E. unfold pending. cbn [i_addrs set_i_addrs]. by rewrite E. Qed.

Lemma wp_addr_ws {B} n X k A bl ip j a (f : Z → KM B) Q R : wstate n X k A bl ip → i_addrs ip !! j = Some a → wp False (f a) Q R k → wp False (bindM (addr_at i j) f) Q R k.
Proof using Hly Hi dk e.
  intros W Ha Hf. apply wp_bind. unfold addr_at. apply (wp_ip_at _ i ip); [by apply (ws_fields _ _ _ _ _ _ W)|]. rewrite Ha. by apply wp_ret.
Qed.

(** An address of the inode gets a block. *)
Lemma wp_alloc_addr n X k A bl ip j (Q : Z → kernel → Prop) R : wstate (S n) X k A bl ip → cs_held A = ∅ → (j <= 12)%nat → i_addrs ip !! j = Some 0 →
  (∀ b k' A' bl', let ip' := set_i_addrs (<[j := b]> (i_addrs ip)) ip in wstate n ({[b]} ∪ X) k' A' bl' ip' → cs_held A' = ∅ →
     grown sb ip (cs_view A) ip' (cs_view A') (Z.of_nat j) b → Q b k') →
  wp False (a <- balloc 1 ;; addr_set i j a ;; mret a) Q R k.
Proof using Hly Hi dk e.
  intros W Hh Hj H0 HQ. apply wp_bind. eapply wp_balloc_ws; [exact W|by left|]. intros b A' bl' k' Hff Hd Htx Hf Hh' Hv Hdk Hb.
  unfold addr_set. apply wp_bind, wp_modify, wp_ret.
  pose proof (grown_addr sb disksize start size Hly A ip b (ws_bitmap _ _ _ _ _ _ W ltac:(by left)) Hff Hd (ws_wf _ _ _ _ _ _ W) j Hj H0) as G. rewrite <- Hv in G.
  apply (HQ b _ A' bl'); [|by rewrite Hh'|exact G]. eapply ws_grown; [exact W|exact G|by apply tx_set_inodes| | |done|done].
  - exact (frame_inode (λ ip, set_i_addrs (<[j := b]> (i_addrs ip)) ip) ip k' Hf).
  - intros x. rewrite Hv. apply balloc_view_len, W.
Qed.

(** The part of [bmap] after the indirect block was found. *)
Definition bmap_entry (a bn : Z) : KM Z :=
  bp <- bread 1 a ;;
  d <- bdata bp ;;
  let e := get32 (4 * Z.to_nat bn) d in
  if e =? 0 then
    e <- balloc 1 ;;
    d <- bdata bp ;;
    bdata_set bp (put32 (4 * Z.to_nat bn) e d) ;;
    log_write bp ;;
    brelse bp ;;
    mret e
  else
    brelse bp ;;
    mret e.

Lemma slot_home n X k A bl ip s : wstate n X k A bl ip → 0 <= s < NSLOT → slot ip (cs_view A) s ≠ 0 → home disksize start size (slot ip (cs_view A) s).
Proof using Hly Hi dk e. intros W Hs Hn. by apply (data_home sb disksize start size Hly), (fw_slot _ _ _ (ws_wf _ _ _ _ _ _ W) s Hs). Qed.

Lemma free_room n X k A bl ip : wstate n X k A bl ip → cs_held A = ∅ → (base.size (cs_busy A) < NBUF)%nat.
Proof using Hly Hi dk e.
  intros W Hh. pose proof (held_busy k A bl (ws_tx _ _ _ _ _ _ W) ltac:(by left)). destruct (budget_room _ _ _ _ (ws_budget _ _ _ _ _ _ W)). lia.
Qed.

Lemma wp_bmap_entry n X k A bl ip en (Q : Z → kernel → Prop) R : wstate (S n) X k A bl ip → cs_held A = ∅ → 0 <= en < 128 → slot ip (cs_view A) 12 ≠ 0 →
  (∀ k' A' bl' X', wstate n X' k' A' bl' ip → cs_held A' = ∅ → mapped sb ip (cs_view A) ip (cs_view A') → X ⊆ X' →
     let b := slot ip (cs_view A') (en + 13) in b ≠ 0 → b ∈ X' → Q b k') →
  wp False (bmap_entry (slot ip (cs_view A) 12) en) Q R k.
Proof using Hly Hi dk e.
  intros W Hh He Hn HQ. destruct (ws_fields _ _ _ _ _ _ W) as (Eio & Esb & _). pose proof (slot_home _ _ _ _ _ _ 12 W ltac:(unfold NSLOT; lia) Hn) as Hhome.
  destruct (slot_data sb disksize start size Hly ip _ 12 (ws_wf _ _ _ _ _ _ W) ltac:(unfold NSLOT; lia) Hn) as (_ & Hbm & Hu). set (ind := slot ip (cs_view A) 12) in *.
  assert (Hnh : ∀ j, cs_held A !! j ≠ Some ind) by (intros j; by rewrite Hh).
  unfold bmap_entry. apply wp_bind. eapply (wp_bread_tx me pid start size); [apply W|rewrite Eio; apply Hhome|exact Hnh|right; by eapply free_room|]. intros bp k1 Hbp H1 F1.
  apply wp_bind. eapply (wp_bdata_tx me pid start size); [exact H1|apply lookup_insert_eq|]. cbn [cs_take cs_view]. cbn zeta.
  assert (Hsl : slot ip (cs_view A) (en + 13) = get32 (4 * Z.to_nat en) (cs_view A ind)).
  { unfold slot at 1. rewrite (proj2 (Z.ltb_ge _ _)) by lia. fold (slot ip (cs_view A) 12). rewrite <- slot_12 with (v := cs_view A). fold ind. rewrite (proj2 (Z.eqb_neq _ _) Hn). do 2 f_equal. lia. }
  rewrite <- Hsl. destruct (Z.eqb_spec (slot ip (cs_view A) (en + 13)) 0) as [E0|E0].
  - assert (W1 : wstate (S n) X k1 (cs_take bp ind A) bl ip) by (destruct W; split; try done; by etrans).
    apply wp_bind. eapply wp_balloc_ws; [exact W1|right; exists bp, ind; split; [cbn; by rewrite Hh|done]|].
    intros b A' bl' k2 Hff Hd H2 F2 Hh2 Hv2 Hdk2 Hb2. cbn [cs_take cs_view cs_held] in Hh2, Hv2. rewrite Hh in Hh2.
    destruct (fs_frame_fields _ _ F2) as (Eio2 & _). change (k_io k2 = k_io k0) in Eio2.
    assert (Hin2 : cs_held A' !! bp = Some ind) by (rewrite Hh2; apply lookup_insert_eq).
    apply wp_bind. eapply (wp_bdata_tx me pid start size); [exact H2|exact Hin2|]. rewrite Hv2.
    pose proof (budget_room _ _ _ _ Hb2) as [Hr1 Hr2].
    apply wp_bind. eapply (wp_bdata_set_tx me pid start size); [exact H2|exact Hin2|]. intros k3 H3 F3.
    destruct (fs_frame_fields _ _ F3) as (Eio3 & _).
    apply wp_bind. eapply (wp_log_write_tx me pid start size); [exact H3|exact Hin2|by rewrite Eio3, Eio2|lia|lia|]. intros k4 H4 F4.
    apply wp_bind. eapply (wp_brelse_tx me pid start size); [exact H4|exact Hin2|left; cbn; set_solver|]. intros k5 H5 F5. apply wp_ret.
    pose proof (grown_entry sb disksize start size Hly (cs_take bp ind A) ip b (ws_bitmap _ _ _ _ _ _ W1 ltac:(right; exists bp, ind; split; [cbn; by rewrite Hh|done])) Hff Hd (ws_wf _ _ _ _ _ _ W) (en + 13) ltac:(unfold NSLOT; lia) Hn E0) as G.
    cbn [cs_take cs_view] in G. replace (en + 13 - 13) with en in G by lia. fold ind in G.
    set (A5 := cs_drop bp _) in H5. assert (Hv5 : cs_view A5 = fset (balloc_view sb b (cs_view A)) ind (put32 (4 * Z.to_nat en) b (balloc_view sb b (cs_view A) ind))) by (cbn; by rewrite Hv2).
    rewrite <- Hv5 in G. assert (Hind : ind ∈ X) by (by apply W). assert (Hsb : slot ip (cs_view A5) (en + 13) = b) by (rewrite (gr_slot _ _ _ _ _ _ _ G), Z.eqb_refl by (unfold NSLOT; lia); done).
    rewrite <- Hsb. apply (HQ k5 A5 (logged_blocks bl' ind) ({[b]} ∪ X)).
    + eapply ws_grown; [exact W|exact G|exact H5|etrans; [exact F2|etrans; [exact F3|etrans; [exact F4|exact F5]]]| |by apply budget_log; [set_solver|]|exact Hdk2].
      intros x. rewrite Hv5. unfold fset. destruct (x =? ind); [rewrite length_put32; rewrite balloc_view_len; try done; try apply W; lia|apply balloc_view_len, W].
    + cbn. rewrite Hh2. apply delete_insert_id. by rewrite lookup_empty.
    + exact (grown_mapped sb disksize start size Hly _ _ _ _ _ _ (ws_wf _ _ _ _ _ _ W) G).
    + set_solver.
    + rewrite Hsb. by apply (data_home sb disksize start size Hly b Hd).
    + rewrite Hsb. set_solver.
  - apply wp_bind. eapply (wp_brelse_read me pid start size); [exact H1|done|exact Hnh|apply W|]. intros k2 H2 F2. apply wp_ret.
    apply (HQ k2 A bl ({[slot ip (cs_view A) (en + 13)]} ∪ X)); [|done|apply mapped_refl|set_solver|done|set_solver].
    apply ws_weaken. destruct W; split; try done. etrans; [done|by etrans].
Qed.
Lemma pending_some ip v : slot ip v 12 ≠ 0 → pending ip = 0%nat.
Proof using Hly Hi dk e. rewrite slot_12. intros H. unfold pending. by rewrite (proj2 (Z.eqb_neq _ _) H). Qed.

(** The block of [bn], allocated if need be. *)
Definition bmap_post (n : nat) (X : gset Z) (A : cstate) (ip : inode) (bn : Z) (Q : Z → kernel → Prop) : Prop :=
  ∀ k' A' bl' ip' X', wstate (n + pending ip') X' k' A' bl' ip' → cs_held A' = ∅ → mapped sb ip (cs_view A) ip' (cs_view A') → X ⊆ X' →
    (slot ip (cs_view A) (slot_of bn) ≠ 0 → ip' = ip) → let b := slot ip' (cs_view A') (slot_of bn) in b ≠ 0 → b ∈ X' → Q b k'.

Lemma wp_bmap_direct n X k A bl ip bn (Q : Z → kernel → Prop) R : wstate (S n + pending ip) X k A bl ip → cs_held A = ∅ → 0 <= bn < 12 →
  bmap_post n X A ip bn Q → wp False (bmap i bn) Q R k.
Proof using Hly Hi dk e.
  intros W Hh Hbn HQ. pose proof (ws_wf _ _ _ _ _ _ W) as Hwf. unfold bmap. apply (wp_ip_at _ i ip); [by apply (ws_fields _ _ _ _ _ _ W)|].
  cbn zeta. rewrite (fw_dev _ _ _ Hwf). change (Z.of_nat NDIRECT) with 12. rewrite (proj2 (Z.ltb_lt bn 12)) by lia.
  pose proof (fw_len _ _ _ Hwf) as Hl. destruct (lookup_lt_is_Some_2 (i_addrs ip) (Z.to_nat bn)) as [a Ha]; [unfold NDIRECT in Hl; lia|].
  assert (Es : slot_of bn = bn) by (unfold slot_of; by rewrite (proj2 (Z.ltb_lt bn 12)) by lia).
  eapply wp_addr_ws; [exact W|exact Ha|]. destruct (Z.eqb_spec a 0) as [->|Hn].
  - eapply wp_alloc_addr; [exact W|done|lia|exact Ha|]. intros b k' A' bl' ip' W' Hh' G. rewrite Z2Nat.id in G by lia.
    assert (Ep : pending ip' = pending ip) by (apply pending_addrs, list_lookup_insert_ne; unfold NDIRECT; lia).
    assert (Eb : slot ip' (cs_view A') (slot_of bn) = b) by (rewrite Es, (gr_slot _ _ _ _ _ _ _ G), Z.eqb_refl by (unfold NSLOT; lia); done).
    rewrite <- Eb. apply (HQ k' A' bl' ip' ({[b]} ∪ X)); [by rewrite Ep|done|exact (grown_mapped sb disksize start size Hly _ _ _ _ _ _ Hwf G)|set_solver|by rewrite Es, (gr_empty _ _ _ _ _ _ _ G)| |].
    + rewrite Eb. by apply (data_home sb disksize start size Hly b), (gr_fresh _ _ _ _ _ _ _ G).
    + rewrite Eb. set_solver.
  - apply wp_ret. assert (Eb : slot ip (cs_view A) (slot_of bn) = a) by (rewrite Es; unfold slot; rewrite (proj2 (Z.ltb_lt _ _)), Ha by lia; done).
    rewrite <- Eb. apply (HQ k A bl ip ({[a]} ∪ X)); [by apply ws_weaken|done|apply mapped_refl|set_solver|done|by rewrite Eb|rewrite Eb; set_solver].
Qed.

Lemma wp_bmap_indirect n X k A bl ip bn (Q : Z → kernel → Prop) R : wstate (S n + pending ip) X k A bl ip → cs_held A = ∅ → 12 <= bn < 140 →
  bmap_post n X A ip bn Q → wp False (bmap i bn) Q R k.
Proof using Hly Hi dk e.
  intros W Hh Hbn HQ. pose proof (ws_wf _ _ _ _ _ _ W) as Hwf. unfold bmap. apply (wp_ip_at _ i ip); [by apply (ws_fields _ _ _ _ _ _ W)|].
  cbn zeta. rewrite (fw_dev _ _ _ Hwf). change (Z.of_nat NDIRECT) with 12. change (Z.of_nat NINDIRECT) with 128. rewrite (proj2 (Z.ltb_ge bn 12)), (proj2 (Z.ltb_lt (bn - 12) 128)) by lia.
  pose proof (fw_len _ _ _ Hwf) as Hl. destruct (lookup_lt_is_Some_2 (i_addrs ip) NDIRECT) as [a Ha]; [lia|].
  assert (Es : slot_of bn = bn - 12 + 13) by (unfold slot_of; rewrite (proj2 (Z.ltb_ge bn 12)) by lia; lia).
  assert (E12 : slot ip (cs_view A) 12 = a) by (rewrite slot_12, Ha; done).
  eapply wp_addr_ws; [exact W|exact Ha|]. apply wp_bind. destruct (Z.eqb_spec a 0) as [->|Hn].
  - assert (Ep : pending ip = 1%nat) by (unfold pending; by rewrite Ha). rewrite Ep, Nat.add_1_r in W.
    eapply wp_alloc_addr; [exact W|done|unfold NDIRECT; lia|exact Ha|]. intros b k1 A1 bl1 ip1 W1 Hh1 G. change (Z.of_nat NDIRECT) with 12 in G.
    assert (Eb : slot ip1 (cs_view A1) 12 = b) by (rewrite (gr_slot _ _ _ _ _ _ _ G) by (unfold NSLOT; lia); done).
    assert (Hb0 : slot ip1 (cs_view A1) 12 ≠ 0) by (rewrite Eb; by apply (data_home sb disksize start size Hly b), (gr_fresh _ _ _ _ _ _ _ G)).
    pose proof (pending_some _ _ Hb0) as Ep1. rewrite <- Eb. apply (wp_bmap_entry n ({[b]} ∪ X) k1 A1 bl1 ip1 (bn - 12)); [exact W1|done|lia|done|].
    intros k' A' bl' X' W' Hh' M HX b' Hb' HbX. subst b'. rewrite <- Es in Hb', HbX |- *. apply (HQ k' A' bl' ip1 X'); rewrite ?Ep1, ?Nat.add_0_r; try done; [|set_solver|intros Hs; exfalso; apply (slot_indirect ip (cs_view A) (slot_of bn)) in Hs; [by rewrite E12 in Hs|rewrite Es; lia]].
    apply (mapped_trans sb disksize start size Hly _ _ ip1 (cs_view A1)); [apply W1|apply W'| |done].
    exact (grown_mapped sb disksize start size Hly _ _ _ _ _ _ Hwf G).
  - apply wp_ret. assert (H12 : slot ip (cs_view A) 12 ≠ 0) by (by rewrite E12). pose proof (pending_some _ _ H12) as Ep. rewrite Ep, Nat.add_0_r in W.
    rewrite <- E12. apply (wp_bmap_entry n X k A bl ip (bn - 12)); [exact W|done|lia|done|].
    intros k' A' bl' X' W' Hh' M HX b' Hb' HbX. subst b'. rewrite <- Es in Hb', HbX |- *. apply (HQ k' A' bl' ip X'); rewrite ?Ep, ?Nat.add_0_r; done.
Qed.

Lemma wp_bmap_ws n X k A bl ip bn (Q : Z → kernel → Prop) R : wstate (S n + pending ip) X k A bl ip → cs_held A = ∅ → 0 <= bn < 140 →
  bmap_post n X A ip bn Q → wp False (bmap i bn) Q R k.
Proof using Hly Hi dk e.
  intros W Hh Hbn HQ. destruct (decide (bn < 12)); [apply (wp_bmap_direct n X k A bl ip); [done..|lia|done]|apply (wp_bmap_indirect n X k A bl ip); [done..|lia|done]].
Qed.
(** *** One block written *)
Lemma slot_fset ip v x d s : slot ip v 12 = 0 ∨ x ≠ slot ip v 12 → slot ip (fset v x d) s = slot ip v s.
Proof using Hly Hi dk e. intros H. apply slot_ext. intros Hn. apply fset_ne. destruct H as [H|H]; [done|]. intros E. by apply H. Qed.

Lemma in_use_fset v x d b : x ≠ BBLOCK 0 sb → 0 <= b < sb_size sb → in_use sb (fset v x d) b = in_use sb v b.
Proof using Hly Hi dk e. intros Hx Hb. unfold in_use. rewrite fset_ne; [done|]. rewrite (BBLOCK_one sb disksize start size Hly b Hb). by apply not_eq_sym. Qed.

Lemma ws_fset n X k A bl ip k' x d : wstate n X k A bl ip → x ≠ BBLOCK 0 sb → slot ip (cs_view A) 12 = 0 ∨ x ≠ slot ip (cs_view A) 12 →
  length d = 512%nat → x ∈ X → tx k' (cs_update x d A) (logged_blocks bl x) → fs_frame k k' → wstate n X k' (cs_update x d A) (logged_blocks bl x) ip.
Proof using Hly Hi dk e.
  intros W Hx H12 Hd HX Htx Hf. assert (Hs : ∀ s, slot ip (cs_view (cs_update x d A)) s = slot ip (cs_view A) s) by (intros s; by apply slot_fset).
  assert (Hu : ∀ b, 0 <= b < sb_size sb → in_use sb (cs_view (cs_update x d A)) b = in_use sb (cs_view A) b) by (intros b; by apply in_use_fset).
  assert (Hfb : free_blocks sb (cs_view (cs_update x d A)) ≡ₚ free_blocks sb (cs_view A)).
  { apply NoDup_Permutation; [apply free_blocks_nodup..|]. intros b. rewrite !free_blocks_in. split; intros [? ?]; (split; [|done]); [rewrite <- Hu|rewrite Hu]; done. }
  split.
  - done.
  - etrans; [apply W|exact Hf].
  - intros b. cbn. unfold fset. destruct (b =? x); [done|apply W].
  - destruct (ws_wf _ _ _ _ _ _ W) as [W1 W2 W3 W4]. split; try done.
    + intros s Hsr. rewrite Hs. intros Hn. destruct (W3 s Hsr Hn) as [Hd' Hu']. split; [done|]. rewrite Hu; [done|]. by apply (data_home sb disksize start size Hly).
    + intros s s' H1 H2. rewrite !Hs. by apply W4.
  - intros b Hb. apply (ws_free _ _ _ _ _ _ W). by rewrite <- Hfb.
  - rewrite Hfb. apply W.
  - apply budget_log; [done|apply W].
  - apply W.
  - rewrite Hs. apply W.
  - apply W.
Qed.

(** Bytes of a file through the places. *)
Lemma file_byte_slot ip v o : 0 <= o → slot ip v (slot_of (o / 512)) ≠ 0 → file_byte ip v o = default 0 (v (slot ip v (slot_of (o / 512))) !! Z.to_nat (o mod 512)).
Proof using Hly Hi dk e. intros Ho Hn. unfold file_byte. rewrite BSIZE_eq, slot_file_block; [done|divlia|done]. Qed.

Lemma mapped_byte ip v ip' v' o : mapped sb ip v ip' v' → 0 <= o < 140 * 512 → slot ip v (slot_of (o / 512)) ≠ 0 →
  slot ip' v' (slot_of (o / 512)) ≠ 0 ∧ file_byte ip' v' o = file_byte ip v o.
Proof using Hly Hi dk e.
  intros M Ho Hn. destruct (slot_of_range (o / 512) ltac:(divlia)) as [Hr H12]. pose proof (ex_slot _ _ _ _ _ (mp_ext _ _ _ _ _ M) _ Hr Hn) as Es.
  split; [by rewrite Es|]. rewrite !file_byte_slot by (lia || by rewrite ?Es). rewrite Es. by rewrite (mp_data _ _ _ _ _ M _ Hr H12 Hn).
Qed.

(** The bytes after one block was written at [p] in block [bn]. *)
Lemma splice_byte ip v bn p bytes o : file_wf sb v ip → 0 <= bn < 140 → slot ip v (slot_of bn) ≠ 0 → length (v (slot ip v (slot_of bn))) = 512%nat →
  (p + length bytes <= 512)%nat → 0 <= o < 140 * 512 → slot ip v (slot_of (o / 512)) ≠ 0 →
  let v' := fset v (slot ip v (slot_of bn)) (splice p bytes (v (slot ip v (slot_of bn)))) in
  file_byte ip v' o = if (512 * bn + Z.of_nat p <=? o) && (o <? 512 * bn + Z.of_nat (p + length bytes)) then default 0 (bytes !! Z.to_nat (o - 512 * bn - Z.of_nat p)) else file_byte ip v o.
Proof using Hly Hi dk e.
  intros W Hbn Hb Hl Hp Ho Hn v'. destruct (slot_of_range bn Hbn) as [Hr H12]. destruct (slot_of_range (o / 512) ltac:(divlia)) as [Hro _].
  assert (Hs : ∀ s, slot ip v' s = slot ip v s).
  { intros s. apply slot_fset. destruct (decide (slot ip v 12 = 0)) as [|E12]; [by left|right]. intros E. apply H12. by apply (fw_inj _ _ _ W _ 12 Hr). }
  rewrite !file_byte_slot by (lia || by rewrite ?Hs). rewrite Hs. destruct (decide (o / 512 = bn)) as [E|E].
  - rewrite E. unfold v'. rewrite fset_eq, lookup_splice by (by rewrite Hl). case_decide as Hc.
    + rewrite (proj2 (Z.leb_le _ _)), (proj2 (Z.ltb_lt _ _)) by (clear - E Hc Ho; divlia). cbn [andb]. do 2 f_equal. clear - E Hc Ho. divlia.
    + assert ((512 * bn + Z.of_nat p <=? o) && (o <? 512 * bn + Z.of_nat (p + length bytes)) = false) as -> by (apply andb_false_iff; clear - E Hc Ho; destruct (decide (o mod 512 < Z.of_nat p)); [left; apply Z.leb_gt|right; apply Z.ltb_ge]; divlia). done.
  - unfold v'. rewrite fset_ne.
    + assert ((512 * bn + Z.of_nat p <=? o) && (o <? 512 * bn + Z.of_nat (p + length bytes)) = false) as -> by (apply andb_false_iff; clear - E Hp Ho; destruct (decide (o / 512 < bn)); [left; apply Z.leb_gt|right; apply Z.ltb_ge]; divlia). done.
    + intros Es. apply E, place_inj. by apply (fw_inj _ _ _ W _ _ Hro Hr).
Qed.
Lemma write_extends ip v bn d : file_wf sb v ip → 0 <= bn < 140 → slot ip v (slot_of bn) ≠ 0 → extends sb ip v ip (fset v (slot ip v (slot_of bn)) d).
Proof using Hly Hi dk e.
  intros W Hbn Hb. destruct (slot_of_range bn Hbn) as [Hr H12]. destruct (slot_data sb disksize start size Hly ip v _ W Hr Hb) as (_ & Hbm & _).
  assert (Hs : ∀ s, slot ip (fset v (slot ip v (slot_of bn)) d) s = slot ip v s).
  { intros s. apply slot_fset. destruct (decide (slot ip v 12 = 0)) as [|E12]; [by left|right]. intros E. apply H12. by apply (fw_inj _ _ _ W _ 12 Hr). }
  split.
  - exists (i_addrs ip). by destruct ip.
  - intros s _ _. apply Hs.
  - intros s _ H0. by rewrite Hs, H0.
  - intros x Hx. by rewrite in_use_fset.
  - intros x Hx _ _ Hn. apply fset_ne. intros ->. by apply (Hn (slot_of bn)).
Qed.

(** What [t] bytes of [l] written from [off] on have made of the file. *)
Definition byte_written (ip0 : inode) (v0 : Z → list Z) (off : Z) (l : list Z) (t o : Z) : Z :=
  if (off <=? o) && (o <? off + t) then default 0 (l !! Z.to_nat (o - off)) else file_byte ip0 v0 o.
Record progress (ip0 : inode) (v0 : Z → list Z) (off : Z) (l : list Z) (t : Z) (ip : inode) (v : Z → list Z) : Prop := mk_progress {
  pg_ext : extends sb ip0 v0 ip v;
  pg_same : off + t <= i_size ip0 → ip = ip0;
  pg_bytes : ∀ o, 0 <= o < Z.max (i_size ip0) (off + t) → slot ip v (slot_of (o / 512)) ≠ 0 ∧ file_byte ip v o = byte_written ip0 v0 off l t o;
}.

Lemma progress_step ip0 v0 off l t m ip v ip1 v1 : file_wf sb v ip → file_wf sb v1 ip1 → (∀ b, length (v1 b) = 512%nat) →
  0 <= off <= i_size ip0 → i_size ip0 <= 140 * 512 → 0 <= t → 0 < m → off + t + m <= 140 * 512 → t + m <= Z.of_nat (length l) → (off + t) mod 512 + m <= 512 →
  progress ip0 v0 off l t ip v → mapped sb ip v ip1 v1 → (slot ip v (slot_of ((off + t) / 512)) ≠ 0 → ip1 = ip) →
  let b := slot ip1 v1 (slot_of ((off + t) / 512)) in b ≠ 0 →
  let v2 := fset v1 b (splice (Z.to_nat ((off + t) mod 512)) (slice (Z.to_nat t) (Z.to_nat m) l) (v1 b)) in
  file_wf sb v2 ip1 → progress ip0 v0 off l (t + m) ip1 v2.
Proof using Hly Hi dk e.
  intros W W1 Hlen Hoff Hsz Ht Hm Hmax Hl Hblk [PE PS PB] M Hsame b Hb v2 W2. pose proof (mp_ext _ _ _ _ _ M) as ME.
  assert (Hbn : 0 <= (off + t) / 512 < 140) by (clear - Hmax Hm Ht Hoff; divlia). assert (Hll : length (slice (Z.to_nat t) (Z.to_nat m) l) = Z.to_nat m) by (unfold slice; rewrite length_take, length_drop; lia).
  pose proof (Z.mod_pos_bound (off + t) 512 ltac:(lia)) as Hmod. split.
  - apply (extends_trans sb disksize start size Hly _ _ ip1 v1); [done..| |by apply write_extends].
    by apply (extends_trans sb disksize start size Hly _ _ ip v).
  - intros Hle. rewrite Hsame; [apply PS; lia|]. apply PB. lia.
  - intros o Ho. assert (Hom : 0 <= o < 140 * 512) by lia. destruct (slot_of_range (o / 512) ltac:(clear - Hom; divlia)) as [Hr _].
    assert (Hn1 : slot ip1 v1 (slot_of (o / 512)) ≠ 0 ∧ (o < Z.max (i_size ip0) (off + t) → file_byte ip1 v1 o = byte_written ip0 v0 off l t o)).
    { destruct (decide (o < Z.max (i_size ip0) (off + t))) as [Hlt|Hge].
      - destruct (PB o ltac:(lia)) as [Hn Hb0]. destruct (mapped_byte ip v ip1 v1 o M Hom Hn) as [Hn1 Hb1]. split; [done|]. intros _. by rewrite Hb1.
      - assert (E : o / 512 = (off + t) / 512) by (clear - Ho Hge Hblk Hm Ht Hoff; assert (off + t <= o < off + t + m) by lia; divlia).
        rewrite E. split; [exact Hb|lia]. }
    destruct Hn1 as [Hn1 Hold]. split.
    + unfold v2, b. rewrite (ex_slot _ _ _ _ _ (write_extends ip1 v1 _ _ W1 Hbn Hb) _ Hr Hn1). exact Hn1.
    + unfold v2, b. rewrite (splice_byte ip1 v1 _ _ _ o W1 Hbn Hb (Hlen _)) by (done || rewrite Hll; lia). rewrite Hll. unfold byte_written in *.
      assert (Eo : 512 * ((off + t) / 512) + Z.of_nat (Z.to_nat ((off + t) mod 512)) = off + t) by (clear - Hoff Ht; divlia). rewrite Eo.
      replace (512 * ((off + t) / 512) + Z.of_nat (Z.to_nat ((off + t) mod 512) + Z.to_nat m)) with (off + t + m) by lia.
      replace (o - 512 * ((off + t) / 512) - Z.of_nat (Z.to_nat ((off + t) mod 512))) with (o - (off + t)) by lia.
      destruct ((off + t <=? o) && (o <? off + t + m)) eqn:Ec.
      * rewrite (proj2 (Z.leb_le off o)), (proj2 (Z.ltb_lt o _)) by lia. cbn [andb]. unfold slice. rewrite lookup_take_lt, lookup_drop by lia. do 2 f_equal. lia.
      * rewrite Hold by lia. assert ((off <=? o) && (o <? off + (t + m)) = (off <=? o) && (o <? off + t)) as -> by lia. done.
Qed.
(** *** [writei] *)

(** The source holds the bytes [l], whatever the file system does. *)
Definition source_is (src : source) (l : list Z) : Prop :=
  ∀ k ip t m, fs_frame (set_k_inodes (<[i := ip]> (k_inodes k0)) k0) k → 0 <= t → 0 <= m → t + m <= Z.of_nat (length l) →
    src_bytes src t m k = Ret (slice (Z.to_nat t) (Z.to_nat m) l) k.

Lemma wp_writei_loop ip0 v0 src l off0 n (HS : source_is src l) (Hn : 0 <= n <= Z.of_nat (length l)) (Hoff : 0 <= off0 <= i_size ip0) (Hsz : i_size ip0 <= 140 * 512) (Hend : off0 + n <= 140 * 512) :
  ∀ q fuel tot X k A bl ip (Q : Z → kernel → Prop) R,
  wstate (q + pending ip) X k A bl ip → cs_held A = ∅ → progress ip0 v0 off0 l tot ip (cs_view A) → 0 <= tot <= n → (q <= fuel)%nat →
  (tot < n → ((off0 + tot) mod 512 + (n - tot) + 511) / 512 <= Z.of_nat q) →
  (∀ k' A' bl' ip' X', wstate (pending ip') X' k' A' bl' ip' → cs_held A' = ∅ → X ⊆ X' → progress ip0 v0 off0 l n ip' (cs_view A') → Q (off0 + n) k') →
  wp False (writei_loop fuel i src (off0 + tot) n tot) Q R k.
Proof using Hly Hi dk e.
  induction q as [|q IH]; intros fuel tot X k A bl ip Q R W Hh HP Ht Hq Hc HQ; destruct (decide (tot < n)) as [Hlt|Hge].
  - exfalso. specialize (Hc Hlt). clear - Hc Hlt. divlia.
  - assert (tot = n) as -> by lia. destruct fuel; cbn [writei_loop]; rewrite Z.ltb_irrefl; cbn [negb]; apply wp_ret; by apply (HQ k A bl ip X).
  - specialize (Hc Hlt). destruct fuel as [|fuel]; [lia|]. cbn [writei_loop]. rewrite (proj2 (Z.ltb_lt _ _) Hlt). cbn [negb].
    destruct (ws_fields _ _ _ _ _ _ W) as (_ & _ & Hip & _). apply (wp_ip_at _ i ip); [exact Hip|]. rewrite (fw_dev _ _ _ (ws_wf _ _ _ _ _ _ W)), BSIZE_eq.
    assert (Hbn : 0 <= (off0 + tot) / 512 < 140) by (clear - Hlt Ht Hoff Hend; divlia).
    apply wp_bind. eapply (wp_bmap_ws q X k A bl ip); [exact W|done|exact Hbn|]. intros k1 A1 bl1 ip1 X1 W1 Hh1 M HX Hsame b Hb HbX.
    destruct (slot_of_range _ Hbn) as [Hsr Hs12]. pose proof (slot_home _ _ _ _ _ _ _ W1 Hsr Hb) as Hhome. fold b in Hhome. destruct (ws_fields _ _ _ _ _ _ W1) as (Eio1 & _ & _).
    apply wp_bind. eapply (wp_bread_tx me pid start size); [apply W1|rewrite Eio1; apply Hhome|intros j; by rewrite Hh1|right; by eapply free_room|]. intros bp k2 Hbp H2 F2. cbn zeta.
    set (m := Z.min (n - tot) (512 - (off0 + tot) mod 512)). assert (Hm : 0 < m ∧ 0 <= (off0 + tot) mod 512 ∧ (off0 + tot) mod 512 + m <= 512 ∧ tot + m <= n).
    { pose proof (Z.mod_pos_bound (off0 + tot) 512 ltac:(lia)). unfold m. lia. }
    assert (F2' : fs_frame (set_k_inodes (<[i := ip1]> (k_inodes k0)) k0) k2) by (etrans; [apply W1|exact F2]).
    apply wp_bind. eapply wp_of_Ret; [apply (HS k2 ip1); [exact F2'|lia..]|].
    apply wp_bind. eapply (wp_bdata_tx me pid start size); [exact H2|apply lookup_insert_eq|]. cbn [cs_take cs_view].
    destruct (fs_frame_fields _ _ F2) as (Eio2 & _). eapply wp_update_then; [exact H2|exact Hbp|by rewrite Eio2, Eio1| |].
    { destruct (budget_room _ _ _ _ (ws_budget _ _ _ _ _ _ W1)). split; lia. }
    intros k3 H3 F3. assert (Eu : u32 (off0 + tot + m) = off0 + (tot + m)) by (rewrite u32_small; [lia|change (2 ^ 32) with 4294967296; lia]). rewrite Eu.
    destruct (slot_data sb disksize start size Hly ip1 _ _ (ws_wf _ _ _ _ _ _ W1) Hsr Hb) as (_ & Hbm & _). fold b in Hbm.
    set (x := splice _ _ _) in *. assert (Hx : length x = 512%nat).
    { unfold x. rewrite length_splice; [apply W1|]. rewrite (ws_len _ _ _ _ _ _ W1). unfold slice. rewrite length_take, length_drop. lia. }
    assert (W3 : wstate (q + pending ip1) X1 k3 (cs_update b x A1) (logged_blocks bl1 b) ip1).
    { apply (ws_fset _ _ k1); [exact W1|exact Hbm| |exact Hx|exact HbX|exact H3|by etrans].
      destruct (decide (slot ip1 (cs_view A1) 12 = 0)) as [|E]; [by left|right]. intros E'. apply Hs12. by apply (fw_inj _ _ _ (ws_wf _ _ _ _ _ _ W1) _ 12 Hsr). }
    apply (IH fuel (tot + m) X1 k3 (cs_update b x A1) (logged_blocks bl1 b) ip1); [exact W3|exact Hh1| |lia|lia| |].
    + refine (progress_step ip0 v0 off0 l tot m ip (cs_view A) ip1 (cs_view A1) (ws_wf _ _ _ _ _ _ W) (ws_wf _ _ _ _ _ _ W1) (ws_len _ _ _ _ _ _ W1) Hoff Hsz _ _ _ _ _ HP M Hsame Hb (ws_wf _ _ _ _ _ _ W3)); lia.
    + intros Hlt'. destruct (Z.min_spec (n - tot) (512 - (off0 + tot) mod 512)) as [[? E]|[? E]]; [exfalso; unfold m in Hlt'; lia|].
      assert (Em : m = 512 - (off0 + tot) mod 512) by done. clear - Em Hc Hlt' Hoff Ht. assert (E0 : (off0 + (tot + m)) mod 512 = 0) by divlia. rewrite E0. divlia.
    + intros k' A' bl' ip' X' W' Hh' HX' HP'. apply (HQ k' A' bl' ip' X'); [done|done| |done]. set_solver.
  - assert (tot = n) as -> by lia. destruct fuel; cbn [writei_loop]; rewrite Z.ltb_irrefl; cbn [negb]; apply wp_ret;
      (apply (HQ k A bl ip X); [|done|done|done]); apply (ws_less (S q + pending ip)); (done || lia).
Qed.
(** The block of the inode on the disk, and the inode stored there. *)
Definition inode_block (inum : Z) : Prop := home disksize start size (IBLOCK inum sb) ∧ IBLOCK inum sb < BBLOCK 0 sb.
Definition saved (ip : inode) (v : Z → list Z) : Prop :=
  ∃ d, length d = 512%nat ∧ v (IBLOCK (i_inum ip) sb) = dinode_put ip (dinode_off (i_inum ip)) d.

Lemma inode_block_used v inum : free_ok sb v → inode_block inum → 0 < sb_size sb → BBLOCK 0 sb < sb_size sb → in_use sb v (IBLOCK inum sb) = true.
Proof using Hly Hi dk e.
  intros Hfo [[Hr _] Hlt] Hs Hb. apply not_false_iff_true. intros Hu. destruct (Hfo (IBLOCK inum sb)) as [H _]; [|lia].
  apply free_blocks_in. split; [done|lia].
Qed.

(** The blocks of the file below its size are there. *)
Definition blocks_there (ip : inode) (v : Z → list Z) : Prop := ∀ o, 0 <= o < i_size ip → slot ip v (slot_of (o / 512)) ≠ 0.

Lemma progress_start ip v off l : 0 <= off <= i_size ip → blocks_there ip v → progress ip v off l 0 ip v.
Proof using Hly Hi dk e.
  intros Hoff Hbt. split; [apply extends_refl|done|]. intros o Ho. split; [apply Hbt; lia|]. unfold byte_written.
  assert ((off <=? o) && (o <? off + 0) = false) as -> by lia. done.
Qed.

(** The result of [writei] on the file. *)
Record written (ip : inode) (v : Z → list Z) (off : Z) (l : list Z) (n : Z) (ip' : inode) (v' : Z → list Z) : Prop := mk_written {
  wr_ip : ∃ a, ip' = set_i_size (Z.max (i_size ip) (off + n)) (set_i_addrs a ip);
  wr_there : blocks_there ip' v';
  wr_bytes : ∀ o, 0 <= o < i_size ip' → file_byte ip' v' o = byte_written ip v off l n o;
  wr_use : ∀ x, 0 <= x < sb_size sb → in_use sb v x = true → in_use sb v' x = true;
  wr_slots : ∀ s, 0 <= s < NSLOT → slot ip' v' s ≠ 0 → slot ip' v' s = slot ip v s ∨ in_use sb v (slot ip' v' s) = false;
  wr_others : ∀ x, 0 <= x < sb_size sb → in_use sb v x = true → x ≠ BBLOCK 0 sb → x ≠ IBLOCK (i_inum ip) sb → ¬ (start <= x < start + size) →
    (∀ s, 0 <= s < NSLOT → slot ip v s ≠ 0 → slot ip v s ≠ x) → v' x = v x;
  wr_inodes : ∀ inum, inum mod IPB ≠ i_inum ip mod IPB →
    slice (dinode_off inum) 64 (v' (IBLOCK (i_inum ip) sb)) = slice (dinode_off inum) 64 (v (IBLOCK (i_inum ip) sb));
}.

Lemma extends_slots ip v ip' v' s : extends sb ip v ip' v' → 0 <= s < NSLOT → slot ip' v' s ≠ 0 → slot ip' v' s = slot ip v s ∨ in_use sb v (slot ip' v' s) = false.
Proof using Hly Hi dk e.
  intros X Hs Hn. destruct (decide (slot ip v s = 0)) as [E|E]; [right; by apply (ex_fresh _ _ _ _ _ X)|left; by apply (ex_slot _ _ _ _ _ X)].
Qed.

Lemma iblock_slot ip v s : file_wf sb v ip → inode_block (i_inum ip) → 0 <= s < NSLOT → slot ip v s ≠ 0 → slot ip v s ≠ IBLOCK (i_inum ip) sb.
Proof using Hly Hi dk e. intros W [_ Hlt] Hs Hn E. destruct (fw_slot _ _ _ W s Hs Hn) as [[Hd _] _]. lia. Qed.

Lemma set_i_size_same ip : set_i_size (i_size ip) ip = ip.
Proof using Hly Hi dk e. by destruct ip. Qed.

(** Writing within the file leaves the inode as it is. *)
Lemma written_inside X X' k A bl ip k' A' bl' ip' m off l n : wstate m X k A bl ip → inode_block (i_inum ip) → wstate (pending ip') X' k' A' bl' ip' → progress ip (cs_view A) off l n ip' (cs_view A') →
  0 <= off → 0 <= n → 0 < sb_size sb → BBLOCK 0 sb < sb_size sb → off + n <= i_size ip → ip' = ip ∧ written ip (cs_view A) off l n ip (cs_view A').
Proof using Hly Hi dk e.
  intros W Hib W' [PE PS PB] Ho Hn Hs Hb Hle. specialize (PS Hle) as ->. split; [done|]. pose proof (inode_block_used _ _ (ws_free _ _ _ _ _ _ W) Hib Hs Hb) as Hiu.
  assert (Hiv : cs_view A' (IBLOCK (i_inum ip) sb) = cs_view A (IBLOCK (i_inum ip) sb)).
  { pose proof Hib as [[Hr _] Hlt]. apply (ex_view _ _ _ _ _ PE); [lia|done|lia|]. intros s Hsr Hns. apply iblock_slot; [apply W|exact Hib|done|done]. }
  split.
  - exists (i_addrs ip). rewrite Z.max_l by lia. by destruct ip.
  - intros o Hor. apply PB. lia.
  - intros o Hor. apply PB. lia.
  - exact (ex_use _ _ _ _ _ PE).
  - intros s Hsr Hns. by apply extends_slots.
  - intros x Hr Hu Hbm _ _ Hns. by apply (ex_view _ _ _ _ _ PE).
  - intros inum _. by rewrite Hiv.
Qed.
Lemma ws_set_size n X k A bl ip z : wstate n X k A bl ip → wstate n X (upd_inode i (set_i_size z) k) A bl (set_i_size z ip).
Proof using Hly Hi dk e.
  intros [W1 W2 W3 [F1 F2 F3 F4] W5 W6 W7 W8 W9 W10]. split; try done; [by apply tx_set_inodes|exact (frame_inode (set_i_size z) ip k W2)].
Qed.

(** Writing past the end makes the file longer, and saves the inode. *)
Lemma written_beyond X X' k A bl ip k' A' bl' ip1 m off l n : wstate m X k A bl ip → inode_block (i_inum ip) → length (i_addrs ip) = S NDIRECT → wstate (pending ip1) X' k' A' bl' ip1 →
  progress ip (cs_view A) off l n ip1 (cs_view A') → i_size ip < off + n → off + n <= 140 * 512 → 0 < sb_size sb → BBLOCK 0 sb < sb_size sb →
  let ip2 := set_i_size (off + n) ip1 in
  let v2 := fset (cs_view A') (IBLOCK (i_inum ip) sb) (dinode_put ip2 (dinode_off (i_inum ip)) (cs_view A' (IBLOCK (i_inum ip) sb))) in
  written ip (cs_view A) off l n ip2 v2 ∧ saved ip2 v2.
Proof using Hly Hi dk e.
  intros W Hib Hla W' [PE _ PB] Hgt Hmax Hs Hb ip2 v2. pose proof (inode_block_used _ _ (ws_free _ _ _ _ _ _ W) Hib Hs Hb) as Hiu. set (ib := IBLOCK (i_inum ip) sb) in *.
  pose proof (ws_wf _ _ _ _ _ _ W') as Hwf'. destruct (ex_ip _ _ _ _ _ PE) as (a & E1). assert (Hin : i_inum ip1 = i_inum ip) by (by rewrite E1). assert (Hsz : i_size ip1 = i_size ip) by (by rewrite E1).
  pose proof Hib as [[Hr _] Hlt]. fold ib in Hr, Hlt. assert (Hib1 : inode_block (i_inum ip1)) by (by rewrite Hin).
  assert (Hne : ∀ s, 0 <= s < NSLOT → slot ip1 (cs_view A') s ≠ 0 → slot ip1 (cs_view A') s ≠ ib).
  { intros s Hsr Hn. pose proof (iblock_slot ip1 _ s Hwf' Hib1 Hsr Hn) as H. by rewrite Hin in H. }
  assert (Hsl : ∀ s, slot ip2 v2 s = slot ip1 (cs_view A') s).
  { intros s. change (slot ip2 v2 s) with (slot ip1 v2 s). apply slot_fset. destruct (decide (slot ip1 (cs_view A') 12 = 0)) as [|E]; [by left|right]. apply not_eq_sym, Hne; [unfold NSLOT; lia|done]. }
  assert (Hiv : cs_view A' ib = cs_view A ib).
  { apply (ex_view _ _ _ _ _ PE); [lia|done|lia|]. intros s Hsr Hns. by apply iblock_slot; [apply W|..]. }
  assert (Hfb : ∀ o, 0 <= o < off + n → slot ip1 (cs_view A') (slot_of (o / 512)) ≠ 0 → file_byte ip2 v2 o = file_byte ip1 (cs_view A') o).
  { intros o Ho Hn. destruct (slot_of_range (o / 512) ltac:(clear - Ho Hmax; divlia)) as [Hsr _]. rewrite !file_byte_slot by (lia || by rewrite ?Hsl). rewrite Hsl. unfold v2. rewrite fset_ne; [done|]. by apply Hne. }
  split.
  - split.
    + exists a. rewrite Z.max_r by lia. unfold ip2. by rewrite E1.
    + intros o Ho. change (i_size ip2) with (off + n) in Ho. rewrite Hsl. apply PB. lia.
    + intros o Ho. change (i_size ip2) with (off + n) in Ho. destruct (PB o ltac:(lia)) as [Hn Hby]. by rewrite Hfb.
    + intros x Hx Hu. unfold v2. rewrite in_use_fset by (done || lia). by apply (ex_use _ _ _ _ _ PE).
    + intros s Hsr. rewrite Hsl. intros Hns. by apply extends_slots.
    + intros x Hx Hu Hbm Hxi _ Hns. unfold v2. rewrite fset_ne by done. by apply (ex_view _ _ _ _ _ PE).
    + intros inum Hne'. fold ib. unfold v2. rewrite fset_eq, Hiv. pose proof (dinode_off_fits (i_inum ip)). pose proof (dinode_off_fits inum). apply dinode_put_other.
      * unfold ip2. cbn [i_addrs set_i_size]. apply Hwf'.
      * by rewrite (ws_len _ _ _ _ _ _ W).
      * unfold dinode_off, IPB, BSIZE in *. change (512 / 64) with 8 in *. pose proof (Z.mod_pos_bound inum 8). pose proof (Z.mod_pos_bound (i_inum ip) 8). lia.
  - exists (cs_view A' ib). split; [apply W'|]. change (i_inum ip2) with (i_inum ip1). rewrite Hin. fold ib. unfold v2. by rewrite fset_eq.
Qed.
(** The blocks a write touches. *)
Definition touched (off n : Z) : nat := Z.to_nat ((off mod 512 + n + 511) / 512).

Lemma wp_writei X k A bl ip src l off n (Q : Z → kernel → Prop) R :
  wstate (touched off n + pending ip) X k A bl ip → cs_held A = ∅ → source_is src l → blocks_there ip (cs_view A) → saved ip (cs_view A) → i_type ip ≠ T_DEV →
  inode_block (i_inum ip) → IBLOCK (i_inum ip) sb ∈ X → 0 < sb_size sb → BBLOCK 0 sb < sb_size sb →
  0 <= off <= i_size ip → i_size ip <= 140 * 512 → 0 <= n <= Z.of_nat (length l) → off + n <= 140 * 512 →
  (∀ k' A' bl' ip' X', wstate (pending ip') X' k' A' bl' ip' → cs_held A' = ∅ → written ip (cs_view A) off l n ip' (cs_view A') → saved ip' (cs_view A') → Q n k') →
  wp False (writei i src off n) Q R k.
Proof using Hly Hi dk e.
  intros W Hh HS Hbt Hsv Hty Hib HibX Hs Hb Hoff Hsz Hn Hmax HQ. pose proof (ws_wf _ _ _ _ _ _ W) as Hwf. destruct (ws_fields _ _ _ _ _ _ W) as (_ & _ & Hip & _).
  unfold writei. apply (wp_ip_at _ i ip); [exact Hip|]. rewrite (proj2 (Z.eqb_neq _ _) Hty).
  assert (Eu : u32 (off + n) = off + n) by (apply u32_small; change (2 ^ 32) with 4294967296; lia). rewrite Eu.
  rewrite !(proj2 (Z.ltb_ge _ _)) by (lia || (change (MAXFILE * BSIZE) with 71680; lia)). cbn [orb]. rewrite BSIZE_eq.
  assert (Es : s32 n = n) by (apply s32_small; change (2 ^ 31) with 2147483648; lia). rewrite Es.
  assert (Ht : Z.of_nat (touched off n) = (off mod 512 + n + 511) / 512) by (unfold touched; rewrite Z2Nat.id; [done|clear - Hoff Hn; divlia]).
  apply wp_bind. replace off with (off + 0) at 1 by lia.
  eapply (wp_writei_loop ip (cs_view A) src l off n HS Hn Hoff Hsz Hmax (touched off n)); [exact W|exact Hh|by apply progress_start|lia| | |].
  { clear - Ht Hoff Hn. enough (Z.of_nat (touched off n) <= n / 512 + 2) by (assert (0 <= n / 512) by (apply Z.div_pos; lia); lia). rewrite Ht. divlia. }
  { intros _. rewrite Z.add_0_r, Z.sub_0_r, Ht. done. }
  intros k1 A1 bl1 ip1 X1 W1 Hh1 HX1 HP. destruct (ws_fields _ _ _ _ _ _ W1) as (Eio1 & Esb1 & Hip1 & _). apply (wp_ip_at _ i ip1); [exact Hip1|].
  destruct (ex_ip _ _ _ _ _ (pg_ext _ _ _ _ _ _ _ HP)) as (a & E1). assert (Hsz1 : i_size ip1 = i_size ip) by (by rewrite E1). assert (Hin1 : i_inum ip1 = i_inum ip) by (by rewrite E1). rewrite Hsz1.
  destruct (decide (off + n <= i_size ip)) as [Hle|Hgt].
  - rewrite (proj2 (Z.ltb_ge (i_size ip) (off + n))) by lia. rewrite andb_false_r. cbn [when]. apply wp_bind, wp_ret, wp_ret.
    destruct (written_inside X X1 k A bl ip k1 A1 bl1 ip1 _ off l n W Hib W1 HP ltac:(lia) ltac:(lia) Hs Hb Hle) as [-> Hw]. apply (HQ k1 A1 bl1 ip X1); [done..|].
    destruct Hsv as (d & Hd & E). exists d. split; [done|]. rewrite <- E. pose proof (pg_ext _ _ _ _ _ _ _ HP) as PE. pose proof Hib as [[Hr _] Hlt].
    apply (ex_view _ _ _ _ _ PE); [lia|by apply inode_block_used; [apply W|..]|lia|]. intros s Hsr Hns. by apply iblock_slot.
  - rewrite (proj2 (Z.ltb_lt (i_size ip) (off + n))), (proj2 (Z.ltb_lt 0 n)) by lia. cbn [andb when]. apply wp_bind, wp_bind, wp_modify.
    pose proof (ws_set_size _ _ _ _ _ _ (off + n) W1) as W2. set (ip2 := set_i_size (off + n) ip1) in *. set (k2 := upd_inode i _ k1) in *.
    destruct (ws_fields _ _ _ _ _ _ W2) as (Eio2 & Esb2 & Hip2 & _). pose proof (budget_room _ _ _ _ (ws_budget _ _ _ _ _ _ W2)) as [Hr1 Hr2].
    assert (Eib : IBLOCK (i_inum ip2) (k_sb k2) = IBLOCK (i_inum ip) sb) by (rewrite Esb2; unfold ip2; cbn [i_inum set_i_size]; by rewrite Hin1).
    eapply wp_iupdate; rewrite ?Eib, ?Eio2; [apply W2|exact Hip2|exact (fw_dev _ _ _ (ws_wf _ _ _ _ _ _ W2))|apply Hib|intros j; by rewrite Hh1|by eapply free_room|split; lia|].
    intros k3 H3 F3. apply wp_ret. destruct (written_beyond X X1 k A bl ip k1 A1 bl1 ip1 _ off l n W Hib (fw_len _ _ _ Hwf) W1 HP ltac:(lia) Hmax Hs Hb) as [Hw Hsv2]. fold ip2 in Hw, Hsv2.
    change (i_inum ip2) with (i_inum ip1) in *. rewrite Hin1 in *. change (pending ip1) with (pending ip2) in W2.
    match type of H3 with intx _ _ _ _ _ ?A3 ?bl3 => apply (HQ k3 A3 bl3 ip2 X1); [|exact Hh1|exact Hw|exact Hsv2] end. pose proof (dinode_off_fits (i_inum ip)). destruct Hib as [_ Hlt].
    apply (ws_fset _ _ k2); [exact W2|lia| | |by apply HX1|exact H3|exact F3].
    + destruct (decide (slot ip2 (cs_view A1) 12 = 0)) as [|E]; [by left|right]. intros E'. destruct (fw_slot _ _ _ (ws_wf _ _ _ _ _ _ W2) 12 ltac:(unfold NSLOT; lia) E) as [[Hd _] _]. lia.
    + unfold ip2. rewrite length_dinode_put; [apply W1|exact (fw_len _ _ _ (ws_wf _ _ _ _ _ _ W1))|rewrite (ws_len _ _ _ _ _ _ W1); lia].
Qed.
End write.

(** ** A file of the file system *)

(** Inside a transaction, no buffer held: the inode [i] of the cache is the
    file [ip], saved on the disk; its blocks are allocated, and free blocks
    are data blocks. *)
Record open_file (me : nat) (pid start size : Z) (k : kernel) (A : cstate) (bl : list Z) (i : nat) (ip : inode) : Prop := mk_open_file {
  of_tx : intx me pid start size k A bl;
  of_ip : k_inodes k !! i = Some ip;
  of_layout : layout (k_sb k) (io_disksize (k_io k)) start size;
  of_data : BBLOCK 0 (k_sb k) < sb_size (k_sb k);
  of_held : cs_held A = ∅;
  of_len : ∀ b, length (cs_view A b) = 512%nat;
  of_wf : file_wf (k_sb k) (cs_view A) ip;
  of_free : free_ok (k_sb k) (cs_view A);
  of_there : blocks_there ip (cs_view A);
  of_saved : saved k ip (cs_view A);
  of_iblock : inode_block start size k (i_inum ip);
  of_type : i_type ip ≠ T_DEV;
  of_size : 0 <= i_size ip <= MAXFILE * BSIZE;
}.

Section open.
Variables (me : nat) (pid start size : Z).
Notation open k A bl i ip := (open_file me pid start size k A bl i ip).

Lemma open_sb k A bl i ip : open k A bl i ip → 0 < sb_size (k_sb k).
Proof using. intros O. pose proof (of_data _ _ _ _ _ _ _ _ _ O). destruct (ly_bitmap _ _ _ _ (of_layout _ _ _ _ _ _ _ _ _ O)) as [? _]. lia. Qed.

(** Three blocks besides those of the file can enter the log: the bitmap, the
    inode's and the indirect block. *)
Lemma open_wstate k A bl i ip e n : open k A bl i ip → (e + n <= length (free_blocks (k_sb k) (cs_view A)))%nat → log_room size (4 + n) bl →
  wstate me pid start size (cs_disk A) e k i n {[BBLOCK 0 (k_sb k); IBLOCK (i_inum ip) (k_sb k); slot ip (cs_view A) 12]} k A bl ip.
Proof using.
  intros O Hf [H1 H2]. set (X := {[_; _; _]}). assert (HX : (base.size (X ∖ list_to_set bl) <= 3)%nat).
  { etrans; [apply (subseteq_size _ X); set_solver|]. unfold X. rewrite !size_union_alt, !size_singleton.
    pose proof (subseteq_size ({[IBLOCK (i_inum ip) (k_sb k)]} ∖ {[BBLOCK 0 (k_sb k)]}) ({[IBLOCK (i_inum ip) (k_sb k)]} : gset Z) ltac:(set_solver)) as S1.
    pose proof (subseteq_size ({[slot ip (cs_view A) 12]} ∖ ({[BBLOCK 0 (k_sb k)]} ∪ {[IBLOCK (i_inum ip) (k_sb k)]})) ({[slot ip (cs_view A) 12]} : gset Z) ltac:(set_solver)) as S2.
    rewrite size_singleton in S1, S2. lia. }
  destruct O. split; try done; [|split; lia|set_solver|set_solver].
  rewrite list_insert_id by done. by replace (set_k_inodes (k_inodes k) k) with k by (by destruct k).
Qed.

Lemma open_file_ok k A bl i ip : open k A bl i ip → file_ok (io_disksize (k_io k)) A ip.
Proof using.
  intros O. pose proof (of_layout _ _ _ _ _ _ _ _ _ O) as Hly. pose proof (of_wf _ _ _ _ _ _ _ _ _ O) as W. pose proof (of_size _ _ _ _ _ _ _ _ _ O) as Hsz. change (MAXFILE * BSIZE) with 71680 in Hsz.
  assert (Hs : ∀ bn, 0 <= bn → bn * 512 < i_size ip → slot ip (cs_view A) (slot_of bn) ≠ 0).
  { intros bn H0 Hlt. pose proof (of_there _ _ _ _ _ _ _ _ _ O (bn * 512) ltac:(lia)) as H. by rewrite Z.div_mul in H. }
  assert (Hb : ∀ s, 0 <= s < NSLOT → slot ip (cs_view A) s ≠ 0 → 0 <= slot ip (cs_view A) s < io_disksize (k_io k)).
  { intros s Hsr Hn. by destruct (data_home _ _ _ _ Hly _ (proj1 (fw_slot _ _ _ W s Hsr Hn))) as [[? _] _]. }
  split; [apply W|apply W|exact (of_size _ _ _ _ _ _ _ _ _ O)| |].
  - intros bn H0 Hlt. rewrite BSIZE_eq in Hlt. specialize (Hs bn H0 Hlt). rewrite slot_file_block by done. cbv zeta. split; [done|]. split; [apply Hb; [|done]|].
    + apply (slot_of_range bn). lia.
    + split; [|apply O]. intros j. by rewrite (of_held _ _ _ _ _ _ _ _ _ O).
  - rewrite BSIZE_eq. intros Hlt. assert (H12 : slot ip (cs_view A) 12 ≠ 0) by (apply (slot_indirect _ _ (slot_of 12)); [done|apply Hs; lia]).
    rewrite slot_12 in H12. cbv zeta. split; [done|]. split; [apply (Hb 12); [unfold NSLOT; lia|done]|]. intros j. by rewrite (of_held _ _ _ _ _ _ _ _ _ O).
Qed.

(** [writei] on every branch. *)
Lemma writei_fails k A bl i ip src off n : open k A bl i ip → 0 <= off < 2 ^ 32 → 0 <= n < 2 ^ 32 → i_size ip < off ∨ MAXFILE * BSIZE < off + n →
  writei i src off n k = Ret (-1) k.
Proof using.
  intros O Ho Hn H. unfold writei. rewrite (bind_ip_at i ip) by apply O. rewrite (proj2 (Z.eqb_neq _ _) (of_type _ _ _ _ _ _ _ _ _ O)), u32_wraps by done.
  destruct (Z.ltb_spec (i_size ip) off) as [|Hle]; [done|]. destruct (Z.leb_spec (2 ^ 32) (off + n)) as [|Hlt]; [done|]. cbn [orb]. rewrite u32_small by lia.
  by rewrite (proj2 (Z.ltb_lt (MAXFILE * BSIZE) (off + n))) by lia.
Qed.

Lemma source_local k i l : source_is k i (FromLocal l) l.
Proof using. intros k' ip t m _ _ _ H. unfold src_bytes. by rewrite (proj2 (Z.leb_le _ _)). Qed.

Lemma writei_run k A bl i ip e src l off n : open k A bl i ip → source_is k i src l → 0 <= off <= i_size ip → 0 <= n <= Z.of_nat (length l) → off + n <= MAXFILE * BSIZE →
  (e + (touched off n + pending ip) <= length (free_blocks (k_sb k) (cs_view A)))%nat → log_room size (4 + (touched off n + pending ip)) bl →
  ∃ k' A' bl' ip', writei i src off n k = Ret n k' ∧ open k' A' bl' i ip' ∧ fs_frame (set_k_inodes (<[i := ip']> (k_inodes k)) k) k' ∧ written start size k ip (cs_view A) off l n ip' (cs_view A') ∧ cs_disk A' = cs_disk A ∧ (e <= length (free_blocks (k_sb k) (cs_view A')))%nat.
Proof using.
  intros O HS Ho Hn Hmax Hf Hr. pose proof (of_layout _ _ _ _ _ _ _ _ _ O) as Hly. pose proof (lookup_lt_Some _ _ _ (of_ip _ _ _ _ _ _ _ _ _ O)) as Hi.
  pose proof (of_size _ _ _ _ _ _ _ _ _ O) as Hsz. change (MAXFILE * BSIZE) with 71680 in *.
  assert (Hwp : wp False (writei i src off n) (λ r k', r = n ∧ ∃ A' bl' ip', open k' A' bl' i ip' ∧ fs_frame (set_k_inodes (<[i := ip']> (k_inodes k)) k) k' ∧
    written start size k ip (cs_view A) off l n ip' (cs_view A') ∧ cs_disk A' = cs_disk A ∧ (e <= length (free_blocks (k_sb k) (cs_view A')))%nat) (λ _ _, False) k).
  { eapply (wp_writei me pid start size (cs_disk A) e k i Hly Hi); [by apply open_wstate|apply O|exact HS|apply O|apply O|apply O|apply O|set_solver|by eapply open_sb|apply O|done|lia|done|lia|].
    intros k' A' bl' ip' X' W' Hh' Hw Hsv. split; [done|]. exists A', bl', ip'. split; [|split; [apply W'|split; [done|split; [apply W'|pose proof (ws_count _ _ _ _ _ _ _ _ _ _ _ _ _ _ W'); lia]]]].
    destruct (ws_fields me pid start size (cs_disk A) e k i Hly Hi _ _ _ _ _ _ W') as (Eio & Esb & Eip & _). destruct (wr_ip _ _ _ _ _ _ _ _ _ _ Hw) as (a & E).
    assert (Ein : i_inum ip' = i_inum ip) by (by rewrite E). assert (Ety : i_type ip' = i_type ip) by (by rewrite E). assert (Esz : i_size ip' = Z.max (i_size ip) (off + n)) by (by rewrite E).
    destruct W', O. split; rewrite ?Eio, ?Esb; try done.
    - destruct Hw; done.
    - destruct Hsv as (d & Hd & Ed). exists d. split; [done|]. by rewrite Esb.
    - unfold inode_block. rewrite Ein, Eio, Esb. done.
    - by rewrite Ety.
    - rewrite Esz. change (MAXFILE * BSIZE) with 71680. lia. }
  destruct (wp_False_inv _ _ _ _ Hwp) as [(r & k' & E & -> & A' & bl' & ip' & H)|(c & k' & _ & [])]. by exists k', A', bl', ip'.
Qed.

(** The bytes just written. *)
Lemma written_bytes k ip v off l n ip' v' : written start size k ip v off l n ip' v' → 0 <= off → 0 <= n <= Z.of_nat (length l) → file_bytes ip' v' off (Z.to_nat n) = take (Z.to_nat n) l.
Proof using.
  intros Hw Ho Hn. destruct (wr_ip _ _ _ _ _ _ _ _ _ _ Hw) as (a & E). assert (Esz : i_size ip' = Z.max (i_size ip) (off + n)) by (by rewrite E).
  unfold file_bytes. apply list_eq. intros j. rewrite list_lookup_fmap. destruct (decide (j < Z.to_nat n)%nat) as [Hj|Hj].
  - rewrite lookup_seq_lt, lookup_take_lt by done. cbn [fmap option_fmap option_map]. rewrite (wr_bytes _ _ _ _ _ _ _ _ _ _ Hw) by lia. unfold byte_written.
    rewrite (proj2 (Z.leb_le _ _)), (proj2 (Z.ltb_lt _ _)) by lia. cbn [andb]. replace (Z.to_nat (off + Z.of_nat (0 + j) - off)) with j by lia.
    destruct (lookup_lt_is_Some_2 l j) as [x Hx]; [lia|]. by rewrite Hx.
  - rewrite lookup_seq_ge, lookup_take_ge by lia. done.
Qed.

Lemma pending_le ip : (pending ip <= 1)%nat.
Proof using. unfold pending. destruct (_ =? 0); lia. Qed.
End open.
