(* ===== verification/Mkfs.v ===== *)
(** * Mkfs: building the file system image (mkfs.c)

    The host tool that writes the disk image the kernel starts from: the
    superblock, one inode per file given on the command line, the root
    directory that names them, and the free bitmap. The image file is a map
    from sectors to blocks; what the host's files hold is an argument. *)

From S2P Require Import Prelude CString Kernel Sched Kalloc Fifo Paging Vmem Cons Sleeplock Bio Log Inode Fs.

(** ** Definitions *)
Definition NINODES : Z := 200.
Definition nbitmap : Z := FSSIZE / (BSIZE * 8) + 1.
Definition ninodeblocks : Z := NINODES / IPB + 1.
Definition nlog : Z := LOGSIZE.
Definition nmeta : Z := 2 + nlog + ninodeblocks + nbitmap.
Definition nblocks : Z := FSSIZE - nmeta.
Definition zeroes : list Z := replicate (Z.to_nat BSIZE) 0.

(** The image file with its length in sectors, and the two counters. *)
Record mkfs_t := mk_mkfs_t {
  mk_img : Z → list Z;
  mk_len : Z;
  mk_freeinode : Z;
  mk_freeblock : Z;
}.
Definition set_mk_img (v : Z → list Z) (r : mkfs_t) : mkfs_t := mk_mkfs_t v (mk_len r) (mk_freeinode r) (mk_freeblock r).
Definition set_mk_len (v : Z) (r : mkfs_t) : mkfs_t := mk_mkfs_t (mk_img r) v (mk_freeinode r) (mk_freeblock r).
Definition set_mk_freeinode (v : Z) (r : mkfs_t) : mkfs_t := mk_mkfs_t (mk_img r) (mk_len r) v (mk_freeblock r).
Definition set_mk_freeblock (v : Z) (r : mkfs_t) : mkfs_t := mk_mkfs_t (mk_img r) (mk_len r) (mk_freeinode r) v.

(** [exit(1)] and a failed [assert] end the tool: they are panics. *)
Notation MK := (M mkfs_t unit).

(** The bytes in Intel order, read back as an integer of the Intel host. *)
Definition xshort (x : Z) : Z := le_val (le_bytes 2 x).
Definition xint (x : Z) : Z := le_val (le_bytes 4 x).

(** [sec * BSIZE] is an [unsigned] product. *)
Definition sector (sec : Z) : Z := u32 (sec * BSIZE) / BSIZE.
Definition wsect (sec : Z) (buf : list Z) : MK unit :=
  let x := sector sec in
  modify (λ s, set_mk_len (Z.max (mk_len s) (x + 1)) (set_mk_img (λ b, if b =? x then buf else mk_img s b) s)).
Definition rsect (sec : Z) : MK (list Z) :=
  s <- gets (λ s, s) ;;
  if mk_len s <=? sector sec then panic "read" else mret (mk_img s (sector sec)).

Definition mkfs_sb : superblock :=
  mk_superblock (xint FSSIZE) (xint nblocks) (xint NINODES) (xint nlog) (xint 2) (xint (2 + nlog)) (xint (2 + nlog + ninodeblocks)).
Definition sb_bytes (sb : superblock) : list Z :=
  concat (le_bytes 4 <$> [sb_size sb; sb_nblocks sb; sb_ninodes sb; sb_nlog sb; sb_logstart sb; sb_inodestart sb; sb_bmapstart sb]).

(** A [struct dinode] is an [inode] whose fields outside the disk are unused. *)
Definition winode (inum : Z) (ip : inode) : MK unit :=
  let bn := IBLOCK inum mkfs_sb in
  buf <- rsect bn ;;
  wsect bn (dinode_put ip (dinode_off inum) buf).
Definition rinode (inum : Z) : MK inode :=
  let bn := IBLOCK inum mkfs_sb in
  buf <- rsect bn ;;
  mret (dinode_load (dinode_off inum) buf inode0).

Definition ialloc (type : Z) : MK Z :=
  inum <- gets mk_freeinode ;;
  modify (set_mk_freeinode (u32 (inum + 1))) ;;
  let din := set_i_size (xint 0) (set_i_nlink (s16 (xshort 1)) (set_i_type (s16 (xshort type)) inode0)) in
  winode inum din ;;
  mret inum.

(** [freeblock++] *)
Definition next_block : MK Z :=
  b <- gets mk_freeblock ;;
  modify (set_mk_freeblock (u32 (b + 1))) ;;
  mret b.

(** Sets the bits of the first [used] blocks. *)
Definition balloc (used : Z) : MK unit :=
  if negb (used <? BSIZE * 8) then panic "assert" else
  wsect (sb_bmapstart mkfs_sb) (foldl (λ buf i, bit_put i true buf) zeroes (seqZ 0 used)).

(** The block of [iappend] at [fbn], allocated if there is none. *)
Definition iappend_block (fbn : Z) (din : inode) : MK (Z * inode) :=
  if fbn <? Z.of_nat NDIRECT then
    let j := Z.to_nat fbn in
    din <- (if xint (default 0 (i_addrs din !! j)) =? 0
            then b <- next_block ;; mret (set_i_addrs (<[j := xint b]> (i_addrs din)) din) else mret din) ;;
    mret (xint (default 0 (i_addrs din !! j)), din)
  else
    let j := (4 * Z.to_nat (fbn - Z.of_nat NDIRECT))%nat in
    din <- (if xint (default 0 (i_addrs din !! NDIRECT)) =? 0
            then b <- next_block ;; mret (set_i_addrs (<[NDIRECT := xint b]> (i_addrs din)) din) else mret din) ;;
    indirect <- rsect (xint (default 0 (i_addrs din !! NDIRECT))) ;;
    indirect <- (if get32 j indirect =? 0
                 then b <- next_block ;;
                      let indirect := put32 j (xint b) indirect in
                      wsect (xint (default 0 (i_addrs din !! NDIRECT))) indirect ;; mret indirect
                 else mret indirect) ;;
    mret (xint (get32 j indirect), din).

(** The loop over the [n] bytes left; it returns the inode and the offset. *)
Fixpoint iappend_loop (fuel : nat) (p : list Z) (din : inode) (off : Z) : MK (inode * Z) :=
  match p with
  | [] => mret (din, off)
  | _ =>
    match fuel with
    | O => fault "iappend: out of fuel"
    | S fuel =>
        let fbn := off / BSIZE in
        if negb (fbn <? MAXFILE) then panic "assert" else
        '(x, din) <- iappend_block fbn din ;;
        let n1 := Z.to_nat (Z.min (Z.of_nat (length p)) ((fbn + 1) * BSIZE - off)) in
        buf <- rsect x ;;
        wsect x (splice (Z.to_nat (off - fbn * BSIZE)) (take n1 p) buf) ;;
        iappend_loop fuel (drop n1 p) din (u32 (off + Z.of_nat n1))
    end
  end.
Definition iappend (inum : Z) (p : list Z) : MK unit :=
  din <- rinode inum ;;
  '(din, off) <- iappend_loop (length p) p din (xint (i_size din)) ;;
  winode inum (set_i_size (xint off) din).

(** A [struct dirent]; [strcpy] and [strncpy] into a zeroed name. *)
Definition mk_dirent (inum : Z) (name : list Z) : list Z :=
  le_bytes 2 (xshort inum) ++ strncpy_result name DIRSIZ.

(** One file of the command line: its name, and what the calls of [read]
    return, [None] when the host cannot open it. *)
Definition skip_underscore (name : list Z) : list Z :=
  match name with 95 :: name' => name' | _ => name end.
Definition mkfs_file (rootino : Z) (arg : list Z * option (list (list Z))) : MK unit :=
  let '(name, reads) := arg in
  if bool_decide (47 ∈ name) then panic "assert" else
  match reads with
  | None => panic "open"
  | Some reads =>
      inum <- ialloc T_FILE ;;
      iappend rootino (mk_dirent inum (skip_underscore name)) ;;
      mfor reads (iappend inum)
  end.

(** [main] with the arguments after the image's name. *)
Definition mkfs (args : list (list Z * option (list (list Z)))) : MK unit :=
  modify (set_mk_freeblock nmeta) ;;
  mfor (seqZ 0 FSSIZE) (λ i, wsect i zeroes) ;;
  wsect 1 (splice 0 (sb_bytes mkfs_sb) zeroes) ;;
  rootino <- ialloc T_DIR ;;
  if negb (rootino =? ROOTINO) then panic "assert" else
  iappend rootino (mk_dirent rootino [46]) ;;
  iappend rootino (mk_dirent rootino [46; 46]) ;;
  mfor args (mkfs_file rootino) ;;
  din <- rinode rootino ;;
  let off := xint (i_size din) in
  winode rootino (set_i_size (xint (u32 ((off / BSIZE + 1) * BSIZE))) din) ;;
  b <- gets mk_freeblock ;;
  balloc b.

(** The image file just created. *)
Definition mkfs0 : mkfs_t := mk_mkfs_t (λ _, zeroes) 0 1 0.

(** Two small files and the image's contents. *)
Example mkfs_run :
  let name := [115; 104] in
  match mkfs [(95 :: name, Some [replicate 512 7; [1; 2; 3]]); ([97], Some [])] mkfs0 with
  | Ret tt s => get32 8 (mk_img s 32) = 0 ∧ get32 (64 + 8) (mk_img s 32) = 512 ∧ get32 (128 + 8) (mk_img s 32) = 515 ∧
      slice 32 16 (mk_img s 59) = [2; 0] ++ name ++ replicate 12 0 ∧ mk_img s 60 = replicate 512 7 ∧ take 3 (mk_img s 61) = [1; 2; 3] ∧
      mk_freeblock s = 62 ∧ take 9 (mk_img s 58) = replicate 7 255 ++ [63; 0]
  | _ => False
  end.
Proof. vm_compute. repeat split. Qed.
