(* ===== verification/MkfsSpec.v ===== *)
(** * MkfsSpec: what the image holds

    Each file of the image is a list of bytes over blocks of its own, the last
    one padded with zeros; [iappend] extends it, taking the next free blocks.
    [mkfs] ends with an image whose inodes, directory and bitmap describe
    exactly the files it was given. *)

From S2P Require Import Prelude CString Kernel Sched Sock Kalloc Fifo Paging Vmem Cons Kbd Sleeplock LockSpec Bio BioSpec Log LogSpec.
From S2P Require Import Console Inode BlockSpec Fs FileSpec Mkfs.

(** ** Definitions *)

(** A file of the image: its bytes, its blocks in order, its indirect block. *)
Record ifile := mk_ifile { if_type : Z; if_data : list Z; if_blocks : list Z; if_ind : Z }.

Definition addrs_of (f : ifile) : list Z := ((λ j, default 0 (if_blocks f !! j)) <$> seq 0 12) ++ [if_ind f].
Definition owned (f : ifile) : list Z := if_blocks f ++ (if if_ind f =? 0 then [] else [if_ind f]).
Definition block_at (data : list Z) (bn : nat) : list Z := take 512 (drop (512 * bn) data ++ replicate 512 0).

(** The blocks of [f] hold its bytes, the indirect block its later addresses. *)
Record body_ok (D : Z → list Z) (f : ifile) : Prop := mk_body_ok {
  bo_room : (length (if_data f) <= 512 * length (if_blocks f))%nat;
  bo_max : (length (if_blocks f) <= 140)%nat;
  bo_ind : (12 < length (if_blocks f))%nat → if_ind f ≠ 0;
  bo_words : if_ind f ≠ 0 → ∀ j, (j < 128)%nat → get32 (4 * j) (D (if_ind f)) = default 0 (if_blocks f !! (12 + j)%nat);
  bo_data : ∀ bn b, if_blocks f !! bn = Some b → D b = block_at (if_data f) bn;
}.

(** No block more than the bytes need. *)
Definition tight (f : ifile) : Prop :=
  (512 * length (if_blocks f) < length (if_data f) + 512)%nat ∧ (if_ind f = 0 ↔ (length (if_blocks f) <= 12)%nat).

(** The data blocks of the image: who owns which, the others zero. *)
Record alloc_ok (s : mkfs_t) (fs : list ifile) : Prop := mk_alloc_ok {
  ao_len : mk_len s = FSSIZE;
  ao_free : mk_freeblock s = nmeta + Z.of_nat (length (concat (owned <$> fs)));
  ao_fits : mk_freeblock s <= FSSIZE;
  ao_range : Forall (λ b, nmeta <= b < mk_freeblock s) (concat (owned <$> fs));
  ao_nodup : NoDup (concat (owned <$> fs));
  ao_zero : ∀ b, mk_freeblock s <= b < FSSIZE → mk_img s b = zeroes;
  ao_size : ∀ b, 0 <= b < FSSIZE → length (mk_img s b) = 512%nat;
  ao_bodies : ∀ i f, fs !! i = Some f → body_ok (mk_img s) f;
}.

(** ** Machine details *)
Lemma xint_id x : 0 <= x < 2 ^ 32 → xint x = x.
Proof. intros H. unfold xint. rewrite le_val_le_bytes. by apply Z.mod_small. Qed.

Lemma FSSIZE_eq : FSSIZE = 1000.
Proof. reflexivity. Qed.
Lemma nmeta_eq : nmeta = 59.
Proof. reflexivity. Qed.

Lemma sector_id x : 0 <= x <= FSSIZE → sector x = x.
Proof. rewrite FSSIZE_eq. intros H. unfold sector. change BSIZE with 512. rewrite u32_small by (change (2 ^ 32) with 4294967296; lia). divlia. Qed.

Lemma rsect_eq s x : mk_len s = FSSIZE → 0 <= x < FSSIZE → rsect x s = Ret (mk_img s x) s.
Proof. intros Hl Hx. unfold rsect. rewrite bind_gets, sector_id, Hl by lia. by rewrite (proj2 (Z.leb_gt _ _)) by lia. Qed.

(** The image after a write of the block [x]. *)
Definition write_img (x : Z) (buf : list Z) (s : mkfs_t) : mkfs_t := set_mk_img (fset (mk_img s) x buf) s.

Lemma wsect_eq s x buf : mk_len s = FSSIZE → 0 <= x < FSSIZE → wsect x buf s = Ret tt (write_img x buf s).
Proof.
  intros Hl Hx. unfold wsect, modify. rewrite sector_id by lia. f_equal. unfold write_img, set_mk_len, set_mk_img, fset. cbn. by rewrite Z.max_l by lia.
Qed.

Lemma next_block_eq s : 0 <= mk_freeblock s < FSSIZE → next_block s = Ret (mk_freeblock s) (set_mk_freeblock (mk_freeblock s + 1) s).
Proof. rewrite FSSIZE_eq. intros H. unfold next_block. rewrite bind_gets, bind_modify, u32_small by (change (2 ^ 32) with 4294967296; lia). done. Qed.

(** ** Who owns which block *)
Lemma concat_at {A B} (g : A → list B) l i x : l !! i = Some x → concat (g <$> l) ≡ₚ g x ++ concat (g <$> take i l ++ drop (S i) l).
Proof.
  intros H. rewrite <- (take_drop_middle l i x H) at 1. rewrite !fmap_app, fmap_cons, !concat_app, concat_cons. rewrite Permutation_app_swap_app. done.
Qed.

Lemma concat_set {A B} (g : A → list B) l i x y : l !! i = Some x → concat (g <$> <[i := y]> l) ≡ₚ g y ++ concat (g <$> take i l ++ drop (S i) l).
Proof.
  intros H. pose proof (lookup_lt_Some _ _ _ H). rewrite (concat_at g (<[i := y]> l) i y) by (by apply list_lookup_insert_eq).
  rewrite take_insert_ge by lia. by rewrite drop_insert_lt by lia.
Qed.

Lemma in_rest {A} (l : list A) i j y : j ≠ i → l !! j = Some y → y ∈ take i l ++ drop (S i) l.
Proof.
  intros Hne H. apply elem_of_app. destruct (decide (j < i)%nat) as [Hlt|Hge]; [left|right].
  - apply list_elem_of_lookup. exists j. by rewrite lookup_take_lt.
  - apply list_elem_of_lookup. exists (j - S i)%nat. rewrite lookup_drop. by replace (S i + (j - S i))%nat with j by lia.
Qed.

Lemma owned_block f b : b ∈ if_blocks f → b ∈ owned f.
Proof. intros H. apply elem_of_app. by left. Qed.
Lemma owned_ind f : if_ind f ≠ 0 → if_ind f ∈ owned f.
Proof. intros H. apply elem_of_app. right. rewrite (proj2 (Z.eqb_neq _ _) H). by left. Qed.

Lemma body_ok_same D D' f : (∀ b, b ∈ owned f → D' b = D b) → body_ok D f → body_ok D' f.
Proof.
  intros H [B1 B2 B3 B4 B5]. split; [done|done|done| |].
  - intros Hi j Hj. rewrite H by (by apply owned_ind). by apply B4.
  - intros bn b Hb. rewrite H; [by apply B5|]. apply owned_block. by eapply list_elem_of_lookup_2.
Qed.

Lemma elem_in_owned fs g b : g ∈ fs → b ∈ owned g → b ∈ concat (owned <$> fs).
Proof. intros Hg Hb. apply list_elem_of_In, in_concat. exists (owned g). split; [apply list_elem_of_In, list_elem_of_fmap; by exists g|by apply list_elem_of_In]. Qed.

Section update.
Context (s : mkfs_t) (fs : list ifile) (i : nat) (f : ifile).
Hypothesis (Hok : alloc_ok s fs) (Hf : fs !! i = Some f).
Notation rest := (concat (owned <$> take i fs ++ drop (S i) fs)).

Lemma alloc_owned b : b ∈ owned f → nmeta <= b < mk_freeblock s.
Proof using Hok Hf.
  intros Hb. pose proof (ao_range _ _ Hok) as Hr. rewrite list.Forall_forall in Hr. apply Hr. rewrite (concat_at owned fs i f Hf), elem_of_app. by left.
Qed.

Lemma alloc_disk b : b ∈ owned f → 0 <= b < FSSIZE.
Proof using Hok Hf. intros Hb. pose proof (alloc_owned b Hb). pose proof (ao_fits _ _ Hok). rewrite nmeta_eq in *. lia. Qed.

(** The file [i] became [f'], with the next [n] free blocks, and only its
    blocks were written. *)
Lemma alloc_update s' f' (n : nat) : mk_len s' = mk_len s → mk_freeblock s' = mk_freeblock s + Z.of_nat n → mk_freeblock s' <= FSSIZE →
  owned f' ≡ₚ seqZ (mk_freeblock s) (Z.of_nat n) ++ owned f → (∀ b, b ∉ owned f' → mk_img s' b = mk_img s b) →
  (∀ b, b ∈ owned f' → length (mk_img s' b) = 512%nat) → body_ok (mk_img s') f' → alloc_ok s' (<[i := f']> fs).
Proof using Hok Hf.
  intros Hlen Hfree Hfit Hown Hsame Hsz Hbody. pose proof Hok as [A1 A2 A3 A4 A5 A6 A7 A8].
  pose proof (concat_at owned fs i f Hf) as Hc. pose proof (concat_set owned fs i f f' Hf) as Hc'. rewrite Hc in A4, A5.
  assert (Hp : concat (owned <$> <[i := f']> fs) ≡ₚ seqZ (mk_freeblock s) (Z.of_nat n) ++ owned f ++ rest) by (by rewrite Hc', Hown, <- app_assoc).
  assert (Hnew : ∀ b, b ∈ seqZ (mk_freeblock s) (Z.of_nat n) → mk_freeblock s <= b < mk_freeblock s') by (intros b ?%elem_of_seqZ; lia).
  assert (Hdis : ∀ b, b ∈ rest → b ∉ owned f').
  { intros b Hb. rewrite Hown, elem_of_app. intros [H|H].
    - rewrite list.Forall_forall in A4. specialize (A4 b ltac:(rewrite elem_of_app; by right)). apply Hnew in H. lia.
    - apply list.NoDup_app in A5 as (_ & A5 & _). by apply (A5 b). }
  split; [congruence| |done| | | | |].
  - rewrite Hp, Hfree, A2, Hc, !length_app, length_seqZ. lia.
  - rewrite Hp. apply list.Forall_app. split; [apply list.Forall_forall; intros b Hb; apply Hnew in Hb; rewrite nmeta_eq in *; lia|].
    eapply list.Forall_impl; [exact A4|]. cbn. lia.
  - rewrite Hp. apply list.NoDup_app. split; [apply NoDup_seqZ|]. split; [|done]. intros b Hb Hb'. apply Hnew in Hb. rewrite list.Forall_forall in A4. specialize (A4 b Hb'). lia.
  - intros b Hb. rewrite Hsame; [apply A6; lia|]. rewrite Hown, elem_of_app. intros [H%Hnew|H%alloc_owned]; lia.
  - intros b Hb. destruct (decide (b ∈ owned f')); [by apply Hsz|]. rewrite Hsame by done. by apply A7.
  - intros j g Hg. destruct (decide (j = i)) as [->|Hne].
    + rewrite list_lookup_insert_eq in Hg by (by eapply lookup_lt_Some). by injection Hg as <-.
    + rewrite list_lookup_insert_ne in Hg by done. apply (body_ok_same (mk_img s)); [|by apply (A8 j)]. intros b Hb. apply Hsame, Hdis.
      apply (elem_in_owned _ g); [by apply (in_rest fs i j)|done].
Qed.
End update.

(** ** Writing into a block *)
Lemma block_at_past data bn : (length data <= 512 * bn)%nat → block_at data bn = zeroes.
Proof. intros H. unfold block_at. rewrite drop_ge by done. done. Qed.

Lemma length_block_at data bn : length (block_at data bn) = 512%nat.
Proof. unfold block_at. rewrite length_take, length_app, length_replicate. lia. Qed.

Lemma block_at_lookup data bn r : (r < 512)%nat → block_at data bn !! r = Some (default 0 (data !! (512 * bn + r)%nat)).
Proof.
  intros H. unfold block_at. rewrite lookup_take_lt by done. destruct (decide (512 * bn + r < length data)%nat) as [Hin|Hout].
  - rewrite lookup_app_l, lookup_drop by (rewrite length_drop; lia). destruct (lookup_lt_is_Some_2 data (512 * bn + r) Hin) as [x ->]. done.
  - rewrite lookup_app_r, lookup_replicate_2 by (rewrite ?length_drop; lia). rewrite (lookup_ge_None_2 data) by lia. done.
Qed.

(** The next [length q] bytes of the file go into its last block. *)
Lemma splice_block data q bn : (512 * bn <= length data)%nat → (length data + length q <= 512 * S bn)%nat →
  splice (length data - 512 * bn) q (block_at data bn) = block_at (data ++ q) bn.
Proof.
  intros H1 H2. apply list_eq. intros r. destruct (decide (r < 512)%nat) as [Hr|Hr].
  - rewrite lookup_splice by (rewrite length_block_at; lia). rewrite !block_at_lookup by done. case_decide as Hd.
    + rewrite (lookup_app_r data) by lia. replace (512 * bn + r - length data)%nat with (r - (length data - 512 * bn))%nat by lia.
      destruct (lookup_lt_is_Some_2 q (r - (length data - 512 * bn))) as [x ->]; [lia|done].
    + do 2 f_equal. destruct (decide (512 * bn + r < length data)%nat); [by rewrite lookup_app_l by lia|].
      rewrite !lookup_ge_None_2 by (rewrite ?length_app; lia). done.
  - rewrite !lookup_ge_None_2; [done| |]; rewrite ?length_splice, ?length_block_at by (rewrite length_block_at; lia); lia.
Qed.

Lemma block_at_other data q bn : (512 * S bn <= length data)%nat ∨ (length data + length q <= 512 * bn)%nat → block_at (data ++ q) bn = block_at data bn.
Proof.
  intros H. apply list_eq. intros r. destruct (decide (r < 512)%nat) as [Hr|Hr].
  - rewrite !block_at_lookup by done. do 2 f_equal. destruct (decide (512 * bn + r < length data)%nat); [by rewrite lookup_app_l by lia|].
    rewrite !lookup_ge_None_2 by (rewrite ?length_app; lia). done.
  - rewrite !lookup_ge_None_2; [done| |]; rewrite length_block_at; lia.
Qed.

Lemma alloc_write s fs i f x q bn s' : alloc_ok s fs → fs !! i = Some f → if_blocks f !! bn = Some x → (512 * bn <= length (if_data f))%nat →
  (length (if_data f) + length q <= 512 * S bn)%nat → s' = write_img x (splice (length (if_data f) - 512 * bn) q (mk_img s x)) s →
  let f' := mk_ifile (if_type f) (if_data f ++ q) (if_blocks f) (if_ind f) in alloc_ok s' (<[i := f']> fs).
Proof.
  intros Hok Hf Hx H1 H2 -> f'. pose proof (ao_bodies _ _ Hok i f Hf) as [B1 B2 B3 B4 B5].
  assert (Hxo : x ∈ owned f) by (apply owned_block; by eapply list_elem_of_lookup_2).
  assert (Hnd : NoDup (owned f)).
  { pose proof (ao_nodup _ _ Hok) as H. rewrite (concat_at owned fs i f Hf) in H. by apply list.NoDup_app in H as (? & _). }
  assert (Hlt : (bn < length (if_blocks f))%nat) by (by eapply lookup_lt_Some).
  eapply (alloc_update s fs i f Hok Hf _ f' 0); [done|cbn; lia|apply (ao_fits _ _ Hok)|done| | |].
  - intros b Hb. apply fset_ne. intros ->. by apply Hb.
  - intros b Hb. cbn. unfold fset. destruct (b =? x) eqn:E; [|apply (ao_size _ _ Hok); by apply (alloc_disk s fs i f)].
    pose proof (ao_size _ _ Hok x (alloc_disk s fs i f Hok Hf x Hxo)). rewrite length_splice; lia.
  - split; cbn [if_data if_blocks if_ind mk_img write_img set_mk_img f'].
    + rewrite length_app. lia.
    + done.
    + done.
    + intros Hi j Hj. rewrite fset_ne; [by apply B4|]. intros <-. unfold owned in Hnd. rewrite (proj2 (Z.eqb_neq _ _) Hi) in Hnd.
      apply list.NoDup_app in Hnd as (_ & Hd & _). apply (Hd (if_ind f)); [by eapply list_elem_of_lookup_2|by left].
    + intros bn' b Hb. destruct (decide (bn' = bn)) as [->|Hne].
      * rewrite Hx in Hb. injection Hb as <-. rewrite fset_eq, (B5 bn x Hx). by apply splice_block.
      * rewrite fset_ne.
        { rewrite (B5 bn' b Hb), block_at_other; [done|]. lia. }
        intros ->. apply list.NoDup_app in Hnd as (Hnd & _). by apply Hne, (NoDup_lookup _ _ _ _ Hnd Hb Hx).
Qed.

(** ** Taking the next free block *)
Lemma addrs_lookup f j : (j < 12)%nat → addrs_of f !! j = Some (default 0 (if_blocks f !! j)).
Proof. intros H. unfold addrs_of. rewrite lookup_app_l by (by rewrite length_fmap, length_seq). by rewrite list_lookup_fmap, lookup_seq_lt by done. Qed.
Lemma addrs_ind f : addrs_of f !! 12%nat = Some (if_ind f).
Proof. reflexivity. Qed.
Lemma length_addrs_of f : length (addrs_of f) = S NDIRECT.
Proof. reflexivity. Qed.

Lemma le_val_zeros n : le_val (replicate n 0) = 0.
Proof. induction n as [|n IH]; [done|]. cbn [replicate le_val]. rewrite IH. done. Qed.
Lemma get32_zeroes off : get32 off zeroes = 0.
Proof. unfold get32, slice, zeroes. by rewrite drop_replicate, take_replicate, le_val_zeros. Qed.

(** [f] with one more block, or with an indirect block. *)
Definition more_block (f : ifile) (x : Z) : ifile := mk_ifile (if_type f) (if_data f) (if_blocks f ++ [x]) (if_ind f).
Definition more_ind (f : ifile) (x : Z) : ifile := mk_ifile (if_type f) (if_data f) (if_blocks f) x.

Lemma addrs_more_block f x : (length (if_blocks f) < 12)%nat → <[length (if_blocks f) := x]> (addrs_of f) = addrs_of (more_block f x).
Proof.
  intros H. apply list_eq. intros j. destruct (decide (j = length (if_blocks f))) as [->|Hne].
  - rewrite list_lookup_insert_eq by (rewrite length_addrs_of; unfold NDIRECT; lia). rewrite addrs_lookup by done. cbn. by rewrite lookup_app_r, Nat.sub_diag by lia.
  - rewrite list_lookup_insert_ne by done. destruct (decide (j < 12)%nat).
    + rewrite !addrs_lookup by done. cbn. destruct (decide (j < length (if_blocks f))%nat); [by rewrite lookup_app_l by done|].
      rewrite !lookup_ge_None_2; [done|rewrite length_app; cbn; lia|lia].
    + destruct (decide (j = 12)%nat) as [->|]; [done|]. rewrite !lookup_ge_None_2; [done| |]; rewrite length_addrs_of; unfold NDIRECT; lia.
Qed.

Lemma addrs_more_block_ind f x : (12 <= length (if_blocks f))%nat → addrs_of (more_block f x) = addrs_of f.
Proof.
  intros H. unfold addrs_of. f_equal. apply list_fmap_ext. intros i j [-> Hj]%lookup_seq. cbn. rewrite lookup_app_l by lia. done.
Qed.

Lemma addrs_more_ind f x : <[NDIRECT := x]> (addrs_of f) = addrs_of (more_ind f x).
Proof. reflexivity. Qed.

Section take.
Context (s : mkfs_t) (fs : list ifile) (i : nat) (f : ifile).
Hypothesis (Hok : alloc_ok s fs) (Hf : fs !! i = Some f).
Notation x := (mk_freeblock s).

Lemma fresh_zero : x < FSSIZE → mk_img s x = zeroes.
Proof using Hok. intros H. apply (ao_zero _ _ Hok). lia. Qed.

Lemma fresh_range : 59 <= x <= 1000.
Proof using Hok. pose proof (ao_free _ _ Hok). pose proof (ao_fits _ _ Hok). rewrite nmeta_eq, FSSIZE_eq in *. lia. Qed.

Lemma fresh_len b : b = x ∨ b ∈ owned f → x < FSSIZE → length (mk_img s b) = 512%nat.
Proof using Hok Hf.
  pose proof fresh_range. intros Hb Hx. apply (ao_size _ _ Hok). destruct Hb as [->|Hb]; [lia|]. by apply (alloc_disk s fs i f).
Qed.

Lemma take_ind : x < FSSIZE → if_ind f = 0 → length (if_blocks f) = 12%nat → alloc_ok (set_mk_freeblock (x + 1) s) (<[i := more_ind f x]> fs).
Proof using Hok Hf.
  intros Hx Hi Hl. pose proof fresh_range as Hr. pose proof (ao_bodies _ _ Hok i f Hf) as [B1 B2 B3 B4 B5].
  assert (Hown : owned (more_ind f x) ≡ₚ x :: owned f).
  { unfold owned. cbn [if_ind if_blocks more_ind]. rewrite Hi, (proj2 (Z.eqb_neq x 0)) by lia. cbn. rewrite app_nil_r. by rewrite <- Permutation_cons_append. }
  apply (alloc_update s fs i f Hok Hf _ _ 1%nat); [done|done|cbn; lia|by rewrite Hown|done| |].
  - intros b. rewrite Hown. intros [->|Hb]%elem_of_cons; apply fresh_len; auto.
  - split; cbn [if_data if_blocks if_ind more_ind mk_img set_mk_freeblock]; [done|done|lia| |done].
    intros _ j Hj. rewrite fresh_zero, lookup_ge_None_2 by (done || lia). apply get32_zeroes.
Qed.

Lemma take_direct : x < FSSIZE → if_ind f = 0 → (length (if_blocks f) < 12)%nat → alloc_ok (set_mk_freeblock (x + 1) s) (<[i := more_block f x]> fs).
Proof using Hok Hf.
  intros Hx Hi Hl. pose proof fresh_range as Hr. pose proof (ao_bodies _ _ Hok i f Hf) as [B1 B2 B3 B4 B5].
  assert (Hown : owned (more_block f x) ≡ₚ x :: owned f).
  { unfold owned. cbn [if_ind if_blocks more_block]. rewrite Hi. cbn. rewrite !app_nil_r. by rewrite <- Permutation_cons_append. }
  apply (alloc_update s fs i f Hok Hf _ _ 1%nat); [done|done|cbn; lia|by rewrite Hown|done| |].
  - intros b. rewrite Hown. intros [->|Hb]%elem_of_cons; apply fresh_len; auto.
  - split; cbn [if_data if_blocks if_ind more_block mk_img set_mk_freeblock].
    + rewrite length_app. lia.
    + rewrite length_app. cbn. lia.
    + rewrite length_app. cbn. lia.
    + done.
    + intros bn b [Hb|[Hge Hb]]%lookup_app_Some; [by apply B5|]. apply list_lookup_singleton_Some in Hb as [Hz <-].
      rewrite fresh_zero by done. symmetry. apply block_at_past. lia.
Qed.

Lemma take_indirect : x < FSSIZE → if_ind f ≠ 0 → (12 <= length (if_blocks f) < 140)%nat →
  let w := write_img (if_ind f) (put32 (4 * (length (if_blocks f) - 12)) x (mk_img s (if_ind f))) s in
  alloc_ok (set_mk_freeblock (x + 1) w) (<[i := more_block f x]> fs).
Proof using Hok Hf.
  intros Hx Hi Hl w. pose proof fresh_range as Hr. pose proof (ao_bodies _ _ Hok i f Hf) as [B1 B2 B3 B4 B5].
  assert (Hown : owned (more_block f x) ≡ₚ x :: owned f).
  { unfold owned. cbn [if_ind if_blocks more_block]. rewrite <- app_assoc. cbn. by rewrite Permutation_middle. }
  assert (Hnd : NoDup (x :: owned f)).
  { pose proof (ao_nodup _ _ Hok) as H. rewrite (concat_at owned fs i f Hf) in H. apply list.NoDup_app in H as (H & _). constructor; [|done].
    intros Hin%(alloc_owned s fs i f Hok Hf). lia. }
  assert (Hio : if_ind f ∈ owned f) by (by apply owned_ind).
  assert (Hil : length (mk_img s (if_ind f)) = 512%nat) by (apply fresh_len; auto).
  apply (alloc_update s fs i f Hok Hf _ _ 1%nat); [done|done|cbn; lia|by rewrite Hown| | |].
  - intros b. rewrite Hown, not_elem_of_cons. intros [_ Hb]. cbn. apply fset_ne. by intros ->.
  - intros b Hb. rewrite Hown in Hb. unfold w. cbn [mk_img set_mk_freeblock write_img set_mk_img]. unfold fset. destruct (b =? if_ind f); [rewrite length_put32; lia|]. apply fresh_len; [by apply elem_of_cons in Hb|done].
  - assert (Hw : ∀ b, b ≠ if_ind f → mk_img (set_mk_freeblock (x + 1) w) b = mk_img s b) by (intros b Hb; cbn; by apply fset_ne).
    split; cbn [if_data if_blocks if_ind more_block].
    + rewrite length_app. lia.
    + rewrite length_app. cbn. lia.
    + done.
    + intros _ j Hj. cbn [mk_img set_mk_freeblock w write_img set_mk_img]. rewrite fset_eq. destruct (decide (12 + j = length (if_blocks f))%nat) as [E|Hne].
      * replace (length (if_blocks f) - 12)%nat with j by lia. rewrite get32_put32 by lia. rewrite E, lookup_app_r, Nat.sub_diag by lia. cbn.
        apply Z.mod_small. change (2 ^ 32) with 4294967296. lia.
      * rewrite get32_put32_ne by lia. rewrite B4 by done. f_equal. destruct (decide (12 + j < length (if_blocks f))%nat); [by rewrite lookup_app_l|].
        rewrite !lookup_ge_None_2; [done|rewrite length_app; cbn; lia|lia].
    + apply list.NoDup_cons in Hnd as [Hxn Hnd]. intros bn b [Hb|[Hge Hb]]%lookup_app_Some.
      * rewrite Hw; [by apply B5|]. intros ->. unfold owned in Hnd. rewrite (proj2 (Z.eqb_neq _ _) Hi) in Hnd.
        apply list.NoDup_app in Hnd as (_ & Hd & _). apply (Hd (if_ind f)); [by eapply list_elem_of_lookup_2|by left].
      * apply list_lookup_singleton_Some in Hb as [Hz <-]. rewrite Hw by (intros E; apply Hxn; by rewrite E).
        rewrite fresh_zero by done. symmetry. apply block_at_past. lia.
Qed.
End take.

(** ** [iappend]'s block *)
Definition growth (f : ifile) (fbn : nat) : Z :=
  if (fbn <? length (if_blocks f))%nat then 0 else if (fbn =? 12)%nat then 2 else 1.

(** The blocks below [nmeta] and the inode counter are as before. *)
Definition low_same (s s' : mkfs_t) : Prop :=
  (∀ b, b < nmeta → mk_img s' b = mk_img s b) ∧ mk_freeinode s' = mk_freeinode s.

#[export] Instance low_same_preorder : PreOrder low_same.
Proof. split; [done|]. intros s1 s2 s3 [H1 H2] [H3 H4]. split; [|congruence]. intros b Hb. by rewrite H3, H1. Qed.

(** What [iappend_block] leaves for file [i]: block [fbn] is [x]. *)
Record has_block (s : mkfs_t) (fs : list ifile) (i : nat) (f : ifile) (fbn : nat) (s' : mkfs_t) (f' : ifile) (x : Z) : Prop := mk_has_block {
  hb_alloc : alloc_ok s' (<[i := f']> fs);
  hb_type : if_type f' = if_type f;
  hb_data : if_data f' = if_data f;
  hb_block : if_blocks f' !! fbn = Some x;
  hb_length : length (if_blocks f') = Nat.max (length (if_blocks f)) (S fbn);
  hb_ind : if_ind f' = 0 ↔ (length (if_blocks f') <= 12)%nat;
  hb_low : low_same s s';
  hb_free : mk_freeblock s' = mk_freeblock s + growth f fbn;
}.

Lemma block_value s fs i f b : alloc_ok s fs → fs !! i = Some f → b ∈ owned f → xint b = b ∧ b ≠ 0 ∧ 0 <= b < FSSIZE.
Proof.
  intros Hok Hf Hb. pose proof (alloc_owned s fs i f Hok Hf b Hb). pose proof (alloc_disk s fs i f Hok Hf b Hb). rewrite nmeta_eq, FSSIZE_eq in *.
  split; [apply xint_id; change (2 ^ 32) with 4294967296; lia|]. lia.
Qed.

Lemma growth_in f fbn : (fbn < length (if_blocks f))%nat → growth f fbn = 0.
Proof. intros H. unfold growth. by rewrite (proj2 (Nat.ltb_lt _ _) H). Qed.
Lemma growth_out f fbn : (length (if_blocks f) <= fbn)%nat → growth f fbn = if (fbn =? 12)%nat then 2 else 1.
Proof. intros H. unfold growth. by rewrite (proj2 (Nat.ltb_ge _ _) H). Qed.

Section block.
Context (fs : list ifile) (i : nat) (fbn : nat) (din : inode).

(** A direct block. *)
Lemma iappend_block_direct s f : alloc_ok s fs → fs !! i = Some f → (fbn <= length (if_blocks f))%nat → (if_ind f = 0 ↔ (length (if_blocks f) <= 12)%nat) → i_addrs din = addrs_of f →
  (fbn < 12)%nat → mk_freeblock s + growth f fbn <= FSSIZE →
  ∃ s' f' x, iappend_block (Z.of_nat fbn) din s = Ret (x, set_i_addrs (addrs_of f') din) s' ∧ has_block s fs i f fbn s' f' x.
Proof.
  intros Hok Hf Hle Hind Ha Hlt Hroom. unfold iappend_block. rewrite (proj2 (Z.ltb_lt _ _)) by (unfold NDIRECT; lia). cbv zeta. rewrite Nat2Z.id.
  rewrite Ha, (addrs_lookup f fbn Hlt). cbn [from_option id]. destruct (if_blocks f !! fbn) as [b|] eqn:E; cbn [from_option id].
  - pose proof (lookup_lt_Some _ _ _ E) as Hl. destruct (block_value s fs i f b Hok Hf) as (E1 & E2 & E3); [by apply owned_block; eapply list_elem_of_lookup_2|].
    rewrite E1, (proj2 (Z.eqb_neq _ _) E2), bind_mret. exists s, f, b. split.
    + rewrite Ha, (addrs_lookup f fbn Hlt), E. cbn [from_option id]. rewrite E1, <- Ha. by destruct din.
    + split; try done; [by rewrite list_insert_id|lia|rewrite growth_in by done; lia].
  - apply lookup_ge_None in E. assert (Hl : fbn = length (if_blocks f)) by lia. change (xint 0 =? 0) with true. cbv iota.
    rewrite growth_out in Hroom by lia. rewrite (proj2 (Nat.eqb_neq fbn 12)) in Hroom by lia. pose proof (fresh_range s fs Hok) as Hr.
    rewrite bind_assoc, (bind_Ret_eq _ _ _ _ _ (next_block_eq s ltac:(rewrite FSSIZE_eq in *; lia))), bind_mret.
    rewrite (xint_id (mk_freeblock s)) by (change (2 ^ 32) with 4294967296; lia). cbn [i_addrs set_i_addrs].
    rewrite Hl, addrs_more_block by lia. exists (set_mk_freeblock (mk_freeblock s + 1) s), (more_block f (mk_freeblock s)), (mk_freeblock s). split.
    + rewrite (addrs_lookup (more_block f _)) by lia. cbn [if_blocks more_block]. rewrite lookup_app_r, Nat.sub_diag by lia. cbn [lookup list_lookup from_option id].
      rewrite (xint_id (mk_freeblock s)) by (change (2 ^ 32) with 4294967296; lia). by destruct din.
    + split; try done.
      * apply take_direct; try done; [lia|apply Hind; lia|lia].
      * cbn. by rewrite lookup_app_r, Nat.sub_diag by lia.
      * cbn. rewrite length_app. cbn. lia.
      * cbn. rewrite length_app. cbn. split; [lia|]. intros _. apply Hind. lia.
      * rewrite growth_out by lia. rewrite (proj2 (Nat.eqb_neq _ 12)) by lia. done.
Qed.

(** A word of the indirect block. *)
Definition indirect_part (din : inode) : MK (Z * inode) :=
  let j := (4 * Z.to_nat (Z.of_nat fbn - Z.of_nat NDIRECT))%nat in
  indirect <- rsect (xint (default 0 (i_addrs din !! NDIRECT))) ;;
  indirect <- (if get32 j indirect =? 0
               then b <- next_block ;;
                    let indirect := put32 j (xint b) indirect in
                    wsect (xint (default 0 (i_addrs din !! NDIRECT))) indirect ;; mret indirect
               else mret indirect) ;;
  mret (xint (get32 j indirect), din).

Lemma indirect_part_ok s f : alloc_ok s fs → fs !! i = Some f → (fbn <= length (if_blocks f))%nat → if_ind f ≠ 0 → i_addrs din = addrs_of f →
  (12 <= fbn < 140)%nat → mk_freeblock s + (if (fbn <? length (if_blocks f))%nat then 0 else 1) <= FSSIZE →
  ∃ s' f' x, indirect_part din s = Ret (x, set_i_addrs (addrs_of f') din) s' ∧
    alloc_ok s' (<[i := f']> fs) ∧ if_type f' = if_type f ∧ if_data f' = if_data f ∧ if_blocks f' !! fbn = Some x ∧
    length (if_blocks f') = Nat.max (length (if_blocks f)) (S fbn) ∧ if_ind f' ≠ 0 ∧ low_same s s' ∧
    mk_freeblock s' = mk_freeblock s + (if (fbn <? length (if_blocks f))%nat then 0 else 1).
Proof.
  intros Hok Hf Hle Hind Ha Hlt Hroom. unfold indirect_part. replace (Z.to_nat (Z.of_nat fbn - Z.of_nat NDIRECT)) with (fbn - 12)%nat by (unfold NDIRECT; lia).
  cbv zeta. rewrite Ha. change (addrs_of f !! NDIRECT) with (Some (if_ind f)). cbn [from_option id].
  destruct (block_value s fs i f (if_ind f) Hok Hf (owned_ind f Hind)) as (E1 & E2 & E3).
  rewrite E1, (bind_Ret_eq _ _ _ _ _ (rsect_eq s (if_ind f) (ao_len _ _ Hok) E3)).
  pose proof (ao_bodies _ _ Hok i f Hf) as [B1 B2 B3 B4 B5]. rewrite (B4 Hind (fbn - 12)%nat) by lia. replace (12 + (fbn - 12))%nat with fbn by lia.
  pose proof (fresh_range s fs Hok) as Hr. destruct (Nat.ltb_spec fbn (length (if_blocks f))) as [Hl|Hl].
  - destruct (lookup_lt_is_Some_2 _ _ Hl) as [b Hb]. rewrite Hb. cbn [from_option id].
    destruct (block_value s fs i f b Hok Hf) as (E4 & E5 & E6); [by apply owned_block; eapply list_elem_of_lookup_2|].
    rewrite (proj2 (Z.eqb_neq _ _) E5), bind_mret. exists s, f, b. split.
    + rewrite (B4 Hind (fbn - 12)%nat) by lia. replace (12 + (fbn - 12))%nat with fbn by lia. rewrite Hb. cbn [from_option id]. rewrite E4, <- Ha. by destruct din.
    + split_and!; try done; [by rewrite list_insert_id|lia|lia].
  - assert (fbn = length (if_blocks f)) as Heq by lia. rewrite (lookup_ge_None_2 _ fbn) by lia. change (default 0 None =? 0) with true. cbv iota.
    rewrite bind_assoc, (bind_Ret_eq _ _ _ _ _ (next_block_eq s ltac:(rewrite FSSIZE_eq in *; lia))), bind_assoc.
    rewrite (xint_id (mk_freeblock s)) by (change (2 ^ 32) with 4294967296; lia). set (s1 := set_mk_freeblock _ s).
    rewrite (bind_Ret_eq _ _ _ _ _ (wsect_eq s1 (if_ind f) _ (ao_len _ _ Hok) E3)), bind_mret.
    pose proof (ao_size _ _ Hok _ E3) as Hsz. rewrite get32_put32 by lia. rewrite Z.mod_small by (change (2 ^ 32) with 4294967296; lia). rewrite (xint_id (mk_freeblock s)) by (change (2 ^ 32) with 4294967296; lia).
    eexists _, (more_block f (mk_freeblock s)), (mk_freeblock s). split; [rewrite addrs_more_block_ind, <- Ha by lia; by destruct din|].
    rewrite Heq. split; [|split_and!; try done].
    + rewrite <- Heq in *. pose proof (take_indirect s fs i f Hok Hf) as Ht. rewrite <- Heq in Ht. apply Ht; [lia|done|lia].
    + cbn. by rewrite lookup_app_r, Nat.sub_diag by lia.
    + cbn. rewrite length_app. cbn. lia.
    + split; [|done]. intros b Hb. apply fset_ne. pose proof (alloc_owned s fs i f Hok Hf _ (owned_ind f Hind)). lia.
Qed.
End block.

Lemma iappend_block_ok fs i fbn din s f : alloc_ok s fs → fs !! i = Some f → (fbn <= length (if_blocks f))%nat → (if_ind f = 0 ↔ (length (if_blocks f) <= 12)%nat) → i_addrs din = addrs_of f →
  (fbn < 140)%nat → mk_freeblock s + growth f fbn <= FSSIZE →
  ∃ s' f' x, iappend_block (Z.of_nat fbn) din s = Ret (x, set_i_addrs (addrs_of f') din) s' ∧ has_block s fs i f fbn s' f' x.
Proof.
  intros Hok Hf Hle Hind Ha Hlt Hroom. destruct (decide (fbn < 12)%nat) as [Hd|Hd]; [by apply iappend_block_direct|].
  pose proof (fresh_range s fs Hok) as Hr. unfold iappend_block. rewrite (proj2 (Z.ltb_ge _ _)) by (unfold NDIRECT; lia). cbv zeta.
  assert (Hif : ∀ d : inode, i_addrs d = addrs_of f → i_addrs d !! NDIRECT = Some (if_ind f)) by (by intros d ->). rewrite (Hif din Ha). cbn [from_option id].
  destruct (decide (if_ind f = 0)) as [Hz|Hz].
  - assert (Hl : length (if_blocks f) = 12%nat) by (apply Hind in Hz; lia). assert (fbn = 12%nat) as -> by lia.
    rewrite growth_out in Hroom by lia. change (12 =? 12)%nat with true in Hroom. cbv iota in Hroom. rewrite Hz. change (xint 0 =? 0) with true. cbv iota.
    rewrite bind_assoc, (bind_Ret_eq _ _ _ _ _ (next_block_eq s ltac:(rewrite FSSIZE_eq in *; lia))), bind_mret.
    rewrite (xint_id (mk_freeblock s)) by (change (2 ^ 32) with 4294967296; lia). rewrite Ha, addrs_more_ind. set (f1 := more_ind f _). set (s1 := set_mk_freeblock _ s). set (d1 := set_i_addrs _ din).
    pose proof (take_ind s fs i f Hok Hf ltac:(lia) Hz Hl) as Hok1. fold f1 s1 in Hok1. pose proof (lookup_lt_Some _ _ _ Hf) as Hil.
    destruct (indirect_part_ok (<[i := f1]> fs) i 12 d1 s1 f1 Hok1) as (s2 & f2 & x & E & R1 & R2 & R3 & R4 & R5 & R6 & R7 & R8);
      [by apply list_lookup_insert_eq|cbn; lia|cbn; lia|done|lia|cbn; rewrite Hl; cbn; lia|].
    exists s2, f2, x. split; [exact E|]. rewrite list_insert_insert_eq in R1. split; try done; [split; [done|]; rewrite R5; lia|].
    rewrite R8. cbn. rewrite Hl, growth_out by lia. cbn. lia.
  - assert (Hl : (12 < length (if_blocks f))%nat) by (destruct (decide (length (if_blocks f) <= 12)%nat) as [H|]; [by apply Hind in H|lia]).
    destruct (block_value s fs i f (if_ind f) Hok Hf (owned_ind f Hz)) as (E1 & E2 & _). rewrite E1, (proj2 (Z.eqb_neq _ _) Hz), bind_mret.
    assert (Hg : growth f fbn = if (fbn <? length (if_blocks f))%nat then 0 else 1).
    { unfold growth. destruct (fbn <? length (if_blocks f))%nat eqn:E; [done|]. by rewrite (proj2 (Nat.eqb_neq _ _)) by lia. }
    rewrite Hg in Hroom. destruct (indirect_part_ok fs i fbn din s f Hok Hf Hle Hz Ha ltac:(lia) Hroom) as (s2 & f2 & x & E & R1 & R2 & R3 & R4 & R5 & R6 & R7 & R8).
    exists s2, f2, x. split; [exact E|]. split; try done; [split; [done|]; rewrite R5; lia|]. by rewrite Hg.
Qed.

(** ** The loop of [iappend] *)
(** The blocks a file of [n] bytes takes, the indirect one included. *)
Definition blocks_needed (n : nat) : Z :=
  let q := (Z.of_nat n + 511) / 512 in q + (if 12 <? q then 1 else 0).

Lemma blocks_needed_mono n m : (n <= m)%nat → blocks_needed n <= blocks_needed m.
Proof. intros H. unfold blocks_needed. assert ((Z.of_nat n + 511) / 512 <= (Z.of_nat m + 511) / 512) by divlia. destruct (Z.ltb_spec 12 ((Z.of_nat n + 511) / 512)), (Z.ltb_spec 12 ((Z.of_nat m + 511) / 512)); lia. Qed.

Lemma owned_length f : (if_ind f = 0 ↔ (length (if_blocks f) <= 12)%nat) → length (owned f) = (length (if_blocks f) + if (12 <? length (if_blocks f))%nat then 1 else 0)%nat.
Proof.
  intros H. unfold owned. rewrite length_app. destruct (Z.eqb_spec (if_ind f) 0) as [E|E]; cbn [length].
  - apply H in E. rewrite (proj2 (Nat.ltb_ge _ _)) by lia. done.
  - rewrite (proj2 (Nat.ltb_lt _ _)); [done|]. destruct (decide (12 < length (if_blocks f))%nat); [done|]. exfalso. apply E, H. lia.
Qed.

Lemma tight_owned f : (length (if_data f) <= 512 * length (if_blocks f))%nat → tight f → Z.of_nat (length (owned f)) = blocks_needed (length (if_data f)).
Proof.
  intros H1 [H2 H3]. rewrite owned_length by done. unfold blocks_needed.
  replace ((Z.of_nat (length (if_data f)) + 511) / 512) with (Z.of_nat (length (if_blocks f))) by divlia.
  destruct (Nat.ltb_spec 12 (length (if_blocks f))), (Z.ltb_spec 12 (Z.of_nat (length (if_blocks f)))); lia.
Qed.

(** One block's worth: [n1] bytes of [p] reach block [bn]. *)
Lemma iappend_round s fs i f p din : alloc_ok s fs → fs !! i = Some f → tight f → i_addrs din = addrs_of f → p ≠ [] →
  (length (if_data f) + length p <= 140 * 512)%nat → mk_freeblock s - Z.of_nat (length (owned f)) + blocks_needed (length (if_data f) + length p) <= FSSIZE →
  let bn := (length (if_data f) / 512)%nat in let n1 := Nat.min (length p) (512 * S bn - length (if_data f)) in
  ∃ s1 f1 x, iappend_block (Z.of_nat bn) din s = Ret (x, set_i_addrs (addrs_of f1) din) s1 ∧ alloc_ok s1 (<[i := f1]> fs) ∧ 0 <= x < FSSIZE ∧ low_same s s1 ∧
    let s2 := write_img x (splice (length (if_data f) - 512 * bn) (take n1 p) (mk_img s1 x)) s1 in
    let f2 := mk_ifile (if_type f) (if_data f ++ take n1 p) (if_blocks f1) (if_ind f1) in
    alloc_ok s2 (<[i := f2]> fs) ∧ tight f2 ∧ addrs_of f2 = addrs_of f1 ∧ low_same s1 s2 ∧
    mk_freeblock s2 - Z.of_nat (length (owned f2)) = mk_freeblock s - Z.of_nat (length (owned f)).
Proof.
  intros Hok Hf Ht Ha Hp Hmax Hroom bn n1. pose proof Ht as [Ht1 Ht2]. pose proof (ao_bodies _ _ Hok i f Hf) as [B1 _ _ _ _].
  pose proof (tight_owned f B1 Ht) as Hol. pose proof (Nat.div_mod_eq (length (if_data f)) 512) as Hdm. pose proof (Nat.mod_upper_bound (length (if_data f)) 512 ltac:(lia)) as Hmb.
  fold bn in Hdm. set (len := length (if_data f)) in *. set (r := (len mod 512)%nat) in *. assert (Hpl : (0 < length p)%nat) by (destruct p; [done|cbn; lia]).
  assert (Hn1 : (0 < n1 <= length p)%nat ∧ (len + n1 <= 512 * S bn)%nat) by (unfold n1; lia). clearbody n1 r bn.
  assert (Hgrow : growth f bn = blocks_needed (len + n1) - Z.of_nat (length (owned f))).
  { rewrite owned_length by done. unfold blocks_needed, growth. replace ((Z.of_nat (len + n1) + 511) / 512) with (Z.of_nat (S bn)) by divlia.
    destruct (Nat.ltb_spec bn (length (if_blocks f))), (Nat.ltb_spec 12 (length (if_blocks f))), (Z.ltb_spec 12 (Z.of_nat (S bn))), (Nat.eqb_spec bn 12); lia. }
  pose proof (blocks_needed_mono (len + n1) (len + length p) ltac:(lia)) as Hmono.
  destruct (iappend_block_ok fs i bn din s f Hok Hf) as (s1 & f1 & x & E & [K1 K2 K3 K4 K5 K6 K7 K8]); [lia|done|done|lia|lia|].
  pose proof (lookup_lt_Some _ _ _ Hf) as Hil. assert (Hf1 : <[i := f1]> fs !! i = Some f1) by (by apply list_lookup_insert_eq).
  destruct (block_value s1 (<[i := f1]> fs) i f1 x K1 Hf1) as (_ & _ & Hx); [apply owned_block; by eapply list_elem_of_lookup_2|].
  exists s1, f1, x. split; [exact E|]. split; [done|]. split; [done|]. split; [done|].
  pose proof (alloc_write s1 (<[i := f1]> fs) i f1 x (take n1 p) bn (write_img x (splice (length (if_data f1) - 512 * bn) (take n1 p) (mk_img s1 x)) s1) K1 Hf1 K4) as Hw. rewrite K3, K2 in Hw.
  assert (Hl1 : length (take n1 p) = n1) by (rewrite length_take; lia). fold len in Hw.
  specialize (Hw ltac:(lia) ltac:(lia) eq_refl). cbv zeta in Hw. rewrite list_insert_insert_eq in Hw. split; [exact Hw|]. split; [|split; [done|split]].
  - split; cbn [if_data if_blocks if_ind]; [|done]. rewrite length_app, Hl1. fold len. lia.
  - split; [|done]. intros b Hb. apply fset_ne. pose proof (alloc_owned s1 (<[i := f1]> fs) i f1 K1 Hf1 x) as Hxo.
    specialize (Hxo ltac:(apply owned_block; by eapply list_elem_of_lookup_2)). lia.
  - change (owned (mk_ifile _ _ _ _)) with (owned f1). change (mk_freeblock (write_img _ _ s1)) with (mk_freeblock s1). rewrite K8, Hgrow, (owned_length f1) by done.
    unfold blocks_needed. replace ((Z.of_nat (len + n1) + 511) / 512) with (Z.of_nat (S bn)) by divlia. rewrite K5.
    replace (Nat.max (length (if_blocks f)) (S bn)) with (S bn) by lia.
    destruct (Nat.ltb_spec 12 (S bn)), (Z.ltb_spec 12 (Z.of_nat (S bn))); lia.
Qed.

Lemma iappend_loop_ok i fuel : ∀ p s fs f din, (length p <= fuel)%nat → alloc_ok s fs → fs !! i = Some f → tight f → i_addrs din = addrs_of f →
  (length (if_data f) + length p <= 140 * 512)%nat → mk_freeblock s - Z.of_nat (length (owned f)) + blocks_needed (length (if_data f) + length p) <= FSSIZE →
  ∃ s' f', iappend_loop fuel p din (Z.of_nat (length (if_data f))) s = Ret (set_i_addrs (addrs_of f') din, Z.of_nat (length (if_data f) + length p)) s' ∧
    alloc_ok s' (<[i := f']> fs) ∧ tight f' ∧ if_type f' = if_type f ∧ if_data f' = if_data f ++ p ∧ low_same s s'.
Proof.
  induction fuel as [|fuel IH]; intros p s fs f din Hfu Hok Hf Ht Ha Hmax Hroom; (destruct p as [|c p]; [|]).
  1, 3: exists s, f; cbn [iappend_loop]; rewrite app_nil_r, Nat.add_0_r, list_insert_id by done; split; [rewrite <- Ha; by destruct din|done].
  { cbn in Hfu. lia. }
  set (q := c :: p) in *. assert (Hq : q ≠ []) by done. cbn [iappend_loop]. unfold q at 1.
  destruct (iappend_round s fs i f q din Hok Hf Ht Ha Hq Hmax Hroom) as (s1 & f1 & x & E & K1 & Hx & L1 & K2 & T2 & A2 & L2 & R2).
  set (len := length (if_data f)) in *. set (bn := (len / 512)%nat) in *. set (n1 := Nat.min (length q) (512 * S bn - len)) in *.
  assert (Hbn : Z.of_nat len / BSIZE = Z.of_nat bn) by (rewrite BSIZE_eq; unfold bn; by rewrite Nat2Z.inj_div). rewrite Hbn.
  pose proof (Nat.div_mod_eq len 512) as Hdm. pose proof (Nat.mod_upper_bound len 512 ltac:(lia)) as Hmb. fold bn in Hdm.
  assert (Hql : (0 < length q)%nat) by (cbn; lia). assert (Hn1 : (0 < n1 <= length q)%nat) by lia.
  change MAXFILE with 140. rewrite (proj2 (Z.ltb_lt _ _)) by lia. cbn [negb]. rewrite (bind_Ret_eq _ _ _ _ _ E). cbv iota beta.
  rewrite BSIZE_eq. replace (Z.to_nat (Z.min (Z.of_nat (length q)) ((Z.of_nat bn + 1) * 512 - Z.of_nat len))) with n1 by lia.
  rewrite (bind_Ret_eq _ _ _ _ _ (rsect_eq s1 x (ao_len _ _ K1) Hx)), (bind_Ret_eq _ _ _ _ _ (wsect_eq s1 x _ (ao_len _ _ K1) Hx)).
  replace (Z.to_nat (Z.of_nat len - Z.of_nat bn * 512)) with (len - 512 * bn)%nat by lia.
  rewrite u32_small by (change (2 ^ 32) with 4294967296; lia). set (s2 := write_img x _ s1) in *. set (f2 := mk_ifile _ _ _ _) in *.
  assert (Hl2 : length (if_data f2) = (len + n1)%nat) by (unfold f2; cbn [if_data]; rewrite length_app, length_take; fold len; clearbody n1; lia).
  pose proof (lookup_lt_Some _ _ _ Hf) as Hil.
  destruct (IH (drop n1 q) s2 (<[i := f2]> fs) f2 (set_i_addrs (addrs_of f1) din)) as (s3 & f3 & E3 & K3 & T3 & Y3 & D3 & L3).
  - rewrite length_drop. lia.
  - done.
  - by apply list_lookup_insert_eq.
  - done.
  - done.
  - rewrite Hl2, length_drop. lia.
  - rewrite R2, Hl2, length_drop. by replace (len + n1 + (length q - n1))%nat with (len + length q)%nat by lia.
  - exists s3, f3. rewrite Hl2, Nat2Z.inj_add in E3. rewrite E3, length_drop. split.
    { replace (len + n1 + (length q - n1))%nat with (len + length q)%nat by lia. by destruct din. }
    rewrite list_insert_insert_eq in K3. split; [done|]. split; [done|]. split; [by rewrite Y3|]. split; [|by etrans; [exact L1|etrans]].
    rewrite D3. unfold f2. cbn [if_data]. rewrite <- app_assoc, take_drop. reflexivity.
Qed.
