(* ===== verification/MkfsRun.v ===== *)
(** * MkfsRun: the image [mkfs] leaves, and the kernel reading it

    The inode table over the data blocks of MkfsSpec.v, the run of [mkfs] on
    the files of its command line, and what [dirlookup], [ilock] and [readi]
    find on a disk that holds the image. *)

From S2P Require Import Prelude CString Kernel Sched Sock Kalloc Fifo Paging Vmem Cons Kbd Sleeplock LockSpec Bio BioSpec Log LogSpec.
From S2P Require Import Console Inode BlockSpec Fs FileSpec DirSpec Mkfs MkfsSpec.

(** ** Definitions *)

(** The inode [inum] as the image stores it, and as it should be for [f]. *)
Definition image_inode (D : Z → list Z) (inum : Z) : inode := dinode_load (dinode_off inum) (D (IBLOCK inum mkfs_sb)) inode0.
Definition dinode_of (f : ifile) (size : Z) : inode :=
  set_i_addrs (addrs_of f) (set_i_size size (set_i_nlink 1 (set_i_type (if_type f) inode0))).

Record img_ok (s : mkfs_t) (fs : list ifile) : Prop := mk_img_ok {
  im_alloc : alloc_ok s fs;
  im_tight : Forall tight fs;
  im_typed : Forall (λ f, 0 <= if_type f < 2 ^ 15) fs;
  im_inodes : ∀ i f, fs !! i = Some f → image_inode (mk_img s) (1 + Z.of_nat i) = dinode_of f (Z.of_nat (length (if_data f)));
  im_next : mk_freeinode s = 1 + Z.of_nat (length fs);
  im_sb : mk_img s 1 = splice 0 (sb_bytes mkfs_sb) zeroes;
}.

(** ** The inode table *)
Lemma slice_slice off n a m (d : list Z) : (a + m <= n)%nat → slice (off + a) m d = slice a m (slice off n d).
Proof. intros H. unfold slice. rewrite <- drop_drop, skipn_firstn_comm, take_take. by replace (m `min` (n - a))%nat with m by lia. Qed.

Lemma get16_slice off a d : (a + 2 <= 64)%nat → get16 (off + a) d = get16 a (slice off 64 d).
Proof. intros H. unfold get16. by rewrite (slice_slice off 64) by done. Qed.
Lemma get32_slice off a d : (a + 4 <= 64)%nat → get32 (off + a) d = get32 a (slice off 64 d).
Proof. intros H. unfold get32. by rewrite (slice_slice off 64) by done. Qed.

Lemma dinode_load_ext off d d' ip : slice off 64 d = slice off 64 d' → dinode_load off d ip = dinode_load off d' ip.
Proof.
  intros H. assert (H16 : ∀ a, (a + 2 <= 64)%nat → get16 (off + a) d = get16 (off + a) d') by (intros a Ha; by rewrite !get16_slice, H).
  assert (H32 : ∀ a, (a + 4 <= 64)%nat → get32 (off + a) d = get32 (off + a) d') by (intros a Ha; by rewrite !get32_slice, H).
  assert (Ha : get_addrs (off + 12) d = get_addrs (off + 12) d').
  { unfold get_addrs. apply list_fmap_ext. intros j x [-> Hj]%lookup_seq. unfold NDIRECT in Hj. rewrite <- !Nat.add_assoc. apply H32. lia. }
  unfold dinode_load. rewrite Ha, (H32 8%nat), (H16 6%nat), (H16 4%nat), (H16 2%nat) by lia. pose proof (H16 0%nat ltac:(lia)) as H0. rewrite Nat.add_0_r in H0. by rewrite H0.
Qed.

Lemma IBLOCK_eq inum : 0 <= inum < 208 → IBLOCK inum mkfs_sb = 32 + inum / 8 ∧ 32 <= 32 + inum / 8 < 58.
Proof.
  intros H. unfold IBLOCK. change (sb_inodestart mkfs_sb) with 32. change IPB with 8. split; [rewrite u32_small by (change (2 ^ 32) with 4294967296; divlia); lia|divlia].
Qed.

Lemma IBLOCK_range inum : 0 <= inum < 208 → 0 <= IBLOCK inum mkfs_sb < FSSIZE ∧ IBLOCK inum mkfs_sb < nmeta ∧ IBLOCK inum mkfs_sb ≠ 1.
Proof. intros H. destruct (IBLOCK_eq inum H) as [-> Hr]. rewrite FSSIZE_eq, nmeta_eq. lia. Qed.

Lemma dinode_off_other inum inum' : 0 <= inum < 208 → 0 <= inum' < 208 → inum' ≠ inum → IBLOCK inum' mkfs_sb = IBLOCK inum mkfs_sb →
  (dinode_off inum' + 64 <= dinode_off inum ∨ dinode_off inum + 64 <= dinode_off inum')%nat.
Proof.
  intros H H' Hne E. rewrite (proj1 (IBLOCK_eq inum H)), (proj1 (IBLOCK_eq inum' H')) in E. unfold dinode_off. change IPB with 8.
  pose proof (Z.mod_pos_bound inum 8). pose proof (Z.mod_pos_bound inum' 8). assert (inum' mod 8 ≠ inum mod 8) by divlia. lia.
Qed.

(** What [winode] leaves. *)
Definition with_inode (inum : Z) (ip : inode) (s : mkfs_t) : mkfs_t :=
  write_img (IBLOCK inum mkfs_sb) (dinode_put ip (dinode_off inum) (mk_img s (IBLOCK inum mkfs_sb))) s.

Lemma winode_eq s inum ip : mk_len s = FSSIZE → 0 <= inum < 208 → winode inum ip s = Ret tt (with_inode inum ip s).
Proof.
  intros Hl Hi. destruct (IBLOCK_range inum Hi) as [Hr _]. unfold winode. by rewrite (bind_Ret_eq _ _ _ _ _ (rsect_eq s _ Hl Hr)), wsect_eq.
Qed.

Lemma rinode_eq s inum : mk_len s = FSSIZE → 0 <= inum < 208 → rinode inum s = Ret (image_inode (mk_img s) inum) s.
Proof. intros Hl Hi. destruct (IBLOCK_range inum Hi) as [Hr _]. unfold rinode. by rewrite (bind_Ret_eq _ _ _ _ _ (rsect_eq s _ Hl Hr)). Qed.

(** An inode that is nothing but its fields on the disk. *)
Definition disk_only (ip : inode) : Prop :=
  ip = set_i_addrs (i_addrs ip) (set_i_size (i_size ip) (set_i_nlink (i_nlink ip) (set_i_minor (i_minor ip) (set_i_major (i_major ip) (set_i_type (i_type ip) inode0))))).

Lemma with_inode_eq s inum ip : 0 <= inum < 208 → inode_typed ip → disk_only ip → length (mk_img s (IBLOCK inum mkfs_sb)) = 512%nat →
  image_inode (mk_img (with_inode inum ip s)) inum = ip.
Proof.
  intros Hi Ht Hd Hl. unfold image_inode, with_inode. cbn [mk_img write_img set_mk_img]. rewrite fset_eq. pose proof (dinode_off_fits inum) as Hf.
  pose proof (dinode_roundtrip ip (dinode_off inum) (mk_img s (IBLOCK inum mkfs_sb)) inode0 Ht ltac:(lia)) as (S1 & S2 & S3 & S4 & S5 & S6).
  set (x := dinode_load _ _ _) in *. assert (Hx : disk_only x) by reflexivity. rewrite Hx, S1, S2, S3, S4, S5, S6. by symmetry.
Qed.

Lemma with_inode_ne s inum ip inum' : 0 <= inum < 208 → 0 <= inum' < 208 → inum' ≠ inum → inode_typed ip → length (mk_img s (IBLOCK inum mkfs_sb)) = 512%nat →
  image_inode (mk_img (with_inode inum ip s)) inum' = image_inode (mk_img s) inum'.
Proof.
  intros Hi Hi' Hne Ht Hl. unfold image_inode, with_inode. cbn [mk_img write_img set_mk_img]. unfold fset. destruct (Z.eqb_spec (IBLOCK inum' mkfs_sb) (IBLOCK inum mkfs_sb)) as [E|E]; [|done].
  apply dinode_load_ext. rewrite E. apply dinode_put_other; [apply Ht|pose proof (dinode_off_fits inum); lia|by apply dinode_off_other].
Qed.

Lemma length_with_inode s inum ip b : 0 <= inum < 208 → inode_typed ip → length (mk_img s (IBLOCK inum mkfs_sb)) = 512%nat → length (mk_img s b) = 512%nat →
  length (mk_img (with_inode inum ip s) b) = 512%nat.
Proof.
  intros Hi Ht Hl Hb. unfold with_inode. cbn [mk_img write_img set_mk_img]. unfold fset. destruct (b =? _); [|done]. unfold dinode_put, put_addrs.
  pose proof (dinode_off_fits inum) as Hf. pose proof (length_addrs (i_addrs ip)) as Ha. rewrite (it_len _ Ht) in Ha. unfold NDIRECT in Ha.
  rewrite length_splice; rewrite ?length_put32, ?length_put16; rewrite ?length_put32, ?length_put16; rewrite ?length_put16; rewrite ?length_put16; rewrite ?length_put16; rewrite ?length_put16; lia.
Qed.

Lemma dinode_of_typed s fs i f : alloc_ok s fs → fs !! i = Some f → 0 <= if_type f < 2 ^ 15 → ∀ size, 0 <= size < 2 ^ 32 → inode_typed (dinode_of f size).
Proof.
  intros Hok Hf Ht size Hs. change (2 ^ 15) with 32768 in *. split; cbn; change (2 ^ 15) with 32768; try lia; [done|]. apply list.Forall_forall.
  intros x Hx. assert (x = 0 ∨ x ∈ owned f) as [->|Ho].
  { change (x ∈ addrs_of f) in Hx. unfold addrs_of in Hx. apply elem_of_app in Hx as [Hx|Hx%list_elem_of_singleton].
    - apply list_elem_of_fmap in Hx as (j & -> & _). destruct (if_blocks f !! j) as [b|] eqn:E; [right|by left]. apply owned_block. by eapply list_elem_of_lookup_2.
    - destruct (decide (if_ind f = 0)) as [E|E]; [left; congruence|right]. rewrite Hx. by apply owned_ind. }
  - change (2 ^ 32) with 4294967296. lia.
  - pose proof (alloc_disk s fs i f Hok Hf x Ho) as Hr. rewrite FSSIZE_eq in Hr. change (2 ^ 32) with 4294967296. lia.
Qed.

(** ** One file *)
Lemma alloc_low s s' fs : alloc_ok s fs → mk_len s' = mk_len s → mk_freeblock s' = mk_freeblock s → (∀ b, nmeta <= b → mk_img s' b = mk_img s b) →
  (∀ b, 0 <= b < FSSIZE → length (mk_img s' b) = 512%nat) → alloc_ok s' fs.
Proof.
  intros [A1 A2 A3 A4 A5 A6 A7 A8] Hl Hf Hi Hs. rewrite <- Hf in *. split; try done; [congruence| |].
  - intros b Hb. rewrite Hi; [by apply A6|]. lia.
  - intros i f Hif. apply (body_ok_same (mk_img s)); [|by apply (A8 i)]. intros b Hb. apply Hi. rewrite list.Forall_forall in A4.
    apply A4. apply (elem_in_owned _ f); [by eapply list_elem_of_lookup_2|done].
Qed.

Lemma with_inode_alloc s fs inum ip : alloc_ok s fs → 0 <= inum < 208 → inode_typed ip → alloc_ok (with_inode inum ip s) fs.
Proof.
  intros Hok Hi Ht. destruct (IBLOCK_range inum Hi) as (Hr & Hlow & _). apply (alloc_low s); try done.
  - intros b Hb. apply fset_ne. lia.
  - intros b Hb. apply length_with_inode; [done|done|by apply (ao_size _ _ Hok)..].
Qed.

(** [iappend]: the file [i] becomes longer. *)
Lemma iappend_ok s fs i f p : img_ok s fs → (length fs <= 200)%nat → fs !! i = Some f → (length (if_data f) + length p <= 140 * 512)%nat →
  mk_freeblock s - blocks_needed (length (if_data f)) + blocks_needed (length (if_data f) + length p) <= FSSIZE →
  ∃ s' f', iappend (1 + Z.of_nat i) p s = Ret tt s' ∧ img_ok s' (<[i := f']> fs) ∧ if_type f' = if_type f ∧ if_data f' = if_data f ++ p.
Proof.
  intros [Ha Ht Hty Hin Hnx Hsb] Hfs Hf Hmax Hroom. pose proof (lookup_lt_Some _ _ _ Hf) as Hil. assert (Hn : 0 <= 1 + Z.of_nat i < 208) by lia.
  pose proof (list.Forall_lookup_1 _ _ _ _ Ht Hf) as Htf. pose proof (list.Forall_lookup_1 _ _ _ _ Hty Hf) as Htyf. cbn in Htyf.
  pose proof (tight_owned f (bo_room _ _ (ao_bodies _ _ Ha i f Hf)) Htf) as Hol.
  unfold iappend. rewrite (bind_Ret_eq _ _ _ _ _ (rinode_eq s _ (ao_len _ _ Ha) Hn)), (Hin i f Hf).
  change (i_size (dinode_of f _)) with (Z.of_nat (length (if_data f))). rewrite xint_id by (change (2 ^ 32) with 4294967296; lia).
  destruct (iappend_loop_ok i (length p) p s fs f (dinode_of f (Z.of_nat (length (if_data f)))) ltac:(lia) Ha Hf Htf eq_refl Hmax ltac:(lia)) as (s1 & f1 & E & Ha1 & T1 & Y1 & D1 & [L1 L2]).
  rewrite (bind_Ret_eq _ _ _ _ _ E), xint_id by (change (2 ^ 32) with 4294967296; lia).
  assert (Hlen : (length (if_data f) + length p)%nat = length (if_data f1)) by (rewrite D1, length_app; done). rewrite Hlen.
  assert (Hip : set_i_size (Z.of_nat (length (if_data f1))) (set_i_addrs (addrs_of f1) (dinode_of f (Z.of_nat (length (if_data f))))) = dinode_of f1 (Z.of_nat (length (if_data f1))))
    by (unfold dinode_of; by rewrite Y1). rewrite Hip, winode_eq by (apply Ha1 || done).
  assert (Hf1 : <[i := f1]> fs !! i = Some f1) by (by apply list_lookup_insert_eq).
  assert (Hty1 : inode_typed (dinode_of f1 (Z.of_nat (length (if_data f1))))).
  { eapply (dinode_of_typed s1 (<[i := f1]> fs) i f1); [done|done|by rewrite Y1|]. change (2 ^ 32) with 4294967296. lia. }
  destruct (IBLOCK_range _ Hn) as (Hr & Hlow & H1). pose proof (ao_size _ _ Ha1 _ Hr) as Hbl.
  assert (Himg : ∀ inum, 0 <= inum < 208 → image_inode (mk_img s1) inum = image_inode (mk_img s) inum).
  { intros inum Hi. unfold image_inode. rewrite L1; [done|]. by apply IBLOCK_range. }
  eexists _, f1. split; [done|]. split; [|done]. split.
  - by apply with_inode_alloc.
  - by apply Forall_insert.
  - apply Forall_insert; [done|]. by rewrite Y1.
  - intros j g Hg. destruct (decide (j = i)) as [->|Hne].
    + rewrite Hf1 in Hg. injection Hg as <-. by apply with_inode_eq.
    + rewrite list_lookup_insert_ne in Hg by done. pose proof (lookup_lt_Some _ _ _ Hg). rewrite with_inode_ne by (done || lia). rewrite Himg by lia. by apply Hin.
  - rewrite length_insert. cbn. by rewrite L2.
  - cbn. unfold fset. rewrite (proj2 (Z.eqb_neq 1 _)) by done. rewrite L1; [done|]. rewrite nmeta_eq. lia.
Qed.

(** [ialloc]: an empty file. *)
Lemma ialloc_ok s fs t : img_ok s fs → (length fs < 200)%nat → 0 <= t < 2 ^ 15 →
  ∃ s', ialloc t s = Ret (1 + Z.of_nat (length fs)) s' ∧ img_ok s' (fs ++ [mk_ifile t [] [] 0]) ∧ mk_freeblock s' = mk_freeblock s.
Proof.
  intros [Ha Ht Hty Hin Hnx Hsb] Hfs Ht15. unfold ialloc. rewrite bind_gets, bind_modify, Hnx, u32_small by (change (2 ^ 32) with 4294967296; lia).
  set (f := mk_ifile t [] [] 0). set (s1 := set_mk_freeinode _ s).
  assert (Hx : xshort t = t) by (unfold xshort; rewrite le_val_le_bytes; apply Z.mod_small; change (2 ^ 15) with 32768 in Ht15; cbn; lia).
  assert (Hip : set_i_size (xint 0) (set_i_nlink (s16 (xshort 1)) (set_i_type (s16 (xshort t)) inode0)) = dinode_of f 0).
  { rewrite Hx. unfold dinode_of. replace (s16 t) with t; [done|]. unfold s16. change (2 ^ 15) with 32768 in *. change (2 ^ 16) with 65536. divlia. }
  assert (Ha1 : alloc_ok s1 fs) by (apply (alloc_low s); try done; apply Ha).
  assert (Hn : 0 <= 1 + Z.of_nat (length fs) < 208) by lia. destruct (IBLOCK_range _ Hn) as (Hr & Hlow & H1).
  cbv zeta. rewrite Hip, (bind_Ret_eq _ _ _ _ _ (winode_eq s1 _ _ (ao_len _ _ Ha1) Hn)).
  assert (Hown : concat (owned <$> fs ++ [f]) = concat (owned <$> fs)) by (rewrite fmap_app, concat_app; cbn; by rewrite !app_nil_r).
  assert (Ha2 : alloc_ok s1 (fs ++ [f])).
  { destruct Ha1 as [A1 A2 A3 A4 A5 A6 A7 A8]. split; rewrite ?Hown; try done. intros i g [Hg|[_ Hg]]%lookup_app_Some; [by apply (A8 i)|].
    apply list_lookup_singleton_Some in Hg as [_ <-]. split; cbn; [lia|lia|lia|done|]. intros bn b H. by rewrite lookup_nil in H. }
  assert (Htyp : inode_typed (dinode_of f 0)).
  { eapply (dinode_of_typed s1 (fs ++ [f]) (length fs)); [done|by rewrite lookup_app_r, Nat.sub_diag by lia|done|lia]. }
  pose proof (ao_size _ _ Ha1 _ Hr) as Hbl. eexists. split; [done|]. split; [|done]. split.
  - by apply with_inode_alloc.
  - apply list.Forall_app. split; [done|]. constructor; [|done]. split; cbn; lia.
  - apply list.Forall_app. split; [done|]. by constructor.
  - intros j g [Hg|[Hge Hg]]%lookup_app_Some.
    + pose proof (lookup_lt_Some _ _ _ Hg). rewrite with_inode_ne by (done || lia). by apply Hin.
    + apply list_lookup_singleton_Some in Hg as [Hz <-]. assert (j = length fs) as -> by lia. by apply with_inode_eq.
  - rewrite length_app. cbn. lia.
  - cbn. unfold fset. by rewrite (proj2 (Z.eqb_neq 1 _)) by done.
Qed.

(** ** The files of the command line *)

(** What the host's files hold: a name and what [read] returns, in order. *)
Notation hostfile := (list Z * list (list Z))%type.
Definition as_arg (a : hostfile) : list Z * option (list (list Z)) := (a.1, Some a.2).

(** The files of the image, the root directory first. *)
Definition root_data (args : list hostfile) : list Z :=
  mk_dirent 1 [46] ++ mk_dirent 1 [46; 46] ++ concat (imap (λ j a, mk_dirent (2 + Z.of_nat j) (skip_underscore a.1)) args).
Definition image_files (args : list hostfile) : list (Z * list Z) :=
  (T_DIR, root_data args) :: ((λ a : hostfile, (T_FILE, concat a.2)) <$> args).

Definition total (c : list (Z * list Z)) : Z := foldr (λ d t, blocks_needed (length d.2) + t) 0 c.
Definition contents (fs : list ifile) : list (Z * list Z) := (λ f, (if_type f, if_data f)) <$> fs.

(** The image can hold them. *)
Record fits (args : list hostfile) : Prop := mk_fits {
  ft_names : Forall (λ a, 47 ∉ a.1) args;
  ft_sizes : Forall (λ a, Z.of_nat (length (concat a.2)) <= MAXFILE * BSIZE) args;
  ft_count : (length args < 199)%nat;
  ft_total : nmeta + total (image_files args) <= FSSIZE;
}.

Lemma blocks_needed_pos n : 0 <= blocks_needed n.
Proof. unfold blocks_needed. assert (0 <= (Z.of_nat n + 511) / 512) by (apply Z.div_pos; lia). destruct (_ <? _); lia. Qed.

Lemma total_app c c' : total (c ++ c') = total c + total c'.
Proof. unfold total. induction c as [|d c IH]; [done|]. cbn [app foldr]. rewrite IH. lia. Qed.
Lemma total_pos c : 0 <= total c.
Proof. induction c as [|d c IH]; [done|]. unfold total in *. cbn [foldr]. pose proof (blocks_needed_pos (length d.2)). lia. Qed.
Lemma total_cons t d c : total ((t, d) :: c) = blocks_needed (length d) + total c.
Proof. reflexivity. Qed.

Lemma total_insert c i t d x : c !! i = Some (t, d) → total (<[i := x]> c) = total c - blocks_needed (length d) + blocks_needed (length x.2).
Proof.
  revert i. induction c as [|[t' d'] c IH]; intros [|i] H; [done|done|injection H as -> ->|].
  - cbn [insert list_insert]. destruct x. rewrite !total_cons. cbn [snd]. lia.
  - change (<[S i := x]> ((t', d') :: c)) with ((t', d') :: <[i := x]> c). rewrite !total_cons, (IH i) by done. lia.
Qed.

Lemma img_free s fs : img_ok s fs → mk_freeblock s = nmeta + total (contents fs).
Proof.
  intros [Ha Ht _ _ _ _]. rewrite (ao_free _ _ Ha). f_equal. assert (Hb : ∀ f, f ∈ fs → (length (if_data f) <= 512 * length (if_blocks f))%nat).
  { intros f (i & Hi)%list_elem_of_lookup. apply (bo_room _ _ (ao_bodies _ _ Ha i f Hi)). }
  clear Ha. induction Ht as [|f fs Hf _ IH]; [done|]. change (concat (owned <$> f :: fs)) with (owned f ++ concat (owned <$> fs)).
  rewrite length_app, Nat2Z.inj_add, tight_owned, IH; [done|intros g Hg; apply Hb; by right|apply Hb; by left|done].
Qed.

Lemma iappend_contents s fs i t d p : img_ok s fs → (length fs <= 200)%nat → contents fs !! i = Some (t, d) → Z.of_nat (length (d ++ p)) <= MAXFILE * BSIZE →
  nmeta + total (<[i := (t, d ++ p)]> (contents fs)) <= FSSIZE →
  ∃ s' fs', iappend (1 + Z.of_nat i) p s = Ret tt s' ∧ img_ok s' fs' ∧ contents fs' = <[i := (t, d ++ p)]> (contents fs).
Proof.
  intros Hok Hfs Hc Hmax Hroom. unfold contents in Hc. rewrite list_lookup_fmap in Hc. destruct (fs !! i) as [f|] eqn:Hf; [|done]. injection Hc as <- <-.
  rewrite length_app in Hmax. change (MAXFILE * BSIZE) with 71680 in Hmax.
  rewrite (total_insert _ _ (if_type f) (if_data f)) in Hroom by (unfold contents; by rewrite list_lookup_fmap, Hf). pose proof (img_free s fs Hok) as Hfree. cbn [snd] in Hroom. rewrite length_app in Hroom.
  destruct (iappend_ok s fs i f p Hok Hfs Hf ltac:(lia) ltac:(lia)) as (s' & f' & E & Hok' & Y & D). exists s', (<[i := f']> fs). split; [done|]. split; [done|].
  unfold contents. rewrite list_fmap_insert. by rewrite Y, D.
Qed.

(** The contents of one host file. *)
Lemma appends_ok reads : ∀ s fs i t d, img_ok s fs → (length fs <= 200)%nat → contents fs !! i = Some (t, d) → Z.of_nat (length (d ++ concat reads)) <= MAXFILE * BSIZE →
  nmeta + total (<[i := (t, d ++ concat reads)]> (contents fs)) <= FSSIZE →
  ∃ s' fs', mfor reads (iappend (1 + Z.of_nat i)) s = Ret tt s' ∧ img_ok s' fs' ∧ contents fs' = <[i := (t, d ++ concat reads)]> (contents fs).
Proof.
  induction reads as [|p reads IH]; intros s fs i t d Hok Hfs Hc Hmax Hroom; cbn [concat mfor].
  { exists s, fs. rewrite app_nil_r, list_insert_id by done. done. }
  cbn [concat] in Hmax, Hroom. rewrite app_assoc in Hmax, Hroom. assert (Hle : (length (d ++ p) <= length ((d ++ p) ++ concat reads))%nat) by (rewrite (length_app (d ++ p)); lia).
  destruct (iappend_contents s fs i t d p Hok Hfs Hc) as (s1 & fs1 & E & Hok1 & Hc1); [lia| |].
  { rewrite (total_insert _ _ t d) in Hroom |- * by done. pose proof (blocks_needed_mono _ _ Hle). cbn [snd] in *. lia. }
  rewrite (bind_Ret_eq _ _ _ _ _ E). assert (Hi : (i < length (contents fs))%nat) by (by eapply lookup_lt_Some).
  assert (Hl1 : length fs1 = length fs) by (apply (f_equal length) in Hc1; unfold contents in Hc1; by rewrite length_insert, !length_fmap in Hc1).
  destruct (IH s1 fs1 i t (d ++ p) Hok1) as (s2 & fs2 & E2 & Hok2 & Hc2); [lia|rewrite Hc1; by apply list_lookup_insert_eq|done|by rewrite Hc1, list_insert_insert_eq|].
  exists s2, fs2. split; [exact E2|]. split; [done|]. by rewrite Hc2, Hc1, list_insert_insert_eq, app_assoc.
Qed.

Lemma length_mk_dirent inum name : length (mk_dirent inum name) = 16%nat.
Proof. unfold mk_dirent, strncpy_result. rewrite length_app, length_le_bytes, length_app, length_take, length_replicate. unfold DIRSIZ. lia. Qed.

Lemma root_data_snoc done a : root_data (done ++ [a]) = root_data done ++ mk_dirent (2 + Z.of_nat (length done)) (skip_underscore a.1).
Proof. unfold root_data. rewrite imap_app, concat_app. cbn [imap imap concat]. rewrite app_nil_r, !app_assoc. cbn. by rewrite Nat.add_0_r. Qed.

Lemma length_root_data args : length (root_data args) = (32 + 16 * length args)%nat.
Proof.
  induction args as [|a args IH] using rev_ind; [done|]. rewrite root_data_snoc, length_app, length_mk_dirent, IH, length_app. cbn [length]. lia.
Qed.

Lemma image_files_snoc done a :
  image_files (done ++ [a]) = (T_DIR, root_data (done ++ [a])) :: ((λ a : hostfile, (T_FILE, concat a.2)) <$> done) ++ [(T_FILE, concat a.2)].
Proof. unfold image_files. by rewrite fmap_app. Qed.

(** What is there at any time takes no more blocks than what will be. *)
Lemma room_prefix done a args r d : (length r <= length (root_data (done ++ a :: args)))%nat → (length d <= length (concat a.2))%nat →
  total ((T_DIR, r) :: ((λ a : hostfile, (T_FILE, concat a.2)) <$> done) ++ [(T_FILE, d)]) <= total (image_files (done ++ a :: args)).
Proof.
  intros Hr Hd. unfold image_files. rewrite !total_cons, fmap_app, !total_app, fmap_cons. rewrite !total_cons.
  pose proof (blocks_needed_mono _ _ Hr). pose proof (blocks_needed_mono _ _ Hd). pose proof (total_pos ((λ a : hostfile, (T_FILE, concat a.2)) <$> args)).
  change (total []) with 0. lia.
Qed.

Lemma slot_last (t : Z) (r : list Z) (c : list (Z * list Z)) (x : Z * list Z) : let c0 := (t, r) :: c ++ [x] in
  c0 !! S (length c) = Some x ∧ ∀ y, <[S (length c) := y]> c0 = (t, r) :: c ++ [y].
Proof.
  cbv zeta. split; [|intros y; change (<[S (length c) := y]> ((t, r) :: c ++ [x])) with ((t, r) :: <[length c := y]> (c ++ [x]))].
  - change ((c ++ [x]) !! length c = Some x). by rewrite lookup_app_r, Nat.sub_diag by lia.
  - by rewrite insert_app_r_alt, Nat.sub_diag by lia.
Qed.

Lemma mkfs_file_ok done a args s fs : fits (done ++ a :: args) → img_ok s fs → contents fs = image_files done →
  ∃ s' fs', mkfs_file 1 (as_arg a) s = Ret tt s' ∧ img_ok s' fs' ∧ contents fs' = image_files (done ++ [a]).
Proof.
  intros [Hn Hsz Hct Htot] Hok Hc. rewrite length_app in Hct. cbn [length] in Hct. rewrite list.Forall_forall in Hn, Hsz.
  assert (Ha : a ∈ done ++ a :: args) by (apply elem_of_app; right; by left). specialize (Hn a Ha). specialize (Hsz a Ha).
  assert (Hfs : length fs = S (length done)) by (apply (f_equal length) in Hc; unfold contents, image_files in Hc; cbn in Hc; by rewrite !length_fmap in Hc).
  unfold mkfs_file, as_arg. rewrite bool_decide_eq_false_2 by done.
  destruct (ialloc_ok s fs T_FILE Hok ltac:(lia) ltac:(done)) as (s1 & E1 & Hok1 & _). rewrite (bind_Ret_eq _ _ _ _ _ E1).
  set (fs1 := fs ++ [mk_ifile T_FILE [] [] 0]) in *.
  assert (Hc1 : contents fs1 = (T_DIR, root_data done) :: ((λ a : hostfile, (T_FILE, concat a.2)) <$> done) ++ [(T_FILE, [])]) by (unfold fs1, contents in *; rewrite fmap_app, Hc; done).
  assert (Hl1 : length fs1 = S (S (length done))) by (unfold fs1; rewrite length_app, Hfs; cbn; lia).
  rewrite Hfs. replace (1 + Z.of_nat (S (length done))) with (2 + Z.of_nat (length done)) by lia. set (de := mk_dirent _ _).
  assert (Hroot : root_data done ++ de = root_data (done ++ [a])) by (by rewrite root_data_snoc).
  assert (Hrl : length (root_data (done ++ [a])) = (48 + 16 * length done)%nat) by (rewrite length_root_data, length_app; cbn; lia).
  assert (Hrl2 : (48 + 16 * length done <= length (root_data (done ++ a :: args)))%nat) by (rewrite length_root_data, length_app; cbn; lia).
  change 1 with (1 + Z.of_nat 0) at 1. destruct (iappend_contents s1 fs1 0 T_DIR (root_data done) de Hok1) as (s2 & fs2 & E2 & Hok2 & Hc2); [lia|by rewrite Hc1| | |].
  { rewrite Hroot, Hrl. change (MAXFILE * BSIZE) with 71680. lia. }
  { rewrite Hroot, Hc1. etrans; [|exact Htot]. apply Z.add_le_mono_l. apply (room_prefix done a args); [lia|cbn; lia]. }
  rewrite (bind_Ret_eq _ _ _ _ _ E2). rewrite Hc1, Hroot in Hc2. cbn [insert list_insert] in Hc2.
  assert (Hl2 : length fs2 = S (S (length done))) by (apply (f_equal length) in Hc2; unfold contents in Hc2; cbn [length] in Hc2; rewrite length_app, !length_fmap in Hc2; cbn in Hc2; lia).
  pose proof (slot_last T_DIR (root_data (done ++ [a])) ((λ a : hostfile, (T_FILE, concat a.2)) <$> done) (T_FILE, [])) as Hlast. rewrite length_fmap in Hlast.
  destruct Hlast as [Hlk Hins]. rewrite <- Hc2 in Hlk, Hins. replace (2 + Z.of_nat (length done)) with (1 + Z.of_nat (S (length done))) by lia.
  specialize (Hins (T_FILE, [] ++ concat a.2)). cbn [app] in Hins. rewrite <- image_files_snoc in Hins.
  destruct (appends_ok a.2 s2 fs2 (S (length done)) T_FILE [] Hok2) as (s3 & fs3 & E3 & Hok3 & Hc3); [lia|done|done| |].
  { cbn [app]. rewrite Hins, image_files_snoc. etrans; [|exact Htot]. apply Z.add_le_mono_l. apply (room_prefix done a args); [lia|lia]. }
  exists s3, fs3. split; [exact E3|]. split; [done|]. rewrite Hc3. exact Hins.
Qed.

Lemma mkfs_files_ok args : ∀ done s fs, fits (done ++ args) → img_ok s fs → contents fs = image_files done →
  ∃ s' fs', mfor (as_arg <$> args) (mkfs_file 1) s = Ret tt s' ∧ img_ok s' fs' ∧ contents fs' = image_files (done ++ args).
Proof.
  induction args as [|a args IH]; intros done s fs Hf Hok Hc; cbn [fmap list_fmap mfor].
  { exists s, fs. rewrite app_nil_r. done. }
  destruct (mkfs_file_ok done a args s fs Hf Hok Hc) as (s1 & fs1 & E1 & Hok1 & Hc1). rewrite (bind_Ret_eq _ _ _ _ _ E1).
  destruct (IH (done ++ [a]) s1 fs1) as (s2 & fs2 & E2 & Hok2 & Hc2); [by rewrite <- app_assoc|done|done|]. exists s2, fs2. split; [exact E2|]. split; [done|].
  by rewrite Hc2, <- app_assoc.
Qed.

(** ** The empty image *)
Lemma wsect_zero s x : 0 <= x < FSSIZE → (∀ b, mk_img s b = zeroes) → ∃ s', wsect x zeroes s = Ret tt s' ∧ (∀ b, mk_img s' b = zeroes) ∧
  mk_len s' = Z.max (mk_len s) (x + 1) ∧ mk_freeinode s' = mk_freeinode s ∧ mk_freeblock s' = mk_freeblock s.
Proof.
  intros Hx Hz. unfold wsect, modify. rewrite sector_id by lia. eexists. split; [done|]. split; [|done]. intros b. cbn [mk_img set_mk_len set_mk_img]. by destruct (b =? x).
Qed.

Lemma zero_image l : ∀ s, Forall (λ x, 0 <= x < FSSIZE) l → (∀ b, mk_img s b = zeroes) → ∃ s', mfor l (λ i, wsect i zeroes) s = Ret tt s' ∧ (∀ b, mk_img s' b = zeroes) ∧
  mk_len s' = foldl (λ m x, Z.max m (x + 1)) (mk_len s) l ∧ mk_freeinode s' = mk_freeinode s ∧ mk_freeblock s' = mk_freeblock s.
Proof.
  induction l as [|x l IH]; intros s Hl Hz; cbn [mfor foldl]; [by exists s|]. apply list.Forall_cons_1 in Hl as [Hx Hl].
  destruct (wsect_zero s x Hx Hz) as (s1 & E & Hz1 & L1 & I1 & B1). rewrite (bind_Ret_eq _ _ _ _ _ E). destruct (IH s1 Hl Hz1) as (s2 & E2 & Hz2 & L2 & I2 & B2).
  exists s2. split; [exact E2|]. split; [done|]. rewrite L2, L1. split; [done|]. split; congruence.
Qed.

Definition sb_block : list Z := splice 0 (sb_bytes mkfs_sb) zeroes.

Lemma superblock_read : superblock_of sb_block = mkfs_sb.
Proof. reflexivity. Qed.

(** Up to the first [ialloc]. *)
Lemma mkfs_start : ∃ s, (∀ m : MK unit, (modify (set_mk_freeblock nmeta) ;; mfor (seqZ 0 FSSIZE) (λ i, wsect i zeroes) ;; wsect 1 sb_block ;; m) mkfs0 = m s) ∧ img_ok s [].
Proof.
  destruct (zero_image (seqZ 0 FSSIZE) (set_mk_freeblock nmeta mkfs0)) as (s & E & Hz & L & I & B); [|done|].
  { apply list.Forall_forall. intros x ?%elem_of_seqZ. lia. }
  assert (HL : mk_len s = FSSIZE) by (rewrite L; vm_compute; reflexivity).
  assert (H1 : 0 <= 1 < FSSIZE) by (rewrite FSSIZE_eq; lia). exists (write_img 1 sb_block s). split.
  { intros m. by rewrite bind_modify, (bind_Ret_eq _ _ _ _ _ E), (bind_Ret_eq _ _ _ _ _ (wsect_eq s 1 sb_block HL H1)). } split; [|constructor|constructor|by intros i f ?|exact I|done].
  split; [exact HL|exact B|cbn; rewrite B; vm_compute; discriminate|constructor|constructor| |cbn|by intros i f ?].
  - intros b Hb. cbn in Hb. rewrite B in Hb. cbn. rewrite fset_ne by (cbn in Hb; rewrite nmeta_eq in Hb; lia). apply Hz.
  - intros b _. cbn [mk_img write_img set_mk_img]. unfold fset. destruct (b =? 1); [reflexivity|]. rewrite Hz. reflexivity.
Qed.

(** ** What a file of the image is *)
Record is_file (D : Z → list Z) (top : Z) (inum t : Z) (d : list Z) (size : Z) (ip : inode) : Prop := mk_is_file {
  if_type_eq : i_type ip = t;
  if_size_eq : i_size ip = size;
  if_nlink_eq : i_nlink ip = 1;
  if_addrs_len : length (i_addrs ip) = S NDIRECT;
  if_bytes : file_bytes ip D 0 (length d) = d;
  if_on_disk : ∀ bn, 0 <= bn → bn * BSIZE < Z.of_nat (length d) → let b := file_block ip D bn in nmeta <= b < top ∧ length (D b) = 512%nat ∧
    ∀ r, 0 <= r < BSIZE → Z.of_nat (length d) <= bn * BSIZE + r → D b !! Z.to_nat r = Some 0;
  if_ind_disk : 12 * BSIZE < Z.of_nat (length d) → nmeta <= default 0 (i_addrs ip !! NDIRECT) < top;
}.

Section read_back.
Context (s : mkfs_t) (fs : list ifile) (i : nat) (f : ifile) (size : Z) (ip : inode).
Hypothesis (Hok : alloc_ok s fs) (Hf : fs !! i = Some f) (Ht : tight f) (Haddr : i_addrs ip = addrs_of f).

Lemma file_block_of bn b : if_blocks f !! bn = Some b → file_block ip (mk_img s) (Z.of_nat bn) = b.
Proof using Hok Hf Ht Haddr.
  intros Hb. pose proof (lookup_lt_Some _ _ _ Hb) as Hl. pose proof (ao_bodies _ _ Hok i f Hf) as [B1 B2 B3 B4 B5]. unfold file_block. rewrite Haddr.
  destruct (Z.ltb_spec (Z.of_nat bn) 12) as [Hd|Hd].
  - rewrite Nat2Z.id, addrs_lookup by lia. cbn [from_option id]. by rewrite Hb.
  - change (addrs_of f !! NDIRECT) with (Some (if_ind f)). cbn [from_option id]. replace (Z.to_nat (Z.of_nat bn - 12)) with (bn - 12)%nat by lia.
    rewrite B4 by (lia || (apply B3; lia)). replace (12 + (bn - 12))%nat with bn by lia. by rewrite Hb.
Qed.

Lemma block_of_offset off : 0 <= off < Z.of_nat (length (if_data f)) → ∃ b, if_blocks f !! Z.to_nat (off / 512) = Some b ∧ file_block ip (mk_img s) (off / 512) = b ∧
  mk_img s b = block_at (if_data f) (Z.to_nat (off / 512)).
Proof using Hok Hf Ht Haddr.
  intros Ho. pose proof (ao_bodies _ _ Hok i f Hf) as [B1 B2 B3 B4 B5]. destruct (lookup_lt_is_Some_2 (if_blocks f) (Z.to_nat (off / 512))) as [b Hb]; [divlia|].
  exists b. split; [done|]. split; [|by apply B5]. rewrite <- (file_block_of _ _ Hb). f_equal. divlia.
Qed.

Lemma file_of : i_type ip = if_type f → i_size ip = size → i_nlink ip = 1 → is_file (mk_img s) (mk_freeblock s) (1 + Z.of_nat i) (if_type f) (if_data f) size ip.
Proof using Hok Hf Ht Haddr.
  intros H1 H2 H3. pose proof (ao_bodies _ _ Hok i f Hf) as [B1 B2 B3 B4 B5]. split; [done|done|done|by rewrite Haddr| | |].
  - unfold file_bytes. apply list_eq. intros j. rewrite list_lookup_fmap. destruct (decide (j < length (if_data f))%nat) as [Hj|Hj].
    + rewrite lookup_seq_lt by done. cbn [fmap option_fmap option_map]. unfold file_byte. rewrite BSIZE_eq. rewrite !Z.add_0_l, Nat.add_0_l.
      destruct (block_of_offset (Z.of_nat j)) as (b & _ & -> & ->); [lia|]. rewrite block_at_lookup by divlia. cbn [from_option id].
      replace (512 * Z.to_nat (Z.of_nat j / 512) + Z.to_nat (Z.of_nat j mod 512))%nat with j by divlia.
      destruct (lookup_lt_is_Some_2 _ _ Hj) as [x Hx]. by rewrite Hx.
    + rewrite lookup_seq_ge, lookup_ge_None_2 by lia. done.
  - intros bn Hbn Hlt. rewrite BSIZE_eq in *. destruct (block_of_offset (bn * 512)) as (b & Hb & Hbl & HD); [lia|]. rewrite Z.div_mul in * by lia. cbv zeta. rewrite Hbl, HD.
    split; [apply (alloc_owned s fs i f Hok Hf), owned_block; by eapply list_elem_of_lookup_2|]. split; [apply length_block_at|].
    intros r Hr Hpast. rewrite block_at_lookup, lookup_ge_None_2 by lia. done.
  - intros Hlt. rewrite Haddr. change (addrs_of f !! NDIRECT) with (Some (if_ind f)). cbn [from_option id]. rewrite BSIZE_eq in Hlt.
    apply (alloc_owned s fs i f Hok Hf), owned_ind, B3. lia.
Qed.
End read_back.

(** ** The bitmap *)
Definition bitmap_block (used : Z) : list Z := foldl (λ buf i, bit_put i true buf) zeroes (seqZ 0 used).

Lemma bitmap_block_bits l : ∀ d b, length d = 512%nat → Forall (λ x, 0 <= x < 4096) l → 0 <= b →
  bit_of b (foldl (λ buf i, bit_put i true buf) d l) = bool_decide (b ∈ l) || bit_of b d.
Proof.
  induction l as [|x l IH]; intros d b Hd Hl Hb; cbn [foldl]; [done|]. apply list.Forall_cons_1 in Hl as [Hx Hl].
  rewrite IH by (done || by rewrite length_bit_put). rewrite bit_of_put by (lia || divlia). destruct (Z.eqb_spec b x) as [->|Hne].
  - rewrite orb_true_r, bool_decide_eq_true_2 by (by left). done.
  - f_equal. apply bool_decide_ext. set_solver.
Qed.

Lemma bitmap_block_bit used b : 0 <= used < 4096 → 0 <= b < 4096 → bit_of b (bitmap_block used) = (b <? used).
Proof.
  intros Hu Hb. unfold bitmap_block. rewrite bitmap_block_bits; [|done| |lia].
  - assert (Hz : bit_of b zeroes = false).
    { rewrite bit_of_testbit by lia. change zeroes with (replicate 512 0). rewrite lookup_replicate_2 by divlia. apply Z.bits_0. }
    rewrite Hz, orb_false_r. destruct (Z.ltb_spec b used); [apply bool_decide_eq_true_2|apply bool_decide_eq_false_2]; rewrite elem_of_seqZ; lia.
  - apply list.Forall_forall. intros x ?%elem_of_seqZ. lia.
Qed.

Lemma length_bitmap_block used : length (bitmap_block used) = 512%nat.
Proof.
  unfold bitmap_block. assert (H : ∀ l d, length d = 512%nat → length (foldl (λ buf i, bit_put i true buf) d l) = 512%nat); [|by apply H].
  induction l as [|x l IH]; intros d Hd; [done|]. apply IH. by rewrite length_bit_put.
Qed.

(** ** The whole tool *)
Definition root_size (args : list hostfile) : Z := (Z.of_nat (length (root_data args)) / BSIZE + 1) * BSIZE.

(** What [mkfs] leaves. *)
Record image_of (args : list hostfile) (s : mkfs_t) : Prop := mk_image_of {
  io_sb : superblock_of (mk_img s 1) = mkfs_sb;
  io_top : mk_freeblock s = nmeta + total (image_files args) ∧ mk_freeblock s <= FSSIZE;
  io_files : ∀ i t d, image_files args !! i = Some (t, d) →
    is_file (mk_img s) (mk_freeblock s) (1 + Z.of_nat i) t d (if (i =? 0)%nat then root_size args else Z.of_nat (length d)) (image_inode (mk_img s) (1 + Z.of_nat i));
  io_bitmap : ∀ b, 0 <= b < BPB → bit_of b (mk_img s (sb_bmapstart mkfs_sb)) = (b <? mk_freeblock s);
  io_block : ∀ b, 0 <= b < FSSIZE → length (mk_img s b) = 512%nat;
}.

Lemma dots_ok s : img_ok s [] → ∃ s1 fs1, (∀ m : Z → MK unit, (rootino <- ialloc T_DIR ;; if negb (rootino =? ROOTINO) then panic "assert" else
    iappend rootino (mk_dirent rootino [46]) ;; iappend rootino (mk_dirent rootino [46; 46]) ;; m rootino) s = m 1 s1) ∧ img_ok s1 fs1 ∧ contents fs1 = image_files [].
Proof.
  intros Hok. destruct (ialloc_ok s [] T_DIR Hok) as (s1 & E1 & Hok1 & _); [cbn; lia|done|]. change (1 + Z.of_nat (length [])) with 1 in E1.
  set (de1 := mk_dirent 1 [46]). set (de2 := mk_dirent 1 [46; 46]). cbn [app] in Hok1. set (fs1 := [mk_ifile T_DIR [] [] 0]) in *.
  assert (Hc1 : contents fs1 = [(T_DIR, [])]) by done.
  destruct (iappend_contents s1 fs1 0 T_DIR [] de1 Hok1) as (s2 & fs2 & E2 & Hok2 & Hc2); [cbn; lia|done|vm_compute; discriminate|vm_compute; discriminate|].
  rewrite Hc1 in Hc2. change (1 + Z.of_nat 0) with 1 in E2.
  assert (Hl2 : (length fs2 <= 200)%nat) by (apply (f_equal length) in Hc2; unfold contents in Hc2; rewrite length_fmap in Hc2; cbn in Hc2; lia).
  destruct (iappend_contents s2 fs2 0 T_DIR de1 de2 Hok2 Hl2) as (s3 & fs3 & E3 & Hok3 & Hc3); [by rewrite Hc2|vm_compute; discriminate|rewrite Hc2; vm_compute; discriminate|].
  change (1 + Z.of_nat 0) with 1 in E3. exists s3, fs3. split.
  { intros m. rewrite (bind_Ret_eq _ _ _ _ _ E1). change (1 =? ROOTINO) with true. cbn [negb]. by rewrite (bind_Ret_eq _ _ _ _ _ E2), (bind_Ret_eq _ _ _ _ _ E3). }
  split; [done|]. rewrite Hc3, Hc2. done.
Qed.

Lemma files_of args s fs : alloc_ok s fs → Forall tight fs → contents fs = image_files args →
  (∀ i f, fs !! i = Some f → image_inode (mk_img s) (1 + Z.of_nat i) = dinode_of f (if (i =? 0)%nat then root_size args else Z.of_nat (length (if_data f)))) →
  ∀ i t d, image_files args !! i = Some (t, d) →
    is_file (mk_img s) (mk_freeblock s) (1 + Z.of_nat i) t d (if (i =? 0)%nat then root_size args else Z.of_nat (length d)) (image_inode (mk_img s) (1 + Z.of_nat i)).
Proof.
  intros Ha Ht Hc Hin i t d Hi. rewrite <- Hc in Hi. unfold contents in Hi. rewrite list_lookup_fmap in Hi. destruct (fs !! i) as [f|] eqn:Hf; [|done]. injection Hi as <- <-.
  rewrite (Hin i f Hf). pose proof (list.Forall_lookup_1 _ _ _ _ Ht Hf) as Htf. by apply (file_of s fs i f _ _ Ha Hf Htf).
Qed.

Lemma mkfs_end args s fs : fits args → img_ok s fs → contents fs = image_files args →
  ∃ s', (din <- rinode 1 ;; let off := xint (i_size din) in winode 1 (set_i_size (xint (u32 ((off / BSIZE + 1) * BSIZE))) din) ;; b <- gets mk_freeblock ;; balloc b : MK unit) s = Ret tt s' ∧
    image_of args s'.
Proof.
  intros [_ _ Hct _] Hok Hc. pose proof (img_free s fs Hok) as Hfree. rewrite Hc in Hfree. destruct Hok as [Ha Ht Hty Hin Hnx Hsb].
  destruct fs as [|f fs]; [done|]. pose proof Hc as Hc0. injection Hc0 as Hf0 Hd0 Hcs.
  assert (Hfl : length (f :: fs) = S (length args)) by (apply (f_equal length) in Hcs; unfold contents in Hcs; rewrite !length_fmap in Hcs; cbn; lia).
  pose proof (Hin 0%nat f eq_refl) as Hi0. change (1 + Z.of_nat 0) with 1 in Hi0.
  assert (H1 : 0 <= 1 < 208) by lia. rewrite (bind_Ret_eq _ _ _ _ _ (rinode_eq s 1 (ao_len _ _ Ha) H1)), Hi0. cbv zeta. change (i_size (dinode_of f ?z)) with z.
  pose proof (length_root_data args) as Hrl. rewrite Hd0. rewrite (xint_id (Z.of_nat (length (root_data args)))) by (change (2 ^ 32) with 4294967296; lia). fold (root_size args).
  assert (Hrs : 0 <= root_size args < 2 ^ 32) by (unfold root_size; rewrite BSIZE_eq; change (2 ^ 32) with 4294967296; divlia).
  rewrite u32_small, xint_id by done. change (set_i_size (root_size args) (dinode_of f _)) with (dinode_of f (root_size args)).
  assert (Htyp : inode_typed (dinode_of f (root_size args))) by (eapply (dinode_of_typed s (f :: fs) 0 f); [done|done|rewrite Hf0; done|done]).
  rewrite (bind_Ret_eq _ _ _ _ _ (winode_eq s 1 _ (ao_len _ _ Ha) H1)), bind_gets. pose proof (with_inode_alloc s (f :: fs) 1 _ Ha H1 Htyp) as Ha1.
  set (s1 := with_inode 1 _ s) in *. change (mk_freeblock s1) with (mk_freeblock s). pose proof (ao_fits _ _ Ha) as Hfit. pose proof (ao_free _ _ Ha) as Hpos. rewrite FSSIZE_eq in Hfit. rewrite nmeta_eq in Hpos, Hfree.
  unfold balloc. rewrite BSIZE_eq, (proj2 (Z.ltb_lt _ _)) by lia. cbn [negb]. fold (bitmap_block (mk_freeblock s)). change (sb_bmapstart mkfs_sb) with 58.
  assert (H58 : 0 <= 58 < FSSIZE) by (rewrite FSSIZE_eq; lia). exists (write_img 58 (bitmap_block (mk_freeblock s)) s1). split; [exact (wsect_eq s1 58 _ (ao_len _ _ Ha1) H58)|].
  set (s2 := write_img 58 _ s1). assert (Ha2 : alloc_ok s2 (f :: fs)).
  { apply (alloc_low s1); try done.
    - intros b Hb. apply fset_ne. rewrite nmeta_eq in Hb. lia.
    - intros b Hb. cbn [mk_img s2 write_img set_mk_img]. unfold fset. destruct (b =? 58); [apply length_bitmap_block|]. by apply (ao_size _ _ Ha1). }
  destruct (IBLOCK_range 1 H1) as (Hr1 & _ & Hne1). pose proof (ao_size _ _ Ha _ Hr1) as Hbl.
  assert (Hlow : ∀ inum, 0 <= inum < 208 → image_inode (mk_img s2) inum = image_inode (mk_img s1) inum).
  { intros inum Hi. unfold image_inode. cbn [mk_img s2 write_img set_mk_img]. rewrite fset_ne; [done|]. destruct (IBLOCK_eq inum Hi). lia. }
  split.
  - cbn [mk_img s2 s1 with_inode write_img set_mk_img]. rewrite !fset_ne by (done || by apply not_eq_sym). rewrite Hsb. apply superblock_read.
  - change (mk_freeblock s2) with (mk_freeblock s). rewrite FSSIZE_eq, nmeta_eq. split; [exact Hfree|lia].
  - apply (files_of args s2 (f :: fs) Ha2 Ht Hc). intros i g Hg. pose proof (lookup_lt_Some _ _ _ Hg) as Hil.
    assert (Hi : 0 <= 1 + Z.of_nat i < 208) by lia. rewrite Hlow by done. destruct i as [|i]; cbn [Nat.eqb].
    + injection Hg as <-. by apply with_inode_eq.
    + unfold s1. rewrite with_inode_ne by (done || lia). apply (Hin (S i)). done.
  - intros b Hb. cbn [mk_img s2 write_img set_mk_img]. change (sb_bmapstart mkfs_sb) with 58. rewrite fset_eq. rewrite BPB_eq in Hb. change (mk_freeblock s2) with (mk_freeblock s). apply bitmap_block_bit; [lia|done].
  - exact (ao_size _ _ Ha2).
Qed.

Lemma mkfs_runs args : fits args → ∃ s, mkfs (as_arg <$> args) mkfs0 = Ret tt s ∧ image_of args s.
Proof.
  intros Hf. destruct mkfs_start as (s0 & E0 & Hok0). destruct (dots_ok s0 Hok0) as (s1 & fs1 & E1 & Hok1 & Hc1).
  destruct (mkfs_files_ok args [] s1 fs1 Hf Hok1 Hc1) as (s2 & fs2 & E2 & Hok2 & Hc2). destruct (mkfs_end args s2 fs2 Hf Hok2 Hc2) as (s3 & E3 & H3).
  exists s3. split; [|done]. unfold mkfs. fold sb_block. rewrite E0, (E1 (λ rootino, _)), (bind_Ret_eq _ _ _ _ _ E2). exact E3.
Qed.
