(* ===== verification/MkfsBoot.v ===== *)
(** * MkfsBoot: the kernel reads what mkfs wrote

    On a disk that holds an image of [mkfs], looking up the name of a file,
    locking its inode and reading it give the bytes the host's file had. *)

From S2P Require Import Prelude CString Kernel Sched Sock Kalloc Fifo Paging Vmem Cons Kbd Sleeplock LockSpec Bio BioSpec Log LogSpec.
From S2P Require Import Console Inode BlockSpec Fs FileSpec DirSpec Mkfs MkfsSpec MkfsRun.

(** ** Definitions *)

(** The steps of [open] and [read] on a file of the directory [dp]. *)
Definition read_file (dp : nat) (name : list Z) (n : Z) : M kernel leave (option (Z * list Z)) :=
  r <- dirlookup dp name ;;
  match r with
  | None => mret None
  | Some (i, _) => ilock i ;; x <- readi i None 0 n ;; mret (Some x)
  end.

(** The kernel runs on the image [s]: its disk, its superblock, the root
    directory in slot [dp] of the inode cache, no buffer held. *)
Record boots (s : mkfs_t) (me : nat) (pid start size : Z) (k : kernel) (A : cstate) (bl : list Z) (dp : nat) (ip : inode) : Prop := mk_boots {
  bt_tx : intx me pid start size k A bl;
  bt_view : cs_view A = mk_img s;
  bt_disk : io_disksize (k_io k) = FSSIZE;
  bt_sb : k_sb k = mkfs_sb;
  bt_held : ∀ j, cs_held A !! j = None;
  bt_room : (base.size (cs_busy A) < NBUF)%nat;
  bt_root : k_inodes k !! dp = Some ip;
  bt_dev : i_dev ip = 1;
  bt_ip : same_contents (image_inode (mk_img s) 1) ip;
}.

(** The name an entry gets. *)
Definition entry_name (a : hostfile) : list Z := cname (strncpy_result (skip_underscore a.1) DIRSIZ).

(** ** Files of the image, for any inode with their addresses *)
Lemma is_file_same D top inum t d size ip ip' : same_contents ip ip' → is_file D top inum t d size ip → is_file D top inum t d size ip'.
Proof.
  intros (S1 & _ & _ & S4 & S5 & S6) [H1 H2 H3 H4 H5 H6 H7].
  assert (Hb : ∀ bn, file_block ip' D bn = file_block ip D bn) by (intros bn; unfold file_block; by rewrite S6).
  assert (Hf : ∀ o n, file_bytes ip' D o n = file_bytes ip D o n) by (intros o n; unfold file_bytes; apply list_fmap_ext; intros; unfold file_byte; by rewrite Hb).
  split; [congruence|congruence|congruence|congruence|by rewrite Hf| |by rewrite S6]. intros bn Hbn Hlt. rewrite Hb. by apply H6.
Qed.

Lemma is_file_part D top inum t d size ip off n : is_file D top inum t d size ip → (off + n <= length d)%nat → file_bytes ip D (Z.of_nat off) n = slice off n d.
Proof.
  intros Hf H. pose proof (if_bytes _ _ _ _ _ _ _ Hf) as Hd. apply list_eq. intros i. unfold slice. destruct (decide (i < n)%nat) as [Hi|Hi].
  - rewrite lookup_take_lt, lookup_drop by done. rewrite <- Hd. unfold file_bytes. rewrite !list_lookup_fmap, !lookup_seq_lt by lia. cbn. do 2 f_equal. lia.
  - rewrite lookup_take_ge by lia. apply lookup_ge_None_2. rewrite length_file_bytes. lia.
Qed.

(** A file whose size the kernel may read up to: its bytes, or the end of its
    last block. *)
Lemma is_file_ok D top inum t d size ip A disksize : is_file D top inum t d size ip → cs_view A = D → i_dev ip = 1 → (∀ j, cs_held A !! j = None) →
  0 <= size <= MAXFILE * BSIZE → (∀ bn, 0 <= bn → bn * BSIZE < size → bn * BSIZE < Z.of_nat (length d)) → 0 < nmeta → top <= disksize → file_ok disksize A ip.
Proof.
  intros [H1 H2 H3 H4 H5 H6 H7] Hv Hdev Hheld Hs Hcover Hm Htop. rewrite <- H2 in *. split; [done|done|done| |].
  - intros bn Hbn Hlt. rewrite Hv. destruct (H6 bn Hbn (Hcover bn Hbn Hlt)) as (Hr & Hl & _). split; [lia|]. split; [lia|]. split; [intros j; by rewrite Hheld|done].
  - intros Hlt. pose proof (H7 (Hcover 12 ltac:(lia) Hlt)) as Hr. split; [lia|]. split; [lia|]. intros j. by rewrite Hheld.
Qed.

Lemma is_file_read D top inum t d ip n : is_file D top inum t d (Z.of_nat (length d)) ip → 0 <= n → Z.of_nat (length d) < 2 ^ 31 → n < 2 ^ 31 →
  read_result ip D 0 n = (Z.min n (Z.of_nat (length d)), take (Z.to_nat n) d).
Proof.
  intros Hf Hn Hl Hn2. unfold read_result. rewrite (if_size_eq _ _ _ _ _ _ _ Hf). change (2 ^ 31) with 2147483648 in *. change (2 ^ 32) with 4294967296.
  rewrite (proj2 (Z.ltb_ge _ _)), (proj2 (Z.leb_gt _ _)) by lia. cbn [orb]. cbv zeta. rewrite Z.sub_0_r. f_equal.
  change 0 with (Z.of_nat 0) at 1. rewrite (is_file_part D top inum t d _ ip 0 _ Hf) by lia. unfold slice. rewrite drop_0.
  destruct (decide (n <= Z.of_nat (length d))); [by rewrite Z.min_l by lia|]. rewrite Z.min_r by lia. rewrite Nat2Z.id, !firstn_all2 by lia. done.
Qed.

(** ** The root directory *)
Lemma root_entry args j a : args !! j = Some a → slice (16 * (2 + j)) 16 (root_data args) = mk_dirent (2 + Z.of_nat j) (skip_underscore a.1).
Proof.
  intros Hj. rewrite <- (take_drop_middle args j a Hj). set (l2 := drop (S j) args). pose proof (lookup_lt_Some _ _ _ Hj) as Hl.
  assert (Hp : root_data (take j args ++ a :: l2) = root_data (take j args ++ [a]) ++ concat (imap (λ x b, mk_dirent (2 + Z.of_nat (S j + x)) (skip_underscore b.1)) l2)).
  { replace (take j args ++ a :: l2) with ((take j args ++ [a]) ++ l2) by (by rewrite <- app_assoc). unfold root_data. rewrite (imap_app _ (take j args ++ [a])), concat_app, <- !app_assoc. do 4 f_equal.
    apply imap_ext. intros x b _. unfold compose. f_equal. rewrite length_app, length_take. cbn [length]. lia. }
  rewrite Hp, root_data_snoc. assert (Hlt : length (take j args) = j) by (rewrite length_take; lia). rewrite Hlt.
  unfold slice. rewrite <- app_assoc, drop_app_length' by (rewrite length_root_data, Hlt; lia). apply take_app_length'. by rewrite length_mk_dirent.
Qed.

Lemma root_dots args : slice (16 * 0) 16 (root_data args) = mk_dirent 1 [46] ∧ slice (16 * 1) 16 (root_data args) = mk_dirent 1 [46; 46].
Proof. by split. Qed.

Lemma dirent_fields inum name : 0 <= inum < 2 ^ 16 → de_inum (mk_dirent inum name) = inum ∧ de_name (mk_dirent inum name) = strncpy_result name DIRSIZ.
Proof.
  intros Hi. unfold mk_dirent. assert (Hx : xshort inum = inum) by (unfold xshort; rewrite le_val_le_bytes; by apply Z.mod_small). rewrite Hx. split.
  - unfold de_inum, get16, slice. rewrite drop_0, take_app_length' by (by rewrite length_le_bytes). rewrite le_val_le_bytes. by apply Z.mod_small.
  - unfold de_name, slice. rewrite drop_app_length' by (by rewrite length_le_bytes). apply take_ge. unfold strncpy_result. rewrite length_app, length_take, length_replicate. lia.
Qed.

Lemma take_DIRSIZ name : take DIRSIZ (strncpy_result name DIRSIZ) = strncpy_result name DIRSIZ.
Proof. apply take_ge. unfold strncpy_result. rewrite length_app, length_take, length_replicate. lia. Qed.

(** The root directory fits in a file, and its size covers only its blocks. *)
Lemma root_size_range args : (length args < 199)%nat → 0 <= root_size args <= MAXFILE * BSIZE ∧ root_size args mod 16 = 0.
Proof.
  intros H. unfold root_size. rewrite length_root_data, BSIZE_eq. change (MAXFILE * 512) with 71680.
  assert (Hq : 0 <= Z.of_nat (32 + 16 * length args) / 512 <= 6) by divlia. generalize dependent (Z.of_nat (32 + 16 * length args) / 512). intros q Hq.
  split; [lia|divlia].
Qed.

Lemma root_size_cover args bn : Z.of_nat (length (root_data args)) mod BSIZE ≠ 0 → bn * BSIZE < root_size args → bn * BSIZE < Z.of_nat (length (root_data args)).
Proof. unfold root_size. rewrite BSIZE_eq. generalize (Z.of_nat (length (root_data args))). intros l Hm Hb. divlia. Qed.

(** The entry of the file [j] is the first one with its name. *)
Lemma root_find args D top ip j a : is_file D top 1 T_DIR (root_data args) (root_size args) ip → (length args < 199)%nat → args !! j = Some a →
  (∀ x b, (x < j)%nat → args !! x = Some b → entry_name b ≠ entry_name a) → entry_name a ≠ [46] → entry_name a ≠ [46; 46] →
  find_idx (dirent_is (strncpy_result (skip_underscore a.1) DIRSIZ)) (dirents ip D) = Some (2 + j)%nat ∧
  de_inum (default [] (dirents ip D !! (2 + j)%nat)) = 2 + Z.of_nat j.
Proof.
  intros Hf Hlen Hj Huniq Hd1 Hd2. pose proof (length_root_data args) as Hrl. pose proof (lookup_lt_Some _ _ _ Hj) as Hjl. change (2 ^ 16) with 65536.
  assert (Hn : (2 + length args <= Z.to_nat (i_size ip / 16))%nat) by (rewrite (if_size_eq _ _ _ _ _ _ _ Hf); unfold root_size; rewrite BSIZE_eq, Hrl; divlia).
  assert (He : ∀ x, (x < 2 + length args)%nat → dirents ip D !! x = Some (slice (16 * x) 16 (root_data args))).
  { intros x Hx. unfold dirents. rewrite list_lookup_fmap, lookup_seq_lt by lia. cbn [fmap option_fmap option_map]. rewrite Nat.add_0_l. f_equal.
    replace (16 * Z.of_nat x) with (Z.of_nat (16 * x)) by lia. apply (is_file_part D top 1 T_DIR _ _ ip _ _ Hf). rewrite Hrl. lia. }
  pose proof (He (2 + j)%nat ltac:(lia)) as Hej. rewrite (root_entry args j a Hj) in Hej.
  destruct (dirent_fields (2 + Z.of_nat j) (skip_underscore a.1)) as [I1 I2]; [change (2 ^ 16) with 65536; lia|]. split; [|rewrite Hej; exact I1].
  apply find_idx_Some. unfold dirent_is. split.
  - eexists. split; [exact Hej|]. rewrite I1, I2, take_DIRSIZ, bool_decide_eq_true_2, (proj2 (Z.eqb_neq _ _)) by (done || lia). done.
  - intros x de Hx Hde. rewrite He in Hde by lia. assert (de = slice (16 * x) 16 (root_data args)) as -> by congruence. clear Hde. rewrite take_DIRSIZ. fold (entry_name a). apply andb_false_iff. right. apply bool_decide_eq_false_2.
    destruct x as [|[|x]].
    + rewrite (proj1 (root_dots args)), (proj2 (dirent_fields 1 [46] ltac:(done))). exact Hd1.
    + rewrite (proj2 (root_dots args)), (proj2 (dirent_fields 1 [46; 46] ltac:(done))). exact Hd2.
    + destruct (lookup_lt_is_Some_2 args x) as [b Hb]; [lia|]. change (S (S x)) with (2 + x)%nat. rewrite (root_entry args x b Hb).
      rewrite (proj2 (dirent_fields (2 + Z.of_nat x) (skip_underscore b.1) ltac:(change (2 ^ 16) with 65536; lia))). fold (entry_name b). apply not_eq_sym, (Huniq x b); [lia|done].
Qed.

(** ** The kernel's side *)
Lemma tx_inode_frame me pid start size k k' A bl : inode_frame k k' → (∃ o, cache k' me pid o A) → intx me pid start size k A bl → intx me pid start size k' A bl.
Proof.
  intros Hf Hc Htx. eapply (tx_frame me pid start size _ _ A bl Hf Hc (tx_dirty _ _ _ _ _ _ _ Htx)). by apply tx_set_inodes.
Qed.

Lemma inode_frame_fields k k' : inode_frame k k' → k_sb k' = k_sb k ∧ k_io k' = k_io k.
Proof. intros (c & P & B & d & w & -> & _). done. Qed.

(** Looking up an inode that is not cached takes a free slot. *)
Lemma slot_free inum l sl : iget_slot 1 inum l = Some sl → find_idx (iget_match 1 inum) l = None → ∃ x, l !! sl = Some x ∧
  iget_entry 1 inum x = set_i_valid 0 (set_i_ref 1 (set_i_inum inum (set_i_dev 1 x))).
Proof.
  unfold iget_slot. intros H Hn. rewrite Hn in H. apply find_idx_Some in H as [(x & Hx & _) _]. exists x. split; [done|]. unfold iget_entry.
  rewrite (proj1 (find_idx_None _ _) Hn sl x Hx). done.
Qed.

Lemma ilock_run me pid start size k A bl i ip (blk := IBLOCK (i_inum ip) (k_sb k)) (ip' := set_i_valid 1 (dinode_load (dinode_off (i_inum ip)) (cs_view A blk) (set_i_lock (mk_sleeplock true pid) ip))) :
  intx me pid start size k A bl → k_inodes k !! i = Some ip → i_dev ip = 1 → 1 <= i_ref ip → sl_locked (i_lock ip) = false → i_valid ip = 0 →
  0 <= blk < io_disksize (k_io k) → (∀ j, cs_held A !! j = None) → (base.size (cs_busy A) < NBUF)%nat → i_type ip' ≠ 0 →
  ∃ k', ilock i k = Ret tt k' ∧ intx me pid start size k' A bl ∧ k_inodes k' = <[i := ip']> (k_inodes k) ∧ k_io k' = k_io k.
Proof.
  intros Htx Hi Hd Hr Hl Hv Hb Hh Hroom Hty.
  assert (Hwp : wp False (ilock i) (λ _ k', intx me pid start size k' A bl ∧ k_inodes k' = <[i := ip']> (k_inodes k) ∧ k_io k' = k_io k) (λ _ _, False) k).
  { eapply wp_ilock_read; try done. intros j. by rewrite Hh. }
  destruct (wp_False_inv _ _ _ _ Hwp) as [([] & k' & E & H)|(c & k' & _ & [])]. by exists k'.
Qed.

(** Locking the slot [dirlookup] took and reading the file. *)
Lemma read_slot me pid start size k A bl s inum t d sl x n : intx me pid start size k A bl → cs_view A = mk_img s → io_disksize (k_io k) = FSSIZE → k_sb k = mkfs_sb →
  (∀ j, cs_held A !! j = None) → (base.size (cs_busy A) < NBUF)%nat → 0 <= inum < 208 → t ≠ 0 → t ≠ T_DEV → mk_freeblock s <= FSSIZE →
  is_file (mk_img s) (mk_freeblock s) inum t d (Z.of_nat (length d)) (image_inode (mk_img s) inum) → Z.of_nat (length d) <= MAXFILE * BSIZE →
  k_inodes k !! sl = Some x → i_inum x = inum → i_dev x = 1 → i_ref x = 1 → i_valid x = 0 → sl_locked (i_lock x) = false → 0 <= n < 2 ^ 31 →
  ∃ k', (ilock sl ;; readi sl None 0 n) k = Ret (Z.min n (Z.of_nat (length d)), take (Z.to_nat n) d) k'.
Proof.
  intros Htx Hv Hdisk Hsb Hheld Hroom Hin Ht0 Htd Hfit Hf Hmax Hx Hxi Hxd Hxr Hxv Hxl Hn.
  destruct (IBLOCK_range inum Hin) as (Hblk & _). rewrite <- Hdisk in Hblk.
  set (ip' := set_i_valid 1 (dinode_load (dinode_off (i_inum x)) (cs_view A (IBLOCK (i_inum x) (k_sb k))) (set_i_lock (mk_sleeplock true pid) x))).
  assert (Hsame : same_contents (image_inode (mk_img s) inum) ip') by (unfold ip'; rewrite Hxi, Hsb, Hv; by split_and!).
  pose proof (is_file_same _ _ _ _ _ _ _ _ Hsame Hf) as Hf'.
  destruct (ilock_run me pid start size k A bl sl x Htx Hx Hxd) as (k1 & E1 & Htx1 & Hin1 & Hio1); try done; [lia|by rewrite Hxi, Hsb| |].
  { fold ip'. by rewrite (if_type_eq _ _ _ _ _ _ _ Hf'). }
  fold ip' in Hin1. pose proof (lookup_lt_Some _ _ _ Hx) as Hlt. assert (Hx1 : k_inodes k1 !! sl = Some ip') by (rewrite Hin1; by apply list_lookup_insert_eq).
  change (MAXFILE * BSIZE) with 71680 in Hmax. change (2 ^ 31) with 2147483648 in Hn.
  assert (Hok : file_ok (io_disksize (k_io k1)) A ip').
  { apply (is_file_ok _ _ _ _ _ _ _ A _ Hf'); [by rewrite Hv|exact Hxd|done|change (MAXFILE * BSIZE) with 71680; lia|done|by rewrite nmeta_eq|by rewrite Hio1, Hdisk]. }
  destruct (tx_cache _ _ _ _ _ _ _ Htx1) as [o1 Hc1].
  destruct (readi_run me pid k1 sl ip' A k1 0 n Hx1 Hok Hroom) as (k2 & E2 & _); [by rewrite (if_type_eq _ _ _ _ _ _ _ Hf')|split; [reflexivity|by exists o1]|change (2 ^ 32) with 4294967296; lia|change (2 ^ 32) with 4294967296; lia|].
  exists k2. rewrite (bind_Ret_eq _ _ _ _ _ E1), E2, Hv. f_equal. apply (is_file_read _ _ _ _ _ _ n Hf'); change (2 ^ 31) with 2147483648; lia.
Qed.

(** C10: the kernel finds on the disk what [mkfs] was given. [mkfs] ends
    without an error on files that fit, and on the image it leaves, once the
    kernel runs on it with the root directory in its inode cache: looking up
    the name of a file finds it (the first of that name, cut at 14 bytes and
    without a leading underscore), locking the inode loads it, and reading from
    the start returns the bytes the host's file had, up to the number asked for.
    The root directory must not fill its last block, which [mkfs] would count
    twice. *)
Theorem mkfs_kernel_reads args : fits args → Z.of_nat (length (root_data args)) mod BSIZE ≠ 0 →
  ∃ s, mkfs (as_arg <$> args) mkfs0 = Ret tt s ∧ ∀ me pid start size k A bl dp ip j a sl n,
    boots s me pid start size k A bl dp ip → args !! j = Some a →
    (∀ x b, (x < j)%nat → args !! x = Some b → entry_name b ≠ entry_name a) → entry_name a ≠ [46] → entry_name a ≠ [46; 46] →
    find_idx (iget_match 1 (2 + Z.of_nat j)) (k_inodes k) = None → iget_slot 1 (2 + Z.of_nat j) (k_inodes k) = Some sl →
    (∀ x, x ∈ k_inodes k → i_ref x = 0 → sl_locked (i_lock x) = false) → 0 <= n < 2 ^ 31 →
    let d := concat a.2 in ∃ k', read_file dp (strncpy_result (skip_underscore a.1) DIRSIZ) n k = Ret (Some (Z.min n (Z.of_nat (length d)), take (Z.to_nat n) d)) k'.
Proof.
  intros Hfits Hmod. destruct (mkfs_runs args Hfits) as (s & Es & [_ [_ Hfit] Hfiles _ _]). exists s. split; [exact Es|].
  intros me pid start size k A bl dp ip j a sl n [Htx Hv Hdisk Hsb Hheld Hroom Hroot Hdev Hip] Hj Huniq Hd1 Hd2 Hnone Hslot Hul Hn d.
  pose proof (ft_count _ Hfits) as Hcnt. pose proof (lookup_lt_Some _ _ _ Hj) as Hjl. pose proof (length_root_data args) as Hrl.
  pose proof (is_file_same _ _ _ _ _ _ _ _ Hip (Hfiles 0%nat T_DIR (root_data args) eq_refl)) as Hfr. cbn [Nat.eqb] in Hfr. change (1 + Z.of_nat 0) with 1 in Hfr.
  destruct (root_find args _ _ ip j a Hfr Hcnt Hj Huniq Hd1 Hd2) as [Hfind Hinum]. destruct (tx_cache _ _ _ _ _ _ _ Htx) as [o Hc].
  assert (Hok : file_ok (io_disksize (k_io k)) A ip).
  { apply (is_file_ok _ _ _ _ _ _ _ A _ Hfr); [by rewrite Hv|done|done|exact (proj1 (root_size_range args Hcnt))| |by rewrite nmeta_eq|by rewrite Hdisk].
    intros bn _. by apply root_size_cover. }
  assert (Hdt : i_type ip = T_DIR) by exact (if_type_eq _ _ _ _ _ _ _ Hfr).
  assert (Hds : i_size ip mod 16 = 0) by (rewrite (if_size_eq _ _ _ _ _ _ _ Hfr); exact (proj2 (root_size_range args Hcnt))).
  assert (Hnm : (DIRSIZ <= length (strncpy_result (skip_underscore a.1) DIRSIZ))%nat) by (unfold strncpy_result; rewrite length_app, length_take, length_replicate; lia).
  pose proof (dirlookup_run me pid k o A dp ip (strncpy_result (skip_underscore a.1) DIRSIZ) Hc Hroot Hok Hroom Hdt Hds (or_introl Hnm)) as Hlk.
  rewrite Hv, Hfind in Hlk. cbv zeta in Hlk. rewrite Hinum, Hslot in Hlk. destruct Hlk as (k1 & o1 & E1 & Hc1 & Hfr1 & Hin1).
  destruct (slot_free _ _ _ Hslot Hnone) as (x & Hx & Hxe). destruct (inode_frame_fields _ _ Hfr1) as [Hsb1 Hio1].
  assert (Hxr : i_ref x = 0).
  { unfold iget_slot in Hslot. rewrite Hnone in Hslot. apply find_idx_Some in Hslot as [(y & Hy & Hr) _]. rewrite Hx in Hy. injection Hy as <-. lia. }
  destruct (read_slot me pid start size k1 A bl s (2 + Z.of_nat j) T_FILE d sl (iget_entry 1 (2 + Z.of_nat j) x) n) as (k2 & E2);
    [|exact Hv| | |exact Hheld|exact Hroom|lia|discriminate|discriminate|exact Hfit| | | |by rewrite Hxe|by rewrite Hxe|by rewrite Hxe|by rewrite Hxe| |exact Hn|].
  - exact (tx_inode_frame me pid start size k k1 A bl Hfr1 (ex_intro _ o1 Hc1) Htx).
  - by rewrite Hio1.
  - by rewrite Hsb1.
  - pose proof (Hfiles (S j) T_FILE d) as Hfj. replace (1 + Z.of_nat (S j)) with (2 + Z.of_nat j) in Hfj by lia. apply Hfj. unfold image_files.
    change ((((λ a : hostfile, (T_FILE, concat a.2)) <$> args) !! j) = Some (T_FILE, d)). by rewrite list_lookup_fmap, Hj.
  - pose proof (ft_sizes _ Hfits) as Hsz. by apply (list.Forall_lookup_1 _ _ _ _ Hsz Hj).
  - by rewrite Hin1, list_lookup_alter_eq, Hx.
  - rewrite Hxe. apply (Hul x); [by eapply list_elem_of_lookup_2|done].
  - exists k2. unfold read_file. rewrite (bind_Ret_eq _ _ _ _ _ E1), <- bind_assoc, (bind_Ret_eq _ _ _ _ _ E2). done.
Qed.

(** ** Witness: two files, and the kernel freshly started on the image *)
Definition demo_args : list hostfile := [([95; 115; 104], [[1; 2; 3]; [4]]); ([97], [])].

Lemma demo_fits : fits demo_args.
Proof.
  split; [|repeat constructor; vm_compute; discriminate|cbn; lia|vm_compute; discriminate].
  repeat constructor; cbn; rewrite !elem_of_cons, elem_of_nil; intros H; decompose sum H; try done.
Qed.

Definition demo_root_ip (s : mkfs_t) : inode := set_i_ref 1 (set_i_inum 1 (set_i_dev 1 (set_i_valid 1 (image_inode (mk_img s) 1)))).
Definition demo_boot_image (s : mkfs_t) : kernel :=
  set_k_inodes (demo_root_ip s :: replicate 49 inode0) (set_k_sb mkfs_sb (demo_boot_from (mk_img s) None)).

Lemma demo_boots s : boots s 0 0 2 30 (demo_boot_image s) (cs_boot (mk_img s)) [] 0 (demo_root_ip s).
Proof.
  split; [|done|done|done|done|vm_compute; lia|done|done|by split_and!]. apply tx_set_inodes. split; try done.
  - exists (rev (seq 0 NBUF)). destruct (demo_boot_cache (mk_img s) None) as [H1 H2 H3 H4 H5 H6 H7 H8 H9 H10 H11]. by split.
  - apply (demo_geom []). by left.
  - apply NoDup_nil_2.
Qed.

Lemma mkfs_kernel_reads_witness : ∃ s k', mkfs (as_arg <$> demo_args) mkfs0 = Ret tt s ∧
  read_file 0 [115; 104; 0; 0; 0; 0; 0; 0; 0; 0; 0; 0; 0; 0] 3 (demo_boot_image s) = Ret (Some (3, [1; 2; 3])) k'.
Proof.
  destruct (mkfs_kernel_reads demo_args demo_fits ltac:(vm_compute; discriminate)) as (s & E & H).
  destruct (H 0%nat 0 2 30 (demo_boot_image s) (cs_boot (mk_img s)) [] 0%nat (demo_root_ip s) 0%nat ([95; 115; 104], [[1; 2; 3]; [4]]) 1%nat 3 (demo_boots s)) as (k' & E');
    [reflexivity|intros x b Hx; lia|discriminate|discriminate|reflexivity|reflexivity| |lia|].
  - intros x Hx Hr. apply elem_of_cons in Hx as [->|Hx]; [done|]. by apply elem_of_replicate in Hx as [-> _].
  - exists s, k'. split; [exact E|exact E'].
Defined.
