(* ===== verification/Ide.v ===== *)
(** * Ide: the IDE disk driver (ide.c)

    Requests wait in a queue linked through [qnext]; the first one is being
    served by the device. [iderw] queues a buffer and sleeps until the
    interrupt handler [ideintr] has served it. The device is known through
    its ports, the class [ata]. *)

From S2P Require Import Prelude CString Kernel Sched Kalloc Fifo Paging Vmem Sleeplock Bio.

(** ** Definitions *)
Definition SECTOR_SIZE : Z := 512.
Definition IDE_BSY : Z := 0x80.
Definition IDE_DRDY : Z := 0x40.
Definition IDE_DF : Z := 0x20.
Definition IDE_ERR : Z := 0x01.
Definition IDE_CMD_READ : Z := 0x20.
Definition IDE_CMD_WRITE : Z := 0x30.
Definition IDE_CMD_RDMUL : Z := 0xc4.
Definition IDE_CMD_WRMUL : Z := 0xc5.

(** The device behind the ports: [inb], [outb], and the string instructions
    on the data port; it is not busy for more than [ata_patience] polls. *)
Class ata (D : Type) : Type := mk_ata {
  ata_inb : Z → D → Z * D;
  ata_outb : Z → Z → D → D;
  ata_insl : Z → Z → D → list Z * D;
  ata_outsl : Z → list Z → D → D;
  ata_patience : nat;
}.

(** The kernel, the driver's variables and the device. *)
Record ide_t (D : Type) : Type := mk_ide_t {
  id_k : kernel;
  id_queue : option nat;
  id_havedisk1 : bool;
  id_dev : D;
}.
Arguments mk_ide_t {D}.
Arguments id_k {D}.
Arguments id_queue {D}.
Arguments id_havedisk1 {D}.
Arguments id_dev {D}.

Section ide.
Context {D : Type} `{ata D}.
Definition set_id_k (v : kernel) (r : ide_t D) : ide_t D := mk_ide_t v (id_queue r) (id_havedisk1 r) (id_dev r).
Definition set_id_queue (v : option nat) (r : ide_t D) : ide_t D := mk_ide_t (id_k r) v (id_havedisk1 r) (id_dev r).
Definition set_id_havedisk1 (v : bool) (r : ide_t D) : ide_t D := mk_ide_t (id_k r) (id_queue r) v (id_dev r).
Definition set_id_dev (v : D) (r : ide_t D) : ide_t D := mk_ide_t (id_k r) (id_queue r) (id_havedisk1 r) v.

Notation IM := (M (ide_t D) leave).

(** A routine of the rest of the kernel. *)
Definition kern {A} (m : M kernel leave A) : IM A := λ s,
  match m (id_k s) with
  | Ret a k => Ret a (set_id_k k s)
  | Switch c k => Switch c (set_id_k k s)
  | Panic msg k => Panic msg (set_id_k k s)
  | Fault msg => Fault msg
  end.

Definition inb (p : Z) : IM Z := λ s, let '(v, d) := ata_inb p (id_dev s) in Ret v (set_id_dev d s).
Definition outb (p v : Z) : IM unit := modify (λ s, set_id_dev (ata_outb p (u8 v) (id_dev s)) s).
Definition insl (p n : Z) : IM (list Z) := λ s, let '(l, d) := ata_insl p n (id_dev s) in Ret l (set_id_dev d s).
Definition outsl (p : Z) (l : list Z) : IM unit := modify (λ s, set_id_dev (ata_outsl p l (id_dev s)) s).

Fixpoint idewait_loop (fuel : nat) : IM Z :=
  match fuel with
  | O => fault "idewait: the disk stays busy"
  | S fuel =>
      r <- inb 0x1f7 ;;
      if negb (Z.land r (Z.lor IDE_BSY IDE_DRDY) =? IDE_DRDY) then idewait_loop fuel else mret r
  end.
Definition idewait (checkerr : bool) : IM Z :=
  r <- idewait_loop (S ata_patience) ;;
  if checkerr && negb (Z.land r (Z.lor IDE_DF IDE_ERR) =? 0) then mret (-1) else mret 0.

(** The loop of [ideinit] that looks for disk 1. *)
Fixpoint ideinit_probe (n : nat) : IM unit :=
  match n with
  | O => mret tt
  | S n =>
      r <- inb 0x1f7 ;;
      if negb (r =? 0) then modify (set_id_havedisk1 true) else ideinit_probe n
  end.
(** Without [initlock] and [ioapicenable]. *)
Definition ideinit : IM unit :=
  idewait false ;;
  outb 0x1f6 (Z.lor 0xe0 (Z.shiftl 1 4)) ;;
  ideinit_probe 1000 ;;
  outb 0x1f6 (Z.lor 0xe0 (Z.shiftl 0 4)).

Definition idestart (b : option nat) : IM unit :=
  match b with
  | None => panic "idestart"
  | Some i =>
      b <- kern (buf_at i) ;;
      if FSSIZE <=? b_blockno b then panic "incorrect blockno" else
      let sector_per_block := BSIZE / SECTOR_SIZE in
      let sector := s32 (b_blockno b * sector_per_block) in
      let read_cmd := if sector_per_block =? 1 then IDE_CMD_READ else IDE_CMD_RDMUL in
      let write_cmd := if sector_per_block =? 1 then IDE_CMD_WRITE else IDE_CMD_WRMUL in
      if 7 <? sector_per_block then panic "idestart" else
      idewait false ;;
      outb 0x3f6 0 ;;
      outb 0x1f2 sector_per_block ;;
      outb 0x1f3 (Z.land sector 0xff) ;;
      outb 0x1f4 (Z.land (Z.shiftr sector 8) 0xff) ;;
      outb 0x1f5 (Z.land (Z.shiftr sector 16) 0xff) ;;
      outb 0x1f6 (Z.lor (Z.lor 0xe0 (Z.shiftl (Z.land (b_dev b) 1) 4)) (Z.land (Z.shiftr sector 24) 0x0f)) ;;
      if negb (Z.land (b_flags b) B_DIRTY =? 0)
      then outb 0x1f7 write_cmd ;; outsl 0x1f0 (b_data b)
      else outb 0x1f7 read_cmd
  end.

Definition ideintr : IM unit :=
  kern (acquire LkIde) ;;
  q <- gets id_queue ;;
  match q with
  | None => kern (release LkIde)
  | Some i =>
      b <- kern (buf_at i) ;;
      modify (set_id_queue (b_qnext b)) ;;
      (if Z.land (b_flags b) B_DIRTY =? 0 then
         r <- idewait true ;;
         if 0 <=? r then l <- insl 0x1f0 (BSIZE / 4) ;; kern (modify (upd_buf i (set_b_data l))) else mret tt
       else mret tt) ;;
      kern (modify (upd_buf i (λ b, set_b_flags (Z.lor (b_flags b) B_VALID) b))) ;;
      kern (modify (upd_buf i (λ b, set_b_flags (Z.land (b_flags b) (Z.lnot B_DIRTY)) b))) ;;
      kern (wakeup (ChBuf i)) ;;
      q <- gets id_queue ;;
      (match q with None => mret tt | Some _ => idestart q end) ;;
      kern (release LkIde)
  end.

(** The walk along [qnext] to the end of the queue, where [b] is linked, from
    the buffer [i] of the queue on. *)
Fixpoint ide_append (fuel : nat) (i b : nat) : IM unit :=
  match fuel with
  | O => fault "iderw: queue"
  | S fuel =>
      r <- kern (buf_at i) ;;
      match b_qnext r with
      | Some j => ide_append fuel j b
      | None => kern (modify (upd_buf i (set_b_qnext (Some b))))
      end
  end.

(** The loop that waits, entered with [idelock] held. *)
Definition iderw_wait (i : nat) : IM unit :=
  b <- kern (buf_at i) ;;
  if Z.land (b_flags b) (Z.lor B_VALID B_DIRTY) =? B_VALID then kern (release LkIde)
  else kern (sleep (ChBuf i) (Some LkIde) (LSleep (ChBuf i))).
Definition iderw_woken (p i : nat) (intena : bool) : IM unit :=
  kern (sleep_leave p LkIde intena) ;;
  iderw_wait i.

Definition iderw (i : nat) : IM unit :=
  h <- kern (holdingsleep (SlBuf i)) ;;
  if negb h then panic "iderw: buf not locked" else
  b <- kern (buf_at i) ;;
  if Z.land (b_flags b) (Z.lor B_VALID B_DIRTY) =? B_VALID then panic "iderw: nothing to do" else
  one <- gets id_havedisk1 ;;
  if negb (b_dev b =? 0) && negb one then panic "iderw: ide disk 1 not present" else
  kern (acquire LkIde) ;;
  kern (modify (upd_buf i (set_b_qnext None))) ;;
  q <- gets id_queue ;;
  (match q with
   | None => modify (set_id_queue (Some i))
   | Some j => ide_append (S NBUF) j i
   end) ;;
  q <- gets id_queue ;;
  (if bool_decide (q = Some i) then idestart q else mret tt) ;;
  iderw_wait i.
End ide.
