(* ===== verification/IdeSpec.v ===== *)
(** * IdeSpec: requests to the disk are served in order

    The device is taken as its documentation describes it, in the class
    [ata_spec]: registers, a command that reads a sector and one that writes
    it. Under it the queue of ide.c serves every request, first come first
    served, and a buffer gets what memide.c would give it. *)

From S2P Require Import Prelude CString Kernel Sched Sock Kalloc Fifo Paging Vmem Sleeplock LockSpec Bio BioSpec Ide.

(** ** Definitions *)

(** What the device is about to do on the data port. *)
Inductive ata_phase : Type :=
  | PIdle
  | PRead (drive lba : Z)
  | PWrite (drive lba : Z).

Definition lba_of (r : Z → Z) : Z := r 0x1f3 + 2 ^ 8 * r 0x1f4 + 2 ^ 16 * r 0x1f5 + 2 ^ 24 * Z.land (r 0x1f6) 0xf.
Definition drive_of (r : Z → Z) : Z := Z.land (Z.shiftr (r 0x1f6) 4) 1.

(** An ATA disk in programmed I/O, without read errors. *)
Class ata_spec (D : Type) `{ata D} : Type := mk_ata_spec {
  as_sectors : D → Z → Z → list Z;
  as_phase : D → ata_phase;
  as_reg : D → Z → Z;
  (* reading the status changes nothing and soon shows the disk ready *)
  as_status d : let d' := (ata_inb 0x1f7 d).2 in as_phase d' = as_phase d ∧ (∀ p, as_reg d' p = as_reg d p) ∧ ∀ r l, as_sectors d' r l = as_sectors d r l;
  as_ready d : ∃ n, (n <= ata_patience)%nat ∧ Z.land (ata_inb 0x1f7 (Nat.iter n (λ d, (ata_inb 0x1f7 d).2) d)).1 (Z.lor IDE_BSY IDE_DRDY) = IDE_DRDY;
  as_good d r l : as_phase d = PRead r l → Z.land (ata_inb 0x1f7 d).1 (Z.lor IDE_DF IDE_ERR) = 0;
  (* the other ports are registers *)
  as_outb d p v : 0x1f2 <= p <= 0x1f6 ∨ p = 0x3f6 → let d' := ata_outb p v d in
    as_phase d' = as_phase d ∧ (∀ q, as_reg d' q = if q =? p then v else as_reg d q) ∧ ∀ r l, as_sectors d' r l = as_sectors d r l;
  (* the two commands, for one sector *)
  as_read d : as_phase d = PIdle → as_reg d 0x1f2 = 1 → let d' := ata_outb 0x1f7 IDE_CMD_READ d in
    as_phase d' = PRead (drive_of (as_reg d)) (lba_of (as_reg d)) ∧ ∀ r l, as_sectors d' r l = as_sectors d r l;
  as_write d : as_phase d = PIdle → as_reg d 0x1f2 = 1 → let d' := ata_outb 0x1f7 IDE_CMD_WRITE d in
    as_phase d' = PWrite (drive_of (as_reg d)) (lba_of (as_reg d)) ∧ ∀ r l, as_sectors d' r l = as_sectors d r l;
  (* the data of one sector *)
  as_insl d r l : as_phase d = PRead r l → let '(x, d') := ata_insl 0x1f0 128 d in
    x = as_sectors d r l ∧ as_phase d' = PIdle ∧ ∀ r l, as_sectors d' r l = as_sectors d r l;
  as_outsl d r l x : as_phase d = PWrite r l → length x = 512%nat → let d' := ata_outsl 0x1f0 x d in
    as_phase d' = PIdle ∧ ∀ r' l', as_sectors d' r' l' = if (r' =? r) && (l' =? l) then x else as_sectors d r' l';
}.

(** A request the driver can serve, its drive, and its outcome on a disk. *)
Record request (b : buf) : Prop := mk_request {
  rq_block : 0 <= b_blockno b < FSSIZE;
  rq_data : length (b_data b) = 512%nat;
  rq_todo : Z.land (b_flags b) (Z.lor B_VALID B_DIRTY) ≠ B_VALID;
}.
Definition drive (b : buf) : Z := Z.land (b_dev b) 1.
Definition is_write (b : buf) : bool := negb (Z.land (b_flags b) B_DIRTY =? 0).
Definition done_flags (f : Z) : Z := Z.land (Z.lor f B_VALID) (Z.lnot B_DIRTY).

Definition disk : Type := Z → Z → list Z.
Definition served (b : buf) (dk : disk) : buf := set_b_flags (done_flags (b_flags b)) (if is_write b then b else set_b_data (dk (drive b) (b_blockno b)) b).
Definition disk_after (b : buf) (dk : disk) : disk :=
  λ r l, if is_write b && (r =? drive b) && (l =? b_blockno b) then b_data b else dk r l.

(** The reference: the requests of [q] one after the other. *)
Fixpoint serve_all (q : list nat) (bufs : list buf) (dk : disk) : list buf * disk :=
  match q with
  | [] => (bufs, dk)
  | i :: q => match bufs !! i with
              | Some b => serve_all q (<[i := served b dk]> bufs) (disk_after b dk)
              | None => serve_all q bufs dk
              end
  end.

Lemma disk_after_ext b dk dk' r l : (∀ r l, dk r l = dk' r l) → disk_after b dk r l = disk_after b dk' r l.
Proof. intros H. unfold disk_after. destruct (_ && _ && _); [done|apply H]. Qed.

Lemma served_ext b dk dk' : (∀ r l, dk r l = dk' r l) → served b dk = served b dk'.
Proof. intros H. unfold served. by rewrite H. Qed.

Lemma serve_all_ext q : ∀ bufs dk dk', (∀ r l, dk r l = dk' r l) →
  (serve_all q bufs dk).1 = (serve_all q bufs dk').1 ∧ ∀ r l, (serve_all q bufs dk).2 r l = (serve_all q bufs dk').2 r l.
Proof.
  induction q as [|i q IH]; intros bufs dk dk' H; cbn [serve_all]; [done|]. destruct (bufs !! i) as [b|]; [|by apply IH].
  rewrite (served_ext b dk dk' H). apply IH. intros r l. by apply disk_after_ext.
Qed.

(** A write that is on the disk already. *)
Lemma disk_after_idem b dk r l : disk_after b (disk_after b dk) r l = disk_after b dk r l.
Proof. unfold disk_after. by destruct (_ && _ && _). Qed.

(** The data of a read is the same before and after its command. *)
Lemma served_after b dk : served b (disk_after b dk) = served b dk.
Proof. unfold served, disk_after. by destruct (is_write b). Qed.

Section spec.
Context {D : Type} `{ata_spec D}.
Notation IM := (M (ide_t D) leave).

(** The device works on the first request: a write has its data already. *)
Definition working (d : D) (b : buf) : Prop :=
  if is_write b then as_phase d = PIdle ∧ as_sectors d (drive b) (b_blockno b) = b_data b else as_phase d = PRead (drive b) (b_blockno b).

(** The queue [q] of the driver, linked through [qnext]. *)
Record ide_ok (s : ide_t D) (q : list nat) : Prop := mk_ide_ok {
  io_bufs : length (k_bufs (id_k s)) = S NBUF;
  io_head : id_queue s = head q;
  io_links : ∀ j i, q !! j = Some i → ∃ b, k_bufs (id_k s) !! i = Some b ∧ b_qnext b = q !! S j ∧ request b;
  io_nodup : NoDup q;
  io_work : match q with [] => as_phase (id_dev s) = PIdle | i :: _ => ∀ b, k_bufs (id_k s) !! i = Some b → working (id_dev s) b end;
}.

(** ** The device *)
Definition dev_same (d d' : D) : Prop :=
  as_phase d' = as_phase d ∧ (∀ p, as_reg d' p = as_reg d p) ∧ ∀ r l, as_sectors d' r l = as_sectors d r l.

#[local] Instance dev_same_preorder : PreOrder dev_same.
Proof. split; [done|]. intros d1 d2 d3 (A1 & A2 & A3) (B1 & B2 & B3). split; [congruence|]. split; [intros; by rewrite B2|intros; by rewrite B3]. Qed.

Lemma idewait_loop_ok n : ∀ fuel (s : ide_t D), (n < fuel)%nat →
  Z.land (ata_inb 0x1f7 (Nat.iter n (λ d, (ata_inb 0x1f7 d).2) (id_dev s))).1 (Z.lor IDE_BSY IDE_DRDY) = IDE_DRDY →
  ∃ r d d', idewait_loop fuel s = Ret r (set_id_dev d' s) ∧ dev_same (id_dev s) d ∧ dev_same d d' ∧ r = (ata_inb 0x1f7 d).1.
Proof.
  induction n as [|n IH]; intros fuel s Hf Hr; (destruct fuel as [|fuel]; [lia|]); cbn [idewait_loop]; unfold inb at 1, bindM at 1.
  - cbn [Nat.iter nat_rect] in Hr. pose proof (as_status (id_dev s)) as Hs. destruct (ata_inb 0x1f7 (id_dev s)) as [v d'] eqn:E. cbn [fst snd] in *.
    rewrite Hr. change (negb (IDE_DRDY =? IDE_DRDY)) with false. cbv iota. exists v, (id_dev s), d'. split; [done|]. split; [reflexivity|]. split; [exact Hs|by rewrite E].
  - pose proof (as_status (id_dev s)) as Hs. rewrite Nat.iter_succ_r in Hr. destruct (ata_inb 0x1f7 (id_dev s)) as [v d1] eqn:E. cbn [fst snd] in *.
    destruct (Z.eqb_spec (Z.land v (Z.lor IDE_BSY IDE_DRDY)) IDE_DRDY) as [Ev|Ev]; cbn [negb].
    + exists v, (id_dev s), d1. split; [done|]. split; [reflexivity|]. split; [exact Hs|by rewrite E].
    + destruct (IH fuel (set_id_dev d1 s)) as (r & d & d' & E' & H1 & H2 & H3); [lia|exact Hr|]. exists r, d, d'. split; [exact E'|]. split; [|done].
      etrans; [exact Hs|exact H1].
Qed.

Lemma idewait_ok ce (s : ide_t D) : (ce = true → ∃ r l, as_phase (id_dev s) = PRead r l) → ∃ d', idewait ce s = Ret 0 (set_id_dev d' s) ∧ dev_same (id_dev s) d'.
Proof.
  intros Hce. destruct (as_ready (id_dev s)) as (n & Hn & Hr). destruct (idewait_loop_ok n (S ata_patience) s ltac:(lia) Hr) as (r & d & d' & E & H1 & H2 & H3).
  exists d'. split; [|by etrans]. unfold idewait. rewrite (bind_Ret_eq _ _ _ _ _ E). destruct ce; [|done]. cbn [andb].
  destruct (Hce eq_refl) as (dr & lb & Hp). rewrite H3, (as_good d dr lb) by (destruct H1 as (-> & _); done). done.
Qed.

(** The registers [idestart] writes name the sector. *)
Lemma sector_regs x : 0 <= x < 1000 → Z.land x 0xff + 2 ^ 8 * Z.land (Z.shiftr x 8) 0xff + 2 ^ 16 * Z.land (Z.shiftr x 16) 0xff + 2 ^ 24 * Z.land (Z.shiftr x 24) 0xf = x ∧
  0 <= Z.land x 0xff < 256 ∧ 0 <= Z.land (Z.shiftr x 8) 0xff < 256 ∧ Z.land (Z.shiftr x 16) 0xff = 0 ∧ Z.land (Z.shiftr x 24) 0xf = 0.
Proof.
  intros Hx. assert (H8 : Z.shiftr x 8 = x / 256) by (by rewrite Z.shiftr_div_pow2). assert (H16 : Z.shiftr x 16 = 0) by (rewrite Z.shiftr_div_pow2 by done; apply Z.div_small; lia).
  assert (H24 : Z.shiftr x 24 = 0) by (rewrite Z.shiftr_div_pow2 by done; apply Z.div_small; lia). rewrite H8, H16, H24.
  change 0xff with (Z.ones 8). change 0xf with (Z.ones 4). rewrite !Z.land_ones by done. change (2 ^ 8) with 256. change (0 mod 256) with 0. change (0 mod 2 ^ 4) with 0.
  change (2 ^ 16) with 65536. change (2 ^ 24) with 16777216. split_and!; try lia; divlia.
Qed.

Lemma drive_range b : drive b = 0 ∨ drive b = 1.
Proof. assert (E : drive b = b_dev b mod 2) by exact (Z.land_ones (b_dev b) 1 ltac:(done)). rewrite E. pose proof (Z.mod_pos_bound (b_dev b) 2). lia. Qed.

(** The device after the register writes of [idestart]. *)
Definition select (d : D) (b : buf) : D :=
  let x := b_blockno b in
  ata_outb 0x1f6 (u8 (Z.lor (Z.lor 0xe0 (Z.shiftl (drive b) 4)) (Z.land (Z.shiftr x 24) 0x0f)))
    (ata_outb 0x1f5 (u8 (Z.land (Z.shiftr x 16) 0xff)) (ata_outb 0x1f4 (u8 (Z.land (Z.shiftr x 8) 0xff))
      (ata_outb 0x1f3 (u8 (Z.land x 0xff)) (ata_outb 0x1f2 (u8 1) (ata_outb 0x3f6 (u8 0) d))))).

Lemma select_ok d b : 0 <= b_blockno b < FSSIZE → let d' := select d b in as_phase d' = as_phase d ∧ as_reg d' 0x1f2 = 1 ∧
  drive_of (as_reg d') = drive b ∧ lba_of (as_reg d') = b_blockno b ∧ ∀ r l, as_sectors d' r l = as_sectors d r l.
Proof.
  intros Hb. change FSSIZE with 1000 in Hb. destruct (sector_regs _ Hb) as (Hsum & H3 & H4 & H5 & H6). unfold select. cbv zeta. rewrite H5, H6.
  set (v3 := Z.land (b_blockno b) 0xff) in *. set (v4 := Z.land (Z.shiftr (b_blockno b) 8) 0xff) in *.
  assert (E3 : u8 v3 = v3) by (apply Z.mod_small; change (2 ^ 8) with 256; lia). assert (E4 : u8 v4 = v4) by (apply Z.mod_small; change (2 ^ 8) with 256; lia). rewrite E3, E4.
  set (v6 := u8 _). set (d0 := ata_outb 0x3f6 (u8 0) d). set (d1 := ata_outb 0x1f2 (u8 1) d0). set (d2 := ata_outb 0x1f3 v3 d1). set (d3 := ata_outb 0x1f4 v4 d2). set (d4 := ata_outb 0x1f5 (u8 0) d3).
  destruct (as_outb d 0x3f6 (u8 0) ltac:(lia)) as (P0 & R0 & S0). destruct (as_outb d0 0x1f2 (u8 1) ltac:(lia)) as (P1 & R1 & S1).
  destruct (as_outb d1 0x1f3 v3 ltac:(lia)) as (P2 & R2 & S2). destruct (as_outb d2 0x1f4 v4 ltac:(lia)) as (P3 & R3 & S3).
  destruct (as_outb d3 0x1f5 (u8 0) ltac:(lia)) as (P4 & R4 & S4). destruct (as_outb d4 0x1f6 v6 ltac:(lia)) as (P5 & R5 & S5).
  fold d0 in P0, R0, S0. fold d1 in P1, R1, S1. fold d2 in P2, R2, S2. fold d3 in P3, R3, S3. fold d4 in P4, R4, S4. set (d5 := ata_outb 0x1f6 v6 d4) in *.
  assert (Hr : as_reg d5 0x1f2 = 1 ∧ as_reg d5 0x1f3 = v3 ∧ as_reg d5 0x1f4 = v4 ∧ as_reg d5 0x1f5 = 0 ∧ as_reg d5 0x1f6 = v6) by (rewrite !R5, !R4, !R3, !R2, !R1; done).
  destruct Hr as (Q2 & Q3 & Q4 & Q5 & Q6). split; [congruence|]. split; [done|]. unfold drive_of, lba_of. rewrite Q3, Q4, Q5, Q6.
  assert (H6v : Z.land (Z.shiftr v6 4) 1 = drive b ∧ Z.land v6 0xf = 0) by (unfold v6; destruct (drive_range b) as [-> | ->]; by vm_compute).
  destruct H6v as [-> ->]. split; [done|]. split; [lia|]. intros r l. by rewrite S5, S4, S3, S2, S1, S0.
Qed.

Lemma outb_eq p v (s : ide_t D) : outb p v s = Ret tt (set_id_dev (ata_outb p (u8 v) (id_dev s)) s).
Proof. done. Qed.

Lemma bind_outb {B} p v (f : unit → IM B) (s : ide_t D) : bindM (outb p v) f s = f tt (set_id_dev (ata_outb p (u8 v) (id_dev s)) s).
Proof. done. Qed.

Lemma kern_buf_at i (s : ide_t D) b : k_bufs (id_k s) !! i = Some b → kern (buf_at i) s = Ret b s.
Proof. intros Hb. unfold kern, buf_at. rewrite bind_gets, Hb. cbn. by destruct s. Qed.

(** [idestart] gives the device its work; a write is on the disk from then on. *)
Lemma idestart_ok (s : ide_t D) i b : k_bufs (id_k s) !! i = Some b → request b → as_phase (id_dev s) = PIdle →
  ∃ d', idestart (Some i) s = Ret tt (set_id_dev d' s) ∧ working d' b ∧ ∀ r l, as_sectors d' r l = disk_after b (as_sectors (id_dev s)) r l.
Proof.
  intros Hb [Hbl Hlen _] Hidle. unfold idestart. rewrite (bind_Ret_eq _ _ _ _ _ (kern_buf_at i s b Hb)), (proj2 (Z.leb_gt _ _)) by lia.
  change (BSIZE / SECTOR_SIZE) with 1. cbv zeta. change (7 <? 1) with false. change (1 =? 1) with true. cbv iota.
  rewrite Z.mul_1_r, s32_small by (change FSSIZE with 1000 in Hbl; change (2 ^ 31) with 2147483648; lia).
  destruct (idewait_ok false s ltac:(done)) as (d1 & E1 & (P1 & _ & S1)). rewrite (bind_Ret_eq _ _ _ _ _ E1), !bind_outb. cbn [id_dev set_id_dev].
  fold (drive b). fold (select d1 b). destruct (select_ok d1 b Hbl) as (P2 & R2 & Hdr & Hlba & S2). set (d2 := select d1 b) in *.
  assert (Hp2 : as_phase d2 = PIdle) by congruence. fold (is_write b). unfold working. destruct (is_write b) eqn:Hw.
  - destruct (as_write d2 Hp2 R2) as [P3 S3]. rewrite Hdr, Hlba in P3. rewrite bind_outb. cbn [id_dev set_id_dev]. change (u8 IDE_CMD_WRITE) with IDE_CMD_WRITE.
    set (d3 := ata_outb 0x1f7 IDE_CMD_WRITE d2) in *. destruct (as_outsl d3 _ _ _ P3 Hlen) as [P4 S4]. set (d4 := ata_outsl 0x1f0 (b_data b) d3) in *.
    exists d4. split; [by destruct s|]. split; [split; [done|]; by rewrite S4, !Z.eqb_refl|]. intros r l. unfold disk_after. rewrite S4, Hw. cbn [andb].
    destruct ((r =? drive b) && (l =? b_blockno b)); [done|]. by rewrite S3, S2, S1.
  - destruct (as_read d2 Hp2 R2) as [P3 S3]. rewrite Hdr, Hlba in P3. rewrite outb_eq. cbn [id_dev set_id_dev]. change (u8 IDE_CMD_READ) with IDE_CMD_READ.
    eexists. split; [by destruct s|]. split; [exact P3|]. intros r l. unfold disk_after. rewrite Hw. cbn [andb]. by rewrite S3, S2, S1.
Qed.

(** ** The interrupt handler *)
Lemma kern_eq {A B} (m : M kernel leave A) a k' (f : A → IM B) (s : ide_t D) : m (id_k s) = Ret a k' → bindM (kern m) f s = f a (set_id_k k' s).
Proof. intros E. unfold bindM, kern. by rewrite E. Qed.

Lemma kern_mk {A B} (m : M kernel leave A) a k k' q one d (f : A → IM B) : m k = Ret a k' → bindM (kern m) f (mk_ide_t k q one d) = f a (mk_ide_t k' q one d).
Proof. intros E. unfold bindM, kern. cbn [id_k]. by rewrite E. Qed.

Lemma kern_Ret {A} (m : M kernel leave A) a k k' q one d : m k = Ret a k' → (kern m : IM A) (mk_ide_t k q one d) = Ret a (mk_ide_t k' q one d).
Proof. intros E. unfold kern. cbn [id_k]. by rewrite E. Qed.

Lemma bind_kern_modify {B} g (f : unit → IM B) (s : ide_t D) : bindM (kern (modify g)) f s = f tt (set_id_k (g (id_k s)) s).
Proof. done. Qed.

Lemma set_id_k_k k k' (s : ide_t D) : set_id_k k (set_id_k k' s) = set_id_k k s.
Proof. done. Qed.

(** The kernel after the buffer [i] became [b] and its sleepers were woken. *)
Definition finish (i : nat) (b : buf) (k : kernel) : kernel :=
  set_k_procs (wake (ChBuf i) <$> k_procs k) (set_k_bufs (<[i := b]> (k_bufs k)) k).

Lemma finish_comm i b : ∀ k c h, finish i b (set_k_held h (set_k_cpu c k)) = set_k_held h (set_k_cpu c (finish i b k)).
Proof. done. Qed.

Lemma finish_steps i b f k : k_bufs k !! i = Some b → upd_buf i (λ b, set_b_flags (Z.land (b_flags b) (Z.lnot B_DIRTY)) b)
    (upd_buf i (λ b, set_b_flags (Z.lor (b_flags b) B_VALID) b) (upd_buf i f k)) = set_k_bufs (<[i := set_b_flags (done_flags (b_flags (f b))) (f b)]> (k_bufs k)) k.
Proof.
  intros Hb. unfold upd_buf. cbn [k_bufs set_k_bufs]. pose proof (lookup_lt_Some _ _ _ Hb) as Hl. rewrite (alter_const f b) by done.
  rewrite !alter_ins by done. by destruct k.
Qed.

Lemma upd_buf_id i b k : k_bufs k !! i = Some b → upd_buf i (λ b, b) k = k.
Proof. intros Hb. unfold upd_buf. rewrite (alter_const _ b) by done. rewrite list_insert_id by done. by destruct k. Qed.

(** The transfer of the first request, the lock held. *)
Lemma transfer_ok (s : ide_t D) i b : k_bufs (id_k s) !! i = Some b → request b → working (id_dev s) b →
  ∃ d' f, (if Z.land (b_flags b) B_DIRTY =? 0 then
       r <- idewait true ;;
       if 0 <=? r then l <- insl 0x1f0 (BSIZE / 4) ;; kern (modify (upd_buf i (set_b_data l))) else mret tt
     else mret tt : IM unit) s = Ret tt (mk_ide_t (upd_buf i f (id_k s)) (id_queue s) (id_havedisk1 s) d') ∧
    set_b_flags (done_flags (b_flags (f b))) (f b) = served b (as_sectors (id_dev s)) ∧ as_phase d' = PIdle ∧ ∀ r l, as_sectors d' r l = disk_after b (as_sectors (id_dev s)) r l.
Proof.
  intros Hb [Hbl Hlen _] Hw. unfold working, served, disk_after in *. unfold is_write in *. destruct (Z.land (b_flags b) B_DIRTY =? 0) eqn:E; cbn [negb andb] in *.
  - destruct (idewait_ok true s) as (d1 & E1 & P1 & R1 & S1); [by eexists _, _|]. rewrite (bind_Ret_eq _ _ _ _ _ E1). change (0 <=? 0) with true. cbv iota.
    change (BSIZE / 4) with 128. pose proof (as_insl d1 (drive b) (b_blockno b) ltac:(by rewrite P1)) as Hi. unfold insl, bindM at 1. cbn [id_dev set_id_dev].
    destruct (ata_insl 0x1f0 128 d1) as [l d2]. destruct Hi as (-> & P2 & S2). exists d2, (set_b_data (as_sectors d1 (drive b) (b_blockno b))). split; [done|].
    split; [by rewrite S1|]. split; [done|]. intros r l. by rewrite S2, S1.
  - destruct Hw as [Hp Hs]. exists (id_dev s), (λ b, b). split; [|split; [done|split; [done|]]].
    + rewrite (upd_buf_id i b) by done. by destruct s.
    + intros r l. destruct (Z.eqb_spec r (drive b)) as [->|]; [|done]. destruct (Z.eqb_spec l (b_blockno b)) as [->|]; [|done]. done.
Qed.

Lemma ideintr_ok (s : ide_t D) i q b : idle (id_k s) → ide_ok s (i :: q) → k_bufs (id_k s) !! i = Some b →
  let bufs' := <[i := served b (as_sectors (id_dev s))]> (k_bufs (id_k s)) in
  ∃ s', ideintr s = Ret tt s' ∧ id_k s' = finish i (served b (as_sectors (id_dev s))) (quiet (id_k s)) ∧ id_havedisk1 s' = id_havedisk1 s ∧ idle (id_k s') ∧ ide_ok s' q ∧
    ∀ r l, as_sectors (id_dev s') r l = match q with
      | [] => disk_after b (as_sectors (id_dev s)) r l
      | j :: _ => match bufs' !! j with Some c => disk_after c (disk_after b (as_sectors (id_dev s))) r l | None => 0 :: [] end end.
Proof.
  intros Hid [Hlen Hhd Hlk Hnd Hwk] Hb bufs'. destruct (Hlk 0%nat i eq_refl) as (b0 & Hb0 & Hqn & Hrq). rewrite Hb in Hb0. injection Hb0 as <-.
  destruct (acquire_idle LkIde (id_k s) Hid) as [Ea Hl]. unfold ideintr. rewrite (kern_eq _ _ _ _ _ Ea), bind_gets. change (id_queue (set_id_k _ s)) with (id_queue s). rewrite Hhd. cbn [head].
  set (s1 := set_id_k (acquired LkIde (id_k s)) s). rewrite (bind_Ret_eq _ _ _ _ _ (kern_buf_at i s1 b Hb)), bind_modify.
  set (s2 := set_id_queue (b_qnext b) s1). destruct (transfer_ok s2 i b Hb Hrq (Hwk b Hb)) as (d2 & f & E2 & Hf & P2 & S2).
  rewrite (bind_Ret_eq _ _ _ _ _ E2), !bind_kern_modify. unfold set_id_k. cbn [id_k id_queue id_havedisk1 id_dev].
  change (id_k s2) with (acquired LkIde (id_k s)). rewrite (finish_steps i b f (acquired LkIde (id_k s)) Hb), Hf.
  set (b' := served b (as_sectors (id_dev s2))) in *. set (k1 := set_k_bufs _ _).
  assert (Hl1 : locked LkIde k1) by exact Hl. destruct (locked_in _ _ Hl1) as [Hne _]. pose proof (locked_ptable LkIde k1 ltac:(done) Hl1) as Hpt.
  rewrite (kern_mk _ _ _ _ _ _ _ _ (wakeup_locked (ChBuf i) k1 (proj1 Hl1) Hne Hpt)), bind_gets. cbn [id_queue].
  change (set_k_procs _ k1) with (finish i b' (acquired LkIde (id_k s))). change (id_queue s2) with (b_qnext b). rewrite Hqn. change ((i :: q) !! 1%nat) with (q !! 0%nat).
  change (as_sectors (id_dev s2)) with (as_sectors (id_dev s)) in *. change (id_havedisk1 s2) with (id_havedisk1 s).
  set (K := finish i b' (acquired LkIde (id_k s))). set (kF := finish i b' (quiet (id_k s))).
  assert (Hrel : release LkIde K = Ret tt kF) by (rewrite (proj1 (release_locked LkIde K Hl)); unfold K, kF; by rewrite (section_eq LkIde (id_k s) _ Hid (finish_comm i b'))).
  assert (HiF : idle kF) by exact (quiet_idle _ Hid). pose proof (lookup_lt_Some _ _ _ Hb) as Hil. apply list.NoDup_cons in Hnd as [Hnin Hnd].
  assert (Hlk' : ∀ x j, q !! x = Some j → ∃ c, bufs' !! j = Some c ∧ b_qnext c = q !! S x ∧ request c).
  { intros x j Hj. destruct (Hlk (S x) j Hj) as (c & Hc & Hq & Hr). exists c. split; [|done]. unfold bufs'. rewrite list_lookup_insert_ne; [done|]. intros ->. apply Hnin. by eapply list_elem_of_lookup_2. }
  assert (Hlen' : length bufs' = S NBUF) by (unfold bufs'; by rewrite length_insert). clear Hlk Hwk E2 Hrq.
  destruct q as [|j q]; cbn [lookup list_lookup].
  - rewrite bind_mret, (kern_Ret _ _ _ _ _ _ _ Hrel). eexists. split; [reflexivity|]. split; [done|]. split; [done|]. split; [done|]. split; [|exact S2]. by split.
  - destruct (Hlk' 0%nat j eq_refl) as (c & Hc & _ & Hrc). rewrite Hc. set (sK := mk_ide_t K (Some j) (id_havedisk1 s) d2).
    destruct (idestart_ok sK j c Hc Hrc P2) as (d3 & E3 & Hw3 & S3). rewrite (bind_Ret_eq _ _ _ _ _ E3).
    change (set_id_dev d3 sK) with (mk_ide_t K (Some j) (id_havedisk1 s) d3). rewrite (kern_Ret _ _ _ _ _ _ _ Hrel). eexists. split; [reflexivity|]. split; [done|]. split; [done|]. split; [done|]. split.
    + split; try done. intros c' Hc'. change (bufs' !! j = Some c') in Hc'. rewrite Hc in Hc'. injection Hc' as <-. exact Hw3.
    + intros r l. etrans; [exact (S3 r l)|]. by apply disk_after_ext.
Qed.

(** ** All the requests *)
Fixpoint intrs (n : nat) : IM unit := match n with O => mret tt | S n => ideintr ;; intrs n end.

(** Interrupts as many as requests: each is served, in order. *)
Lemma ide_drain q : ∀ s : ide_t D, idle (id_k s) → ide_ok s q →
  let r := serve_all q (k_bufs (id_k s)) (as_sectors (id_dev s)) in
  ∃ s', intrs (length q) s = Ret tt s' ∧ ide_ok s' [] ∧ k_bufs (id_k s') = r.1 ∧ (∀ dr l, as_sectors (id_dev s') dr l = r.2 dr l) ∧
    k_procs (id_k s') = foldl (λ ps i, wake (ChBuf i) <$> ps) (k_procs (id_k s)) q ∧ idle (id_k s').
Proof.
  induction q as [|i q IH]; intros s Hid Hok; cbn [length intrs foldl].
  { exists s. split; [done|]. split; [done|]. split; [done|]. split; [done|]. done. }
  destruct (io_links _ _ Hok 0%nat i eq_refl) as (b & Hb & _ & _). cbn [serve_all]. rewrite Hb.
  destruct (ideintr_ok s i q b Hid Hok Hb) as (s1 & E1 & Hk1 & _ & Hid1 & Hok1 & Hs1). rewrite (bind_Ret_eq _ _ _ _ _ E1).
  destruct (IH s1 Hid1 Hok1) as (s2 & E2 & Hok2 & Hb2 & Hs2 & Hp2 & Hid2). exists s2. split; [exact E2|]. split; [done|].
  assert (Hbk : k_bufs (id_k s1) = <[i := served b (as_sectors (id_dev s))]> (k_bufs (id_k s))) by (by rewrite Hk1). rewrite Hbk in *.
  assert (Hext : (serve_all q (<[i := served b (as_sectors (id_dev s))]> (k_bufs (id_k s))) (as_sectors (id_dev s1))).1 =
      (serve_all q (<[i := served b (as_sectors (id_dev s))]> (k_bufs (id_k s))) (disk_after b (as_sectors (id_dev s)))).1 ∧
    ∀ r l, (serve_all q (<[i := served b (as_sectors (id_dev s))]> (k_bufs (id_k s))) (as_sectors (id_dev s1))).2 r l =
      (serve_all q (<[i := served b (as_sectors (id_dev s))]> (k_bufs (id_k s))) (disk_after b (as_sectors (id_dev s)))).2 r l).
  { destruct q as [|j q]; [split; [done|exact Hs1]|]. destruct (<[i := _]> (k_bufs (id_k s)) !! j) as [c|] eqn:Hc.
    - cbn [serve_all]. rewrite Hc, (served_ext c _ _ Hs1), served_after.
      apply serve_all_ext. intros r l. rewrite (disk_after_ext c _ _ r l Hs1). apply disk_after_idem.
    - exfalso. destruct (io_links _ _ Hok1 0%nat j eq_refl) as (c & Hc' & _). rewrite Hbk in Hc'. by rewrite Hc in Hc'. }
  destruct Hext as [X1 X2]. split; [by rewrite Hb2|]. split; [intros; by rewrite Hs2, X2|]. split; [|done]. rewrite Hp2. by rewrite Hk1.
Qed.
End spec.
