(* ===== verification/IdeRun.v ===== *)
(** * IdeRun: the disk driver implements a queue of requests

    The abstract driver is a queue of buffers and the disk as the requests
    served so far left it. [iderw] adds a request at the end and sleeps,
    [ideintr] serves the first one and wakes who waits for it. *)

From S2P Require Import Prelude CString Kernel Sched Sock Kalloc Fifo Paging Vmem Sleeplock LockSpec Bio BioSpec Ide IdeSpec.

(** ** Definitions *)

(** The disk once the first request was started: a write is there already. *)
Definition started (q : list nat) (bufs : list buf) (dk : disk) : disk :=
  match q with
  | [] => dk
  | i :: _ => match bufs !! i with Some b => disk_after b dk | None => dk end
  end.

(** The buffer [i] linked at the end of the queue. *)
Definition linked (q : list nat) (i : nat) (bufs : list buf) : list buf :=
  let bufs := alter (set_b_qnext None) i bufs in
  match list.last q with Some j => alter (set_b_qnext (Some i)) j bufs | None => bufs end.

Section run.
Context {D : Type} `{ata_spec D}.
Notation IM := (M (ide_t D) leave).

(** The driver stands for the queue [q] and the disk [dk]. *)
Record ide_abs (s : ide_t D) (q : list nat) (dk : disk) : Prop := mk_ide_abs {
  ia_ok : ide_ok s q;
  ia_disk : ∀ r l, as_sectors (id_dev s) r l = started q (k_bufs (id_k s)) dk r l;
}.

(** ** The end of the queue *)
Lemma queue_len (s : ide_t D) q : ide_ok s q → (length q <= S NBUF)%nat.
Proof.
  intros Hok. rewrite <- (length_seq (S NBUF) 0). apply submseteq_length, NoDup_submseteq; [exact (io_nodup _ _ Hok)|].
  intros i Hi. apply list_elem_of_lookup in Hi as [j Hj]. destruct (io_links _ _ Hok j i Hj) as (b & Hb & _).
  apply lookup_lt_Some in Hb. rewrite (io_bufs _ _ Hok) in Hb. apply elem_of_seq. lia.
Qed.

Lemma ide_append_ok q b (s : ide_t D) : (∀ j i, q !! j = Some i → ∃ c, k_bufs (id_k s) !! i = Some c ∧ b_qnext c = q !! S j) →
  ∀ n j i e, (n + j)%nat = (length q - 1)%nat → q !! j = Some i → list.last q = Some e → ∀ fuel, (n < fuel)%nat →
  ide_append fuel i b s = Ret tt (set_id_k (upd_buf e (set_b_qnext (Some b)) (id_k s)) s).
Proof.
  intros Hl n. induction n as [|n IH]; intros j i e Hn Hj He fuel Hf; (destruct fuel as [|fuel]; [lia|]); cbn [ide_append];
    destruct (Hl j i Hj) as (c & Hc & Hq); rewrite (bind_Ret_eq _ _ _ _ _ (kern_buf_at i s c Hc)), Hq; pose proof (lookup_lt_Some _ _ _ Hj) as Hlt.
  - rewrite lookup_ge_None_2 by lia. rewrite list.last_lookup in He. replace (pred (length q)) with j in He by lia. rewrite Hj in He. by injection He as ->.
  - destruct (lookup_lt_is_Some_2 q (S j)) as [i' Hi']; [lia|]. rewrite Hi'. apply (IH (S j)); [lia|done|done|lia].
Qed.

(** ** The queue with one more *)
Lemma linked_lookup q i bufs j c : bufs !! j = Some c → i ∉ q → ∃ c', linked q i bufs !! j = Some c' ∧
  c' = set_b_qnext (if decide (j = i) then None else if decide (list.last q = Some j) then Some i else b_qnext c) c.
Proof.
  intros Hj Hi. assert (Ha : alter (set_b_qnext None) i bufs !! j = Some (if decide (j = i) then set_b_qnext None c else c)).
  { destruct (decide (j = i)) as [->|Hn]; [by rewrite list_lookup_alter_eq, Hj|by rewrite list_lookup_alter_ne]. }
  unfold linked. destruct (list.last q) as [e|] eqn:El.
  - destruct (decide (j = i)) as [->|Hn]; [|destruct (decide (Some e = Some j)) as [[= ->]|Hne]].
    + rewrite list_lookup_alter_ne, Ha; [by eexists|]. intros ->. apply Hi. by apply list.last_Some_elem_of.
    + rewrite list_lookup_alter_eq, Ha. by eexists.
    + rewrite list_lookup_alter_ne, Ha by congruence. eexists. split; [done|]. by destruct c.
  - rewrite Ha. eexists. split; [done|]. destruct (decide (j = i)) as [->|]; [done|]. rewrite decide_False by done. by destruct c.
Qed.

Lemma linked_length q i bufs : length (linked q i bufs) = length bufs.
Proof. unfold linked. destruct (list.last q); by rewrite ?length_alter. Qed.

Lemma request_qnext v b : request b → request (set_b_qnext v b).
Proof. intros [? ? ?]. by split. Qed.

Lemma linked_chain (s : ide_t D) q i b : ide_ok s q → i ∉ q → k_bufs (id_k s) !! i = Some b → request b →
  ∀ j x, (q ++ [i]) !! j = Some x → ∃ c, linked q i (k_bufs (id_k s)) !! x = Some c ∧ b_qnext c = (q ++ [i]) !! S j ∧ request c.
Proof.
  intros Hok Hi Hb Hr j x Hj. destruct (decide (j < length q)%nat) as [Hlt|Hge].
  - rewrite lookup_app_l in Hj by done. destruct (io_links _ _ Hok j x Hj) as (c & Hc & Hq & Hrc).
    destruct (linked_lookup q i _ x c Hc Hi) as (c' & Hc' & ->). eexists. split; [exact Hc'|]. split; [|by apply request_qnext]. cbn [b_qnext set_b_qnext].
    assert (Hx : x ∈ q) by (by eapply list_elem_of_lookup_2). rewrite decide_False by (by intros ->). rewrite list.last_lookup.
    destruct (decide (q !! pred (length q) = Some x)) as [He|He].
    + rewrite (NoDup_lookup q _ _ x (io_nodup _ _ Hok) Hj He), lookup_app_r by lia. replace (S (pred (length q)) - length q)%nat with 0%nat by lia. done.
    + rewrite Hq. assert (S j < length q)%nat by (destruct (decide (S j = length q)); [exfalso; apply He; by replace (pred (length q)) with j by lia|lia]). by rewrite lookup_app_l.
  - assert (j = length q) as -> by (apply lookup_lt_Some in Hj; rewrite length_app in Hj; cbn in Hj; lia). rewrite lookup_app_r in Hj by lia. rewrite Nat.sub_diag in Hj. injection Hj as <-.
    destruct (linked_lookup q i _ i b Hb Hi) as (c' & Hc' & ->). eexists. split; [exact Hc'|]. split; [|by apply request_qnext]. cbn [b_qnext set_b_qnext].
    rewrite decide_True by done. rewrite lookup_app_r by lia. by replace (S (length q) - length q)%nat with 1%nat by lia.
Qed.

(** The first request of the longer queue. *)
Lemma linked_head (s : ide_t D) q i : ide_ok s q → i ∉ q → ∀ j q', q = j :: q' → ∃ b v,
  k_bufs (id_k s) !! j = Some b ∧ linked q i (k_bufs (id_k s)) !! j = Some (set_b_qnext v b).
Proof.
  intros Hok Hi j q' ->. destruct (io_links _ _ Hok 0%nat j eq_refl) as (b & Hb & _).
  destruct (linked_lookup _ i _ j b Hb Hi) as (c & Hc & ->). by eexists _, _.
Qed.

Lemma drive_absent (b : buf) (one : bool) : (b_dev b ≠ 0 → one = true) → negb (b_dev b =? 0) && negb one = false.
Proof. intros Hd. destruct (Z.eqb_spec (b_dev b) 0) as [|Hn]; [done|]. by rewrite (Hd Hn). Qed.

(** The part of [iderw] that puts the request into the queue, [idelock] held. *)
Definition enqueue (i : nat) : IM unit :=
  kern (modify (upd_buf i (set_b_qnext None))) ;;
  q <- gets id_queue ;;
  (match q with
   | None => modify (set_id_queue (Some i))
   | Some j => ide_append (S NBUF) j i
   end) ;;
  q <- gets id_queue ;;
  (if bool_decide (q = Some i) then idestart q else mret tt).

Lemma enqueue_ok (s : ide_t D) q dk i b : ide_abs s q dk → i ∉ q → k_bufs (id_k s) !! i = Some b → request b →
  ∃ d', enqueue i s = Ret tt (mk_ide_t (set_k_bufs (linked q i (k_bufs (id_k s))) (id_k s)) (head (q ++ [i])) (id_havedisk1 s) d') ∧
    (∀ r l, as_sectors d' r l = started (q ++ [i]) (linked q i (k_bufs (id_k s))) dk r l) ∧
    (∀ c, (x ← head (q ++ [i]); linked q i (k_bufs (id_k s)) !! x) = Some c → working d' c).
Proof.
  intros [Hok Hdk] Hi Hb Hr. destruct (linked_lookup q i _ i b Hb Hi) as (b' & Hb' & Eb'). rewrite decide_True in Eb' by done.
  unfold enqueue. rewrite bind_kern_modify, bind_gets. set (s1 := set_id_k (upd_buf i (set_b_qnext None) (id_k s)) s).
  change (id_queue s1) with (id_queue s). rewrite (io_head _ _ Hok). destruct q as [|j q].
  - cbn [head]. rewrite bind_modify, bind_gets. cbn [id_queue set_id_queue]. rewrite bool_decide_eq_true_2 by done. set (s2 := set_id_queue (Some i) s1).
    destruct (idestart_ok s2 i b' Hb' ltac:(subst b'; by apply request_qnext) (io_work _ _ Hok)) as (d' & E & Hw & Hs). exists d'. split; [exact E|]. split.
    + intros r l. rewrite Hs. cbn [app started]. rewrite Hb'. apply disk_after_ext. exact Hdk.
    + cbn [app head mbind option_bind]. intros c Hc. rewrite Hb' in Hc. by injection Hc as <-.
  - destruct (linked_head s _ i Hok Hi j q eq_refl) as (a & v & Ha & Ha'). cbn [head app].
    destruct (list.last (j :: q)) as [e|] eqn:El; [|by rewrite last_cons in El; destruct (list.last q)].
    assert (Hch : ∀ x y, (j :: q) !! x = Some y → ∃ c, k_bufs (id_k s1) !! y = Some c ∧ b_qnext c = (j :: q) !! S x).
    { intros x y Hxy. destruct (io_links _ _ Hok x y Hxy) as (c & Hc & Hq & _). exists c. split; [|done]. unfold s1, upd_buf. cbn [id_k set_id_k k_bufs set_k_bufs].
      rewrite list_lookup_alter_ne; [done|]. intros ->. apply Hi. by eapply list_elem_of_lookup_2. }
    rewrite (bind_Ret_eq _ _ _ _ _ (ide_append_ok (j :: q) i s1 Hch (length q) 0 j e ltac:(cbn; lia) eq_refl El (S NBUF) ltac:(pose proof (queue_len s _ Hok); cbn [length] in *; lia))).
    rewrite bind_gets. cbn [id_queue set_id_k]. change (id_queue s1) with (id_queue s). rewrite (io_head _ _ Hok). cbn [head].
    rewrite bool_decide_eq_false_2 by (intros [= ->]; apply Hi; set_solver). exists (id_dev s). split.
    + unfold linked. rewrite El. unfold mret. unfold set_id_k. cbn [id_k id_queue id_havedisk1 id_dev]. unfold s1, upd_buf. cbn [id_k set_id_k id_queue id_havedisk1 id_dev k_bufs set_k_bufs].
      rewrite (io_head _ _ Hok). done.
    + cbn [started]. rewrite Ha'. split.
      * intros r l. rewrite Hdk. cbn [started]. rewrite Ha. done.
      * cbn [mbind option_bind]. intros c Hc. rewrite Ha' in Hc. injection Hc as <-. exact (io_work _ _ Hok a Ha).
Qed.

Lemma iderw_enqueue (s : ide_t D) i me pr b : idle (id_k s) → current (id_k s) me pr → k_bufs (id_k s) !! i = Some b → b_lock b = mk_sleeplock true (p_pid pr) →
  request b → (b_dev b ≠ 0 → id_havedisk1 s = true) →
  iderw i s = bindM (enqueue i) (λ _, iderw_wait i) (set_id_k (acquired LkIde (quiet (id_k s))) s).
Proof.
  intros Hid Hcur Hb Hl [_ _ Ht] Hd. unfold iderw. rewrite (kern_eq _ _ _ _ _ (holdingsleep_eq (SlBuf i) (id_k s) (b_lock b) me pr Hid Hcur ltac:(cbn; by rewrite Hb))), Hl.
  cbn [sl_locked sl_pid andb]. rewrite Z.eqb_refl. cbn [negb]. set (s1 := set_id_k (quiet (id_k s)) s). rewrite (bind_Ret_eq _ _ _ _ _ (kern_buf_at i s1 b Hb)).
  rewrite (proj2 (Z.eqb_neq _ _) Ht), bind_gets. change (id_havedisk1 s1) with (id_havedisk1 s). rewrite (drive_absent b _ Hd).
  destruct (acquire_idle LkIde _ (quiet_idle _ Hid)) as [Ea _]. rewrite (kern_eq _ _ _ _ s1 Ea). unfold enqueue. rewrite !bind_assoc, !bind_kern_modify, !bind_assoc, !bind_gets.
  rewrite bind_assoc. destruct (id_queue _); [|rewrite !bind_modify]; done.
Qed.

(** A request joins the queue and its process sleeps, [ptable.lock] held. *)
Lemma iderw_ok (s : ide_t D) q dk i me pr b : idle (id_k s) → current (id_k s) me pr → ide_abs s q dk → i ∉ q →
  k_bufs (id_k s) !! i = Some b → b_lock b = mk_sleeplock true (p_pid pr) → request b → (b_dev b ≠ 0 → id_havedisk1 s = true) →
  ∃ s', iderw i s = Switch (LSleep (ChBuf i)) s' ∧ ide_abs s' (q ++ [i]) dk ∧ locked LkPtable (id_k s') ∧
    k_bufs (id_k s') = linked q i (k_bufs (id_k s)) ∧
    k_procs (id_k s') = alter (set_p_state SLEEPING ∘ set_p_chan (Some (ChBuf i))) me (k_procs (id_k s)) ∧ k_cur (id_k s') = Some me ∧ id_havedisk1 s' = id_havedisk1 s.
Proof.
  intros Hid Hcur [Hok Hdk] Hi Hb Hl Hr Hd. rewrite (iderw_enqueue s i me pr b Hid Hcur Hb Hl Hr Hd).
  destruct (acquire_idle LkIde _ (quiet_idle _ Hid)) as [_ [Hc Hh]]. set (s1 := set_id_k _ s).
  destruct (enqueue_ok s1 q dk i b ltac:(by split; [destruct Hok; by split|]) Hi Hb Hr) as (d' & E & Hsec & Hwk). rewrite (bind_Ret_eq _ _ _ _ _ E).
  set (B := linked q i _) in *. set (K := set_k_bufs B (id_k s1)). unfold iderw_wait.
  destruct (linked_lookup q i _ i b Hb Hi) as (b' & Hb' & Eb'). set (s2 := mk_ide_t K _ _ d').
  rewrite (bind_Ret_eq _ _ _ _ _ (kern_buf_at i s2 b' Hb')). assert (Hfl : b_flags b' = b_flags b) by (by subst b'). rewrite Hfl, (proj2 (Z.eqb_neq _ _) (rq_todo _ Hr)).
  destruct (sleep_eq (ChBuf i) LkIde me pr (LSleep (ChBuf i)) K Hc Hh ltac:(done) (proj1 Hcur) (proj2 Hcur)) as (k' & Es & Hc' & Hh' & Ek).
  unfold kern. change (id_k s2) with K. rewrite Es. eexists. split; [reflexivity|].
  assert (Hk' : k_bufs k' = B) by (by rewrite Ek). split; [|split; [by split|split; [done|split; [by rewrite Ek|split; [rewrite Ek; exact (proj1 Hcur)|done]]]]].
  split; [split; cbn [id_k set_id_k id_queue id_dev s2]|].
  - rewrite Hk'. unfold B. rewrite linked_length. exact (io_bufs _ _ Hok).
  - done.
  - rewrite Hk'. exact (linked_chain s q i b Hok Hi Hb Hr).
  - apply list.NoDup_app. split; [exact (io_nodup _ _ Hok)|]. split; [set_solver|apply NoDup_singleton].
  - rewrite Hk'. destruct q; exact Hwk.
  - cbn [id_k set_id_k id_dev s2]. rewrite Hk'. exact Hsec.
Qed.

(** The interrupt serves the first request. *)
Lemma ideintr_abs (s : ide_t D) i q dk : idle (id_k s) → ide_abs s (i :: q) dk →
  ∃ b s', k_bufs (id_k s) !! i = Some b ∧ ideintr s = Ret tt s' ∧ ide_abs s' q (disk_after b dk) ∧ id_k s' = finish i (served b dk) (quiet (id_k s)) ∧ idle (id_k s') ∧ id_havedisk1 s' = id_havedisk1 s.
Proof.
  intros Hid [Hok Hdk]. destruct (io_links _ _ Hok 0%nat i eq_refl) as (b & Hb & _). exists b. cbn [started] in Hdk. rewrite Hb in Hdk.
  destruct (ideintr_ok s i q b Hid Hok Hb) as (s' & E & Hk & Hone & Hid' & Hok' & Hs). rewrite (served_ext b _ _ Hdk), served_after in *.
  exists s'. split; [done|]. split; [done|]. split; [|done]. split; [done|]. rewrite Hk. cbn [k_bufs finish set_k_procs set_k_bufs quiet]. intros r l. rewrite Hs.
  assert (He : ∀ r l, disk_after b (as_sectors (id_dev s)) r l = disk_after b dk r l) by (intros r' l'; rewrite (disk_after_ext b _ _ r' l' Hdk); apply disk_after_idem).
  destruct q as [|j q]; [apply He|]. cbn [started]. change (k_bufs (quiet (id_k s))) with (k_bufs (id_k s)).
  destruct (_ !! j) as [c|] eqn:Hc; [by apply disk_after_ext|].
  destruct (io_links _ _ Hok' 0%nat j eq_refl) as (c & Hc' & _). rewrite Hk in Hc'. cbn in Hc'. by rewrite Hc in Hc'.
Qed.

(** A process that goes on once its request was served leaves [iderw]. *)
Lemma iderw_woken_ok (s : ide_t D) i me intena b : locked LkPtable (id_k s) → k_bufs (id_k s) !! i = Some b → Z.land (b_flags b) (Z.lor B_VALID B_DIRTY) = B_VALID →
  ∃ s', iderw_woken me i intena s = Ret tt s' ∧ idle (id_k s') ∧ k_bufs (id_k s') = k_bufs (id_k s) ∧ id_dev s' = id_dev s ∧ id_queue s' = id_queue s.
Proof.
  intros Hl Hb Hf. unfold iderw_woken. set (k1 := upd_proc me (set_p_chan None) (upd_cpu (set_c_intena intena) (id_k s))).
  assert (Hl1 : locked LkPtable k1) by exact Hl. destruct (release_locked LkPtable k1 Hl1) as [E1 Hi1]. destruct (acquire_idle LkIde _ Hi1) as [E2 Hl2].
  set (k2 := acquired LkIde (released LkPtable k1)) in *. assert (Es : (sleep_leave me LkIde intena : M kernel leave unit) (id_k s) = Ret tt k2).
  { unfold sleep_leave, sched_back. rewrite !bind_modify, bool_decide_eq_false_2 by done. cbn [negb when]. fold k1. by rewrite (bind_Ret_eq _ _ _ _ _ E1). }
  rewrite (kern_eq _ _ _ _ s Es). unfold iderw_wait. rewrite (bind_Ret_eq _ _ _ _ _ (kern_buf_at i (set_id_k k2 s) b Hb)), Hf, Z.eqb_refl.
  destruct (release_locked LkIde k2 Hl2) as [E3 Hi3]. unfold kern. change (id_k (set_id_k k2 s)) with k2. rewrite E3. by eexists.
Qed.

(** ** Against memide.c *)
Lemma done_flags_write f : Z.lor (Z.land f (Z.lnot B_DIRTY)) B_VALID = done_flags f.
Proof. unfold done_flags. by rewrite Z.land_lor_distr_l. Qed.

Lemma done_flags_read f : Z.land f B_DIRTY = 0 → Z.lor f B_VALID = done_flags f.
Proof.
  intros Hf. rewrite <- done_flags_write. f_equal. pose proof (Z.lor_ldiff_and f B_DIRTY) as E. rewrite Hf, Z.lor_0_r, Z.ldiff_land in E. by symmetry.
Qed.

(** What memide.c does with a request for the disk 1. *)
Lemma memide_served k i me pr b : idle k → current k me pr → k_bufs k !! i = Some b → b_lock b = mk_sleeplock true (p_pid pr) → request b → b_dev b = 1 →
  b_blockno b < io_disksize (k_io k) → k_power k = None →
  ∃ k', Bio.iderw i k = Ret tt k' ∧ k_bufs k' = <[i := served b (λ _, k_disk k)]> (k_bufs k) ∧ ∀ l, k_disk k' l = disk_after b (λ _, k_disk k) 1 l.
Proof.
  intros Hid Hcur Hb Hl [_ _ Ht] Hd Hs Hw. pose proof (lookup_lt_Some _ _ _ Hb) as Hlt. unfold Bio.iderw.
  rewrite (bind_Ret_eq _ _ _ _ _ (holdingsleep_eq (SlBuf i) k (b_lock b) me pr Hid Hcur ltac:(cbn; by rewrite Hb))), Hl. cbn [sl_locked sl_pid andb]. rewrite Z.eqb_refl. cbn [negb].
  rewrite (bind_buf_at i b) by exact Hb. rewrite (proj2 (Z.eqb_neq _ _) Ht), Hd. change (negb (1 =? 1)) with false. cbv iota. rewrite bind_gets.
  change (io_disksize (k_io (quiet k))) with (io_disksize (k_io k)). rewrite (proj2 (Z.leb_gt _ _) Hs). unfold served, disk_after, drive. rewrite Hd. change (Z.land 1 1) with 1. unfold is_write.
  destruct (Z.land (b_flags b) B_DIRTY =? 0) eqn:Ef; cbn [negb andb].
  - rewrite bind_assoc, bind_gets, bind_modify. eexists. split; [reflexivity|]. split; [|done]. cbn [k_bufs upd_buf set_k_bufs quiet upd_cpu set_k_cpu k_disk].
    rewrite (alter_const (set_b_data _) b), alter_ins by done. cbn [b_flags set_b_data]. by rewrite (done_flags_read (b_flags b)) by lia.
  - rewrite bind_assoc, bind_modify. unfold bindM, disk_write. change (k_power _) with (k_power k). rewrite Hw. eexists. split; [reflexivity|]. split; [|done].
    cbn [k_bufs upd_buf set_k_bufs set_k_disk quiet upd_cpu set_k_cpu]. rewrite (alter_const (set_b_flags _) b), alter_ins by done. cbn [b_flags set_b_flags]. by rewrite done_flags_write.
Qed.

Lemma served_ready b dk : Z.land (b_flags (served b dk)) (Z.lor B_VALID B_DIRTY) = B_VALID.
Proof.
  unfold served. cbn [b_flags set_b_flags]. unfold done_flags. apply Z.bits_inj'. intros n Hn.
  assert (Hvd : Z.testbit B_VALID n && Z.testbit B_DIRTY n = false) by (by rewrite <- Z.land_spec, Z.bits_0).
  rewrite !Z.land_spec, !Z.lor_spec, Z.lnot_spec by done. by destruct (Z.testbit (b_flags b) n), (Z.testbit B_VALID n), (Z.testbit B_DIRTY n).
Qed.

End run.

(** ** A concrete device *)

(** It is busy for one poll after each command. *)
Record toy : Type := mk_toy {
  toy_busy : bool;
  toy_phase : ata_phase;
  toy_reg : Z → Z;
  toy_sectors : disk;
}.

#[export] Instance toy_ata : ata toy := {
  ata_inb p d := (if toy_busy d then IDE_BSY else IDE_DRDY, mk_toy false (toy_phase d) (toy_reg d) (toy_sectors d));
  ata_outb p v d :=
    if p =? 0x1f7 then
      let r := toy_reg d in
      let ph := if v =? IDE_CMD_READ then PRead (drive_of r) (lba_of r) else if v =? IDE_CMD_WRITE then PWrite (drive_of r) (lba_of r) else toy_phase d in
      mk_toy true ph r (toy_sectors d)
    else mk_toy (toy_busy d) (toy_phase d) (λ q, if q =? p then v else toy_reg d q) (toy_sectors d);
  ata_insl p n d := match toy_phase d with
    | PRead r l => (toy_sectors d r l, mk_toy (toy_busy d) PIdle (toy_reg d) (toy_sectors d))
    | _ => ([], d)
    end;
  ata_outsl p x d := match toy_phase d with
    | PWrite r l => mk_toy true PIdle (toy_reg d) (λ r' l', if (r' =? r) && (l' =? l) then x else toy_sectors d r' l')
    | _ => d
    end;
  ata_patience := 1;
}.

#[export] Instance toy_spec : ata_spec toy.
Proof.
  refine (mk_ata_spec _ _ toy_sectors toy_phase toy_reg _ _ _ _ _ _ _ _); cbn [ata_inb ata_outb ata_insl ata_outsl ata_patience toy_ata].
  - done.
  - intros d. destruct (toy_busy d) eqn:E; [exists 1%nat|exists 0%nat]; cbn [Nat.iter nat_rect fst snd toy_busy]; [split; [lia|done]|]. rewrite E. split; [lia|done].
  - intros d r l _. by destruct (toy_busy d).
  - intros d p v Hp. rewrite (proj2 (Z.eqb_neq p 0x1f7)) by lia. done.
  - done.
  - done.
  - intros d r l Hp. by rewrite Hp.
  - intros d r l x Hp _. by rewrite Hp.
Defined.

Definition toy0 : toy := mk_toy false PIdle (λ _, 0) (λ _ _, replicate 512 0).

(** A kernel whose process 0 has locked its buffers, each with data to write. *)
Definition demo_buf (blk : Z) : buf := mk_buf B_DIRTY 1 blk (mk_sleeplock true 0) 1 0 0 None (replicate 512 7).
Definition demo_bufs : kernel := set_k_bufs (demo_buf <$> seqZ 0 (Z.of_nat (S NBUF))) (set_k_cur (Some 0%nat) kernel0).
Definition demo_ide : ide_t toy := mk_ide_t demo_bufs None true toy0.

Lemma demo_buf_at i : (i <= NBUF)%nat → k_bufs demo_bufs !! i = Some (demo_buf (Z.of_nat i)).
Proof. intros Hi. unfold demo_bufs. cbn [k_bufs set_k_bufs]. rewrite list_lookup_fmap, lookup_seqZ_lt by (unfold NBUF in *; lia). done. Qed.

Lemma demo_request i : (i <= NBUF)%nat → request (demo_buf (Z.of_nat i)).
Proof. intros Hi. split; [cbn; unfold NBUF, FSSIZE in *; lia|done|done]. Qed.

Lemma demo_ide_idle : idle demo_bufs.
Proof. split; [|done]. split; [done|]. split; [by intros []|apply NoDup_nil_2]. Qed.

Lemma demo_ide_abs : ide_abs demo_ide [] (toy_sectors toy0).
Proof. split; [|done]. split; try done. apply NoDup_nil_2. Qed.

(** ** Properties *)

(** C11: the driver of ide.c is a queue of requests. From a state that stands
    for the queue [q] and the disk [dk]: (1) a process that has locked a
    buffer and calls [iderw] sleeps on it, the buffer is at the end of the
    queue, and nothing of any buffer changes but [qnext]; (2) an interrupt
    with an empty queue changes nothing; (3) an interrupt with a request at
    the front takes exactly that one off: a read has the data of the disk, a
    write is on the disk, the buffer is valid and not dirty, and the processes
    sleeping on it are runnable. *)
Theorem ide_refines_fifo {D} `{ata_spec D} (s : ide_t D) q dk : idle (id_k s) → ide_abs s q dk →
  (∀ i me pr b, current (id_k s) me pr → i ∉ q → k_bufs (id_k s) !! i = Some b → b_lock b = mk_sleeplock true (p_pid pr) → request b → (b_dev b ≠ 0 → id_havedisk1 s = true) →
    ∃ s', iderw i s = Switch (LSleep (ChBuf i)) s' ∧ ide_abs s' (q ++ [i]) dk ∧ k_bufs (id_k s') = linked q i (k_bufs (id_k s)) ∧
      k_procs (id_k s') = alter (set_p_state SLEEPING ∘ set_p_chan (Some (ChBuf i))) me (k_procs (id_k s))) ∧
  (q = [] → ideintr s = Ret tt (set_id_k (quiet (id_k s)) s)) ∧
  (∀ i q', q = i :: q' → ∃ b s', k_bufs (id_k s) !! i = Some b ∧ ideintr s = Ret tt s' ∧ ide_abs s' q' (disk_after b dk) ∧
    k_bufs (id_k s') = <[i := served b dk]> (k_bufs (id_k s)) ∧ k_procs (id_k s') = wake (ChBuf i) <$> k_procs (id_k s)).
Proof.
  intros Hid Habs. split; [|split].
  - intros i me pr b Hcur Hi Hb Hl Hr Hd. destruct (iderw_ok s q dk i me pr b Hid Hcur Habs Hi Hb Hl Hr Hd) as (s' & E & Ha & _ & Hbs & Hps & _). by exists s'.
  - intros ->. unfold ideintr. destruct (acquire_idle LkIde (id_k s) Hid) as [Ea Hl]. rewrite (kern_eq _ _ _ _ s Ea), bind_gets.
    change (id_queue (set_id_k _ s)) with (id_queue s). rewrite (io_head _ _ (ia_ok _ _ _ Habs)). cbn [head]. unfold kern. cbn [id_k set_id_k].
    rewrite (proj1 (release_locked LkIde _ Hl)). by rewrite (section_eq LkIde (id_k s) (λ k, k) Hid).
  - intros i q' ->. destruct (ideintr_abs s i q' dk Hid Habs) as (b & s' & Hb & E & Ha & Hk & _). exists b, s'. rewrite Hk. done.
Qed.

Lemma ide_refines_fifo_witness : idle (id_k demo_ide) ∧
  ∃ s', iderw 5 demo_ide = Switch (LSleep (ChBuf 5)) s' ∧ ide_abs s' [5%nat] (toy_sectors toy0).
Proof.
  split; [exact demo_ide_idle|]. destruct (proj1 (ide_refines_fifo demo_ide [] _ demo_ide_idle demo_ide_abs) 5%nat 0%nat proc0 (demo_buf 5)) as (s' & E & Ha & _).
  - by split.
  - set_solver.
  - by apply (demo_buf_at 5); unfold NBUF; lia.
  - done.
  - by apply (demo_request 5); unfold NBUF; lia.
  - done.
  - by exists s'.
Defined.

(** C12: for one process and the disk 1, ide.c does what memide.c does. The
    process sleeps in [iderw]; whatever the other processes do meanwhile that
    leaves buffers and processes alone, the interrupt makes it runnable, and
    once it runs again [iderw] returns with the same buffers (but for
    [qnext]) and the same disk as the [iderw] of memide.c. *)
Theorem ide_memide_agree {D} `{ata_spec D} (s : ide_t D) dk i me pr b : idle (id_k s) → current (id_k s) me pr → ide_abs s [] dk →
  k_bufs (id_k s) !! i = Some b → b_lock b = mk_sleeplock true (p_pid pr) → request b → b_dev b = 1 → id_havedisk1 s = true →
  b_blockno b < io_disksize (k_io (id_k s)) → k_power (id_k s) = None → (∀ l, dk 1 l = k_disk (id_k s) l) →
  ∃ km s1, Bio.iderw i (id_k s) = Ret tt km ∧ iderw i s = Switch (LSleep (ChBuf i)) s1 ∧
    ∀ k1, idle k1 → k_bufs k1 = k_bufs (id_k s1) → k_procs k1 = k_procs (id_k s1) →
    ∃ s2 pr2, ideintr (set_id_k k1 s1) = Ret tt s2 ∧ k_procs (id_k s2) !! me = Some pr2 ∧ p_state pr2 = RUNNABLE ∧
      ∀ k2 intena, locked LkPtable k2 → k_bufs k2 = k_bufs (id_k s2) →
      ∃ s3 dk3, iderw_woken me i intena (set_id_k k2 s2) = Ret tt s3 ∧ idle (id_k s3) ∧ ide_abs s3 [] dk3 ∧
        k_bufs (id_k s3) = alter (set_b_qnext None) i (k_bufs km) ∧ ∀ l, dk3 1 l = k_disk km l.
Proof.
  intros Hid Hcur Habs Hb Hl Hr Hd Hone Hsz Hpw Hdk. destruct (memide_served (id_k s) i me pr b Hid Hcur Hb Hl Hr Hd Hsz Hpw) as (km & Em & Hbm & Hdm).
  destruct (iderw_ok s [] dk i me pr b Hid Hcur Habs ltac:(set_solver) Hb Hl Hr ltac:(done)) as (s1 & E1 & Ha1 & _ & Hb1 & Hp1 & _).
  exists km, s1. split; [done|]. split; [done|]. intros k1 Hid1 Hk1 Hkp. set (t1 := set_id_k k1 s1).
  assert (Hat : ide_abs t1 [i] dk) by (destruct Ha1 as [[X1 X2 X3 X4 X5] Y]; split; [split; unfold t1; cbn [id_k set_id_k id_queue id_dev]; rewrite ?Hk1; done|unfold t1; cbn [id_k set_id_k id_dev]; by rewrite Hk1]).
  destruct (ideintr_abs t1 i [] dk Hid1 Hat) as (b1 & s2 & Hb1' & E2 & Ha2 & Hk2 & _). change (id_k t1) with k1 in *.
  assert (Eb1 : b1 = set_b_qnext None b).
  { rewrite Hk1, Hb1 in Hb1'. unfold linked in Hb1'. cbn [list.last] in Hb1'. rewrite list_lookup_alter_eq, Hb in Hb1'. by injection Hb1' as <-. }
  exists s2, (wake (ChBuf i) (set_p_state SLEEPING (set_p_chan (Some (ChBuf i)) pr))). split; [done|]. split; [|split; [unfold wake; by rewrite !bool_decide_eq_true_2 by done|]].
  { rewrite Hk2. cbn [k_procs finish set_k_procs]. change (k_procs _) with (k_procs k1). rewrite Hkp, Hp1, list_lookup_fmap, list_lookup_alter_eq, (proj2 Hcur). done. }
  intros k2 intena Hl2 Hbk2. set (t2 := set_id_k k2 s2). pose proof (lookup_lt_Some _ _ _ Hb) as Hlt.
  assert (Hbs2 : k_bufs (id_k s2) = <[i := served b1 dk]> (k_bufs k1)) by (by rewrite Hk2).
  assert (Hbi : k_bufs k2 !! i = Some (served b1 dk)) by (rewrite Hbk2, Hbs2; apply list_lookup_insert_eq; rewrite Hk1, Hb1, linked_length; exact Hlt).
  destruct (iderw_woken_ok t2 i me intena (served b1 dk) Hl2 Hbi (served_ready b1 dk)) as (s3 & E3 & Hid3 & Hb3 & Hd3 & Hq3).
  exists s3, (disk_after b1 dk). split; [done|]. split; [done|]. split; [|split].
  - destruct Ha2 as [[X1 X2 X3 X4 X5] Y]. split; [split|]; rewrite ?Hb3, ?Hd3, ?Hq3; try done. change (k_bufs (id_k t2)) with (k_bufs k2). by rewrite Hbk2.
  - rewrite Hb3. change (k_bufs (id_k t2)) with (k_bufs k2). rewrite Hbk2, Hbs2, Hk1, Hb1, Hbm. unfold linked. cbn [list.last]. rewrite alter_ins by done.
    rewrite (alter_const _ b) by done. rewrite list_insert_insert_eq. f_equal. rewrite Eb1. unfold served. unfold drive. cbn [b_dev set_b_qnext]. rewrite Hd. change (Z.land 1 1) with 1.
    change (is_write (set_b_qnext None b)) with (is_write b). cbn [b_blockno set_b_qnext]. rewrite Hdk. by destruct (is_write b).
  - intros l. rewrite Hdm, Eb1. unfold disk_after. cbn [b_blockno set_b_qnext]. change (is_write (set_b_qnext None b)) with (is_write b). change (drive (set_b_qnext None b)) with (drive b). by rewrite Hdk.
Qed.

Lemma ide_memide_agree_witness : ∃ km s1, Bio.iderw 5 demo_bufs = Ret tt km ∧ iderw 5 demo_ide = Switch (LSleep (ChBuf 5)) s1.
Proof.
  destruct (ide_memide_agree demo_ide (toy_sectors toy0) 5 0 proc0 (demo_buf 5)) as (km & s1 & E1 & E2 & _).
  - exact demo_ide_idle.
  - by split.
  - exact demo_ide_abs.
  - by apply (demo_buf_at 5); unfold NBUF; lia.
  - done.
  - by apply (demo_request 5); unfold NBUF; lia.
  - done.
  - done.
  - by vm_compute.
  - done.
  - done.
  - by exists km, s1.
Defined.
