(* ===== verification/Bootmain.v ===== *)
(** * Bootmain: the boot loader (bootmain.c)

    [bootmain] reads the kernel's ELF image from the disk, sector by sector,
    over the same device as the driver of ide.c, and jumps to its entry. The
    theorem says what is in memory then. *)

From S2P Require Import Prelude CString Kernel Sched Sock Kalloc Fifo Paging Vmem Sleeplock LockSpec Bio BioSpec Ide IdeSpec IdeRun.

(** ** Definitions *)
Definition SECTSIZE : Z := 512.
Definition ELF_HEADER_MAGIC : Z := 0x464C457F.

(** [insl]: the words read go to memory. *)
Definition put_bytes (m : mem) (a : Z) (l : list Z) : mem :=
  λ b, if (a <=? b) && (b <? a + Z.of_nat (length l)) then default 0 (l !! Z.to_nat (b - a)) else m b.

(** Memory and the disk. *)
Record boot_t (D : Type) : Type := mk_boot_t { bt_mem : mem; bt_dev : D }.
Arguments mk_boot_t {D}.
Arguments bt_mem {D}.
Arguments bt_dev {D}.

(** The fields of [struct elfhdr] and [struct proghdr] in memory. *)
Definition elf_magic (m : mem) (a : Z) : Z := load32 m a.
Definition elf_entry (m : mem) (a : Z) : Z := load32 m (a + 24).
Definition elf_phoff (m : mem) (a : Z) : Z := load32 m (a + 28).
Definition elf_phnum (m : mem) (a : Z) : Z := m (a + 44) + 2 ^ 8 * m (a + 45).
Definition proghdr_sizeof : Z := 32.
Definition proghdr_off (m : mem) (a : Z) : Z := load32 m (a + 4).
Definition proghdr_paddr (m : mem) (a : Z) : Z := load32 m (a + 12).
Definition proghdr_filesz (m : mem) (a : Z) : Z := load32 m (a + 16).
Definition proghdr_memsz (m : mem) (a : Z) : Z := load32 m (a + 20).

Section bootmain.
Context {D : Type} `{ata D}.
Notation BM := (M (boot_t D) leave).

Definition binb (p : Z) : BM Z := λ s, let '(v, d) := ata_inb p (bt_dev s) in Ret v (mk_boot_t (bt_mem s) d).
Definition boutb (p v : Z) : BM unit := modify (λ s, mk_boot_t (bt_mem s) (ata_outb p (u8 v) (bt_dev s))).
Definition binsl (p dst n : Z) : BM unit := λ s,
  let '(l, d) := ata_insl p n (bt_dev s) in Ret tt (mk_boot_t (put_bytes (bt_mem s) dst l) d).

Fixpoint waitdisk_loop (fuel : nat) : BM unit :=
  match fuel with
  | O => fault "waitdisk: the disk stays busy"
  | S fuel =>
      v <- binb 0x1F7 ;;
      if negb (Z.land v 0xC0 =? 0x40) then waitdisk_loop fuel else mret tt
  end.
Definition waitdisk : BM unit := waitdisk_loop (S ata_patience).

Definition readsect (dst offset : Z) : BM unit :=
  waitdisk ;;
  boutb 0x1F2 1 ;;
  boutb 0x1F3 offset ;;
  boutb 0x1F4 (Z.shiftr offset 8) ;;
  boutb 0x1F5 (Z.shiftr offset 16) ;;
  boutb 0x1F6 (Z.lor (Z.shiftr offset 24) 0xE0) ;;
  boutb 0x1F7 0x20 ;;
  waitdisk ;;
  binsl 0x1F0 dst (SECTSIZE / 4).

Fixpoint readseg_loop (fuel : nat) (pa epa offset : Z) : BM unit :=
  if negb (pa <? epa) then mret tt else
  match fuel with
  | O => fault "readseg: out of fuel"
  | S fuel =>
      readsect pa offset ;;
      readseg_loop fuel (u32 (pa + SECTSIZE)) epa (u32 (offset + 1))
  end.
Definition readseg (pa count offset : Z) : BM unit :=
  let epa := u32 (pa + count) in
  let pa := u32 (pa - offset mod SECTSIZE) in
  let offset := offset / SECTSIZE + 1 in
  readseg_loop (S (Z.to_nat (epa / SECTSIZE))) pa epa offset.

(** The loop over the program headers, [n] of them from [ph] on. *)
Fixpoint bootmain_loop (n : nat) (ph : Z) : BM unit :=
  match n with
  | O => mret tt
  | S n =>
      m <- gets bt_mem ;;
      let pa := proghdr_paddr m ph in
      readseg pa (proghdr_filesz m ph) (proghdr_off m ph) ;;
      m <- gets bt_mem ;;
      when (proghdr_filesz m ph <? proghdr_memsz m ph)
        (modify (λ s, mk_boot_t (stosb (bt_mem s) (u32 (pa + proghdr_filesz m ph)) 0 (proghdr_memsz m ph - proghdr_filesz m ph)) (bt_dev s))) ;;
      bootmain_loop n (ph + proghdr_sizeof)
  end.
(** The address that is called; [None] when the loader returns. *)
Definition bootmain : BM (option Z) :=
  let elf := 0x10000 in
  readseg elf 4096 0 ;;
  m <- gets bt_mem ;;
  if negb (elf_magic m elf =? ELF_HEADER_MAGIC) then mret None else
  bootmain_loop (Z.to_nat (elf_phnum m elf)) (elf + elf_phoff m elf) ;;
  m <- gets bt_mem ;;
  mret (Some (elf_entry m elf)).
End bootmain.

(** ** What is on the disk *)

(** Byte [o] of the kernel image, which starts at sector 1. *)
Definition image (dk : disk) (o : Z) : Z := default 0 (dk 0 (1 + o / 512) !! Z.to_nat (o mod 512)).

(** Memory with the image's bytes from [off] on at [pa], in whole sectors, up
    to [pa + count] at least. *)
Definition seg_start (pa off : Z) : Z := pa - off mod 512.
Definition seg_end (pa count off : Z) : Z := if seg_start pa off <? pa + count then seg_start pa off + 512 * ((count + off mod 512 + 511) / 512) else seg_start pa off.
Definition seg_loaded (dk : disk) (pa count off : Z) (m : mem) : mem :=
  λ a, if (seg_start pa off <=? a) && (a <? seg_end pa count off) then image dk (off + (a - pa)) else m a.

(** ** Sectors *)
Lemma boot_regs x : 0 <= x < 2 ^ 28 → let r6 := u8 (Z.lor (Z.shiftr x 24) 0xE0) in
  u8 x + 2 ^ 8 * u8 (Z.shiftr x 8) + 2 ^ 16 * u8 (Z.shiftr x 16) + 2 ^ 24 * Z.land r6 0xf = x ∧ Z.land (Z.shiftr r6 4) 1 = 0.
Proof.
  intros Hx. cbv zeta. assert (Hh : 0 <= Z.shiftr x 24 < 16) by (rewrite Z.shiftr_div_pow2 by done; change (2 ^ 24) with 16777216; change (2 ^ 28) with 268435456 in Hx; divlia).
  set (h := Z.shiftr x 24) in *. assert (H : forallb (λ i, let r6 := u8 (Z.lor (Z.of_nat i) 0xE0) in (Z.land r6 0xf =? Z.of_nat i) && (Z.land (Z.shiftr r6 4) 1 =? 0)) (seq 0 16) = true) by (vm_compute; reflexivity).
  rewrite forallb_forall in H. specialize (H (Z.to_nat h) ltac:(apply in_seq; lia)). rewrite Z2Nat.id in H by lia. cbv zeta in H. apply andb_prop in H as [H1%Z.eqb_eq H2%Z.eqb_eq].
  rewrite H1, H2. split; [|done]. unfold h, u8. rewrite !Z.shiftr_div_pow2 by done. change (2 ^ 8) with 256. change (2 ^ 16) with 65536. change (2 ^ 24) with 16777216. change (2 ^ 28) with 268435456 in Hx. clear - Hx. divlia.
Qed.

Section sectors.
Context {D : Type} `{ata_spec D}.
Notation same := (@dev_same D _ _).

Lemma waitdisk_loop_ok n : ∀ fuel (s : boot_t D), (n < fuel)%nat →
  Z.land (ata_inb 0x1f7 (Nat.iter n (λ d, (ata_inb 0x1f7 d).2) (bt_dev s))).1 (Z.lor IDE_BSY IDE_DRDY) = IDE_DRDY →
  ∃ d', waitdisk_loop fuel s = Ret tt (mk_boot_t (bt_mem s) d') ∧ same (bt_dev s) d'.
Proof.
  induction n as [|n IH]; intros fuel [m d] Hf Hr; (destruct fuel as [|fuel]; [lia|]); cbn [waitdisk_loop]; unfold binb at 1, bindM at 1; cbn [bt_dev bt_mem] in *.
  - cbn [Nat.iter nat_rect] in Hr. pose proof (as_status d) as Hs. destruct (ata_inb 0x1f7 d) as [v d'] eqn:E. cbn [fst snd] in *.
    change 0xC0 with (Z.lor IDE_BSY IDE_DRDY). change 0x40 with IDE_DRDY. rewrite Hr, Z.eqb_refl. cbn [negb]. exists d'. by split.
  - pose proof (as_status d) as Hs. rewrite Nat.iter_succ_r in Hr. destruct (ata_inb 0x1f7 d) as [v d1] eqn:E. cbn [fst snd] in *.
    destruct (negb (Z.land v 0xC0 =? 0x40)); [|by exists d1]. destruct (IH fuel (mk_boot_t m d1)) as (d' & E' & Hs'); [lia|exact Hr|]. exists d'. split; [exact E'|].
    destruct Hs as (A1 & A2 & A3), Hs' as (B1 & B2 & B3). cbn [bt_dev] in *. split; [congruence|]. split; [intros; by rewrite B2|intros; by rewrite B3].
Qed.

Lemma waitdisk_ok (s : boot_t D) : ∃ d', waitdisk s = Ret tt (mk_boot_t (bt_mem s) d') ∧ same (bt_dev s) d'.
Proof. destruct (as_ready (bt_dev s)) as (n & Hn & Hr). apply (waitdisk_loop_ok n); [lia|exact Hr]. Qed.

Lemma bind_boutb {B} p v (f : unit → M (boot_t D) leave B) s : bindM (boutb p v) f s = f tt (mk_boot_t (bt_mem s) (ata_outb p (u8 v) (bt_dev s))).
Proof. done. Qed.

Lemma readsect_ok dst x m d : as_phase d = PIdle → 0 <= x < 2 ^ 28 →
  ∃ d', readsect dst x (mk_boot_t m d) = Ret tt (mk_boot_t (put_bytes m dst (as_sectors d 0 x)) d') ∧ as_phase d' = PIdle ∧ ∀ r l, as_sectors d' r l = as_sectors d r l.
Proof.
  intros Hidle Hx. destruct (boot_regs x Hx) as [Hlba Hdrv]. unfold readsect. destruct (waitdisk_ok (mk_boot_t m d)) as (d1 & E1 & (P1 & _ & S1)). cbn [bt_mem bt_dev] in *.
  rewrite (bind_Ret_eq _ _ _ _ _ E1), !bind_boutb. cbn [bt_mem bt_dev]. set (r6 := u8 (Z.lor (Z.shiftr x 24) 0xE0)) in *.
  set (d2 := ata_outb 0x1F2 (u8 1) d1). set (d3 := ata_outb 0x1F3 (u8 x) d2). set (d4 := ata_outb 0x1F4 (u8 (Z.shiftr x 8)) d3). set (d5 := ata_outb 0x1F5 (u8 (Z.shiftr x 16)) d4). set (d6 := ata_outb 0x1F6 r6 d5).
  destruct (as_outb d1 0x1f2 (u8 1) ltac:(lia)) as (P2 & R2 & S2). destruct (as_outb d2 0x1f3 (u8 x) ltac:(lia)) as (P3 & R3 & S3). destruct (as_outb d3 0x1f4 (u8 (Z.shiftr x 8)) ltac:(lia)) as (P4 & R4 & S4).
  destruct (as_outb d4 0x1f5 (u8 (Z.shiftr x 16)) ltac:(lia)) as (P5 & R5 & S5). destruct (as_outb d5 0x1f6 r6 ltac:(lia)) as (P6 & R6 & S6).
  fold d2 in P2, R2, S2. fold d3 in P3, R3, S3. fold d4 in P4, R4, S4. fold d5 in P5, R5, S5. fold d6 in P6, R6, S6.
  assert (Hr : as_reg d6 0x1f2 = 1 ∧ as_reg d6 0x1f3 = u8 x ∧ as_reg d6 0x1f4 = u8 (Z.shiftr x 8) ∧ as_reg d6 0x1f5 = u8 (Z.shiftr x 16) ∧ as_reg d6 0x1f6 = r6) by (rewrite !R6, !R5, !R4, !R3, !R2; done).
  destruct Hr as (Q2 & Q3 & Q4 & Q5 & Q6). assert (Hp6 : as_phase d6 = PIdle) by congruence. destruct (as_read d6 Hp6 Q2) as [P7 S7]. change (u8 0x20) with IDE_CMD_READ.
  set (d7 := ata_outb 0x1f7 IDE_CMD_READ d6) in *. destruct (waitdisk_ok (mk_boot_t m d7)) as (d8 & E8 & (P8 & _ & S8)). cbn [bt_mem bt_dev] in *. rewrite (bind_Ret_eq _ _ _ _ _ E8).
  assert (Hph : as_phase d8 = PRead 0 x).
  { rewrite P8, P7. unfold drive_of, lba_of. by rewrite Q3, Q4, Q5, Q6, Hdrv, Hlba. }
  unfold binsl. change (SECTSIZE / 4) with 128. cbn [bt_dev bt_mem]. pose proof (as_insl d8 0 x Hph) as Hins. destruct (ata_insl 0x1f0 128 d8) as [l d9]. destruct Hins as (-> & P9 & S9).
  assert (Hs : ∀ r l, as_sectors d8 r l = as_sectors d r l) by (intros r l; by rewrite S8, S7, S6, S5, S4, S3, S2, S1). exists d9. rewrite Hs. split; [done|]. split; [done|]. intros r l. by rewrite S9.
Qed.

Lemma readseg_loop_ok (dk : disk) : (∀ r l, length (dk r l) = 512%nat) → ∀ n fuel p epa x m d, (n <= fuel)%nat → epa <= p + 512 * Z.of_nat n → ((0 < n)%nat → p + 512 * Z.of_nat n - 512 < epa) →
  0 <= p → p + 512 * Z.of_nat n < 2 ^ 32 → 0 <= x → x + Z.of_nat n <= 2 ^ 28 → as_phase d = PIdle → (∀ r l, as_sectors d r l = dk r l) →
  ∃ m' d', readseg_loop fuel p epa x (mk_boot_t m d) = Ret tt (mk_boot_t m' d') ∧ as_phase d' = PIdle ∧ (∀ r l, as_sectors d' r l = dk r l) ∧
    ∀ a, m' a = if (p <=? a) && (a <? p + 512 * Z.of_nat n) then default 0 (dk 0 (x + (a - p) / 512) !! Z.to_nat ((a - p) mod 512)) else m a.
Proof.
  intros Hdk. induction n as [|n IH]; intros fuel p epa x m d Hf He Hn Hp Hw Hx Hxn Hph Hs.
  - exists m, d. destruct fuel; cbn [readseg_loop]; rewrite (proj2 (Z.ltb_ge p epa)) by lia; cbn [negb]; (split; [done|split; [done|split; [done|]]]);
      intros a; assert ((p <=? a) && (a <? p + 512 * Z.of_nat 0) = false) as -> by lia; done.
  - destruct fuel as [|fuel]; [lia|]. cbn [readseg_loop]. rewrite (proj2 (Z.ltb_lt p epa)) by lia. cbn [negb]. destruct (readsect_ok p x m d Hph ltac:(lia)) as (d1 & E1 & P1 & S1). rewrite (bind_Ret_eq _ _ _ _ _ E1).
    change SECTSIZE with 512. change (2 ^ 28) with 268435456 in Hxn. change (2 ^ 32) with 4294967296 in Hw. rewrite (u32_small (p + 512)), (u32_small (x + 1)) by (change (2 ^ 32) with 4294967296; lia).
    destruct (IH fuel (p + 512) epa (x + 1) (put_bytes m p (as_sectors d 0 x)) d1) as (m' & d' & E' & P' & S' & Hm'); [lia|lia|lia|lia|change (2 ^ 32) with 4294967296; lia|lia|change (2 ^ 28) with 268435456; lia|done|intros; by rewrite S1, Hs|].
    exists m', d'. split; [exact E'|]. split; [done|]. split; [done|]. intros a. rewrite Hm'. unfold put_bytes. rewrite Hs, Hdk. change (Z.of_nat 512) with 512.
    destruct ((p + 512 <=? a) && (a <? p + 512 + 512 * Z.of_nat n)) eqn:C1; [|destruct ((p <=? a) && (a <? p + 512)) eqn:C2].
    + assert ((p <=? a) && (a <? p + 512 * Z.of_nat (S n)) = true) as -> by lia. replace (x + 1 + (a - (p + 512)) / 512) with (x + (a - p) / 512) by divlia. do 2 f_equal. f_equal. divlia.
    + assert ((p <=? a) && (a <? p + 512 * Z.of_nat (S n)) = true) as -> by lia. rewrite (Z.div_small (a - p)), (Z.mod_small (a - p)) by lia. by rewrite Z.add_0_r.
    + assert ((p <=? a) && (a <? p + 512 * Z.of_nat (S n)) = false) as -> by lia. done.
Qed.

Lemma seg_sectors dk pa count off m a : 0 <= off → 0 <= count → let n := Z.to_nat (if seg_start pa off <? pa + count then (count + off mod 512 + 511) / 512 else 0) in
  (if (seg_start pa off <=? a) && (a <? seg_start pa off + 512 * Z.of_nat n) then default 0 (dk 0 (off / 512 + 1 + (a - seg_start pa off) / 512) !! Z.to_nat ((a - seg_start pa off) mod 512)) else m a) = seg_loaded dk pa count off m a.
Proof.
  intros Ho Hc n. unfold seg_loaded, seg_end. assert (En : (if seg_start pa off <? pa + count then seg_start pa off + 512 * ((count + off mod 512 + 511) / 512) else seg_start pa off) = seg_start pa off + 512 * Z.of_nat n).
  { unfold n. pose proof (Z.mod_pos_bound off 512 ltac:(lia)). destruct (_ <? _); [|lia]. rewrite Z2Nat.id; [done|]. apply Z.div_pos; lia. }
  rewrite En. destruct (_ && _); [|done]. unfold image, seg_start. set (b := a - (pa - off mod 512)). replace (off + (a - pa)) with (off / 512 * 512 + b) by (unfold b; divlia).
  rewrite Z.div_add_l by lia. rewrite (Z.add_comm (off / 512 * 512)), Z.mod_add by lia. do 2 f_equal. f_equal. lia.
Qed.

(** [readseg], for a place and a length that do not wrap around. *)
Lemma readseg_ok dk pa count off m d : (∀ r l, length (dk r l) = 512%nat) → 0 <= off < 2 ^ 32 → 0 <= count < 2 ^ 32 → off mod 512 <= pa → pa + count + 1024 <= 2 ^ 32 → as_phase d = PIdle → (∀ r l, as_sectors d r l = dk r l) →
  ∃ m' d', readseg pa count off (mk_boot_t m d) = Ret tt (mk_boot_t m' d') ∧ as_phase d' = PIdle ∧ (∀ r l, as_sectors d' r l = dk r l) ∧ ∀ a, m' a = seg_loaded dk pa count off m a.
Proof.
  intros Hdk Ho Hc Hpa Hw Hph Hs. pose proof (Z.mod_pos_bound off 512 ltac:(lia)) as Hm. change (2 ^ 32) with 4294967296 in *. unfold readseg. change SECTSIZE with 512. rewrite !u32_small by (change (2 ^ 32) with 4294967296; lia).
  fold (seg_start pa off). set (n := Z.to_nat (if seg_start pa off <? pa + count then (count + off mod 512 + 511) / 512 else 0)).
  assert (Hn : (if seg_start pa off <? pa + count then pa + count <= seg_start pa off + 512 * Z.of_nat n < pa + count + 512 else n = 0%nat) ∧ Z.of_nat n <= 8388610 ∧ 512 * Z.of_nat n <= count + 1024).
  { unfold n, seg_start in *. destruct (Z.ltb_spec (pa - off mod 512) (pa + count)); [|split; [done|lia]]. rewrite Z2Nat.id by (apply Z.div_pos; lia). split; [|split]; divlia. }
  destruct Hn as (Hn1 & Hn2 & Hn3). destruct (readseg_loop_ok dk Hdk n (S (Z.to_nat ((pa + count) / 512))) (seg_start pa off) (pa + count) (off / 512 + 1) m d) as (m' & d' & E & P' & S' & Hm'); try done.
  - destruct (Z.ltb_spec (seg_start pa off) (pa + count)) as [Hlt|Hge]; [|lia]. unfold seg_start in *. clear -Hn1 Hpa Hm Hlt. divlia.
  - destruct (Z.ltb_spec (seg_start pa off) (pa + count)); lia.
  - destruct (Z.ltb_spec (seg_start pa off) (pa + count)); lia.
  - unfold seg_start. lia.
  - destruct (Z.ltb_spec (seg_start pa off) (pa + count)); unfold seg_start in *; change (2 ^ 32) with 4294967296; lia.
  - divlia.
  - change (2 ^ 28) with 268435456. divlia.
  - exists m', d'. split; [exact E|]. split; [done|]. split; [done|]. intros a. rewrite Hm'. apply seg_sectors; lia.
Qed.
End sectors.

(** ** Segments *)
Record bseg : Type := mk_bseg { bs_pa : Z; bs_filesz : Z; bs_off : Z; bs_memsz : Z }.
Definition bseg_at (m : mem) (a : Z) : bseg := mk_bseg (proghdr_paddr m a) (proghdr_filesz m a) (proghdr_off m a) (proghdr_memsz m a).

(** What is written for a segment, and what belongs to it. *)
Definition bs_lo (s : bseg) : Z := seg_start (bs_pa s) (bs_off s).
Definition bs_end (s : bseg) : Z := bs_pa s + Z.max (bs_filesz s) (bs_memsz s).
Definition bs_hi (s : bseg) : Z := Z.max (seg_end (bs_pa s) (bs_filesz s) (bs_off s)) (bs_end s).
Definition apart (lo hi lo' hi' : Z) : Prop := hi <= lo' ∨ hi' <= lo.

Definition bseg_ok (s : bseg) : Prop :=
  0 <= bs_off s < 2 ^ 32 ∧ 0 <= bs_filesz s < 2 ^ 32 ∧ 0 <= bs_memsz s ∧ bs_off s mod 512 <= bs_pa s ∧ bs_pa s + bs_filesz s + 1024 <= 2 ^ 32 ∧
  apart (bs_lo s) (bs_hi s) 0x10000 0x11000.
(** Loading a later segment does not write into an earlier one. *)
Fixpoint in_order (l : list bseg) : Prop :=
  match l with
  | [] => True
  | s :: l => Forall (λ t, apart (bs_lo t) (bs_hi t) (bs_pa s) (bs_end s)) l ∧ in_order l
  end.

(** The segment [s] of the image is in memory, zeros after it. *)
Definition in_memory (dk : disk) (m : mem) (s : bseg) : Prop :=
  (∀ i, 0 <= i < bs_filesz s → m (bs_pa s + i) = image dk (bs_off s + i)) ∧ ∀ i, bs_filesz s <= i < bs_memsz s → m (bs_pa s + i) = 0.

Lemma load32_ext m m' a : (∀ i, 0 <= i < 4 → m (a + i) = m' (a + i)) → load32 m a = load32 m' a.
Proof. intros H. unfold load32. rewrite <- (Z.add_0_r a) at 1 5. by rewrite !H by lia. Qed.

Lemma bseg_at_shift m m' a b : (∀ i, 0 <= i < 32 → m (a + i) = m' (b + i)) → bseg_at m a = bseg_at m' b.
Proof.
  intros H. unfold bseg_at, proghdr_paddr, proghdr_filesz, proghdr_off, proghdr_memsz, load32. rewrite <- !Z.add_assoc. by rewrite !H by lia.
Qed.

Section segments.
Context {D : Type} `{ata_spec D}.
Variable dk : disk.
Hypothesis Hdk : ∀ r l, length (dk r l) = 512%nat.

Lemma seg_start_le pa off : seg_start pa off <= pa.
Proof. unfold seg_start. pose proof (Z.mod_pos_bound off 512 ltac:(lia)). lia. Qed.

Lemma seg_end_ge pa count off : 0 < count → pa + count <= seg_end pa count off.
Proof.
  intros Hc. unfold seg_end. pose proof (seg_start_le pa off). destruct (Z.ltb_spec (seg_start pa off) (pa + count)); [|lia]. unfold seg_start in *. pose proof (Z.mod_pos_bound off 512 ltac:(lia)). divlia.
Qed.

Notation st := (boot_t D).

(** The body of the loop. *)
Lemma bootmain_segment (s : bseg) ph m d : bseg_at m ph = s → bseg_ok s → as_phase d = PIdle → (∀ r l, as_sectors d r l = dk r l) →
  (∀ i, 0 <= i < 32 → 0x10000 <= ph + i < 0x11000) →
  ∃ m' d', (∀ n, bootmain_loop (S n) ph (mk_boot_t m d) = bootmain_loop n (ph + 32) (mk_boot_t m' d')) ∧ as_phase d' = PIdle ∧ (∀ r l, as_sectors d' r l = dk r l) ∧
    in_memory dk m' s ∧ ∀ a, ¬ (bs_lo s <= a < bs_hi s) → m' a = m a.
Proof using Hdk.
  intros Es (Ho & Hf & Hmz & Hpa & Hw & Hscr) Hph Hs Hhdr. assert (Epa : proghdr_paddr m ph = bs_pa s) by (by rewrite <- Es). assert (Efz : proghdr_filesz m ph = bs_filesz s) by (by rewrite <- Es). assert (Eof : proghdr_off m ph = bs_off s) by (by rewrite <- Es).
  destruct (readseg_ok dk (bs_pa s) (bs_filesz s) (bs_off s) m d Hdk Ho Hf Hpa Hw Hph Hs) as (m1 & d1 & E1 & P1 & S1 & Hm1).
  assert (Hout : ∀ a, ¬ (bs_lo s <= a < bs_hi s) → m1 a = m a).
  { intros a Ha. rewrite Hm1. unfold seg_loaded. unfold bs_lo, bs_hi in Ha. destruct (_ && _) eqn:E; [lia|done]. }
  assert (Es1 : bseg_at m1 ph = s).
  { rewrite <- Es. apply bseg_at_shift. intros i Hi. apply Hout. specialize (Hhdr i Hi). unfold apart in Hscr. lia. }
  assert (Efz1 : proghdr_filesz m1 ph = bs_filesz s) by (by rewrite <- Es1). assert (Emz1 : proghdr_memsz m1 ph = bs_memsz s) by (by rewrite <- Es1).
  assert (Hin : ∀ i, 0 <= i < bs_filesz s → m1 (bs_pa s + i) = image dk (bs_off s + i)).
  { intros i Hi. rewrite Hm1. unfold seg_loaded. pose proof (seg_start_le (bs_pa s) (bs_off s)). pose proof (seg_end_ge (bs_pa s) (bs_filesz s) (bs_off s) ltac:(lia)).
    rewrite (proj2 (Z.leb_le _ _)), (proj2 (Z.ltb_lt _ _)) by lia. cbn [andb]. f_equal. lia. }
  set (m2 := if bs_filesz s <? bs_memsz s then stosb m1 (bs_pa s + bs_filesz s) 0 (bs_memsz s - bs_filesz s) else m1).
  exists m2, d1. split; [|split; [done|split; [done|]]].
  - intros n. cbn [bootmain_loop]. rewrite bind_gets. cbn [bt_mem]. rewrite Epa, Efz, Eof, (bind_Ret_eq _ _ _ _ _ E1), bind_gets. cbn [bt_mem]. rewrite Efz1, Emz1. change proghdr_sizeof with 32.
    rewrite u32_small by (pose proof (Z.mod_pos_bound (bs_off s) 512); lia). unfold m2. destruct (bs_filesz s <? bs_memsz s); cbn [when]; [by rewrite bind_modify|done].
  - assert (Hm2 : ∀ a, m2 a = if (bs_pa s + bs_filesz s <=? a) && (a <? bs_pa s + bs_memsz s) then 0 else m1 a).
    { intros a. unfold m2. destruct (Z.ltb_spec (bs_filesz s) (bs_memsz s)).
      - unfold stosb. rewrite stosb_loop_fill. rewrite Z2Nat.id by lia. unfold fill. replace (bs_pa s + bs_filesz s + (bs_memsz s - bs_filesz s)) with (bs_pa s + bs_memsz s) by lia. done.
      - assert ((bs_pa s + bs_filesz s <=? a) && (a <? bs_pa s + bs_memsz s) = false) as -> by lia. done. }
    split; [split|].
    + intros i Hi. rewrite Hm2. assert ((bs_pa s + bs_filesz s <=? bs_pa s + i) && (bs_pa s + i <? bs_pa s + bs_memsz s) = false) as -> by lia. by apply Hin.
    + intros i Hi. rewrite Hm2. assert ((bs_pa s + bs_filesz s <=? bs_pa s + i) && (bs_pa s + i <? bs_pa s + bs_memsz s) = true) as -> by lia. done.
    + intros a Ha. rewrite Hm2. pose proof (seg_start_le (bs_pa s) (bs_off s)). unfold bs_lo, bs_hi, bs_end in *. assert ((bs_pa s + bs_filesz s <=? a) && (a <? bs_pa s + bs_memsz s) = false) as -> by lia. apply Hout. unfold bs_lo, bs_hi, bs_end. lia.
Qed.

Lemma bootmain_loop_ok : ∀ segs ph m d, Forall bseg_ok segs → in_order segs → (∀ i s, segs !! i = Some s → bseg_at m (ph + 32 * Z.of_nat i) = s) →
  0x10000 <= ph → ph + 32 * Z.of_nat (length segs) <= 0x11000 → as_phase d = PIdle → (∀ r l, as_sectors d r l = dk r l) →
  ∃ m' d', bootmain_loop (length segs) ph (mk_boot_t m d) = Ret tt (mk_boot_t m' d') ∧ as_phase d' = PIdle ∧ (∀ r l, as_sectors d' r l = dk r l) ∧
    Forall (in_memory dk m') segs ∧ ∀ a, (∀ s, s ∈ segs → ¬ (bs_lo s <= a < bs_hi s)) → m' a = m a.
Proof using Hdk.
  induction segs as [|s segs IH]; intros ph m d Hok Hord Hhdr Hlo Hhi Hph Hs.
  { exists m, d. split; [done|]. split; [done|]. split; [done|]. split; [constructor|done]. }
  apply Forall_cons_iff in Hok as [Hok1 Hok]. destruct Hord as [Hap Hord]. cbn [length] in *.
  destruct (bootmain_segment s ph m d) as (m1 & d1 & E1 & P1 & S1 & I1 & O1); [rewrite <- (Hhdr 0%nat s eq_refl); f_equal; lia|done|done|done|intros; lia|].
  destruct (IH (ph + 32) m1 d1) as (m' & d' & E & P' & S' & I' & O'); [done|done| |lia|lia|done|done|].
  - intros i t Hi. rewrite <- (Hhdr (S i) t Hi). replace (ph + 32 + 32 * Z.of_nat i) with (ph + 32 * Z.of_nat (S i)) by lia. pose proof (lookup_lt_Some _ _ _ Hi). apply bseg_at_shift. intros j Hj. apply O1.
    destruct Hok1 as (_ & _ & _ & _ & _ & Hscr). unfold apart in Hscr. lia.
  - exists m', d'. rewrite E1, E. split; [done|]. split; [done|]. split; [done|]. split.
    + constructor; [|done]. assert (Hkeep : ∀ a, bs_pa s <= a < bs_end s → m' a = m1 a).
      { intros a Ha. apply O'. intros t Ht. rewrite list.Forall_forall in Hap. specialize (Hap t Ht). unfold apart in Hap. lia. }
      destruct I1 as [I1 I2]. unfold bs_end in Hkeep. destruct Hok1 as (_ & Hf & _). split; intros i Hi; rewrite Hkeep by lia; [by apply I1|by apply I2].
    + intros a Ha. rewrite O' by (intros t Ht; apply Ha; set_solver). apply O1, Ha. set_solver.
Qed.
End segments.

(** A kernel image: the header and the program headers in its first 4096
    bytes, and segments that do not get in each other's way. *)
Record kernel_image (dk : disk) (segs : list bseg) (entry : Z) : Prop := mk_kernel_image {
  ki_magic : elf_magic (image dk) 0 = ELF_HEADER_MAGIC;
  ki_entry : elf_entry (image dk) 0 = entry;
  ki_phnum : elf_phnum (image dk) 0 = Z.of_nat (length segs);
  ki_phoff : 0 <= elf_phoff (image dk) 0 ∧ elf_phoff (image dk) 0 + 32 * Z.of_nat (length segs) <= 4096;
  ki_headers : ∀ i s, segs !! i = Some s → bseg_at (image dk) (elf_phoff (image dk) 0 + 32 * Z.of_nat i) = s;
  ki_ok : Forall bseg_ok segs;
  ki_order : in_order segs;
}.

Lemma header_loaded dk m a : 0 <= a < 4096 → seg_loaded dk 0x10000 4096 0 m (0x10000 + a) = image dk a.
Proof.
  intros Ha. unfold seg_loaded. change (seg_end 0x10000 4096 0) with 69632. change (seg_start 0x10000 0) with 65536. change 0x10000 with 65536.
  rewrite (proj2 (Z.leb_le _ _)), (proj2 (Z.ltb_lt _ _)) by lia. cbn [andb]. f_equal. lia.
Qed.

(** ** Property *)

(** C36: the boot loader loads the kernel. From a disk that holds an ELF image
    from sector 1 on, whose segments do not overlap what is loaded before
    them, [bootmain] terminates without a fault and calls the image's entry
    point with every segment in memory: the file's bytes at the physical
    address, and zeros from there up to the memory size, although sectors are
    read whole and start before and end after the segment. Without the magic
    number it returns. *)
Theorem bootmain_loads D (A : ata D) (S : ata_spec D) m d (dk := as_sectors d) segs entry : as_phase d = PIdle → (∀ r l, length (dk r l) = 512%nat) →
  (kernel_image dk segs entry → ∃ m' d', bootmain (mk_boot_t m d) = Ret (Some entry) (mk_boot_t m' d') ∧ Forall (in_memory dk m') segs) ∧
  (elf_magic (image dk) 0 ≠ ELF_HEADER_MAGIC → ∃ s, bootmain (mk_boot_t m d) = Ret None s).
Proof.
  intros Hph Hdk. destruct (readseg_ok dk 0x10000 4096 0 m d Hdk) as (m1 & d1 & E1 & P1 & S1 & Hm1); [done|done|done|done|done|done|].
  assert (Hh : ∀ a, 0 <= a < 4096 → m1 (0x10000 + a) = image dk a) by (intros a Ha; rewrite Hm1; by apply header_loaded).
  assert (Hmag : elf_magic m1 0x10000 = elf_magic (image dk) 0).
  { unfold elf_magic, load32. rewrite <- (Z.add_0_r 0x10000) at 1. by rewrite !Hh by lia. }
  unfold bootmain. cbv zeta. split.
  - intros [K1 K2 K3 [K4 K5] K6 K7 K8]. rewrite (bind_Ret_eq _ _ _ _ _ E1), bind_gets. cbn [bt_mem]. rewrite Hmag, K1, Z.eqb_refl. cbn [negb].
    assert (Hoff : elf_phoff m1 0x10000 = elf_phoff (image dk) 0) by (unfold elf_phoff, load32; rewrite <- !Z.add_assoc; by rewrite !Hh by lia).
    assert (Hnum : elf_phnum m1 0x10000 = elf_phnum (image dk) 0) by (unfold elf_phnum; by rewrite !Hh by lia). rewrite Hoff, Hnum, K3, Nat2Z.id.
    destruct (bootmain_loop_ok dk Hdk segs (0x10000 + elf_phoff (image dk) 0) m1 d1 K7 K8) as (m2 & d2 & E2 & P2 & S2 & I2 & O2); [|lia|lia|done|done|].
    { intros i s Hi. rewrite <- (K6 i s Hi). pose proof (lookup_lt_Some _ _ _ Hi). rewrite <- Z.add_assoc. apply bseg_at_shift. intros j Hj. rewrite <- Z.add_assoc. apply Hh. lia. }
    rewrite (bind_Ret_eq _ _ _ _ _ E2), bind_gets. cbn [bt_mem]. exists m2, d2. split; [|done]. unfold mret. do 2 f_equal. rewrite <- K2.
    assert (Hh2 : ∀ a, 0 <= a < 4096 → m2 (0x10000 + a) = image dk a).
    { intros a Ha. rewrite O2; [by apply Hh|]. intros s Hs. rewrite list.Forall_forall in K7. destruct (K7 s Hs) as (_ & _ & _ & _ & _ & Hap). unfold apart in Hap. lia. }
    unfold elf_entry, load32. rewrite <- !Z.add_assoc. by rewrite !Hh2 by lia.
  - intros Hne. rewrite (bind_Ret_eq _ _ _ _ _ E1), bind_gets. cbn [bt_mem]. rewrite Hmag, (proj2 (Z.eqb_neq _ _)) by done. by eexists.
Qed.

(** An image with one segment of 300 bytes at 1 MB, in 1000 bytes of memory. *)
Definition demo_seg : bseg := mk_bseg 0x100000 300 4096 1000.
Definition demo_header : list Z := le_bytes 4 ELF_HEADER_MAGIC ++ replicate 20 0 ++ le_bytes 4 0x10000C ++ le_bytes 4 52 ++ replicate 12 0 ++ [1; 0] ++ replicate 6 0 ++
  le_bytes 4 1 ++ le_bytes 4 4096 ++ le_bytes 4 0x80100000 ++ le_bytes 4 0x100000 ++ le_bytes 4 300 ++ le_bytes 4 1000 ++ replicate 8 0 ++ replicate 428 0.
Definition demo_image : disk := λ r l, if l =? 1 then demo_header else replicate 512 (if l =? 9 then 7 else 0).

Lemma bootmain_loads_witness : ∃ m' d', bootmain (mk_boot_t (λ _, 3) (mk_toy false PIdle (λ _, 0) demo_image)) = Ret (Some 0x10000C) (mk_boot_t m' d') ∧ m' 0x100000 = 7 ∧ m' (0x100000 + 999) = 0.
Proof.
  assert (Hlen : ∀ r l, length (demo_image r l) = 512%nat) by (intros r l; unfold demo_image; destruct (l =? 1); [reflexivity|apply length_replicate]).
  destruct (bootmain_loads toy toy_ata toy_spec (λ _, 3) (mk_toy false PIdle (λ _, 0) demo_image) [demo_seg] 0x10000C) as [H _].
  - reflexivity.
  - exact Hlen.
  - destruct H as (m' & d' & E & I).
    + split; [vm_compute; reflexivity|vm_compute; reflexivity|vm_compute; reflexivity|vm_compute; split; discriminate| | |].
      * intros [|i] s Hs; [|done]. injection Hs as <-. vm_compute. reflexivity.
      * constructor; [|constructor]. unfold bseg_ok, apart. vm_compute. repeat split; try discriminate. by right.
      * split; constructor.
    + exists m', d'. split; [exact E|]. inversion I as [|? ? [I1 I2] _]; subst. split.
      * etrans; [exact (I1 0 ltac:(cbn; lia))|vm_compute; reflexivity].
      * exact (I2 999 ltac:(cbn; lia)).
Defined.
