(* ===== verification/Gates.v ===== *)
(** * Gates: segment and gate descriptors (mmu.h, vm.c, trap.c)

    The bit fields of the processor's descriptors, [seginit] and [tvinit].
    The theorem reads the descriptors back the way the processor does. *)

From S2P Require Import Prelude Kernel.

(** ** Definitions *)

(** A structure of bit fields: values and widths, lowest bits first. *)
Fixpoint pack (fields : list (Z * Z)) : Z :=
  match fields with
  | [] => 0
  | (v, w) :: fields => v mod 2 ^ w + 2 ^ w * pack fields
  end.

(** *** mmu.h *)
Definition SEG_KCODE : Z := 1.
Definition SEG_KDATA : Z := 2.
Definition SEG_UCODE : Z := 3.
Definition SEG_UDATA : Z := 4.
Definition NSEGS : nat := 6.
Definition DPL_USER : Z := 3.
Definition STA_X : Z := 8.
Definition STA_W : Z := 2.
Definition STA_R : Z := 2.
Definition STS_IG32 : Z := 0xE.
Definition STS_TG32 : Z := 0xF.

(** [struct segdesc], and [SEG]. *)
Record segdesc : Type := mk_segdesc {
  sg_lim_15_0 : Z; sg_base_15_0 : Z; sg_base_23_16 : Z; sg_type : Z; sg_s : Z; sg_dpl : Z; sg_p : Z;
  sg_lim_19_16 : Z; sg_avl : Z; sg_rsv1 : Z; sg_db : Z; sg_g : Z; sg_base_31_24 : Z;
}.
Definition segdesc_bits (d : segdesc) : Z :=
  pack [(sg_lim_15_0 d, 16); (sg_base_15_0 d, 16); (sg_base_23_16 d, 8); (sg_type d, 4); (sg_s d, 1); (sg_dpl d, 2); (sg_p d, 1);
        (sg_lim_19_16 d, 4); (sg_avl d, 1); (sg_rsv1 d, 1); (sg_db d, 1); (sg_g d, 1); (sg_base_31_24 d, 8)].
Definition SEG (type base lim dpl : Z) : segdesc :=
  mk_segdesc (Z.land (Z.shiftr lim 12) 0xffff) (Z.land base 0xffff) (Z.land (Z.shiftr base 16) 0xff) type 1 dpl 1
    (Z.shiftr lim 28) 0 0 1 1 (Z.shiftr base 24).

(** [struct gatedesc], and [SETGATE]. *)
Record gatedesc : Type := mk_gatedesc {
  gt_off_15_0 : Z; gt_cs : Z; gt_args : Z; gt_rsv1 : Z; gt_type : Z; gt_s : Z; gt_dpl : Z; gt_p : Z; gt_off_31_16 : Z;
}.
Definition gatedesc_bits (g : gatedesc) : Z :=
  pack [(gt_off_15_0 g, 16); (gt_cs g, 16); (gt_args g, 5); (gt_rsv1 g, 3); (gt_type g, 4); (gt_s g, 1); (gt_dpl g, 2); (gt_p g, 1); (gt_off_31_16 g, 16)].
Definition SETGATE (istrap : bool) (sel off d : Z) : gatedesc :=
  mk_gatedesc (Z.land off 0xffff) sel 0 0 (if istrap then STS_TG32 else STS_IG32) 0 d 1 (Z.shiftr off 16).

(** *** trap.c, vm.c *)
Definition tvinit (vectors : Z → Z) (idt : list gatedesc) : list gatedesc :=
  let idt := fold_left (λ idt i, <[i := SETGATE false (Z.shiftl SEG_KCODE 3) (vectors (Z.of_nat i)) 0]> idt) (seq 0 256) idt in
  <[64%nat := SETGATE true (Z.shiftl SEG_KCODE 3) (vectors 64) DPL_USER]> idt.
Definition seginit (gdt : list segdesc) : list segdesc :=
  let gdt := <[Z.to_nat SEG_KCODE := SEG (Z.lor STA_X STA_R) 0 0xffffffff 0]> gdt in
  let gdt := <[Z.to_nat SEG_KDATA := SEG STA_W 0 0xffffffff 0]> gdt in
  let gdt := <[Z.to_nat SEG_UCODE := SEG (Z.lor STA_X STA_R) 0 0xffffffff DPL_USER]> gdt in
  <[Z.to_nat SEG_UDATA := SEG STA_W 0 0xffffffff DPL_USER]> gdt.

(** [lgdt] and [lidt] (x86.h): the three words of the pseudo-descriptor. *)
Definition lgdt (p size : Z) : list Z := [(size - 1) mod 2 ^ 16; p mod 2 ^ 16; Z.shiftr p 16].
Definition lidt (p size : Z) : list Z := [(size - 1) mod 2 ^ 16; p mod 2 ^ 16; Z.shiftr p 16].

(** ** What the processor makes of a descriptor *)
Definition field (x lo w : Z) : Z := Z.shiftr x lo mod 2 ^ w.

(** The kind of an interrupt descriptor: how the handler is entered. *)
Inductive gate_kind : Type := InterruptGate | TrapGate.
Record gate : Type := mk_gate { g_kind : gate_kind; g_selector : Z; g_entry : Z; g_dpl : Z }.
Definition gate_of (x : Z) : option gate :=
  if (field x 47 1 =? 1) && (field x 44 1 =? 0) then
    let g k := mk_gate k (field x 16 16) (field x 48 16 * 2 ^ 16 + field x 0 16) (field x 45 2) in
    if field x 40 4 =? 0xE then Some (g InterruptGate) else if field x 40 4 =? 0xF then Some (g TrapGate) else None
  else None.

Inductive segment_kind : Type := CodeSegment (readable : bool) | DataSegment (writable : bool).
Record segment : Type := mk_segment { s_kind : segment_kind; s_base : Z; s_limit : Z; s_dpl : Z }.
(** The last valid offset; with the granularity bit the limit counts pages. *)
Definition segment_of (x : Z) : option segment :=
  if (field x 47 1 =? 1) && (field x 44 1 =? 1) && (field x 54 1 =? 1) then
    let lim := field x 48 4 * 2 ^ 16 + field x 0 16 in
    Some (mk_segment (if field x 43 1 =? 1 then CodeSegment (field x 41 1 =? 1) else DataSegment (field x 41 1 =? 1))
      (field x 56 8 * 2 ^ 24 + field x 32 8 * 2 ^ 16 + field x 16 16) (if field x 55 1 =? 1 then lim * 4096 + 4095 else lim) (field x 45 2))
  else None.

(** ** Packed fields *)
Lemma pack_nonneg l : Forall (λ f : Z * Z, 0 <= f.2) l → 0 <= pack l.
Proof.
  induction 1 as [|[v w] l Hw _ IH]; [done|]. cbn [pack] in *. cbn in Hw. pose proof (Z.mod_pos_bound v (2 ^ w) ltac:(apply Z.pow_pos_nonneg; lia)).
  pose proof (Z.pow_nonneg 2 w ltac:(lia)). nia.
Qed.

Lemma field_pack_here v w l : 0 <= w → field (pack ((v, w) :: l)) 0 w = v mod 2 ^ w.
Proof.
  intros Hw. unfold field. rewrite Z.shiftr_0_r. cbn [pack]. rewrite (Z.mul_comm (2 ^ w)), Z.mod_add by (apply Z.pow_nonzero; lia). apply Z.mod_mod. apply Z.pow_nonzero; lia.
Qed.

Lemma field_pack_skip v w l lo w' : 0 <= w <= lo → field (pack ((v, w) :: l)) lo w' = field (pack l) (lo - w) w'.
Proof.
  intros Hw. unfold field. f_equal. cbn [pack]. rewrite !Z.shiftr_div_pow2 by lia. replace lo with (w + (lo - w)) at 1 by lia. rewrite Z.pow_add_r by lia.
  assert (0 < 2 ^ w) by (apply Z.pow_pos_nonneg; lia). assert (0 < 2 ^ (lo - w)) by (apply Z.pow_pos_nonneg; lia). rewrite <- Z.div_div by lia. f_equal.
  rewrite (Z.mul_comm (2 ^ w)), Z.div_add by lia. rewrite Z.div_small by (apply Z.mod_pos_bound; lia). lia.
Qed.

Ltac unpack :=
  repeat match goal with |- context [field (pack ((?v, ?w) :: ?l)) ?lo ?w'] =>
    let z := eval vm_compute in lo in
    first [constr_eq z 0; change (field (pack ((v, w) :: l)) lo w') with (field (pack ((v, w) :: l)) 0 w); rewrite (field_pack_here v w l) by lia
          |rewrite (field_pack_skip v w l lo w') by lia]
  end.

Lemma gate_of_SETGATE istrap sel off d : 0 <= sel < 2 ^ 16 → 0 <= off < 2 ^ 32 → 0 <= d < 4 →
  gate_of (gatedesc_bits (SETGATE istrap sel off d)) = Some (mk_gate (if istrap then TrapGate else InterruptGate) sel off d).
Proof.
  intros Hs Ho Hd. unfold gate_of, gatedesc_bits, SETGATE. cbn [gt_off_15_0 gt_cs gt_args gt_rsv1 gt_type gt_s gt_dpl gt_p gt_off_31_16]. unpack.
  change 65535 with (Z.ones 16). rewrite Z.land_ones by lia. rewrite Z.shiftr_div_pow2 by lia.
  assert (E : (off / 2 ^ 16) mod 2 ^ 16 * 2 ^ 16 + off mod 2 ^ 16 mod 2 ^ 16 = off).
  { rewrite Z.mod_mod by lia. change (2 ^ 16) with 65536 in *. change (2 ^ 32) with 4294967296 in *. divlia. }
  rewrite E. rewrite (Z.mod_small sel) by done. rewrite (Z.mod_small d (2 ^ 2)) by (change (2 ^ 2) with 4; lia). by destruct istrap.
Qed.

Lemma tvinit_lookup vectors idt i : length idt = 256%nat → (i < 256)%nat →
  tvinit vectors idt !! i = Some (SETGATE (i =? 64)%nat (Z.shiftl SEG_KCODE 3) (vectors (Z.of_nat i)) (if (i =? 64)%nat then DPL_USER else 0)).
Proof.
  intros Hl Hi. unfold tvinit.
  assert (H : ∀ n (idt : list gatedesc), (n <= length idt)%nat → let r := fold_left (λ idt i, <[i := SETGATE false (Z.shiftl SEG_KCODE 3) (vectors (Z.of_nat i)) 0]> idt) (seq 0 n) idt in
    length r = length idt ∧ ∀ j, (j < n)%nat → r !! j = Some (SETGATE false (Z.shiftl SEG_KCODE 3) (vectors (Z.of_nat j)) 0)).
  { clear. induction n as [|n IH]; intros idt Hn; [by split; [|lia]|]. rewrite seq_S, fold_left_app. destruct (IH idt ltac:(lia)) as [IH1 IH2]. cbn [fold_left Nat.add]. split; [by rewrite length_insert|].
    intros j Hj. destruct (decide (j = n)) as [->|Hne]; [apply list_lookup_insert_eq; lia|]. rewrite list_lookup_insert_ne by done. apply IH2. lia. }
  destruct (H 256%nat idt ltac:(lia)) as [H1 H2]. destruct (Nat.eqb_spec i 64) as [->|Hne].
  - rewrite list_lookup_insert_eq by lia. done.
  - rewrite list_lookup_insert_ne by done. by apply H2.
Qed.

(** ** Property *)

(** C39: the interrupt descriptor table is well formed. Whatever was in it,
    after [tvinit] each of its 256 entries, read back from its bits as the
    processor does, is a present gate into the kernel's code segment at the
    vector's entry point; only the system call's is a trap gate that user
    code may call, every other is an interrupt gate for the kernel alone.
    [seginit] makes the code segments executable and readable, the data
    segments writable, flat over the 4 GB, and user code runs in segments of
    privilege level 3. *)
Theorem tvinit_gates vectors idt gdt : (∀ i, 0 <= i < 256 → 0 <= vectors i < 2 ^ 32) → length idt = 256%nat → length gdt = NSEGS →
  (∀ i, (i < 256)%nat → gate_of ∘ gatedesc_bits <$> tvinit vectors idt !! i =
     Some (Some (mk_gate (if (i =? 64)%nat then TrapGate else InterruptGate) (8 * SEG_KCODE) (vectors (Z.of_nat i)) (if (i =? 64)%nat then DPL_USER else 0)))) ∧
  (λ s, segment_of ∘ segdesc_bits <$> seginit gdt !! Z.to_nat s) <$> [SEG_KCODE; SEG_KDATA; SEG_UCODE; SEG_UDATA] =
    [Some (Some (mk_segment (CodeSegment true) 0 (2 ^ 32 - 1) 0)); Some (Some (mk_segment (DataSegment true) 0 (2 ^ 32 - 1) 0));
     Some (Some (mk_segment (CodeSegment true) 0 (2 ^ 32 - 1) DPL_USER)); Some (Some (mk_segment (DataSegment true) 0 (2 ^ 32 - 1) DPL_USER))].
Proof.
  intros Hv Hl Hg. split.
  - intros i Hi. rewrite tvinit_lookup by done. cbn [fmap option_fmap option_map]. unfold compose. rewrite gate_of_SETGATE; [by destruct (i =? 64)%nat|done|apply Hv; lia|destruct (i =? 64)%nat; unfold DPL_USER; lia].
  - destruct gdt as [|g0 [|g1 [|g2 [|g3 [|g4 [|g5 [|]]]]]]]; try done.
Qed.

Lemma tvinit_gates_witness : ∃ g, tvinit (λ i, 0x80105000 + 16 * i) (replicate 256 (mk_gatedesc 0 0 0 0 0 0 0 0 0)) !! 64%nat = Some g ∧
  gate_of (gatedesc_bits g) = Some (mk_gate TrapGate 8 0x80105400 3).
Proof.
  destruct (tvinit_gates (λ i, 0x80105000 + 16 * i) (replicate 256 (mk_gatedesc 0 0 0 0 0 0 0 0 0)) (replicate 6 (SEG 0 0 0 0))) as [H _].
  - intros i Hi. change (2 ^ 32) with 4294967296. lia.
  - reflexivity.
  - reflexivity.
  - specialize (H 64%nat ltac:(lia)). destruct (tvinit _ _ !! 64%nat) as [g|] eqn:E; [|done]. exists g. split; [reflexivity|]. injection H as H. exact H.
Defined.
