(* ===== verification/Platform.v ===== *)
(** * Platform: processors and interrupt controllers

    The multiprocessor table (mp.c), the local APIC and the clock (lapic.c),
    the I/O APIC (ioapic.c), the old interrupt controllers (picirq.c) and the
    serial port's initialisation (uart.c). Devices are known through their
    ports and registers, the class [bus]. *)

From S2P Require Import Prelude CString Kernel Sched Kalloc Fifo Paging Vmem.

(** ** Definitions *)

(** [inb] and [outb], and 32-bit device registers at an address; no device is
    busy for more than [bus_patience] polls. *)
Class bus (D : Type) : Type := mk_bus {
  bus_inb : Z → D → Z * D;
  bus_outb : Z → Z → D → D;
  bus_read : Z → D → Z * D;
  bus_write : Z → Z → D → D;
  bus_patience : nat;
}.

(** The memory, the devices, and the variables [lapic], [cpus\[i\].apicid],
    [ncpu] and [ioapicid]. *)
Record plat (D : Type) : Type := mk_plat {
  pt_mem : mem;
  pt_dev : D;
  pt_lapic : Z;
  pt_cpus : list Z;
  pt_ncpu : Z;
  pt_ioapicid : Z;
}.
Arguments mk_plat {D}.
Arguments pt_mem {D}.
Arguments pt_dev {D}.
Arguments pt_lapic {D}.
Arguments pt_cpus {D}.
Arguments pt_ncpu {D}.
Arguments pt_ioapicid {D}.

(** *** mp.h: the fields of the structures *)
Definition MPPROC : Z := 0x00.
Definition MPBUS : Z := 0x01.
Definition MPIOAPIC : Z := 0x02.
Definition MPIOINTR : Z := 0x03.
Definition MPLINTR : Z := 0x04.
Definition mp_sizeof : Z := 16.
Definition mp_physaddr (m : mem) (p : Z) : Z := load32 m (p + 4).
Definition mp_imcrp (m : mem) (p : Z) : Z := m (p + 12).
Definition mpconf_sizeof : Z := 44.
Definition mpconf_length (m : mem) (p : Z) : Z := m (p + 4) + 256 * m (p + 5).
Definition mpconf_version (m : mem) (p : Z) : Z := m (p + 6).
Definition mpconf_lapicaddr (m : mem) (p : Z) : Z := load32 m (p + 36).
Definition mpproc_sizeof : Z := 20.
Definition mpproc_apicid (m : mem) (p : Z) : Z := m (p + 1).
Definition mpioapic_sizeof : Z := 8.
Definition mpioapic_apicno (m : mem) (p : Z) : Z := m (p + 1).

(** *** mp.c: the search *)
Definition sum (m : mem) (addr : Z) (len : nat) : Z :=
  u8 (fold_left (λ s i, s + m (addr + Z.of_nat i)) (seq 0 len) 0).
(** [memcmp] with a string constant: is it there? *)
Definition signature (m : mem) (p : Z) (s : list Z) : bool :=
  forallb (λ i, m (p + Z.of_nat i) =? default 0 (s !! i)) (seq 0 (length s)).
(** The pointers that the search compares, 0 for the code's null pointer. *)
Fixpoint mpsearch1_loop (fuel : nat) (m : mem) (p e : Z) : Z :=
  match fuel with
  | O => 0
  | S fuel =>
      if negb (p <? e) then 0 else
      if signature m p (lit "_MP_") && (sum m p (Z.to_nat mp_sizeof) =? 0) then p
      else mpsearch1_loop fuel m (p + mp_sizeof) e
  end.
Definition mpsearch1 (m : mem) (a len : Z) : Z :=
  let addr := P2V a in
  let e := addr + len in
  mpsearch1_loop (S (Z.to_nat (len / mp_sizeof))) m addr e.
Definition mpsearch (m : mem) : Z :=
  let bda := P2V 0x400 in
  let p := Z.shiftl (Z.lor (Z.shiftl (m (bda + 0x0F)) 8) (m (bda + 0x0E))) 4 in
  let mp :=
    if negb (p =? 0) then mpsearch1 m p 1024
    else mpsearch1 m (u32 (Z.lor (Z.shiftl (m (bda + 0x14)) 8) (m (bda + 0x13)) * 1024 - 1024)) 1024 in
  if negb (mp =? 0) then mp else mpsearch1 m 0xF0000 0x10000.
(** [mpconfig]: the two pointers. *)
Definition mpconfig (m : mem) : option (Z * Z) :=
  let mp := mpsearch m in
  if (mp =? 0) || (mp_physaddr m mp =? 0) then None else
  let conf := P2V (mp_physaddr m mp) in
  if negb (signature m conf (lit "PCMP")) then None else
  if negb (mpconf_version m conf =? 1) && negb (mpconf_version m conf =? 4) then None else
  if negb (sum m conf (Z.to_nat (mpconf_length m conf)) =? 0) then None else
  Some (mp, conf).

(** *** spinlock.c: the call chain, frames linked through the saved [%ebp] *)
Fixpoint getcallerpcs_loop (m : mem) (n : nat) (ebp : Z) : list Z :=
  match n with
  | O => []
  | S n' =>
      if (ebp =? 0) || (ebp <? KERNBASE) || (ebp =? 0xffffffff) then replicate n 0
      else load32 m (ebp + 4) :: getcallerpcs_loop m n' (load32 m ebp)
  end.
Definition getcallerpcs (m : mem) (v : Z) : list Z := getcallerpcs_loop m 10 (u32 (v - 8)).

Section platform.
Context {D : Type} `{bus D}.
Definition set_pt_mem (v : mem) (r : plat D) : plat D := mk_plat v (pt_dev r) (pt_lapic r) (pt_cpus r) (pt_ncpu r) (pt_ioapicid r).
Definition set_pt_dev (v : D) (r : plat D) : plat D := mk_plat (pt_mem r) v (pt_lapic r) (pt_cpus r) (pt_ncpu r) (pt_ioapicid r).
Definition set_pt_lapic (v : Z) (r : plat D) : plat D := mk_plat (pt_mem r) (pt_dev r) v (pt_cpus r) (pt_ncpu r) (pt_ioapicid r).
Definition set_pt_cpus (v : list Z) (r : plat D) : plat D := mk_plat (pt_mem r) (pt_dev r) (pt_lapic r) v (pt_ncpu r) (pt_ioapicid r).
Definition set_pt_ncpu (v : Z) (r : plat D) : plat D := mk_plat (pt_mem r) (pt_dev r) (pt_lapic r) (pt_cpus r) v (pt_ioapicid r).
Definition set_pt_ioapicid (v : Z) (r : plat D) : plat D := mk_plat (pt_mem r) (pt_dev r) (pt_lapic r) (pt_cpus r) (pt_ncpu r) v.

Notation PM := (M (plat D) leave).

Definition pinb (p : Z) : PM Z := λ s, let '(v, d) := bus_inb p (pt_dev s) in Ret v (set_pt_dev d s).
Definition poutb (p v : Z) : PM unit := modify (λ s, set_pt_dev (bus_outb p (u8 v) (pt_dev s)) s).
Definition mmio_read (a : Z) : PM Z := λ s, let '(v, d) := bus_read a (pt_dev s) in Ret v (set_pt_dev d s).
Definition mmio_write (a v : Z) : PM unit := modify (λ s, set_pt_dev (bus_write a (u32 v) (pt_dev s)) s).

(** *** [mpinit] *)

(** The entry at [p]: the [continue] cases of the switch. *)
Definition mp_add_proc (p : Z) : PM unit :=
  n <- gets pt_ncpu ;;
  when (n <? Z.of_nat NCPU)
    (modify (λ s, set_pt_cpus (<[Z.to_nat n := mpproc_apicid (pt_mem s) p]> (pt_cpus s)) s) ;;
     modify (set_pt_ncpu (n + 1))).
(** The loop over the entries: [break] in the [default] case only leaves the
    switch. The result is [ismp]. *)
Fixpoint mpinit_loop (fuel : nat) (p e : Z) (ismp : bool) : PM bool :=
  if negb (p <? e) then mret ismp else
  match fuel with
  | O => fault "mpinit: out of fuel"
  | S fuel =>
      t <- gets (λ s, pt_mem s p) ;;
      if t =? MPPROC then mp_add_proc p ;; mpinit_loop fuel (p + mpproc_sizeof) e ismp
      else if t =? MPIOAPIC then
        modify (λ s, set_pt_ioapicid (mpioapic_apicno (pt_mem s) p) s) ;;
        mpinit_loop fuel (p + mpioapic_sizeof) e ismp
      else if (t =? MPBUS) || (t =? MPIOINTR) || (t =? MPLINTR) then mpinit_loop fuel (p + 8) e ismp
      else mpinit_loop fuel p e false
  end.
Definition mpinit (fuel : nat) : PM unit :=
  c <- gets (λ s, mpconfig (pt_mem s)) ;;
  match c with
  | None => panic "Expect to run on an SMP"
  | Some (mp, conf) =>
      modify (λ s, set_pt_lapic (mpconf_lapicaddr (pt_mem s) conf) s) ;;
      len <- gets (λ s, mpconf_length (pt_mem s) conf) ;;
      ismp <- mpinit_loop fuel (conf + mpconf_sizeof) (conf + len) true ;;
      if negb ismp then panic "Didn't find a suitable machine" else
      imcrp <- gets (λ s, mp_imcrp (pt_mem s) mp) ;;
      when (negb (imcrp =? 0))
        (poutb 0x22 0x70 ;;
         v <- pinb 0x23 ;;
         poutb 0x23 (Z.lor v 1))
  end.

(** *** lapic.c *)
Definition LAPIC_ID : Z := 0x0020 / 4.
Definition LAPIC_VER : Z := 0x0030 / 4.
Definition LAPIC_TPR : Z := 0x0080 / 4.
Definition LAPIC_EOI : Z := 0x00B0 / 4.
Definition LAPIC_SVR : Z := 0x00F0 / 4.
Definition LAPIC_ENABLE : Z := 0x00000100.
Definition LAPIC_ESR : Z := 0x0280 / 4.
Definition LAPIC_ICRLO : Z := 0x0300 / 4.
Definition LAPIC_INIT : Z := 0x00000500.
Definition LAPIC_STARTUP : Z := 0x00000600.
Definition LAPIC_DELIVS : Z := 0x00001000.
Definition LAPIC_ASSERT : Z := 0x00004000.
Definition LAPIC_LEVEL : Z := 0x00008000.
Definition LAPIC_BCAST : Z := 0x00080000.
Definition LAPIC_ICRHI : Z := 0x0310 / 4.
Definition LAPIC_TIMER : Z := 0x0320 / 4.
Definition LAPIC_X1 : Z := 0x0000000B.
Definition LAPIC_PERIODIC : Z := 0x00020000.
Definition LAPIC_PCINT : Z := 0x0340 / 4.
Definition LAPIC_LINT0 : Z := 0x0350 / 4.
Definition LAPIC_LINT1 : Z := 0x0360 / 4.
Definition LAPIC_ERROR : Z := 0x0370 / 4.
Definition LAPIC_MASKED : Z := 0x00010000.
Definition LAPIC_TICR : Z := 0x0380 / 4.
Definition LAPIC_TDCR : Z := 0x03E0 / 4.
(** traps.h *)
Definition TRAP_IRQ0 : Z := 32.
Definition TRAP_TIMER : Z := 0.
Definition TRAP_COM1 : Z := 4.
Definition TRAP_ERROR : Z := 19.
Definition TRAP_SPURIOUS : Z := 31.

Definition lapic_read (index : Z) : PM Z :=
  l <- gets pt_lapic ;;
  mmio_read (l + 4 * index).
Definition lapicw (index value : Z) : PM unit :=
  l <- gets pt_lapic ;;
  mmio_write (l + 4 * index) value ;;
  lapic_read LAPIC_ID ;;
  mret tt.
Fixpoint lapic_wait (fuel : nat) : PM unit :=
  match fuel with
  | O => fault "lapicinit: delivery"
  | S fuel =>
      v <- lapic_read LAPIC_ICRLO ;;
      if negb (Z.land v LAPIC_DELIVS =? 0) then lapic_wait fuel else mret tt
  end.
Definition lapicinit : PM unit :=
  l <- gets pt_lapic ;;
  if l =? 0 then mret tt else
  lapicw LAPIC_SVR (Z.lor LAPIC_ENABLE (TRAP_IRQ0 + TRAP_SPURIOUS)) ;;
  lapicw LAPIC_TDCR LAPIC_X1 ;;
  lapicw LAPIC_TIMER (Z.lor LAPIC_PERIODIC (TRAP_IRQ0 + TRAP_TIMER)) ;;
  lapicw LAPIC_TICR 10000000 ;;
  lapicw LAPIC_LINT0 LAPIC_MASKED ;;
  lapicw LAPIC_LINT1 LAPIC_MASKED ;;
  v <- lapic_read LAPIC_VER ;;
  when (4 <=? Z.land (Z.shiftr v 16) 0xFF) (lapicw LAPIC_PCINT LAPIC_MASKED) ;;
  lapicw LAPIC_ERROR (TRAP_IRQ0 + TRAP_ERROR) ;;
  lapicw LAPIC_ESR 0 ;;
  lapicw LAPIC_ESR 0 ;;
  lapicw LAPIC_EOI 0 ;;
  lapicw LAPIC_ICRHI 0 ;;
  lapicw LAPIC_ICRLO (Z.lor (Z.lor LAPIC_BCAST LAPIC_INIT) LAPIC_LEVEL) ;;
  lapic_wait (S bus_patience) ;;
  lapicw LAPIC_TPR 0.
Definition lapicid : PM Z :=
  l <- gets pt_lapic ;;
  if l =? 0 then mret 0 else
  v <- lapic_read LAPIC_ID ;;
  mret (Z.shiftr v 24).
Definition lapiceoi : PM unit :=
  l <- gets pt_lapic ;;
  when (negb (l =? 0)) (lapicw LAPIC_EOI 0).

Definition CMOS_PORT : Z := 0x70.
Definition CMOS_RETURN : Z := 0x71.
Definition pstore16 (a v : Z) : PM unit :=
  modify (λ s, set_pt_mem (upd (upd (pt_mem s) a (u8 v)) (a + 1) (u8 (Z.shiftr v 8))) s).
Definition lapic_sipi (apicid addr : Z) : PM unit :=
  lapicw LAPIC_ICRHI (Z.shiftl apicid 24) ;;
  lapicw LAPIC_ICRLO (Z.lor LAPIC_STARTUP (Z.shiftr addr 12)).
(** [microdelay] does nothing. *)
Definition lapicstartap (apicid addr : Z) : PM unit :=
  poutb CMOS_PORT 0xF ;;
  poutb (CMOS_PORT + 1) 0x0A ;;
  let wrv := P2V (Z.lor (Z.shiftl 0x40 4) 0x67) in
  pstore16 wrv 0 ;;
  pstore16 (wrv + 2) (Z.shiftr addr 4) ;;
  lapicw LAPIC_ICRHI (Z.shiftl apicid 24) ;;
  lapicw LAPIC_ICRLO (Z.lor (Z.lor LAPIC_INIT LAPIC_LEVEL) LAPIC_ASSERT) ;;
  lapicw LAPIC_ICRLO (Z.lor LAPIC_INIT LAPIC_LEVEL) ;;
  lapic_sipi apicid addr ;;
  lapic_sipi apicid addr.

(** The clock. *)
Record rtcdate : Type := mk_rtcdate { rt_second : Z; rt_minute : Z; rt_hour : Z; rt_day : Z; rt_month : Z; rt_year : Z }.
#[export] Instance rtcdate_eq_dec : EqDecision rtcdate.
Proof. solve_decision. Defined.
Definition cmos_read (reg : Z) : PM Z :=
  poutb CMOS_PORT reg ;;
  pinb CMOS_RETURN.
Definition fill_rtcdate : PM rtcdate :=
  s <- cmos_read 0x00 ;;
  m <- cmos_read 0x02 ;;
  h <- cmos_read 0x04 ;;
  d <- cmos_read 0x07 ;;
  mo <- cmos_read 0x08 ;;
  y <- cmos_read 0x09 ;;
  mret (mk_rtcdate s m h d mo y).
Fixpoint cmos_loop (fuel : nat) : PM rtcdate :=
  match fuel with
  | O => fault "cmostime: out of fuel"
  | S fuel =>
      t1 <- fill_rtcdate ;;
      a <- cmos_read 0x0a ;;
      if negb (Z.land a (Z.shiftl 1 7) =? 0) then cmos_loop fuel else
      t2 <- fill_rtcdate ;;
      if bool_decide (t1 = t2) then mret t1 else cmos_loop fuel
  end.
Definition conv (x : Z) : Z := u32 (Z.shiftr x 4 * 10 + Z.land x 0xf).
Definition rtc_conv (t : rtcdate) : rtcdate :=
  mk_rtcdate (conv (rt_second t)) (conv (rt_minute t)) (conv (rt_hour t)) (conv (rt_day t)) (conv (rt_month t)) (conv (rt_year t)).
Definition cmostime (fuel : nat) : PM rtcdate :=
  sb <- cmos_read 0x0b ;;
  let bcd := Z.land sb (Z.shiftl 1 2) =? 0 in
  t1 <- cmos_loop fuel ;;
  let r := if bcd then rtc_conv t1 else t1 in
  mret (mk_rtcdate (rt_second r) (rt_minute r) (rt_hour r) (rt_day r) (rt_month r) (u32 (rt_year r + 2000))).

(** *** proc.c: [mycpu], an index into [cpus]; [fl_if] is whether interrupts
    are enabled *)
Definition mycpu (fl_if : bool) : PM nat :=
  if fl_if then panic "mycpu called with interrupts enabled" else
  apicid <- lapicid ;;
  n <- gets pt_ncpu ;;
  l <- gets pt_cpus ;;
  match find_idx (λ id, id =? apicid) (take (Z.to_nat n) l) with
  | Some i => mret i
  | None => panic "unknown apicid"
  end.
Definition cpuid (fl_if : bool) : PM Z := i <- mycpu fl_if ;; mret (Z.of_nat i).

(** *** ioapic.c *)
Definition IOAPIC : Z := 0xFEC00000.
Definition REG_ID : Z := 0x00.
Definition REG_VER : Z := 0x01.
Definition REG_TABLE : Z := 0x10.
Definition INT_DISABLED : Z := 0x00010000.
Definition ioapicread (reg : Z) : PM Z :=
  mmio_write IOAPIC reg ;;
  mmio_read (IOAPIC + 16).
Definition ioapicwrite (reg data : Z) : PM unit :=
  mmio_write IOAPIC reg ;;
  mmio_write (IOAPIC + 16) data.
(** The result is whether it prints its message. *)
Definition ioapicinit : PM bool :=
  v <- ioapicread REG_VER ;;
  let maxintr := Z.land (Z.shiftr v 16) 0xFF in
  v <- ioapicread REG_ID ;;
  let id := Z.shiftr v 24 in
  ioapicid <- gets pt_ioapicid ;;
  mfor (seqZ 0 (maxintr + 1)) (λ i,
    ioapicwrite (REG_TABLE + 2 * i) (Z.lor INT_DISABLED (TRAP_IRQ0 + i)) ;;
    ioapicwrite (REG_TABLE + 2 * i + 1) 0) ;;
  mret (negb (id =? ioapicid)).
Definition ioapicenable (irq cpunum : Z) : PM unit :=
  ioapicwrite (REG_TABLE + 2 * irq) (TRAP_IRQ0 + irq) ;;
  ioapicwrite (REG_TABLE + 2 * irq + 1) (Z.shiftl cpunum 24).

(** *** picirq.c *)
Definition picinit : PM unit :=
  poutb (0x20 + 1) 0xFF ;;
  poutb (0xA0 + 1) 0xFF.

(** *** uart.c: [uartputc] on the ports, and whether there is a serial port *)
Definition COM1 : Z := 0x3f8.
Fixpoint uart_wait (n : nat) : PM unit :=
  match n with
  | O => mret tt
  | S n =>
      v <- pinb (COM1 + 5) ;;
      if Z.land v 0x20 =? 0 then uart_wait n else mret tt
  end.
Definition uart_send (c : Z) : PM unit :=
  uart_wait 128 ;;
  poutb (COM1 + 0) c.
Definition uartinit : PM bool :=
  poutb (COM1 + 2) 0 ;;
  poutb (COM1 + 3) 0x80 ;;
  poutb (COM1 + 0) (115200 / 9600) ;;
  poutb (COM1 + 1) 0 ;;
  poutb (COM1 + 3) 0x03 ;;
  poutb (COM1 + 4) 0 ;;
  poutb (COM1 + 1) 0x01 ;;
  v <- pinb (COM1 + 5) ;;
  if v =? 0xFF then mret false else
  pinb (COM1 + 2) ;;
  pinb (COM1 + 0) ;;
  ioapicenable TRAP_COM1 0 ;;
  mfor (lit "xv6..." ++ [10]) uart_send ;;
  mret true.
End platform.
