(* ===== verification/PlatformSpec.v ===== *)
(** * PlatformSpec: the multiprocessor table

    [mpinit] on a table made of entries records their processors and I/O
    APIC, and [mycpu] then tells the processors apart by their local APIC
    identifiers; on an entry of an unknown type [mpinit] does not return. *)

From S2P Require Import Prelude CString Kernel Sched Kalloc Fifo Paging Vmem Platform.

(** ** Definitions *)

(** The places of the search: every 16 bytes of the regions. *)
Definition paragraphs (a len : Z) : list Z := (λ i, P2V a + 16 * i) <$> seqZ 0 (len / 16).
Definition ebda (m : mem) : Z := (m (P2V 0x400 + 0x0F) * 256 + m (P2V 0x400 + 0x0E)) * 16.
Definition base_memory (m : mem) : Z := (m (P2V 0x400 + 0x14) * 256 + m (P2V 0x400 + 0x13)) * 1024.
Definition mp_places (m : mem) : list Z :=
  paragraphs (if ebda m =? 0 then u32 (base_memory m - 1024) else ebda m) 1024 ++ paragraphs 0xF0000 0x10000.

(** A floating pointer structure: signature and checksum. *)
Definition is_mp (m : mem) (p : Z) : bool := signature m p (lit "_MP_") && (sum m p 16 =? 0).

(** The entries of a table. *)
Inductive mpentry : Type :=
  | EProc (apicid : Z) (rest : list Z)
  | EBus (rest : list Z)
  | EIoapic (id : Z) (rest : list Z)
  | EIointr (rest : list Z)
  | ELintr (rest : list Z).
Definition entry_bytes (e : mpentry) : list Z :=
  match e with
  | EProc a r => 0 :: a :: r
  | EBus r => 1 :: r
  | EIoapic i r => 2 :: i :: r
  | EIointr r => 3 :: r
  | ELintr r => 4 :: r
  end.
Definition entry_ok (e : mpentry) : Prop :=
  match e with
  | EProc _ r => length r = 18%nat
  | EIoapic _ r => length r = 6%nat
  | EBus r | EIointr r | ELintr r => length r = 7%nat
  end.
Definition entry_apicid (e : mpentry) : option Z := match e with EProc a _ => Some a | _ => None end.
Definition entry_ioapic (e : mpentry) : option Z := match e with EIoapic i _ => Some i | _ => None end.

(** The header at [conf] announces a table of [len] bytes and is accepted. *)
Record mpconf_ok (m : mem) (conf len : Z) : Prop := mk_mpconf_ok {
  mc_signature : signature m conf (lit "PCMP") = true;
  mc_version : mpconf_version m conf = 1 ∨ mpconf_version m conf = 4;
  mc_length : mpconf_length m conf = len;
  mc_sum : sum m conf (Z.to_nat len) = 0;
}.

(** ** The search *)
Lemma mpsearch1_loop_find m : ∀ n p, mpsearch1_loop (S n) m p (p + 16 * Z.of_nat n) = default 0 (List.find (is_mp m) ((λ i, p + 16 * i) <$> seqZ 0 (Z.of_nat n))).
Proof.
  assert (H : ∀ n p k, mpsearch1_loop (S n) m (p + 16 * k) (p + 16 * (k + Z.of_nat n)) = default 0 (List.find (is_mp m) ((λ i, p + 16 * i) <$> seqZ k (Z.of_nat n)))).
  { induction n as [|n IH]; intros p k.
    - cbn [mpsearch1_loop]. rewrite (proj2 (Z.ltb_ge _ _)) by lia. done.
    - rewrite seqZ_cons by lia. cbn [fmap list_fmap List.find]. set (f := S n). cbn [mpsearch1_loop]. rewrite (proj2 (Z.ltb_lt _ _)) by lia. cbn [negb]. fold (is_mp m (p + 16 * k)).
      change (signature m (p + 16 * k) (lit "_MP_") && (sum m (p + 16 * k) (Z.to_nat mp_sizeof) =? 0)) with (is_mp m (p + 16 * k)).
      destruct (is_mp m (p + 16 * k)); [done|]. subst f. specialize (IH p (Z.succ k)). replace (Z.pred (Z.of_nat (S n))) with (Z.of_nat n) by lia. rewrite <- IH. f_equal; unfold mp_sizeof; lia. }
  intros n p. specialize (H n p 0). rewrite !Z.mul_0_r, Z.add_0_r in H. exact H.
Qed.

Lemma mpsearch1_find m a len : 0 <= len → len mod 16 = 0 → mpsearch1 m a len = default 0 (List.find (is_mp m) (paragraphs a len)).
Proof.
  intros Hl Hm. unfold mpsearch1, paragraphs. change mp_sizeof with 16. replace (P2V a + len) with (P2V a + 16 * Z.of_nat (Z.to_nat (len / 16))) by divlia.
  rewrite mpsearch1_loop_find. rewrite Z2Nat.id by (apply Z.div_pos; lia). done.
Qed.

Lemma paragraphs_pos a len p : P2V a ≠ 0 → p ∈ paragraphs a len → 0 < p.
Proof.
  intros Ha (i & -> & Hi)%list_elem_of_fmap. apply elem_of_seqZ in Hi. assert (0 <= P2V a) by (unfold P2V, u32; apply Z.mod_pos_bound; lia). lia.
Qed.

Lemma shl_or x y n : 0 <= y < 2 ^ n → 0 <= n → Z.lor (Z.shiftl x n) y = x * 2 ^ n + y.
Proof.
  intros Hy Hn. rewrite Z.shiftl_mul_pow2 by done. rewrite <- Z.lxor_lor, <- Z.add_nocarry_lxor; [done| |].
  all: apply Z.bits_inj'; intros k Hk; rewrite Z.land_spec, Z.bits_0; destruct (Z.ltb_spec k n); [rewrite Z.mul_pow2_bits_low by lia; done|].
  all: rewrite <- (Z.mod_small y (2 ^ n)) by done; rewrite Z.mod_pow2_bits_high by lia; apply andb_false_r.
Qed.

Lemma find_app {A} (f : A → bool) l1 l2 : List.find f (l1 ++ l2) = match List.find f l1 with Some x => Some x | None => List.find f l2 end.
Proof. induction l1 as [|x l1 IH]; [done|]. cbn. by destruct (f x). Qed.

Lemma mpsearch_find m : (∀ a, 0 <= m a < 256) → mpsearch m = default 0 (List.find (is_mp m) (mp_places m)).
Proof.
  intros Hm. unfold mpsearch, mp_places. rewrite !shl_or by (try apply Hm; lia). rewrite Z.shiftl_mul_pow2 by lia. change (2 ^ 8) with 256. change (2 ^ 4) with 16. fold (ebda m) (base_memory m).
  set (a := if ebda m =? 0 then u32 (base_memory m - 1024) else ebda m).
  assert (E : (if negb (ebda m =? 0) then mpsearch1 m (ebda m) 1024 else mpsearch1 m (u32 (base_memory m - 1024)) 1024) = mpsearch1 m a 1024) by (unfold a; by destruct (ebda m =? 0)).
  rewrite E, !mpsearch1_find by done. assert (Ha : P2V a ≠ 0).
  { pose proof (Hm (P2V 0x400 + 0x0F)) as H1. pose proof (Hm (P2V 0x400 + 0x0E)) as H2. pose proof (Hm (P2V 0x400 + 0x14)) as H3. pose proof (Hm (P2V 0x400 + 0x13)) as H4.
    unfold a, ebda, base_memory, P2V, u32, KERNBASE in *. change (2 ^ 32) with 4294967296 in *. destruct (_ =? 0); divlia. }
  rewrite find_app. destruct (List.find (is_mp m) (paragraphs a 1024)) as [p|] eqn:Ef; [|done]. change (default 0 (Some p)) with p. cbv zeta.
  assert (Hp : 0 < p) by (apply (paragraphs_pos a 1024); [done|]; apply List.find_some in Ef as [Hin _]; by apply list_elem_of_In). by rewrite (proj2 (Z.eqb_neq p 0)) by lia.
Qed.

(** ** The entries *)
Definition recorded (ids cpus : list Z) : list Z := take NCPU ids ++ drop (length (take NCPU ids)) cpus.

Lemma entry_length e : entry_ok e → length (entry_bytes e) = match e with EProc _ _ => 20%nat | _ => 8%nat end.
Proof. destruct e; cbn; intros ->; done. Qed.

Lemma layout_app m a l1 l2 : layout m a (l1 ++ l2) → layout m a l1 ∧ layout m (a + Z.of_nat (length l1)) l2.
Proof.
  intros H. split; intros i c Hi.
  - apply H. by apply lookup_app_l_Some.
  - rewrite <- Z.add_assoc, <- Nat2Z.inj_add. apply H. rewrite lookup_app_r by lia. by replace (length l1 + i - length l1)%nat with i by lia.
Qed.

Section mpinit.
Context {D : Type} `{bus D}.

Lemma recorded_add (ids cpus : list Z) a : length cpus = NCPU → (length ids < NCPU)%nat → <[length ids := a]> (recorded ids cpus) = recorded (ids ++ [a]) cpus.
Proof.
  intros Hc Hi. unfold recorded. rewrite !take_ge by (rewrite ?length_app; cbn; lia). rewrite length_app. cbn [length].
  replace (length ids) with (length ids + 0)%nat at 1 by lia. rewrite insert_app_r, <- app_assoc. f_equal. destruct (drop (length ids) cpus) as [|c l] eqn:Ed.
  - apply (f_equal length) in Ed. rewrite length_drop in Ed. cbn in Ed. lia.
  - cbn. f_equal. apply (f_equal (drop 1)) in Ed. by rewrite drop_drop in Ed.
Qed.

Lemma recorded_full (ids cpus : list Z) a : (NCPU <= length ids)%nat → recorded (ids ++ [a]) cpus = recorded ids cpus.
Proof. intros Hi. unfold recorded. by rewrite take_app_le by done. Qed.

Lemma mp_add_proc_eq m d lapic cpus io ids p : length cpus = NCPU →
  mp_add_proc p (mk_plat m d lapic (recorded ids cpus) (Z.of_nat (length (take NCPU ids))) io) =
  Ret tt (mk_plat (D := D) m d lapic (recorded (ids ++ [m (p + 1)]) cpus) (Z.of_nat (length (take NCPU (ids ++ [m (p + 1)])))) io).
Proof.
  intros Hc. unfold mp_add_proc. rewrite bind_gets. cbn [pt_ncpu]. destruct (Z.ltb_spec (Z.of_nat (length (take NCPU ids))) (Z.of_nat NCPU)) as [Hlt|Hge]; cbn [when].
  - rewrite length_take in Hlt. rewrite bind_modify. unfold modify, set_pt_ncpu, set_pt_cpus. cbn [pt_mem pt_dev pt_lapic pt_cpus pt_ioapicid]. rewrite Nat2Z.id.
    rewrite (take_ge ids) by lia. unfold mpproc_apicid. rewrite recorded_add by (done || lia). rewrite take_ge by (rewrite length_app; cbn; lia). rewrite length_app. cbn [length]. do 2 f_equal. lia.
  - rewrite length_take in Hge. rewrite recorded_full by lia. by rewrite (take_app_le ids) by lia.
Qed.

Lemma mpinit_loop_entries m d lapic cpus : length cpus = NCPU → ∀ es p e ids io fuel ismp, Forall entry_ok es → layout m p (concat (entry_bytes <$> es)) →
  p + Z.of_nat (length (concat (entry_bytes <$> es))) <= e →
  mpinit_loop (length es + fuel) p e ismp (mk_plat (D := D) m d lapic (recorded ids cpus) (Z.of_nat (length (take NCPU ids))) io) =
  mpinit_loop fuel (p + Z.of_nat (length (concat (entry_bytes <$> es)))) e ismp
    (mk_plat m d lapic (recorded (ids ++ omap entry_apicid es) cpus) (Z.of_nat (length (take NCPU (ids ++ omap entry_apicid es)))) (default io (list.last (omap entry_ioapic es)))).
Proof.
  intros Hc. induction es as [|en es IH]; intros p e ids io fuel ismp Hok Hl He.
  - cbn [omap list_omap concat fmap list_fmap length list.last default Nat.add]. by rewrite Z.add_0_r, app_nil_r.
  - apply Forall_cons_iff in Hok as [He1 Hok]. cbn [fmap list_fmap concat] in Hl, He |- *. rewrite length_app in He |- *. pose proof (entry_length en He1) as Hen.
    destruct (layout_app _ _ _ _ Hl) as [Hl1 Hl2]. rewrite Nat2Z.inj_add, Z.add_assoc in He |- *. cbn [length Nat.add].
    assert (Hp : p < e) by (rewrite Hen in He; destruct en; lia). cbn [mpinit_loop]. rewrite (proj2 (Z.ltb_lt p e)) by done. cbn [negb]. rewrite bind_gets. cbn [pt_mem].
    assert (H0 : ∀ c r, entry_bytes en = c :: r → m p = c) by (intros c r E; rewrite E in Hl1; rewrite <- (Z.add_0_r p); by apply (Hl1 0%nat)).
    assert (H1 : ∀ c c' r, entry_bytes en = c :: c' :: r → m (p + 1) = c') by (intros c c' r E; rewrite E in Hl1; by apply (Hl1 1%nat)).
    assert (Hstep : ∀ ids' io', mpinit_loop (length es + fuel) (p + Z.of_nat (length (entry_bytes en))) e ismp (mk_plat m d lapic (recorded ids' cpus) (Z.of_nat (length (take NCPU ids'))) io') =
      mpinit_loop fuel (p + Z.of_nat (length (entry_bytes en)) + Z.of_nat (length (concat (entry_bytes <$> es)))) e ismp
        (mk_plat m d lapic (recorded (ids' ++ omap entry_apicid es) cpus) (Z.of_nat (length (take NCPU (ids' ++ omap entry_apicid es)))) (default io' (list.last (omap entry_ioapic es))))) by (intros; by apply IH).
    rewrite Hen in Hstep |- *. destruct en as [a r|r|i r|r|r]; rewrite (H0 _ _ eq_refl); change (0 =? MPPROC) with true; change (1 =? MPPROC) with false; change (1 =? MPIOAPIC) with false; change (2 =? MPPROC) with false; change (2 =? MPIOAPIC) with true;
      change (3 =? MPPROC) with false; change (3 =? MPIOAPIC) with false; change (4 =? MPPROC) with false; change (4 =? MPIOAPIC) with false; cbv iota.
    + rewrite (bind_Ret_eq _ _ _ _ _ (mp_add_proc_eq m d lapic cpus io ids p Hc)). rewrite (H1 _ _ _ eq_refl). change mpproc_sizeof with (Z.of_nat 20). rewrite Hstep. by rewrite <- app_assoc.
    + exact (Hstep ids io).
    + rewrite bind_modify. unfold set_pt_ioapicid, mpioapic_apicno. cbn [pt_mem pt_dev pt_lapic pt_cpus pt_ncpu]. rewrite (H1 _ _ _ eq_refl). change mpioapic_sizeof with (Z.of_nat 8). rewrite Hstep.
      cbn [omap list_omap entry_apicid entry_ioapic]. f_equal. f_equal. rewrite last_cons. by destruct (list.last (omap entry_ioapic es)).
    + exact (Hstep ids io).
    + exact (Hstep ids io).
Qed.

Lemma mpconfig_found m mp pa len : (∀ a, 0 <= m a < 256) → List.find (is_mp m) (mp_places m) = Some mp → mp ≠ 0 → mp_physaddr m mp = pa → pa ≠ 0 →
  mpconf_ok m (P2V pa) len → mpconfig m = Some (mp, P2V pa).
Proof.
  intros Hm Hf Hmp Hpa Hne [H1 H2 H3 H4]. unfold mpconfig. rewrite (mpsearch_find m Hm), Hf. change (default 0 (Some mp)) with mp. rewrite Hpa. rewrite (proj2 (Z.eqb_neq mp 0)), (proj2 (Z.eqb_neq pa 0)) by done.
  cbn [orb]. cbv zeta. rewrite H1, H3, H4. cbn [negb]. by destruct H2 as [-> | ->].
Qed.

(** The memory and the search as the caller of [mpinit] finds them. *)
Record mp_found (m : mem) (mp conf : Z) (es : list mpentry) (more : Z) : Prop := mk_mp_found {
  mf_bytes : ∀ a, 0 <= m a < 256;
  mf_first : List.find (is_mp m) (mp_places m) = Some mp;
  mf_place : mp ≠ 0;
  mf_conf : mp_physaddr m mp ≠ 0 ∧ P2V (mp_physaddr m mp) = conf;
  mf_ok : mpconf_ok m conf (mpconf_sizeof + Z.of_nat (length (concat (entry_bytes <$> es))) + more);
  mf_entries : layout m (conf + mpconf_sizeof) (concat (entry_bytes <$> es));
  mf_wf : Forall entry_ok es;
}.

Definition after_table (m : mem) (conf : Z) (es : list mpentry) (s : plat D) : plat D :=
  mk_plat m (pt_dev s) (mpconf_lapicaddr m conf) (recorded (omap entry_apicid es) (pt_cpus s)) (Z.of_nat (length (take NCPU (omap entry_apicid es)))) (default (pt_ioapicid s) (list.last (omap entry_ioapic es))).

Lemma mpinit_table m mp conf es more fuel s : mp_found m mp conf es more → 0 <= more → pt_mem s = m → pt_ncpu s = 0 → length (pt_cpus s) = NCPU →
  mpinit (length es + fuel) s =
  (ismp <- mpinit_loop fuel (conf + mpconf_sizeof + Z.of_nat (length (concat (entry_bytes <$> es)))) (conf + (mpconf_sizeof + Z.of_nat (length (concat (entry_bytes <$> es))) + more)) true ;;
   if negb ismp then panic "Didn't find a suitable machine" else
   imcrp <- gets (λ s, mp_imcrp (pt_mem s) mp) ;;
   when (negb (imcrp =? 0)) (poutb 0x22 0x70 ;; v <- pinb 0x23 ;; poutb 0x23 (Z.lor v 1))) (after_table m conf es s).
Proof.
  intros [H1 H2 H3 [H4 H5] H6 H7 H8] Hmore Hm Hn Hc. destruct s as [m' d lapic cpus ncpu io]. cbn in Hm, Hn, Hc. subst m' ncpu. unfold mpinit. rewrite bind_gets. cbn [pt_mem].
  rewrite <- H5 in H6. rewrite (mpconfig_found m mp _ _ H1 H2 H3 eq_refl H4 H6), H5. rewrite bind_modify, bind_gets. unfold set_pt_lapic. cbn [pt_mem pt_dev pt_cpus pt_ncpu pt_ioapicid].
  rewrite H5 in H6. rewrite (mc_length _ _ _ H6). set (n := Z.of_nat (length (concat (entry_bytes <$> es)))) in *.
  assert (Hle : conf + mpconf_sizeof + n <= conf + (mpconf_sizeof + n + more)) by lia. pose proof (mpinit_loop_entries m d (mpconf_lapicaddr m conf) cpus Hc es (conf + mpconf_sizeof) (conf + (mpconf_sizeof + n + more)) [] io fuel true H8 H7 Hle) as E.
  unfold recorded in E at 1. rewrite take_nil in E. cbn [length app] in E. rewrite drop_0 in E. change (Z.of_nat 0) with 0 in E.
  unfold bindM at 1. rewrite E. reflexivity.
Qed.

Lemma mpinit_loop_end fuel p e ismp (s : plat D) : e <= p → mpinit_loop fuel p e ismp s = Ret ismp s.
Proof. intros He. destruct fuel; cbn [mpinit_loop]; by rewrite (proj2 (Z.ltb_ge p e)). Qed.

Lemma mpinit_loop_unknown p e : p < e → ∀ fuel ismp (s : plat D), ¬ (0 <= pt_mem s p <= 4) → mpinit_loop fuel p e ismp s = Fault "mpinit: out of fuel".
Proof.
  intros Hp fuel. induction fuel as [|fuel IH]; intros ismp s Ht; cbn [mpinit_loop]; rewrite (proj2 (Z.ltb_lt p e)) by done; cbn [negb]; [done|].
  rewrite bind_gets. unfold MPPROC, MPIOAPIC, MPBUS, MPIOINTR, MPLINTR. assert ((pt_mem s p =? 0) = false) as -> by lia. assert ((pt_mem s p =? 2) = false) as -> by lia.
  assert ((pt_mem s p =? 1) || (pt_mem s p =? 3) || (pt_mem s p =? 4) = false) as -> by lia. by apply IH.
Qed.

(** [mycpu] on a processor of the table. *)
Lemma find_idx_nodup (l : list Z) i id : NoDup l → l !! i = Some id → find_idx (λ x, x =? id) l = Some i.
Proof.
  intros Hnd Hi. apply find_idx_Some. split; [exists id; split; [exact Hi|apply Z.eqb_refl]|]. intros j x Hlt Hj. apply Z.eqb_neq. intros ->. pose proof (NoDup_lookup _ _ _ _ Hnd Hi Hj). lia.
Qed.
End mpinit.

(** ** The call chain *)

(** Frames at increasing depth: where each saves [%ebp] and its return address. *)
Inductive chain (m : mem) : Z → list Z → Prop :=
  | chain_end e : e = 0 ∨ e < KERNBASE ∨ e = 0xffffffff → chain m e []
  | chain_frame e pc l : KERNBASE <= e → e ≠ 0xffffffff → load32 m (e + 4) = pc → chain m (load32 m e) l → chain m e (pc :: l).

Theorem getcallerpcs_chain m v l : chain m (u32 (v - 8)) l → getcallerpcs m v = take 10 (l ++ replicate 10 0).
Proof.
  assert (H : ∀ n e l, chain m e l → getcallerpcs_loop m n e = take n (l ++ replicate n 0)).
  { induction n as [|n IH]; intros e l' Hc; [done|]. cbn [getcallerpcs_loop]. destruct Hc as [e He|e pc l' He Hne Hpc Hc].
    - assert ((e =? 0) || (e <? KERNBASE) || (e =? 0xffffffff) = true) as -> by lia. cbn [app]. by rewrite take_ge by (rewrite length_replicate; lia).
    - unfold KERNBASE in *. assert ((e =? 0) || (e <? 0x80000000) || (e =? 0xffffffff) = false) as -> by lia. rewrite Hpc, (IH _ _ Hc). cbn [app take]. f_equal.
      change (replicate (S n) 0) with ([0] ++ replicate n 0). replace ([0] ++ replicate n 0) with (replicate n 0 ++ [0]) by (by rewrite <- replicate_cons_app). rewrite app_assoc. rewrite (take_app_le (l' ++ replicate n 0)); [done|]. rewrite length_app, length_replicate. lia. }
  intros Hc. by apply H.
Qed.

(** ** A machine with two processors *)
Definition demo_mp : list Z := lit "_MP_" ++ [0; 16; 0; 0] ++ [1; 4; 144; 0; 0; 0; 0; 0].
Definition demo_entries : list mpentry := [EProc 0 (replicate 18 0); EProc 1 (replicate 18 0); EBus (replicate 7 0); EIoapic 2 (replicate 6 0)].
Definition demo_header (len chk : Z) : list Z := lit "PCMP" ++ [len; 0; 4; chk] ++ replicate 26 0 ++ [4; 0] ++ [0; 0; 224; 254] ++ replicate 4 0.
Definition demo_table : list Z := demo_header 100 128 ++ concat (entry_bytes <$> demo_entries).
(** The same table with an entry of type 9 at the end. *)
Definition demo_table9 : list Z := demo_header 108 111 ++ concat (entry_bytes <$> demo_entries) ++ 9 :: replicate 7 0.
Definition demo_mem (t : list Z) : mem := λ a,
  if a =? P2V 0x413 then 128 else if a =? P2V 0x414 then 2 else
  if (P2V 654336 <=? a) && (a <? P2V 654336 + 16) then default 0 (demo_mp !! Z.to_nat (a - P2V 654336)) else
  if (P2V 4096 <=? a) && (a <? P2V 4096 + Z.of_nat (length t)) then default 0 (t !! Z.to_nat (a - P2V 4096)) else 0.
Definition demo_plat (t : list Z) : plat unit := mk_plat (demo_mem t) tt 0 (replicate 8 0) 0 0.
#[local] Instance demo_bus : bus unit := {| bus_inb p d := (0, d); bus_outb p v d := d; bus_read a d := (16777216, d); bus_write a v d := d; bus_patience := 0 |}.

Lemma demo_mem_bytes t : Forall (λ c, 0 <= c < 256) t → ∀ a, 0 <= demo_mem t a < 256.
Proof.
  intros Ht a. assert (Hmp : Forall (λ c, 0 <= c < 256) demo_mp) by (repeat constructor; done). unfold demo_mem.
  assert (Hd : ∀ l i, Forall (λ c, 0 <= c < 256) l → 0 <= default 0 (l !! i) < 256) by (intros l i Hl; destruct (l !! i) eqn:E; [by apply (Forall_lookup_1 _ _ _ _ Hl) in E|cbn; lia]).
  repeat case_match; try lia; by apply Hd.
Qed.

Lemma demo_found t more : Forall (λ c, 0 <= c < 256) t → (length t < 1000)%nat →
  List.find (is_mp (demo_mem t)) (mp_places (demo_mem t)) = Some (P2V 654336) → mp_physaddr (demo_mem t) (P2V 654336) = 4096 →
  mpconf_ok (demo_mem t) (P2V 4096) (100 + more) → slice 44 56 t = concat (entry_bytes <$> demo_entries) → (100 <= length t)%nat →
  mp_found (demo_mem t) (P2V 654336) (P2V 4096) demo_entries more.
Proof.
  intros Ht Hl Hf Hp Hc Hs H100. split; [by apply demo_mem_bytes|exact Hf|vm_compute; discriminate|rewrite Hp; split; [discriminate|reflexivity]|exact Hc| |repeat constructor].
  intros i c Hi. rewrite <- Hs in Hi. unfold slice in Hi. apply lookup_take_Some in Hi as [Hi Hlt]. rewrite lookup_drop in Hi. change mpconf_sizeof with 44.
  unfold demo_mem. change (P2V 4096) with 2147487744. change (P2V 0x413) with 2147484691. change (P2V 0x414) with 2147484692. change (P2V 654336) with 2148137984.
  pose proof (lookup_lt_Some _ _ _ Hi) as Hlt'. assert ((2147487744 + 44 + Z.of_nat i =? 2147484691) = false) as -> by lia. assert ((2147487744 + 44 + Z.of_nat i =? 2147484692) = false) as -> by lia.
  assert ((2148137984 <=? 2147487744 + 44 + Z.of_nat i) = false) as -> by lia. cbn [andb]. rewrite (proj2 (Z.leb_le _ _)), (proj2 (Z.ltb_lt _ _)) by lia. cbn [andb].
  replace (Z.to_nat (2147487744 + 44 + Z.of_nat i - 2147487744)) with (44 + i)%nat by lia. by rewrite Hi.
Qed.

(** ** Properties *)

(** C37: [mpinit] finds the processors. When the first floating pointer
    structure in the places it searches points to a valid configuration table
    made of entries, with enough fuel [mpinit] neither panics nor faults:
    [lapic] is the address in the header, [cpus] has the APIC identifiers of
    the processor entries in order, the first [NCPU] of them, and [ncpu] is
    their number, [ioapicid] is that of the last I/O APIC entry, and the ports
    are touched only when the IMCR is present. After it, on a processor whose
    local APIC register holds the identifier of entry [i], [mycpu] is [i]. *)
Theorem mpinit_configures D (B : bus D) m mp conf es fuel (s : plat D) (ids := take NCPU (omap entry_apicid es)) (s1 := after_table m conf es s) :
  mp_found m mp conf es 0 → pt_mem s = m → pt_ncpu s = 0 → length (pt_cpus s) = NCPU → (length es <= fuel)%nat →
  ∃ d, mpinit fuel s = Ret tt (set_pt_dev d s1) ∧ (mp_imcrp m mp = 0 → d = pt_dev s) ∧
    (NoDup ids → mpconf_lapicaddr m conf ≠ 0 → ∀ i id d1 d2 v, ids !! i = Some id → bus_read (mpconf_lapicaddr m conf + 4 * LAPIC_ID) d1 = (v, d2) → Z.shiftr v 24 = id →
       mycpu false (set_pt_dev d1 s1) = Ret i (set_pt_dev d2 s1)).
Proof.
  intros Hf Hm Hn Hc Hfuel. pose proof (mpinit_table m mp conf es 0 (fuel - length es) s Hf ltac:(lia) Hm Hn Hc) as E. replace (length es + (fuel - length es))%nat with fuel in E by lia.
  unfold bindM at 1 in E. rewrite mpinit_loop_end in E by lia. cbn [negb] in E. rewrite bind_gets in E. change (pt_mem (after_table m conf es s)) with m in E.
  assert (Hmy : NoDup ids → mpconf_lapicaddr m conf ≠ 0 → ∀ i id d1 d2 v, ids !! i = Some id → bus_read (mpconf_lapicaddr m conf + 4 * LAPIC_ID) d1 = (v, d2) → Z.shiftr v 24 = id →
       mycpu false (set_pt_dev d1 s1) = Ret i (set_pt_dev d2 s1)).
  { intros Hnd Hla i id d1 d2 v Hi Hr Hv. assert (El : lapicid (set_pt_dev d1 s1) = Ret id (set_pt_dev d2 s1)).
    { unfold lapicid. rewrite bind_gets. change (pt_lapic (set_pt_dev d1 s1)) with (mpconf_lapicaddr m conf). rewrite (proj2 (Z.eqb_neq _ 0)) by done.
      unfold lapic_read, mmio_read. rewrite bind_assoc, bind_gets. change (pt_lapic (set_pt_dev d1 s1)) with (mpconf_lapicaddr m conf). unfold bindM. change (pt_dev (set_pt_dev d1 s1)) with d1. rewrite Hr, Hv. done. }
    unfold mycpu. rewrite (bind_Ret_eq _ _ _ _ _ El). rewrite !bind_gets. change (pt_ncpu (set_pt_dev d2 s1)) with (Z.of_nat (length ids)). change (pt_cpus (set_pt_dev d2 s1)) with (recorded (omap entry_apicid es) (pt_cpus s)).
    rewrite Nat2Z.id. unfold recorded. fold ids. rewrite take_app_length. by rewrite (find_idx_nodup ids i id). }
  destruct (Z.eqb_spec (mp_imcrp m mp) 0) as [E0|Hne]; cbn [negb when] in E.
  - exists (pt_dev s). split; [exact E|]. split; [done|exact Hmy].
  - unfold poutb, pinb in E. rewrite bind_modify in E. unfold bindM in E. destruct (bus_inb 35 _) as [v d1]. eexists. split; [exact E|]. split; [done|exact Hmy].
Qed.

Lemma mpinit_configures_witness : ∃ s, mpinit 4 (demo_plat demo_table) = Ret tt s ∧ pt_cpus s = [0; 1; 0; 0; 0; 0; 0; 0] ∧ pt_ncpu s = 2 ∧ pt_ioapicid s = 2 ∧ pt_lapic s = 0xFEE00000 ∧ mycpu false s = Ret 1%nat s.
Proof.
  assert (Hf : mp_found (demo_mem demo_table) (P2V 654336) (P2V 4096) demo_entries 0).
  { apply demo_found; [repeat constructor; done|cbn; lia|vm_compute; reflexivity|vm_compute; reflexivity| |vm_compute; reflexivity|cbn; lia].
    split; [vm_compute; reflexivity|right; vm_compute; reflexivity|vm_compute; reflexivity|vm_compute; reflexivity]. }
  destruct (mpinit_configures unit demo_bus (demo_mem demo_table) (P2V 654336) (P2V 4096) demo_entries 4 (demo_plat demo_table) Hf) as (d & E & _ & Hmy); [reflexivity|reflexivity|reflexivity|cbn; lia|].
  exists (set_pt_dev d (after_table (demo_mem demo_table) (P2V 4096) demo_entries (demo_plat demo_table))). split; [exact E|]. split; [vm_compute; reflexivity|]. split; [reflexivity|]. split; [reflexivity|]. split; [vm_compute; reflexivity|].
  destruct d. apply (Hmy ltac:(apply (bool_decide_unpack _); vm_compute; exact I) ltac:(vm_compute; discriminate) 1%nat 1 tt tt 16777216); [reflexivity|reflexivity|reflexivity].
Defined.

(** C38: an entry of an unknown type stops the kernel silently: the [break] of
    the [default] case leaves the switch and not the loop, so that however
    long it runs [mpinit] neither returns nor reaches its panic. *)
Theorem mpinit_hangs D (B : bus D) m mp conf es more fuel (s : plat D) (t := m (conf + mpconf_sizeof + Z.of_nat (length (concat (entry_bytes <$> es))))) :
  mp_found m mp conf es more → 0 < more → ¬ (0 <= t <= 4) → pt_mem s = m → pt_ncpu s = 0 → length (pt_cpus s) = NCPU → (length es <= fuel)%nat →
  mpinit fuel s = Fault "mpinit: out of fuel".
Proof.
  intros Hf Hmore Ht Hm Hn Hc Hfuel. pose proof (mpinit_table m mp conf es more (fuel - length es) s Hf ltac:(lia) Hm Hn Hc) as E. replace (length es + (fuel - length es))%nat with fuel in E by lia.
  rewrite E. unfold bindM at 1. rewrite mpinit_loop_unknown; [done|lia|exact Ht].
Qed.

Lemma mpinit_hangs_witness : mpinit 100 (demo_plat demo_table9) = Fault "mpinit: out of fuel".
Proof.
  assert (Hf : mp_found (demo_mem demo_table9) (P2V 654336) (P2V 4096) demo_entries 8).
  { apply demo_found; [repeat constructor; done|cbn; lia|vm_compute; reflexivity|vm_compute; reflexivity| |vm_compute; reflexivity|cbn; lia].
    split; [vm_compute; reflexivity|right; vm_compute; reflexivity|vm_compute; reflexivity|vm_compute; reflexivity]. }
  apply (mpinit_hangs unit demo_bus (demo_mem demo_table9) (P2V 654336) (P2V 4096) demo_entries 8); [exact Hf|lia|vm_compute; intros [_ H]; by apply H|reflexivity|reflexivity|reflexivity|cbn; lia].
Defined.
