(* ===== verification/Pipe.v ===== *)
(** * Pipe: pipes (pipe.c)

    A pipe is named by the address of its page; [k_pipes] holds the
    structures. Reading and writing may sleep in the middle: [pipewrite_from]
    and [piperead_wait] are the loops, entered again by [pipewrite_woken] and
    [piperead_woken]. *)

From S2P Require Import Prelude CString Kernel Sched Kalloc Fifo Paging Vmem.

(** ** Definitions *)
Definition PIPESIZE : Z := 512.
Definition pipe_at (p : Z) : KM pipe :=
  o <- gets (λ k, k_pipes k !! p) ;;
  deref "pipe" o.
Definition pipe_mod (p : Z) (f : pipe → pipe) : KM unit :=
  modify (λ k, set_k_pipes (alter f p (k_pipes k)) k).
Definition pipe_slot (i : Z) : nat := Z.to_nat (i mod PIPESIZE).

(** [myproc()->killed] *)
Definition mykilled : KM Z :=
  p <- myproc ;;
  p <- deref "myproc" p ;;
  pr <- proc_at p ;;
  mret (p_killed pr).

(** The structure [pipealloc] puts at [p]; [data] keeps the bytes of the
    page, 52 bytes after its start. *)
Definition pipe_init (p : Z) (m : mem) : pipe :=
  mk_pipe ((λ i, m (p + 52 + i)) <$> seqZ 0 PIPESIZE) 0 0 true true.

Definition pipeclose (p : Z) (writable : bool) : KM unit :=
  acquire (LkPipe p) ;;
  (if writable then pipe_mod p (set_pi_writeopen false) ;; wakeup (ChPipeR p)
   else pipe_mod p (set_pi_readopen false) ;; wakeup (ChPipeW p)) ;;
  r <- pipe_at p ;;
  if negb (pi_readopen r) && negb (pi_writeopen r) then
    release (LkPipe p) ;;
    modify (λ k, set_k_pipes (delete p (k_pipes k)) k) ;;
    kfree p
  else release (LkPipe p).

(** [p->data[p->nwrite++ % PIPESIZE] = c] *)
Definition pipe_put (p : Z) (c : Z) : KM unit :=
  pipe_mod p (λ r, set_pi_nwrite (u32 (pi_nwrite r + 1)) (set_pi_data (<[pipe_slot (pi_nwrite r) := c]> (pi_data r)) r)).

(** From the write of byte [i] on, [m] bytes being left, with the lock held. *)
Fixpoint pipewrite_from (m : nat) (p : Z) (addr i n : Z) : KM Z :=
  match m with
  | O =>
      wakeup (ChPipeR p) ;;
      release (LkPipe p) ;;
      mret n
  | S m =>
      r <- pipe_at p ;;
      if pi_nwrite r =? u32 (pi_nread r + PIPESIZE) then
        k <- (if pi_readopen r then mykilled else mret 1) ;;
        if negb (k =? 0) then release (LkPipe p) ;; mret (-1) else
        wakeup (ChPipeR p) ;;
        sleep (ChPipeW p) (Some (LkPipe p)) (LSleep (ChPipeW p)) ;;
        mret (-1)
      else
        c <- vload8 (u32 (addr + i)) ;;
        pipe_put p c ;;
        pipewrite_from m p addr (i + 1) n
  end.
Definition pipewrite (p : Z) (addr n : Z) : KM Z :=
  acquire (LkPipe p) ;;
  pipewrite_from (Z.to_nat n) p addr 0 n.
Definition pipewrite_woken (me : nat) (intena : bool) (p addr i n : Z) : KM Z :=
  sleep_leave me (LkPipe p) intena ;;
  pipewrite_from (Z.to_nat (n - i)) p addr i n.

(** [addr[i] = p->data[p->nread++ % PIPESIZE]]; the number of bytes copied. *)
Fixpoint piperead_copy (m : nat) (p : Z) (addr i : Z) : KM Z :=
  match m with
  | O => mret i
  | S m =>
      r <- pipe_at p ;;
      if pi_nread r =? pi_nwrite r then mret i else
      pipe_mod p (λ r, set_pi_nread (u32 (pi_nread r + 1)) r) ;;
      vstore8 (u32 (addr + i)) (default 0 (pi_data r !! pipe_slot (pi_nread r))) ;;
      piperead_copy m p addr (i + 1)
  end.
Definition piperead_wait (p : Z) (addr n : Z) : KM Z :=
  r <- pipe_at p ;;
  if (pi_nread r =? pi_nwrite r) && pi_writeopen r then
    k <- mykilled ;;
    if negb (k =? 0) then release (LkPipe p) ;; mret (-1) else
    sleep (ChPipeR p) (Some (LkPipe p)) (LSleep (ChPipeR p)) ;;
    mret (-1)
  else
    i <- piperead_copy (Z.to_nat n) p addr 0 ;;
    wakeup (ChPipeW p) ;;
    release (LkPipe p) ;;
    mret i.
Definition piperead (p : Z) (addr n : Z) : KM Z :=
  acquire (LkPipe p) ;;
  piperead_wait p addr n.
Definition piperead_woken (me : nat) (intena : bool) (p addr n : Z) : KM Z :=
  sleep_leave me (LkPipe p) intena ;;
  piperead_wait p addr n.
