(* ===== verification/PipeSpec.v ===== *)
(** * PipeSpec: a pipe is a bounded queue of bytes

    [pipe_is r q]: the structure [r] holds the bytes [q], oldest first.
    Writing appends, reading takes from the front; a writer that finds the
    pipe full and a reader that finds it empty sleep, unless there is nobody
    at the other end or the process has been killed. *)

From S2P Require Import Prelude Ring CString Kernel Sched Sock Kalloc Fifo Paging Vmem VmemSpec Sleeplock LockSpec Pipe.

(** ** Definitions *)
Record pipe_is (r : pipe) (q : list Z) : Prop := mk_pipe_is {
  pq_len : length (pi_data r) = Z.to_nat PIPESIZE;
  pq_read : 0 <= pi_nread r < 2 ^ 32;
  pq_write : pi_nwrite r = u32 (pi_nread r + Z.of_nat (length q));
  pq_cap : Z.of_nat (length q) <= PIPESIZE;
  pq_bytes : ring PIPESIZE (pi_data r) (pi_nread r) (length q) = q;
}.

(** Same ends. *)
Definition same_ends (r r' : pipe) : Prop :=
  pi_readopen r' = pi_readopen r ∧ pi_writeopen r' = pi_writeopen r.

Definition put_pipe (p : Z) (r : pipe) (k : kernel) : kernel := set_k_pipes (<[p := r]> (k_pipes k)) k.

(** ** The queue in the structure *)
Lemma pipe_is_put r q c : pipe_is r q → Z.of_nat (length q) < PIPESIZE →
  pipe_is (set_pi_nwrite (u32 (pi_nwrite r + 1)) (set_pi_data (<[pipe_slot (pi_nwrite r) := c]> (pi_data r)) r)) (q ++ [c]).
Proof.
  intros [Hl Hr Hw Hc Hb] Hlt. unfold PIPESIZE in *. split; cbn; rewrite ?length_app; cbn [length].
  - by rewrite length_insert.
  - done.
  - rewrite Hw. unfold u32. change (2 ^ 32) with 4294967296 in *. divlia.
  - unfold PIPESIZE. lia.
  - rewrite Nat.add_1_r, Hw. change (pipe_slot ?x) with (slot 512 x). rewrite slot_u32 by done.
    rewrite (ring_insert PIPESIZE) by (unfold PIPESIZE; lia || done). by unfold PIPESIZE; rewrite Hb.
Qed.

Lemma pipe_is_take r c q : pipe_is r (c :: q) →
  default 0 (pi_data r !! pipe_slot (pi_nread r)) = c ∧ pipe_is (set_pi_nread (u32 (pi_nread r + 1)) r) q.
Proof.
  intros [Hl Hr Hw Hc Hb]. cbn [length] in *. split.
  - assert (H : ring PIPESIZE (pi_data r) (pi_nread r) (S (length q)) !! 0%nat = Some c) by (by rewrite Hb).
    rewrite lookup_ring in H by lia. injection H as H. by rewrite Z.add_0_r in H.
  - unfold PIPESIZE in *. split; cbn.
    + done.
    + apply u32_range.
    + rewrite Hw. unfold u32. change (2 ^ 32) with 4294967296 in *. divlia.
    + unfold PIPESIZE. lia.
    + rewrite ring_tail by done. unfold PIPESIZE in *. by rewrite Hb.
Qed.

Lemma pipe_is_full r q : pipe_is r q → (pi_nwrite r =? u32 (pi_nread r + PIPESIZE)) = (Z.of_nat (length q) =? PIPESIZE).
Proof.
  intros [Hl Hr Hw Hc Hb]. rewrite Hw. unfold PIPESIZE, u32 in *. change (2 ^ 32) with 4294967296 in *.
  destruct (Z.eqb_spec (Z.of_nat (length q)) 512), (Z.eqb_spec ((pi_nread r + Z.of_nat (length q)) mod 4294967296)
    ((pi_nread r + 512) mod 4294967296)); try done; exfalso; divlia.
Qed.

Lemma pipe_is_empty r q : pipe_is r q → (pi_nread r =? pi_nwrite r) = bool_decide (q = []).
Proof.
  intros [Hl Hr Hw Hc Hb]. rewrite Hw. unfold PIPESIZE, u32 in *. change (2 ^ 32) with 4294967296 in *.
  destruct q as [|c q]; cbn [length] in *.
  - rewrite bool_decide_eq_true_2 by done. apply Z.eqb_eq. divlia.
  - rewrite bool_decide_eq_false_2 by done. apply Z.eqb_neq. divlia.
Qed.

(** ** Under the pipe's lock *)
Section locked.
Variable p : Z.

Lemma pipe_at_put k r : pipe_at p (put_pipe p r k) = Ret r (put_pipe p r k).
Proof using. unfold pipe_at. rewrite bind_gets. cbn. by rewrite lookup_insert_eq. Qed.

Lemma put_pipe_put r r' k : put_pipe p r' (put_pipe p r k) = put_pipe p r' k.
Proof using.
  unfold put_pipe. change (k_pipes (set_k_pipes ?m k)) with m. by rewrite insert_insert_eq.
Qed.

Lemma put_pipe_id r k : k_pipes k !! p = Some r → put_pipe p r k = k.
Proof using. intros H. unfold put_pipe. rewrite insert_id by done. by destruct k. Qed.

Lemma pipe_mod_put f r k : pipe_mod p f (put_pipe p r k) = Ret tt (put_pipe p (f r) k).
Proof using.
  unfold pipe_mod, modify, put_pipe. change (k_pipes (set_k_pipes ?m k)) with m.
  by rewrite alter_insert_eq.
Qed.

(** Writing [j] bytes that fit. *)
Lemma pipe_fill k addr n l j : ∀ m i r q,
  src_at k addr l → pipe_is r q → Z.of_nat (length q + j) <= PIPESIZE → (i + j <= length l)%nat →
  ∃ r', pipewrite_from (j + m) p addr (Z.of_nat i) n (put_pipe p r k) =
        pipewrite_from m p addr (Z.of_nat (i + j)) n (put_pipe p r' k) ∧
    pipe_is r' (q ++ take j (drop i l)) ∧ same_ends r r'.
Proof using.
  induction j as [|j IH]; intros m i r q Hs Hq Hroom Hi.
  { exists r. rewrite Nat.add_0_r, take_0, app_nil_r. by split. }
  destruct (lookup_lt_is_Some_2 l i ltac:(lia)) as [c Hc].
  set (r1 := set_pi_nwrite (u32 (pi_nwrite r + 1)) (set_pi_data (<[pipe_slot (pi_nwrite r) := c]> (pi_data r)) r)).
  assert (Hq1 : pipe_is r1 (q ++ [c])) by (apply pipe_is_put; [done|lia]).
  destruct (IH m (S i) r1 (q ++ [c]) Hs Hq1) as (r' & E & Hr' & He); [rewrite length_app; cbn; lia|lia|].
  exists r'. split; [|split; [|exact He]].
  - rewrite <- Nat.add_succ_comm, <- E. change (S j + m)%nat with (S (j + m)). cbn [pipewrite_from].
    rewrite (bind_Ret_eq _ _ _ _ _ (pipe_at_put k r)), (pipe_is_full r q Hq).
    destruct (Z.eqb_spec (Z.of_nat (length q)) PIPESIZE); [lia|].
    assert (Hs' : src_at (put_pipe p r k) addr l) by (by apply (src_at_frame k)).
    rewrite (bind_Ret_eq _ _ _ _ _ (vload8_ok _ _ _ _ _ Hs' Hc)). unfold pipe_put.
    rewrite (bind_Ret_eq _ _ _ _ _ (pipe_mod_put _ r k)). f_equal. lia.
  - rewrite (drop_S l c i Hc). cbn [take]. by rewrite <- app_assoc in Hr'.
Qed.

(** Reading [j] bytes that are there. *)
Lemma pipe_drain addr n f k0 : ∀ j k m i r q,
  dst_at k0 addr n f → stored (k_mem k0) (k_mem k) f (take i q) → c_cr3 (k_cpu k) = c_cr3 (k_cpu k0) →
  pipe_is r (drop i q) → (i + j <= length q)%nat → (i + j <= n)%nat →
  ∃ m' r', piperead_copy (j + m) p addr (Z.of_nat i) (put_pipe p r k) =
        piperead_copy m p addr (Z.of_nat (i + j)) (put_pipe p r' (set_k_mem m' k)) ∧
    stored (k_mem k0) m' f (take (i + j) q) ∧ pipe_is r' (drop (i + j) q) ∧ same_ends r r'.
Proof using.
  induction j as [|j IH]; intros k m i r q Hd Hst Hcr Hq Hj Hn.
  { exists (k_mem k), r. rewrite Nat.add_0_r. split; [by destruct k|]. done. }
  destruct (lookup_lt_is_Some_2 q i ltac:(lia)) as [c Hc]. rewrite (drop_S q c i Hc) in Hq.
  pose proof (pipe_is_take _ _ _ Hq) as [Hch Hq1]. pose proof (pipe_is_empty _ _ Hq) as He.
  set (k1 := set_k_mem (upd (k_mem k) (f i) c) k).
  assert (Hli : length (take i q) = i) by (rewrite length_take; lia).
  assert (Hst1 : stored (k_mem k0) (k_mem k1) f (take (S i) q)).
  { rewrite (take_S_r q i c Hc). change (k_mem k1) with (upd (k_mem k) (f i) c). rewrite <- Hli at 1.
    apply (stored_snoc _ _ k0 addr n); [done|rewrite Hli; lia|done]. }
  destruct (IH k1 m (S i) (set_pi_nread (u32 (pi_nread r + 1)) r) q Hd Hst1 Hcr Hq1) as (m' & r' & E & Hst' & Hr' & Hs);
    [lia|lia|]. exists m', r'. rewrite <- Nat.add_succ_comm. split; [|by split; [|split]].
  change (set_k_mem m' k1) with (set_k_mem m' k) in E. rewrite <- E. change (S j + m)%nat with (S (j + m)). cbn [piperead_copy].
  rewrite (bind_Ret_eq _ _ _ _ _ (pipe_at_put k r)), He, bool_decide_eq_false_2 by done.
  rewrite (bind_Ret_eq _ _ _ _ _ (pipe_mod_put _ r k)), Hch.
  assert (Hd1 : dst_at (put_pipe p (set_pi_nread (u32 (pi_nread r + 1)) r) k) addr n f).
  { apply (dst_at_frame k0); [|done|done]. intros a Ha. destruct Hst as [_ Hst]. apply Hst.
    intros i' Hi'. apply Ha. rewrite Hli in Hi'. lia. }
  assert (Hin : (i < n)%nat) by lia. rewrite (bind_Ret_eq _ _ _ _ _ (vstore8_ok _ _ _ _ i c Hd1 Hin)).
  replace (Z.of_nat i + 1) with (Z.of_nat (S i)) by lia. done.
Qed.
End locked.

(** ** The ends of a call *)
Section finish.
Variables (p : Z) (k : kernel).
Hypothesis Hk : locked (LkPipe p) k.

Lemma locked_facts : cpu_ok k ∧ k_held k ≠ [] ∧ LkPtable ∉ k_held k.
Proof using Hk.
  split; [apply Hk|]. split; [by apply (locked_in (LkPipe p))|by apply (locked_ptable (LkPipe p))].
Qed.

(** Wake the other end and leave. *)
Lemma wake_release {A} ch (a : A) :
  (wakeup ch ;; release (LkPipe p) ;; mret a : KM A) k =
    Ret a (released (LkPipe p) (set_k_procs (wake ch <$> k_procs k) k)) ∧
  idle (released (LkPipe p) (set_k_procs (wake ch <$> k_procs k) k)).
Proof using Hk.
  destruct locked_facts as (Hc & Hne & Hpt). set (k1 := set_k_procs (wake ch <$> k_procs k) k).
  rewrite (bind_Ret_eq _ _ _ _ _ (wakeup_locked ch k Hc Hne Hpt)). fold k1.
  destruct (release_locked (LkPipe p) k1 Hk) as [E Hi]. by rewrite (bind_Ret_eq _ _ _ _ _ E).
Qed.

Lemma plain_release {A} (a : A) :
  (release (LkPipe p) ;; mret a : KM A) k = Ret a (released (LkPipe p) k) ∧ idle (released (LkPipe p) k).
Proof using Hk. destruct (release_locked (LkPipe p) k Hk) as [E Hi]. by rewrite (bind_Ret_eq _ _ _ _ _ E). Qed.

(** Go to sleep: the lock is given back, the process waits on [ch]. *)
Lemma sleep_pipe {A} ch me pr (a : A) :
  k_cur k = Some me → k_procs k !! me = Some pr →
  ∃ k', (sleep ch (Some (LkPipe p)) (LSleep ch) ;; mret a : KM A) k = Switch (LSleep ch) k' ∧
    locked LkPtable k' ∧ k_pipes k' = k_pipes k ∧ k_mem k' = k_mem k ∧
    k_procs k' = alter (set_p_state SLEEPING ∘ set_p_chan (Some ch)) me (k_procs k).
Proof using Hk.
  intros Hcur Hpr. destruct Hk as [Hc Hh].
  destruct (sleep_eq (C := leave) ch (LkPipe p) me pr (LSleep ch) k Hc Hh ltac:(done) Hcur Hpr) as (k' & E & Hc' & Hh' & Ek).
  exists k'. split; [unfold bindM; by rewrite E|]. split; [by split|]. by rewrite Ek.
Qed.

Lemma mykilled_eq me pr : k_cur k = Some me → k_procs k !! me = Some pr → mykilled k = Ret (p_killed pr) k.
Proof using Hk.
  intros Hcur Hpr. destruct locked_facts as (Hc & Hne & _). unfold mykilled.
  rewrite (bind_Ret_eq _ _ _ _ _ (myproc_locked k Hc Hne)), Hcur.
  erewrite bind_deref by done. unfold proc_at. rewrite bind_assoc, bind_gets. by erewrite bind_deref by done.
Qed.
End finish.

(** What a call changed: the pipe is [r'], the memory [m'], the processes
    [ps]; no lock is held when it returns. *)
Definition pipe_post (p : Z) (k k' : kernel) (r' : pipe) (m' : mem) (ps : list proc) : Prop :=
  idle k' ∧ k_pipes k' = <[p := r']> (k_pipes k) ∧ k_mem k' = m' ∧ k_procs k' = ps.

(** [pipewrite] appends as many bytes as fit. If all do, it returns their
    number and readers are woken; otherwise it returns -1 when nobody can
    read or the process was killed, and else sleeps with the readers woken,
    having written exactly the bytes that fit. *)
Theorem pipewrite_appends p k addr l r q me pr :
  idle k → k_pipes k !! p = Some r → pipe_is r q → src_at k addr l →
  k_cur k = Some me → k_procs k !! me = Some pr →
  let room := Z.to_nat (PIPESIZE - Z.of_nat (length q)) in
  let woken := wake (ChPipeR p) <$> k_procs k in
  ∃ r' k', pipe_is r' (q ++ take room l) ∧ same_ends r r' ∧
    if (length l <=? room)%nat then
      pipewrite p addr (Z.of_nat (length l)) k = Ret (Z.of_nat (length l)) k' ∧ pipe_post p k k' r' (k_mem k) woken
    else if negb (pi_readopen r) || negb (p_killed pr =? 0) then
      pipewrite p addr (Z.of_nat (length l)) k = Ret (-1) k' ∧ pipe_post p k k' r' (k_mem k) (k_procs k)
    else
      pipewrite p addr (Z.of_nat (length l)) k = Switch (LSleep (ChPipeW p)) k' ∧
      k_pipes k' = <[p := r']> (k_pipes k) ∧
      k_procs k' = alter (set_p_state SLEEPING ∘ set_p_chan (Some (ChPipeW p))) me woken.
Proof.
  intros Hk Hp Hq Hs Hcur Hpr room woken. pose proof (pq_cap _ _ Hq) as Hcap.
  destruct (acquire_idle (LkPipe p) k Hk) as [Ha Hlk]. set (k1 := acquired (LkPipe p) k) in *.
  assert (Hp1 : k_pipes k1 !! p = Some r) by exact Hp. assert (Hs1 : src_at k1 addr l) by (by apply (src_at_frame k)).
  set (j := (length l `min` room)%nat). set (m := (length l - j)%nat).
  destruct (pipe_fill p k1 addr (Z.of_nat (length l)) l j m 0%nat r q Hs1 Hq) as (r' & E & Hr' & He); [lia|lia|].
  rewrite (put_pipe_id p r k1 Hp1) in E. set (k2 := put_pipe p r' k1) in *.
  assert (Hlk2 : locked (LkPipe p) k2) by exact Hlk.
  assert (E0 : pipewrite p addr (Z.of_nat (length l)) k = pipewrite_from m p addr (Z.of_nat (0 + j)) (Z.of_nat (length l)) k2).
  { unfold pipewrite. rewrite (bind_Ret_eq _ _ _ _ _ Ha), Nat2Z.id, <- E. do 2 f_equal. lia. }
  assert (Hr2 : pipe_is r' (q ++ take room l)).
  { rewrite drop_0 in Hr'. unfold j in Hr'. destruct (Nat.leb_spec (length l) room).
    - rewrite Nat.min_l in Hr' by lia. by rewrite take_ge in Hr' |- * by lia.
    - by rewrite Nat.min_r in Hr' by lia. }
  exists r'. rewrite E0. clear E E0. destruct (Nat.leb_spec (length l) room) as [Hfit|Hno].
  - eexists. split; [done|]. split; [done|]. replace m with 0%nat by lia. cbn [pipewrite_from].
    destruct (wake_release p k2 Hlk2 (ChPipeR p) (Z.of_nat (length l))) as [Ew Hw]. split; [exact Ew|]. by split.
  - assert (Hfull : Z.of_nat (length (q ++ take room l)) = PIPESIZE).
    { rewrite length_app, length_take. unfold room. lia. }
    destruct m as [|m'] eqn:Em; [lia|]. cbn [pipewrite_from].
    pose proof (pipe_at_put p k1 r') as Hat. fold k2 in Hat. rewrite (bind_Ret_eq _ _ _ _ _ Hat).
    rewrite (pipe_is_full r' _ Hr2), Hfull, Z.eqb_refl. rewrite (proj1 He).
    pose proof (mykilled_eq p k2 Hlk2 me pr Hcur Hpr) as Hkd.
    assert (Hkill : (if pi_readopen r then mykilled else mret 1) k2 = Ret (if pi_readopen r then p_killed pr else 1) k2)
      by (destruct (pi_readopen r); [exact Hkd|done]).
    rewrite (bind_Ret_eq _ _ _ _ _ Hkill).
    replace (negb ((if pi_readopen r then p_killed pr else 1) =? 0)) with (negb (pi_readopen r) || negb (p_killed pr =? 0))
      by (by destruct (pi_readopen r)).
    destruct (negb (pi_readopen r) || negb (p_killed pr =? 0)).
    + destruct (plain_release p k2 Hlk2 (-1)) as [Er Hr]. eexists. split; [done|]. split; [done|]. split; [exact Er|]. by split.
    + destruct (locked_facts p k2 Hlk2) as (Hc & Hne & Hpt).
      rewrite (bind_Ret_eq _ _ _ _ _ (wakeup_locked (ChPipeR p) k2 Hc Hne Hpt)).
      set (k3 := set_k_procs _ k2). assert (Hlk3 : locked (LkPipe p) k3) by exact Hlk2.
      destruct (sleep_pipe p k3 Hlk3 (ChPipeW p) me (wake (ChPipeR p) pr) (-1) Hcur) as (k' & Ek & _ & Hpi & _ & Hps).
      { cbn. by rewrite list_lookup_fmap, Hpr. }
      exists k'. split; [done|]. split; [done|]. split; [exact Ek|]. split; [exact Hpi|exact Hps].
Qed.

(** [piperead] takes the oldest bytes, as many as asked for and present,
    stores them in order at the destination and wakes the writers. On an
    empty pipe it returns 0 when there is no writer; otherwise it returns -1
    if the process was killed and sleeps if not, changing nothing. *)
Theorem piperead_takes p k addr n f r q me pr :
  idle k → k_pipes k !! p = Some r → pipe_is r q → dst_at k addr n f →
  k_cur k = Some me → k_procs k !! me = Some pr →
  let got := take n q in
  if bool_decide (q = []) && pi_writeopen r then
    if negb (p_killed pr =? 0) then
      ∃ k', piperead p addr (Z.of_nat n) k = Ret (-1) k' ∧ pipe_post p k k' r (k_mem k) (k_procs k)
    else
      ∃ k', piperead p addr (Z.of_nat n) k = Switch (LSleep (ChPipeR p)) k' ∧
        k_pipes k' = k_pipes k ∧ k_mem k' = k_mem k ∧
        k_procs k' = alter (set_p_state SLEEPING ∘ set_p_chan (Some (ChPipeR p))) me (k_procs k)
  else
    ∃ r' m' k', piperead p addr (Z.of_nat n) k = Ret (Z.of_nat (length got)) k' ∧
      pipe_is r' (drop n q) ∧ same_ends r r' ∧ stored (k_mem k) m' f got ∧
      pipe_post p k k' r' m' (wake (ChPipeW p) <$> k_procs k).
Proof.
  intros Hk Hp Hq Hd Hcur Hpr got. destruct (acquire_idle (LkPipe p) k Hk) as [Ha Hlk]. set (k1 := acquired (LkPipe p) k) in *.
  assert (Hid : put_pipe p r k1 = k1) by (by apply put_pipe_id). pose proof (pipe_at_put p k1 r) as Hat. rewrite Hid in Hat.
  unfold piperead. rewrite (bind_Ret_eq _ _ _ _ _ Ha). unfold piperead_wait.
  rewrite (bind_Ret_eq _ _ _ _ _ Hat), (pipe_is_empty _ _ Hq). destruct (bool_decide (q = []) && pi_writeopen r) eqn:Eb.
  - rewrite (bind_Ret_eq _ _ _ _ _ (mykilled_eq p k1 Hlk me pr Hcur Hpr)). destruct (negb (p_killed pr =? 0)).
    + destruct (plain_release p k1 Hlk (-1)) as [Er Hr]. eexists. split; [exact Er|]. split; [done|].
      split; [|done]. cbn. by rewrite insert_id.
    + destruct (sleep_pipe p k1 Hlk (ChPipeR p) me pr (-1) Hcur Hpr) as (k' & Ek & _ & Hpi & Hm & Hps).
      exists k'. split; [exact Ek|]. by rewrite Hpi, Hm, Hps.
  - set (j := (n `min` length q)%nat). assert (Hd1 : dst_at k1 addr n f) by (by apply (dst_at_frame k)).
    destruct (pipe_drain p addr n f k1 j k1 (n - j)%nat 0%nat r q Hd1 (stored_nil _ _) eq_refl Hq) as (m' & r' & E & Hst & Hr' & He);
      [lia|lia|]. rewrite Hid in E. set (k2 := put_pipe p r' (set_k_mem m' k1)) in *.
    assert (Hlk2 : locked (LkPipe p) k2) by exact Hlk. cbn [Nat.add] in *.
    assert (Hgot : got = take j q).
    { unfold got, j. destruct (Nat.le_gt_cases n (length q)); [by rewrite Nat.min_l by lia|].
      by rewrite Nat.min_r, !take_ge by lia. }
    assert (Hdrop : drop n q = drop j q).
    { unfold j. destruct (Nat.le_gt_cases n (length q)); [by rewrite Nat.min_l by lia|].
      by rewrite Nat.min_r, !drop_ge by lia. }
    assert (Hend : piperead_copy (n - j) p addr (Z.of_nat j) k2 = Ret (Z.of_nat j) k2).
    { destruct (n - j)%nat eqn:En; [done|]. cbn [piperead_copy].
      pose proof (pipe_at_put p (set_k_mem m' k1) r') as Hat'. fold k2 in Hat'. rewrite (bind_Ret_eq _ _ _ _ _ Hat').
      rewrite (pipe_is_empty _ _ Hr'), bool_decide_eq_true_2; [done|]. apply drop_ge. lia. }
    assert (Hcopy : piperead_copy (Z.to_nat (Z.of_nat n)) p addr 0 k1 = Ret (Z.of_nat j) k2).
    { rewrite Nat2Z.id. rewrite <- Hend, <- E. f_equal. lia. }
    rewrite (bind_Ret_eq _ _ _ _ _ Hcopy). destruct (wake_release p k2 Hlk2 (ChPipeW p) (Z.of_nat j)) as [Ew Hw].
    exists r', m'. eexists. split; [|split; [rewrite Hdrop; exact Hr'|split; [done|split; [rewrite Hgot; exact Hst|]]]].
    + rewrite Ew. f_equal. rewrite Hgot, length_take. lia.
    + by split.
Qed.

(** ** Witnesses: an empty pipe, one running process, a kernel buffer *)
Definition pipe_page : Z := 0x80200000.
Definition demo_buf : Z := 0x80300000.
Definition demo_pipe (q : list Z) : pipe :=
  mk_pipe (q ++ replicate (512 - length q) 0) 0 (Z.of_nat (length q)) true true.
Definition demo_pipes (q : list Z) : kernel :=
  set_k_pipes {[pipe_page := demo_pipe q]} (set_k_cur (Some 0%nat) kernel0).

Lemma demo_idle q : idle (demo_pipes q).
Proof. split; [|done]. split; [done|]. split; [done|constructor]. Qed.

Lemma demo_pipe_is : pipe_is (demo_pipe [7; 8; 9]) [7; 8; 9].
Proof. by split. Qed.
Lemma demo_pipe_is_nil : pipe_is (demo_pipe []) [].
Proof. by split. Qed.

(** C40: a pipe is a queue of at most 512 bytes. [pipewrite] appends as many
    bytes as fit. If all do, it returns their number and readers are woken;
    otherwise it returns -1 when nobody can read or the process was killed,
    and else sleeps with the readers woken, having written exactly the bytes
    that fit. [piperead] takes the oldest bytes, as many as asked for and
    present, stores them in order at the destination and wakes the writers.
    On an empty pipe it returns 0 when there is no writer; otherwise it
    returns -1 if the process was killed and sleeps if not, changing
    nothing. *)
Theorem pipe_refines_queue p k r q me pr : idle k → k_pipes k !! p = Some r → pipe_is r q → k_cur k = Some me → k_procs k !! me = Some pr →
  (∀ addr l, src_at k addr l →
     let room := Z.to_nat (PIPESIZE - Z.of_nat (length q)) in
     let woken := wake (ChPipeR p) <$> k_procs k in
     ∃ r' k', pipe_is r' (q ++ take room l) ∧ same_ends r r' ∧
       if (length l <=? room)%nat then
         pipewrite p addr (Z.of_nat (length l)) k = Ret (Z.of_nat (length l)) k' ∧ pipe_post p k k' r' (k_mem k) woken
       else if negb (pi_readopen r) || negb (p_killed pr =? 0) then
         pipewrite p addr (Z.of_nat (length l)) k = Ret (-1) k' ∧ pipe_post p k k' r' (k_mem k) (k_procs k)
       else
         pipewrite p addr (Z.of_nat (length l)) k = Switch (LSleep (ChPipeW p)) k' ∧
         k_pipes k' = <[p := r']> (k_pipes k) ∧
         k_procs k' = alter (set_p_state SLEEPING ∘ set_p_chan (Some (ChPipeW p))) me woken) ∧
  (∀ addr n f, dst_at k addr n f →
     let got := take n q in
     if bool_decide (q = []) && pi_writeopen r then
       if negb (p_killed pr =? 0) then
         ∃ k', piperead p addr (Z.of_nat n) k = Ret (-1) k' ∧ pipe_post p k k' r (k_mem k) (k_procs k)
       else
         ∃ k', piperead p addr (Z.of_nat n) k = Switch (LSleep (ChPipeR p)) k' ∧
           k_pipes k' = k_pipes k ∧ k_mem k' = k_mem k ∧
           k_procs k' = alter (set_p_state SLEEPING ∘ set_p_chan (Some (ChPipeR p))) me (k_procs k)
     else
       ∃ r' m' k', piperead p addr (Z.of_nat n) k = Ret (Z.of_nat (length got)) k' ∧
         pipe_is r' (drop n q) ∧ same_ends r r' ∧ stored (k_mem k) m' f got ∧
         pipe_post p k k' r' m' (wake (ChPipeW p) <$> k_procs k)).
Proof. intros. split; intros; [by eapply pipewrite_appends|by eapply piperead_takes]. Qed.

Lemma pipe_refines_queue_witness :
  (∃ r' k', pipe_is r' [0; 0] ∧ pipewrite pipe_page demo_buf 2 (demo_pipes []) = Ret 2 k' ∧ k_pipes k' = <[pipe_page := r']> (k_pipes (demo_pipes []))) ∧
  ∃ r' m' k', piperead pipe_page demo_buf 2 (demo_pipes [7; 8; 9]) = Ret 2 k' ∧ pipe_is r' [9] ∧
    stored (k_mem (demo_pipes [7; 8; 9])) m' (λ i, demo_buf + Z.of_nat i) [7; 8] ∧ k_mem k' = m'.
Proof.
  destruct (pipe_refines_queue pipe_page (demo_pipes []) (demo_pipe []) [] 0 proc0) as [Hw _]; [apply demo_idle|apply lookup_singleton_eq|apply demo_pipe_is_nil|reflexivity|reflexivity|].
  destruct (pipe_refines_queue pipe_page (demo_pipes [7; 8; 9]) (demo_pipe [7; 8; 9]) [7; 8; 9] 0 proc0) as [_ Hr]; [apply demo_idle|apply lookup_singleton_eq|apply demo_pipe_is|reflexivity|reflexivity|].
  split.
  - destruct (Hw demo_buf [0; 0]) as (r' & k' & H1 & _ & E & H2); [apply src_at_kernel; [done|done|]; intros i b Hb; destruct i as [|[|i]]; by simplify_eq/=|].
    exists r', k'. split; [exact H1|]. split; [exact E|]. apply H2.
  - destruct (Hr demo_buf 2%nat (λ i, demo_buf + Z.of_nat i)) as (r' & m' & k' & E & H1 & _ & H2 & H3); [by apply dst_at_kernel|].
    exists r', m', k'. split; [exact E|]. split; [exact H1|]. split; [exact H2|]. apply H3.
Defined.
