(* ===== verification/File.v ===== *)
(** * File: open files (file.c) and the creation of pipes

    A [struct file *] is the index of the entry in [ftable.file]. *)

From S2P Require Import Prelude CString Kernel Sched Kalloc Fifo Paging Vmem Cons Kbd Sleeplock Bio Log Inode Console Fs Pipe.

(** ** Definitions *)
Definition file_at (f : nat) : KM file :=
  o <- gets (λ k, k_files k !! f) ;;
  deref "file" o.
Definition file_mod (f : nat) (g : file → file) : KM unit := modify (upd_file f g).

Definition filealloc : KM (option nat) :=
  acquire LkFtable ;;
  l <- gets k_files ;;
  match find_idx (λ f, f_ref f =? 0) l with
  | Some f =>
      file_mod f (set_f_ref 1) ;;
      release LkFtable ;;
      mret (Some f)
  | None =>
      release LkFtable ;;
      mret None
  end.

Definition filedup (f : nat) : KM nat :=
  acquire LkFtable ;;
  r <- file_at f ;;
  if f_ref r <? 1 then panic "filedup" else
  file_mod f (λ r, set_f_ref (f_ref r + 1) r) ;;
  release LkFtable ;;
  mret f.

Definition fileclose (f : nat) : KM unit :=
  acquire LkFtable ;;
  r <- file_at f ;;
  if f_ref r <? 1 then panic "fileclose" else
  file_mod f (λ r, set_f_ref (f_ref r - 1) r) ;;
  if 0 <? f_ref r - 1 then release LkFtable else
  ff <- file_at f ;;
  file_mod f (set_f_ref 0) ;;
  file_mod f (set_f_type FD_NONE) ;;
  release LkFtable ;;
  match f_type ff with
  | FD_PIPE => pipeclose (f_pipe ff) (negb (f_writable ff =? 0))
  | FD_INODE =>
      ip <- deref "ff.ip" (f_ip ff) ;;
      begin_op ;;
      iput ip ;;
      end_op
  | FD_NONE => mret tt
  end.

Definition filestat (f : nat) (st : Z) : KM Z :=
  r <- file_at f ;;
  match f_type r with
  | FD_INODE =>
      ip <- deref "f->ip" (f_ip r) ;;
      ilock ip ;;
      stati ip st ;;
      iunlock ip ;;
      mret 0
  | _ => mret (-1)
  end.

Definition fileread (f : nat) (addr n : Z) : KM Z :=
  r <- file_at f ;;
  if f_readable r =? 0 then mret (-1) else
  match f_type r with
  | FD_PIPE => piperead (f_pipe r) addr n
  | FD_INODE =>
      ip <- deref "f->ip" (f_ip r) ;;
      ilock ip ;;
      off <- (f <- file_at f ;; mret (f_off f)) ;;
      res <- readi ip (Some addr) off (u32 n) ;;
      when (0 <? res.1) (file_mod f (λ r, set_f_off (u32 (f_off r + res.1)) r)) ;;
      iunlock ip ;;
      mret res.1
  | FD_NONE => panic "fileread"
  end.

(** [max]: bytes per transaction of [filewrite]. *)
Definition filewrite_max : Z := ((MAXOPBLOCKS - 1 - 1 - 2) / 2) * 512.
Fixpoint filewrite_loop (fuel : nat) (f ip : nat) (addr i n : Z) : KM Z :=
  if negb (i <? n) then mret i else
  match fuel with
  | O => fault "filewrite: out of fuel"
  | S fuel =>
      let n1 := Z.min (n - i) filewrite_max in
      begin_op ;;
      ilock ip ;;
      fl <- file_at f ;;
      r <- writei ip (FromMem (u32 (addr + i))) (f_off fl) n1 ;;
      when (0 <? r) (file_mod f (λ fl, set_f_off (u32 (f_off fl + r)) fl)) ;;
      iunlock ip ;;
      end_op ;;
      if r <? 0 then mret i else
      if negb (r =? n1) then panic "short filewrite" else
      filewrite_loop fuel f ip addr (i + r) n
  end.
Definition filewrite (f : nat) (addr n : Z) : KM Z :=
  r <- file_at f ;;
  if f_writable r =? 0 then mret (-1) else
  match f_type r with
  | FD_PIPE => pipewrite (f_pipe r) addr n
  | FD_INODE =>
      ip <- deref "f->ip" (f_ip r) ;;
      i <- filewrite_loop (S (Z.to_nat (n / filewrite_max))) f ip addr 0 n ;;
      mret (if i =? n then n else -1)
  | FD_NONE => panic "filewrite"
  end.

(** *** Pipe creation (pipe.c) *)
Definition pipealloc_bad (p : Z) (f0 f1 : option nat) : KM (option (nat * nat)) :=
  when (negb (p =? 0)) (kfree p) ;;
  match f0 with Some f => fileclose f | None => mret tt end ;;
  match f1 with Some f => fileclose f | None => mret tt end ;;
  mret None.
Definition pipe_end (f : nat) (p readable writable : Z) : KM unit :=
  file_mod f (set_f_type FD_PIPE) ;;
  file_mod f (set_f_readable readable) ;;
  file_mod f (set_f_writable writable) ;;
  file_mod f (set_f_pipe p).
(** [pipealloc(&f0, &f1)]: the two files, [None] for the code's -1. *)
Definition pipealloc : KM (option (nat * nat)) :=
  f0 <- filealloc ;;
  match f0 with
  | None => pipealloc_bad 0 None None
  | Some a =>
      f1 <- filealloc ;;
      match f1 with
      | None => pipealloc_bad 0 f0 None
      | Some b =>
          p <- kalloc ;;
          if p =? 0 then pipealloc_bad 0 f0 f1 else
          modify (λ k, set_k_pipes (<[p := pipe_init p (k_mem k)]> (k_pipes k)) k) ;;
          pipe_end a p 1 0 ;;
          pipe_end b p 0 1 ;;
          mret (Some (a, b))
      end
  end.
