(* ===== verification/WriteFile.v ===== *)
(** * WriteFile: what is written to a file is what is read from it

    The properties of [writei] for a file of the file system, and the bound
    that [filewrite] relies on: a chunk of [filewrite_max] bytes fits into the
    part of the log that one operation reserves. *)

From S2P Require Import Prelude Dll CString Kernel Sched Sock Kalloc Fifo Paging Vmem Sleeplock LockSpec Bio BioSpec Log LogSpec.
From S2P Require Import Cons Kbd Console Inode BlockSpec Fs FileSpec Slots WriteSpec Pipe File.

Lemma touched_chunk off n : 0 <= off → 0 <= n <= filewrite_max → (touched off n <= 4)%nat.
Proof. intros Ho Hn. change filewrite_max with 1536 in Hn. unfold touched. enough ((off mod 512 + n + 511) / 512 <= 4) by lia. divlia. Qed.

(** ** A file system with one file: inode 1, one block, number 59 *)
Definition demo_file : inode := mk_inode 1 1 1 sleeplock0 1 T_FILE 0 0 1 512 (59 :: replicate 12 0).
Definition demo_bitmap3 : list Z := replicate 7 255 ++ 15 :: replicate 504 0.
Definition demo_disk3 : Z → list Z := λ x,
  if x =? 58 then demo_bitmap3 else if x =? 32 then dinode_put demo_file 64 (replicate 512 0) else replicate 512 0.
Definition demo_open : kernel :=
  set_k_inodes (demo_file :: replicate 49 inode0) (set_k_sb demo_sb (demo_boot_from demo_disk3 None)).

Lemma demo_open_tx : intx 0 0 2 30 demo_open (cs_boot demo_disk3) [].
Proof.
  apply tx_set_inodes. split; try done.
  - exists (rev (seq 0 NBUF)). destruct (demo_boot_cache demo_disk3 None) as [H1 H2 H3 H4 H5 H6 H7 H8 H9 H10 H11]. by split.
  - apply (demo_geom []). by left.
  - apply NoDup_nil_2.
Qed.

Lemma demo_layout : layout demo_sb FSSIZE 2 30.
Proof.
  split.
  - cbn. rewrite BPB_eq. unfold FSSIZE. lia.
  - cbn. unfold FSSIZE. lia.
  - rewrite demo_BBLOCK by (unfold FSSIZE; lia). unfold home, FSSIZE. lia.
  - rewrite demo_BBLOCK by (unfold FSSIZE; lia). lia.
Qed.

Lemma demo_slot s : 0 <= s → slot demo_file demo_disk3 s = if s =? 0 then 59 else 0.
Proof.
  intros Hs. unfold slot. destruct (Z.ltb_spec s 13) as [Hlt|Hge]; [|by rewrite (proj2 (Z.eqb_neq s 0)) by lia].
  destruct (Z.eqb_spec s 0) as [->|Hn]; [done|]. replace (Z.to_nat s) with (S (Z.to_nat (s - 1))) by lia. change (default 0 (replicate 12 0 !! Z.to_nat (s - 1)) = 0). by rewrite lookup_replicate_2 by lia.
Qed.

Lemma demo_used b : 0 <= b < 60 → in_use demo_sb demo_disk3 b = true.
Proof.
  intros Hb. assert (H : forallb (λ b, in_use demo_sb demo_disk3 (Z.of_nat b)) (seq 0 60) = true) by (vm_compute; reflexivity).
  rewrite forallb_forall in H. rewrite <- (Z2Nat.id b) by lia. apply H, list_elem_of_In, elem_of_seq. lia.
Qed.

Lemma demo_open_ok : open_file 0 0 2 30 demo_open (cs_boot demo_disk3) [] 0 demo_file.
Proof.
  pose proof (demo_BBLOCK 0 ltac:(unfold FSSIZE; lia)) as Hbb. split.
  - exact demo_open_tx.
  - done.
  - exact demo_layout.
  - change (BBLOCK 0 demo_sb < FSSIZE). rewrite Hbb. unfold FSSIZE. lia.
  - done.
  - intros b. change (length (demo_disk3 b) = 512%nat). unfold demo_disk3. destruct (b =? 58); [done|]. by destruct (b =? 32).
  - split; [done..| |].
    + intros s Hs. change (slot demo_file demo_disk3 s ≠ 0 → data_block demo_sb (slot demo_file demo_disk3 s) ∧ in_use demo_sb demo_disk3 (slot demo_file demo_disk3 s) = true).
      rewrite demo_slot by lia. destruct (s =? 0); [|done]. intros _. split; [unfold data_block; rewrite Hbb; change (58 < 59 < FSSIZE); unfold FSSIZE; lia|apply demo_used; lia].
    + intros s s' Hs Hs'. change (slot demo_file demo_disk3 s ≠ 0 → slot demo_file demo_disk3 s = slot demo_file demo_disk3 s' → s = s'). rewrite !demo_slot by lia.
      destruct (Z.eqb_spec s 0), (Z.eqb_spec s' 0); lia.
  - intros b Hb. apply free_blocks_in in Hb as [Hu Hr]. change (in_use demo_sb demo_disk3 b = false) in Hu. change (0 <= b < FSSIZE) in Hr.
    unfold data_block. change (BBLOCK 0 demo_sb < b < FSSIZE). rewrite Hbb. split; [|lia]. destruct (decide (b < 60)); [|lia]. rewrite demo_used in Hu by lia. done.
  - intros o Ho. change (0 <= o < 512) in Ho. change (slot demo_file demo_disk3 (slot_of (o / 512)) ≠ 0). rewrite Z.div_small by lia. done.
  - exists (replicate 512 0). done.
  - split; [|change (32 < BBLOCK 0 demo_sb); rewrite Hbb; lia]. change (home FSSIZE 2 30 32). unfold home, FSSIZE. lia.
  - done.
  - cbn. change (MAXFILE * BSIZE) with 71680. lia.
Qed.

(** ** Properties *)

(** C7: [writei] on every branch. For a file of the file system inside a
    transaction: past the end of the file, past the largest file or with a
    length that wraps around it answers -1 and changes nothing. Otherwise,
    with as many free blocks as it may need and room in the log for them and
    four more, it does not panic and answers [n]: the file has the new bytes
    at their offsets, its old bytes elsewhere and the larger of the two sizes;
    the inode is saved on the disk and the other inodes of its block are as
    before; blocks in use stay in use, and those of others keep their
    contents; the file is well formed again. *)
Theorem writei_writes me pid start size k A bl i ip l off n : open_file me pid start size k A bl i ip → 0 <= off < 2 ^ 32 → 0 <= n < 2 ^ 32 → n <= Z.of_nat (length l) →
  if (i_size ip <? off) || (MAXFILE * BSIZE <? off + n) then writei i (FromLocal l) off n k = Ret (-1) k else
  (touched off n + pending ip <= length (free_blocks (k_sb k) (cs_view A)))%nat → log_room size (4 + (touched off n + pending ip)) bl →
  ∃ k' A' bl' ip', writei i (FromLocal l) off n k = Ret n k' ∧ open_file me pid start size k' A' bl' i ip' ∧
    fs_frame (set_k_inodes (<[i := ip']> (k_inodes k)) k) k' ∧ written start size k ip (cs_view A) off l n ip' (cs_view A').
Proof.
  intros O Ho Hn Hl. destruct (Z.ltb_spec (i_size ip) off) as [Hlt|Hle]; cbn [orb]; [apply (writei_fails me pid start size k A bl i ip); auto|].
  destruct (Z.ltb_spec (MAXFILE * BSIZE) (off + n)) as [Hlt|Hle']; [apply (writei_fails me pid start size k A bl i ip); auto|].
  intros Hf Hr. destruct (writei_run me pid start size k A bl i ip 0 (FromLocal l) l off n O (source_local k i l)) as (k' & A' & bl' & ip' & E & O' & F & W & _); try (done || lia). by exists k', A', bl', ip'.
Qed.

Lemma demo_free_blocks : (10 <= length (free_blocks (k_sb demo_open) (cs_view (cs_boot demo_disk3))))%nat.
Proof.
  assert (H : list_to_set (seqZ 60 10) ⊆ (list_to_set (free_blocks demo_sb demo_disk3) : gset Z)).
  { intros b. rewrite !elem_of_list_to_set, elem_of_seqZ, free_blocks_in. intros Hb. split; [|change (0 <= b < FSSIZE); unfold FSSIZE; lia].
    assert (Hf : forallb (λ b, negb (in_use demo_sb demo_disk3 (Z.of_nat b))) (seq 60 10) = true) by (vm_compute; reflexivity).
    rewrite forallb_forall in Hf. apply negb_true_iff. rewrite <- (Z2Nat.id b) by lia. apply Hf, list_elem_of_In, elem_of_seq. lia. }
  apply subseteq_size in H. rewrite !size_list_to_set in H; [exact H|apply free_blocks_nodup|apply NoDup_seqZ].
Qed.

Lemma writei_writes_witness : ∃ k' A' bl' ip', writei 0 (FromLocal (replicate 700 5)) 500 600 demo_open = Ret 600 k' ∧
  open_file 0 0 2 30 k' A' bl' 0 ip' ∧ written 2 30 demo_open demo_file demo_disk3 500 (replicate 700 5) 600 ip' (cs_view A').
Proof.
  destruct (writei_writes 0 0 2 30 demo_open (cs_boot demo_disk3) [] 0 demo_file (replicate 700 5) 500 600 demo_open_ok) as (k' & A' & bl' & ip' & E & O & _ & W).
  - lia.
  - lia.
  - rewrite length_replicate. lia.
  - etrans; [|exact demo_free_blocks]. vm_compute. lia.
  - split; [vm_compute; discriminate|vm_compute; lia].
  - exists k', A', bl', ip'. split; [exact E|]. split; [exact O|exact W].
Defined.

(** C8: a chunk of [filewrite] is read back. With the log room that one
    operation reserves ([MAXOPBLOCKS] blocks) and five free blocks, writing at
    most [filewrite_max] bytes anywhere in a file or at its end succeeds, and
    [readi] at the same offset then returns exactly these bytes. *)
Theorem write_read_roundtrip me pid start size k A bl i ip l off : open_file me pid start size k A bl i ip → 0 <= off <= i_size ip → Z.of_nat (length l) <= filewrite_max →
  off + Z.of_nat (length l) <= MAXFILE * BSIZE → (5 <= length (free_blocks (k_sb k) (cs_view A)))%nat → log_room size (Z.to_nat MAXOPBLOCKS) bl →
  ∃ k1 k2, writei i (FromLocal l) off (Z.of_nat (length l)) k = Ret (Z.of_nat (length l)) k1 ∧
    readi i None off (Z.of_nat (length l)) k1 = Ret (Z.of_nat (length l), l) k2.
Proof.
  intros O Ho Hl Hmax Hf [Hr1 Hr2]. change (Z.to_nat MAXOPBLOCKS) with 10%nat in *. set (n := Z.of_nat (length l)) in *.
  pose proof (touched_chunk off n ltac:(lia) ltac:(lia)) as Ht. pose proof (pending_le ip) as Hp. assert (Hm : MAXFILE * BSIZE = 71680) by done.
  destruct (writei_run me pid start size k A bl i ip 0 (FromLocal l) l off n O (source_local k i l) Ho ltac:(lia) Hmax ltac:(lia) ltac:(split; lia)) as (k1 & A1 & bl1 & ip1 & E1 & O1 & _ & W & _).
  destruct (wr_ip _ _ _ _ _ _ _ _ _ _ W) as (a & Ei). assert (Esz : i_size ip1 = Z.max (i_size ip) (off + n)) by (by rewrite Ei).
  destruct (tx_cache _ _ _ _ _ _ _ (of_tx _ _ _ _ _ _ _ _ _ O1)) as [o Hc].
  assert (Hroom : (base.size (cs_busy A1) < NBUF)%nat).
  { unfold cs_busy. rewrite (of_held _ _ _ _ _ _ _ _ _ O1), map_img_empty_L, union_empty_r_L, (tx_dirty _ _ _ _ _ _ _ (of_tx _ _ _ _ _ _ _ _ _ O1)), size_list_to_set by apply O1.
    pose proof (lg_max _ _ _ _ (tx_geom _ _ _ _ _ _ _ (of_tx _ _ _ _ _ _ _ _ _ O1))). lia. }
  destruct (readi_run me pid k1 i ip1 A1 k1 off n (of_ip _ _ _ _ _ _ _ _ _ O1) (open_file_ok _ _ _ _ _ _ _ _ _ O1) Hroom (of_type _ _ _ _ _ _ _ _ _ O1)) as (k2 & E2 & _).
  - split; [reflexivity|by exists o].
  - change (2 ^ 32) with 4294967296. lia.
  - change (2 ^ 32) with 4294967296. lia.
  - exists k1, k2. split; [done|]. rewrite E2. unfold read_result. change (2 ^ 32) with 4294967296.
    rewrite (proj2 (Z.ltb_ge (i_size ip1) off)), (proj2 (Z.leb_gt 4294967296 (off + n))) by lia. cbn [orb]. rewrite Z.min_l by lia.
    rewrite (written_bytes start size k ip (cs_view A) off l n ip1 (cs_view A1) W) by lia. unfold n. by rewrite Nat2Z.id, firstn_all.
Qed.

Lemma write_read_roundtrip_witness : ∃ k1 k2, writei 0 (FromLocal (replicate 600 5)) 500 600 demo_open = Ret 600 k1 ∧ readi 0 None 500 600 k1 = Ret (600, replicate 600 5) k2.
Proof.
  destruct (write_read_roundtrip 0 0 2 30 demo_open (cs_boot demo_disk3) [] 0 demo_file (replicate 600 5) 500 demo_open_ok) as (k1 & k2 & E1 & E2).
  - change (i_size demo_file) with 512. lia.
  - rewrite length_replicate. change filewrite_max with 1536. lia.
  - rewrite length_replicate. change (MAXFILE * BSIZE) with 71680. lia.
  - etrans; [|exact demo_free_blocks]. lia.
  - split; [vm_compute; discriminate|vm_compute; lia].
  - rewrite length_replicate in E1, E2. exists k1, k2. split; [exact E1|exact E2].
Defined.
