(* ===== verification/OpSpec.v ===== *)
(** * OpSpec: one file system operation after the other

    [between]: no operation is under way, the log is empty, nothing is dirty.
    [begin_op] opens a transaction from there, and [end_op] commits it and
    comes back; when the power fails in it, recovery finds the disk of before
    or of after the operation. *)

From S2P Require Import Prelude Dll CString Kernel Sched Sock Kalloc Fifo Paging Vmem Sleeplock LockSpec Bio BioSpec Log LogSpec.
From S2P Require Import Cons Kbd Console Inode BlockSpec Fs FileSpec DirSpec Slots WriteSpec Pipe File.

(** ** Definitions *)
Record between (me : nat) (pid start size : Z) (k : kernel) (A : cstate) : Prop := mk_between {
  bw_cache : ∃ o, cache k me pid o A;
  bw_held : cs_held A = ∅;
  bw_dirty : cs_dirty A = ∅;
  bw_log : log_is (k_log k) start [];
  bw_geom : log_geom (io_disksize (k_io k)) start size [];
  bw_size : lg_size (k_log k) = size;
  bw_idle : lg_outstanding (k_log k) = 0 ∧ lg_committing (k_log k) = 0;
  bw_head : head_n (cs_disk A start) = 0;
  bw_len : (∀ x, length (cs_view A x) = 512%nat) ∧ ∀ x, length (cs_disk A x) = 512%nat;
}.

(** Everything but the cache, the log, the inodes and the files is as before. *)
Definition op_frame (k k' : kernel) : Prop :=
  ∃ c P B d w l I F, k' = set_k_cpu c (set_k_procs P (set_k_bufs B (set_k_disk d (set_k_power w (set_k_log l (set_k_inodes I (set_k_files F k))))))) ∧
    Forall2 woken (k_procs k) P ∧ (w = None ↔ k_power k = None) ∧ c_cr3 c = c_cr3 (k_cpu k).

(** The disk a power failure leaves recovers to one of [V]. *)
Definition recovers (start size disksize : Z) (V : (Z → list Z) → Prop) (d : Z → list Z) : Prop :=
  log_disk_ok disksize start size d ∧ ∃ v, V v ∧ same_data start size (recovered start d) v.

(** ** Frames *)
#[export] Instance op_frame_preorder : PreOrder op_frame.
Proof.
  split.
  - intros k. exists (k_cpu k), (k_procs k), (k_bufs k), (k_disk k), (k_power k), (k_log k), (k_inodes k), (k_files k). split; [by destruct k|done].
  - intros k k1 k2 (c1 & P1 & B1 & d1 & w1 & l1 & I1 & F1 & -> & H1 & W1 & C1) (c2 & P2 & B2 & d2 & w2 & l2 & I2 & F2 & -> & H2 & W2 & C2).
    cbn in H2, W2, C2. exists c2, P2, B2, d2, w2, l2, I2, F2. split; [by destruct k|]. split; [by etrans|]. by rewrite W2, C2.
Qed.

Lemma fs_op_frame k k' : fs_frame k k' → op_frame k k'.
Proof.
  intros (c & P & B & d & w & E & Hw & H). exists c, P, B, d, w, (k_log k'), (k_inodes k), (k_files k). split; [|done]. rewrite E at 1. by destruct k.
Qed.

Lemma op_frame_fields k k' : op_frame k k' → k_io k' = k_io k ∧ k_sb k' = k_sb k ∧ k_mem k' = k_mem k ∧ k_cur k' = k_cur k ∧ c_cr3 (k_cpu k') = c_cr3 (k_cpu k) ∧ (k_power k' = None ↔ k_power k = None).
Proof. intros (c & P & B & d & w & l & I & F & -> & _ & Hw & Hc). done. Qed.

(** A field at a time. *)
Ltac op_frame_field :=
  match goal with |- op_frame ?k ?k' =>
    exists (k_cpu k'), (k_procs k'), (k_bufs k'), (k_disk k'), (k_power k'), (k_log k'), (k_inodes k'), (k_files k'); split; [by destruct k|]
  end.

Lemma op_frame_inodes l k : op_frame k (set_k_inodes l k).
Proof. by op_frame_field. Qed.
Lemma op_frame_files l k : op_frame k (set_k_files l k).
Proof. by op_frame_field. Qed.
Lemma op_frame_log l k : op_frame k (set_k_log l k).
Proof. by op_frame_field. Qed.
Lemma op_frame_quiet k : op_frame k (quiet k).
Proof. by op_frame_field. Qed.
Lemma op_frame_procs ch k : op_frame k (set_k_procs (wake ch <$> k_procs k) k).
Proof. op_frame_field. split; [apply woken_table|done]. Qed.

(** ** The cache and the fields it does not see *)
Lemma cache_wake ch k me pid o A : cache k me pid o A → cache (set_k_procs (wake ch <$> k_procs k) k) me pid o A.
Proof.
  intros [H1 H2 H3 H4 H5 H6 H7 H8 H9 H10 H11]. split; try done.
  pose proof (current_woken k me pid (wake ch <$> k_procs k) (k_cpu k) (k_bufs k) (k_disk k) (k_power k) H2 (woken_table _ _)) as H.
  by replace (set_k_cpu (k_cpu k) _) with (set_k_procs (wake ch <$> k_procs k) k) in H by (by destruct k).
Qed.

Lemma cache_set_files l k me pid o A : cache k me pid o A → cache (set_k_files l k) me pid o A.
Proof. intros [H1 H2 H3 H4 H5 H6 H7 H8 H9 H10 H11]. by split. Qed.

(** ** [begin_op] and [end_op] *)
Section ops.
Variables (me : nat) (pid start size : Z).
Notation tx := (intx me pid start size).
Notation bw := (between me pid start size).

Lemma begin_op_ok k A : bw k A → begin_op k = Ret tt (set_k_log (set_lg_outstanding 1 (k_log k)) (quiet k)) ∧ tx (set_k_log (set_lg_outstanding 1 (k_log k)) (quiet k)) A [].
Proof using.
  intros [[o Hc] Hh Hd Hl Hg Hs [Ho Hcm] Hn Hlen]. split.
  - unfold begin_op. destruct (acquire_idle LkLog k (ca_idle _ _ _ _ _ Hc)) as [Ea Hlk]. rewrite (bind_Ret_eq _ _ _ _ _ Ea).
    unfold begin_op_try, log_get. rewrite bind_gets. change (k_log (acquired LkLog k)) with (k_log k). rewrite Ho, Hcm, (li_n _ _ _ Hl).
    change (negb (0 =? 0)) with false. cbv iota. change (LOGSIZE <? Z.of_nat (length (@nil Z)) + (0 + 1) * MAXOPBLOCKS) with false. cbv iota. rewrite bind_modify.
    set (f := λ k', set_k_log (set_lg_outstanding (0 + 1) (k_log k)) k').
    change (upd_log (set_lg_outstanding (0 + 1)) (acquired LkLog k)) with (f (acquired LkLog k)). etrans; [exact (proj1 (release_locked LkLog (f (acquired LkLog k)) Hlk))|].
    by rewrite (section_eq LkLog k f (ca_idle _ _ _ _ _ Hc)).
  - split; [exists o; by apply cache_set_log, cache_quiet|destruct Hl; by split|exact Hg|exact Hs|by split|exact Hd|apply NoDup_nil_2].
Qed.

(** The state [end_op] commits from. *)
Definition closing (l : log_t) : log_t := set_lg_committing 1 (set_lg_outstanding 0 l).

Lemma wp_end_op k A bl : tx k A bl → cs_held A = ∅ → head_n (cs_disk A start) = 0 → (∀ x, length (cs_view A x) = 512%nat) → (∀ x, length (cs_disk A x) = 512%nat) →
  wp False end_op (λ _ k', ∃ A', bw k' A' ∧ fs_frame k k' ∧ same_data start size (cs_view A') (cs_view A))
    (λ c k', c = LPowerOff ∧ k_power k ≠ None ∧ recovers start size (io_disksize (k_io k)) (λ v, v = cs_disk A ∨ v = cs_view A) (k_disk k')) k.
Proof using.
  intros [[o Hc] Hl Hg Hs [Ho Hcm] Hd Hnd] Hh Hn Hlv Hld. unfold end_op.
  destruct (acquire_idle LkLog k (ca_idle _ _ _ _ _ Hc)) as [Ea Hlk]. apply wp_bind. eapply wp_of_Ret; [exact Ea|].
  apply wp_bind, wp_modify. unfold log_get. apply wp_bind, wp_gets. set (k1 := upd_log _ _). change (k_log k1) with (set_lg_outstanding (lg_outstanding (k_log k) - 1) (k_log k)).
  cbn [lg_committing lg_outstanding set_lg_outstanding]. rewrite Hcm, Ho. change (negb (0 =? 0)) with false. change (1 - 1 =? 0) with true. cbv iota zeta.
  apply wp_bind, wp_modify. set (f := λ k', set_k_log (closing (k_log k)) k').
  assert (E1 : upd_log (set_lg_committing 1) k1 = f (acquired LkLog k)) by (unfold k1, upd_log, f, closing; cbn; by rewrite Ho). rewrite E1.
  apply wp_bind. eapply wp_of_Ret; [exact (proj1 (release_locked LkLog (f (acquired LkLog k)) Hlk))|]. rewrite (section_eq LkLog k f (ca_idle _ _ _ _ _ Hc)) by done.
  set (k2 := f (quiet k)). cbn [when]. apply wp_bind.
  assert (Hc2 : cache k2 me pid o A) by (by apply cache_set_log, cache_quiet). assert (Hl2 : log_is (k_log k2) start bl) by (destruct Hl; by split).
  pose proof (commit_spec me pid k2 o A start size bl Hc2 Hh Hd Hnd Hl2 Hg Hn (Hld _)) as Hcommit.
  assert (Hf2 : fs_frame k k2) by (apply fs_frame_log, bio_fs_frame; pose proof (quiet_frame k (k_bufs k)) as H; by replace (set_k_bufs (k_bufs k) (quiet k)) with (quiet k) in H by (by destruct k)).
  eapply wp_mono; [exact Hcommit| |].
  - intros [] k3 (o3 & A3 & Hc3 & Hh3 & Hd3 & Hn3 & Hhd3 & Hsd3 & Hf3 & El3 & Hlen3).
    destruct (acquire_idle LkLog k3 (ca_idle _ _ _ _ _ Hc3)) as [Ea3 Hlk3]. apply wp_bind. eapply wp_of_Ret; [exact Ea3|]. apply wp_bind, wp_modify.
    set (k4 := upd_log _ _). assert (Hlk4 : locked LkLog k4) by exact Hlk3. destruct (locked_in _ _ Hlk4) as [Hne _].
    apply wp_bind. eapply wp_of_Ret; [exact (wakeup_locked ChLog k4 (proj1 Hlk4) Hne (locked_ptable LkLog k4 ltac:(done) Hlk4))|].
    set (g := λ k', set_k_procs (wake ChLog <$> k_procs k') (upd_log (set_lg_committing 0) k')). change (set_k_procs _ k4) with (g (acquired LkLog k3)).
    eapply wp_of_Ret; [exact (proj1 (release_locked LkLog (g (acquired LkLog k3)) Hlk3))|]. rewrite (section_eq LkLog k3 g (ca_idle _ _ _ _ _ Hc3)) by done.
    assert (Hclean : ∀ x, cs_view A3 x = cs_disk A3 x) by (intros x; apply (ca_clean _ _ _ _ _ Hc3); [by rewrite Hd3|intros j; by rewrite Hh3]).
    assert (Hf : fs_frame k (g (quiet k3))).
    { etrans; [exact Hf2|]. etrans; [exact Hf3|]. unfold g, upd_log. change (k_procs (quiet k3)) with (k_procs k3).
      exists (k_cpu (quiet k3)), (wake ChLog <$> k_procs k3), (k_bufs k3), (k_disk k3), (k_power k3). split; [by destruct k3|]. split; [apply woken_table|done]. }
    exists A3. split; [|split; [exact Hf|intros x Hx; rewrite Hclean; by apply Hsd3]].
    destruct (fs_frame_fields _ _ Hf) as (Eio & _). assert (El : k_log (g (quiet k3)) = set_lg_committing 0 (set_lg_n 0 (closing (k_log k)))) by (cbn; by rewrite El3).
    split; rewrite ?El, ?Eio; try done.
    + exists o3. apply (cache_wake ChLog (upd_log (set_lg_committing 0) (quiet k3))). by apply cache_set_log, cache_quiet.
    + destruct Hl. by split.
    + by eapply log_geom_nil.
    + split; [intros x; rewrite Hclean|]; by apply Hlen3.
  - intros c k3 (-> & Hp & Hok & Hrec). split; [done|]. split; [exact Hp|]. split; [exact Hok|]. destruct Hrec as [Hr|Hr]; eexists; (split; [|exact Hr]); auto.
Qed.
End ops.
