(* ===== verification/FileOps.v ===== *)
(** * FileOps: [filewrite] on files, across its transactions

    [filewrite] writes in chunks, each in an operation of its own: [begin_op],
    [ilock], [writei], [iunlock], [end_op]. The theorem composes the layers
    below: system call memory, file table, inodes, log, cache and disk. *)

From S2P Require Import Prelude Dll CString Kernel Sched Sock Kalloc Fifo Paging Vmem Sleeplock LockSpec Bio BioSpec Log LogSpec.
From S2P Require Import Cons Kbd Console Inode BlockSpec Fs FileSpec DirSpec Slots WriteSpec Pipe File WriteFile OpSpec VmemSpec.

(** ** Definitions *)

(** Between operations, the unlocked entry [i] of the inode cache is the file
    [ip]. *)
Record stored (me : nat) (pid start size : Z) (k : kernel) (A : cstate) (i : nat) (ip : inode) : Prop := mk_stored {
  sd_between : between me pid start size k A;
  sd_ip : k_inodes k !! i = Some ip;
  sd_layout : layout (k_sb k) (io_disksize (k_io k)) start size;
  sd_data : BBLOCK 0 (k_sb k) < sb_size (k_sb k);
  sd_wf : file_wf (k_sb k) (cs_view A) ip;
  sd_free : free_ok (k_sb k) (cs_view A);
  sd_there : blocks_there ip (cs_view A);
  sd_saved : saved k ip (cs_view A);
  sd_iblock : inode_block start size k (i_inum ip);
  sd_type : i_type ip ≠ T_DEV;
  sd_size : 0 <= i_size ip <= MAXFILE * BSIZE;
  sd_entry : 1 <= i_ref ip ∧ i_valid ip ≠ 0 ∧ i_lock ip = sleeplock0;
}.

(** ** Views that agree outside the log *)
Section same.
Variables (start size : Z) (k : kernel).
Notation sb := (k_sb k).
Notation disksize := (io_disksize (k_io k)).
Hypothesis Hly : layout sb disksize start size.
Variables v v' : Z → list Z.
Hypothesis Hsame : same_data start size v' v.

Lemma same_home x : home disksize start size x → v' x = v x.
Proof using Hsame. intros [_ H]. by apply Hsame. Qed.

Lemma same_slot ip s : file_wf sb v ip → slot ip v' s = slot ip v s.
Proof using Hly Hsame.
  intros W. apply slot_ext. intros Hn. apply same_home. by apply (data_home sb disksize start size Hly), (fw_slot _ _ _ W 12); [unfold NSLOT; lia|].
Qed.

Lemma same_use b : 0 <= b < sb_size sb → in_use sb v' b = in_use sb v b.
Proof using Hly Hsame. intros Hb. unfold in_use. rewrite (BBLOCK_one sb disksize start size Hly b Hb). rewrite same_home; [done|apply Hly]. Qed.

Lemma same_wf ip : file_wf sb v ip → file_wf sb v' ip.
Proof using Hly Hsame.
  intros W. split; [apply W|apply W| |].
  - intros s Hs. rewrite (same_slot ip s W). intros Hn. destruct (fw_slot _ _ _ W s Hs Hn) as [Hd Hu]. split; [done|]. rewrite same_use; [done|]. by apply (data_home sb disksize start size Hly).
  - intros s s' Hs Hs'. rewrite !(same_slot ip _ W). by apply (fw_inj _ _ _ W).
Qed.

Lemma same_free_blocks : free_blocks sb v' ≡ₚ free_blocks sb v.
Proof using Hly Hsame.
  apply NoDup_Permutation; [apply free_blocks_nodup..|]. intros b. rewrite !free_blocks_in. split; intros [? ?]; (split; [|done]); [rewrite <- same_use|rewrite same_use]; done.
Qed.

Lemma same_free : free_ok sb v → free_ok sb v'.
Proof using Hly Hsame. intros H b. rewrite same_free_blocks. apply H. Qed.

Lemma same_there ip : file_wf sb v ip → blocks_there ip v → blocks_there ip v'.
Proof using Hly Hsame. intros W H o Ho. rewrite (same_slot ip _ W). by apply H. Qed.

Lemma same_saved ip : inode_block start size k (i_inum ip) → saved k ip v → saved k ip v'.
Proof using Hsame. intros [Hh _] (d & Hd & E). exists d. split; [done|]. by rewrite same_home. Qed.

Lemma same_byte ip o : file_wf sb v ip → 0 <= o < 140 * 512 → slot ip v (slot_of (o / 512)) ≠ 0 → file_byte ip v' o = file_byte ip v o.
Proof using Hly Hsame.
  intros W Ho Hn. destruct (slot_of_range (o / 512) ltac:(divlia)) as [Hr _]. unfold file_byte. rewrite BSIZE_eq, !slot_file_block by (by rewrite ?(same_slot ip _ W) || divlia).
  rewrite (same_slot ip _ W), same_home; [done|]. by apply (data_home sb disksize start size Hly), (fw_slot _ _ _ W).
Qed.

Lemma same_written ip v0 off l n ip' : written start size k ip v0 off l n ip' v → file_wf sb v ip' → i_size ip' <= 140 * 512 → inode_block start size k (i_inum ip) → written start size k ip v0 off l n ip' v'.
Proof using Hly Hsame.
  intros [W1 W2 W3 W4 W5 W6 W7] Hwf Hsz [Hib Hlt]. split; [done|by apply same_there| | | | |].
  - intros o Ho. rewrite same_byte; [by apply W3|done|lia|by apply W2].
  - intros x Hx Hu. rewrite same_use by done. by apply W4.
  - intros s Hs. rewrite (same_slot ip' s Hwf). by apply W5.
  - intros x Hx Hu Hb Hi Hlog Hs. rewrite Hsame by done. by apply W6.
  - intros inum Hn. rewrite same_home by done. by apply W7.
Qed.
End same.

(** ** One write after the other *)
Lemma written_nil start size k ip v off l : 0 <= off <= i_size ip → blocks_there ip v → written start size k ip v off l 0 ip v.
Proof.
  intros Ho Ht. split; try done.
  - exists (i_addrs ip). rewrite Z.add_0_r, Z.max_l by lia. by destruct ip.
  - intros o Hr. unfold byte_written. by assert ((off <=? o) && (o <? off + 0) = false) as -> by lia.
  - intros s _ _. by left.
Qed.

Lemma written_app start size k ip v off l n1 n2 ip1 v1 ip2 v2 : layout (k_sb k) (io_disksize (k_io k)) start size → file_wf (k_sb k) v2 ip2 → 0 <= off → 0 <= n1 → 0 <= n2 →
  written start size k ip v off l n1 ip1 v1 → written start size k ip1 v1 (off + n1) (drop (Z.to_nat n1) l) n2 ip2 v2 → written start size k ip v off l (n1 + n2) ip2 v2.
Proof.
  intros Hly Hwf Ho Hn1 Hn2 [(a & E1) A2 A3 A4 A5 A6 A7] [(a' & E2) B2 B3 B4 B5 B6 B7].
  assert (Es1 : i_size ip1 = Z.max (i_size ip) (off + n1)) by (by rewrite E1). assert (Ei1 : i_inum ip1 = i_inum ip) by (by rewrite E1).
  assert (Es2 : i_size ip2 = Z.max (i_size ip1) (off + n1 + n2)) by (by rewrite E2). rewrite Ei1 in *. split.
  - exists a'. rewrite E2, E1. cbn [i_size set_i_size set_i_addrs]. unfold set_i_size, set_i_addrs. cbn. f_equal. lia.
  - done.
  - intros o Hr. rewrite B3 by done. unfold byte_written. destruct ((off + n1 <=? o) && (o <? off + n1 + n2)) eqn:Ec.
    + assert ((off <=? o) && (o <? off + (n1 + n2)) = true) as -> by lia. rewrite lookup_drop. do 2 f_equal. lia.
    + rewrite A3 by lia. unfold byte_written. assert ((off <=? o) && (o <? off + (n1 + n2)) = (off <=? o) && (o <? off + n1)) as -> by lia. done.
  - intros x Hx Hu. by apply B4, A4.
  - intros s Hs Hn. pose proof (slot_data _ _ _ _ Hly ip2 v2 s Hwf Hs Hn) as (Hrg & _ & _). destruct (B5 s Hs Hn) as [E|Hf].
    + rewrite E in *. by apply A5.
    + right. apply not_true_iff_false. intros Hu. by rewrite A4 in Hf.
  - intros x Hx Hu Hb Hi Hlog Hs. rewrite B6; [by apply A6|done|by apply A4|done|done|done|].
    intros s Hsr Hn E. destruct (A5 s Hsr Hn) as [E'|Hf]; [|congruence]. apply (Hs s Hsr); congruence.
  - intros inum Hn. rewrite B7 by done. by apply A7.
Qed.

(** ** The lock of the inode *)
Section ops.
Variables (me : nat) (pid start size : Z).
Notation tx := (intx me pid start size).
Notation bw := (between me pid start size).
Notation open k A bl i ip := (open_file me pid start size k A bl i ip).
Notation stored k A i ip := (stored me pid start size k A i ip).

Definition with_lock (b : bool) (q : Z) (ip : inode) : inode := set_i_lock (mk_sleeplock b q) ip.

Lemma ilock_valid k i ip : idle k → current_pid k me pid → k_inodes k !! i = Some ip → 1 <= i_ref ip → i_valid ip ≠ 0 → i_lock ip = sleeplock0 →
  ilock i k = Ret tt (set_k_inodes (<[i := with_lock true pid ip]> (k_inodes k)) (quiet k)).
Proof using.
  intros Hi (pr & Hc & Hp) Hip Hr Hv Hl. unfold ilock. rewrite (bind_ip_at i ip) by done. rewrite (proj2 (Z.ltb_ge (i_ref ip) 1)) by done.
  rewrite (bind_Ret_eq _ _ _ _ _ (acquiresleep_eq (SlInode i) k (i_lock ip) me pr Hi Hc ltac:(cbn; by rewrite Hip) ltac:(by rewrite Hl))), Hp.
  cbn [sl_put]. unfold upd_inode. change (k_inodes (quiet k)) with (k_inodes k). rewrite (alter_const _ ip) by done.
  rewrite (bind_ip_at i (with_lock true pid ip)) by (apply list_lookup_insert_eq, lookup_lt_is_Some; eauto).
  change (i_valid (with_lock true pid ip)) with (i_valid ip). by rewrite (proj2 (Z.eqb_neq (i_valid ip) 0)) by done.
Qed.

Lemma iunlock_held k i ip : idle k → current_pid k me pid → k_inodes k !! i = Some ip → 1 <= i_ref ip → i_lock ip = mk_sleeplock true pid →
  iunlock i k = Ret tt (set_k_procs (wake (ChLock (SlInode i)) <$> k_procs k) (set_k_inodes (<[i := with_lock false 0 ip]> (k_inodes k)) (quiet k))).
Proof using.
  intros Hi (pr & Hc & Hp) Hip Hr Hl. unfold iunlock.
  rewrite (bind_Ret_eq _ _ _ _ _ (holdingsleep_eq (SlInode i) k (i_lock ip) me pr Hi Hc ltac:(cbn; by rewrite Hip))). rewrite Hl, Hp. cbn [sl_locked sl_pid]. rewrite Z.eqb_refl. cbn [andb negb].
  rewrite (bind_ip_at i ip) by done. rewrite (proj2 (Z.ltb_ge (i_ref ip) 1)) by done.
  rewrite releasesleep_eq by (by apply quiet_idle). rewrite quiet_quiet. unfold sl_freed. cbn [sl_put]. unfold upd_inode.
  change (k_inodes (quiet k)) with (k_inodes k). by rewrite (alter_const _ ip).
Qed.

(** ** The memory the bytes come from *)
Lemma u32_add_l a b : u32 (u32 a + b) = u32 (a + b).
Proof using. unfold u32. by rewrite Zplus_mod_idemp_l. Qed.

Lemma vload_ok k : ∀ n addr l t, src_at k addr l → (t + n <= length l)%nat → vload (u32 (addr + Z.of_nat t)) n k = Ret (slice t n l) k.
Proof using.
  induction n as [|n IH]; intros addr l t Hs Hn; [done|]. cbn [vload]. destruct (lookup_lt_is_Some_2 l t ltac:(lia)) as [b Hb].
  rewrite (bind_Ret_eq _ _ _ _ _ (vload8_ok k addr l t b Hs Hb)).
  replace (u32 (u32 (addr + Z.of_nat t) + 1)) with (u32 (addr + Z.of_nat (S t))) by (rewrite u32_add_l; f_equal; lia).
  rewrite (bind_Ret_eq _ _ _ _ _ (IH addr l (S t) Hs ltac:(lia))). unfold slice. by rewrite (drop_S l b t Hb).
Qed.

Lemma source_mem k i addr l : src_at k addr l → source_is k i (FromMem (u32 addr)) l.
Proof using.
  intros Hs k' ip t m F Ht Hm Hl. unfold src_bytes. rewrite u32_add_l. replace (addr + t) with (addr + Z.of_nat (Z.to_nat t)) by lia. apply vload_ok; [|lia].
  destruct F as (c & P & B & d & w & -> & _ & _ & Hc). by apply (src_at_frame k).
Qed.
(** ** Entering and leaving an operation *)
Definition opened (k : kernel) (i : nat) (ip : inode) : kernel :=
  set_k_inodes (<[i := with_lock true pid ip]> (k_inodes k)) (quiet (set_k_log (set_lg_outstanding 1 (k_log k)) (quiet k))).

Lemma file_wf_lock b q sb v ip : file_wf sb v ip → file_wf sb v (with_lock b q ip).
Proof using. intros [H1 H2 H3 H4]. by split. Qed.

Lemma stored_open k A i ip : stored k A i ip →
  (∀ B (m : KM B), (begin_op ;; ilock i ;; m) k = m (opened k i ip)) ∧ open (opened k i ip) A [] i (with_lock true pid ip).
Proof using.
  intros [H1 H2 H3 H4 H5 H6 H7 H8 H9 H10 H11 (Hr & Hv & Hl)]. destruct (begin_op_ok me pid start size k A H1) as [Eb Ht].
  destruct (tx_cache _ _ _ _ _ _ _ Ht) as [o Hc]. split.
  - intros B m. rewrite (bind_Ret_eq _ _ _ _ _ Eb). by rewrite (bind_Ret_eq _ _ _ _ _ (ilock_valid _ i ip (ca_idle _ _ _ _ _ Hc) (ca_me _ _ _ _ _ Hc) H2 Hr Hv Hl)).
  - split; try done.
    + by apply tx_set_inodes, tx_quiet.
    + cbn. by apply list_lookup_insert_eq, lookup_lt_is_Some; eauto.
    + apply H1.
    + apply H1.
    + by apply file_wf_lock.
Qed.

Lemma opened_frame k i ip : op_frame k (opened k i ip).
Proof using. etrans; [apply (op_frame_quiet k)|]. etrans; [apply op_frame_log|]. etrans; [apply op_frame_quiet|]. apply op_frame_inodes. Qed.

Lemma wp_close k A bl i ip : open k A bl i ip → 1 <= i_ref ip → i_valid ip ≠ 0 → i_lock ip = mk_sleeplock true pid →
  head_n (cs_disk A start) = 0 → (∀ x, length (cs_disk A x) = 512%nat) →
  wp False (iunlock i ;; end_op) (λ _ k', ∃ A', stored k' A' i (with_lock false 0 ip) ∧ same_data start size (cs_view A') (cs_view A) ∧ op_frame k k' ∧
      k_inodes k' = <[i := with_lock false 0 ip]> (k_inodes k) ∧ k_files k' = k_files k)
    (λ c k', c = LPowerOff ∧ k_power k ≠ None ∧ recovers start size (io_disksize (k_io k)) (λ v, v = cs_disk A ∨ v = cs_view A) (k_disk k')) k.
Proof using.
  intros O Hr Hv Hl Hn Hd. destruct (tx_cache _ _ _ _ _ _ _ (of_tx _ _ _ _ _ _ _ _ _ O)) as [o Hc].
  apply wp_bind. eapply wp_of_Ret; [exact (iunlock_held k i ip (ca_idle _ _ _ _ _ Hc) (ca_me _ _ _ _ _ Hc) (of_ip _ _ _ _ _ _ _ _ _ O) Hr Hl)|].
  set (k1 := set_k_procs _ _). assert (Ht1 : tx k1 A bl).
  { destruct (tx_set_inodes me pid start size (<[i := with_lock false 0 ip]> (k_inodes k)) _ _ _ (tx_quiet me pid start size _ _ _ (of_tx _ _ _ _ _ _ _ _ _ O))) as [[o' Hc'] ? ? ? ? ? ?].
    split; try done. exists o'. by apply (cache_wake (ChLock (SlInode i)) _ _ _ _ _ Hc'). }
  eapply wp_mono; [exact (wp_end_op me pid start size k1 A bl Ht1 (of_held _ _ _ _ _ _ _ _ _ O) Hn (of_len _ _ _ _ _ _ _ _ _ O) Hd)| |intros c k' H; exact H].
  intros [] k' (A' & Hb & Hf & Hs). exists A'. destruct (fs_frame_fields _ _ Hf) as (Eio & Esb & Ein & _ & Efi & _).
  assert (Hf' : op_frame k k1) by (etrans; [apply (op_frame_quiet k)|]; etrans; [apply (op_frame_inodes (<[i := with_lock false 0 ip]> (k_inodes k)))|];
    exact (op_frame_procs (ChLock (SlInode i)) (set_k_inodes (<[i := with_lock false 0 ip]> (k_inodes k)) (quiet k)))).
  split; [|split; [done|split; [etrans; [exact Hf'|by apply fs_op_frame]|done]]].
  change (k_io k1) with (k_io k) in Eio. change (k_sb k1) with (k_sb k) in Esb. pose proof (of_layout _ _ _ _ _ _ _ _ _ O) as Hly. pose proof (of_wf _ _ _ _ _ _ _ _ _ O) as W.
  destruct O. split; rewrite ?Eio, ?Esb; try done.
  - rewrite Ein. by apply list_lookup_insert_eq, lookup_lt_is_Some; eauto.
  - by apply file_wf_lock, (same_wf start size k Hly (cs_view A)).
  - by apply (same_free start size k Hly (cs_view A)).
  - by apply (same_there start size k Hly (cs_view A) (cs_view A') Hs ip).
  - unfold saved. rewrite Esb. by apply (same_saved start size k (cs_view A) (cs_view A') Hs (with_lock false 0 ip)).
  - unfold inode_block. by rewrite Esb, Eio.
Qed.

Lemma written_unlock k k' ip v off l n ip' v' : k_sb k' = k_sb k → i_lock ip = sleeplock0 →
  written start size k (with_lock true pid ip) v off l n ip' v' → written start size k' ip v off l n (with_lock false 0 ip') v'.
Proof using.
  intros Esb Hl [(a & E) H2 H3 H4 H5 H6 H7]. rewrite <- Esb in H4, H5, H6, H7. split; try done. exists a. rewrite E. destruct ip; cbn in Hl. by subst.
Qed.

(** ** The chunks *)
Section chunks.
Variables (k0 : kernel) (A0 : cstate) (i : nat) (ip0 : inode) (f : nat) (fl : file) (addr : Z) (l : list Z).
Notation off := (f_off fl).
Notation n := (Z.of_nat (length l)).
Notation disksize := (io_disksize (k_io k0)).
Hypothesis H0 : stored k0 A0 i ip0.
Hypothesis Hf : k_files k0 !! f = Some fl.
Hypothesis Hoff : 0 <= off <= i_size ip0.
Hypothesis Hsrc : src_at k0 addr l.
Hypothesis Hsize : 10 <= size.

(** [j] bytes are written. *)
Record wrote (j : Z) (k : kernel) (A : cstate) (ip : inode) : Prop := mk_wrote {
  wo_stored : stored k A i ip;
  wo_written : written start size k0 ip0 (cs_view A0) off l j ip (cs_view A);
  wo_frame : op_frame k0 k;
  wo_inodes : k_inodes k = <[i := ip]> (k_inodes k0);
  wo_files : k_files k = <[f := set_f_off (off + j) fl]> (k_files k0);
}.

(** The state after a power failure: the disk recovers to the file with some
    of the chunks written. *)
Definition chunk_end (m : Z) : Prop := (filewrite_max | m) ∨ m = n.
Definition fits (j : Z) : Prop := off + j <= MAXFILE * BSIZE.
#[export] Instance fits_dec j : Decision (fits j) := Z_le_dec _ _.
Definition prefix_written (v : Z → list Z) : Prop :=
  ∃ m ip, 0 <= m <= n ∧ chunk_end m ∧ fits m ∧ written start size k0 ip0 (cs_view A0) off l m ip v ∧ file_wf (k_sb k0) v ip ∧ saved k0 ip v.
Definition cut_short (c : leave) (k : kernel) : Prop :=
  c = LPowerOff ∧ k_power k0 ≠ None ∧ recovers start size disksize prefix_written (k_disk k).

Definition chunk (j : Z) : Z := Z.min (n - j) filewrite_max.
Definition chunks (j : Z) : nat := Z.to_nat ((n - j + (filewrite_max - 1)) / filewrite_max).

Lemma wrote_size j k A ip : 0 <= j → wrote j k A ip → i_size ip = Z.max (i_size ip0) (off + j) ∧ fits j ∧ i_lock ip = sleeplock0.
Proof using.
  intros Hj W. destruct (wr_ip _ _ _ _ _ _ _ _ _ _ (wo_written _ _ _ _ W)) as (a & E). assert (Es : i_size ip = Z.max (i_size ip0) (off + j)) by (by rewrite E).
  pose proof (sd_size _ _ _ _ _ _ _ _ (wo_stored _ _ _ _ W)). split; [done|]. split; [unfold fits; lia|]. apply (sd_entry _ _ _ _ _ _ _ _ (wo_stored _ _ _ _ W)).
Qed.

Lemma wrote_cut j k A ip : 0 <= j <= n → chunk_end j → wrote j k A ip → prefix_written (cs_view A).
Proof using.
  intros Hj Hc Hw. destruct (wrote_size j k A ip (proj1 Hj) Hw) as (_ & Hfit & _). destruct Hw as [S W F _ _]. destruct (op_frame_fields _ _ F) as (_ & Esb & _). exists j, ip. split; [done|]. split; [done|]. split; [done|]. split; [done|].
  split; [rewrite <- Esb; apply S|]. pose proof (sd_saved _ _ _ _ _ _ _ _ S) as H. unfold saved in *. by rewrite <- Esb.
Qed.

Lemma between_clean k A : bw k A → ∀ x, cs_view A x = cs_disk A x.
Proof using.
  intros [[o Hc] Hh Hd _ _ _ _ _ _] x. apply (ca_clean _ _ _ _ _ Hc); [by rewrite Hd|]. intros j. by rewrite Hh.
Qed.

Lemma recovers_mono (V V' : (Z → list Z) → Prop) d : (∀ v, V v → ∃ v', V' v' ∧ ∀ x, v' x = v x) → recovers start size disksize V d → recovers start size disksize V' d.
Proof using. intros H [Hd (v & Hv & Hs)]. split; [done|]. destruct (H v Hv) as (v' & Hv' & E). exists v'. split; [done|]. intros x Hx. rewrite E. by apply Hs. Qed.

Lemma wp_chunk_tail {B} j t r k A ip k3 A3 bl3 ip3 (m : KM B) Q : wrote j k A ip → open k3 A3 bl3 i ip3 →
  fs_frame (set_k_inodes (<[i := ip3]> (k_inodes (opened k i ip))) (opened k i ip)) k3 →
  written start size (opened k i ip) (with_lock true pid ip) (cs_view A) (off + j) (drop (Z.to_nat j) l) t ip3 (cs_view A3) → cs_disk A3 = cs_disk A →
  t = (if 0 <? r then r else 0) → 0 <= j → 0 <= t → j + t <= n → chunk_end j → chunk_end (j + t) →
  (∀ k' A' ip', wrote (j + t) k' A' ip' → length (free_blocks (k_sb k') (cs_view A')) = length (free_blocks (k_sb k3) (cs_view A3)) → wp False m Q cut_short k') →
  wp False (when (0 <? r) (file_mod f (λ fl, set_f_off (u32 (f_off fl + r)) fl)) ;; iunlock i ;; end_op ;; m) Q cut_short k3.
Proof using H0 Hf Hoff.
  intros W O F Hw Hd Et Hj Ht Hjt Hc1 Hc2 HQ. destruct (wrote_size j k A ip Hj W) as (Esz & Hfit & Hlk). pose proof (wo_stored _ _ _ _ W) as S.
  destruct (op_frame_fields _ _ (wo_frame _ _ _ _ W)) as (Eio0 & Esb0 & _). pose proof (sd_layout _ _ _ _ _ _ _ _ H0) as Hly0.
  destruct (wr_ip _ _ _ _ _ _ _ _ _ _ Hw) as (a & Eip). destruct (sd_entry _ _ _ _ _ _ _ _ S) as (Hr & Hv & _).
  destruct (fs_frame_fields _ _ F) as (Eio & Esb & Ein & _ & Efi & _). cbn in Eio, Esb, Ein, Efi. rewrite list_insert_insert_eq, (wo_inodes _ _ _ _ W), list_insert_insert_eq in Ein.
  assert (Esz3 : i_size ip3 = Z.max (i_size ip) (off + j + t)) by (by rewrite Eip). pose proof (of_size _ _ _ _ _ _ _ _ _ O) as Hsz3. change (MAXFILE * BSIZE) with 71680 in Hsz3.
  set (k4 := if 0 <? r then upd_file f (λ fl, set_f_off (u32 (f_off fl + r)) fl) k3 else k3).
  assert (E4 : when (0 <? r) (file_mod f (λ fl, set_f_off (u32 (f_off fl + r)) fl)) k3 = Ret tt k4) by (unfold k4; by destruct (0 <? r)).
  assert (Ef4 : k_files k4 = <[f := set_f_off (off + (j + t)) fl]> (k_files k0)).
  { unfold k4. destruct (0 <? r) eqn:E0; [unfold upd_file; cbn [k_files set_k_files]|]; rewrite Efi, (wo_files _ _ _ _ W).
    - rewrite alter_ins by (by eapply lookup_lt_Some). cbn [f_off set_f_off]. f_equal. subst t. rewrite u32_small by lia. rewrite <- Z.add_assoc. done.
    - subst t. by rewrite Z.add_0_r. }
  assert (F4 : op_frame k3 k4) by (unfold k4; destruct (0 <? r); [apply op_frame_files|reflexivity]).
  destruct (op_frame_fields _ _ F4) as (Eio4 & Esb4 & _). assert (Ein4 : k_inodes k4 = k_inodes k3) by (unfold k4; by destruct (0 <? r)).
  assert (O4 : open k4 A3 bl3 i ip3).
  { unfold k4. destruct (0 <? r); [|done]. destruct O as [[[o Hc] ? ? ? ? ? ?] ? ? ? ? ? ? ? ? ? ? ? ?]. split; try done. split; try done. exists o. by apply cache_set_files. }
  assert (F04 : op_frame k0 k4).
  { etrans; [exact (wo_frame _ _ _ _ W)|]. etrans; [apply (opened_frame k i ip)|]. etrans; [apply (op_frame_inodes (<[i := ip3]> (k_inodes (opened k i ip))))|]. etrans; [by apply fs_op_frame|done]. }
  apply wp_bind. eapply wp_of_Ret; [exact E4|]. eapply wp_eq; [symmetry; apply (bind_assoc (iunlock i) (λ _, end_op) (λ _, m))|]. apply wp_bind.
  eapply wp_mono; [apply (wp_close k4 A3 bl3 i ip3 O4); rewrite ?Hd, ?Eip; try done; apply S| |].
  - intros [] k' (A' & S' & Hs' & F' & Ein' & Efi'). destruct (op_frame_fields _ _ F') as (Eio' & Esb' & _).
    assert (Esb3 : k_sb k3 = k_sb k0) by congruence. pose proof (file_wf_lock false 0 _ _ _ (of_wf _ _ _ _ _ _ _ _ _ O)) as W3. rewrite Esb3 in W3.
    apply (HQ k' A' (with_lock false 0 ip3)).
    + split; [done| |by etrans|rewrite Ein', Ein4, Ein; by rewrite list_insert_insert_eq|by rewrite Efi', Ef4].
      apply (same_written start size k0 Hly0 (cs_view A3) (cs_view A') Hs' ip0); [|done|cbn; lia|apply H0].
      apply (written_app start size k0 ip0 (cs_view A0) off l j t ip (cs_view A)); [done|done|lia|lia|lia|apply W|].
      by apply (written_unlock (opened k i ip) k0).
    + rewrite Esb', Esb4. apply Permutation_length, (same_free_blocks start size k3 (of_layout _ _ _ _ _ _ _ _ _ O) (cs_view A3) (cs_view A') Hs').
  - intros c k' (-> & Hp & Hrec). destruct (op_frame_fields _ _ F04) as (Eio04 & Esb04 & _ & _ & _ & Hp04). split; [done|]. split; [by rewrite <- Hp04|].
    rewrite Eio04 in Hrec. revert Hrec. apply recovers_mono. intros v [->| ->].
    + exists (cs_view A). split; [apply (wrote_cut j k A ip); [lia|done|done]|]. intros x. rewrite Hd. apply (between_clean k). apply S.
    + exists (cs_view A3). split; [|done]. exists (j + t), (with_lock false 0 ip3). split; [lia|]. split; [done|]. split; [unfold fits; change (MAXFILE * BSIZE) with 71680; lia|]. assert (Esb3 : k_sb k3 = k_sb k0) by congruence.
      pose proof (file_wf_lock false 0 _ _ _ (of_wf _ _ _ _ _ _ _ _ _ O)) as W3. rewrite Esb3 in W3.
      split; [|split; [done|pose proof (of_saved _ _ _ _ _ _ _ _ _ O) as H; unfold saved in *; by rewrite <- Esb3]].
      apply (written_app start size k0 ip0 (cs_view A0) off l j t ip (cs_view A)); [done|done|lia|lia|lia|apply W|]. by apply (written_unlock (opened k i ip) k0).
Qed.

(** What is written at the end: everything, or the chunks that fit. *)
Definition total : Z := if bool_decide (fits n) then n else filewrite_max * ((MAXFILE * BSIZE - off) / filewrite_max).

Lemma src_drop k j : op_frame k0 k → 0 <= j <= n → src_at k (addr + j) (drop (Z.to_nat j) l).
Proof using Hsrc.
  intros F Hj x b Hx. destruct (op_frame_fields _ _ F) as (_ & _ & Hm & _ & Hc & _). rewrite lookup_drop in Hx.
  destruct (src_at_frame k0 k addr l Hm Hc Hsrc _ _ Hx) as (q & Hq & Hb). exists q. split; [|done]. rewrite <- Hq. do 2 f_equal. lia.
Qed.

#[local] Transparent wp.
Lemma wp_opened {B} k k1 (m : KM B) Q R : (∀ B (m : KM B), (begin_op ;; ilock i ;; m) k = m k1) → wp False m Q R k1 → wp False (begin_op ;; ilock i ;; m) Q R k.
Proof using. intros H Hm. unfold wp in *. by rewrite H. Qed.
#[local] Opaque wp.

Lemma wp_chunk {B} e j k A ip (m : Z → KM B) Q : wrote j k A ip → 0 <= j < n → chunk_end j → (5 + e <= length (free_blocks (k_sb k) (cs_view A)))%nat →
  (∀ k' A' ip', fits (j + chunk j) → wrote (j + chunk j) k' A' ip' → (e <= length (free_blocks (k_sb k') (cs_view A')))%nat → wp False (m (chunk j)) Q cut_short k') →
  (∀ k' A' ip', ¬ fits (j + chunk j) → wrote j k' A' ip' → wp False (m (-1)) Q cut_short k') →
  wp False (begin_op ;; ilock i ;; fl <- file_at f ;; r <- writei i (FromMem (u32 (addr + j))) (f_off fl) (chunk j) ;;
    when (0 <? r) (file_mod f (λ fl, set_f_off (u32 (f_off fl + r)) fl)) ;; iunlock i ;; end_op ;; m r) Q cut_short k.
Proof using H0 Hf Hoff Hsrc Hsize.
  intros W Hj Hc He HQ1 HQ2. destruct (wrote_size j k A ip ltac:(lia) W) as (Esz & Hfit & Hlk). destruct (stored_open k A i ip (wo_stored _ _ _ _ W)) as [Eo O].
  set (k1 := opened k i ip) in *. apply (wp_opened _ _ _ _ _ Eo). assert (Efl : file_at f k1 = Ret (set_f_off (off + j) fl) k1).
  { unfold file_at. rewrite bind_gets. change (k_files k1) with (k_files k). rewrite (wo_files _ _ _ _ W), list_lookup_insert_eq by (by eapply lookup_lt_Some). done. }
  apply wp_bind. eapply wp_of_Ret; [exact Efl|]. cbn [f_off set_f_off]. pose proof (sd_size _ _ _ _ _ _ _ _ (wo_stored _ _ _ _ W)) as Hsz.
  assert (Hn1 : 0 < chunk j <= 1536 ∧ j + chunk j <= n) by (unfold chunk; change filewrite_max with 1536; lia). unfold fits in Hfit. change (MAXFILE * BSIZE) with 71680 in Hfit, Hsz.
  assert (Hc2 : chunk_end (j + chunk j)).
  { unfold chunk. destruct (Z.min_spec (n - j) filewrite_max) as [[_ ->]|[Hm ->]]; [right; lia|]. destruct Hc as [Hd| ->]; [left; by apply Z.divide_add_r; [|reflexivity]|lia]. }
  assert (F1 : op_frame k0 k1) by (etrans; [apply W|apply opened_frame]).
  destruct (decide (fits (j + chunk j))) as [Hfits|Hno].
  - unfold fits in Hfits. change (MAXFILE * BSIZE) with 71680 in Hfits. pose proof (touched_chunk (off + j) (chunk j) ltac:(lia) ltac:(change filewrite_max with 1536; lia)) as Ht.
    pose proof (pending_le (with_lock true pid ip)) as Hp. change (k_sb k) with (k_sb k1) in He.
    destruct (writei_run me pid start size k1 A [] i (with_lock true pid ip) e (FromMem (u32 (addr + j))) (drop (Z.to_nat j) l) (off + j) (chunk j) O) as (k3 & A3 & bl3 & ip3 & E3 & O3 & F3 & W3 & Ed3 & He3).
    + apply source_mem, src_drop; [done|lia].
    + cbn. lia.
    + rewrite length_drop. lia.
    + change (MAXFILE * BSIZE) with 71680. lia.
    + lia.
    + split; cbn; [lia|unfold NBUF; lia].
    + apply wp_bind. eapply wp_of_Ret; [exact E3|]. eapply (wp_chunk_tail j (chunk j) (chunk j)); [exact W|exact O3|exact F3|exact W3|exact Ed3|by rewrite (proj2 (Z.ltb_lt 0 (chunk j))) by lia|lia|lia|lia|done|done|].
      intros k' A' ip' W' Hl. apply (HQ1 k' A' ip'); [unfold fits; change (MAXFILE * BSIZE) with 71680; lia|done|]. destruct (fs_frame_fields _ _ F3) as (_ & Esb & _). cbn in Esb, He3. by rewrite Hl, Esb.
  - unfold fits in Hno. change (MAXFILE * BSIZE) with 71680 in Hno.
    assert (E3 : writei i (FromMem (u32 (addr + j))) (off + j) (chunk j) k1 = Ret (-1) k1).
    { apply (writei_fails me pid start size k1 A [] i (with_lock true pid ip)); [done|lia|lia|]. change (MAXFILE * BSIZE) with 71680. lia. }
    apply wp_bind. eapply wp_of_Ret; [exact E3|]. eapply (wp_chunk_tail j 0 (-1) k A ip k1 A [] (with_lock true pid ip)); [exact W|exact O| | |done|done|lia|lia|lia|done|by rewrite Z.add_0_r|].
    + rewrite list_insert_id by apply O. replace (set_k_inodes (k_inodes k1) k1) with k1 by (by destruct k1). reflexivity.
    + apply written_nil; [cbn; lia|]. exact (of_there _ _ _ _ _ _ _ _ _ O).
    + intros k' A' ip' W' _. rewrite Z.add_0_r in W'. by apply (HQ2 k' A' ip').
Qed.

Lemma chunks_next j : 0 <= j < n → chunks j = S (chunks (j + chunk j)).
Proof using. intros Hj. unfold chunks, chunk. change filewrite_max with 1536. destruct (Z.min_spec (n - j) 1536) as [[? ->]|[? ->]]; divlia. Qed.

Lemma wp_filewrite_loop : ∀ fuel j k A ip (Q : Z → kernel → Prop), wrote j k A ip → 0 <= j <= n → chunk_end j → (chunks j <= fuel)%nat →
  (5 * chunks j <= length (free_blocks (k_sb k) (cs_view A)))%nat → (∀ k' A' ip', wrote total k' A' ip' → Q total k') →
  wp False (filewrite_loop fuel f i addr j n) Q cut_short k.
Proof using H0 Hf Hoff Hsrc Hsize.
  intros fuel. induction fuel as [|fuel IH]; intros j k A ip Q W Hj Hc Hfu Hfr HQ; destruct (decide (j = n)) as [->|Hne];
    [|pose proof (chunks_next j ltac:(lia)); lia| |].
  1,2: cbn [filewrite_loop]; rewrite (proj2 (Z.ltb_ge n n)) by lia; apply wp_ret; assert (Et : total = n) by (unfold total; rewrite bool_decide_eq_true_2; [done|]; apply (wrote_size n k A ip ltac:(lia) W));
    rewrite <- Et in W |- * at 1; exact (HQ k A ip W).
  cbn [filewrite_loop]. rewrite (proj2 (Z.ltb_lt j n)) by lia. cbn [negb]. pose proof (chunks_next j ltac:(lia)) as Hnx.
  change (Z.min (n - j) filewrite_max) with (chunk j). eapply (wp_chunk (5 * chunks (j + chunk j)) j k A ip); [done|lia|done|lia| |].
  - intros k' A' ip' Hfits W' Hfr'. assert (Hn1 : 0 < chunk j ∧ j + chunk j <= n) by (unfold chunk; change filewrite_max with 1536; lia).
    rewrite (proj2 (Z.ltb_ge (chunk j) 0)), Z.eqb_refl by lia. cbn [negb]. eapply IH; [done|lia| |lia|done|done].
    unfold chunk. destruct (Z.min_spec (n - j) filewrite_max) as [[_ ->]|[Hm ->]]; [right; lia|]. destruct Hc as [Hd|Hd]; [left; by apply Z.divide_add_r|lia].
  - intros k' A' ip' Hno W'. change (-1 <? 0) with true. cbv iota. apply wp_ret. assert (Et : total = j); [|rewrite <- Et in *; exact (HQ k' A' ip' W')].
    destruct (wrote_size j k A ip ltac:(lia) W) as (_ & Hfit & _). unfold total, fits, chunk in *. change (MAXFILE * BSIZE) with 71680 in *. change filewrite_max with 1536 in *.
    rewrite bool_decide_eq_false_2 by lia. destruct Hc as [[q ->]|Hd]; [|lia]. change filewrite_max with 1536 in *. divlia.
Qed.

Lemma prefix_same v v' : prefix_written v → same_data start size v' v → prefix_written v'.
Proof using H0 Hoff.
  intros (m & ip & Hm & Hc & Hfit & Hw & Hwf & Hs) E. pose proof (sd_size _ _ _ _ _ _ _ _ H0) as Hsz. pose proof (sd_layout _ _ _ _ _ _ _ _ H0) as Hly. destruct (wr_ip _ _ _ _ _ _ _ _ _ _ Hw) as (a & Ei).
  exists m, ip. split; [done|]. split; [done|]. split; [done|]. assert (Hib : inode_block start size k0 (i_inum ip)) by (rewrite Ei; apply H0).
  split; [|split; [by apply (same_wf start size k0 Hly v)|by apply (same_saved start size k0 v v' E)]].
  apply (same_written start size k0 Hly v v' E ip0); [done|done| |apply H0]. unfold fits in Hfit. change (MAXFILE * BSIZE) with 71680 in *. rewrite Ei. cbn. lia.
Qed.

Definition file_recovered (d : Z → list Z) : Prop := log_disk_ok disksize start size d ∧ ∀ d', boots disksize start d d' → prefix_written d'.

Lemma recovers_file d : recovers start size disksize prefix_written d → file_recovered d.
Proof using H0 Hoff.
  intros [Hd (v & Hv & E)]. split; [done|]. intros d' Hb. apply (prefix_same v); [done|]. pose proof (boots_recovered _ _ size _ _ Hb Hd) as H. intros x Hx. rewrite H by done. by apply E.
Qed.

Lemma filewrite_run : (5 * chunks 0 <= length (free_blocks (k_sb k0) (cs_view A0)))%nat → f_type fl = FD_INODE → f_ip fl = Some i → f_writable fl ≠ 0 →
  wp False (filewrite f addr n) (λ r k', r = (if bool_decide (fits n) then n else -1) ∧ ∃ A' ip', wrote total k' A' ip') cut_short k0.
Proof using H0 Hf Hoff Hsrc Hsize.
  intros Hfr Ht Hi Hw. assert (Efl : file_at f k0 = Ret fl k0) by (unfold file_at; by rewrite bind_gets, Hf). unfold filewrite. apply wp_bind. eapply wp_of_Ret; [exact Efl|].
  rewrite (proj2 (Z.eqb_neq _ _) Hw), Ht, Hi. cbn [deref]. apply wp_bind, wp_ret, wp_bind.
  assert (W : wrote 0 k0 A0 ip0).
  { pose proof (sd_size _ _ _ _ _ _ _ _ H0). split; [done| |reflexivity|by rewrite list_insert_id by apply H0|].
    - apply written_nil; [done|apply H0].
    - rewrite list_insert_id; [done|]. rewrite Z.add_0_r. rewrite Hf. by destruct fl. }
  apply (wp_filewrite_loop _ 0 k0 A0 ip0); [done|lia|left; apply Z.divide_0_r| |done|].
  - unfold chunks. change filewrite_max with 1536. divlia.
  - intros k' A' ip' W'. apply wp_ret. split; [|by exists A', ip']. unfold total. case_bool_decide as Hfit; [by rewrite Z.eqb_refl|].
    unfold fits in Hfit. change (MAXFILE * BSIZE) with 71680 in *. change filewrite_max with 1536. destruct (wrote_size 0 k0 A0 ip0 ltac:(lia) W) as (_ & H & _). unfold fits in H. change (MAXFILE * BSIZE) with 71680 in *.
    rewrite (proj2 (Z.eqb_neq _ _)); [done|]. divlia.
Qed.
End chunks.
End ops.

(** ** A file at rest *)
Definition demo_fd : file := mk_file FD_INODE 1 1 1 0 (Some 0%nat) 500.
Definition rest_of (m : mem) (F : list file) (k : kernel) : kernel := set_k_mem m (set_k_files F (set_k_log (set_lg_outstanding 0 (k_log k)) k)).

Lemma rest_of_open me pid start size k A i ip m F : open_file me pid start size k A [] i ip → head_n (cs_disk A start) = 0 → (∀ x, length (cs_disk A x) = 512%nat) →
  1 <= i_ref ip ∧ i_valid ip ≠ 0 ∧ i_lock ip = sleeplock0 → stored me pid start size (rest_of m F k) A i ip.
Proof.
  intros [[[o [H1 H2 H3 H4 H5 H6 H7 H8 H9 H10 H11]] [L1 L2 L3 L4 L5] Hg Hs [_ Hcm] Hdy _] Hip Hly Hd Hh Hlen Hwf Hfr Hth Hsv Hib Hty Hsz] Hn Hdk He.
  split; [|exact Hip|exact Hly|exact Hd|exact Hwf|exact Hfr|exact Hth|exact Hsv|exact Hib|exact Hty|exact Hsz|exact He].
  split; [exists o; by split|exact Hh|exact Hdy|by split|exact Hg|exact Hs|by split|exact Hn|by split].
Qed.

Definition demo_rest : kernel := rest_of (λ _, 5) (demo_fd :: replicate 99 file0) demo_open.

Lemma demo_disk3_length x : length (demo_disk3 x) = 512%nat.
Proof. unfold demo_disk3. destruct (x =? 58); [done|]. by destruct (x =? 32). Qed.

Lemma demo_rest_stored : stored 0 0 2 30 demo_rest (cs_boot demo_disk3) 0 demo_file.
Proof.
  apply rest_of_open; [exact demo_open_ok|reflexivity|exact demo_disk3_length|]. split; [cbn; lia|]. split; [discriminate|reflexivity].
Qed.

(** ** Properties *)

(** C2: [filewrite] to a file, across its transactions and power failures.
    From a machine between operations, with room on the disk, writing the [n]
    bytes at the user address [addr] to an open, writable file neither panics
    nor faults. When they fit into the largest file it answers [n] and the
    file has these bytes from the file's offset on, its old bytes elsewhere,
    and the offset is [n] further; when they do not fit it answers -1, and
    the chunks of [filewrite_max] bytes that do fit are in the file. Either
    way the machine is between operations again, and nothing but the
    scheduler's data, the cache, the disk, the log, this inode and this
    file's offset has changed. When the power fails instead, then after any number of
    interrupted recoveries the disk holds the file with some whole number of
    chunks written, or all of it. *)
Theorem filewrite_writes me pid start size k A i ip f fl addr l (n := Z.of_nat (length l)) :
  stored me pid start size k A i ip → k_files k !! f = Some fl → f_type fl = FD_INODE → f_ip fl = Some i → f_writable fl ≠ 0 → 0 <= f_off fl <= i_size ip →
  src_at k addr l → 10 <= size → (5 * chunks l 0 <= length (free_blocks (k_sb k) (cs_view A)))%nat →
  (∃ k' A' ip', filewrite f addr n k = Ret (if bool_decide (fits fl n) then n else -1) k' ∧ wrote me pid start size k A i ip f fl l (total fl l) k' A' ip') ∨
  (∃ k', filewrite f addr n k = Switch LPowerOff k' ∧ k_power k ≠ None ∧ file_recovered start size k A ip fl l (k_disk k')).
Proof.
  intros H0 Hf Ht Hi Hw Hoff Hs Hsz Hfr.
  destruct (wp_False_inv _ _ _ _ (filewrite_run me pid start size k A i ip f fl addr l H0 Hf Hoff Hs Hsz Hfr Ht Hi Hw)) as [(r & k' & E & -> & A' & ip' & W)|(c & k' & E & -> & Hp & Hr)].
  - left. by exists k', A', ip'.
  - right. exists k'. split; [done|]. split; [done|]. by apply (recovers_file me pid start size k A i).
Qed.

Lemma filewrite_writes_witness : ∃ k' A' ip', filewrite 0 KERNBASE 2000 demo_rest = Ret 2000 k' ∧
  wrote 0 0 2 30 demo_rest (cs_boot demo_disk3) 0 demo_file 0 demo_fd (replicate 2000 5) 2000 k' A' ip' ∧ i_size ip' = 2500.
Proof.
  destruct (filewrite_writes 0 0 2 30 demo_rest (cs_boot demo_disk3) 0 demo_file 0 demo_fd KERNBASE (replicate 2000 5)) as [(k' & A' & ip' & E & W)|(k' & _ & Hp & _)].
  - exact demo_rest_stored.
  - reflexivity.
  - reflexivity.
  - reflexivity.
  - discriminate.
  - change (0 <= 500 <= 512). lia.
  - apply src_at_kernel; [unfold KERNBASE; lia|rewrite length_replicate; unfold KERNBASE; lia|]. intros j b Hj. by apply lookup_replicate in Hj as [-> _].
  - lia.
  - etrans; [|exact demo_free_blocks]. vm_compute. lia.
  - assert (Hfit : fits demo_fd 2000) by (unfold fits; change (MAXFILE * BSIZE) with 71680; cbn; lia).
    assert (Et : total demo_fd (replicate 2000 5) = 2000) by (unfold total; rewrite length_replicate; by rewrite bool_decide_eq_true_2).
    rewrite Et in W. rewrite length_replicate in E. change (Z.of_nat 2000) with 2000 in E. rewrite bool_decide_eq_true_2 in E by exact Hfit.
    exists k', A', ip'. split; [exact E|]. split; [exact W|].
    destruct (wr_ip _ _ _ _ _ _ _ _ _ _ (wo_written _ _ _ _ _ _ _ _ _ _ _ _ _ _ _ W)) as (a & ->). reflexivity.
  - exfalso. by apply Hp.
Defined.
