(* ===== verification/Link.v ===== *)
(** * Link: creating and removing directory entries (sysfile.c: create,
    isdirempty; the shared part of unlink) *)

From S2P Require Import Prelude CString Kernel Sched Kalloc Fifo Paging Vmem Cons Kbd Sleeplock Bio Log Inode Console Fs Pipe File.

(** ** Definitions *)
Definition dot : list Z := lit "." ++ [0].
Definition dotdot : list Z := lit ".." ++ [0].

Fixpoint isdirempty_loop (fuel : nat) (dp : nat) (off : Z) : KM bool :=
  d <- ip_at dp ;;
  if negb (off <? i_size d) then mret true else
  match fuel with
  | O => fault "isdirempty: out of fuel"
  | S fuel =>
      de <- read_dirent dp off "isdirempty: readi" ;;
      if negb (de_inum de =? 0) then mret false else isdirempty_loop fuel dp (off + DIRENT)
  end.
Definition isdirempty (dp : nat) : KM bool :=
  d <- ip_at dp ;;
  isdirempty_loop (S (Z.to_nat (i_size d / DIRENT))) dp (2 * DIRENT).

(** [create] returns a locked inode. *)
Definition create (path : list Z) (type major minor : Z) : KM (option nat) :=
  r <- nameiparent path ;;
  match r with
  | None => mret None
  | Some (dp, name) =>
      ilock dp ;;
      f <- dirlookup dp name ;;
      match f with
      | Some (ip, _) =>
          iunlockput dp ;;
          ilock ip ;;
          i <- ip_at ip ;;
          if (type =? T_FILE) && (i_type i =? T_FILE) then mret (Some ip) else
          iunlockput ip ;;
          mret None
      | None =>
          d <- ip_at dp ;;
          ip <- ialloc (i_dev d) type ;;
          ilock ip ;;
          modify (upd_inode ip (set_i_major (s16 major))) ;;
          modify (upd_inode ip (set_i_minor (s16 minor))) ;;
          modify (upd_inode ip (set_i_nlink 1)) ;;
          iupdate ip ;;
          i <- ip_at ip ;;
          (if type =? T_DIR then
             modify (upd_inode dp (λ d, set_i_nlink (s16 (i_nlink d + 1)) d)) ;;
             iupdate dp ;;
             r <- dirlink ip dot (i_inum i) ;;
             if r <? 0 then panic "create dots" else
             r <- dirlink ip dotdot (i_inum d) ;;
             if r <? 0 then panic "create dots" else mret tt
           else mret tt) ;;
          r <- dirlink dp name (i_inum i) ;;
          if r <? 0 then panic "create: dirlink" else
          iunlockput dp ;;
          mret (Some ip)
      end
  end.

(** [sys_unlink] and [removeSwapFile] from [ilock(dp)] on: erase the entry
    [name] of [dp] and drop a link of its inode. *)
Definition unlink_bad (dp : nat) : KM Z :=
  iunlockput dp ;;
  end_op ;;
  mret (-1).
Definition unlink_at (dp : nat) (name : list Z) : KM Z :=
  ilock dp ;;
  c1 <- namecmp name dot ;;
  c2 <- (if c1 =? 0 then mret 0 else namecmp name dotdot) ;;
  if (c1 =? 0) || (c2 =? 0) then unlink_bad dp else
  f <- dirlookup dp name ;;
  match f with
  | None => unlink_bad dp
  | Some (ip, off) =>
      ilock ip ;;
      i <- ip_at ip ;;
      if i_nlink i <? 1 then panic "unlink: nlink < 1" else
      empty <- (if i_type i =? T_DIR then isdirempty ip else mret true) ;;
      if negb empty then iunlockput ip ;; unlink_bad dp else
      r <- writei dp (FromLocal (replicate 16 0)) off DIRENT ;;
      if negb (r =? DIRENT) then panic "unlink: writei" else
      when (i_type i =? T_DIR)
        (modify (upd_inode dp (λ d, set_i_nlink (s16 (i_nlink d - 1)) d)) ;;
         iupdate dp) ;;
      iunlockput dp ;;
      modify (upd_inode ip (λ i, set_i_nlink (s16 (i_nlink i - 1)) i)) ;;
      iupdate ip ;;
      iunlockput ip ;;
      end_op ;;
      mret 0
  end.
