(* ===== verification/Swap.v ===== *)
(** * Swap: moving pages between memory and the swap file (fs.c, vm.c)

    Each process but init and the shell has a file [/.swap<pid>]; slot [i] of
    [file_manager] describes the page at offset [i * PGSIZE] of it.
    [allocuvm] and [loaduvm], which grow a process, are here because they
    swap. *)

From S2P Require Import Prelude CString Kernel Sched Kalloc Fifo Paging Vmem Cons Kbd Sleeplock Bio Log Inode Console Fs Pipe File Link.

(** ** Definitions *)
Definition O_RDONLY : Z := 0x000.
Definition O_WRONLY : Z := 0x001.
Definition O_RDWR : Z := 0x002.
Definition O_CREATE : Z := 0x200.
Definition DIGITS : Z := 14.

(** [path]: "/.swap" and the pid, in an array of [DIGITS] bytes; [itoa] runs
    on a memory of its own that starts with "/.swap". *)
Definition swap_mem : mem := λ a, default 0 (lit "/.swap" !! Z.to_nat a).
Definition swap_path (pid : Z) : KM (list Z) :=
  m <- deref "itoa" (itoa 12 swap_mem pid 6) ;;
  let path := cstring (m <$> seqZ 0 20) in
  if Z.of_nat (length path) <? DIGITS then mret path else fault "path[DIGITS]".

Definition removeSwapFile (p : nat) : KM Z :=
  pr <- proc_at p ;;
  path <- swap_path (p_pid pr) ;;
  match p_swapFile pr with
  | None => mret (-1)
  | Some f =>
      fileclose f ;;
      begin_op ;;
      r <- nameiparent path ;;
      match r with
      | None => end_op ;; mret (-1)
      | Some (dp, name) => unlink_at dp name
      end
  end.

Definition createSwapFile (p : nat) : KM Z :=
  pr <- proc_at p ;;
  path <- swap_path (p_pid pr) ;;
  begin_op ;;
  ip <- create path T_FILE 0 0 ;;
  match ip with
  | None => panic "iunlock"
  | Some ip =>
      iunlock ip ;;
      f <- filealloc ;;
      modify (upd_proc p (set_p_swapFile f)) ;;
      match f with
      | None => panic "no slot for files on /store"
      | Some f =>
          file_mod f (set_f_ip (Some ip)) ;;
          file_mod f (set_f_type FD_INODE) ;;
          file_mod f (set_f_off 0) ;;
          file_mod f (set_f_readable O_WRONLY) ;;
          file_mod f (set_f_writable O_RDWR) ;;
          end_op ;;
          mret 0
      end
  end.

Definition swap_seek (p : nat) (place : Z) : KM nat :=
  pr <- proc_at p ;;
  f <- deref "p->swapFile" (p_swapFile pr) ;;
  file_mod f (set_f_off (u32 place)) ;;
  mret f.
Definition writeToSwapFile (p : nat) (buffer placeOnFile size : Z) : KM Z :=
  f <- swap_seek p placeOnFile ;;
  filewrite f buffer (s32 size).
Definition readFromSwapFile (p : nat) (buffer placeOnFile size : Z) : KM Z :=
  f <- swap_seek p placeOnFile ;;
  fileread f buffer (s32 size).

(** [p->file_manager[i]] *)
Definition fm_set (p : nat) (i : nat) (g : page_t → page_t) : KM unit :=
  modify (upd_proc p (λ pr, set_p_file_manager (alter g i (p_file_manager pr)) pr)).

Definition page_in (p : nat) (ram_managerIndex vAddr buff : Z) : KM Z :=
  pr <- proc_at p ;;
  match find_idx (λ g, pg_vAddr g =? vAddr) (p_file_manager pr) with
  | None => mret (-1)
  | Some i =>
      ret <- readFromSwapFile p buff (Z.of_nat i * PGSIZE) PGSIZE ;;
      if ret =? -1 then mret (-1) else
      pr <- proc_at p ;;
      g <- deref "file_manager" (p_file_manager pr !! i) ;;
      on_proc p (ram_set ram_managerIndex (λ _, g)) ;;
      fm_set p i (set_pg_state NOT_USED) ;;
      modify (upd_proc p (λ pr, set_p_paged_out_count (u32 (p_paged_out_count pr - 1)) pr)) ;;
      mret ret
  end.

Definition nextFreePageIndexInFile (pr : proc) : Z :=
  match find_idx (λ g, bool_decide (pg_state g = NOT_USED)) (p_file_manager pr) with
  | Some i => Z.of_nat i
  | None => -1
  end.

Definition page_out (p : nat) (vAddr pgdir : Z) : KM Z :=
  pr <- proc_at p ;;
  let index := nextFreePageIndexInFile pr in
  r <- writeToSwapFile p vAddr (PGSIZE * index) PGSIZE ;;
  if r =? -1 then mret (-1) else
  if index <? 0 then fault "file_manager[-1]" else
  let i := Z.to_nat index in
  fm_set p i (set_pg_pgdir pgdir) ;;
  fm_set p i (set_pg_vAddr vAddr) ;;
  fm_set p i (set_pg_state USED) ;;
  modify (upd_proc p (λ pr, set_p_paged_out_count (u32 (p_paged_out_count pr + 1)) pr)) ;;
  mret index.

(** [buff] is the address of the local page buffer. *)
Definition clone_file (src dest : nat) (buff : Z) : KM unit :=
  s <- is_shell_or_init (Some src) ;;
  if s then mret tt else
  mfor (seq 0 MAX_FILE_PAGES) (λ i,
    pr <- proc_at src ;;
    g <- deref "file_manager" (p_file_manager pr !! i) ;;
    when (is_used g)
      (r <- readFromSwapFile src buff (PGSIZE * Z.of_nat i) PGSIZE ;;
       if negb (r =? PGSIZE) then panic "clone_file: error in reading from file" else
       r <- writeToSwapFile dest buff (PGSIZE * Z.of_nat i) PGSIZE ;;
       if negb (r =? PGSIZE) then panic "clone_file: error in writing to file" else
       fm_set dest i (set_pg_state USED))).

Definition swap_out (p : nat) (pgdir vAddr : Z) : KM unit :=
  page_index <- on_proc p nextSwapPageIndexInRAM ;;
  swappedPage <- on_proc p (ram_at page_index) ;;
  page_phys_addr <- getPhysicalAddress (pg_vAddr swappedPage) (pg_pgdir swappedPage) ;;
  page_out p (pg_vAddr swappedPage) (pg_pgdir swappedPage) ;;
  kfree (P2V page_phys_addr) ;;
  update_pageOUT_pte_flags p (pg_vAddr swappedPage) (pg_pgdir swappedPage) ;;
  on_proc p (deletePageFromRAM page_index false) ;;
  on_proc p (insertPageToRAM pgdir vAddr) ;;
  on_proc p shiftFIFOIndex.

Definition swap_in (p : nat) (page_index : Z) : KM Z :=
  modify (upd_proc p (λ pr, set_p_page_fault_count (u32 (p_page_fault_count pr + 1)) pr)) ;;
  let vAddr := PGROUNDDOWN page_index in
  new_allocated_page <- kalloc ;;
  if new_allocated_page =? 0 then fault "memset(0)" else
  mem_set new_allocated_page 0 PGSIZE ;;
  avail <- on_proc p nextFreePageIndexInRAM ;;
  pr <- proc_at p ;;
  lcr3 (V2P (p_pgdir pr)) ;;
  if 0 <=? avail then
    cprintf "free index = %d
" [AInt avail] ;;
    update_pageIN_pte_flags p vAddr (V2P new_allocated_page) (p_pgdir pr) ;;
    page_in p avail vAddr vAddr ;;
    mret 1
  else
    avail <- on_proc p nextSwapPageIndexInRAM ;;
    outPage <- on_proc p (ram_at avail) ;;
    update_pageIN_pte_flags p vAddr (V2P new_allocated_page) (p_pgdir pr) ;;
    buff <- gets (λ k, io_buff (k_io k)) ;;
    page_in p avail vAddr buff ;;
    outPagePAddr <- getPhysicalAddress (pg_vAddr outPage) (pg_pgdir outPage) ;;
    mem_move new_allocated_page buff PGSIZE ;;
    page_out p (pg_vAddr outPage) (pg_pgdir outPage) ;;
    update_pageOUT_pte_flags p (pg_vAddr outPage) (pg_pgdir outPage) ;;
    kfree (P2V outPagePAddr) ;;
    on_proc p shiftFIFOIndex ;;
    mret 1.

(** The page at [a] enters the FIFO of [p], swapping another one out when it
    is full; init and the shell are not limited. *)
Definition note_page (p : option nat) (pgdir a : Z) : KM unit :=
  s <- is_shell_or_init p ;;
  match p with
  | Some p =>
      if s then mret tt else
      full <- on_proc p isFIFOfull ;;
      if negb full then on_proc p (insertPageToRAM pgdir a) else swap_out p pgdir a
  | None => mret tt
  end.
Fixpoint allocuvm_loop (fuel : nat) (p : option nat) (pgdir a oldsz newsz : Z) : KM Z :=
  if negb (a <? newsz) then mret newsz else
  match fuel with
  | O => fault "allocuvm: out of fuel"
  | S fuel =>
      mem <- kalloc ;;
      if mem =? 0 then
        cprintf "allocuvm out of memory
" [] ;;
        deallocuvm pgdir newsz oldsz ;;
        mret 0
      else
      mem_set mem 0 PGSIZE ;;
      r <- mappages pgdir a PGSIZE (V2P mem) (Z.lor PTE_W PTE_U) ;;
      if r <? 0 then
        cprintf "allocuvm out of memory (2)
" [] ;;
        deallocuvm pgdir newsz oldsz ;;
        kfree mem ;;
        mret 0
      else
      note_page p pgdir a ;;
      allocuvm_loop fuel p pgdir (u32 (a + PGSIZE)) oldsz newsz
  end.
Definition allocuvm (pgdir oldsz newsz : Z) : KM Z :=
  p <- myproc ;;
  if KERNBASE <=? newsz then mret 0 else
  if newsz <? oldsz then mret oldsz else
  s <- is_shell_or_init p ;;
  if (Z.of_nat MAX_TOTAL_PAGES <? PGROUNDUP newsz / PGSIZE) && negb s then mret 0 else
  allocuvm_loop (S (Z.to_nat (newsz / PGSIZE))) p pgdir (PGROUNDUP oldsz) oldsz newsz.

Fixpoint loaduvm_loop (fuel : nat) (pgdir addr : Z) (ip : nat) (offset i sz : Z) : KM Z :=
  if negb (i <? sz) then mret 0 else
  match fuel with
  | O => fault "loaduvm: out of fuel"
  | S fuel =>
      pte <- walkpgdir pgdir (u32 (addr + i)) false ;;
      if pte =? 0 then panic "loaduvm: address should exist" else
      e <- pte_get pte ;;
      let pa := PTE_ADDR e in
      let n := if u32 (sz - i) <? PGSIZE then sz - i else PGSIZE in
      r <- readi ip (Some (P2V pa)) (u32 (offset + i)) n ;;
      if negb (r.1 =? n) then mret (-1) else
      loaduvm_loop fuel pgdir addr ip offset (u32 (i + PGSIZE)) sz
  end.
Definition loaduvm (pgdir addr : Z) (ip : nat) (offset sz : Z) : KM Z :=
  if negb (addr mod PGSIZE =? 0) then panic "loaduvm: addr must be page aligned" else
  loaduvm_loop (S (Z.to_nat (sz / PGSIZE))) pgdir addr ip offset 0 sz.
