(* ===== verification/Proc.v ===== *)
(** * Proc: the life of a process (proc.c)

    allocproc, fork, exit, wait, kill, growproc, with the paging state of
    each process. The scheduler is in [Sched]. The addresses of [forkret] and
    of the initcode are the linker's and are arguments. *)

From S2P Require Import Prelude CString Kernel Sched Sock Kalloc Fifo Paging Vmem Cons Kbd Sleeplock Bio Log Inode Console Fs Pipe File Link Swap.

(** ** Definitions *)
Definition proc_mod (p : nat) (f : proc → proc) : KM unit := modify (upd_proc p f).
(** [myproc()], dereferenced by the caller *)
Definition curproc : KM nat :=
  p <- myproc ;;
  deref "myproc" p.

Definition initSwapfile (p : nat) : KM unit :=
  s <- is_shell_or_init (Some p) ;;
  when (negb s)
    (proc_mod p (λ pr, set_p_file_manager (set_pg_state NOT_USED <$> p_file_manager pr) pr)).

(** The stack of the new process, up to the context that enters [forkret]. *)
Definition allocproc (forkret : Z) : KM (option nat) :=
  acquire LkPtable ;;
  l <- gets k_procs ;;
  match find_idx (λ p, bool_decide (p_state p = UNUSED)) l with
  | None => release LkPtable ;; mret None
  | Some p =>
      proc_mod p (set_p_state EMBRYO) ;;
      pid <- gets k_nextpid ;;
      proc_mod p (set_p_pid pid) ;;
      modify (set_k_nextpid (s32 (pid + 1))) ;;
      release LkPtable ;;
      ks <- kalloc ;;
      proc_mod p (set_p_kstack ks) ;;
      if ks =? 0 then proc_mod p (set_p_state UNUSED) ;; mret None else
      proc_mod p (set_p_page_fault_count 0) ;;
      proc_mod p (set_p_paged_out_count 0) ;;
      proc_mod p (set_p_page_mem_count 0) ;;
      proc_mod p (set_p_fifoIndexStart 0) ;;
      proc_mod p (set_p_fifoIndexNext 0) ;;
      s <- is_shell_or_init (Some p) ;;
      (if s then mret tt else createSwapFile p ;; mret tt) ;;
      initSwapfile p ;;
      proc_mod p (set_p_context_eip forkret) ;;
      mret (Some p)
  end.

(** [safestrcpy(d, s, sizeof d)] on an array; the store after the loop hits
    the byte behind the NUL the loop copied. *)
Definition blk_safestrcpy (d s : list Z) : list Z :=
  let n := (length d - 1)%nat in
  let l := take n (cstring s) in
  splice 0 (l ++ (if (length l <? n)%nat then [0; 0] else [0])) d.

Definition SEG_UCODE : Z := 3.
Definition SEG_UDATA : Z := 4.
Definition DPL_USER : Z := 0x3.
Definition FL_IF : Z := 0x200.
Definition user_tf : trapframe :=
  mk_trapframe 0 0 PGSIZE FL_IF (Z.lor (Z.shiftl SEG_UCODE 3) DPL_USER) (Z.lor (Z.shiftl SEG_UDATA 3) DPL_USER)
    (Z.lor (Z.shiftl SEG_UDATA 3) DPL_USER) (Z.lor (Z.shiftl SEG_UDATA 3) DPL_USER) 0 0.

Definition userinit (forkret initcode initcode_size : Z) : KM unit :=
  p <- allocproc forkret ;;
  modify (set_k_initproc p) ;;
  p <- deref "userinit" p ;;
  d <- setupkvm ;;
  proc_mod p (set_p_pgdir d) ;;
  if d =? 0 then panic "userinit: out of memory?" else
  inituvm d initcode initcode_size ;;
  proc_mod p (set_p_sz PGSIZE) ;;
  proc_mod p (set_p_tf user_tf) ;;
  proc_mod p (λ pr, set_p_name (blk_safestrcpy (p_name pr) (lit "initcode")) pr) ;;
  cwd <- namei (lit "/") ;;
  proc_mod p (set_p_cwd cwd) ;;
  acquire LkPtable ;;
  proc_mod p (set_p_state RUNNABLE) ;;
  release LkPtable.

Definition growproc (n : Z) : KM Z :=
  c <- curproc ;;
  pr <- proc_at c ;;
  sz <- (if 0 <? n then allocuvm (p_pgdir pr) (p_sz pr) (u32 (p_sz pr + n))
         else if n <? 0 then deallocuvm (p_pgdir pr) (p_sz pr) (u32 (p_sz pr + n))
         else mret (p_sz pr)) ;;
  if negb (n =? 0) && (sz =? 0) then mret (-1) else
  proc_mod c (set_p_sz sz) ;;
  switchuvm (Some c) ;;
  mret 0.

(** The child's page tables in the paging records of the parent. *)
Definition adopt (pgdir : Z) (l : list page_t) : list page_t := set_pg_pgdir pgdir <$> l.

(** The local [buff] of [clone_file] on the kernel stack of [p], below the
    [depth] bytes that are in use when it is called. *)
Definition clone_buff (pr : proc) (depth : Z) : Z := p_kstack pr + KSTACKSIZE - depth - PGSIZE.

(** [np->ofile[i] = filedup(curproc->ofile[i])] *)
Fixpoint dup_files (np : nat) (i : nat) (l : list (option nat)) : KM unit :=
  match l with
  | [] => mret tt
  | o :: l =>
      match o with
      | Some f =>
          f <- filedup f ;;
          proc_mod np (λ pr, set_p_ofile (<[i := Some f]> (p_ofile pr)) pr)
      | None => mret tt
      end ;;
      dup_files np (S i) l
  end.

Definition fork (forkret depth : Z) : KM Z :=
  c <- curproc ;;
  np <- allocproc forkret ;;
  match np with
  | None => mret (-1)
  | Some np =>
      pr <- proc_at c ;;
      d <- copyuvm (p_pgdir pr) (p_sz pr) ;;
      proc_mod np (set_p_pgdir d) ;;
      if d =? 0 then
        npr <- proc_at np ;;
        kfree (p_kstack npr) ;;
        proc_mod np (set_p_kstack 0) ;;
        proc_mod np (set_p_state UNUSED) ;;
        mret (-1)
      else
      proc_mod np (set_p_sz (p_sz pr)) ;;
      s <- is_shell_or_init (Some c) ;;
      when (negb s)
        (clone_file c np (clone_buff pr depth) ;;
         pr <- proc_at c ;;
         proc_mod np (set_p_ram_manager (adopt d (p_ram_manager pr))) ;;
         proc_mod np (set_p_file_manager (adopt d (p_file_manager pr)))) ;;
      pr <- proc_at c ;;
      proc_mod np (set_p_parent (Some c)) ;;
      proc_mod np (set_p_tf (set_tf_eax 0 (p_tf pr))) ;;
      dup_files np 0 (p_ofile pr) ;;
      cwd <- deref "idup" (p_cwd pr) ;;
      cwd <- idup cwd ;;
      proc_mod np (set_p_cwd (Some cwd)) ;;
      proc_mod np (λ npr, set_p_name (blk_safestrcpy (p_name npr) (p_name pr)) npr) ;;
      npr <- proc_at np ;;
      acquire LkPtable ;;
      proc_mod np (set_p_state RUNNABLE) ;;
      release LkPtable ;;
      mret (p_pid npr)
  end.

Definition removeProcFiles_proc (pr : proc) : proc :=
  let clear g := set_pg_vAddr 0xffffffff (set_pg_state NOT_USED g) in
  set_p_fifoIndexNext 0 (set_p_fifoIndexStart 0
    (set_p_file_manager (clear <$> p_file_manager pr) (set_p_ram_manager (clear <$> p_ram_manager pr)
      (set_p_sz 0 (set_p_page_mem_count 0 pr))))).
Definition removeProcFiles (p : nat) : KM unit := proc_mod p removeProcFiles_proc.

(** [wakeup1(q)] for a process pointer [q]; the null pointer is the channel
    of a process that sleeps on none. *)
Definition wakeup1_proc (q : option nat) : KM unit :=
  match q with
  | Some i => wakeup1 (ChProc i)
  | None => modify (λ k, set_k_procs
      ((λ p, if bool_decide (p_state p = SLEEPING) && bool_decide (p_chan p = None)
             then set_p_state RUNNABLE p else p) <$> k_procs k) k)
  end.

Fixpoint close_files (c : nat) (i : nat) (l : list (option nat)) : KM unit :=
  match l with
  | [] => mret tt
  | o :: l =>
      match o with
      | Some f =>
          fileclose f ;;
          proc_mod c (λ pr, set_p_ofile (<[i := None]> (p_ofile pr)) pr)
      | None => mret tt
      end ;;
      close_files c (S i) l
  end.

(** One pass of [exit]'s loop over the table: children go to init. *)
Definition reparent (c : nat) (i : nat) : KM unit :=
  p <- proc_at i ;;
  when (bool_decide (p_parent p = Some c))
    (init <- gets k_initproc ;;
     proc_mod i (set_p_parent init) ;;
     when (bool_decide (p_state p = ZOMBIE)) (wakeup1_proc init)).

Definition exit : KM unit :=
  c <- curproc ;;
  init <- gets k_initproc ;;
  if bool_decide (Some c = init) then panic "init exiting" else
  pr <- proc_at c ;;
  close_files c 0 (p_ofile pr) ;;
  s <- is_shell_or_init (Some c) ;;
  (if s then mret tt else
   r <- removeSwapFile c ;;
   if negb (r =? 0) then panic "exit: error deleting swap file" else removeProcFiles c) ;;
  begin_op ;;
  pr <- proc_at c ;;
  cwd <- deref "cwd" (p_cwd pr) ;;
  iput cwd ;;
  end_op ;;
  proc_mod c (set_p_cwd None) ;;
  closeprocsocks (Some c) ;;
  acquire LkPtable ;;
  pr <- proc_at c ;;
  wakeup1_proc (p_parent pr) ;;
  mfor (seq 0 NPROC) (reparent c) ;;
  proc_mod c (set_p_state ZOMBIE) ;;
  sched LExit ;;
  panic "zombie exit".

(** A zombie child's entry as [wait] leaves it. *)
Definition reaped (pr : proc) : proc :=
  let free g := set_pg_state NOT_USED g in
  set_p_state UNUSED (set_p_killed 0
    (set_p_name (<[0%nat := 0]> (p_name pr)) (set_p_parent None
      (set_p_file_manager (free <$> p_file_manager pr) (set_p_ram_manager (free <$> p_ram_manager pr)
        (set_p_pid 0 (set_p_kstack 0 pr))))))).
Definition is_child (c : nat) (p : proc) : bool := bool_decide (p_parent p = Some c).
Definition is_zombie_of (c : nat) (p : proc) : bool := is_child c p && bool_decide (p_state p = ZOMBIE).

(** One round of [wait], with [ptable.lock] held. *)
Definition wait_try (c : nat) : KM Z :=
  l <- gets k_procs ;;
  match find_idx (is_zombie_of c) l with
  | Some i =>
      p <- proc_at i ;;
      kfree (p_kstack p) ;;
      proc_mod i (set_p_kstack 0) ;;
      freevm (p_pgdir p) ;;
      proc_mod i reaped ;;
      release LkPtable ;;
      mret (p_pid p)
  | None =>
      me <- proc_at c ;;
      if negb (existsb (is_child c) l) || negb (p_killed me =? 0) then
        release LkPtable ;;
        mret (-1)
      else
        sleep (ChProc c) (Some LkPtable) (LSleep (ChProc c)) ;;
        mret (-1)
  end.
Definition wait : KM Z :=
  c <- curproc ;;
  acquire LkPtable ;;
  wait_try c.
Definition wait_woken (c : nat) (intena : bool) : KM Z :=
  sleep_leave c LkPtable intena ;;
  wait_try c.

Definition kill (pid : Z) : KM Z :=
  acquire LkPtable ;;
  l <- gets k_procs ;;
  match find_idx (λ p, p_pid p =? pid) l with
  | Some p =>
      proc_mod p (set_p_killed 1) ;;
      closeprocsocks (Some p) ;;
      proc_mod p (λ pr, if bool_decide (p_state pr = SLEEPING) then set_p_state RUNNABLE pr else pr) ;;
      release LkPtable ;;
      mret 0
  | None =>
      release LkPtable ;;
      mret (-1)
  end.

(** The first return of a forked process, with [ptable.lock] held. *)
Definition forkret : KM unit :=
  release LkPtable ;;
  first <- gets (λ k, io_first (k_io k)) ;;
  when first
    (modify (upd_io (set_io_first false)) ;;
     iinit ROOTDEV ;;
     initlog ROOTDEV).
