(* ===== verification/ProcSpec.v ===== *)
(** * ProcSpec: what the process calls do

    [kill] on every branch, the one on which it cannot work included. *)

From S2P Require Import Prelude CString Kernel Sched Sock Kalloc Fifo Paging Vmem Cons Kbd Sleeplock LockSpec Bio Log Inode Console Fs Pipe File Link Swap Proc.

(** ** Definitions *)

(** A killed process, woken when it slept. *)
Definition killed (pr : proc) : proc :=
  let pr := set_p_killed 1 pr in
  if bool_decide (p_state pr = SLEEPING) then set_p_state RUNNABLE pr else pr.

(** ** [kill] *)
Lemma acquire_under l lk k : cpu_ok k → k_held k = [lk] → l ≠ lk →
  (acquire l : KM unit) k = Ret tt (acquired l k) ∧ cpu_ok (acquired l k) ∧ k_held (acquired l k) = [l; lk].
Proof.
  intros Hc Hh Hn. assert (Hin : l ∉ k_held k) by (rewrite Hh; set_solver). split; [by apply acquire_eq|].
  split; [by apply cpu_ok_acquired|]. cbn. by rewrite Hh.
Qed.

Lemma bind_Panic {A B} (m : KM A) (f : A → KM B) k msg k' : m k = Panic msg k' → bindM m f k = Panic msg k'.
Proof. unfold bindM. by intros ->. Qed.

(** One round of the loop of [closeprocsocks]. *)
Lemma closeprocsocks_loop_S fuel p k : (closeprocsocks_loop (S fuel) (Some p) : KM unit) k =
  match getprocsock_tab (Some p) (st_sock (k_stable k)) with
  | None => Ret tt k
  | Some s => (removesock (Some s) ;; closeprocsocks_loop fuel (Some p)) k
  end.
Proof. cbn [closeprocsocks_loop]. unfold getprocsock. rewrite bind_gets. by destruct (getprocsock_tab _ _). Qed.

(** A process without sockets: the table is searched and left alone. *)
Lemma closeprocsocks_loop_none fuel p k : getprocsock_tab (Some p) (st_sock (k_stable k)) = None →
  (closeprocsocks_loop (S fuel) (Some p) : KM unit) k = Ret tt k.
Proof. intros Hn. by rewrite closeprocsocks_loop_S, Hn. Qed.

Lemma release_under l lk k : cpu_ok k → k_held k = [lk] → l ≠ lk → (release l : KM unit) (acquired l k) = Ret tt k.
Proof.
  intros Hc Hh Hn. destruct (acquire_under l lk k Hc Hh Hn) as (_ & Hc1 & Hh1). rewrite release_eq; [|done|rewrite Hh1; set_solver].
  f_equal. apply released_acquired; [done|by rewrite Hh|rewrite Hh; set_solver].
Qed.

Lemma bind_two {A B} (m1 : KM unit) (m2 : KM A) (m3 : KM B) k k1 a k2 r : m1 k = Ret tt k1 → m2 k1 = Ret a k2 → m3 k2 = r → (m1 ;; m2 ;; m3) k = r.
Proof. intros E1 E2 E3. by rewrite (bind_Ret_eq _ _ _ _ _ E1), (bind_Ret_eq _ _ _ _ _ E2). Qed.

Lemma closeprocsocks_none p k : cpu_ok k → k_held k = [LkPtable] → getprocsock_tab (Some p) (st_sock (k_stable k)) = None →
  (closeprocsocks (Some p) : KM unit) k = Ret tt k.
Proof.
  intros Hc Hh Hn. destruct (acquire_under LkStable LkPtable k Hc Hh ltac:(done)) as (Ea & Hc1 & Hh1).
  refine (bind_two _ _ _ _ _ _ _ _ Ea _ (release_under LkStable LkPtable k Hc Hh ltac:(done))).
  apply closeprocsocks_loop_none. exact Hn.
Qed.

(** A process with a socket: [removesock] wakes sleepers, which takes
    [ptable.lock] again. *)
Lemma removesock_panics s k : cpu_ok k → LkPtable ∈ k_held k → ∃ k', (removesock (Some s) : KM bool) k = Panic "acquire" k'.
Proof.
  intros Hc Hh. destruct (acquire_again (C := leave) LkPtable k Hc Hh) as [k' Ek]. exists k'.
  unfold removesock. apply bind_Panic. unfold wakeup. by apply bind_Panic.
Qed.

Lemma closeprocsocks_loop_panics fuel p s k : cpu_ok k → LkPtable ∈ k_held k → getprocsock_tab (Some p) (st_sock (k_stable k)) = Some s →
  ∃ k', (closeprocsocks_loop (S fuel) (Some p) : KM unit) k = Panic "acquire" k'.
Proof.
  intros Hc Hh Hs. destruct (removesock_panics s k Hc Hh) as [k' Ek]. exists k'. rewrite closeprocsocks_loop_S, Hs. by apply bind_Panic.
Qed.

Lemma closeprocsocks_panics p s k : cpu_ok k → k_held k = [LkPtable] → getprocsock_tab (Some p) (st_sock (k_stable k)) = Some s →
  ∃ k', (closeprocsocks (Some p) : KM unit) k = Panic "acquire" k'.
Proof.
  intros Hc Hh Hs. destruct (acquire_under LkStable LkPtable k Hc Hh ltac:(done)) as (Ea & Hc1 & Hh1).
  unfold closeprocsocks. generalize NSOCK. intros n.
  destruct (closeprocsocks_loop_panics n p s (acquired LkStable k) Hc1) as [k' Ek]; [rewrite Hh1; set_solver|exact Hs|].
  exists k'. rewrite (bind_Ret_eq _ _ _ _ _ Ea). by apply bind_Panic.
Qed.

(** [kill] on every branch. Without a process of that pid it returns -1
    and changes nothing. A process that owns no socket is marked killed and,
    if asleep, made runnable, so that it notices; nothing else changes. When
    the process owns a socket [kill] panics: it holds [ptable.lock] while
    [closeprocsocks] calls [wakeup], which takes it again. *)
Theorem kill_branches pid k : idle k →
  match find_idx (λ p, p_pid p =? pid) (k_procs k) with
  | None => kill pid k = Ret (-1) (quiet k)
  | Some p =>
      match getprocsock_tab (Some p) (st_sock (k_stable k)) with
      | None => kill pid k = Ret 0 (upd_proc p killed (quiet k))
      | Some _ => ∃ k', kill pid k = Panic "acquire" k'
      end
  end.
Proof.
  intros Hk. destruct (acquire_idle LkPtable k Hk) as [Ea [Hc Hh]]. unfold kill.
  destruct (find_idx (λ p, p_pid p =? pid) (k_procs k)) as [p|] eqn:Hf; [destruct (getprocsock_tab _ _) as [s|] eqn:Hs|].
  - set (k1 := upd_proc p (set_p_killed 1) (acquired LkPtable k)).
    destruct (closeprocsocks_panics p s k1 Hc Hh Hs) as [k' Ek]. exists k'.
    rewrite (bind_Ret_eq _ _ _ _ _ Ea), bind_gets. change (k_procs (acquired LkPtable k)) with (k_procs k). rewrite Hf.
    unfold proc_mod at 1. rewrite bind_modify. fold k1. by apply bind_Panic.
  - set (k1 := upd_proc p (set_p_killed 1) (acquired LkPtable k)).
    rewrite (bind_Ret_eq _ _ _ _ _ Ea), bind_gets. change (k_procs (acquired LkPtable k)) with (k_procs k). rewrite Hf.
    unfold proc_mod at 1. rewrite bind_modify. fold k1. rewrite (bind_Ret_eq _ _ _ _ _ (closeprocsocks_none p k1 Hc Hh Hs)).
    unfold proc_mod. rewrite bind_modify. set (k2 := upd_proc p _ k1).
    assert (E2 : k2 = upd_proc p killed (acquired LkPtable k)).
    { unfold k2, k1, upd_proc. cbn. by rewrite alter_compose. }
    rewrite E2. assert (Hl : locked LkPtable (upd_proc p killed (acquired LkPtable k))) by done.
    rewrite (bind_Ret_eq _ _ _ _ _ (proj1 (release_locked LkPtable _ Hl))). unfold mret, M_ret. f_equal.
    exact (section_eq LkPtable k (upd_proc p killed) Hk (λ _ _ _, eq_refl)).
  - rewrite (bind_Ret_eq _ _ _ _ _ Ea), bind_gets. change (k_procs (acquired LkPtable k)) with (k_procs k). rewrite Hf.
    assert (Hl : locked LkPtable (acquired LkPtable k)) by done.
    rewrite (bind_Ret_eq _ _ _ _ _ (proj1 (release_locked LkPtable _ Hl))). unfold mret, M_ret. f_equal.
    exact (section_eq LkPtable k (λ k, k) Hk (λ _ _ _, eq_refl)).
Qed.

(** ** Two processes, the second asleep, with or without a socket *)
Definition sleeper : proc := set_p_pid 7 (set_p_state SLEEPING proc0).
Definition demo_procs (socks : list sock) : kernel :=
  upd_stable (set_st_sock socks) (set_k_procs [set_p_pid 1 proc0; sleeper] (set_k_cur (Some 0%nat) kernel0)).

Lemma demo_procs_idle socks : idle (demo_procs socks).
Proof. split; [|done]. split; [done|]. split; [by intros []|apply NoDup_nil_2]. Qed.

Lemma kill_branches_witness :
  kill 7 (demo_procs []) = Ret 0 (upd_proc 1 killed (quiet (demo_procs []))) ∧
  p_state (killed sleeper) = RUNNABLE ∧
  (∃ k', kill 7 (demo_procs [set_s_owner (Some 1%nat) (set_s_state LISTENING sock0)]) = Panic "acquire" k') ∧
  kill 8 (demo_procs []) = Ret (-1) (quiet (demo_procs [])).
Proof.
  split; [exact (kill_branches 7 (demo_procs []) (demo_procs_idle []))|]. split; [reflexivity|].
  split; [|exact (kill_branches 8 (demo_procs []) (demo_procs_idle []))].
  exact (kill_branches 7 (demo_procs [set_s_owner (Some 1%nat) (set_s_state LISTENING sock0)]) (demo_procs_idle _)).
Defined.
