(* ===== verification/Exec.v ===== *)
(** * Exec: loading a program (exec.c, elf.h)

    [exec] builds a new address space from an ELF file, pushes the arguments
    and commits. Paths and arguments are the bytes of their strings. *)

From S2P Require Import Prelude CString Kernel Sched Sock Kalloc Fifo Paging Vmem Cons Kbd Sleeplock Bio Log Inode Console Fs Pipe File Link Swap Proc.

(** ** Definitions *)
Definition ELF_MAGIC : Z := 0x464C457F.
Definition ELF_PROG_LOAD : Z := 1.

(** struct elfhdr and struct proghdr: the fields [exec] reads. *)
Record elfhdr : Type := mk_elfhdr { e_magic : Z; e_entry : Z; e_phoff : Z; e_phnum : Z }.
Definition elfhdr_of (l : list Z) : elfhdr := mk_elfhdr (get32 0 l) (get32 24 l) (get32 28 l) (get16 44 l).
Definition ELFHDR : Z := 52.
Record proghdr : Type := mk_proghdr {
  ph_type : Z; ph_off : Z; ph_vaddr : Z; ph_filesz : Z; ph_memsz : Z;
}.
Definition proghdr_of (l : list Z) : proghdr :=
  mk_proghdr (get32 0 l) (get32 4 l) (get32 8 l) (get32 16 l) (get32 20 l).
Definition PROGHDR : Z := 32.

(** [goto bad] *)
Definition exec_bad (pgdir : Z) (ip : option nat) : KM Z :=
  when (negb (pgdir =? 0)) (freevm pgdir) ;;
  match ip with
  | Some ip => iunlockput ip ;; end_op
  | None => mret tt
  end ;;
  mret (-1).

(** The loop over the program headers: the size of the image, [None] for
    [goto bad]. *)
Fixpoint exec_load (n : nat) (pgdir : Z) (ip : nat) (off sz : Z) : KM (option Z) :=
  match n with
  | O => mret (Some sz)
  | S n =>
      r <- readi ip None (u32 off) PROGHDR ;;
      if negb (r.1 =? PROGHDR) then mret None else
      let ph := proghdr_of r.2 in
      if negb (ph_type ph =? ELF_PROG_LOAD) then exec_load n pgdir ip (off + PROGHDR) sz else
      if ph_memsz ph <? ph_filesz ph then mret None else
      if u32 (ph_vaddr ph + ph_memsz ph) <? ph_vaddr ph then mret None else
      sz <- allocuvm pgdir sz (u32 (ph_vaddr ph + ph_memsz ph)) ;;
      if sz =? 0 then mret None else
      if negb (ph_vaddr ph mod PGSIZE =? 0) then mret None else
      r <- loaduvm pgdir (ph_vaddr ph) ip (ph_off ph) (ph_filesz ph) ;;
      if r <? 0 then mret None else exec_load n pgdir ip (off + PROGHDR) sz
  end.

(** The argument strings, each ended by a NUL, at decreasing word-aligned
    addresses: the final stack pointer and the addresses. *)
Definition arg_sp (sp : Z) (s : list Z) : Z :=
  Z.land (u32 (sp - (Z.of_nat (length s) + 1))) (u32 (Z.lnot 3)).
Fixpoint exec_args (argc : nat) (pgdir sp : Z) (argv : list (list Z)) : KM (option (Z * list Z)) :=
  match argv with
  | [] => mret (Some (sp, []))
  | s :: argv =>
      if (MAXARG <=? argc)%nat then mret None else
      let sp := arg_sp sp s in
      r <- copyout pgdir sp (s ++ [0]) ;;
      if r <? 0 then mret None else
      rest <- exec_args (S argc) pgdir sp argv ;;
      mret (match rest with Some (sp', l) => Some (sp', sp :: l) | None => None end)
  end.

(** [last]: what follows the last slash of the path. *)
Fixpoint last_elem (s last : list Z) : list Z :=
  match s with
  | [] => last
  | c :: s => last_elem s (if c =? 47 then s else last)
  end.

(** The words below the strings: fake return address, argc, argv, the
    pointers and their terminator. *)
Definition ustack (sp : Z) (args : list Z) : list Z :=
  let argc := Z.of_nat (length args) in
  [0xffffffff; argc; u32 (sp - (argc + 1) * 4)] ++ args ++ [0].

Definition exec (path : list Z) (argv : list (list Z)) : KM Z :=
  c <- curproc ;;
  begin_op ;;
  f <- namei path ;;
  match f with
  | None =>
      end_op ;;
      cprintf "exec: fail
" [] ;;
      mret (-1)
  | Some ip =>
      ilock ip ;;
      r <- readi ip None 0 ELFHDR ;;
      if negb (r.1 =? ELFHDR) then exec_bad 0 (Some ip) else
      let elf := elfhdr_of r.2 in
      if negb (e_magic elf =? ELF_MAGIC) then exec_bad 0 (Some ip) else
      pgdir <- setupkvm ;;
      if pgdir =? 0 then exec_bad 0 (Some ip) else
      sz <- exec_load (Z.to_nat (e_phnum elf)) pgdir ip (e_phoff elf) 0 ;;
      match sz with
      | None => exec_bad pgdir (Some ip)
      | Some sz =>
          iunlockput ip ;;
          end_op ;;
          let sz := PGROUNDUP sz in
          sz <- allocuvm pgdir sz (u32 (sz + 2 * PGSIZE)) ;;
          if sz =? 0 then exec_bad pgdir None else
          clearpteu pgdir (u32 (sz - 2 * PGSIZE)) ;;
          a <- exec_args 0 pgdir sz argv ;;
          match a with
          | None => exec_bad pgdir None
          | Some (sp, args) =>
              let words := ustack sp args in
              let sp := u32 (sp - 4 * Z.of_nat (length words)) in
              r <- copyout pgdir sp (concat (le_bytes 4 <$> words)) ;;
              if r <? 0 then exec_bad pgdir None else
              proc_mod c (λ pr, set_p_name (blk_safestrcpy (p_name pr) (last_elem path path)) pr) ;;
              pr <- proc_at c ;;
              proc_mod c (set_p_pgdir pgdir) ;;
              proc_mod c (set_p_sz sz) ;;
              proc_mod c (λ pr, set_p_tf (set_tf_eip (e_entry elf) (p_tf pr)) pr) ;;
              proc_mod c (λ pr, set_p_tf (set_tf_esp sp (p_tf pr)) pr) ;;
              switchuvm (Some c) ;;
              freevm (p_pgdir pr) ;;
              mret 0
          end
      end
  end.
