(* ===== verification/Syscall.v ===== *)
(** * Syscall: system calls (syscall.c, sysproc.c, syssock.c)

    Fetching arguments from the user stack with the checks against the
    process size, and the calls that are not about files. A [char *]
    argument that [argstr] accepted is passed on as the bytes it found. *)

From S2P Require Import Prelude CString Kernel Sched Sock Kalloc Fifo Paging Vmem Cons Kbd Sleeplock Bio Log Inode Console Fs Pipe File Link Swap Proc Exec.

(** ** Definitions *)
Definition myproc_get : KM proc :=
  c <- curproc ;;
  proc_at c.

(** [fetchint(addr, &i)]: [None] for -1. *)
Definition fetchint (addr : Z) : KM (option Z) :=
  pr <- myproc_get ;;
  if (p_sz pr <=? addr) || (p_sz pr <? u32 (addr + 4)) then mret None else
  v <- vload32 addr ;;
  mret (Some (s32 v)).

(** The scan of [fetchstr] for the NUL, [n] bytes before the end. *)
Fixpoint fetchstr_loop (n : nat) (s : Z) : KM (option (list Z)) :=
  match n with
  | O => mret None
  | S n =>
      c <- vload8 s ;;
      if c =? 0 then mret (Some []) else
      r <- fetchstr_loop n (u32 (s + 1)) ;;
      mret (cons c <$> r)
  end.
Definition fetchstr (addr : Z) : KM (option (list Z)) :=
  pr <- myproc_get ;;
  if p_sz pr <=? addr then mret None else
  fetchstr_loop (Z.to_nat (p_sz pr - addr)) addr.

Definition argint (n : Z) : KM (option Z) :=
  pr <- myproc_get ;;
  fetchint (u32 (tf_esp (p_tf pr) + 4 + 4 * n)).

Definition argptr (n size : Z) : KM (option Z) :=
  pr <- myproc_get ;;
  i <- argint n ;;
  match i with
  | None => mret None
  | Some i =>
      let i := u32 i in
      if (size <? 0) || (p_sz pr <=? i) || (p_sz pr <? u32 (i + size)) then mret None else mret (Some i)
  end.

Definition argstr (n : Z) : KM (option (list Z)) :=
  a <- argint n ;;
  match a with
  | None => mret None
  | Some a => fetchstr (u32 a)
  end.

(** *** sysproc.c *)
Definition sys_fork (forkret depth : Z) : KM Z := fork forkret depth.
Definition sys_exit : KM Z := exit ;; mret 0.
Definition sys_wait : KM Z := wait.
Definition sys_kill : KM Z :=
  pid <- argint 0 ;;
  match pid with None => mret (-1) | Some pid => kill pid end.
Definition sys_getpid : KM Z :=
  pr <- myproc_get ;;
  mret (p_pid pr).
Definition sys_sbrk : KM Z :=
  n <- argint 0 ;;
  match n with
  | None => mret (-1)
  | Some n =>
      pr <- myproc_get ;;
      let addr := s32 (p_sz pr) in
      r <- growproc n ;;
      if r <? 0 then mret (-1) else mret addr
  end.

(** The loop of [sys_sleep] with [tickslock] held; [n] is compared unsigned. *)
Definition sys_sleep_try (ticks0 n : Z) : KM Z :=
  t <- gets k_ticks ;;
  if u32 (t - ticks0) <? u32 n then
    pr <- myproc_get ;;
    if negb (p_killed pr =? 0) then release LkTicks ;; mret (-1) else
    sleep ChTicks (Some LkTicks) (LSleep ChTicks) ;;
    mret (-1)
  else
    release LkTicks ;;
    mret 0.
Definition sys_sleep : KM Z :=
  n <- argint 0 ;;
  match n with
  | None => mret (-1)
  | Some n =>
      acquire LkTicks ;;
      ticks0 <- gets k_ticks ;;
      sys_sleep_try ticks0 n
  end.
Definition sys_sleep_woken (p : nat) (intena : bool) (ticks0 n : Z) : KM Z :=
  sleep_leave p LkTicks intena ;;
  sys_sleep_try ticks0 n.
Definition sys_uptime : KM Z :=
  acquire LkTicks ;;
  t <- gets k_ticks ;;
  release LkTicks ;;
  mret (s32 t).
Definition sys_subangkar_shanto : KM Z :=
  cprintf "Subangkar Karmaker Shanto 23-04-1997
" [] ;;
  mret 1505015.
Definition sys_getpages : KM Z :=
  pr <- myproc_get ;;
  cprintf " #Pages in RAM : %d
" [AInt (p_page_mem_count pr)] ;;
  cprintf " #Pages in DISK: %d
" [AInt (p_paged_out_count pr)] ;;
  cprintf " #Page Faults  : %d
" [AInt (p_page_fault_count pr)] ;;
  mret (s32 (PGROUNDUP (p_sz pr) / 4096)).

(** *** syssock.c *)

(** A socket call that sleeps leaves with its continuation. *)
Definition sock_call {A} (m : M kernel sock_pc A) : KM A := λ k,
  match m k with
  | Ret a k' => Ret a k'
  | Switch pc k' => Switch (LSock pc) k'
  | Panic e k' => Panic e k'
  | Fault e => Fault e
  end.

Definition sys_listen : KM Z :=
  port <- argint 0 ;;
  match port with
  | None => mret E_MISSING_ARG
  | Some port => sock_call (listen port)
  end.
Definition sys_connect : KM Z :=
  port <- argint 0 ;;
  match port with
  | None => mret E_MISSING_ARG
  | Some port =>
      host <- argstr 1 ;;
      match host with
      | None => mret E_MISSING_ARG
      | Some host => sock_call (connect port (host ++ [0]))
      end
  end.
(** The length is fetched from argument 0, as in the source. *)
Definition sys_send : KM Z :=
  port <- argint 0 ;;
  match port with
  | None => mret E_MISSING_ARG
  | Some port =>
      buf <- argstr 1 ;;
      match buf with
      | None => mret E_MISSING_ARG
      | Some buf =>
          n <- argint 0 ;;
          match n with
          | None => mret E_MISSING_ARG
          | Some n => sock_call (send port (buf ++ [0]) n)
          end
      end
  end.
(** [recv] writes at most [n] bytes through the pointer: they are fetched
    first and stored back. [recv_woken] ends the call after a sleep. *)
Definition sys_recv : KM Z :=
  port <- argint 0 ;;
  match port with
  | None => mret E_MISSING_ARG
  | Some port =>
      buf <- argptr 1 4 ;;
      match buf with
      | None => mret E_MISSING_ARG
      | Some buf =>
          n <- argint 2 ;;
          match n with
          | None => mret E_MISSING_ARG
          | Some n =>
              pr <- myproc_get ;;
              data <- vload buf (Z.to_nat (Z.min n (p_sz pr - buf))) ;;
              r <- sock_call (recv port data n) ;;
              vstore buf r.2 ;;
              mret r.1
          end
      end
  end.
Definition sys_disconnect : KM Z :=
  port <- argint 0 ;;
  match port with
  | None => mret E_MISSING_ARG
  | Some port => disconnect port
  end.
