(* ===== verification/SysSpec.v ===== *)
(** * SysSpec: system call arguments stay inside the process

    Whatever a process puts on its stack, fetching its arguments touches only
    addresses below the process's size: page faults are there, and the
    pointers and strings accepted lie there. *)

From S2P Require Import Prelude CString Kernel Sched Sock Kalloc Fifo Paging Vmem VmemSpec Cons Kbd Sleeplock LockSpec Bio Log Inode Console Fs Pipe File Link Swap Proc Exec Syscall.

#[local] Transparent wp.

(** ** Definitions *)

(** The byte at a user address, when its page is in memory. *)
Definition user_byte (k : kernel) (va : Z) : option Z :=
  k_mem k <$> vaddr_at (k_mem k) (c_cr3 (k_cpu k)) va.

(** The string [s] with its NUL lies at [a], inside the process. *)
Definition user_string (k : kernel) (sz a : Z) (s : list Z) : Prop :=
  0 <= a ∧ a + Z.of_nat (length s) < sz ∧ Forall (λ c, c ≠ 0) s ∧
  (∀ i c, s !! i = Some c → user_byte k (a + Z.of_nat i) = Some c) ∧
  user_byte k (a + Z.of_nat (length s)) = Some 0.

(** A page fault inside the process. *)
Definition faults_in (sz : Z) (c : leave) (k : kernel) : Prop := ∃ va, c = LPageFault va ∧ 0 <= va < sz.

(** ** The running process *)
Lemma pushed_popped_idle k : idle k → upd_cpu popped (upd_cpu pushed k) = quiet k.
Proof.
  intros [(Hn & _) Hh]. rewrite Hh in Hn. cbn in Hn. unfold upd_cpu, quiet, upd_cpu, popped, pushed. destruct k as [? ? [n ie i e c] held]. cbn in *.
  subst n. cbn. by destruct i.
Qed.

Lemma myproc_get_eq k me pr : idle k → current k me pr → myproc_get k = Ret pr (quiet k).
Proof.
  intros Hk [Hme Hpr]. unfold myproc_get, curproc. rewrite bind_assoc.
  rewrite (bind_Ret_eq _ _ _ _ _ (myproc_eq k (proj1 Hk))), pushed_popped_idle, Hme by done. erewrite bind_deref by done.
  unfold proc_at. rewrite bind_gets. change (k_procs (quiet k)) with (k_procs k). by rewrite Hpr.
Qed.

Lemma current_quiet k me pr : current k me pr → current (quiet k) me pr.
Proof. done. Qed.

Lemma user_byte_quiet k va : user_byte (quiet k) va = user_byte k va.
Proof. done. Qed.

(** ** Reading below the size of the process *)
Lemma wp_vload8 k va (Q : Z → kernel → Prop) sz : 0 <= va < sz →
  (∀ b, user_byte k va = Some b → Q b k) → wp False (vload8 va) Q (faults_in sz) k.
Proof.
  intros Hva HQ. unfold vload8. apply wp_bind. unfold wp. rewrite vaddr_eq. unfold user_byte in HQ.
  destruct (vaddr_at _ _ va) as [a|] eqn:E; [|by exists va]. by apply HQ.
Qed.

Lemma wp_vload k n : ∀ va (Q : list Z → kernel → Prop) sz, 0 <= va → va + Z.of_nat n <= sz → sz <= 2 ^ 31 →
  (∀ l, length l = n → Q l k) → wp False (vload va n) Q (faults_in sz) k.
Proof.
  induction n as [|n IH]; intros va Q sz H0 Hn Hsz HQ; cbn [vload]; [by apply wp_ret, HQ|].
  apply wp_bind, wp_vload8; [lia|]. intros b Hb. apply wp_bind. rewrite u32_small by (change (2 ^ 32) with 4294967296; change (2 ^ 31) with 2147483648 in Hsz; lia).
  apply IH; [lia|lia|done|]. intros l Hl. apply wp_ret, HQ. cbn. by rewrite Hl.
Qed.

Lemma wp_fetchstr_loop k n : ∀ va (Q : option (list Z) → kernel → Prop) sz, 0 <= va → va + Z.of_nat n = sz → sz <= 2 ^ 31 →
  Q None k → (∀ s, user_string k sz va s → Q (Some s) k) → wp False (fetchstr_loop n va) Q (faults_in sz) k.
Proof.
  induction n as [|n IH]; intros va Q sz H0 Hn Hsz HN HS; cbn [fetchstr_loop]; [by apply wp_ret|].
  apply wp_bind, wp_vload8; [lia|]. intros b Hb. destruct (Z.eqb_spec b 0) as [->|Hne].
  - apply wp_ret, HS. split; [lia|]. split; [cbn; lia|]. split; [constructor|]. split; [done|]. cbn. by rewrite Z.add_0_r.
  - apply wp_bind. rewrite u32_small by (change (2 ^ 32) with 4294967296; change (2 ^ 31) with 2147483648 in Hsz; lia).
    apply (IH _ _ sz); [lia|lia|done|by apply wp_ret|]. intros s (Ha & Hl & Hf & Hby & Hz). apply wp_ret, HS.
    split; [lia|]. split; [cbn [length]; lia|]. split; [by constructor|]. split.
    + intros [|i] c Hc; [injection Hc as <-; by rewrite Z.add_0_r|]. specialize (Hby i c Hc). replace (va + Z.of_nat (S i)) with (va + 1 + Z.of_nat i) by lia. done.
    + replace (va + Z.of_nat (length (b :: s))) with (va + 1 + Z.of_nat (length s)) by (cbn [length]; lia). done.
Qed.

Lemma pow_2_31 : 2 ^ 31 = 2147483648.
Proof. done. Qed.
Lemma pow_2_32 : 2 ^ 32 = 4294967296.
Proof. done. Qed.

(** ** The calls that fetch an argument *)
Section args.
Context (k : kernel) (me : nat) (pr : proc) (Hk : idle k) (Hcur : current k me pr) (Hsz : 0 <= p_sz pr <= 2 ^ 31).

Lemma wp_myproc_get k0 (Q : proc → kernel → Prop) R : quiet k0 = quiet k → idle k0 → current k0 me pr → Q pr (quiet k) → wp False myproc_get Q R k0.
Proof using. intros Hq Hk0 Hc HQ. unfold wp. by rewrite (myproc_get_eq k0 me pr Hk0 Hc), Hq. Qed.

Lemma wp_fetchint addr (Q : option Z → kernel → Prop) k0 : quiet k0 = quiet k → idle k0 → current k0 me pr → 0 <= addr < 2 ^ 32 →
  (∀ r, Q r (quiet k)) → wp False (fetchint addr) Q (faults_in (p_sz pr)) k0.
Proof using Hsz.
  intros Hq Hk0 Hc Ha HQ. unfold fetchint. apply wp_bind, wp_myproc_get; [done..|].
  destruct ((p_sz pr <=? addr) || (p_sz pr <? u32 (addr + 4))) eqn:E; [by apply wp_ret|].
  apply orb_false_iff in E as [E1%Z.leb_gt E2%Z.ltb_ge]. rewrite pow_2_31 in Hsz. rewrite u32_small in E2 by (change (2 ^ 32) with 4294967296; lia).
  apply wp_bind. unfold vload32. apply wp_bind. apply wp_vload; [lia|lia|rewrite pow_2_31; lia|].
  intros l _. apply wp_ret. by apply wp_ret.
Qed.

Lemma wp_argint n (Q : option Z → kernel → Prop) k0 : quiet k0 = quiet k → idle k0 → current k0 me pr →
  (∀ r, Q r (quiet k)) → wp False (argint n) Q (faults_in (p_sz pr)) k0.
Proof using Hk Hcur Hsz.
  intros Hq Hk0 Hc HQ. unfold argint. apply wp_bind, wp_myproc_get; [done..|].
  apply wp_fetchint; [apply quiet_quiet|by apply quiet_idle|exact Hcur| |done].
  apply u32_range.
Qed.

Lemma wp_argptr n size (Q : option Z → kernel → Prop) : 0 <= size < 2 ^ 31 ∨ size < 0 →
  Q None (quiet k) → (∀ p, 0 <= p → p + size <= p_sz pr → 0 <= size → Q (Some p) (quiet k)) → wp False (argptr n size) Q (faults_in (p_sz pr)) k.
Proof using Hk Hcur Hsz.
  intros Hs HN HS. unfold argptr. apply wp_bind, wp_myproc_get; [done..|].
  apply wp_bind, wp_argint; [apply quiet_quiet|by apply quiet_idle|exact Hcur|]. intros [i|]; [|by apply wp_ret].
  cbv zeta. set (a := u32 i). assert (Ha : 0 <= a < 2 ^ 32) by apply u32_range. clearbody a. rewrite ?pow_2_31, ?pow_2_32 in *.
  destruct ((size <? 0) || (p_sz pr <=? a) || (p_sz pr <? u32 (a + size))) eqn:E; [by apply wp_ret|].
  apply orb_false_iff in E as [[E0%Z.ltb_ge E1%Z.leb_gt]%orb_false_iff E2%Z.ltb_ge].
  rewrite u32_small in E2 by (change (2 ^ 32) with 4294967296; lia). apply wp_ret, HS; lia.
Qed.

Lemma wp_argstr n (Q : option (list Z) → kernel → Prop) :
  Q None (quiet k) → (∀ s a, user_string k (p_sz pr) a s → Q (Some s) (quiet k)) → wp False (argstr n) Q (faults_in (p_sz pr)) k.
Proof using Hk Hcur Hsz.
  intros HN HS. unfold argstr. apply wp_bind, wp_argint; [done..|]. intros [i|]; [|by apply wp_ret].
  set (a := u32 i). assert (Ha : 0 <= a < 2 ^ 32) by apply u32_range. clearbody a.
  unfold fetchstr. apply wp_bind, wp_myproc_get; [apply quiet_quiet|by apply quiet_idle|exact Hcur|].
  destruct (Z.leb_spec (p_sz pr) a) as [H|H]; [by apply wp_ret|].
  apply (wp_fetchstr_loop _ _ _ _ (p_sz pr)); [lia|lia|lia|done|]. intros s Hs. eapply HS. exact Hs.
Qed.
End args.

(** C33: Whatever a process puts on its stack and in its memory, the kernel
    fetching an argument touches only addresses below the process's size: it
    never faults elsewhere and never panics, a page fault it takes is at such
    an address, and what it accepts lies there: a pointer from [argptr] with
    the whole of its [size] bytes, a string from [argstr] with its NUL, byte
    by byte what the process wrote. *)
Theorem user_args_confined k me pr n size : idle k → current k me pr → 0 <= p_sz pr <= KERNBASE → size < 2 ^ 31 →
  wp False (argptr n size) (λ r k', k' = quiet k ∧ ∀ p, r = Some p → 0 <= size ∧ 0 <= p ∧ p + size <= p_sz pr) (faults_in (p_sz pr)) k ∧
  wp False (argstr n) (λ r k', k' = quiet k ∧ ∀ s, r = Some s → ∃ a, user_string k (p_sz pr) a s) (faults_in (p_sz pr)) k.
Proof.
  intros Hk Hcur Hsz Hs. change KERNBASE with (2 ^ 31) in Hsz. split.
  - eapply wp_argptr; [done|exact Hcur|done|lia|by split|]. intros p ???. split; [done|]. intros ? [= ->]. done.
  - eapply wp_argstr; [done|exact Hcur|done|by split|]. intros s a Hus. split; [done|]. intros ? [= ->]. by exists a.
Qed.

(** ** A process of one page, its stack at 0x800

    The first argument points at 0xffd, where there is ["hi"] and its NUL,
    the last bytes of the process. *)
Definition demo_bytes : list (Z * Z) :=
  [(0x1000, 0x07); (0x1001, 0x20); (0x2000, 0x07); (0x2001, 0x30);
   (0x3804, 0xfd); (0x3805, 0x0f); (0x3ffd, 104); (0x3ffe, 105)].
Definition demo_user_mem (a : Z) : Z := from_option snd 0 (list_find (λ e, KERNBASE + e.1 = a) demo_bytes ≫= λ e, Some e.2).
Definition demo_user_proc : proc := set_p_sz 4096 (set_p_tf (set_tf_esp 0x800 (p_tf proc0)) proc0).
Definition demo_user : kernel :=
  upd_cpu (set_c_cr3 0x1000) (set_k_mem demo_user_mem (set_k_procs [demo_user_proc] (set_k_cur (Some 0%nat) kernel0))).

Lemma demo_user_idle : idle demo_user.
Proof. split; [|done]. split; [done|]. split; [by intros []|apply NoDup_nil_2]. Qed.

(** The value a call returns. *)
Definition value_of {A} (m : KM A) (k : kernel) : option A := match m k with Ret a _ => Some a | _ => None end.

Lemma demo_size : 0 <= p_sz demo_user_proc <= KERNBASE.
Proof. done. Qed.

Lemma user_args_confined_witness :
  (wp False (argptr 0 3) (λ r k', k' = quiet demo_user ∧ ∀ p, r = Some p → 0 <= 3 ∧ 0 <= p ∧ p + 3 <= p_sz demo_user_proc) (faults_in (p_sz demo_user_proc)) demo_user ∧
   wp False (argstr 0) (λ r k', k' = quiet demo_user ∧ ∀ s, r = Some s → ∃ a, user_string demo_user (p_sz demo_user_proc) a s) (faults_in (p_sz demo_user_proc)) demo_user) ∧
  value_of (argptr 0 3) demo_user = Some (Some 0xffd) ∧ value_of (argptr 0 4) demo_user = Some None ∧
  value_of (argstr 0) demo_user = Some (Some [104; 105]).
Proof.
  split; [|split; [vm_compute; reflexivity|split; vm_compute; reflexivity]].
  exact (user_args_confined demo_user 0 demo_user_proc 0 3 demo_user_idle (conj eq_refl eq_refl) demo_size eq_refl).
Defined.
