(* ===== verification/Sysfile.v ===== *)
(** * Sysfile: system calls about files (sysfile.c) *)

From S2P Require Import Prelude CString Kernel Sched Sock Kalloc Fifo Paging Vmem Cons Kbd Sleeplock Bio Log Inode Console Fs Pipe File Link Swap Proc Exec Syscall.

(** ** Definitions *)

(** [argfd(n, &fd, &f)] *)
Definition argfd (n : Z) : KM (option (Z * nat)) :=
  fd <- argint n ;;
  match fd with
  | None => mret None
  | Some fd =>
      pr <- myproc_get ;;
      if (fd <? 0) || (Z.of_nat NOFILE <=? fd) then mret None else
      match p_ofile pr !! Z.to_nat fd with
      | Some (Some f) => mret (Some (fd, f))
      | _ => mret None
      end
  end.

Definition fdalloc (f : nat) : KM (option nat) :=
  c <- curproc ;;
  pr <- proc_at c ;;
  match find_idx (λ o, bool_decide (o = None)) (p_ofile pr) with
  | Some fd =>
      proc_mod c (λ pr, set_p_ofile (<[fd := Some f]> (p_ofile pr)) pr) ;;
      mret (Some fd)
  | None => mret None
  end.
Definition ofile_clear (fd : nat) : KM unit :=
  c <- curproc ;;
  proc_mod c (λ pr, set_p_ofile (<[fd := None]> (p_ofile pr)) pr).

Definition sys_dup : KM Z :=
  a <- argfd 0 ;;
  match a with
  | None => mret (-1)
  | Some (_, f) =>
      fd <- fdalloc f ;;
      match fd with
      | None => mret (-1)
      | Some fd => filedup f ;; mret (Z.of_nat fd)
      end
  end.

(** The arguments of [read] and [write]: file, address, count. *)
Definition rw_args : KM (option (nat * Z * Z)) :=
  a <- argfd 0 ;;
  match a with
  | None => mret None
  | Some (_, f) =>
      n <- argint 2 ;;
      match n with
      | None => mret None
      | Some n =>
          p <- argptr 1 n ;;
          mret (match p with Some p => Some (f, p, n) | None => None end)
      end
  end.
Definition sys_read : KM Z :=
  a <- rw_args ;;
  match a with
  | None => mret (-1)
  | Some (f, p, n) => fileread f p n
  end.
Definition sys_write : KM Z :=
  a <- rw_args ;;
  match a with
  | None => mret (-1)
  | Some (f, p, n) => filewrite f p n
  end.

Definition sys_close : KM Z :=
  a <- argfd 0 ;;
  match a with
  | None => mret (-1)
  | Some (fd, f) =>
      ofile_clear (Z.to_nat fd) ;;
      fileclose f ;;
      mret 0
  end.

Definition sys_fstat : KM Z :=
  a <- argfd 0 ;;
  match a with
  | None => mret (-1)
  | Some (_, f) =>
      st <- argptr 1 20 ;;
      match st with
      | None => mret (-1)
      | Some st => filestat f st
      end
  end.

Definition link_bad (ip : nat) : KM Z :=
  ilock ip ;;
  modify (upd_inode ip (λ i, set_i_nlink (s16 (i_nlink i - 1)) i)) ;;
  iupdate ip ;;
  iunlockput ip ;;
  end_op ;;
  mret (-1).
Definition do_link (old new : list Z) : KM Z :=
  begin_op ;;
  f <- namei old ;;
  match f with
  | None => end_op ;; mret (-1)
  | Some ip =>
      ilock ip ;;
      i <- ip_at ip ;;
      if i_type i =? T_DIR then iunlockput ip ;; end_op ;; mret (-1) else
      modify (upd_inode ip (λ i, set_i_nlink (s16 (i_nlink i + 1)) i)) ;;
      iupdate ip ;;
      iunlock ip ;;
      r <- nameiparent new ;;
      match r with
      | None => link_bad ip
      | Some (dp, name) =>
          ilock dp ;;
          d <- ip_at dp ;;
          i <- ip_at ip ;;
          ok <- (if negb (i_dev d =? i_dev i) then mret false else
                 r <- dirlink dp name (i_inum i) ;; mret (0 <=? r)) ;;
          if negb ok then iunlockput dp ;; link_bad ip else
          iunlockput dp ;;
          iput ip ;;
          end_op ;;
          mret 0
      end
  end.
Definition sys_link : KM Z :=
  old <- argstr 0 ;;
  match old with
  | None => mret (-1)
  | Some old =>
      new <- argstr 1 ;;
      match new with
      | None => mret (-1)
      | Some new => do_link old new
      end
  end.

Definition sys_unlink : KM Z :=
  path <- argstr 0 ;;
  match path with
  | None => mret (-1)
  | Some path =>
      begin_op ;;
      r <- nameiparent path ;;
      match r with
      | None => end_op ;; mret (-1)
      | Some (dp, name) => unlink_at dp name
      end
  end.

(** The inode [open] works on, locked; [None] when it has given up. *)
Definition open_inode (path : list Z) (omode : Z) : KM (option nat) :=
  if negb (Z.land omode O_CREATE =? 0) then
    ip <- create path T_FILE 0 0 ;;
    match ip with
    | None => end_op ;; mret None
    | Some ip => mret (Some ip)
    end
  else
    f <- namei path ;;
    match f with
    | None => end_op ;; mret None
    | Some ip =>
        ilock ip ;;
        i <- ip_at ip ;;
        if (i_type i =? T_DIR) && negb (omode =? O_RDONLY) then
          iunlockput ip ;;
          end_op ;;
          mret None
        else mret (Some ip)
    end.
Definition open_bad (ip : nat) : KM Z :=
  iunlockput ip ;;
  end_op ;;
  mret (-1).
Definition do_open (path : list Z) (omode : Z) : KM Z :=
  begin_op ;;
  ip <- open_inode path omode ;;
  match ip with
  | None => mret (-1)
  | Some ip =>
      f <- filealloc ;;
      match f with
      | None => open_bad ip
      | Some f =>
          fd <- fdalloc f ;;
          match fd with
          | None => fileclose f ;; open_bad ip
          | Some fd =>
              iunlock ip ;;
              end_op ;;
              file_mod f (set_f_type FD_INODE) ;;
              file_mod f (set_f_ip (Some ip)) ;;
              file_mod f (set_f_off 0) ;;
              file_mod f (set_f_readable (if Z.land omode O_WRONLY =? 0 then 1 else 0)) ;;
              file_mod f (set_f_writable
                (if negb (Z.land omode O_WRONLY =? 0) || negb (Z.land omode O_RDWR =? 0) then 1 else 0)) ;;
              mret (Z.of_nat fd)
          end
      end
  end.
Definition sys_open : KM Z :=
  path <- argstr 0 ;;
  match path with
  | None => mret (-1)
  | Some path =>
      omode <- argint 1 ;;
      match omode with
      | None => mret (-1)
      | Some omode => do_open path omode
      end
  end.

(** [create] with an argument that may be missing, inside a transaction. *)
Definition create_end (path : list Z) (type major minor : Z) : KM Z :=
  ip <- create path type major minor ;;
  match ip with
  | None => end_op ;; mret (-1)
  | Some ip => iunlockput ip ;; end_op ;; mret 0
  end.
Definition sys_mkdir : KM Z :=
  begin_op ;;
  path <- argstr 0 ;;
  match path with
  | None => end_op ;; mret (-1)
  | Some path => create_end path T_DIR 0 0
  end.
Definition sys_mknod : KM Z :=
  begin_op ;;
  path <- argstr 0 ;;
  match path with
  | None => end_op ;; mret (-1)
  | Some path =>
      major <- argint 1 ;;
      match major with
      | None => end_op ;; mret (-1)
      | Some major =>
          minor <- argint 2 ;;
          match minor with
          | None => end_op ;; mret (-1)
          | Some minor => create_end path T_DEV major minor
          end
      end
  end.

Definition do_chdir (path : list Z) : KM Z :=
  c <- curproc ;;
  f <- namei path ;;
  match f with
  | None => end_op ;; mret (-1)
  | Some ip =>
      ilock ip ;;
      i <- ip_at ip ;;
      if negb (i_type i =? T_DIR) then iunlockput ip ;; end_op ;; mret (-1) else
      iunlock ip ;;
      pr <- proc_at c ;;
      cwd <- deref "cwd" (p_cwd pr) ;;
      iput cwd ;;
      end_op ;;
      proc_mod c (set_p_cwd (Some ip)) ;;
      mret 0
  end.
Definition sys_chdir : KM Z :=
  begin_op ;;
  path <- argstr 0 ;;
  match path with
  | None => end_op ;; mret (-1)
  | Some path => do_chdir path
  end.

(** The loop of [sys_exec] over the vector at [uargv]. *)
Fixpoint exec_argv (fuel : nat) (i uargv : Z) : KM (option (list (list Z))) :=
  match fuel with
  | O => mret None
  | S fuel =>
      uarg <- fetchint (u32 (uargv + 4 * i)) ;;
      match uarg with
      | None => mret None
      | Some uarg =>
          if uarg =? 0 then mret (Some []) else
          s <- fetchstr (u32 uarg) ;;
          match s with
          | None => mret None
          | Some s =>
              rest <- exec_argv fuel (i + 1) uargv ;;
              mret (cons s <$> rest)
          end
      end
  end.
Definition sys_exec : KM Z :=
  path <- argstr 0 ;;
  match path with
  | None => mret (-1)
  | Some path =>
      uargv <- argint 1 ;;
      match uargv with
      | None => mret (-1)
      | Some uargv =>
          argv <- exec_argv MAXARG 0 (u32 uargv) ;;
          match argv with
          | None => mret (-1)
          | Some argv => exec path argv
          end
      end
  end.

Definition sys_pipe : KM Z :=
  fd <- argptr 0 8 ;;
  match fd with
  | None => mret (-1)
  | Some fd =>
      r <- pipealloc ;;
      match r with
      | None => mret (-1)
      | Some (rf, wf) =>
          fd0 <- fdalloc rf ;;
          match fd0 with
          | None => fileclose rf ;; fileclose wf ;; mret (-1)
          | Some fd0 =>
              fd1 <- fdalloc wf ;;
              match fd1 with
              | None =>
                  ofile_clear fd0 ;;
                  fileclose rf ;;
                  fileclose wf ;;
                  mret (-1)
              | Some fd1 =>
                  vstore32 fd (Z.of_nat fd0) ;;
                  vstore32 (u32 (fd + 4)) (Z.of_nat fd1) ;;
                  mret 0
              end
          end
      end
  end.
