(* ===== verification/Trap.v ===== *)
(** * Trap: dispatching system calls and interrupts (syscall.c, trap.c)

    [syscall] selects the call by number; [trap] handles a trap frame. What
    the devices deliver with an interrupt, and the values of the registers
    the handlers read, are the record [hw]. *)

From S2P Require Import Prelude CString Kernel Sched Sock Kalloc Fifo Paging Vmem Cons Kbd Sleeplock Bio Log Inode Console Fs Pipe File Link Swap Proc Exec Syscall Sysfile.

(** ** Definitions *)
Inductive sysno : Type :=
  | SYS_fork | SYS_exit | SYS_wait | SYS_pipe | SYS_read | SYS_kill | SYS_exec | SYS_fstat | SYS_chdir
  | SYS_dup | SYS_getpid | SYS_sbrk | SYS_sleep | SYS_uptime | SYS_open | SYS_write | SYS_mknod
  | SYS_unlink | SYS_link | SYS_mkdir | SYS_close | SYS_listen | SYS_connect | SYS_send | SYS_recv
  | SYS_disconnect | SYS_subangkar_shanto | SYS_getpages.
#[export] Instance sysno_eq_dec : EqDecision sysno.
Proof. solve_decision. Defined.

(** The numbers of syscall.h, from 1 on. *)
Definition sysnos : list sysno :=
  [SYS_fork; SYS_exit; SYS_wait; SYS_pipe; SYS_read; SYS_kill; SYS_exec; SYS_fstat; SYS_chdir;
   SYS_dup; SYS_getpid; SYS_sbrk; SYS_sleep; SYS_uptime; SYS_open; SYS_write; SYS_mknod;
   SYS_unlink; SYS_link; SYS_mkdir; SYS_close; SYS_listen; SYS_connect; SYS_send; SYS_recv;
   SYS_disconnect; SYS_subangkar_shanto; SYS_getpages].
Definition sysno_of (num : Z) : option sysno :=
  if (0 <? num) && (num <? 29) then sysnos !! Z.to_nat (num - 1) else None.

(** [forkret]'s address and the depth of the stack in [fork]. *)
Definition syscalls (forkret depth : Z) (s : sysno) : KM Z :=
  match s with
  | SYS_fork => sys_fork forkret depth
  | SYS_exit => sys_exit
  | SYS_wait => sys_wait
  | SYS_pipe => sys_pipe
  | SYS_read => sys_read
  | SYS_kill => sys_kill
  | SYS_exec => sys_exec
  | SYS_fstat => sys_fstat
  | SYS_chdir => sys_chdir
  | SYS_dup => sys_dup
  | SYS_getpid => sys_getpid
  | SYS_sbrk => sys_sbrk
  | SYS_sleep => sys_sleep
  | SYS_uptime => sys_uptime
  | SYS_open => sys_open
  | SYS_write => sys_write
  | SYS_mknod => sys_mknod
  | SYS_unlink => sys_unlink
  | SYS_link => sys_link
  | SYS_mkdir => sys_mkdir
  | SYS_close => sys_close
  | SYS_listen => sys_listen
  | SYS_connect => sys_connect
  | SYS_send => sys_send
  | SYS_recv => sys_recv
  | SYS_disconnect => sys_disconnect
  | SYS_subangkar_shanto => sys_subangkar_shanto
  | SYS_getpages => sys_getpages
  end.

Definition set_eax (c : nat) (v : Z) : KM unit :=
  proc_mod c (λ pr, set_p_tf (set_tf_eax (u32 v) (p_tf pr)) pr).
Definition syscall (forkret depth : Z) : KM unit :=
  c <- curproc ;;
  pr <- proc_at c ;;
  let num := s32 (tf_eax (p_tf pr)) in
  match sysno_of num with
  | Some s =>
      r <- syscalls forkret depth s ;;
      set_eax c r
  | None =>
      cprintf "%d %s: unknown sys call %d
" [AInt (p_pid pr); AStr (Some (p_name pr)); AInt num] ;;
      set_eax c (-1)
  end.

(** *** traps.h *)
Definition T_PGFLT : Z := 14.
Definition T_SYSCALL : Z := 64.
Definition T_IRQ0 : Z := 32.
Definition IRQ_TIMER : Z := 0.
Definition IRQ_KBD : Z := 1.
Definition IRQ_COM1 : Z := 4.
Definition IRQ_IDE : Z := 14.
Definition IRQ_SPURIOUS : Z := 31.

(** [cpuid()], [rcr2()], the bytes a device delivers, the return addresses on
    each kernel stack. *)
Record hw : Type := mk_hw {
  hw_cpuid : Z;
  hw_cr2 : Z;
  hw_bytes : list Z;
  hw_pcs : nat → list Z;
}.

(** [myproc() && myproc()->killed && (tf->cs&3) == DPL_USER] then [exit]. *)
Definition exit_if_killed (tf : trapframe) : KM unit :=
  p <- myproc ;;
  match p with
  | None => mret tt
  | Some p =>
      pr <- proc_at p ;;
      when (negb (p_killed pr =? 0) && (Z.land (tf_cs tf) 3 =? DPL_USER)) exit
  end.

Definition clock_tick : KM unit :=
  acquire LkTicks ;;
  modify (λ k, set_k_ticks (u32 (k_ticks k + 1)) k) ;;
  wakeup ChTicks ;;
  release LkTicks.

(** The [default] case: a kernel bug, or a process to kill. *)
Definition trap_unexpected (h : hw) (tf : trapframe) : KM unit :=
  p <- myproc ;;
  match p with
  | Some p =>
      if Z.land (tf_cs tf) 3 =? 0 then
        cprintf "unexpected trap %d from cpu %d eip %x (cr2=0x%x)
" [AInt (tf_trapno tf); AInt (hw_cpuid h); AInt (tf_eip tf); AInt (hw_cr2 h)] ;;
        panic "trap"
      else
        pr <- proc_at p ;;
        cprintf "pid %d %s: trap %d err %d on cpu %d eip 0x%x addr 0x%x--kill proc
" [AInt (p_pid pr); AStr (Some (p_name pr)); AInt (tf_trapno tf); AInt (tf_err tf);
   AInt (hw_cpuid h); AInt (tf_eip tf); AInt (hw_cr2 h)] ;;
        proc_mod p (set_p_killed 1)
  | None =>
      cprintf "unexpected trap %d from cpu %d eip %x (cr2=0x%x)
" [AInt (tf_trapno tf); AInt (hw_cpuid h); AInt (tf_eip tf); AInt (hw_cr2 h)] ;;
      panic "trap"
  end.

(** A page fault is handled when the page is in the swap file. *)
Definition soft_page_fault (h : hw) (tf : trapframe) : KM bool :=
  p <- myproc ;;
  s <- is_shell_or_init p ;;
  match p with
  | None => mret false
  | Some p =>
      if s || negb (Z.land (tf_cs tf) 3 =? 3) then mret false else
      i <- isPageInSwapFile p (hw_cr2 h) ;;
      if negb i then mret false else
      r <- swap_in p (hw_cr2 h) ;;
      mret (negb (r =? 0))
  end.

(** [ideintr] of memide.c does nothing. *)
Definition ideintr : KM unit := mret tt.

Definition trap_dispatch (h : hw) (tf : trapframe) : KM unit :=
  let no := tf_trapno tf in
  if no =? T_IRQ0 + IRQ_TIMER then when (hw_cpuid h =? 0) clock_tick
  else if no =? T_IRQ0 + IRQ_IDE then ideintr
  else if no =? T_IRQ0 + IRQ_IDE + 1 then mret tt
  else if no =? T_IRQ0 + IRQ_KBD then kbdintr (hw_pcs h) (hw_bytes h)
  else if no =? T_IRQ0 + IRQ_COM1 then uartintr (hw_pcs h) (hw_bytes h)
  else if (no =? T_IRQ0 + 7) || (no =? T_IRQ0 + IRQ_SPURIOUS) then
    cprintf "cpu%d: spurious interrupt at %x:%x
" [AInt (hw_cpuid h); AInt (tf_cs tf); AInt (tf_eip tf)]
  else if no =? T_PGFLT then
    s <- soft_page_fault h tf ;;
    if s then mret tt else trap_unexpected h tf
  else trap_unexpected h tf.

(** [trap] up to the switch of [yield]; [trap_yielded] follows it. *)
Definition trap_yielded (intena : bool) (tf : trapframe) : KM unit :=
  yield_leave intena ;;
  exit_if_killed tf.
Definition trap (forkret depth : Z) (h : hw) (tf : trapframe) : KM unit :=
  if tf_trapno tf =? T_SYSCALL then
    c <- curproc ;;
    pr <- proc_at c ;;
    when (negb (p_killed pr =? 0)) exit ;;
    proc_mod c (set_p_tf tf) ;;
    syscall forkret depth ;;
    pr <- proc_at c ;;
    when (negb (p_killed pr =? 0)) exit
  else
    trap_dispatch h tf ;;
    exit_if_killed tf ;;
    p <- myproc ;;
    match p with
    | None => mret tt
    | Some p =>
        pr <- proc_at p ;;
        when (bool_decide (p_state pr = RUNNING) && (tf_trapno tf =? T_IRQ0 + IRQ_TIMER)) (yield LYield)
    end ;;
    exit_if_killed tf.
